(* ===== verification/_CoqProject ===== *)
-Q . S2P
Prelude.v
OpcodeH.v
RiscvH.v
Immediates.v
Words.v
OpcodeMatch.v
OpcodeTableA.v
OpcodeTableB.v
OpcodeTableC.v
OpcodeTable.v
Validate.v
SubsetTables.v
Subset.v
SubsetOrder.v
SubsetSpec.v
SubsetParse.v
SubsetPrint.v
CsrTable.v
Disasm.v
DisasmSpec.v
LoadConst.v
Bytes.v
Howto.v
HowtoSpec.v
Fixups.v
FixupsSpec.v
Relax.v
RelaxSpec.v
Align.v
AlignSpec.v
Regs.v
RegsSpec.v
Expr.v
Ip.v
IpFrame.v
IpSpec.v
IpRoundTrip.v
Mapping.v
MappingSpec.v
Options.v
OptionsSpec.v
IpReloc.v
Emit.v
EmitSpec.v
AssembleSpec.v
VectorMacro.v
MappingCheck.v
DisMap.v
DisMapSpec.v
LinkReloc.v
LinkRelocSpec.v
LinkRelax.v
LinkRelaxSpec.v
LinkAlignSpec.v
LinkMerge.v
LinkMergeSpec.v
LinkAttrSpec.v
LinkRelocate.v
LinkFrame.v
LinkRelocateSpec.v
LinkPlt.v
LinkPltSpec.v
LinkScan.v
LinkSize.v
LinkSizeSpec.v
LinkScanSpec.v
Machine.v
Directives.v
DirectivesSpec.v
LebSpec.v
ObjectFile.v
ObjectFileSpec.v
