(* ===== verification/Prelude.v ===== *)
(** * Verification of the RISC-V assembler tool chain

    This library models the RISC-V part of the GNU assembler tool chain of this
    repository (all paths below are under src/binutils/) and proves the
    properties that make it correct.

    ** The program

    The assembler (gas/config/tc-riscv.c) first settles its _options_: the
    command line, .option and .attribute decide the register width, the ABI,
    the ELF flags and the ISA string, which bfd/elfxx-riscv.c parses into a
    _subset list_ that says which instructions exist.  At start-up it checks the
    _opcode table_ (opcodes/riscv-opc.c) and hashes it, and hashes the names of
    registers and CSRs.  A line goes through md_assemble: a _mapping symbol_
    marks the place as code, the _operand parser_ riscv_ip tries the entries of
    the mnemonic one after the other and inserts _immediates_ and register
    fields with the macros of include/opcode/riscv.h; a macro is expanded into
    further instructions (constants by load_const), and each instruction is
    appended to the current _frag_ with its _fixup_, the size of which comes
    from the relocation _howtos_ (bfd/elfxx-riscv.c).  Branches become relaxable
    frags (relaxed_branch_length, md_convert_frag_branch), code is padded at
    alignments, and in the end the fixups are applied to the bytes
    (md_apply_fix) and what is left of them becomes the relocations of the
    object file (tc_gen_reloc).  The _disassembler_ (opcodes/riscv-dis.c) goes
    the other way with the same table and the same subset list, guided by the
    mapping symbols.  The _linker_ backend (bfd/elfnn-riscv.c) merges the
    attributes and flags of the object files, scans their relocations, sizes the
    GOT, the PLT and the dynamic sections, shortens code (_relaxation_),
    relocates the sections and fills in the tables.

    ** The files

    - Prelude: machine integers with their wrap-around, C string functions,
      notations ([c_scope]), tactics, hint databases, shared lemmas.
    - OpcodeH: the MATCH_, MASK_ and CSR_ macros of include/opcode/riscv-opc.h.
    - RiscvH: include/opcode/riscv.h (instruction lengths, ENCODE_, EXTRACT_ and
      VALID_ macros, operand fields, struct riscv_opcode).  Immediates: a small
      language of bit shuffles with a verified evaluator, by which the
      properties of all 27 immediate formats are decided.  Words: lemmas on
      instruction words.
    - OpcodeMatch, OpcodeTableA, OpcodeTableB, OpcodeTableC, OpcodeTable: the
      match functions and every entry of riscv_opcodes and riscv_insn_types.
      Validate: validate_riscv_insn and init_opcode_hash.
    - SubsetTables, Subset: the extension tables and every function of
      bfd/elfxx-riscv.c on subset lists.  A list is its nodes in order together
      with the index [tail] points to; rps->error_handler appends to a log.  A
      character outside of the array riscv_ext_order ends a parser with a marker
      of the model in that log ([E_outside_order]), and the theorems exclude it.
      SubsetOrder, SubsetSpec, SubsetParse, SubsetPrint: the canonical order,
      the list as a finite map, the parser, the printer.
    - CsrTable: the DECLARE_CSR lists.  Disasm: the instruction printer of
      opcodes/riscv-dis.c, whose output is a list of text pieces, with its
      address tracking state.  DisasmSpec: its properties.
    - LoadConst: load_const and riscv_ext, with the instructions they emit run
      on a register file.
    - Bytes: numbers in byte buffers (gas/write.c, md_number_to_chars).
      Howto: the relocation howtos, their lookups and the ADD/SUB relocations
      on section contents; HowtoSpec: their properties.
      Fixups: md_apply_fix and what it calls, on the bytes of a frag, the
      table of PC-relative high parts and the chain of fixups.  FixupsSpec:
      what resolved fixups compute.
    - Relax: the relaxation state, relaxed_branch_length, riscv_relax_frag and
      md_convert_frag_branch.  RelaxSpec: a semantics of control transfers and
      the proof that relaxation preserves it.
    - Align: riscv_make_nops, riscv_frag_align_code and riscv_handle_align, with
      what cvt_frag_to_fill and write_contents of gas/write.c make of the frag.
      AlignSpec: the padding, read back as instructions.
    - Regs: the hash tables and lookups of register, CSR and opcode names, the
      CSR checks.  RegsSpec: their properties.
    - Expr: the operand expressions of riscv_ip (relocation operators, small
      and absolute expressions, vtype) over an expression parser that is a
      parameter.  Ip: riscv_ip, every operand letter, with the state of the
      instruction being assembled ([ip_state]) and an outcome that tells
      success, error, internal error and reading past the text apart.
      IpFrame: which bits an operand can write; IpSpec, IpRoundTrip, IpReloc:
      what is assembled, the way back from the disassembler, the relocations
      an instruction can carry.
    - Mapping: the mapping symbols of a section.  MappingSpec: assembling a
      section as a step machine, and the symbols as a classification of it.
      MappingCheck: riscv_check_mapping_symbols keeps that classification.
    - Options: the option state ([settings]) with the command line, .option,
      .attribute and the first instruction.  OptionsSpec: its invariant.
    - Emit: frags, fixups, append_insn, macro_build, the macros and
      md_assemble, in a state and error monad over [out_state]; the sizes of
      the obstack of the frags and its padding are parameters with the class
      [ObstackLaws].  EmitSpec: the invariant of the output and the effect of
      append_insn; AssembleSpec: macros and whole lines keep the invariant;
      VectorMacro: the vector comparisons that are macros.
    - Directives: .insn with a type or with values, .dtprelword, LEB128 numbers,
      code alignment for the linker, riscv_insert_uleb128_fixes,
      riscv_pre_output_hook, tc_gen_reloc, DWARF register numbers.
      DirectivesSpec: what they emit.
    - DisMap: the options of the disassembler, the search for mapping symbols
      with the static variables it keeps ([map_cache]), data dumps and
      print_insn_riscv.  DisMapSpec: a whole section.
    - Machine: riscv_scan and the search for a machine by its name.

    The linker:

    - LinkReloc: perform_relocation on the contents of a section, LEB128
      numbers, the table of PC-relative high and low parts.  LinkRelocSpec: the
      fields it writes and the values it refuses.
    - LinkRelax: riscv_relax_delete_bytes, the rewriting of calls, of absolute,
      PC-relative and thread-local addresses and of alignments, and
      _bfd_riscv_relax_section.  LinkRelaxSpec: deletion and calls;
      LinkAlignSpec: alignment.
    - LinkMerge: ISA strings, object attributes (with bfd/elf-attrs.c) and ELF
      flags.  LinkMergeSpec: the merged ISA string; LinkAttrSpec: attributes and
      flags.
    - LinkRelocate: riscv_elf_relocate_section with every relocation type, over
      [link_state].  LinkFrame: what each relocation leaves alone.
      LinkRelocateSpec: what the relocated instructions compute.
    - LinkPlt: the code of the PLT, riscv_elf_finish_dynamic_symbol and
      riscv_elf_finish_dynamic_sections.  LinkPltSpec: the PLT run on a small
      machine.
    - LinkScan: riscv_elf_check_relocs.  LinkSize: allocate_dynrelocs, the
      indirect functions of bfd/elf-ifunc.c, riscv_elf_adjust_dynamic_symbol and
      riscv_elf_size_dynamic_sections.  LinkSizeSpec, LinkScanSpec: the layout of
      the GOT and the PLT, and that every reference has its entry.
    - LebSpec: a LEB128 difference from the assembler to the linked program.
    - ObjectFile: core-file notes, the program header of the attributes section,
      the attribute bits of symbols, riscv_elf_copy_indirect_symbol.
      ObjectFileSpec: their properties.

    ** What the theorems show

    - Immediates ([valid_imm_iff_range], [imm_insert_extract]): every VALID_
      test accepts exactly the operands its format can hold; insertion and
      extraction are inverse.
    - Opcode table ([riscv_opcodes_well_formed], [init_opcode_hash_candidates],
      [find_opcode_is_linear_search], [find_opcode_operands_understood]): the
      shipped tables pass the start-up checks (the match value of unimp is
      sign-extended beyond its 32 bits, as in C), the mnemonic hash offers exactly
      the overloads of a mnemonic, the hashed search of the disassembler is the
      linear search, and it understands the operands of whatever it finds.
    - Subset lists (the theorems of SubsetSpec, SubsetOrder, SubsetParse and
      SubsetPrint): under the list invariant the operations refine a finite map,
      the order is total, the implied extensions are the least closure, parsing
      and .option arch keep the invariant and end closed and free of conflicts,
      the loops terminate, printing and parsing round-trip, and the print buffer
      is large enough for versions that have not wrapped around.
    - Options ([options_consistent], [push_pop_restores]): the
      subset list, its printed string and the ELF flag agree at all times, the
      string for an xlen that has been in force; .option pop undoes what came
      after the push, but for xlen.
    - Operands ([riscv_ip_encodes], [assembled_word_is_recognised],
      [disassembled_operands_reassemble], [riscv_ip_never_fatal],
      [csr_names_round_trip], [csr_read_only_check_exact]): what is assembled is
      an instruction of its entry and is recognised by the disassembler, the
      operands the disassembler prints assemble to the same word, no internal
      error is reached.
    - Emission ([md_assemble_safe], [append_insn_emits],
      [vector_macro_computes], [load_const_correct]): any lines leave frags and
      fixups well formed, an instruction is appended with its fixup on it, the
      macros compute what they stand for.  [mapping_symbols_classify]: the
      mapping symbols tell code from data, and the architecture.
    - Directives ([insn_value_assembled], [leb128_constant_emitted],
      [align_code_emitted], [dtprel_emitted], [dw2regnum_injective]): a value of
      .insn, of any size, is assembled exactly if it has the length it announces;
      constants read back; the padding left to the linker is the worst case.
    - Disassembling a section ([assembled_section_disassembles],
      [disassembly_covers_section], [scan_selects_width]): with the mapping
      symbols of the assembler, code is disassembled as code and data dumped as
      data, to the end of the section or to an instruction that goes beyond it.
    - Relocations and relaxation ([md_convert_frag_branch_flow],
      [riscv_relax_frag_minimal], [pcrel_fixups_reach_target],
      [hi20_lo12_fixups_sum], [add_sub_relocs_difference],
      [riscv_reloc_lookups_agree]): relaxed branches go where the original ones
      go and are as short as they can be, pairs of fixups compute the value or
      reach the target.
    - Alignment (AlignSpec): the padding of code consists of whole nops and is
      the same however it is produced; for the linker it is the worst case.
    - Linker relocations ([section_fills_immediates], [section_pcrel_pair],
      [section_gp_access], [uleb128_relocation_roundtrip],
      [uleb128_difference_linked]): in a link without messages the instructions
      of a section compute what their relocations ask for, and a LEB128
      difference of the source is the difference of the final addresses.
    - Linker relaxation ([delete_relocs_exact], [relaxed_call_reaches_target],
      [alignment_survives_relaxation]): deleting bytes piece by piece is deleting
      them at once, and relocations and symbols follow; shortened calls reach
      their targets, those relative to x0 if the target stays near zero;
      alignments are met at the final addresses.
    - Merging ([merged_arch_is_union], [attributes_merged_by_tag],
      [link_flags_order_independent]): the merged ISA string has the extensions
      of both files at the newer versions, but for k; attributes by tag; the
      flags do not depend on the order of the files.
    - Dynamic linking ([got_layout_exact], [plt_layout_exact],
      [got_references_have_entries], [plt_calls]): the entries of the GOT and
      the PLT tile their sections, every reference the scan finds to a symbol
      that is no indirect function of the link has its entry, and a call
      through the PLT reaches the function or the resolver.
    - Object files ([core_notes_round_trip], [attributes_segment_added],
      [variant_cc_merged], [indirect_symbol_moved]): notes are read back as they
      were written, the attributes have one segment, the calling convention of a
      symbol is kept, an alias hands over its references.
    - Deviations of the code: [pcrel_lo12_s_fixup_corrupts_store],
      [literal_operand_overruns], [pop_keeps_xlen], [first_arch_symbol_lost],
      [vmsge_temp_is_destination], [riscv_multi_subset_supports_ext_null],
      [print_th_vtype_null], [unknown_zero_word_has_no_digits],
      [stale_boundary_hides_symbol], [uleb128_high_half_unchecked],
      [arch_merge_faults], [unknown_attribute_crashes], [local_tls_entry],
      [local_absolute_pcrel_crashes], [float_insn_overruns],
      [sleb128_difference_aborts], [later_subsections_unresolved],
      [arch_str_overruns_buffer], [digit_reads_outside],
      [merge_conflict_and_leftover], [option_arch_accepts_uppercase].

    ** Bounds

    load_const recurses at most three times, so four levels of fuel are enough
    for every constant; the shift search needs at most 64 steps; the parser
    loops consume a character per iteration and run on the length of the string,
    as does the operand loop on the operand string of its entry; the implication
    scan restarts at most once per table entry; numbers printed in decimal have
    at most ten digits ([decimal]).  The loop of frag_grow uses up room or ends,
    so the room is its fuel.  A macro expands into instructions that are no
    macros, so one level of md_assemble within md_assemble is enough.  A LEB128
    number of 64 bits has ten bytes; the one whose length the linker counts is
    an unsigned int and has five.  All of this is proved: no theorem rests on
    the fuel.

    ** Parameters

    Code outside of the RISC-V port is an argument of the definitions that call
    it: the expression parser of gas with the littlenums it leaves
    ([expression], [generic_bignum]), strtof, the sizes of the obstack
    ([ObstackLaws]), the symbols of an object file and the entries of the
    linker's hash tables ([symbols]), merged sections and section offsets, the
    addresses of output sections.  Theorems hold for all of them, or state what
    they need.

    ** What is not modelled

    Of the assembler: line-number information, the absolute section,
    .variant_cc and riscv_elf_copy_symbol_attributes (a bit in the symbol table
    of gas), the frags of LEB128 numbers while gas relaxes them, LEB128 numbers
    of more than 64 bits, usage texts.  Of the linker: relocatable output (-r),
    creating the dynamic sections and hash tables, and the canonical PLT symbols
    of gdb.  The texts of messages are constructors with
    the values they print.  The target-independent parts of gas, BFD and ld,
    other targets, gdb, sim and vendored code are left out: the port only calls
    them. *)

From Stdlib Require Import ZArith Lia Bool Ascii.
From stdpp Require Import base decidable list strings gmap numbers.

#[global] Open Scope Z_scope.
#[global] Open Scope bool_scope.

(** ** Machine integers

    A C integer is a [Z]; the conversions below write out the wrap-around of
    the unsigned types and the two's complement reading of the signed ones. *)

Definition u8 (x : Z) : Z := x mod 2 ^ 8.
Definition u16 (x : Z) : Z := x mod 2 ^ 16.
Definition u32 (x : Z) : Z := x mod 2 ^ 32.
Definition u64 (x : Z) : Z := x mod 2 ^ 64.
Definition swrap (w x : Z) : Z := (x + 2 ^ (w - 1)) mod 2 ^ w - 2 ^ (w - 1).
Definition s32 (x : Z) : Z := swrap 32 x.
Definition s64 (x : Z) : Z := swrap 64 x.

Declare Scope c_scope.
Delimit Scope c_scope with c.
Notation "a '<<u' k" := (u64 (Z.shiftl a k)) (at level 40, left associativity) : c_scope.
Notation "'-u' a" := (u64 (- a)) (at level 35, right associativity) : c_scope.
Notation "a '.|' b" := (Z.lor a b) (at level 50, left associativity) : c_scope.
Notation "a '.&' b" := (Z.land a b) (at level 40, left associativity) : c_scope.
Notation "a '.^' b" := (Z.lxor a b) (at level 50, left associativity) : c_scope.
Notation "a '<<' k" := (Z.shiftl a k) (at level 40, left associativity) : c_scope.
Notation "a '>>' k" := (Z.shiftr a k) (at level 40, left associativity) : c_scope.

(** ** Tactics *)

(** Split every boolean connective of the context and reflect the integer
    comparisons into [Prop]. *)
Ltac breflect :=
  repeat match goal with
  | H : _ && _ = true |- _ => apply andb_true_iff in H; destruct H
  | H : _ && _ = false |- _ => apply andb_false_iff in H
  | H : _ || _ = false |- _ => apply orb_false_iff in H; destruct H
  | H : _ || _ = true |- _ => apply orb_true_iff in H
  | H : negb _ = true |- _ => apply negb_true_iff in H
  | H : negb _ = false |- _ => apply negb_false_iff in H
  | H : (_ =? _) = true |- _ => apply Z.eqb_eq in H
  | H : (_ =? _) = false |- _ => apply Z.eqb_neq in H
  | H : (_ <? _) = true |- _ => apply Z.ltb_lt in H
  | H : (_ <? _) = false |- _ => apply Z.ltb_ge in H
  | H : (_ <=? _) = true |- _ => apply Z.leb_le in H
  | H : (_ <=? _) = false |- _ => apply Z.leb_gt in H
  end.

(** Case split on the scrutinee of the first [if]/[match] of the goal. *)
Ltac split_match :=
  match goal with
  | |- context [match ?x with _ => _ end] => destruct x eqn:?
  end.

Ltac split_match_in H :=
  match type of H with
  | context [match ?x with _ => _ end] => destruct x eqn:?
  end.

(** The steps of a computation that returned a value. *)
Ltac bind_inv :=
  repeat match goal with
         | H : mbind _ _ = Some _ |- _ =>
             let x := fresh "x" in let E := fresh "E" in apply bind_Some in H as (x & E & H)
         | H : context [let '(_, _) := ?x in _] |- _ => is_var x; destruct x
         | H : Some _ = Some _ |- _ => apply (inj Some) in H
         end.

(** Membership in a list given by its elements, without unfolding them. *)
Ltac in_list :=
  cbn [In];
  repeat match goal with
  | |- ?a = ?b \/ _ => first [constr_eq a b; left; reflexivity | right]
  end.

(** ** Bit vectors *)

Create HintDb bits discriminated.
Create Rewrite HintDb bits.

Lemma testbit_high (x w i : Z) : 0 <= x < 2 ^ w -> w <= i -> Z.testbit x i = false.
Proof.
  intros [H0 H1] Hi.
  destruct (Z.eq_dec x 0) as [->|Hx]; [apply Z.testbit_0_l|].
  apply Z.bits_above_log2; [lia|].
  apply Z.log2_lt_pow2; [lia|].
  apply (Z.lt_le_trans _ (2 ^ w)); [lia|].
  apply Z.pow_le_mono_r; lia.
Qed.

Lemma bits_range (x w : Z) :
  0 <= w -> 0 <= x -> (forall i, w <= i -> Z.testbit x i = false) -> x < 2 ^ w.
Proof.
  intros Hw Hx Hb.
  destruct (Z.eq_dec x 0) as [->|Hn]; [apply Z.pow_pos_nonneg; lia|].
  apply Z.log2_lt_pow2; [lia|].
  destruct (Z.lt_ge_cases (Z.log2 x) w) as [|Hge]; [done|].
  specialize (Hb _ Hge). rewrite Z.bit_log2 in Hb by lia. done.
Qed.

Lemma u64_testbit (x i : Z) :
  0 <= i -> Z.testbit (u64 x) i = (i <? 64) && Z.testbit x i.
Proof.
  intros Hi. unfold u64. destruct (Z.ltb_spec i 64); simpl.
  - rewrite Z.mod_pow2_bits_low; [done|lia].
  - rewrite Z.mod_pow2_bits_high; [done|lia].
Qed.

Lemma u64_range (x : Z) : 0 <= u64 x < 2 ^ 64.
Proof. apply Z.mod_pos_bound. reflexivity. Qed.

Lemma u64_small (x : Z) : 0 <= x < 2 ^ 64 -> u64 x = x.
Proof. apply Z.mod_small. Qed.

Lemma u32_range (x : Z) : 0 <= u32 x < 2 ^ 32.
Proof. apply Z.mod_pos_bound. reflexivity. Qed.

Lemma u64_ext (x y : Z) :
  0 <= x < 2 ^ 64 -> 0 <= y < 2 ^ 64 ->
  (forall i, 0 <= i < 64 -> Z.testbit x i = Z.testbit y i) -> x = y.
Proof.
  intros Hx Hy Hb. apply Z.bits_inj'. intros i Hi.
  destruct (Z.lt_ge_cases i 64); [apply Hb; lia|].
  rewrite !(testbit_high _ 64) by lia. done.
Qed.

Lemma swrap_range (w x : Z) : 0 < w -> - 2 ^ (w - 1) <= swrap w x < 2 ^ (w - 1).
Proof.
  intros Hw. unfold swrap.
  assert (E : 2 ^ w = 2 * 2 ^ (w - 1)) by (rewrite <- Z.pow_succ_r by lia; f_equal; lia).
  pose proof (Z.mod_pos_bound (x + 2 ^ (w - 1)) (2 ^ w) ltac:(lia)). lia.
Qed.

Lemma swrap_small (w x : Z) : 0 < w -> - 2 ^ (w - 1) <= x < 2 ^ (w - 1) -> swrap w x = x.
Proof.
  intros Hw Hx. unfold swrap.
  assert (E : 2 ^ w = 2 * 2 ^ (w - 1)) by (rewrite <- Z.pow_succ_r by lia; f_equal; lia).
  rewrite Z.mod_small; lia.
Qed.

Lemma swrap_mod (w x : Z) : 0 < w -> swrap w x mod 2 ^ w = x mod 2 ^ w.
Proof.
  intros Hw. unfold swrap.
  rewrite Zminus_mod_idemp_l. f_equal. lia.
Qed.

Lemma swrap_idem_mod (w x : Z) : 0 < w -> swrap w (x mod 2 ^ w) = swrap w x.
Proof. intros Hw. unfold swrap. rewrite Zplus_mod_idemp_l. done. Qed.

Lemma land_ones_low (x w : Z) : 0 <= w -> Z.land x (Z.ones w) = x mod 2 ^ w.
Proof. intros. apply Z.land_ones. lia. Qed.

Lemma land_le_r (x m : Z) : 0 <= m -> Z.land x m <= m.
Proof.
  intros Hm. assert (H : m - Z.land x m = Z.ldiff m (Z.land x m)).
  { apply Z.sub_nocarry_ldiff. apply Z.bits_inj'. intros i Hi.
    rewrite Z.ldiff_spec, Z.land_spec, Z.bits_0. by destruct (Z.testbit x i), (Z.testbit m i). }
  assert (0 <= Z.ldiff m (Z.land x m)) by (apply Z.ldiff_nonneg; by left). lia.
Qed.

#[export] Hint Rewrite Z.lor_spec Z.land_spec Z.lxor_spec : bits.
#[export] Hint Resolve u64_range u32_range : bits.

(** ** Lists and strings *)

(** The characters of a string, in order. *)
Fixpoint chars (s : string) : list ascii :=
  match s with
  | EmptyString => []
  | String c s' => c :: chars s'
  end.

(** The string of a list of characters: the inverse of [chars]. *)
Fixpoint unchars (l : list ascii) : string :=
  match l with
  | [] => EmptyString
  | c :: l' => String c (unchars l')
  end.

Lemma unchars_chars (s : string) : unchars (chars s) = s.
Proof. induction s; simpl; congruence. Qed.

Lemma length_chars (s : string) : length (chars s) = String.length s.
Proof. induction s; simpl; congruence. Qed.

Lemma chars_unchars (l : list ascii) : chars (unchars l) = l.
Proof. induction l; simpl; congruence. Qed.

(** [Forall] on a concrete list, decided by evaluation. *)
Lemma forallb_Forall {A} (f : A -> bool) (P : A -> Prop) (l : list A) :
  (forall x, f x = true -> P x) -> forallb f l = true -> Forall P l.
Proof.
  intros Hf. induction l as [|a l IH]; simpl; intros H; constructor;
    apply andb_true_iff in H; destruct H; auto.
Qed.

(** The value of a computation that may fail, with a default. *)
Definition success_or {A B} (d : B) (x : A + B) : B :=
  match x with inr b => b | inl _ => d end.

Definition is_success {A B} (x : A + B) : bool :=
  match x with inl _ => false | inr _ => true end.

Lemma success_or_inr {A B} (d : B) (x : A + B) :
  is_success x = true -> x = inr (success_or d x).
Proof. by destruct x. Qed.

(** ** C string functions *)

Definition is_digit (c : ascii) : bool :=
  let n := Z.of_nat (nat_of_ascii c) in (48 <=? n) && (n <=? 57).

(** [ISSPACE]: space, \t, \n, \v, \f and \r. *)
Definition is_space (c : ascii) : bool :=
  let n := Z.of_nat (nat_of_ascii c) in (n =? 32) || ((9 <=? n) && (n <=? 13)).

Fixpoint digits (acc : Z) (p : list ascii) : Z * list ascii :=
  match p with
  | c :: p' => if is_digit c then digits (10 * acc + (Z.of_nat (nat_of_ascii c) - 48)) p'
               else (acc, p)
  | [] => (acc, p)
  end.

Fixpoint skip_space (p : list ascii) : list ascii :=
  match p with
  | c :: p' => if is_space c then skip_space p' else p
  | [] => []
  end.

(** [strtol (p, &end, 10)]: the number and the end pointer; without digits
    the end pointer is [p]. *)
Definition strtol10 (p : list ascii) : Z * list ascii :=
  let q := skip_space p in
  let '(neg, q) := match q with
                   | "-"%char :: q' => (true, q')
                   | "+"%char :: q' => (false, q')
                   | _ => (false, q)
                   end in
  match q with
  | c :: _ => if is_digit c
              then let '(n, e) := digits 0 q in ((if neg then - n else n), e)
              else (0, p)
  | [] => (0, p)
  end.

(** The rest of [p] from the first occurrence of [c], or its end. *)
Fixpoint find_char (c : ascii) (p : list ascii) : list ascii :=
  match p with
  | d :: p' => if Ascii.eqb c d then p else find_char c p'
  | [] => []
  end.

(** [startswith (p, prefix)] and [strncmp (p, prefix, strlen (prefix)) == 0]:
    the rest of [p] after [prefix]. *)
Fixpoint strip_prefix (prefix p : list ascii) : option (list ascii) :=
  match prefix, p with
  | [], _ => Some p
  | c :: prefix', d :: p' => if Ascii.eqb c d then strip_prefix prefix' p' else None
  | _ :: _, [] => None
  end.

Definition is_upper (c : ascii) : bool :=
  let n := Z.of_nat (nat_of_ascii c) in (65 <=? n) && (n <=? 90).

(** [tolower], in the C locale, as a character code. *)
Definition tolower (c : ascii) : Z :=
  let n := Z.of_nat (nat_of_ascii c) in if is_upper c then n + 32 else n.

(** [strcasecmp]: the difference of the first characters that differ; the end
    of a string counts as the character 0. *)
Fixpoint strcasecmp (a b : list ascii) : Z :=
  match a, b with
  | [], [] => 0
  | [], d :: _ => - tolower d
  | c :: _, [] => tolower c
  | c :: a', d :: b' =>
      if tolower c =? tolower d then strcasecmp a' b' else tolower c - tolower d
  end.

(** The characters before the first one of [cs], and the rest from there. *)
Fixpoint span_until (cs p : list ascii) : list ascii * list ascii :=
  match p with
  | [] => ([], [])
  | c :: p' =>
      if existsb (Ascii.eqb c) cs then ([], p)
      else let '(a, b) := span_until cs p' in (c :: a, b)
  end.

(** The decimal digits of a non-negative 32-bit number (ten digits at most). *)
Definition digit_char (d : Z) : ascii := ascii_of_nat (Z.to_nat (48 + d)).

Fixpoint decimal (fuel : nat) (n : Z) : list ascii :=
  match fuel with
  | O => []
  | S fuel' => if n <? 10 then [digit_char n]
               else decimal fuel' (n / 10) ++ [digit_char (n mod 10)]
  end.

(** The [printf] conversions [%u] and [%d] of an [int]. *)
Definition fmt_u (n : Z) : list ascii := decimal 10 (u32 n).
Definition fmt_d (n : Z) : list ascii :=
  if n <? 0 then "-"%char :: decimal 10 (- n) else decimal 10 n.
