(* ===== verification/OpcodeH.v ===== *)
(** * Instruction, mask and CSR constants (include/opcode/riscv-opc.h)

    One abbreviation per [#define MATCH_*], [#define MASK_*] and [#define CSR_*]
    of the header, in its order: like the C macros they stand for their
    numeral and leave no trace in the definitions that use them. *)
From Stdlib Require Import ZArith.

Abbreviation MATCH_SLLI_RV32 := 0x1013%Z (only parsing).
Abbreviation MASK_SLLI_RV32 := 0xfe00707f%Z (only parsing).
Abbreviation MATCH_SRLI_RV32 := 0x5013%Z (only parsing).
Abbreviation MASK_SRLI_RV32 := 0xfe00707f%Z (only parsing).
Abbreviation MATCH_SRAI_RV32 := 0x40005013%Z (only parsing).
Abbreviation MASK_SRAI_RV32 := 0xfe00707f%Z (only parsing).
Abbreviation MATCH_FRFLAGS := 0x102073%Z (only parsing).
Abbreviation MASK_FRFLAGS := 0xfffff07f%Z (only parsing).
Abbreviation MATCH_FSFLAGS := 0x101073%Z (only parsing).
Abbreviation MASK_FSFLAGS := 0xfff0707f%Z (only parsing).
Abbreviation MATCH_FSFLAGSI := 0x105073%Z (only parsing).
Abbreviation MASK_FSFLAGSI := 0xfff0707f%Z (only parsing).
Abbreviation MATCH_FRRM := 0x202073%Z (only parsing).
Abbreviation MASK_FRRM := 0xfffff07f%Z (only parsing).
Abbreviation MATCH_FSRM := 0x201073%Z (only parsing).
Abbreviation MASK_FSRM := 0xfff0707f%Z (only parsing).
Abbreviation MATCH_FSRMI := 0x205073%Z (only parsing).
Abbreviation MASK_FSRMI := 0xfff0707f%Z (only parsing).
Abbreviation MATCH_FSCSR := 0x301073%Z (only parsing).
Abbreviation MASK_FSCSR := 0xfff0707f%Z (only parsing).
Abbreviation MATCH_FRCSR := 0x302073%Z (only parsing).
Abbreviation MASK_FRCSR := 0xfffff07f%Z (only parsing).
Abbreviation MATCH_RDCYCLE := 0xc0002073%Z (only parsing).
Abbreviation MASK_RDCYCLE := 0xfffff07f%Z (only parsing).
Abbreviation MATCH_RDTIME := 0xc0102073%Z (only parsing).
Abbreviation MASK_RDTIME := 0xfffff07f%Z (only parsing).
Abbreviation MATCH_RDINSTRET := 0xc0202073%Z (only parsing).
Abbreviation MASK_RDINSTRET := 0xfffff07f%Z (only parsing).
Abbreviation MATCH_RDCYCLEH := 0xc8002073%Z (only parsing).
Abbreviation MASK_RDCYCLEH := 0xfffff07f%Z (only parsing).
Abbreviation MATCH_RDTIMEH := 0xc8102073%Z (only parsing).
Abbreviation MASK_RDTIMEH := 0xfffff07f%Z (only parsing).
Abbreviation MATCH_RDINSTRETH := 0xc8202073%Z (only parsing).
Abbreviation MASK_RDINSTRETH := 0xfffff07f%Z (only parsing).
Abbreviation MATCH_SCALL := 0x73%Z (only parsing).
Abbreviation MASK_SCALL := 0xffffffff%Z (only parsing).
Abbreviation MATCH_SBREAK := 0x100073%Z (only parsing).
Abbreviation MASK_SBREAK := 0xffffffff%Z (only parsing).
Abbreviation MATCH_BEQ := 0x63%Z (only parsing).
Abbreviation MASK_BEQ := 0x707f%Z (only parsing).
Abbreviation MATCH_BNE := 0x1063%Z (only parsing).
Abbreviation MASK_BNE := 0x707f%Z (only parsing).
Abbreviation MATCH_BLT := 0x4063%Z (only parsing).
Abbreviation MASK_BLT := 0x707f%Z (only parsing).
Abbreviation MATCH_BGE := 0x5063%Z (only parsing).
Abbreviation MASK_BGE := 0x707f%Z (only parsing).
Abbreviation MATCH_BLTU := 0x6063%Z (only parsing).
Abbreviation MASK_BLTU := 0x707f%Z (only parsing).
Abbreviation MATCH_BGEU := 0x7063%Z (only parsing).
Abbreviation MASK_BGEU := 0x707f%Z (only parsing).
Abbreviation MATCH_JALR := 0x67%Z (only parsing).
Abbreviation MASK_JALR := 0x707f%Z (only parsing).
Abbreviation MATCH_JAL := 0x6f%Z (only parsing).
Abbreviation MASK_JAL := 0x7f%Z (only parsing).
Abbreviation MATCH_LUI := 0x37%Z (only parsing).
Abbreviation MASK_LUI := 0x7f%Z (only parsing).
Abbreviation MATCH_AUIPC := 0x17%Z (only parsing).
Abbreviation MASK_AUIPC := 0x7f%Z (only parsing).
Abbreviation MATCH_ADDI := 0x13%Z (only parsing).
Abbreviation MASK_ADDI := 0x707f%Z (only parsing).
Abbreviation MATCH_SLLI := 0x1013%Z (only parsing).
Abbreviation MASK_SLLI := 0xfc00707f%Z (only parsing).
Abbreviation MATCH_SLTI := 0x2013%Z (only parsing).
Abbreviation MASK_SLTI := 0x707f%Z (only parsing).
Abbreviation MATCH_SLTIU := 0x3013%Z (only parsing).
Abbreviation MASK_SLTIU := 0x707f%Z (only parsing).
Abbreviation MATCH_XORI := 0x4013%Z (only parsing).
Abbreviation MASK_XORI := 0x707f%Z (only parsing).
Abbreviation MATCH_SRLI := 0x5013%Z (only parsing).
Abbreviation MASK_SRLI := 0xfc00707f%Z (only parsing).
Abbreviation MATCH_SRAI := 0x40005013%Z (only parsing).
Abbreviation MASK_SRAI := 0xfc00707f%Z (only parsing).
Abbreviation MATCH_ORI := 0x6013%Z (only parsing).
Abbreviation MASK_ORI := 0x707f%Z (only parsing).
Abbreviation MATCH_ANDI := 0x7013%Z (only parsing).
Abbreviation MASK_ANDI := 0x707f%Z (only parsing).
Abbreviation MATCH_ADD := 0x33%Z (only parsing).
Abbreviation MASK_ADD := 0xfe00707f%Z (only parsing).
Abbreviation MATCH_SUB := 0x40000033%Z (only parsing).
Abbreviation MASK_SUB := 0xfe00707f%Z (only parsing).
Abbreviation MATCH_SLL := 0x1033%Z (only parsing).
Abbreviation MASK_SLL := 0xfe00707f%Z (only parsing).
Abbreviation MATCH_SLT := 0x2033%Z (only parsing).
Abbreviation MASK_SLT := 0xfe00707f%Z (only parsing).
Abbreviation MATCH_SLTU := 0x3033%Z (only parsing).
Abbreviation MASK_SLTU := 0xfe00707f%Z (only parsing).
Abbreviation MATCH_XOR := 0x4033%Z (only parsing).
Abbreviation MASK_XOR := 0xfe00707f%Z (only parsing).
Abbreviation MATCH_SRL := 0x5033%Z (only parsing).
Abbreviation MASK_SRL := 0xfe00707f%Z (only parsing).
Abbreviation MATCH_SRA := 0x40005033%Z (only parsing).
Abbreviation MASK_SRA := 0xfe00707f%Z (only parsing).
Abbreviation MATCH_OR := 0x6033%Z (only parsing).
Abbreviation MASK_OR := 0xfe00707f%Z (only parsing).
Abbreviation MATCH_AND := 0x7033%Z (only parsing).
Abbreviation MASK_AND := 0xfe00707f%Z (only parsing).
Abbreviation MATCH_ADDIW := 0x1b%Z (only parsing).
Abbreviation MASK_ADDIW := 0x707f%Z (only parsing).
Abbreviation MATCH_SLLIW := 0x101b%Z (only parsing).
Abbreviation MASK_SLLIW := 0xfe00707f%Z (only parsing).
Abbreviation MATCH_SRLIW := 0x501b%Z (only parsing).
Abbreviation MASK_SRLIW := 0xfe00707f%Z (only parsing).
Abbreviation MATCH_SRAIW := 0x4000501b%Z (only parsing).
Abbreviation MASK_SRAIW := 0xfe00707f%Z (only parsing).
Abbreviation MATCH_ADDW := 0x3b%Z (only parsing).
Abbreviation MASK_ADDW := 0xfe00707f%Z (only parsing).
Abbreviation MATCH_SUBW := 0x4000003b%Z (only parsing).
Abbreviation MASK_SUBW := 0xfe00707f%Z (only parsing).
Abbreviation MATCH_SLLW := 0x103b%Z (only parsing).
Abbreviation MASK_SLLW := 0xfe00707f%Z (only parsing).
Abbreviation MATCH_SRLW := 0x503b%Z (only parsing).
Abbreviation MASK_SRLW := 0xfe00707f%Z (only parsing).
Abbreviation MATCH_SRAW := 0x4000503b%Z (only parsing).
Abbreviation MASK_SRAW := 0xfe00707f%Z (only parsing).
Abbreviation MATCH_LB := 0x3%Z (only parsing).
Abbreviation MASK_LB := 0x707f%Z (only parsing).
Abbreviation MATCH_LH := 0x1003%Z (only parsing).
Abbreviation MASK_LH := 0x707f%Z (only parsing).
Abbreviation MATCH_LW := 0x2003%Z (only parsing).
Abbreviation MASK_LW := 0x707f%Z (only parsing).
Abbreviation MATCH_LD := 0x3003%Z (only parsing).
Abbreviation MASK_LD := 0x707f%Z (only parsing).
Abbreviation MATCH_LBU := 0x4003%Z (only parsing).
Abbreviation MASK_LBU := 0x707f%Z (only parsing).
Abbreviation MATCH_LHU := 0x5003%Z (only parsing).
Abbreviation MASK_LHU := 0x707f%Z (only parsing).
Abbreviation MATCH_LWU := 0x6003%Z (only parsing).
Abbreviation MASK_LWU := 0x707f%Z (only parsing).
Abbreviation MATCH_MYADD := 0xb%Z (only parsing).
Abbreviation MASK_MYADD := 0xfff0707f%Z (only parsing).
Abbreviation MATCH_SB := 0x23%Z (only parsing).
Abbreviation MASK_SB := 0x707f%Z (only parsing).
Abbreviation MATCH_SH := 0x1023%Z (only parsing).
Abbreviation MASK_SH := 0x707f%Z (only parsing).
Abbreviation MATCH_SW := 0x2023%Z (only parsing).
Abbreviation MASK_SW := 0x707f%Z (only parsing).
Abbreviation MATCH_SD := 0x3023%Z (only parsing).
Abbreviation MASK_SD := 0x707f%Z (only parsing).
Abbreviation MATCH_PAUSE := 0x0100000f%Z (only parsing).
Abbreviation MASK_PAUSE := 0xffffffff%Z (only parsing).
Abbreviation MATCH_FENCE := 0xf%Z (only parsing).
Abbreviation MASK_FENCE := 0x707f%Z (only parsing).
Abbreviation MATCH_FENCE_I := 0x100f%Z (only parsing).
Abbreviation MASK_FENCE_I := 0x707f%Z (only parsing).
Abbreviation MATCH_FENCE_TSO := 0x8330000f%Z (only parsing).
Abbreviation MASK_FENCE_TSO := 0xfff0707f%Z (only parsing).
Abbreviation MATCH_MUL := 0x2000033%Z (only parsing).
Abbreviation MASK_MUL := 0xfe00707f%Z (only parsing).
Abbreviation MATCH_MULH := 0x2001033%Z (only parsing).
Abbreviation MASK_MULH := 0xfe00707f%Z (only parsing).
Abbreviation MATCH_MULHSU := 0x2002033%Z (only parsing).
Abbreviation MASK_MULHSU := 0xfe00707f%Z (only parsing).
Abbreviation MATCH_MULHU := 0x2003033%Z (only parsing).
Abbreviation MASK_MULHU := 0xfe00707f%Z (only parsing).
Abbreviation MATCH_DIV := 0x2004033%Z (only parsing).
Abbreviation MASK_DIV := 0xfe00707f%Z (only parsing).
Abbreviation MATCH_DIVU := 0x2005033%Z (only parsing).
Abbreviation MASK_DIVU := 0xfe00707f%Z (only parsing).
Abbreviation MATCH_REM := 0x2006033%Z (only parsing).
Abbreviation MASK_REM := 0xfe00707f%Z (only parsing).
Abbreviation MATCH_REMU := 0x2007033%Z (only parsing).
Abbreviation MASK_REMU := 0xfe00707f%Z (only parsing).
Abbreviation MATCH_MULW := 0x200003b%Z (only parsing).
Abbreviation MASK_MULW := 0xfe00707f%Z (only parsing).
Abbreviation MATCH_DIVW := 0x200403b%Z (only parsing).
Abbreviation MASK_DIVW := 0xfe00707f%Z (only parsing).
Abbreviation MATCH_DIVUW := 0x200503b%Z (only parsing).
Abbreviation MASK_DIVUW := 0xfe00707f%Z (only parsing).
Abbreviation MATCH_REMW := 0x200603b%Z (only parsing).
Abbreviation MASK_REMW := 0xfe00707f%Z (only parsing).
Abbreviation MATCH_REMUW := 0x200703b%Z (only parsing).
Abbreviation MASK_REMUW := 0xfe00707f%Z (only parsing).
Abbreviation MATCH_AMOADD_W := 0x202f%Z (only parsing).
Abbreviation MASK_AMOADD_W := 0xf800707f%Z (only parsing).
Abbreviation MATCH_AMOXOR_W := 0x2000202f%Z (only parsing).
Abbreviation MASK_AMOXOR_W := 0xf800707f%Z (only parsing).
Abbreviation MATCH_AMOOR_W := 0x4000202f%Z (only parsing).
Abbreviation MASK_AMOOR_W := 0xf800707f%Z (only parsing).
Abbreviation MATCH_AMOAND_W := 0x6000202f%Z (only parsing).
Abbreviation MASK_AMOAND_W := 0xf800707f%Z (only parsing).
Abbreviation MATCH_AMOMIN_W := 0x8000202f%Z (only parsing).
Abbreviation MASK_AMOMIN_W := 0xf800707f%Z (only parsing).
Abbreviation MATCH_AMOMAX_W := 0xa000202f%Z (only parsing).
Abbreviation MASK_AMOMAX_W := 0xf800707f%Z (only parsing).
Abbreviation MATCH_AMOMINU_W := 0xc000202f%Z (only parsing).
Abbreviation MASK_AMOMINU_W := 0xf800707f%Z (only parsing).
Abbreviation MATCH_AMOMAXU_W := 0xe000202f%Z (only parsing).
Abbreviation MASK_AMOMAXU_W := 0xf800707f%Z (only parsing).
Abbreviation MATCH_AMOSWAP_W := 0x800202f%Z (only parsing).
Abbreviation MASK_AMOSWAP_W := 0xf800707f%Z (only parsing).
Abbreviation MATCH_LR_W := 0x1000202f%Z (only parsing).
Abbreviation MASK_LR_W := 0xf9f0707f%Z (only parsing).
Abbreviation MATCH_SC_W := 0x1800202f%Z (only parsing).
Abbreviation MASK_SC_W := 0xf800707f%Z (only parsing).
Abbreviation MATCH_AMOADD_D := 0x302f%Z (only parsing).
Abbreviation MASK_AMOADD_D := 0xf800707f%Z (only parsing).
Abbreviation MATCH_AMOXOR_D := 0x2000302f%Z (only parsing).
Abbreviation MASK_AMOXOR_D := 0xf800707f%Z (only parsing).
Abbreviation MATCH_AMOOR_D := 0x4000302f%Z (only parsing).
Abbreviation MASK_AMOOR_D := 0xf800707f%Z (only parsing).
Abbreviation MATCH_AMOAND_D := 0x6000302f%Z (only parsing).
Abbreviation MASK_AMOAND_D := 0xf800707f%Z (only parsing).
Abbreviation MATCH_AMOMIN_D := 0x8000302f%Z (only parsing).
Abbreviation MASK_AMOMIN_D := 0xf800707f%Z (only parsing).
Abbreviation MATCH_AMOMAX_D := 0xa000302f%Z (only parsing).
Abbreviation MASK_AMOMAX_D := 0xf800707f%Z (only parsing).
Abbreviation MATCH_AMOMINU_D := 0xc000302f%Z (only parsing).
Abbreviation MASK_AMOMINU_D := 0xf800707f%Z (only parsing).
Abbreviation MATCH_AMOMAXU_D := 0xe000302f%Z (only parsing).
Abbreviation MASK_AMOMAXU_D := 0xf800707f%Z (only parsing).
Abbreviation MATCH_AMOSWAP_D := 0x800302f%Z (only parsing).
Abbreviation MASK_AMOSWAP_D := 0xf800707f%Z (only parsing).
Abbreviation MATCH_LR_D := 0x1000302f%Z (only parsing).
Abbreviation MASK_LR_D := 0xf9f0707f%Z (only parsing).
Abbreviation MATCH_SC_D := 0x1800302f%Z (only parsing).
Abbreviation MASK_SC_D := 0xf800707f%Z (only parsing).
Abbreviation MATCH_ECALL := 0x73%Z (only parsing).
Abbreviation MASK_ECALL := 0xffffffff%Z (only parsing).
Abbreviation MATCH_EBREAK := 0x100073%Z (only parsing).
Abbreviation MASK_EBREAK := 0xffffffff%Z (only parsing).
Abbreviation MATCH_URET := 0x200073%Z (only parsing).
Abbreviation MASK_URET := 0xffffffff%Z (only parsing).
Abbreviation MATCH_SRET := 0x10200073%Z (only parsing).
Abbreviation MASK_SRET := 0xffffffff%Z (only parsing).
Abbreviation MATCH_HRET := 0x20200073%Z (only parsing).
Abbreviation MASK_HRET := 0xffffffff%Z (only parsing).
Abbreviation MATCH_MRET := 0x30200073%Z (only parsing).
Abbreviation MASK_MRET := 0xffffffff%Z (only parsing).
Abbreviation MATCH_DRET := 0x7b200073%Z (only parsing).
Abbreviation MASK_DRET := 0xffffffff%Z (only parsing).
Abbreviation MATCH_SFENCE_VM := 0x10400073%Z (only parsing).
Abbreviation MASK_SFENCE_VM := 0xfff07fff%Z (only parsing).
Abbreviation MATCH_SFENCE_VMA := 0x12000073%Z (only parsing).
Abbreviation MASK_SFENCE_VMA := 0xfe007fff%Z (only parsing).
Abbreviation MATCH_WFI := 0x10500073%Z (only parsing).
Abbreviation MASK_WFI := 0xffffffff%Z (only parsing).
Abbreviation MATCH_CSRRW := 0x1073%Z (only parsing).
Abbreviation MASK_CSRRW := 0x707f%Z (only parsing).
Abbreviation MATCH_CSRRS := 0x2073%Z (only parsing).
Abbreviation MASK_CSRRS := 0x707f%Z (only parsing).
Abbreviation MATCH_CSRRC := 0x3073%Z (only parsing).
Abbreviation MASK_CSRRC := 0x707f%Z (only parsing).
Abbreviation MATCH_CSRRWI := 0x5073%Z (only parsing).
Abbreviation MASK_CSRRWI := 0x707f%Z (only parsing).
Abbreviation MATCH_CSRRSI := 0x6073%Z (only parsing).
Abbreviation MASK_CSRRSI := 0x707f%Z (only parsing).
Abbreviation MATCH_CSRRCI := 0x7073%Z (only parsing).
Abbreviation MASK_CSRRCI := 0x707f%Z (only parsing).
Abbreviation MATCH_FADD_S := 0x53%Z (only parsing).
Abbreviation MASK_FADD_S := 0xfe00007f%Z (only parsing).
Abbreviation MATCH_FSUB_S := 0x8000053%Z (only parsing).
Abbreviation MASK_FSUB_S := 0xfe00007f%Z (only parsing).
Abbreviation MATCH_FMUL_S := 0x10000053%Z (only parsing).
Abbreviation MASK_FMUL_S := 0xfe00007f%Z (only parsing).
Abbreviation MATCH_FDIV_S := 0x18000053%Z (only parsing).
Abbreviation MASK_FDIV_S := 0xfe00007f%Z (only parsing).
Abbreviation MATCH_FSGNJ_S := 0x20000053%Z (only parsing).
Abbreviation MASK_FSGNJ_S := 0xfe00707f%Z (only parsing).
Abbreviation MATCH_FSGNJN_S := 0x20001053%Z (only parsing).
Abbreviation MASK_FSGNJN_S := 0xfe00707f%Z (only parsing).
Abbreviation MATCH_FSGNJX_S := 0x20002053%Z (only parsing).
Abbreviation MASK_FSGNJX_S := 0xfe00707f%Z (only parsing).
Abbreviation MATCH_FMIN_S := 0x28000053%Z (only parsing).
Abbreviation MASK_FMIN_S := 0xfe00707f%Z (only parsing).
Abbreviation MATCH_FMAX_S := 0x28001053%Z (only parsing).
Abbreviation MASK_FMAX_S := 0xfe00707f%Z (only parsing).
Abbreviation MATCH_FSQRT_S := 0x58000053%Z (only parsing).
Abbreviation MASK_FSQRT_S := 0xfff0007f%Z (only parsing).
Abbreviation MATCH_FADD_D := 0x2000053%Z (only parsing).
Abbreviation MASK_FADD_D := 0xfe00007f%Z (only parsing).
Abbreviation MATCH_FSUB_D := 0xa000053%Z (only parsing).
Abbreviation MASK_FSUB_D := 0xfe00007f%Z (only parsing).
Abbreviation MATCH_FMUL_D := 0x12000053%Z (only parsing).
Abbreviation MASK_FMUL_D := 0xfe00007f%Z (only parsing).
Abbreviation MATCH_FDIV_D := 0x1a000053%Z (only parsing).
Abbreviation MASK_FDIV_D := 0xfe00007f%Z (only parsing).
Abbreviation MATCH_FSGNJ_D := 0x22000053%Z (only parsing).
Abbreviation MASK_FSGNJ_D := 0xfe00707f%Z (only parsing).
Abbreviation MATCH_FSGNJN_D := 0x22001053%Z (only parsing).
Abbreviation MASK_FSGNJN_D := 0xfe00707f%Z (only parsing).
Abbreviation MATCH_FSGNJX_D := 0x22002053%Z (only parsing).
Abbreviation MASK_FSGNJX_D := 0xfe00707f%Z (only parsing).
Abbreviation MATCH_FMIN_D := 0x2a000053%Z (only parsing).
Abbreviation MASK_FMIN_D := 0xfe00707f%Z (only parsing).
Abbreviation MATCH_FMAX_D := 0x2a001053%Z (only parsing).
Abbreviation MASK_FMAX_D := 0xfe00707f%Z (only parsing).
Abbreviation MATCH_FCVT_S_D := 0x40100053%Z (only parsing).
Abbreviation MASK_FCVT_S_D := 0xfff0007f%Z (only parsing).
Abbreviation MATCH_FCVT_D_S := 0x42000053%Z (only parsing).
Abbreviation MASK_FCVT_D_S := 0xfff0007f%Z (only parsing).
Abbreviation MATCH_FSQRT_D := 0x5a000053%Z (only parsing).
Abbreviation MASK_FSQRT_D := 0xfff0007f%Z (only parsing).
Abbreviation MATCH_FADD_Q := 0x6000053%Z (only parsing).
Abbreviation MASK_FADD_Q := 0xfe00007f%Z (only parsing).
Abbreviation MATCH_FSUB_Q := 0xe000053%Z (only parsing).
Abbreviation MASK_FSUB_Q := 0xfe00007f%Z (only parsing).
Abbreviation MATCH_FMUL_Q := 0x16000053%Z (only parsing).
Abbreviation MASK_FMUL_Q := 0xfe00007f%Z (only parsing).
Abbreviation MATCH_FDIV_Q := 0x1e000053%Z (only parsing).
Abbreviation MASK_FDIV_Q := 0xfe00007f%Z (only parsing).
Abbreviation MATCH_FSGNJ_Q := 0x26000053%Z (only parsing).
Abbreviation MASK_FSGNJ_Q := 0xfe00707f%Z (only parsing).
Abbreviation MATCH_FSGNJN_Q := 0x26001053%Z (only parsing).
Abbreviation MASK_FSGNJN_Q := 0xfe00707f%Z (only parsing).
Abbreviation MATCH_FSGNJX_Q := 0x26002053%Z (only parsing).
Abbreviation MASK_FSGNJX_Q := 0xfe00707f%Z (only parsing).
Abbreviation MATCH_FMIN_Q := 0x2e000053%Z (only parsing).
Abbreviation MASK_FMIN_Q := 0xfe00707f%Z (only parsing).
Abbreviation MATCH_FMAX_Q := 0x2e001053%Z (only parsing).
Abbreviation MASK_FMAX_Q := 0xfe00707f%Z (only parsing).
Abbreviation MATCH_FCVT_S_Q := 0x40300053%Z (only parsing).
Abbreviation MASK_FCVT_S_Q := 0xfff0007f%Z (only parsing).
Abbreviation MATCH_FCVT_Q_S := 0x46000053%Z (only parsing).
Abbreviation MASK_FCVT_Q_S := 0xfff0007f%Z (only parsing).
Abbreviation MATCH_FCVT_D_Q := 0x42300053%Z (only parsing).
Abbreviation MASK_FCVT_D_Q := 0xfff0007f%Z (only parsing).
Abbreviation MATCH_FCVT_Q_D := 0x46100053%Z (only parsing).
Abbreviation MASK_FCVT_Q_D := 0xfff0007f%Z (only parsing).
Abbreviation MATCH_FSQRT_Q := 0x5e000053%Z (only parsing).
Abbreviation MASK_FSQRT_Q := 0xfff0007f%Z (only parsing).
Abbreviation MATCH_FLE_S := 0xa0000053%Z (only parsing).
Abbreviation MASK_FLE_S := 0xfe00707f%Z (only parsing).
Abbreviation MATCH_FLT_S := 0xa0001053%Z (only parsing).
Abbreviation MASK_FLT_S := 0xfe00707f%Z (only parsing).
Abbreviation MATCH_FEQ_S := 0xa0002053%Z (only parsing).
Abbreviation MASK_FEQ_S := 0xfe00707f%Z (only parsing).
Abbreviation MATCH_FLE_D := 0xa2000053%Z (only parsing).
Abbreviation MASK_FLE_D := 0xfe00707f%Z (only parsing).
Abbreviation MATCH_FLT_D := 0xa2001053%Z (only parsing).
Abbreviation MASK_FLT_D := 0xfe00707f%Z (only parsing).
Abbreviation MATCH_FEQ_D := 0xa2002053%Z (only parsing).
Abbreviation MASK_FEQ_D := 0xfe00707f%Z (only parsing).
Abbreviation MATCH_FLE_Q := 0xa6000053%Z (only parsing).
Abbreviation MASK_FLE_Q := 0xfe00707f%Z (only parsing).
Abbreviation MATCH_FLT_Q := 0xa6001053%Z (only parsing).
Abbreviation MASK_FLT_Q := 0xfe00707f%Z (only parsing).
Abbreviation MATCH_FEQ_Q := 0xa6002053%Z (only parsing).
Abbreviation MASK_FEQ_Q := 0xfe00707f%Z (only parsing).
Abbreviation MATCH_FCVT_W_S := 0xc0000053%Z (only parsing).
Abbreviation MASK_FCVT_W_S := 0xfff0007f%Z (only parsing).
Abbreviation MATCH_FCVT_WU_S := 0xc0100053%Z (only parsing).
Abbreviation MASK_FCVT_WU_S := 0xfff0007f%Z (only parsing).
Abbreviation MATCH_FCVT_L_S := 0xc0200053%Z (only parsing).
Abbreviation MASK_FCVT_L_S := 0xfff0007f%Z (only parsing).
Abbreviation MATCH_FCVT_LU_S := 0xc0300053%Z (only parsing).
Abbreviation MASK_FCVT_LU_S := 0xfff0007f%Z (only parsing).
Abbreviation MATCH_FMV_X_S := 0xe0000053%Z (only parsing).
Abbreviation MASK_FMV_X_S := 0xfff0707f%Z (only parsing).
Abbreviation MATCH_FCLASS_S := 0xe0001053%Z (only parsing).
Abbreviation MASK_FCLASS_S := 0xfff0707f%Z (only parsing).
Abbreviation MATCH_FCVT_W_D := 0xc2000053%Z (only parsing).
Abbreviation MASK_FCVT_W_D := 0xfff0007f%Z (only parsing).
Abbreviation MATCH_FCVT_WU_D := 0xc2100053%Z (only parsing).
Abbreviation MASK_FCVT_WU_D := 0xfff0007f%Z (only parsing).
Abbreviation MATCH_FCVT_L_D := 0xc2200053%Z (only parsing).
Abbreviation MASK_FCVT_L_D := 0xfff0007f%Z (only parsing).
Abbreviation MATCH_FCVT_LU_D := 0xc2300053%Z (only parsing).
Abbreviation MASK_FCVT_LU_D := 0xfff0007f%Z (only parsing).
Abbreviation MATCH_FMV_X_D := 0xe2000053%Z (only parsing).
Abbreviation MASK_FMV_X_D := 0xfff0707f%Z (only parsing).
Abbreviation MATCH_FCLASS_D := 0xe2001053%Z (only parsing).
Abbreviation MASK_FCLASS_D := 0xfff0707f%Z (only parsing).
Abbreviation MATCH_FCVT_W_Q := 0xc6000053%Z (only parsing).
Abbreviation MASK_FCVT_W_Q := 0xfff0007f%Z (only parsing).
Abbreviation MATCH_FCVT_WU_Q := 0xc6100053%Z (only parsing).
Abbreviation MASK_FCVT_WU_Q := 0xfff0007f%Z (only parsing).
Abbreviation MATCH_FCVT_L_Q := 0xc6200053%Z (only parsing).
Abbreviation MASK_FCVT_L_Q := 0xfff0007f%Z (only parsing).
Abbreviation MATCH_FCVT_LU_Q := 0xc6300053%Z (only parsing).
Abbreviation MASK_FCVT_LU_Q := 0xfff0007f%Z (only parsing).
Abbreviation MATCH_FCLASS_Q := 0xe6001053%Z (only parsing).
Abbreviation MASK_FCLASS_Q := 0xfff0707f%Z (only parsing).
Abbreviation MATCH_FCVT_S_W := 0xd0000053%Z (only parsing).
Abbreviation MASK_FCVT_S_W := 0xfff0007f%Z (only parsing).
Abbreviation MATCH_FCVT_S_WU := 0xd0100053%Z (only parsing).
Abbreviation MASK_FCVT_S_WU := 0xfff0007f%Z (only parsing).
Abbreviation MATCH_FCVT_S_L := 0xd0200053%Z (only parsing).
Abbreviation MASK_FCVT_S_L := 0xfff0007f%Z (only parsing).
Abbreviation MATCH_FCVT_S_LU := 0xd0300053%Z (only parsing).
Abbreviation MASK_FCVT_S_LU := 0xfff0007f%Z (only parsing).
Abbreviation MATCH_FMV_S_X := 0xf0000053%Z (only parsing).
Abbreviation MASK_FMV_S_X := 0xfff0707f%Z (only parsing).
Abbreviation MATCH_FCVT_D_W := 0xd2000053%Z (only parsing).
Abbreviation MASK_FCVT_D_W := 0xfff0007f%Z (only parsing).
Abbreviation MATCH_FCVT_D_WU := 0xd2100053%Z (only parsing).
Abbreviation MASK_FCVT_D_WU := 0xfff0007f%Z (only parsing).
Abbreviation MATCH_FCVT_D_L := 0xd2200053%Z (only parsing).
Abbreviation MASK_FCVT_D_L := 0xfff0007f%Z (only parsing).
Abbreviation MATCH_FCVT_D_LU := 0xd2300053%Z (only parsing).
Abbreviation MASK_FCVT_D_LU := 0xfff0007f%Z (only parsing).
Abbreviation MATCH_FMV_D_X := 0xf2000053%Z (only parsing).
Abbreviation MASK_FMV_D_X := 0xfff0707f%Z (only parsing).
Abbreviation MATCH_FCVT_Q_W := 0xd6000053%Z (only parsing).
Abbreviation MASK_FCVT_Q_W := 0xfff0007f%Z (only parsing).
Abbreviation MATCH_FCVT_Q_WU := 0xd6100053%Z (only parsing).
Abbreviation MASK_FCVT_Q_WU := 0xfff0007f%Z (only parsing).
Abbreviation MATCH_FCVT_Q_L := 0xd6200053%Z (only parsing).
Abbreviation MASK_FCVT_Q_L := 0xfff0007f%Z (only parsing).
Abbreviation MATCH_FCVT_Q_LU := 0xd6300053%Z (only parsing).
Abbreviation MASK_FCVT_Q_LU := 0xfff0007f%Z (only parsing).
Abbreviation MATCH_FLI_H := 0xf4100053%Z (only parsing).
Abbreviation MASK_FLI_H := 0xfff0707f%Z (only parsing).
Abbreviation MATCH_FMINM_H := 0x2c002053%Z (only parsing).
Abbreviation MASK_FMINM_H := 0xfe00707f%Z (only parsing).
Abbreviation MATCH_FMAXM_H := 0x2c003053%Z (only parsing).
Abbreviation MASK_FMAXM_H := 0xfe00707f%Z (only parsing).
Abbreviation MATCH_FROUND_H := 0x44400053%Z (only parsing).
Abbreviation MASK_FROUND_H := 0xfff0007f%Z (only parsing).
Abbreviation MATCH_FROUNDNX_H := 0x44500053%Z (only parsing).
Abbreviation MASK_FROUNDNX_H := 0xfff0007f%Z (only parsing).
Abbreviation MATCH_FLTQ_H := 0xa4005053%Z (only parsing).
Abbreviation MASK_FLTQ_H := 0xfe00707f%Z (only parsing).
Abbreviation MATCH_FLEQ_H := 0xa4004053%Z (only parsing).
Abbreviation MASK_FLEQ_H := 0xfe00707f%Z (only parsing).
Abbreviation MATCH_FLI_S := 0xf0100053%Z (only parsing).
Abbreviation MASK_FLI_S := 0xfff0707f%Z (only parsing).
Abbreviation MATCH_FMINM_S := 0x28002053%Z (only parsing).
Abbreviation MASK_FMINM_S := 0xfe00707f%Z (only parsing).
Abbreviation MATCH_FMAXM_S := 0x28003053%Z (only parsing).
Abbreviation MASK_FMAXM_S := 0xfe00707f%Z (only parsing).
Abbreviation MATCH_FROUND_S := 0x40400053%Z (only parsing).
Abbreviation MASK_FROUND_S := 0xfff0007f%Z (only parsing).
Abbreviation MATCH_FROUNDNX_S := 0x40500053%Z (only parsing).
Abbreviation MASK_FROUNDNX_S := 0xfff0007f%Z (only parsing).
Abbreviation MATCH_FLTQ_S := 0xa0005053%Z (only parsing).
Abbreviation MASK_FLTQ_S := 0xfe00707f%Z (only parsing).
Abbreviation MATCH_FLEQ_S := 0xa0004053%Z (only parsing).
Abbreviation MASK_FLEQ_S := 0xfe00707f%Z (only parsing).
Abbreviation MATCH_FLI_D := 0xf2100053%Z (only parsing).
Abbreviation MASK_FLI_D := 0xfff0707f%Z (only parsing).
Abbreviation MATCH_FMINM_D := 0x2a002053%Z (only parsing).
Abbreviation MASK_FMINM_D := 0xfe00707f%Z (only parsing).
Abbreviation MATCH_FMAXM_D := 0x2a003053%Z (only parsing).
Abbreviation MASK_FMAXM_D := 0xfe00707f%Z (only parsing).
Abbreviation MATCH_FROUND_D := 0x42400053%Z (only parsing).
Abbreviation MASK_FROUND_D := 0xfff0007f%Z (only parsing).
Abbreviation MATCH_FROUNDNX_D := 0x42500053%Z (only parsing).
Abbreviation MASK_FROUNDNX_D := 0xfff0007f%Z (only parsing).
Abbreviation MATCH_FLTQ_D := 0xa2005053%Z (only parsing).
Abbreviation MASK_FLTQ_D := 0xfe00707f%Z (only parsing).
Abbreviation MATCH_FLEQ_D := 0xa2004053%Z (only parsing).
Abbreviation MASK_FLEQ_D := 0xfe00707f%Z (only parsing).
Abbreviation MATCH_FLI_Q := 0xf6100053%Z (only parsing).
Abbreviation MASK_FLI_Q := 0xfff0707f%Z (only parsing).
Abbreviation MATCH_FMINM_Q := 0x2e002053%Z (only parsing).
Abbreviation MASK_FMINM_Q := 0xfe00707f%Z (only parsing).
Abbreviation MATCH_FMAXM_Q := 0x2e003053%Z (only parsing).
Abbreviation MASK_FMAXM_Q := 0xfe00707f%Z (only parsing).
Abbreviation MATCH_FROUND_Q := 0x46400053%Z (only parsing).
Abbreviation MASK_FROUND_Q := 0xfff0007f%Z (only parsing).
Abbreviation MATCH_FROUNDNX_Q := 0x46500053%Z (only parsing).
Abbreviation MASK_FROUNDNX_Q := 0xfff0007f%Z (only parsing).
Abbreviation MATCH_FLTQ_Q := 0xa6005053%Z (only parsing).
Abbreviation MASK_FLTQ_Q := 0xfe00707f%Z (only parsing).
Abbreviation MATCH_FLEQ_Q := 0xa6004053%Z (only parsing).
Abbreviation MASK_FLEQ_Q := 0xfe00707f%Z (only parsing).
Abbreviation MATCH_FCVTMOD_W_D := 0xc2801053%Z (only parsing).
Abbreviation MASK_FCVTMOD_W_D := 0xfff0707f%Z (only parsing).
Abbreviation MATCH_FMVH_X_D := 0xe2100053%Z (only parsing).
Abbreviation MASK_FMVH_X_D := 0xfff0707f%Z (only parsing).
Abbreviation MATCH_FMVH_X_Q := 0xe6100053%Z (only parsing).
Abbreviation MASK_FMVH_X_Q := 0xfff0707f%Z (only parsing).
Abbreviation MATCH_FMVP_D_X := 0xb2000053%Z (only parsing).
Abbreviation MASK_FMVP_D_X := 0xfe00707f%Z (only parsing).
Abbreviation MATCH_FMVP_Q_X := 0xb6000053%Z (only parsing).
Abbreviation MASK_FMVP_Q_X := 0xfe00707f%Z (only parsing).
Abbreviation MATCH_CLZ := 0x60001013%Z (only parsing).
Abbreviation MASK_CLZ := 0xfff0707f%Z (only parsing).
Abbreviation MATCH_CTZ := 0x60101013%Z (only parsing).
Abbreviation MASK_CTZ := 0xfff0707f%Z (only parsing).
Abbreviation MATCH_CPOP := 0x60201013%Z (only parsing).
Abbreviation MASK_CPOP := 0xfff0707f%Z (only parsing).
Abbreviation MATCH_MIN := 0xa004033%Z (only parsing).
Abbreviation MASK_MIN := 0xfe00707f%Z (only parsing).
Abbreviation MATCH_MINU := 0xa005033%Z (only parsing).
Abbreviation MASK_MINU := 0xfe00707f%Z (only parsing).
Abbreviation MATCH_MAX := 0xa006033%Z (only parsing).
Abbreviation MASK_MAX := 0xfe00707f%Z (only parsing).
Abbreviation MATCH_MAXU := 0xa007033%Z (only parsing).
Abbreviation MASK_MAXU := 0xfe00707f%Z (only parsing).
Abbreviation MATCH_SEXT_B := 0x60401013%Z (only parsing).
Abbreviation MASK_SEXT_B := 0xfff0707f%Z (only parsing).
Abbreviation MATCH_SEXT_H := 0x60501013%Z (only parsing).
Abbreviation MASK_SEXT_H := 0xfff0707f%Z (only parsing).
Abbreviation MATCH_PACK := 0x8004033%Z (only parsing).
Abbreviation MASK_PACK := 0xfe00707f%Z (only parsing).
Abbreviation MATCH_PACKH := 0x8007033%Z (only parsing).
Abbreviation MASK_PACKH := 0xfe00707f%Z (only parsing).
Abbreviation MATCH_PACKW := 0x800403b%Z (only parsing).
Abbreviation MASK_PACKW := 0xfe00707f%Z (only parsing).
Abbreviation MATCH_ANDN := 0x40007033%Z (only parsing).
Abbreviation MASK_ANDN := 0xfe00707f%Z (only parsing).
Abbreviation MATCH_ORN := 0x40006033%Z (only parsing).
Abbreviation MASK_ORN := 0xfe00707f%Z (only parsing).
Abbreviation MATCH_XNOR := 0x40004033%Z (only parsing).
Abbreviation MASK_XNOR := 0xfe00707f%Z (only parsing).
Abbreviation MATCH_ROL := 0x60001033%Z (only parsing).
Abbreviation MASK_ROL := 0xfe00707f%Z (only parsing).
Abbreviation MATCH_ROR := 0x60005033%Z (only parsing).
Abbreviation MASK_ROR := 0xfe00707f%Z (only parsing).
Abbreviation MATCH_RORI := 0x60005013%Z (only parsing).
Abbreviation MASK_RORI := 0xfc00707f%Z (only parsing).
Abbreviation MATCH_GREVI := 0x68005013%Z (only parsing).
Abbreviation MASK_GREVI := 0xfc00707f%Z (only parsing).
Abbreviation MATCH_GORCI := 0x28005013%Z (only parsing).
Abbreviation MASK_GORCI := 0xfc00707f%Z (only parsing).
Abbreviation MATCH_SHFLI := 0x8001013%Z (only parsing).
Abbreviation MASK_SHFLI := 0xfe00707f%Z (only parsing).
Abbreviation MATCH_UNSHFLI := 0x8005013%Z (only parsing).
Abbreviation MASK_UNSHFLI := 0xfe00707f%Z (only parsing).
Abbreviation MATCH_CLZW := 0x6000101b%Z (only parsing).
Abbreviation MASK_CLZW := 0xfff0707f%Z (only parsing).
Abbreviation MATCH_CTZW := 0x6010101b%Z (only parsing).
Abbreviation MASK_CTZW := 0xfff0707f%Z (only parsing).
Abbreviation MATCH_CPOPW := 0x6020101b%Z (only parsing).
Abbreviation MASK_CPOPW := 0xfff0707f%Z (only parsing).
Abbreviation MATCH_ROLW := 0x6000103b%Z (only parsing).
Abbreviation MASK_ROLW := 0xfe00707f%Z (only parsing).
Abbreviation MATCH_RORW := 0x6000503b%Z (only parsing).
Abbreviation MASK_RORW := 0xfe00707f%Z (only parsing).
Abbreviation MATCH_RORIW := 0x6000501b%Z (only parsing).
Abbreviation MASK_RORIW := 0xfe00707f%Z (only parsing).
Abbreviation MATCH_SH1ADD := 0x20002033%Z (only parsing).
Abbreviation MASK_SH1ADD := 0xfe00707f%Z (only parsing).
Abbreviation MATCH_SH2ADD := 0x20004033%Z (only parsing).
Abbreviation MASK_SH2ADD := 0xfe00707f%Z (only parsing).
Abbreviation MATCH_SH3ADD := 0x20006033%Z (only parsing).
Abbreviation MASK_SH3ADD := 0xfe00707f%Z (only parsing).
Abbreviation MATCH_SH1ADD_UW := 0x2000203b%Z (only parsing).
Abbreviation MASK_SH1ADD_UW := 0xfe00707f%Z (only parsing).
Abbreviation MATCH_SH2ADD_UW := 0x2000403b%Z (only parsing).
Abbreviation MASK_SH2ADD_UW := 0xfe00707f%Z (only parsing).
Abbreviation MATCH_SH3ADD_UW := 0x2000603b%Z (only parsing).
Abbreviation MASK_SH3ADD_UW := 0xfe00707f%Z (only parsing).
Abbreviation MATCH_ADD_UW := 0x800003b%Z (only parsing).
Abbreviation MASK_ADD_UW := 0xfe00707f%Z (only parsing).
Abbreviation MATCH_SLLI_UW := 0x800101b%Z (only parsing).
Abbreviation MASK_SLLI_UW := 0xfc00707f%Z (only parsing).
Abbreviation MATCH_CLMUL := 0xa001033%Z (only parsing).
Abbreviation MASK_CLMUL := 0xfe00707f%Z (only parsing).
Abbreviation MATCH_CLMULH := 0xa003033%Z (only parsing).
Abbreviation MASK_CLMULH := 0xfe00707f%Z (only parsing).
Abbreviation MATCH_CLMULR := 0xa002033%Z (only parsing).
Abbreviation MASK_CLMULR := 0xfe00707f%Z (only parsing).
Abbreviation MATCH_XPERM4 := 0x28002033%Z (only parsing).
Abbreviation MASK_XPERM4 := 0xfe00707f%Z (only parsing).
Abbreviation MATCH_XPERM8 := 0x28004033%Z (only parsing).
Abbreviation MASK_XPERM8 := 0xfe00707f%Z (only parsing).
Abbreviation MATCH_BCLRI := 0x48001013%Z (only parsing).
Abbreviation MASK_BCLRI := 0xfc00707f%Z (only parsing).
Abbreviation MATCH_BSETI := 0x28001013%Z (only parsing).
Abbreviation MASK_BSETI := 0xfc00707f%Z (only parsing).
Abbreviation MATCH_BINVI := 0x68001013%Z (only parsing).
Abbreviation MASK_BINVI := 0xfc00707f%Z (only parsing).
Abbreviation MATCH_BEXTI := 0x48005013%Z (only parsing).
Abbreviation MASK_BEXTI := 0xfc00707f%Z (only parsing).
Abbreviation MATCH_BCLR := 0x48001033%Z (only parsing).
Abbreviation MASK_BCLR := 0xfe00707f%Z (only parsing).
Abbreviation MATCH_BSET := 0x28001033%Z (only parsing).
Abbreviation MASK_BSET := 0xfe00707f%Z (only parsing).
Abbreviation MATCH_BINV := 0x68001033%Z (only parsing).
Abbreviation MASK_BINV := 0xfe00707f%Z (only parsing).
Abbreviation MATCH_BEXT := 0x48005033%Z (only parsing).
Abbreviation MASK_BEXT := 0xfe00707f%Z (only parsing).
Abbreviation MATCH_FLW := 0x2007%Z (only parsing).
Abbreviation MASK_FLW := 0x707f%Z (only parsing).
Abbreviation MATCH_FLD := 0x3007%Z (only parsing).
Abbreviation MASK_FLD := 0x707f%Z (only parsing).
Abbreviation MATCH_FLQ := 0x4007%Z (only parsing).
Abbreviation MASK_FLQ := 0x707f%Z (only parsing).
Abbreviation MATCH_FSW := 0x2027%Z (only parsing).
Abbreviation MASK_FSW := 0x707f%Z (only parsing).
Abbreviation MATCH_FSD := 0x3027%Z (only parsing).
Abbreviation MASK_FSD := 0x707f%Z (only parsing).
Abbreviation MATCH_FSQ := 0x4027%Z (only parsing).
Abbreviation MASK_FSQ := 0x707f%Z (only parsing).
Abbreviation MATCH_FMADD_S := 0x43%Z (only parsing).
Abbreviation MASK_FMADD_S := 0x600007f%Z (only parsing).
Abbreviation MATCH_FMSUB_S := 0x47%Z (only parsing).
Abbreviation MASK_FMSUB_S := 0x600007f%Z (only parsing).
Abbreviation MATCH_FNMSUB_S := 0x4b%Z (only parsing).
Abbreviation MASK_FNMSUB_S := 0x600007f%Z (only parsing).
Abbreviation MATCH_FNMADD_S := 0x4f%Z (only parsing).
Abbreviation MASK_FNMADD_S := 0x600007f%Z (only parsing).
Abbreviation MATCH_FMADD_D := 0x2000043%Z (only parsing).
Abbreviation MASK_FMADD_D := 0x600007f%Z (only parsing).
Abbreviation MATCH_FMSUB_D := 0x2000047%Z (only parsing).
Abbreviation MASK_FMSUB_D := 0x600007f%Z (only parsing).
Abbreviation MATCH_FNMSUB_D := 0x200004b%Z (only parsing).
Abbreviation MASK_FNMSUB_D := 0x600007f%Z (only parsing).
Abbreviation MATCH_FNMADD_D := 0x200004f%Z (only parsing).
Abbreviation MASK_FNMADD_D := 0x600007f%Z (only parsing).
Abbreviation MATCH_FMADD_Q := 0x6000043%Z (only parsing).
Abbreviation MASK_FMADD_Q := 0x600007f%Z (only parsing).
Abbreviation MATCH_FMSUB_Q := 0x6000047%Z (only parsing).
Abbreviation MASK_FMSUB_Q := 0x600007f%Z (only parsing).
Abbreviation MATCH_FNMSUB_Q := 0x600004b%Z (only parsing).
Abbreviation MASK_FNMSUB_Q := 0x600007f%Z (only parsing).
Abbreviation MATCH_FNMADD_Q := 0x600004f%Z (only parsing).
Abbreviation MASK_FNMADD_Q := 0x600007f%Z (only parsing).
Abbreviation MATCH_C_ADDI4SPN := 0x0%Z (only parsing).
Abbreviation MASK_C_ADDI4SPN := 0xe003%Z (only parsing).
Abbreviation MATCH_C_FLD := 0x2000%Z (only parsing).
Abbreviation MASK_C_FLD := 0xe003%Z (only parsing).
Abbreviation MATCH_C_LW := 0x4000%Z (only parsing).
Abbreviation MASK_C_LW := 0xe003%Z (only parsing).
Abbreviation MATCH_C_FLW := 0x6000%Z (only parsing).
Abbreviation MASK_C_FLW := 0xe003%Z (only parsing).
Abbreviation MATCH_C_FSD := 0xa000%Z (only parsing).
Abbreviation MASK_C_FSD := 0xe003%Z (only parsing).
Abbreviation MATCH_C_SW := 0xc000%Z (only parsing).
Abbreviation MASK_C_SW := 0xe003%Z (only parsing).
Abbreviation MATCH_C_FSW := 0xe000%Z (only parsing).
Abbreviation MASK_C_FSW := 0xe003%Z (only parsing).
Abbreviation MATCH_C_ADDI := 0x1%Z (only parsing).
Abbreviation MASK_C_ADDI := 0xe003%Z (only parsing).
Abbreviation MATCH_C_JAL := 0x2001%Z (only parsing).
Abbreviation MASK_C_JAL := 0xe003%Z (only parsing).
Abbreviation MATCH_C_LI := 0x4001%Z (only parsing).
Abbreviation MASK_C_LI := 0xe003%Z (only parsing).
Abbreviation MATCH_C_LUI := 0x6001%Z (only parsing).
Abbreviation MASK_C_LUI := 0xe003%Z (only parsing).
Abbreviation MATCH_C_SRLI := 0x8001%Z (only parsing).
Abbreviation MASK_C_SRLI := 0xec03%Z (only parsing).
Abbreviation MATCH_C_SRLI64 := 0x8001%Z (only parsing).
Abbreviation MASK_C_SRLI64 := 0xfc7f%Z (only parsing).
Abbreviation MATCH_C_SRAI := 0x8401%Z (only parsing).
Abbreviation MASK_C_SRAI := 0xec03%Z (only parsing).
Abbreviation MATCH_C_SRAI64 := 0x8401%Z (only parsing).
Abbreviation MASK_C_SRAI64 := 0xfc7f%Z (only parsing).
Abbreviation MATCH_C_ANDI := 0x8801%Z (only parsing).
Abbreviation MASK_C_ANDI := 0xec03%Z (only parsing).
Abbreviation MATCH_C_SUB := 0x8c01%Z (only parsing).
Abbreviation MASK_C_SUB := 0xfc63%Z (only parsing).
Abbreviation MATCH_C_XOR := 0x8c21%Z (only parsing).
Abbreviation MASK_C_XOR := 0xfc63%Z (only parsing).
Abbreviation MATCH_C_OR := 0x8c41%Z (only parsing).
Abbreviation MASK_C_OR := 0xfc63%Z (only parsing).
Abbreviation MATCH_C_AND := 0x8c61%Z (only parsing).
Abbreviation MASK_C_AND := 0xfc63%Z (only parsing).
Abbreviation MATCH_C_SUBW := 0x9c01%Z (only parsing).
Abbreviation MASK_C_SUBW := 0xfc63%Z (only parsing).
Abbreviation MATCH_C_ADDW := 0x9c21%Z (only parsing).
Abbreviation MASK_C_ADDW := 0xfc63%Z (only parsing).
Abbreviation MATCH_C_J := 0xa001%Z (only parsing).
Abbreviation MASK_C_J := 0xe003%Z (only parsing).
Abbreviation MATCH_C_BEQZ := 0xc001%Z (only parsing).
Abbreviation MASK_C_BEQZ := 0xe003%Z (only parsing).
Abbreviation MATCH_C_BNEZ := 0xe001%Z (only parsing).
Abbreviation MASK_C_BNEZ := 0xe003%Z (only parsing).
Abbreviation MATCH_C_SLLI := 0x2%Z (only parsing).
Abbreviation MASK_C_SLLI := 0xe003%Z (only parsing).
Abbreviation MATCH_C_SLLI64 := 0x2%Z (only parsing).
Abbreviation MASK_C_SLLI64 := 0xf07f%Z (only parsing).
Abbreviation MATCH_C_FLDSP := 0x2002%Z (only parsing).
Abbreviation MASK_C_FLDSP := 0xe003%Z (only parsing).
Abbreviation MATCH_C_LWSP := 0x4002%Z (only parsing).
Abbreviation MASK_C_LWSP := 0xe003%Z (only parsing).
Abbreviation MATCH_C_FLWSP := 0x6002%Z (only parsing).
Abbreviation MASK_C_FLWSP := 0xe003%Z (only parsing).
Abbreviation MATCH_C_MV := 0x8002%Z (only parsing).
Abbreviation MASK_C_MV := 0xf003%Z (only parsing).
Abbreviation MATCH_C_ADD := 0x9002%Z (only parsing).
Abbreviation MASK_C_ADD := 0xf003%Z (only parsing).
Abbreviation MATCH_C_FSDSP := 0xa002%Z (only parsing).
Abbreviation MASK_C_FSDSP := 0xe003%Z (only parsing).
Abbreviation MATCH_C_SWSP := 0xc002%Z (only parsing).
Abbreviation MASK_C_SWSP := 0xe003%Z (only parsing).
Abbreviation MATCH_C_FSWSP := 0xe002%Z (only parsing).
Abbreviation MASK_C_FSWSP := 0xe003%Z (only parsing).
Abbreviation MATCH_C_NOP := 0x1%Z (only parsing).
Abbreviation MASK_C_NOP := 0xffff%Z (only parsing).
Abbreviation MATCH_C_ADDI16SP := 0x6101%Z (only parsing).
Abbreviation MASK_C_ADDI16SP := 0xef83%Z (only parsing).
Abbreviation MATCH_C_JR := 0x8002%Z (only parsing).
Abbreviation MASK_C_JR := 0xf07f%Z (only parsing).
Abbreviation MATCH_C_JALR := 0x9002%Z (only parsing).
Abbreviation MASK_C_JALR := 0xf07f%Z (only parsing).
Abbreviation MATCH_C_EBREAK := 0x9002%Z (only parsing).
Abbreviation MASK_C_EBREAK := 0xffff%Z (only parsing).
Abbreviation MATCH_C_LD := 0x6000%Z (only parsing).
Abbreviation MASK_C_LD := 0xe003%Z (only parsing).
Abbreviation MATCH_C_SD := 0xe000%Z (only parsing).
Abbreviation MASK_C_SD := 0xe003%Z (only parsing).
Abbreviation MATCH_C_ADDIW := 0x2001%Z (only parsing).
Abbreviation MASK_C_ADDIW := 0xe003%Z (only parsing).
Abbreviation MATCH_C_LDSP := 0x6002%Z (only parsing).
Abbreviation MASK_C_LDSP := 0xe003%Z (only parsing).
Abbreviation MATCH_C_SDSP := 0xe002%Z (only parsing).
Abbreviation MASK_C_SDSP := 0xe003%Z (only parsing).
Abbreviation MATCH_SM3P0 := 0x10801013%Z (only parsing).
Abbreviation MASK_SM3P0 := 0xfff0707f%Z (only parsing).
Abbreviation MATCH_SM3P1 := 0x10901013%Z (only parsing).
Abbreviation MASK_SM3P1 := 0xfff0707f%Z (only parsing).
Abbreviation MATCH_SHA256SUM0 := 0x10001013%Z (only parsing).
Abbreviation MASK_SHA256SUM0 := 0xfff0707f%Z (only parsing).
Abbreviation MATCH_SHA256SUM1 := 0x10101013%Z (only parsing).
Abbreviation MASK_SHA256SUM1 := 0xfff0707f%Z (only parsing).
Abbreviation MATCH_SHA256SIG0 := 0x10201013%Z (only parsing).
Abbreviation MASK_SHA256SIG0 := 0xfff0707f%Z (only parsing).
Abbreviation MATCH_SHA256SIG1 := 0x10301013%Z (only parsing).
Abbreviation MASK_SHA256SIG1 := 0xfff0707f%Z (only parsing).
Abbreviation MATCH_SHA512SUM0R := 0x50000033%Z (only parsing).
Abbreviation MASK_SHA512SUM0R := 0xfe00707f%Z (only parsing).
Abbreviation MATCH_SHA512SUM1R := 0x52000033%Z (only parsing).
Abbreviation MASK_SHA512SUM1R := 0xfe00707f%Z (only parsing).
Abbreviation MATCH_SHA512SIG0L := 0x54000033%Z (only parsing).
Abbreviation MASK_SHA512SIG0L := 0xfe00707f%Z (only parsing).
Abbreviation MATCH_SHA512SIG0H := 0x5c000033%Z (only parsing).
Abbreviation MASK_SHA512SIG0H := 0xfe00707f%Z (only parsing).
Abbreviation MATCH_SHA512SIG1L := 0x56000033%Z (only parsing).
Abbreviation MASK_SHA512SIG1L := 0xfe00707f%Z (only parsing).
Abbreviation MATCH_SHA512SIG1H := 0x5e000033%Z (only parsing).
Abbreviation MASK_SHA512SIG1H := 0xfe00707f%Z (only parsing).
Abbreviation MATCH_SM4ED := 0x30000033%Z (only parsing).
Abbreviation MASK_SM4ED := 0x3e00707f%Z (only parsing).
Abbreviation MATCH_SM4KS := 0x34000033%Z (only parsing).
Abbreviation MASK_SM4KS := 0x3e00707f%Z (only parsing).
Abbreviation MATCH_AES32ESMI := 0x26000033%Z (only parsing).
Abbreviation MASK_AES32ESMI := 0x3e00707f%Z (only parsing).
Abbreviation MATCH_AES32ESI := 0x22000033%Z (only parsing).
Abbreviation MASK_AES32ESI := 0x3e00707f%Z (only parsing).
Abbreviation MATCH_AES32DSMI := 0x2e000033%Z (only parsing).
Abbreviation MASK_AES32DSMI := 0x3e00707f%Z (only parsing).
Abbreviation MATCH_AES32DSI := 0x2a000033%Z (only parsing).
Abbreviation MASK_AES32DSI := 0x3e00707f%Z (only parsing).
Abbreviation MATCH_SHA512SUM0 := 0x10401013%Z (only parsing).
Abbreviation MASK_SHA512SUM0 := 0xfff0707f%Z (only parsing).
Abbreviation MATCH_SHA512SUM1 := 0x10501013%Z (only parsing).
Abbreviation MASK_SHA512SUM1 := 0xfff0707f%Z (only parsing).
Abbreviation MATCH_SHA512SIG0 := 0x10601013%Z (only parsing).
Abbreviation MASK_SHA512SIG0 := 0xfff0707f%Z (only parsing).
Abbreviation MATCH_SHA512SIG1 := 0x10701013%Z (only parsing).
Abbreviation MASK_SHA512SIG1 := 0xfff0707f%Z (only parsing).
Abbreviation MATCH_AES64KS1I := 0x31001013%Z (only parsing).
Abbreviation MASK_AES64KS1I := 0xff00707f%Z (only parsing).
Abbreviation MATCH_AES64IM := 0x30001013%Z (only parsing).
Abbreviation MASK_AES64IM := 0xfff0707f%Z (only parsing).
Abbreviation MATCH_AES64KS2 := 0x7e000033%Z (only parsing).
Abbreviation MASK_AES64KS2 := 0xfe00707f%Z (only parsing).
Abbreviation MATCH_AES64ESM := 0x36000033%Z (only parsing).
Abbreviation MASK_AES64ESM := 0xfe00707f%Z (only parsing).
Abbreviation MATCH_AES64ES := 0x32000033%Z (only parsing).
Abbreviation MASK_AES64ES := 0xfe00707f%Z (only parsing).
Abbreviation MATCH_AES64DSM := 0x3e000033%Z (only parsing).
Abbreviation MASK_AES64DSM := 0xfe00707f%Z (only parsing).
Abbreviation MATCH_AES64DS := 0x3a000033%Z (only parsing).
Abbreviation MASK_AES64DS := 0xfe00707f%Z (only parsing).
Abbreviation MATCH_FADD_H := 0x4000053%Z (only parsing).
Abbreviation MASK_FADD_H := 0xfe00007f%Z (only parsing).
Abbreviation MATCH_FSUB_H := 0xc000053%Z (only parsing).
Abbreviation MASK_FSUB_H := 0xfe00007f%Z (only parsing).
Abbreviation MATCH_FMUL_H := 0x14000053%Z (only parsing).
Abbreviation MASK_FMUL_H := 0xfe00007f%Z (only parsing).
Abbreviation MATCH_FDIV_H := 0x1c000053%Z (only parsing).
Abbreviation MASK_FDIV_H := 0xfe00007f%Z (only parsing).
Abbreviation MATCH_FSGNJ_H := 0x24000053%Z (only parsing).
Abbreviation MASK_FSGNJ_H := 0xfe00707f%Z (only parsing).
Abbreviation MATCH_FSGNJN_H := 0x24001053%Z (only parsing).
Abbreviation MASK_FSGNJN_H := 0xfe00707f%Z (only parsing).
Abbreviation MATCH_FSGNJX_H := 0x24002053%Z (only parsing).
Abbreviation MASK_FSGNJX_H := 0xfe00707f%Z (only parsing).
Abbreviation MATCH_FMIN_H := 0x2c000053%Z (only parsing).
Abbreviation MASK_FMIN_H := 0xfe00707f%Z (only parsing).
Abbreviation MATCH_FMAX_H := 0x2c001053%Z (only parsing).
Abbreviation MASK_FMAX_H := 0xfe00707f%Z (only parsing).
Abbreviation MATCH_FCVT_H_S := 0x44000053%Z (only parsing).
Abbreviation MASK_FCVT_H_S := 0xfff0007f%Z (only parsing).
Abbreviation MATCH_FCVT_S_H := 0x40200053%Z (only parsing).
Abbreviation MASK_FCVT_S_H := 0xfff0007f%Z (only parsing).
Abbreviation MATCH_FSQRT_H := 0x5c000053%Z (only parsing).
Abbreviation MASK_FSQRT_H := 0xfff0007f%Z (only parsing).
Abbreviation MATCH_FLE_H := 0xa4000053%Z (only parsing).
Abbreviation MASK_FLE_H := 0xfe00707f%Z (only parsing).
Abbreviation MATCH_FLT_H := 0xa4001053%Z (only parsing).
Abbreviation MASK_FLT_H := 0xfe00707f%Z (only parsing).
Abbreviation MATCH_FEQ_H := 0xa4002053%Z (only parsing).
Abbreviation MASK_FEQ_H := 0xfe00707f%Z (only parsing).
Abbreviation MATCH_FCVT_W_H := 0xc4000053%Z (only parsing).
Abbreviation MASK_FCVT_W_H := 0xfff0007f%Z (only parsing).
Abbreviation MATCH_FCVT_WU_H := 0xc4100053%Z (only parsing).
Abbreviation MASK_FCVT_WU_H := 0xfff0007f%Z (only parsing).
Abbreviation MATCH_FMV_X_H := 0xe4000053%Z (only parsing).
Abbreviation MASK_FMV_X_H := 0xfff0707f%Z (only parsing).
Abbreviation MATCH_FCLASS_H := 0xe4001053%Z (only parsing).
Abbreviation MASK_FCLASS_H := 0xfff0707f%Z (only parsing).
Abbreviation MATCH_FCVT_H_W := 0xd4000053%Z (only parsing).
Abbreviation MASK_FCVT_H_W := 0xfff0007f%Z (only parsing).
Abbreviation MATCH_FCVT_H_WU := 0xd4100053%Z (only parsing).
Abbreviation MASK_FCVT_H_WU := 0xfff0007f%Z (only parsing).
Abbreviation MATCH_FMV_H_X := 0xf4000053%Z (only parsing).
Abbreviation MASK_FMV_H_X := 0xfff0707f%Z (only parsing).
Abbreviation MATCH_FLH := 0x1007%Z (only parsing).
Abbreviation MASK_FLH := 0x707f%Z (only parsing).
Abbreviation MATCH_FSH := 0x1027%Z (only parsing).
Abbreviation MASK_FSH := 0x707f%Z (only parsing).
Abbreviation MATCH_FMADD_H := 0x4000043%Z (only parsing).
Abbreviation MASK_FMADD_H := 0x600007f%Z (only parsing).
Abbreviation MATCH_FMSUB_H := 0x4000047%Z (only parsing).
Abbreviation MASK_FMSUB_H := 0x600007f%Z (only parsing).
Abbreviation MATCH_FNMSUB_H := 0x400004b%Z (only parsing).
Abbreviation MASK_FNMSUB_H := 0x600007f%Z (only parsing).
Abbreviation MATCH_FNMADD_H := 0x400004f%Z (only parsing).
Abbreviation MASK_FNMADD_H := 0x600007f%Z (only parsing).
Abbreviation MATCH_FCVT_H_D := 0x44100053%Z (only parsing).
Abbreviation MASK_FCVT_H_D := 0xfff0007f%Z (only parsing).
Abbreviation MATCH_FCVT_D_H := 0x42200053%Z (only parsing).
Abbreviation MASK_FCVT_D_H := 0xfff0007f%Z (only parsing).
Abbreviation MATCH_FCVT_H_Q := 0x44300053%Z (only parsing).
Abbreviation MASK_FCVT_H_Q := 0xfff0007f%Z (only parsing).
Abbreviation MATCH_FCVT_Q_H := 0x46200053%Z (only parsing).
Abbreviation MASK_FCVT_Q_H := 0xfff0007f%Z (only parsing).
Abbreviation MATCH_FCVT_L_H := 0xc4200053%Z (only parsing).
Abbreviation MASK_FCVT_L_H := 0xfff0007f%Z (only parsing).
Abbreviation MATCH_FCVT_LU_H := 0xc4300053%Z (only parsing).
Abbreviation MASK_FCVT_LU_H := 0xfff0007f%Z (only parsing).
Abbreviation MATCH_FCVT_H_L := 0xd4200053%Z (only parsing).
Abbreviation MASK_FCVT_H_L := 0xfff0007f%Z (only parsing).
Abbreviation MATCH_FCVT_H_LU := 0xd4300053%Z (only parsing).
Abbreviation MASK_FCVT_H_LU := 0xfff0007f%Z (only parsing).
Abbreviation MATCH_VSETVL := 0x80007057%Z (only parsing).
Abbreviation MASK_VSETVL := 0xfe00707f%Z (only parsing).
Abbreviation MATCH_VSETIVLI := 0xc0007057%Z (only parsing).
Abbreviation MASK_VSETIVLI := 0xc000707f%Z (only parsing).
Abbreviation MATCH_VSETVLI := 0x00007057%Z (only parsing).
Abbreviation MASK_VSETVLI := 0x8000707f%Z (only parsing).
Abbreviation MATCH_VLMV := 0x02b00007%Z (only parsing).
Abbreviation MASK_VLMV := 0xfff0707f%Z (only parsing).
Abbreviation MATCH_VSMV := 0x02b00027%Z (only parsing).
Abbreviation MASK_VSMV := 0xfff0707f%Z (only parsing).
Abbreviation MATCH_VLE8V := 0x00000007%Z (only parsing).
Abbreviation MASK_VLE8V := 0xfdf0707f%Z (only parsing).
Abbreviation MATCH_VLE16V := 0x00005007%Z (only parsing).
Abbreviation MASK_VLE16V := 0xfdf0707f%Z (only parsing).
Abbreviation MATCH_VLE32V := 0x00006007%Z (only parsing).
Abbreviation MASK_VLE32V := 0xfdf0707f%Z (only parsing).
Abbreviation MATCH_VLE64V := 0x00007007%Z (only parsing).
Abbreviation MASK_VLE64V := 0xfdf0707f%Z (only parsing).
Abbreviation MATCH_VSE8V := 0x00000027%Z (only parsing).
Abbreviation MASK_VSE8V := 0xfdf0707f%Z (only parsing).
Abbreviation MATCH_VSE16V := 0x00005027%Z (only parsing).
Abbreviation MASK_VSE16V := 0xfdf0707f%Z (only parsing).
Abbreviation MATCH_VSE32V := 0x00006027%Z (only parsing).
Abbreviation MASK_VSE32V := 0xfdf0707f%Z (only parsing).
Abbreviation MATCH_VSE64V := 0x00007027%Z (only parsing).
Abbreviation MASK_VSE64V := 0xfdf0707f%Z (only parsing).
Abbreviation MATCH_VLSE8V := 0x08000007%Z (only parsing).
Abbreviation MASK_VLSE8V := 0xfc00707f%Z (only parsing).
Abbreviation MATCH_VLSE16V := 0x08005007%Z (only parsing).
Abbreviation MASK_VLSE16V := 0xfc00707f%Z (only parsing).
Abbreviation MATCH_VLSE32V := 0x08006007%Z (only parsing).
Abbreviation MASK_VLSE32V := 0xfc00707f%Z (only parsing).
Abbreviation MATCH_VLSE64V := 0x08007007%Z (only parsing).
Abbreviation MASK_VLSE64V := 0xfc00707f%Z (only parsing).
Abbreviation MATCH_VSSE8V := 0x08000027%Z (only parsing).
Abbreviation MASK_VSSE8V := 0xfc00707f%Z (only parsing).
Abbreviation MATCH_VSSE16V := 0x08005027%Z (only parsing).
Abbreviation MASK_VSSE16V := 0xfc00707f%Z (only parsing).
Abbreviation MATCH_VSSE32V := 0x08006027%Z (only parsing).
Abbreviation MASK_VSSE32V := 0xfc00707f%Z (only parsing).
Abbreviation MATCH_VSSE64V := 0x08007027%Z (only parsing).
Abbreviation MASK_VSSE64V := 0xfc00707f%Z (only parsing).
Abbreviation MATCH_VLOXEI8V := 0x0c000007%Z (only parsing).
Abbreviation MASK_VLOXEI8V := 0xfc00707f%Z (only parsing).
Abbreviation MATCH_VLOXEI16V := 0x0c005007%Z (only parsing).
Abbreviation MASK_VLOXEI16V := 0xfc00707f%Z (only parsing).
Abbreviation MATCH_VLOXEI32V := 0x0c006007%Z (only parsing).
Abbreviation MASK_VLOXEI32V := 0xfc00707f%Z (only parsing).
Abbreviation MATCH_VLOXEI64V := 0x0c007007%Z (only parsing).
Abbreviation MASK_VLOXEI64V := 0xfc00707f%Z (only parsing).
Abbreviation MATCH_VSOXEI8V := 0x0c000027%Z (only parsing).
Abbreviation MASK_VSOXEI8V := 0xfc00707f%Z (only parsing).
Abbreviation MATCH_VSOXEI16V := 0x0c005027%Z (only parsing).
Abbreviation MASK_VSOXEI16V := 0xfc00707f%Z (only parsing).
Abbreviation MATCH_VSOXEI32V := 0x0c006027%Z (only parsing).
Abbreviation MASK_VSOXEI32V := 0xfc00707f%Z (only parsing).
Abbreviation MATCH_VSOXEI64V := 0x0c007027%Z (only parsing).
Abbreviation MASK_VSOXEI64V := 0xfc00707f%Z (only parsing).
Abbreviation MATCH_VLUXEI8V := 0x04000007%Z (only parsing).
Abbreviation MASK_VLUXEI8V := 0xfc00707f%Z (only parsing).
Abbreviation MATCH_VLUXEI16V := 0x04005007%Z (only parsing).
Abbreviation MASK_VLUXEI16V := 0xfc00707f%Z (only parsing).
Abbreviation MATCH_VLUXEI32V := 0x04006007%Z (only parsing).
Abbreviation MASK_VLUXEI32V := 0xfc00707f%Z (only parsing).
Abbreviation MATCH_VLUXEI64V := 0x04007007%Z (only parsing).
Abbreviation MASK_VLUXEI64V := 0xfc00707f%Z (only parsing).
Abbreviation MATCH_VSUXEI8V := 0x04000027%Z (only parsing).
Abbreviation MASK_VSUXEI8V := 0xfc00707f%Z (only parsing).
Abbreviation MATCH_VSUXEI16V := 0x04005027%Z (only parsing).
Abbreviation MASK_VSUXEI16V := 0xfc00707f%Z (only parsing).
Abbreviation MATCH_VSUXEI32V := 0x04006027%Z (only parsing).
Abbreviation MASK_VSUXEI32V := 0xfc00707f%Z (only parsing).
Abbreviation MATCH_VSUXEI64V := 0x04007027%Z (only parsing).
Abbreviation MASK_VSUXEI64V := 0xfc00707f%Z (only parsing).
Abbreviation MATCH_VLE8FFV := 0x01000007%Z (only parsing).
Abbreviation MASK_VLE8FFV := 0xfdf0707f%Z (only parsing).
Abbreviation MATCH_VLE16FFV := 0x01005007%Z (only parsing).
Abbreviation MASK_VLE16FFV := 0xfdf0707f%Z (only parsing).
Abbreviation MATCH_VLE32FFV := 0x01006007%Z (only parsing).
Abbreviation MASK_VLE32FFV := 0xfdf0707f%Z (only parsing).
Abbreviation MATCH_VLE64FFV := 0x01007007%Z (only parsing).
Abbreviation MASK_VLE64FFV := 0xfdf0707f%Z (only parsing).
Abbreviation MATCH_VLSEG2E8V := 0x20000007%Z (only parsing).
Abbreviation MASK_VLSEG2E8V := 0xfdf0707f%Z (only parsing).
Abbreviation MATCH_VSSEG2E8V := 0x20000027%Z (only parsing).
Abbreviation MASK_VSSEG2E8V := 0xfdf0707f%Z (only parsing).
Abbreviation MATCH_VLSEG3E8V := 0x40000007%Z (only parsing).
Abbreviation MASK_VLSEG3E8V := 0xfdf0707f%Z (only parsing).
Abbreviation MATCH_VSSEG3E8V := 0x40000027%Z (only parsing).
Abbreviation MASK_VSSEG3E8V := 0xfdf0707f%Z (only parsing).
Abbreviation MATCH_VLSEG4E8V := 0x60000007%Z (only parsing).
Abbreviation MASK_VLSEG4E8V := 0xfdf0707f%Z (only parsing).
Abbreviation MATCH_VSSEG4E8V := 0x60000027%Z (only parsing).
Abbreviation MASK_VSSEG4E8V := 0xfdf0707f%Z (only parsing).
Abbreviation MATCH_VLSEG5E8V := 0x80000007%Z (only parsing).
Abbreviation MASK_VLSEG5E8V := 0xfdf0707f%Z (only parsing).
Abbreviation MATCH_VSSEG5E8V := 0x80000027%Z (only parsing).
Abbreviation MASK_VSSEG5E8V := 0xfdf0707f%Z (only parsing).
Abbreviation MATCH_VLSEG6E8V := 0xa0000007%Z (only parsing).
Abbreviation MASK_VLSEG6E8V := 0xfdf0707f%Z (only parsing).
Abbreviation MATCH_VSSEG6E8V := 0xa0000027%Z (only parsing).
Abbreviation MASK_VSSEG6E8V := 0xfdf0707f%Z (only parsing).
Abbreviation MATCH_VLSEG7E8V := 0xc0000007%Z (only parsing).
Abbreviation MASK_VLSEG7E8V := 0xfdf0707f%Z (only parsing).
Abbreviation MATCH_VSSEG7E8V := 0xc0000027%Z (only parsing).
Abbreviation MASK_VSSEG7E8V := 0xfdf0707f%Z (only parsing).
Abbreviation MATCH_VLSEG8E8V := 0xe0000007%Z (only parsing).
Abbreviation MASK_VLSEG8E8V := 0xfdf0707f%Z (only parsing).
Abbreviation MATCH_VSSEG8E8V := 0xe0000027%Z (only parsing).
Abbreviation MASK_VSSEG8E8V := 0xfdf0707f%Z (only parsing).
Abbreviation MATCH_VLSEG2E16V := 0x20005007%Z (only parsing).
Abbreviation MASK_VLSEG2E16V := 0xfdf0707f%Z (only parsing).
Abbreviation MATCH_VSSEG2E16V := 0x20005027%Z (only parsing).
Abbreviation MASK_VSSEG2E16V := 0xfdf0707f%Z (only parsing).
Abbreviation MATCH_VLSEG3E16V := 0x40005007%Z (only parsing).
Abbreviation MASK_VLSEG3E16V := 0xfdf0707f%Z (only parsing).
Abbreviation MATCH_VSSEG3E16V := 0x40005027%Z (only parsing).
Abbreviation MASK_VSSEG3E16V := 0xfdf0707f%Z (only parsing).
Abbreviation MATCH_VLSEG4E16V := 0x60005007%Z (only parsing).
Abbreviation MASK_VLSEG4E16V := 0xfdf0707f%Z (only parsing).
Abbreviation MATCH_VSSEG4E16V := 0x60005027%Z (only parsing).
Abbreviation MASK_VSSEG4E16V := 0xfdf0707f%Z (only parsing).
Abbreviation MATCH_VLSEG5E16V := 0x80005007%Z (only parsing).
Abbreviation MASK_VLSEG5E16V := 0xfdf0707f%Z (only parsing).
Abbreviation MATCH_VSSEG5E16V := 0x80005027%Z (only parsing).
Abbreviation MASK_VSSEG5E16V := 0xfdf0707f%Z (only parsing).
Abbreviation MATCH_VLSEG6E16V := 0xa0005007%Z (only parsing).
Abbreviation MASK_VLSEG6E16V := 0xfdf0707f%Z (only parsing).
Abbreviation MATCH_VSSEG6E16V := 0xa0005027%Z (only parsing).
Abbreviation MASK_VSSEG6E16V := 0xfdf0707f%Z (only parsing).
Abbreviation MATCH_VLSEG7E16V := 0xc0005007%Z (only parsing).
Abbreviation MASK_VLSEG7E16V := 0xfdf0707f%Z (only parsing).
Abbreviation MATCH_VSSEG7E16V := 0xc0005027%Z (only parsing).
Abbreviation MASK_VSSEG7E16V := 0xfdf0707f%Z (only parsing).
Abbreviation MATCH_VLSEG8E16V := 0xe0005007%Z (only parsing).
Abbreviation MASK_VLSEG8E16V := 0xfdf0707f%Z (only parsing).
Abbreviation MATCH_VSSEG8E16V := 0xe0005027%Z (only parsing).
Abbreviation MASK_VSSEG8E16V := 0xfdf0707f%Z (only parsing).
Abbreviation MATCH_VLSEG2E32V := 0x20006007%Z (only parsing).
Abbreviation MASK_VLSEG2E32V := 0xfdf0707f%Z (only parsing).
Abbreviation MATCH_VSSEG2E32V := 0x20006027%Z (only parsing).
Abbreviation MASK_VSSEG2E32V := 0xfdf0707f%Z (only parsing).
Abbreviation MATCH_VLSEG3E32V := 0x40006007%Z (only parsing).
Abbreviation MASK_VLSEG3E32V := 0xfdf0707f%Z (only parsing).
Abbreviation MATCH_VSSEG3E32V := 0x40006027%Z (only parsing).
Abbreviation MASK_VSSEG3E32V := 0xfdf0707f%Z (only parsing).
Abbreviation MATCH_VLSEG4E32V := 0x60006007%Z (only parsing).
Abbreviation MASK_VLSEG4E32V := 0xfdf0707f%Z (only parsing).
Abbreviation MATCH_VSSEG4E32V := 0x60006027%Z (only parsing).
Abbreviation MASK_VSSEG4E32V := 0xfdf0707f%Z (only parsing).
Abbreviation MATCH_VLSEG5E32V := 0x80006007%Z (only parsing).
Abbreviation MASK_VLSEG5E32V := 0xfdf0707f%Z (only parsing).
Abbreviation MATCH_VSSEG5E32V := 0x80006027%Z (only parsing).
Abbreviation MASK_VSSEG5E32V := 0xfdf0707f%Z (only parsing).
Abbreviation MATCH_VLSEG6E32V := 0xa0006007%Z (only parsing).
Abbreviation MASK_VLSEG6E32V := 0xfdf0707f%Z (only parsing).
Abbreviation MATCH_VSSEG6E32V := 0xa0006027%Z (only parsing).
Abbreviation MASK_VSSEG6E32V := 0xfdf0707f%Z (only parsing).
Abbreviation MATCH_VLSEG7E32V := 0xc0006007%Z (only parsing).
Abbreviation MASK_VLSEG7E32V := 0xfdf0707f%Z (only parsing).
Abbreviation MATCH_VSSEG7E32V := 0xc0006027%Z (only parsing).
Abbreviation MASK_VSSEG7E32V := 0xfdf0707f%Z (only parsing).
Abbreviation MATCH_VLSEG8E32V := 0xe0006007%Z (only parsing).
Abbreviation MASK_VLSEG8E32V := 0xfdf0707f%Z (only parsing).
Abbreviation MATCH_VSSEG8E32V := 0xe0006027%Z (only parsing).
Abbreviation MASK_VSSEG8E32V := 0xfdf0707f%Z (only parsing).
Abbreviation MATCH_VLSEG2E64V := 0x20007007%Z (only parsing).
Abbreviation MASK_VLSEG2E64V := 0xfdf0707f%Z (only parsing).
Abbreviation MATCH_VSSEG2E64V := 0x20007027%Z (only parsing).
Abbreviation MASK_VSSEG2E64V := 0xfdf0707f%Z (only parsing).
Abbreviation MATCH_VLSEG3E64V := 0x40007007%Z (only parsing).
Abbreviation MASK_VLSEG3E64V := 0xfdf0707f%Z (only parsing).
Abbreviation MATCH_VSSEG3E64V := 0x40007027%Z (only parsing).
Abbreviation MASK_VSSEG3E64V := 0xfdf0707f%Z (only parsing).
Abbreviation MATCH_VLSEG4E64V := 0x60007007%Z (only parsing).
Abbreviation MASK_VLSEG4E64V := 0xfdf0707f%Z (only parsing).
Abbreviation MATCH_VSSEG4E64V := 0x60007027%Z (only parsing).
Abbreviation MASK_VSSEG4E64V := 0xfdf0707f%Z (only parsing).
Abbreviation MATCH_VLSEG5E64V := 0x80007007%Z (only parsing).
Abbreviation MASK_VLSEG5E64V := 0xfdf0707f%Z (only parsing).
Abbreviation MATCH_VSSEG5E64V := 0x80007027%Z (only parsing).
Abbreviation MASK_VSSEG5E64V := 0xfdf0707f%Z (only parsing).
Abbreviation MATCH_VLSEG6E64V := 0xa0007007%Z (only parsing).
Abbreviation MASK_VLSEG6E64V := 0xfdf0707f%Z (only parsing).
Abbreviation MATCH_VSSEG6E64V := 0xa0007027%Z (only parsing).
Abbreviation MASK_VSSEG6E64V := 0xfdf0707f%Z (only parsing).
Abbreviation MATCH_VLSEG7E64V := 0xc0007007%Z (only parsing).
Abbreviation MASK_VLSEG7E64V := 0xfdf0707f%Z (only parsing).
Abbreviation MATCH_VSSEG7E64V := 0xc0007027%Z (only parsing).
Abbreviation MASK_VSSEG7E64V := 0xfdf0707f%Z (only parsing).
Abbreviation MATCH_VLSEG8E64V := 0xe0007007%Z (only parsing).
Abbreviation MASK_VLSEG8E64V := 0xfdf0707f%Z (only parsing).
Abbreviation MATCH_VSSEG8E64V := 0xe0007027%Z (only parsing).
Abbreviation MASK_VSSEG8E64V := 0xfdf0707f%Z (only parsing).
Abbreviation MATCH_VLSSEG2E8V := 0x28000007%Z (only parsing).
Abbreviation MASK_VLSSEG2E8V := 0xfc00707f%Z (only parsing).
Abbreviation MATCH_VSSSEG2E8V := 0x28000027%Z (only parsing).
Abbreviation MASK_VSSSEG2E8V := 0xfc00707f%Z (only parsing).
Abbreviation MATCH_VLSSEG3E8V := 0x48000007%Z (only parsing).
Abbreviation MASK_VLSSEG3E8V := 0xfc00707f%Z (only parsing).
Abbreviation MATCH_VSSSEG3E8V := 0x48000027%Z (only parsing).
Abbreviation MASK_VSSSEG3E8V := 0xfc00707f%Z (only parsing).
Abbreviation MATCH_VLSSEG4E8V := 0x68000007%Z (only parsing).
Abbreviation MASK_VLSSEG4E8V := 0xfc00707f%Z (only parsing).
Abbreviation MATCH_VSSSEG4E8V := 0x68000027%Z (only parsing).
Abbreviation MASK_VSSSEG4E8V := 0xfc00707f%Z (only parsing).
Abbreviation MATCH_VLSSEG5E8V := 0x88000007%Z (only parsing).
Abbreviation MASK_VLSSEG5E8V := 0xfc00707f%Z (only parsing).
Abbreviation MATCH_VSSSEG5E8V := 0x88000027%Z (only parsing).
Abbreviation MASK_VSSSEG5E8V := 0xfc00707f%Z (only parsing).
Abbreviation MATCH_VLSSEG6E8V := 0xa8000007%Z (only parsing).
Abbreviation MASK_VLSSEG6E8V := 0xfc00707f%Z (only parsing).
Abbreviation MATCH_VSSSEG6E8V := 0xa8000027%Z (only parsing).
Abbreviation MASK_VSSSEG6E8V := 0xfc00707f%Z (only parsing).
Abbreviation MATCH_VLSSEG7E8V := 0xc8000007%Z (only parsing).
Abbreviation MASK_VLSSEG7E8V := 0xfc00707f%Z (only parsing).
Abbreviation MATCH_VSSSEG7E8V := 0xc8000027%Z (only parsing).
Abbreviation MASK_VSSSEG7E8V := 0xfc00707f%Z (only parsing).
Abbreviation MATCH_VLSSEG8E8V := 0xe8000007%Z (only parsing).
Abbreviation MASK_VLSSEG8E8V := 0xfc00707f%Z (only parsing).
Abbreviation MATCH_VSSSEG8E8V := 0xe8000027%Z (only parsing).
Abbreviation MASK_VSSSEG8E8V := 0xfc00707f%Z (only parsing).
Abbreviation MATCH_VLSSEG2E16V := 0x28005007%Z (only parsing).
Abbreviation MASK_VLSSEG2E16V := 0xfc00707f%Z (only parsing).
Abbreviation MATCH_VSSSEG2E16V := 0x28005027%Z (only parsing).
Abbreviation MASK_VSSSEG2E16V := 0xfc00707f%Z (only parsing).
Abbreviation MATCH_VLSSEG3E16V := 0x48005007%Z (only parsing).
Abbreviation MASK_VLSSEG3E16V := 0xfc00707f%Z (only parsing).
Abbreviation MATCH_VSSSEG3E16V := 0x48005027%Z (only parsing).
Abbreviation MASK_VSSSEG3E16V := 0xfc00707f%Z (only parsing).
Abbreviation MATCH_VLSSEG4E16V := 0x68005007%Z (only parsing).
Abbreviation MASK_VLSSEG4E16V := 0xfc00707f%Z (only parsing).
Abbreviation MATCH_VSSSEG4E16V := 0x68005027%Z (only parsing).
Abbreviation MASK_VSSSEG4E16V := 0xfc00707f%Z (only parsing).
Abbreviation MATCH_VLSSEG5E16V := 0x88005007%Z (only parsing).
Abbreviation MASK_VLSSEG5E16V := 0xfc00707f%Z (only parsing).
Abbreviation MATCH_VSSSEG5E16V := 0x88005027%Z (only parsing).
Abbreviation MASK_VSSSEG5E16V := 0xfc00707f%Z (only parsing).
Abbreviation MATCH_VLSSEG6E16V := 0xa8005007%Z (only parsing).
Abbreviation MASK_VLSSEG6E16V := 0xfc00707f%Z (only parsing).
Abbreviation MATCH_VSSSEG6E16V := 0xa8005027%Z (only parsing).
Abbreviation MASK_VSSSEG6E16V := 0xfc00707f%Z (only parsing).
Abbreviation MATCH_VLSSEG7E16V := 0xc8005007%Z (only parsing).
Abbreviation MASK_VLSSEG7E16V := 0xfc00707f%Z (only parsing).
Abbreviation MATCH_VSSSEG7E16V := 0xc8005027%Z (only parsing).
Abbreviation MASK_VSSSEG7E16V := 0xfc00707f%Z (only parsing).
Abbreviation MATCH_VLSSEG8E16V := 0xe8005007%Z (only parsing).
Abbreviation MASK_VLSSEG8E16V := 0xfc00707f%Z (only parsing).
Abbreviation MATCH_VSSSEG8E16V := 0xe8005027%Z (only parsing).
Abbreviation MASK_VSSSEG8E16V := 0xfc00707f%Z (only parsing).
Abbreviation MATCH_VLSSEG2E32V := 0x28006007%Z (only parsing).
Abbreviation MASK_VLSSEG2E32V := 0xfc00707f%Z (only parsing).
Abbreviation MATCH_VSSSEG2E32V := 0x28006027%Z (only parsing).
Abbreviation MASK_VSSSEG2E32V := 0xfc00707f%Z (only parsing).
Abbreviation MATCH_VLSSEG3E32V := 0x48006007%Z (only parsing).
Abbreviation MASK_VLSSEG3E32V := 0xfc00707f%Z (only parsing).
Abbreviation MATCH_VSSSEG3E32V := 0x48006027%Z (only parsing).
Abbreviation MASK_VSSSEG3E32V := 0xfc00707f%Z (only parsing).
Abbreviation MATCH_VLSSEG4E32V := 0x68006007%Z (only parsing).
Abbreviation MASK_VLSSEG4E32V := 0xfc00707f%Z (only parsing).
Abbreviation MATCH_VSSSEG4E32V := 0x68006027%Z (only parsing).
Abbreviation MASK_VSSSEG4E32V := 0xfc00707f%Z (only parsing).
Abbreviation MATCH_VLSSEG5E32V := 0x88006007%Z (only parsing).
Abbreviation MASK_VLSSEG5E32V := 0xfc00707f%Z (only parsing).
Abbreviation MATCH_VSSSEG5E32V := 0x88006027%Z (only parsing).
Abbreviation MASK_VSSSEG5E32V := 0xfc00707f%Z (only parsing).
Abbreviation MATCH_VLSSEG6E32V := 0xa8006007%Z (only parsing).
Abbreviation MASK_VLSSEG6E32V := 0xfc00707f%Z (only parsing).
Abbreviation MATCH_VSSSEG6E32V := 0xa8006027%Z (only parsing).
Abbreviation MASK_VSSSEG6E32V := 0xfc00707f%Z (only parsing).
Abbreviation MATCH_VLSSEG7E32V := 0xc8006007%Z (only parsing).
Abbreviation MASK_VLSSEG7E32V := 0xfc00707f%Z (only parsing).
Abbreviation MATCH_VSSSEG7E32V := 0xc8006027%Z (only parsing).
Abbreviation MASK_VSSSEG7E32V := 0xfc00707f%Z (only parsing).
Abbreviation MATCH_VLSSEG8E32V := 0xe8006007%Z (only parsing).
Abbreviation MASK_VLSSEG8E32V := 0xfc00707f%Z (only parsing).
Abbreviation MATCH_VSSSEG8E32V := 0xe8006027%Z (only parsing).
Abbreviation MASK_VSSSEG8E32V := 0xfc00707f%Z (only parsing).
Abbreviation MATCH_VLSSEG2E64V := 0x28007007%Z (only parsing).
Abbreviation MASK_VLSSEG2E64V := 0xfc00707f%Z (only parsing).
Abbreviation MATCH_VSSSEG2E64V := 0x28007027%Z (only parsing).
Abbreviation MASK_VSSSEG2E64V := 0xfc00707f%Z (only parsing).
Abbreviation MATCH_VLSSEG3E64V := 0x48007007%Z (only parsing).
Abbreviation MASK_VLSSEG3E64V := 0xfc00707f%Z (only parsing).
Abbreviation MATCH_VSSSEG3E64V := 0x48007027%Z (only parsing).
Abbreviation MASK_VSSSEG3E64V := 0xfc00707f%Z (only parsing).
Abbreviation MATCH_VLSSEG4E64V := 0x68007007%Z (only parsing).
Abbreviation MASK_VLSSEG4E64V := 0xfc00707f%Z (only parsing).
Abbreviation MATCH_VSSSEG4E64V := 0x68007027%Z (only parsing).
Abbreviation MASK_VSSSEG4E64V := 0xfc00707f%Z (only parsing).
Abbreviation MATCH_VLSSEG5E64V := 0x88007007%Z (only parsing).
Abbreviation MASK_VLSSEG5E64V := 0xfc00707f%Z (only parsing).
Abbreviation MATCH_VSSSEG5E64V := 0x88007027%Z (only parsing).
Abbreviation MASK_VSSSEG5E64V := 0xfc00707f%Z (only parsing).
Abbreviation MATCH_VLSSEG6E64V := 0xa8007007%Z (only parsing).
Abbreviation MASK_VLSSEG6E64V := 0xfc00707f%Z (only parsing).
Abbreviation MATCH_VSSSEG6E64V := 0xa8007027%Z (only parsing).
Abbreviation MASK_VSSSEG6E64V := 0xfc00707f%Z (only parsing).
Abbreviation MATCH_VLSSEG7E64V := 0xc8007007%Z (only parsing).
Abbreviation MASK_VLSSEG7E64V := 0xfc00707f%Z (only parsing).
Abbreviation MATCH_VSSSEG7E64V := 0xc8007027%Z (only parsing).
Abbreviation MASK_VSSSEG7E64V := 0xfc00707f%Z (only parsing).
Abbreviation MATCH_VLSSEG8E64V := 0xe8007007%Z (only parsing).
Abbreviation MASK_VLSSEG8E64V := 0xfc00707f%Z (only parsing).
Abbreviation MATCH_VSSSEG8E64V := 0xe8007027%Z (only parsing).
Abbreviation MASK_VSSSEG8E64V := 0xfc00707f%Z (only parsing).
Abbreviation MATCH_VLOXSEG2EI8V := 0x2c000007%Z (only parsing).
Abbreviation MASK_VLOXSEG2EI8V := 0xfc00707f%Z (only parsing).
Abbreviation MATCH_VSOXSEG2EI8V := 0x2c000027%Z (only parsing).
Abbreviation MASK_VSOXSEG2EI8V := 0xfc00707f%Z (only parsing).
Abbreviation MATCH_VLOXSEG3EI8V := 0x4c000007%Z (only parsing).
Abbreviation MASK_VLOXSEG3EI8V := 0xfc00707f%Z (only parsing).
Abbreviation MATCH_VSOXSEG3EI8V := 0x4c000027%Z (only parsing).
Abbreviation MASK_VSOXSEG3EI8V := 0xfc00707f%Z (only parsing).
Abbreviation MATCH_VLOXSEG4EI8V := 0x6c000007%Z (only parsing).
Abbreviation MASK_VLOXSEG4EI8V := 0xfc00707f%Z (only parsing).
Abbreviation MATCH_VSOXSEG4EI8V := 0x6c000027%Z (only parsing).
Abbreviation MASK_VSOXSEG4EI8V := 0xfc00707f%Z (only parsing).
Abbreviation MATCH_VLOXSEG5EI8V := 0x8c000007%Z (only parsing).
Abbreviation MASK_VLOXSEG5EI8V := 0xfc00707f%Z (only parsing).
Abbreviation MATCH_VSOXSEG5EI8V := 0x8c000027%Z (only parsing).
Abbreviation MASK_VSOXSEG5EI8V := 0xfc00707f%Z (only parsing).
Abbreviation MATCH_VLOXSEG6EI8V := 0xac000007%Z (only parsing).
Abbreviation MASK_VLOXSEG6EI8V := 0xfc00707f%Z (only parsing).
Abbreviation MATCH_VSOXSEG6EI8V := 0xac000027%Z (only parsing).
Abbreviation MASK_VSOXSEG6EI8V := 0xfc00707f%Z (only parsing).
Abbreviation MATCH_VLOXSEG7EI8V := 0xcc000007%Z (only parsing).
Abbreviation MASK_VLOXSEG7EI8V := 0xfc00707f%Z (only parsing).
Abbreviation MATCH_VSOXSEG7EI8V := 0xcc000027%Z (only parsing).
Abbreviation MASK_VSOXSEG7EI8V := 0xfc00707f%Z (only parsing).
Abbreviation MATCH_VLOXSEG8EI8V := 0xec000007%Z (only parsing).
Abbreviation MASK_VLOXSEG8EI8V := 0xfc00707f%Z (only parsing).
Abbreviation MATCH_VSOXSEG8EI8V := 0xec000027%Z (only parsing).
Abbreviation MASK_VSOXSEG8EI8V := 0xfc00707f%Z (only parsing).
Abbreviation MATCH_VLUXSEG2EI8V := 0x24000007%Z (only parsing).
Abbreviation MASK_VLUXSEG2EI8V := 0xfc00707f%Z (only parsing).
Abbreviation MATCH_VSUXSEG2EI8V := 0x24000027%Z (only parsing).
Abbreviation MASK_VSUXSEG2EI8V := 0xfc00707f%Z (only parsing).
Abbreviation MATCH_VLUXSEG3EI8V := 0x44000007%Z (only parsing).
Abbreviation MASK_VLUXSEG3EI8V := 0xfc00707f%Z (only parsing).
Abbreviation MATCH_VSUXSEG3EI8V := 0x44000027%Z (only parsing).
Abbreviation MASK_VSUXSEG3EI8V := 0xfc00707f%Z (only parsing).
Abbreviation MATCH_VLUXSEG4EI8V := 0x64000007%Z (only parsing).
Abbreviation MASK_VLUXSEG4EI8V := 0xfc00707f%Z (only parsing).
Abbreviation MATCH_VSUXSEG4EI8V := 0x64000027%Z (only parsing).
Abbreviation MASK_VSUXSEG4EI8V := 0xfc00707f%Z (only parsing).
Abbreviation MATCH_VLUXSEG5EI8V := 0x84000007%Z (only parsing).
Abbreviation MASK_VLUXSEG5EI8V := 0xfc00707f%Z (only parsing).
Abbreviation MATCH_VSUXSEG5EI8V := 0x84000027%Z (only parsing).
Abbreviation MASK_VSUXSEG5EI8V := 0xfc00707f%Z (only parsing).
Abbreviation MATCH_VLUXSEG6EI8V := 0xa4000007%Z (only parsing).
Abbreviation MASK_VLUXSEG6EI8V := 0xfc00707f%Z (only parsing).
Abbreviation MATCH_VSUXSEG6EI8V := 0xa4000027%Z (only parsing).
Abbreviation MASK_VSUXSEG6EI8V := 0xfc00707f%Z (only parsing).
Abbreviation MATCH_VLUXSEG7EI8V := 0xc4000007%Z (only parsing).
Abbreviation MASK_VLUXSEG7EI8V := 0xfc00707f%Z (only parsing).
Abbreviation MATCH_VSUXSEG7EI8V := 0xc4000027%Z (only parsing).
Abbreviation MASK_VSUXSEG7EI8V := 0xfc00707f%Z (only parsing).
Abbreviation MATCH_VLUXSEG8EI8V := 0xe4000007%Z (only parsing).
Abbreviation MASK_VLUXSEG8EI8V := 0xfc00707f%Z (only parsing).
Abbreviation MATCH_VSUXSEG8EI8V := 0xe4000027%Z (only parsing).
Abbreviation MASK_VSUXSEG8EI8V := 0xfc00707f%Z (only parsing).
Abbreviation MATCH_VLOXSEG2EI16V := 0x2c005007%Z (only parsing).
Abbreviation MASK_VLOXSEG2EI16V := 0xfc00707f%Z (only parsing).
Abbreviation MATCH_VSOXSEG2EI16V := 0x2c005027%Z (only parsing).
Abbreviation MASK_VSOXSEG2EI16V := 0xfc00707f%Z (only parsing).
Abbreviation MATCH_VLOXSEG3EI16V := 0x4c005007%Z (only parsing).
Abbreviation MASK_VLOXSEG3EI16V := 0xfc00707f%Z (only parsing).
Abbreviation MATCH_VSOXSEG3EI16V := 0x4c005027%Z (only parsing).
Abbreviation MASK_VSOXSEG3EI16V := 0xfc00707f%Z (only parsing).
Abbreviation MATCH_VLOXSEG4EI16V := 0x6c005007%Z (only parsing).
Abbreviation MASK_VLOXSEG4EI16V := 0xfc00707f%Z (only parsing).
Abbreviation MATCH_VSOXSEG4EI16V := 0x6c005027%Z (only parsing).
Abbreviation MASK_VSOXSEG4EI16V := 0xfc00707f%Z (only parsing).
Abbreviation MATCH_VLOXSEG5EI16V := 0x8c005007%Z (only parsing).
Abbreviation MASK_VLOXSEG5EI16V := 0xfc00707f%Z (only parsing).
Abbreviation MATCH_VSOXSEG5EI16V := 0x8c005027%Z (only parsing).
Abbreviation MASK_VSOXSEG5EI16V := 0xfc00707f%Z (only parsing).
Abbreviation MATCH_VLOXSEG6EI16V := 0xac005007%Z (only parsing).
Abbreviation MASK_VLOXSEG6EI16V := 0xfc00707f%Z (only parsing).
Abbreviation MATCH_VSOXSEG6EI16V := 0xac005027%Z (only parsing).
Abbreviation MASK_VSOXSEG6EI16V := 0xfc00707f%Z (only parsing).
Abbreviation MATCH_VLOXSEG7EI16V := 0xcc005007%Z (only parsing).
Abbreviation MASK_VLOXSEG7EI16V := 0xfc00707f%Z (only parsing).
Abbreviation MATCH_VSOXSEG7EI16V := 0xcc005027%Z (only parsing).
Abbreviation MASK_VSOXSEG7EI16V := 0xfc00707f%Z (only parsing).
Abbreviation MATCH_VLOXSEG8EI16V := 0xec005007%Z (only parsing).
Abbreviation MASK_VLOXSEG8EI16V := 0xfc00707f%Z (only parsing).
Abbreviation MATCH_VSOXSEG8EI16V := 0xec005027%Z (only parsing).
Abbreviation MASK_VSOXSEG8EI16V := 0xfc00707f%Z (only parsing).
Abbreviation MATCH_VLUXSEG2EI16V := 0x24005007%Z (only parsing).
Abbreviation MASK_VLUXSEG2EI16V := 0xfc00707f%Z (only parsing).
Abbreviation MATCH_VSUXSEG2EI16V := 0x24005027%Z (only parsing).
Abbreviation MASK_VSUXSEG2EI16V := 0xfc00707f%Z (only parsing).
Abbreviation MATCH_VLUXSEG3EI16V := 0x44005007%Z (only parsing).
Abbreviation MASK_VLUXSEG3EI16V := 0xfc00707f%Z (only parsing).
Abbreviation MATCH_VSUXSEG3EI16V := 0x44005027%Z (only parsing).
Abbreviation MASK_VSUXSEG3EI16V := 0xfc00707f%Z (only parsing).
Abbreviation MATCH_VLUXSEG4EI16V := 0x64005007%Z (only parsing).
Abbreviation MASK_VLUXSEG4EI16V := 0xfc00707f%Z (only parsing).
Abbreviation MATCH_VSUXSEG4EI16V := 0x64005027%Z (only parsing).
Abbreviation MASK_VSUXSEG4EI16V := 0xfc00707f%Z (only parsing).
Abbreviation MATCH_VLUXSEG5EI16V := 0x84005007%Z (only parsing).
Abbreviation MASK_VLUXSEG5EI16V := 0xfc00707f%Z (only parsing).
Abbreviation MATCH_VSUXSEG5EI16V := 0x84005027%Z (only parsing).
Abbreviation MASK_VSUXSEG5EI16V := 0xfc00707f%Z (only parsing).
Abbreviation MATCH_VLUXSEG6EI16V := 0xa4005007%Z (only parsing).
Abbreviation MASK_VLUXSEG6EI16V := 0xfc00707f%Z (only parsing).
Abbreviation MATCH_VSUXSEG6EI16V := 0xa4005027%Z (only parsing).
Abbreviation MASK_VSUXSEG6EI16V := 0xfc00707f%Z (only parsing).
Abbreviation MATCH_VLUXSEG7EI16V := 0xc4005007%Z (only parsing).
Abbreviation MASK_VLUXSEG7EI16V := 0xfc00707f%Z (only parsing).
Abbreviation MATCH_VSUXSEG7EI16V := 0xc4005027%Z (only parsing).
Abbreviation MASK_VSUXSEG7EI16V := 0xfc00707f%Z (only parsing).
Abbreviation MATCH_VLUXSEG8EI16V := 0xe4005007%Z (only parsing).
Abbreviation MASK_VLUXSEG8EI16V := 0xfc00707f%Z (only parsing).
Abbreviation MATCH_VSUXSEG8EI16V := 0xe4005027%Z (only parsing).
Abbreviation MASK_VSUXSEG8EI16V := 0xfc00707f%Z (only parsing).
Abbreviation MATCH_VLOXSEG2EI32V := 0x2c006007%Z (only parsing).
Abbreviation MASK_VLOXSEG2EI32V := 0xfc00707f%Z (only parsing).
Abbreviation MATCH_VSOXSEG2EI32V := 0x2c006027%Z (only parsing).
Abbreviation MASK_VSOXSEG2EI32V := 0xfc00707f%Z (only parsing).
Abbreviation MATCH_VLOXSEG3EI32V := 0x4c006007%Z (only parsing).
Abbreviation MASK_VLOXSEG3EI32V := 0xfc00707f%Z (only parsing).
Abbreviation MATCH_VSOXSEG3EI32V := 0x4c006027%Z (only parsing).
Abbreviation MASK_VSOXSEG3EI32V := 0xfc00707f%Z (only parsing).
Abbreviation MATCH_VLOXSEG4EI32V := 0x6c006007%Z (only parsing).
Abbreviation MASK_VLOXSEG4EI32V := 0xfc00707f%Z (only parsing).
Abbreviation MATCH_VSOXSEG4EI32V := 0x6c006027%Z (only parsing).
Abbreviation MASK_VSOXSEG4EI32V := 0xfc00707f%Z (only parsing).
Abbreviation MATCH_VLOXSEG5EI32V := 0x8c006007%Z (only parsing).
Abbreviation MASK_VLOXSEG5EI32V := 0xfc00707f%Z (only parsing).
Abbreviation MATCH_VSOXSEG5EI32V := 0x8c006027%Z (only parsing).
Abbreviation MASK_VSOXSEG5EI32V := 0xfc00707f%Z (only parsing).
Abbreviation MATCH_VLOXSEG6EI32V := 0xac006007%Z (only parsing).
Abbreviation MASK_VLOXSEG6EI32V := 0xfc00707f%Z (only parsing).
Abbreviation MATCH_VSOXSEG6EI32V := 0xac006027%Z (only parsing).
Abbreviation MASK_VSOXSEG6EI32V := 0xfc00707f%Z (only parsing).
Abbreviation MATCH_VLOXSEG7EI32V := 0xcc006007%Z (only parsing).
Abbreviation MASK_VLOXSEG7EI32V := 0xfc00707f%Z (only parsing).
Abbreviation MATCH_VSOXSEG7EI32V := 0xcc006027%Z (only parsing).
Abbreviation MASK_VSOXSEG7EI32V := 0xfc00707f%Z (only parsing).
Abbreviation MATCH_VLOXSEG8EI32V := 0xec006007%Z (only parsing).
Abbreviation MASK_VLOXSEG8EI32V := 0xfc00707f%Z (only parsing).
Abbreviation MATCH_VSOXSEG8EI32V := 0xec006027%Z (only parsing).
Abbreviation MASK_VSOXSEG8EI32V := 0xfc00707f%Z (only parsing).
Abbreviation MATCH_VLUXSEG2EI32V := 0x24006007%Z (only parsing).
Abbreviation MASK_VLUXSEG2EI32V := 0xfc00707f%Z (only parsing).
Abbreviation MATCH_VSUXSEG2EI32V := 0x24006027%Z (only parsing).
Abbreviation MASK_VSUXSEG2EI32V := 0xfc00707f%Z (only parsing).
Abbreviation MATCH_VLUXSEG3EI32V := 0x44006007%Z (only parsing).
Abbreviation MASK_VLUXSEG3EI32V := 0xfc00707f%Z (only parsing).
Abbreviation MATCH_VSUXSEG3EI32V := 0x44006027%Z (only parsing).
Abbreviation MASK_VSUXSEG3EI32V := 0xfc00707f%Z (only parsing).
Abbreviation MATCH_VLUXSEG4EI32V := 0x64006007%Z (only parsing).
Abbreviation MASK_VLUXSEG4EI32V := 0xfc00707f%Z (only parsing).
Abbreviation MATCH_VSUXSEG4EI32V := 0x64006027%Z (only parsing).
Abbreviation MASK_VSUXSEG4EI32V := 0xfc00707f%Z (only parsing).
Abbreviation MATCH_VLUXSEG5EI32V := 0x84006007%Z (only parsing).
Abbreviation MASK_VLUXSEG5EI32V := 0xfc00707f%Z (only parsing).
Abbreviation MATCH_VSUXSEG5EI32V := 0x84006027%Z (only parsing).
Abbreviation MASK_VSUXSEG5EI32V := 0xfc00707f%Z (only parsing).
Abbreviation MATCH_VLUXSEG6EI32V := 0xa4006007%Z (only parsing).
Abbreviation MASK_VLUXSEG6EI32V := 0xfc00707f%Z (only parsing).
Abbreviation MATCH_VSUXSEG6EI32V := 0xa4006027%Z (only parsing).
Abbreviation MASK_VSUXSEG6EI32V := 0xfc00707f%Z (only parsing).
Abbreviation MATCH_VLUXSEG7EI32V := 0xc4006007%Z (only parsing).
Abbreviation MASK_VLUXSEG7EI32V := 0xfc00707f%Z (only parsing).
Abbreviation MATCH_VSUXSEG7EI32V := 0xc4006027%Z (only parsing).
Abbreviation MASK_VSUXSEG7EI32V := 0xfc00707f%Z (only parsing).
Abbreviation MATCH_VLUXSEG8EI32V := 0xe4006007%Z (only parsing).
Abbreviation MASK_VLUXSEG8EI32V := 0xfc00707f%Z (only parsing).
Abbreviation MATCH_VSUXSEG8EI32V := 0xe4006027%Z (only parsing).
Abbreviation MASK_VSUXSEG8EI32V := 0xfc00707f%Z (only parsing).
Abbreviation MATCH_VLOXSEG2EI64V := 0x2c007007%Z (only parsing).
Abbreviation MASK_VLOXSEG2EI64V := 0xfc00707f%Z (only parsing).
Abbreviation MATCH_VSOXSEG2EI64V := 0x2c007027%Z (only parsing).
Abbreviation MASK_VSOXSEG2EI64V := 0xfc00707f%Z (only parsing).
Abbreviation MATCH_VLOXSEG3EI64V := 0x4c007007%Z (only parsing).
Abbreviation MASK_VLOXSEG3EI64V := 0xfc00707f%Z (only parsing).
Abbreviation MATCH_VSOXSEG3EI64V := 0x4c007027%Z (only parsing).
Abbreviation MASK_VSOXSEG3EI64V := 0xfc00707f%Z (only parsing).
Abbreviation MATCH_VLOXSEG4EI64V := 0x6c007007%Z (only parsing).
Abbreviation MASK_VLOXSEG4EI64V := 0xfc00707f%Z (only parsing).
Abbreviation MATCH_VSOXSEG4EI64V := 0x6c007027%Z (only parsing).
Abbreviation MASK_VSOXSEG4EI64V := 0xfc00707f%Z (only parsing).
Abbreviation MATCH_VLOXSEG5EI64V := 0x8c007007%Z (only parsing).
Abbreviation MASK_VLOXSEG5EI64V := 0xfc00707f%Z (only parsing).
Abbreviation MATCH_VSOXSEG5EI64V := 0x8c007027%Z (only parsing).
Abbreviation MASK_VSOXSEG5EI64V := 0xfc00707f%Z (only parsing).
Abbreviation MATCH_VLOXSEG6EI64V := 0xac007007%Z (only parsing).
Abbreviation MASK_VLOXSEG6EI64V := 0xfc00707f%Z (only parsing).
Abbreviation MATCH_VSOXSEG6EI64V := 0xac007027%Z (only parsing).
Abbreviation MASK_VSOXSEG6EI64V := 0xfc00707f%Z (only parsing).
Abbreviation MATCH_VLOXSEG7EI64V := 0xcc007007%Z (only parsing).
Abbreviation MASK_VLOXSEG7EI64V := 0xfc00707f%Z (only parsing).
Abbreviation MATCH_VSOXSEG7EI64V := 0xcc007027%Z (only parsing).
Abbreviation MASK_VSOXSEG7EI64V := 0xfc00707f%Z (only parsing).
Abbreviation MATCH_VLOXSEG8EI64V := 0xec007007%Z (only parsing).
Abbreviation MASK_VLOXSEG8EI64V := 0xfc00707f%Z (only parsing).
Abbreviation MATCH_VSOXSEG8EI64V := 0xec007027%Z (only parsing).
Abbreviation MASK_VSOXSEG8EI64V := 0xfc00707f%Z (only parsing).
Abbreviation MATCH_VLUXSEG2EI64V := 0x24007007%Z (only parsing).
Abbreviation MASK_VLUXSEG2EI64V := 0xfc00707f%Z (only parsing).
Abbreviation MATCH_VSUXSEG2EI64V := 0x24007027%Z (only parsing).
Abbreviation MASK_VSUXSEG2EI64V := 0xfc00707f%Z (only parsing).
Abbreviation MATCH_VLUXSEG3EI64V := 0x44007007%Z (only parsing).
Abbreviation MASK_VLUXSEG3EI64V := 0xfc00707f%Z (only parsing).
Abbreviation MATCH_VSUXSEG3EI64V := 0x44007027%Z (only parsing).
Abbreviation MASK_VSUXSEG3EI64V := 0xfc00707f%Z (only parsing).
Abbreviation MATCH_VLUXSEG4EI64V := 0x64007007%Z (only parsing).
Abbreviation MASK_VLUXSEG4EI64V := 0xfc00707f%Z (only parsing).
Abbreviation MATCH_VSUXSEG4EI64V := 0x64007027%Z (only parsing).
Abbreviation MASK_VSUXSEG4EI64V := 0xfc00707f%Z (only parsing).
Abbreviation MATCH_VLUXSEG5EI64V := 0x84007007%Z (only parsing).
Abbreviation MASK_VLUXSEG5EI64V := 0xfc00707f%Z (only parsing).
Abbreviation MATCH_VSUXSEG5EI64V := 0x84007027%Z (only parsing).
Abbreviation MASK_VSUXSEG5EI64V := 0xfc00707f%Z (only parsing).
Abbreviation MATCH_VLUXSEG6EI64V := 0xa4007007%Z (only parsing).
Abbreviation MASK_VLUXSEG6EI64V := 0xfc00707f%Z (only parsing).
Abbreviation MATCH_VSUXSEG6EI64V := 0xa4007027%Z (only parsing).
Abbreviation MASK_VSUXSEG6EI64V := 0xfc00707f%Z (only parsing).
Abbreviation MATCH_VLUXSEG7EI64V := 0xc4007007%Z (only parsing).
Abbreviation MASK_VLUXSEG7EI64V := 0xfc00707f%Z (only parsing).
Abbreviation MATCH_VSUXSEG7EI64V := 0xc4007027%Z (only parsing).
Abbreviation MASK_VSUXSEG7EI64V := 0xfc00707f%Z (only parsing).
Abbreviation MATCH_VLUXSEG8EI64V := 0xe4007007%Z (only parsing).
Abbreviation MASK_VLUXSEG8EI64V := 0xfc00707f%Z (only parsing).
Abbreviation MATCH_VSUXSEG8EI64V := 0xe4007027%Z (only parsing).
Abbreviation MASK_VSUXSEG8EI64V := 0xfc00707f%Z (only parsing).
Abbreviation MATCH_VLSEG2E8FFV := 0x21000007%Z (only parsing).
Abbreviation MASK_VLSEG2E8FFV := 0xfdf0707f%Z (only parsing).
Abbreviation MATCH_VLSEG3E8FFV := 0x41000007%Z (only parsing).
Abbreviation MASK_VLSEG3E8FFV := 0xfdf0707f%Z (only parsing).
Abbreviation MATCH_VLSEG4E8FFV := 0x61000007%Z (only parsing).
Abbreviation MASK_VLSEG4E8FFV := 0xfdf0707f%Z (only parsing).
Abbreviation MATCH_VLSEG5E8FFV := 0x81000007%Z (only parsing).
Abbreviation MASK_VLSEG5E8FFV := 0xfdf0707f%Z (only parsing).
Abbreviation MATCH_VLSEG6E8FFV := 0xa1000007%Z (only parsing).
Abbreviation MASK_VLSEG6E8FFV := 0xfdf0707f%Z (only parsing).
Abbreviation MATCH_VLSEG7E8FFV := 0xc1000007%Z (only parsing).
Abbreviation MASK_VLSEG7E8FFV := 0xfdf0707f%Z (only parsing).
Abbreviation MATCH_VLSEG8E8FFV := 0xe1000007%Z (only parsing).
Abbreviation MASK_VLSEG8E8FFV := 0xfdf0707f%Z (only parsing).
Abbreviation MATCH_VLSEG2E16FFV := 0x21005007%Z (only parsing).
Abbreviation MASK_VLSEG2E16FFV := 0xfdf0707f%Z (only parsing).
Abbreviation MATCH_VLSEG3E16FFV := 0x41005007%Z (only parsing).
Abbreviation MASK_VLSEG3E16FFV := 0xfdf0707f%Z (only parsing).
Abbreviation MATCH_VLSEG4E16FFV := 0x61005007%Z (only parsing).
Abbreviation MASK_VLSEG4E16FFV := 0xfdf0707f%Z (only parsing).
Abbreviation MATCH_VLSEG5E16FFV := 0x81005007%Z (only parsing).
Abbreviation MASK_VLSEG5E16FFV := 0xfdf0707f%Z (only parsing).
Abbreviation MATCH_VLSEG6E16FFV := 0xa1005007%Z (only parsing).
Abbreviation MASK_VLSEG6E16FFV := 0xfdf0707f%Z (only parsing).
Abbreviation MATCH_VLSEG7E16FFV := 0xc1005007%Z (only parsing).
Abbreviation MASK_VLSEG7E16FFV := 0xfdf0707f%Z (only parsing).
Abbreviation MATCH_VLSEG8E16FFV := 0xe1005007%Z (only parsing).
Abbreviation MASK_VLSEG8E16FFV := 0xfdf0707f%Z (only parsing).
Abbreviation MATCH_VLSEG2E32FFV := 0x21006007%Z (only parsing).
Abbreviation MASK_VLSEG2E32FFV := 0xfdf0707f%Z (only parsing).
Abbreviation MATCH_VLSEG3E32FFV := 0x41006007%Z (only parsing).
Abbreviation MASK_VLSEG3E32FFV := 0xfdf0707f%Z (only parsing).
Abbreviation MATCH_VLSEG4E32FFV := 0x61006007%Z (only parsing).
Abbreviation MASK_VLSEG4E32FFV := 0xfdf0707f%Z (only parsing).
Abbreviation MATCH_VLSEG5E32FFV := 0x81006007%Z (only parsing).
Abbreviation MASK_VLSEG5E32FFV := 0xfdf0707f%Z (only parsing).
Abbreviation MATCH_VLSEG6E32FFV := 0xa1006007%Z (only parsing).
Abbreviation MASK_VLSEG6E32FFV := 0xfdf0707f%Z (only parsing).
Abbreviation MATCH_VLSEG7E32FFV := 0xc1006007%Z (only parsing).
Abbreviation MASK_VLSEG7E32FFV := 0xfdf0707f%Z (only parsing).
Abbreviation MATCH_VLSEG8E32FFV := 0xe1006007%Z (only parsing).
Abbreviation MASK_VLSEG8E32FFV := 0xfdf0707f%Z (only parsing).
Abbreviation MATCH_VLSEG2E64FFV := 0x21007007%Z (only parsing).
Abbreviation MASK_VLSEG2E64FFV := 0xfdf0707f%Z (only parsing).
Abbreviation MATCH_VLSEG3E64FFV := 0x41007007%Z (only parsing).
Abbreviation MASK_VLSEG3E64FFV := 0xfdf0707f%Z (only parsing).
Abbreviation MATCH_VLSEG4E64FFV := 0x61007007%Z (only parsing).
Abbreviation MASK_VLSEG4E64FFV := 0xfdf0707f%Z (only parsing).
Abbreviation MATCH_VLSEG5E64FFV := 0x81007007%Z (only parsing).
Abbreviation MASK_VLSEG5E64FFV := 0xfdf0707f%Z (only parsing).
Abbreviation MATCH_VLSEG6E64FFV := 0xa1007007%Z (only parsing).
Abbreviation MASK_VLSEG6E64FFV := 0xfdf0707f%Z (only parsing).
Abbreviation MATCH_VLSEG7E64FFV := 0xc1007007%Z (only parsing).
Abbreviation MASK_VLSEG7E64FFV := 0xfdf0707f%Z (only parsing).
Abbreviation MATCH_VLSEG8E64FFV := 0xe1007007%Z (only parsing).
Abbreviation MASK_VLSEG8E64FFV := 0xfdf0707f%Z (only parsing).
Abbreviation MATCH_VL1RE8V := 0x02800007%Z (only parsing).
Abbreviation MASK_VL1RE8V := 0xfff0707f%Z (only parsing).
Abbreviation MATCH_VL1RE16V := 0x02805007%Z (only parsing).
Abbreviation MASK_VL1RE16V := 0xfff0707f%Z (only parsing).
Abbreviation MATCH_VL1RE32V := 0x02806007%Z (only parsing).
Abbreviation MASK_VL1RE32V := 0xfff0707f%Z (only parsing).
Abbreviation MATCH_VL1RE64V := 0x02807007%Z (only parsing).
Abbreviation MASK_VL1RE64V := 0xfff0707f%Z (only parsing).
Abbreviation MATCH_VL2RE8V := 0x22800007%Z (only parsing).
Abbreviation MASK_VL2RE8V := 0xfff0707f%Z (only parsing).
Abbreviation MATCH_VL2RE16V := 0x22805007%Z (only parsing).
Abbreviation MASK_VL2RE16V := 0xfff0707f%Z (only parsing).
Abbreviation MATCH_VL2RE32V := 0x22806007%Z (only parsing).
Abbreviation MASK_VL2RE32V := 0xfff0707f%Z (only parsing).
Abbreviation MATCH_VL2RE64V := 0x22807007%Z (only parsing).
Abbreviation MASK_VL2RE64V := 0xfff0707f%Z (only parsing).
Abbreviation MATCH_VL4RE8V := 0x62800007%Z (only parsing).
Abbreviation MASK_VL4RE8V := 0xfff0707f%Z (only parsing).
Abbreviation MATCH_VL4RE16V := 0x62805007%Z (only parsing).
Abbreviation MASK_VL4RE16V := 0xfff0707f%Z (only parsing).
Abbreviation MATCH_VL4RE32V := 0x62806007%Z (only parsing).
Abbreviation MASK_VL4RE32V := 0xfff0707f%Z (only parsing).
Abbreviation MATCH_VL4RE64V := 0x62807007%Z (only parsing).
Abbreviation MASK_VL4RE64V := 0xfff0707f%Z (only parsing).
Abbreviation MATCH_VL8RE8V := 0xe2800007%Z (only parsing).
Abbreviation MASK_VL8RE8V := 0xfff0707f%Z (only parsing).
Abbreviation MATCH_VL8RE16V := 0xe2805007%Z (only parsing).
Abbreviation MASK_VL8RE16V := 0xfff0707f%Z (only parsing).
Abbreviation MATCH_VL8RE32V := 0xe2806007%Z (only parsing).
Abbreviation MASK_VL8RE32V := 0xfff0707f%Z (only parsing).
Abbreviation MATCH_VL8RE64V := 0xe2807007%Z (only parsing).
Abbreviation MASK_VL8RE64V := 0xfff0707f%Z (only parsing).
Abbreviation MATCH_VS1RV := 0x02800027%Z (only parsing).
Abbreviation MASK_VS1RV := 0xfff0707f%Z (only parsing).
Abbreviation MATCH_VS2RV := 0x22800027%Z (only parsing).
Abbreviation MASK_VS2RV := 0xfff0707f%Z (only parsing).
Abbreviation MATCH_VS4RV := 0x62800027%Z (only parsing).
Abbreviation MASK_VS4RV := 0xfff0707f%Z (only parsing).
Abbreviation MATCH_VS8RV := 0xe2800027%Z (only parsing).
Abbreviation MASK_VS8RV := 0xfff0707f%Z (only parsing).
Abbreviation MATCH_VADDVV := 0x00000057%Z (only parsing).
Abbreviation MASK_VADDVV := 0xfc00707f%Z (only parsing).
Abbreviation MATCH_VADDVX := 0x00004057%Z (only parsing).
Abbreviation MASK_VADDVX := 0xfc00707f%Z (only parsing).
Abbreviation MATCH_VADDVI := 0x00003057%Z (only parsing).
Abbreviation MASK_VADDVI := 0xfc00707f%Z (only parsing).
Abbreviation MATCH_VSUBVV := 0x08000057%Z (only parsing).
Abbreviation MASK_VSUBVV := 0xfc00707f%Z (only parsing).
Abbreviation MATCH_VSUBVX := 0x08004057%Z (only parsing).
Abbreviation MASK_VSUBVX := 0xfc00707f%Z (only parsing).
Abbreviation MATCH_VRSUBVX := 0x0c004057%Z (only parsing).
Abbreviation MASK_VRSUBVX := 0xfc00707f%Z (only parsing).
Abbreviation MATCH_VRSUBVI := 0x0c003057%Z (only parsing).
Abbreviation MASK_VRSUBVI := 0xfc00707f%Z (only parsing).
Abbreviation MATCH_VWCVTXXV := 0xc4006057%Z (only parsing).
Abbreviation MASK_VWCVTXXV := 0xfc0ff07f%Z (only parsing).
Abbreviation MATCH_VWCVTUXXV := 0xc0006057%Z (only parsing).
Abbreviation MASK_VWCVTUXXV := 0xfc0ff07f%Z (only parsing).
Abbreviation MATCH_VWADDVV := 0xc4002057%Z (only parsing).
Abbreviation MASK_VWADDVV := 0xfc00707f%Z (only parsing).
Abbreviation MATCH_VWADDVX := 0xc4006057%Z (only parsing).
Abbreviation MASK_VWADDVX := 0xfc00707f%Z (only parsing).
Abbreviation MATCH_VWSUBVV := 0xcc002057%Z (only parsing).
Abbreviation MASK_VWSUBVV := 0xfc00707f%Z (only parsing).
Abbreviation MATCH_VWSUBVX := 0xcc006057%Z (only parsing).
Abbreviation MASK_VWSUBVX := 0xfc00707f%Z (only parsing).
Abbreviation MATCH_VWADDWV := 0xd4002057%Z (only parsing).
Abbreviation MASK_VWADDWV := 0xfc00707f%Z (only parsing).
Abbreviation MATCH_VWADDWX := 0xd4006057%Z (only parsing).
Abbreviation MASK_VWADDWX := 0xfc00707f%Z (only parsing).
Abbreviation MATCH_VWSUBWV := 0xdc002057%Z (only parsing).
Abbreviation MASK_VWSUBWV := 0xfc00707f%Z (only parsing).
Abbreviation MATCH_VWSUBWX := 0xdc006057%Z (only parsing).
Abbreviation MASK_VWSUBWX := 0xfc00707f%Z (only parsing).
Abbreviation MATCH_VWADDUVV := 0xc0002057%Z (only parsing).
Abbreviation MASK_VWADDUVV := 0xfc00707f%Z (only parsing).
Abbreviation MATCH_VWADDUVX := 0xc0006057%Z (only parsing).
Abbreviation MASK_VWADDUVX := 0xfc00707f%Z (only parsing).
Abbreviation MATCH_VWSUBUVV := 0xc8002057%Z (only parsing).
Abbreviation MASK_VWSUBUVV := 0xfc00707f%Z (only parsing).
Abbreviation MATCH_VWSUBUVX := 0xc8006057%Z (only parsing).
Abbreviation MASK_VWSUBUVX := 0xfc00707f%Z (only parsing).
Abbreviation MATCH_VWADDUWV := 0xd0002057%Z (only parsing).
Abbreviation MASK_VWADDUWV := 0xfc00707f%Z (only parsing).
Abbreviation MATCH_VWADDUWX := 0xd0006057%Z (only parsing).
Abbreviation MASK_VWADDUWX := 0xfc00707f%Z (only parsing).
Abbreviation MATCH_VWSUBUWV := 0xd8002057%Z (only parsing).
Abbreviation MASK_VWSUBUWV := 0xfc00707f%Z (only parsing).
Abbreviation MATCH_VWSUBUWX := 0xd8006057%Z (only parsing).
Abbreviation MASK_VWSUBUWX := 0xfc00707f%Z (only parsing).
Abbreviation MATCH_VZEXT_VF8 := 0x48012057%Z (only parsing).
Abbreviation MASK_VZEXT_VF8 := 0xfc0ff07f%Z (only parsing).
Abbreviation MATCH_VSEXT_VF8 := 0x4801a057%Z (only parsing).
Abbreviation MASK_VSEXT_VF8 := 0xfc0ff07f%Z (only parsing).
Abbreviation MATCH_VZEXT_VF4 := 0x48022057%Z (only parsing).
Abbreviation MASK_VZEXT_VF4 := 0xfc0ff07f%Z (only parsing).
Abbreviation MATCH_VSEXT_VF4 := 0x4802a057%Z (only parsing).
Abbreviation MASK_VSEXT_VF4 := 0xfc0ff07f%Z (only parsing).
Abbreviation MATCH_VZEXT_VF2 := 0x48032057%Z (only parsing).
Abbreviation MASK_VZEXT_VF2 := 0xfc0ff07f%Z (only parsing).
Abbreviation MATCH_VSEXT_VF2 := 0x4803a057%Z (only parsing).
Abbreviation MASK_VSEXT_VF2 := 0xfc0ff07f%Z (only parsing).
Abbreviation MATCH_VADCVVM := 0x40000057%Z (only parsing).
Abbreviation MASK_VADCVVM := 0xfe00707f%Z (only parsing).
Abbreviation MATCH_VADCVXM := 0x40004057%Z (only parsing).
Abbreviation MASK_VADCVXM := 0xfe00707f%Z (only parsing).
Abbreviation MATCH_VADCVIM := 0x40003057%Z (only parsing).
Abbreviation MASK_VADCVIM := 0xfe00707f%Z (only parsing).
Abbreviation MATCH_VMADCVVM := 0x44000057%Z (only parsing).
Abbreviation MASK_VMADCVVM := 0xfe00707f%Z (only parsing).
Abbreviation MATCH_VMADCVXM := 0x44004057%Z (only parsing).
Abbreviation MASK_VMADCVXM := 0xfe00707f%Z (only parsing).
Abbreviation MATCH_VMADCVIM := 0x44003057%Z (only parsing).
Abbreviation MASK_VMADCVIM := 0xfe00707f%Z (only parsing).
Abbreviation MATCH_VMADCVV := 0x46000057%Z (only parsing).
Abbreviation MASK_VMADCVV := 0xfe00707f%Z (only parsing).
Abbreviation MATCH_VMADCVX := 0x46004057%Z (only parsing).
Abbreviation MASK_VMADCVX := 0xfe00707f%Z (only parsing).
Abbreviation MATCH_VMADCVI := 0x46003057%Z (only parsing).
Abbreviation MASK_VMADCVI := 0xfe00707f%Z (only parsing).
Abbreviation MATCH_VSBCVVM := 0x48000057%Z (only parsing).
Abbreviation MASK_VSBCVVM := 0xfe00707f%Z (only parsing).
Abbreviation MATCH_VSBCVXM := 0x48004057%Z (only parsing).
Abbreviation MASK_VSBCVXM := 0xfe00707f%Z (only parsing).
Abbreviation MATCH_VMSBCVVM := 0x4c000057%Z (only parsing).
Abbreviation MASK_VMSBCVVM := 0xfe00707f%Z (only parsing).
Abbreviation MATCH_VMSBCVXM := 0x4c004057%Z (only parsing).
Abbreviation MASK_VMSBCVXM := 0xfe00707f%Z (only parsing).
Abbreviation MATCH_VMSBCVV := 0x4e000057%Z (only parsing).
Abbreviation MASK_VMSBCVV := 0xfe00707f%Z (only parsing).
Abbreviation MATCH_VMSBCVX := 0x4e004057%Z (only parsing).
Abbreviation MASK_VMSBCVX := 0xfe00707f%Z (only parsing).
Abbreviation MATCH_VNOTV := 0x2c0fb057%Z (only parsing).
Abbreviation MASK_VNOTV := 0xfc0ff07f%Z (only parsing).
Abbreviation MATCH_VANDVV := 0x24000057%Z (only parsing).
Abbreviation MASK_VANDVV := 0xfc00707f%Z (only parsing).
Abbreviation MATCH_VANDVX := 0x24004057%Z (only parsing).
Abbreviation MASK_VANDVX := 0xfc00707f%Z (only parsing).
Abbreviation MATCH_VANDVI := 0x24003057%Z (only parsing).
Abbreviation MASK_VANDVI := 0xfc00707f%Z (only parsing).
Abbreviation MATCH_VORVV := 0x28000057%Z (only parsing).
Abbreviation MASK_VORVV := 0xfc00707f%Z (only parsing).
Abbreviation MATCH_VORVX := 0x28004057%Z (only parsing).
Abbreviation MASK_VORVX := 0xfc00707f%Z (only parsing).
Abbreviation MATCH_VORVI := 0x28003057%Z (only parsing).
Abbreviation MASK_VORVI := 0xfc00707f%Z (only parsing).
Abbreviation MATCH_VXORVV := 0x2c000057%Z (only parsing).
Abbreviation MASK_VXORVV := 0xfc00707f%Z (only parsing).
Abbreviation MATCH_VXORVX := 0x2c004057%Z (only parsing).
Abbreviation MASK_VXORVX := 0xfc00707f%Z (only parsing).
Abbreviation MATCH_VXORVI := 0x2c003057%Z (only parsing).
Abbreviation MASK_VXORVI := 0xfc00707f%Z (only parsing).
Abbreviation MATCH_VSLLVV := 0x94000057%Z (only parsing).
Abbreviation MASK_VSLLVV := 0xfc00707f%Z (only parsing).
Abbreviation MATCH_VSLLVX := 0x94004057%Z (only parsing).
Abbreviation MASK_VSLLVX := 0xfc00707f%Z (only parsing).
Abbreviation MATCH_VSLLVI := 0x94003057%Z (only parsing).
Abbreviation MASK_VSLLVI := 0xfc00707f%Z (only parsing).
Abbreviation MATCH_VSRLVV := 0xa0000057%Z (only parsing).
Abbreviation MASK_VSRLVV := 0xfc00707f%Z (only parsing).
Abbreviation MATCH_VSRLVX := 0xa0004057%Z (only parsing).
Abbreviation MASK_VSRLVX := 0xfc00707f%Z (only parsing).
Abbreviation MATCH_VSRLVI := 0xa0003057%Z (only parsing).
Abbreviation MASK_VSRLVI := 0xfc00707f%Z (only parsing).
Abbreviation MATCH_VSRAVV := 0xa4000057%Z (only parsing).
Abbreviation MASK_VSRAVV := 0xfc00707f%Z (only parsing).
Abbreviation MATCH_VSRAVX := 0xa4004057%Z (only parsing).
Abbreviation MASK_VSRAVX := 0xfc00707f%Z (only parsing).
Abbreviation MATCH_VSRAVI := 0xa4003057%Z (only parsing).
Abbreviation MASK_VSRAVI := 0xfc00707f%Z (only parsing).
Abbreviation MATCH_VNCVTXXW := 0xb0004057%Z (only parsing).
Abbreviation MASK_VNCVTXXW := 0xfc0ff07f%Z (only parsing).
Abbreviation MATCH_VNSRLWV := 0xb0000057%Z (only parsing).
Abbreviation MASK_VNSRLWV := 0xfc00707f%Z (only parsing).
Abbreviation MATCH_VNSRLWX := 0xb0004057%Z (only parsing).
Abbreviation MASK_VNSRLWX := 0xfc00707f%Z (only parsing).
Abbreviation MATCH_VNSRLWI := 0xb0003057%Z (only parsing).
Abbreviation MASK_VNSRLWI := 0xfc00707f%Z (only parsing).
Abbreviation MATCH_VNSRAWV := 0xb4000057%Z (only parsing).
Abbreviation MASK_VNSRAWV := 0xfc00707f%Z (only parsing).
Abbreviation MATCH_VNSRAWX := 0xb4004057%Z (only parsing).
Abbreviation MASK_VNSRAWX := 0xfc00707f%Z (only parsing).
Abbreviation MATCH_VNSRAWI := 0xb4003057%Z (only parsing).
Abbreviation MASK_VNSRAWI := 0xfc00707f%Z (only parsing).
Abbreviation MATCH_VMSEQVV := 0x60000057%Z (only parsing).
Abbreviation MASK_VMSEQVV := 0xfc00707f%Z (only parsing).
Abbreviation MATCH_VMSEQVX := 0x60004057%Z (only parsing).
Abbreviation MASK_VMSEQVX := 0xfc00707f%Z (only parsing).
Abbreviation MATCH_VMSEQVI := 0x60003057%Z (only parsing).
Abbreviation MASK_VMSEQVI := 0xfc00707f%Z (only parsing).
Abbreviation MATCH_VMSNEVV := 0x64000057%Z (only parsing).
Abbreviation MASK_VMSNEVV := 0xfc00707f%Z (only parsing).
Abbreviation MATCH_VMSNEVX := 0x64004057%Z (only parsing).
Abbreviation MASK_VMSNEVX := 0xfc00707f%Z (only parsing).
Abbreviation MATCH_VMSNEVI := 0x64003057%Z (only parsing).
Abbreviation MASK_VMSNEVI := 0xfc00707f%Z (only parsing).
Abbreviation MATCH_VMSLTVV := 0x6c000057%Z (only parsing).
Abbreviation MASK_VMSLTVV := 0xfc00707f%Z (only parsing).
Abbreviation MATCH_VMSLTVX := 0x6c004057%Z (only parsing).
Abbreviation MASK_VMSLTVX := 0xfc00707f%Z (only parsing).
Abbreviation MATCH_VMSLTUVV := 0x68000057%Z (only parsing).
Abbreviation MASK_VMSLTUVV := 0xfc00707f%Z (only parsing).
Abbreviation MATCH_VMSLTUVX := 0x68004057%Z (only parsing).
Abbreviation MASK_VMSLTUVX := 0xfc00707f%Z (only parsing).
Abbreviation MATCH_VMSLEVV := 0x74000057%Z (only parsing).
Abbreviation MASK_VMSLEVV := 0xfc00707f%Z (only parsing).
Abbreviation MATCH_VMSLEVX := 0x74004057%Z (only parsing).
Abbreviation MASK_VMSLEVX := 0xfc00707f%Z (only parsing).
Abbreviation MATCH_VMSLEVI := 0x74003057%Z (only parsing).
Abbreviation MASK_VMSLEVI := 0xfc00707f%Z (only parsing).
Abbreviation MATCH_VMSLEUVV := 0x70000057%Z (only parsing).
Abbreviation MASK_VMSLEUVV := 0xfc00707f%Z (only parsing).
Abbreviation MATCH_VMSLEUVX := 0x70004057%Z (only parsing).
Abbreviation MASK_VMSLEUVX := 0xfc00707f%Z (only parsing).
Abbreviation MATCH_VMSLEUVI := 0x70003057%Z (only parsing).
Abbreviation MASK_VMSLEUVI := 0xfc00707f%Z (only parsing).
Abbreviation MATCH_VMSGTVX := 0x7c004057%Z (only parsing).
Abbreviation MASK_VMSGTVX := 0xfc00707f%Z (only parsing).
Abbreviation MATCH_VMSGTVI := 0x7c003057%Z (only parsing).
Abbreviation MASK_VMSGTVI := 0xfc00707f%Z (only parsing).
Abbreviation MATCH_VMSGTUVX := 0x78004057%Z (only parsing).
Abbreviation MASK_VMSGTUVX := 0xfc00707f%Z (only parsing).
Abbreviation MATCH_VMSGTUVI := 0x78003057%Z (only parsing).
Abbreviation MASK_VMSGTUVI := 0xfc00707f%Z (only parsing).
Abbreviation MATCH_VMINVV := 0x14000057%Z (only parsing).
Abbreviation MASK_VMINVV := 0xfc00707f%Z (only parsing).
Abbreviation MATCH_VMINVX := 0x14004057%Z (only parsing).
Abbreviation MASK_VMINVX := 0xfc00707f%Z (only parsing).
Abbreviation MATCH_VMAXVV := 0x1c000057%Z (only parsing).
Abbreviation MASK_VMAXVV := 0xfc00707f%Z (only parsing).
Abbreviation MATCH_VMAXVX := 0x1c004057%Z (only parsing).
Abbreviation MASK_VMAXVX := 0xfc00707f%Z (only parsing).
Abbreviation MATCH_VMINUVV := 0x10000057%Z (only parsing).
Abbreviation MASK_VMINUVV := 0xfc00707f%Z (only parsing).
Abbreviation MATCH_VMINUVX := 0x10004057%Z (only parsing).
Abbreviation MASK_VMINUVX := 0xfc00707f%Z (only parsing).
Abbreviation MATCH_VMAXUVV := 0x18000057%Z (only parsing).
Abbreviation MASK_VMAXUVV := 0xfc00707f%Z (only parsing).
Abbreviation MATCH_VMAXUVX := 0x18004057%Z (only parsing).
Abbreviation MASK_VMAXUVX := 0xfc00707f%Z (only parsing).
Abbreviation MATCH_VMULVV := 0x94002057%Z (only parsing).
Abbreviation MASK_VMULVV := 0xfc00707f%Z (only parsing).
Abbreviation MATCH_VMULVX := 0x94006057%Z (only parsing).
Abbreviation MASK_VMULVX := 0xfc00707f%Z (only parsing).
Abbreviation MATCH_VMULHVV := 0x9c002057%Z (only parsing).
Abbreviation MASK_VMULHVV := 0xfc00707f%Z (only parsing).
Abbreviation MATCH_VMULHVX := 0x9c006057%Z (only parsing).
Abbreviation MASK_VMULHVX := 0xfc00707f%Z (only parsing).
Abbreviation MATCH_VMULHUVV := 0x90002057%Z (only parsing).
Abbreviation MASK_VMULHUVV := 0xfc00707f%Z (only parsing).
Abbreviation MATCH_VMULHUVX := 0x90006057%Z (only parsing).
Abbreviation MASK_VMULHUVX := 0xfc00707f%Z (only parsing).
Abbreviation MATCH_VMULHSUVV := 0x98002057%Z (only parsing).
Abbreviation MASK_VMULHSUVV := 0xfc00707f%Z (only parsing).
Abbreviation MATCH_VMULHSUVX := 0x98006057%Z (only parsing).
Abbreviation MASK_VMULHSUVX := 0xfc00707f%Z (only parsing).
Abbreviation MATCH_VWMULVV := 0xec002057%Z (only parsing).
Abbreviation MASK_VWMULVV := 0xfc00707f%Z (only parsing).
Abbreviation MATCH_VWMULVX := 0xec006057%Z (only parsing).
Abbreviation MASK_VWMULVX := 0xfc00707f%Z (only parsing).
Abbreviation MATCH_VWMULUVV := 0xe0002057%Z (only parsing).
Abbreviation MASK_VWMULUVV := 0xfc00707f%Z (only parsing).
Abbreviation MATCH_VWMULUVX := 0xe0006057%Z (only parsing).
Abbreviation MASK_VWMULUVX := 0xfc00707f%Z (only parsing).
Abbreviation MATCH_VWMULSUVV := 0xe8002057%Z (only parsing).
Abbreviation MASK_VWMULSUVV := 0xfc00707f%Z (only parsing).
Abbreviation MATCH_VWMULSUVX := 0xe8006057%Z (only parsing).
Abbreviation MASK_VWMULSUVX := 0xfc00707f%Z (only parsing).
Abbreviation MATCH_VMACCVV := 0xb4002057%Z (only parsing).
Abbreviation MASK_VMACCVV := 0xfc00707f%Z (only parsing).
Abbreviation MATCH_VMACCVX := 0xb4006057%Z (only parsing).
Abbreviation MASK_VMACCVX := 0xfc00707f%Z (only parsing).
Abbreviation MATCH_VNMSACVV := 0xbc002057%Z (only parsing).
Abbreviation MASK_VNMSACVV := 0xfc00707f%Z (only parsing).
Abbreviation MATCH_VNMSACVX := 0xbc006057%Z (only parsing).
Abbreviation MASK_VNMSACVX := 0xfc00707f%Z (only parsing).
Abbreviation MATCH_VMADDVV := 0xa4002057%Z (only parsing).
Abbreviation MASK_VMADDVV := 0xfc00707f%Z (only parsing).
Abbreviation MATCH_VMADDVX := 0xa4006057%Z (only parsing).
Abbreviation MASK_VMADDVX := 0xfc00707f%Z (only parsing).
Abbreviation MATCH_VNMSUBVV := 0xac002057%Z (only parsing).
Abbreviation MASK_VNMSUBVV := 0xfc00707f%Z (only parsing).
Abbreviation MATCH_VNMSUBVX := 0xac006057%Z (only parsing).
Abbreviation MASK_VNMSUBVX := 0xfc00707f%Z (only parsing).
Abbreviation MATCH_VWMACCUVV := 0xf0002057%Z (only parsing).
Abbreviation MASK_VWMACCUVV := 0xfc00707f%Z (only parsing).
Abbreviation MATCH_VWMACCUVX := 0xf0006057%Z (only parsing).
Abbreviation MASK_VWMACCUVX := 0xfc00707f%Z (only parsing).
Abbreviation MATCH_VWMACCVV := 0xf4002057%Z (only parsing).
Abbreviation MASK_VWMACCVV := 0xfc00707f%Z (only parsing).
Abbreviation MATCH_VWMACCVX := 0xf4006057%Z (only parsing).
Abbreviation MASK_VWMACCVX := 0xfc00707f%Z (only parsing).
Abbreviation MATCH_VWMACCSUVV := 0xfc002057%Z (only parsing).
Abbreviation MASK_VWMACCSUVV := 0xfc00707f%Z (only parsing).
Abbreviation MATCH_VWMACCSUVX := 0xfc006057%Z (only parsing).
Abbreviation MASK_VWMACCSUVX := 0xfc00707f%Z (only parsing).
Abbreviation MATCH_VWMACCUSVX := 0xf8006057%Z (only parsing).
Abbreviation MASK_VWMACCUSVX := 0xfc00707f%Z (only parsing).
Abbreviation MATCH_VQMACCUVV := 0xf0000057%Z (only parsing).
Abbreviation MASK_VQMACCUVV := 0xfc00707f%Z (only parsing).
Abbreviation MATCH_VQMACCUVX := 0xf0004057%Z (only parsing).
Abbreviation MASK_VQMACCUVX := 0xfc00707f%Z (only parsing).
Abbreviation MATCH_VQMACCVV := 0xf4000057%Z (only parsing).
Abbreviation MASK_VQMACCVV := 0xfc00707f%Z (only parsing).
Abbreviation MATCH_VQMACCVX := 0xf4004057%Z (only parsing).
Abbreviation MASK_VQMACCVX := 0xfc00707f%Z (only parsing).
Abbreviation MATCH_VQMACCSUVV := 0xfc000057%Z (only parsing).
Abbreviation MASK_VQMACCSUVV := 0xfc00707f%Z (only parsing).
Abbreviation MATCH_VQMACCSUVX := 0xfc004057%Z (only parsing).
Abbreviation MASK_VQMACCSUVX := 0xfc00707f%Z (only parsing).
Abbreviation MATCH_VQMACCUSVX := 0xf8004057%Z (only parsing).
Abbreviation MASK_VQMACCUSVX := 0xfc00707f%Z (only parsing).
Abbreviation MATCH_VDIVVV := 0x84002057%Z (only parsing).
Abbreviation MASK_VDIVVV := 0xfc00707f%Z (only parsing).
Abbreviation MATCH_VDIVVX := 0x84006057%Z (only parsing).
Abbreviation MASK_VDIVVX := 0xfc00707f%Z (only parsing).
Abbreviation MATCH_VDIVUVV := 0x80002057%Z (only parsing).
Abbreviation MASK_VDIVUVV := 0xfc00707f%Z (only parsing).
Abbreviation MATCH_VDIVUVX := 0x80006057%Z (only parsing).
Abbreviation MASK_VDIVUVX := 0xfc00707f%Z (only parsing).
Abbreviation MATCH_VREMVV := 0x8c002057%Z (only parsing).
Abbreviation MASK_VREMVV := 0xfc00707f%Z (only parsing).
Abbreviation MATCH_VREMVX := 0x8c006057%Z (only parsing).
Abbreviation MASK_VREMVX := 0xfc00707f%Z (only parsing).
Abbreviation MATCH_VREMUVV := 0x88002057%Z (only parsing).
Abbreviation MASK_VREMUVV := 0xfc00707f%Z (only parsing).
Abbreviation MATCH_VREMUVX := 0x88006057%Z (only parsing).
Abbreviation MASK_VREMUVX := 0xfc00707f%Z (only parsing).
Abbreviation MATCH_VMERGEVVM := 0x5c000057%Z (only parsing).
Abbreviation MASK_VMERGEVVM := 0xfe00707f%Z (only parsing).
Abbreviation MATCH_VMERGEVXM := 0x5c004057%Z (only parsing).
Abbreviation MASK_VMERGEVXM := 0xfe00707f%Z (only parsing).
Abbreviation MATCH_VMERGEVIM := 0x5c003057%Z (only parsing).
Abbreviation MASK_VMERGEVIM := 0xfe00707f%Z (only parsing).
Abbreviation MATCH_VMVVV := 0x5e000057%Z (only parsing).
Abbreviation MASK_VMVVV := 0xfff0707f%Z (only parsing).
Abbreviation MATCH_VMVVX := 0x5e004057%Z (only parsing).
Abbreviation MASK_VMVVX := 0xfff0707f%Z (only parsing).
Abbreviation MATCH_VMVVI := 0x5e003057%Z (only parsing).
Abbreviation MASK_VMVVI := 0xfff0707f%Z (only parsing).
Abbreviation MATCH_VSADDUVV := 0x80000057%Z (only parsing).
Abbreviation MASK_VSADDUVV := 0xfc00707f%Z (only parsing).
Abbreviation MATCH_VSADDUVX := 0x80004057%Z (only parsing).
Abbreviation MASK_VSADDUVX := 0xfc00707f%Z (only parsing).
Abbreviation MATCH_VSADDUVI := 0x80003057%Z (only parsing).
Abbreviation MASK_VSADDUVI := 0xfc00707f%Z (only parsing).
Abbreviation MATCH_VSADDVV := 0x84000057%Z (only parsing).
Abbreviation MASK_VSADDVV := 0xfc00707f%Z (only parsing).
Abbreviation MATCH_VSADDVX := 0x84004057%Z (only parsing).
Abbreviation MASK_VSADDVX := 0xfc00707f%Z (only parsing).
Abbreviation MATCH_VSADDVI := 0x84003057%Z (only parsing).
Abbreviation MASK_VSADDVI := 0xfc00707f%Z (only parsing).
Abbreviation MATCH_VSSUBUVV := 0x88000057%Z (only parsing).
Abbreviation MASK_VSSUBUVV := 0xfc00707f%Z (only parsing).
Abbreviation MATCH_VSSUBUVX := 0x88004057%Z (only parsing).
Abbreviation MASK_VSSUBUVX := 0xfc00707f%Z (only parsing).
Abbreviation MATCH_VSSUBVV := 0x8c000057%Z (only parsing).
Abbreviation MASK_VSSUBVV := 0xfc00707f%Z (only parsing).
Abbreviation MATCH_VSSUBVX := 0x8c004057%Z (only parsing).
Abbreviation MASK_VSSUBVX := 0xfc00707f%Z (only parsing).
Abbreviation MATCH_VAADDUVV := 0x20002057%Z (only parsing).
Abbreviation MASK_VAADDUVV := 0xfc00707f%Z (only parsing).
Abbreviation MATCH_VAADDUVX := 0x20006057%Z (only parsing).
Abbreviation MASK_VAADDUVX := 0xfc00707f%Z (only parsing).
Abbreviation MATCH_VAADDVV := 0x24002057%Z (only parsing).
Abbreviation MASK_VAADDVV := 0xfc00707f%Z (only parsing).
Abbreviation MATCH_VAADDVX := 0x24006057%Z (only parsing).
Abbreviation MASK_VAADDVX := 0xfc00707f%Z (only parsing).
Abbreviation MATCH_VASUBUVV := 0x28002057%Z (only parsing).
Abbreviation MASK_VASUBUVV := 0xfc00707f%Z (only parsing).
Abbreviation MATCH_VASUBUVX := 0x28006057%Z (only parsing).
Abbreviation MASK_VASUBUVX := 0xfc00707f%Z (only parsing).
Abbreviation MATCH_VASUBVV := 0x2c002057%Z (only parsing).
Abbreviation MASK_VASUBVV := 0xfc00707f%Z (only parsing).
Abbreviation MATCH_VASUBVX := 0x2c006057%Z (only parsing).
Abbreviation MASK_VASUBVX := 0xfc00707f%Z (only parsing).
Abbreviation MATCH_VSMULVV := 0x9c000057%Z (only parsing).
Abbreviation MASK_VSMULVV := 0xfc00707f%Z (only parsing).
Abbreviation MATCH_VSMULVX := 0x9c004057%Z (only parsing).
Abbreviation MASK_VSMULVX := 0xfc00707f%Z (only parsing).
Abbreviation MATCH_VSSRLVV := 0xa8000057%Z (only parsing).
Abbreviation MASK_VSSRLVV := 0xfc00707f%Z (only parsing).
Abbreviation MATCH_VSSRLVX := 0xa8004057%Z (only parsing).
Abbreviation MASK_VSSRLVX := 0xfc00707f%Z (only parsing).
Abbreviation MATCH_VSSRLVI := 0xa8003057%Z (only parsing).
Abbreviation MASK_VSSRLVI := 0xfc00707f%Z (only parsing).
Abbreviation MATCH_VSSRAVV := 0xac000057%Z (only parsing).
Abbreviation MASK_VSSRAVV := 0xfc00707f%Z (only parsing).
Abbreviation MATCH_VSSRAVX := 0xac004057%Z (only parsing).
Abbreviation MASK_VSSRAVX := 0xfc00707f%Z (only parsing).
Abbreviation MATCH_VSSRAVI := 0xac003057%Z (only parsing).
Abbreviation MASK_VSSRAVI := 0xfc00707f%Z (only parsing).
Abbreviation MATCH_VNCLIPUWV := 0xb8000057%Z (only parsing).
Abbreviation MASK_VNCLIPUWV := 0xfc00707f%Z (only parsing).
Abbreviation MATCH_VNCLIPUWX := 0xb8004057%Z (only parsing).
Abbreviation MASK_VNCLIPUWX := 0xfc00707f%Z (only parsing).
Abbreviation MATCH_VNCLIPUWI := 0xb8003057%Z (only parsing).
Abbreviation MASK_VNCLIPUWI := 0xfc00707f%Z (only parsing).
Abbreviation MATCH_VNCLIPWV := 0xbc000057%Z (only parsing).
Abbreviation MASK_VNCLIPWV := 0xfc00707f%Z (only parsing).
Abbreviation MATCH_VNCLIPWX := 0xbc004057%Z (only parsing).
Abbreviation MASK_VNCLIPWX := 0xfc00707f%Z (only parsing).
Abbreviation MATCH_VNCLIPWI := 0xbc003057%Z (only parsing).
Abbreviation MASK_VNCLIPWI := 0xfc00707f%Z (only parsing).
Abbreviation MATCH_VFADDVV := 0x00001057%Z (only parsing).
Abbreviation MASK_VFADDVV := 0xfc00707f%Z (only parsing).
Abbreviation MATCH_VFADDVF := 0x00005057%Z (only parsing).
Abbreviation MASK_VFADDVF := 0xfc00707f%Z (only parsing).
Abbreviation MATCH_VFSUBVV := 0x08001057%Z (only parsing).
Abbreviation MASK_VFSUBVV := 0xfc00707f%Z (only parsing).
Abbreviation MATCH_VFSUBVF := 0x08005057%Z (only parsing).
Abbreviation MASK_VFSUBVF := 0xfc00707f%Z (only parsing).
Abbreviation MATCH_VFRSUBVF := 0x9c005057%Z (only parsing).
Abbreviation MASK_VFRSUBVF := 0xfc00707f%Z (only parsing).
Abbreviation MATCH_VFWADDVV := 0xc0001057%Z (only parsing).
Abbreviation MASK_VFWADDVV := 0xfc00707f%Z (only parsing).
Abbreviation MATCH_VFWADDVF := 0xc0005057%Z (only parsing).
Abbreviation MASK_VFWADDVF := 0xfc00707f%Z (only parsing).
Abbreviation MATCH_VFWSUBVV := 0xc8001057%Z (only parsing).
Abbreviation MASK_VFWSUBVV := 0xfc00707f%Z (only parsing).
Abbreviation MATCH_VFWSUBVF := 0xc8005057%Z (only parsing).
Abbreviation MASK_VFWSUBVF := 0xfc00707f%Z (only parsing).
Abbreviation MATCH_VFWADDWV := 0xd0001057%Z (only parsing).
Abbreviation MASK_VFWADDWV := 0xfc00707f%Z (only parsing).
Abbreviation MATCH_VFWADDWF := 0xd0005057%Z (only parsing).
Abbreviation MASK_VFWADDWF := 0xfc00707f%Z (only parsing).
Abbreviation MATCH_VFWSUBWV := 0xd8001057%Z (only parsing).
Abbreviation MASK_VFWSUBWV := 0xfc00707f%Z (only parsing).
Abbreviation MATCH_VFWSUBWF := 0xd8005057%Z (only parsing).
Abbreviation MASK_VFWSUBWF := 0xfc00707f%Z (only parsing).
Abbreviation MATCH_VFMULVV := 0x90001057%Z (only parsing).
Abbreviation MASK_VFMULVV := 0xfc00707f%Z (only parsing).
Abbreviation MATCH_VFMULVF := 0x90005057%Z (only parsing).
Abbreviation MASK_VFMULVF := 0xfc00707f%Z (only parsing).
Abbreviation MATCH_VFDIVVV := 0x80001057%Z (only parsing).
Abbreviation MASK_VFDIVVV := 0xfc00707f%Z (only parsing).
Abbreviation MATCH_VFDIVVF := 0x80005057%Z (only parsing).
Abbreviation MASK_VFDIVVF := 0xfc00707f%Z (only parsing).
Abbreviation MATCH_VFRDIVVF := 0x84005057%Z (only parsing).
Abbreviation MASK_VFRDIVVF := 0xfc00707f%Z (only parsing).
Abbreviation MATCH_VFWMULVV := 0xe0001057%Z (only parsing).
Abbreviation MASK_VFWMULVV := 0xfc00707f%Z (only parsing).
Abbreviation MATCH_VFWMULVF := 0xe0005057%Z (only parsing).
Abbreviation MASK_VFWMULVF := 0xfc00707f%Z (only parsing).
Abbreviation MATCH_VFMADDVV := 0xa0001057%Z (only parsing).
Abbreviation MASK_VFMADDVV := 0xfc00707f%Z (only parsing).
Abbreviation MATCH_VFMADDVF := 0xa0005057%Z (only parsing).
Abbreviation MASK_VFMADDVF := 0xfc00707f%Z (only parsing).
Abbreviation MATCH_VFNMADDVV := 0xa4001057%Z (only parsing).
Abbreviation MASK_VFNMADDVV := 0xfc00707f%Z (only parsing).
Abbreviation MATCH_VFNMADDVF := 0xa4005057%Z (only parsing).
Abbreviation MASK_VFNMADDVF := 0xfc00707f%Z (only parsing).
Abbreviation MATCH_VFMSUBVV := 0xa8001057%Z (only parsing).
Abbreviation MASK_VFMSUBVV := 0xfc00707f%Z (only parsing).
Abbreviation MATCH_VFMSUBVF := 0xa8005057%Z (only parsing).
Abbreviation MASK_VFMSUBVF := 0xfc00707f%Z (only parsing).
Abbreviation MATCH_VFNMSUBVV := 0xac001057%Z (only parsing).
Abbreviation MASK_VFNMSUBVV := 0xfc00707f%Z (only parsing).
Abbreviation MATCH_VFNMSUBVF := 0xac005057%Z (only parsing).
Abbreviation MASK_VFNMSUBVF := 0xfc00707f%Z (only parsing).
Abbreviation MATCH_VFMACCVV := 0xb0001057%Z (only parsing).
Abbreviation MASK_VFMACCVV := 0xfc00707f%Z (only parsing).
Abbreviation MATCH_VFMACCVF := 0xb0005057%Z (only parsing).
Abbreviation MASK_VFMACCVF := 0xfc00707f%Z (only parsing).
Abbreviation MATCH_VFNMACCVV := 0xb4001057%Z (only parsing).
Abbreviation MASK_VFNMACCVV := 0xfc00707f%Z (only parsing).
Abbreviation MATCH_VFNMACCVF := 0xb4005057%Z (only parsing).
Abbreviation MASK_VFNMACCVF := 0xfc00707f%Z (only parsing).
Abbreviation MATCH_VFMSACVV := 0xb8001057%Z (only parsing).
Abbreviation MASK_VFMSACVV := 0xfc00707f%Z (only parsing).
Abbreviation MATCH_VFMSACVF := 0xb8005057%Z (only parsing).
Abbreviation MASK_VFMSACVF := 0xfc00707f%Z (only parsing).
Abbreviation MATCH_VFNMSACVV := 0xbc001057%Z (only parsing).
Abbreviation MASK_VFNMSACVV := 0xfc00707f%Z (only parsing).
Abbreviation MATCH_VFNMSACVF := 0xbc005057%Z (only parsing).
Abbreviation MASK_VFNMSACVF := 0xfc00707f%Z (only parsing).
Abbreviation MATCH_VFWMACCVV := 0xf0001057%Z (only parsing).
Abbreviation MASK_VFWMACCVV := 0xfc00707f%Z (only parsing).
Abbreviation MATCH_VFWMACCVF := 0xf0005057%Z (only parsing).
Abbreviation MASK_VFWMACCVF := 0xfc00707f%Z (only parsing).
Abbreviation MATCH_VFWNMACCVV := 0xf4001057%Z (only parsing).
Abbreviation MASK_VFWNMACCVV := 0xfc00707f%Z (only parsing).
Abbreviation MATCH_VFWNMACCVF := 0xf4005057%Z (only parsing).
Abbreviation MASK_VFWNMACCVF := 0xfc00707f%Z (only parsing).
Abbreviation MATCH_VFWMSACVV := 0xf8001057%Z (only parsing).
Abbreviation MASK_VFWMSACVV := 0xfc00707f%Z (only parsing).
Abbreviation MATCH_VFWMSACVF := 0xf8005057%Z (only parsing).
Abbreviation MASK_VFWMSACVF := 0xfc00707f%Z (only parsing).
Abbreviation MATCH_VFWNMSACVV := 0xfc001057%Z (only parsing).
Abbreviation MASK_VFWNMSACVV := 0xfc00707f%Z (only parsing).
Abbreviation MATCH_VFWNMSACVF := 0xfc005057%Z (only parsing).
Abbreviation MASK_VFWNMSACVF := 0xfc00707f%Z (only parsing).
Abbreviation MATCH_VFSQRTV := 0x4c001057%Z (only parsing).
Abbreviation MASK_VFSQRTV := 0xfc0ff07f%Z (only parsing).
Abbreviation MATCH_VFRSQRT7V := 0x4c021057%Z (only parsing).
Abbreviation MASK_VFRSQRT7V := 0xfc0ff07f%Z (only parsing).
Abbreviation MATCH_VFREC7V := 0x4c029057%Z (only parsing).
Abbreviation MASK_VFREC7V := 0xfc0ff07f%Z (only parsing).
Abbreviation MATCH_VFCLASSV := 0x4c081057%Z (only parsing).
Abbreviation MASK_VFCLASSV := 0xfc0ff07f%Z (only parsing).
Abbreviation MATCH_VFMINVV := 0x10001057%Z (only parsing).
Abbreviation MASK_VFMINVV := 0xfc00707f%Z (only parsing).
Abbreviation MATCH_VFMINVF := 0x10005057%Z (only parsing).
Abbreviation MASK_VFMINVF := 0xfc00707f%Z (only parsing).
Abbreviation MATCH_VFMAXVV := 0x18001057%Z (only parsing).
Abbreviation MASK_VFMAXVV := 0xfc00707f%Z (only parsing).
Abbreviation MATCH_VFMAXVF := 0x18005057%Z (only parsing).
Abbreviation MASK_VFMAXVF := 0xfc00707f%Z (only parsing).
Abbreviation MATCH_VFSGNJVV := 0x20001057%Z (only parsing).
Abbreviation MASK_VFSGNJVV := 0xfc00707f%Z (only parsing).
Abbreviation MATCH_VFSGNJVF := 0x20005057%Z (only parsing).
Abbreviation MASK_VFSGNJVF := 0xfc00707f%Z (only parsing).
Abbreviation MATCH_VFSGNJNVV := 0x24001057%Z (only parsing).
Abbreviation MASK_VFSGNJNVV := 0xfc00707f%Z (only parsing).
Abbreviation MATCH_VFSGNJNVF := 0x24005057%Z (only parsing).
Abbreviation MASK_VFSGNJNVF := 0xfc00707f%Z (only parsing).
Abbreviation MATCH_VFSGNJXVV := 0x28001057%Z (only parsing).
Abbreviation MASK_VFSGNJXVV := 0xfc00707f%Z (only parsing).
Abbreviation MATCH_VFSGNJXVF := 0x28005057%Z (only parsing).
Abbreviation MASK_VFSGNJXVF := 0xfc00707f%Z (only parsing).
Abbreviation MATCH_VMFEQVV := 0x60001057%Z (only parsing).
Abbreviation MASK_VMFEQVV := 0xfc00707f%Z (only parsing).
Abbreviation MATCH_VMFEQVF := 0x60005057%Z (only parsing).
Abbreviation MASK_VMFEQVF := 0xfc00707f%Z (only parsing).
Abbreviation MATCH_VMFNEVV := 0x70001057%Z (only parsing).
Abbreviation MASK_VMFNEVV := 0xfc00707f%Z (only parsing).
Abbreviation MATCH_VMFNEVF := 0x70005057%Z (only parsing).
Abbreviation MASK_VMFNEVF := 0xfc00707f%Z (only parsing).
Abbreviation MATCH_VMFLTVV := 0x6c001057%Z (only parsing).
Abbreviation MASK_VMFLTVV := 0xfc00707f%Z (only parsing).
Abbreviation MATCH_VMFLTVF := 0x6c005057%Z (only parsing).
Abbreviation MASK_VMFLTVF := 0xfc00707f%Z (only parsing).
Abbreviation MATCH_VMFLEVV := 0x64001057%Z (only parsing).
Abbreviation MASK_VMFLEVV := 0xfc00707f%Z (only parsing).
Abbreviation MATCH_VMFLEVF := 0x64005057%Z (only parsing).
Abbreviation MASK_VMFLEVF := 0xfc00707f%Z (only parsing).
Abbreviation MATCH_VMFGTVF := 0x74005057%Z (only parsing).
Abbreviation MASK_VMFGTVF := 0xfc00707f%Z (only parsing).
Abbreviation MATCH_VMFGEVF := 0x7c005057%Z (only parsing).
Abbreviation MASK_VMFGEVF := 0xfc00707f%Z (only parsing).
Abbreviation MATCH_VFMERGEVFM := 0x5c005057%Z (only parsing).
Abbreviation MASK_VFMERGEVFM := 0xfe00707f%Z (only parsing).
Abbreviation MATCH_VFMVVF := 0x5e005057%Z (only parsing).
Abbreviation MASK_VFMVVF := 0xfff0707f%Z (only parsing).
Abbreviation MATCH_VFCVTXUFV := 0x48001057%Z (only parsing).
Abbreviation MASK_VFCVTXUFV := 0xfc0ff07f%Z (only parsing).
Abbreviation MATCH_VFCVTXFV := 0x48009057%Z (only parsing).
Abbreviation MASK_VFCVTXFV := 0xfc0ff07f%Z (only parsing).
Abbreviation MATCH_VFCVTFXUV := 0x48011057%Z (only parsing).
Abbreviation MASK_VFCVTFXUV := 0xfc0ff07f%Z (only parsing).
Abbreviation MATCH_VFCVTFXV := 0x48019057%Z (only parsing).
Abbreviation MASK_VFCVTFXV := 0xfc0ff07f%Z (only parsing).
Abbreviation MATCH_VFCVTRTZXUFV := 0x48031057%Z (only parsing).
Abbreviation MASK_VFCVTRTZXUFV := 0xfc0ff07f%Z (only parsing).
Abbreviation MATCH_VFCVTRTZXFV := 0x48039057%Z (only parsing).
Abbreviation MASK_VFCVTRTZXFV := 0xfc0ff07f%Z (only parsing).
Abbreviation MATCH_VFWCVTXUFV := 0x48041057%Z (only parsing).
Abbreviation MASK_VFWCVTXUFV := 0xfc0ff07f%Z (only parsing).
Abbreviation MATCH_VFWCVTXFV := 0x48049057%Z (only parsing).
Abbreviation MASK_VFWCVTXFV := 0xfc0ff07f%Z (only parsing).
Abbreviation MATCH_VFWCVTFXUV := 0x48051057%Z (only parsing).
Abbreviation MASK_VFWCVTFXUV := 0xfc0ff07f%Z (only parsing).
Abbreviation MATCH_VFWCVTFXV := 0x48059057%Z (only parsing).
Abbreviation MASK_VFWCVTFXV := 0xfc0ff07f%Z (only parsing).
Abbreviation MATCH_VFWCVTFFV := 0x48061057%Z (only parsing).
Abbreviation MASK_VFWCVTFFV := 0xfc0ff07f%Z (only parsing).
Abbreviation MATCH_VFWCVTRTZXUFV := 0x48071057%Z (only parsing).
Abbreviation MASK_VFWCVTRTZXUFV := 0xfc0ff07f%Z (only parsing).
Abbreviation MATCH_VFWCVTRTZXFV := 0x48079057%Z (only parsing).
Abbreviation MASK_VFWCVTRTZXFV := 0xfc0ff07f%Z (only parsing).
Abbreviation MATCH_VFNCVTXUFW := 0x48081057%Z (only parsing).
Abbreviation MASK_VFNCVTXUFW := 0xfc0ff07f%Z (only parsing).
Abbreviation MATCH_VFNCVTXFW := 0x48089057%Z (only parsing).
Abbreviation MASK_VFNCVTXFW := 0xfc0ff07f%Z (only parsing).
Abbreviation MATCH_VFNCVTFXUW := 0x48091057%Z (only parsing).
Abbreviation MASK_VFNCVTFXUW := 0xfc0ff07f%Z (only parsing).
Abbreviation MATCH_VFNCVTFXW := 0x48099057%Z (only parsing).
Abbreviation MASK_VFNCVTFXW := 0xfc0ff07f%Z (only parsing).
Abbreviation MATCH_VFNCVTFFW := 0x480a1057%Z (only parsing).
Abbreviation MASK_VFNCVTFFW := 0xfc0ff07f%Z (only parsing).
Abbreviation MATCH_VFNCVTRODFFW := 0x480a9057%Z (only parsing).
Abbreviation MASK_VFNCVTRODFFW := 0xfc0ff07f%Z (only parsing).
Abbreviation MATCH_VFNCVTRTZXUFW := 0x480b1057%Z (only parsing).
Abbreviation MASK_VFNCVTRTZXUFW := 0xfc0ff07f%Z (only parsing).
Abbreviation MATCH_VFNCVTRTZXFW := 0x480b9057%Z (only parsing).
Abbreviation MASK_VFNCVTRTZXFW := 0xfc0ff07f%Z (only parsing).
Abbreviation MATCH_VREDSUMVS := 0x00002057%Z (only parsing).
Abbreviation MASK_VREDSUMVS := 0xfc00707f%Z (only parsing).
Abbreviation MATCH_VREDMAXVS := 0x1c002057%Z (only parsing).
Abbreviation MASK_VREDMAXVS := 0xfc00707f%Z (only parsing).
Abbreviation MATCH_VREDMAXUVS := 0x18002057%Z (only parsing).
Abbreviation MASK_VREDMAXUVS := 0xfc00707f%Z (only parsing).
Abbreviation MATCH_VREDMINVS := 0x14002057%Z (only parsing).
Abbreviation MASK_VREDMINVS := 0xfc00707f%Z (only parsing).
Abbreviation MATCH_VREDMINUVS := 0x10002057%Z (only parsing).
Abbreviation MASK_VREDMINUVS := 0xfc00707f%Z (only parsing).
Abbreviation MATCH_VREDANDVS := 0x04002057%Z (only parsing).
Abbreviation MASK_VREDANDVS := 0xfc00707f%Z (only parsing).
Abbreviation MATCH_VREDORVS := 0x08002057%Z (only parsing).
Abbreviation MASK_VREDORVS := 0xfc00707f%Z (only parsing).
Abbreviation MATCH_VREDXORVS := 0x0c002057%Z (only parsing).
Abbreviation MASK_VREDXORVS := 0xfc00707f%Z (only parsing).
Abbreviation MATCH_VWREDSUMUVS := 0xc0000057%Z (only parsing).
Abbreviation MASK_VWREDSUMUVS := 0xfc00707f%Z (only parsing).
Abbreviation MATCH_VWREDSUMVS := 0xc4000057%Z (only parsing).
Abbreviation MASK_VWREDSUMVS := 0xfc00707f%Z (only parsing).
Abbreviation MATCH_VFREDOSUMVS := 0x0c001057%Z (only parsing).
Abbreviation MASK_VFREDOSUMVS := 0xfc00707f%Z (only parsing).
Abbreviation MATCH_VFREDUSUMVS := 0x04001057%Z (only parsing).
Abbreviation MASK_VFREDUSUMVS := 0xfc00707f%Z (only parsing).
Abbreviation MATCH_VFREDMAXVS := 0x1c001057%Z (only parsing).
Abbreviation MASK_VFREDMAXVS := 0xfc00707f%Z (only parsing).
Abbreviation MATCH_VFREDMINVS := 0x14001057%Z (only parsing).
Abbreviation MASK_VFREDMINVS := 0xfc00707f%Z (only parsing).
Abbreviation MATCH_VFWREDOSUMVS := 0xcc001057%Z (only parsing).
Abbreviation MASK_VFWREDOSUMVS := 0xfc00707f%Z (only parsing).
Abbreviation MATCH_VFWREDUSUMVS := 0xc4001057%Z (only parsing).
Abbreviation MASK_VFWREDUSUMVS := 0xfc00707f%Z (only parsing).
Abbreviation MATCH_VMANDMM := 0x66002057%Z (only parsing).
Abbreviation MASK_VMANDMM := 0xfe00707f%Z (only parsing).
Abbreviation MATCH_VMNANDMM := 0x76002057%Z (only parsing).
Abbreviation MASK_VMNANDMM := 0xfe00707f%Z (only parsing).
Abbreviation MATCH_VMANDNMM := 0x62002057%Z (only parsing).
Abbreviation MASK_VMANDNMM := 0xfe00707f%Z (only parsing).
Abbreviation MATCH_VMXORMM := 0x6e002057%Z (only parsing).
Abbreviation MASK_VMXORMM := 0xfe00707f%Z (only parsing).
Abbreviation MATCH_VMORMM := 0x6a002057%Z (only parsing).
Abbreviation MASK_VMORMM := 0xfe00707f%Z (only parsing).
Abbreviation MATCH_VMNORMM := 0x7a002057%Z (only parsing).
Abbreviation MASK_VMNORMM := 0xfe00707f%Z (only parsing).
Abbreviation MATCH_VMORNMM := 0x72002057%Z (only parsing).
Abbreviation MASK_VMORNMM := 0xfe00707f%Z (only parsing).
Abbreviation MATCH_VMXNORMM := 0x7e002057%Z (only parsing).
Abbreviation MASK_VMXNORMM := 0xfe00707f%Z (only parsing).
Abbreviation MATCH_VCPOPM := 0x40082057%Z (only parsing).
Abbreviation MASK_VCPOPM := 0xfc0ff07f%Z (only parsing).
Abbreviation MATCH_VFIRSTM := 0x4008a057%Z (only parsing).
Abbreviation MASK_VFIRSTM := 0xfc0ff07f%Z (only parsing).
Abbreviation MATCH_VMSBFM := 0x5000a057%Z (only parsing).
Abbreviation MASK_VMSBFM := 0xfc0ff07f%Z (only parsing).
Abbreviation MATCH_VMSIFM := 0x5001a057%Z (only parsing).
Abbreviation MASK_VMSIFM := 0xfc0ff07f%Z (only parsing).
Abbreviation MATCH_VMSOFM := 0x50012057%Z (only parsing).
Abbreviation MASK_VMSOFM := 0xfc0ff07f%Z (only parsing).
Abbreviation MATCH_VIOTAM := 0x50082057%Z (only parsing).
Abbreviation MASK_VIOTAM := 0xfc0ff07f%Z (only parsing).
Abbreviation MATCH_VIDV := 0x5008a057%Z (only parsing).
Abbreviation MASK_VIDV := 0xfdfff07f%Z (only parsing).
Abbreviation MATCH_VMVXS := 0x42002057%Z (only parsing).
Abbreviation MASK_VMVXS := 0xfe0ff07f%Z (only parsing).
Abbreviation MATCH_VMVSX := 0x42006057%Z (only parsing).
Abbreviation MASK_VMVSX := 0xfff0707f%Z (only parsing).
Abbreviation MATCH_VFMVFS := 0x42001057%Z (only parsing).
Abbreviation MASK_VFMVFS := 0xfe0ff07f%Z (only parsing).
Abbreviation MATCH_VFMVSF := 0x42005057%Z (only parsing).
Abbreviation MASK_VFMVSF := 0xfff0707f%Z (only parsing).
Abbreviation MATCH_VSLIDEUPVX := 0x38004057%Z (only parsing).
Abbreviation MASK_VSLIDEUPVX := 0xfc00707f%Z (only parsing).
Abbreviation MATCH_VSLIDEUPVI := 0x38003057%Z (only parsing).
Abbreviation MASK_VSLIDEUPVI := 0xfc00707f%Z (only parsing).
Abbreviation MATCH_VSLIDEDOWNVX := 0x3c004057%Z (only parsing).
Abbreviation MASK_VSLIDEDOWNVX := 0xfc00707f%Z (only parsing).
Abbreviation MATCH_VSLIDEDOWNVI := 0x3c003057%Z (only parsing).
Abbreviation MASK_VSLIDEDOWNVI := 0xfc00707f%Z (only parsing).
Abbreviation MATCH_VSLIDE1UPVX := 0x38006057%Z (only parsing).
Abbreviation MASK_VSLIDE1UPVX := 0xfc00707f%Z (only parsing).
Abbreviation MATCH_VSLIDE1DOWNVX := 0x3c006057%Z (only parsing).
Abbreviation MASK_VSLIDE1DOWNVX := 0xfc00707f%Z (only parsing).
Abbreviation MATCH_VFSLIDE1UPVF := 0x38005057%Z (only parsing).
Abbreviation MASK_VFSLIDE1UPVF := 0xfc00707f%Z (only parsing).
Abbreviation MATCH_VFSLIDE1DOWNVF := 0x3c005057%Z (only parsing).
Abbreviation MASK_VFSLIDE1DOWNVF := 0xfc00707f%Z (only parsing).
Abbreviation MATCH_VRGATHERVV := 0x30000057%Z (only parsing).
Abbreviation MASK_VRGATHERVV := 0xfc00707f%Z (only parsing).
Abbreviation MATCH_VRGATHERVX := 0x30004057%Z (only parsing).
Abbreviation MASK_VRGATHERVX := 0xfc00707f%Z (only parsing).
Abbreviation MATCH_VRGATHERVI := 0x30003057%Z (only parsing).
Abbreviation MASK_VRGATHERVI := 0xfc00707f%Z (only parsing).
Abbreviation MATCH_VRGATHEREI16VV := 0x38000057%Z (only parsing).
Abbreviation MASK_VRGATHEREI16VV := 0xfc00707f%Z (only parsing).
Abbreviation MATCH_VCOMPRESSVM := 0x5e002057%Z (only parsing).
Abbreviation MASK_VCOMPRESSVM := 0xfe00707f%Z (only parsing).
Abbreviation MATCH_VMV1RV := 0x9e003057%Z (only parsing).
Abbreviation MASK_VMV1RV := 0xfe0ff07f%Z (only parsing).
Abbreviation MATCH_VMV2RV := 0x9e00b057%Z (only parsing).
Abbreviation MASK_VMV2RV := 0xfe0ff07f%Z (only parsing).
Abbreviation MATCH_VMV4RV := 0x9e01b057%Z (only parsing).
Abbreviation MASK_VMV4RV := 0xfe0ff07f%Z (only parsing).
Abbreviation MATCH_VMV8RV := 0x9e03b057%Z (only parsing).
Abbreviation MASK_VMV8RV := 0xfe0ff07f%Z (only parsing).
Abbreviation MATCH_VDOTVV := 0xe4000057%Z (only parsing).
Abbreviation MASK_VDOTVV := 0xfc00707f%Z (only parsing).
Abbreviation MATCH_VDOTUVV := 0xe0000057%Z (only parsing).
Abbreviation MASK_VDOTUVV := 0xfc00707f%Z (only parsing).
Abbreviation MATCH_VFDOTVV := 0xe4001057%Z (only parsing).
Abbreviation MASK_VFDOTVV := 0xfc00707f%Z (only parsing).
Abbreviation MATCH_VANDN_VV := 0x4000057%Z (only parsing).
Abbreviation MASK_VANDN_VV := 0xfc00707f%Z (only parsing).
Abbreviation MATCH_VANDN_VX := 0x4004057%Z (only parsing).
Abbreviation MASK_VANDN_VX := 0xfc00707f%Z (only parsing).
Abbreviation MATCH_VBREV8_V := 0x48042057%Z (only parsing).
Abbreviation MASK_VBREV8_V := 0xfc0ff07f%Z (only parsing).
Abbreviation MATCH_VBREV_V := 0x48052057%Z (only parsing).
Abbreviation MASK_VBREV_V := 0xfc0ff07f%Z (only parsing).
Abbreviation MATCH_VCLZ_V := 0x48062057%Z (only parsing).
Abbreviation MASK_VCLZ_V := 0xfc0ff07f%Z (only parsing).
Abbreviation MATCH_VCPOP_V := 0x48072057%Z (only parsing).
Abbreviation MASK_VCPOP_V := 0xfc0ff07f%Z (only parsing).
Abbreviation MATCH_VCTZ_V := 0x4806a057%Z (only parsing).
Abbreviation MASK_VCTZ_V := 0xfc0ff07f%Z (only parsing).
Abbreviation MATCH_VREV8_V := 0x4804a057%Z (only parsing).
Abbreviation MASK_VREV8_V := 0xfc0ff07f%Z (only parsing).
Abbreviation MATCH_VROL_VV := 0x54000057%Z (only parsing).
Abbreviation MASK_VROL_VV := 0xfc00707f%Z (only parsing).
Abbreviation MATCH_VROL_VX := 0x54004057%Z (only parsing).
Abbreviation MASK_VROL_VX := 0xfc00707f%Z (only parsing).
Abbreviation MATCH_VROR_VI := 0x50003057%Z (only parsing).
Abbreviation MASK_VROR_VI := 0xf800707f%Z (only parsing).
Abbreviation MATCH_VROR_VV := 0x50000057%Z (only parsing).
Abbreviation MASK_VROR_VV := 0xfc00707f%Z (only parsing).
Abbreviation MATCH_VROR_VX := 0x50004057%Z (only parsing).
Abbreviation MASK_VROR_VX := 0xfc00707f%Z (only parsing).
Abbreviation MATCH_VWSLL_VI := 0xd4003057%Z (only parsing).
Abbreviation MASK_VWSLL_VI := 0xfc00707f%Z (only parsing).
Abbreviation MATCH_VWSLL_VV := 0xd4000057%Z (only parsing).
Abbreviation MASK_VWSLL_VV := 0xfc00707f%Z (only parsing).
Abbreviation MATCH_VWSLL_VX := 0xd4004057%Z (only parsing).
Abbreviation MASK_VWSLL_VX := 0xfc00707f%Z (only parsing).
Abbreviation MATCH_VCLMUL_VV := 0x30002057%Z (only parsing).
Abbreviation MASK_VCLMUL_VV := 0xfc00707f%Z (only parsing).
Abbreviation MATCH_VCLMUL_VX := 0x30006057%Z (only parsing).
Abbreviation MASK_VCLMUL_VX := 0xfc00707f%Z (only parsing).
Abbreviation MATCH_VCLMULH_VV := 0x34002057%Z (only parsing).
Abbreviation MASK_VCLMULH_VV := 0xfc00707f%Z (only parsing).
Abbreviation MATCH_VCLMULH_VX := 0x34006057%Z (only parsing).
Abbreviation MASK_VCLMULH_VX := 0xfc00707f%Z (only parsing).
Abbreviation MATCH_VGHSH_VV := 0xb2002077%Z (only parsing).
Abbreviation MASK_VGHSH_VV := 0xfe00707f%Z (only parsing).
Abbreviation MATCH_VGMUL_VV := 0xa208a077%Z (only parsing).
Abbreviation MASK_VGMUL_VV := 0xfe0ff07f%Z (only parsing).
Abbreviation MATCH_VAESDF_VS := 0xa600a077%Z (only parsing).
Abbreviation MASK_VAESDF_VS := 0xfe0ff07f%Z (only parsing).
Abbreviation MATCH_VAESDF_VV := 0xa200a077%Z (only parsing).
Abbreviation MASK_VAESDF_VV := 0xfe0ff07f%Z (only parsing).
Abbreviation MATCH_VAESDM_VS := 0xa6002077%Z (only parsing).
Abbreviation MASK_VAESDM_VS := 0xfe0ff07f%Z (only parsing).
Abbreviation MATCH_VAESDM_VV := 0xa2002077%Z (only parsing).
Abbreviation MASK_VAESDM_VV := 0xfe0ff07f%Z (only parsing).
Abbreviation MATCH_VAESEF_VS := 0xa601a077%Z (only parsing).
Abbreviation MASK_VAESEF_VS := 0xfe0ff07f%Z (only parsing).
Abbreviation MATCH_VAESEF_VV := 0xa201a077%Z (only parsing).
Abbreviation MASK_VAESEF_VV := 0xfe0ff07f%Z (only parsing).
Abbreviation MATCH_VAESEM_VS := 0xa6012077%Z (only parsing).
Abbreviation MASK_VAESEM_VS := 0xfe0ff07f%Z (only parsing).
Abbreviation MATCH_VAESEM_VV := 0xa2012077%Z (only parsing).
Abbreviation MASK_VAESEM_VV := 0xfe0ff07f%Z (only parsing).
Abbreviation MATCH_VAESKF1_VI := 0x8a002077%Z (only parsing).
Abbreviation MASK_VAESKF1_VI := 0xfe00707f%Z (only parsing).
Abbreviation MATCH_VAESKF2_VI := 0xaa002077%Z (only parsing).
Abbreviation MASK_VAESKF2_VI := 0xfe00707f%Z (only parsing).
Abbreviation MATCH_VAESZ_VS := 0xa603a077%Z (only parsing).
Abbreviation MASK_VAESZ_VS := 0xfe0ff07f%Z (only parsing).
Abbreviation MATCH_VSHA2CH_VV := 0xba002077%Z (only parsing).
Abbreviation MASK_VSHA2CH_VV := 0xfe00707f%Z (only parsing).
Abbreviation MATCH_VSHA2CL_VV := 0xbe002077%Z (only parsing).
Abbreviation MASK_VSHA2CL_VV := 0xfe00707f%Z (only parsing).
Abbreviation MATCH_VSHA2MS_VV := 0xb6002077%Z (only parsing).
Abbreviation MASK_VSHA2MS_VV := 0xfe00707f%Z (only parsing).
Abbreviation MATCH_VSM4K_VI := 0x86002077%Z (only parsing).
Abbreviation MASK_VSM4K_VI := 0xfe00707f%Z (only parsing).
Abbreviation MATCH_VSM4R_VS := 0xa6082077%Z (only parsing).
Abbreviation MASK_VSM4R_VS := 0xfe0ff07f%Z (only parsing).
Abbreviation MATCH_VSM4R_VV := 0xa2082077%Z (only parsing).
Abbreviation MASK_VSM4R_VV := 0xfe0ff07f%Z (only parsing).
Abbreviation MATCH_VSM3C_VI := 0xae002077%Z (only parsing).
Abbreviation MASK_VSM3C_VI := 0xfe00707f%Z (only parsing).
Abbreviation MATCH_VSM3ME_VV := 0x82002077%Z (only parsing).
Abbreviation MASK_VSM3ME_VV := 0xfe00707f%Z (only parsing).
Abbreviation MATCH_C_LBU := 0x8000%Z (only parsing).
Abbreviation MASK_C_LBU := 0xfc03%Z (only parsing).
Abbreviation MATCH_C_LHU := 0x8400%Z (only parsing).
Abbreviation MASK_C_LHU := 0xfc43%Z (only parsing).
Abbreviation MATCH_C_LH := 0x8440%Z (only parsing).
Abbreviation MASK_C_LH := 0xfc43%Z (only parsing).
Abbreviation MATCH_C_SB := 0x8800%Z (only parsing).
Abbreviation MASK_C_SB := 0xfc03%Z (only parsing).
Abbreviation MATCH_C_SH := 0x8c00%Z (only parsing).
Abbreviation MASK_C_SH := 0xfc43%Z (only parsing).
Abbreviation MATCH_C_ZEXT_B := 0x9c61%Z (only parsing).
Abbreviation MASK_C_ZEXT_B := 0xfc7f%Z (only parsing).
Abbreviation MATCH_C_SEXT_B := 0x9c65%Z (only parsing).
Abbreviation MASK_C_SEXT_B := 0xfc7f%Z (only parsing).
Abbreviation MATCH_C_ZEXT_H := 0x9c69%Z (only parsing).
Abbreviation MASK_C_ZEXT_H := 0xfc7f%Z (only parsing).
Abbreviation MATCH_C_SEXT_H := 0x9c6d%Z (only parsing).
Abbreviation MASK_C_SEXT_H := 0xfc7f%Z (only parsing).
Abbreviation MATCH_C_ZEXT_W := 0x9c71%Z (only parsing).
Abbreviation MASK_C_ZEXT_W := 0xfc7f%Z (only parsing).
Abbreviation MATCH_C_NOT := 0x9c75%Z (only parsing).
Abbreviation MASK_C_NOT := 0xfc7f%Z (only parsing).
Abbreviation MATCH_C_MUL := 0x9c41%Z (only parsing).
Abbreviation MASK_C_MUL := 0xfc63%Z (only parsing).
Abbreviation MATCH_SINVAL_VMA := 0x16000073%Z (only parsing).
Abbreviation MASK_SINVAL_VMA := 0xfe007fff%Z (only parsing).
Abbreviation MATCH_SFENCE_W_INVAL := 0x18000073%Z (only parsing).
Abbreviation MASK_SFENCE_W_INVAL := 0xffffffff%Z (only parsing).
Abbreviation MATCH_SFENCE_INVAL_IR := 0x18100073%Z (only parsing).
Abbreviation MASK_SFENCE_INVAL_IR := 0xffffffff%Z (only parsing).
Abbreviation MATCH_HINVAL_VVMA := 0x26000073%Z (only parsing).
Abbreviation MASK_HINVAL_VVMA := 0xfe007fff%Z (only parsing).
Abbreviation MATCH_HINVAL_GVMA := 0x66000073%Z (only parsing).
Abbreviation MASK_HINVAL_GVMA := 0xfe007fff%Z (only parsing).
Abbreviation MATCH_HFENCE_VVMA := 0x22000073%Z (only parsing).
Abbreviation MASK_HFENCE_VVMA := 0xfe007fff%Z (only parsing).
Abbreviation MATCH_HFENCE_GVMA := 0x62000073%Z (only parsing).
Abbreviation MASK_HFENCE_GVMA := 0xfe007fff%Z (only parsing).
Abbreviation MATCH_HLV_B := 0x60004073%Z (only parsing).
Abbreviation MASK_HLV_B := 0xfff0707f%Z (only parsing).
Abbreviation MATCH_HLV_H := 0x64004073%Z (only parsing).
Abbreviation MASK_HLV_H := 0xfff0707f%Z (only parsing).
Abbreviation MATCH_HLV_W := 0x68004073%Z (only parsing).
Abbreviation MASK_HLV_W := 0xfff0707f%Z (only parsing).
Abbreviation MATCH_HLV_D := 0x6c004073%Z (only parsing).
Abbreviation MASK_HLV_D := 0xfff0707f%Z (only parsing).
Abbreviation MATCH_HLV_BU := 0x60104073%Z (only parsing).
Abbreviation MASK_HLV_BU := 0xfff0707f%Z (only parsing).
Abbreviation MATCH_HLV_HU := 0x64104073%Z (only parsing).
Abbreviation MASK_HLV_HU := 0xfff0707f%Z (only parsing).
Abbreviation MATCH_HLV_WU := 0x68104073%Z (only parsing).
Abbreviation MASK_HLV_WU := 0xfff0707f%Z (only parsing).
Abbreviation MATCH_HLVX_HU := 0x64304073%Z (only parsing).
Abbreviation MASK_HLVX_HU := 0xfff0707f%Z (only parsing).
Abbreviation MATCH_HLVX_WU := 0x68304073%Z (only parsing).
Abbreviation MASK_HLVX_WU := 0xfff0707f%Z (only parsing).
Abbreviation MATCH_HSV_B := 0x62004073%Z (only parsing).
Abbreviation MASK_HSV_B := 0xfe007fff%Z (only parsing).
Abbreviation MATCH_HSV_H := 0x66004073%Z (only parsing).
Abbreviation MASK_HSV_H := 0xfe007fff%Z (only parsing).
Abbreviation MATCH_HSV_W := 0x6a004073%Z (only parsing).
Abbreviation MASK_HSV_W := 0xfe007fff%Z (only parsing).
Abbreviation MATCH_HSV_D := 0x6e004073%Z (only parsing).
Abbreviation MASK_HSV_D := 0xfe007fff%Z (only parsing).
Abbreviation MATCH_PREFETCH_I := 0x6013%Z (only parsing).
Abbreviation MASK_PREFETCH_I := 0x1f07fff%Z (only parsing).
Abbreviation MATCH_PREFETCH_R := 0x106013%Z (only parsing).
Abbreviation MASK_PREFETCH_R := 0x1f07fff%Z (only parsing).
Abbreviation MATCH_PREFETCH_W := 0x306013%Z (only parsing).
Abbreviation MASK_PREFETCH_W := 0x1f07fff%Z (only parsing).
Abbreviation MATCH_CBO_CLEAN := 0x10200f%Z (only parsing).
Abbreviation MASK_CBO_CLEAN := 0xfff07fff%Z (only parsing).
Abbreviation MATCH_CBO_FLUSH := 0x20200f%Z (only parsing).
Abbreviation MASK_CBO_FLUSH := 0xfff07fff%Z (only parsing).
Abbreviation MATCH_CBO_INVAL := 0x200f%Z (only parsing).
Abbreviation MASK_CBO_INVAL := 0xfff07fff%Z (only parsing).
Abbreviation MATCH_CBO_ZERO := 0x40200f%Z (only parsing).
Abbreviation MASK_CBO_ZERO := 0xfff07fff%Z (only parsing).
Abbreviation MATCH_CZERO_EQZ := 0xe005033%Z (only parsing).
Abbreviation MASK_CZERO_EQZ := 0xfe00707f%Z (only parsing).
Abbreviation MATCH_CZERO_NEZ := 0xe007033%Z (only parsing).
Abbreviation MASK_CZERO_NEZ := 0xfe00707f%Z (only parsing).
Abbreviation MATCH_NTL_P1 := 0x200033%Z (only parsing).
Abbreviation MASK_NTL_P1 := 0xffffffff%Z (only parsing).
Abbreviation MATCH_NTL_PALL := 0x300033%Z (only parsing).
Abbreviation MASK_NTL_PALL := 0xffffffff%Z (only parsing).
Abbreviation MATCH_NTL_S1 := 0x400033%Z (only parsing).
Abbreviation MASK_NTL_S1 := 0xffffffff%Z (only parsing).
Abbreviation MATCH_NTL_ALL := 0x500033%Z (only parsing).
Abbreviation MASK_NTL_ALL := 0xffffffff%Z (only parsing).
Abbreviation MATCH_C_NTL_P1 := 0x900a%Z (only parsing).
Abbreviation MASK_C_NTL_P1 := 0xffff%Z (only parsing).
Abbreviation MATCH_C_NTL_PALL := 0x900e%Z (only parsing).
Abbreviation MASK_C_NTL_PALL := 0xffff%Z (only parsing).
Abbreviation MATCH_C_NTL_S1 := 0x9012%Z (only parsing).
Abbreviation MASK_C_NTL_S1 := 0xffff%Z (only parsing).
Abbreviation MATCH_C_NTL_ALL := 0x9016%Z (only parsing).
Abbreviation MASK_C_NTL_ALL := 0xffff%Z (only parsing).
Abbreviation MATCH_WRS_NTO := 0x00d00073%Z (only parsing).
Abbreviation MASK_WRS_NTO := 0xffffffff%Z (only parsing).
Abbreviation MATCH_WRS_STO := 0x01d00073%Z (only parsing).
Abbreviation MASK_WRS_STO := 0xffffffff%Z (only parsing).
Abbreviation MATCH_CV_MAC := 0x9000302b%Z (only parsing).
Abbreviation MASK_CV_MAC := 0xfe00707f%Z (only parsing).
Abbreviation MATCH_CV_MSU := 0x9200302b%Z (only parsing).
Abbreviation MASK_CV_MSU := 0xfe00707f%Z (only parsing).
Abbreviation MATCH_CV_MULSN := 0x405b%Z (only parsing).
Abbreviation MASK_CV_MULSN := 0xc000707f%Z (only parsing).
Abbreviation MATCH_CV_MULHHSN := 0x4000405b%Z (only parsing).
Abbreviation MASK_CV_MULHHSN := 0xc000707f%Z (only parsing).
Abbreviation MATCH_CV_MULSRN := 0x8000405b%Z (only parsing).
Abbreviation MASK_CV_MULSRN := 0xc000707f%Z (only parsing).
Abbreviation MATCH_CV_MULHHSRN := 0xc000405b%Z (only parsing).
Abbreviation MASK_CV_MULHHSRN := 0xc000707f%Z (only parsing).
Abbreviation MATCH_CV_MULUN := 0x505b%Z (only parsing).
Abbreviation MASK_CV_MULUN := 0xc000707f%Z (only parsing).
Abbreviation MATCH_CV_MULHHUN := 0x4000505b%Z (only parsing).
Abbreviation MASK_CV_MULHHUN := 0xc000707f%Z (only parsing).
Abbreviation MATCH_CV_MULURN := 0x8000505b%Z (only parsing).
Abbreviation MASK_CV_MULURN := 0xc000707f%Z (only parsing).
Abbreviation MATCH_CV_MULHHURN := 0xc000505b%Z (only parsing).
Abbreviation MASK_CV_MULHHURN := 0xc000707f%Z (only parsing).
Abbreviation MATCH_CV_MACSN := 0x605b%Z (only parsing).
Abbreviation MASK_CV_MACSN := 0xc000707f%Z (only parsing).
Abbreviation MATCH_CV_MACHHSN := 0x4000605b%Z (only parsing).
Abbreviation MASK_CV_MACHHSN := 0xc000707f%Z (only parsing).
Abbreviation MATCH_CV_MACSRN := 0x8000605b%Z (only parsing).
Abbreviation MASK_CV_MACSRN := 0xc000707f%Z (only parsing).
Abbreviation MATCH_CV_MACHHSRN := 0xc000605b%Z (only parsing).
Abbreviation MASK_CV_MACHHSRN := 0xc000707f%Z (only parsing).
Abbreviation MATCH_CV_MACUN := 0x705b%Z (only parsing).
Abbreviation MASK_CV_MACUN := 0xc000707f%Z (only parsing).
Abbreviation MATCH_CV_MACHHUN := 0x4000705b%Z (only parsing).
Abbreviation MASK_CV_MACHHUN := 0xc000707f%Z (only parsing).
Abbreviation MATCH_CV_MACURN := 0x8000705b%Z (only parsing).
Abbreviation MASK_CV_MACURN := 0xc000707f%Z (only parsing).
Abbreviation MATCH_CV_MACHHURN := 0xc000705b%Z (only parsing).
Abbreviation MASK_CV_MACHHURN := 0xc000707f%Z (only parsing).
Abbreviation MATCH_CV_ABS := 0x5000302b%Z (only parsing).
Abbreviation MASK_CV_ABS := 0xfff0707f%Z (only parsing).
Abbreviation MATCH_CV_SLE := 0x5200302b%Z (only parsing).
Abbreviation MASK_CV_SLE := 0xfe00707f%Z (only parsing).
Abbreviation MATCH_CV_SLET := 0x5200302b%Z (only parsing).
Abbreviation MASK_CV_SLET := 0xfe00707f%Z (only parsing).
Abbreviation MATCH_CV_SLEU := 0x5400302b%Z (only parsing).
Abbreviation MASK_CV_SLEU := 0xfe00707f%Z (only parsing).
Abbreviation MATCH_CV_SLETU := 0x5400302b%Z (only parsing).
Abbreviation MASK_CV_SLETU := 0xfe00707f%Z (only parsing).
Abbreviation MATCH_CV_MIN := 0x5600302b%Z (only parsing).
Abbreviation MASK_CV_MIN := 0xfe00707f%Z (only parsing).
Abbreviation MATCH_CV_MINU := 0x5800302b%Z (only parsing).
Abbreviation MASK_CV_MINU := 0xfe00707f%Z (only parsing).
Abbreviation MATCH_CV_MAX := 0x5a00302b%Z (only parsing).
Abbreviation MASK_CV_MAX := 0xfe00707f%Z (only parsing).
Abbreviation MATCH_CV_MAXU := 0x5c00302b%Z (only parsing).
Abbreviation MASK_CV_MAXU := 0xfe00707f%Z (only parsing).
Abbreviation MATCH_CV_EXTHS := 0x6000302b%Z (only parsing).
Abbreviation MASK_CV_EXTHS := 0xfff0707f%Z (only parsing).
Abbreviation MATCH_CV_EXTHZ := 0x6200302b%Z (only parsing).
Abbreviation MASK_CV_EXTHZ := 0xfff0707f%Z (only parsing).
Abbreviation MATCH_CV_EXTBS := 0x6400302b%Z (only parsing).
Abbreviation MASK_CV_EXTBS := 0xfff0707f%Z (only parsing).
Abbreviation MATCH_CV_EXTBZ := 0x6600302b%Z (only parsing).
Abbreviation MASK_CV_EXTBZ := 0xfff0707f%Z (only parsing).
Abbreviation MATCH_CV_CLIP := 0x7000302b%Z (only parsing).
Abbreviation MASK_CV_CLIP := 0xfe00707f%Z (only parsing).
Abbreviation MATCH_CV_CLIPU := 0x7200302b%Z (only parsing).
Abbreviation MASK_CV_CLIPU := 0xfe00707f%Z (only parsing).
Abbreviation MATCH_CV_CLIPR := 0x7400302b%Z (only parsing).
Abbreviation MASK_CV_CLIPR := 0xfe00707f%Z (only parsing).
Abbreviation MATCH_CV_CLIPUR := 0x7600302b%Z (only parsing).
Abbreviation MASK_CV_CLIPUR := 0xfe00707f%Z (only parsing).
Abbreviation MATCH_CV_ADDNR := 0x8000302b%Z (only parsing).
Abbreviation MASK_CV_ADDNR := 0xfe00707f%Z (only parsing).
Abbreviation MATCH_CV_ADDUNR := 0x8200302b%Z (only parsing).
Abbreviation MASK_CV_ADDUNR := 0xfe00707f%Z (only parsing).
Abbreviation MATCH_CV_ADDRNR := 0x8400302b%Z (only parsing).
Abbreviation MASK_CV_ADDRNR := 0xfe00707f%Z (only parsing).
Abbreviation MATCH_CV_ADDURNR := 0x8600302b%Z (only parsing).
Abbreviation MASK_CV_ADDURNR := 0xfe00707f%Z (only parsing).
Abbreviation MATCH_CV_SUBNR := 0x8800302b%Z (only parsing).
Abbreviation MASK_CV_SUBNR := 0xfe00707f%Z (only parsing).
Abbreviation MATCH_CV_SUBUNR := 0x8a00302b%Z (only parsing).
Abbreviation MASK_CV_SUBUNR := 0xfe00707f%Z (only parsing).
Abbreviation MATCH_CV_SUBRNR := 0x8c00302b%Z (only parsing).
Abbreviation MASK_CV_SUBRNR := 0xfe00707f%Z (only parsing).
Abbreviation MATCH_CV_SUBURNR := 0x8e00302b%Z (only parsing).
Abbreviation MASK_CV_SUBURNR := 0xfe00707f%Z (only parsing).
Abbreviation MATCH_CV_ADDN := 0x205b%Z (only parsing).
Abbreviation MASK_CV_ADDN := 0xc000707f%Z (only parsing).
Abbreviation MATCH_CV_ADDUN := 0x4000205b%Z (only parsing).
Abbreviation MASK_CV_ADDUN := 0xc000707f%Z (only parsing).
Abbreviation MATCH_CV_ADDRN := 0x8000205b%Z (only parsing).
Abbreviation MASK_CV_ADDRN := 0xc000707f%Z (only parsing).
Abbreviation MATCH_CV_ADDURN := 0xc000205b%Z (only parsing).
Abbreviation MASK_CV_ADDURN := 0xc000707f%Z (only parsing).
Abbreviation MATCH_CV_SUBN := 0x305b%Z (only parsing).
Abbreviation MASK_CV_SUBN := 0xc000707f%Z (only parsing).
Abbreviation MATCH_CV_SUBUN := 0x4000305b%Z (only parsing).
Abbreviation MASK_CV_SUBUN := 0xc000707f%Z (only parsing).
Abbreviation MATCH_CV_SUBRN := 0x8000305b%Z (only parsing).
Abbreviation MASK_CV_SUBRN := 0xc000707f%Z (only parsing).
Abbreviation MATCH_CV_SUBURN := 0xc000305b%Z (only parsing).
Abbreviation MASK_CV_SUBURN := 0xc000707f%Z (only parsing).
Abbreviation MATCH_TH_ADDSL := 0x0000100b%Z (only parsing).
Abbreviation MASK_TH_ADDSL := 0xf800707f%Z (only parsing).
Abbreviation MATCH_TH_SRRI := 0x1000100b%Z (only parsing).
Abbreviation MASK_TH_SRRI := 0xfc00707f%Z (only parsing).
Abbreviation MATCH_TH_SRRIW := 0x1400100b%Z (only parsing).
Abbreviation MASK_TH_SRRIW := 0xfe00707f%Z (only parsing).
Abbreviation MATCH_TH_EXT := 0x0000200b%Z (only parsing).
Abbreviation MASK_TH_EXT := 0x0000707f%Z (only parsing).
Abbreviation MATCH_TH_EXTU := 0x0000300b%Z (only parsing).
Abbreviation MASK_TH_EXTU := 0x0000707f%Z (only parsing).
Abbreviation MATCH_TH_FF0 := 0x8400100b%Z (only parsing).
Abbreviation MASK_TH_FF0 := 0xfff0707f%Z (only parsing).
Abbreviation MATCH_TH_FF1 := 0x8600100b%Z (only parsing).
Abbreviation MASK_TH_FF1 := 0xfff0707f%Z (only parsing).
Abbreviation MATCH_TH_REV := 0x8200100b%Z (only parsing).
Abbreviation MASK_TH_REV := 0xfff0707f%Z (only parsing).
Abbreviation MATCH_TH_REVW := 0x9000100b%Z (only parsing).
Abbreviation MASK_TH_REVW := 0xfff0707f%Z (only parsing).
Abbreviation MATCH_TH_TSTNBZ := 0x8000100b%Z (only parsing).
Abbreviation MASK_TH_TSTNBZ := 0xfff0707f%Z (only parsing).
Abbreviation MATCH_TH_TST := 0x8800100b%Z (only parsing).
Abbreviation MASK_TH_TST := 0xfc00707f%Z (only parsing).
Abbreviation MATCH_TH_DCACHE_CALL := 0x0010000b%Z (only parsing).
Abbreviation MASK_TH_DCACHE_CALL := 0xffffffff%Z (only parsing).
Abbreviation MATCH_TH_DCACHE_CIALL := 0x0030000b%Z (only parsing).
Abbreviation MASK_TH_DCACHE_CIALL := 0xffffffff%Z (only parsing).
Abbreviation MATCH_TH_DCACHE_IALL := 0x0020000b%Z (only parsing).
Abbreviation MASK_TH_DCACHE_IALL := 0xffffffff%Z (only parsing).
Abbreviation MATCH_TH_DCACHE_CPA := 0x0290000b%Z (only parsing).
Abbreviation MASK_TH_DCACHE_CPA := 0xfff07fff%Z (only parsing).
Abbreviation MATCH_TH_DCACHE_CIPA := 0x02b0000b%Z (only parsing).
Abbreviation MASK_TH_DCACHE_CIPA := 0xfff07fff%Z (only parsing).
Abbreviation MATCH_TH_DCACHE_IPA := 0x02a0000b%Z (only parsing).
Abbreviation MASK_TH_DCACHE_IPA := 0xfff07fff%Z (only parsing).
Abbreviation MATCH_TH_DCACHE_CVA := 0x0250000b%Z (only parsing).
Abbreviation MASK_TH_DCACHE_CVA := 0xfff07fff%Z (only parsing).
Abbreviation MATCH_TH_DCACHE_CIVA := 0x0270000b%Z (only parsing).
Abbreviation MASK_TH_DCACHE_CIVA := 0xfff07fff%Z (only parsing).
Abbreviation MATCH_TH_DCACHE_IVA := 0x0260000b%Z (only parsing).
Abbreviation MASK_TH_DCACHE_IVA := 0xfff07fff%Z (only parsing).
Abbreviation MATCH_TH_DCACHE_CSW := 0x0210000b%Z (only parsing).
Abbreviation MASK_TH_DCACHE_CSW := 0xfff07fff%Z (only parsing).
Abbreviation MATCH_TH_DCACHE_CISW := 0x0230000b%Z (only parsing).
Abbreviation MASK_TH_DCACHE_CISW := 0xfff07fff%Z (only parsing).
Abbreviation MATCH_TH_DCACHE_ISW := 0x0220000b%Z (only parsing).
Abbreviation MASK_TH_DCACHE_ISW := 0xfff07fff%Z (only parsing).
Abbreviation MATCH_TH_DCACHE_CPAL1 := 0x0280000b%Z (only parsing).
Abbreviation MASK_TH_DCACHE_CPAL1 := 0xfff07fff%Z (only parsing).
Abbreviation MATCH_TH_DCACHE_CVAL1 := 0x0240000b%Z (only parsing).
Abbreviation MASK_TH_DCACHE_CVAL1 := 0xfff07fff%Z (only parsing).
Abbreviation MATCH_TH_ICACHE_IALL := 0x0100000b%Z (only parsing).
Abbreviation MASK_TH_ICACHE_IALL := 0xffffffff%Z (only parsing).
Abbreviation MATCH_TH_ICACHE_IALLS := 0x0110000b%Z (only parsing).
Abbreviation MASK_TH_ICACHE_IALLS := 0xffffffff%Z (only parsing).
Abbreviation MATCH_TH_ICACHE_IPA := 0x0380000b%Z (only parsing).
Abbreviation MASK_TH_ICACHE_IPA := 0xfff07fff%Z (only parsing).
Abbreviation MATCH_TH_ICACHE_IVA := 0x0300000b%Z (only parsing).
Abbreviation MASK_TH_ICACHE_IVA := 0xfff07fff%Z (only parsing).
Abbreviation MATCH_TH_L2CACHE_CALL := 0x0150000b%Z (only parsing).
Abbreviation MASK_TH_L2CACHE_CALL := 0xffffffff%Z (only parsing).
Abbreviation MATCH_TH_L2CACHE_CIALL := 0x0170000b%Z (only parsing).
Abbreviation MASK_TH_L2CACHE_CIALL := 0xffffffff%Z (only parsing).
Abbreviation MATCH_TH_L2CACHE_IALL := 0x0160000b%Z (only parsing).
Abbreviation MASK_TH_L2CACHE_IALL := 0xffffffff%Z (only parsing).
Abbreviation MATCH_TH_MVEQZ := 0x4000100b%Z (only parsing).
Abbreviation MASK_TH_MVEQZ := 0xfe00707f%Z (only parsing).
Abbreviation MATCH_TH_MVNEZ := 0x4200100b%Z (only parsing).
Abbreviation MASK_TH_MVNEZ := 0xfe00707f%Z (only parsing).
Abbreviation MATCH_TH_FLRD := 0x6000600b%Z (only parsing).
Abbreviation MASK_TH_FLRD := 0xf800707f%Z (only parsing).
Abbreviation MATCH_TH_FLRW := 0x4000600b%Z (only parsing).
Abbreviation MASK_TH_FLRW := 0xf800707f%Z (only parsing).
Abbreviation MATCH_TH_FLURD := 0x7000600b%Z (only parsing).
Abbreviation MASK_TH_FLURD := 0xf800707f%Z (only parsing).
Abbreviation MATCH_TH_FLURW := 0x5000600b%Z (only parsing).
Abbreviation MASK_TH_FLURW := 0xf800707f%Z (only parsing).
Abbreviation MATCH_TH_FSRD := 0x6000700b%Z (only parsing).
Abbreviation MASK_TH_FSRD := 0xf800707f%Z (only parsing).
Abbreviation MATCH_TH_FSRW := 0x4000700b%Z (only parsing).
Abbreviation MASK_TH_FSRW := 0xf800707f%Z (only parsing).
Abbreviation MATCH_TH_FSURD := 0x7000700b%Z (only parsing).
Abbreviation MASK_TH_FSURD := 0xf800707f%Z (only parsing).
Abbreviation MATCH_TH_FSURW := 0x5000700b%Z (only parsing).
Abbreviation MASK_TH_FSURW := 0xf800707f%Z (only parsing).
Abbreviation MATCH_TH_FMV_X_HW := 0xc000100b%Z (only parsing).
Abbreviation MASK_TH_FMV_X_HW := 0xfff0707f%Z (only parsing).
Abbreviation MATCH_TH_FMV_HW_X := 0xa000100b%Z (only parsing).
Abbreviation MASK_TH_FMV_HW_X := 0xfff0707f%Z (only parsing).
Abbreviation MATCH_TH_IPOP := 0x0050000b%Z (only parsing).
Abbreviation MASK_TH_IPOP := 0xffffffff%Z (only parsing).
Abbreviation MATCH_TH_IPUSH := 0x0040000b%Z (only parsing).
Abbreviation MASK_TH_IPUSH := 0xffffffff%Z (only parsing).
Abbreviation MATCH_TH_MULA := 0x2000100b%Z (only parsing).
Abbreviation MASK_TH_MULA := 0xfe00707f%Z (only parsing).
Abbreviation MATCH_TH_MULAH := 0x2800100b%Z (only parsing).
Abbreviation MASK_TH_MULAH := 0xfe00707f%Z (only parsing).
Abbreviation MATCH_TH_MULAW := 0x2400100b%Z (only parsing).
Abbreviation MASK_TH_MULAW := 0xfe00707f%Z (only parsing).
Abbreviation MATCH_TH_MULS := 0x2200100b%Z (only parsing).
Abbreviation MASK_TH_MULS := 0xfe00707f%Z (only parsing).
Abbreviation MATCH_TH_MULSH := 0x2a00100b%Z (only parsing).
Abbreviation MASK_TH_MULSH := 0xfe00707f%Z (only parsing).
Abbreviation MATCH_TH_MULSW := 0x2600100b%Z (only parsing).
Abbreviation MASK_TH_MULSW := 0xfe00707f%Z (only parsing).
Abbreviation MATCH_TH_LDD := 0xf800400b%Z (only parsing).
Abbreviation MASK_TH_LDD := 0xf800707f%Z (only parsing).
Abbreviation MATCH_TH_LWD := 0xe000400b%Z (only parsing).
Abbreviation MASK_TH_LWD := 0xf800707f%Z (only parsing).
Abbreviation MATCH_TH_LWUD := 0xf000400b%Z (only parsing).
Abbreviation MASK_TH_LWUD := 0xf800707f%Z (only parsing).
Abbreviation MATCH_TH_SDD := 0xf800500b%Z (only parsing).
Abbreviation MASK_TH_SDD := 0xf800707f%Z (only parsing).
Abbreviation MATCH_TH_SWD := 0xe000500b%Z (only parsing).
Abbreviation MASK_TH_SWD := 0xf800707f%Z (only parsing).
Abbreviation MATCH_TH_LDIA := 0x7800400b%Z (only parsing).
Abbreviation MASK_TH_LDIA := 0xf800707f%Z (only parsing).
Abbreviation MATCH_TH_LDIB := 0x6800400b%Z (only parsing).
Abbreviation MASK_TH_LDIB := 0xf800707f%Z (only parsing).
Abbreviation MATCH_TH_LWIA := 0x5800400b%Z (only parsing).
Abbreviation MASK_TH_LWIA := 0xf800707f%Z (only parsing).
Abbreviation MATCH_TH_LWIB := 0x4800400b%Z (only parsing).
Abbreviation MASK_TH_LWIB := 0xf800707f%Z (only parsing).
Abbreviation MATCH_TH_LWUIA := 0xd800400b%Z (only parsing).
Abbreviation MASK_TH_LWUIA := 0xf800707f%Z (only parsing).
Abbreviation MATCH_TH_LWUIB := 0xc800400b%Z (only parsing).
Abbreviation MASK_TH_LWUIB := 0xf800707f%Z (only parsing).
Abbreviation MATCH_TH_LHIA := 0x3800400b%Z (only parsing).
Abbreviation MASK_TH_LHIA := 0xf800707f%Z (only parsing).
Abbreviation MATCH_TH_LHIB := 0x2800400b%Z (only parsing).
Abbreviation MASK_TH_LHIB := 0xf800707f%Z (only parsing).
Abbreviation MATCH_TH_LHUIA := 0xb800400b%Z (only parsing).
Abbreviation MASK_TH_LHUIA := 0xf800707f%Z (only parsing).
Abbreviation MATCH_TH_LHUIB := 0xa800400b%Z (only parsing).
Abbreviation MASK_TH_LHUIB := 0xf800707f%Z (only parsing).
Abbreviation MATCH_TH_LBIA := 0x1800400b%Z (only parsing).
Abbreviation MASK_TH_LBIA := 0xf800707f%Z (only parsing).
Abbreviation MATCH_TH_LBIB := 0x0800400b%Z (only parsing).
Abbreviation MASK_TH_LBIB := 0xf800707f%Z (only parsing).
Abbreviation MATCH_TH_LBUIA := 0x9800400b%Z (only parsing).
Abbreviation MASK_TH_LBUIA := 0xf800707f%Z (only parsing).
Abbreviation MATCH_TH_LBUIB := 0x8800400b%Z (only parsing).
Abbreviation MASK_TH_LBUIB := 0xf800707f%Z (only parsing).
Abbreviation MATCH_TH_SDIA := 0x7800500b%Z (only parsing).
Abbreviation MASK_TH_SDIA := 0xf800707f%Z (only parsing).
Abbreviation MATCH_TH_SDIB := 0x6800500b%Z (only parsing).
Abbreviation MASK_TH_SDIB := 0xf800707f%Z (only parsing).
Abbreviation MATCH_TH_SWIA := 0x5800500b%Z (only parsing).
Abbreviation MASK_TH_SWIA := 0xf800707f%Z (only parsing).
Abbreviation MATCH_TH_SWIB := 0x4800500b%Z (only parsing).
Abbreviation MASK_TH_SWIB := 0xf800707f%Z (only parsing).
Abbreviation MATCH_TH_SHIA := 0x3800500b%Z (only parsing).
Abbreviation MASK_TH_SHIA := 0xf800707f%Z (only parsing).
Abbreviation MATCH_TH_SHIB := 0x2800500b%Z (only parsing).
Abbreviation MASK_TH_SHIB := 0xf800707f%Z (only parsing).
Abbreviation MATCH_TH_SBIA := 0x1800500b%Z (only parsing).
Abbreviation MASK_TH_SBIA := 0xf800707f%Z (only parsing).
Abbreviation MATCH_TH_SBIB := 0x0800500b%Z (only parsing).
Abbreviation MASK_TH_SBIB := 0xf800707f%Z (only parsing).
Abbreviation MATCH_TH_LRD := 0x6000400b%Z (only parsing).
Abbreviation MASK_TH_LRD := 0xf800707f%Z (only parsing).
Abbreviation MATCH_TH_LRW := 0x4000400b%Z (only parsing).
Abbreviation MASK_TH_LRW := 0xf800707f%Z (only parsing).
Abbreviation MATCH_TH_LRWU := 0xc000400b%Z (only parsing).
Abbreviation MASK_TH_LRWU := 0xf800707f%Z (only parsing).
Abbreviation MATCH_TH_LRH := 0x2000400b%Z (only parsing).
Abbreviation MASK_TH_LRH := 0xf800707f%Z (only parsing).
Abbreviation MATCH_TH_LRHU := 0xa000400b%Z (only parsing).
Abbreviation MASK_TH_LRHU := 0xf800707f%Z (only parsing).
Abbreviation MATCH_TH_LRB := 0x0000400b%Z (only parsing).
Abbreviation MASK_TH_LRB := 0xf800707f%Z (only parsing).
Abbreviation MATCH_TH_LRBU := 0x8000400b%Z (only parsing).
Abbreviation MASK_TH_LRBU := 0xf800707f%Z (only parsing).
Abbreviation MATCH_TH_SRD := 0x6000500b%Z (only parsing).
Abbreviation MASK_TH_SRD := 0xf800707f%Z (only parsing).
Abbreviation MATCH_TH_SRW := 0x4000500b%Z (only parsing).
Abbreviation MASK_TH_SRW := 0xf800707f%Z (only parsing).
Abbreviation MATCH_TH_SRH := 0x2000500b%Z (only parsing).
Abbreviation MASK_TH_SRH := 0xf800707f%Z (only parsing).
Abbreviation MATCH_TH_SRB := 0x0000500b%Z (only parsing).
Abbreviation MASK_TH_SRB := 0xf800707f%Z (only parsing).
Abbreviation MATCH_TH_LURD := 0x7000400b%Z (only parsing).
Abbreviation MASK_TH_LURD := 0xf800707f%Z (only parsing).
Abbreviation MATCH_TH_LURW := 0x5000400b%Z (only parsing).
Abbreviation MASK_TH_LURW := 0xf800707f%Z (only parsing).
Abbreviation MATCH_TH_LURWU := 0xd000400b%Z (only parsing).
Abbreviation MASK_TH_LURWU := 0xf800707f%Z (only parsing).
Abbreviation MATCH_TH_LURH := 0x3000400b%Z (only parsing).
Abbreviation MASK_TH_LURH := 0xf800707f%Z (only parsing).
Abbreviation MATCH_TH_LURHU := 0xb000400b%Z (only parsing).
Abbreviation MASK_TH_LURHU := 0xf800707f%Z (only parsing).
Abbreviation MATCH_TH_LURB := 0x1000400b%Z (only parsing).
Abbreviation MASK_TH_LURB := 0xf800707f%Z (only parsing).
Abbreviation MATCH_TH_LURBU := 0x9000400b%Z (only parsing).
Abbreviation MASK_TH_LURBU := 0xf800707f%Z (only parsing).
Abbreviation MATCH_TH_SURD := 0x7000500b%Z (only parsing).
Abbreviation MASK_TH_SURD := 0xf800707f%Z (only parsing).
Abbreviation MATCH_TH_SURW := 0x5000500b%Z (only parsing).
Abbreviation MASK_TH_SURW := 0xf800707f%Z (only parsing).
Abbreviation MATCH_TH_SURH := 0x3000500b%Z (only parsing).
Abbreviation MASK_TH_SURH := 0xf800707f%Z (only parsing).
Abbreviation MATCH_TH_SURB := 0x1000500b%Z (only parsing).
Abbreviation MASK_TH_SURB := 0xf800707f%Z (only parsing).
Abbreviation MATCH_TH_SFENCE_VMAS := 0x0400000b%Z (only parsing).
Abbreviation MASK_TH_SFENCE_VMAS := 0xfe007fff%Z (only parsing).
Abbreviation MATCH_TH_SYNC := 0x0180000b%Z (only parsing).
Abbreviation MASK_TH_SYNC := 0xffffffff%Z (only parsing).
Abbreviation MATCH_TH_SYNC_I := 0x01a0000b%Z (only parsing).
Abbreviation MASK_TH_SYNC_I := 0xffffffff%Z (only parsing).
Abbreviation MATCH_TH_SYNC_IS := 0x01b0000b%Z (only parsing).
Abbreviation MASK_TH_SYNC_IS := 0xffffffff%Z (only parsing).
Abbreviation MATCH_TH_SYNC_S := 0x0190000b%Z (only parsing).
Abbreviation MASK_TH_SYNC_S := 0xffffffff%Z (only parsing).
Abbreviation MATCH_TH_VLBV := 0x10000007%Z (only parsing).
Abbreviation MASK_TH_VLBV := 0xfdf0707f%Z (only parsing).
Abbreviation MATCH_TH_VLHV := 0x10005007%Z (only parsing).
Abbreviation MASK_TH_VLHV := 0xfdf0707f%Z (only parsing).
Abbreviation MATCH_TH_VLWV := 0x10006007%Z (only parsing).
Abbreviation MASK_TH_VLWV := 0xfdf0707f%Z (only parsing).
Abbreviation MATCH_TH_VLSBV := 0x18000007%Z (only parsing).
Abbreviation MASK_TH_VLSBV := 0xfc00707f%Z (only parsing).
Abbreviation MATCH_TH_VLSHV := 0x18005007%Z (only parsing).
Abbreviation MASK_TH_VLSHV := 0xfc00707f%Z (only parsing).
Abbreviation MATCH_TH_VLSWV := 0x18006007%Z (only parsing).
Abbreviation MASK_TH_VLSWV := 0xfc00707f%Z (only parsing).
Abbreviation MATCH_TH_VLXBV := 0x1c000007%Z (only parsing).
Abbreviation MASK_TH_VLXBV := 0xfc00707f%Z (only parsing).
Abbreviation MATCH_TH_VLXHV := 0x1c005007%Z (only parsing).
Abbreviation MASK_TH_VLXHV := 0xfc00707f%Z (only parsing).
Abbreviation MATCH_TH_VLXWV := 0x1c006007%Z (only parsing).
Abbreviation MASK_TH_VLXWV := 0xfc00707f%Z (only parsing).
Abbreviation MATCH_TH_VSUXBV := 0x1c000027%Z (only parsing).
Abbreviation MASK_TH_VSUXBV := 0xfc00707f%Z (only parsing).
Abbreviation MATCH_TH_VSUXHV := 0x1c005027%Z (only parsing).
Abbreviation MASK_TH_VSUXHV := 0xfc00707f%Z (only parsing).
Abbreviation MATCH_TH_VSUXWV := 0x1c006027%Z (only parsing).
Abbreviation MASK_TH_VSUXWV := 0xfc00707f%Z (only parsing).
Abbreviation MATCH_TH_VSUXEV := 0x1c007027%Z (only parsing).
Abbreviation MASK_TH_VSUXEV := 0xfc00707f%Z (only parsing).
Abbreviation MATCH_TH_VLBFFV := 0x11000007%Z (only parsing).
Abbreviation MASK_TH_VLBFFV := 0xfdf0707f%Z (only parsing).
Abbreviation MATCH_TH_VLHFFV := 0x11005007%Z (only parsing).
Abbreviation MASK_TH_VLHFFV := 0xfdf0707f%Z (only parsing).
Abbreviation MATCH_TH_VLWFFV := 0x11006007%Z (only parsing).
Abbreviation MASK_TH_VLWFFV := 0xfdf0707f%Z (only parsing).
Abbreviation MATCH_TH_VLSEG2BV := 0x30000007%Z (only parsing).
Abbreviation MASK_TH_VLSEG2BV := 0xfdf0707f%Z (only parsing).
Abbreviation MATCH_TH_VLSEG2HV := 0x30005007%Z (only parsing).
Abbreviation MASK_TH_VLSEG2HV := 0xfdf0707f%Z (only parsing).
Abbreviation MATCH_TH_VLSEG2WV := 0x30006007%Z (only parsing).
Abbreviation MASK_TH_VLSEG2WV := 0xfdf0707f%Z (only parsing).
Abbreviation MATCH_TH_VLSEG3BV := 0x50000007%Z (only parsing).
Abbreviation MASK_TH_VLSEG3BV := 0xfdf0707f%Z (only parsing).
Abbreviation MATCH_TH_VLSEG3HV := 0x50005007%Z (only parsing).
Abbreviation MASK_TH_VLSEG3HV := 0xfdf0707f%Z (only parsing).
Abbreviation MATCH_TH_VLSEG3WV := 0x50006007%Z (only parsing).
Abbreviation MASK_TH_VLSEG3WV := 0xfdf0707f%Z (only parsing).
Abbreviation MATCH_TH_VLSEG4BV := 0x70000007%Z (only parsing).
Abbreviation MASK_TH_VLSEG4BV := 0xfdf0707f%Z (only parsing).
Abbreviation MATCH_TH_VLSEG4HV := 0x70005007%Z (only parsing).
Abbreviation MASK_TH_VLSEG4HV := 0xfdf0707f%Z (only parsing).
Abbreviation MATCH_TH_VLSEG4WV := 0x70006007%Z (only parsing).
Abbreviation MASK_TH_VLSEG4WV := 0xfdf0707f%Z (only parsing).
Abbreviation MATCH_TH_VLSEG5BV := 0x90000007%Z (only parsing).
Abbreviation MASK_TH_VLSEG5BV := 0xfdf0707f%Z (only parsing).
Abbreviation MATCH_TH_VLSEG5HV := 0x90005007%Z (only parsing).
Abbreviation MASK_TH_VLSEG5HV := 0xfdf0707f%Z (only parsing).
Abbreviation MATCH_TH_VLSEG5WV := 0x90006007%Z (only parsing).
Abbreviation MASK_TH_VLSEG5WV := 0xfdf0707f%Z (only parsing).
Abbreviation MATCH_TH_VLSEG6BV := 0xb0000007%Z (only parsing).
Abbreviation MASK_TH_VLSEG6BV := 0xfdf0707f%Z (only parsing).
Abbreviation MATCH_TH_VLSEG6HV := 0xb0005007%Z (only parsing).
Abbreviation MASK_TH_VLSEG6HV := 0xfdf0707f%Z (only parsing).
Abbreviation MATCH_TH_VLSEG6WV := 0xb0006007%Z (only parsing).
Abbreviation MASK_TH_VLSEG6WV := 0xfdf0707f%Z (only parsing).
Abbreviation MATCH_TH_VLSEG7BV := 0xd0000007%Z (only parsing).
Abbreviation MASK_TH_VLSEG7BV := 0xfdf0707f%Z (only parsing).
Abbreviation MATCH_TH_VLSEG7HV := 0xd0005007%Z (only parsing).
Abbreviation MASK_TH_VLSEG7HV := 0xfdf0707f%Z (only parsing).
Abbreviation MATCH_TH_VLSEG7WV := 0xd0006007%Z (only parsing).
Abbreviation MASK_TH_VLSEG7WV := 0xfdf0707f%Z (only parsing).
Abbreviation MATCH_TH_VLSEG8BV := 0xf0000007%Z (only parsing).
Abbreviation MASK_TH_VLSEG8BV := 0xfdf0707f%Z (only parsing).
Abbreviation MATCH_TH_VLSEG8HV := 0xf0005007%Z (only parsing).
Abbreviation MASK_TH_VLSEG8HV := 0xfdf0707f%Z (only parsing).
Abbreviation MATCH_TH_VLSEG8WV := 0xf0006007%Z (only parsing).
Abbreviation MASK_TH_VLSEG8WV := 0xfdf0707f%Z (only parsing).
Abbreviation MATCH_TH_VLSSEG2BV := 0x38000007%Z (only parsing).
Abbreviation MASK_TH_VLSSEG2BV := 0xfc00707f%Z (only parsing).
Abbreviation MATCH_TH_VLSSEG2HV := 0x38005007%Z (only parsing).
Abbreviation MASK_TH_VLSSEG2HV := 0xfc00707f%Z (only parsing).
Abbreviation MATCH_TH_VLSSEG2WV := 0x38006007%Z (only parsing).
Abbreviation MASK_TH_VLSSEG2WV := 0xfc00707f%Z (only parsing).
Abbreviation MATCH_TH_VLSSEG3BV := 0x58000007%Z (only parsing).
Abbreviation MASK_TH_VLSSEG3BV := 0xfc00707f%Z (only parsing).
Abbreviation MATCH_TH_VLSSEG3HV := 0x58005007%Z (only parsing).
Abbreviation MASK_TH_VLSSEG3HV := 0xfc00707f%Z (only parsing).
Abbreviation MATCH_TH_VLSSEG3WV := 0x58006007%Z (only parsing).
Abbreviation MASK_TH_VLSSEG3WV := 0xfc00707f%Z (only parsing).
Abbreviation MATCH_TH_VLSSEG4BV := 0x78000007%Z (only parsing).
Abbreviation MASK_TH_VLSSEG4BV := 0xfc00707f%Z (only parsing).
Abbreviation MATCH_TH_VLSSEG4HV := 0x78005007%Z (only parsing).
Abbreviation MASK_TH_VLSSEG4HV := 0xfc00707f%Z (only parsing).
Abbreviation MATCH_TH_VLSSEG4WV := 0x78006007%Z (only parsing).
Abbreviation MASK_TH_VLSSEG4WV := 0xfc00707f%Z (only parsing).
Abbreviation MATCH_TH_VLSSEG5BV := 0x98000007%Z (only parsing).
Abbreviation MASK_TH_VLSSEG5BV := 0xfc00707f%Z (only parsing).
Abbreviation MATCH_TH_VLSSEG5HV := 0x98005007%Z (only parsing).
Abbreviation MASK_TH_VLSSEG5HV := 0xfc00707f%Z (only parsing).
Abbreviation MATCH_TH_VLSSEG5WV := 0x98006007%Z (only parsing).
Abbreviation MASK_TH_VLSSEG5WV := 0xfc00707f%Z (only parsing).
Abbreviation MATCH_TH_VLSSEG6BV := 0xb8000007%Z (only parsing).
Abbreviation MASK_TH_VLSSEG6BV := 0xfc00707f%Z (only parsing).
Abbreviation MATCH_TH_VLSSEG6HV := 0xb8005007%Z (only parsing).
Abbreviation MASK_TH_VLSSEG6HV := 0xfc00707f%Z (only parsing).
Abbreviation MATCH_TH_VLSSEG6WV := 0xb8006007%Z (only parsing).
Abbreviation MASK_TH_VLSSEG6WV := 0xfc00707f%Z (only parsing).
Abbreviation MATCH_TH_VLSSEG7BV := 0xd8000007%Z (only parsing).
Abbreviation MASK_TH_VLSSEG7BV := 0xfc00707f%Z (only parsing).
Abbreviation MATCH_TH_VLSSEG7HV := 0xd8005007%Z (only parsing).
Abbreviation MASK_TH_VLSSEG7HV := 0xfc00707f%Z (only parsing).
Abbreviation MATCH_TH_VLSSEG7WV := 0xd8006007%Z (only parsing).
Abbreviation MASK_TH_VLSSEG7WV := 0xfc00707f%Z (only parsing).
Abbreviation MATCH_TH_VLSSEG8BV := 0xf8000007%Z (only parsing).
Abbreviation MASK_TH_VLSSEG8BV := 0xfc00707f%Z (only parsing).
Abbreviation MATCH_TH_VLSSEG8HV := 0xf8005007%Z (only parsing).
Abbreviation MASK_TH_VLSSEG8HV := 0xfc00707f%Z (only parsing).
Abbreviation MATCH_TH_VLSSEG8WV := 0xf8006007%Z (only parsing).
Abbreviation MASK_TH_VLSSEG8WV := 0xfc00707f%Z (only parsing).
Abbreviation MATCH_TH_VLXSEG2BV := 0x3c000007%Z (only parsing).
Abbreviation MASK_TH_VLXSEG2BV := 0xfc00707f%Z (only parsing).
Abbreviation MATCH_TH_VLXSEG2HV := 0x3c005007%Z (only parsing).
Abbreviation MASK_TH_VLXSEG2HV := 0xfc00707f%Z (only parsing).
Abbreviation MATCH_TH_VLXSEG2WV := 0x3c006007%Z (only parsing).
Abbreviation MASK_TH_VLXSEG2WV := 0xfc00707f%Z (only parsing).
Abbreviation MATCH_TH_VLXSEG3BV := 0x5c000007%Z (only parsing).
Abbreviation MASK_TH_VLXSEG3BV := 0xfc00707f%Z (only parsing).
Abbreviation MATCH_TH_VLXSEG3HV := 0x5c005007%Z (only parsing).
Abbreviation MASK_TH_VLXSEG3HV := 0xfc00707f%Z (only parsing).
Abbreviation MATCH_TH_VLXSEG3WV := 0x5c006007%Z (only parsing).
Abbreviation MASK_TH_VLXSEG3WV := 0xfc00707f%Z (only parsing).
Abbreviation MATCH_TH_VLXSEG4BV := 0x7c000007%Z (only parsing).
Abbreviation MASK_TH_VLXSEG4BV := 0xfc00707f%Z (only parsing).
Abbreviation MATCH_TH_VLXSEG4HV := 0x7c005007%Z (only parsing).
Abbreviation MASK_TH_VLXSEG4HV := 0xfc00707f%Z (only parsing).
Abbreviation MATCH_TH_VLXSEG4WV := 0x7c006007%Z (only parsing).
Abbreviation MASK_TH_VLXSEG4WV := 0xfc00707f%Z (only parsing).
Abbreviation MATCH_TH_VLXSEG5BV := 0x9c000007%Z (only parsing).
Abbreviation MASK_TH_VLXSEG5BV := 0xfc00707f%Z (only parsing).
Abbreviation MATCH_TH_VLXSEG5HV := 0x9c005007%Z (only parsing).
Abbreviation MASK_TH_VLXSEG5HV := 0xfc00707f%Z (only parsing).
Abbreviation MATCH_TH_VLXSEG5WV := 0x9c006007%Z (only parsing).
Abbreviation MASK_TH_VLXSEG5WV := 0xfc00707f%Z (only parsing).
Abbreviation MATCH_TH_VLXSEG6BV := 0xbc000007%Z (only parsing).
Abbreviation MASK_TH_VLXSEG6BV := 0xfc00707f%Z (only parsing).
Abbreviation MATCH_TH_VLXSEG6HV := 0xbc005007%Z (only parsing).
Abbreviation MASK_TH_VLXSEG6HV := 0xfc00707f%Z (only parsing).
Abbreviation MATCH_TH_VLXSEG6WV := 0xbc006007%Z (only parsing).
Abbreviation MASK_TH_VLXSEG6WV := 0xfc00707f%Z (only parsing).
Abbreviation MATCH_TH_VLXSEG7BV := 0xdc000007%Z (only parsing).
Abbreviation MASK_TH_VLXSEG7BV := 0xfc00707f%Z (only parsing).
Abbreviation MATCH_TH_VLXSEG7HV := 0xdc005007%Z (only parsing).
Abbreviation MASK_TH_VLXSEG7HV := 0xfc00707f%Z (only parsing).
Abbreviation MATCH_TH_VLXSEG7WV := 0xdc006007%Z (only parsing).
Abbreviation MASK_TH_VLXSEG7WV := 0xfc00707f%Z (only parsing).
Abbreviation MATCH_TH_VLXSEG8BV := 0xfc000007%Z (only parsing).
Abbreviation MASK_TH_VLXSEG8BV := 0xfc00707f%Z (only parsing).
Abbreviation MATCH_TH_VLXSEG8HV := 0xfc005007%Z (only parsing).
Abbreviation MASK_TH_VLXSEG8HV := 0xfc00707f%Z (only parsing).
Abbreviation MATCH_TH_VLXSEG8WV := 0xfc006007%Z (only parsing).
Abbreviation MASK_TH_VLXSEG8WV := 0xfc00707f%Z (only parsing).
Abbreviation MATCH_TH_VLSEG2BFFV := 0x31000007%Z (only parsing).
Abbreviation MASK_TH_VLSEG2BFFV := 0xfdf0707f%Z (only parsing).
Abbreviation MATCH_TH_VLSEG2HFFV := 0x31005007%Z (only parsing).
Abbreviation MASK_TH_VLSEG2HFFV := 0xfdf0707f%Z (only parsing).
Abbreviation MATCH_TH_VLSEG2WFFV := 0x31006007%Z (only parsing).
Abbreviation MASK_TH_VLSEG2WFFV := 0xfdf0707f%Z (only parsing).
Abbreviation MATCH_TH_VLSEG3BFFV := 0x51000007%Z (only parsing).
Abbreviation MASK_TH_VLSEG3BFFV := 0xfdf0707f%Z (only parsing).
Abbreviation MATCH_TH_VLSEG3HFFV := 0x51005007%Z (only parsing).
Abbreviation MASK_TH_VLSEG3HFFV := 0xfdf0707f%Z (only parsing).
Abbreviation MATCH_TH_VLSEG3WFFV := 0x51006007%Z (only parsing).
Abbreviation MASK_TH_VLSEG3WFFV := 0xfdf0707f%Z (only parsing).
Abbreviation MATCH_TH_VLSEG4BFFV := 0x71000007%Z (only parsing).
Abbreviation MASK_TH_VLSEG4BFFV := 0xfdf0707f%Z (only parsing).
Abbreviation MATCH_TH_VLSEG4HFFV := 0x71005007%Z (only parsing).
Abbreviation MASK_TH_VLSEG4HFFV := 0xfdf0707f%Z (only parsing).
Abbreviation MATCH_TH_VLSEG4WFFV := 0x71006007%Z (only parsing).
Abbreviation MASK_TH_VLSEG4WFFV := 0xfdf0707f%Z (only parsing).
Abbreviation MATCH_TH_VLSEG5BFFV := 0x91000007%Z (only parsing).
Abbreviation MASK_TH_VLSEG5BFFV := 0xfdf0707f%Z (only parsing).
Abbreviation MATCH_TH_VLSEG5HFFV := 0x91005007%Z (only parsing).
Abbreviation MASK_TH_VLSEG5HFFV := 0xfdf0707f%Z (only parsing).
Abbreviation MATCH_TH_VLSEG5WFFV := 0x91006007%Z (only parsing).
Abbreviation MASK_TH_VLSEG5WFFV := 0xfdf0707f%Z (only parsing).
Abbreviation MATCH_TH_VLSEG6BFFV := 0xb1000007%Z (only parsing).
Abbreviation MASK_TH_VLSEG6BFFV := 0xfdf0707f%Z (only parsing).
Abbreviation MATCH_TH_VLSEG6HFFV := 0xb1005007%Z (only parsing).
Abbreviation MASK_TH_VLSEG6HFFV := 0xfdf0707f%Z (only parsing).
Abbreviation MATCH_TH_VLSEG6WFFV := 0xb1006007%Z (only parsing).
Abbreviation MASK_TH_VLSEG6WFFV := 0xfdf0707f%Z (only parsing).
Abbreviation MATCH_TH_VLSEG7BFFV := 0xd1000007%Z (only parsing).
Abbreviation MASK_TH_VLSEG7BFFV := 0xfdf0707f%Z (only parsing).
Abbreviation MATCH_TH_VLSEG7HFFV := 0xd1005007%Z (only parsing).
Abbreviation MASK_TH_VLSEG7HFFV := 0xfdf0707f%Z (only parsing).
Abbreviation MATCH_TH_VLSEG7WFFV := 0xd1006007%Z (only parsing).
Abbreviation MASK_TH_VLSEG7WFFV := 0xfdf0707f%Z (only parsing).
Abbreviation MATCH_TH_VLSEG8BFFV := 0xf1000007%Z (only parsing).
Abbreviation MASK_TH_VLSEG8BFFV := 0xfdf0707f%Z (only parsing).
Abbreviation MATCH_TH_VLSEG8HFFV := 0xf1005007%Z (only parsing).
Abbreviation MASK_TH_VLSEG8HFFV := 0xfdf0707f%Z (only parsing).
Abbreviation MATCH_TH_VLSEG8WFFV := 0xf1006007%Z (only parsing).
Abbreviation MASK_TH_VLSEG8WFFV := 0xfdf0707f%Z (only parsing).
Abbreviation MATCH_TH_VAMOADDWV := 0x0000602f%Z (only parsing).
Abbreviation MASK_TH_VAMOADDWV := 0xf800707f%Z (only parsing).
Abbreviation MATCH_TH_VAMOADDDV := 0x0000702f%Z (only parsing).
Abbreviation MASK_TH_VAMOADDDV := 0xf800707f%Z (only parsing).
Abbreviation MATCH_TH_VAMOSWAPWV := 0x0800602f%Z (only parsing).
Abbreviation MASK_TH_VAMOSWAPWV := 0xf800707f%Z (only parsing).
Abbreviation MATCH_TH_VAMOSWAPDV := 0x0800702f%Z (only parsing).
Abbreviation MASK_TH_VAMOSWAPDV := 0xf800707f%Z (only parsing).
Abbreviation MATCH_TH_VAMOXORWV := 0x2000602f%Z (only parsing).
Abbreviation MASK_TH_VAMOXORWV := 0xf800707f%Z (only parsing).
Abbreviation MATCH_TH_VAMOXORDV := 0x2000702f%Z (only parsing).
Abbreviation MASK_TH_VAMOXORDV := 0xf800707f%Z (only parsing).
Abbreviation MATCH_TH_VAMOANDWV := 0x6000602f%Z (only parsing).
Abbreviation MASK_TH_VAMOANDWV := 0xf800707f%Z (only parsing).
Abbreviation MATCH_TH_VAMOANDDV := 0x6000702f%Z (only parsing).
Abbreviation MASK_TH_VAMOANDDV := 0xf800707f%Z (only parsing).
Abbreviation MATCH_TH_VAMOORWV := 0x4000602f%Z (only parsing).
Abbreviation MASK_TH_VAMOORWV := 0xf800707f%Z (only parsing).
Abbreviation MATCH_TH_VAMOORDV := 0x4000702f%Z (only parsing).
Abbreviation MASK_TH_VAMOORDV := 0xf800707f%Z (only parsing).
Abbreviation MATCH_TH_VAMOMINWV := 0x8000602f%Z (only parsing).
Abbreviation MASK_TH_VAMOMINWV := 0xf800707f%Z (only parsing).
Abbreviation MATCH_TH_VAMOMINDV := 0x8000702f%Z (only parsing).
Abbreviation MASK_TH_VAMOMINDV := 0xf800707f%Z (only parsing).
Abbreviation MATCH_TH_VAMOMAXWV := 0xa000602f%Z (only parsing).
Abbreviation MASK_TH_VAMOMAXWV := 0xf800707f%Z (only parsing).
Abbreviation MATCH_TH_VAMOMAXDV := 0xa000702f%Z (only parsing).
Abbreviation MASK_TH_VAMOMAXDV := 0xf800707f%Z (only parsing).
Abbreviation MATCH_TH_VAMOMINUWV := 0xc000602f%Z (only parsing).
Abbreviation MASK_TH_VAMOMINUWV := 0xf800707f%Z (only parsing).
Abbreviation MATCH_TH_VAMOMINUDV := 0xc000702f%Z (only parsing).
Abbreviation MASK_TH_VAMOMINUDV := 0xf800707f%Z (only parsing).
Abbreviation MATCH_TH_VAMOMAXUWV := 0xe000602f%Z (only parsing).
Abbreviation MASK_TH_VAMOMAXUWV := 0xf800707f%Z (only parsing).
Abbreviation MATCH_TH_VAMOMAXUDV := 0xe000702f%Z (only parsing).
Abbreviation MASK_TH_VAMOMAXUDV := 0xf800707f%Z (only parsing).
Abbreviation MATCH_TH_VADCVVM := 0x42000057%Z (only parsing).
Abbreviation MASK_TH_VADCVVM := 0xfe00707f%Z (only parsing).
Abbreviation MATCH_TH_VADCVXM := 0x42004057%Z (only parsing).
Abbreviation MASK_TH_VADCVXM := 0xfe00707f%Z (only parsing).
Abbreviation MATCH_TH_VADCVIM := 0x42003057%Z (only parsing).
Abbreviation MASK_TH_VADCVIM := 0xfe00707f%Z (only parsing).
Abbreviation MATCH_TH_VSBCVVM := 0x4a000057%Z (only parsing).
Abbreviation MASK_TH_VSBCVVM := 0xfe00707f%Z (only parsing).
Abbreviation MATCH_TH_VSBCVXM := 0x4a004057%Z (only parsing).
Abbreviation MASK_TH_VSBCVXM := 0xfe00707f%Z (only parsing).
Abbreviation MATCH_TH_VWMACCSUVV := 0xf8002057%Z (only parsing).
Abbreviation MASK_TH_VWMACCSUVV := 0xfc00707f%Z (only parsing).
Abbreviation MATCH_TH_VAADDVV := 0x90000057%Z (only parsing).
Abbreviation MASK_TH_VAADDVV := 0xfc00707f%Z (only parsing).
Abbreviation MATCH_TH_VAADDVX := 0x90004057%Z (only parsing).
Abbreviation MASK_TH_VAADDVX := 0xfc00707f%Z (only parsing).
Abbreviation MATCH_TH_VAADDVI := 0x90003057%Z (only parsing).
Abbreviation MASK_TH_VAADDVI := 0xfc00707f%Z (only parsing).
Abbreviation MATCH_TH_VASUBVV := 0x98000057%Z (only parsing).
Abbreviation MASK_TH_VASUBVV := 0xfc00707f%Z (only parsing).
Abbreviation MATCH_TH_VASUBVX := 0x98004057%Z (only parsing).
Abbreviation MASK_TH_VASUBVX := 0xfc00707f%Z (only parsing).
Abbreviation MATCH_TH_VWSMACCSUVV := 0xf8000057%Z (only parsing).
Abbreviation MASK_TH_VWSMACCSUVV := 0xfc00707f%Z (only parsing).
Abbreviation MATCH_TH_VFSQRTV := 0x8c001057%Z (only parsing).
Abbreviation MASK_TH_VFSQRTV := 0xfc0ff07f%Z (only parsing).
Abbreviation MATCH_TH_VMFORDVV := 0x68001057%Z (only parsing).
Abbreviation MASK_TH_VMFORDVV := 0xfc00707f%Z (only parsing).
Abbreviation MATCH_TH_VMFORDVF := 0x68005057%Z (only parsing).
Abbreviation MASK_TH_VMFORDVF := 0xfc00707f%Z (only parsing).
Abbreviation MATCH_TH_VFCLASSV := 0x8c081057%Z (only parsing).
Abbreviation MASK_TH_VFCLASSV := 0xfc0ff07f%Z (only parsing).
Abbreviation MATCH_TH_VFCVTXUFV := 0x88001057%Z (only parsing).
Abbreviation MASK_TH_VFCVTXUFV := 0xfc0ff07f%Z (only parsing).
Abbreviation MATCH_TH_VFCVTXFV := 0x88009057%Z (only parsing).
Abbreviation MASK_TH_VFCVTXFV := 0xfc0ff07f%Z (only parsing).
Abbreviation MATCH_TH_VFCVTFXUV := 0x88011057%Z (only parsing).
Abbreviation MASK_TH_VFCVTFXUV := 0xfc0ff07f%Z (only parsing).
Abbreviation MATCH_TH_VFCVTFXV := 0x88019057%Z (only parsing).
Abbreviation MASK_TH_VFCVTFXV := 0xfc0ff07f%Z (only parsing).
Abbreviation MATCH_TH_VFWCVTXUFV := 0x88041057%Z (only parsing).
Abbreviation MASK_TH_VFWCVTXUFV := 0xfc0ff07f%Z (only parsing).
Abbreviation MATCH_TH_VFWCVTXFV := 0x88049057%Z (only parsing).
Abbreviation MASK_TH_VFWCVTXFV := 0xfc0ff07f%Z (only parsing).
Abbreviation MATCH_TH_VFWCVTFXUV := 0x88051057%Z (only parsing).
Abbreviation MASK_TH_VFWCVTFXUV := 0xfc0ff07f%Z (only parsing).
Abbreviation MATCH_TH_VFWCVTFXV := 0x88059057%Z (only parsing).
Abbreviation MASK_TH_VFWCVTFXV := 0xfc0ff07f%Z (only parsing).
Abbreviation MATCH_TH_VFWCVTFFV := 0x88061057%Z (only parsing).
Abbreviation MASK_TH_VFWCVTFFV := 0xfc0ff07f%Z (only parsing).
Abbreviation MATCH_TH_VFNCVTXUFV := 0x88081057%Z (only parsing).
Abbreviation MASK_TH_VFNCVTXUFV := 0xfc0ff07f%Z (only parsing).
Abbreviation MATCH_TH_VFNCVTXFV := 0x88089057%Z (only parsing).
Abbreviation MASK_TH_VFNCVTXFV := 0xfc0ff07f%Z (only parsing).
Abbreviation MATCH_TH_VFNCVTFXUV := 0x88091057%Z (only parsing).
Abbreviation MASK_TH_VFNCVTFXUV := 0xfc0ff07f%Z (only parsing).
Abbreviation MATCH_TH_VFNCVTFXV := 0x88099057%Z (only parsing).
Abbreviation MASK_TH_VFNCVTFXV := 0xfc0ff07f%Z (only parsing).
Abbreviation MATCH_TH_VFNCVTFFV := 0x880a1057%Z (only parsing).
Abbreviation MASK_TH_VFNCVTFFV := 0xfc0ff07f%Z (only parsing).
Abbreviation MATCH_TH_VMPOPCM := 0x50002057%Z (only parsing).
Abbreviation MASK_TH_VMPOPCM := 0xfc0ff07f%Z (only parsing).
Abbreviation MATCH_TH_VMFIRSTM := 0x54002057%Z (only parsing).
Abbreviation MASK_TH_VMFIRSTM := 0xfc0ff07f%Z (only parsing).
Abbreviation MATCH_TH_VMSBFM := 0x5800a057%Z (only parsing).
Abbreviation MASK_TH_VMSBFM := 0xfc0ff07f%Z (only parsing).
Abbreviation MATCH_TH_VMSIFM := 0x5801a057%Z (only parsing).
Abbreviation MASK_TH_VMSIFM := 0xfc0ff07f%Z (only parsing).
Abbreviation MATCH_TH_VMSOFM := 0x58012057%Z (only parsing).
Abbreviation MASK_TH_VMSOFM := 0xfc0ff07f%Z (only parsing).
Abbreviation MATCH_TH_VIOTAM := 0x58082057%Z (only parsing).
Abbreviation MASK_TH_VIOTAM := 0xfc0ff07f%Z (only parsing).
Abbreviation MATCH_TH_VIDV := 0x5808a057%Z (only parsing).
Abbreviation MASK_TH_VIDV := 0xfdfff07f%Z (only parsing).
Abbreviation MATCH_TH_VMVXS := 0x32002057%Z (only parsing).
Abbreviation MASK_TH_VMVXS := 0xfe0ff07f%Z (only parsing).
Abbreviation MATCH_TH_VEXTXV := 0x32002057%Z (only parsing).
Abbreviation MASK_TH_VEXTXV := 0xfe00707f%Z (only parsing).
Abbreviation MATCH_TH_VMVSX := 0x36006057%Z (only parsing).
Abbreviation MASK_TH_VMVSX := 0xfff0707f%Z (only parsing).
Abbreviation MATCH_TH_VFMVFS := 0x32001057%Z (only parsing).
Abbreviation MASK_TH_VFMVFS := 0xfe0ff07f%Z (only parsing).
Abbreviation MATCH_TH_VFMVSF := 0x36005057%Z (only parsing).
Abbreviation MASK_TH_VFMVSF := 0xfff0707f%Z (only parsing).
Abbreviation MATCH_VT_MASKC := 0x607b%Z (only parsing).
Abbreviation MASK_VT_MASKC := 0xfe00707f%Z (only parsing).
Abbreviation MATCH_VT_MASKCN := 0x707b%Z (only parsing).
Abbreviation MASK_VT_MASKCN := 0xfe00707f%Z (only parsing).
Abbreviation MATCH_SF_VC_X := 0x0200405b%Z (only parsing).
Abbreviation MASK_SF_VC_X := 0xf200707f%Z (only parsing).
Abbreviation MATCH_SF_VC_V_X := 0x0000405b%Z (only parsing).
Abbreviation MASK_SF_VC_V_X := 0xf200707f%Z (only parsing).
Abbreviation MATCH_SF_VC_I := 0x0200305b%Z (only parsing).
Abbreviation MASK_SF_VC_I := 0xf200707f%Z (only parsing).
Abbreviation MATCH_SF_VC_V_I := 0x0000305b%Z (only parsing).
Abbreviation MASK_SF_VC_V_I := 0xf200707f%Z (only parsing).
Abbreviation MATCH_SF_VC_VV := 0x2200005b%Z (only parsing).
Abbreviation MASK_SF_VC_VV := 0xf200707f%Z (only parsing).
Abbreviation MATCH_SF_VC_V_VV := 0x2000005b%Z (only parsing).
Abbreviation MASK_SF_VC_V_VV := 0xf200707f%Z (only parsing).
Abbreviation MATCH_SF_VC_XV := 0x2200405b%Z (only parsing).
Abbreviation MASK_SF_VC_XV := 0xf200707f%Z (only parsing).
Abbreviation MATCH_SF_VC_V_XV := 0x2000405b%Z (only parsing).
Abbreviation MASK_SF_VC_V_XV := 0xf200707f%Z (only parsing).
Abbreviation MATCH_SF_VC_IV := 0x2200305b%Z (only parsing).
Abbreviation MASK_SF_VC_IV := 0xf200707f%Z (only parsing).
Abbreviation MATCH_SF_VC_V_IV := 0x2000305b%Z (only parsing).
Abbreviation MASK_SF_VC_V_IV := 0xf200707f%Z (only parsing).
Abbreviation MATCH_SF_VC_FV := 0x2a00505b%Z (only parsing).
Abbreviation MASK_SF_VC_FV := 0xfa00707f%Z (only parsing).
Abbreviation MATCH_SF_VC_V_FV := 0x2800505b%Z (only parsing).
Abbreviation MASK_SF_VC_V_FV := 0xfa00707f%Z (only parsing).
Abbreviation MATCH_SF_VC_VVV := 0xa200005b%Z (only parsing).
Abbreviation MASK_SF_VC_VVV := 0xf200707f%Z (only parsing).
Abbreviation MATCH_SF_VC_V_VVV := 0xa000005b%Z (only parsing).
Abbreviation MASK_SF_VC_V_VVV := 0xf200707f%Z (only parsing).
Abbreviation MATCH_SF_VC_XVV := 0xa200405b%Z (only parsing).
Abbreviation MASK_SF_VC_XVV := 0xf200707f%Z (only parsing).
Abbreviation MATCH_SF_VC_V_XVV := 0xa000405b%Z (only parsing).
Abbreviation MASK_SF_VC_V_XVV := 0xf200707f%Z (only parsing).
Abbreviation MATCH_SF_VC_IVV := 0xa200305b%Z (only parsing).
Abbreviation MASK_SF_VC_IVV := 0xf200707f%Z (only parsing).
Abbreviation MATCH_SF_VC_V_IVV := 0xa000305b%Z (only parsing).
Abbreviation MASK_SF_VC_V_IVV := 0xf200707f%Z (only parsing).
Abbreviation MATCH_SF_VC_FVV := 0xaa00505b%Z (only parsing).
Abbreviation MASK_SF_VC_FVV := 0xfa00707f%Z (only parsing).
Abbreviation MATCH_SF_VC_V_FVV := 0xa800505b%Z (only parsing).
Abbreviation MASK_SF_VC_V_FVV := 0xfa00707f%Z (only parsing).
Abbreviation MATCH_SF_VC_VVW := 0xf200005b%Z (only parsing).
Abbreviation MASK_SF_VC_VVW := 0xf200707f%Z (only parsing).
Abbreviation MATCH_SF_VC_V_VVW := 0xf000005b%Z (only parsing).
Abbreviation MASK_SF_VC_V_VVW := 0xf200707f%Z (only parsing).
Abbreviation MATCH_SF_VC_XVW := 0xf200405b%Z (only parsing).
Abbreviation MASK_SF_VC_XVW := 0xf200707f%Z (only parsing).
Abbreviation MATCH_SF_VC_V_XVW := 0xf000405b%Z (only parsing).
Abbreviation MASK_SF_VC_V_XVW := 0xf200707f%Z (only parsing).
Abbreviation MATCH_SF_VC_IVW := 0xf200305b%Z (only parsing).
Abbreviation MASK_SF_VC_IVW := 0xf200707f%Z (only parsing).
Abbreviation MATCH_SF_VC_V_IVW := 0xf000305b%Z (only parsing).
Abbreviation MASK_SF_VC_V_IVW := 0xf200707f%Z (only parsing).
Abbreviation MATCH_SF_VC_FVW := 0xfa00505b%Z (only parsing).
Abbreviation MASK_SF_VC_FVW := 0xfa00707f%Z (only parsing).
Abbreviation MATCH_SF_VC_V_FVW := 0xf800505b%Z (only parsing).
Abbreviation MASK_SF_VC_V_FVW := 0xfa00707f%Z (only parsing).
Abbreviation CSR_CYCLE := 0xc00%Z (only parsing).
Abbreviation CSR_TIME := 0xc01%Z (only parsing).
Abbreviation CSR_INSTRET := 0xc02%Z (only parsing).
Abbreviation CSR_HPMCOUNTER3 := 0xc03%Z (only parsing).
Abbreviation CSR_HPMCOUNTER4 := 0xc04%Z (only parsing).
Abbreviation CSR_HPMCOUNTER5 := 0xc05%Z (only parsing).
Abbreviation CSR_HPMCOUNTER6 := 0xc06%Z (only parsing).
Abbreviation CSR_HPMCOUNTER7 := 0xc07%Z (only parsing).
Abbreviation CSR_HPMCOUNTER8 := 0xc08%Z (only parsing).
Abbreviation CSR_HPMCOUNTER9 := 0xc09%Z (only parsing).
Abbreviation CSR_HPMCOUNTER10 := 0xc0a%Z (only parsing).
Abbreviation CSR_HPMCOUNTER11 := 0xc0b%Z (only parsing).
Abbreviation CSR_HPMCOUNTER12 := 0xc0c%Z (only parsing).
Abbreviation CSR_HPMCOUNTER13 := 0xc0d%Z (only parsing).
Abbreviation CSR_HPMCOUNTER14 := 0xc0e%Z (only parsing).
Abbreviation CSR_HPMCOUNTER15 := 0xc0f%Z (only parsing).
Abbreviation CSR_HPMCOUNTER16 := 0xc10%Z (only parsing).
Abbreviation CSR_HPMCOUNTER17 := 0xc11%Z (only parsing).
Abbreviation CSR_HPMCOUNTER18 := 0xc12%Z (only parsing).
Abbreviation CSR_HPMCOUNTER19 := 0xc13%Z (only parsing).
Abbreviation CSR_HPMCOUNTER20 := 0xc14%Z (only parsing).
Abbreviation CSR_HPMCOUNTER21 := 0xc15%Z (only parsing).
Abbreviation CSR_HPMCOUNTER22 := 0xc16%Z (only parsing).
Abbreviation CSR_HPMCOUNTER23 := 0xc17%Z (only parsing).
Abbreviation CSR_HPMCOUNTER24 := 0xc18%Z (only parsing).
Abbreviation CSR_HPMCOUNTER25 := 0xc19%Z (only parsing).
Abbreviation CSR_HPMCOUNTER26 := 0xc1a%Z (only parsing).
Abbreviation CSR_HPMCOUNTER27 := 0xc1b%Z (only parsing).
Abbreviation CSR_HPMCOUNTER28 := 0xc1c%Z (only parsing).
Abbreviation CSR_HPMCOUNTER29 := 0xc1d%Z (only parsing).
Abbreviation CSR_HPMCOUNTER30 := 0xc1e%Z (only parsing).
Abbreviation CSR_HPMCOUNTER31 := 0xc1f%Z (only parsing).
Abbreviation CSR_CYCLEH := 0xc80%Z (only parsing).
Abbreviation CSR_TIMEH := 0xc81%Z (only parsing).
Abbreviation CSR_INSTRETH := 0xc82%Z (only parsing).
Abbreviation CSR_HPMCOUNTER3H := 0xc83%Z (only parsing).
Abbreviation CSR_HPMCOUNTER4H := 0xc84%Z (only parsing).
Abbreviation CSR_HPMCOUNTER5H := 0xc85%Z (only parsing).
Abbreviation CSR_HPMCOUNTER6H := 0xc86%Z (only parsing).
Abbreviation CSR_HPMCOUNTER7H := 0xc87%Z (only parsing).
Abbreviation CSR_HPMCOUNTER8H := 0xc88%Z (only parsing).
Abbreviation CSR_HPMCOUNTER9H := 0xc89%Z (only parsing).
Abbreviation CSR_HPMCOUNTER10H := 0xc8a%Z (only parsing).
Abbreviation CSR_HPMCOUNTER11H := 0xc8b%Z (only parsing).
Abbreviation CSR_HPMCOUNTER12H := 0xc8c%Z (only parsing).
Abbreviation CSR_HPMCOUNTER13H := 0xc8d%Z (only parsing).
Abbreviation CSR_HPMCOUNTER14H := 0xc8e%Z (only parsing).
Abbreviation CSR_HPMCOUNTER15H := 0xc8f%Z (only parsing).
Abbreviation CSR_HPMCOUNTER16H := 0xc90%Z (only parsing).
Abbreviation CSR_HPMCOUNTER17H := 0xc91%Z (only parsing).
Abbreviation CSR_HPMCOUNTER18H := 0xc92%Z (only parsing).
Abbreviation CSR_HPMCOUNTER19H := 0xc93%Z (only parsing).
Abbreviation CSR_HPMCOUNTER20H := 0xc94%Z (only parsing).
Abbreviation CSR_HPMCOUNTER21H := 0xc95%Z (only parsing).
Abbreviation CSR_HPMCOUNTER22H := 0xc96%Z (only parsing).
Abbreviation CSR_HPMCOUNTER23H := 0xc97%Z (only parsing).
Abbreviation CSR_HPMCOUNTER24H := 0xc98%Z (only parsing).
Abbreviation CSR_HPMCOUNTER25H := 0xc99%Z (only parsing).
Abbreviation CSR_HPMCOUNTER26H := 0xc9a%Z (only parsing).
Abbreviation CSR_HPMCOUNTER27H := 0xc9b%Z (only parsing).
Abbreviation CSR_HPMCOUNTER28H := 0xc9c%Z (only parsing).
Abbreviation CSR_HPMCOUNTER29H := 0xc9d%Z (only parsing).
Abbreviation CSR_HPMCOUNTER30H := 0xc9e%Z (only parsing).
Abbreviation CSR_HPMCOUNTER31H := 0xc9f%Z (only parsing).
Abbreviation CSR_SSTATUS := 0x100%Z (only parsing).
Abbreviation CSR_SIE := 0x104%Z (only parsing).
Abbreviation CSR_STVEC := 0x105%Z (only parsing).
Abbreviation CSR_SCOUNTEREN := 0x106%Z (only parsing).
Abbreviation CSR_SENVCFG := 0x10a%Z (only parsing).
Abbreviation CSR_SSCRATCH := 0x140%Z (only parsing).
Abbreviation CSR_SEPC := 0x141%Z (only parsing).
Abbreviation CSR_SCAUSE := 0x142%Z (only parsing).
Abbreviation CSR_STVAL := 0x143%Z (only parsing).
Abbreviation CSR_SIP := 0x144%Z (only parsing).
Abbreviation CSR_SATP := 0x180%Z (only parsing).
Abbreviation CSR_MVENDORID := 0xf11%Z (only parsing).
Abbreviation CSR_MARCHID := 0xf12%Z (only parsing).
Abbreviation CSR_MIMPID := 0xf13%Z (only parsing).
Abbreviation CSR_MHARTID := 0xf14%Z (only parsing).
Abbreviation CSR_MCONFIGPTR := 0xf15%Z (only parsing).
Abbreviation CSR_MSTATUS := 0x300%Z (only parsing).
Abbreviation CSR_MISA := 0x301%Z (only parsing).
Abbreviation CSR_MEDELEG := 0x302%Z (only parsing).
Abbreviation CSR_MIDELEG := 0x303%Z (only parsing).
Abbreviation CSR_MIE := 0x304%Z (only parsing).
Abbreviation CSR_MTVEC := 0x305%Z (only parsing).
Abbreviation CSR_MCOUNTEREN := 0x306%Z (only parsing).
Abbreviation CSR_MSTATUSH := 0x310%Z (only parsing).
Abbreviation CSR_MSCRATCH := 0x340%Z (only parsing).
Abbreviation CSR_MEPC := 0x341%Z (only parsing).
Abbreviation CSR_MCAUSE := 0x342%Z (only parsing).
Abbreviation CSR_MTVAL := 0x343%Z (only parsing).
Abbreviation CSR_MIP := 0x344%Z (only parsing).
Abbreviation CSR_MTINST := 0x34a%Z (only parsing).
Abbreviation CSR_MTVAL2 := 0x34b%Z (only parsing).
Abbreviation CSR_MENVCFG := 0x30a%Z (only parsing).
Abbreviation CSR_MENVCFGH := 0x31a%Z (only parsing).
Abbreviation CSR_MSECCFG := 0x747%Z (only parsing).
Abbreviation CSR_MSECCFGH := 0x757%Z (only parsing).
Abbreviation CSR_PMPCFG0 := 0x3a0%Z (only parsing).
Abbreviation CSR_PMPCFG1 := 0x3a1%Z (only parsing).
Abbreviation CSR_PMPCFG2 := 0x3a2%Z (only parsing).
Abbreviation CSR_PMPCFG3 := 0x3a3%Z (only parsing).
Abbreviation CSR_PMPCFG4 := 0x3a4%Z (only parsing).
Abbreviation CSR_PMPCFG5 := 0x3a5%Z (only parsing).
Abbreviation CSR_PMPCFG6 := 0x3a6%Z (only parsing).
Abbreviation CSR_PMPCFG7 := 0x3a7%Z (only parsing).
Abbreviation CSR_PMPCFG8 := 0x3a8%Z (only parsing).
Abbreviation CSR_PMPCFG9 := 0x3a9%Z (only parsing).
Abbreviation CSR_PMPCFG10 := 0x3aa%Z (only parsing).
Abbreviation CSR_PMPCFG11 := 0x3ab%Z (only parsing).
Abbreviation CSR_PMPCFG12 := 0x3ac%Z (only parsing).
Abbreviation CSR_PMPCFG13 := 0x3ad%Z (only parsing).
Abbreviation CSR_PMPCFG14 := 0x3ae%Z (only parsing).
Abbreviation CSR_PMPCFG15 := 0x3af%Z (only parsing).
Abbreviation CSR_PMPADDR0 := 0x3b0%Z (only parsing).
Abbreviation CSR_PMPADDR1 := 0x3b1%Z (only parsing).
Abbreviation CSR_PMPADDR2 := 0x3b2%Z (only parsing).
Abbreviation CSR_PMPADDR3 := 0x3b3%Z (only parsing).
Abbreviation CSR_PMPADDR4 := 0x3b4%Z (only parsing).
Abbreviation CSR_PMPADDR5 := 0x3b5%Z (only parsing).
Abbreviation CSR_PMPADDR6 := 0x3b6%Z (only parsing).
Abbreviation CSR_PMPADDR7 := 0x3b7%Z (only parsing).
Abbreviation CSR_PMPADDR8 := 0x3b8%Z (only parsing).
Abbreviation CSR_PMPADDR9 := 0x3b9%Z (only parsing).
Abbreviation CSR_PMPADDR10 := 0x3ba%Z (only parsing).
Abbreviation CSR_PMPADDR11 := 0x3bb%Z (only parsing).
Abbreviation CSR_PMPADDR12 := 0x3bc%Z (only parsing).
Abbreviation CSR_PMPADDR13 := 0x3bd%Z (only parsing).
Abbreviation CSR_PMPADDR14 := 0x3be%Z (only parsing).
Abbreviation CSR_PMPADDR15 := 0x3bf%Z (only parsing).
Abbreviation CSR_PMPADDR16 := 0x3c0%Z (only parsing).
Abbreviation CSR_PMPADDR17 := 0x3c1%Z (only parsing).
Abbreviation CSR_PMPADDR18 := 0x3c2%Z (only parsing).
Abbreviation CSR_PMPADDR19 := 0x3c3%Z (only parsing).
Abbreviation CSR_PMPADDR20 := 0x3c4%Z (only parsing).
Abbreviation CSR_PMPADDR21 := 0x3c5%Z (only parsing).
Abbreviation CSR_PMPADDR22 := 0x3c6%Z (only parsing).
Abbreviation CSR_PMPADDR23 := 0x3c7%Z (only parsing).
Abbreviation CSR_PMPADDR24 := 0x3c8%Z (only parsing).
Abbreviation CSR_PMPADDR25 := 0x3c9%Z (only parsing).
Abbreviation CSR_PMPADDR26 := 0x3ca%Z (only parsing).
Abbreviation CSR_PMPADDR27 := 0x3cb%Z (only parsing).
Abbreviation CSR_PMPADDR28 := 0x3cc%Z (only parsing).
Abbreviation CSR_PMPADDR29 := 0x3cd%Z (only parsing).
Abbreviation CSR_PMPADDR30 := 0x3ce%Z (only parsing).
Abbreviation CSR_PMPADDR31 := 0x3cf%Z (only parsing).
Abbreviation CSR_PMPADDR32 := 0x3d0%Z (only parsing).
Abbreviation CSR_PMPADDR33 := 0x3d1%Z (only parsing).
Abbreviation CSR_PMPADDR34 := 0x3d2%Z (only parsing).
Abbreviation CSR_PMPADDR35 := 0x3d3%Z (only parsing).
Abbreviation CSR_PMPADDR36 := 0x3d4%Z (only parsing).
Abbreviation CSR_PMPADDR37 := 0x3d5%Z (only parsing).
Abbreviation CSR_PMPADDR38 := 0x3d6%Z (only parsing).
Abbreviation CSR_PMPADDR39 := 0x3d7%Z (only parsing).
Abbreviation CSR_PMPADDR40 := 0x3d8%Z (only parsing).
Abbreviation CSR_PMPADDR41 := 0x3d9%Z (only parsing).
Abbreviation CSR_PMPADDR42 := 0x3da%Z (only parsing).
Abbreviation CSR_PMPADDR43 := 0x3db%Z (only parsing).
Abbreviation CSR_PMPADDR44 := 0x3dc%Z (only parsing).
Abbreviation CSR_PMPADDR45 := 0x3dd%Z (only parsing).
Abbreviation CSR_PMPADDR46 := 0x3de%Z (only parsing).
Abbreviation CSR_PMPADDR47 := 0x3df%Z (only parsing).
Abbreviation CSR_PMPADDR48 := 0x3e0%Z (only parsing).
Abbreviation CSR_PMPADDR49 := 0x3e1%Z (only parsing).
Abbreviation CSR_PMPADDR50 := 0x3e2%Z (only parsing).
Abbreviation CSR_PMPADDR51 := 0x3e3%Z (only parsing).
Abbreviation CSR_PMPADDR52 := 0x3e4%Z (only parsing).
Abbreviation CSR_PMPADDR53 := 0x3e5%Z (only parsing).
Abbreviation CSR_PMPADDR54 := 0x3e6%Z (only parsing).
Abbreviation CSR_PMPADDR55 := 0x3e7%Z (only parsing).
Abbreviation CSR_PMPADDR56 := 0x3e8%Z (only parsing).
Abbreviation CSR_PMPADDR57 := 0x3e9%Z (only parsing).
Abbreviation CSR_PMPADDR58 := 0x3ea%Z (only parsing).
Abbreviation CSR_PMPADDR59 := 0x3eb%Z (only parsing).
Abbreviation CSR_PMPADDR60 := 0x3ec%Z (only parsing).
Abbreviation CSR_PMPADDR61 := 0x3ed%Z (only parsing).
Abbreviation CSR_PMPADDR62 := 0x3ee%Z (only parsing).
Abbreviation CSR_PMPADDR63 := 0x3ef%Z (only parsing).
Abbreviation CSR_MCYCLE := 0xb00%Z (only parsing).
Abbreviation CSR_MINSTRET := 0xb02%Z (only parsing).
Abbreviation CSR_MHPMCOUNTER3 := 0xb03%Z (only parsing).
Abbreviation CSR_MHPMCOUNTER4 := 0xb04%Z (only parsing).
Abbreviation CSR_MHPMCOUNTER5 := 0xb05%Z (only parsing).
Abbreviation CSR_MHPMCOUNTER6 := 0xb06%Z (only parsing).
Abbreviation CSR_MHPMCOUNTER7 := 0xb07%Z (only parsing).
Abbreviation CSR_MHPMCOUNTER8 := 0xb08%Z (only parsing).
Abbreviation CSR_MHPMCOUNTER9 := 0xb09%Z (only parsing).
Abbreviation CSR_MHPMCOUNTER10 := 0xb0a%Z (only parsing).
Abbreviation CSR_MHPMCOUNTER11 := 0xb0b%Z (only parsing).
Abbreviation CSR_MHPMCOUNTER12 := 0xb0c%Z (only parsing).
Abbreviation CSR_MHPMCOUNTER13 := 0xb0d%Z (only parsing).
Abbreviation CSR_MHPMCOUNTER14 := 0xb0e%Z (only parsing).
Abbreviation CSR_MHPMCOUNTER15 := 0xb0f%Z (only parsing).
Abbreviation CSR_MHPMCOUNTER16 := 0xb10%Z (only parsing).
Abbreviation CSR_MHPMCOUNTER17 := 0xb11%Z (only parsing).
Abbreviation CSR_MHPMCOUNTER18 := 0xb12%Z (only parsing).
Abbreviation CSR_MHPMCOUNTER19 := 0xb13%Z (only parsing).
Abbreviation CSR_MHPMCOUNTER20 := 0xb14%Z (only parsing).
Abbreviation CSR_MHPMCOUNTER21 := 0xb15%Z (only parsing).
Abbreviation CSR_MHPMCOUNTER22 := 0xb16%Z (only parsing).
Abbreviation CSR_MHPMCOUNTER23 := 0xb17%Z (only parsing).
Abbreviation CSR_MHPMCOUNTER24 := 0xb18%Z (only parsing).
Abbreviation CSR_MHPMCOUNTER25 := 0xb19%Z (only parsing).
Abbreviation CSR_MHPMCOUNTER26 := 0xb1a%Z (only parsing).
Abbreviation CSR_MHPMCOUNTER27 := 0xb1b%Z (only parsing).
Abbreviation CSR_MHPMCOUNTER28 := 0xb1c%Z (only parsing).
Abbreviation CSR_MHPMCOUNTER29 := 0xb1d%Z (only parsing).
Abbreviation CSR_MHPMCOUNTER30 := 0xb1e%Z (only parsing).
Abbreviation CSR_MHPMCOUNTER31 := 0xb1f%Z (only parsing).
Abbreviation CSR_MCYCLEH := 0xb80%Z (only parsing).
Abbreviation CSR_MINSTRETH := 0xb82%Z (only parsing).
Abbreviation CSR_MHPMCOUNTER3H := 0xb83%Z (only parsing).
Abbreviation CSR_MHPMCOUNTER4H := 0xb84%Z (only parsing).
Abbreviation CSR_MHPMCOUNTER5H := 0xb85%Z (only parsing).
Abbreviation CSR_MHPMCOUNTER6H := 0xb86%Z (only parsing).
Abbreviation CSR_MHPMCOUNTER7H := 0xb87%Z (only parsing).
Abbreviation CSR_MHPMCOUNTER8H := 0xb88%Z (only parsing).
Abbreviation CSR_MHPMCOUNTER9H := 0xb89%Z (only parsing).
Abbreviation CSR_MHPMCOUNTER10H := 0xb8a%Z (only parsing).
Abbreviation CSR_MHPMCOUNTER11H := 0xb8b%Z (only parsing).
Abbreviation CSR_MHPMCOUNTER12H := 0xb8c%Z (only parsing).
Abbreviation CSR_MHPMCOUNTER13H := 0xb8d%Z (only parsing).
Abbreviation CSR_MHPMCOUNTER14H := 0xb8e%Z (only parsing).
Abbreviation CSR_MHPMCOUNTER15H := 0xb8f%Z (only parsing).
Abbreviation CSR_MHPMCOUNTER16H := 0xb90%Z (only parsing).
Abbreviation CSR_MHPMCOUNTER17H := 0xb91%Z (only parsing).
Abbreviation CSR_MHPMCOUNTER18H := 0xb92%Z (only parsing).
Abbreviation CSR_MHPMCOUNTER19H := 0xb93%Z (only parsing).
Abbreviation CSR_MHPMCOUNTER20H := 0xb94%Z (only parsing).
Abbreviation CSR_MHPMCOUNTER21H := 0xb95%Z (only parsing).
Abbreviation CSR_MHPMCOUNTER22H := 0xb96%Z (only parsing).
Abbreviation CSR_MHPMCOUNTER23H := 0xb97%Z (only parsing).
Abbreviation CSR_MHPMCOUNTER24H := 0xb98%Z (only parsing).
Abbreviation CSR_MHPMCOUNTER25H := 0xb99%Z (only parsing).
Abbreviation CSR_MHPMCOUNTER26H := 0xb9a%Z (only parsing).
Abbreviation CSR_MHPMCOUNTER27H := 0xb9b%Z (only parsing).
Abbreviation CSR_MHPMCOUNTER28H := 0xb9c%Z (only parsing).
Abbreviation CSR_MHPMCOUNTER29H := 0xb9d%Z (only parsing).
Abbreviation CSR_MHPMCOUNTER30H := 0xb9e%Z (only parsing).
Abbreviation CSR_MHPMCOUNTER31H := 0xb9f%Z (only parsing).
Abbreviation CSR_MCOUNTINHIBIT := 0x320%Z (only parsing).
Abbreviation CSR_MHPMEVENT3 := 0x323%Z (only parsing).
Abbreviation CSR_MHPMEVENT4 := 0x324%Z (only parsing).
Abbreviation CSR_MHPMEVENT5 := 0x325%Z (only parsing).
Abbreviation CSR_MHPMEVENT6 := 0x326%Z (only parsing).
Abbreviation CSR_MHPMEVENT7 := 0x327%Z (only parsing).
Abbreviation CSR_MHPMEVENT8 := 0x328%Z (only parsing).
Abbreviation CSR_MHPMEVENT9 := 0x329%Z (only parsing).
Abbreviation CSR_MHPMEVENT10 := 0x32a%Z (only parsing).
Abbreviation CSR_MHPMEVENT11 := 0x32b%Z (only parsing).
Abbreviation CSR_MHPMEVENT12 := 0x32c%Z (only parsing).
Abbreviation CSR_MHPMEVENT13 := 0x32d%Z (only parsing).
Abbreviation CSR_MHPMEVENT14 := 0x32e%Z (only parsing).
Abbreviation CSR_MHPMEVENT15 := 0x32f%Z (only parsing).
Abbreviation CSR_MHPMEVENT16 := 0x330%Z (only parsing).
Abbreviation CSR_MHPMEVENT17 := 0x331%Z (only parsing).
Abbreviation CSR_MHPMEVENT18 := 0x332%Z (only parsing).
Abbreviation CSR_MHPMEVENT19 := 0x333%Z (only parsing).
Abbreviation CSR_MHPMEVENT20 := 0x334%Z (only parsing).
Abbreviation CSR_MHPMEVENT21 := 0x335%Z (only parsing).
Abbreviation CSR_MHPMEVENT22 := 0x336%Z (only parsing).
Abbreviation CSR_MHPMEVENT23 := 0x337%Z (only parsing).
Abbreviation CSR_MHPMEVENT24 := 0x338%Z (only parsing).
Abbreviation CSR_MHPMEVENT25 := 0x339%Z (only parsing).
Abbreviation CSR_MHPMEVENT26 := 0x33a%Z (only parsing).
Abbreviation CSR_MHPMEVENT27 := 0x33b%Z (only parsing).
Abbreviation CSR_MHPMEVENT28 := 0x33c%Z (only parsing).
Abbreviation CSR_MHPMEVENT29 := 0x33d%Z (only parsing).
Abbreviation CSR_MHPMEVENT30 := 0x33e%Z (only parsing).
Abbreviation CSR_MHPMEVENT31 := 0x33f%Z (only parsing).
Abbreviation CSR_HSTATUS := 0x600%Z (only parsing).
Abbreviation CSR_HEDELEG := 0x602%Z (only parsing).
Abbreviation CSR_HIDELEG := 0x603%Z (only parsing).
Abbreviation CSR_HIE := 0x604%Z (only parsing).
Abbreviation CSR_HCOUNTEREN := 0x606%Z (only parsing).
Abbreviation CSR_HGEIE := 0x607%Z (only parsing).
Abbreviation CSR_HTVAL := 0x643%Z (only parsing).
Abbreviation CSR_HIP := 0x644%Z (only parsing).
Abbreviation CSR_HVIP := 0x645%Z (only parsing).
Abbreviation CSR_HTINST := 0x64a%Z (only parsing).
Abbreviation CSR_HGEIP := 0xe12%Z (only parsing).
Abbreviation CSR_HENVCFG := 0x60a%Z (only parsing).
Abbreviation CSR_HENVCFGH := 0x61a%Z (only parsing).
Abbreviation CSR_HGATP := 0x680%Z (only parsing).
Abbreviation CSR_HTIMEDELTA := 0x605%Z (only parsing).
Abbreviation CSR_HTIMEDELTAH := 0x615%Z (only parsing).
Abbreviation CSR_VSSTATUS := 0x200%Z (only parsing).
Abbreviation CSR_VSIE := 0x204%Z (only parsing).
Abbreviation CSR_VSTVEC := 0x205%Z (only parsing).
Abbreviation CSR_VSSCRATCH := 0x240%Z (only parsing).
Abbreviation CSR_VSEPC := 0x241%Z (only parsing).
Abbreviation CSR_VSCAUSE := 0x242%Z (only parsing).
Abbreviation CSR_VSTVAL := 0x243%Z (only parsing).
Abbreviation CSR_VSIP := 0x244%Z (only parsing).
Abbreviation CSR_VSATP := 0x280%Z (only parsing).
Abbreviation CSR_MBASE := 0x380%Z (only parsing).
Abbreviation CSR_MBOUND := 0x381%Z (only parsing).
Abbreviation CSR_MIBASE := 0x382%Z (only parsing).
Abbreviation CSR_MIBOUND := 0x383%Z (only parsing).
Abbreviation CSR_MDBASE := 0x384%Z (only parsing).
Abbreviation CSR_MDBOUND := 0x385%Z (only parsing).
Abbreviation CSR_USTATUS := 0x0%Z (only parsing).
Abbreviation CSR_UIE := 0x4%Z (only parsing).
Abbreviation CSR_UTVEC := 0x5%Z (only parsing).
Abbreviation CSR_USCRATCH := 0x40%Z (only parsing).
Abbreviation CSR_UEPC := 0x41%Z (only parsing).
Abbreviation CSR_UCAUSE := 0x42%Z (only parsing).
Abbreviation CSR_UTVAL := 0x43%Z (only parsing).
Abbreviation CSR_UIP := 0x44%Z (only parsing).
Abbreviation CSR_SEDELEG := 0x102%Z (only parsing).
Abbreviation CSR_SIDELEG := 0x103%Z (only parsing).
Abbreviation CSR_MISELECT := 0x350%Z (only parsing).
Abbreviation CSR_MIREG := 0x351%Z (only parsing).
Abbreviation CSR_MTOPEI := 0x35c%Z (only parsing).
Abbreviation CSR_MTOPI := 0xfb0%Z (only parsing).
Abbreviation CSR_MVIEN := 0x308%Z (only parsing).
Abbreviation CSR_MVIP := 0x309%Z (only parsing).
Abbreviation CSR_MIDELEGH := 0x313%Z (only parsing).
Abbreviation CSR_MIEH := 0x314%Z (only parsing).
Abbreviation CSR_MVIENH := 0x318%Z (only parsing).
Abbreviation CSR_MVIPH := 0x319%Z (only parsing).
Abbreviation CSR_MIPH := 0x354%Z (only parsing).
Abbreviation CSR_MCYCLECFG := 0x321%Z (only parsing).
Abbreviation CSR_MINSTRETCFG := 0x322%Z (only parsing).
Abbreviation CSR_MCYCLECFGH := 0x721%Z (only parsing).
Abbreviation CSR_MINSTRETCFGH := 0x722%Z (only parsing).
Abbreviation CSR_MSTATEEN0 := 0x30c%Z (only parsing).
Abbreviation CSR_MSTATEEN1 := 0x30d%Z (only parsing).
Abbreviation CSR_MSTATEEN2 := 0x30e%Z (only parsing).
Abbreviation CSR_MSTATEEN3 := 0x30f%Z (only parsing).
Abbreviation CSR_SSTATEEN0 := 0x10c%Z (only parsing).
Abbreviation CSR_SSTATEEN1 := 0x10d%Z (only parsing).
Abbreviation CSR_SSTATEEN2 := 0x10e%Z (only parsing).
Abbreviation CSR_SSTATEEN3 := 0x10f%Z (only parsing).
Abbreviation CSR_HSTATEEN0 := 0x60c%Z (only parsing).
Abbreviation CSR_HSTATEEN1 := 0x60d%Z (only parsing).
Abbreviation CSR_HSTATEEN2 := 0x60e%Z (only parsing).
Abbreviation CSR_HSTATEEN3 := 0x60f%Z (only parsing).
Abbreviation CSR_MSTATEEN0H := 0x31c%Z (only parsing).
Abbreviation CSR_MSTATEEN1H := 0x31d%Z (only parsing).
Abbreviation CSR_MSTATEEN2H := 0x31e%Z (only parsing).
Abbreviation CSR_MSTATEEN3H := 0x31f%Z (only parsing).
Abbreviation CSR_HSTATEEN0H := 0x61c%Z (only parsing).
Abbreviation CSR_HSTATEEN1H := 0x61d%Z (only parsing).
Abbreviation CSR_HSTATEEN2H := 0x61e%Z (only parsing).
Abbreviation CSR_HSTATEEN3H := 0x61f%Z (only parsing).
Abbreviation CSR_SISELECT := 0x150%Z (only parsing).
Abbreviation CSR_SIREG := 0x151%Z (only parsing).
Abbreviation CSR_STOPEI := 0x15c%Z (only parsing).
Abbreviation CSR_STOPI := 0xdb0%Z (only parsing).
Abbreviation CSR_SIEH := 0x114%Z (only parsing).
Abbreviation CSR_SIPH := 0x154%Z (only parsing).
Abbreviation CSR_HVIEN := 0x608%Z (only parsing).
Abbreviation CSR_HVICTL := 0x609%Z (only parsing).
Abbreviation CSR_HVIPRIO1 := 0x646%Z (only parsing).
Abbreviation CSR_HVIPRIO2 := 0x647%Z (only parsing).
Abbreviation CSR_VSISELECT := 0x250%Z (only parsing).
Abbreviation CSR_VSIREG := 0x251%Z (only parsing).
Abbreviation CSR_VSTOPEI := 0x25c%Z (only parsing).
Abbreviation CSR_VSTOPI := 0xeb0%Z (only parsing).
Abbreviation CSR_HIDELEGH := 0x613%Z (only parsing).
Abbreviation CSR_HVIENH := 0x618%Z (only parsing).
Abbreviation CSR_HVIPH := 0x655%Z (only parsing).
Abbreviation CSR_HVIPRIO1H := 0x656%Z (only parsing).
Abbreviation CSR_HVIPRIO2H := 0x657%Z (only parsing).
Abbreviation CSR_VSIEH := 0x214%Z (only parsing).
Abbreviation CSR_VSIPH := 0x254%Z (only parsing).
Abbreviation CSR_SCOUNTOVF := 0xda0%Z (only parsing).
Abbreviation CSR_MHPMEVENT3H := 0x723%Z (only parsing).
Abbreviation CSR_MHPMEVENT4H := 0x724%Z (only parsing).
Abbreviation CSR_MHPMEVENT5H := 0x725%Z (only parsing).
Abbreviation CSR_MHPMEVENT6H := 0x726%Z (only parsing).
Abbreviation CSR_MHPMEVENT7H := 0x727%Z (only parsing).
Abbreviation CSR_MHPMEVENT8H := 0x728%Z (only parsing).
Abbreviation CSR_MHPMEVENT9H := 0x729%Z (only parsing).
Abbreviation CSR_MHPMEVENT10H := 0x72a%Z (only parsing).
Abbreviation CSR_MHPMEVENT11H := 0x72b%Z (only parsing).
Abbreviation CSR_MHPMEVENT12H := 0x72c%Z (only parsing).
Abbreviation CSR_MHPMEVENT13H := 0x72d%Z (only parsing).
Abbreviation CSR_MHPMEVENT14H := 0x72e%Z (only parsing).
Abbreviation CSR_MHPMEVENT15H := 0x72f%Z (only parsing).
Abbreviation CSR_MHPMEVENT16H := 0x730%Z (only parsing).
Abbreviation CSR_MHPMEVENT17H := 0x731%Z (only parsing).
Abbreviation CSR_MHPMEVENT18H := 0x732%Z (only parsing).
Abbreviation CSR_MHPMEVENT19H := 0x733%Z (only parsing).
Abbreviation CSR_MHPMEVENT20H := 0x734%Z (only parsing).
Abbreviation CSR_MHPMEVENT21H := 0x735%Z (only parsing).
Abbreviation CSR_MHPMEVENT22H := 0x736%Z (only parsing).
Abbreviation CSR_MHPMEVENT23H := 0x737%Z (only parsing).
Abbreviation CSR_MHPMEVENT24H := 0x738%Z (only parsing).
Abbreviation CSR_MHPMEVENT25H := 0x739%Z (only parsing).
Abbreviation CSR_MHPMEVENT26H := 0x73a%Z (only parsing).
Abbreviation CSR_MHPMEVENT27H := 0x73b%Z (only parsing).
Abbreviation CSR_MHPMEVENT28H := 0x73c%Z (only parsing).
Abbreviation CSR_MHPMEVENT29H := 0x73d%Z (only parsing).
Abbreviation CSR_MHPMEVENT30H := 0x73e%Z (only parsing).
Abbreviation CSR_MHPMEVENT31H := 0x73f%Z (only parsing).
Abbreviation CSR_STIMECMP := 0x14d%Z (only parsing).
Abbreviation CSR_STIMECMPH := 0x15d%Z (only parsing).
Abbreviation CSR_VSTIMECMP := 0x24d%Z (only parsing).
Abbreviation CSR_VSTIMECMPH := 0x25d%Z (only parsing).
Abbreviation CSR_FFLAGS := 0x1%Z (only parsing).
Abbreviation CSR_FRM := 0x2%Z (only parsing).
Abbreviation CSR_FCSR := 0x3%Z (only parsing).
Abbreviation CSR_DCSR := 0x7b0%Z (only parsing).
Abbreviation CSR_DPC := 0x7b1%Z (only parsing).
Abbreviation CSR_DSCRATCH0 := 0x7b2%Z (only parsing).
Abbreviation CSR_DSCRATCH1 := 0x7b3%Z (only parsing).
Abbreviation CSR_TSELECT := 0x7a0%Z (only parsing).
Abbreviation CSR_TDATA1 := 0x7a1%Z (only parsing).
Abbreviation CSR_TDATA2 := 0x7a2%Z (only parsing).
Abbreviation CSR_TDATA3 := 0x7a3%Z (only parsing).
Abbreviation CSR_TINFO := 0x7a4%Z (only parsing).
Abbreviation CSR_TCONTROL := 0x7a5%Z (only parsing).
Abbreviation CSR_HCONTEXT := 0x6a8%Z (only parsing).
Abbreviation CSR_SCONTEXT := 0x5a8%Z (only parsing).
Abbreviation CSR_MCONTEXT := 0x7a8%Z (only parsing).
Abbreviation CSR_MSCONTEXT := 0x7aa%Z (only parsing).
Abbreviation CSR_SEED := 0x015%Z (only parsing).
Abbreviation CSR_VSTART := 0x008%Z (only parsing).
Abbreviation CSR_VXSAT := 0x009%Z (only parsing).
Abbreviation CSR_VXRM := 0x00a%Z (only parsing).
Abbreviation CSR_VCSR := 0x00f%Z (only parsing).
Abbreviation CSR_VL := 0xc20%Z (only parsing).
Abbreviation CSR_VTYPE := 0xc21%Z (only parsing).
Abbreviation CSR_VLENB := 0xc22%Z (only parsing).
