(* ===== verification/RiscvH.v ===== *)
(** * Instruction fields and immediates (include/opcode/riscv.h)

    The field and immediate macros of the header, the instruction classes and
    the [riscv_opcode] record shared by the assembler and the disassembler.
    [insn_t] is [uint64_t]: the [EXTRACT_*] macros are at that type, with the
    wrap-around of the negations and left shifts written out.  The [ENCODE_*]
    macros are used at several integer types; none of their shifts overflows a
    32-bit type, so they are plain shifts. *)
From Stdlib Require Import ZArith Bool.
From stdpp Require Import base strings list decidable.
From S2P Require Import Prelude OpcodeH.

#[local] Open Scope Z_scope.
#[local] Open Scope c_scope.

Definition riscv_insn_length (insn : Z) : Z :=
  if negb ((insn .& 0x3) =? 0x3) then 2        (* RVC instructions *)
  else if negb ((insn .& 0x1f) =? 0x1f) then 4 (* 32-bit instructions *)
  else if (insn .& 0x3f) =? 0x1f then 6        (* 48-bit instructions *)
  else if (insn .& 0x7f) =? 0x3f then 8        (* 64-bit instructions *)
  else if ((insn .& 0x7f) =? 0x7f) && negb ((insn .& 0x7000) =? 0x7000)
  then 10 + ((insn >> 11) .& 0xe)              (* 80- ... 176-bit instructions *)
  else 2.

Definition RISCV_MAX_INSN_LEN : Z := 22.

Definition RISCV_IMM_BITS : Z := 12.
Definition RISCV_BIGIMM_BITS : Z := 32 - RISCV_IMM_BITS.
Definition RISCV_IMM_REACH : Z := 1 << RISCV_IMM_BITS.
Definition RISCV_BIGIMM_REACH : Z := 1 << RISCV_BIGIMM_BITS.
Definition RISCV_RVC_IMM_REACH : Z := 1 << 6.
Definition RISCV_JUMP_BITS : Z := RISCV_BIGIMM_BITS.
Definition RISCV_JUMP_ALIGN_BITS : Z := 1.
Definition RISCV_JUMP_ALIGN : Z := 1 << RISCV_JUMP_ALIGN_BITS.
Definition RISCV_JUMP_REACH : Z := (1 << RISCV_JUMP_BITS) * RISCV_JUMP_ALIGN.
Definition RISCV_BRANCH_BITS : Z := RISCV_IMM_BITS.
Definition RISCV_BRANCH_ALIGN_BITS : Z := RISCV_JUMP_ALIGN_BITS.
Definition RISCV_BRANCH_ALIGN : Z := 1 << RISCV_BRANCH_ALIGN_BITS.
Definition RISCV_BRANCH_REACH : Z := RISCV_IMM_REACH * RISCV_BRANCH_ALIGN.
Definition RVC_JUMP_BITS : Z := 11.
Definition RVC_JUMP_REACH : Z := (1 << RVC_JUMP_BITS) * RISCV_JUMP_ALIGN.
Definition RVC_BRANCH_BITS : Z := 8.
Definition RVC_BRANCH_REACH : Z := (1 << RVC_BRANCH_BITS) * RISCV_BRANCH_ALIGN.

(** ** Bit fields *)

Definition RV_X (x s n : Z) : Z := (x >> s) .& ((1 << n) - 1).
Definition RV_IMM_SIGN (x : Z) : Z := -u ((x >> 31) .& 1).
Definition RV_X_SIGNED (x s n : Z) : Z :=
  RV_X x s n .| ((-u (RV_X x (s + n - 1) 1)) <<u n).

Definition EXTRACT_ITYPE_IMM (x : Z) : Z := (RV_X x 20 12 .| (RV_IMM_SIGN x <<u 12)).
Definition EXTRACT_STYPE_IMM (x : Z) : Z :=
  (RV_X x 7 5 .| (RV_X x 25 7 <<u 5) .| (RV_IMM_SIGN x <<u 12)).
Definition EXTRACT_BTYPE_IMM (x : Z) : Z :=
  ((RV_X x 8 4 <<u 1) .| (RV_X x 25 6 <<u 5) .| (RV_X x 7 1 <<u 11) .|
   (RV_IMM_SIGN x <<u 12)).
Definition EXTRACT_UTYPE_IMM (x : Z) : Z := ((RV_X x 12 20 <<u 12) .| (RV_IMM_SIGN x <<u 32)).
Definition EXTRACT_JTYPE_IMM (x : Z) : Z :=
  ((RV_X x 21 10 <<u 1) .| (RV_X x 20 1 <<u 11) .| (RV_X x 12 8 <<u 12) .|
   (RV_IMM_SIGN x <<u 20)).
Definition EXTRACT_CITYPE_IMM (x : Z) : Z := (RV_X x 2 5 .| ((-u RV_X x 12 1) <<u 5)).
Definition EXTRACT_CITYPE_LUI_IMM (x : Z) : Z := (EXTRACT_CITYPE_IMM x <<u RISCV_IMM_BITS).
Definition EXTRACT_CITYPE_ADDI16SP_IMM (x : Z) : Z :=
  ((RV_X x 6 1 <<u 4) .| (RV_X x 2 1 <<u 5) .| (RV_X x 5 1 <<u 6) .|
   (RV_X x 3 2 <<u 7) .| ((-u RV_X x 12 1) <<u 9)).
Definition EXTRACT_CITYPE_LWSP_IMM (x : Z) : Z :=
  ((RV_X x 4 3 <<u 2) .| (RV_X x 12 1 <<u 5) .| (RV_X x 2 2 <<u 6)).
Definition EXTRACT_CITYPE_LDSP_IMM (x : Z) : Z :=
  ((RV_X x 5 2 <<u 3) .| (RV_X x 12 1 <<u 5) .| (RV_X x 2 3 <<u 6)).
Definition EXTRACT_CSSTYPE_IMM (x : Z) : Z := (RV_X x 7 6 <<u 0).
Definition EXTRACT_CSSTYPE_SWSP_IMM (x : Z) : Z := ((RV_X x 9 4 <<u 2) .| (RV_X x 7 2 <<u 6)).
Definition EXTRACT_CSSTYPE_SDSP_IMM (x : Z) : Z := ((RV_X x 10 3 <<u 3) .| (RV_X x 7 3 <<u 6)).
Definition EXTRACT_CIWTYPE_IMM (x : Z) : Z := (RV_X x 5 8).
Definition EXTRACT_CIWTYPE_ADDI4SPN_IMM (x : Z) : Z :=
  ((RV_X x 6 1 <<u 2) .| (RV_X x 5 1 <<u 3) .| (RV_X x 11 2 <<u 4) .|
   (RV_X x 7 4 <<u 6)).
Definition EXTRACT_CLTYPE_IMM (x : Z) : Z := ((RV_X x 5 2 <<u 0) .| (RV_X x 10 3 <<u 2)).
Definition EXTRACT_CLTYPE_LW_IMM (x : Z) : Z :=
  ((RV_X x 6 1 <<u 2) .| (RV_X x 10 3 <<u 3) .| (RV_X x 5 1 <<u 6)).
Definition EXTRACT_CLTYPE_LD_IMM (x : Z) : Z := ((RV_X x 10 3 <<u 3) .| (RV_X x 5 2 <<u 6)).
Definition EXTRACT_CBTYPE_IMM (x : Z) : Z :=
  ((RV_X x 3 2 <<u 1) .| (RV_X x 10 2 <<u 3) .| (RV_X x 2 1 <<u 5) .|
   (RV_X x 5 2 <<u 6) .| ((-u RV_X x 12 1) <<u 8)).
Definition EXTRACT_CJTYPE_IMM (x : Z) : Z :=
  ((RV_X x 3 3 <<u 1) .| (RV_X x 11 1 <<u 4) .| (RV_X x 2 1 <<u 5) .|
   (RV_X x 7 1 <<u 6) .| (RV_X x 6 1 <<u 7) .| (RV_X x 9 2 <<u 8) .|
   (RV_X x 8 1 <<u 10) .| ((-u RV_X x 12 1) <<u 11)).
Definition EXTRACT_RVV_VI_IMM (x : Z) : Z := (RV_X x 15 5 .| ((-u RV_X x 19 1) <<u 5)).
Definition EXTRACT_RVV_VI_UIMM (x : Z) : Z := (RV_X x 15 5).
Definition EXTRACT_RVV_VI_UIMM6 (x : Z) : Z := (RV_X x 15 5 .| (RV_X x 26 1 <<u 5)).
Definition EXTRACT_RVV_OFFSET (x : Z) : Z := (RV_X x 29 3).
Definition EXTRACT_RVV_VB_IMM (x : Z) : Z := (RV_X x 20 10).
Definition EXTRACT_RVV_VC_IMM (x : Z) : Z := (RV_X x 20 11).
Definition EXTRACT_ZCB_BYTE_UIMM (x : Z) : Z := (RV_X x 6 1 .| (RV_X x 5 1 <<u 1)).
Definition EXTRACT_ZCB_HALFWORD_UIMM (x : Z) : Z := (RV_X x 5 1 <<u 1).
Definition EXTRACT_CV_IS2_UIMM5 (x : Z) : Z := (RV_X x 20 5).
Definition EXTRACT_CV_IS3_UIMM5 (x : Z) : Z := (RV_X x 25 5).

Definition ENCODE_ITYPE_IMM (x : Z) : Z := (RV_X x 0 12 << 20).
Definition ENCODE_STYPE_IMM (x : Z) : Z := ((RV_X x 0 5 << 7) .| (RV_X x 5 7 << 25)).
Definition ENCODE_BTYPE_IMM (x : Z) : Z :=
  ((RV_X x 1 4 << 8) .| (RV_X x 5 6 << 25) .| (RV_X x 11 1 << 7) .|
   (RV_X x 12 1 << 31)).
Definition ENCODE_UTYPE_IMM (x : Z) : Z := (RV_X x 12 20 << 12).
Definition ENCODE_JTYPE_IMM (x : Z) : Z :=
  ((RV_X x 1 10 << 21) .| (RV_X x 11 1 << 20) .| (RV_X x 12 8 << 12) .|
   (RV_X x 20 1 << 31)).
Definition ENCODE_CITYPE_IMM (x : Z) : Z := ((RV_X x 0 5 << 2) .| (RV_X x 5 1 << 12)).
Definition ENCODE_CITYPE_LUI_IMM (x : Z) : Z := ENCODE_CITYPE_IMM (x >> RISCV_IMM_BITS).
Definition ENCODE_CITYPE_ADDI16SP_IMM (x : Z) : Z :=
  ((RV_X x 4 1 << 6) .| (RV_X x 5 1 << 2) .| (RV_X x 6 1 << 5) .| (RV_X x 7 2 << 3) .|
   (RV_X x 9 1 << 12)).
Definition ENCODE_CITYPE_LWSP_IMM (x : Z) : Z :=
  ((RV_X x 2 3 << 4) .| (RV_X x 5 1 << 12) .| (RV_X x 6 2 << 2)).
Definition ENCODE_CITYPE_LDSP_IMM (x : Z) : Z :=
  ((RV_X x 3 2 << 5) .| (RV_X x 5 1 << 12) .| (RV_X x 6 3 << 2)).
Definition ENCODE_CSSTYPE_IMM (x : Z) : Z := (RV_X x 0 6 << 7).
Definition ENCODE_CSSTYPE_SWSP_IMM (x : Z) : Z := ((RV_X x 2 4 << 9) .| (RV_X x 6 2 << 7)).
Definition ENCODE_CSSTYPE_SDSP_IMM (x : Z) : Z := ((RV_X x 3 3 << 10) .| (RV_X x 6 3 << 7)).
Definition ENCODE_CIWTYPE_IMM (x : Z) : Z := (RV_X x 0 8 << 5).
Definition ENCODE_CIWTYPE_ADDI4SPN_IMM (x : Z) : Z :=
  ((RV_X x 2 1 << 6) .| (RV_X x 3 1 << 5) .| (RV_X x 4 2 << 11) .| (RV_X x 6 4 << 7)).
Definition ENCODE_CLTYPE_IMM (x : Z) : Z := ((RV_X x 0 2 << 5) .| (RV_X x 2 3 << 10)).
Definition ENCODE_CLTYPE_LW_IMM (x : Z) : Z :=
  ((RV_X x 2 1 << 6) .| (RV_X x 3 3 << 10) .| (RV_X x 6 1 << 5)).
Definition ENCODE_CLTYPE_LD_IMM (x : Z) : Z := ((RV_X x 3 3 << 10) .| (RV_X x 6 2 << 5)).
Definition ENCODE_CBTYPE_IMM (x : Z) : Z :=
  ((RV_X x 1 2 << 3) .| (RV_X x 3 2 << 10) .| (RV_X x 5 1 << 2) .| (RV_X x 6 2 << 5) .|
   (RV_X x 8 1 << 12)).
Definition ENCODE_CJTYPE_IMM (x : Z) : Z :=
  ((RV_X x 1 3 << 3) .| (RV_X x 4 1 << 11) .| (RV_X x 5 1 << 2) .| (RV_X x 6 1 << 7) .|
   (RV_X x 7 1 << 6) .| (RV_X x 8 2 << 9) .| (RV_X x 10 1 << 8) .| (RV_X x 11 1 << 12)).
Definition ENCODE_RVV_VB_IMM (x : Z) : Z := (RV_X x 0 10 << 20).
Definition ENCODE_RVV_VC_IMM (x : Z) : Z := (RV_X x 0 11 << 20).
Definition ENCODE_RVV_VI_UIMM6 (x : Z) : Z := ((RV_X x 0 5 << 15) .| (RV_X x 5 1 << 26)).
Definition ENCODE_ZCB_BYTE_UIMM (x : Z) : Z := ((RV_X x 0 1 << 6) .| (RV_X x 1 1 << 5)).
Definition ENCODE_ZCB_HALFWORD_UIMM (x : Z) : Z := (RV_X x 1 1 << 5).
Definition ENCODE_CV_IS2_UIMM5 (x : Z) : Z := (RV_X x 0 5 << 20).
Definition ENCODE_CV_IS3_UIMM5 (x : Z) : Z := (RV_X x 0 5 << 25).

Definition VALID_ITYPE_IMM (x : Z) : bool := EXTRACT_ITYPE_IMM (ENCODE_ITYPE_IMM x) =? x.
Definition VALID_STYPE_IMM (x : Z) : bool := EXTRACT_STYPE_IMM (ENCODE_STYPE_IMM x) =? x.
Definition VALID_BTYPE_IMM (x : Z) : bool := EXTRACT_BTYPE_IMM (ENCODE_BTYPE_IMM x) =? x.
Definition VALID_UTYPE_IMM (x : Z) : bool := EXTRACT_UTYPE_IMM (ENCODE_UTYPE_IMM x) =? x.
Definition VALID_JTYPE_IMM (x : Z) : bool := EXTRACT_JTYPE_IMM (ENCODE_JTYPE_IMM x) =? x.
Definition VALID_CITYPE_IMM (x : Z) : bool := EXTRACT_CITYPE_IMM (ENCODE_CITYPE_IMM x) =? x.
Definition VALID_CITYPE_LUI_IMM (x : Z) : bool :=
  negb (ENCODE_CITYPE_LUI_IMM x =? 0) && (EXTRACT_CITYPE_LUI_IMM (ENCODE_CITYPE_LUI_IMM x) =? x).
Definition VALID_CITYPE_ADDI16SP_IMM (x : Z) : bool :=
  negb (ENCODE_CITYPE_ADDI16SP_IMM x =? 0) && (EXTRACT_CITYPE_ADDI16SP_IMM (ENCODE_CITYPE_ADDI16SP_IMM x) =? x).
Definition VALID_CITYPE_LWSP_IMM (x : Z) : bool :=
  EXTRACT_CITYPE_LWSP_IMM (ENCODE_CITYPE_LWSP_IMM x) =? x.
Definition VALID_CITYPE_LDSP_IMM (x : Z) : bool :=
  EXTRACT_CITYPE_LDSP_IMM (ENCODE_CITYPE_LDSP_IMM x) =? x.
Definition VALID_CSSTYPE_IMM (x : Z) : bool := EXTRACT_CSSTYPE_IMM (ENCODE_CSSTYPE_IMM x) =? x.
Definition VALID_CSSTYPE_SWSP_IMM (x : Z) : bool :=
  EXTRACT_CSSTYPE_SWSP_IMM (ENCODE_CSSTYPE_SWSP_IMM x) =? x.
Definition VALID_CSSTYPE_SDSP_IMM (x : Z) : bool :=
  EXTRACT_CSSTYPE_SDSP_IMM (ENCODE_CSSTYPE_SDSP_IMM x) =? x.
Definition VALID_CIWTYPE_IMM (x : Z) : bool := EXTRACT_CIWTYPE_IMM (ENCODE_CIWTYPE_IMM x) =? x.
Definition VALID_CIWTYPE_ADDI4SPN_IMM (x : Z) : bool :=
  EXTRACT_CIWTYPE_ADDI4SPN_IMM (ENCODE_CIWTYPE_ADDI4SPN_IMM x) =? x.
Definition VALID_CLTYPE_IMM (x : Z) : bool := EXTRACT_CLTYPE_IMM (ENCODE_CLTYPE_IMM x) =? x.
Definition VALID_CLTYPE_LW_IMM (x : Z) : bool :=
  EXTRACT_CLTYPE_LW_IMM (ENCODE_CLTYPE_LW_IMM x) =? x.
Definition VALID_CLTYPE_LD_IMM (x : Z) : bool :=
  EXTRACT_CLTYPE_LD_IMM (ENCODE_CLTYPE_LD_IMM x) =? x.
Definition VALID_CBTYPE_IMM (x : Z) : bool := EXTRACT_CBTYPE_IMM (ENCODE_CBTYPE_IMM x) =? x.
Definition VALID_CJTYPE_IMM (x : Z) : bool := EXTRACT_CJTYPE_IMM (ENCODE_CJTYPE_IMM x) =? x.
Definition VALID_RVV_VB_IMM (x : Z) : bool := EXTRACT_RVV_VB_IMM (ENCODE_RVV_VB_IMM x) =? x.
Definition VALID_RVV_VC_IMM (x : Z) : bool := EXTRACT_RVV_VC_IMM (ENCODE_RVV_VC_IMM x) =? x.
Definition VALID_ZCB_BYTE_UIMM (x : Z) : bool :=
  EXTRACT_ZCB_BYTE_UIMM (ENCODE_ZCB_BYTE_UIMM x) =? x.
Definition VALID_ZCB_HALFWORD_UIMM (x : Z) : bool :=
  EXTRACT_ZCB_HALFWORD_UIMM (ENCODE_ZCB_HALFWORD_UIMM x) =? x.

(** ** Instruction formats *)

Definition RISCV_RTYPE (match_insn rd rs1 rs2 : Z) : Z :=
  match_insn .| (rd << 7) .| (rs1 << 15) .| (rs2 << 20).
Definition RISCV_ITYPE (match_insn rd rs1 imm : Z) : Z :=
  match_insn .| (rd << 7) .| (rs1 << 15) .| ENCODE_ITYPE_IMM imm.
Definition RISCV_STYPE (match_insn rs1 rs2 imm : Z) : Z :=
  match_insn .| (rs1 << 15) .| (rs2 << 20) .| ENCODE_STYPE_IMM imm.
Definition RISCV_BTYPE (match_insn rs1 rs2 target : Z) : Z :=
  match_insn .| (rs1 << 15) .| (rs2 << 20) .| ENCODE_BTYPE_IMM target.
Definition RISCV_UTYPE (match_insn rd bigimm : Z) : Z :=
  match_insn .| (rd << 7) .| ENCODE_UTYPE_IMM bigimm.
Definition RISCV_JTYPE (match_insn rd target : Z) : Z :=
  match_insn .| (rd << 7) .| ENCODE_JTYPE_IMM target.

Definition RISCV_NOP : Z := RISCV_ITYPE MATCH_ADDI 0 0 0.
Definition RVC_NOP : Z := MATCH_C_ADDI.

(** At [bfd_vma] (64-bit unsigned). *)
Definition RISCV_CONST_HIGH_PART (value : Z) : Z :=
  u64 (value + RISCV_IMM_REACH / 2) .& u64 (Z.lnot (RISCV_IMM_REACH - 1)).
Definition RISCV_CONST_LOW_PART (value : Z) : Z :=
  u64 (value - RISCV_CONST_HIGH_PART value).
Definition RISCV_PCREL_HIGH_PART (value pc : Z) : Z := RISCV_CONST_HIGH_PART (u64 (value - pc)).
Definition RISCV_PCREL_LOW_PART (value pc : Z) : Z := RISCV_CONST_LOW_PART (u64 (value - pc)).

(** ** Operand fields *)

(** The operand fields [OP_MASK_*]/[OP_SH_*] are defined for. *)
Inductive op_field : Set :=
| FLD_OP
| FLD_RS2
| FLD_RS1
| FLD_RS3
| FLD_RD
| FLD_SHAMT
| FLD_SHAMTW
| FLD_RM
| FLD_PRED
| FLD_SUCC
| FLD_AQ
| FLD_RL
| FLD_CSR
| FLD_FUNCT3
| FLD_FUNCT7
| FLD_FUNCT2
| FLD_OP2
| FLD_CRS2
| FLD_CRS1S
| FLD_CRS2S
| FLD_CFUNCT6
| FLD_CFUNCT4
| FLD_CFUNCT3
| FLD_CFUNCT2
| FLD_BS
| FLD_RNUM
| FLD_VD
| FLD_VS1
| FLD_VS2
| FLD_VIMM
| FLD_VMASK
| FLD_VFUNCT6
| FLD_VLMUL
| FLD_VSEW
| FLD_VTA
| FLD_VMA
| FLD_VWD
| FLD_XTHEADVLMUL
| FLD_XTHEADVSEW
| FLD_XTHEADVEDIV
| FLD_XTHEADVTYPE_RES
| FLD_XSO2
| FLD_XSO1.

Definition OP_MASK (f : op_field) : Z :=
  match f with
  | FLD_OP => 0x7f
  | FLD_RS2 => 0x1f
  | FLD_RS1 => 0x1f
  | FLD_RS3 => 0x1f
  | FLD_RD => 0x1f
  | FLD_SHAMT => 0x3f
  | FLD_SHAMTW => 0x1f
  | FLD_RM => 0x7
  | FLD_PRED => 0xf
  | FLD_SUCC => 0xf
  | FLD_AQ => 0x1
  | FLD_RL => 0x1
  | FLD_CSR => 0xfff
  | FLD_FUNCT3 => 0x7
  | FLD_FUNCT7 => 0x7f
  | FLD_FUNCT2 => 0x3
  | FLD_OP2 => 0x3
  | FLD_CRS2 => 0x1f
  | FLD_CRS1S => 0x7
  | FLD_CRS2S => 0x7
  | FLD_CFUNCT6 => 0x3f
  | FLD_CFUNCT4 => 0xf
  | FLD_CFUNCT3 => 0x7
  | FLD_CFUNCT2 => 0x3
  | FLD_BS => 3
  | FLD_RNUM => 0xf
  | FLD_VD => 0x1f
  | FLD_VS1 => 0x1f
  | FLD_VS2 => 0x1f
  | FLD_VIMM => 0x1f
  | FLD_VMASK => 0x1
  | FLD_VFUNCT6 => 0x3f
  | FLD_VLMUL => 0x7
  | FLD_VSEW => 0x7
  | FLD_VTA => 0x1
  | FLD_VMA => 0x1
  | FLD_VWD => 0x1
  | FLD_XTHEADVLMUL => 0x3
  | FLD_XTHEADVSEW => 0x7
  | FLD_XTHEADVEDIV => 0x3
  | FLD_XTHEADVTYPE_RES => 0xf
  | FLD_XSO2 => 0x3
  | FLD_XSO1 => 0x1
  end.

Definition OP_SH (f : op_field) : Z :=
  match f with
  | FLD_OP => 0
  | FLD_RS2 => 20
  | FLD_RS1 => 15
  | FLD_RS3 => 27
  | FLD_RD => 7
  | FLD_SHAMT => 20
  | FLD_SHAMTW => 20
  | FLD_RM => 12
  | FLD_PRED => 24
  | FLD_SUCC => 20
  | FLD_AQ => 26
  | FLD_RL => 25
  | FLD_CSR => 20
  | FLD_FUNCT3 => 12
  | FLD_FUNCT7 => 25
  | FLD_FUNCT2 => 25
  | FLD_OP2 => 0
  | FLD_CRS2 => 2
  | FLD_CRS1S => 7
  | FLD_CRS2S => 2
  | FLD_CFUNCT6 => 10
  | FLD_CFUNCT4 => 12
  | FLD_CFUNCT3 => 13
  | FLD_CFUNCT2 => 5
  | FLD_BS => 30
  | FLD_RNUM => 20
  | FLD_VD => 7
  | FLD_VS1 => 15
  | FLD_VS2 => 20
  | FLD_VIMM => 15
  | FLD_VMASK => 25
  | FLD_VFUNCT6 => 26
  | FLD_VLMUL => 0
  | FLD_VSEW => 3
  | FLD_VTA => 6
  | FLD_VMA => 7
  | FLD_VWD => 26
  | FLD_XTHEADVLMUL => 0
  | FLD_XTHEADVSEW => 2
  | FLD_XTHEADVEDIV => 5
  | FLD_XTHEADVTYPE_RES => 7
  | FLD_XSO2 => 26
  | FLD_XSO1 => 26
  end.

Definition INSERT_BITS (struct_ value mask shift : Z) : Z :=
  (struct_ .& u64 (Z.lnot (mask <<u shift))) .| ((value .& mask) <<u shift).

Definition EXTRACT_BITS (struct_ mask shift : Z) : Z := (struct_ >> shift) .& mask.

(** [EXTRACT_OPERAND (FIELD, INSN)], an [unsigned int]. *)
Definition EXTRACT_OPERAND (f : op_field) (insn : Z) : Z :=
  u32 (EXTRACT_BITS insn (OP_MASK f) (OP_SH f)).

Definition EXTRACT_U_IMM (n s l : Z) : Z := RV_X l s n.
Definition EXTRACT_S_IMM (n s l : Z) : Z := RV_X_SIGNED l s n.

(** [ulong] is the width of [unsigned long] of the host the tools run on. *)
Definition VALIDATE_U_IMM (ulong v n : Z) : bool := (v mod 2 ^ ulong) <? (1 << n).
Definition VALIDATE_S_IMM (v n : Z) : bool :=
  (v <? (1 << (n - 1))) && (- (1 << (n - 1)) <=? v).

(** ABI names for selected x-registers. *)
Abbreviation X_RA := 1%Z (only parsing).
Abbreviation X_SP := 2%Z (only parsing).
Abbreviation X_GP := 3%Z (only parsing).
Abbreviation X_TP := 4%Z (only parsing).
Abbreviation X_T0 := 5%Z (only parsing).
Abbreviation X_T1 := 6%Z (only parsing).
Abbreviation X_T2 := 7%Z (only parsing).
Abbreviation X_T3 := 28%Z (only parsing).

(** ** Instruction classes and opcode entries *)

Inductive riscv_insn_class : Set :=
| INSN_CLASS_NONE
| INSN_CLASS_I
| INSN_CLASS_C
| INSN_CLASS_A
| INSN_CLASS_M
| INSN_CLASS_F
| INSN_CLASS_D
| INSN_CLASS_Q
| INSN_CLASS_F_AND_C
| INSN_CLASS_D_AND_C
| INSN_CLASS_ZICOND
| INSN_CLASS_ZICSR
| INSN_CLASS_ZIFENCEI
| INSN_CLASS_ZIHINTNTL
| INSN_CLASS_ZIHINTNTL_AND_C
| INSN_CLASS_ZIHINTPAUSE
| INSN_CLASS_ZMMUL
| INSN_CLASS_ZAWRS
| INSN_CLASS_F_INX
| INSN_CLASS_D_INX
| INSN_CLASS_Q_INX
| INSN_CLASS_ZFH_INX
| INSN_CLASS_ZFHMIN
| INSN_CLASS_ZFHMIN_INX
| INSN_CLASS_ZFHMIN_AND_D_INX
| INSN_CLASS_ZFHMIN_AND_Q_INX
| INSN_CLASS_ZFA
| INSN_CLASS_D_AND_ZFA
| INSN_CLASS_Q_AND_ZFA
| INSN_CLASS_ZFH_AND_ZFA
| INSN_CLASS_ZFH_OR_ZVFH_AND_ZFA
| INSN_CLASS_ZBA
| INSN_CLASS_ZBB
| INSN_CLASS_ZBC
| INSN_CLASS_ZBS
| INSN_CLASS_ZBKB
| INSN_CLASS_ZBKC
| INSN_CLASS_ZBKX
| INSN_CLASS_ZKND
| INSN_CLASS_ZKNE
| INSN_CLASS_ZKNH
| INSN_CLASS_ZKSED
| INSN_CLASS_ZKSH
| INSN_CLASS_ZBB_OR_ZBKB
| INSN_CLASS_ZBC_OR_ZBKC
| INSN_CLASS_ZKND_OR_ZKNE
| INSN_CLASS_V
| INSN_CLASS_ZVEF
| INSN_CLASS_ZVBB
| INSN_CLASS_ZVBC
| INSN_CLASS_ZVKB
| INSN_CLASS_ZVKG
| INSN_CLASS_ZVKNED
| INSN_CLASS_ZVKNHA_OR_ZVKNHB
| INSN_CLASS_ZVKSED
| INSN_CLASS_ZVKSH
| INSN_CLASS_ZCB
| INSN_CLASS_ZCB_AND_ZBA
| INSN_CLASS_ZCB_AND_ZBB
| INSN_CLASS_ZCB_AND_ZMMUL
| INSN_CLASS_SVINVAL
| INSN_CLASS_ZICBOM
| INSN_CLASS_ZICBOP
| INSN_CLASS_ZICBOZ
| INSN_CLASS_H
| INSN_CLASS_XCVMAC
| INSN_CLASS_XCVALU
| INSN_CLASS_XTHEADBA
| INSN_CLASS_XTHEADBB
| INSN_CLASS_XTHEADBS
| INSN_CLASS_XTHEADCMO
| INSN_CLASS_XTHEADCONDMOV
| INSN_CLASS_XTHEADFMEMIDX
| INSN_CLASS_XTHEADFMV
| INSN_CLASS_XTHEADINT
| INSN_CLASS_XTHEADMAC
| INSN_CLASS_XTHEADMEMIDX
| INSN_CLASS_XTHEADMEMPAIR
| INSN_CLASS_XTHEADSYNC
| INSN_CLASS_XTHEADVECTOR
| INSN_CLASS_XTHEADZVAMO
| INSN_CLASS_XVENTANACONDOPS
| INSN_CLASS_XSFVCP.

#[export] Instance riscv_insn_class_eq_dec : EqDecision riscv_insn_class.
Proof. solve_decision. Defined.

(** The match functions of opcodes/riscv-opc.c an entry may point to. *)
Inductive match_func_t : Set :=
| MF_match_opcode
| MF_match_rs1_eq_rs2
| MF_match_rd_nonzero
| MF_match_rs1_nonzero
| MF_match_c_add
| MF_match_c_add_with_hint
| MF_match_c_nop
| MF_match_c_addi16sp
| MF_match_c_lui
| MF_match_c_lui_with_hint
| MF_match_c_addi4spn
| MF_match_c_slli
| MF_match_slli_as_c_slli
| MF_match_c_slli64
| MF_match_srxi_as_c_srxi
| MF_match_vs1_eq_vs2
| MF_match_vd_eq_vs1_eq_vs2
| MF_match_th_load_inc
| MF_match_th_load_pair.

(** [struct riscv_opcode]; a [NULL] match function is [None]. *)
Record riscv_opcode : Set := mk_opcode {
  name : string;
  xlen_requirement : Z;
  insn_class : riscv_insn_class;
  args : string;
  match_ : Z;
  mask : Z;
  match_func : option match_func_t;
  pinfo : Z
}.

Abbreviation INSN_ALIAS := 0x00000001%Z (only parsing).
Abbreviation INSN_TYPE := 0x0000000e%Z (only parsing).
Abbreviation INSN_BRANCH := 0x00000002%Z (only parsing).
Abbreviation INSN_CONDBRANCH := 0x00000004%Z (only parsing).
Abbreviation INSN_JSR := 0x00000006%Z (only parsing).
Abbreviation INSN_DREF := 0x00000008%Z (only parsing).
Abbreviation INSN_V_EEW64 := 0x10000000%Z (only parsing).
Abbreviation INSN_DATA_SIZE := 0x00000070%Z (only parsing).
Abbreviation INSN_DATA_SIZE_SHIFT := 4%Z (only parsing).
Abbreviation INSN_1_BYTE := 0x00000010%Z (only parsing).
Abbreviation INSN_2_BYTE := 0x00000020%Z (only parsing).
Abbreviation INSN_4_BYTE := 0x00000030%Z (only parsing).
Abbreviation INSN_8_BYTE := 0x00000040%Z (only parsing).
Abbreviation INSN_16_BYTE := 0x00000050%Z (only parsing).
Abbreviation INSN_MACRO := 0xffffffff%Z (only parsing).

(** Macro identifiers (the anonymous enum of the header). *)
Abbreviation M_LA := 0%Z (only parsing).
Abbreviation M_LLA := 1%Z (only parsing).
Abbreviation M_LGA := 2%Z (only parsing).
Abbreviation M_LA_TLS_GD := 3%Z (only parsing).
Abbreviation M_LA_TLS_IE := 4%Z (only parsing).
Abbreviation M_Lx := 5%Z (only parsing).
Abbreviation M_FLx := 6%Z (only parsing).
Abbreviation M_Sx_FSx := 7%Z (only parsing).
Abbreviation M_CALL := 8%Z (only parsing).
Abbreviation M_J := 9%Z (only parsing).
Abbreviation M_LI := 10%Z (only parsing).
Abbreviation M_EXTH := 11%Z (only parsing).
Abbreviation M_ZEXTW := 12%Z (only parsing).
Abbreviation M_SEXTB := 13%Z (only parsing).
Abbreviation M_VMSGE := 14%Z (only parsing).
Abbreviation M_NUM_MACROS := 15%Z (only parsing).

(** Mapping symbol states. *)
Inductive riscv_seg_mstate : Set := MAP_NONE | MAP_DATA | MAP_INSN.

#[export] Instance riscv_seg_mstate_eq_dec : EqDecision riscv_seg_mstate.
Proof. solve_decision. Defined.
