(* ===== verification/Immediates.v ===== *)
(** * Immediate encodings: what the [ENCODE_*]/[EXTRACT_*]/[VALID_*] macros mean

    Every macro of the header is a shuffle of bits: bit [i] of the result is
    the disjunction of some bits of the argument.  [bexp] is the syntax of
    such shuffles, [prov] computes for each result bit the argument bits it
    comes from, and [denote_testbit] is its soundness.  The properties of the
    immediate formats are then decided by evaluating [prov] on 64 bits. *)
From Stdlib Require Import ZArith Lia Bool.
From stdpp Require Import base list decidable strings.
From S2P Require Import Prelude OpcodeH RiscvH.

#[local] Open Scope Z_scope.
#[local] Open Scope c_scope.

(** ** Bit shuffles and the provenance of their bits *)

Inductive bexp : Set :=
| BX (s n : Z)            (* RV_X x s n *)
| BNeg (s : Z)            (* -u RV_X x s 1 *)
| BShl (e : bexp) (k : Z) (* e << k *)
| BShlW (e : bexp) (k : Z) (* e <<u k *)
| BOr (e1 e2 : bexp).

Fixpoint denote (e : bexp) (x : Z) : Z :=
  match e with
  | BX s n => RV_X x s n
  | BNeg s => -u RV_X x s 1
  | BShl e k => denote e x << k
  | BShlW e k => denote e x <<u k
  | BOr e1 e2 => denote e1 x .| denote e2 x
  end.

Fixpoint wf_bexp (e : bexp) : bool :=
  match e with
  | BX s n => (0 <=? s) && (0 <=? n)
  | BNeg s => 0 <=? s
  | BShl e k | BShlW e k => wf_bexp e && (0 <=? k)
  | BOr e1 e2 => wf_bexp e1 && wf_bexp e2
  end.

(** The argument bits whose disjunction is bit [i] of the result. *)
Fixpoint prov (e : bexp) (i : Z) : list Z :=
  match e with
  | BX s n => if (0 <=? i) && (i <? n) then [s + i] else []
  | BNeg s => if (0 <=? i) && (i <? 64) then [s] else []
  | BShl e k => if i <? k then [] else prov e (i - k)
  | BShlW e k => if (i <? k) || (64 <=? i) then [] else prov e (i - k)
  | BOr e1 e2 => prov e1 i ++ prov e2 i
  end.

(** A bound on the number of significant bits of the result. *)
Fixpoint bwidth (e : bexp) : Z :=
  match e with
  | BX _ n => n
  | BNeg _ => 64
  | BShl e k => bwidth e + k
  | BShlW _ _ => 64
  | BOr e1 e2 => Z.max (bwidth e1) (bwidth e2)
  end.

Lemma shiftl_1_sub_1 (n : Z) : Z.shiftl 1 n - 1 = Z.ones n.
Proof. unfold Z.ones. lia. Qed.

Lemma RV_X_testbit (x s n i : Z) :
  0 <= s -> 0 <= n -> 0 <= i ->
  Z.testbit (RV_X x s n) i = (i <? n) && Z.testbit x (s + i).
Proof.
  intros Hs Hn Hi. unfold RV_X. rewrite shiftl_1_sub_1, Z.land_spec, Z.shiftr_spec by lia.
  rewrite Z.testbit_ones_nonneg by lia. rewrite andb_comm. do 2 f_equal. lia.
Qed.

Lemma RV_X_range (x s n : Z) : 0 <= n -> 0 <= RV_X x s n < 2 ^ n.
Proof.
  intros Hn. unfold RV_X. rewrite shiftl_1_sub_1, Z.land_ones by lia.
  apply Z.mod_pos_bound. apply Z.pow_pos_nonneg; lia.
Qed.

Lemma BNeg_testbit (x s i : Z) :
  0 <= s -> 0 <= i ->
  Z.testbit (-u RV_X x s 1) i = (i <? 64) && Z.testbit x s.
Proof.
  intros Hs Hi. rewrite u64_testbit by lia.
  pose proof (RV_X_range x s 1 ltac:(lia)) as Hr.
  pose proof (RV_X_testbit x s 1 0 Hs ltac:(lia) ltac:(lia)) as Hb.
  simpl in Hb. rewrite Z.add_0_r in Hb. rewrite <- Hb. f_equal.
  assert (RV_X x s 1 = 0 \/ RV_X x s 1 = 1) as [->| ->] by (change (2 ^ 1) with 2 in Hr; lia).
  - by rewrite !Z.testbit_0_l.
  - change (- (1)) with (-1). rewrite Z.bits_m1 by lia. done.
Qed.

Lemma prov_nonneg (e : bexp) (i j : Z) :
  wf_bexp e = true -> 0 <= i -> In j (prov e i) -> 0 <= j.
Proof.
  revert i; induction e; simpl; intros i Hwf Hi Hj; breflect;
    repeat split_match_in Hj; breflect; simpl in Hj; try tauto.
  - destruct Hj; lia || tauto.
  - destruct Hj; lia || tauto.
  - eapply IHe; [done| |exact Hj]; lia.
  - eapply IHe; [done| |exact Hj]; lia.
  - apply in_app_or in Hj as [Hj|Hj]; eauto.
Qed.

(** Soundness of [prov]. *)
Lemma denote_testbit (e : bexp) (x i : Z) :
  wf_bexp e = true -> 0 <= i ->
  Z.testbit (denote e x) i = existsb (Z.testbit x) (prov e i).
Proof.
  revert i; induction e; simpl; intros i Hwf Hi; breflect.
  - rewrite RV_X_testbit by lia. destruct (Z.leb_spec 0 i); [|lia]. simpl.
    destruct (i <? n); simpl; [by rewrite orb_false_r|done].
  - rewrite BNeg_testbit by lia. destruct (Z.leb_spec 0 i); [|lia]. simpl.
    destruct (i <? 64); simpl; [by rewrite orb_false_r|done].
  - rewrite Z.shiftl_spec by lia. destruct (Z.ltb_spec i k).
    + by rewrite Z.testbit_neg_r by lia.
    + apply IHe; [done|lia].
  - rewrite u64_testbit, Z.shiftl_spec by lia.
    destruct (Z.ltb_spec i k), (Z.ltb_spec i 64), (Z.leb_spec 64 i); simpl; try lia;
      try done; [by rewrite Z.testbit_neg_r by lia|apply IHe; [done|lia]].
  - rewrite Z.lor_spec, existsb_app, IHe1, IHe2 by done. done.
Qed.

Lemma denote_nonneg (e : bexp) (x : Z) : wf_bexp e = true -> 0 <= denote e x.
Proof.
  induction e; simpl; intros Hwf; breflect.
  - by apply RV_X_range.
  - apply u64_range.
  - apply Z.shiftl_nonneg. auto.
  - apply u64_range.
  - apply Z.lor_nonneg. auto.
Qed.

Lemma prov_high (e : bexp) (i : Z) :
  wf_bexp e = true -> bwidth e <= i -> prov e i = [].
Proof.
  revert i; induction e; simpl; intros i Hwf Hi; breflect.
  - destruct (Z.ltb_spec i n); [lia|]. by rewrite andb_false_r.
  - destruct (Z.ltb_spec i 64); [lia|]. by rewrite andb_false_r.
  - rewrite IHe by (done || lia). by destruct (i <? k).
  - destruct (Z.leb_spec 64 i); [|lia]. by rewrite orb_true_r.
  - rewrite IHe1, IHe2 by (done || lia). done.
Qed.

Lemma denote_range (e : bexp) (x : Z) :
  wf_bexp e = true -> 0 <= bwidth e -> 0 <= denote e x < 2 ^ bwidth e.
Proof.
  intros Hwf Hw. pose proof (denote_nonneg e x Hwf). split; [done|].
  apply bits_range; [done..|]. intros i Hi.
  rewrite denote_testbit by (done || lia). by rewrite prov_high.
Qed.

(** The argument only matters on its provenance bits. *)
Lemma denote_ext (e : bexp) (x y : Z) :
  wf_bexp e = true ->
  (forall i j, 0 <= i -> In j (prov e i) -> Z.testbit x j = Z.testbit y j) ->
  denote e x = denote e y.
Proof.
  intros Hwf Hxy. apply Z.bits_inj'. intros i Hi.
  rewrite !denote_testbit by done.
  specialize (Hxy i). induction (prov e i) as [|j l IH]; simpl; [done|].
  f_equal; [by apply Hxy; [|left]|]. apply IH. intros j' ? ?. apply Hxy; [done|by right].
Qed.

Lemma compose_testbit (e1 e2 : bexp) (x i : Z) :
  wf_bexp e1 = true -> wf_bexp e2 = true -> 0 <= i ->
  Z.testbit (denote e2 (denote e1 x)) i
  = existsb (Z.testbit x) (flat_map (prov e1) (prov e2 i)).
Proof.
  intros H1 H2 Hi. rewrite denote_testbit by done.
  assert (Hj : forall j, In j (prov e2 i) -> 0 <= j) by eauto using prov_nonneg.
  induction (prov e2 i) as [|j l IH]; simpl; [done|].
  rewrite existsb_app, denote_testbit by (done || (apply Hj; by left)).
  f_equal. apply IH. intros ? ?. apply Hj. by right.
Qed.

(** ** Immediate ranges *)

(** What a format can represent: [Signed a w] is the multiples of [2^a] that
    fit in [w] bits two's complement, [Unsigned a w] those below [2^w]. *)
Inductive imm_kind : Set := Signed (a w : Z) | Unsigned (a w : Z).

Definition in_range (k : imm_kind) (z : Z) : Prop :=
  match k with
  | Signed a w => z mod 2 ^ a = 0 /\ - 2 ^ (w - 1) <= z < 2 ^ (w - 1)
  | Unsigned a w => z mod 2 ^ a = 0 /\ 0 <= z < 2 ^ w
  end.

Definition kind_ok (k : imm_kind) : bool :=
  match k with
  | Signed a w => (0 <=? a) && (a <? w) && (w <? 64)
  | Unsigned a w => (0 <=? a) && (a <=? w) && (w <? 64)
  end.

(** Where bit [i] of a representable immediate may differ from zero, and
    which bit it then repeats. *)
Definition expected (k : imm_kind) (i : Z) : list Z :=
  match k with
  | Signed a w => if i <? a then [] else if i <? w then [i] else [w - 1]
  | Unsigned a w => if (i <? a) || (w <=? i) then [] else [i]
  end.

Lemma mod_pow2_bits (z a : Z) :
  0 <= a -> (z mod 2 ^ a = 0 <-> forall i, 0 <= i < a -> Z.testbit z i = false).
Proof.
  intros Ha. split.
  - intros Hz i Hi. rewrite <- (Z.mod_pow2_bits_low z a i) by lia. rewrite Hz. apply Z.testbit_0_l.
  - intros Hb. apply Z.bits_inj'. intros i Hi. rewrite Z.testbit_0_l.
    destruct (Z.lt_ge_cases i a).
    + rewrite Z.mod_pow2_bits_low by lia. apply Hb. lia.
    + apply Z.mod_pow2_bits_high. lia.
Qed.

Lemma sbits_range (z w : Z) :
  0 < w ->
  ((forall i, w - 1 <= i -> Z.testbit z i = Z.testbit z (w - 1))
   <-> - 2 ^ (w - 1) <= z < 2 ^ (w - 1)).
Proof.
  intros Hw. pose proof (Z.pow_pos_nonneg 2 (w - 1) ltac:(lia) ltac:(lia)) as Hp.
  pose proof (Z.div_mod z (2 ^ (w - 1)) ltac:(lia)) as Hdm.
  pose proof (Z.mod_pos_bound z (2 ^ (w - 1)) Hp) as Hm.
  assert (Hsh : forall i, w - 1 <= i ->
            Z.testbit z i = Z.testbit (z / 2 ^ (w - 1)) (i - (w - 1))).
  { intros i Hi. rewrite <- Z.shiftr_div_pow2, Z.shiftr_spec by lia. f_equal. lia. }
  split.
  - intros Hb.
    assert (z / 2 ^ (w - 1) = 0 \/ z / 2 ^ (w - 1) = -1) as [E|E]; [|rewrite E in Hdm; nia..].
    destruct (Z.testbit z (w - 1)) eqn:E; [right|left]; apply Z.bits_inj'; intros i Hi;
      specialize (Hb (i + (w - 1)) ltac:(lia)); rewrite Hsh in Hb by lia;
      replace (i + (w - 1) - (w - 1)) with i in Hb by lia; rewrite Hb.
    + by rewrite Z.bits_m1.
    + by rewrite Z.testbit_0_l.
  - intros Hz i Hi. rewrite (Hsh i), (Hsh (w - 1)) by lia.
    assert (z / 2 ^ (w - 1) = 0 \/ z / 2 ^ (w - 1) = -1) as [->| ->] by nia.
    + by rewrite !Z.testbit_0_l.
    + rewrite !Z.bits_m1 by lia. done.
Qed.

Lemma u64_testbit_low (z i : Z) : 0 <= i < 64 -> Z.testbit (u64 z) i = Z.testbit z i.
Proof. intros Hi. rewrite u64_testbit by lia. destruct (Z.ltb_spec i 64); [done|lia]. Qed.

(** A 64-bit value repeats its bits as [expected] says exactly when it is
    representable. *)
Lemma expected_in_range (k : imm_kind) (z : Z) :
  kind_ok k = true -> - 2 ^ 63 <= z < 2 ^ 63 ->
  ((forall i, 0 <= i < 64 -> existsb (Z.testbit z) (expected k i) = Z.testbit z i)
   <-> in_range k z).
Proof.
  intros Hk Hz.
  assert (Htop : forall i, 63 <= i -> Z.testbit z i = Z.testbit z 63).
  { intros i Hi. apply (sbits_range z 64); [lia|done|lia]. }
  destruct k as [a w|a w]; simpl in *; breflect.
  - rewrite (mod_pow2_bits z a), <- (sbits_range z w) by lia. split.
    + intros Hb. split; intros i Hi.
      * specialize (Hb i ltac:(lia)). destruct (Z.ltb_spec i a); [done|lia].
      * destruct (Z.lt_ge_cases i 64) as [Hi'|Hi'].
        -- specialize (Hb i ltac:(lia)). destruct (Z.ltb_spec i a); [lia|].
           destruct (Z.ltb_spec i w); [f_equal; lia|].
           simpl in Hb. by rewrite orb_false_r in Hb.
        -- rewrite Htop by lia. specialize (Hb 63 ltac:(lia)).
           destruct (Z.ltb_spec 63 a); [lia|]. destruct (Z.ltb_spec 63 w); [lia|].
           simpl in Hb. by rewrite orb_false_r in Hb.
    + intros [Hlow Hhigh] i Hi. destruct (Z.ltb_spec i a); simpl.
      * by rewrite Hlow by lia.
      * destruct (Z.ltb_spec i w); simpl; rewrite orb_false_r; [done|].
        rewrite (Hhigh i) by lia. done.
  - rewrite (mod_pow2_bits z a) by lia. split.
    + intros Hb. split.
      * intros i Hi. specialize (Hb i ltac:(lia)). destruct (Z.ltb_spec i a); [done|lia].
      * assert (Hhi : forall i, w <= i -> Z.testbit z i = false).
        { intros i Hi. destruct (Z.lt_ge_cases i 64) as [Hi'|Hi'].
          - specialize (Hb i ltac:(lia)). destruct (Z.leb_spec w i); [|lia].
            by rewrite orb_true_r in Hb.
          - rewrite Htop by lia. specialize (Hb 63 ltac:(lia)).
            destruct (Z.leb_spec w 63); [|lia]. by rewrite orb_true_r in Hb. }
        assert (0 <= z).
        { destruct (Z.lt_ge_cases z 0) as [Hneg|]; [|done].
          apply Z.bits_iff_neg_ex in Hneg as [k Hneg].
          specialize (Hneg (Z.max (k + 1) w) ltac:(lia)). rewrite Hhi in Hneg by lia. done. }
        split; [done|]. apply bits_range; [lia|done|done].
    + intros [Hlow [Hz0 Hz1]] i Hi. destruct (Z.ltb_spec i a); simpl.
      * by rewrite Hlow by lia.
      * destruct (Z.leb_spec w i); simpl; [|by rewrite orb_false_r].
        by rewrite (testbit_high z w) by lia.
Qed.

(** ** The formats *)

(** One immediate format: its macros, the values it is meant for, and the
    syntax of the encoder and the decoder. *)
Record imm_format : Type := mk_format {
  fmt_encode : Z -> Z;
  fmt_extract : Z -> Z;
  fmt_kind : imm_kind;
  fmt_enc : bexp;
  fmt_ext : bexp
}.

Definition bits64 : list Z := seqZ 0 64.

(** Evaluated on each format: decoding after encoding gives back exactly the
    bits [expected] wants, every bit the decoder reads is one the encoder
    writes, and the decoder stays within 64 bits, the encoder within 32. *)
Definition format_ok (f : imm_format) : bool :=
  wf_bexp (fmt_enc f) && wf_bexp (fmt_ext f) && kind_ok (fmt_kind f)
  && (bwidth (fmt_enc f) <=? 32) && (0 <=? bwidth (fmt_enc f))
  && (bwidth (fmt_ext f) <=? 64) && (0 <=? bwidth (fmt_ext f))
  && forallb (fun i => bool_decide
                (flat_map (prov (fmt_enc f)) (prov (fmt_ext f) i) = expected (fmt_kind f) i)
              && forallb (fun j => negb (bool_decide (prov (fmt_enc f) j = [])))
                         (prov (fmt_ext f) i)) bits64.

Definition format_denotes (f : imm_format) : Prop :=
  (forall x, fmt_encode f x = denote (fmt_enc f) x) /\
  (forall x, fmt_extract f x = denote (fmt_ext f) x).

Section Format.
  Context (f : imm_format) (Hok : format_ok f = true) (Hden : format_denotes f).

Lemma format_ok_elim :
    wf_bexp (fmt_enc f) = true /\ wf_bexp (fmt_ext f) = true /\ kind_ok (fmt_kind f) = true /\
    0 <= bwidth (fmt_enc f) <= 32 /\ 0 <= bwidth (fmt_ext f) <= 64 /\
    (forall i, 0 <= i < 64 ->
       flat_map (prov (fmt_enc f)) (prov (fmt_ext f) i) = expected (fmt_kind f) i) /\
    (forall i j, 0 <= i < 64 -> In j (prov (fmt_ext f) i) -> prov (fmt_enc f) j <> []).
  Proof.
    unfold format_ok in Hok. breflect. do 5 (split; [tauto || lia|]).
    match goal with H : forallb _ bits64 = true |- _ => rename H into Hf end.
    rewrite forallb_forall in Hf.
    assert (Hin : forall i, 0 <= i < 64 -> In i bits64).
    { intros i Hi. apply list_elem_of_In. unfold bits64. apply elem_of_seqZ. lia. }
    split.
    - intros i Hi. specialize (Hf i (Hin i Hi)). breflect.
      match goal with H : bool_decide _ = true |- _ => apply bool_decide_eq_true in H; exact H end.
    - intros i j Hi Hj. specialize (Hf i (Hin i Hi)). apply andb_true_iff in Hf as [_ Hf].
      rewrite forallb_forall in Hf. specialize (Hf j Hj). apply negb_true_iff in Hf.
      by apply bool_decide_eq_false in Hf.
  Qed.

Lemma format_extract_range (x : Z) : 0 <= fmt_extract f x < 2 ^ 64.
  Proof.
    destruct format_ok_elim as (_ & Hx & _ & _ & Hw & _). destruct Hden as [_ ->].
    pose proof (denote_range (fmt_ext f) x Hx ltac:(lia)).
    pose proof (Z.pow_le_mono_r 2 (bwidth (fmt_ext f)) 64 ltac:(lia) ltac:(lia)). lia.
  Qed.

Lemma format_encode_range (x : Z) : 0 <= fmt_encode f x < 2 ^ 32.
  Proof.
    destruct format_ok_elim as (He & _ & _ & Hw & _). destruct Hden as [-> _].
    pose proof (denote_range (fmt_enc f) x He ltac:(lia)).
    pose proof (Z.pow_le_mono_r 2 (bwidth (fmt_enc f)) 32 ltac:(lia) ltac:(lia)). lia.
  Qed.

  (** Decoding an encoding is the identity exactly on the representable values. *)
Lemma format_roundtrip_iff (z : Z) :
    - 2 ^ 63 <= z < 2 ^ 63 ->
    (fmt_extract f (fmt_encode f (u64 z)) = u64 z <-> in_range (fmt_kind f) z).
  Proof.
    intros Hz. destruct format_ok_elim as (He & Hx & Hk & _ & _ & Hexp & _).
    rewrite <- expected_in_range by done.
    pose proof (format_extract_range (fmt_encode f (u64 z))) as Hr.
    destruct Hden as [Ee Ex].
    assert (Hb : forall i, 0 <= i < 64 ->
              Z.testbit (fmt_extract f (fmt_encode f (u64 z))) i
              = existsb (Z.testbit z) (expected (fmt_kind f) i)).
    { intros i Hi. rewrite Ex, Ee, compose_testbit by (done || lia). rewrite Hexp by done.
      assert (Hj : forall j, In j (expected (fmt_kind f) i) -> 0 <= j < 64).
      { clear - Hk Hi. destruct (fmt_kind f); simpl in *; breflect; intros j Hj;
          repeat split_match_in Hj; simpl in Hj; breflect; destruct Hj as [<-|[]] || destruct Hj; lia. }
      induction (expected (fmt_kind f) i) as [|j l IH]; simpl; [done|].
      rewrite u64_testbit_low by (apply Hj; by left). f_equal. apply IH. intros; apply Hj; by right. }
    split.
    - intros E i Hi. rewrite <- Hb, E by done. by apply u64_testbit_low.
    - intros H. apply u64_ext; [done|apply u64_range|]. intros i Hi.
      rewrite Hb, H, u64_testbit_low by done. done.
  Qed.

  (** Encoding looks at the low 64 bits only, and only writes the bits of the field. *)
Lemma format_encode_masked (z : Z) : Z.land (fmt_encode f z) (fmt_encode f (-1)) = fmt_encode f z.
  Proof.
    destruct format_ok_elim as (He & _). destruct Hden as [Ee _]. rewrite !Ee.
    apply Z.bits_inj'. intros i Hi. rewrite Z.land_spec, !denote_testbit by done.
    assert (Hj : forall j, In j (prov (fmt_enc f) i) -> 0 <= j) by eauto using prov_nonneg.
    destruct (prov (fmt_enc f) i) as [|j l]; [done|]. simpl.
    rewrite Z.bits_m1 by (apply Hj; by left). by rewrite andb_true_r.
  Qed.

  (** Inserting an encoding into a word whose field is clear, and extracting it again. *)
Lemma format_insert_extract (w z : Z) :
    Z.land w (fmt_encode f (-1)) = 0 ->
    fmt_extract f (Z.lor w (fmt_encode f z)) = fmt_extract f (fmt_encode f z).
  Proof.
    intros Hw. destruct format_ok_elim as (He & Hx & _ & _ & Hwid & _ & Hread).
    destruct Hden as [Ee Ex]. rewrite !Ex. apply denote_ext; [done|]. intros i j Hi Hj.
    assert (Hi64 : i < 64).
    { destruct (Z.lt_ge_cases i 64); [done|]. rewrite prov_high in Hj by (done || lia). done. }
    assert (Hj0 : 0 <= j) by eauto using prov_nonneg.
    assert (Hm : Z.testbit (fmt_encode f (-1)) j = true).
    { rewrite Ee, denote_testbit by done. specialize (Hread i j ltac:(lia) Hj).
      assert (Hp : forall j', In j' (prov (fmt_enc f) j) -> 0 <= j') by eauto using prov_nonneg.
      destruct (prov (fmt_enc f) j) as [|j' l]; [done|]. simpl.
      by rewrite Z.bits_m1 by (apply Hp; by left). }
    assert (Hwj : Z.testbit w j = false).
    { apply (f_equal (fun v => Z.testbit v j)) in Hw.
      rewrite Z.land_spec, Hm, andb_true_r, Z.testbit_0_l in Hw. done. }
    by rewrite Z.lor_spec, Hwj.
  Qed.
End Format.

(** Every encoder/decoder pair of the header, in its order, with the range it is for. *)
Definition fmt_ITYPE_IMM : imm_format :=
  mk_format ENCODE_ITYPE_IMM EXTRACT_ITYPE_IMM (Signed 0 12)
    (BShl (BX 0 12) 20)
    (BOr (BX 20 12) (BShlW (BNeg 31) 12)).
Definition fmt_STYPE_IMM : imm_format :=
  mk_format ENCODE_STYPE_IMM EXTRACT_STYPE_IMM (Signed 0 12)
    (BOr (BShl (BX 0 5) 7) (BShl (BX 5 7) 25))
    (BOr (BOr (BX 7 5) (BShlW (BX 25 7) 5)) (BShlW (BNeg 31) 12)).
Definition fmt_BTYPE_IMM : imm_format :=
  mk_format ENCODE_BTYPE_IMM EXTRACT_BTYPE_IMM (Signed 1 13)
    (BOr (BOr (BOr (BShl (BX 1 4) 8) (BShl (BX 5 6) 25)) (BShl (BX 11 1) 7)) (BShl (BX 12 1) 31))
    (BOr (BOr (BOr (BShlW (BX 8 4) 1) (BShlW (BX 25 6) 5)) (BShlW (BX 7 1) 11)) (BShlW (BNeg 31) 12)).
Definition fmt_UTYPE_IMM : imm_format :=
  mk_format ENCODE_UTYPE_IMM EXTRACT_UTYPE_IMM (Signed 12 32)
    (BShl (BX 12 20) 12)
    (BOr (BShlW (BX 12 20) 12) (BShlW (BNeg 31) 32)).
Definition fmt_JTYPE_IMM : imm_format :=
  mk_format ENCODE_JTYPE_IMM EXTRACT_JTYPE_IMM (Signed 1 21)
    (BOr (BOr (BOr (BShl (BX 1 10) 21) (BShl (BX 11 1) 20)) (BShl (BX 12 8) 12)) (BShl (BX 20 1) 31))
    (BOr (BOr (BOr (BShlW (BX 21 10) 1) (BShlW (BX 20 1) 11)) (BShlW (BX 12 8) 12)) (BShlW (BNeg 31) 20)).
Definition fmt_CITYPE_IMM : imm_format :=
  mk_format ENCODE_CITYPE_IMM EXTRACT_CITYPE_IMM (Signed 0 6)
    (BOr (BShl (BX 0 5) 2) (BShl (BX 5 1) 12))
    (BOr (BX 2 5) (BShlW (BNeg 12) 5)).
Definition fmt_CITYPE_LUI_IMM : imm_format :=
  mk_format ENCODE_CITYPE_LUI_IMM EXTRACT_CITYPE_LUI_IMM (Signed 12 18)
    (BOr (BShl (BX 12 5) 2) (BShl (BX 17 1) 12))
    (BShlW (BOr (BX 2 5) (BShlW (BNeg 12) 5)) 12).
Definition fmt_CITYPE_ADDI16SP_IMM : imm_format :=
  mk_format ENCODE_CITYPE_ADDI16SP_IMM EXTRACT_CITYPE_ADDI16SP_IMM (Signed 4 10)
    (BOr (BOr (BOr (BOr (BShl (BX 4 1) 6) (BShl (BX 5 1) 2)) (BShl (BX 6 1) 5)) (BShl (BX 7 2) 3)) (BShl (BX 9 1) 12))
    (BOr (BOr (BOr (BOr (BShlW (BX 6 1) 4) (BShlW (BX 2 1) 5)) (BShlW (BX 5 1) 6)) (BShlW (BX 3 2) 7)) (BShlW (BNeg 12) 9)).
Definition fmt_CITYPE_LWSP_IMM : imm_format :=
  mk_format ENCODE_CITYPE_LWSP_IMM EXTRACT_CITYPE_LWSP_IMM (Unsigned 2 8)
    (BOr (BOr (BShl (BX 2 3) 4) (BShl (BX 5 1) 12)) (BShl (BX 6 2) 2))
    (BOr (BOr (BShlW (BX 4 3) 2) (BShlW (BX 12 1) 5)) (BShlW (BX 2 2) 6)).
Definition fmt_CITYPE_LDSP_IMM : imm_format :=
  mk_format ENCODE_CITYPE_LDSP_IMM EXTRACT_CITYPE_LDSP_IMM (Unsigned 3 9)
    (BOr (BOr (BShl (BX 3 2) 5) (BShl (BX 5 1) 12)) (BShl (BX 6 3) 2))
    (BOr (BOr (BShlW (BX 5 2) 3) (BShlW (BX 12 1) 5)) (BShlW (BX 2 3) 6)).
Definition fmt_CSSTYPE_IMM : imm_format :=
  mk_format ENCODE_CSSTYPE_IMM EXTRACT_CSSTYPE_IMM (Unsigned 0 6)
    (BShl (BX 0 6) 7)
    (BShlW (BX 7 6) 0).
Definition fmt_CSSTYPE_SWSP_IMM : imm_format :=
  mk_format ENCODE_CSSTYPE_SWSP_IMM EXTRACT_CSSTYPE_SWSP_IMM (Unsigned 2 8)
    (BOr (BShl (BX 2 4) 9) (BShl (BX 6 2) 7))
    (BOr (BShlW (BX 9 4) 2) (BShlW (BX 7 2) 6)).
Definition fmt_CSSTYPE_SDSP_IMM : imm_format :=
  mk_format ENCODE_CSSTYPE_SDSP_IMM EXTRACT_CSSTYPE_SDSP_IMM (Unsigned 3 9)
    (BOr (BShl (BX 3 3) 10) (BShl (BX 6 3) 7))
    (BOr (BShlW (BX 10 3) 3) (BShlW (BX 7 3) 6)).
Definition fmt_CIWTYPE_IMM : imm_format :=
  mk_format ENCODE_CIWTYPE_IMM EXTRACT_CIWTYPE_IMM (Unsigned 0 8)
    (BShl (BX 0 8) 5)
    (BX 5 8).
Definition fmt_CIWTYPE_ADDI4SPN_IMM : imm_format :=
  mk_format ENCODE_CIWTYPE_ADDI4SPN_IMM EXTRACT_CIWTYPE_ADDI4SPN_IMM (Unsigned 2 10)
    (BOr (BOr (BOr (BShl (BX 2 1) 6) (BShl (BX 3 1) 5)) (BShl (BX 4 2) 11)) (BShl (BX 6 4) 7))
    (BOr (BOr (BOr (BShlW (BX 6 1) 2) (BShlW (BX 5 1) 3)) (BShlW (BX 11 2) 4)) (BShlW (BX 7 4) 6)).
Definition fmt_CLTYPE_IMM : imm_format :=
  mk_format ENCODE_CLTYPE_IMM EXTRACT_CLTYPE_IMM (Unsigned 0 5)
    (BOr (BShl (BX 0 2) 5) (BShl (BX 2 3) 10))
    (BOr (BShlW (BX 5 2) 0) (BShlW (BX 10 3) 2)).
Definition fmt_CLTYPE_LW_IMM : imm_format :=
  mk_format ENCODE_CLTYPE_LW_IMM EXTRACT_CLTYPE_LW_IMM (Unsigned 2 7)
    (BOr (BOr (BShl (BX 2 1) 6) (BShl (BX 3 3) 10)) (BShl (BX 6 1) 5))
    (BOr (BOr (BShlW (BX 6 1) 2) (BShlW (BX 10 3) 3)) (BShlW (BX 5 1) 6)).
Definition fmt_CLTYPE_LD_IMM : imm_format :=
  mk_format ENCODE_CLTYPE_LD_IMM EXTRACT_CLTYPE_LD_IMM (Unsigned 3 8)
    (BOr (BShl (BX 3 3) 10) (BShl (BX 6 2) 5))
    (BOr (BShlW (BX 10 3) 3) (BShlW (BX 5 2) 6)).
Definition fmt_CBTYPE_IMM : imm_format :=
  mk_format ENCODE_CBTYPE_IMM EXTRACT_CBTYPE_IMM (Signed 1 9)
    (BOr (BOr (BOr (BOr (BShl (BX 1 2) 3) (BShl (BX 3 2) 10)) (BShl (BX 5 1) 2)) (BShl (BX 6 2) 5)) (BShl (BX 8 1) 12))
    (BOr (BOr (BOr (BOr (BShlW (BX 3 2) 1) (BShlW (BX 10 2) 3)) (BShlW (BX 2 1) 5)) (BShlW (BX 5 2) 6)) (BShlW (BNeg 12) 8)).
Definition fmt_CJTYPE_IMM : imm_format :=
  mk_format ENCODE_CJTYPE_IMM EXTRACT_CJTYPE_IMM (Signed 1 12)
    (BOr (BOr (BOr (BOr (BOr (BOr (BOr (BShl (BX 1 3) 3) (BShl (BX 4 1) 11)) (BShl (BX 5 1) 2)) (BShl (BX 6 1) 7)) (BShl (BX 7 1) 6)) (BShl (BX 8 2) 9)) (BShl (BX 10 1) 8)) (BShl (BX 11 1) 12))
    (BOr (BOr (BOr (BOr (BOr (BOr (BOr (BShlW (BX 3 3) 1) (BShlW (BX 11 1) 4)) (BShlW (BX 2 1) 5)) (BShlW (BX 7 1) 6)) (BShlW (BX 6 1) 7)) (BShlW (BX 9 2) 8)) (BShlW (BX 8 1) 10)) (BShlW (BNeg 12) 11)).
Definition fmt_RVV_VB_IMM : imm_format :=
  mk_format ENCODE_RVV_VB_IMM EXTRACT_RVV_VB_IMM (Unsigned 0 10)
    (BShl (BX 0 10) 20)
    (BX 20 10).
Definition fmt_RVV_VC_IMM : imm_format :=
  mk_format ENCODE_RVV_VC_IMM EXTRACT_RVV_VC_IMM (Unsigned 0 11)
    (BShl (BX 0 11) 20)
    (BX 20 11).
Definition fmt_RVV_VI_UIMM6 : imm_format :=
  mk_format ENCODE_RVV_VI_UIMM6 EXTRACT_RVV_VI_UIMM6 (Unsigned 0 6)
    (BOr (BShl (BX 0 5) 15) (BShl (BX 5 1) 26))
    (BOr (BX 15 5) (BShlW (BX 26 1) 5)).
Definition fmt_ZCB_BYTE_UIMM : imm_format :=
  mk_format ENCODE_ZCB_BYTE_UIMM EXTRACT_ZCB_BYTE_UIMM (Unsigned 0 2)
    (BOr (BShl (BX 0 1) 6) (BShl (BX 1 1) 5))
    (BOr (BX 6 1) (BShlW (BX 5 1) 1)).
Definition fmt_ZCB_HALFWORD_UIMM : imm_format :=
  mk_format ENCODE_ZCB_HALFWORD_UIMM EXTRACT_ZCB_HALFWORD_UIMM (Unsigned 1 2)
    (BShl (BX 1 1) 5)
    (BShlW (BX 5 1) 1).
Definition fmt_CV_IS2_UIMM5 : imm_format :=
  mk_format ENCODE_CV_IS2_UIMM5 EXTRACT_CV_IS2_UIMM5 (Unsigned 0 5)
    (BShl (BX 0 5) 20)
    (BX 20 5).
Definition fmt_CV_IS3_UIMM5 : imm_format :=
  mk_format ENCODE_CV_IS3_UIMM5 EXTRACT_CV_IS3_UIMM5 (Unsigned 0 5)
    (BShl (BX 0 5) 25)
    (BX 25 5).

Definition imm_formats : list imm_format :=
  [ fmt_ITYPE_IMM;
    fmt_STYPE_IMM;
    fmt_BTYPE_IMM;
    fmt_UTYPE_IMM;
    fmt_JTYPE_IMM;
    fmt_CITYPE_IMM;
    fmt_CITYPE_LUI_IMM;
    fmt_CITYPE_ADDI16SP_IMM;
    fmt_CITYPE_LWSP_IMM;
    fmt_CITYPE_LDSP_IMM;
    fmt_CSSTYPE_IMM;
    fmt_CSSTYPE_SWSP_IMM;
    fmt_CSSTYPE_SDSP_IMM;
    fmt_CIWTYPE_IMM;
    fmt_CIWTYPE_ADDI4SPN_IMM;
    fmt_CLTYPE_IMM;
    fmt_CLTYPE_LW_IMM;
    fmt_CLTYPE_LD_IMM;
    fmt_CBTYPE_IMM;
    fmt_CJTYPE_IMM;
    fmt_RVV_VB_IMM;
    fmt_RVV_VC_IMM;
    fmt_RVV_VI_UIMM6;
    fmt_ZCB_BYTE_UIMM;
    fmt_ZCB_HALFWORD_UIMM;
    fmt_CV_IS2_UIMM5;
    fmt_CV_IS3_UIMM5 ].

(** The [VALID_*] macros: the test, the format it is for, and whether it also
    refuses a zero field. *)
Definition valid_tests : list ((Z -> bool) * imm_format * bool) :=
  [ (VALID_ITYPE_IMM, fmt_ITYPE_IMM, false);
    (VALID_STYPE_IMM, fmt_STYPE_IMM, false);
    (VALID_BTYPE_IMM, fmt_BTYPE_IMM, false);
    (VALID_UTYPE_IMM, fmt_UTYPE_IMM, false);
    (VALID_JTYPE_IMM, fmt_JTYPE_IMM, false);
    (VALID_CITYPE_IMM, fmt_CITYPE_IMM, false);
    (VALID_CITYPE_LUI_IMM, fmt_CITYPE_LUI_IMM, true);
    (VALID_CITYPE_ADDI16SP_IMM, fmt_CITYPE_ADDI16SP_IMM, true);
    (VALID_CITYPE_LWSP_IMM, fmt_CITYPE_LWSP_IMM, false);
    (VALID_CITYPE_LDSP_IMM, fmt_CITYPE_LDSP_IMM, false);
    (VALID_CSSTYPE_IMM, fmt_CSSTYPE_IMM, false);
    (VALID_CSSTYPE_SWSP_IMM, fmt_CSSTYPE_SWSP_IMM, false);
    (VALID_CSSTYPE_SDSP_IMM, fmt_CSSTYPE_SDSP_IMM, false);
    (VALID_CIWTYPE_IMM, fmt_CIWTYPE_IMM, false);
    (VALID_CIWTYPE_ADDI4SPN_IMM, fmt_CIWTYPE_ADDI4SPN_IMM, false);
    (VALID_CLTYPE_IMM, fmt_CLTYPE_IMM, false);
    (VALID_CLTYPE_LW_IMM, fmt_CLTYPE_LW_IMM, false);
    (VALID_CLTYPE_LD_IMM, fmt_CLTYPE_LD_IMM, false);
    (VALID_CBTYPE_IMM, fmt_CBTYPE_IMM, false);
    (VALID_CJTYPE_IMM, fmt_CJTYPE_IMM, false);
    (VALID_RVV_VB_IMM, fmt_RVV_VB_IMM, false);
    (VALID_RVV_VC_IMM, fmt_RVV_VC_IMM, false);
    (VALID_ZCB_BYTE_UIMM, fmt_ZCB_BYTE_UIMM, false);
    (VALID_ZCB_HALFWORD_UIMM, fmt_ZCB_HALFWORD_UIMM, false) ].

Lemma imm_formats_ok : forallb format_ok imm_formats = true.
Proof. vm_compute. reflexivity. Qed.

Lemma imm_formats_denote : Forall format_denotes imm_formats.
Proof.
  repeat (constructor; [split; intros x; reflexivity|]). constructor.
Qed.

Lemma imm_format_elim (f : imm_format) :
  In f imm_formats -> format_ok f = true /\ format_denotes f.
Proof.
  intros Hf. split.
  - pose proof imm_formats_ok as H. rewrite forallb_forall in H. auto.
  - pose proof imm_formats_denote as H. rewrite Forall_forall in H. apply H. by apply list_elem_of_In.
Qed.

Lemma imm_roundtrip_iff (f : imm_format) (z : Z) :
  In f imm_formats -> - 2 ^ 63 <= z < 2 ^ 63 ->
  (fmt_extract f (fmt_encode f (u64 z)) = u64 z <-> in_range (fmt_kind f) z).
Proof.
  intros Hf. destruct (imm_format_elim f Hf) as [Hok Hden]. by apply format_roundtrip_iff.
Qed.

(** Encoding zero gives an empty field and decoding an empty field gives zero. *)
Lemma imm_formats_zero :
  forallb (fun f => (fmt_encode f 0 =? 0) && (fmt_extract f 0 =? 0)) imm_formats = true.
Proof. vm_compute. reflexivity. Qed.

(** A test of the shape all [VALID_*] macros have. *)
Lemma valid_test_spec (v : Z -> bool) (f : imm_format) (nz : bool) (z : Z) :
  In f imm_formats -> - 2 ^ 63 <= z < 2 ^ 63 ->
  (forall x, v x = (if nz then negb (fmt_encode f x =? 0) else true)
                   && (fmt_extract f (fmt_encode f x) =? x)) ->
  (v (u64 z) = true <-> in_range (fmt_kind f) z /\ (nz = true -> z <> 0)).
Proof.
  intros Hf Hz Hv. rewrite Hv, andb_true_iff, Z.eqb_eq, imm_roundtrip_iff by done.
  pose proof imm_formats_zero as H0. rewrite forallb_forall in H0. specialize (H0 f Hf).
  breflect. destruct nz; [|intuition congruence]. rewrite negb_true_iff, Z.eqb_neq. split.
  - intros [He Hr]. split; [done|]. intros _ ->. by apply He.
  - intros [Hr Hn]. split; [|done]. intros He.
    apply imm_roundtrip_iff in Hr; [|done..]. rewrite He in Hr.
    assert (Hu : u64 z = 0) by congruence. apply (Hn eq_refl).
    unfold u64 in Hu. apply Z.mod_divide in Hu; [destruct Hu as [q Hq]; lia|lia].
Qed.

Lemma valid_tests_shape :
  Forall (fun t : (Z -> bool) * imm_format * bool => In (t.1.2) imm_formats /\
    forall x, t.1.1 x = (if t.2 then negb (fmt_encode t.1.2 x =? 0) else true)
                        && (fmt_extract t.1.2 (fmt_encode t.1.2 x) =? x)) valid_tests.
Proof.
  repeat (constructor; [cbn [fst snd]; split;
    [unfold imm_formats; in_list
    |intros x; match goal with |- ?v x = _ && (fmt_extract ?f _ =? _) => unfold v, f end;
     cbn [fmt_encode fmt_extract andb]; reflexivity]|]).
  constructor.
Qed.

(** C16: each of the 24 [VALID_*] macros accepts a 64-bit operand (passed as an
    unsigned [valueT]) exactly when its signed value has the range and the
    alignment of the format: 12-bit signed for I and S, even and 13-bit signed
    for B, page-multiple and 32-bit signed for U, and so on for the compressed,
    vector and Zcb formats; [VALID_CITYPE_LUI_IMM] and
    [VALID_CITYPE_ADDI16SP_IMM] refuse zero as well. *)
Theorem valid_imm_iff_range (v : Z -> bool) (f : imm_format) (nz : bool) (z : Z) :
  In (v, f, nz) valid_tests -> - 2 ^ 63 <= z < 2 ^ 63 ->
  (v (u64 z) = true <-> in_range (fmt_kind f) z /\ (nz = true -> z <> 0)).
Proof.
  intros Hin Hz. pose proof valid_tests_shape as H. rewrite Forall_forall in H.
  specialize (H _ (proj2 (list_elem_of_In _ _) Hin)) as [Hf Hs]. by apply valid_test_spec.
Qed.

Lemma valid_imm_iff_range_witness :
  VALID_BTYPE_IMM (u64 (-4096)) = true /\ VALID_CITYPE_LUI_IMM (u64 (-131072)) = true.
Proof.
  split.
  - apply (valid_imm_iff_range VALID_BTYPE_IMM fmt_BTYPE_IMM false (-4096));
      [unfold valid_tests; in_list|lia|]. split; [vm_compute; repeat split; congruence|done].
  - apply (valid_imm_iff_range VALID_CITYPE_LUI_IMM fmt_CITYPE_LUI_IMM true (-131072));
      [unfold valid_tests; in_list|lia|]. split; [vm_compute; repeat split; congruence|done].
Defined.

(** Inserting the encoding of a representable operand into an instruction
    word whose immediate field is still clear (how [riscv_ip], the fixups and
    the relaxation code build words) can be undone: the decoder returns the
    operand, whatever the other bits of the word are, and no bit outside the
    field is touched. *)
Theorem imm_insert_extract (f : imm_format) (w z : Z) :
  In f imm_formats -> - 2 ^ 63 <= z < 2 ^ 63 -> in_range (fmt_kind f) z ->
  Z.land w (fmt_encode f (-1)) = 0 ->
  fmt_extract f (Z.lor w (fmt_encode f (u64 z))) = u64 z
  /\ Z.ldiff (Z.lor w (fmt_encode f (u64 z))) (fmt_encode f (-1)) = w.
Proof.
  intros Hf Hz Hr Hw. destruct (imm_format_elim f Hf) as [Hok Hden]. split.
  - rewrite format_insert_extract by done. by apply format_roundtrip_iff.
  - apply Z.bits_inj'. intros i Hi. rewrite Z.ldiff_spec, Z.lor_spec.
    pose proof (f_equal (fun v => Z.testbit v i) (format_encode_masked f Hok Hden (u64 z))) as Hm.
    apply (f_equal (fun v => Z.testbit v i)) in Hw. simpl in *.
    rewrite Z.land_spec in Hm, Hw. rewrite Z.testbit_0_l in Hw.
    destruct (Z.testbit w i), (Z.testbit (fmt_encode f (u64 z)) i),
      (Z.testbit (fmt_encode f (-1)) i); done.
Qed.

Lemma imm_insert_extract_witness :
  EXTRACT_JTYPE_IMM (Z.lor MATCH_JAL (ENCODE_JTYPE_IMM (u64 (-2)))) = u64 (-2).
Proof.
  apply (imm_insert_extract fmt_JTYPE_IMM MATCH_JAL (-2));
    [unfold imm_formats; in_list|lia| |reflexivity].
  vm_compute. repeat split; congruence.
Defined.
