(* ===== verification/Words.v ===== *)
(** * Instruction words: masks, fields and lengths

    Lemmas on words built by or-ing an encoded immediate into fixed bits. *)
From Stdlib Require Import ZArith Bool Lia.
From stdpp Require Import base list.
From S2P Require Import Prelude OpcodeH RiscvH Immediates.

#[local] Open Scope Z_scope.
#[local] Open Scope c_scope.

(** ** Masks *)

(** The bits that decide the length are among the low seven. *)
Lemma land_low a b k j : k .& j = j -> a .& k = b .& k -> a .& j = b .& j.
Proof. intros Hj E. rewrite <- Hj, !Z.land_assoc, E. done. Qed.

Lemma land_lor_out w e m : e .& m = 0 -> (w .| e) .& m = w .& m.
Proof. intros H. by rewrite Z.land_lor_distr_l, H, Z.lor_0_r. Qed.

Lemma land_lxor_distr w e m : (w .^ e) .& m = (w .& m) .^ (e .& m).
Proof.
  apply Z.bits_inj'. intros i Hi. rewrite ?Z.land_spec, ?Z.lxor_spec, ?Z.land_spec.
  by destruct (Z.testbit w i), (Z.testbit e i), (Z.testbit m i).
Qed.

Lemma land_mod w n m : 0 <= n -> Z.ones n .& m = m -> (w mod 2 ^ n) .& m = w .& m.
Proof.
  intros Hn Hm. rewrite <- Z.land_ones by lia. rewrite <- Z.land_assoc, Hm. done.
Qed.

(** An encoded immediate stays inside its field. *)
Lemma encode_out f x m :
  In f imm_formats -> fmt_encode f (-1) .& m = 0 -> fmt_encode f x .& m = 0.
Proof.
  intros Hf H. destruct (imm_format_elim f Hf) as [Hok Hden].
  rewrite <- (format_encode_masked f Hok Hden x), <- Z.land_assoc, H. apply Z.land_0_r.
Qed.

Lemma encode_range f x : In f imm_formats -> 0 <= fmt_encode f x < 2 ^ 32.
Proof. intros Hf. destruct (imm_format_elim f Hf) as [Hok Hden]. by apply format_encode_range. Qed.

Lemma encode_range16 f x :
  In f imm_formats -> fmt_encode f (-1) < 2 ^ 16 -> 0 <= fmt_encode f x < 2 ^ 16.
Proof.
  intros Hf H. destruct (imm_format_elim f Hf) as [Hok Hden].
  pose proof (encode_range f x Hf). pose proof (encode_range f (-1) Hf).
  rewrite <- (format_encode_masked f Hok Hden x).
  pose proof (land_le_r (fmt_encode f x) (fmt_encode f (-1)) ltac:(lia)).
  assert (0 <= fmt_encode f x .& fmt_encode f (-1)) by (apply Z.land_nonneg; lia). lia.
Qed.

(** Reading back an immediate that was or-ed into a clear field. *)
Lemma extract_inserted f w z :
  In f imm_formats -> - 2 ^ 63 <= z < 2 ^ 63 -> in_range (fmt_kind f) z ->
  w .& fmt_encode f (-1) = 0 -> fmt_extract f (w .| fmt_encode f (u64 z)) = u64 z.
Proof.
  intros Hf Hz Hr Hw. destruct (imm_format_elim f Hf) as [Hok Hden].
  rewrite format_insert_extract by done. by apply format_roundtrip_iff.
Qed.

(** The formats of the branches and jumps, as functions (rewriting with these
    keeps the kernel from computing the encodings). *)
Lemma BTYPE_fmt :
  ENCODE_BTYPE_IMM = fmt_encode fmt_BTYPE_IMM /\ EXTRACT_BTYPE_IMM = fmt_extract fmt_BTYPE_IMM /\
  In fmt_BTYPE_IMM imm_formats.
Proof. split_and!; [done|done|]. unfold imm_formats. in_list. Qed.

Lemma JTYPE_fmt :
  ENCODE_JTYPE_IMM = fmt_encode fmt_JTYPE_IMM /\ EXTRACT_JTYPE_IMM = fmt_extract fmt_JTYPE_IMM /\
  In fmt_JTYPE_IMM imm_formats.
Proof. split_and!; [done|done|]. unfold imm_formats. in_list. Qed.

Lemma CBTYPE_fmt :
  ENCODE_CBTYPE_IMM = fmt_encode fmt_CBTYPE_IMM /\ EXTRACT_CBTYPE_IMM = fmt_extract fmt_CBTYPE_IMM /\
  In fmt_CBTYPE_IMM imm_formats.
Proof. split_and!; [done|done|]. unfold imm_formats. in_list. Qed.

Lemma CJTYPE_fmt :
  ENCODE_CJTYPE_IMM = fmt_encode fmt_CJTYPE_IMM /\ EXTRACT_CJTYPE_IMM = fmt_extract fmt_CJTYPE_IMM /\
  In fmt_CJTYPE_IMM imm_formats.
Proof. split_and!; [done|done|]. unfold imm_formats. in_list. Qed.

(** An immediate or-ed into a clear field: it is read back, and the bits outside
    the field are those of the word. *)
Lemma filled_field f w z X :
  In f imm_formats -> X = w .| fmt_encode f (u64 z) -> - 2 ^ 63 <= z < 2 ^ 63 ->
  in_range (fmt_kind f) z -> w .& fmt_encode f (-1) = 0 ->
  fmt_extract f X = u64 z /\ forall m, fmt_encode f (-1) .& m = 0 -> X .& m = w .& m.
Proof.
  intros Hf -> Hz Hr Hc. split; [by apply extract_inserted|].
  intros m Hm. apply land_lor_out. by apply encode_out.
Qed.

Lemma lor_range a b n : 0 <= n -> 0 <= a < 2 ^ n -> 0 <= b < 2 ^ n -> 0 <= a .| b < 2 ^ n.
Proof.
  intros Hn Ha Hb. assert (0 <= a .| b) by (apply Z.lor_nonneg; lia). split; [done|].
  apply bits_range; try lia. intros i Hi. rewrite Z.lor_spec, !(testbit_high _ n) by lia. done.
Qed.

Lemma lxor_range a b n : 0 <= n -> 0 <= a < 2 ^ n -> 0 <= b < 2 ^ n -> 0 <= a .^ b < 2 ^ n.
Proof.
  intros Hn Ha Hb. assert (0 <= a .^ b) by (apply Z.lxor_nonneg; lia). split; [done|].
  apply bits_range; try lia. intros i Hi. rewrite Z.lxor_spec, !(testbit_high _ n) by lia. done.
Qed.

(** ** Arithmetic modulo 2^64 *)

(** Equations between [u64] terms that hold modulo 2^64. *)
Ltac u64_ring :=
  unfold u64, s64, swrap in *; simpl Z.sub in *; simpl Z.pow in *;
  Z.to_euclidean_division_equations; lia.

(** ** Fields *)

(** An operand field, without the conversion to an unsigned int. *)
Lemma extract_bits f n w :
  OP_MASK f = Z.ones n -> 0 <= n <= 32 -> EXTRACT_OPERAND f w = (w >> OP_SH f) .& OP_MASK f.
Proof.
  intros Hm Hn. unfold EXTRACT_OPERAND, EXTRACT_BITS, u32. rewrite Hm, Z.land_ones by lia.
  apply Z.mod_small. pose proof (Z.mod_pos_bound (w >> OP_SH f) (2 ^ n) ltac:(lia)).
  assert (2 ^ n <= 2 ^ 32) by (apply Z.pow_le_mono_r; lia). lia.
Qed.

(** The [n] bits of [w] from position [s]. *)
Definition bits (w s n : Z) : Z := (w >> s) .& Z.ones n.

Lemma bits_land w s n : 0 <= s -> bits w s n = (w .& (Z.ones n << s)) >> s.
Proof.
  intros Hs. unfold bits. rewrite Z.shiftr_land, Z.shiftr_shiftl_l, Z.sub_diag, Z.shiftl_0_r by lia. done.
Qed.

(** Words that agree on the field have the same field. *)
Lemma bits_agree w w' s n : 0 <= s -> w .& (Z.ones n << s) = w' .& (Z.ones n << s) -> bits w s n = bits w' s n.
Proof. intros Hs H. by rewrite !bits_land, H by done. Qed.

(** ** Lengths *)

(** The length is in the low half-word. *)
Lemma insn_length_low w : riscv_insn_length (w mod 2 ^ 16) = riscv_insn_length w.
Proof.
  rewrite <- Z.land_ones by lia. unfold riscv_insn_length.
  rewrite !Z.shiftr_land, <- !Z.land_assoc. reflexivity.
Qed.

Lemma length_rvc w : w .& 0x3 <> 0x3 -> riscv_insn_length w = 2.
Proof. intros H. unfold riscv_insn_length. by rewrite (proj2 (Z.eqb_neq _ _) H). Qed.

Lemma length_4_iff w : riscv_insn_length w = 4 <-> w .& 0x3 = 0x3 /\ w .& 0x1f <> 0x1f.
Proof.
  assert (0 <= (w >> 11) .& 0xe) by (apply Z.land_nonneg; lia). unfold riscv_insn_length.
  destruct (Z.eqb_spec (w .& 0x3) 0x3); simpl; [|lia].
  destruct (Z.eqb_spec (w .& 0x1f) 0x1f); simpl; [|lia]. repeat split_match; lia.
Qed.

(** A word with the low seven bits of a 32-bit opcode. *)
Lemma length_4_opcode w op :
  w .& 0x7f = op -> op .& 0x3 = 0x3 -> op .& 0x1f <> 0x1f -> riscv_insn_length w = 4.
Proof.
  intros Hw H3 H5. apply length_4_iff.
  rewrite <- Hw, <- !Z.land_assoc in H3, H5. done.
Qed.
