(* ===== verification/OpcodeMatch.v ===== *)
(** * Names and match functions of opcodes/riscv-opc.c

    Register and keyword tables, the operand masks the opcode table uses, and
    the functions an opcode entry may point to in [match_func]. *)
From Stdlib Require Import ZArith Bool.
From stdpp Require Import base strings list.
From S2P Require Import Prelude OpcodeH RiscvH.

#[local] Open Scope Z_scope.
#[local] Open Scope c_scope.

(** ** Names ([NULL] entries are [None]) *)

Definition riscv_gpr_names_numeric : list string :=
  [ "x0"; "x1"; "x2"; "x3"; "x4"; "x5"; "x6"; "x7";
    "x8"; "x9"; "x10"; "x11"; "x12"; "x13"; "x14"; "x15";
    "x16"; "x17"; "x18"; "x19"; "x20"; "x21"; "x22"; "x23";
    "x24"; "x25"; "x26"; "x27"; "x28"; "x29"; "x30"; "x31" ]%string.
Definition riscv_gpr_names_abi : list string :=
  [ "zero"; "ra"; "sp"; "gp"; "tp"; "t0"; "t1"; "t2";
    "s0"; "s1"; "a0"; "a1"; "a2"; "a3"; "a4"; "a5";
    "a6"; "a7"; "s2"; "s3"; "s4"; "s5"; "s6"; "s7";
    "s8"; "s9"; "s10"; "s11"; "t3"; "t4"; "t5"; "t6" ]%string.
Definition riscv_fpr_names_numeric : list string :=
  [ "f0"; "f1"; "f2"; "f3"; "f4"; "f5"; "f6"; "f7";
    "f8"; "f9"; "f10"; "f11"; "f12"; "f13"; "f14"; "f15";
    "f16"; "f17"; "f18"; "f19"; "f20"; "f21"; "f22"; "f23";
    "f24"; "f25"; "f26"; "f27"; "f28"; "f29"; "f30"; "f31" ]%string.
Definition riscv_fpr_names_abi : list string :=
  [ "ft0"; "ft1"; "ft2"; "ft3"; "ft4"; "ft5"; "ft6"; "ft7";
    "fs0"; "fs1"; "fa0"; "fa1"; "fa2"; "fa3"; "fa4"; "fa5";
    "fa6"; "fa7"; "fs2"; "fs3"; "fs4"; "fs5"; "fs6"; "fs7";
    "fs8"; "fs9"; "fs10"; "fs11"; "ft8"; "ft9"; "ft10"; "ft11" ]%string.
Definition riscv_rm : list (option string) :=
  [ Some "rne"; Some "rtz"; Some "rdn"; Some "rup"; Some "rmm"; None; None; Some "dyn" ]%string.
Definition riscv_pred_succ : list (option string) :=
  [ None; Some "w"; Some "r"; Some "rw"; Some "o"; Some "ow"; Some "or"; Some "orw";
    Some "i"; Some "iw"; Some "ir"; Some "irw"; Some "io"; Some "iow"; Some "ior"; Some "iorw" ]%string.
Definition riscv_vecr_names_numeric : list string :=
  [ "v0"; "v1"; "v2"; "v3"; "v4"; "v5"; "v6"; "v7";
    "v8"; "v9"; "v10"; "v11"; "v12"; "v13"; "v14"; "v15";
    "v16"; "v17"; "v18"; "v19"; "v20"; "v21"; "v22"; "v23";
    "v24"; "v25"; "v26"; "v27"; "v28"; "v29"; "v30"; "v31" ]%string.
Definition riscv_vecm_names_numeric : list string :=
  [ "v0.t" ]%string.
Definition riscv_vsew : list (option string) :=
  [ Some "e8"; Some "e16"; Some "e32"; Some "e64"; None; None; None; None ]%string.
Definition riscv_vlmul : list (option string) :=
  [ Some "m1"; Some "m2"; Some "m4"; Some "m8"; None; Some "mf8"; Some "mf4"; Some "mf2" ]%string.
Definition riscv_vta : list (option string) :=
  [ Some "tu"; Some "ta" ]%string.
Definition riscv_vma : list (option string) :=
  [ Some "mu"; Some "ma" ]%string.
Definition riscv_th_vlen : list (option string) :=
  [ Some "m1"; Some "m2"; Some "m4"; Some "m8" ]%string.
Definition riscv_th_vediv : list (option string) :=
  [ Some "d1"; Some "d2"; Some "d4"; Some "d8" ]%string.
Definition riscv_fli_symval : list (option string) :=
  [ None; Some "min"; None; None; None; None; None; None;
    None; None; None; None; None; None; None; None;
    None; None; None; None; None; None; None; None;
    None; None; None; None; None; None; Some "inf"; Some "nan" ]%string.

(** The [FLI.*] constants as mantissa and binary exponent: [(m, e)] is [m * 2^e]. *)
Definition riscv_fli_numval : list (Z * Z) :=
  [ (-1, 0); (0, 0); (1, -16); (1, -15); (1, -8); (1, -7); (1, -4); (1, -3);
    (1, -2); (5, -4); (3, -3); (7, -4); (1, -1); (5, -3); (3, -2); (7, -3);
    (1, 0); (5, -2); (3, -1); (7, -2); (1, 1); (5, -1); (3, 0); (1, 2);
    (1, 3); (1, 4); (1, 7); (1, 8); (1, 15); (1, 16); (0, 0); (0, 0) ].

(** ** Masks of the operands *)

Definition MASK_RS1 : Z := OP_MASK FLD_RS1 << OP_SH FLD_RS1.
Definition MASK_RS2 : Z := OP_MASK FLD_RS2 << OP_SH FLD_RS2.
Definition MASK_RD : Z := OP_MASK FLD_RD << OP_SH FLD_RD.
Definition MASK_CRS2 : Z := OP_MASK FLD_CRS2 << OP_SH FLD_CRS2.
(** [-1U]. *)
Definition minus_1U : Z := 0xffffffff.
Definition MASK_IMM : Z := ENCODE_ITYPE_IMM minus_1U.
Definition MASK_RVC_IMM : Z := ENCODE_CITYPE_IMM minus_1U.
Definition MASK_UIMM : Z := ENCODE_UTYPE_IMM minus_1U.
Definition MASK_RM : Z := OP_MASK FLD_RM << OP_SH FLD_RM.
Definition MASK_PRED : Z := OP_MASK FLD_PRED << OP_SH FLD_PRED.
Definition MASK_SUCC : Z := OP_MASK FLD_SUCC << OP_SH FLD_SUCC.
Definition MASK_AQ : Z := OP_MASK FLD_AQ << OP_SH FLD_AQ.
Definition MASK_RL : Z := OP_MASK FLD_RL << OP_SH FLD_RL.
Definition MASK_AQRL : Z := MASK_AQ .| MASK_RL.
Definition MASK_SHAMT : Z := OP_MASK FLD_SHAMT << OP_SH FLD_SHAMT.
Definition MATCH_SHAMT_REV8_32 : Z := 0x18 << OP_SH FLD_SHAMT.
Definition MATCH_SHAMT_REV8_64 : Z := 0x38 << OP_SH FLD_SHAMT.
Definition MATCH_SHAMT_BREV8 : Z := 0x07 << OP_SH FLD_SHAMT.
Definition MATCH_SHAMT_ZIP_32 : Z := 0x0f << OP_SH FLD_SHAMT.
Definition MATCH_SHAMT_ORC_B : Z := 0x07 << OP_SH FLD_SHAMT.
Definition MASK_VD : Z := OP_MASK FLD_VD << OP_SH FLD_VD.
Definition MASK_VS1 : Z := OP_MASK FLD_VS1 << OP_SH FLD_VS1.
Definition MASK_VS2 : Z := OP_MASK FLD_VS2 << OP_SH FLD_VS2.
Definition MASK_VMASK : Z := OP_MASK FLD_VMASK << OP_SH FLD_VMASK.
Definition MASK_CV_IS3_UIMM5 : Z := ENCODE_CV_IS3_UIMM5 minus_1U.

(** ** Match functions *)

Definition match_opcode (op : riscv_opcode) (insn : Z) : bool :=
  ((insn .^ match_ op) .& mask op) =? 0.

Definition match_rs1_eq_rs2 (op : riscv_opcode) (insn : Z) : bool :=
  let rs1 := (insn .& MASK_RS1) >> OP_SH FLD_RS1 in
  let rs2 := (insn .& MASK_RS2) >> OP_SH FLD_RS2 in
  match_opcode op insn && (rs1 =? rs2).

Definition match_rd_nonzero (op : riscv_opcode) (insn : Z) : bool :=
  ((pinfo op =? INSN_MACRO) || match_opcode op insn) && negb ((insn .& MASK_RD) =? 0).

Definition match_rs1_nonzero (op : riscv_opcode) (insn : Z) : bool :=
  negb ((insn .& MASK_RS1) =? 0).

Definition match_c_add (op : riscv_opcode) (insn : Z) : bool :=
  match_rd_nonzero op insn && negb ((insn .& MASK_CRS2) =? 0).

Definition match_c_add_with_hint (op : riscv_opcode) (insn : Z) : bool :=
  match_opcode op insn && negb ((insn .& MASK_CRS2) =? 0).

Definition match_c_nop (op : riscv_opcode) (insn : Z) : bool :=
  match_opcode op insn && (((insn .& MASK_RD) >> OP_SH FLD_RD) =? 0).

Definition match_c_addi16sp (op : riscv_opcode) (insn : Z) : bool :=
  match_opcode op insn && (((insn .& MASK_RD) >> OP_SH FLD_RD) =? 2).

Definition match_c_lui (op : riscv_opcode) (insn : Z) : bool :=
  match_rd_nonzero op insn
  && negb (((insn .& MASK_RD) >> OP_SH FLD_RD) =? 2)
  && negb (EXTRACT_CITYPE_LUI_IMM insn =? 0).

Definition match_c_lui_with_hint (op : riscv_opcode) (insn : Z) : bool :=
  match_opcode op insn
  && negb (((insn .& MASK_RD) >> OP_SH FLD_RD) =? 2)
  && negb (EXTRACT_CITYPE_LUI_IMM insn =? 0).

Definition match_c_addi4spn (op : riscv_opcode) (insn : Z) : bool :=
  match_opcode op insn && negb (EXTRACT_CIWTYPE_ADDI4SPN_IMM insn =? 0).

Definition match_c_slli (op : riscv_opcode) (insn : Z) : bool :=
  match_opcode op insn && negb (EXTRACT_CITYPE_IMM insn =? 0).

Definition match_slli_as_c_slli (op : riscv_opcode) (insn : Z) : bool :=
  match_rd_nonzero op insn && negb (EXTRACT_CITYPE_IMM insn =? 0).

Definition match_c_slli64 (op : riscv_opcode) (insn : Z) : bool :=
  match_opcode op insn && (EXTRACT_CITYPE_IMM insn =? 0).

Definition match_srxi_as_c_srxi (op : riscv_opcode) (insn : Z) : bool :=
  match_opcode op insn && negb (EXTRACT_CITYPE_IMM insn =? 0).

Definition match_vs1_eq_vs2 (op : riscv_opcode) (insn : Z) : bool :=
  let vs1 := (insn .& MASK_VS1) >> OP_SH FLD_VS1 in
  let vs2 := (insn .& MASK_VS2) >> OP_SH FLD_VS2 in
  match_opcode op insn && (vs1 =? vs2).

Definition match_vd_eq_vs1_eq_vs2 (op : riscv_opcode) (insn : Z) : bool :=
  let vd := (insn .& MASK_VD) >> OP_SH FLD_VD in
  let vs1 := (insn .& MASK_VS1) >> OP_SH FLD_VS1 in
  let vs2 := (insn .& MASK_VS2) >> OP_SH FLD_VS2 in
  match_opcode op insn && (vd =? vs1) && (vs1 =? vs2).

Definition match_th_load_inc (op : riscv_opcode) (insn : Z) : bool :=
  let rd := (insn .& MASK_RD) >> OP_SH FLD_RD in
  let rs1 := (insn .& MASK_RS1) >> OP_SH FLD_RS1 in
  negb (rd =? rs1) && match_opcode op insn.

Definition match_th_load_pair (op : riscv_opcode) (insn : Z) : bool :=
  let rd1 := (insn .& MASK_RD) >> OP_SH FLD_RD in
  let rd2 := (insn .& MASK_RS2) >> OP_SH FLD_RS2 in
  let rs := (insn .& MASK_RS1) >> OP_SH FLD_RS1 in
  negb (rd1 =? rd2) && negb (rd1 =? rs) && negb (rd2 =? rs) && match_opcode op insn.

(** The call through the function pointer [op->match_func]. *)
Definition call_match_func (f : match_func_t) : riscv_opcode -> Z -> bool :=
  match f with
  | MF_match_opcode => match_opcode
  | MF_match_rs1_eq_rs2 => match_rs1_eq_rs2
  | MF_match_rd_nonzero => match_rd_nonzero
  | MF_match_rs1_nonzero => match_rs1_nonzero
  | MF_match_c_add => match_c_add
  | MF_match_c_add_with_hint => match_c_add_with_hint
  | MF_match_c_nop => match_c_nop
  | MF_match_c_addi16sp => match_c_addi16sp
  | MF_match_c_lui => match_c_lui
  | MF_match_c_lui_with_hint => match_c_lui_with_hint
  | MF_match_c_addi4spn => match_c_addi4spn
  | MF_match_c_slli => match_c_slli
  | MF_match_slli_as_c_slli => match_slli_as_c_slli
  | MF_match_c_slli64 => match_c_slli64
  | MF_match_srxi_as_c_srxi => match_srxi_as_c_srxi
  | MF_match_vs1_eq_vs2 => match_vs1_eq_vs2
  | MF_match_vd_eq_vs1_eq_vs2 => match_vd_eq_vs1_eq_vs2
  | MF_match_th_load_inc => match_th_load_inc
  | MF_match_th_load_pair => match_th_load_pair
  end.
