(* ===== verification/OpcodeTableA.v ===== *)
(** * The opcode table of opcodes/riscv-opc.c, part 1 of 3

    Consecutive blocks of [riscv_opcodes], one row per entry of the source. *)
From Stdlib Require Import ZArith.
From stdpp Require Import base strings list.
From S2P Require Import Prelude OpcodeH RiscvH OpcodeMatch.

#[local] Open Scope Z_scope.
#[local] Open Scope c_scope.
#[local] Open Scope string_scope.

(** Lines 351-490.  The match value of unimp is an expression of type int whose
    shift reaches the sign bit; conversion to [insn_t] extends the sign. *)
Definition riscv_opcodes_1 : list riscv_opcode :=
  [ mk_opcode "prefetch.i" 0 INSN_CLASS_ZICBOP "Wif(s)" MATCH_PREFETCH_I MASK_PREFETCH_I (Some MF_match_opcode) 0;
    mk_opcode "prefetch.r" 0 INSN_CLASS_ZICBOP "Wif(s)" MATCH_PREFETCH_R MASK_PREFETCH_R (Some MF_match_opcode) 0;
    mk_opcode "prefetch.w" 0 INSN_CLASS_ZICBOP "Wif(s)" MATCH_PREFETCH_W MASK_PREFETCH_W (Some MF_match_opcode) 0;
    mk_opcode "ntl.p1" 0 INSN_CLASS_ZIHINTNTL_AND_C "" MATCH_C_NTL_P1 MASK_C_NTL_P1 (Some MF_match_opcode) INSN_ALIAS;
    mk_opcode "ntl.p1" 0 INSN_CLASS_ZIHINTNTL "" MATCH_NTL_P1 MASK_NTL_P1 (Some MF_match_opcode) 0;
    mk_opcode "ntl.pall" 0 INSN_CLASS_ZIHINTNTL_AND_C "" MATCH_C_NTL_PALL MASK_C_NTL_PALL (Some MF_match_opcode) INSN_ALIAS;
    mk_opcode "ntl.pall" 0 INSN_CLASS_ZIHINTNTL "" MATCH_NTL_PALL MASK_NTL_PALL (Some MF_match_opcode) 0;
    mk_opcode "ntl.s1" 0 INSN_CLASS_ZIHINTNTL_AND_C "" MATCH_C_NTL_S1 MASK_C_NTL_S1 (Some MF_match_opcode) INSN_ALIAS;
    mk_opcode "ntl.s1" 0 INSN_CLASS_ZIHINTNTL "" MATCH_NTL_S1 MASK_NTL_S1 (Some MF_match_opcode) 0;
    mk_opcode "ntl.all" 0 INSN_CLASS_ZIHINTNTL_AND_C "" MATCH_C_NTL_ALL MASK_C_NTL_ALL (Some MF_match_opcode) INSN_ALIAS;
    mk_opcode "ntl.all" 0 INSN_CLASS_ZIHINTNTL "" MATCH_NTL_ALL MASK_NTL_ALL (Some MF_match_opcode) 0;
    mk_opcode "c.ntl.p1" 0 INSN_CLASS_ZIHINTNTL_AND_C "" MATCH_C_NTL_P1 MASK_C_NTL_P1 (Some MF_match_opcode) 0;
    mk_opcode "c.ntl.pall" 0 INSN_CLASS_ZIHINTNTL_AND_C "" MATCH_C_NTL_PALL MASK_C_NTL_PALL (Some MF_match_opcode) 0;
    mk_opcode "c.ntl.s1" 0 INSN_CLASS_ZIHINTNTL_AND_C "" MATCH_C_NTL_S1 MASK_C_NTL_S1 (Some MF_match_opcode) 0;
    mk_opcode "c.ntl.all" 0 INSN_CLASS_ZIHINTNTL_AND_C "" MATCH_C_NTL_ALL MASK_C_NTL_ALL (Some MF_match_opcode) 0;
    mk_opcode "pause" 0 INSN_CLASS_ZIHINTPAUSE "" MATCH_PAUSE MASK_PAUSE (Some MF_match_opcode) 0;
    mk_opcode "unimp" 0 INSN_CLASS_C "" 0 0xffff (Some MF_match_opcode) INSN_ALIAS;
    mk_opcode "unimp" 0 INSN_CLASS_I "" (u64 (s32 (MATCH_CSRRW .| (CSR_CYCLE << OP_SH FLD_CSR)))) 0xffffffff (Some MF_match_opcode) 0;
    mk_opcode "ebreak" 0 INSN_CLASS_C "" MATCH_C_EBREAK MASK_C_EBREAK (Some MF_match_opcode) INSN_ALIAS;
    mk_opcode "ebreak" 0 INSN_CLASS_I "" MATCH_EBREAK MASK_EBREAK (Some MF_match_opcode) 0;
    mk_opcode "sbreak" 0 INSN_CLASS_C "" MATCH_C_EBREAK MASK_C_EBREAK (Some MF_match_opcode) INSN_ALIAS;
    mk_opcode "sbreak" 0 INSN_CLASS_I "" MATCH_EBREAK MASK_EBREAK (Some MF_match_opcode) INSN_ALIAS;
    mk_opcode "ret" 0 INSN_CLASS_C "" (MATCH_C_JR .| (X_RA << OP_SH FLD_RD)) (MASK_C_JR .| MASK_RD) (Some MF_match_opcode) (INSN_ALIAS .| INSN_BRANCH);
    mk_opcode "ret" 0 INSN_CLASS_I "" (MATCH_JALR .| (X_RA << OP_SH FLD_RS1)) (MASK_JALR .| MASK_RD .| MASK_RS1 .| MASK_IMM) (Some MF_match_opcode) (INSN_ALIAS .| INSN_BRANCH);
    mk_opcode "jr" 0 INSN_CLASS_C "d" MATCH_C_JR MASK_C_JR (Some MF_match_rd_nonzero) (INSN_ALIAS .| INSN_BRANCH);
    mk_opcode "jr" 0 INSN_CLASS_I "s" MATCH_JALR (MASK_JALR .| MASK_RD .| MASK_IMM) (Some MF_match_opcode) (INSN_ALIAS .| INSN_BRANCH);
    mk_opcode "jr" 0 INSN_CLASS_I "o(s)" MATCH_JALR (MASK_JALR .| MASK_RD) (Some MF_match_opcode) (INSN_ALIAS .| INSN_BRANCH);
    mk_opcode "jr" 0 INSN_CLASS_I "s,j" MATCH_JALR (MASK_JALR .| MASK_RD) (Some MF_match_opcode) (INSN_ALIAS .| INSN_BRANCH);
    mk_opcode "jalr" 0 INSN_CLASS_C "d" MATCH_C_JALR MASK_C_JALR (Some MF_match_rd_nonzero) (INSN_ALIAS .| INSN_JSR);
    mk_opcode "jalr" 0 INSN_CLASS_I "s" (MATCH_JALR .| (X_RA << OP_SH FLD_RD)) (MASK_JALR .| MASK_RD .| MASK_IMM) (Some MF_match_opcode) (INSN_ALIAS .| INSN_JSR);
    mk_opcode "jalr" 0 INSN_CLASS_I "o(s)" (MATCH_JALR .| (X_RA << OP_SH FLD_RD)) (MASK_JALR .| MASK_RD) (Some MF_match_opcode) (INSN_ALIAS .| INSN_JSR);
    mk_opcode "jalr" 0 INSN_CLASS_I "s,j" (MATCH_JALR .| (X_RA << OP_SH FLD_RD)) (MASK_JALR .| MASK_RD) (Some MF_match_opcode) (INSN_ALIAS .| INSN_JSR);
    mk_opcode "jalr" 0 INSN_CLASS_I "d,s" MATCH_JALR (MASK_JALR .| MASK_IMM) (Some MF_match_opcode) (INSN_ALIAS .| INSN_JSR);
    mk_opcode "jalr" 0 INSN_CLASS_I "d,o(s)" MATCH_JALR MASK_JALR (Some MF_match_opcode) INSN_JSR;
    mk_opcode "jalr" 0 INSN_CLASS_I "d,s,j" MATCH_JALR MASK_JALR (Some MF_match_opcode) INSN_JSR;
    mk_opcode "j" 0 INSN_CLASS_C "Ca" MATCH_C_J MASK_C_J (Some MF_match_opcode) (INSN_ALIAS .| INSN_BRANCH);
    mk_opcode "j" 0 INSN_CLASS_I "a" MATCH_JAL (MASK_JAL .| MASK_RD) (Some MF_match_opcode) (INSN_ALIAS .| INSN_BRANCH);
    mk_opcode "jal" 32 INSN_CLASS_C "Ca" MATCH_C_JAL MASK_C_JAL (Some MF_match_opcode) (INSN_ALIAS .| INSN_JSR);
    mk_opcode "jal" 0 INSN_CLASS_I "a" (MATCH_JAL .| (X_RA << OP_SH FLD_RD)) (MASK_JAL .| MASK_RD) (Some MF_match_opcode) (INSN_ALIAS .| INSN_JSR);
    mk_opcode "jal" 0 INSN_CLASS_I "d,a" MATCH_JAL MASK_JAL (Some MF_match_opcode) INSN_JSR;
    mk_opcode "call" 0 INSN_CLASS_I "d,c" ((X_T1 << OP_SH FLD_RS1)) M_CALL None INSN_MACRO;
    mk_opcode "call" 0 INSN_CLASS_I "c" ((X_RA << OP_SH FLD_RS1) .| (X_RA << OP_SH FLD_RD)) M_CALL None INSN_MACRO;
    mk_opcode "tail" 0 INSN_CLASS_I "c" ((X_T1 << OP_SH FLD_RS1)) M_CALL None INSN_MACRO;
    mk_opcode "jump" 0 INSN_CLASS_I "c,s" 0 M_CALL (Some MF_match_rs1_nonzero) INSN_MACRO;
    mk_opcode "nop" 0 INSN_CLASS_C "" MATCH_C_ADDI 0xffff (Some MF_match_opcode) INSN_ALIAS;
    mk_opcode "nop" 0 INSN_CLASS_I "" MATCH_ADDI (MASK_ADDI .| MASK_RD .| MASK_RS1 .| MASK_IMM) (Some MF_match_opcode) INSN_ALIAS;
    mk_opcode "lui" 0 INSN_CLASS_C "d,Cu" MATCH_C_LUI MASK_C_LUI (Some MF_match_c_lui) INSN_ALIAS;
    mk_opcode "lui" 0 INSN_CLASS_I "d,u" MATCH_LUI MASK_LUI (Some MF_match_opcode) 0;
    mk_opcode "li" 0 INSN_CLASS_C "d,Cv" MATCH_C_LUI MASK_C_LUI (Some MF_match_c_lui) INSN_ALIAS;
    mk_opcode "li" 0 INSN_CLASS_C "d,Co" MATCH_C_LI MASK_C_LI (Some MF_match_rd_nonzero) INSN_ALIAS;
    mk_opcode "li" 0 INSN_CLASS_I "d,j" MATCH_ADDI (MASK_ADDI .| MASK_RS1) (Some MF_match_opcode) INSN_ALIAS;
    mk_opcode "li" 0 INSN_CLASS_I "d,I" 0 M_LI None INSN_MACRO;
    mk_opcode "mv" 0 INSN_CLASS_C "d,CV" MATCH_C_MV MASK_C_MV (Some MF_match_c_add) INSN_ALIAS;
    mk_opcode "mv" 0 INSN_CLASS_I "d,s" MATCH_ADDI (MASK_ADDI .| MASK_IMM) (Some MF_match_opcode) INSN_ALIAS;
    mk_opcode "move" 0 INSN_CLASS_C "d,CV" MATCH_C_MV MASK_C_MV (Some MF_match_c_add) INSN_ALIAS;
    mk_opcode "move" 0 INSN_CLASS_I "d,s" MATCH_ADDI (MASK_ADDI .| MASK_IMM) (Some MF_match_opcode) INSN_ALIAS;
    mk_opcode "zext.b" 0 INSN_CLASS_ZCB "Cs,Cw" MATCH_C_ZEXT_B MASK_C_ZEXT_B (Some MF_match_opcode) INSN_ALIAS;
    mk_opcode "zext.b" 0 INSN_CLASS_I "d,s" (MATCH_ANDI .| ENCODE_ITYPE_IMM 255) (MASK_ANDI .| MASK_IMM) (Some MF_match_opcode) INSN_ALIAS;
    mk_opcode "andi" 0 INSN_CLASS_ZCB "Cs,Cw,Wcf" MATCH_C_ZEXT_B MASK_C_ZEXT_B (Some MF_match_opcode) INSN_ALIAS;
    mk_opcode "andi" 0 INSN_CLASS_C "Cs,Cw,Co" MATCH_C_ANDI MASK_C_ANDI (Some MF_match_opcode) INSN_ALIAS;
    mk_opcode "andi" 0 INSN_CLASS_I "d,s,j" MATCH_ANDI MASK_ANDI (Some MF_match_opcode) 0;
    mk_opcode "and" 0 INSN_CLASS_C "Cs,Cw,Ct" MATCH_C_AND MASK_C_AND (Some MF_match_opcode) INSN_ALIAS;
    mk_opcode "and" 0 INSN_CLASS_C "Cs,Ct,Cw" MATCH_C_AND MASK_C_AND (Some MF_match_opcode) INSN_ALIAS;
    mk_opcode "and" 0 INSN_CLASS_C "Cs,Cw,Co" MATCH_C_ANDI MASK_C_ANDI (Some MF_match_opcode) INSN_ALIAS;
    mk_opcode "and" 0 INSN_CLASS_I "d,s,t" MATCH_AND MASK_AND (Some MF_match_opcode) 0;
    mk_opcode "and" 0 INSN_CLASS_I "d,s,j" MATCH_ANDI MASK_ANDI (Some MF_match_opcode) INSN_ALIAS;
    mk_opcode "beqz" 0 INSN_CLASS_C "Cs,Cp" MATCH_C_BEQZ MASK_C_BEQZ (Some MF_match_opcode) (INSN_ALIAS .| INSN_CONDBRANCH);
    mk_opcode "beqz" 0 INSN_CLASS_I "s,p" MATCH_BEQ (MASK_BEQ .| MASK_RS2) (Some MF_match_opcode) (INSN_ALIAS .| INSN_CONDBRANCH);
    mk_opcode "beq" 0 INSN_CLASS_C "Cs,Cz,Cp" MATCH_C_BEQZ MASK_C_BEQZ (Some MF_match_opcode) (INSN_ALIAS .| INSN_CONDBRANCH);
    mk_opcode "beq" 0 INSN_CLASS_I "s,t,p" MATCH_BEQ MASK_BEQ (Some MF_match_opcode) INSN_CONDBRANCH;
    mk_opcode "blez" 0 INSN_CLASS_I "t,p" MATCH_BGE (MASK_BGE .| MASK_RS1) (Some MF_match_opcode) (INSN_ALIAS .| INSN_CONDBRANCH);
    mk_opcode "bgez" 0 INSN_CLASS_I "s,p" MATCH_BGE (MASK_BGE .| MASK_RS2) (Some MF_match_opcode) (INSN_ALIAS .| INSN_CONDBRANCH);
    mk_opcode "bge" 0 INSN_CLASS_I "s,t,p" MATCH_BGE MASK_BGE (Some MF_match_opcode) INSN_CONDBRANCH;
    mk_opcode "bgeu" 0 INSN_CLASS_I "s,t,p" MATCH_BGEU MASK_BGEU (Some MF_match_opcode) INSN_CONDBRANCH;
    mk_opcode "ble" 0 INSN_CLASS_I "t,s,p" MATCH_BGE MASK_BGE (Some MF_match_opcode) (INSN_ALIAS .| INSN_CONDBRANCH);
    mk_opcode "bleu" 0 INSN_CLASS_I "t,s,p" MATCH_BGEU MASK_BGEU (Some MF_match_opcode) (INSN_ALIAS .| INSN_CONDBRANCH);
    mk_opcode "bltz" 0 INSN_CLASS_I "s,p" MATCH_BLT (MASK_BLT .| MASK_RS2) (Some MF_match_opcode) (INSN_ALIAS .| INSN_CONDBRANCH);
    mk_opcode "bgtz" 0 INSN_CLASS_I "t,p" MATCH_BLT (MASK_BLT .| MASK_RS1) (Some MF_match_opcode) (INSN_ALIAS .| INSN_CONDBRANCH);
    mk_opcode "blt" 0 INSN_CLASS_I "s,t,p" MATCH_BLT MASK_BLT (Some MF_match_opcode) INSN_CONDBRANCH;
    mk_opcode "bltu" 0 INSN_CLASS_I "s,t,p" MATCH_BLTU MASK_BLTU (Some MF_match_opcode) INSN_CONDBRANCH;
    mk_opcode "bgt" 0 INSN_CLASS_I "t,s,p" MATCH_BLT MASK_BLT (Some MF_match_opcode) (INSN_ALIAS .| INSN_CONDBRANCH);
    mk_opcode "bgtu" 0 INSN_CLASS_I "t,s,p" MATCH_BLTU MASK_BLTU (Some MF_match_opcode) (INSN_ALIAS .| INSN_CONDBRANCH);
    mk_opcode "bnez" 0 INSN_CLASS_C "Cs,Cp" MATCH_C_BNEZ MASK_C_BNEZ (Some MF_match_opcode) (INSN_ALIAS .| INSN_CONDBRANCH);
    mk_opcode "bnez" 0 INSN_CLASS_I "s,p" MATCH_BNE (MASK_BNE .| MASK_RS2) (Some MF_match_opcode) (INSN_ALIAS .| INSN_CONDBRANCH);
    mk_opcode "bne" 0 INSN_CLASS_C "Cs,Cz,Cp" MATCH_C_BNEZ MASK_C_BNEZ (Some MF_match_opcode) (INSN_ALIAS .| INSN_CONDBRANCH);
    mk_opcode "bne" 0 INSN_CLASS_I "s,t,p" MATCH_BNE MASK_BNE (Some MF_match_opcode) INSN_CONDBRANCH;
    mk_opcode "addi" 0 INSN_CLASS_C "Ct,Cc,CK" MATCH_C_ADDI4SPN MASK_C_ADDI4SPN (Some MF_match_c_addi4spn) INSN_ALIAS;
    mk_opcode "addi" 0 INSN_CLASS_C "d,CU,Cj" MATCH_C_ADDI MASK_C_ADDI (Some MF_match_rd_nonzero) INSN_ALIAS;
    mk_opcode "addi" 0 INSN_CLASS_C "d,CU,z" MATCH_C_NOP (MASK_C_ADDI .| MASK_RVC_IMM) (Some MF_match_c_nop) INSN_ALIAS;
    mk_opcode "addi" 0 INSN_CLASS_C "Cc,Cc,CL" MATCH_C_ADDI16SP MASK_C_ADDI16SP (Some MF_match_c_addi16sp) INSN_ALIAS;
    mk_opcode "addi" 0 INSN_CLASS_C "d,Cz,Co" MATCH_C_LI MASK_C_LI (Some MF_match_rd_nonzero) INSN_ALIAS;
    mk_opcode "addi" 0 INSN_CLASS_C "d,CV,z" MATCH_C_MV MASK_C_MV (Some MF_match_c_add) INSN_ALIAS;
    mk_opcode "addi" 0 INSN_CLASS_I "d,s,j" MATCH_ADDI MASK_ADDI (Some MF_match_opcode) 0;
    mk_opcode "add" 0 INSN_CLASS_C "d,CU,CV" MATCH_C_ADD MASK_C_ADD (Some MF_match_c_add) INSN_ALIAS;
    mk_opcode "add" 0 INSN_CLASS_C "d,CV,CU" MATCH_C_ADD MASK_C_ADD (Some MF_match_c_add) INSN_ALIAS;
    mk_opcode "add" 0 INSN_CLASS_C "d,CU,Co" MATCH_C_ADDI MASK_C_ADDI (Some MF_match_rd_nonzero) INSN_ALIAS;
    mk_opcode "add" 0 INSN_CLASS_C "Ct,Cc,CK" MATCH_C_ADDI4SPN MASK_C_ADDI4SPN (Some MF_match_c_addi4spn) INSN_ALIAS;
    mk_opcode "add" 0 INSN_CLASS_C "Cc,Cc,CL" MATCH_C_ADDI16SP MASK_C_ADDI16SP (Some MF_match_c_addi16sp) INSN_ALIAS;
    mk_opcode "add" 0 INSN_CLASS_C "d,Cz,CV" MATCH_C_MV MASK_C_MV (Some MF_match_c_add) INSN_ALIAS;
    mk_opcode "add" 0 INSN_CLASS_I "d,s,t" MATCH_ADD MASK_ADD (Some MF_match_opcode) 0;
    mk_opcode "add" 0 INSN_CLASS_I "d,s,t,1" MATCH_ADD MASK_ADD (Some MF_match_opcode) 0;
    mk_opcode "add" 0 INSN_CLASS_I "d,s,j" MATCH_ADDI MASK_ADDI (Some MF_match_opcode) INSN_ALIAS;
    mk_opcode "la" 0 INSN_CLASS_I "d,B" 0 M_LA (Some MF_match_rd_nonzero) INSN_MACRO;
    mk_opcode "lla" 0 INSN_CLASS_I "d,B" 0 M_LLA None INSN_MACRO;
    mk_opcode "lga" 0 INSN_CLASS_I "d,B" 0 M_LGA (Some MF_match_rd_nonzero) INSN_MACRO;
    mk_opcode "la.tls.gd" 0 INSN_CLASS_I "d,A" 0 M_LA_TLS_GD None INSN_MACRO;
    mk_opcode "la.tls.ie" 0 INSN_CLASS_I "d,A" 0 M_LA_TLS_IE (Some MF_match_rd_nonzero) INSN_MACRO;
    mk_opcode "neg" 0 INSN_CLASS_I "d,t" MATCH_SUB (MASK_SUB .| MASK_RS1) (Some MF_match_opcode) INSN_ALIAS;
    mk_opcode "slli" 0 INSN_CLASS_C "d,CU,C>" MATCH_C_SLLI MASK_C_SLLI (Some MF_match_slli_as_c_slli) INSN_ALIAS;
    mk_opcode "slli" 0 INSN_CLASS_I "d,s,>" MATCH_SLLI MASK_SLLI (Some MF_match_opcode) 0;
    mk_opcode "sll" 0 INSN_CLASS_C "d,CU,C>" MATCH_C_SLLI MASK_C_SLLI (Some MF_match_slli_as_c_slli) INSN_ALIAS;
    mk_opcode "sll" 0 INSN_CLASS_I "d,s,t" MATCH_SLL MASK_SLL (Some MF_match_opcode) 0;
    mk_opcode "sll" 0 INSN_CLASS_I "d,s,>" MATCH_SLLI MASK_SLLI (Some MF_match_opcode) INSN_ALIAS;
    mk_opcode "srli" 0 INSN_CLASS_C "Cs,Cw,C>" MATCH_C_SRLI MASK_C_SRLI (Some MF_match_srxi_as_c_srxi) INSN_ALIAS;
    mk_opcode "srli" 0 INSN_CLASS_I "d,s,>" MATCH_SRLI MASK_SRLI (Some MF_match_opcode) 0;
    mk_opcode "srl" 0 INSN_CLASS_C "Cs,Cw,C>" MATCH_C_SRLI MASK_C_SRLI (Some MF_match_srxi_as_c_srxi) INSN_ALIAS;
    mk_opcode "srl" 0 INSN_CLASS_I "d,s,t" MATCH_SRL MASK_SRL (Some MF_match_opcode) 0;
    mk_opcode "srl" 0 INSN_CLASS_I "d,s,>" MATCH_SRLI MASK_SRLI (Some MF_match_opcode) INSN_ALIAS;
    mk_opcode "srai" 0 INSN_CLASS_C "Cs,Cw,C>" MATCH_C_SRAI MASK_C_SRAI (Some MF_match_srxi_as_c_srxi) INSN_ALIAS;
    mk_opcode "srai" 0 INSN_CLASS_I "d,s,>" MATCH_SRAI MASK_SRAI (Some MF_match_opcode) 0;
    mk_opcode "sra" 0 INSN_CLASS_C "Cs,Cw,C>" MATCH_C_SRAI MASK_C_SRAI (Some MF_match_srxi_as_c_srxi) INSN_ALIAS;
    mk_opcode "sra" 0 INSN_CLASS_I "d,s,t" MATCH_SRA MASK_SRA (Some MF_match_opcode) 0;
    mk_opcode "sra" 0 INSN_CLASS_I "d,s,>" MATCH_SRAI MASK_SRAI (Some MF_match_opcode) INSN_ALIAS;
    mk_opcode "sub" 0 INSN_CLASS_C "Cs,Cw,Ct" MATCH_C_SUB MASK_C_SUB (Some MF_match_opcode) INSN_ALIAS;
    mk_opcode "sub" 0 INSN_CLASS_I "d,s,t" MATCH_SUB MASK_SUB (Some MF_match_opcode) 0;
    mk_opcode "lb" 0 INSN_CLASS_I "d,o(s)" MATCH_LB MASK_LB (Some MF_match_opcode) (INSN_DREF .| INSN_1_BYTE);
    mk_opcode "lb" 0 INSN_CLASS_I "d,A" 0 M_Lx (Some MF_match_rd_nonzero) INSN_MACRO;
    mk_opcode "lbu" 0 INSN_CLASS_ZCB "Ct,Wcb(Cs)" MATCH_C_LBU MASK_C_LBU (Some MF_match_opcode) (INSN_ALIAS .| INSN_DREF .| INSN_1_BYTE);
    mk_opcode "lbu" 0 INSN_CLASS_I "d,o(s)" MATCH_LBU MASK_LBU (Some MF_match_opcode) (INSN_DREF .| INSN_1_BYTE);
    mk_opcode "lbu" 0 INSN_CLASS_I "d,A" 0 M_Lx (Some MF_match_rd_nonzero) INSN_MACRO;
    mk_opcode "lh" 0 INSN_CLASS_ZCB "Ct,Wch(Cs)" MATCH_C_LH MASK_C_LH (Some MF_match_opcode) (INSN_ALIAS .| INSN_DREF .| INSN_2_BYTE);
    mk_opcode "lh" 0 INSN_CLASS_I "d,o(s)" MATCH_LH MASK_LH (Some MF_match_opcode) (INSN_DREF .| INSN_2_BYTE);
    mk_opcode "lh" 0 INSN_CLASS_I "d,A" 0 M_Lx (Some MF_match_rd_nonzero) INSN_MACRO;
    mk_opcode "lhu" 0 INSN_CLASS_ZCB "Ct,Wch(Cs)" MATCH_C_LHU MASK_C_LHU (Some MF_match_opcode) (INSN_ALIAS .| INSN_DREF .| INSN_2_BYTE);
    mk_opcode "lhu" 0 INSN_CLASS_I "d,o(s)" MATCH_LHU MASK_LHU (Some MF_match_opcode) (INSN_DREF .| INSN_2_BYTE);
    mk_opcode "lhu" 0 INSN_CLASS_I "d,A" 0 M_Lx (Some MF_match_rd_nonzero) INSN_MACRO;
    mk_opcode "lw" 0 INSN_CLASS_C "d,Cm(Cc)" MATCH_C_LWSP MASK_C_LWSP (Some MF_match_rd_nonzero) (INSN_ALIAS .| INSN_DREF .| INSN_4_BYTE);
    mk_opcode "lw" 0 INSN_CLASS_C "Ct,Ck(Cs)" MATCH_C_LW MASK_C_LW (Some MF_match_opcode) (INSN_ALIAS .| INSN_DREF .| INSN_4_BYTE) ].

(** Lines 491-630. *)
Definition riscv_opcodes_2 : list riscv_opcode :=
  [ mk_opcode "lw" 0 INSN_CLASS_I "d,o(s)" MATCH_LW MASK_LW (Some MF_match_opcode) (INSN_DREF .| INSN_4_BYTE);
    mk_opcode "lw" 0 INSN_CLASS_I "d,A" 0 M_Lx (Some MF_match_rd_nonzero) INSN_MACRO;
    mk_opcode "not" 0 INSN_CLASS_ZCB "Cs,Cw" MATCH_C_NOT MASK_C_NOT (Some MF_match_opcode) INSN_ALIAS;
    mk_opcode "not" 0 INSN_CLASS_I "d,s" (MATCH_XORI .| MASK_IMM) (MASK_XORI .| MASK_IMM) (Some MF_match_opcode) INSN_ALIAS;
    mk_opcode "ori" 0 INSN_CLASS_I "d,s,j" MATCH_ORI MASK_ORI (Some MF_match_opcode) 0;
    mk_opcode "or" 0 INSN_CLASS_I "d,s,j" MATCH_ORI MASK_ORI (Some MF_match_opcode) INSN_ALIAS;
    mk_opcode "or" 0 INSN_CLASS_C "Cs,Cw,Ct" MATCH_C_OR MASK_C_OR (Some MF_match_opcode) INSN_ALIAS;
    mk_opcode "or" 0 INSN_CLASS_C "Cs,Ct,Cw" MATCH_C_OR MASK_C_OR (Some MF_match_opcode) INSN_ALIAS;
    mk_opcode "or" 0 INSN_CLASS_I "d,s,t" MATCH_OR MASK_OR (Some MF_match_opcode) 0;
    mk_opcode "auipc" 0 INSN_CLASS_I "d,u" MATCH_AUIPC MASK_AUIPC (Some MF_match_opcode) 0;
    mk_opcode "seqz" 0 INSN_CLASS_I "d,s" (MATCH_SLTIU .| ENCODE_ITYPE_IMM 1) (MASK_SLTIU .| MASK_IMM) (Some MF_match_opcode) INSN_ALIAS;
    mk_opcode "snez" 0 INSN_CLASS_I "d,t" MATCH_SLTU (MASK_SLTU .| MASK_RS1) (Some MF_match_opcode) INSN_ALIAS;
    mk_opcode "sltz" 0 INSN_CLASS_I "d,s" MATCH_SLT (MASK_SLT .| MASK_RS2) (Some MF_match_opcode) INSN_ALIAS;
    mk_opcode "sgtz" 0 INSN_CLASS_I "d,t" MATCH_SLT (MASK_SLT .| MASK_RS1) (Some MF_match_opcode) INSN_ALIAS;
    mk_opcode "slti" 0 INSN_CLASS_I "d,s,j" MATCH_SLTI MASK_SLTI (Some MF_match_opcode) 0;
    mk_opcode "slt" 0 INSN_CLASS_I "d,s,t" MATCH_SLT MASK_SLT (Some MF_match_opcode) 0;
    mk_opcode "slt" 0 INSN_CLASS_I "d,s,j" MATCH_SLTI MASK_SLTI (Some MF_match_opcode) INSN_ALIAS;
    mk_opcode "sltiu" 0 INSN_CLASS_I "d,s,j" MATCH_SLTIU MASK_SLTIU (Some MF_match_opcode) 0;
    mk_opcode "sltu" 0 INSN_CLASS_I "d,s,t" MATCH_SLTU MASK_SLTU (Some MF_match_opcode) 0;
    mk_opcode "sltu" 0 INSN_CLASS_I "d,s,j" MATCH_SLTIU MASK_SLTIU (Some MF_match_opcode) INSN_ALIAS;
    mk_opcode "sgt" 0 INSN_CLASS_I "d,t,s" MATCH_SLT MASK_SLT (Some MF_match_opcode) INSN_ALIAS;
    mk_opcode "sgtu" 0 INSN_CLASS_I "d,t,s" MATCH_SLTU MASK_SLTU (Some MF_match_opcode) INSN_ALIAS;
    mk_opcode "sb" 0 INSN_CLASS_ZCB "Ct,Wcb(Cs)" MATCH_C_SB MASK_C_SB (Some MF_match_opcode) (INSN_DREF .| INSN_1_BYTE .| INSN_ALIAS);
    mk_opcode "sb" 0 INSN_CLASS_I "t,q(s)" MATCH_SB MASK_SB (Some MF_match_opcode) (INSN_DREF .| INSN_1_BYTE);
    mk_opcode "sb" 0 INSN_CLASS_I "t,A,s" 0 M_Sx_FSx (Some MF_match_rs1_nonzero) INSN_MACRO;
    mk_opcode "sh" 0 INSN_CLASS_ZCB "Ct,Wch(Cs)" MATCH_C_SH MASK_C_SH (Some MF_match_opcode) (INSN_DREF .| INSN_2_BYTE .| INSN_ALIAS);
    mk_opcode "sh" 0 INSN_CLASS_I "t,q(s)" MATCH_SH MASK_SH (Some MF_match_opcode) (INSN_DREF .| INSN_2_BYTE);
    mk_opcode "sh" 0 INSN_CLASS_I "t,A,s" 0 M_Sx_FSx (Some MF_match_rs1_nonzero) INSN_MACRO;
    mk_opcode "sw" 0 INSN_CLASS_C "CV,CM(Cc)" MATCH_C_SWSP MASK_C_SWSP (Some MF_match_opcode) (INSN_ALIAS .| INSN_DREF .| INSN_4_BYTE);
    mk_opcode "sw" 0 INSN_CLASS_C "Ct,Ck(Cs)" MATCH_C_SW MASK_C_SW (Some MF_match_opcode) (INSN_ALIAS .| INSN_DREF .| INSN_4_BYTE);
    mk_opcode "sw" 0 INSN_CLASS_I "t,q(s)" MATCH_SW MASK_SW (Some MF_match_opcode) (INSN_DREF .| INSN_4_BYTE);
    mk_opcode "sw" 0 INSN_CLASS_I "t,A,s" 0 M_Sx_FSx (Some MF_match_rs1_nonzero) INSN_MACRO;
    mk_opcode "fence" 0 INSN_CLASS_I "" (MATCH_FENCE .| MASK_PRED .| MASK_SUCC) (MASK_FENCE .| MASK_RD .| MASK_RS1 .| MASK_IMM) (Some MF_match_opcode) INSN_ALIAS;
    mk_opcode "fence" 0 INSN_CLASS_I "P,Q" MATCH_FENCE (MASK_FENCE .| MASK_RD .| MASK_RS1 .| (MASK_IMM .& Z.lnot MASK_PRED .& Z.lnot MASK_SUCC)) (Some MF_match_opcode) 0;
    mk_opcode "fence.i" 0 INSN_CLASS_ZIFENCEI "" MATCH_FENCE_I (MASK_FENCE .| MASK_RD .| MASK_RS1 .| MASK_IMM) (Some MF_match_opcode) 0;
    mk_opcode "fence.tso" 0 INSN_CLASS_I "" MATCH_FENCE_TSO (MASK_FENCE_TSO .| MASK_RD .| MASK_RS1) (Some MF_match_opcode) 0;
    mk_opcode "rdcycle" 0 INSN_CLASS_I "d" MATCH_RDCYCLE MASK_RDCYCLE (Some MF_match_opcode) INSN_ALIAS;
    mk_opcode "rdinstret" 0 INSN_CLASS_I "d" MATCH_RDINSTRET MASK_RDINSTRET (Some MF_match_opcode) INSN_ALIAS;
    mk_opcode "rdtime" 0 INSN_CLASS_I "d" MATCH_RDTIME MASK_RDTIME (Some MF_match_opcode) INSN_ALIAS;
    mk_opcode "rdcycleh" 32 INSN_CLASS_I "d" MATCH_RDCYCLEH MASK_RDCYCLEH (Some MF_match_opcode) INSN_ALIAS;
    mk_opcode "rdinstreth" 32 INSN_CLASS_I "d" MATCH_RDINSTRETH MASK_RDINSTRETH (Some MF_match_opcode) INSN_ALIAS;
    mk_opcode "rdtimeh" 32 INSN_CLASS_I "d" MATCH_RDTIMEH MASK_RDTIMEH (Some MF_match_opcode) INSN_ALIAS;
    mk_opcode "ecall" 0 INSN_CLASS_I "" MATCH_SCALL MASK_SCALL (Some MF_match_opcode) 0;
    mk_opcode "scall" 0 INSN_CLASS_I "" MATCH_SCALL MASK_SCALL (Some MF_match_opcode) 0;
    mk_opcode "xori" 0 INSN_CLASS_I "d,s,j" MATCH_XORI MASK_XORI (Some MF_match_opcode) 0;
    mk_opcode "xor" 0 INSN_CLASS_I "d,s,j" MATCH_XORI MASK_XORI (Some MF_match_opcode) INSN_ALIAS;
    mk_opcode "xor" 0 INSN_CLASS_C "Cs,Cw,Ct" MATCH_C_XOR MASK_C_XOR (Some MF_match_opcode) INSN_ALIAS;
    mk_opcode "xor" 0 INSN_CLASS_C "Cs,Ct,Cw" MATCH_C_XOR MASK_C_XOR (Some MF_match_opcode) INSN_ALIAS;
    mk_opcode "xor" 0 INSN_CLASS_I "d,s,t" MATCH_XOR MASK_XOR (Some MF_match_opcode) 0;
    mk_opcode "lwu" 64 INSN_CLASS_I "d,o(s)" MATCH_LWU MASK_LWU (Some MF_match_opcode) (INSN_DREF .| INSN_4_BYTE);
    mk_opcode "lwu" 64 INSN_CLASS_I "d,A" 0 M_Lx (Some MF_match_rd_nonzero) INSN_MACRO;
    mk_opcode "myadd" 0 INSN_CLASS_I "d,s" MATCH_MYADD MASK_MYADD (Some MF_match_opcode) INSN_ALIAS;
    mk_opcode "ld" 64 INSN_CLASS_C "d,Cn(Cc)" MATCH_C_LDSP MASK_C_LDSP (Some MF_match_rd_nonzero) (INSN_ALIAS .| INSN_DREF .| INSN_8_BYTE);
    mk_opcode "ld" 64 INSN_CLASS_C "Ct,Cl(Cs)" MATCH_C_LD MASK_C_LD (Some MF_match_opcode) (INSN_ALIAS .| INSN_DREF .| INSN_8_BYTE);
    mk_opcode "ld" 64 INSN_CLASS_I "d,o(s)" MATCH_LD MASK_LD (Some MF_match_opcode) (INSN_DREF .| INSN_8_BYTE);
    mk_opcode "ld" 64 INSN_CLASS_I "d,A" 0 M_Lx (Some MF_match_rd_nonzero) INSN_MACRO;
    mk_opcode "sd" 64 INSN_CLASS_C "CV,CN(Cc)" MATCH_C_SDSP MASK_C_SDSP (Some MF_match_opcode) (INSN_ALIAS .| INSN_DREF .| INSN_8_BYTE);
    mk_opcode "sd" 64 INSN_CLASS_C "Ct,Cl(Cs)" MATCH_C_SD MASK_C_SD (Some MF_match_opcode) (INSN_ALIAS .| INSN_DREF .| INSN_8_BYTE);
    mk_opcode "sd" 64 INSN_CLASS_I "t,q(s)" MATCH_SD MASK_SD (Some MF_match_opcode) (INSN_DREF .| INSN_8_BYTE);
    mk_opcode "sd" 64 INSN_CLASS_I "t,A,s" 0 M_Sx_FSx (Some MF_match_rs1_nonzero) INSN_MACRO;
    mk_opcode "sext.w" 64 INSN_CLASS_C "d,CU" MATCH_C_ADDIW (MASK_C_ADDIW .| MASK_RVC_IMM) (Some MF_match_rd_nonzero) INSN_ALIAS;
    mk_opcode "sext.w" 64 INSN_CLASS_I "d,s" MATCH_ADDIW (MASK_ADDIW .| MASK_IMM) (Some MF_match_opcode) INSN_ALIAS;
    mk_opcode "addiw" 64 INSN_CLASS_C "d,CU,Co" MATCH_C_ADDIW MASK_C_ADDIW (Some MF_match_rd_nonzero) INSN_ALIAS;
    mk_opcode "addiw" 64 INSN_CLASS_I "d,s,j" MATCH_ADDIW MASK_ADDIW (Some MF_match_opcode) 0;
    mk_opcode "addw" 64 INSN_CLASS_C "Cs,Cw,Ct" MATCH_C_ADDW MASK_C_ADDW (Some MF_match_opcode) INSN_ALIAS;
    mk_opcode "addw" 64 INSN_CLASS_C "Cs,Ct,Cw" MATCH_C_ADDW MASK_C_ADDW (Some MF_match_opcode) INSN_ALIAS;
    mk_opcode "addw" 64 INSN_CLASS_C "d,CU,Co" MATCH_C_ADDIW MASK_C_ADDIW (Some MF_match_rd_nonzero) INSN_ALIAS;
    mk_opcode "addw" 64 INSN_CLASS_I "d,s,t" MATCH_ADDW MASK_ADDW (Some MF_match_opcode) 0;
    mk_opcode "addw" 64 INSN_CLASS_I "d,s,j" MATCH_ADDIW MASK_ADDIW (Some MF_match_opcode) INSN_ALIAS;
    mk_opcode "negw" 64 INSN_CLASS_I "d,t" MATCH_SUBW (MASK_SUBW .| MASK_RS1) (Some MF_match_opcode) INSN_ALIAS;
    mk_opcode "slliw" 64 INSN_CLASS_I "d,s,<" MATCH_SLLIW MASK_SLLIW (Some MF_match_opcode) 0;
    mk_opcode "sllw" 64 INSN_CLASS_I "d,s,t" MATCH_SLLW MASK_SLLW (Some MF_match_opcode) 0;
    mk_opcode "sllw" 64 INSN_CLASS_I "d,s,<" MATCH_SLLIW MASK_SLLIW (Some MF_match_opcode) INSN_ALIAS;
    mk_opcode "srliw" 64 INSN_CLASS_I "d,s,<" MATCH_SRLIW MASK_SRLIW (Some MF_match_opcode) 0;
    mk_opcode "srlw" 64 INSN_CLASS_I "d,s,t" MATCH_SRLW MASK_SRLW (Some MF_match_opcode) 0;
    mk_opcode "srlw" 64 INSN_CLASS_I "d,s,<" MATCH_SRLIW MASK_SRLIW (Some MF_match_opcode) INSN_ALIAS;
    mk_opcode "sraiw" 64 INSN_CLASS_I "d,s,<" MATCH_SRAIW MASK_SRAIW (Some MF_match_opcode) 0;
    mk_opcode "sraw" 64 INSN_CLASS_I "d,s,t" MATCH_SRAW MASK_SRAW (Some MF_match_opcode) 0;
    mk_opcode "sraw" 64 INSN_CLASS_I "d,s,<" MATCH_SRAIW MASK_SRAIW (Some MF_match_opcode) INSN_ALIAS;
    mk_opcode "subw" 64 INSN_CLASS_C "Cs,Cw,Ct" MATCH_C_SUBW MASK_C_SUBW (Some MF_match_opcode) INSN_ALIAS;
    mk_opcode "subw" 64 INSN_CLASS_I "d,s,t" MATCH_SUBW MASK_SUBW (Some MF_match_opcode) 0;
    mk_opcode "lr.w" 0 INSN_CLASS_A "d,0(s)" MATCH_LR_W (MASK_LR_W .| MASK_AQRL) (Some MF_match_opcode) (INSN_DREF .| INSN_4_BYTE);
    mk_opcode "sc.w" 0 INSN_CLASS_A "d,t,0(s)" MATCH_SC_W (MASK_SC_W .| MASK_AQRL) (Some MF_match_opcode) (INSN_DREF .| INSN_4_BYTE);
    mk_opcode "amoadd.w" 0 INSN_CLASS_A "d,t,0(s)" MATCH_AMOADD_W (MASK_AMOADD_W .| MASK_AQRL) (Some MF_match_opcode) (INSN_DREF .| INSN_4_BYTE);
    mk_opcode "amoswap.w" 0 INSN_CLASS_A "d,t,0(s)" MATCH_AMOSWAP_W (MASK_AMOSWAP_W .| MASK_AQRL) (Some MF_match_opcode) (INSN_DREF .| INSN_4_BYTE);
    mk_opcode "amoand.w" 0 INSN_CLASS_A "d,t,0(s)" MATCH_AMOAND_W (MASK_AMOAND_W .| MASK_AQRL) (Some MF_match_opcode) (INSN_DREF .| INSN_4_BYTE);
    mk_opcode "amoor.w" 0 INSN_CLASS_A "d,t,0(s)" MATCH_AMOOR_W (MASK_AMOOR_W .| MASK_AQRL) (Some MF_match_opcode) (INSN_DREF .| INSN_4_BYTE);
    mk_opcode "amoxor.w" 0 INSN_CLASS_A "d,t,0(s)" MATCH_AMOXOR_W (MASK_AMOXOR_W .| MASK_AQRL) (Some MF_match_opcode) (INSN_DREF .| INSN_4_BYTE);
    mk_opcode "amomax.w" 0 INSN_CLASS_A "d,t,0(s)" MATCH_AMOMAX_W (MASK_AMOMAX_W .| MASK_AQRL) (Some MF_match_opcode) (INSN_DREF .| INSN_4_BYTE);
    mk_opcode "amomaxu.w" 0 INSN_CLASS_A "d,t,0(s)" MATCH_AMOMAXU_W (MASK_AMOMAXU_W .| MASK_AQRL) (Some MF_match_opcode) (INSN_DREF .| INSN_4_BYTE);
    mk_opcode "amomin.w" 0 INSN_CLASS_A "d,t,0(s)" MATCH_AMOMIN_W (MASK_AMOMIN_W .| MASK_AQRL) (Some MF_match_opcode) (INSN_DREF .| INSN_4_BYTE);
    mk_opcode "amominu.w" 0 INSN_CLASS_A "d,t,0(s)" MATCH_AMOMINU_W (MASK_AMOMINU_W .| MASK_AQRL) (Some MF_match_opcode) (INSN_DREF .| INSN_4_BYTE);
    mk_opcode "lr.w.aq" 0 INSN_CLASS_A "d,0(s)" (MATCH_LR_W .| MASK_AQ) (MASK_LR_W .| MASK_AQRL) (Some MF_match_opcode) (INSN_DREF .| INSN_4_BYTE);
    mk_opcode "sc.w.aq" 0 INSN_CLASS_A "d,t,0(s)" (MATCH_SC_W .| MASK_AQ) (MASK_SC_W .| MASK_AQRL) (Some MF_match_opcode) (INSN_DREF .| INSN_4_BYTE);
    mk_opcode "amoadd.w.aq" 0 INSN_CLASS_A "d,t,0(s)" (MATCH_AMOADD_W .| MASK_AQ) (MASK_AMOADD_W .| MASK_AQRL) (Some MF_match_opcode) (INSN_DREF .| INSN_4_BYTE);
    mk_opcode "amoswap.w.aq" 0 INSN_CLASS_A "d,t,0(s)" (MATCH_AMOSWAP_W .| MASK_AQ) (MASK_AMOSWAP_W .| MASK_AQRL) (Some MF_match_opcode) (INSN_DREF .| INSN_4_BYTE);
    mk_opcode "amoand.w.aq" 0 INSN_CLASS_A "d,t,0(s)" (MATCH_AMOAND_W .| MASK_AQ) (MASK_AMOAND_W .| MASK_AQRL) (Some MF_match_opcode) (INSN_DREF .| INSN_4_BYTE);
    mk_opcode "amoor.w.aq" 0 INSN_CLASS_A "d,t,0(s)" (MATCH_AMOOR_W .| MASK_AQ) (MASK_AMOOR_W .| MASK_AQRL) (Some MF_match_opcode) (INSN_DREF .| INSN_4_BYTE);
    mk_opcode "amoxor.w.aq" 0 INSN_CLASS_A "d,t,0(s)" (MATCH_AMOXOR_W .| MASK_AQ) (MASK_AMOXOR_W .| MASK_AQRL) (Some MF_match_opcode) (INSN_DREF .| INSN_4_BYTE);
    mk_opcode "amomax.w.aq" 0 INSN_CLASS_A "d,t,0(s)" (MATCH_AMOMAX_W .| MASK_AQ) (MASK_AMOMAX_W .| MASK_AQRL) (Some MF_match_opcode) (INSN_DREF .| INSN_4_BYTE);
    mk_opcode "amomaxu.w.aq" 0 INSN_CLASS_A "d,t,0(s)" (MATCH_AMOMAXU_W .| MASK_AQ) (MASK_AMOMAXU_W .| MASK_AQRL) (Some MF_match_opcode) (INSN_DREF .| INSN_4_BYTE);
    mk_opcode "amomin.w.aq" 0 INSN_CLASS_A "d,t,0(s)" (MATCH_AMOMIN_W .| MASK_AQ) (MASK_AMOMIN_W .| MASK_AQRL) (Some MF_match_opcode) (INSN_DREF .| INSN_4_BYTE);
    mk_opcode "amominu.w.aq" 0 INSN_CLASS_A "d,t,0(s)" (MATCH_AMOMINU_W .| MASK_AQ) (MASK_AMOMINU_W .| MASK_AQRL) (Some MF_match_opcode) (INSN_DREF .| INSN_4_BYTE);
    mk_opcode "lr.w.rl" 0 INSN_CLASS_A "d,0(s)" (MATCH_LR_W .| MASK_RL) (MASK_LR_W .| MASK_AQRL) (Some MF_match_opcode) (INSN_DREF .| INSN_4_BYTE);
    mk_opcode "sc.w.rl" 0 INSN_CLASS_A "d,t,0(s)" (MATCH_SC_W .| MASK_RL) (MASK_SC_W .| MASK_AQRL) (Some MF_match_opcode) (INSN_DREF .| INSN_4_BYTE);
    mk_opcode "amoadd.w.rl" 0 INSN_CLASS_A "d,t,0(s)" (MATCH_AMOADD_W .| MASK_RL) (MASK_AMOADD_W .| MASK_AQRL) (Some MF_match_opcode) (INSN_DREF .| INSN_4_BYTE);
    mk_opcode "amoswap.w.rl" 0 INSN_CLASS_A "d,t,0(s)" (MATCH_AMOSWAP_W .| MASK_RL) (MASK_AMOSWAP_W .| MASK_AQRL) (Some MF_match_opcode) (INSN_DREF .| INSN_4_BYTE);
    mk_opcode "amoand.w.rl" 0 INSN_CLASS_A "d,t,0(s)" (MATCH_AMOAND_W .| MASK_RL) (MASK_AMOAND_W .| MASK_AQRL) (Some MF_match_opcode) (INSN_DREF .| INSN_4_BYTE);
    mk_opcode "amoor.w.rl" 0 INSN_CLASS_A "d,t,0(s)" (MATCH_AMOOR_W .| MASK_RL) (MASK_AMOOR_W .| MASK_AQRL) (Some MF_match_opcode) (INSN_DREF .| INSN_4_BYTE);
    mk_opcode "amoxor.w.rl" 0 INSN_CLASS_A "d,t,0(s)" (MATCH_AMOXOR_W .| MASK_RL) (MASK_AMOXOR_W .| MASK_AQRL) (Some MF_match_opcode) (INSN_DREF .| INSN_4_BYTE);
    mk_opcode "amomax.w.rl" 0 INSN_CLASS_A "d,t,0(s)" (MATCH_AMOMAX_W .| MASK_RL) (MASK_AMOMAX_W .| MASK_AQRL) (Some MF_match_opcode) (INSN_DREF .| INSN_4_BYTE);
    mk_opcode "amomaxu.w.rl" 0 INSN_CLASS_A "d,t,0(s)" (MATCH_AMOMAXU_W .| MASK_RL) (MASK_AMOMAXU_W .| MASK_AQRL) (Some MF_match_opcode) (INSN_DREF .| INSN_4_BYTE);
    mk_opcode "amomin.w.rl" 0 INSN_CLASS_A "d,t,0(s)" (MATCH_AMOMIN_W .| MASK_RL) (MASK_AMOMIN_W .| MASK_AQRL) (Some MF_match_opcode) (INSN_DREF .| INSN_4_BYTE);
    mk_opcode "amominu.w.rl" 0 INSN_CLASS_A "d,t,0(s)" (MATCH_AMOMINU_W .| MASK_RL) (MASK_AMOMINU_W .| MASK_AQRL) (Some MF_match_opcode) (INSN_DREF .| INSN_4_BYTE);
    mk_opcode "lr.w.aqrl" 0 INSN_CLASS_A "d,0(s)" (MATCH_LR_W .| MASK_AQRL) (MASK_LR_W .| MASK_AQRL) (Some MF_match_opcode) (INSN_DREF .| INSN_4_BYTE);
    mk_opcode "sc.w.aqrl" 0 INSN_CLASS_A "d,t,0(s)" (MATCH_SC_W .| MASK_AQRL) (MASK_SC_W .| MASK_AQRL) (Some MF_match_opcode) (INSN_DREF .| INSN_4_BYTE);
    mk_opcode "amoadd.w.aqrl" 0 INSN_CLASS_A "d,t,0(s)" (MATCH_AMOADD_W .| MASK_AQRL) (MASK_AMOADD_W .| MASK_AQRL) (Some MF_match_opcode) (INSN_DREF .| INSN_4_BYTE);
    mk_opcode "amoswap.w.aqrl" 0 INSN_CLASS_A "d,t,0(s)" (MATCH_AMOSWAP_W .| MASK_AQRL) (MASK_AMOSWAP_W .| MASK_AQRL) (Some MF_match_opcode) (INSN_DREF .| INSN_4_BYTE);
    mk_opcode "amoand.w.aqrl" 0 INSN_CLASS_A "d,t,0(s)" (MATCH_AMOAND_W .| MASK_AQRL) (MASK_AMOAND_W .| MASK_AQRL) (Some MF_match_opcode) (INSN_DREF .| INSN_4_BYTE);
    mk_opcode "amoor.w.aqrl" 0 INSN_CLASS_A "d,t,0(s)" (MATCH_AMOOR_W .| MASK_AQRL) (MASK_AMOOR_W .| MASK_AQRL) (Some MF_match_opcode) (INSN_DREF .| INSN_4_BYTE);
    mk_opcode "amoxor.w.aqrl" 0 INSN_CLASS_A "d,t,0(s)" (MATCH_AMOXOR_W .| MASK_AQRL) (MASK_AMOXOR_W .| MASK_AQRL) (Some MF_match_opcode) (INSN_DREF .| INSN_4_BYTE);
    mk_opcode "amomax.w.aqrl" 0 INSN_CLASS_A "d,t,0(s)" (MATCH_AMOMAX_W .| MASK_AQRL) (MASK_AMOMAX_W .| MASK_AQRL) (Some MF_match_opcode) (INSN_DREF .| INSN_4_BYTE);
    mk_opcode "amomaxu.w.aqrl" 0 INSN_CLASS_A "d,t,0(s)" (MATCH_AMOMAXU_W .| MASK_AQRL) (MASK_AMOMAXU_W .| MASK_AQRL) (Some MF_match_opcode) (INSN_DREF .| INSN_4_BYTE);
    mk_opcode "amomin.w.aqrl" 0 INSN_CLASS_A "d,t,0(s)" (MATCH_AMOMIN_W .| MASK_AQRL) (MASK_AMOMIN_W .| MASK_AQRL) (Some MF_match_opcode) (INSN_DREF .| INSN_4_BYTE);
    mk_opcode "amominu.w.aqrl" 0 INSN_CLASS_A "d,t,0(s)" (MATCH_AMOMINU_W .| MASK_AQRL) (MASK_AMOMINU_W .| MASK_AQRL) (Some MF_match_opcode) (INSN_DREF .| INSN_4_BYTE);
    mk_opcode "lr.d" 64 INSN_CLASS_A "d,0(s)" MATCH_LR_D (MASK_LR_D .| MASK_AQRL) (Some MF_match_opcode) (INSN_DREF .| INSN_8_BYTE);
    mk_opcode "sc.d" 64 INSN_CLASS_A "d,t,0(s)" MATCH_SC_D (MASK_SC_D .| MASK_AQRL) (Some MF_match_opcode) (INSN_DREF .| INSN_8_BYTE);
    mk_opcode "amoadd.d" 64 INSN_CLASS_A "d,t,0(s)" MATCH_AMOADD_D (MASK_AMOADD_D .| MASK_AQRL) (Some MF_match_opcode) (INSN_DREF .| INSN_8_BYTE);
    mk_opcode "amoswap.d" 64 INSN_CLASS_A "d,t,0(s)" MATCH_AMOSWAP_D (MASK_AMOSWAP_D .| MASK_AQRL) (Some MF_match_opcode) (INSN_DREF .| INSN_8_BYTE);
    mk_opcode "amoand.d" 64 INSN_CLASS_A "d,t,0(s)" MATCH_AMOAND_D (MASK_AMOAND_D .| MASK_AQRL) (Some MF_match_opcode) (INSN_DREF .| INSN_8_BYTE);
    mk_opcode "amoor.d" 64 INSN_CLASS_A "d,t,0(s)" MATCH_AMOOR_D (MASK_AMOOR_D .| MASK_AQRL) (Some MF_match_opcode) (INSN_DREF .| INSN_8_BYTE);
    mk_opcode "amoxor.d" 64 INSN_CLASS_A "d,t,0(s)" MATCH_AMOXOR_D (MASK_AMOXOR_D .| MASK_AQRL) (Some MF_match_opcode) (INSN_DREF .| INSN_8_BYTE);
    mk_opcode "amomax.d" 64 INSN_CLASS_A "d,t,0(s)" MATCH_AMOMAX_D (MASK_AMOMAX_D .| MASK_AQRL) (Some MF_match_opcode) (INSN_DREF .| INSN_8_BYTE);
    mk_opcode "amomaxu.d" 64 INSN_CLASS_A "d,t,0(s)" MATCH_AMOMAXU_D (MASK_AMOMAXU_D .| MASK_AQRL) (Some MF_match_opcode) (INSN_DREF .| INSN_8_BYTE);
    mk_opcode "amomin.d" 64 INSN_CLASS_A "d,t,0(s)" MATCH_AMOMIN_D (MASK_AMOMIN_D .| MASK_AQRL) (Some MF_match_opcode) (INSN_DREF .| INSN_8_BYTE);
    mk_opcode "amominu.d" 64 INSN_CLASS_A "d,t,0(s)" MATCH_AMOMINU_D (MASK_AMOMINU_D .| MASK_AQRL) (Some MF_match_opcode) (INSN_DREF .| INSN_8_BYTE);
    mk_opcode "lr.d.aq" 64 INSN_CLASS_A "d,0(s)" (MATCH_LR_D .| MASK_AQ) (MASK_LR_D .| MASK_AQRL) (Some MF_match_opcode) (INSN_DREF .| INSN_8_BYTE);
    mk_opcode "sc.d.aq" 64 INSN_CLASS_A "d,t,0(s)" (MATCH_SC_D .| MASK_AQ) (MASK_SC_D .| MASK_AQRL) (Some MF_match_opcode) (INSN_DREF .| INSN_8_BYTE) ].

(** Lines 631-770. *)
Definition riscv_opcodes_3 : list riscv_opcode :=
  [ mk_opcode "amoadd.d.aq" 64 INSN_CLASS_A "d,t,0(s)" (MATCH_AMOADD_D .| MASK_AQ) (MASK_AMOADD_D .| MASK_AQRL) (Some MF_match_opcode) (INSN_DREF .| INSN_8_BYTE);
    mk_opcode "amoswap.d.aq" 64 INSN_CLASS_A "d,t,0(s)" (MATCH_AMOSWAP_D .| MASK_AQ) (MASK_AMOSWAP_D .| MASK_AQRL) (Some MF_match_opcode) (INSN_DREF .| INSN_8_BYTE);
    mk_opcode "amoand.d.aq" 64 INSN_CLASS_A "d,t,0(s)" (MATCH_AMOAND_D .| MASK_AQ) (MASK_AMOAND_D .| MASK_AQRL) (Some MF_match_opcode) (INSN_DREF .| INSN_8_BYTE);
    mk_opcode "amoor.d.aq" 64 INSN_CLASS_A "d,t,0(s)" (MATCH_AMOOR_D .| MASK_AQ) (MASK_AMOOR_D .| MASK_AQRL) (Some MF_match_opcode) (INSN_DREF .| INSN_8_BYTE);
    mk_opcode "amoxor.d.aq" 64 INSN_CLASS_A "d,t,0(s)" (MATCH_AMOXOR_D .| MASK_AQ) (MASK_AMOXOR_D .| MASK_AQRL) (Some MF_match_opcode) (INSN_DREF .| INSN_8_BYTE);
    mk_opcode "amomax.d.aq" 64 INSN_CLASS_A "d,t,0(s)" (MATCH_AMOMAX_D .| MASK_AQ) (MASK_AMOMAX_D .| MASK_AQRL) (Some MF_match_opcode) (INSN_DREF .| INSN_8_BYTE);
    mk_opcode "amomaxu.d.aq" 64 INSN_CLASS_A "d,t,0(s)" (MATCH_AMOMAXU_D .| MASK_AQ) (MASK_AMOMAXU_D .| MASK_AQRL) (Some MF_match_opcode) (INSN_DREF .| INSN_8_BYTE);
    mk_opcode "amomin.d.aq" 64 INSN_CLASS_A "d,t,0(s)" (MATCH_AMOMIN_D .| MASK_AQ) (MASK_AMOMIN_D .| MASK_AQRL) (Some MF_match_opcode) (INSN_DREF .| INSN_8_BYTE);
    mk_opcode "amominu.d.aq" 64 INSN_CLASS_A "d,t,0(s)" (MATCH_AMOMINU_D .| MASK_AQ) (MASK_AMOMINU_D .| MASK_AQRL) (Some MF_match_opcode) (INSN_DREF .| INSN_8_BYTE);
    mk_opcode "lr.d.rl" 64 INSN_CLASS_A "d,0(s)" (MATCH_LR_D .| MASK_RL) (MASK_LR_D .| MASK_AQRL) (Some MF_match_opcode) (INSN_DREF .| INSN_8_BYTE);
    mk_opcode "sc.d.rl" 64 INSN_CLASS_A "d,t,0(s)" (MATCH_SC_D .| MASK_RL) (MASK_SC_D .| MASK_AQRL) (Some MF_match_opcode) (INSN_DREF .| INSN_8_BYTE);
    mk_opcode "amoadd.d.rl" 64 INSN_CLASS_A "d,t,0(s)" (MATCH_AMOADD_D .| MASK_RL) (MASK_AMOADD_D .| MASK_AQRL) (Some MF_match_opcode) (INSN_DREF .| INSN_8_BYTE);
    mk_opcode "amoswap.d.rl" 64 INSN_CLASS_A "d,t,0(s)" (MATCH_AMOSWAP_D .| MASK_RL) (MASK_AMOSWAP_D .| MASK_AQRL) (Some MF_match_opcode) (INSN_DREF .| INSN_8_BYTE);
    mk_opcode "amoand.d.rl" 64 INSN_CLASS_A "d,t,0(s)" (MATCH_AMOAND_D .| MASK_RL) (MASK_AMOAND_D .| MASK_AQRL) (Some MF_match_opcode) (INSN_DREF .| INSN_8_BYTE);
    mk_opcode "amoor.d.rl" 64 INSN_CLASS_A "d,t,0(s)" (MATCH_AMOOR_D .| MASK_RL) (MASK_AMOOR_D .| MASK_AQRL) (Some MF_match_opcode) (INSN_DREF .| INSN_8_BYTE);
    mk_opcode "amoxor.d.rl" 64 INSN_CLASS_A "d,t,0(s)" (MATCH_AMOXOR_D .| MASK_RL) (MASK_AMOXOR_D .| MASK_AQRL) (Some MF_match_opcode) (INSN_DREF .| INSN_8_BYTE);
    mk_opcode "amomax.d.rl" 64 INSN_CLASS_A "d,t,0(s)" (MATCH_AMOMAX_D .| MASK_RL) (MASK_AMOMAX_D .| MASK_AQRL) (Some MF_match_opcode) (INSN_DREF .| INSN_8_BYTE);
    mk_opcode "amomaxu.d.rl" 64 INSN_CLASS_A "d,t,0(s)" (MATCH_AMOMAXU_D .| MASK_RL) (MASK_AMOMAXU_D .| MASK_AQRL) (Some MF_match_opcode) (INSN_DREF .| INSN_8_BYTE);
    mk_opcode "amomin.d.rl" 64 INSN_CLASS_A "d,t,0(s)" (MATCH_AMOMIN_D .| MASK_RL) (MASK_AMOMIN_D .| MASK_AQRL) (Some MF_match_opcode) (INSN_DREF .| INSN_8_BYTE);
    mk_opcode "amominu.d.rl" 64 INSN_CLASS_A "d,t,0(s)" (MATCH_AMOMINU_D .| MASK_RL) (MASK_AMOMINU_D .| MASK_AQRL) (Some MF_match_opcode) (INSN_DREF .| INSN_8_BYTE);
    mk_opcode "lr.d.aqrl" 64 INSN_CLASS_A "d,0(s)" (MATCH_LR_D .| MASK_AQRL) (MASK_LR_D .| MASK_AQRL) (Some MF_match_opcode) (INSN_DREF .| INSN_8_BYTE);
    mk_opcode "sc.d.aqrl" 64 INSN_CLASS_A "d,t,0(s)" (MATCH_SC_D .| MASK_AQRL) (MASK_SC_D .| MASK_AQRL) (Some MF_match_opcode) (INSN_DREF .| INSN_8_BYTE);
    mk_opcode "amoadd.d.aqrl" 64 INSN_CLASS_A "d,t,0(s)" (MATCH_AMOADD_D .| MASK_AQRL) (MASK_AMOADD_D .| MASK_AQRL) (Some MF_match_opcode) (INSN_DREF .| INSN_8_BYTE);
    mk_opcode "amoswap.d.aqrl" 64 INSN_CLASS_A "d,t,0(s)" (MATCH_AMOSWAP_D .| MASK_AQRL) (MASK_AMOSWAP_D .| MASK_AQRL) (Some MF_match_opcode) (INSN_DREF .| INSN_8_BYTE);
    mk_opcode "amoand.d.aqrl" 64 INSN_CLASS_A "d,t,0(s)" (MATCH_AMOAND_D .| MASK_AQRL) (MASK_AMOAND_D .| MASK_AQRL) (Some MF_match_opcode) (INSN_DREF .| INSN_8_BYTE);
    mk_opcode "amoor.d.aqrl" 64 INSN_CLASS_A "d,t,0(s)" (MATCH_AMOOR_D .| MASK_AQRL) (MASK_AMOOR_D .| MASK_AQRL) (Some MF_match_opcode) (INSN_DREF .| INSN_8_BYTE);
    mk_opcode "amoxor.d.aqrl" 64 INSN_CLASS_A "d,t,0(s)" (MATCH_AMOXOR_D .| MASK_AQRL) (MASK_AMOXOR_D .| MASK_AQRL) (Some MF_match_opcode) (INSN_DREF .| INSN_8_BYTE);
    mk_opcode "amomax.d.aqrl" 64 INSN_CLASS_A "d,t,0(s)" (MATCH_AMOMAX_D .| MASK_AQRL) (MASK_AMOMAX_D .| MASK_AQRL) (Some MF_match_opcode) (INSN_DREF .| INSN_8_BYTE);
    mk_opcode "amomaxu.d.aqrl" 64 INSN_CLASS_A "d,t,0(s)" (MATCH_AMOMAXU_D .| MASK_AQRL) (MASK_AMOMAXU_D .| MASK_AQRL) (Some MF_match_opcode) (INSN_DREF .| INSN_8_BYTE);
    mk_opcode "amomin.d.aqrl" 64 INSN_CLASS_A "d,t,0(s)" (MATCH_AMOMIN_D .| MASK_AQRL) (MASK_AMOMIN_D .| MASK_AQRL) (Some MF_match_opcode) (INSN_DREF .| INSN_8_BYTE);
    mk_opcode "amominu.d.aqrl" 64 INSN_CLASS_A "d,t,0(s)" (MATCH_AMOMINU_D .| MASK_AQRL) (MASK_AMOMINU_D .| MASK_AQRL) (Some MF_match_opcode) (INSN_DREF .| INSN_8_BYTE);
    mk_opcode "mul" 0 INSN_CLASS_ZCB_AND_ZMMUL "Cs,Cw,Ct" MATCH_C_MUL MASK_C_MUL (Some MF_match_opcode) INSN_ALIAS;
    mk_opcode "mul" 0 INSN_CLASS_ZMMUL "d,s,t" MATCH_MUL MASK_MUL (Some MF_match_opcode) 0;
    mk_opcode "mulh" 0 INSN_CLASS_ZMMUL "d,s,t" MATCH_MULH MASK_MULH (Some MF_match_opcode) 0;
    mk_opcode "mulhu" 0 INSN_CLASS_ZMMUL "d,s,t" MATCH_MULHU MASK_MULHU (Some MF_match_opcode) 0;
    mk_opcode "mulhsu" 0 INSN_CLASS_ZMMUL "d,s,t" MATCH_MULHSU MASK_MULHSU (Some MF_match_opcode) 0;
    mk_opcode "div" 0 INSN_CLASS_M "d,s,t" MATCH_DIV MASK_DIV (Some MF_match_opcode) 0;
    mk_opcode "divu" 0 INSN_CLASS_M "d,s,t" MATCH_DIVU MASK_DIVU (Some MF_match_opcode) 0;
    mk_opcode "rem" 0 INSN_CLASS_M "d,s,t" MATCH_REM MASK_REM (Some MF_match_opcode) 0;
    mk_opcode "remu" 0 INSN_CLASS_M "d,s,t" MATCH_REMU MASK_REMU (Some MF_match_opcode) 0;
    mk_opcode "mulw" 64 INSN_CLASS_ZMMUL "d,s,t" MATCH_MULW MASK_MULW (Some MF_match_opcode) 0;
    mk_opcode "divw" 64 INSN_CLASS_M "d,s,t" MATCH_DIVW MASK_DIVW (Some MF_match_opcode) 0;
    mk_opcode "divuw" 64 INSN_CLASS_M "d,s,t" MATCH_DIVUW MASK_DIVUW (Some MF_match_opcode) 0;
    mk_opcode "remw" 64 INSN_CLASS_M "d,s,t" MATCH_REMW MASK_REMW (Some MF_match_opcode) 0;
    mk_opcode "remuw" 64 INSN_CLASS_M "d,s,t" MATCH_REMUW MASK_REMUW (Some MF_match_opcode) 0;
    mk_opcode "flh" 0 INSN_CLASS_ZFHMIN "D,o(s)" MATCH_FLH MASK_FLH (Some MF_match_opcode) (INSN_DREF .| INSN_2_BYTE);
    mk_opcode "flh" 0 INSN_CLASS_ZFHMIN "D,A,s" 0 M_FLx (Some MF_match_rs1_nonzero) INSN_MACRO;
    mk_opcode "fsh" 0 INSN_CLASS_ZFHMIN "T,q(s)" MATCH_FSH MASK_FSH (Some MF_match_opcode) (INSN_DREF .| INSN_2_BYTE);
    mk_opcode "fsh" 0 INSN_CLASS_ZFHMIN "T,A,s" 0 M_Sx_FSx (Some MF_match_rs1_nonzero) INSN_MACRO;
    mk_opcode "fmv.x.h" 0 INSN_CLASS_ZFHMIN "d,S" MATCH_FMV_X_H MASK_FMV_X_H (Some MF_match_opcode) 0;
    mk_opcode "fmv.h.x" 0 INSN_CLASS_ZFHMIN "D,s" MATCH_FMV_H_X MASK_FMV_H_X (Some MF_match_opcode) 0;
    mk_opcode "fmv.h" 0 INSN_CLASS_ZFH_INX "D,U" MATCH_FSGNJ_H MASK_FSGNJ_H (Some MF_match_rs1_eq_rs2) INSN_ALIAS;
    mk_opcode "fneg.h" 0 INSN_CLASS_ZFH_INX "D,U" MATCH_FSGNJN_H MASK_FSGNJN_H (Some MF_match_rs1_eq_rs2) INSN_ALIAS;
    mk_opcode "fabs.h" 0 INSN_CLASS_ZFH_INX "D,U" MATCH_FSGNJX_H MASK_FSGNJX_H (Some MF_match_rs1_eq_rs2) INSN_ALIAS;
    mk_opcode "fsgnj.h" 0 INSN_CLASS_ZFH_INX "D,S,T" MATCH_FSGNJ_H MASK_FSGNJ_H (Some MF_match_opcode) 0;
    mk_opcode "fsgnjn.h" 0 INSN_CLASS_ZFH_INX "D,S,T" MATCH_FSGNJN_H MASK_FSGNJN_H (Some MF_match_opcode) 0;
    mk_opcode "fsgnjx.h" 0 INSN_CLASS_ZFH_INX "D,S,T" MATCH_FSGNJX_H MASK_FSGNJX_H (Some MF_match_opcode) 0;
    mk_opcode "fadd.h" 0 INSN_CLASS_ZFH_INX "D,S,T" (MATCH_FADD_H .| MASK_RM) (MASK_FADD_H .| MASK_RM) (Some MF_match_opcode) 0;
    mk_opcode "fadd.h" 0 INSN_CLASS_ZFH_INX "D,S,T,m" MATCH_FADD_H MASK_FADD_H (Some MF_match_opcode) 0;
    mk_opcode "fsub.h" 0 INSN_CLASS_ZFH_INX "D,S,T" (MATCH_FSUB_H .| MASK_RM) (MASK_FSUB_H .| MASK_RM) (Some MF_match_opcode) 0;
    mk_opcode "fsub.h" 0 INSN_CLASS_ZFH_INX "D,S,T,m" MATCH_FSUB_H MASK_FSUB_H (Some MF_match_opcode) 0;
    mk_opcode "fmul.h" 0 INSN_CLASS_ZFH_INX "D,S,T" (MATCH_FMUL_H .| MASK_RM) (MASK_FMUL_H .| MASK_RM) (Some MF_match_opcode) 0;
    mk_opcode "fmul.h" 0 INSN_CLASS_ZFH_INX "D,S,T,m" MATCH_FMUL_H MASK_FMUL_H (Some MF_match_opcode) 0;
    mk_opcode "fdiv.h" 0 INSN_CLASS_ZFH_INX "D,S,T" (MATCH_FDIV_H .| MASK_RM) (MASK_FDIV_H .| MASK_RM) (Some MF_match_opcode) 0;
    mk_opcode "fdiv.h" 0 INSN_CLASS_ZFH_INX "D,S,T,m" MATCH_FDIV_H MASK_FDIV_H (Some MF_match_opcode) 0;
    mk_opcode "fsqrt.h" 0 INSN_CLASS_ZFH_INX "D,S" (MATCH_FSQRT_H .| MASK_RM) (MASK_FSQRT_H .| MASK_RM) (Some MF_match_opcode) 0;
    mk_opcode "fsqrt.h" 0 INSN_CLASS_ZFH_INX "D,S,m" MATCH_FSQRT_H MASK_FSQRT_H (Some MF_match_opcode) 0;
    mk_opcode "fmin.h" 0 INSN_CLASS_ZFH_INX "D,S,T" MATCH_FMIN_H MASK_FMIN_H (Some MF_match_opcode) 0;
    mk_opcode "fmax.h" 0 INSN_CLASS_ZFH_INX "D,S,T" MATCH_FMAX_H MASK_FMAX_H (Some MF_match_opcode) 0;
    mk_opcode "fmadd.h" 0 INSN_CLASS_ZFH_INX "D,S,T,R" (MATCH_FMADD_H .| MASK_RM) (MASK_FMADD_H .| MASK_RM) (Some MF_match_opcode) 0;
    mk_opcode "fmadd.h" 0 INSN_CLASS_ZFH_INX "D,S,T,R,m" MATCH_FMADD_H MASK_FMADD_H (Some MF_match_opcode) 0;
    mk_opcode "fnmadd.h" 0 INSN_CLASS_ZFH_INX "D,S,T,R" (MATCH_FNMADD_H .| MASK_RM) (MASK_FNMADD_H .| MASK_RM) (Some MF_match_opcode) 0;
    mk_opcode "fnmadd.h" 0 INSN_CLASS_ZFH_INX "D,S,T,R,m" MATCH_FNMADD_H MASK_FNMADD_H (Some MF_match_opcode) 0;
    mk_opcode "fmsub.h" 0 INSN_CLASS_ZFH_INX "D,S,T,R" (MATCH_FMSUB_H .| MASK_RM) (MASK_FMSUB_H .| MASK_RM) (Some MF_match_opcode) 0;
    mk_opcode "fmsub.h" 0 INSN_CLASS_ZFH_INX "D,S,T,R,m" MATCH_FMSUB_H MASK_FMSUB_H (Some MF_match_opcode) 0;
    mk_opcode "fnmsub.h" 0 INSN_CLASS_ZFH_INX "D,S,T,R" (MATCH_FNMSUB_H .| MASK_RM) (MASK_FNMSUB_H .| MASK_RM) (Some MF_match_opcode) 0;
    mk_opcode "fnmsub.h" 0 INSN_CLASS_ZFH_INX "D,S,T,R,m" MATCH_FNMSUB_H MASK_FNMSUB_H (Some MF_match_opcode) 0;
    mk_opcode "fcvt.w.h" 0 INSN_CLASS_ZFH_INX "d,S" (MATCH_FCVT_W_H .| MASK_RM) (MASK_FCVT_W_H .| MASK_RM) (Some MF_match_opcode) 0;
    mk_opcode "fcvt.w.h" 0 INSN_CLASS_ZFH_INX "d,S,m" MATCH_FCVT_W_H MASK_FCVT_W_H (Some MF_match_opcode) 0;
    mk_opcode "fcvt.wu.h" 0 INSN_CLASS_ZFH_INX "d,S" (MATCH_FCVT_WU_H .| MASK_RM) (MASK_FCVT_WU_H .| MASK_RM) (Some MF_match_opcode) 0;
    mk_opcode "fcvt.wu.h" 0 INSN_CLASS_ZFH_INX "d,S,m" MATCH_FCVT_WU_H MASK_FCVT_WU_H (Some MF_match_opcode) 0;
    mk_opcode "fcvt.h.w" 0 INSN_CLASS_ZFH_INX "D,s" (MATCH_FCVT_H_W .| MASK_RM) (MASK_FCVT_H_W .| MASK_RM) (Some MF_match_opcode) 0;
    mk_opcode "fcvt.h.w" 0 INSN_CLASS_ZFH_INX "D,s,m" MATCH_FCVT_H_W MASK_FCVT_H_W (Some MF_match_opcode) 0;
    mk_opcode "fcvt.h.wu" 0 INSN_CLASS_ZFH_INX "D,s" (MATCH_FCVT_H_WU .| MASK_RM) (MASK_FCVT_H_WU .| MASK_RM) (Some MF_match_opcode) 0;
    mk_opcode "fcvt.h.wu" 0 INSN_CLASS_ZFH_INX "D,s,m" MATCH_FCVT_H_WU MASK_FCVT_H_WU (Some MF_match_opcode) 0;
    mk_opcode "fcvt.s.h" 0 INSN_CLASS_ZFHMIN_INX "D,S" MATCH_FCVT_S_H (MASK_FCVT_S_H .| MASK_RM) (Some MF_match_opcode) 0;
    mk_opcode "fcvt.d.h" 0 INSN_CLASS_ZFHMIN_AND_D_INX "D,S" MATCH_FCVT_D_H (MASK_FCVT_D_H .| MASK_RM) (Some MF_match_opcode) 0;
    mk_opcode "fcvt.q.h" 0 INSN_CLASS_ZFHMIN_AND_Q_INX "D,S" MATCH_FCVT_Q_H (MASK_FCVT_Q_H .| MASK_RM) (Some MF_match_opcode) 0;
    mk_opcode "fcvt.h.s" 0 INSN_CLASS_ZFHMIN_INX "D,S" (MATCH_FCVT_H_S .| MASK_RM) (MASK_FCVT_H_S .| MASK_RM) (Some MF_match_opcode) 0;
    mk_opcode "fcvt.h.s" 0 INSN_CLASS_ZFHMIN_INX "D,S,m" MATCH_FCVT_H_S MASK_FCVT_H_S (Some MF_match_opcode) 0;
    mk_opcode "fcvt.h.d" 0 INSN_CLASS_ZFHMIN_AND_D_INX "D,S" (MATCH_FCVT_H_D .| MASK_RM) (MASK_FCVT_H_D .| MASK_RM) (Some MF_match_opcode) 0;
    mk_opcode "fcvt.h.d" 0 INSN_CLASS_ZFHMIN_AND_D_INX "D,S,m" MATCH_FCVT_H_D MASK_FCVT_H_D (Some MF_match_opcode) 0;
    mk_opcode "fcvt.h.q" 0 INSN_CLASS_ZFHMIN_AND_Q_INX "D,S" (MATCH_FCVT_H_Q .| MASK_RM) (MASK_FCVT_H_Q .| MASK_RM) (Some MF_match_opcode) 0;
    mk_opcode "fcvt.h.q" 0 INSN_CLASS_ZFHMIN_AND_Q_INX "D,S,m" MATCH_FCVT_H_Q MASK_FCVT_H_Q (Some MF_match_opcode) 0;
    mk_opcode "fclass.h" 0 INSN_CLASS_ZFH_INX "d,S" MATCH_FCLASS_H MASK_FCLASS_H (Some MF_match_opcode) 0;
    mk_opcode "feq.h" 0 INSN_CLASS_ZFH_INX "d,S,T" MATCH_FEQ_H MASK_FEQ_H (Some MF_match_opcode) 0;
    mk_opcode "flt.h" 0 INSN_CLASS_ZFH_INX "d,S,T" MATCH_FLT_H MASK_FLT_H (Some MF_match_opcode) 0;
    mk_opcode "fle.h" 0 INSN_CLASS_ZFH_INX "d,S,T" MATCH_FLE_H MASK_FLE_H (Some MF_match_opcode) 0;
    mk_opcode "fgt.h" 0 INSN_CLASS_ZFH_INX "d,T,S" MATCH_FLT_H MASK_FLT_H (Some MF_match_opcode) 0;
    mk_opcode "fge.h" 0 INSN_CLASS_ZFH_INX "d,T,S" MATCH_FLE_H MASK_FLE_H (Some MF_match_opcode) 0;
    mk_opcode "fcvt.l.h" 64 INSN_CLASS_ZFH_INX "d,S" (MATCH_FCVT_L_H .| MASK_RM) (MASK_FCVT_L_H .| MASK_RM) (Some MF_match_opcode) 0;
    mk_opcode "fcvt.l.h" 64 INSN_CLASS_ZFH_INX "d,S,m" MATCH_FCVT_L_H MASK_FCVT_L_H (Some MF_match_opcode) 0;
    mk_opcode "fcvt.lu.h" 64 INSN_CLASS_ZFH_INX "d,S" (MATCH_FCVT_LU_H .| MASK_RM) (MASK_FCVT_LU_H .| MASK_RM) (Some MF_match_opcode) 0;
    mk_opcode "fcvt.lu.h" 64 INSN_CLASS_ZFH_INX "d,S,m" MATCH_FCVT_LU_H MASK_FCVT_LU_H (Some MF_match_opcode) 0;
    mk_opcode "fcvt.h.l" 64 INSN_CLASS_ZFH_INX "D,s" (MATCH_FCVT_H_L .| MASK_RM) (MASK_FCVT_H_L .| MASK_RM) (Some MF_match_opcode) 0;
    mk_opcode "fcvt.h.l" 64 INSN_CLASS_ZFH_INX "D,s,m" MATCH_FCVT_H_L MASK_FCVT_H_L (Some MF_match_opcode) 0;
    mk_opcode "fcvt.h.lu" 64 INSN_CLASS_ZFH_INX "D,s" (MATCH_FCVT_H_LU .| MASK_RM) (MASK_FCVT_H_LU .| MASK_RM) (Some MF_match_opcode) 0;
    mk_opcode "fcvt.h.lu" 64 INSN_CLASS_ZFH_INX "D,s,m" MATCH_FCVT_H_LU MASK_FCVT_H_LU (Some MF_match_opcode) 0;
    mk_opcode "frcsr" 0 INSN_CLASS_F_INX "d" MATCH_FRCSR MASK_FRCSR (Some MF_match_opcode) INSN_ALIAS;
    mk_opcode "frsr" 0 INSN_CLASS_F_INX "d" MATCH_FRCSR MASK_FRCSR (Some MF_match_opcode) INSN_ALIAS;
    mk_opcode "fscsr" 0 INSN_CLASS_F_INX "s" MATCH_FSCSR (MASK_FSCSR .| MASK_RD) (Some MF_match_opcode) INSN_ALIAS;
    mk_opcode "fscsr" 0 INSN_CLASS_F_INX "d,s" MATCH_FSCSR MASK_FSCSR (Some MF_match_opcode) INSN_ALIAS;
    mk_opcode "fssr" 0 INSN_CLASS_F_INX "s" MATCH_FSCSR (MASK_FSCSR .| MASK_RD) (Some MF_match_opcode) INSN_ALIAS;
    mk_opcode "fssr" 0 INSN_CLASS_F_INX "d,s" MATCH_FSCSR MASK_FSCSR (Some MF_match_opcode) INSN_ALIAS;
    mk_opcode "frrm" 0 INSN_CLASS_F_INX "d" MATCH_FRRM MASK_FRRM (Some MF_match_opcode) INSN_ALIAS;
    mk_opcode "fsrm" 0 INSN_CLASS_F_INX "s" MATCH_FSRM (MASK_FSRM .| MASK_RD) (Some MF_match_opcode) INSN_ALIAS;
    mk_opcode "fsrm" 0 INSN_CLASS_F_INX "d,s" MATCH_FSRM MASK_FSRM (Some MF_match_opcode) INSN_ALIAS;
    mk_opcode "fsrmi" 0 INSN_CLASS_F_INX "d,Z" MATCH_FSRMI MASK_FSRMI (Some MF_match_opcode) INSN_ALIAS;
    mk_opcode "fsrmi" 0 INSN_CLASS_F_INX "Z" MATCH_FSRMI (MASK_FSRMI .| MASK_RD) (Some MF_match_opcode) INSN_ALIAS;
    mk_opcode "frflags" 0 INSN_CLASS_F_INX "d" MATCH_FRFLAGS MASK_FRFLAGS (Some MF_match_opcode) INSN_ALIAS;
    mk_opcode "fsflags" 0 INSN_CLASS_F_INX "s" MATCH_FSFLAGS (MASK_FSFLAGS .| MASK_RD) (Some MF_match_opcode) INSN_ALIAS;
    mk_opcode "fsflags" 0 INSN_CLASS_F_INX "d,s" MATCH_FSFLAGS MASK_FSFLAGS (Some MF_match_opcode) INSN_ALIAS;
    mk_opcode "fsflagsi" 0 INSN_CLASS_F_INX "d,Z" MATCH_FSFLAGSI MASK_FSFLAGSI (Some MF_match_opcode) INSN_ALIAS;
    mk_opcode "fsflagsi" 0 INSN_CLASS_F_INX "Z" MATCH_FSFLAGSI (MASK_FSFLAGSI .| MASK_RD) (Some MF_match_opcode) INSN_ALIAS;
    mk_opcode "flw" 32 INSN_CLASS_F_AND_C "D,Cm(Cc)" MATCH_C_FLWSP MASK_C_FLWSP (Some MF_match_opcode) (INSN_ALIAS .| INSN_DREF .| INSN_4_BYTE);
    mk_opcode "flw" 32 INSN_CLASS_F_AND_C "CD,Ck(Cs)" MATCH_C_FLW MASK_C_FLW (Some MF_match_opcode) (INSN_ALIAS .| INSN_DREF .| INSN_4_BYTE);
    mk_opcode "flw" 0 INSN_CLASS_F "D,o(s)" MATCH_FLW MASK_FLW (Some MF_match_opcode) (INSN_DREF .| INSN_4_BYTE);
    mk_opcode "flw" 0 INSN_CLASS_F "D,A,s" 0 M_FLx (Some MF_match_rs1_nonzero) INSN_MACRO;
    mk_opcode "fsw" 32 INSN_CLASS_F_AND_C "CT,CM(Cc)" MATCH_C_FSWSP MASK_C_FSWSP (Some MF_match_opcode) (INSN_ALIAS .| INSN_DREF .| INSN_4_BYTE);
    mk_opcode "fsw" 32 INSN_CLASS_F_AND_C "CD,Ck(Cs)" MATCH_C_FSW MASK_C_FSW (Some MF_match_opcode) (INSN_ALIAS .| INSN_DREF .| INSN_4_BYTE);
    mk_opcode "fsw" 0 INSN_CLASS_F "T,q(s)" MATCH_FSW MASK_FSW (Some MF_match_opcode) (INSN_DREF .| INSN_4_BYTE);
    mk_opcode "fsw" 0 INSN_CLASS_F "T,A,s" 0 M_Sx_FSx (Some MF_match_rs1_nonzero) INSN_MACRO;
    mk_opcode "fmv.x.w" 0 INSN_CLASS_F "d,S" MATCH_FMV_X_S MASK_FMV_X_S (Some MF_match_opcode) 0;
    mk_opcode "fmv.w.x" 0 INSN_CLASS_F "D,s" MATCH_FMV_S_X MASK_FMV_S_X (Some MF_match_opcode) 0 ].

(** Lines 771-910. *)
Definition riscv_opcodes_4 : list riscv_opcode :=
  [ mk_opcode "fmv.x.s" 0 INSN_CLASS_F "d,S" MATCH_FMV_X_S MASK_FMV_X_S (Some MF_match_opcode) 0;
    mk_opcode "fmv.s.x" 0 INSN_CLASS_F "D,s" MATCH_FMV_S_X MASK_FMV_S_X (Some MF_match_opcode) 0;
    mk_opcode "fmv.s" 0 INSN_CLASS_F_INX "D,U" MATCH_FSGNJ_S MASK_FSGNJ_S (Some MF_match_rs1_eq_rs2) INSN_ALIAS;
    mk_opcode "fneg.s" 0 INSN_CLASS_F_INX "D,U" MATCH_FSGNJN_S MASK_FSGNJN_S (Some MF_match_rs1_eq_rs2) INSN_ALIAS;
    mk_opcode "fabs.s" 0 INSN_CLASS_F_INX "D,U" MATCH_FSGNJX_S MASK_FSGNJX_S (Some MF_match_rs1_eq_rs2) INSN_ALIAS;
    mk_opcode "fsgnj.s" 0 INSN_CLASS_F_INX "D,S,T" MATCH_FSGNJ_S MASK_FSGNJ_S (Some MF_match_opcode) 0;
    mk_opcode "fsgnjn.s" 0 INSN_CLASS_F_INX "D,S,T" MATCH_FSGNJN_S MASK_FSGNJN_S (Some MF_match_opcode) 0;
    mk_opcode "fsgnjx.s" 0 INSN_CLASS_F_INX "D,S,T" MATCH_FSGNJX_S MASK_FSGNJX_S (Some MF_match_opcode) 0;
    mk_opcode "fadd.s" 0 INSN_CLASS_F_INX "D,S,T" (MATCH_FADD_S .| MASK_RM) (MASK_FADD_S .| MASK_RM) (Some MF_match_opcode) 0;
    mk_opcode "fadd.s" 0 INSN_CLASS_F_INX "D,S,T,m" MATCH_FADD_S MASK_FADD_S (Some MF_match_opcode) 0;
    mk_opcode "fsub.s" 0 INSN_CLASS_F_INX "D,S,T" (MATCH_FSUB_S .| MASK_RM) (MASK_FSUB_S .| MASK_RM) (Some MF_match_opcode) 0;
    mk_opcode "fsub.s" 0 INSN_CLASS_F_INX "D,S,T,m" MATCH_FSUB_S MASK_FSUB_S (Some MF_match_opcode) 0;
    mk_opcode "fmul.s" 0 INSN_CLASS_F_INX "D,S,T" (MATCH_FMUL_S .| MASK_RM) (MASK_FMUL_S .| MASK_RM) (Some MF_match_opcode) 0;
    mk_opcode "fmul.s" 0 INSN_CLASS_F_INX "D,S,T,m" MATCH_FMUL_S MASK_FMUL_S (Some MF_match_opcode) 0;
    mk_opcode "fdiv.s" 0 INSN_CLASS_F_INX "D,S,T" (MATCH_FDIV_S .| MASK_RM) (MASK_FDIV_S .| MASK_RM) (Some MF_match_opcode) 0;
    mk_opcode "fdiv.s" 0 INSN_CLASS_F_INX "D,S,T,m" MATCH_FDIV_S MASK_FDIV_S (Some MF_match_opcode) 0;
    mk_opcode "fsqrt.s" 0 INSN_CLASS_F_INX "D,S" (MATCH_FSQRT_S .| MASK_RM) (MASK_FSQRT_S .| MASK_RM) (Some MF_match_opcode) 0;
    mk_opcode "fsqrt.s" 0 INSN_CLASS_F_INX "D,S,m" MATCH_FSQRT_S MASK_FSQRT_S (Some MF_match_opcode) 0;
    mk_opcode "fmin.s" 0 INSN_CLASS_F_INX "D,S,T" MATCH_FMIN_S MASK_FMIN_S (Some MF_match_opcode) 0;
    mk_opcode "fmax.s" 0 INSN_CLASS_F_INX "D,S,T" MATCH_FMAX_S MASK_FMAX_S (Some MF_match_opcode) 0;
    mk_opcode "fmadd.s" 0 INSN_CLASS_F_INX "D,S,T,R" (MATCH_FMADD_S .| MASK_RM) (MASK_FMADD_S .| MASK_RM) (Some MF_match_opcode) 0;
    mk_opcode "fmadd.s" 0 INSN_CLASS_F_INX "D,S,T,R,m" MATCH_FMADD_S MASK_FMADD_S (Some MF_match_opcode) 0;
    mk_opcode "fnmadd.s" 0 INSN_CLASS_F_INX "D,S,T,R" (MATCH_FNMADD_S .| MASK_RM) (MASK_FNMADD_S .| MASK_RM) (Some MF_match_opcode) 0;
    mk_opcode "fnmadd.s" 0 INSN_CLASS_F_INX "D,S,T,R,m" MATCH_FNMADD_S MASK_FNMADD_S (Some MF_match_opcode) 0;
    mk_opcode "fmsub.s" 0 INSN_CLASS_F_INX "D,S,T,R" (MATCH_FMSUB_S .| MASK_RM) (MASK_FMSUB_S .| MASK_RM) (Some MF_match_opcode) 0;
    mk_opcode "fmsub.s" 0 INSN_CLASS_F_INX "D,S,T,R,m" MATCH_FMSUB_S MASK_FMSUB_S (Some MF_match_opcode) 0;
    mk_opcode "fnmsub.s" 0 INSN_CLASS_F_INX "D,S,T,R" (MATCH_FNMSUB_S .| MASK_RM) (MASK_FNMSUB_S .| MASK_RM) (Some MF_match_opcode) 0;
    mk_opcode "fnmsub.s" 0 INSN_CLASS_F_INX "D,S,T,R,m" MATCH_FNMSUB_S MASK_FNMSUB_S (Some MF_match_opcode) 0;
    mk_opcode "fcvt.w.s" 0 INSN_CLASS_F_INX "d,S" (MATCH_FCVT_W_S .| MASK_RM) (MASK_FCVT_W_S .| MASK_RM) (Some MF_match_opcode) 0;
    mk_opcode "fcvt.w.s" 0 INSN_CLASS_F_INX "d,S,m" MATCH_FCVT_W_S MASK_FCVT_W_S (Some MF_match_opcode) 0;
    mk_opcode "fcvt.wu.s" 0 INSN_CLASS_F_INX "d,S" (MATCH_FCVT_WU_S .| MASK_RM) (MASK_FCVT_WU_S .| MASK_RM) (Some MF_match_opcode) 0;
    mk_opcode "fcvt.wu.s" 0 INSN_CLASS_F_INX "d,S,m" MATCH_FCVT_WU_S MASK_FCVT_WU_S (Some MF_match_opcode) 0;
    mk_opcode "fcvt.s.w" 0 INSN_CLASS_F_INX "D,s" (MATCH_FCVT_S_W .| MASK_RM) (MASK_FCVT_S_W .| MASK_RM) (Some MF_match_opcode) 0;
    mk_opcode "fcvt.s.w" 0 INSN_CLASS_F_INX "D,s,m" MATCH_FCVT_S_W MASK_FCVT_S_W (Some MF_match_opcode) 0;
    mk_opcode "fcvt.s.wu" 0 INSN_CLASS_F_INX "D,s" (MATCH_FCVT_S_WU .| MASK_RM) (MASK_FCVT_S_WU .| MASK_RM) (Some MF_match_opcode) 0;
    mk_opcode "fcvt.s.wu" 0 INSN_CLASS_F_INX "D,s,m" MATCH_FCVT_S_WU MASK_FCVT_S_WU (Some MF_match_opcode) 0;
    mk_opcode "fclass.s" 0 INSN_CLASS_F_INX "d,S" MATCH_FCLASS_S MASK_FCLASS_S (Some MF_match_opcode) 0;
    mk_opcode "feq.s" 0 INSN_CLASS_F_INX "d,S,T" MATCH_FEQ_S MASK_FEQ_S (Some MF_match_opcode) 0;
    mk_opcode "flt.s" 0 INSN_CLASS_F_INX "d,S,T" MATCH_FLT_S MASK_FLT_S (Some MF_match_opcode) 0;
    mk_opcode "fle.s" 0 INSN_CLASS_F_INX "d,S,T" MATCH_FLE_S MASK_FLE_S (Some MF_match_opcode) 0;
    mk_opcode "fgt.s" 0 INSN_CLASS_F_INX "d,T,S" MATCH_FLT_S MASK_FLT_S (Some MF_match_opcode) 0;
    mk_opcode "fge.s" 0 INSN_CLASS_F_INX "d,T,S" MATCH_FLE_S MASK_FLE_S (Some MF_match_opcode) 0;
    mk_opcode "fcvt.l.s" 64 INSN_CLASS_F_INX "d,S" (MATCH_FCVT_L_S .| MASK_RM) (MASK_FCVT_L_S .| MASK_RM) (Some MF_match_opcode) 0;
    mk_opcode "fcvt.l.s" 64 INSN_CLASS_F_INX "d,S,m" MATCH_FCVT_L_S MASK_FCVT_L_S (Some MF_match_opcode) 0;
    mk_opcode "fcvt.lu.s" 64 INSN_CLASS_F_INX "d,S" (MATCH_FCVT_LU_S .| MASK_RM) (MASK_FCVT_LU_S .| MASK_RM) (Some MF_match_opcode) 0;
    mk_opcode "fcvt.lu.s" 64 INSN_CLASS_F_INX "d,S,m" MATCH_FCVT_LU_S MASK_FCVT_LU_S (Some MF_match_opcode) 0;
    mk_opcode "fcvt.s.l" 64 INSN_CLASS_F_INX "D,s" (MATCH_FCVT_S_L .| MASK_RM) (MASK_FCVT_S_L .| MASK_RM) (Some MF_match_opcode) 0;
    mk_opcode "fcvt.s.l" 64 INSN_CLASS_F_INX "D,s,m" MATCH_FCVT_S_L MASK_FCVT_S_L (Some MF_match_opcode) 0;
    mk_opcode "fcvt.s.lu" 64 INSN_CLASS_F_INX "D,s" (MATCH_FCVT_S_LU .| MASK_RM) (MASK_FCVT_S_LU .| MASK_RM) (Some MF_match_opcode) 0;
    mk_opcode "fcvt.s.lu" 64 INSN_CLASS_F_INX "D,s,m" MATCH_FCVT_S_LU MASK_FCVT_S_LU (Some MF_match_opcode) 0;
    mk_opcode "fld" 0 INSN_CLASS_D_AND_C "D,Cn(Cc)" MATCH_C_FLDSP MASK_C_FLDSP (Some MF_match_opcode) (INSN_ALIAS .| INSN_DREF .| INSN_8_BYTE);
    mk_opcode "fld" 0 INSN_CLASS_D_AND_C "CD,Cl(Cs)" MATCH_C_FLD MASK_C_FLD (Some MF_match_opcode) (INSN_ALIAS .| INSN_DREF .| INSN_8_BYTE);
    mk_opcode "fld" 0 INSN_CLASS_D "D,o(s)" MATCH_FLD MASK_FLD (Some MF_match_opcode) (INSN_DREF .| INSN_8_BYTE);
    mk_opcode "fld" 0 INSN_CLASS_D "D,A,s" 0 M_FLx (Some MF_match_rs1_nonzero) INSN_MACRO;
    mk_opcode "fsd" 0 INSN_CLASS_D_AND_C "CT,CN(Cc)" MATCH_C_FSDSP MASK_C_FSDSP (Some MF_match_opcode) (INSN_ALIAS .| INSN_DREF .| INSN_8_BYTE);
    mk_opcode "fsd" 0 INSN_CLASS_D_AND_C "CD,Cl(Cs)" MATCH_C_FSD MASK_C_FSD (Some MF_match_opcode) (INSN_ALIAS .| INSN_DREF .| INSN_8_BYTE);
    mk_opcode "fsd" 0 INSN_CLASS_D "T,q(s)" MATCH_FSD MASK_FSD (Some MF_match_opcode) (INSN_DREF .| INSN_8_BYTE);
    mk_opcode "fsd" 0 INSN_CLASS_D "T,A,s" 0 M_Sx_FSx (Some MF_match_rs1_nonzero) INSN_MACRO;
    mk_opcode "fmv.d" 0 INSN_CLASS_D_INX "D,U" MATCH_FSGNJ_D MASK_FSGNJ_D (Some MF_match_rs1_eq_rs2) INSN_ALIAS;
    mk_opcode "fneg.d" 0 INSN_CLASS_D_INX "D,U" MATCH_FSGNJN_D MASK_FSGNJN_D (Some MF_match_rs1_eq_rs2) INSN_ALIAS;
    mk_opcode "fabs.d" 0 INSN_CLASS_D_INX "D,U" MATCH_FSGNJX_D MASK_FSGNJX_D (Some MF_match_rs1_eq_rs2) INSN_ALIAS;
    mk_opcode "fsgnj.d" 0 INSN_CLASS_D_INX "D,S,T" MATCH_FSGNJ_D MASK_FSGNJ_D (Some MF_match_opcode) 0;
    mk_opcode "fsgnjn.d" 0 INSN_CLASS_D_INX "D,S,T" MATCH_FSGNJN_D MASK_FSGNJN_D (Some MF_match_opcode) 0;
    mk_opcode "fsgnjx.d" 0 INSN_CLASS_D_INX "D,S,T" MATCH_FSGNJX_D MASK_FSGNJX_D (Some MF_match_opcode) 0;
    mk_opcode "fadd.d" 0 INSN_CLASS_D_INX "D,S,T" (MATCH_FADD_D .| MASK_RM) (MASK_FADD_D .| MASK_RM) (Some MF_match_opcode) 0;
    mk_opcode "fadd.d" 0 INSN_CLASS_D_INX "D,S,T,m" MATCH_FADD_D MASK_FADD_D (Some MF_match_opcode) 0;
    mk_opcode "fsub.d" 0 INSN_CLASS_D_INX "D,S,T" (MATCH_FSUB_D .| MASK_RM) (MASK_FSUB_D .| MASK_RM) (Some MF_match_opcode) 0;
    mk_opcode "fsub.d" 0 INSN_CLASS_D_INX "D,S,T,m" MATCH_FSUB_D MASK_FSUB_D (Some MF_match_opcode) 0;
    mk_opcode "fmul.d" 0 INSN_CLASS_D_INX "D,S,T" (MATCH_FMUL_D .| MASK_RM) (MASK_FMUL_D .| MASK_RM) (Some MF_match_opcode) 0;
    mk_opcode "fmul.d" 0 INSN_CLASS_D_INX "D,S,T,m" MATCH_FMUL_D MASK_FMUL_D (Some MF_match_opcode) 0;
    mk_opcode "fdiv.d" 0 INSN_CLASS_D_INX "D,S,T" (MATCH_FDIV_D .| MASK_RM) (MASK_FDIV_D .| MASK_RM) (Some MF_match_opcode) 0;
    mk_opcode "fdiv.d" 0 INSN_CLASS_D_INX "D,S,T,m" MATCH_FDIV_D MASK_FDIV_D (Some MF_match_opcode) 0;
    mk_opcode "fsqrt.d" 0 INSN_CLASS_D_INX "D,S" (MATCH_FSQRT_D .| MASK_RM) (MASK_FSQRT_D .| MASK_RM) (Some MF_match_opcode) 0;
    mk_opcode "fsqrt.d" 0 INSN_CLASS_D_INX "D,S,m" MATCH_FSQRT_D MASK_FSQRT_D (Some MF_match_opcode) 0;
    mk_opcode "fmin.d" 0 INSN_CLASS_D_INX "D,S,T" MATCH_FMIN_D MASK_FMIN_D (Some MF_match_opcode) 0;
    mk_opcode "fmax.d" 0 INSN_CLASS_D_INX "D,S,T" MATCH_FMAX_D MASK_FMAX_D (Some MF_match_opcode) 0;
    mk_opcode "fmadd.d" 0 INSN_CLASS_D_INX "D,S,T,R" (MATCH_FMADD_D .| MASK_RM) (MASK_FMADD_D .| MASK_RM) (Some MF_match_opcode) 0;
    mk_opcode "fmadd.d" 0 INSN_CLASS_D_INX "D,S,T,R,m" MATCH_FMADD_D MASK_FMADD_D (Some MF_match_opcode) 0;
    mk_opcode "fnmadd.d" 0 INSN_CLASS_D_INX "D,S,T,R" (MATCH_FNMADD_D .| MASK_RM) (MASK_FNMADD_D .| MASK_RM) (Some MF_match_opcode) 0;
    mk_opcode "fnmadd.d" 0 INSN_CLASS_D_INX "D,S,T,R,m" MATCH_FNMADD_D MASK_FNMADD_D (Some MF_match_opcode) 0;
    mk_opcode "fmsub.d" 0 INSN_CLASS_D_INX "D,S,T,R" (MATCH_FMSUB_D .| MASK_RM) (MASK_FMSUB_D .| MASK_RM) (Some MF_match_opcode) 0;
    mk_opcode "fmsub.d" 0 INSN_CLASS_D_INX "D,S,T,R,m" MATCH_FMSUB_D MASK_FMSUB_D (Some MF_match_opcode) 0;
    mk_opcode "fnmsub.d" 0 INSN_CLASS_D_INX "D,S,T,R" (MATCH_FNMSUB_D .| MASK_RM) (MASK_FNMSUB_D .| MASK_RM) (Some MF_match_opcode) 0;
    mk_opcode "fnmsub.d" 0 INSN_CLASS_D_INX "D,S,T,R,m" MATCH_FNMSUB_D MASK_FNMSUB_D (Some MF_match_opcode) 0;
    mk_opcode "fcvt.w.d" 0 INSN_CLASS_D_INX "d,S" (MATCH_FCVT_W_D .| MASK_RM) (MASK_FCVT_W_D .| MASK_RM) (Some MF_match_opcode) 0;
    mk_opcode "fcvt.w.d" 0 INSN_CLASS_D_INX "d,S,m" MATCH_FCVT_W_D MASK_FCVT_W_D (Some MF_match_opcode) 0;
    mk_opcode "fcvt.wu.d" 0 INSN_CLASS_D_INX "d,S" (MATCH_FCVT_WU_D .| MASK_RM) (MASK_FCVT_WU_D .| MASK_RM) (Some MF_match_opcode) 0;
    mk_opcode "fcvt.wu.d" 0 INSN_CLASS_D_INX "d,S,m" MATCH_FCVT_WU_D MASK_FCVT_WU_D (Some MF_match_opcode) 0;
    mk_opcode "fcvt.d.w" 0 INSN_CLASS_D_INX "D,s" MATCH_FCVT_D_W (MASK_FCVT_D_W .| MASK_RM) (Some MF_match_opcode) 0;
    mk_opcode "fcvt.d.wu" 0 INSN_CLASS_D_INX "D,s" MATCH_FCVT_D_WU (MASK_FCVT_D_WU .| MASK_RM) (Some MF_match_opcode) 0;
    mk_opcode "fcvt.d.s" 0 INSN_CLASS_D_INX "D,S" MATCH_FCVT_D_S (MASK_FCVT_D_S .| MASK_RM) (Some MF_match_opcode) 0;
    mk_opcode "fcvt.s.d" 0 INSN_CLASS_D_INX "D,S" (MATCH_FCVT_S_D .| MASK_RM) (MASK_FCVT_S_D .| MASK_RM) (Some MF_match_opcode) 0;
    mk_opcode "fcvt.s.d" 0 INSN_CLASS_D_INX "D,S,m" MATCH_FCVT_S_D MASK_FCVT_S_D (Some MF_match_opcode) 0;
    mk_opcode "fclass.d" 0 INSN_CLASS_D_INX "d,S" MATCH_FCLASS_D MASK_FCLASS_D (Some MF_match_opcode) 0;
    mk_opcode "feq.d" 0 INSN_CLASS_D_INX "d,S,T" MATCH_FEQ_D MASK_FEQ_D (Some MF_match_opcode) 0;
    mk_opcode "flt.d" 0 INSN_CLASS_D_INX "d,S,T" MATCH_FLT_D MASK_FLT_D (Some MF_match_opcode) 0;
    mk_opcode "fle.d" 0 INSN_CLASS_D_INX "d,S,T" MATCH_FLE_D MASK_FLE_D (Some MF_match_opcode) 0;
    mk_opcode "fgt.d" 0 INSN_CLASS_D_INX "d,T,S" MATCH_FLT_D MASK_FLT_D (Some MF_match_opcode) 0;
    mk_opcode "fge.d" 0 INSN_CLASS_D_INX "d,T,S" MATCH_FLE_D MASK_FLE_D (Some MF_match_opcode) 0;
    mk_opcode "fmv.x.d" 64 INSN_CLASS_D "d,S" MATCH_FMV_X_D MASK_FMV_X_D (Some MF_match_opcode) 0;
    mk_opcode "fmv.d.x" 64 INSN_CLASS_D "D,s" MATCH_FMV_D_X MASK_FMV_D_X (Some MF_match_opcode) 0;
    mk_opcode "fcvt.l.d" 64 INSN_CLASS_D_INX "d,S" (MATCH_FCVT_L_D .| MASK_RM) (MASK_FCVT_L_D .| MASK_RM) (Some MF_match_opcode) 0;
    mk_opcode "fcvt.l.d" 64 INSN_CLASS_D_INX "d,S,m" MATCH_FCVT_L_D MASK_FCVT_L_D (Some MF_match_opcode) 0;
    mk_opcode "fcvt.lu.d" 64 INSN_CLASS_D_INX "d,S" (MATCH_FCVT_LU_D .| MASK_RM) (MASK_FCVT_LU_D .| MASK_RM) (Some MF_match_opcode) 0;
    mk_opcode "fcvt.lu.d" 64 INSN_CLASS_D_INX "d,S,m" MATCH_FCVT_LU_D MASK_FCVT_LU_D (Some MF_match_opcode) 0;
    mk_opcode "fcvt.d.l" 64 INSN_CLASS_D_INX "D,s" (MATCH_FCVT_D_L .| MASK_RM) (MASK_FCVT_D_L .| MASK_RM) (Some MF_match_opcode) 0;
    mk_opcode "fcvt.d.l" 64 INSN_CLASS_D_INX "D,s,m" MATCH_FCVT_D_L MASK_FCVT_D_L (Some MF_match_opcode) 0;
    mk_opcode "fcvt.d.lu" 64 INSN_CLASS_D_INX "D,s" (MATCH_FCVT_D_LU .| MASK_RM) (MASK_FCVT_D_LU .| MASK_RM) (Some MF_match_opcode) 0;
    mk_opcode "fcvt.d.lu" 64 INSN_CLASS_D_INX "D,s,m" MATCH_FCVT_D_LU MASK_FCVT_D_LU (Some MF_match_opcode) 0;
    mk_opcode "flq" 0 INSN_CLASS_Q "D,o(s)" MATCH_FLQ MASK_FLQ (Some MF_match_opcode) (INSN_DREF .| INSN_16_BYTE);
    mk_opcode "flq" 0 INSN_CLASS_Q "D,A,s" 0 M_FLx (Some MF_match_rs1_nonzero) INSN_MACRO;
    mk_opcode "fsq" 0 INSN_CLASS_Q "T,q(s)" MATCH_FSQ MASK_FSQ (Some MF_match_opcode) (INSN_DREF .| INSN_16_BYTE);
    mk_opcode "fsq" 0 INSN_CLASS_Q "T,A,s" 0 M_Sx_FSx (Some MF_match_rs1_nonzero) INSN_MACRO;
    mk_opcode "fmv.q" 0 INSN_CLASS_Q_INX "D,U" MATCH_FSGNJ_Q MASK_FSGNJ_Q (Some MF_match_rs1_eq_rs2) INSN_ALIAS;
    mk_opcode "fneg.q" 0 INSN_CLASS_Q_INX "D,U" MATCH_FSGNJN_Q MASK_FSGNJN_Q (Some MF_match_rs1_eq_rs2) INSN_ALIAS;
    mk_opcode "fabs.q" 0 INSN_CLASS_Q_INX "D,U" MATCH_FSGNJX_Q MASK_FSGNJX_Q (Some MF_match_rs1_eq_rs2) INSN_ALIAS;
    mk_opcode "fsgnj.q" 0 INSN_CLASS_Q_INX "D,S,T" MATCH_FSGNJ_Q MASK_FSGNJ_Q (Some MF_match_opcode) 0;
    mk_opcode "fsgnjn.q" 0 INSN_CLASS_Q_INX "D,S,T" MATCH_FSGNJN_Q MASK_FSGNJN_Q (Some MF_match_opcode) 0;
    mk_opcode "fsgnjx.q" 0 INSN_CLASS_Q_INX "D,S,T" MATCH_FSGNJX_Q MASK_FSGNJX_Q (Some MF_match_opcode) 0;
    mk_opcode "fadd.q" 0 INSN_CLASS_Q_INX "D,S,T" (MATCH_FADD_Q .| MASK_RM) (MASK_FADD_Q .| MASK_RM) (Some MF_match_opcode) 0;
    mk_opcode "fadd.q" 0 INSN_CLASS_Q_INX "D,S,T,m" MATCH_FADD_Q MASK_FADD_Q (Some MF_match_opcode) 0;
    mk_opcode "fsub.q" 0 INSN_CLASS_Q_INX "D,S,T" (MATCH_FSUB_Q .| MASK_RM) (MASK_FSUB_Q .| MASK_RM) (Some MF_match_opcode) 0;
    mk_opcode "fsub.q" 0 INSN_CLASS_Q_INX "D,S,T,m" MATCH_FSUB_Q MASK_FSUB_Q (Some MF_match_opcode) 0;
    mk_opcode "fmul.q" 0 INSN_CLASS_Q_INX "D,S,T" (MATCH_FMUL_Q .| MASK_RM) (MASK_FMUL_Q .| MASK_RM) (Some MF_match_opcode) 0;
    mk_opcode "fmul.q" 0 INSN_CLASS_Q_INX "D,S,T,m" MATCH_FMUL_Q MASK_FMUL_Q (Some MF_match_opcode) 0;
    mk_opcode "fdiv.q" 0 INSN_CLASS_Q_INX "D,S,T" (MATCH_FDIV_Q .| MASK_RM) (MASK_FDIV_Q .| MASK_RM) (Some MF_match_opcode) 0;
    mk_opcode "fdiv.q" 0 INSN_CLASS_Q_INX "D,S,T,m" MATCH_FDIV_Q MASK_FDIV_Q (Some MF_match_opcode) 0;
    mk_opcode "fsqrt.q" 0 INSN_CLASS_Q_INX "D,S" (MATCH_FSQRT_Q .| MASK_RM) (MASK_FSQRT_Q .| MASK_RM) (Some MF_match_opcode) 0;
    mk_opcode "fsqrt.q" 0 INSN_CLASS_Q_INX "D,S,m" MATCH_FSQRT_Q MASK_FSQRT_Q (Some MF_match_opcode) 0;
    mk_opcode "fmin.q" 0 INSN_CLASS_Q_INX "D,S,T" MATCH_FMIN_Q MASK_FMIN_Q (Some MF_match_opcode) 0;
    mk_opcode "fmax.q" 0 INSN_CLASS_Q_INX "D,S,T" MATCH_FMAX_Q MASK_FMAX_Q (Some MF_match_opcode) 0;
    mk_opcode "fmadd.q" 0 INSN_CLASS_Q_INX "D,S,T,R" (MATCH_FMADD_Q .| MASK_RM) (MASK_FMADD_Q .| MASK_RM) (Some MF_match_opcode) 0;
    mk_opcode "fmadd.q" 0 INSN_CLASS_Q_INX "D,S,T,R,m" MATCH_FMADD_Q MASK_FMADD_Q (Some MF_match_opcode) 0;
    mk_opcode "fnmadd.q" 0 INSN_CLASS_Q_INX "D,S,T,R" (MATCH_FNMADD_Q .| MASK_RM) (MASK_FNMADD_Q .| MASK_RM) (Some MF_match_opcode) 0;
    mk_opcode "fnmadd.q" 0 INSN_CLASS_Q_INX "D,S,T,R,m" MATCH_FNMADD_Q MASK_FNMADD_Q (Some MF_match_opcode) 0;
    mk_opcode "fmsub.q" 0 INSN_CLASS_Q_INX "D,S,T,R" (MATCH_FMSUB_Q .| MASK_RM) (MASK_FMSUB_Q .| MASK_RM) (Some MF_match_opcode) 0 ].

(** Lines 911-1050. *)
Definition riscv_opcodes_5 : list riscv_opcode :=
  [ mk_opcode "fmsub.q" 0 INSN_CLASS_Q_INX "D,S,T,R,m" MATCH_FMSUB_Q MASK_FMSUB_Q (Some MF_match_opcode) 0;
    mk_opcode "fnmsub.q" 0 INSN_CLASS_Q_INX "D,S,T,R" (MATCH_FNMSUB_Q .| MASK_RM) (MASK_FNMSUB_Q .| MASK_RM) (Some MF_match_opcode) 0;
    mk_opcode "fnmsub.q" 0 INSN_CLASS_Q_INX "D,S,T,R,m" MATCH_FNMSUB_Q MASK_FNMSUB_Q (Some MF_match_opcode) 0;
    mk_opcode "fcvt.w.q" 0 INSN_CLASS_Q_INX "d,S" (MATCH_FCVT_W_Q .| MASK_RM) (MASK_FCVT_W_Q .| MASK_RM) (Some MF_match_opcode) 0;
    mk_opcode "fcvt.w.q" 0 INSN_CLASS_Q_INX "d,S,m" MATCH_FCVT_W_Q MASK_FCVT_W_Q (Some MF_match_opcode) 0;
    mk_opcode "fcvt.wu.q" 0 INSN_CLASS_Q_INX "d,S" (MATCH_FCVT_WU_Q .| MASK_RM) (MASK_FCVT_WU_Q .| MASK_RM) (Some MF_match_opcode) 0;
    mk_opcode "fcvt.wu.q" 0 INSN_CLASS_Q_INX "d,S,m" MATCH_FCVT_WU_Q MASK_FCVT_WU_Q (Some MF_match_opcode) 0;
    mk_opcode "fcvt.q.w" 0 INSN_CLASS_Q_INX "D,s" MATCH_FCVT_Q_W (MASK_FCVT_Q_W .| MASK_RM) (Some MF_match_opcode) 0;
    mk_opcode "fcvt.q.wu" 0 INSN_CLASS_Q_INX "D,s" MATCH_FCVT_Q_WU (MASK_FCVT_Q_WU .| MASK_RM) (Some MF_match_opcode) 0;
    mk_opcode "fcvt.q.s" 0 INSN_CLASS_Q_INX "D,S" MATCH_FCVT_Q_S (MASK_FCVT_Q_S .| MASK_RM) (Some MF_match_opcode) 0;
    mk_opcode "fcvt.q.d" 0 INSN_CLASS_Q_INX "D,S" MATCH_FCVT_Q_D (MASK_FCVT_Q_D .| MASK_RM) (Some MF_match_opcode) 0;
    mk_opcode "fcvt.s.q" 0 INSN_CLASS_Q_INX "D,S" (MATCH_FCVT_S_Q .| MASK_RM) (MASK_FCVT_S_Q .| MASK_RM) (Some MF_match_opcode) 0;
    mk_opcode "fcvt.s.q" 0 INSN_CLASS_Q_INX "D,S,m" MATCH_FCVT_S_Q MASK_FCVT_S_Q (Some MF_match_opcode) 0;
    mk_opcode "fcvt.d.q" 0 INSN_CLASS_Q_INX "D,S" (MATCH_FCVT_D_Q .| MASK_RM) (MASK_FCVT_D_Q .| MASK_RM) (Some MF_match_opcode) 0;
    mk_opcode "fcvt.d.q" 0 INSN_CLASS_Q_INX "D,S,m" MATCH_FCVT_D_Q MASK_FCVT_D_Q (Some MF_match_opcode) 0;
    mk_opcode "fclass.q" 0 INSN_CLASS_Q_INX "d,S" MATCH_FCLASS_Q MASK_FCLASS_Q (Some MF_match_opcode) 0;
    mk_opcode "feq.q" 0 INSN_CLASS_Q_INX "d,S,T" MATCH_FEQ_Q MASK_FEQ_Q (Some MF_match_opcode) 0;
    mk_opcode "flt.q" 0 INSN_CLASS_Q_INX "d,S,T" MATCH_FLT_Q MASK_FLT_Q (Some MF_match_opcode) 0;
    mk_opcode "fle.q" 0 INSN_CLASS_Q_INX "d,S,T" MATCH_FLE_Q MASK_FLE_Q (Some MF_match_opcode) 0;
    mk_opcode "fgt.q" 0 INSN_CLASS_Q_INX "d,T,S" MATCH_FLT_Q MASK_FLT_Q (Some MF_match_opcode) 0;
    mk_opcode "fge.q" 0 INSN_CLASS_Q_INX "d,T,S" MATCH_FLE_Q MASK_FLE_Q (Some MF_match_opcode) 0;
    mk_opcode "fcvt.l.q" 64 INSN_CLASS_Q_INX "d,S" (MATCH_FCVT_L_Q .| MASK_RM) (MASK_FCVT_L_Q .| MASK_RM) (Some MF_match_opcode) 0;
    mk_opcode "fcvt.l.q" 64 INSN_CLASS_Q_INX "d,S,m" MATCH_FCVT_L_Q MASK_FCVT_L_Q (Some MF_match_opcode) 0;
    mk_opcode "fcvt.lu.q" 64 INSN_CLASS_Q_INX "d,S" (MATCH_FCVT_LU_Q .| MASK_RM) (MASK_FCVT_LU_Q .| MASK_RM) (Some MF_match_opcode) 0;
    mk_opcode "fcvt.lu.q" 64 INSN_CLASS_Q_INX "d,S,m" MATCH_FCVT_LU_Q MASK_FCVT_LU_Q (Some MF_match_opcode) 0;
    mk_opcode "fcvt.q.l" 64 INSN_CLASS_Q_INX "D,s" MATCH_FCVT_Q_L (MASK_FCVT_Q_L .| MASK_RM) (Some MF_match_opcode) 0;
    mk_opcode "fcvt.q.l" 64 INSN_CLASS_Q_INX "D,s,m" MATCH_FCVT_Q_L MASK_FCVT_Q_L (Some MF_match_opcode) 0;
    mk_opcode "fcvt.q.lu" 64 INSN_CLASS_Q_INX "D,s" MATCH_FCVT_Q_LU (MASK_FCVT_Q_LU .| MASK_RM) (Some MF_match_opcode) 0;
    mk_opcode "fcvt.q.lu" 64 INSN_CLASS_Q_INX "D,s,m" MATCH_FCVT_Q_LU MASK_FCVT_Q_LU (Some MF_match_opcode) 0;
    mk_opcode "c.unimp" 0 INSN_CLASS_C "" 0 0xffff (Some MF_match_opcode) 0;
    mk_opcode "c.ebreak" 0 INSN_CLASS_C "" MATCH_C_EBREAK MASK_C_EBREAK (Some MF_match_opcode) 0;
    mk_opcode "c.jr" 0 INSN_CLASS_C "d" MATCH_C_JR MASK_C_JR (Some MF_match_rd_nonzero) INSN_BRANCH;
    mk_opcode "c.jalr" 0 INSN_CLASS_C "d" MATCH_C_JALR MASK_C_JALR (Some MF_match_rd_nonzero) INSN_JSR;
    mk_opcode "c.j" 0 INSN_CLASS_C "Ca" MATCH_C_J MASK_C_J (Some MF_match_opcode) INSN_BRANCH;
    mk_opcode "c.jal" 32 INSN_CLASS_C "Ca" MATCH_C_JAL MASK_C_JAL (Some MF_match_opcode) INSN_JSR;
    mk_opcode "c.beqz" 0 INSN_CLASS_C "Cs,Cp" MATCH_C_BEQZ MASK_C_BEQZ (Some MF_match_opcode) INSN_CONDBRANCH;
    mk_opcode "c.bnez" 0 INSN_CLASS_C "Cs,Cp" MATCH_C_BNEZ MASK_C_BNEZ (Some MF_match_opcode) INSN_CONDBRANCH;
    mk_opcode "c.lwsp" 0 INSN_CLASS_C "d,Cm(Cc)" MATCH_C_LWSP MASK_C_LWSP (Some MF_match_rd_nonzero) 0;
    mk_opcode "c.lw" 0 INSN_CLASS_C "Ct,Ck(Cs)" MATCH_C_LW MASK_C_LW (Some MF_match_opcode) (INSN_DREF .| INSN_4_BYTE);
    mk_opcode "c.swsp" 0 INSN_CLASS_C "CV,CM(Cc)" MATCH_C_SWSP MASK_C_SWSP (Some MF_match_opcode) (INSN_DREF .| INSN_4_BYTE);
    mk_opcode "c.sw" 0 INSN_CLASS_C "Ct,Ck(Cs)" MATCH_C_SW MASK_C_SW (Some MF_match_opcode) (INSN_DREF .| INSN_4_BYTE);
    mk_opcode "c.nop" 0 INSN_CLASS_C "" MATCH_C_ADDI 0xffff (Some MF_match_opcode) INSN_ALIAS;
    mk_opcode "c.nop" 0 INSN_CLASS_C "Cj" MATCH_C_ADDI (MASK_C_ADDI .| MASK_RD) (Some MF_match_opcode) INSN_ALIAS;
    mk_opcode "c.mv" 0 INSN_CLASS_C "d,CV" MATCH_C_MV MASK_C_MV (Some MF_match_c_add_with_hint) 0;
    mk_opcode "c.lui" 0 INSN_CLASS_C "d,Cu" MATCH_C_LUI MASK_C_LUI (Some MF_match_c_lui_with_hint) 0;
    mk_opcode "c.li" 0 INSN_CLASS_C "d,Co" MATCH_C_LI MASK_C_LI (Some MF_match_opcode) 0;
    mk_opcode "c.addi4spn" 0 INSN_CLASS_C "Ct,Cc,CK" MATCH_C_ADDI4SPN MASK_C_ADDI4SPN (Some MF_match_c_addi4spn) 0;
    mk_opcode "c.addi16sp" 0 INSN_CLASS_C "Cc,CL" MATCH_C_ADDI16SP MASK_C_ADDI16SP (Some MF_match_c_addi16sp) 0;
    mk_opcode "c.addi" 0 INSN_CLASS_C "d,Co" MATCH_C_ADDI MASK_C_ADDI (Some MF_match_opcode) 0;
    mk_opcode "c.add" 0 INSN_CLASS_C "d,CV" MATCH_C_ADD MASK_C_ADD (Some MF_match_c_add_with_hint) 0;
    mk_opcode "c.sub" 0 INSN_CLASS_C "Cs,Ct" MATCH_C_SUB MASK_C_SUB (Some MF_match_opcode) 0;
    mk_opcode "c.and" 0 INSN_CLASS_C "Cs,Ct" MATCH_C_AND MASK_C_AND (Some MF_match_opcode) 0;
    mk_opcode "c.or" 0 INSN_CLASS_C "Cs,Ct" MATCH_C_OR MASK_C_OR (Some MF_match_opcode) 0;
    mk_opcode "c.xor" 0 INSN_CLASS_C "Cs,Ct" MATCH_C_XOR MASK_C_XOR (Some MF_match_opcode) 0;
    mk_opcode "c.slli" 0 INSN_CLASS_C "d,C>" MATCH_C_SLLI MASK_C_SLLI (Some MF_match_c_slli) 0;
    mk_opcode "c.srli" 0 INSN_CLASS_C "Cs,C>" MATCH_C_SRLI MASK_C_SRLI (Some MF_match_c_slli) 0;
    mk_opcode "c.srai" 0 INSN_CLASS_C "Cs,C>" MATCH_C_SRAI MASK_C_SRAI (Some MF_match_c_slli) 0;
    mk_opcode "c.slli64" 0 INSN_CLASS_C "d" MATCH_C_SLLI64 MASK_C_SLLI64 (Some MF_match_c_slli64) 0;
    mk_opcode "c.srli64" 0 INSN_CLASS_C "Cs" MATCH_C_SRLI64 MASK_C_SRLI64 (Some MF_match_c_slli64) 0;
    mk_opcode "c.srai64" 0 INSN_CLASS_C "Cs" MATCH_C_SRAI64 MASK_C_SRAI64 (Some MF_match_c_slli64) 0;
    mk_opcode "c.andi" 0 INSN_CLASS_C "Cs,Co" MATCH_C_ANDI MASK_C_ANDI (Some MF_match_opcode) 0;
    mk_opcode "c.addiw" 64 INSN_CLASS_C "d,Co" MATCH_C_ADDIW MASK_C_ADDIW (Some MF_match_rd_nonzero) 0;
    mk_opcode "c.addw" 64 INSN_CLASS_C "Cs,Ct" MATCH_C_ADDW MASK_C_ADDW (Some MF_match_opcode) 0;
    mk_opcode "c.subw" 64 INSN_CLASS_C "Cs,Ct" MATCH_C_SUBW MASK_C_SUBW (Some MF_match_opcode) 0;
    mk_opcode "c.ldsp" 64 INSN_CLASS_C "d,Cn(Cc)" MATCH_C_LDSP MASK_C_LDSP (Some MF_match_rd_nonzero) (INSN_DREF .| INSN_8_BYTE);
    mk_opcode "c.ld" 64 INSN_CLASS_C "Ct,Cl(Cs)" MATCH_C_LD MASK_C_LD (Some MF_match_opcode) (INSN_DREF .| INSN_8_BYTE);
    mk_opcode "c.sdsp" 64 INSN_CLASS_C "CV,CN(Cc)" MATCH_C_SDSP MASK_C_SDSP (Some MF_match_opcode) (INSN_DREF .| INSN_8_BYTE);
    mk_opcode "c.sd" 64 INSN_CLASS_C "Ct,Cl(Cs)" MATCH_C_SD MASK_C_SD (Some MF_match_opcode) (INSN_DREF .| INSN_8_BYTE);
    mk_opcode "c.fldsp" 0 INSN_CLASS_D_AND_C "D,Cn(Cc)" MATCH_C_FLDSP MASK_C_FLDSP (Some MF_match_opcode) (INSN_DREF .| INSN_8_BYTE);
    mk_opcode "c.fld" 0 INSN_CLASS_D_AND_C "CD,Cl(Cs)" MATCH_C_FLD MASK_C_FLD (Some MF_match_opcode) (INSN_DREF .| INSN_8_BYTE);
    mk_opcode "c.fsdsp" 0 INSN_CLASS_D_AND_C "CT,CN(Cc)" MATCH_C_FSDSP MASK_C_FSDSP (Some MF_match_opcode) (INSN_DREF .| INSN_8_BYTE);
    mk_opcode "c.fsd" 0 INSN_CLASS_D_AND_C "CD,Cl(Cs)" MATCH_C_FSD MASK_C_FSD (Some MF_match_opcode) (INSN_DREF .| INSN_8_BYTE);
    mk_opcode "c.flwsp" 32 INSN_CLASS_F_AND_C "D,Cm(Cc)" MATCH_C_FLWSP MASK_C_FLWSP (Some MF_match_opcode) (INSN_DREF .| INSN_4_BYTE);
    mk_opcode "c.flw" 32 INSN_CLASS_F_AND_C "CD,Ck(Cs)" MATCH_C_FLW MASK_C_FLW (Some MF_match_opcode) (INSN_DREF .| INSN_4_BYTE);
    mk_opcode "c.fswsp" 32 INSN_CLASS_F_AND_C "CT,CM(Cc)" MATCH_C_FSWSP MASK_C_FSWSP (Some MF_match_opcode) (INSN_DREF .| INSN_4_BYTE);
    mk_opcode "c.fsw" 32 INSN_CLASS_F_AND_C "CD,Ck(Cs)" MATCH_C_FSW MASK_C_FSW (Some MF_match_opcode) (INSN_DREF .| INSN_4_BYTE);
    mk_opcode "cbo.clean" 0 INSN_CLASS_ZICBOM "0(s)" MATCH_CBO_CLEAN MASK_CBO_CLEAN (Some MF_match_opcode) 0;
    mk_opcode "cbo.flush" 0 INSN_CLASS_ZICBOM "0(s)" MATCH_CBO_FLUSH MASK_CBO_FLUSH (Some MF_match_opcode) 0;
    mk_opcode "cbo.inval" 0 INSN_CLASS_ZICBOM "0(s)" MATCH_CBO_INVAL MASK_CBO_INVAL (Some MF_match_opcode) 0;
    mk_opcode "cbo.zero" 0 INSN_CLASS_ZICBOZ "0(s)" MATCH_CBO_ZERO MASK_CBO_ZERO (Some MF_match_opcode) 0;
    mk_opcode "czero.eqz" 0 INSN_CLASS_ZICOND "d,s,t" MATCH_CZERO_EQZ MASK_CZERO_EQZ (Some MF_match_opcode) 0;
    mk_opcode "czero.nez" 0 INSN_CLASS_ZICOND "d,s,t" MATCH_CZERO_NEZ MASK_CZERO_NEZ (Some MF_match_opcode) 0;
    mk_opcode "wrs.nto" 0 INSN_CLASS_ZAWRS "" MATCH_WRS_NTO MASK_WRS_NTO (Some MF_match_opcode) 0;
    mk_opcode "wrs.sto" 0 INSN_CLASS_ZAWRS "" MATCH_WRS_STO MASK_WRS_STO (Some MF_match_opcode) 0;
    mk_opcode "fli.s" 0 INSN_CLASS_ZFA "D,Wfv" MATCH_FLI_S MASK_FLI_S (Some MF_match_opcode) 0;
    mk_opcode "fli.d" 0 INSN_CLASS_D_AND_ZFA "D,Wfv" MATCH_FLI_D MASK_FLI_D (Some MF_match_opcode) 0;
    mk_opcode "fli.q" 0 INSN_CLASS_Q_AND_ZFA "D,Wfv" MATCH_FLI_Q MASK_FLI_Q (Some MF_match_opcode) 0;
    mk_opcode "fli.h" 0 INSN_CLASS_ZFH_OR_ZVFH_AND_ZFA "D,Wfv" MATCH_FLI_H MASK_FLI_H (Some MF_match_opcode) 0;
    mk_opcode "fminm.s" 0 INSN_CLASS_ZFA "D,S,T" MATCH_FMINM_S MASK_FMINM_S (Some MF_match_opcode) 0;
    mk_opcode "fmaxm.s" 0 INSN_CLASS_ZFA "D,S,T" MATCH_FMAXM_S MASK_FMAXM_S (Some MF_match_opcode) 0;
    mk_opcode "fminm.d" 0 INSN_CLASS_D_AND_ZFA "D,S,T" MATCH_FMINM_D MASK_FMINM_D (Some MF_match_opcode) 0;
    mk_opcode "fmaxm.d" 0 INSN_CLASS_D_AND_ZFA "D,S,T" MATCH_FMAXM_D MASK_FMAXM_D (Some MF_match_opcode) 0;
    mk_opcode "fminm.q" 0 INSN_CLASS_Q_AND_ZFA "D,S,T" MATCH_FMINM_Q MASK_FMINM_Q (Some MF_match_opcode) 0;
    mk_opcode "fmaxm.q" 0 INSN_CLASS_Q_AND_ZFA "D,S,T" MATCH_FMAXM_Q MASK_FMAXM_Q (Some MF_match_opcode) 0;
    mk_opcode "fminm.h" 0 INSN_CLASS_ZFH_AND_ZFA "D,S,T" MATCH_FMINM_H MASK_FMINM_H (Some MF_match_opcode) 0;
    mk_opcode "fmaxm.h" 0 INSN_CLASS_ZFH_AND_ZFA "D,S,T" MATCH_FMAXM_H MASK_FMAXM_H (Some MF_match_opcode) 0;
    mk_opcode "fround.s" 0 INSN_CLASS_ZFA "D,S" (MATCH_FROUND_S .| MASK_RM) (MASK_FROUND_S .| MASK_RM) (Some MF_match_opcode) 0;
    mk_opcode "fround.s" 0 INSN_CLASS_ZFA "D,S,m" MATCH_FROUND_S MASK_FROUND_S (Some MF_match_opcode) 0;
    mk_opcode "froundnx.s" 0 INSN_CLASS_ZFA "D,S" (MATCH_FROUNDNX_S .| MASK_RM) (MASK_FROUNDNX_S .| MASK_RM) (Some MF_match_opcode) 0;
    mk_opcode "froundnx.s" 0 INSN_CLASS_ZFA "D,S,m" MATCH_FROUNDNX_S MASK_FROUNDNX_S (Some MF_match_opcode) 0;
    mk_opcode "fround.d" 0 INSN_CLASS_D_AND_ZFA "D,S" (MATCH_FROUND_D .| MASK_RM) (MASK_FROUND_D .| MASK_RM) (Some MF_match_opcode) 0;
    mk_opcode "fround.d" 0 INSN_CLASS_D_AND_ZFA "D,S,m" MATCH_FROUND_D MASK_FROUND_D (Some MF_match_opcode) 0;
    mk_opcode "froundnx.d" 0 INSN_CLASS_D_AND_ZFA "D,S" (MATCH_FROUNDNX_D .| MASK_RM) (MASK_FROUNDNX_D .| MASK_RM) (Some MF_match_opcode) 0;
    mk_opcode "froundnx.d" 0 INSN_CLASS_D_AND_ZFA "D,S,m" MATCH_FROUNDNX_D MASK_FROUNDNX_D (Some MF_match_opcode) 0;
    mk_opcode "fround.q" 0 INSN_CLASS_Q_AND_ZFA "D,S" (MATCH_FROUND_Q .| MASK_RM) (MASK_FROUND_Q .| MASK_RM) (Some MF_match_opcode) 0;
    mk_opcode "fround.q" 0 INSN_CLASS_Q_AND_ZFA "D,S,m" MATCH_FROUND_Q MASK_FROUND_Q (Some MF_match_opcode) 0;
    mk_opcode "froundnx.q" 0 INSN_CLASS_Q_AND_ZFA "D,S" (MATCH_FROUNDNX_Q .| MASK_RM) (MASK_FROUNDNX_Q .| MASK_RM) (Some MF_match_opcode) 0;
    mk_opcode "froundnx.q" 0 INSN_CLASS_Q_AND_ZFA "D,S,m" MATCH_FROUNDNX_Q MASK_FROUNDNX_Q (Some MF_match_opcode) 0;
    mk_opcode "fround.h" 0 INSN_CLASS_ZFH_AND_ZFA "D,S" (MATCH_FROUND_H .| MASK_RM) (MASK_FROUND_H .| MASK_RM) (Some MF_match_opcode) 0;
    mk_opcode "fround.h" 0 INSN_CLASS_ZFH_AND_ZFA "D,S,m" MATCH_FROUND_H MASK_FROUND_H (Some MF_match_opcode) 0;
    mk_opcode "froundnx.h" 0 INSN_CLASS_ZFH_AND_ZFA "D,S" (MATCH_FROUNDNX_H .| MASK_RM) (MASK_FROUNDNX_H .| MASK_RM) (Some MF_match_opcode) 0;
    mk_opcode "froundnx.h" 0 INSN_CLASS_ZFH_AND_ZFA "D,S,m" MATCH_FROUNDNX_H MASK_FROUNDNX_H (Some MF_match_opcode) 0;
    mk_opcode "fcvtmod.w.d" 0 INSN_CLASS_D_AND_ZFA "d,S,m" MATCH_FCVTMOD_W_D MASK_FCVTMOD_W_D (Some MF_match_opcode) 0;
    mk_opcode "fmvh.x.d" 32 INSN_CLASS_D_AND_ZFA "d,S" MATCH_FMVH_X_D MASK_FMVH_X_D (Some MF_match_opcode) 0;
    mk_opcode "fmvp.d.x" 32 INSN_CLASS_D_AND_ZFA "D,s,t" MATCH_FMVP_D_X MASK_FMVP_D_X (Some MF_match_opcode) 0;
    mk_opcode "fmvh.x.q" 64 INSN_CLASS_Q_AND_ZFA "d,S" MATCH_FMVH_X_Q MASK_FMVH_X_Q (Some MF_match_opcode) 0;
    mk_opcode "fmvp.q.x" 64 INSN_CLASS_Q_AND_ZFA "D,s,t" MATCH_FMVP_Q_X MASK_FMVP_Q_X (Some MF_match_opcode) 0;
    mk_opcode "fltq.s" 0 INSN_CLASS_ZFA "d,S,T" MATCH_FLTQ_S MASK_FLTQ_S (Some MF_match_opcode) 0;
    mk_opcode "fleq.s" 0 INSN_CLASS_ZFA "d,S,T" MATCH_FLEQ_S MASK_FLEQ_S (Some MF_match_opcode) 0;
    mk_opcode "fltq.d" 0 INSN_CLASS_D_AND_ZFA "d,S,T" MATCH_FLTQ_D MASK_FLTQ_D (Some MF_match_opcode) 0;
    mk_opcode "fleq.d" 0 INSN_CLASS_D_AND_ZFA "d,S,T" MATCH_FLEQ_D MASK_FLEQ_D (Some MF_match_opcode) 0;
    mk_opcode "fltq.q" 0 INSN_CLASS_Q_AND_ZFA "d,S,T" MATCH_FLTQ_Q MASK_FLTQ_Q (Some MF_match_opcode) 0;
    mk_opcode "fleq.q" 0 INSN_CLASS_Q_AND_ZFA "d,S,T" MATCH_FLEQ_Q MASK_FLEQ_Q (Some MF_match_opcode) 0;
    mk_opcode "fltq.h" 0 INSN_CLASS_ZFH_AND_ZFA "d,S,T" MATCH_FLTQ_H MASK_FLTQ_H (Some MF_match_opcode) 0;
    mk_opcode "fleq.h" 0 INSN_CLASS_ZFH_AND_ZFA "d,S,T" MATCH_FLEQ_H MASK_FLEQ_H (Some MF_match_opcode) 0;
    mk_opcode "clz" 0 INSN_CLASS_ZBB "d,s" MATCH_CLZ MASK_CLZ (Some MF_match_opcode) 0;
    mk_opcode "ctz" 0 INSN_CLASS_ZBB "d,s" MATCH_CTZ MASK_CTZ (Some MF_match_opcode) 0;
    mk_opcode "cpop" 0 INSN_CLASS_ZBB "d,s" MATCH_CPOP MASK_CPOP (Some MF_match_opcode) 0 ].

(** Lines 1051-1190. *)
Definition riscv_opcodes_6 : list riscv_opcode :=
  [ mk_opcode "min" 0 INSN_CLASS_ZBB "d,s,t" MATCH_MIN MASK_MIN (Some MF_match_opcode) 0;
    mk_opcode "max" 0 INSN_CLASS_ZBB "d,s,t" MATCH_MAX MASK_MAX (Some MF_match_opcode) 0;
    mk_opcode "minu" 0 INSN_CLASS_ZBB "d,s,t" MATCH_MINU MASK_MINU (Some MF_match_opcode) 0;
    mk_opcode "maxu" 0 INSN_CLASS_ZBB "d,s,t" MATCH_MAXU MASK_MAXU (Some MF_match_opcode) 0;
    mk_opcode "sext.b" 0 INSN_CLASS_ZCB_AND_ZBB "Cs,Cw" MATCH_C_SEXT_B MASK_C_SEXT_B (Some MF_match_opcode) INSN_ALIAS;
    mk_opcode "sext.b" 0 INSN_CLASS_ZBB "d,s" MATCH_SEXT_B MASK_SEXT_B (Some MF_match_opcode) 0;
    mk_opcode "sext.b" 0 INSN_CLASS_I "d,s" 0 M_SEXTB None INSN_MACRO;
    mk_opcode "sext.h" 0 INSN_CLASS_ZCB_AND_ZBB "Cs,Cw" MATCH_C_SEXT_H MASK_C_SEXT_H (Some MF_match_opcode) INSN_ALIAS;
    mk_opcode "sext.h" 0 INSN_CLASS_ZBB "d,s" MATCH_SEXT_H MASK_SEXT_H (Some MF_match_opcode) 0;
    mk_opcode "sext.h" 0 INSN_CLASS_I "d,s" 0 M_EXTH None INSN_MACRO;
    mk_opcode "zext.h" 0 INSN_CLASS_ZCB_AND_ZBB "Cs,Cw" MATCH_C_ZEXT_H MASK_C_ZEXT_H (Some MF_match_opcode) INSN_ALIAS;
    mk_opcode "zext.h" 32 INSN_CLASS_ZBB "d,s" MATCH_PACK (MASK_PACK .| MASK_RS2) (Some MF_match_opcode) 0;
    mk_opcode "zext.h" 64 INSN_CLASS_ZBB "d,s" MATCH_PACKW (MASK_PACKW .| MASK_RS2) (Some MF_match_opcode) 0;
    mk_opcode "zext.h" 0 INSN_CLASS_I "d,s" 0 M_EXTH None INSN_MACRO;
    mk_opcode "orc.b" 0 INSN_CLASS_ZBB "d,s" (MATCH_GORCI .| MATCH_SHAMT_ORC_B) (MASK_GORCI .| MASK_SHAMT) (Some MF_match_opcode) 0;
    mk_opcode "clzw" 64 INSN_CLASS_ZBB "d,s" MATCH_CLZW MASK_CLZW (Some MF_match_opcode) 0;
    mk_opcode "ctzw" 64 INSN_CLASS_ZBB "d,s" MATCH_CTZW MASK_CTZW (Some MF_match_opcode) 0;
    mk_opcode "cpopw" 64 INSN_CLASS_ZBB "d,s" MATCH_CPOPW MASK_CPOPW (Some MF_match_opcode) 0;
    mk_opcode "brev8" 32 INSN_CLASS_ZBKB "d,s" (MATCH_GREVI .| MATCH_SHAMT_BREV8) (MASK_GREVI .| MASK_SHAMT) (Some MF_match_opcode) 0;
    mk_opcode "brev8" 64 INSN_CLASS_ZBKB "d,s" (MATCH_GREVI .| MATCH_SHAMT_BREV8) (MASK_GREVI .| MASK_SHAMT) (Some MF_match_opcode) 0;
    mk_opcode "zip" 32 INSN_CLASS_ZBKB "d,s" (MATCH_SHFLI .| MATCH_SHAMT_ZIP_32) (MASK_SHFLI .| MASK_SHAMT) (Some MF_match_opcode) 0;
    mk_opcode "unzip" 32 INSN_CLASS_ZBKB "d,s" (MATCH_UNSHFLI .| MATCH_SHAMT_ZIP_32) (MASK_UNSHFLI .| MASK_SHAMT) (Some MF_match_opcode) 0;
    mk_opcode "pack" 0 INSN_CLASS_ZBKB "d,s,t" MATCH_PACK MASK_PACK (Some MF_match_opcode) 0;
    mk_opcode "packh" 0 INSN_CLASS_ZBKB "d,s,t" MATCH_PACKH MASK_PACKH (Some MF_match_opcode) 0;
    mk_opcode "packw" 64 INSN_CLASS_ZBKB "d,s,t" MATCH_PACKW MASK_PACKW (Some MF_match_opcode) 0;
    mk_opcode "andn" 0 INSN_CLASS_ZBB_OR_ZBKB "d,s,t" MATCH_ANDN MASK_ANDN (Some MF_match_opcode) 0;
    mk_opcode "orn" 0 INSN_CLASS_ZBB_OR_ZBKB "d,s,t" MATCH_ORN MASK_ORN (Some MF_match_opcode) 0;
    mk_opcode "xnor" 0 INSN_CLASS_ZBB_OR_ZBKB "d,s,t" MATCH_XNOR MASK_XNOR (Some MF_match_opcode) 0;
    mk_opcode "rol" 0 INSN_CLASS_ZBB_OR_ZBKB "d,s,t" MATCH_ROL MASK_ROL (Some MF_match_opcode) 0;
    mk_opcode "rori" 0 INSN_CLASS_ZBB_OR_ZBKB "d,s,>" MATCH_RORI MASK_RORI (Some MF_match_opcode) 0;
    mk_opcode "ror" 0 INSN_CLASS_ZBB_OR_ZBKB "d,s,t" MATCH_ROR MASK_ROR (Some MF_match_opcode) 0;
    mk_opcode "ror" 0 INSN_CLASS_ZBB_OR_ZBKB "d,s,>" MATCH_RORI MASK_RORI (Some MF_match_opcode) INSN_ALIAS;
    mk_opcode "rev8" 32 INSN_CLASS_ZBB_OR_ZBKB "d,s" (MATCH_GREVI .| MATCH_SHAMT_REV8_32) (MASK_GREVI .| MASK_SHAMT) (Some MF_match_opcode) 0;
    mk_opcode "rev8" 64 INSN_CLASS_ZBB_OR_ZBKB "d,s" (MATCH_GREVI .| MATCH_SHAMT_REV8_64) (MASK_GREVI .| MASK_SHAMT) (Some MF_match_opcode) 0;
    mk_opcode "rolw" 64 INSN_CLASS_ZBB_OR_ZBKB "d,s,t" MATCH_ROLW MASK_ROLW (Some MF_match_opcode) 0;
    mk_opcode "roriw" 64 INSN_CLASS_ZBB_OR_ZBKB "d,s,<" MATCH_RORIW MASK_RORIW (Some MF_match_opcode) 0;
    mk_opcode "rorw" 64 INSN_CLASS_ZBB_OR_ZBKB "d,s,t" MATCH_RORW MASK_RORW (Some MF_match_opcode) 0;
    mk_opcode "rorw" 64 INSN_CLASS_ZBB_OR_ZBKB "d,s,<" MATCH_RORIW MASK_RORIW (Some MF_match_opcode) INSN_ALIAS;
    mk_opcode "sh1add" 0 INSN_CLASS_ZBA "d,s,t" MATCH_SH1ADD MASK_SH1ADD (Some MF_match_opcode) 0;
    mk_opcode "sh2add" 0 INSN_CLASS_ZBA "d,s,t" MATCH_SH2ADD MASK_SH2ADD (Some MF_match_opcode) 0;
    mk_opcode "sh3add" 0 INSN_CLASS_ZBA "d,s,t" MATCH_SH3ADD MASK_SH3ADD (Some MF_match_opcode) 0;
    mk_opcode "sh1add.uw" 64 INSN_CLASS_ZBA "d,s,t" MATCH_SH1ADD_UW MASK_SH1ADD_UW (Some MF_match_opcode) 0;
    mk_opcode "sh2add.uw" 64 INSN_CLASS_ZBA "d,s,t" MATCH_SH2ADD_UW MASK_SH2ADD_UW (Some MF_match_opcode) 0;
    mk_opcode "sh3add.uw" 64 INSN_CLASS_ZBA "d,s,t" MATCH_SH3ADD_UW MASK_SH3ADD_UW (Some MF_match_opcode) 0;
    mk_opcode "zext.w" 64 INSN_CLASS_ZCB_AND_ZBA "Cs,Cw" MATCH_C_ZEXT_W MASK_C_ZEXT_W (Some MF_match_opcode) INSN_ALIAS;
    mk_opcode "zext.w" 64 INSN_CLASS_ZBA "d,s" MATCH_ADD_UW (MASK_ADD_UW .| MASK_RS2) (Some MF_match_opcode) INSN_ALIAS;
    mk_opcode "zext.w" 64 INSN_CLASS_I "d,s" 0 M_ZEXTW None INSN_MACRO;
    mk_opcode "add.uw" 64 INSN_CLASS_ZBA "d,s,t" MATCH_ADD_UW MASK_ADD_UW (Some MF_match_opcode) 0;
    mk_opcode "slli.uw" 64 INSN_CLASS_ZBA "d,s,>" MATCH_SLLI_UW MASK_SLLI_UW (Some MF_match_opcode) 0;
    mk_opcode "clmul" 0 INSN_CLASS_ZBC_OR_ZBKC "d,s,t" MATCH_CLMUL MASK_CLMUL (Some MF_match_opcode) 0;
    mk_opcode "clmulh" 0 INSN_CLASS_ZBC_OR_ZBKC "d,s,t" MATCH_CLMULH MASK_CLMULH (Some MF_match_opcode) 0;
    mk_opcode "clmulr" 0 INSN_CLASS_ZBC "d,s,t" MATCH_CLMULR MASK_CLMULR (Some MF_match_opcode) 0;
    mk_opcode "bclri" 0 INSN_CLASS_ZBS "d,s,>" MATCH_BCLRI MASK_BCLRI (Some MF_match_opcode) 0;
    mk_opcode "bclr" 0 INSN_CLASS_ZBS "d,s,t" MATCH_BCLR MASK_BCLR (Some MF_match_opcode) 0;
    mk_opcode "bclr" 0 INSN_CLASS_ZBS "d,s,>" MATCH_BCLRI MASK_BCLRI (Some MF_match_opcode) INSN_ALIAS;
    mk_opcode "bseti" 0 INSN_CLASS_ZBS "d,s,>" MATCH_BSETI MASK_BSETI (Some MF_match_opcode) 0;
    mk_opcode "bset" 0 INSN_CLASS_ZBS "d,s,t" MATCH_BSET MASK_BSET (Some MF_match_opcode) 0;
    mk_opcode "bset" 0 INSN_CLASS_ZBS "d,s,>" MATCH_BSETI MASK_BSETI (Some MF_match_opcode) INSN_ALIAS;
    mk_opcode "binvi" 0 INSN_CLASS_ZBS "d,s,>" MATCH_BINVI MASK_BINVI (Some MF_match_opcode) 0;
    mk_opcode "binv" 0 INSN_CLASS_ZBS "d,s,t" MATCH_BINV MASK_BINV (Some MF_match_opcode) 0;
    mk_opcode "binv" 0 INSN_CLASS_ZBS "d,s,>" MATCH_BINVI MASK_BINVI (Some MF_match_opcode) INSN_ALIAS;
    mk_opcode "bexti" 0 INSN_CLASS_ZBS "d,s,>" MATCH_BEXTI MASK_BEXTI (Some MF_match_opcode) 0;
    mk_opcode "bext" 0 INSN_CLASS_ZBS "d,s,t" MATCH_BEXT MASK_BEXT (Some MF_match_opcode) 0;
    mk_opcode "bext" 0 INSN_CLASS_ZBS "d,s,>" MATCH_BEXTI MASK_BEXTI (Some MF_match_opcode) INSN_ALIAS;
    mk_opcode "xperm4" 0 INSN_CLASS_ZBKX "d,s,t" MATCH_XPERM4 MASK_XPERM4 (Some MF_match_opcode) 0;
    mk_opcode "xperm8" 0 INSN_CLASS_ZBKX "d,s,t" MATCH_XPERM8 MASK_XPERM8 (Some MF_match_opcode) 0;
    mk_opcode "aes32dsi" 32 INSN_CLASS_ZKND "d,s,t,y" MATCH_AES32DSI MASK_AES32DSI (Some MF_match_opcode) 0;
    mk_opcode "aes32dsmi" 32 INSN_CLASS_ZKND "d,s,t,y" MATCH_AES32DSMI MASK_AES32DSMI (Some MF_match_opcode) 0;
    mk_opcode "aes64ds" 64 INSN_CLASS_ZKND "d,s,t" MATCH_AES64DS MASK_AES64DS (Some MF_match_opcode) 0;
    mk_opcode "aes64dsm" 64 INSN_CLASS_ZKND "d,s,t" MATCH_AES64DSM MASK_AES64DSM (Some MF_match_opcode) 0;
    mk_opcode "aes64im" 64 INSN_CLASS_ZKND "d,s" MATCH_AES64IM MASK_AES64IM (Some MF_match_opcode) 0;
    mk_opcode "aes64ks1i" 64 INSN_CLASS_ZKND_OR_ZKNE "d,s,Y" MATCH_AES64KS1I MASK_AES64KS1I (Some MF_match_opcode) 0;
    mk_opcode "aes64ks2" 64 INSN_CLASS_ZKND_OR_ZKNE "d,s,t" MATCH_AES64KS2 MASK_AES64KS2 (Some MF_match_opcode) 0;
    mk_opcode "aes32esi" 32 INSN_CLASS_ZKNE "d,s,t,y" MATCH_AES32ESI MASK_AES32ESI (Some MF_match_opcode) 0;
    mk_opcode "aes32esmi" 32 INSN_CLASS_ZKNE "d,s,t,y" MATCH_AES32ESMI MASK_AES32ESMI (Some MF_match_opcode) 0;
    mk_opcode "aes64es" 64 INSN_CLASS_ZKNE "d,s,t" MATCH_AES64ES MASK_AES64ES (Some MF_match_opcode) 0;
    mk_opcode "aes64esm" 64 INSN_CLASS_ZKNE "d,s,t" MATCH_AES64ESM MASK_AES64ESM (Some MF_match_opcode) 0;
    mk_opcode "sha256sig0" 0 INSN_CLASS_ZKNH "d,s" MATCH_SHA256SIG0 MASK_SHA256SIG0 (Some MF_match_opcode) 0;
    mk_opcode "sha256sig1" 0 INSN_CLASS_ZKNH "d,s" MATCH_SHA256SIG1 MASK_SHA256SIG1 (Some MF_match_opcode) 0;
    mk_opcode "sha256sum0" 0 INSN_CLASS_ZKNH "d,s" MATCH_SHA256SUM0 MASK_SHA256SUM0 (Some MF_match_opcode) 0;
    mk_opcode "sha256sum1" 0 INSN_CLASS_ZKNH "d,s" MATCH_SHA256SUM1 MASK_SHA256SUM1 (Some MF_match_opcode) 0;
    mk_opcode "sha512sig0h" 32 INSN_CLASS_ZKNH "d,s,t" MATCH_SHA512SIG0H MASK_SHA512SIG0H (Some MF_match_opcode) 0;
    mk_opcode "sha512sig0l" 32 INSN_CLASS_ZKNH "d,s,t" MATCH_SHA512SIG0L MASK_SHA512SIG0L (Some MF_match_opcode) 0;
    mk_opcode "sha512sig1h" 32 INSN_CLASS_ZKNH "d,s,t" MATCH_SHA512SIG1H MASK_SHA512SIG1H (Some MF_match_opcode) 0;
    mk_opcode "sha512sig1l" 32 INSN_CLASS_ZKNH "d,s,t" MATCH_SHA512SIG1L MASK_SHA512SIG1L (Some MF_match_opcode) 0;
    mk_opcode "sha512sum0r" 32 INSN_CLASS_ZKNH "d,s,t" MATCH_SHA512SUM0R MASK_SHA512SUM0R (Some MF_match_opcode) 0;
    mk_opcode "sha512sum1r" 32 INSN_CLASS_ZKNH "d,s,t" MATCH_SHA512SUM1R MASK_SHA512SUM1R (Some MF_match_opcode) 0;
    mk_opcode "sha512sig0" 64 INSN_CLASS_ZKNH "d,s" MATCH_SHA512SIG0 MASK_SHA512SIG0 (Some MF_match_opcode) 0;
    mk_opcode "sha512sig1" 64 INSN_CLASS_ZKNH "d,s" MATCH_SHA512SIG1 MASK_SHA512SIG1 (Some MF_match_opcode) 0;
    mk_opcode "sha512sum0" 64 INSN_CLASS_ZKNH "d,s" MATCH_SHA512SUM0 MASK_SHA512SUM0 (Some MF_match_opcode) 0;
    mk_opcode "sha512sum1" 64 INSN_CLASS_ZKNH "d,s" MATCH_SHA512SUM1 MASK_SHA512SUM1 (Some MF_match_opcode) 0;
    mk_opcode "sm4ed" 0 INSN_CLASS_ZKSED "d,s,t,y" MATCH_SM4ED MASK_SM4ED (Some MF_match_opcode) 0;
    mk_opcode "sm4ks" 0 INSN_CLASS_ZKSED "d,s,t,y" MATCH_SM4KS MASK_SM4KS (Some MF_match_opcode) 0;
    mk_opcode "sm3p0" 0 INSN_CLASS_ZKSH "d,s" MATCH_SM3P0 MASK_SM3P0 (Some MF_match_opcode) 0;
    mk_opcode "sm3p1" 0 INSN_CLASS_ZKSH "d,s" MATCH_SM3P1 MASK_SM3P1 (Some MF_match_opcode) 0;
    mk_opcode "vsetvl" 0 INSN_CLASS_V "d,s,t" MATCH_VSETVL MASK_VSETVL (Some MF_match_opcode) 0;
    mk_opcode "vsetvli" 0 INSN_CLASS_V "d,s,Vc" MATCH_VSETVLI MASK_VSETVLI (Some MF_match_opcode) 0;
    mk_opcode "vsetivli" 0 INSN_CLASS_V "d,Z,Vb" MATCH_VSETIVLI MASK_VSETIVLI (Some MF_match_opcode) 0;
    mk_opcode "vlm.v" 0 INSN_CLASS_V "Vd,0(s)" MATCH_VLMV MASK_VLMV (Some MF_match_opcode) INSN_DREF;
    mk_opcode "vsm.v" 0 INSN_CLASS_V "Vd,0(s)" MATCH_VSMV MASK_VSMV (Some MF_match_opcode) INSN_DREF;
    mk_opcode "vle1.v" 0 INSN_CLASS_V "Vd,0(s)" MATCH_VLMV MASK_VLMV (Some MF_match_opcode) (INSN_DREF .| INSN_ALIAS);
    mk_opcode "vse1.v" 0 INSN_CLASS_V "Vd,0(s)" MATCH_VSMV MASK_VSMV (Some MF_match_opcode) (INSN_DREF .| INSN_ALIAS);
    mk_opcode "vle8.v" 0 INSN_CLASS_V "Vd,0(s)Vm" MATCH_VLE8V MASK_VLE8V (Some MF_match_opcode) INSN_DREF;
    mk_opcode "vle16.v" 0 INSN_CLASS_V "Vd,0(s)Vm" MATCH_VLE16V MASK_VLE16V (Some MF_match_opcode) INSN_DREF;
    mk_opcode "vle32.v" 0 INSN_CLASS_V "Vd,0(s)Vm" MATCH_VLE32V MASK_VLE32V (Some MF_match_opcode) INSN_DREF;
    mk_opcode "vle64.v" 0 INSN_CLASS_V "Vd,0(s)Vm" MATCH_VLE64V MASK_VLE64V (Some MF_match_opcode) (INSN_DREF .| INSN_V_EEW64);
    mk_opcode "vse8.v" 0 INSN_CLASS_V "Vd,0(s)Vm" MATCH_VSE8V MASK_VSE8V (Some MF_match_opcode) INSN_DREF;
    mk_opcode "vse16.v" 0 INSN_CLASS_V "Vd,0(s)Vm" MATCH_VSE16V MASK_VSE16V (Some MF_match_opcode) INSN_DREF;
    mk_opcode "vse32.v" 0 INSN_CLASS_V "Vd,0(s)Vm" MATCH_VSE32V MASK_VSE32V (Some MF_match_opcode) INSN_DREF;
    mk_opcode "vse64.v" 0 INSN_CLASS_V "Vd,0(s)Vm" MATCH_VSE64V MASK_VSE64V (Some MF_match_opcode) (INSN_DREF .| INSN_V_EEW64);
    mk_opcode "vlse8.v" 0 INSN_CLASS_V "Vd,0(s),tVm" MATCH_VLSE8V MASK_VLSE8V (Some MF_match_opcode) INSN_DREF;
    mk_opcode "vlse16.v" 0 INSN_CLASS_V "Vd,0(s),tVm" MATCH_VLSE16V MASK_VLSE16V (Some MF_match_opcode) INSN_DREF;
    mk_opcode "vlse32.v" 0 INSN_CLASS_V "Vd,0(s),tVm" MATCH_VLSE32V MASK_VLSE32V (Some MF_match_opcode) INSN_DREF;
    mk_opcode "vlse64.v" 0 INSN_CLASS_V "Vd,0(s),tVm" MATCH_VLSE64V MASK_VLSE64V (Some MF_match_opcode) (INSN_DREF .| INSN_V_EEW64);
    mk_opcode "vsse8.v" 0 INSN_CLASS_V "Vd,0(s),tVm" MATCH_VSSE8V MASK_VSSE8V (Some MF_match_opcode) INSN_DREF ].

(** Lines 1191-1330. *)
Definition riscv_opcodes_7 : list riscv_opcode :=
  [ mk_opcode "vsse16.v" 0 INSN_CLASS_V "Vd,0(s),tVm" MATCH_VSSE16V MASK_VSSE16V (Some MF_match_opcode) INSN_DREF;
    mk_opcode "vsse32.v" 0 INSN_CLASS_V "Vd,0(s),tVm" MATCH_VSSE32V MASK_VSSE32V (Some MF_match_opcode) INSN_DREF;
    mk_opcode "vsse64.v" 0 INSN_CLASS_V "Vd,0(s),tVm" MATCH_VSSE64V MASK_VSSE64V (Some MF_match_opcode) (INSN_DREF .| INSN_V_EEW64);
    mk_opcode "vloxei8.v" 0 INSN_CLASS_V "Vd,0(s),VtVm" MATCH_VLOXEI8V MASK_VLOXEI8V (Some MF_match_opcode) INSN_DREF;
    mk_opcode "vloxei16.v" 0 INSN_CLASS_V "Vd,0(s),VtVm" MATCH_VLOXEI16V MASK_VLOXEI16V (Some MF_match_opcode) INSN_DREF;
    mk_opcode "vloxei32.v" 0 INSN_CLASS_V "Vd,0(s),VtVm" MATCH_VLOXEI32V MASK_VLOXEI32V (Some MF_match_opcode) INSN_DREF;
    mk_opcode "vloxei64.v" 0 INSN_CLASS_V "Vd,0(s),VtVm" MATCH_VLOXEI64V MASK_VLOXEI64V (Some MF_match_opcode) (INSN_DREF .| INSN_V_EEW64);
    mk_opcode "vsoxei8.v" 0 INSN_CLASS_V "Vd,0(s),VtVm" MATCH_VSOXEI8V MASK_VSOXEI8V (Some MF_match_opcode) INSN_DREF;
    mk_opcode "vsoxei16.v" 0 INSN_CLASS_V "Vd,0(s),VtVm" MATCH_VSOXEI16V MASK_VSOXEI16V (Some MF_match_opcode) INSN_DREF;
    mk_opcode "vsoxei32.v" 0 INSN_CLASS_V "Vd,0(s),VtVm" MATCH_VSOXEI32V MASK_VSOXEI32V (Some MF_match_opcode) INSN_DREF;
    mk_opcode "vsoxei64.v" 0 INSN_CLASS_V "Vd,0(s),VtVm" MATCH_VSOXEI64V MASK_VSOXEI64V (Some MF_match_opcode) (INSN_DREF .| INSN_V_EEW64);
    mk_opcode "vluxei8.v" 0 INSN_CLASS_V "Vd,0(s),VtVm" MATCH_VLUXEI8V MASK_VLUXEI8V (Some MF_match_opcode) INSN_DREF;
    mk_opcode "vluxei16.v" 0 INSN_CLASS_V "Vd,0(s),VtVm" MATCH_VLUXEI16V MASK_VLUXEI16V (Some MF_match_opcode) INSN_DREF;
    mk_opcode "vluxei32.v" 0 INSN_CLASS_V "Vd,0(s),VtVm" MATCH_VLUXEI32V MASK_VLUXEI32V (Some MF_match_opcode) INSN_DREF;
    mk_opcode "vluxei64.v" 0 INSN_CLASS_V "Vd,0(s),VtVm" MATCH_VLUXEI64V MASK_VLUXEI64V (Some MF_match_opcode) (INSN_DREF .| INSN_V_EEW64);
    mk_opcode "vsuxei8.v" 0 INSN_CLASS_V "Vd,0(s),VtVm" MATCH_VSUXEI8V MASK_VSUXEI8V (Some MF_match_opcode) INSN_DREF;
    mk_opcode "vsuxei16.v" 0 INSN_CLASS_V "Vd,0(s),VtVm" MATCH_VSUXEI16V MASK_VSUXEI16V (Some MF_match_opcode) INSN_DREF;
    mk_opcode "vsuxei32.v" 0 INSN_CLASS_V "Vd,0(s),VtVm" MATCH_VSUXEI32V MASK_VSUXEI32V (Some MF_match_opcode) INSN_DREF;
    mk_opcode "vsuxei64.v" 0 INSN_CLASS_V "Vd,0(s),VtVm" MATCH_VSUXEI64V MASK_VSUXEI64V (Some MF_match_opcode) (INSN_DREF .| INSN_V_EEW64);
    mk_opcode "vle8ff.v" 0 INSN_CLASS_V "Vd,0(s)Vm" MATCH_VLE8FFV MASK_VLE8FFV (Some MF_match_opcode) INSN_DREF;
    mk_opcode "vle16ff.v" 0 INSN_CLASS_V "Vd,0(s)Vm" MATCH_VLE16FFV MASK_VLE16FFV (Some MF_match_opcode) INSN_DREF;
    mk_opcode "vle32ff.v" 0 INSN_CLASS_V "Vd,0(s)Vm" MATCH_VLE32FFV MASK_VLE32FFV (Some MF_match_opcode) INSN_DREF;
    mk_opcode "vle64ff.v" 0 INSN_CLASS_V "Vd,0(s)Vm" MATCH_VLE64FFV MASK_VLE64FFV (Some MF_match_opcode) (INSN_DREF .| INSN_V_EEW64);
    mk_opcode "vlseg2e8.v" 0 INSN_CLASS_V "Vd,0(s)Vm" MATCH_VLSEG2E8V MASK_VLSEG2E8V (Some MF_match_opcode) INSN_DREF;
    mk_opcode "vsseg2e8.v" 0 INSN_CLASS_V "Vd,0(s)Vm" MATCH_VSSEG2E8V MASK_VSSEG2E8V (Some MF_match_opcode) INSN_DREF;
    mk_opcode "vlseg3e8.v" 0 INSN_CLASS_V "Vd,0(s)Vm" MATCH_VLSEG3E8V MASK_VLSEG3E8V (Some MF_match_opcode) INSN_DREF;
    mk_opcode "vsseg3e8.v" 0 INSN_CLASS_V "Vd,0(s)Vm" MATCH_VSSEG3E8V MASK_VSSEG3E8V (Some MF_match_opcode) INSN_DREF;
    mk_opcode "vlseg4e8.v" 0 INSN_CLASS_V "Vd,0(s)Vm" MATCH_VLSEG4E8V MASK_VLSEG4E8V (Some MF_match_opcode) INSN_DREF;
    mk_opcode "vsseg4e8.v" 0 INSN_CLASS_V "Vd,0(s)Vm" MATCH_VSSEG4E8V MASK_VSSEG4E8V (Some MF_match_opcode) INSN_DREF;
    mk_opcode "vlseg5e8.v" 0 INSN_CLASS_V "Vd,0(s)Vm" MATCH_VLSEG5E8V MASK_VLSEG5E8V (Some MF_match_opcode) INSN_DREF;
    mk_opcode "vsseg5e8.v" 0 INSN_CLASS_V "Vd,0(s)Vm" MATCH_VSSEG5E8V MASK_VSSEG5E8V (Some MF_match_opcode) INSN_DREF;
    mk_opcode "vlseg6e8.v" 0 INSN_CLASS_V "Vd,0(s)Vm" MATCH_VLSEG6E8V MASK_VLSEG6E8V (Some MF_match_opcode) INSN_DREF;
    mk_opcode "vsseg6e8.v" 0 INSN_CLASS_V "Vd,0(s)Vm" MATCH_VSSEG6E8V MASK_VSSEG6E8V (Some MF_match_opcode) INSN_DREF;
    mk_opcode "vlseg7e8.v" 0 INSN_CLASS_V "Vd,0(s)Vm" MATCH_VLSEG7E8V MASK_VLSEG7E8V (Some MF_match_opcode) INSN_DREF;
    mk_opcode "vsseg7e8.v" 0 INSN_CLASS_V "Vd,0(s)Vm" MATCH_VSSEG7E8V MASK_VSSEG7E8V (Some MF_match_opcode) INSN_DREF;
    mk_opcode "vlseg8e8.v" 0 INSN_CLASS_V "Vd,0(s)Vm" MATCH_VLSEG8E8V MASK_VLSEG8E8V (Some MF_match_opcode) INSN_DREF;
    mk_opcode "vsseg8e8.v" 0 INSN_CLASS_V "Vd,0(s)Vm" MATCH_VSSEG8E8V MASK_VSSEG8E8V (Some MF_match_opcode) INSN_DREF;
    mk_opcode "vlseg2e16.v" 0 INSN_CLASS_V "Vd,0(s)Vm" MATCH_VLSEG2E16V MASK_VLSEG2E16V (Some MF_match_opcode) INSN_DREF;
    mk_opcode "vsseg2e16.v" 0 INSN_CLASS_V "Vd,0(s)Vm" MATCH_VSSEG2E16V MASK_VSSEG2E16V (Some MF_match_opcode) INSN_DREF;
    mk_opcode "vlseg3e16.v" 0 INSN_CLASS_V "Vd,0(s)Vm" MATCH_VLSEG3E16V MASK_VLSEG3E16V (Some MF_match_opcode) INSN_DREF;
    mk_opcode "vsseg3e16.v" 0 INSN_CLASS_V "Vd,0(s)Vm" MATCH_VSSEG3E16V MASK_VSSEG3E16V (Some MF_match_opcode) INSN_DREF;
    mk_opcode "vlseg4e16.v" 0 INSN_CLASS_V "Vd,0(s)Vm" MATCH_VLSEG4E16V MASK_VLSEG4E16V (Some MF_match_opcode) INSN_DREF;
    mk_opcode "vsseg4e16.v" 0 INSN_CLASS_V "Vd,0(s)Vm" MATCH_VSSEG4E16V MASK_VSSEG4E16V (Some MF_match_opcode) INSN_DREF;
    mk_opcode "vlseg5e16.v" 0 INSN_CLASS_V "Vd,0(s)Vm" MATCH_VLSEG5E16V MASK_VLSEG5E16V (Some MF_match_opcode) INSN_DREF;
    mk_opcode "vsseg5e16.v" 0 INSN_CLASS_V "Vd,0(s)Vm" MATCH_VSSEG5E16V MASK_VSSEG5E16V (Some MF_match_opcode) INSN_DREF;
    mk_opcode "vlseg6e16.v" 0 INSN_CLASS_V "Vd,0(s)Vm" MATCH_VLSEG6E16V MASK_VLSEG6E16V (Some MF_match_opcode) INSN_DREF;
    mk_opcode "vsseg6e16.v" 0 INSN_CLASS_V "Vd,0(s)Vm" MATCH_VSSEG6E16V MASK_VSSEG6E16V (Some MF_match_opcode) INSN_DREF;
    mk_opcode "vlseg7e16.v" 0 INSN_CLASS_V "Vd,0(s)Vm" MATCH_VLSEG7E16V MASK_VLSEG7E16V (Some MF_match_opcode) INSN_DREF;
    mk_opcode "vsseg7e16.v" 0 INSN_CLASS_V "Vd,0(s)Vm" MATCH_VSSEG7E16V MASK_VSSEG7E16V (Some MF_match_opcode) INSN_DREF;
    mk_opcode "vlseg8e16.v" 0 INSN_CLASS_V "Vd,0(s)Vm" MATCH_VLSEG8E16V MASK_VLSEG8E16V (Some MF_match_opcode) INSN_DREF;
    mk_opcode "vsseg8e16.v" 0 INSN_CLASS_V "Vd,0(s)Vm" MATCH_VSSEG8E16V MASK_VSSEG8E16V (Some MF_match_opcode) INSN_DREF;
    mk_opcode "vlseg2e32.v" 0 INSN_CLASS_V "Vd,0(s)Vm" MATCH_VLSEG2E32V MASK_VLSEG2E32V (Some MF_match_opcode) INSN_DREF;
    mk_opcode "vsseg2e32.v" 0 INSN_CLASS_V "Vd,0(s)Vm" MATCH_VSSEG2E32V MASK_VSSEG2E32V (Some MF_match_opcode) INSN_DREF;
    mk_opcode "vlseg3e32.v" 0 INSN_CLASS_V "Vd,0(s)Vm" MATCH_VLSEG3E32V MASK_VLSEG3E32V (Some MF_match_opcode) INSN_DREF;
    mk_opcode "vsseg3e32.v" 0 INSN_CLASS_V "Vd,0(s)Vm" MATCH_VSSEG3E32V MASK_VSSEG3E32V (Some MF_match_opcode) INSN_DREF;
    mk_opcode "vlseg4e32.v" 0 INSN_CLASS_V "Vd,0(s)Vm" MATCH_VLSEG4E32V MASK_VLSEG4E32V (Some MF_match_opcode) INSN_DREF;
    mk_opcode "vsseg4e32.v" 0 INSN_CLASS_V "Vd,0(s)Vm" MATCH_VSSEG4E32V MASK_VSSEG4E32V (Some MF_match_opcode) INSN_DREF;
    mk_opcode "vlseg5e32.v" 0 INSN_CLASS_V "Vd,0(s)Vm" MATCH_VLSEG5E32V MASK_VLSEG5E32V (Some MF_match_opcode) INSN_DREF;
    mk_opcode "vsseg5e32.v" 0 INSN_CLASS_V "Vd,0(s)Vm" MATCH_VSSEG5E32V MASK_VSSEG5E32V (Some MF_match_opcode) INSN_DREF;
    mk_opcode "vlseg6e32.v" 0 INSN_CLASS_V "Vd,0(s)Vm" MATCH_VLSEG6E32V MASK_VLSEG6E32V (Some MF_match_opcode) INSN_DREF;
    mk_opcode "vsseg6e32.v" 0 INSN_CLASS_V "Vd,0(s)Vm" MATCH_VSSEG6E32V MASK_VSSEG6E32V (Some MF_match_opcode) INSN_DREF;
    mk_opcode "vlseg7e32.v" 0 INSN_CLASS_V "Vd,0(s)Vm" MATCH_VLSEG7E32V MASK_VLSEG7E32V (Some MF_match_opcode) INSN_DREF;
    mk_opcode "vsseg7e32.v" 0 INSN_CLASS_V "Vd,0(s)Vm" MATCH_VSSEG7E32V MASK_VSSEG7E32V (Some MF_match_opcode) INSN_DREF;
    mk_opcode "vlseg8e32.v" 0 INSN_CLASS_V "Vd,0(s)Vm" MATCH_VLSEG8E32V MASK_VLSEG8E32V (Some MF_match_opcode) INSN_DREF;
    mk_opcode "vsseg8e32.v" 0 INSN_CLASS_V "Vd,0(s)Vm" MATCH_VSSEG8E32V MASK_VSSEG8E32V (Some MF_match_opcode) INSN_DREF;
    mk_opcode "vlseg2e64.v" 0 INSN_CLASS_V "Vd,0(s)Vm" MATCH_VLSEG2E64V MASK_VLSEG2E64V (Some MF_match_opcode) (INSN_DREF .| INSN_V_EEW64);
    mk_opcode "vsseg2e64.v" 0 INSN_CLASS_V "Vd,0(s)Vm" MATCH_VSSEG2E64V MASK_VSSEG2E64V (Some MF_match_opcode) (INSN_DREF .| INSN_V_EEW64);
    mk_opcode "vlseg3e64.v" 0 INSN_CLASS_V "Vd,0(s)Vm" MATCH_VLSEG3E64V MASK_VLSEG3E64V (Some MF_match_opcode) (INSN_DREF .| INSN_V_EEW64);
    mk_opcode "vsseg3e64.v" 0 INSN_CLASS_V "Vd,0(s)Vm" MATCH_VSSEG3E64V MASK_VSSEG3E64V (Some MF_match_opcode) (INSN_DREF .| INSN_V_EEW64);
    mk_opcode "vlseg4e64.v" 0 INSN_CLASS_V "Vd,0(s)Vm" MATCH_VLSEG4E64V MASK_VLSEG4E64V (Some MF_match_opcode) (INSN_DREF .| INSN_V_EEW64);
    mk_opcode "vsseg4e64.v" 0 INSN_CLASS_V "Vd,0(s)Vm" MATCH_VSSEG4E64V MASK_VSSEG4E64V (Some MF_match_opcode) (INSN_DREF .| INSN_V_EEW64);
    mk_opcode "vlseg5e64.v" 0 INSN_CLASS_V "Vd,0(s)Vm" MATCH_VLSEG5E64V MASK_VLSEG5E64V (Some MF_match_opcode) (INSN_DREF .| INSN_V_EEW64);
    mk_opcode "vsseg5e64.v" 0 INSN_CLASS_V "Vd,0(s)Vm" MATCH_VSSEG5E64V MASK_VSSEG5E64V (Some MF_match_opcode) (INSN_DREF .| INSN_V_EEW64);
    mk_opcode "vlseg6e64.v" 0 INSN_CLASS_V "Vd,0(s)Vm" MATCH_VLSEG6E64V MASK_VLSEG6E64V (Some MF_match_opcode) (INSN_DREF .| INSN_V_EEW64);
    mk_opcode "vsseg6e64.v" 0 INSN_CLASS_V "Vd,0(s)Vm" MATCH_VSSEG6E64V MASK_VSSEG6E64V (Some MF_match_opcode) (INSN_DREF .| INSN_V_EEW64);
    mk_opcode "vlseg7e64.v" 0 INSN_CLASS_V "Vd,0(s)Vm" MATCH_VLSEG7E64V MASK_VLSEG7E64V (Some MF_match_opcode) (INSN_DREF .| INSN_V_EEW64);
    mk_opcode "vsseg7e64.v" 0 INSN_CLASS_V "Vd,0(s)Vm" MATCH_VSSEG7E64V MASK_VSSEG7E64V (Some MF_match_opcode) (INSN_DREF .| INSN_V_EEW64);
    mk_opcode "vlseg8e64.v" 0 INSN_CLASS_V "Vd,0(s)Vm" MATCH_VLSEG8E64V MASK_VLSEG8E64V (Some MF_match_opcode) (INSN_DREF .| INSN_V_EEW64);
    mk_opcode "vsseg8e64.v" 0 INSN_CLASS_V "Vd,0(s)Vm" MATCH_VSSEG8E64V MASK_VSSEG8E64V (Some MF_match_opcode) (INSN_DREF .| INSN_V_EEW64);
    mk_opcode "vlsseg2e8.v" 0 INSN_CLASS_V "Vd,0(s),tVm" MATCH_VLSSEG2E8V MASK_VLSSEG2E8V (Some MF_match_opcode) INSN_DREF;
    mk_opcode "vssseg2e8.v" 0 INSN_CLASS_V "Vd,0(s),tVm" MATCH_VSSSEG2E8V MASK_VSSSEG2E8V (Some MF_match_opcode) INSN_DREF;
    mk_opcode "vlsseg3e8.v" 0 INSN_CLASS_V "Vd,0(s),tVm" MATCH_VLSSEG3E8V MASK_VLSSEG3E8V (Some MF_match_opcode) INSN_DREF;
    mk_opcode "vssseg3e8.v" 0 INSN_CLASS_V "Vd,0(s),tVm" MATCH_VSSSEG3E8V MASK_VSSSEG3E8V (Some MF_match_opcode) INSN_DREF;
    mk_opcode "vlsseg4e8.v" 0 INSN_CLASS_V "Vd,0(s),tVm" MATCH_VLSSEG4E8V MASK_VLSSEG4E8V (Some MF_match_opcode) INSN_DREF;
    mk_opcode "vssseg4e8.v" 0 INSN_CLASS_V "Vd,0(s),tVm" MATCH_VSSSEG4E8V MASK_VSSSEG4E8V (Some MF_match_opcode) INSN_DREF;
    mk_opcode "vlsseg5e8.v" 0 INSN_CLASS_V "Vd,0(s),tVm" MATCH_VLSSEG5E8V MASK_VLSSEG5E8V (Some MF_match_opcode) INSN_DREF;
    mk_opcode "vssseg5e8.v" 0 INSN_CLASS_V "Vd,0(s),tVm" MATCH_VSSSEG5E8V MASK_VSSSEG5E8V (Some MF_match_opcode) INSN_DREF;
    mk_opcode "vlsseg6e8.v" 0 INSN_CLASS_V "Vd,0(s),tVm" MATCH_VLSSEG6E8V MASK_VLSSEG6E8V (Some MF_match_opcode) INSN_DREF;
    mk_opcode "vssseg6e8.v" 0 INSN_CLASS_V "Vd,0(s),tVm" MATCH_VSSSEG6E8V MASK_VSSSEG6E8V (Some MF_match_opcode) INSN_DREF;
    mk_opcode "vlsseg7e8.v" 0 INSN_CLASS_V "Vd,0(s),tVm" MATCH_VLSSEG7E8V MASK_VLSSEG7E8V (Some MF_match_opcode) INSN_DREF;
    mk_opcode "vssseg7e8.v" 0 INSN_CLASS_V "Vd,0(s),tVm" MATCH_VSSSEG7E8V MASK_VSSSEG7E8V (Some MF_match_opcode) INSN_DREF;
    mk_opcode "vlsseg8e8.v" 0 INSN_CLASS_V "Vd,0(s),tVm" MATCH_VLSSEG8E8V MASK_VLSSEG8E8V (Some MF_match_opcode) INSN_DREF;
    mk_opcode "vssseg8e8.v" 0 INSN_CLASS_V "Vd,0(s),tVm" MATCH_VSSSEG8E8V MASK_VSSSEG8E8V (Some MF_match_opcode) INSN_DREF;
    mk_opcode "vlsseg2e16.v" 0 INSN_CLASS_V "Vd,0(s),tVm" MATCH_VLSSEG2E16V MASK_VLSSEG2E16V (Some MF_match_opcode) INSN_DREF;
    mk_opcode "vssseg2e16.v" 0 INSN_CLASS_V "Vd,0(s),tVm" MATCH_VSSSEG2E16V MASK_VSSSEG2E16V (Some MF_match_opcode) INSN_DREF;
    mk_opcode "vlsseg3e16.v" 0 INSN_CLASS_V "Vd,0(s),tVm" MATCH_VLSSEG3E16V MASK_VLSSEG3E16V (Some MF_match_opcode) INSN_DREF;
    mk_opcode "vssseg3e16.v" 0 INSN_CLASS_V "Vd,0(s),tVm" MATCH_VSSSEG3E16V MASK_VSSSEG3E16V (Some MF_match_opcode) INSN_DREF;
    mk_opcode "vlsseg4e16.v" 0 INSN_CLASS_V "Vd,0(s),tVm" MATCH_VLSSEG4E16V MASK_VLSSEG4E16V (Some MF_match_opcode) INSN_DREF;
    mk_opcode "vssseg4e16.v" 0 INSN_CLASS_V "Vd,0(s),tVm" MATCH_VSSSEG4E16V MASK_VSSSEG4E16V (Some MF_match_opcode) INSN_DREF;
    mk_opcode "vlsseg5e16.v" 0 INSN_CLASS_V "Vd,0(s),tVm" MATCH_VLSSEG5E16V MASK_VLSSEG5E16V (Some MF_match_opcode) INSN_DREF;
    mk_opcode "vssseg5e16.v" 0 INSN_CLASS_V "Vd,0(s),tVm" MATCH_VSSSEG5E16V MASK_VSSSEG5E16V (Some MF_match_opcode) INSN_DREF;
    mk_opcode "vlsseg6e16.v" 0 INSN_CLASS_V "Vd,0(s),tVm" MATCH_VLSSEG6E16V MASK_VLSSEG6E16V (Some MF_match_opcode) INSN_DREF;
    mk_opcode "vssseg6e16.v" 0 INSN_CLASS_V "Vd,0(s),tVm" MATCH_VSSSEG6E16V MASK_VSSSEG6E16V (Some MF_match_opcode) INSN_DREF;
    mk_opcode "vlsseg7e16.v" 0 INSN_CLASS_V "Vd,0(s),tVm" MATCH_VLSSEG7E16V MASK_VLSSEG7E16V (Some MF_match_opcode) INSN_DREF;
    mk_opcode "vssseg7e16.v" 0 INSN_CLASS_V "Vd,0(s),tVm" MATCH_VSSSEG7E16V MASK_VSSSEG7E16V (Some MF_match_opcode) INSN_DREF;
    mk_opcode "vlsseg8e16.v" 0 INSN_CLASS_V "Vd,0(s),tVm" MATCH_VLSSEG8E16V MASK_VLSSEG8E16V (Some MF_match_opcode) INSN_DREF;
    mk_opcode "vssseg8e16.v" 0 INSN_CLASS_V "Vd,0(s),tVm" MATCH_VSSSEG8E16V MASK_VSSSEG8E16V (Some MF_match_opcode) INSN_DREF;
    mk_opcode "vlsseg2e32.v" 0 INSN_CLASS_V "Vd,0(s),tVm" MATCH_VLSSEG2E32V MASK_VLSSEG2E32V (Some MF_match_opcode) INSN_DREF;
    mk_opcode "vssseg2e32.v" 0 INSN_CLASS_V "Vd,0(s),tVm" MATCH_VSSSEG2E32V MASK_VSSSEG2E32V (Some MF_match_opcode) INSN_DREF;
    mk_opcode "vlsseg3e32.v" 0 INSN_CLASS_V "Vd,0(s),tVm" MATCH_VLSSEG3E32V MASK_VLSSEG3E32V (Some MF_match_opcode) INSN_DREF;
    mk_opcode "vssseg3e32.v" 0 INSN_CLASS_V "Vd,0(s),tVm" MATCH_VSSSEG3E32V MASK_VSSSEG3E32V (Some MF_match_opcode) INSN_DREF;
    mk_opcode "vlsseg4e32.v" 0 INSN_CLASS_V "Vd,0(s),tVm" MATCH_VLSSEG4E32V MASK_VLSSEG4E32V (Some MF_match_opcode) INSN_DREF;
    mk_opcode "vssseg4e32.v" 0 INSN_CLASS_V "Vd,0(s),tVm" MATCH_VSSSEG4E32V MASK_VSSSEG4E32V (Some MF_match_opcode) INSN_DREF;
    mk_opcode "vlsseg5e32.v" 0 INSN_CLASS_V "Vd,0(s),tVm" MATCH_VLSSEG5E32V MASK_VLSSEG5E32V (Some MF_match_opcode) INSN_DREF;
    mk_opcode "vssseg5e32.v" 0 INSN_CLASS_V "Vd,0(s),tVm" MATCH_VSSSEG5E32V MASK_VSSSEG5E32V (Some MF_match_opcode) INSN_DREF;
    mk_opcode "vlsseg6e32.v" 0 INSN_CLASS_V "Vd,0(s),tVm" MATCH_VLSSEG6E32V MASK_VLSSEG6E32V (Some MF_match_opcode) INSN_DREF;
    mk_opcode "vssseg6e32.v" 0 INSN_CLASS_V "Vd,0(s),tVm" MATCH_VSSSEG6E32V MASK_VSSSEG6E32V (Some MF_match_opcode) INSN_DREF;
    mk_opcode "vlsseg7e32.v" 0 INSN_CLASS_V "Vd,0(s),tVm" MATCH_VLSSEG7E32V MASK_VLSSEG7E32V (Some MF_match_opcode) INSN_DREF;
    mk_opcode "vssseg7e32.v" 0 INSN_CLASS_V "Vd,0(s),tVm" MATCH_VSSSEG7E32V MASK_VSSSEG7E32V (Some MF_match_opcode) INSN_DREF;
    mk_opcode "vlsseg8e32.v" 0 INSN_CLASS_V "Vd,0(s),tVm" MATCH_VLSSEG8E32V MASK_VLSSEG8E32V (Some MF_match_opcode) INSN_DREF;
    mk_opcode "vssseg8e32.v" 0 INSN_CLASS_V "Vd,0(s),tVm" MATCH_VSSSEG8E32V MASK_VSSSEG8E32V (Some MF_match_opcode) INSN_DREF;
    mk_opcode "vlsseg2e64.v" 0 INSN_CLASS_V "Vd,0(s),tVm" MATCH_VLSSEG2E64V MASK_VLSSEG2E64V (Some MF_match_opcode) (INSN_DREF .| INSN_V_EEW64);
    mk_opcode "vssseg2e64.v" 0 INSN_CLASS_V "Vd,0(s),tVm" MATCH_VSSSEG2E64V MASK_VSSSEG2E64V (Some MF_match_opcode) (INSN_DREF .| INSN_V_EEW64);
    mk_opcode "vlsseg3e64.v" 0 INSN_CLASS_V "Vd,0(s),tVm" MATCH_VLSSEG3E64V MASK_VLSSEG3E64V (Some MF_match_opcode) (INSN_DREF .| INSN_V_EEW64);
    mk_opcode "vssseg3e64.v" 0 INSN_CLASS_V "Vd,0(s),tVm" MATCH_VSSSEG3E64V MASK_VSSSEG3E64V (Some MF_match_opcode) (INSN_DREF .| INSN_V_EEW64);
    mk_opcode "vlsseg4e64.v" 0 INSN_CLASS_V "Vd,0(s),tVm" MATCH_VLSSEG4E64V MASK_VLSSEG4E64V (Some MF_match_opcode) (INSN_DREF .| INSN_V_EEW64);
    mk_opcode "vssseg4e64.v" 0 INSN_CLASS_V "Vd,0(s),tVm" MATCH_VSSSEG4E64V MASK_VSSSEG4E64V (Some MF_match_opcode) (INSN_DREF .| INSN_V_EEW64) ].

