(* ===== verification/OpcodeTableB.v ===== *)
(** * The opcode table of opcodes/riscv-opc.c, part 2 of 3

    Consecutive blocks of [riscv_opcodes], one row per entry of the source. *)
From Stdlib Require Import ZArith.
From stdpp Require Import base strings list.
From S2P Require Import Prelude OpcodeH RiscvH OpcodeMatch.

#[local] Open Scope Z_scope.
#[local] Open Scope c_scope.
#[local] Open Scope string_scope.

(** Lines 1331-1470. *)
Definition riscv_opcodes_8 : list riscv_opcode :=
  [ mk_opcode "vlsseg5e64.v" 0 INSN_CLASS_V "Vd,0(s),tVm" MATCH_VLSSEG5E64V MASK_VLSSEG5E64V (Some MF_match_opcode) (INSN_DREF .| INSN_V_EEW64);
    mk_opcode "vssseg5e64.v" 0 INSN_CLASS_V "Vd,0(s),tVm" MATCH_VSSSEG5E64V MASK_VSSSEG5E64V (Some MF_match_opcode) (INSN_DREF .| INSN_V_EEW64);
    mk_opcode "vlsseg6e64.v" 0 INSN_CLASS_V "Vd,0(s),tVm" MATCH_VLSSEG6E64V MASK_VLSSEG6E64V (Some MF_match_opcode) (INSN_DREF .| INSN_V_EEW64);
    mk_opcode "vssseg6e64.v" 0 INSN_CLASS_V "Vd,0(s),tVm" MATCH_VSSSEG6E64V MASK_VSSSEG6E64V (Some MF_match_opcode) (INSN_DREF .| INSN_V_EEW64);
    mk_opcode "vlsseg7e64.v" 0 INSN_CLASS_V "Vd,0(s),tVm" MATCH_VLSSEG7E64V MASK_VLSSEG7E64V (Some MF_match_opcode) (INSN_DREF .| INSN_V_EEW64);
    mk_opcode "vssseg7e64.v" 0 INSN_CLASS_V "Vd,0(s),tVm" MATCH_VSSSEG7E64V MASK_VSSSEG7E64V (Some MF_match_opcode) (INSN_DREF .| INSN_V_EEW64);
    mk_opcode "vlsseg8e64.v" 0 INSN_CLASS_V "Vd,0(s),tVm" MATCH_VLSSEG8E64V MASK_VLSSEG8E64V (Some MF_match_opcode) (INSN_DREF .| INSN_V_EEW64);
    mk_opcode "vssseg8e64.v" 0 INSN_CLASS_V "Vd,0(s),tVm" MATCH_VSSSEG8E64V MASK_VSSSEG8E64V (Some MF_match_opcode) (INSN_DREF .| INSN_V_EEW64);
    mk_opcode "vloxseg2ei8.v" 0 INSN_CLASS_V "Vd,0(s),VtVm" MATCH_VLOXSEG2EI8V MASK_VLOXSEG2EI8V (Some MF_match_opcode) INSN_DREF;
    mk_opcode "vsoxseg2ei8.v" 0 INSN_CLASS_V "Vd,0(s),VtVm" MATCH_VSOXSEG2EI8V MASK_VSOXSEG2EI8V (Some MF_match_opcode) INSN_DREF;
    mk_opcode "vloxseg3ei8.v" 0 INSN_CLASS_V "Vd,0(s),VtVm" MATCH_VLOXSEG3EI8V MASK_VLOXSEG3EI8V (Some MF_match_opcode) INSN_DREF;
    mk_opcode "vsoxseg3ei8.v" 0 INSN_CLASS_V "Vd,0(s),VtVm" MATCH_VSOXSEG3EI8V MASK_VSOXSEG3EI8V (Some MF_match_opcode) INSN_DREF;
    mk_opcode "vloxseg4ei8.v" 0 INSN_CLASS_V "Vd,0(s),VtVm" MATCH_VLOXSEG4EI8V MASK_VLOXSEG4EI8V (Some MF_match_opcode) INSN_DREF;
    mk_opcode "vsoxseg4ei8.v" 0 INSN_CLASS_V "Vd,0(s),VtVm" MATCH_VSOXSEG4EI8V MASK_VSOXSEG4EI8V (Some MF_match_opcode) INSN_DREF;
    mk_opcode "vloxseg5ei8.v" 0 INSN_CLASS_V "Vd,0(s),VtVm" MATCH_VLOXSEG5EI8V MASK_VLOXSEG5EI8V (Some MF_match_opcode) INSN_DREF;
    mk_opcode "vsoxseg5ei8.v" 0 INSN_CLASS_V "Vd,0(s),VtVm" MATCH_VSOXSEG5EI8V MASK_VSOXSEG5EI8V (Some MF_match_opcode) INSN_DREF;
    mk_opcode "vloxseg6ei8.v" 0 INSN_CLASS_V "Vd,0(s),VtVm" MATCH_VLOXSEG6EI8V MASK_VLOXSEG6EI8V (Some MF_match_opcode) INSN_DREF;
    mk_opcode "vsoxseg6ei8.v" 0 INSN_CLASS_V "Vd,0(s),VtVm" MATCH_VSOXSEG6EI8V MASK_VSOXSEG6EI8V (Some MF_match_opcode) INSN_DREF;
    mk_opcode "vloxseg7ei8.v" 0 INSN_CLASS_V "Vd,0(s),VtVm" MATCH_VLOXSEG7EI8V MASK_VLOXSEG7EI8V (Some MF_match_opcode) INSN_DREF;
    mk_opcode "vsoxseg7ei8.v" 0 INSN_CLASS_V "Vd,0(s),VtVm" MATCH_VSOXSEG7EI8V MASK_VSOXSEG7EI8V (Some MF_match_opcode) INSN_DREF;
    mk_opcode "vloxseg8ei8.v" 0 INSN_CLASS_V "Vd,0(s),VtVm" MATCH_VLOXSEG8EI8V MASK_VLOXSEG8EI8V (Some MF_match_opcode) INSN_DREF;
    mk_opcode "vsoxseg8ei8.v" 0 INSN_CLASS_V "Vd,0(s),VtVm" MATCH_VSOXSEG8EI8V MASK_VSOXSEG8EI8V (Some MF_match_opcode) INSN_DREF;
    mk_opcode "vloxseg2ei16.v" 0 INSN_CLASS_V "Vd,0(s),VtVm" MATCH_VLOXSEG2EI16V MASK_VLOXSEG2EI16V (Some MF_match_opcode) INSN_DREF;
    mk_opcode "vsoxseg2ei16.v" 0 INSN_CLASS_V "Vd,0(s),VtVm" MATCH_VSOXSEG2EI16V MASK_VSOXSEG2EI16V (Some MF_match_opcode) INSN_DREF;
    mk_opcode "vloxseg3ei16.v" 0 INSN_CLASS_V "Vd,0(s),VtVm" MATCH_VLOXSEG3EI16V MASK_VLOXSEG3EI16V (Some MF_match_opcode) INSN_DREF;
    mk_opcode "vsoxseg3ei16.v" 0 INSN_CLASS_V "Vd,0(s),VtVm" MATCH_VSOXSEG3EI16V MASK_VSOXSEG3EI16V (Some MF_match_opcode) INSN_DREF;
    mk_opcode "vloxseg4ei16.v" 0 INSN_CLASS_V "Vd,0(s),VtVm" MATCH_VLOXSEG4EI16V MASK_VLOXSEG4EI16V (Some MF_match_opcode) INSN_DREF;
    mk_opcode "vsoxseg4ei16.v" 0 INSN_CLASS_V "Vd,0(s),VtVm" MATCH_VSOXSEG4EI16V MASK_VSOXSEG4EI16V (Some MF_match_opcode) INSN_DREF;
    mk_opcode "vloxseg5ei16.v" 0 INSN_CLASS_V "Vd,0(s),VtVm" MATCH_VLOXSEG5EI16V MASK_VLOXSEG5EI16V (Some MF_match_opcode) INSN_DREF;
    mk_opcode "vsoxseg5ei16.v" 0 INSN_CLASS_V "Vd,0(s),VtVm" MATCH_VSOXSEG5EI16V MASK_VSOXSEG5EI16V (Some MF_match_opcode) INSN_DREF;
    mk_opcode "vloxseg6ei16.v" 0 INSN_CLASS_V "Vd,0(s),VtVm" MATCH_VLOXSEG6EI16V MASK_VLOXSEG6EI16V (Some MF_match_opcode) INSN_DREF;
    mk_opcode "vsoxseg6ei16.v" 0 INSN_CLASS_V "Vd,0(s),VtVm" MATCH_VSOXSEG6EI16V MASK_VSOXSEG6EI16V (Some MF_match_opcode) INSN_DREF;
    mk_opcode "vloxseg7ei16.v" 0 INSN_CLASS_V "Vd,0(s),VtVm" MATCH_VLOXSEG7EI16V MASK_VLOXSEG7EI16V (Some MF_match_opcode) INSN_DREF;
    mk_opcode "vsoxseg7ei16.v" 0 INSN_CLASS_V "Vd,0(s),VtVm" MATCH_VSOXSEG7EI16V MASK_VSOXSEG7EI16V (Some MF_match_opcode) INSN_DREF;
    mk_opcode "vloxseg8ei16.v" 0 INSN_CLASS_V "Vd,0(s),VtVm" MATCH_VLOXSEG8EI16V MASK_VLOXSEG8EI16V (Some MF_match_opcode) INSN_DREF;
    mk_opcode "vsoxseg8ei16.v" 0 INSN_CLASS_V "Vd,0(s),VtVm" MATCH_VSOXSEG8EI16V MASK_VSOXSEG8EI16V (Some MF_match_opcode) INSN_DREF;
    mk_opcode "vloxseg2ei32.v" 0 INSN_CLASS_V "Vd,0(s),VtVm" MATCH_VLOXSEG2EI32V MASK_VLOXSEG2EI32V (Some MF_match_opcode) INSN_DREF;
    mk_opcode "vsoxseg2ei32.v" 0 INSN_CLASS_V "Vd,0(s),VtVm" MATCH_VSOXSEG2EI32V MASK_VSOXSEG2EI32V (Some MF_match_opcode) INSN_DREF;
    mk_opcode "vloxseg3ei32.v" 0 INSN_CLASS_V "Vd,0(s),VtVm" MATCH_VLOXSEG3EI32V MASK_VLOXSEG3EI32V (Some MF_match_opcode) INSN_DREF;
    mk_opcode "vsoxseg3ei32.v" 0 INSN_CLASS_V "Vd,0(s),VtVm" MATCH_VSOXSEG3EI32V MASK_VSOXSEG3EI32V (Some MF_match_opcode) INSN_DREF;
    mk_opcode "vloxseg4ei32.v" 0 INSN_CLASS_V "Vd,0(s),VtVm" MATCH_VLOXSEG4EI32V MASK_VLOXSEG4EI32V (Some MF_match_opcode) INSN_DREF;
    mk_opcode "vsoxseg4ei32.v" 0 INSN_CLASS_V "Vd,0(s),VtVm" MATCH_VSOXSEG4EI32V MASK_VSOXSEG4EI32V (Some MF_match_opcode) INSN_DREF;
    mk_opcode "vloxseg5ei32.v" 0 INSN_CLASS_V "Vd,0(s),VtVm" MATCH_VLOXSEG5EI32V MASK_VLOXSEG5EI32V (Some MF_match_opcode) INSN_DREF;
    mk_opcode "vsoxseg5ei32.v" 0 INSN_CLASS_V "Vd,0(s),VtVm" MATCH_VSOXSEG5EI32V MASK_VSOXSEG5EI32V (Some MF_match_opcode) INSN_DREF;
    mk_opcode "vloxseg6ei32.v" 0 INSN_CLASS_V "Vd,0(s),VtVm" MATCH_VLOXSEG6EI32V MASK_VLOXSEG6EI32V (Some MF_match_opcode) INSN_DREF;
    mk_opcode "vsoxseg6ei32.v" 0 INSN_CLASS_V "Vd,0(s),VtVm" MATCH_VSOXSEG6EI32V MASK_VSOXSEG6EI32V (Some MF_match_opcode) INSN_DREF;
    mk_opcode "vloxseg7ei32.v" 0 INSN_CLASS_V "Vd,0(s),VtVm" MATCH_VLOXSEG7EI32V MASK_VLOXSEG7EI32V (Some MF_match_opcode) INSN_DREF;
    mk_opcode "vsoxseg7ei32.v" 0 INSN_CLASS_V "Vd,0(s),VtVm" MATCH_VSOXSEG7EI32V MASK_VSOXSEG7EI32V (Some MF_match_opcode) INSN_DREF;
    mk_opcode "vloxseg8ei32.v" 0 INSN_CLASS_V "Vd,0(s),VtVm" MATCH_VLOXSEG8EI32V MASK_VLOXSEG8EI32V (Some MF_match_opcode) INSN_DREF;
    mk_opcode "vsoxseg8ei32.v" 0 INSN_CLASS_V "Vd,0(s),VtVm" MATCH_VSOXSEG8EI32V MASK_VSOXSEG8EI32V (Some MF_match_opcode) INSN_DREF;
    mk_opcode "vloxseg2ei64.v" 0 INSN_CLASS_V "Vd,0(s),VtVm" MATCH_VLOXSEG2EI64V MASK_VLOXSEG2EI64V (Some MF_match_opcode) (INSN_DREF .| INSN_V_EEW64);
    mk_opcode "vsoxseg2ei64.v" 0 INSN_CLASS_V "Vd,0(s),VtVm" MATCH_VSOXSEG2EI64V MASK_VSOXSEG2EI64V (Some MF_match_opcode) (INSN_DREF .| INSN_V_EEW64);
    mk_opcode "vloxseg3ei64.v" 0 INSN_CLASS_V "Vd,0(s),VtVm" MATCH_VLOXSEG3EI64V MASK_VLOXSEG3EI64V (Some MF_match_opcode) (INSN_DREF .| INSN_V_EEW64);
    mk_opcode "vsoxseg3ei64.v" 0 INSN_CLASS_V "Vd,0(s),VtVm" MATCH_VSOXSEG3EI64V MASK_VSOXSEG3EI64V (Some MF_match_opcode) (INSN_DREF .| INSN_V_EEW64);
    mk_opcode "vloxseg4ei64.v" 0 INSN_CLASS_V "Vd,0(s),VtVm" MATCH_VLOXSEG4EI64V MASK_VLOXSEG4EI64V (Some MF_match_opcode) (INSN_DREF .| INSN_V_EEW64);
    mk_opcode "vsoxseg4ei64.v" 0 INSN_CLASS_V "Vd,0(s),VtVm" MATCH_VSOXSEG4EI64V MASK_VSOXSEG4EI64V (Some MF_match_opcode) (INSN_DREF .| INSN_V_EEW64);
    mk_opcode "vloxseg5ei64.v" 0 INSN_CLASS_V "Vd,0(s),VtVm" MATCH_VLOXSEG5EI64V MASK_VLOXSEG5EI64V (Some MF_match_opcode) (INSN_DREF .| INSN_V_EEW64);
    mk_opcode "vsoxseg5ei64.v" 0 INSN_CLASS_V "Vd,0(s),VtVm" MATCH_VSOXSEG5EI64V MASK_VSOXSEG5EI64V (Some MF_match_opcode) (INSN_DREF .| INSN_V_EEW64);
    mk_opcode "vloxseg6ei64.v" 0 INSN_CLASS_V "Vd,0(s),VtVm" MATCH_VLOXSEG6EI64V MASK_VLOXSEG6EI64V (Some MF_match_opcode) (INSN_DREF .| INSN_V_EEW64);
    mk_opcode "vsoxseg6ei64.v" 0 INSN_CLASS_V "Vd,0(s),VtVm" MATCH_VSOXSEG6EI64V MASK_VSOXSEG6EI64V (Some MF_match_opcode) (INSN_DREF .| INSN_V_EEW64);
    mk_opcode "vloxseg7ei64.v" 0 INSN_CLASS_V "Vd,0(s),VtVm" MATCH_VLOXSEG7EI64V MASK_VLOXSEG7EI64V (Some MF_match_opcode) (INSN_DREF .| INSN_V_EEW64);
    mk_opcode "vsoxseg7ei64.v" 0 INSN_CLASS_V "Vd,0(s),VtVm" MATCH_VSOXSEG7EI64V MASK_VSOXSEG7EI64V (Some MF_match_opcode) (INSN_DREF .| INSN_V_EEW64);
    mk_opcode "vloxseg8ei64.v" 0 INSN_CLASS_V "Vd,0(s),VtVm" MATCH_VLOXSEG8EI64V MASK_VLOXSEG8EI64V (Some MF_match_opcode) (INSN_DREF .| INSN_V_EEW64);
    mk_opcode "vsoxseg8ei64.v" 0 INSN_CLASS_V "Vd,0(s),VtVm" MATCH_VSOXSEG8EI64V MASK_VSOXSEG8EI64V (Some MF_match_opcode) (INSN_DREF .| INSN_V_EEW64);
    mk_opcode "vluxseg2ei8.v" 0 INSN_CLASS_V "Vd,0(s),VtVm" MATCH_VLUXSEG2EI8V MASK_VLUXSEG2EI8V (Some MF_match_opcode) INSN_DREF;
    mk_opcode "vsuxseg2ei8.v" 0 INSN_CLASS_V "Vd,0(s),VtVm" MATCH_VSUXSEG2EI8V MASK_VSUXSEG2EI8V (Some MF_match_opcode) INSN_DREF;
    mk_opcode "vluxseg3ei8.v" 0 INSN_CLASS_V "Vd,0(s),VtVm" MATCH_VLUXSEG3EI8V MASK_VLUXSEG3EI8V (Some MF_match_opcode) INSN_DREF;
    mk_opcode "vsuxseg3ei8.v" 0 INSN_CLASS_V "Vd,0(s),VtVm" MATCH_VSUXSEG3EI8V MASK_VSUXSEG3EI8V (Some MF_match_opcode) INSN_DREF;
    mk_opcode "vluxseg4ei8.v" 0 INSN_CLASS_V "Vd,0(s),VtVm" MATCH_VLUXSEG4EI8V MASK_VLUXSEG4EI8V (Some MF_match_opcode) INSN_DREF;
    mk_opcode "vsuxseg4ei8.v" 0 INSN_CLASS_V "Vd,0(s),VtVm" MATCH_VSUXSEG4EI8V MASK_VSUXSEG4EI8V (Some MF_match_opcode) INSN_DREF;
    mk_opcode "vluxseg5ei8.v" 0 INSN_CLASS_V "Vd,0(s),VtVm" MATCH_VLUXSEG5EI8V MASK_VLUXSEG5EI8V (Some MF_match_opcode) INSN_DREF;
    mk_opcode "vsuxseg5ei8.v" 0 INSN_CLASS_V "Vd,0(s),VtVm" MATCH_VSUXSEG5EI8V MASK_VSUXSEG5EI8V (Some MF_match_opcode) INSN_DREF;
    mk_opcode "vluxseg6ei8.v" 0 INSN_CLASS_V "Vd,0(s),VtVm" MATCH_VLUXSEG6EI8V MASK_VLUXSEG6EI8V (Some MF_match_opcode) INSN_DREF;
    mk_opcode "vsuxseg6ei8.v" 0 INSN_CLASS_V "Vd,0(s),VtVm" MATCH_VSUXSEG6EI8V MASK_VSUXSEG6EI8V (Some MF_match_opcode) INSN_DREF;
    mk_opcode "vluxseg7ei8.v" 0 INSN_CLASS_V "Vd,0(s),VtVm" MATCH_VLUXSEG7EI8V MASK_VLUXSEG7EI8V (Some MF_match_opcode) INSN_DREF;
    mk_opcode "vsuxseg7ei8.v" 0 INSN_CLASS_V "Vd,0(s),VtVm" MATCH_VSUXSEG7EI8V MASK_VSUXSEG7EI8V (Some MF_match_opcode) INSN_DREF;
    mk_opcode "vluxseg8ei8.v" 0 INSN_CLASS_V "Vd,0(s),VtVm" MATCH_VLUXSEG8EI8V MASK_VLUXSEG8EI8V (Some MF_match_opcode) INSN_DREF;
    mk_opcode "vsuxseg8ei8.v" 0 INSN_CLASS_V "Vd,0(s),VtVm" MATCH_VSUXSEG8EI8V MASK_VSUXSEG8EI8V (Some MF_match_opcode) INSN_DREF;
    mk_opcode "vluxseg2ei16.v" 0 INSN_CLASS_V "Vd,0(s),VtVm" MATCH_VLUXSEG2EI16V MASK_VLUXSEG2EI16V (Some MF_match_opcode) INSN_DREF;
    mk_opcode "vsuxseg2ei16.v" 0 INSN_CLASS_V "Vd,0(s),VtVm" MATCH_VSUXSEG2EI16V MASK_VSUXSEG2EI16V (Some MF_match_opcode) INSN_DREF;
    mk_opcode "vluxseg3ei16.v" 0 INSN_CLASS_V "Vd,0(s),VtVm" MATCH_VLUXSEG3EI16V MASK_VLUXSEG3EI16V (Some MF_match_opcode) INSN_DREF;
    mk_opcode "vsuxseg3ei16.v" 0 INSN_CLASS_V "Vd,0(s),VtVm" MATCH_VSUXSEG3EI16V MASK_VSUXSEG3EI16V (Some MF_match_opcode) INSN_DREF;
    mk_opcode "vluxseg4ei16.v" 0 INSN_CLASS_V "Vd,0(s),VtVm" MATCH_VLUXSEG4EI16V MASK_VLUXSEG4EI16V (Some MF_match_opcode) INSN_DREF;
    mk_opcode "vsuxseg4ei16.v" 0 INSN_CLASS_V "Vd,0(s),VtVm" MATCH_VSUXSEG4EI16V MASK_VSUXSEG4EI16V (Some MF_match_opcode) INSN_DREF;
    mk_opcode "vluxseg5ei16.v" 0 INSN_CLASS_V "Vd,0(s),VtVm" MATCH_VLUXSEG5EI16V MASK_VLUXSEG5EI16V (Some MF_match_opcode) INSN_DREF;
    mk_opcode "vsuxseg5ei16.v" 0 INSN_CLASS_V "Vd,0(s),VtVm" MATCH_VSUXSEG5EI16V MASK_VSUXSEG5EI16V (Some MF_match_opcode) INSN_DREF;
    mk_opcode "vluxseg6ei16.v" 0 INSN_CLASS_V "Vd,0(s),VtVm" MATCH_VLUXSEG6EI16V MASK_VLUXSEG6EI16V (Some MF_match_opcode) INSN_DREF;
    mk_opcode "vsuxseg6ei16.v" 0 INSN_CLASS_V "Vd,0(s),VtVm" MATCH_VSUXSEG6EI16V MASK_VSUXSEG6EI16V (Some MF_match_opcode) INSN_DREF;
    mk_opcode "vluxseg7ei16.v" 0 INSN_CLASS_V "Vd,0(s),VtVm" MATCH_VLUXSEG7EI16V MASK_VLUXSEG7EI16V (Some MF_match_opcode) INSN_DREF;
    mk_opcode "vsuxseg7ei16.v" 0 INSN_CLASS_V "Vd,0(s),VtVm" MATCH_VSUXSEG7EI16V MASK_VSUXSEG7EI16V (Some MF_match_opcode) INSN_DREF;
    mk_opcode "vluxseg8ei16.v" 0 INSN_CLASS_V "Vd,0(s),VtVm" MATCH_VLUXSEG8EI16V MASK_VLUXSEG8EI16V (Some MF_match_opcode) INSN_DREF;
    mk_opcode "vsuxseg8ei16.v" 0 INSN_CLASS_V "Vd,0(s),VtVm" MATCH_VSUXSEG8EI16V MASK_VSUXSEG8EI16V (Some MF_match_opcode) INSN_DREF;
    mk_opcode "vluxseg2ei32.v" 0 INSN_CLASS_V "Vd,0(s),VtVm" MATCH_VLUXSEG2EI32V MASK_VLUXSEG2EI32V (Some MF_match_opcode) INSN_DREF;
    mk_opcode "vsuxseg2ei32.v" 0 INSN_CLASS_V "Vd,0(s),VtVm" MATCH_VSUXSEG2EI32V MASK_VSUXSEG2EI32V (Some MF_match_opcode) INSN_DREF;
    mk_opcode "vluxseg3ei32.v" 0 INSN_CLASS_V "Vd,0(s),VtVm" MATCH_VLUXSEG3EI32V MASK_VLUXSEG3EI32V (Some MF_match_opcode) INSN_DREF;
    mk_opcode "vsuxseg3ei32.v" 0 INSN_CLASS_V "Vd,0(s),VtVm" MATCH_VSUXSEG3EI32V MASK_VSUXSEG3EI32V (Some MF_match_opcode) INSN_DREF;
    mk_opcode "vluxseg4ei32.v" 0 INSN_CLASS_V "Vd,0(s),VtVm" MATCH_VLUXSEG4EI32V MASK_VLUXSEG4EI32V (Some MF_match_opcode) INSN_DREF;
    mk_opcode "vsuxseg4ei32.v" 0 INSN_CLASS_V "Vd,0(s),VtVm" MATCH_VSUXSEG4EI32V MASK_VSUXSEG4EI32V (Some MF_match_opcode) INSN_DREF;
    mk_opcode "vluxseg5ei32.v" 0 INSN_CLASS_V "Vd,0(s),VtVm" MATCH_VLUXSEG5EI32V MASK_VLUXSEG5EI32V (Some MF_match_opcode) INSN_DREF;
    mk_opcode "vsuxseg5ei32.v" 0 INSN_CLASS_V "Vd,0(s),VtVm" MATCH_VSUXSEG5EI32V MASK_VSUXSEG5EI32V (Some MF_match_opcode) INSN_DREF;
    mk_opcode "vluxseg6ei32.v" 0 INSN_CLASS_V "Vd,0(s),VtVm" MATCH_VLUXSEG6EI32V MASK_VLUXSEG6EI32V (Some MF_match_opcode) INSN_DREF;
    mk_opcode "vsuxseg6ei32.v" 0 INSN_CLASS_V "Vd,0(s),VtVm" MATCH_VSUXSEG6EI32V MASK_VSUXSEG6EI32V (Some MF_match_opcode) INSN_DREF;
    mk_opcode "vluxseg7ei32.v" 0 INSN_CLASS_V "Vd,0(s),VtVm" MATCH_VLUXSEG7EI32V MASK_VLUXSEG7EI32V (Some MF_match_opcode) INSN_DREF;
    mk_opcode "vsuxseg7ei32.v" 0 INSN_CLASS_V "Vd,0(s),VtVm" MATCH_VSUXSEG7EI32V MASK_VSUXSEG7EI32V (Some MF_match_opcode) INSN_DREF;
    mk_opcode "vluxseg8ei32.v" 0 INSN_CLASS_V "Vd,0(s),VtVm" MATCH_VLUXSEG8EI32V MASK_VLUXSEG8EI32V (Some MF_match_opcode) INSN_DREF;
    mk_opcode "vsuxseg8ei32.v" 0 INSN_CLASS_V "Vd,0(s),VtVm" MATCH_VSUXSEG8EI32V MASK_VSUXSEG8EI32V (Some MF_match_opcode) INSN_DREF;
    mk_opcode "vluxseg2ei64.v" 0 INSN_CLASS_V "Vd,0(s),VtVm" MATCH_VLUXSEG2EI64V MASK_VLUXSEG2EI64V (Some MF_match_opcode) (INSN_DREF .| INSN_V_EEW64);
    mk_opcode "vsuxseg2ei64.v" 0 INSN_CLASS_V "Vd,0(s),VtVm" MATCH_VSUXSEG2EI64V MASK_VSUXSEG2EI64V (Some MF_match_opcode) (INSN_DREF .| INSN_V_EEW64);
    mk_opcode "vluxseg3ei64.v" 0 INSN_CLASS_V "Vd,0(s),VtVm" MATCH_VLUXSEG3EI64V MASK_VLUXSEG3EI64V (Some MF_match_opcode) (INSN_DREF .| INSN_V_EEW64);
    mk_opcode "vsuxseg3ei64.v" 0 INSN_CLASS_V "Vd,0(s),VtVm" MATCH_VSUXSEG3EI64V MASK_VSUXSEG3EI64V (Some MF_match_opcode) (INSN_DREF .| INSN_V_EEW64);
    mk_opcode "vluxseg4ei64.v" 0 INSN_CLASS_V "Vd,0(s),VtVm" MATCH_VLUXSEG4EI64V MASK_VLUXSEG4EI64V (Some MF_match_opcode) (INSN_DREF .| INSN_V_EEW64);
    mk_opcode "vsuxseg4ei64.v" 0 INSN_CLASS_V "Vd,0(s),VtVm" MATCH_VSUXSEG4EI64V MASK_VSUXSEG4EI64V (Some MF_match_opcode) (INSN_DREF .| INSN_V_EEW64);
    mk_opcode "vluxseg5ei64.v" 0 INSN_CLASS_V "Vd,0(s),VtVm" MATCH_VLUXSEG5EI64V MASK_VLUXSEG5EI64V (Some MF_match_opcode) (INSN_DREF .| INSN_V_EEW64);
    mk_opcode "vsuxseg5ei64.v" 0 INSN_CLASS_V "Vd,0(s),VtVm" MATCH_VSUXSEG5EI64V MASK_VSUXSEG5EI64V (Some MF_match_opcode) (INSN_DREF .| INSN_V_EEW64);
    mk_opcode "vluxseg6ei64.v" 0 INSN_CLASS_V "Vd,0(s),VtVm" MATCH_VLUXSEG6EI64V MASK_VLUXSEG6EI64V (Some MF_match_opcode) (INSN_DREF .| INSN_V_EEW64);
    mk_opcode "vsuxseg6ei64.v" 0 INSN_CLASS_V "Vd,0(s),VtVm" MATCH_VSUXSEG6EI64V MASK_VSUXSEG6EI64V (Some MF_match_opcode) (INSN_DREF .| INSN_V_EEW64);
    mk_opcode "vluxseg7ei64.v" 0 INSN_CLASS_V "Vd,0(s),VtVm" MATCH_VLUXSEG7EI64V MASK_VLUXSEG7EI64V (Some MF_match_opcode) (INSN_DREF .| INSN_V_EEW64);
    mk_opcode "vsuxseg7ei64.v" 0 INSN_CLASS_V "Vd,0(s),VtVm" MATCH_VSUXSEG7EI64V MASK_VSUXSEG7EI64V (Some MF_match_opcode) (INSN_DREF .| INSN_V_EEW64);
    mk_opcode "vluxseg8ei64.v" 0 INSN_CLASS_V "Vd,0(s),VtVm" MATCH_VLUXSEG8EI64V MASK_VLUXSEG8EI64V (Some MF_match_opcode) (INSN_DREF .| INSN_V_EEW64);
    mk_opcode "vsuxseg8ei64.v" 0 INSN_CLASS_V "Vd,0(s),VtVm" MATCH_VSUXSEG8EI64V MASK_VSUXSEG8EI64V (Some MF_match_opcode) (INSN_DREF .| INSN_V_EEW64);
    mk_opcode "vlseg2e8ff.v" 0 INSN_CLASS_V "Vd,0(s)Vm" MATCH_VLSEG2E8FFV MASK_VLSEG2E8FFV (Some MF_match_opcode) INSN_DREF;
    mk_opcode "vlseg3e8ff.v" 0 INSN_CLASS_V "Vd,0(s)Vm" MATCH_VLSEG3E8FFV MASK_VLSEG3E8FFV (Some MF_match_opcode) INSN_DREF;
    mk_opcode "vlseg4e8ff.v" 0 INSN_CLASS_V "Vd,0(s)Vm" MATCH_VLSEG4E8FFV MASK_VLSEG4E8FFV (Some MF_match_opcode) INSN_DREF;
    mk_opcode "vlseg5e8ff.v" 0 INSN_CLASS_V "Vd,0(s)Vm" MATCH_VLSEG5E8FFV MASK_VLSEG5E8FFV (Some MF_match_opcode) INSN_DREF;
    mk_opcode "vlseg6e8ff.v" 0 INSN_CLASS_V "Vd,0(s)Vm" MATCH_VLSEG6E8FFV MASK_VLSEG6E8FFV (Some MF_match_opcode) INSN_DREF;
    mk_opcode "vlseg7e8ff.v" 0 INSN_CLASS_V "Vd,0(s)Vm" MATCH_VLSEG7E8FFV MASK_VLSEG7E8FFV (Some MF_match_opcode) INSN_DREF;
    mk_opcode "vlseg8e8ff.v" 0 INSN_CLASS_V "Vd,0(s)Vm" MATCH_VLSEG8E8FFV MASK_VLSEG8E8FFV (Some MF_match_opcode) INSN_DREF;
    mk_opcode "vlseg2e16ff.v" 0 INSN_CLASS_V "Vd,0(s)Vm" MATCH_VLSEG2E16FFV MASK_VLSEG2E16FFV (Some MF_match_opcode) INSN_DREF;
    mk_opcode "vlseg3e16ff.v" 0 INSN_CLASS_V "Vd,0(s)Vm" MATCH_VLSEG3E16FFV MASK_VLSEG3E16FFV (Some MF_match_opcode) INSN_DREF;
    mk_opcode "vlseg4e16ff.v" 0 INSN_CLASS_V "Vd,0(s)Vm" MATCH_VLSEG4E16FFV MASK_VLSEG4E16FFV (Some MF_match_opcode) INSN_DREF ].

(** Lines 1471-1610. *)
Definition riscv_opcodes_9 : list riscv_opcode :=
  [ mk_opcode "vlseg5e16ff.v" 0 INSN_CLASS_V "Vd,0(s)Vm" MATCH_VLSEG5E16FFV MASK_VLSEG5E16FFV (Some MF_match_opcode) INSN_DREF;
    mk_opcode "vlseg6e16ff.v" 0 INSN_CLASS_V "Vd,0(s)Vm" MATCH_VLSEG6E16FFV MASK_VLSEG6E16FFV (Some MF_match_opcode) INSN_DREF;
    mk_opcode "vlseg7e16ff.v" 0 INSN_CLASS_V "Vd,0(s)Vm" MATCH_VLSEG7E16FFV MASK_VLSEG7E16FFV (Some MF_match_opcode) INSN_DREF;
    mk_opcode "vlseg8e16ff.v" 0 INSN_CLASS_V "Vd,0(s)Vm" MATCH_VLSEG8E16FFV MASK_VLSEG8E16FFV (Some MF_match_opcode) INSN_DREF;
    mk_opcode "vlseg2e32ff.v" 0 INSN_CLASS_V "Vd,0(s)Vm" MATCH_VLSEG2E32FFV MASK_VLSEG2E32FFV (Some MF_match_opcode) INSN_DREF;
    mk_opcode "vlseg3e32ff.v" 0 INSN_CLASS_V "Vd,0(s)Vm" MATCH_VLSEG3E32FFV MASK_VLSEG3E32FFV (Some MF_match_opcode) INSN_DREF;
    mk_opcode "vlseg4e32ff.v" 0 INSN_CLASS_V "Vd,0(s)Vm" MATCH_VLSEG4E32FFV MASK_VLSEG4E32FFV (Some MF_match_opcode) INSN_DREF;
    mk_opcode "vlseg5e32ff.v" 0 INSN_CLASS_V "Vd,0(s)Vm" MATCH_VLSEG5E32FFV MASK_VLSEG5E32FFV (Some MF_match_opcode) INSN_DREF;
    mk_opcode "vlseg6e32ff.v" 0 INSN_CLASS_V "Vd,0(s)Vm" MATCH_VLSEG6E32FFV MASK_VLSEG6E32FFV (Some MF_match_opcode) INSN_DREF;
    mk_opcode "vlseg7e32ff.v" 0 INSN_CLASS_V "Vd,0(s)Vm" MATCH_VLSEG7E32FFV MASK_VLSEG7E32FFV (Some MF_match_opcode) INSN_DREF;
    mk_opcode "vlseg8e32ff.v" 0 INSN_CLASS_V "Vd,0(s)Vm" MATCH_VLSEG8E32FFV MASK_VLSEG8E32FFV (Some MF_match_opcode) INSN_DREF;
    mk_opcode "vlseg2e64ff.v" 0 INSN_CLASS_V "Vd,0(s)Vm" MATCH_VLSEG2E64FFV MASK_VLSEG2E64FFV (Some MF_match_opcode) (INSN_DREF .| INSN_V_EEW64);
    mk_opcode "vlseg3e64ff.v" 0 INSN_CLASS_V "Vd,0(s)Vm" MATCH_VLSEG3E64FFV MASK_VLSEG3E64FFV (Some MF_match_opcode) (INSN_DREF .| INSN_V_EEW64);
    mk_opcode "vlseg4e64ff.v" 0 INSN_CLASS_V "Vd,0(s)Vm" MATCH_VLSEG4E64FFV MASK_VLSEG4E64FFV (Some MF_match_opcode) (INSN_DREF .| INSN_V_EEW64);
    mk_opcode "vlseg5e64ff.v" 0 INSN_CLASS_V "Vd,0(s)Vm" MATCH_VLSEG5E64FFV MASK_VLSEG5E64FFV (Some MF_match_opcode) (INSN_DREF .| INSN_V_EEW64);
    mk_opcode "vlseg6e64ff.v" 0 INSN_CLASS_V "Vd,0(s)Vm" MATCH_VLSEG6E64FFV MASK_VLSEG6E64FFV (Some MF_match_opcode) (INSN_DREF .| INSN_V_EEW64);
    mk_opcode "vlseg7e64ff.v" 0 INSN_CLASS_V "Vd,0(s)Vm" MATCH_VLSEG7E64FFV MASK_VLSEG7E64FFV (Some MF_match_opcode) (INSN_DREF .| INSN_V_EEW64);
    mk_opcode "vlseg8e64ff.v" 0 INSN_CLASS_V "Vd,0(s)Vm" MATCH_VLSEG8E64FFV MASK_VLSEG8E64FFV (Some MF_match_opcode) (INSN_DREF .| INSN_V_EEW64);
    mk_opcode "vl1r.v" 0 INSN_CLASS_V "Vd,0(s)" MATCH_VL1RE8V MASK_VL1RE8V (Some MF_match_opcode) (INSN_DREF .| INSN_ALIAS);
    mk_opcode "vl1re8.v" 0 INSN_CLASS_V "Vd,0(s)" MATCH_VL1RE8V MASK_VL1RE8V (Some MF_match_opcode) INSN_DREF;
    mk_opcode "vl1re16.v" 0 INSN_CLASS_V "Vd,0(s)" MATCH_VL1RE16V MASK_VL1RE16V (Some MF_match_opcode) INSN_DREF;
    mk_opcode "vl1re32.v" 0 INSN_CLASS_V "Vd,0(s)" MATCH_VL1RE32V MASK_VL1RE32V (Some MF_match_opcode) INSN_DREF;
    mk_opcode "vl1re64.v" 0 INSN_CLASS_V "Vd,0(s)" MATCH_VL1RE64V MASK_VL1RE64V (Some MF_match_opcode) (INSN_DREF .| INSN_V_EEW64);
    mk_opcode "vl2r.v" 0 INSN_CLASS_V "Vd,0(s)" MATCH_VL2RE8V MASK_VL2RE8V (Some MF_match_opcode) (INSN_DREF .| INSN_ALIAS);
    mk_opcode "vl2re8.v" 0 INSN_CLASS_V "Vd,0(s)" MATCH_VL2RE8V MASK_VL2RE8V (Some MF_match_opcode) INSN_DREF;
    mk_opcode "vl2re16.v" 0 INSN_CLASS_V "Vd,0(s)" MATCH_VL2RE16V MASK_VL2RE16V (Some MF_match_opcode) INSN_DREF;
    mk_opcode "vl2re32.v" 0 INSN_CLASS_V "Vd,0(s)" MATCH_VL2RE32V MASK_VL2RE32V (Some MF_match_opcode) INSN_DREF;
    mk_opcode "vl2re64.v" 0 INSN_CLASS_V "Vd,0(s)" MATCH_VL2RE64V MASK_VL2RE64V (Some MF_match_opcode) (INSN_DREF .| INSN_V_EEW64);
    mk_opcode "vl4r.v" 0 INSN_CLASS_V "Vd,0(s)" MATCH_VL4RE8V MASK_VL4RE8V (Some MF_match_opcode) (INSN_DREF .| INSN_ALIAS);
    mk_opcode "vl4re8.v" 0 INSN_CLASS_V "Vd,0(s)" MATCH_VL4RE8V MASK_VL4RE8V (Some MF_match_opcode) INSN_DREF;
    mk_opcode "vl4re16.v" 0 INSN_CLASS_V "Vd,0(s)" MATCH_VL4RE16V MASK_VL4RE16V (Some MF_match_opcode) INSN_DREF;
    mk_opcode "vl4re32.v" 0 INSN_CLASS_V "Vd,0(s)" MATCH_VL4RE32V MASK_VL4RE32V (Some MF_match_opcode) INSN_DREF;
    mk_opcode "vl4re64.v" 0 INSN_CLASS_V "Vd,0(s)" MATCH_VL4RE64V MASK_VL4RE64V (Some MF_match_opcode) (INSN_DREF .| INSN_V_EEW64);
    mk_opcode "vl8r.v" 0 INSN_CLASS_V "Vd,0(s)" MATCH_VL8RE8V MASK_VL8RE8V (Some MF_match_opcode) (INSN_DREF .| INSN_ALIAS);
    mk_opcode "vl8re8.v" 0 INSN_CLASS_V "Vd,0(s)" MATCH_VL8RE8V MASK_VL8RE8V (Some MF_match_opcode) INSN_DREF;
    mk_opcode "vl8re16.v" 0 INSN_CLASS_V "Vd,0(s)" MATCH_VL8RE16V MASK_VL8RE16V (Some MF_match_opcode) INSN_DREF;
    mk_opcode "vl8re32.v" 0 INSN_CLASS_V "Vd,0(s)" MATCH_VL8RE32V MASK_VL8RE32V (Some MF_match_opcode) INSN_DREF;
    mk_opcode "vl8re64.v" 0 INSN_CLASS_V "Vd,0(s)" MATCH_VL8RE64V MASK_VL8RE64V (Some MF_match_opcode) (INSN_DREF .| INSN_V_EEW64);
    mk_opcode "vs1r.v" 0 INSN_CLASS_V "Vd,0(s)" MATCH_VS1RV MASK_VS1RV (Some MF_match_opcode) INSN_DREF;
    mk_opcode "vs2r.v" 0 INSN_CLASS_V "Vd,0(s)" MATCH_VS2RV MASK_VS2RV (Some MF_match_opcode) INSN_DREF;
    mk_opcode "vs4r.v" 0 INSN_CLASS_V "Vd,0(s)" MATCH_VS4RV MASK_VS4RV (Some MF_match_opcode) INSN_DREF;
    mk_opcode "vs8r.v" 0 INSN_CLASS_V "Vd,0(s)" MATCH_VS8RV MASK_VS8RV (Some MF_match_opcode) INSN_DREF;
    mk_opcode "vneg.v" 0 INSN_CLASS_V "Vd,VtVm" MATCH_VRSUBVX (MASK_VRSUBVX .| MASK_RS1) (Some MF_match_opcode) INSN_ALIAS;
    mk_opcode "vadd.vv" 0 INSN_CLASS_V "Vd,Vt,VsVm" MATCH_VADDVV MASK_VADDVV (Some MF_match_opcode) 0;
    mk_opcode "vadd.vx" 0 INSN_CLASS_V "Vd,Vt,sVm" MATCH_VADDVX MASK_VADDVX (Some MF_match_opcode) 0;
    mk_opcode "vadd.vi" 0 INSN_CLASS_V "Vd,Vt,ViVm" MATCH_VADDVI MASK_VADDVI (Some MF_match_opcode) 0;
    mk_opcode "vsub.vv" 0 INSN_CLASS_V "Vd,Vt,VsVm" MATCH_VSUBVV MASK_VSUBVV (Some MF_match_opcode) 0;
    mk_opcode "vsub.vx" 0 INSN_CLASS_V "Vd,Vt,sVm" MATCH_VSUBVX MASK_VSUBVX (Some MF_match_opcode) 0;
    mk_opcode "vrsub.vx" 0 INSN_CLASS_V "Vd,Vt,sVm" MATCH_VRSUBVX MASK_VRSUBVX (Some MF_match_opcode) 0;
    mk_opcode "vrsub.vi" 0 INSN_CLASS_V "Vd,Vt,ViVm" MATCH_VRSUBVI MASK_VRSUBVI (Some MF_match_opcode) 0;
    mk_opcode "vwcvt.x.x.v" 0 INSN_CLASS_V "Vd,VtVm" MATCH_VWCVTXXV MASK_VWCVTXXV (Some MF_match_opcode) INSN_ALIAS;
    mk_opcode "vwcvtu.x.x.v" 0 INSN_CLASS_V "Vd,VtVm" MATCH_VWCVTUXXV MASK_VWCVTUXXV (Some MF_match_opcode) INSN_ALIAS;
    mk_opcode "vwaddu.vv" 0 INSN_CLASS_V "Vd,Vt,VsVm" MATCH_VWADDUVV MASK_VWADDUVV (Some MF_match_opcode) 0;
    mk_opcode "vwaddu.vx" 0 INSN_CLASS_V "Vd,Vt,sVm" MATCH_VWADDUVX MASK_VWADDUVX (Some MF_match_opcode) 0;
    mk_opcode "vwsubu.vv" 0 INSN_CLASS_V "Vd,Vt,VsVm" MATCH_VWSUBUVV MASK_VWSUBUVV (Some MF_match_opcode) 0;
    mk_opcode "vwsubu.vx" 0 INSN_CLASS_V "Vd,Vt,sVm" MATCH_VWSUBUVX MASK_VWSUBUVX (Some MF_match_opcode) 0;
    mk_opcode "vwadd.vv" 0 INSN_CLASS_V "Vd,Vt,VsVm" MATCH_VWADDVV MASK_VWADDVV (Some MF_match_opcode) 0;
    mk_opcode "vwadd.vx" 0 INSN_CLASS_V "Vd,Vt,sVm" MATCH_VWADDVX MASK_VWADDVX (Some MF_match_opcode) 0;
    mk_opcode "vwsub.vv" 0 INSN_CLASS_V "Vd,Vt,VsVm" MATCH_VWSUBVV MASK_VWSUBVV (Some MF_match_opcode) 0;
    mk_opcode "vwsub.vx" 0 INSN_CLASS_V "Vd,Vt,sVm" MATCH_VWSUBVX MASK_VWSUBVX (Some MF_match_opcode) 0;
    mk_opcode "vwaddu.wv" 0 INSN_CLASS_V "Vd,Vt,VsVm" MATCH_VWADDUWV MASK_VWADDUWV (Some MF_match_opcode) 0;
    mk_opcode "vwaddu.wx" 0 INSN_CLASS_V "Vd,Vt,sVm" MATCH_VWADDUWX MASK_VWADDUWX (Some MF_match_opcode) 0;
    mk_opcode "vwsubu.wv" 0 INSN_CLASS_V "Vd,Vt,VsVm" MATCH_VWSUBUWV MASK_VWSUBUWV (Some MF_match_opcode) 0;
    mk_opcode "vwsubu.wx" 0 INSN_CLASS_V "Vd,Vt,sVm" MATCH_VWSUBUWX MASK_VWSUBUWX (Some MF_match_opcode) 0;
    mk_opcode "vwadd.wv" 0 INSN_CLASS_V "Vd,Vt,VsVm" MATCH_VWADDWV MASK_VWADDWV (Some MF_match_opcode) 0;
    mk_opcode "vwadd.wx" 0 INSN_CLASS_V "Vd,Vt,sVm" MATCH_VWADDWX MASK_VWADDWX (Some MF_match_opcode) 0;
    mk_opcode "vwsub.wv" 0 INSN_CLASS_V "Vd,Vt,VsVm" MATCH_VWSUBWV MASK_VWSUBWV (Some MF_match_opcode) 0;
    mk_opcode "vwsub.wx" 0 INSN_CLASS_V "Vd,Vt,sVm" MATCH_VWSUBWX MASK_VWSUBWX (Some MF_match_opcode) 0;
    mk_opcode "vzext.vf2" 0 INSN_CLASS_V "Vd,VtVm" MATCH_VZEXT_VF2 MASK_VZEXT_VF2 (Some MF_match_opcode) 0;
    mk_opcode "vsext.vf2" 0 INSN_CLASS_V "Vd,VtVm" MATCH_VSEXT_VF2 MASK_VSEXT_VF2 (Some MF_match_opcode) 0;
    mk_opcode "vzext.vf4" 0 INSN_CLASS_V "Vd,VtVm" MATCH_VZEXT_VF4 MASK_VZEXT_VF4 (Some MF_match_opcode) 0;
    mk_opcode "vsext.vf4" 0 INSN_CLASS_V "Vd,VtVm" MATCH_VSEXT_VF4 MASK_VSEXT_VF4 (Some MF_match_opcode) 0;
    mk_opcode "vzext.vf8" 0 INSN_CLASS_V "Vd,VtVm" MATCH_VZEXT_VF8 MASK_VZEXT_VF8 (Some MF_match_opcode) 0;
    mk_opcode "vsext.vf8" 0 INSN_CLASS_V "Vd,VtVm" MATCH_VSEXT_VF8 MASK_VSEXT_VF8 (Some MF_match_opcode) 0;
    mk_opcode "vadc.vvm" 0 INSN_CLASS_V "Vd,Vt,Vs,V0" MATCH_VADCVVM MASK_VADCVVM (Some MF_match_opcode) 0;
    mk_opcode "vadc.vxm" 0 INSN_CLASS_V "Vd,Vt,s,V0" MATCH_VADCVXM MASK_VADCVXM (Some MF_match_opcode) 0;
    mk_opcode "vadc.vim" 0 INSN_CLASS_V "Vd,Vt,Vi,V0" MATCH_VADCVIM MASK_VADCVIM (Some MF_match_opcode) 0;
    mk_opcode "vmadc.vvm" 0 INSN_CLASS_V "Vd,Vt,Vs,V0" MATCH_VMADCVVM MASK_VMADCVVM (Some MF_match_opcode) 0;
    mk_opcode "vmadc.vxm" 0 INSN_CLASS_V "Vd,Vt,s,V0" MATCH_VMADCVXM MASK_VMADCVXM (Some MF_match_opcode) 0;
    mk_opcode "vmadc.vim" 0 INSN_CLASS_V "Vd,Vt,Vi,V0" MATCH_VMADCVIM MASK_VMADCVIM (Some MF_match_opcode) 0;
    mk_opcode "vmadc.vv" 0 INSN_CLASS_V "Vd,Vt,Vs" MATCH_VMADCVV MASK_VMADCVV (Some MF_match_opcode) 0;
    mk_opcode "vmadc.vx" 0 INSN_CLASS_V "Vd,Vt,s" MATCH_VMADCVX MASK_VMADCVX (Some MF_match_opcode) 0;
    mk_opcode "vmadc.vi" 0 INSN_CLASS_V "Vd,Vt,Vi" MATCH_VMADCVI MASK_VMADCVI (Some MF_match_opcode) 0;
    mk_opcode "vsbc.vvm" 0 INSN_CLASS_V "Vd,Vt,Vs,V0" MATCH_VSBCVVM MASK_VSBCVVM (Some MF_match_opcode) 0;
    mk_opcode "vsbc.vxm" 0 INSN_CLASS_V "Vd,Vt,s,V0" MATCH_VSBCVXM MASK_VSBCVXM (Some MF_match_opcode) 0;
    mk_opcode "vmsbc.vvm" 0 INSN_CLASS_V "Vd,Vt,Vs,V0" MATCH_VMSBCVVM MASK_VMSBCVVM (Some MF_match_opcode) 0;
    mk_opcode "vmsbc.vxm" 0 INSN_CLASS_V "Vd,Vt,s,V0" MATCH_VMSBCVXM MASK_VMSBCVXM (Some MF_match_opcode) 0;
    mk_opcode "vmsbc.vv" 0 INSN_CLASS_V "Vd,Vt,Vs" MATCH_VMSBCVV MASK_VMSBCVV (Some MF_match_opcode) 0;
    mk_opcode "vmsbc.vx" 0 INSN_CLASS_V "Vd,Vt,s" MATCH_VMSBCVX MASK_VMSBCVX (Some MF_match_opcode) 0;
    mk_opcode "vnot.v" 0 INSN_CLASS_V "Vd,VtVm" MATCH_VNOTV MASK_VNOTV (Some MF_match_opcode) INSN_ALIAS;
    mk_opcode "vand.vv" 0 INSN_CLASS_V "Vd,Vt,VsVm" MATCH_VANDVV MASK_VANDVV (Some MF_match_opcode) 0;
    mk_opcode "vand.vx" 0 INSN_CLASS_V "Vd,Vt,sVm" MATCH_VANDVX MASK_VANDVX (Some MF_match_opcode) 0;
    mk_opcode "vand.vi" 0 INSN_CLASS_V "Vd,Vt,ViVm" MATCH_VANDVI MASK_VANDVI (Some MF_match_opcode) 0;
    mk_opcode "vor.vv" 0 INSN_CLASS_V "Vd,Vt,VsVm" MATCH_VORVV MASK_VORVV (Some MF_match_opcode) 0;
    mk_opcode "vor.vx" 0 INSN_CLASS_V "Vd,Vt,sVm" MATCH_VORVX MASK_VORVX (Some MF_match_opcode) 0;
    mk_opcode "vor.vi" 0 INSN_CLASS_V "Vd,Vt,ViVm" MATCH_VORVI MASK_VORVI (Some MF_match_opcode) 0;
    mk_opcode "vxor.vv" 0 INSN_CLASS_V "Vd,Vt,VsVm" MATCH_VXORVV MASK_VXORVV (Some MF_match_opcode) 0;
    mk_opcode "vxor.vx" 0 INSN_CLASS_V "Vd,Vt,sVm" MATCH_VXORVX MASK_VXORVX (Some MF_match_opcode) 0;
    mk_opcode "vxor.vi" 0 INSN_CLASS_V "Vd,Vt,ViVm" MATCH_VXORVI MASK_VXORVI (Some MF_match_opcode) 0;
    mk_opcode "vsll.vv" 0 INSN_CLASS_V "Vd,Vt,VsVm" MATCH_VSLLVV MASK_VSLLVV (Some MF_match_opcode) 0;
    mk_opcode "vsll.vx" 0 INSN_CLASS_V "Vd,Vt,sVm" MATCH_VSLLVX MASK_VSLLVX (Some MF_match_opcode) 0;
    mk_opcode "vsll.vi" 0 INSN_CLASS_V "Vd,Vt,VjVm" MATCH_VSLLVI MASK_VSLLVI (Some MF_match_opcode) 0;
    mk_opcode "vsrl.vv" 0 INSN_CLASS_V "Vd,Vt,VsVm" MATCH_VSRLVV MASK_VSRLVV (Some MF_match_opcode) 0;
    mk_opcode "vsrl.vx" 0 INSN_CLASS_V "Vd,Vt,sVm" MATCH_VSRLVX MASK_VSRLVX (Some MF_match_opcode) 0;
    mk_opcode "vsrl.vi" 0 INSN_CLASS_V "Vd,Vt,VjVm" MATCH_VSRLVI MASK_VSRLVI (Some MF_match_opcode) 0;
    mk_opcode "vsra.vv" 0 INSN_CLASS_V "Vd,Vt,VsVm" MATCH_VSRAVV MASK_VSRAVV (Some MF_match_opcode) 0;
    mk_opcode "vsra.vx" 0 INSN_CLASS_V "Vd,Vt,sVm" MATCH_VSRAVX MASK_VSRAVX (Some MF_match_opcode) 0;
    mk_opcode "vsra.vi" 0 INSN_CLASS_V "Vd,Vt,VjVm" MATCH_VSRAVI MASK_VSRAVI (Some MF_match_opcode) 0;
    mk_opcode "vncvt.x.x.w" 0 INSN_CLASS_V "Vd,VtVm" MATCH_VNCVTXXW MASK_VNCVTXXW (Some MF_match_opcode) INSN_ALIAS;
    mk_opcode "vnsrl.wv" 0 INSN_CLASS_V "Vd,Vt,VsVm" MATCH_VNSRLWV MASK_VNSRLWV (Some MF_match_opcode) 0;
    mk_opcode "vnsrl.wx" 0 INSN_CLASS_V "Vd,Vt,sVm" MATCH_VNSRLWX MASK_VNSRLWX (Some MF_match_opcode) 0;
    mk_opcode "vnsrl.wi" 0 INSN_CLASS_V "Vd,Vt,VjVm" MATCH_VNSRLWI MASK_VNSRLWI (Some MF_match_opcode) 0;
    mk_opcode "vnsra.wv" 0 INSN_CLASS_V "Vd,Vt,VsVm" MATCH_VNSRAWV MASK_VNSRAWV (Some MF_match_opcode) 0;
    mk_opcode "vnsra.wx" 0 INSN_CLASS_V "Vd,Vt,sVm" MATCH_VNSRAWX MASK_VNSRAWX (Some MF_match_opcode) 0;
    mk_opcode "vnsra.wi" 0 INSN_CLASS_V "Vd,Vt,VjVm" MATCH_VNSRAWI MASK_VNSRAWI (Some MF_match_opcode) 0;
    mk_opcode "vmseq.vv" 0 INSN_CLASS_V "Vd,Vt,VsVm" MATCH_VMSEQVV MASK_VMSEQVV (Some MF_match_opcode) 0;
    mk_opcode "vmseq.vx" 0 INSN_CLASS_V "Vd,Vt,sVm" MATCH_VMSEQVX MASK_VMSEQVX (Some MF_match_opcode) 0;
    mk_opcode "vmseq.vi" 0 INSN_CLASS_V "Vd,Vt,ViVm" MATCH_VMSEQVI MASK_VMSEQVI (Some MF_match_opcode) 0;
    mk_opcode "vmsne.vv" 0 INSN_CLASS_V "Vd,Vt,VsVm" MATCH_VMSNEVV MASK_VMSNEVV (Some MF_match_opcode) 0;
    mk_opcode "vmsne.vx" 0 INSN_CLASS_V "Vd,Vt,sVm" MATCH_VMSNEVX MASK_VMSNEVX (Some MF_match_opcode) 0;
    mk_opcode "vmsne.vi" 0 INSN_CLASS_V "Vd,Vt,ViVm" MATCH_VMSNEVI MASK_VMSNEVI (Some MF_match_opcode) 0 ].

(** Lines 1611-1750. *)
Definition riscv_opcodes_10 : list riscv_opcode :=
  [ mk_opcode "vmsltu.vv" 0 INSN_CLASS_V "Vd,Vt,VsVm" MATCH_VMSLTUVV MASK_VMSLTUVV (Some MF_match_opcode) 0;
    mk_opcode "vmsltu.vx" 0 INSN_CLASS_V "Vd,Vt,sVm" MATCH_VMSLTUVX MASK_VMSLTUVX (Some MF_match_opcode) 0;
    mk_opcode "vmslt.vv" 0 INSN_CLASS_V "Vd,Vt,VsVm" MATCH_VMSLTVV MASK_VMSLTVV (Some MF_match_opcode) 0;
    mk_opcode "vmslt.vx" 0 INSN_CLASS_V "Vd,Vt,sVm" MATCH_VMSLTVX MASK_VMSLTVX (Some MF_match_opcode) 0;
    mk_opcode "vmsleu.vv" 0 INSN_CLASS_V "Vd,Vt,VsVm" MATCH_VMSLEUVV MASK_VMSLEUVV (Some MF_match_opcode) 0;
    mk_opcode "vmsleu.vx" 0 INSN_CLASS_V "Vd,Vt,sVm" MATCH_VMSLEUVX MASK_VMSLEUVX (Some MF_match_opcode) 0;
    mk_opcode "vmsleu.vi" 0 INSN_CLASS_V "Vd,Vt,ViVm" MATCH_VMSLEUVI MASK_VMSLEUVI (Some MF_match_opcode) 0;
    mk_opcode "vmsle.vv" 0 INSN_CLASS_V "Vd,Vt,VsVm" MATCH_VMSLEVV MASK_VMSLEVV (Some MF_match_opcode) 0;
    mk_opcode "vmsle.vx" 0 INSN_CLASS_V "Vd,Vt,sVm" MATCH_VMSLEVX MASK_VMSLEVX (Some MF_match_opcode) 0;
    mk_opcode "vmsle.vi" 0 INSN_CLASS_V "Vd,Vt,ViVm" MATCH_VMSLEVI MASK_VMSLEVI (Some MF_match_opcode) 0;
    mk_opcode "vmsgtu.vx" 0 INSN_CLASS_V "Vd,Vt,sVm" MATCH_VMSGTUVX MASK_VMSGTUVX (Some MF_match_opcode) 0;
    mk_opcode "vmsgtu.vi" 0 INSN_CLASS_V "Vd,Vt,ViVm" MATCH_VMSGTUVI MASK_VMSGTUVI (Some MF_match_opcode) 0;
    mk_opcode "vmsgt.vx" 0 INSN_CLASS_V "Vd,Vt,sVm" MATCH_VMSGTVX MASK_VMSGTVX (Some MF_match_opcode) 0;
    mk_opcode "vmsgt.vi" 0 INSN_CLASS_V "Vd,Vt,ViVm" MATCH_VMSGTVI MASK_VMSGTVI (Some MF_match_opcode) 0;
    mk_opcode "vmsgt.vv" 0 INSN_CLASS_V "Vd,Vs,VtVm" MATCH_VMSLTVV MASK_VMSLTVV (Some MF_match_opcode) INSN_ALIAS;
    mk_opcode "vmsgtu.vv" 0 INSN_CLASS_V "Vd,Vs,VtVm" MATCH_VMSLTUVV MASK_VMSLTUVV (Some MF_match_opcode) INSN_ALIAS;
    mk_opcode "vmsge.vv" 0 INSN_CLASS_V "Vd,Vs,VtVm" MATCH_VMSLEVV MASK_VMSLEVV (Some MF_match_opcode) INSN_ALIAS;
    mk_opcode "vmsgeu.vv" 0 INSN_CLASS_V "Vd,Vs,VtVm" MATCH_VMSLEUVV MASK_VMSLEUVV (Some MF_match_opcode) INSN_ALIAS;
    mk_opcode "vmslt.vi" 0 INSN_CLASS_V "Vd,Vt,VkVm" MATCH_VMSLEVI MASK_VMSLEVI (Some MF_match_opcode) INSN_ALIAS;
    mk_opcode "vmsltu.vi" 0 INSN_CLASS_V "Vd,Vu,0Vm" MATCH_VMSNEVV MASK_VMSNEVV (Some MF_match_vs1_eq_vs2) INSN_ALIAS;
    mk_opcode "vmsltu.vi" 0 INSN_CLASS_V "Vd,Vt,VkVm" MATCH_VMSLEUVI MASK_VMSLEUVI (Some MF_match_opcode) INSN_ALIAS;
    mk_opcode "vmsge.vi" 0 INSN_CLASS_V "Vd,Vt,VkVm" MATCH_VMSGTVI MASK_VMSGTVI (Some MF_match_opcode) INSN_ALIAS;
    mk_opcode "vmsgeu.vi" 0 INSN_CLASS_V "Vd,Vu,0Vm" MATCH_VMSEQVV MASK_VMSEQVV (Some MF_match_vs1_eq_vs2) INSN_ALIAS;
    mk_opcode "vmsgeu.vi" 0 INSN_CLASS_V "Vd,Vt,VkVm" MATCH_VMSGTUVI MASK_VMSGTUVI (Some MF_match_opcode) INSN_ALIAS;
    mk_opcode "vmsge.vx" 0 INSN_CLASS_V "Vd,Vt,sVm" 0 M_VMSGE None INSN_MACRO;
    mk_opcode "vmsge.vx" 0 INSN_CLASS_V "Vd,Vt,s,VM,VT" 0 M_VMSGE None INSN_MACRO;
    mk_opcode "vmsgeu.vx" 0 INSN_CLASS_V "Vd,Vt,sVm" 1 M_VMSGE None INSN_MACRO;
    mk_opcode "vmsgeu.vx" 0 INSN_CLASS_V "Vd,Vt,s,VM,VT" 1 M_VMSGE None INSN_MACRO;
    mk_opcode "vminu.vv" 0 INSN_CLASS_V "Vd,Vt,VsVm" MATCH_VMINUVV MASK_VMINUVV (Some MF_match_opcode) 0;
    mk_opcode "vminu.vx" 0 INSN_CLASS_V "Vd,Vt,sVm" MATCH_VMINUVX MASK_VMINUVX (Some MF_match_opcode) 0;
    mk_opcode "vmin.vv" 0 INSN_CLASS_V "Vd,Vt,VsVm" MATCH_VMINVV MASK_VMINVV (Some MF_match_opcode) 0;
    mk_opcode "vmin.vx" 0 INSN_CLASS_V "Vd,Vt,sVm" MATCH_VMINVX MASK_VMINVX (Some MF_match_opcode) 0;
    mk_opcode "vmaxu.vv" 0 INSN_CLASS_V "Vd,Vt,VsVm" MATCH_VMAXUVV MASK_VMAXUVV (Some MF_match_opcode) 0;
    mk_opcode "vmaxu.vx" 0 INSN_CLASS_V "Vd,Vt,sVm" MATCH_VMAXUVX MASK_VMAXUVX (Some MF_match_opcode) 0;
    mk_opcode "vmax.vv" 0 INSN_CLASS_V "Vd,Vt,VsVm" MATCH_VMAXVV MASK_VMAXVV (Some MF_match_opcode) 0;
    mk_opcode "vmax.vx" 0 INSN_CLASS_V "Vd,Vt,sVm" MATCH_VMAXVX MASK_VMAXVX (Some MF_match_opcode) 0;
    mk_opcode "vmul.vv" 0 INSN_CLASS_V "Vd,Vt,VsVm" MATCH_VMULVV MASK_VMULVV (Some MF_match_opcode) 0;
    mk_opcode "vmul.vx" 0 INSN_CLASS_V "Vd,Vt,sVm" MATCH_VMULVX MASK_VMULVX (Some MF_match_opcode) 0;
    mk_opcode "vmulh.vv" 0 INSN_CLASS_V "Vd,Vt,VsVm" MATCH_VMULHVV MASK_VMULHVV (Some MF_match_opcode) 0;
    mk_opcode "vmulh.vx" 0 INSN_CLASS_V "Vd,Vt,sVm" MATCH_VMULHVX MASK_VMULHVX (Some MF_match_opcode) 0;
    mk_opcode "vmulhu.vv" 0 INSN_CLASS_V "Vd,Vt,VsVm" MATCH_VMULHUVV MASK_VMULHUVV (Some MF_match_opcode) 0;
    mk_opcode "vmulhu.vx" 0 INSN_CLASS_V "Vd,Vt,sVm" MATCH_VMULHUVX MASK_VMULHUVX (Some MF_match_opcode) 0;
    mk_opcode "vmulhsu.vv" 0 INSN_CLASS_V "Vd,Vt,VsVm" MATCH_VMULHSUVV MASK_VMULHSUVV (Some MF_match_opcode) 0;
    mk_opcode "vmulhsu.vx" 0 INSN_CLASS_V "Vd,Vt,sVm" MATCH_VMULHSUVX MASK_VMULHSUVX (Some MF_match_opcode) 0;
    mk_opcode "vwmul.vv" 0 INSN_CLASS_V "Vd,Vt,VsVm" MATCH_VWMULVV MASK_VWMULVV (Some MF_match_opcode) 0;
    mk_opcode "vwmul.vx" 0 INSN_CLASS_V "Vd,Vt,sVm" MATCH_VWMULVX MASK_VWMULVX (Some MF_match_opcode) 0;
    mk_opcode "vwmulu.vv" 0 INSN_CLASS_V "Vd,Vt,VsVm" MATCH_VWMULUVV MASK_VWMULUVV (Some MF_match_opcode) 0;
    mk_opcode "vwmulu.vx" 0 INSN_CLASS_V "Vd,Vt,sVm" MATCH_VWMULUVX MASK_VWMULUVX (Some MF_match_opcode) 0;
    mk_opcode "vwmulsu.vv" 0 INSN_CLASS_V "Vd,Vt,VsVm" MATCH_VWMULSUVV MASK_VWMULSUVV (Some MF_match_opcode) 0;
    mk_opcode "vwmulsu.vx" 0 INSN_CLASS_V "Vd,Vt,sVm" MATCH_VWMULSUVX MASK_VWMULSUVX (Some MF_match_opcode) 0;
    mk_opcode "vmacc.vv" 0 INSN_CLASS_V "Vd,Vs,VtVm" MATCH_VMACCVV MASK_VMACCVV (Some MF_match_opcode) 0;
    mk_opcode "vmacc.vx" 0 INSN_CLASS_V "Vd,s,VtVm" MATCH_VMACCVX MASK_VMACCVX (Some MF_match_opcode) 0;
    mk_opcode "vnmsac.vv" 0 INSN_CLASS_V "Vd,Vs,VtVm" MATCH_VNMSACVV MASK_VNMSACVV (Some MF_match_opcode) 0;
    mk_opcode "vnmsac.vx" 0 INSN_CLASS_V "Vd,s,VtVm" MATCH_VNMSACVX MASK_VNMSACVX (Some MF_match_opcode) 0;
    mk_opcode "vmadd.vv" 0 INSN_CLASS_V "Vd,Vs,VtVm" MATCH_VMADDVV MASK_VMADDVV (Some MF_match_opcode) 0;
    mk_opcode "vmadd.vx" 0 INSN_CLASS_V "Vd,s,VtVm" MATCH_VMADDVX MASK_VMADDVX (Some MF_match_opcode) 0;
    mk_opcode "vnmsub.vv" 0 INSN_CLASS_V "Vd,Vs,VtVm" MATCH_VNMSUBVV MASK_VNMSUBVV (Some MF_match_opcode) 0;
    mk_opcode "vnmsub.vx" 0 INSN_CLASS_V "Vd,s,VtVm" MATCH_VNMSUBVX MASK_VNMSUBVX (Some MF_match_opcode) 0;
    mk_opcode "vwmaccu.vv" 0 INSN_CLASS_V "Vd,Vs,VtVm" MATCH_VWMACCUVV MASK_VWMACCUVV (Some MF_match_opcode) 0;
    mk_opcode "vwmaccu.vx" 0 INSN_CLASS_V "Vd,s,VtVm" MATCH_VWMACCUVX MASK_VWMACCUVX (Some MF_match_opcode) 0;
    mk_opcode "vwmacc.vv" 0 INSN_CLASS_V "Vd,Vs,VtVm" MATCH_VWMACCVV MASK_VWMACCVV (Some MF_match_opcode) 0;
    mk_opcode "vwmacc.vx" 0 INSN_CLASS_V "Vd,s,VtVm" MATCH_VWMACCVX MASK_VWMACCVX (Some MF_match_opcode) 0;
    mk_opcode "vwmaccsu.vv" 0 INSN_CLASS_V "Vd,Vs,VtVm" MATCH_VWMACCSUVV MASK_VWMACCSUVV (Some MF_match_opcode) 0;
    mk_opcode "vwmaccsu.vx" 0 INSN_CLASS_V "Vd,s,VtVm" MATCH_VWMACCSUVX MASK_VWMACCSUVX (Some MF_match_opcode) 0;
    mk_opcode "vwmaccus.vx" 0 INSN_CLASS_V "Vd,s,VtVm" MATCH_VWMACCUSVX MASK_VWMACCUSVX (Some MF_match_opcode) 0;
    mk_opcode "vdivu.vv" 0 INSN_CLASS_V "Vd,Vt,VsVm" MATCH_VDIVUVV MASK_VDIVUVV (Some MF_match_opcode) 0;
    mk_opcode "vdivu.vx" 0 INSN_CLASS_V "Vd,Vt,sVm" MATCH_VDIVUVX MASK_VDIVUVX (Some MF_match_opcode) 0;
    mk_opcode "vdiv.vv" 0 INSN_CLASS_V "Vd,Vt,VsVm" MATCH_VDIVVV MASK_VDIVVV (Some MF_match_opcode) 0;
    mk_opcode "vdiv.vx" 0 INSN_CLASS_V "Vd,Vt,sVm" MATCH_VDIVVX MASK_VDIVVX (Some MF_match_opcode) 0;
    mk_opcode "vremu.vv" 0 INSN_CLASS_V "Vd,Vt,VsVm" MATCH_VREMUVV MASK_VREMUVV (Some MF_match_opcode) 0;
    mk_opcode "vremu.vx" 0 INSN_CLASS_V "Vd,Vt,sVm" MATCH_VREMUVX MASK_VREMUVX (Some MF_match_opcode) 0;
    mk_opcode "vrem.vv" 0 INSN_CLASS_V "Vd,Vt,VsVm" MATCH_VREMVV MASK_VREMVV (Some MF_match_opcode) 0;
    mk_opcode "vrem.vx" 0 INSN_CLASS_V "Vd,Vt,sVm" MATCH_VREMVX MASK_VREMVX (Some MF_match_opcode) 0;
    mk_opcode "vmerge.vvm" 0 INSN_CLASS_V "Vd,Vt,Vs,V0" MATCH_VMERGEVVM MASK_VMERGEVVM (Some MF_match_opcode) 0;
    mk_opcode "vmerge.vxm" 0 INSN_CLASS_V "Vd,Vt,s,V0" MATCH_VMERGEVXM MASK_VMERGEVXM (Some MF_match_opcode) 0;
    mk_opcode "vmerge.vim" 0 INSN_CLASS_V "Vd,Vt,Vi,V0" MATCH_VMERGEVIM MASK_VMERGEVIM (Some MF_match_opcode) 0;
    mk_opcode "vmv.v.v" 0 INSN_CLASS_V "Vd,Vs" MATCH_VMVVV MASK_VMVVV (Some MF_match_opcode) 0;
    mk_opcode "vmv.v.x" 0 INSN_CLASS_V "Vd,s" MATCH_VMVVX MASK_VMVVX (Some MF_match_opcode) 0;
    mk_opcode "vmv.v.i" 0 INSN_CLASS_V "Vd,Vi" MATCH_VMVVI MASK_VMVVI (Some MF_match_opcode) 0;
    mk_opcode "vsaddu.vv" 0 INSN_CLASS_V "Vd,Vt,VsVm" MATCH_VSADDUVV MASK_VSADDUVV (Some MF_match_opcode) 0;
    mk_opcode "vsaddu.vx" 0 INSN_CLASS_V "Vd,Vt,sVm" MATCH_VSADDUVX MASK_VSADDUVX (Some MF_match_opcode) 0;
    mk_opcode "vsaddu.vi" 0 INSN_CLASS_V "Vd,Vt,ViVm" MATCH_VSADDUVI MASK_VSADDUVI (Some MF_match_opcode) 0;
    mk_opcode "vsadd.vv" 0 INSN_CLASS_V "Vd,Vt,VsVm" MATCH_VSADDVV MASK_VSADDVV (Some MF_match_opcode) 0;
    mk_opcode "vsadd.vx" 0 INSN_CLASS_V "Vd,Vt,sVm" MATCH_VSADDVX MASK_VSADDVX (Some MF_match_opcode) 0;
    mk_opcode "vsadd.vi" 0 INSN_CLASS_V "Vd,Vt,ViVm" MATCH_VSADDVI MASK_VSADDVI (Some MF_match_opcode) 0;
    mk_opcode "vssubu.vv" 0 INSN_CLASS_V "Vd,Vt,VsVm" MATCH_VSSUBUVV MASK_VSSUBUVV (Some MF_match_opcode) 0;
    mk_opcode "vssubu.vx" 0 INSN_CLASS_V "Vd,Vt,sVm" MATCH_VSSUBUVX MASK_VSSUBUVX (Some MF_match_opcode) 0;
    mk_opcode "vssub.vv" 0 INSN_CLASS_V "Vd,Vt,VsVm" MATCH_VSSUBVV MASK_VSSUBVV (Some MF_match_opcode) 0;
    mk_opcode "vssub.vx" 0 INSN_CLASS_V "Vd,Vt,sVm" MATCH_VSSUBVX MASK_VSSUBVX (Some MF_match_opcode) 0;
    mk_opcode "vaaddu.vv" 0 INSN_CLASS_V "Vd,Vt,VsVm" MATCH_VAADDUVV MASK_VAADDUVV (Some MF_match_opcode) 0;
    mk_opcode "vaaddu.vx" 0 INSN_CLASS_V "Vd,Vt,sVm" MATCH_VAADDUVX MASK_VAADDUVX (Some MF_match_opcode) 0;
    mk_opcode "vaadd.vv" 0 INSN_CLASS_V "Vd,Vt,VsVm" MATCH_VAADDVV MASK_VAADDVV (Some MF_match_opcode) 0;
    mk_opcode "vaadd.vx" 0 INSN_CLASS_V "Vd,Vt,sVm" MATCH_VAADDVX MASK_VAADDVX (Some MF_match_opcode) 0;
    mk_opcode "vasubu.vv" 0 INSN_CLASS_V "Vd,Vt,VsVm" MATCH_VASUBUVV MASK_VASUBUVV (Some MF_match_opcode) 0;
    mk_opcode "vasubu.vx" 0 INSN_CLASS_V "Vd,Vt,sVm" MATCH_VASUBUVX MASK_VASUBUVX (Some MF_match_opcode) 0;
    mk_opcode "vasub.vv" 0 INSN_CLASS_V "Vd,Vt,VsVm" MATCH_VASUBVV MASK_VASUBVV (Some MF_match_opcode) 0;
    mk_opcode "vasub.vx" 0 INSN_CLASS_V "Vd,Vt,sVm" MATCH_VASUBVX MASK_VASUBVX (Some MF_match_opcode) 0;
    mk_opcode "vsmul.vv" 0 INSN_CLASS_V "Vd,Vt,VsVm" MATCH_VSMULVV MASK_VSMULVV (Some MF_match_opcode) 0;
    mk_opcode "vsmul.vx" 0 INSN_CLASS_V "Vd,Vt,sVm" MATCH_VSMULVX MASK_VSMULVX (Some MF_match_opcode) 0;
    mk_opcode "vssrl.vv" 0 INSN_CLASS_V "Vd,Vt,VsVm" MATCH_VSSRLVV MASK_VSSRLVV (Some MF_match_opcode) 0;
    mk_opcode "vssrl.vx" 0 INSN_CLASS_V "Vd,Vt,sVm" MATCH_VSSRLVX MASK_VSSRLVX (Some MF_match_opcode) 0;
    mk_opcode "vssrl.vi" 0 INSN_CLASS_V "Vd,Vt,VjVm" MATCH_VSSRLVI MASK_VSSRLVI (Some MF_match_opcode) 0;
    mk_opcode "vssra.vv" 0 INSN_CLASS_V "Vd,Vt,VsVm" MATCH_VSSRAVV MASK_VSSRAVV (Some MF_match_opcode) 0;
    mk_opcode "vssra.vx" 0 INSN_CLASS_V "Vd,Vt,sVm" MATCH_VSSRAVX MASK_VSSRAVX (Some MF_match_opcode) 0;
    mk_opcode "vssra.vi" 0 INSN_CLASS_V "Vd,Vt,VjVm" MATCH_VSSRAVI MASK_VSSRAVI (Some MF_match_opcode) 0;
    mk_opcode "vnclipu.wv" 0 INSN_CLASS_V "Vd,Vt,VsVm" MATCH_VNCLIPUWV MASK_VNCLIPUWV (Some MF_match_opcode) 0;
    mk_opcode "vnclipu.wx" 0 INSN_CLASS_V "Vd,Vt,sVm" MATCH_VNCLIPUWX MASK_VNCLIPUWX (Some MF_match_opcode) 0;
    mk_opcode "vnclipu.wi" 0 INSN_CLASS_V "Vd,Vt,VjVm" MATCH_VNCLIPUWI MASK_VNCLIPUWI (Some MF_match_opcode) 0;
    mk_opcode "vnclip.wv" 0 INSN_CLASS_V "Vd,Vt,VsVm" MATCH_VNCLIPWV MASK_VNCLIPWV (Some MF_match_opcode) 0;
    mk_opcode "vnclip.wx" 0 INSN_CLASS_V "Vd,Vt,sVm" MATCH_VNCLIPWX MASK_VNCLIPWX (Some MF_match_opcode) 0;
    mk_opcode "vnclip.wi" 0 INSN_CLASS_V "Vd,Vt,VjVm" MATCH_VNCLIPWI MASK_VNCLIPWI (Some MF_match_opcode) 0;
    mk_opcode "vfadd.vv" 0 INSN_CLASS_ZVEF "Vd,Vt,VsVm" MATCH_VFADDVV MASK_VFADDVV (Some MF_match_opcode) 0;
    mk_opcode "vfadd.vf" 0 INSN_CLASS_ZVEF "Vd,Vt,SVm" MATCH_VFADDVF MASK_VFADDVF (Some MF_match_opcode) 0;
    mk_opcode "vfsub.vv" 0 INSN_CLASS_ZVEF "Vd,Vt,VsVm" MATCH_VFSUBVV MASK_VFSUBVV (Some MF_match_opcode) 0;
    mk_opcode "vfsub.vf" 0 INSN_CLASS_ZVEF "Vd,Vt,SVm" MATCH_VFSUBVF MASK_VFSUBVF (Some MF_match_opcode) 0;
    mk_opcode "vfrsub.vf" 0 INSN_CLASS_ZVEF "Vd,Vt,SVm" MATCH_VFRSUBVF MASK_VFRSUBVF (Some MF_match_opcode) 0;
    mk_opcode "vfwadd.vv" 0 INSN_CLASS_ZVEF "Vd,Vt,VsVm" MATCH_VFWADDVV MASK_VFWADDVV (Some MF_match_opcode) 0;
    mk_opcode "vfwadd.vf" 0 INSN_CLASS_ZVEF "Vd,Vt,SVm" MATCH_VFWADDVF MASK_VFWADDVF (Some MF_match_opcode) 0;
    mk_opcode "vfwsub.vv" 0 INSN_CLASS_ZVEF "Vd,Vt,VsVm" MATCH_VFWSUBVV MASK_VFWSUBVV (Some MF_match_opcode) 0;
    mk_opcode "vfwsub.vf" 0 INSN_CLASS_ZVEF "Vd,Vt,SVm" MATCH_VFWSUBVF MASK_VFWSUBVF (Some MF_match_opcode) 0;
    mk_opcode "vfwadd.wv" 0 INSN_CLASS_ZVEF "Vd,Vt,VsVm" MATCH_VFWADDWV MASK_VFWADDWV (Some MF_match_opcode) 0;
    mk_opcode "vfwadd.wf" 0 INSN_CLASS_ZVEF "Vd,Vt,SVm" MATCH_VFWADDWF MASK_VFWADDWF (Some MF_match_opcode) 0;
    mk_opcode "vfwsub.wv" 0 INSN_CLASS_ZVEF "Vd,Vt,VsVm" MATCH_VFWSUBWV MASK_VFWSUBWV (Some MF_match_opcode) 0;
    mk_opcode "vfwsub.wf" 0 INSN_CLASS_ZVEF "Vd,Vt,SVm" MATCH_VFWSUBWF MASK_VFWSUBWF (Some MF_match_opcode) 0 ].

(** Lines 1752-1891. *)
Definition riscv_opcodes_11 : list riscv_opcode :=
  [ mk_opcode "vfmul.vv" 0 INSN_CLASS_ZVEF "Vd,Vt,VsVm" MATCH_VFMULVV MASK_VFMULVV (Some MF_match_opcode) 0;
    mk_opcode "vfmul.vf" 0 INSN_CLASS_ZVEF "Vd,Vt,SVm" MATCH_VFMULVF MASK_VFMULVF (Some MF_match_opcode) 0;
    mk_opcode "vfdiv.vv" 0 INSN_CLASS_ZVEF "Vd,Vt,VsVm" MATCH_VFDIVVV MASK_VFDIVVV (Some MF_match_opcode) 0;
    mk_opcode "vfdiv.vf" 0 INSN_CLASS_ZVEF "Vd,Vt,SVm" MATCH_VFDIVVF MASK_VFDIVVF (Some MF_match_opcode) 0;
    mk_opcode "vfrdiv.vf" 0 INSN_CLASS_ZVEF "Vd,Vt,SVm" MATCH_VFRDIVVF MASK_VFRDIVVF (Some MF_match_opcode) 0;
    mk_opcode "vfwmul.vv" 0 INSN_CLASS_ZVEF "Vd,Vt,VsVm" MATCH_VFWMULVV MASK_VFWMULVV (Some MF_match_opcode) 0;
    mk_opcode "vfwmul.vf" 0 INSN_CLASS_ZVEF "Vd,Vt,SVm" MATCH_VFWMULVF MASK_VFWMULVF (Some MF_match_opcode) 0;
    mk_opcode "vfmadd.vv" 0 INSN_CLASS_ZVEF "Vd,Vs,VtVm" MATCH_VFMADDVV MASK_VFMADDVV (Some MF_match_opcode) 0;
    mk_opcode "vfmadd.vf" 0 INSN_CLASS_ZVEF "Vd,S,VtVm" MATCH_VFMADDVF MASK_VFMADDVF (Some MF_match_opcode) 0;
    mk_opcode "vfnmadd.vv" 0 INSN_CLASS_ZVEF "Vd,Vs,VtVm" MATCH_VFNMADDVV MASK_VFNMADDVV (Some MF_match_opcode) 0;
    mk_opcode "vfnmadd.vf" 0 INSN_CLASS_ZVEF "Vd,S,VtVm" MATCH_VFNMADDVF MASK_VFNMADDVF (Some MF_match_opcode) 0;
    mk_opcode "vfmsub.vv" 0 INSN_CLASS_ZVEF "Vd,Vs,VtVm" MATCH_VFMSUBVV MASK_VFMSUBVV (Some MF_match_opcode) 0;
    mk_opcode "vfmsub.vf" 0 INSN_CLASS_ZVEF "Vd,S,VtVm" MATCH_VFMSUBVF MASK_VFMSUBVF (Some MF_match_opcode) 0;
    mk_opcode "vfnmsub.vv" 0 INSN_CLASS_ZVEF "Vd,Vs,VtVm" MATCH_VFNMSUBVV MASK_VFNMSUBVV (Some MF_match_opcode) 0;
    mk_opcode "vfnmsub.vf" 0 INSN_CLASS_ZVEF "Vd,S,VtVm" MATCH_VFNMSUBVF MASK_VFNMSUBVF (Some MF_match_opcode) 0;
    mk_opcode "vfmacc.vv" 0 INSN_CLASS_ZVEF "Vd,Vs,VtVm" MATCH_VFMACCVV MASK_VFMACCVV (Some MF_match_opcode) 0;
    mk_opcode "vfmacc.vf" 0 INSN_CLASS_ZVEF "Vd,S,VtVm" MATCH_VFMACCVF MASK_VFMACCVF (Some MF_match_opcode) 0;
    mk_opcode "vfnmacc.vv" 0 INSN_CLASS_ZVEF "Vd,Vs,VtVm" MATCH_VFNMACCVV MASK_VFNMACCVV (Some MF_match_opcode) 0;
    mk_opcode "vfnmacc.vf" 0 INSN_CLASS_ZVEF "Vd,S,VtVm" MATCH_VFNMACCVF MASK_VFNMACCVF (Some MF_match_opcode) 0;
    mk_opcode "vfmsac.vv" 0 INSN_CLASS_ZVEF "Vd,Vs,VtVm" MATCH_VFMSACVV MASK_VFMSACVV (Some MF_match_opcode) 0;
    mk_opcode "vfmsac.vf" 0 INSN_CLASS_ZVEF "Vd,S,VtVm" MATCH_VFMSACVF MASK_VFMSACVF (Some MF_match_opcode) 0;
    mk_opcode "vfnmsac.vv" 0 INSN_CLASS_ZVEF "Vd,Vs,VtVm" MATCH_VFNMSACVV MASK_VFNMSACVV (Some MF_match_opcode) 0;
    mk_opcode "vfnmsac.vf" 0 INSN_CLASS_ZVEF "Vd,S,VtVm" MATCH_VFNMSACVF MASK_VFNMSACVF (Some MF_match_opcode) 0;
    mk_opcode "vfwmacc.vv" 0 INSN_CLASS_ZVEF "Vd,Vs,VtVm" MATCH_VFWMACCVV MASK_VFWMACCVV (Some MF_match_opcode) 0;
    mk_opcode "vfwmacc.vf" 0 INSN_CLASS_ZVEF "Vd,S,VtVm" MATCH_VFWMACCVF MASK_VFWMACCVF (Some MF_match_opcode) 0;
    mk_opcode "vfwnmacc.vv" 0 INSN_CLASS_ZVEF "Vd,Vs,VtVm" MATCH_VFWNMACCVV MASK_VFWNMACCVV (Some MF_match_opcode) 0;
    mk_opcode "vfwnmacc.vf" 0 INSN_CLASS_ZVEF "Vd,S,VtVm" MATCH_VFWNMACCVF MASK_VFWNMACCVF (Some MF_match_opcode) 0;
    mk_opcode "vfwmsac.vv" 0 INSN_CLASS_ZVEF "Vd,Vs,VtVm" MATCH_VFWMSACVV MASK_VFWMSACVV (Some MF_match_opcode) 0;
    mk_opcode "vfwmsac.vf" 0 INSN_CLASS_ZVEF "Vd,S,VtVm" MATCH_VFWMSACVF MASK_VFWMSACVF (Some MF_match_opcode) 0;
    mk_opcode "vfwnmsac.vv" 0 INSN_CLASS_ZVEF "Vd,Vs,VtVm" MATCH_VFWNMSACVV MASK_VFWNMSACVV (Some MF_match_opcode) 0;
    mk_opcode "vfwnmsac.vf" 0 INSN_CLASS_ZVEF "Vd,S,VtVm" MATCH_VFWNMSACVF MASK_VFWNMSACVF (Some MF_match_opcode) 0;
    mk_opcode "vfsqrt.v" 0 INSN_CLASS_ZVEF "Vd,VtVm" MATCH_VFSQRTV MASK_VFSQRTV (Some MF_match_opcode) 0;
    mk_opcode "vfrsqrt7.v" 0 INSN_CLASS_ZVEF "Vd,VtVm" MATCH_VFRSQRT7V MASK_VFRSQRT7V (Some MF_match_opcode) 0;
    mk_opcode "vfrsqrte7.v" 0 INSN_CLASS_ZVEF "Vd,VtVm" MATCH_VFRSQRT7V MASK_VFRSQRT7V (Some MF_match_opcode) 0;
    mk_opcode "vfrec7.v" 0 INSN_CLASS_ZVEF "Vd,VtVm" MATCH_VFREC7V MASK_VFREC7V (Some MF_match_opcode) 0;
    mk_opcode "vfrece7.v" 0 INSN_CLASS_ZVEF "Vd,VtVm" MATCH_VFREC7V MASK_VFREC7V (Some MF_match_opcode) 0;
    mk_opcode "vfclass.v" 0 INSN_CLASS_ZVEF "Vd,VtVm" MATCH_VFCLASSV MASK_VFCLASSV (Some MF_match_opcode) 0;
    mk_opcode "vfmin.vv" 0 INSN_CLASS_ZVEF "Vd,Vt,VsVm" MATCH_VFMINVV MASK_VFMINVV (Some MF_match_opcode) 0;
    mk_opcode "vfmin.vf" 0 INSN_CLASS_ZVEF "Vd,Vt,SVm" MATCH_VFMINVF MASK_VFMINVF (Some MF_match_opcode) 0;
    mk_opcode "vfmax.vv" 0 INSN_CLASS_ZVEF "Vd,Vt,VsVm" MATCH_VFMAXVV MASK_VFMAXVV (Some MF_match_opcode) 0;
    mk_opcode "vfmax.vf" 0 INSN_CLASS_ZVEF "Vd,Vt,SVm" MATCH_VFMAXVF MASK_VFMAXVF (Some MF_match_opcode) 0;
    mk_opcode "vfneg.v" 0 INSN_CLASS_ZVEF "Vd,VuVm" MATCH_VFSGNJNVV MASK_VFSGNJNVV (Some MF_match_vs1_eq_vs2) INSN_ALIAS;
    mk_opcode "vfabs.v" 0 INSN_CLASS_ZVEF "Vd,VuVm" MATCH_VFSGNJXVV MASK_VFSGNJXVV (Some MF_match_vs1_eq_vs2) INSN_ALIAS;
    mk_opcode "vfsgnj.vv" 0 INSN_CLASS_ZVEF "Vd,Vt,VsVm" MATCH_VFSGNJVV MASK_VFSGNJVV (Some MF_match_opcode) 0;
    mk_opcode "vfsgnj.vf" 0 INSN_CLASS_ZVEF "Vd,Vt,SVm" MATCH_VFSGNJVF MASK_VFSGNJVF (Some MF_match_opcode) 0;
    mk_opcode "vfsgnjn.vv" 0 INSN_CLASS_ZVEF "Vd,Vt,VsVm" MATCH_VFSGNJNVV MASK_VFSGNJNVV (Some MF_match_opcode) 0;
    mk_opcode "vfsgnjn.vf" 0 INSN_CLASS_ZVEF "Vd,Vt,SVm" MATCH_VFSGNJNVF MASK_VFSGNJNVF (Some MF_match_opcode) 0;
    mk_opcode "vfsgnjx.vv" 0 INSN_CLASS_ZVEF "Vd,Vt,VsVm" MATCH_VFSGNJXVV MASK_VFSGNJXVV (Some MF_match_opcode) 0;
    mk_opcode "vfsgnjx.vf" 0 INSN_CLASS_ZVEF "Vd,Vt,SVm" MATCH_VFSGNJXVF MASK_VFSGNJXVF (Some MF_match_opcode) 0;
    mk_opcode "vmfeq.vv" 0 INSN_CLASS_ZVEF "Vd,Vt,VsVm" MATCH_VMFEQVV MASK_VMFEQVV (Some MF_match_opcode) 0;
    mk_opcode "vmfeq.vf" 0 INSN_CLASS_ZVEF "Vd,Vt,SVm" MATCH_VMFEQVF MASK_VMFEQVF (Some MF_match_opcode) 0;
    mk_opcode "vmfne.vv" 0 INSN_CLASS_ZVEF "Vd,Vt,VsVm" MATCH_VMFNEVV MASK_VMFNEVV (Some MF_match_opcode) 0;
    mk_opcode "vmfne.vf" 0 INSN_CLASS_ZVEF "Vd,Vt,SVm" MATCH_VMFNEVF MASK_VMFNEVF (Some MF_match_opcode) 0;
    mk_opcode "vmflt.vv" 0 INSN_CLASS_ZVEF "Vd,Vt,VsVm" MATCH_VMFLTVV MASK_VMFLTVV (Some MF_match_opcode) 0;
    mk_opcode "vmflt.vf" 0 INSN_CLASS_ZVEF "Vd,Vt,SVm" MATCH_VMFLTVF MASK_VMFLTVF (Some MF_match_opcode) 0;
    mk_opcode "vmfle.vv" 0 INSN_CLASS_ZVEF "Vd,Vt,VsVm" MATCH_VMFLEVV MASK_VMFLEVV (Some MF_match_opcode) 0;
    mk_opcode "vmfle.vf" 0 INSN_CLASS_ZVEF "Vd,Vt,SVm" MATCH_VMFLEVF MASK_VMFLEVF (Some MF_match_opcode) 0;
    mk_opcode "vmfgt.vf" 0 INSN_CLASS_ZVEF "Vd,Vt,SVm" MATCH_VMFGTVF MASK_VMFGTVF (Some MF_match_opcode) 0;
    mk_opcode "vmfge.vf" 0 INSN_CLASS_ZVEF "Vd,Vt,SVm" MATCH_VMFGEVF MASK_VMFGEVF (Some MF_match_opcode) 0;
    mk_opcode "vmfgt.vv" 0 INSN_CLASS_ZVEF "Vd,Vs,VtVm" MATCH_VMFLTVV MASK_VMFLTVV (Some MF_match_opcode) INSN_ALIAS;
    mk_opcode "vmfge.vv" 0 INSN_CLASS_ZVEF "Vd,Vs,VtVm" MATCH_VMFLEVV MASK_VMFLEVV (Some MF_match_opcode) INSN_ALIAS;
    mk_opcode "vfmerge.vfm" 0 INSN_CLASS_ZVEF "Vd,Vt,S,V0" MATCH_VFMERGEVFM MASK_VFMERGEVFM (Some MF_match_opcode) 0;
    mk_opcode "vfmv.v.f" 0 INSN_CLASS_ZVEF "Vd,S" MATCH_VFMVVF MASK_VFMVVF (Some MF_match_opcode) 0;
    mk_opcode "vfcvt.xu.f.v" 0 INSN_CLASS_ZVEF "Vd,VtVm" MATCH_VFCVTXUFV MASK_VFCVTXUFV (Some MF_match_opcode) 0;
    mk_opcode "vfcvt.x.f.v" 0 INSN_CLASS_ZVEF "Vd,VtVm" MATCH_VFCVTXFV MASK_VFCVTXFV (Some MF_match_opcode) 0;
    mk_opcode "vfcvt.rtz.xu.f.v" 0 INSN_CLASS_ZVEF "Vd,VtVm" MATCH_VFCVTRTZXUFV MASK_VFCVTRTZXUFV (Some MF_match_opcode) 0;
    mk_opcode "vfcvt.rtz.x.f.v" 0 INSN_CLASS_ZVEF "Vd,VtVm" MATCH_VFCVTRTZXFV MASK_VFCVTRTZXFV (Some MF_match_opcode) 0;
    mk_opcode "vfcvt.f.xu.v" 0 INSN_CLASS_ZVEF "Vd,VtVm" MATCH_VFCVTFXUV MASK_VFCVTFXUV (Some MF_match_opcode) 0;
    mk_opcode "vfcvt.f.x.v" 0 INSN_CLASS_ZVEF "Vd,VtVm" MATCH_VFCVTFXV MASK_VFCVTFXV (Some MF_match_opcode) 0;
    mk_opcode "vfwcvt.xu.f.v" 0 INSN_CLASS_ZVEF "Vd,VtVm" MATCH_VFWCVTXUFV MASK_VFWCVTXUFV (Some MF_match_opcode) 0;
    mk_opcode "vfwcvt.x.f.v" 0 INSN_CLASS_ZVEF "Vd,VtVm" MATCH_VFWCVTXFV MASK_VFWCVTXFV (Some MF_match_opcode) 0;
    mk_opcode "vfwcvt.rtz.xu.f.v" 0 INSN_CLASS_ZVEF "Vd,VtVm" MATCH_VFWCVTRTZXUFV MASK_VFWCVTRTZXUFV (Some MF_match_opcode) 0;
    mk_opcode "vfwcvt.rtz.x.f.v" 0 INSN_CLASS_ZVEF "Vd,VtVm" MATCH_VFWCVTRTZXFV MASK_VFWCVTRTZXFV (Some MF_match_opcode) 0;
    mk_opcode "vfwcvt.f.xu.v" 0 INSN_CLASS_ZVEF "Vd,VtVm" MATCH_VFWCVTFXUV MASK_VFWCVTFXUV (Some MF_match_opcode) 0;
    mk_opcode "vfwcvt.f.x.v" 0 INSN_CLASS_ZVEF "Vd,VtVm" MATCH_VFWCVTFXV MASK_VFWCVTFXV (Some MF_match_opcode) 0;
    mk_opcode "vfwcvt.f.f.v" 0 INSN_CLASS_ZVEF "Vd,VtVm" MATCH_VFWCVTFFV MASK_VFWCVTFFV (Some MF_match_opcode) 0;
    mk_opcode "vfncvt.xu.f.w" 0 INSN_CLASS_ZVEF "Vd,VtVm" MATCH_VFNCVTXUFW MASK_VFNCVTXUFW (Some MF_match_opcode) 0;
    mk_opcode "vfncvt.x.f.w" 0 INSN_CLASS_ZVEF "Vd,VtVm" MATCH_VFNCVTXFW MASK_VFNCVTXFW (Some MF_match_opcode) 0;
    mk_opcode "vfncvt.rtz.xu.f.w" 0 INSN_CLASS_ZVEF "Vd,VtVm" MATCH_VFNCVTRTZXUFW MASK_VFNCVTRTZXUFW (Some MF_match_opcode) 0;
    mk_opcode "vfncvt.rtz.x.f.w" 0 INSN_CLASS_ZVEF "Vd,VtVm" MATCH_VFNCVTRTZXFW MASK_VFNCVTRTZXFW (Some MF_match_opcode) 0;
    mk_opcode "vfncvt.f.xu.w" 0 INSN_CLASS_ZVEF "Vd,VtVm" MATCH_VFNCVTFXUW MASK_VFNCVTFXUW (Some MF_match_opcode) 0;
    mk_opcode "vfncvt.f.x.w" 0 INSN_CLASS_ZVEF "Vd,VtVm" MATCH_VFNCVTFXW MASK_VFNCVTFXW (Some MF_match_opcode) 0;
    mk_opcode "vfncvt.f.f.w" 0 INSN_CLASS_ZVEF "Vd,VtVm" MATCH_VFNCVTFFW MASK_VFNCVTFFW (Some MF_match_opcode) 0;
    mk_opcode "vfncvt.rod.f.f.w" 0 INSN_CLASS_ZVEF "Vd,VtVm" MATCH_VFNCVTRODFFW MASK_VFNCVTRODFFW (Some MF_match_opcode) 0;
    mk_opcode "vredsum.vs" 0 INSN_CLASS_V "Vd,Vt,VsVm" MATCH_VREDSUMVS MASK_VREDSUMVS (Some MF_match_opcode) 0;
    mk_opcode "vredmaxu.vs" 0 INSN_CLASS_V "Vd,Vt,VsVm" MATCH_VREDMAXUVS MASK_VREDMAXUVS (Some MF_match_opcode) 0;
    mk_opcode "vredmax.vs" 0 INSN_CLASS_V "Vd,Vt,VsVm" MATCH_VREDMAXVS MASK_VREDMAXVS (Some MF_match_opcode) 0;
    mk_opcode "vredminu.vs" 0 INSN_CLASS_V "Vd,Vt,VsVm" MATCH_VREDMINUVS MASK_VREDMINUVS (Some MF_match_opcode) 0;
    mk_opcode "vredmin.vs" 0 INSN_CLASS_V "Vd,Vt,VsVm" MATCH_VREDMINVS MASK_VREDMINVS (Some MF_match_opcode) 0;
    mk_opcode "vredand.vs" 0 INSN_CLASS_V "Vd,Vt,VsVm" MATCH_VREDANDVS MASK_VREDANDVS (Some MF_match_opcode) 0;
    mk_opcode "vredor.vs" 0 INSN_CLASS_V "Vd,Vt,VsVm" MATCH_VREDORVS MASK_VREDORVS (Some MF_match_opcode) 0;
    mk_opcode "vredxor.vs" 0 INSN_CLASS_V "Vd,Vt,VsVm" MATCH_VREDXORVS MASK_VREDXORVS (Some MF_match_opcode) 0;
    mk_opcode "vwredsumu.vs" 0 INSN_CLASS_V "Vd,Vt,VsVm" MATCH_VWREDSUMUVS MASK_VWREDSUMUVS (Some MF_match_opcode) 0;
    mk_opcode "vwredsum.vs" 0 INSN_CLASS_V "Vd,Vt,VsVm" MATCH_VWREDSUMVS MASK_VWREDSUMVS (Some MF_match_opcode) 0;
    mk_opcode "vfredosum.vs" 0 INSN_CLASS_ZVEF "Vd,Vt,VsVm" MATCH_VFREDOSUMVS MASK_VFREDOSUMVS (Some MF_match_opcode) 0;
    mk_opcode "vfredusum.vs" 0 INSN_CLASS_ZVEF "Vd,Vt,VsVm" MATCH_VFREDUSUMVS MASK_VFREDUSUMVS (Some MF_match_opcode) 0;
    mk_opcode "vfredsum.vs" 0 INSN_CLASS_ZVEF "Vd,Vt,VsVm" MATCH_VFREDUSUMVS MASK_VFREDUSUMVS (Some MF_match_opcode) INSN_ALIAS;
    mk_opcode "vfredmax.vs" 0 INSN_CLASS_ZVEF "Vd,Vt,VsVm" MATCH_VFREDMAXVS MASK_VFREDMAXVS (Some MF_match_opcode) 0;
    mk_opcode "vfredmin.vs" 0 INSN_CLASS_ZVEF "Vd,Vt,VsVm" MATCH_VFREDMINVS MASK_VFREDMINVS (Some MF_match_opcode) 0;
    mk_opcode "vfwredosum.vs" 0 INSN_CLASS_ZVEF "Vd,Vt,VsVm" MATCH_VFWREDOSUMVS MASK_VFWREDOSUMVS (Some MF_match_opcode) 0;
    mk_opcode "vfwredusum.vs" 0 INSN_CLASS_ZVEF "Vd,Vt,VsVm" MATCH_VFWREDUSUMVS MASK_VFWREDUSUMVS (Some MF_match_opcode) 0;
    mk_opcode "vfwredsum.vs" 0 INSN_CLASS_ZVEF "Vd,Vt,VsVm" MATCH_VFWREDUSUMVS MASK_VFWREDUSUMVS (Some MF_match_opcode) INSN_ALIAS;
    mk_opcode "vmmv.m" 0 INSN_CLASS_V "Vd,Vu" MATCH_VMANDMM MASK_VMANDMM (Some MF_match_vs1_eq_vs2) INSN_ALIAS;
    mk_opcode "vmcpy.m" 0 INSN_CLASS_V "Vd,Vu" MATCH_VMANDMM MASK_VMANDMM (Some MF_match_vs1_eq_vs2) INSN_ALIAS;
    mk_opcode "vmclr.m" 0 INSN_CLASS_V "Vv" MATCH_VMXORMM MASK_VMXORMM (Some MF_match_vd_eq_vs1_eq_vs2) INSN_ALIAS;
    mk_opcode "vmset.m" 0 INSN_CLASS_V "Vv" MATCH_VMXNORMM MASK_VMXNORMM (Some MF_match_vd_eq_vs1_eq_vs2) INSN_ALIAS;
    mk_opcode "vmnot.m" 0 INSN_CLASS_V "Vd,Vu" MATCH_VMNANDMM MASK_VMNANDMM (Some MF_match_vs1_eq_vs2) INSN_ALIAS;
    mk_opcode "vmand.mm" 0 INSN_CLASS_V "Vd,Vt,Vs" MATCH_VMANDMM MASK_VMANDMM (Some MF_match_opcode) 0;
    mk_opcode "vmnand.mm" 0 INSN_CLASS_V "Vd,Vt,Vs" MATCH_VMNANDMM MASK_VMNANDMM (Some MF_match_opcode) 0;
    mk_opcode "vmandn.mm" 0 INSN_CLASS_V "Vd,Vt,Vs" MATCH_VMANDNMM MASK_VMANDNMM (Some MF_match_opcode) 0;
    mk_opcode "vmandnot.mm" 0 INSN_CLASS_V "Vd,Vt,Vs" MATCH_VMANDNMM MASK_VMANDNMM (Some MF_match_opcode) INSN_ALIAS;
    mk_opcode "vmxor.mm" 0 INSN_CLASS_V "Vd,Vt,Vs" MATCH_VMXORMM MASK_VMXORMM (Some MF_match_opcode) 0;
    mk_opcode "vmor.mm" 0 INSN_CLASS_V "Vd,Vt,Vs" MATCH_VMORMM MASK_VMORMM (Some MF_match_opcode) 0;
    mk_opcode "vmnor.mm" 0 INSN_CLASS_V "Vd,Vt,Vs" MATCH_VMNORMM MASK_VMNORMM (Some MF_match_opcode) 0;
    mk_opcode "vmorn.mm" 0 INSN_CLASS_V "Vd,Vt,Vs" MATCH_VMORNMM MASK_VMORNMM (Some MF_match_opcode) 0;
    mk_opcode "vmornot.mm" 0 INSN_CLASS_V "Vd,Vt,Vs" MATCH_VMORNMM MASK_VMORNMM (Some MF_match_opcode) INSN_ALIAS;
    mk_opcode "vmxnor.mm" 0 INSN_CLASS_V "Vd,Vt,Vs" MATCH_VMXNORMM MASK_VMXNORMM (Some MF_match_opcode) 0;
    mk_opcode "vcpop.m" 0 INSN_CLASS_V "d,VtVm" MATCH_VCPOPM MASK_VCPOPM (Some MF_match_opcode) 0;
    mk_opcode "vpopc.m" 0 INSN_CLASS_V "d,VtVm" MATCH_VCPOPM MASK_VCPOPM (Some MF_match_opcode) INSN_ALIAS ].

(** Lines 1892-2031. *)
Definition riscv_opcodes_12 : list riscv_opcode :=
  [ mk_opcode "vfirst.m" 0 INSN_CLASS_V "d,VtVm" MATCH_VFIRSTM MASK_VFIRSTM (Some MF_match_opcode) 0;
    mk_opcode "vmsbf.m" 0 INSN_CLASS_V "Vd,VtVm" MATCH_VMSBFM MASK_VMSBFM (Some MF_match_opcode) 0;
    mk_opcode "vmsif.m" 0 INSN_CLASS_V "Vd,VtVm" MATCH_VMSIFM MASK_VMSIFM (Some MF_match_opcode) 0;
    mk_opcode "vmsof.m" 0 INSN_CLASS_V "Vd,VtVm" MATCH_VMSOFM MASK_VMSOFM (Some MF_match_opcode) 0;
    mk_opcode "viota.m" 0 INSN_CLASS_V "Vd,VtVm" MATCH_VIOTAM MASK_VIOTAM (Some MF_match_opcode) 0;
    mk_opcode "vid.v" 0 INSN_CLASS_V "VdVm" MATCH_VIDV MASK_VIDV (Some MF_match_opcode) 0;
    mk_opcode "vmv.x.s" 0 INSN_CLASS_V "d,Vt" MATCH_VMVXS MASK_VMVXS (Some MF_match_opcode) 0;
    mk_opcode "vmv.s.x" 0 INSN_CLASS_V "Vd,s" MATCH_VMVSX MASK_VMVSX (Some MF_match_opcode) 0;
    mk_opcode "vfmv.f.s" 0 INSN_CLASS_ZVEF "D,Vt" MATCH_VFMVFS MASK_VFMVFS (Some MF_match_opcode) 0;
    mk_opcode "vfmv.s.f" 0 INSN_CLASS_ZVEF "Vd,S" MATCH_VFMVSF MASK_VFMVSF (Some MF_match_opcode) 0;
    mk_opcode "vslideup.vx" 0 INSN_CLASS_V "Vd,Vt,sVm" MATCH_VSLIDEUPVX MASK_VSLIDEUPVX (Some MF_match_opcode) 0;
    mk_opcode "vslideup.vi" 0 INSN_CLASS_V "Vd,Vt,VjVm" MATCH_VSLIDEUPVI MASK_VSLIDEUPVI (Some MF_match_opcode) 0;
    mk_opcode "vslidedown.vx" 0 INSN_CLASS_V "Vd,Vt,sVm" MATCH_VSLIDEDOWNVX MASK_VSLIDEDOWNVX (Some MF_match_opcode) 0;
    mk_opcode "vslidedown.vi" 0 INSN_CLASS_V "Vd,Vt,VjVm" MATCH_VSLIDEDOWNVI MASK_VSLIDEDOWNVI (Some MF_match_opcode) 0;
    mk_opcode "vslide1up.vx" 0 INSN_CLASS_V "Vd,Vt,sVm" MATCH_VSLIDE1UPVX MASK_VSLIDE1UPVX (Some MF_match_opcode) 0;
    mk_opcode "vslide1down.vx" 0 INSN_CLASS_V "Vd,Vt,sVm" MATCH_VSLIDE1DOWNVX MASK_VSLIDE1DOWNVX (Some MF_match_opcode) 0;
    mk_opcode "vfslide1up.vf" 0 INSN_CLASS_ZVEF "Vd,Vt,SVm" MATCH_VFSLIDE1UPVF MASK_VFSLIDE1UPVF (Some MF_match_opcode) 0;
    mk_opcode "vfslide1down.vf" 0 INSN_CLASS_ZVEF "Vd,Vt,SVm" MATCH_VFSLIDE1DOWNVF MASK_VFSLIDE1DOWNVF (Some MF_match_opcode) 0;
    mk_opcode "vrgather.vv" 0 INSN_CLASS_V "Vd,Vt,VsVm" MATCH_VRGATHERVV MASK_VRGATHERVV (Some MF_match_opcode) 0;
    mk_opcode "vrgather.vx" 0 INSN_CLASS_V "Vd,Vt,sVm" MATCH_VRGATHERVX MASK_VRGATHERVX (Some MF_match_opcode) 0;
    mk_opcode "vrgather.vi" 0 INSN_CLASS_V "Vd,Vt,VjVm" MATCH_VRGATHERVI MASK_VRGATHERVI (Some MF_match_opcode) 0;
    mk_opcode "vrgatherei16.vv" 0 INSN_CLASS_V "Vd,Vt,VsVm" MATCH_VRGATHEREI16VV MASK_VRGATHEREI16VV (Some MF_match_opcode) 0;
    mk_opcode "vcompress.vm" 0 INSN_CLASS_V "Vd,Vt,Vs" MATCH_VCOMPRESSVM MASK_VCOMPRESSVM (Some MF_match_opcode) 0;
    mk_opcode "vmv1r.v" 0 INSN_CLASS_V "Vd,Vt" MATCH_VMV1RV MASK_VMV1RV (Some MF_match_opcode) 0;
    mk_opcode "vmv2r.v" 0 INSN_CLASS_V "Vd,Vt" MATCH_VMV2RV MASK_VMV2RV (Some MF_match_opcode) 0;
    mk_opcode "vmv4r.v" 0 INSN_CLASS_V "Vd,Vt" MATCH_VMV4RV MASK_VMV4RV (Some MF_match_opcode) 0;
    mk_opcode "vmv8r.v" 0 INSN_CLASS_V "Vd,Vt" MATCH_VMV8RV MASK_VMV8RV (Some MF_match_opcode) 0;
    mk_opcode "vandn.vv" 0 INSN_CLASS_ZVKB "Vd,Vt,VsVm" MATCH_VANDN_VV MASK_VANDN_VV (Some MF_match_opcode) 0;
    mk_opcode "vandn.vx" 0 INSN_CLASS_ZVKB "Vd,Vt,sVm" MATCH_VANDN_VX MASK_VANDN_VX (Some MF_match_opcode) 0;
    mk_opcode "vbrev.v" 0 INSN_CLASS_ZVBB "Vd,VtVm" MATCH_VBREV_V MASK_VBREV_V (Some MF_match_opcode) 0;
    mk_opcode "vbrev8.v" 0 INSN_CLASS_ZVKB "Vd,VtVm" MATCH_VBREV8_V MASK_VBREV8_V (Some MF_match_opcode) 0;
    mk_opcode "vrev8.v" 0 INSN_CLASS_ZVKB "Vd,VtVm" MATCH_VREV8_V MASK_VREV8_V (Some MF_match_opcode) 0;
    mk_opcode "vclz.v" 0 INSN_CLASS_ZVBB "Vd,VtVm" MATCH_VCLZ_V MASK_VCLZ_V (Some MF_match_opcode) 0;
    mk_opcode "vctz.v" 0 INSN_CLASS_ZVBB "Vd,VtVm" MATCH_VCTZ_V MASK_VCTZ_V (Some MF_match_opcode) 0;
    mk_opcode "vcpop.v" 0 INSN_CLASS_ZVBB "Vd,VtVm" MATCH_VCPOP_V MASK_VCPOP_V (Some MF_match_opcode) 0;
    mk_opcode "vrol.vv" 0 INSN_CLASS_ZVKB "Vd,Vt,VsVm" MATCH_VROL_VV MASK_VROL_VV (Some MF_match_opcode) 0;
    mk_opcode "vrol.vx" 0 INSN_CLASS_ZVKB "Vd,Vt,sVm" MATCH_VROL_VX MASK_VROL_VX (Some MF_match_opcode) 0;
    mk_opcode "vror.vv" 0 INSN_CLASS_ZVKB "Vd,Vt,VsVm" MATCH_VROR_VV MASK_VROR_VV (Some MF_match_opcode) 0;
    mk_opcode "vror.vx" 0 INSN_CLASS_ZVKB "Vd,Vt,sVm" MATCH_VROR_VX MASK_VROR_VX (Some MF_match_opcode) 0;
    mk_opcode "vror.vi" 0 INSN_CLASS_ZVKB "Vd,Vt,VlVm" MATCH_VROR_VI MASK_VROR_VI (Some MF_match_opcode) 0;
    mk_opcode "vwsll.vv" 0 INSN_CLASS_ZVBB "Vd,Vt,VsVm" MATCH_VWSLL_VV MASK_VWSLL_VV (Some MF_match_opcode) 0;
    mk_opcode "vwsll.vx" 0 INSN_CLASS_ZVBB "Vd,Vt,sVm" MATCH_VWSLL_VX MASK_VWSLL_VX (Some MF_match_opcode) 0;
    mk_opcode "vwsll.vi" 0 INSN_CLASS_ZVBB "Vd,Vt,VjVm" MATCH_VWSLL_VI MASK_VWSLL_VI (Some MF_match_opcode) 0;
    mk_opcode "vclmul.vv" 0 INSN_CLASS_ZVBC "Vd,Vt,VsVm" MATCH_VCLMUL_VV MASK_VCLMUL_VV (Some MF_match_opcode) 0;
    mk_opcode "vclmul.vx" 0 INSN_CLASS_ZVBC "Vd,Vt,sVm" MATCH_VCLMUL_VX MASK_VCLMUL_VX (Some MF_match_opcode) 0;
    mk_opcode "vclmulh.vv" 0 INSN_CLASS_ZVBC "Vd,Vt,VsVm" MATCH_VCLMULH_VV MASK_VCLMULH_VV (Some MF_match_opcode) 0;
    mk_opcode "vclmulh.vx" 0 INSN_CLASS_ZVBC "Vd,Vt,sVm" MATCH_VCLMULH_VX MASK_VCLMULH_VX (Some MF_match_opcode) 0;
    mk_opcode "vghsh.vv" 0 INSN_CLASS_ZVKG "Vd,Vt,Vs" MATCH_VGHSH_VV MASK_VGHSH_VV (Some MF_match_opcode) 0;
    mk_opcode "vgmul.vv" 0 INSN_CLASS_ZVKG "Vd,Vt" MATCH_VGMUL_VV MASK_VGMUL_VV (Some MF_match_opcode) 0;
    mk_opcode "vaesdf.vv" 0 INSN_CLASS_ZVKNED "Vd,Vt" MATCH_VAESDF_VV MASK_VAESDF_VV (Some MF_match_opcode) 0;
    mk_opcode "vaesdf.vs" 0 INSN_CLASS_ZVKNED "Vd,Vt" MATCH_VAESDF_VS MASK_VAESDF_VV (Some MF_match_opcode) 0;
    mk_opcode "vaesdm.vv" 0 INSN_CLASS_ZVKNED "Vd,Vt" MATCH_VAESDM_VV MASK_VAESDM_VV (Some MF_match_opcode) 0;
    mk_opcode "vaesdm.vs" 0 INSN_CLASS_ZVKNED "Vd,Vt" MATCH_VAESDM_VS MASK_VAESDM_VV (Some MF_match_opcode) 0;
    mk_opcode "vaesef.vv" 0 INSN_CLASS_ZVKNED "Vd,Vt" MATCH_VAESEF_VV MASK_VAESEF_VV (Some MF_match_opcode) 0;
    mk_opcode "vaesef.vs" 0 INSN_CLASS_ZVKNED "Vd,Vt" MATCH_VAESEF_VS MASK_VAESEF_VV (Some MF_match_opcode) 0;
    mk_opcode "vaesem.vv" 0 INSN_CLASS_ZVKNED "Vd,Vt" MATCH_VAESEM_VV MASK_VAESEM_VV (Some MF_match_opcode) 0;
    mk_opcode "vaesem.vs" 0 INSN_CLASS_ZVKNED "Vd,Vt" MATCH_VAESEM_VS MASK_VAESEM_VV (Some MF_match_opcode) 0;
    mk_opcode "vaeskf1.vi" 0 INSN_CLASS_ZVKNED "Vd,Vt,Vj" MATCH_VAESKF1_VI MASK_VAESKF1_VI (Some MF_match_opcode) 0;
    mk_opcode "vaeskf2.vi" 0 INSN_CLASS_ZVKNED "Vd,Vt,Vj" MATCH_VAESKF2_VI MASK_VAESKF2_VI (Some MF_match_opcode) 0;
    mk_opcode "vaesz.vs" 0 INSN_CLASS_ZVKNED "Vd,Vt" MATCH_VAESZ_VS MASK_VAESZ_VS (Some MF_match_opcode) 0;
    mk_opcode "vsha2ch.vv" 0 INSN_CLASS_ZVKNHA_OR_ZVKNHB "Vd,Vt,Vs" MATCH_VSHA2CH_VV MASK_VSHA2CH_VV (Some MF_match_opcode) 0;
    mk_opcode "vsha2cl.vv" 0 INSN_CLASS_ZVKNHA_OR_ZVKNHB "Vd,Vt,Vs" MATCH_VSHA2CL_VV MASK_VSHA2CL_VV (Some MF_match_opcode) 0;
    mk_opcode "vsha2ms.vv" 0 INSN_CLASS_ZVKNHA_OR_ZVKNHB "Vd,Vt,Vs" MATCH_VSHA2MS_VV MASK_VSHA2MS_VV (Some MF_match_opcode) 0;
    mk_opcode "vsm4k.vi" 0 INSN_CLASS_ZVKSED "Vd,Vt,Vj" MATCH_VSM4K_VI MASK_VSM4K_VI (Some MF_match_opcode) 0;
    mk_opcode "vsm4r.vv" 0 INSN_CLASS_ZVKSED "Vd,Vt" MATCH_VSM4R_VV MASK_VSM4R_VV (Some MF_match_opcode) 0;
    mk_opcode "vsm4r.vs" 0 INSN_CLASS_ZVKSED "Vd,Vt" MATCH_VSM4R_VS MASK_VSM4R_VS (Some MF_match_opcode) 0;
    mk_opcode "vsm3c.vi" 0 INSN_CLASS_ZVKSH "Vd,Vt,Vj" MATCH_VSM3C_VI MASK_VSM3C_VI (Some MF_match_opcode) 0;
    mk_opcode "vsm3me.vv" 0 INSN_CLASS_ZVKSH "Vd,Vt,Vs" MATCH_VSM3ME_VV MASK_VSM3ME_VV (Some MF_match_opcode) 0;
    mk_opcode "c.lbu" 0 INSN_CLASS_ZCB "Ct,Wcb(Cs)" MATCH_C_LBU MASK_C_LBU (Some MF_match_opcode) (INSN_DREF .| INSN_1_BYTE);
    mk_opcode "c.lhu" 0 INSN_CLASS_ZCB "Ct,Wch(Cs)" MATCH_C_LHU MASK_C_LHU (Some MF_match_opcode) (INSN_DREF .| INSN_2_BYTE);
    mk_opcode "c.lh" 0 INSN_CLASS_ZCB "Ct,Wch(Cs)" MATCH_C_LH MASK_C_LH (Some MF_match_opcode) (INSN_DREF .| INSN_2_BYTE);
    mk_opcode "c.sb" 0 INSN_CLASS_ZCB "Ct,Wcb(Cs)" MATCH_C_SB MASK_C_SB (Some MF_match_opcode) (INSN_DREF .| INSN_1_BYTE);
    mk_opcode "c.sh" 0 INSN_CLASS_ZCB "Ct,Wch(Cs)" MATCH_C_SH MASK_C_SH (Some MF_match_opcode) (INSN_DREF .| INSN_2_BYTE);
    mk_opcode "c.not" 0 INSN_CLASS_ZCB "Cs" MATCH_C_NOT MASK_C_NOT (Some MF_match_opcode) 0;
    mk_opcode "c.mul" 0 INSN_CLASS_ZCB_AND_ZMMUL "Cs,Ct" MATCH_C_MUL MASK_C_MUL (Some MF_match_opcode) 0;
    mk_opcode "c.sext.b" 0 INSN_CLASS_ZCB_AND_ZBB "Cs" MATCH_C_SEXT_B MASK_C_SEXT_B (Some MF_match_opcode) 0;
    mk_opcode "c.sext.h" 0 INSN_CLASS_ZCB_AND_ZBB "Cs" MATCH_C_SEXT_H MASK_C_SEXT_H (Some MF_match_opcode) 0;
    mk_opcode "c.zext.h" 0 INSN_CLASS_ZCB_AND_ZBB "Cs" MATCH_C_ZEXT_H MASK_C_ZEXT_H (Some MF_match_opcode) 0;
    mk_opcode "c.zext.w" 64 INSN_CLASS_ZCB_AND_ZBA "Cs" MATCH_C_ZEXT_W MASK_C_ZEXT_W (Some MF_match_opcode) 0;
    mk_opcode "c.zext.b" 0 INSN_CLASS_ZCB "Cs" MATCH_C_ZEXT_B MASK_C_ZEXT_B (Some MF_match_opcode) 0;
    mk_opcode "c.sext.w" 64 INSN_CLASS_ZCB "d" MATCH_C_ADDIW (MASK_C_ADDIW .| MASK_RVC_IMM) (Some MF_match_rd_nonzero) INSN_ALIAS;
    mk_opcode "csrr" 0 INSN_CLASS_ZICSR "d,E" MATCH_CSRRS (MASK_CSRRS .| MASK_RS1) (Some MF_match_opcode) INSN_ALIAS;
    mk_opcode "csrwi" 0 INSN_CLASS_ZICSR "E,Z" MATCH_CSRRWI (MASK_CSRRWI .| MASK_RD) (Some MF_match_opcode) INSN_ALIAS;
    mk_opcode "csrw" 0 INSN_CLASS_ZICSR "E,s" MATCH_CSRRW (MASK_CSRRW .| MASK_RD) (Some MF_match_opcode) INSN_ALIAS;
    mk_opcode "csrw" 0 INSN_CLASS_ZICSR "E,Z" MATCH_CSRRWI (MASK_CSRRWI .| MASK_RD) (Some MF_match_opcode) INSN_ALIAS;
    mk_opcode "csrsi" 0 INSN_CLASS_ZICSR "E,Z" MATCH_CSRRSI (MASK_CSRRSI .| MASK_RD) (Some MF_match_opcode) INSN_ALIAS;
    mk_opcode "csrs" 0 INSN_CLASS_ZICSR "E,s" MATCH_CSRRS (MASK_CSRRS .| MASK_RD) (Some MF_match_opcode) INSN_ALIAS;
    mk_opcode "csrs" 0 INSN_CLASS_ZICSR "E,Z" MATCH_CSRRSI (MASK_CSRRSI .| MASK_RD) (Some MF_match_opcode) INSN_ALIAS;
    mk_opcode "csrci" 0 INSN_CLASS_ZICSR "E,Z" MATCH_CSRRCI (MASK_CSRRCI .| MASK_RD) (Some MF_match_opcode) INSN_ALIAS;
    mk_opcode "csrc" 0 INSN_CLASS_ZICSR "E,s" MATCH_CSRRC (MASK_CSRRC .| MASK_RD) (Some MF_match_opcode) INSN_ALIAS;
    mk_opcode "csrc" 0 INSN_CLASS_ZICSR "E,Z" MATCH_CSRRCI (MASK_CSRRCI .| MASK_RD) (Some MF_match_opcode) INSN_ALIAS;
    mk_opcode "csrrwi" 0 INSN_CLASS_ZICSR "d,E,Z" MATCH_CSRRWI MASK_CSRRWI (Some MF_match_opcode) 0;
    mk_opcode "csrrw" 0 INSN_CLASS_ZICSR "d,E,s" MATCH_CSRRW MASK_CSRRW (Some MF_match_opcode) 0;
    mk_opcode "csrrw" 0 INSN_CLASS_ZICSR "d,E,Z" MATCH_CSRRWI MASK_CSRRWI (Some MF_match_opcode) INSN_ALIAS;
    mk_opcode "csrrsi" 0 INSN_CLASS_ZICSR "d,E,Z" MATCH_CSRRSI MASK_CSRRSI (Some MF_match_opcode) 0;
    mk_opcode "csrrs" 0 INSN_CLASS_ZICSR "d,E,s" MATCH_CSRRS MASK_CSRRS (Some MF_match_opcode) 0;
    mk_opcode "csrrs" 0 INSN_CLASS_ZICSR "d,E,Z" MATCH_CSRRSI MASK_CSRRSI (Some MF_match_opcode) INSN_ALIAS;
    mk_opcode "csrrci" 0 INSN_CLASS_ZICSR "d,E,Z" MATCH_CSRRCI MASK_CSRRCI (Some MF_match_opcode) 0;
    mk_opcode "csrrc" 0 INSN_CLASS_ZICSR "d,E,s" MATCH_CSRRC MASK_CSRRC (Some MF_match_opcode) 0;
    mk_opcode "csrrc" 0 INSN_CLASS_ZICSR "d,E,Z" MATCH_CSRRCI MASK_CSRRCI (Some MF_match_opcode) INSN_ALIAS;
    mk_opcode "uret" 0 INSN_CLASS_I "" MATCH_URET MASK_URET (Some MF_match_opcode) 0;
    mk_opcode "sret" 0 INSN_CLASS_I "" MATCH_SRET MASK_SRET (Some MF_match_opcode) 0;
    mk_opcode "hret" 0 INSN_CLASS_I "" MATCH_HRET MASK_HRET (Some MF_match_opcode) 0;
    mk_opcode "mret" 0 INSN_CLASS_I "" MATCH_MRET MASK_MRET (Some MF_match_opcode) 0;
    mk_opcode "dret" 0 INSN_CLASS_I "" MATCH_DRET MASK_DRET (Some MF_match_opcode) 0;
    mk_opcode "sfence.vm" 0 INSN_CLASS_I "" MATCH_SFENCE_VM (MASK_SFENCE_VM .| MASK_RS1) (Some MF_match_opcode) 0;
    mk_opcode "sfence.vm" 0 INSN_CLASS_I "s" MATCH_SFENCE_VM MASK_SFENCE_VM (Some MF_match_opcode) 0;
    mk_opcode "sfence.vma" 0 INSN_CLASS_I "" MATCH_SFENCE_VMA (MASK_SFENCE_VMA .| MASK_RS1 .| MASK_RS2) (Some MF_match_opcode) INSN_ALIAS;
    mk_opcode "sfence.vma" 0 INSN_CLASS_I "s" MATCH_SFENCE_VMA (MASK_SFENCE_VMA .| MASK_RS2) (Some MF_match_opcode) INSN_ALIAS;
    mk_opcode "sfence.vma" 0 INSN_CLASS_I "s,t" MATCH_SFENCE_VMA MASK_SFENCE_VMA (Some MF_match_opcode) 0;
    mk_opcode "wfi" 0 INSN_CLASS_I "" MATCH_WFI MASK_WFI (Some MF_match_opcode) 0;
    mk_opcode "sinval.vma" 0 INSN_CLASS_SVINVAL "s,t" MATCH_SINVAL_VMA MASK_SINVAL_VMA (Some MF_match_opcode) 0;
    mk_opcode "sfence.w.inval" 0 INSN_CLASS_SVINVAL "" MATCH_SFENCE_W_INVAL MASK_SFENCE_W_INVAL (Some MF_match_opcode) 0 ].

(** Lines 2032-2170. *)
Definition riscv_opcodes_13 : list riscv_opcode :=
  [ mk_opcode "sfence.inval.ir" 0 INSN_CLASS_SVINVAL "" MATCH_SFENCE_INVAL_IR MASK_SFENCE_INVAL_IR (Some MF_match_opcode) 0;
    mk_opcode "hinval.vvma" 0 INSN_CLASS_SVINVAL "s,t" MATCH_HINVAL_VVMA MASK_HINVAL_VVMA (Some MF_match_opcode) 0;
    mk_opcode "hinval.gvma" 0 INSN_CLASS_SVINVAL "s,t" MATCH_HINVAL_GVMA MASK_HINVAL_GVMA (Some MF_match_opcode) 0;
    mk_opcode "hfence.vvma" 0 INSN_CLASS_H "" MATCH_HFENCE_VVMA (MASK_HFENCE_VVMA .| MASK_RS1 .| MASK_RS2) (Some MF_match_opcode) INSN_ALIAS;
    mk_opcode "hfence.vvma" 0 INSN_CLASS_H "s" MATCH_HFENCE_VVMA (MASK_HFENCE_VVMA .| MASK_RS2) (Some MF_match_opcode) INSN_ALIAS;
    mk_opcode "hfence.vvma" 0 INSN_CLASS_H "s,t" MATCH_HFENCE_VVMA MASK_HFENCE_VVMA (Some MF_match_opcode) 0;
    mk_opcode "hfence.gvma" 0 INSN_CLASS_H "" MATCH_HFENCE_GVMA (MASK_HFENCE_GVMA .| MASK_RS1 .| MASK_RS2) (Some MF_match_opcode) INSN_ALIAS;
    mk_opcode "hfence.gvma" 0 INSN_CLASS_H "s" MATCH_HFENCE_GVMA (MASK_HFENCE_GVMA .| MASK_RS2) (Some MF_match_opcode) INSN_ALIAS;
    mk_opcode "hfence.gvma" 0 INSN_CLASS_H "s,t" MATCH_HFENCE_GVMA MASK_HFENCE_GVMA (Some MF_match_opcode) 0;
    mk_opcode "hlv.b" 0 INSN_CLASS_H "d,0(s)" MATCH_HLV_B MASK_HLV_B (Some MF_match_opcode) (INSN_DREF .| INSN_1_BYTE);
    mk_opcode "hlv.bu" 0 INSN_CLASS_H "d,0(s)" MATCH_HLV_BU MASK_HLV_BU (Some MF_match_opcode) (INSN_DREF .| INSN_1_BYTE);
    mk_opcode "hlv.h" 0 INSN_CLASS_H "d,0(s)" MATCH_HLV_H MASK_HLV_H (Some MF_match_opcode) (INSN_DREF .| INSN_2_BYTE);
    mk_opcode "hlv.hu" 0 INSN_CLASS_H "d,0(s)" MATCH_HLV_HU MASK_HLV_HU (Some MF_match_opcode) (INSN_DREF .| INSN_2_BYTE);
    mk_opcode "hlvx.hu" 0 INSN_CLASS_H "d,0(s)" MATCH_HLVX_HU MASK_HLVX_HU (Some MF_match_opcode) (INSN_DREF .| INSN_2_BYTE);
    mk_opcode "hlv.w" 0 INSN_CLASS_H "d,0(s)" MATCH_HLV_W MASK_HLV_W (Some MF_match_opcode) (INSN_DREF .| INSN_4_BYTE);
    mk_opcode "hlv.wu" 64 INSN_CLASS_H "d,0(s)" MATCH_HLV_WU MASK_HLV_WU (Some MF_match_opcode) (INSN_DREF .| INSN_4_BYTE);
    mk_opcode "hlvx.wu" 0 INSN_CLASS_H "d,0(s)" MATCH_HLVX_WU MASK_HLVX_WU (Some MF_match_opcode) (INSN_DREF .| INSN_4_BYTE);
    mk_opcode "hlv.d" 64 INSN_CLASS_H "d,0(s)" MATCH_HLV_D MASK_HLV_D (Some MF_match_opcode) (INSN_DREF .| INSN_8_BYTE);
    mk_opcode "hsv.b" 0 INSN_CLASS_H "t,0(s)" MATCH_HSV_B MASK_HSV_B (Some MF_match_opcode) (INSN_DREF .| INSN_1_BYTE);
    mk_opcode "hsv.h" 0 INSN_CLASS_H "t,0(s)" MATCH_HSV_H MASK_HSV_H (Some MF_match_opcode) (INSN_DREF .| INSN_2_BYTE);
    mk_opcode "hsv.w" 0 INSN_CLASS_H "t,0(s)" MATCH_HSV_W MASK_HSV_W (Some MF_match_opcode) (INSN_DREF .| INSN_4_BYTE);
    mk_opcode "hsv.d" 64 INSN_CLASS_H "t,0(s)" MATCH_HSV_D MASK_HSV_D (Some MF_match_opcode) (INSN_DREF .| INSN_8_BYTE);
    mk_opcode "cv.mac" 0 INSN_CLASS_XCVMAC "d,s,t" MATCH_CV_MAC MASK_CV_MAC (Some MF_match_opcode) 0;
    mk_opcode "cv.msu" 0 INSN_CLASS_XCVMAC "d,s,t" MATCH_CV_MSU MASK_CV_MSU (Some MF_match_opcode) 0;
    mk_opcode "cv.mulsn" 0 INSN_CLASS_XCVMAC "d,s,t,Xc3" MATCH_CV_MULSN MASK_CV_MULSN (Some MF_match_opcode) 0;
    mk_opcode "cv.muls" 0 INSN_CLASS_XCVMAC "d,s,t" MATCH_CV_MULSN (MASK_CV_MULSN .| MASK_CV_IS3_UIMM5) (Some MF_match_opcode) INSN_ALIAS;
    mk_opcode "cv.mulsrn" 0 INSN_CLASS_XCVMAC "d,s,t,Xc3" MATCH_CV_MULSRN MASK_CV_MULSRN (Some MF_match_opcode) 0;
    mk_opcode "cv.mulhhsn" 0 INSN_CLASS_XCVMAC "d,s,t,Xc3" MATCH_CV_MULHHSN MASK_CV_MULHHSN (Some MF_match_opcode) 0;
    mk_opcode "cv.mulhhs" 0 INSN_CLASS_XCVMAC "d,s,t" MATCH_CV_MULHHSN (MASK_CV_MULHHSN .| MASK_CV_IS3_UIMM5) (Some MF_match_opcode) INSN_ALIAS;
    mk_opcode "cv.mulhhsrn" 0 INSN_CLASS_XCVMAC "d,s,t,Xc3" MATCH_CV_MULHHSRN MASK_CV_MULHHSRN (Some MF_match_opcode) 0;
    mk_opcode "cv.mulun" 0 INSN_CLASS_XCVMAC "d,s,t,Xc3" MATCH_CV_MULUN MASK_CV_MULUN (Some MF_match_opcode) 0;
    mk_opcode "cv.mulu" 0 INSN_CLASS_XCVMAC "d,s,t" MATCH_CV_MULUN (MASK_CV_MULUN .| MASK_CV_IS3_UIMM5) (Some MF_match_opcode) INSN_ALIAS;
    mk_opcode "cv.mulurn" 0 INSN_CLASS_XCVMAC "d,s,t,Xc3" MATCH_CV_MULURN MASK_CV_MULURN (Some MF_match_opcode) 0;
    mk_opcode "cv.mulhhun" 0 INSN_CLASS_XCVMAC "d,s,t,Xc3" MATCH_CV_MULHHUN MASK_CV_MULHHUN (Some MF_match_opcode) 0;
    mk_opcode "cv.mulhhu" 0 INSN_CLASS_XCVMAC "d,s,t" MATCH_CV_MULHHUN (MASK_CV_MULHHUN .| MASK_CV_IS3_UIMM5) (Some MF_match_opcode) INSN_ALIAS;
    mk_opcode "cv.mulhhurn" 0 INSN_CLASS_XCVMAC "d,s,t,Xc3" MATCH_CV_MULHHURN MASK_CV_MULHHURN (Some MF_match_opcode) 0;
    mk_opcode "cv.macsn" 0 INSN_CLASS_XCVMAC "d,s,t,Xc3" MATCH_CV_MACSN MASK_CV_MACSN (Some MF_match_opcode) 0;
    mk_opcode "cv.machhsn" 0 INSN_CLASS_XCVMAC "d,s,t,Xc3" MATCH_CV_MACHHSN MASK_CV_MACHHSN (Some MF_match_opcode) 0;
    mk_opcode "cv.macsrn" 0 INSN_CLASS_XCVMAC "d,s,t,Xc3" MATCH_CV_MACSRN MASK_CV_MACSRN (Some MF_match_opcode) 0;
    mk_opcode "cv.machhsrn" 0 INSN_CLASS_XCVMAC "d,s,t,Xc3" MATCH_CV_MACHHSRN MASK_CV_MACHHSRN (Some MF_match_opcode) 0;
    mk_opcode "cv.macun" 0 INSN_CLASS_XCVMAC "d,s,t,Xc3" MATCH_CV_MACUN MASK_CV_MACUN (Some MF_match_opcode) 0;
    mk_opcode "cv.machhun" 0 INSN_CLASS_XCVMAC "d,s,t,Xc3" MATCH_CV_MACHHUN MASK_CV_MACHHUN (Some MF_match_opcode) 0;
    mk_opcode "cv.macurn" 0 INSN_CLASS_XCVMAC "d,s,t,Xc3" MATCH_CV_MACURN MASK_CV_MACURN (Some MF_match_opcode) 0;
    mk_opcode "cv.machhurn" 0 INSN_CLASS_XCVMAC "d,s,t,Xc3" MATCH_CV_MACHHURN MASK_CV_MACHHURN (Some MF_match_opcode) 0;
    mk_opcode "cv.abs" 0 INSN_CLASS_XCVALU "d,s" MATCH_CV_ABS MASK_CV_ABS (Some MF_match_opcode) 0;
    mk_opcode "cv.exths" 0 INSN_CLASS_XCVALU "d,s" MATCH_CV_EXTHS MASK_CV_EXTHS (Some MF_match_opcode) 0;
    mk_opcode "cv.exthz" 0 INSN_CLASS_XCVALU "d,s" MATCH_CV_EXTHZ MASK_CV_EXTHZ (Some MF_match_opcode) 0;
    mk_opcode "cv.extbs" 0 INSN_CLASS_XCVALU "d,s" MATCH_CV_EXTBS MASK_CV_EXTBS (Some MF_match_opcode) 0;
    mk_opcode "cv.extbz" 0 INSN_CLASS_XCVALU "d,s" MATCH_CV_EXTBZ MASK_CV_EXTBZ (Some MF_match_opcode) 0;
    mk_opcode "cv.sle" 0 INSN_CLASS_XCVALU "d,s,t" MATCH_CV_SLE MASK_CV_SLE (Some MF_match_opcode) 0;
    mk_opcode "cv.slet" 0 INSN_CLASS_XCVALU "d,s,t" MATCH_CV_SLET MASK_CV_SLET (Some MF_match_opcode) INSN_ALIAS;
    mk_opcode "cv.sleu" 0 INSN_CLASS_XCVALU "d,s,t" MATCH_CV_SLEU MASK_CV_SLEU (Some MF_match_opcode) 0;
    mk_opcode "cv.sletu" 0 INSN_CLASS_XCVALU "d,s,t" MATCH_CV_SLETU MASK_CV_SLETU (Some MF_match_opcode) INSN_ALIAS;
    mk_opcode "cv.min" 0 INSN_CLASS_XCVALU "d,s,t" MATCH_CV_MIN MASK_CV_MIN (Some MF_match_opcode) 0;
    mk_opcode "cv.minu" 0 INSN_CLASS_XCVALU "d,s,t" MATCH_CV_MINU MASK_CV_MINU (Some MF_match_opcode) 0;
    mk_opcode "cv.max" 0 INSN_CLASS_XCVALU "d,s,t" MATCH_CV_MAX MASK_CV_MAX (Some MF_match_opcode) 0;
    mk_opcode "cv.maxu" 0 INSN_CLASS_XCVALU "d,s,t" MATCH_CV_MAXU MASK_CV_MAXU (Some MF_match_opcode) 0;
    mk_opcode "cv.clip" 0 INSN_CLASS_XCVALU "d,s,Xc2" MATCH_CV_CLIP MASK_CV_CLIP (Some MF_match_opcode) 0;
    mk_opcode "cv.clipu" 0 INSN_CLASS_XCVALU "d,s,Xc2" MATCH_CV_CLIPU MASK_CV_CLIPU (Some MF_match_opcode) 0;
    mk_opcode "cv.clipr" 0 INSN_CLASS_XCVALU "d,s,t" MATCH_CV_CLIPR MASK_CV_CLIPR (Some MF_match_opcode) 0;
    mk_opcode "cv.clipur" 0 INSN_CLASS_XCVALU "d,s,t" MATCH_CV_CLIPUR MASK_CV_CLIPUR (Some MF_match_opcode) 0;
    mk_opcode "cv.addn" 0 INSN_CLASS_XCVALU "d,s,t,Xc3" MATCH_CV_ADDN MASK_CV_ADDN (Some MF_match_opcode) 0;
    mk_opcode "cv.addun" 0 INSN_CLASS_XCVALU "d,s,t,Xc3" MATCH_CV_ADDUN MASK_CV_ADDUN (Some MF_match_opcode) 0;
    mk_opcode "cv.addunr" 0 INSN_CLASS_XCVALU "d,s,t" MATCH_CV_ADDUNR MASK_CV_ADDUNR (Some MF_match_opcode) 0;
    mk_opcode "cv.addrn" 0 INSN_CLASS_XCVALU "d,s,t,Xc3" MATCH_CV_ADDRN MASK_CV_ADDRN (Some MF_match_opcode) 0;
    mk_opcode "cv.addurn" 0 INSN_CLASS_XCVALU "d,s,t,Xc3" MATCH_CV_ADDURN MASK_CV_ADDURN (Some MF_match_opcode) 0;
    mk_opcode "cv.addnr" 0 INSN_CLASS_XCVALU "d,s,t" MATCH_CV_ADDNR MASK_CV_ADDNR (Some MF_match_opcode) 0;
    mk_opcode "cv.addrnr" 0 INSN_CLASS_XCVALU "d,s,t" MATCH_CV_ADDRNR MASK_CV_ADDRNR (Some MF_match_opcode) 0;
    mk_opcode "cv.addurnr" 0 INSN_CLASS_XCVALU "d,s,t" MATCH_CV_ADDURNR MASK_CV_ADDURNR (Some MF_match_opcode) 0;
    mk_opcode "cv.subn" 0 INSN_CLASS_XCVALU "d,s,t,Xc3" MATCH_CV_SUBN MASK_CV_SUBN (Some MF_match_opcode) 0;
    mk_opcode "cv.subun" 0 INSN_CLASS_XCVALU "d,s,t,Xc3" MATCH_CV_SUBUN MASK_CV_SUBUN (Some MF_match_opcode) 0;
    mk_opcode "cv.subrn" 0 INSN_CLASS_XCVALU "d,s,t,Xc3" MATCH_CV_SUBRN MASK_CV_SUBRN (Some MF_match_opcode) 0;
    mk_opcode "cv.suburn" 0 INSN_CLASS_XCVALU "d,s,t,Xc3" MATCH_CV_SUBURN MASK_CV_SUBURN (Some MF_match_opcode) 0;
    mk_opcode "cv.subnr" 0 INSN_CLASS_XCVALU "d,s,t" MATCH_CV_SUBNR MASK_CV_SUBNR (Some MF_match_opcode) 0;
    mk_opcode "cv.subunr" 0 INSN_CLASS_XCVALU "d,s,t" MATCH_CV_SUBUNR MASK_CV_SUBUNR (Some MF_match_opcode) 0;
    mk_opcode "cv.subrnr" 0 INSN_CLASS_XCVALU "d,s,t" MATCH_CV_SUBRNR MASK_CV_SUBRNR (Some MF_match_opcode) 0;
    mk_opcode "cv.suburnr" 0 INSN_CLASS_XCVALU "d,s,t" MATCH_CV_SUBURNR MASK_CV_SUBURNR (Some MF_match_opcode) 0;
    mk_opcode "th.addsl" 0 INSN_CLASS_XTHEADBA "d,s,t,Xtu2@25" MATCH_TH_ADDSL MASK_TH_ADDSL (Some MF_match_opcode) 0;
    mk_opcode "th.srri" 0 INSN_CLASS_XTHEADBB "d,s,Xtu6@20" MATCH_TH_SRRI MASK_TH_SRRI (Some MF_match_opcode) 0;
    mk_opcode "th.srriw" 64 INSN_CLASS_XTHEADBB "d,s,Xtu5@20" MATCH_TH_SRRIW MASK_TH_SRRIW (Some MF_match_opcode) 0;
    mk_opcode "th.ext" 0 INSN_CLASS_XTHEADBB "d,s,Xtu6@26,Xtu6@20" MATCH_TH_EXT MASK_TH_EXT (Some MF_match_opcode) 0;
    mk_opcode "th.extu" 0 INSN_CLASS_XTHEADBB "d,s,Xtu6@26,Xtu6@20" MATCH_TH_EXTU MASK_TH_EXTU (Some MF_match_opcode) 0;
    mk_opcode "th.ff0" 0 INSN_CLASS_XTHEADBB "d,s" MATCH_TH_FF0 MASK_TH_FF0 (Some MF_match_opcode) 0;
    mk_opcode "th.ff1" 0 INSN_CLASS_XTHEADBB "d,s" MATCH_TH_FF1 MASK_TH_FF1 (Some MF_match_opcode) 0;
    mk_opcode "th.rev" 0 INSN_CLASS_XTHEADBB "d,s" MATCH_TH_REV MASK_TH_REV (Some MF_match_opcode) 0;
    mk_opcode "th.revw" 64 INSN_CLASS_XTHEADBB "d,s" MATCH_TH_REVW MASK_TH_REVW (Some MF_match_opcode) 0;
    mk_opcode "th.tstnbz" 0 INSN_CLASS_XTHEADBB "d,s" MATCH_TH_TSTNBZ MASK_TH_TSTNBZ (Some MF_match_opcode) 0;
    mk_opcode "th.tst" 0 INSN_CLASS_XTHEADBS "d,s,Xtu6@20" MATCH_TH_TST MASK_TH_TST (Some MF_match_opcode) 0;
    mk_opcode "th.dcache.call" 0 INSN_CLASS_XTHEADCMO "" MATCH_TH_DCACHE_CALL MASK_TH_DCACHE_CALL (Some MF_match_opcode) 0;
    mk_opcode "th.dcache.ciall" 0 INSN_CLASS_XTHEADCMO "" MATCH_TH_DCACHE_CIALL MASK_TH_DCACHE_CIALL (Some MF_match_opcode) 0;
    mk_opcode "th.dcache.iall" 0 INSN_CLASS_XTHEADCMO "" MATCH_TH_DCACHE_IALL MASK_TH_DCACHE_IALL (Some MF_match_opcode) 0;
    mk_opcode "th.dcache.cpa" 0 INSN_CLASS_XTHEADCMO "s" MATCH_TH_DCACHE_CPA MASK_TH_DCACHE_CPA (Some MF_match_opcode) 0;
    mk_opcode "th.dcache.cipa" 0 INSN_CLASS_XTHEADCMO "s" MATCH_TH_DCACHE_CIPA MASK_TH_DCACHE_CIPA (Some MF_match_opcode) 0;
    mk_opcode "th.dcache.ipa" 0 INSN_CLASS_XTHEADCMO "s" MATCH_TH_DCACHE_IPA MASK_TH_DCACHE_IPA (Some MF_match_opcode) 0;
    mk_opcode "th.dcache.cva" 0 INSN_CLASS_XTHEADCMO "s" MATCH_TH_DCACHE_CVA MASK_TH_DCACHE_CVA (Some MF_match_opcode) 0;
    mk_opcode "th.dcache.civa" 0 INSN_CLASS_XTHEADCMO "s" MATCH_TH_DCACHE_CIVA MASK_TH_DCACHE_CIVA (Some MF_match_opcode) 0;
    mk_opcode "th.dcache.iva" 0 INSN_CLASS_XTHEADCMO "s" MATCH_TH_DCACHE_IVA MASK_TH_DCACHE_IVA (Some MF_match_opcode) 0;
    mk_opcode "th.dcache.csw" 0 INSN_CLASS_XTHEADCMO "s" MATCH_TH_DCACHE_CSW MASK_TH_DCACHE_CSW (Some MF_match_opcode) 0;
    mk_opcode "th.dcache.cisw" 0 INSN_CLASS_XTHEADCMO "s" MATCH_TH_DCACHE_CISW MASK_TH_DCACHE_CISW (Some MF_match_opcode) 0;
    mk_opcode "th.dcache.isw" 0 INSN_CLASS_XTHEADCMO "s" MATCH_TH_DCACHE_ISW MASK_TH_DCACHE_ISW (Some MF_match_opcode) 0;
    mk_opcode "th.dcache.cpal1" 0 INSN_CLASS_XTHEADCMO "s" MATCH_TH_DCACHE_CPAL1 MASK_TH_DCACHE_CPAL1 (Some MF_match_opcode) 0;
    mk_opcode "th.dcache.cval1" 0 INSN_CLASS_XTHEADCMO "s" MATCH_TH_DCACHE_CVAL1 MASK_TH_DCACHE_CVAL1 (Some MF_match_opcode) 0;
    mk_opcode "th.icache.iall" 0 INSN_CLASS_XTHEADCMO "" MATCH_TH_ICACHE_IALL MASK_TH_ICACHE_IALL (Some MF_match_opcode) 0;
    mk_opcode "th.icache.ialls" 0 INSN_CLASS_XTHEADCMO "" MATCH_TH_ICACHE_IALLS MASK_TH_ICACHE_IALLS (Some MF_match_opcode) 0;
    mk_opcode "th.icache.ipa" 0 INSN_CLASS_XTHEADCMO "s" MATCH_TH_ICACHE_IPA MASK_TH_ICACHE_IPA (Some MF_match_opcode) 0;
    mk_opcode "th.icache.iva" 0 INSN_CLASS_XTHEADCMO "s" MATCH_TH_ICACHE_IVA MASK_TH_ICACHE_IVA (Some MF_match_opcode) 0;
    mk_opcode "th.l2cache.call" 0 INSN_CLASS_XTHEADCMO "" MATCH_TH_L2CACHE_CALL MASK_TH_L2CACHE_CALL (Some MF_match_opcode) 0;
    mk_opcode "th.l2cache.ciall" 0 INSN_CLASS_XTHEADCMO "" MATCH_TH_L2CACHE_CIALL MASK_TH_L2CACHE_CIALL (Some MF_match_opcode) 0;
    mk_opcode "th.l2cache.iall" 0 INSN_CLASS_XTHEADCMO "" MATCH_TH_L2CACHE_IALL MASK_TH_L2CACHE_IALL (Some MF_match_opcode) 0;
    mk_opcode "th.mveqz" 0 INSN_CLASS_XTHEADCONDMOV "d,s,t" MATCH_TH_MVEQZ MASK_TH_MVEQZ (Some MF_match_opcode) 0;
    mk_opcode "th.mvnez" 0 INSN_CLASS_XTHEADCONDMOV "d,s,t" MATCH_TH_MVNEZ MASK_TH_MVNEZ (Some MF_match_opcode) 0;
    mk_opcode "th.flrd" 0 INSN_CLASS_XTHEADFMEMIDX "D,s,t,Xtu2@25" MATCH_TH_FLRD MASK_TH_FLRD (Some MF_match_opcode) 0;
    mk_opcode "th.flrw" 0 INSN_CLASS_XTHEADFMEMIDX "D,s,t,Xtu2@25" MATCH_TH_FLRW MASK_TH_FLRW (Some MF_match_opcode) 0;
    mk_opcode "th.flurd" 0 INSN_CLASS_XTHEADFMEMIDX "D,s,t,Xtu2@25" MATCH_TH_FLURD MASK_TH_FLURD (Some MF_match_opcode) 0;
    mk_opcode "th.flurw" 0 INSN_CLASS_XTHEADFMEMIDX "D,s,t,Xtu2@25" MATCH_TH_FLURW MASK_TH_FLURW (Some MF_match_opcode) 0;
    mk_opcode "th.fsrd" 0 INSN_CLASS_XTHEADFMEMIDX "D,s,t,Xtu2@25" MATCH_TH_FSRD MASK_TH_FSRD (Some MF_match_opcode) 0;
    mk_opcode "th.fsrw" 0 INSN_CLASS_XTHEADFMEMIDX "D,s,t,Xtu2@25" MATCH_TH_FSRW MASK_TH_FSRW (Some MF_match_opcode) 0;
    mk_opcode "th.fsurd" 0 INSN_CLASS_XTHEADFMEMIDX "D,s,t,Xtu2@25" MATCH_TH_FSURD MASK_TH_FSURD (Some MF_match_opcode) 0;
    mk_opcode "th.fsurw" 0 INSN_CLASS_XTHEADFMEMIDX "D,s,t,Xtu2@25" MATCH_TH_FSURW MASK_TH_FSURW (Some MF_match_opcode) 0 ].

(** Lines 2173-2312. *)
Definition riscv_opcodes_14 : list riscv_opcode :=
  [ mk_opcode "th.fmv.hw.x" 32 INSN_CLASS_XTHEADFMV "D,s" MATCH_TH_FMV_HW_X MASK_TH_FMV_HW_X (Some MF_match_opcode) 0;
    mk_opcode "th.fmv.x.hw" 32 INSN_CLASS_XTHEADFMV "d,S" MATCH_TH_FMV_X_HW MASK_TH_FMV_X_HW (Some MF_match_opcode) 0;
    mk_opcode "th.ipop" 0 INSN_CLASS_XTHEADINT "" MATCH_TH_IPOP MASK_TH_IPOP (Some MF_match_opcode) 0;
    mk_opcode "th.ipush" 0 INSN_CLASS_XTHEADINT "" MATCH_TH_IPUSH MASK_TH_IPUSH (Some MF_match_opcode) 0;
    mk_opcode "th.ldia" 64 INSN_CLASS_XTHEADMEMIDX "d,(s),Xts5@20,Xtu2@25" MATCH_TH_LDIA MASK_TH_LDIA (Some MF_match_th_load_inc) 0;
    mk_opcode "th.ldib" 64 INSN_CLASS_XTHEADMEMIDX "d,(s),Xts5@20,Xtu2@25" MATCH_TH_LDIB MASK_TH_LDIB (Some MF_match_th_load_inc) 0;
    mk_opcode "th.lwia" 0 INSN_CLASS_XTHEADMEMIDX "d,(s),Xts5@20,Xtu2@25" MATCH_TH_LWIA MASK_TH_LWIA (Some MF_match_th_load_inc) 0;
    mk_opcode "th.lwib" 0 INSN_CLASS_XTHEADMEMIDX "d,(s),Xts5@20,Xtu2@25" MATCH_TH_LWIB MASK_TH_LWIB (Some MF_match_th_load_inc) 0;
    mk_opcode "th.lwuia" 64 INSN_CLASS_XTHEADMEMIDX "d,(s),Xts5@20,Xtu2@25" MATCH_TH_LWUIA MASK_TH_LWUIA (Some MF_match_th_load_inc) 0;
    mk_opcode "th.lwuib" 64 INSN_CLASS_XTHEADMEMIDX "d,(s),Xts5@20,Xtu2@25" MATCH_TH_LWUIB MASK_TH_LWUIB (Some MF_match_th_load_inc) 0;
    mk_opcode "th.lhia" 0 INSN_CLASS_XTHEADMEMIDX "d,(s),Xts5@20,Xtu2@25" MATCH_TH_LHIA MASK_TH_LHIA (Some MF_match_th_load_inc) 0;
    mk_opcode "th.lhib" 0 INSN_CLASS_XTHEADMEMIDX "d,(s),Xts5@20,Xtu2@25" MATCH_TH_LHIB MASK_TH_LHIB (Some MF_match_th_load_inc) 0;
    mk_opcode "th.lhuia" 0 INSN_CLASS_XTHEADMEMIDX "d,(s),Xts5@20,Xtu2@25" MATCH_TH_LHUIA MASK_TH_LHUIA (Some MF_match_th_load_inc) 0;
    mk_opcode "th.lhuib" 0 INSN_CLASS_XTHEADMEMIDX "d,(s),Xts5@20,Xtu2@25" MATCH_TH_LHUIB MASK_TH_LHUIB (Some MF_match_th_load_inc) 0;
    mk_opcode "th.lbia" 0 INSN_CLASS_XTHEADMEMIDX "d,(s),Xts5@20,Xtu2@25" MATCH_TH_LBIA MASK_TH_LBIA (Some MF_match_th_load_inc) 0;
    mk_opcode "th.lbib" 0 INSN_CLASS_XTHEADMEMIDX "d,(s),Xts5@20,Xtu2@25" MATCH_TH_LBIB MASK_TH_LBIB (Some MF_match_th_load_inc) 0;
    mk_opcode "th.lbuia" 0 INSN_CLASS_XTHEADMEMIDX "d,(s),Xts5@20,Xtu2@25" MATCH_TH_LBUIA MASK_TH_LBUIA (Some MF_match_th_load_inc) 0;
    mk_opcode "th.lbuib" 0 INSN_CLASS_XTHEADMEMIDX "d,(s),Xts5@20,Xtu2@25" MATCH_TH_LBUIB MASK_TH_LBUIB (Some MF_match_th_load_inc) 0;
    mk_opcode "th.sdia" 64 INSN_CLASS_XTHEADMEMIDX "d,(s),Xts5@20,Xtu2@25" MATCH_TH_SDIA MASK_TH_SDIA (Some MF_match_opcode) 0;
    mk_opcode "th.sdib" 64 INSN_CLASS_XTHEADMEMIDX "d,(s),Xts5@20,Xtu2@25" MATCH_TH_SDIB MASK_TH_SDIB (Some MF_match_opcode) 0;
    mk_opcode "th.swia" 0 INSN_CLASS_XTHEADMEMIDX "d,(s),Xts5@20,Xtu2@25" MATCH_TH_SWIA MASK_TH_SWIA (Some MF_match_opcode) 0;
    mk_opcode "th.swib" 0 INSN_CLASS_XTHEADMEMIDX "d,(s),Xts5@20,Xtu2@25" MATCH_TH_SWIB MASK_TH_SWIB (Some MF_match_opcode) 0;
    mk_opcode "th.shia" 0 INSN_CLASS_XTHEADMEMIDX "d,(s),Xts5@20,Xtu2@25" MATCH_TH_SHIA MASK_TH_SHIA (Some MF_match_opcode) 0;
    mk_opcode "th.shib" 0 INSN_CLASS_XTHEADMEMIDX "d,(s),Xts5@20,Xtu2@25" MATCH_TH_SHIB MASK_TH_SHIB (Some MF_match_opcode) 0;
    mk_opcode "th.sbia" 0 INSN_CLASS_XTHEADMEMIDX "d,(s),Xts5@20,Xtu2@25" MATCH_TH_SBIA MASK_TH_SBIA (Some MF_match_opcode) 0;
    mk_opcode "th.sbib" 0 INSN_CLASS_XTHEADMEMIDX "d,(s),Xts5@20,Xtu2@25" MATCH_TH_SBIB MASK_TH_SBIB (Some MF_match_opcode) 0;
    mk_opcode "th.lrd" 64 INSN_CLASS_XTHEADMEMIDX "d,s,t,Xtu2@25" MATCH_TH_LRD MASK_TH_LRD (Some MF_match_opcode) 0;
    mk_opcode "th.lrw" 0 INSN_CLASS_XTHEADMEMIDX "d,s,t,Xtu2@25" MATCH_TH_LRW MASK_TH_LRW (Some MF_match_opcode) 0;
    mk_opcode "th.lrwu" 64 INSN_CLASS_XTHEADMEMIDX "d,s,t,Xtu2@25" MATCH_TH_LRWU MASK_TH_LRWU (Some MF_match_opcode) 0;
    mk_opcode "th.lrh" 0 INSN_CLASS_XTHEADMEMIDX "d,s,t,Xtu2@25" MATCH_TH_LRH MASK_TH_LRH (Some MF_match_opcode) 0;
    mk_opcode "th.lrhu" 0 INSN_CLASS_XTHEADMEMIDX "d,s,t,Xtu2@25" MATCH_TH_LRHU MASK_TH_LRHU (Some MF_match_opcode) 0;
    mk_opcode "th.lrb" 0 INSN_CLASS_XTHEADMEMIDX "d,s,t,Xtu2@25" MATCH_TH_LRB MASK_TH_LRB (Some MF_match_opcode) 0;
    mk_opcode "th.lrbu" 0 INSN_CLASS_XTHEADMEMIDX "d,s,t,Xtu2@25" MATCH_TH_LRBU MASK_TH_LRBU (Some MF_match_opcode) 0;
    mk_opcode "th.srd" 64 INSN_CLASS_XTHEADMEMIDX "d,s,t,Xtu2@25" MATCH_TH_SRD MASK_TH_SRD (Some MF_match_opcode) 0;
    mk_opcode "th.srw" 0 INSN_CLASS_XTHEADMEMIDX "d,s,t,Xtu2@25" MATCH_TH_SRW MASK_TH_SRW (Some MF_match_opcode) 0;
    mk_opcode "th.srh" 0 INSN_CLASS_XTHEADMEMIDX "d,s,t,Xtu2@25" MATCH_TH_SRH MASK_TH_SRH (Some MF_match_opcode) 0;
    mk_opcode "th.srb" 0 INSN_CLASS_XTHEADMEMIDX "d,s,t,Xtu2@25" MATCH_TH_SRB MASK_TH_SRB (Some MF_match_opcode) 0;
    mk_opcode "th.lurd" 64 INSN_CLASS_XTHEADMEMIDX "d,s,t,Xtu2@25" MATCH_TH_LURD MASK_TH_LURD (Some MF_match_opcode) 0;
    mk_opcode "th.lurw" 0 INSN_CLASS_XTHEADMEMIDX "d,s,t,Xtu2@25" MATCH_TH_LURW MASK_TH_LURW (Some MF_match_opcode) 0;
    mk_opcode "th.lurwu" 64 INSN_CLASS_XTHEADMEMIDX "d,s,t,Xtu2@25" MATCH_TH_LURWU MASK_TH_LURWU (Some MF_match_opcode) 0;
    mk_opcode "th.lurh" 0 INSN_CLASS_XTHEADMEMIDX "d,s,t,Xtu2@25" MATCH_TH_LURH MASK_TH_LURH (Some MF_match_opcode) 0;
    mk_opcode "th.lurhu" 0 INSN_CLASS_XTHEADMEMIDX "d,s,t,Xtu2@25" MATCH_TH_LURHU MASK_TH_LURHU (Some MF_match_opcode) 0;
    mk_opcode "th.lurb" 0 INSN_CLASS_XTHEADMEMIDX "d,s,t,Xtu2@25" MATCH_TH_LURB MASK_TH_LURB (Some MF_match_opcode) 0;
    mk_opcode "th.lurbu" 0 INSN_CLASS_XTHEADMEMIDX "d,s,t,Xtu2@25" MATCH_TH_LURBU MASK_TH_LURBU (Some MF_match_opcode) 0;
    mk_opcode "th.surd" 64 INSN_CLASS_XTHEADMEMIDX "d,s,t,Xtu2@25" MATCH_TH_SURD MASK_TH_SURD (Some MF_match_opcode) 0;
    mk_opcode "th.surw" 0 INSN_CLASS_XTHEADMEMIDX "d,s,t,Xtu2@25" MATCH_TH_SURW MASK_TH_SURW (Some MF_match_opcode) 0;
    mk_opcode "th.surh" 0 INSN_CLASS_XTHEADMEMIDX "d,s,t,Xtu2@25" MATCH_TH_SURH MASK_TH_SURH (Some MF_match_opcode) 0;
    mk_opcode "th.surb" 0 INSN_CLASS_XTHEADMEMIDX "d,s,t,Xtu2@25" MATCH_TH_SURB MASK_TH_SURB (Some MF_match_opcode) 0;
    mk_opcode "th.ldd" 64 INSN_CLASS_XTHEADMEMPAIR "d,t,(s),Xtu2@25,Xtl4" MATCH_TH_LDD MASK_TH_LDD (Some MF_match_th_load_pair) 0;
    mk_opcode "th.lwd" 0 INSN_CLASS_XTHEADMEMPAIR "d,t,(s),Xtu2@25,Xtl3" MATCH_TH_LWD MASK_TH_LWD (Some MF_match_th_load_pair) 0;
    mk_opcode "th.lwud" 0 INSN_CLASS_XTHEADMEMPAIR "d,t,(s),Xtu2@25,Xtl3" MATCH_TH_LWUD MASK_TH_LWUD (Some MF_match_th_load_pair) 0;
    mk_opcode "th.sdd" 64 INSN_CLASS_XTHEADMEMPAIR "d,t,(s),Xtu2@25,Xtl4" MATCH_TH_SDD MASK_TH_SDD (Some MF_match_opcode) 0;
    mk_opcode "th.swd" 0 INSN_CLASS_XTHEADMEMPAIR "d,t,(s),Xtu2@25,Xtl3" MATCH_TH_SWD MASK_TH_SWD (Some MF_match_opcode) 0;
    mk_opcode "th.mula" 0 INSN_CLASS_XTHEADMAC "d,s,t" MATCH_TH_MULA MASK_TH_MULA (Some MF_match_opcode) 0;
    mk_opcode "th.mulah" 0 INSN_CLASS_XTHEADMAC "d,s,t" MATCH_TH_MULAH MASK_TH_MULAH (Some MF_match_opcode) 0;
    mk_opcode "th.mulaw" 64 INSN_CLASS_XTHEADMAC "d,s,t" MATCH_TH_MULAW MASK_TH_MULAW (Some MF_match_opcode) 0;
    mk_opcode "th.muls" 0 INSN_CLASS_XTHEADMAC "d,s,t" MATCH_TH_MULS MASK_TH_MULS (Some MF_match_opcode) 0;
    mk_opcode "th.mulsh" 0 INSN_CLASS_XTHEADMAC "d,s,t" MATCH_TH_MULSH MASK_TH_MULSH (Some MF_match_opcode) 0;
    mk_opcode "th.mulsw" 64 INSN_CLASS_XTHEADMAC "d,s,t" MATCH_TH_MULSW MASK_TH_MULSW (Some MF_match_opcode) 0;
    mk_opcode "th.sfence.vmas" 0 INSN_CLASS_XTHEADSYNC "s,t" MATCH_TH_SFENCE_VMAS MASK_TH_SFENCE_VMAS (Some MF_match_opcode) 0;
    mk_opcode "th.sync" 0 INSN_CLASS_XTHEADSYNC "" MATCH_TH_SYNC MASK_TH_SYNC (Some MF_match_opcode) 0;
    mk_opcode "th.sync.i" 0 INSN_CLASS_XTHEADSYNC "" MATCH_TH_SYNC_I MASK_TH_SYNC_I (Some MF_match_opcode) 0;
    mk_opcode "th.sync.is" 0 INSN_CLASS_XTHEADSYNC "" MATCH_TH_SYNC_IS MASK_TH_SYNC_IS (Some MF_match_opcode) 0;
    mk_opcode "th.sync.s" 0 INSN_CLASS_XTHEADSYNC "" MATCH_TH_SYNC_S MASK_TH_SYNC_S (Some MF_match_opcode) 0;
    mk_opcode "th.vsetvl" 0 INSN_CLASS_XTHEADVECTOR "d,s,t" MATCH_VSETVL MASK_VSETVL (Some MF_match_opcode) 0;
    mk_opcode "th.vsetvli" 0 INSN_CLASS_XTHEADVECTOR "d,s,XtVc" MATCH_VSETVLI MASK_VSETVLI (Some MF_match_opcode) 0;
    mk_opcode "th.vlb.v" 0 INSN_CLASS_XTHEADVECTOR "Vd,0(s)Vm" MATCH_TH_VLBV MASK_TH_VLBV (Some MF_match_opcode) INSN_DREF;
    mk_opcode "th.vlh.v" 0 INSN_CLASS_XTHEADVECTOR "Vd,0(s)Vm" MATCH_TH_VLHV MASK_TH_VLHV (Some MF_match_opcode) INSN_DREF;
    mk_opcode "th.vlw.v" 0 INSN_CLASS_XTHEADVECTOR "Vd,0(s)Vm" MATCH_TH_VLWV MASK_TH_VLWV (Some MF_match_opcode) INSN_DREF;
    mk_opcode "th.vlbu.v" 0 INSN_CLASS_XTHEADVECTOR "Vd,0(s)Vm" MATCH_VLE8V MASK_VLE8V (Some MF_match_opcode) INSN_DREF;
    mk_opcode "th.vlhu.v" 0 INSN_CLASS_XTHEADVECTOR "Vd,0(s)Vm" MATCH_VLE16V MASK_VLE16V (Some MF_match_opcode) INSN_DREF;
    mk_opcode "th.vlwu.v" 0 INSN_CLASS_XTHEADVECTOR "Vd,0(s)Vm" MATCH_VLE32V MASK_VLE32V (Some MF_match_opcode) INSN_DREF;
    mk_opcode "th.vle.v" 0 INSN_CLASS_XTHEADVECTOR "Vd,0(s)Vm" MATCH_VLE64V MASK_VLE64V (Some MF_match_opcode) INSN_DREF;
    mk_opcode "th.vsb.v" 0 INSN_CLASS_XTHEADVECTOR "Vd,0(s)Vm" MATCH_VSE8V MASK_VSE8V (Some MF_match_opcode) INSN_DREF;
    mk_opcode "th.vsh.v" 0 INSN_CLASS_XTHEADVECTOR "Vd,0(s)Vm" MATCH_VSE16V MASK_VSE16V (Some MF_match_opcode) INSN_DREF;
    mk_opcode "th.vsw.v" 0 INSN_CLASS_XTHEADVECTOR "Vd,0(s)Vm" MATCH_VSE32V MASK_VSE32V (Some MF_match_opcode) INSN_DREF;
    mk_opcode "th.vse.v" 0 INSN_CLASS_XTHEADVECTOR "Vd,0(s)Vm" MATCH_VSE64V MASK_VSE64V (Some MF_match_opcode) INSN_DREF;
    mk_opcode "th.vlsb.v" 0 INSN_CLASS_XTHEADVECTOR "Vd,0(s),tVm" MATCH_TH_VLSBV MASK_TH_VLSBV (Some MF_match_opcode) INSN_DREF;
    mk_opcode "th.vlsh.v" 0 INSN_CLASS_XTHEADVECTOR "Vd,0(s),tVm" MATCH_TH_VLSHV MASK_TH_VLSHV (Some MF_match_opcode) INSN_DREF;
    mk_opcode "th.vlsw.v" 0 INSN_CLASS_XTHEADVECTOR "Vd,0(s),tVm" MATCH_TH_VLSWV MASK_TH_VLSWV (Some MF_match_opcode) INSN_DREF;
    mk_opcode "th.vlsbu.v" 0 INSN_CLASS_XTHEADVECTOR "Vd,0(s),tVm" MATCH_VLSE8V MASK_VLSE8V (Some MF_match_opcode) INSN_DREF;
    mk_opcode "th.vlshu.v" 0 INSN_CLASS_XTHEADVECTOR "Vd,0(s),tVm" MATCH_VLSE16V MASK_VLSE16V (Some MF_match_opcode) INSN_DREF;
    mk_opcode "th.vlswu.v" 0 INSN_CLASS_XTHEADVECTOR "Vd,0(s),tVm" MATCH_VLSE32V MASK_VLSE32V (Some MF_match_opcode) INSN_DREF;
    mk_opcode "th.vlse.v" 0 INSN_CLASS_XTHEADVECTOR "Vd,0(s),tVm" MATCH_VLSE64V MASK_VLSE64V (Some MF_match_opcode) INSN_DREF;
    mk_opcode "th.vssb.v" 0 INSN_CLASS_XTHEADVECTOR "Vd,0(s),tVm" MATCH_VSSE8V MASK_VSSE8V (Some MF_match_opcode) INSN_DREF;
    mk_opcode "th.vssh.v" 0 INSN_CLASS_XTHEADVECTOR "Vd,0(s),tVm" MATCH_VSSE16V MASK_VSSE16V (Some MF_match_opcode) INSN_DREF;
    mk_opcode "th.vssw.v" 0 INSN_CLASS_XTHEADVECTOR "Vd,0(s),tVm" MATCH_VSSE32V MASK_VSSE32V (Some MF_match_opcode) INSN_DREF;
    mk_opcode "th.vsse.v" 0 INSN_CLASS_XTHEADVECTOR "Vd,0(s),tVm" MATCH_VSSE64V MASK_VSSE64V (Some MF_match_opcode) INSN_DREF;
    mk_opcode "th.vlxb.v" 0 INSN_CLASS_XTHEADVECTOR "Vd,0(s),VtVm" MATCH_TH_VLXBV MASK_TH_VLXBV (Some MF_match_opcode) INSN_DREF;
    mk_opcode "th.vlxh.v" 0 INSN_CLASS_XTHEADVECTOR "Vd,0(s),VtVm" MATCH_TH_VLXHV MASK_TH_VLXHV (Some MF_match_opcode) INSN_DREF;
    mk_opcode "th.vlxw.v" 0 INSN_CLASS_XTHEADVECTOR "Vd,0(s),VtVm" MATCH_TH_VLXWV MASK_TH_VLXWV (Some MF_match_opcode) INSN_DREF;
    mk_opcode "th.vlxbu.v" 0 INSN_CLASS_XTHEADVECTOR "Vd,0(s),VtVm" MATCH_VLOXEI8V MASK_VLOXEI8V (Some MF_match_opcode) INSN_DREF;
    mk_opcode "th.vlxhu.v" 0 INSN_CLASS_XTHEADVECTOR "Vd,0(s),VtVm" MATCH_VLOXEI16V MASK_VLOXEI16V (Some MF_match_opcode) INSN_DREF;
    mk_opcode "th.vlxwu.v" 0 INSN_CLASS_XTHEADVECTOR "Vd,0(s),VtVm" MATCH_VLOXEI32V MASK_VLOXEI32V (Some MF_match_opcode) INSN_DREF;
    mk_opcode "th.vlxe.v" 0 INSN_CLASS_XTHEADVECTOR "Vd,0(s),VtVm" MATCH_VLOXEI64V MASK_VLOXEI64V (Some MF_match_opcode) INSN_DREF;
    mk_opcode "th.vsxb.v" 0 INSN_CLASS_XTHEADVECTOR "Vd,0(s),VtVm" MATCH_VSOXEI8V MASK_VSOXEI8V (Some MF_match_opcode) INSN_DREF;
    mk_opcode "th.vsxh.v" 0 INSN_CLASS_XTHEADVECTOR "Vd,0(s),VtVm" MATCH_VSOXEI16V MASK_VSOXEI16V (Some MF_match_opcode) INSN_DREF;
    mk_opcode "th.vsxw.v" 0 INSN_CLASS_XTHEADVECTOR "Vd,0(s),VtVm" MATCH_VSOXEI32V MASK_VSOXEI32V (Some MF_match_opcode) INSN_DREF;
    mk_opcode "th.vsxe.v" 0 INSN_CLASS_XTHEADVECTOR "Vd,0(s),VtVm" MATCH_VSOXEI64V MASK_VSOXEI64V (Some MF_match_opcode) INSN_DREF;
    mk_opcode "th.vsuxb.v" 0 INSN_CLASS_XTHEADVECTOR "Vd,0(s),VtVm" MATCH_TH_VSUXBV MASK_TH_VSUXBV (Some MF_match_opcode) INSN_DREF;
    mk_opcode "th.vsuxh.v" 0 INSN_CLASS_XTHEADVECTOR "Vd,0(s),VtVm" MATCH_TH_VSUXHV MASK_TH_VSUXHV (Some MF_match_opcode) INSN_DREF;
    mk_opcode "th.vsuxw.v" 0 INSN_CLASS_XTHEADVECTOR "Vd,0(s),VtVm" MATCH_TH_VSUXWV MASK_TH_VSUXWV (Some MF_match_opcode) INSN_DREF;
    mk_opcode "th.vsuxe.v" 0 INSN_CLASS_XTHEADVECTOR "Vd,0(s),VtVm" MATCH_TH_VSUXEV MASK_TH_VSUXEV (Some MF_match_opcode) INSN_DREF;
    mk_opcode "th.vlbff.v" 0 INSN_CLASS_XTHEADVECTOR "Vd,0(s)Vm" MATCH_TH_VLBFFV MASK_TH_VLBFFV (Some MF_match_opcode) INSN_DREF;
    mk_opcode "th.vlhff.v" 0 INSN_CLASS_XTHEADVECTOR "Vd,0(s)Vm" MATCH_TH_VLHFFV MASK_TH_VLHFFV (Some MF_match_opcode) INSN_DREF;
    mk_opcode "th.vlwff.v" 0 INSN_CLASS_XTHEADVECTOR "Vd,0(s)Vm" MATCH_TH_VLWFFV MASK_TH_VLWFFV (Some MF_match_opcode) INSN_DREF;
    mk_opcode "th.vlbuff.v" 0 INSN_CLASS_XTHEADVECTOR "Vd,0(s)Vm" MATCH_VLE8FFV MASK_VLE8FFV (Some MF_match_opcode) INSN_DREF;
    mk_opcode "th.vlhuff.v" 0 INSN_CLASS_XTHEADVECTOR "Vd,0(s)Vm" MATCH_VLE16FFV MASK_VLE16FFV (Some MF_match_opcode) INSN_DREF;
    mk_opcode "th.vlwuff.v" 0 INSN_CLASS_XTHEADVECTOR "Vd,0(s)Vm" MATCH_VLE32FFV MASK_VLE32FFV (Some MF_match_opcode) INSN_DREF;
    mk_opcode "th.vleff.v" 0 INSN_CLASS_XTHEADVECTOR "Vd,0(s)Vm" MATCH_VLE64FFV MASK_VLE64FFV (Some MF_match_opcode) INSN_DREF;
    mk_opcode "th.vlseg2b.v" 0 INSN_CLASS_XTHEADVECTOR "Vd,0(s)Vm" MATCH_TH_VLSEG2BV MASK_TH_VLSEG2BV (Some MF_match_opcode) INSN_DREF;
    mk_opcode "th.vlseg2h.v" 0 INSN_CLASS_XTHEADVECTOR "Vd,0(s)Vm" MATCH_TH_VLSEG2HV MASK_TH_VLSEG2HV (Some MF_match_opcode) INSN_DREF;
    mk_opcode "th.vlseg2w.v" 0 INSN_CLASS_XTHEADVECTOR "Vd,0(s)Vm" MATCH_TH_VLSEG2WV MASK_TH_VLSEG2WV (Some MF_match_opcode) INSN_DREF;
    mk_opcode "th.vlseg2bu.v" 0 INSN_CLASS_XTHEADVECTOR "Vd,0(s)Vm" MATCH_VLSEG2E8V MASK_VLSEG2E8V (Some MF_match_opcode) INSN_DREF;
    mk_opcode "th.vlseg2hu.v" 0 INSN_CLASS_XTHEADVECTOR "Vd,0(s)Vm" MATCH_VLSEG2E16V MASK_VLSEG2E16V (Some MF_match_opcode) INSN_DREF;
    mk_opcode "th.vlseg2wu.v" 0 INSN_CLASS_XTHEADVECTOR "Vd,0(s)Vm" MATCH_VLSEG2E32V MASK_VLSEG2E32V (Some MF_match_opcode) INSN_DREF;
    mk_opcode "th.vlseg2e.v" 0 INSN_CLASS_XTHEADVECTOR "Vd,0(s)Vm" MATCH_VLSEG2E64V MASK_VLSEG2E64V (Some MF_match_opcode) INSN_DREF;
    mk_opcode "th.vsseg2b.v" 0 INSN_CLASS_XTHEADVECTOR "Vd,0(s)Vm" MATCH_VSSEG2E8V MASK_VSSEG2E8V (Some MF_match_opcode) INSN_DREF;
    mk_opcode "th.vsseg2h.v" 0 INSN_CLASS_XTHEADVECTOR "Vd,0(s)Vm" MATCH_VSSEG2E16V MASK_VSSEG2E16V (Some MF_match_opcode) INSN_DREF;
    mk_opcode "th.vsseg2w.v" 0 INSN_CLASS_XTHEADVECTOR "Vd,0(s)Vm" MATCH_VSSEG2E32V MASK_VSSEG2E32V (Some MF_match_opcode) INSN_DREF;
    mk_opcode "th.vsseg2e.v" 0 INSN_CLASS_XTHEADVECTOR "Vd,0(s)Vm" MATCH_VSSEG2E64V MASK_VSSEG2E64V (Some MF_match_opcode) INSN_DREF;
    mk_opcode "th.vlseg3b.v" 0 INSN_CLASS_XTHEADVECTOR "Vd,0(s)Vm" MATCH_TH_VLSEG3BV MASK_TH_VLSEG3BV (Some MF_match_opcode) INSN_DREF;
    mk_opcode "th.vlseg3h.v" 0 INSN_CLASS_XTHEADVECTOR "Vd,0(s)Vm" MATCH_TH_VLSEG3HV MASK_TH_VLSEG3HV (Some MF_match_opcode) INSN_DREF;
    mk_opcode "th.vlseg3w.v" 0 INSN_CLASS_XTHEADVECTOR "Vd,0(s)Vm" MATCH_TH_VLSEG3WV MASK_TH_VLSEG3WV (Some MF_match_opcode) INSN_DREF;
    mk_opcode "th.vlseg3bu.v" 0 INSN_CLASS_XTHEADVECTOR "Vd,0(s)Vm" MATCH_VLSEG3E8V MASK_VLSEG3E8V (Some MF_match_opcode) INSN_DREF;
    mk_opcode "th.vlseg3hu.v" 0 INSN_CLASS_XTHEADVECTOR "Vd,0(s)Vm" MATCH_VLSEG3E16V MASK_VLSEG3E16V (Some MF_match_opcode) INSN_DREF ].

