(* ===== verification/OpcodeTableC.v ===== *)
(** * The opcode table of opcodes/riscv-opc.c, part 3 of 3

    Consecutive blocks of [riscv_opcodes], one row per entry of the source. *)
From Stdlib Require Import ZArith.
From stdpp Require Import base strings list.
From S2P Require Import Prelude OpcodeH RiscvH OpcodeMatch.

#[local] Open Scope Z_scope.
#[local] Open Scope c_scope.
#[local] Open Scope string_scope.

(** Lines 2313-2452. *)
Definition riscv_opcodes_15 : list riscv_opcode :=
  [ mk_opcode "th.vlseg3wu.v" 0 INSN_CLASS_XTHEADVECTOR "Vd,0(s)Vm" MATCH_VLSEG3E32V MASK_VLSEG3E32V (Some MF_match_opcode) INSN_DREF;
    mk_opcode "th.vlseg3e.v" 0 INSN_CLASS_XTHEADVECTOR "Vd,0(s)Vm" MATCH_VLSEG3E64V MASK_VLSEG3E64V (Some MF_match_opcode) INSN_DREF;
    mk_opcode "th.vsseg3b.v" 0 INSN_CLASS_XTHEADVECTOR "Vd,0(s)Vm" MATCH_VSSEG3E8V MASK_VSSEG3E8V (Some MF_match_opcode) INSN_DREF;
    mk_opcode "th.vsseg3h.v" 0 INSN_CLASS_XTHEADVECTOR "Vd,0(s)Vm" MATCH_VSSEG3E16V MASK_VSSEG3E16V (Some MF_match_opcode) INSN_DREF;
    mk_opcode "th.vsseg3w.v" 0 INSN_CLASS_XTHEADVECTOR "Vd,0(s)Vm" MATCH_VSSEG3E32V MASK_VSSEG3E32V (Some MF_match_opcode) INSN_DREF;
    mk_opcode "th.vsseg3e.v" 0 INSN_CLASS_XTHEADVECTOR "Vd,0(s)Vm" MATCH_VSSEG3E64V MASK_VSSEG3E64V (Some MF_match_opcode) INSN_DREF;
    mk_opcode "th.vlseg4b.v" 0 INSN_CLASS_XTHEADVECTOR "Vd,0(s)Vm" MATCH_TH_VLSEG4BV MASK_TH_VLSEG4BV (Some MF_match_opcode) INSN_DREF;
    mk_opcode "th.vlseg4h.v" 0 INSN_CLASS_XTHEADVECTOR "Vd,0(s)Vm" MATCH_TH_VLSEG4HV MASK_TH_VLSEG4HV (Some MF_match_opcode) INSN_DREF;
    mk_opcode "th.vlseg4w.v" 0 INSN_CLASS_XTHEADVECTOR "Vd,0(s)Vm" MATCH_TH_VLSEG4WV MASK_TH_VLSEG4WV (Some MF_match_opcode) INSN_DREF;
    mk_opcode "th.vlseg4bu.v" 0 INSN_CLASS_XTHEADVECTOR "Vd,0(s)Vm" MATCH_VLSEG4E8V MASK_VLSEG4E8V (Some MF_match_opcode) INSN_DREF;
    mk_opcode "th.vlseg4hu.v" 0 INSN_CLASS_XTHEADVECTOR "Vd,0(s)Vm" MATCH_VLSEG4E16V MASK_VLSEG4E16V (Some MF_match_opcode) INSN_DREF;
    mk_opcode "th.vlseg4wu.v" 0 INSN_CLASS_XTHEADVECTOR "Vd,0(s)Vm" MATCH_VLSEG4E32V MASK_VLSEG4E32V (Some MF_match_opcode) INSN_DREF;
    mk_opcode "th.vlseg4e.v" 0 INSN_CLASS_XTHEADVECTOR "Vd,0(s)Vm" MATCH_VLSEG4E64V MASK_VLSEG4E64V (Some MF_match_opcode) INSN_DREF;
    mk_opcode "th.vsseg4b.v" 0 INSN_CLASS_XTHEADVECTOR "Vd,0(s)Vm" MATCH_VSSEG4E8V MASK_VSSEG4E8V (Some MF_match_opcode) INSN_DREF;
    mk_opcode "th.vsseg4h.v" 0 INSN_CLASS_XTHEADVECTOR "Vd,0(s)Vm" MATCH_VSSEG4E16V MASK_VSSEG4E16V (Some MF_match_opcode) INSN_DREF;
    mk_opcode "th.vsseg4w.v" 0 INSN_CLASS_XTHEADVECTOR "Vd,0(s)Vm" MATCH_VSSEG4E32V MASK_VSSEG4E32V (Some MF_match_opcode) INSN_DREF;
    mk_opcode "th.vsseg4e.v" 0 INSN_CLASS_XTHEADVECTOR "Vd,0(s)Vm" MATCH_VSSEG4E64V MASK_VSSEG4E64V (Some MF_match_opcode) INSN_DREF;
    mk_opcode "th.vlseg5b.v" 0 INSN_CLASS_XTHEADVECTOR "Vd,0(s)Vm" MATCH_TH_VLSEG5BV MASK_TH_VLSEG5BV (Some MF_match_opcode) INSN_DREF;
    mk_opcode "th.vlseg5h.v" 0 INSN_CLASS_XTHEADVECTOR "Vd,0(s)Vm" MATCH_TH_VLSEG5HV MASK_TH_VLSEG5HV (Some MF_match_opcode) INSN_DREF;
    mk_opcode "th.vlseg5w.v" 0 INSN_CLASS_XTHEADVECTOR "Vd,0(s)Vm" MATCH_TH_VLSEG5WV MASK_TH_VLSEG5WV (Some MF_match_opcode) INSN_DREF;
    mk_opcode "th.vlseg5bu.v" 0 INSN_CLASS_XTHEADVECTOR "Vd,0(s)Vm" MATCH_VLSEG5E8V MASK_VLSEG5E8V (Some MF_match_opcode) INSN_DREF;
    mk_opcode "th.vlseg5hu.v" 0 INSN_CLASS_XTHEADVECTOR "Vd,0(s)Vm" MATCH_VLSEG5E16V MASK_VLSEG5E16V (Some MF_match_opcode) INSN_DREF;
    mk_opcode "th.vlseg5wu.v" 0 INSN_CLASS_XTHEADVECTOR "Vd,0(s)Vm" MATCH_VLSEG5E32V MASK_VLSEG5E32V (Some MF_match_opcode) INSN_DREF;
    mk_opcode "th.vlseg5e.v" 0 INSN_CLASS_XTHEADVECTOR "Vd,0(s)Vm" MATCH_VLSEG5E64V MASK_VLSEG5E64V (Some MF_match_opcode) INSN_DREF;
    mk_opcode "th.vsseg5b.v" 0 INSN_CLASS_XTHEADVECTOR "Vd,0(s)Vm" MATCH_VSSEG5E8V MASK_VSSEG5E8V (Some MF_match_opcode) INSN_DREF;
    mk_opcode "th.vsseg5h.v" 0 INSN_CLASS_XTHEADVECTOR "Vd,0(s)Vm" MATCH_VSSEG5E16V MASK_VSSEG5E16V (Some MF_match_opcode) INSN_DREF;
    mk_opcode "th.vsseg5w.v" 0 INSN_CLASS_XTHEADVECTOR "Vd,0(s)Vm" MATCH_VSSEG5E32V MASK_VSSEG5E32V (Some MF_match_opcode) INSN_DREF;
    mk_opcode "th.vsseg5e.v" 0 INSN_CLASS_XTHEADVECTOR "Vd,0(s)Vm" MATCH_VSSEG5E64V MASK_VSSEG5E64V (Some MF_match_opcode) INSN_DREF;
    mk_opcode "th.vlseg6b.v" 0 INSN_CLASS_XTHEADVECTOR "Vd,0(s)Vm" MATCH_TH_VLSEG6BV MASK_TH_VLSEG6BV (Some MF_match_opcode) INSN_DREF;
    mk_opcode "th.vlseg6h.v" 0 INSN_CLASS_XTHEADVECTOR "Vd,0(s)Vm" MATCH_TH_VLSEG6HV MASK_TH_VLSEG6HV (Some MF_match_opcode) INSN_DREF;
    mk_opcode "th.vlseg6w.v" 0 INSN_CLASS_XTHEADVECTOR "Vd,0(s)Vm" MATCH_TH_VLSEG6WV MASK_TH_VLSEG6WV (Some MF_match_opcode) INSN_DREF;
    mk_opcode "th.vlseg6bu.v" 0 INSN_CLASS_XTHEADVECTOR "Vd,0(s)Vm" MATCH_VLSEG6E8V MASK_VLSEG6E8V (Some MF_match_opcode) INSN_DREF;
    mk_opcode "th.vlseg6hu.v" 0 INSN_CLASS_XTHEADVECTOR "Vd,0(s)Vm" MATCH_VLSEG6E16V MASK_VLSEG6E16V (Some MF_match_opcode) INSN_DREF;
    mk_opcode "th.vlseg6wu.v" 0 INSN_CLASS_XTHEADVECTOR "Vd,0(s)Vm" MATCH_VLSEG6E32V MASK_VLSEG6E32V (Some MF_match_opcode) INSN_DREF;
    mk_opcode "th.vlseg6e.v" 0 INSN_CLASS_XTHEADVECTOR "Vd,0(s)Vm" MATCH_VLSEG6E64V MASK_VLSEG6E64V (Some MF_match_opcode) INSN_DREF;
    mk_opcode "th.vsseg6b.v" 0 INSN_CLASS_XTHEADVECTOR "Vd,0(s)Vm" MATCH_VSSEG6E8V MASK_VSSEG6E8V (Some MF_match_opcode) INSN_DREF;
    mk_opcode "th.vsseg6h.v" 0 INSN_CLASS_XTHEADVECTOR "Vd,0(s)Vm" MATCH_VSSEG6E16V MASK_VSSEG6E16V (Some MF_match_opcode) INSN_DREF;
    mk_opcode "th.vsseg6w.v" 0 INSN_CLASS_XTHEADVECTOR "Vd,0(s)Vm" MATCH_VSSEG6E32V MASK_VSSEG6E32V (Some MF_match_opcode) INSN_DREF;
    mk_opcode "th.vsseg6e.v" 0 INSN_CLASS_XTHEADVECTOR "Vd,0(s)Vm" MATCH_VSSEG6E64V MASK_VSSEG6E64V (Some MF_match_opcode) INSN_DREF;
    mk_opcode "th.vlseg7b.v" 0 INSN_CLASS_XTHEADVECTOR "Vd,0(s)Vm" MATCH_TH_VLSEG7BV MASK_TH_VLSEG7BV (Some MF_match_opcode) INSN_DREF;
    mk_opcode "th.vlseg7h.v" 0 INSN_CLASS_XTHEADVECTOR "Vd,0(s)Vm" MATCH_TH_VLSEG7HV MASK_TH_VLSEG7HV (Some MF_match_opcode) INSN_DREF;
    mk_opcode "th.vlseg7w.v" 0 INSN_CLASS_XTHEADVECTOR "Vd,0(s)Vm" MATCH_TH_VLSEG7WV MASK_TH_VLSEG7WV (Some MF_match_opcode) INSN_DREF;
    mk_opcode "th.vlseg7bu.v" 0 INSN_CLASS_XTHEADVECTOR "Vd,0(s)Vm" MATCH_VLSEG7E8V MASK_VLSEG7E8V (Some MF_match_opcode) INSN_DREF;
    mk_opcode "th.vlseg7hu.v" 0 INSN_CLASS_XTHEADVECTOR "Vd,0(s)Vm" MATCH_VLSEG7E16V MASK_VLSEG7E16V (Some MF_match_opcode) INSN_DREF;
    mk_opcode "th.vlseg7wu.v" 0 INSN_CLASS_XTHEADVECTOR "Vd,0(s)Vm" MATCH_VLSEG7E32V MASK_VLSEG7E32V (Some MF_match_opcode) INSN_DREF;
    mk_opcode "th.vlseg7e.v" 0 INSN_CLASS_XTHEADVECTOR "Vd,0(s)Vm" MATCH_VLSEG7E64V MASK_VLSEG7E64V (Some MF_match_opcode) INSN_DREF;
    mk_opcode "th.vsseg7b.v" 0 INSN_CLASS_XTHEADVECTOR "Vd,0(s)Vm" MATCH_VSSEG7E8V MASK_VSSEG7E8V (Some MF_match_opcode) INSN_DREF;
    mk_opcode "th.vsseg7h.v" 0 INSN_CLASS_XTHEADVECTOR "Vd,0(s)Vm" MATCH_VSSEG7E16V MASK_VSSEG7E16V (Some MF_match_opcode) INSN_DREF;
    mk_opcode "th.vsseg7w.v" 0 INSN_CLASS_XTHEADVECTOR "Vd,0(s)Vm" MATCH_VSSEG7E32V MASK_VSSEG7E32V (Some MF_match_opcode) INSN_DREF;
    mk_opcode "th.vsseg7e.v" 0 INSN_CLASS_XTHEADVECTOR "Vd,0(s)Vm" MATCH_VSSEG7E64V MASK_VSSEG7E64V (Some MF_match_opcode) INSN_DREF;
    mk_opcode "th.vlseg8b.v" 0 INSN_CLASS_XTHEADVECTOR "Vd,0(s)Vm" MATCH_TH_VLSEG8BV MASK_TH_VLSEG8BV (Some MF_match_opcode) INSN_DREF;
    mk_opcode "th.vlseg8h.v" 0 INSN_CLASS_XTHEADVECTOR "Vd,0(s)Vm" MATCH_TH_VLSEG8HV MASK_TH_VLSEG8HV (Some MF_match_opcode) INSN_DREF;
    mk_opcode "th.vlseg8w.v" 0 INSN_CLASS_XTHEADVECTOR "Vd,0(s)Vm" MATCH_TH_VLSEG8WV MASK_TH_VLSEG8WV (Some MF_match_opcode) INSN_DREF;
    mk_opcode "th.vlseg8bu.v" 0 INSN_CLASS_XTHEADVECTOR "Vd,0(s)Vm" MATCH_VLSEG8E8V MASK_VLSEG8E8V (Some MF_match_opcode) INSN_DREF;
    mk_opcode "th.vlseg8hu.v" 0 INSN_CLASS_XTHEADVECTOR "Vd,0(s)Vm" MATCH_VLSEG8E16V MASK_VLSEG8E16V (Some MF_match_opcode) INSN_DREF;
    mk_opcode "th.vlseg8wu.v" 0 INSN_CLASS_XTHEADVECTOR "Vd,0(s)Vm" MATCH_VLSEG8E32V MASK_VLSEG8E32V (Some MF_match_opcode) INSN_DREF;
    mk_opcode "th.vlseg8e.v" 0 INSN_CLASS_XTHEADVECTOR "Vd,0(s)Vm" MATCH_VLSEG8E64V MASK_VLSEG8E64V (Some MF_match_opcode) INSN_DREF;
    mk_opcode "th.vsseg8b.v" 0 INSN_CLASS_XTHEADVECTOR "Vd,0(s)Vm" MATCH_VSSEG8E8V MASK_VSSEG8E8V (Some MF_match_opcode) INSN_DREF;
    mk_opcode "th.vsseg8h.v" 0 INSN_CLASS_XTHEADVECTOR "Vd,0(s)Vm" MATCH_VSSEG8E16V MASK_VSSEG8E16V (Some MF_match_opcode) INSN_DREF;
    mk_opcode "th.vsseg8w.v" 0 INSN_CLASS_XTHEADVECTOR "Vd,0(s)Vm" MATCH_VSSEG8E32V MASK_VSSEG8E32V (Some MF_match_opcode) INSN_DREF;
    mk_opcode "th.vsseg8e.v" 0 INSN_CLASS_XTHEADVECTOR "Vd,0(s)Vm" MATCH_VSSEG8E64V MASK_VSSEG8E64V (Some MF_match_opcode) INSN_DREF;
    mk_opcode "th.vlsseg2b.v" 0 INSN_CLASS_XTHEADVECTOR "Vd,0(s),tVm" MATCH_TH_VLSSEG2BV MASK_TH_VLSSEG2BV (Some MF_match_opcode) INSN_DREF;
    mk_opcode "th.vlsseg2h.v" 0 INSN_CLASS_XTHEADVECTOR "Vd,0(s),tVm" MATCH_TH_VLSSEG2HV MASK_TH_VLSSEG2HV (Some MF_match_opcode) INSN_DREF;
    mk_opcode "th.vlsseg2w.v" 0 INSN_CLASS_XTHEADVECTOR "Vd,0(s),tVm" MATCH_TH_VLSSEG2WV MASK_TH_VLSSEG2WV (Some MF_match_opcode) INSN_DREF;
    mk_opcode "th.vlsseg2bu.v" 0 INSN_CLASS_XTHEADVECTOR "Vd,0(s),tVm" MATCH_VLSSEG2E8V MASK_VLSSEG2E8V (Some MF_match_opcode) INSN_DREF;
    mk_opcode "th.vlsseg2hu.v" 0 INSN_CLASS_XTHEADVECTOR "Vd,0(s),tVm" MATCH_VLSSEG2E16V MASK_VLSSEG2E16V (Some MF_match_opcode) INSN_DREF;
    mk_opcode "th.vlsseg2wu.v" 0 INSN_CLASS_XTHEADVECTOR "Vd,0(s),tVm" MATCH_VLSSEG2E32V MASK_VLSSEG2E32V (Some MF_match_opcode) INSN_DREF;
    mk_opcode "th.vlsseg2e.v" 0 INSN_CLASS_XTHEADVECTOR "Vd,0(s),tVm" MATCH_VLSSEG2E64V MASK_VLSSEG2E64V (Some MF_match_opcode) INSN_DREF;
    mk_opcode "th.vssseg2b.v" 0 INSN_CLASS_XTHEADVECTOR "Vd,0(s),tVm" MATCH_VSSSEG2E8V MASK_VSSSEG2E8V (Some MF_match_opcode) INSN_DREF;
    mk_opcode "th.vssseg2h.v" 0 INSN_CLASS_XTHEADVECTOR "Vd,0(s),tVm" MATCH_VSSSEG2E16V MASK_VSSSEG2E16V (Some MF_match_opcode) INSN_DREF;
    mk_opcode "th.vssseg2w.v" 0 INSN_CLASS_XTHEADVECTOR "Vd,0(s),tVm" MATCH_VSSSEG2E32V MASK_VSSSEG2E32V (Some MF_match_opcode) INSN_DREF;
    mk_opcode "th.vssseg2e.v" 0 INSN_CLASS_XTHEADVECTOR "Vd,0(s),tVm" MATCH_VSSSEG2E64V MASK_VSSSEG2E64V (Some MF_match_opcode) INSN_DREF;
    mk_opcode "th.vlsseg3b.v" 0 INSN_CLASS_XTHEADVECTOR "Vd,0(s),tVm" MATCH_TH_VLSSEG3BV MASK_TH_VLSSEG3BV (Some MF_match_opcode) INSN_DREF;
    mk_opcode "th.vlsseg3h.v" 0 INSN_CLASS_XTHEADVECTOR "Vd,0(s),tVm" MATCH_TH_VLSSEG3HV MASK_TH_VLSSEG3HV (Some MF_match_opcode) INSN_DREF;
    mk_opcode "th.vlsseg3w.v" 0 INSN_CLASS_XTHEADVECTOR "Vd,0(s),tVm" MATCH_TH_VLSSEG3WV MASK_TH_VLSSEG3WV (Some MF_match_opcode) INSN_DREF;
    mk_opcode "th.vlsseg3bu.v" 0 INSN_CLASS_XTHEADVECTOR "Vd,0(s),tVm" MATCH_VLSSEG3E8V MASK_VLSSEG3E8V (Some MF_match_opcode) INSN_DREF;
    mk_opcode "th.vlsseg3hu.v" 0 INSN_CLASS_XTHEADVECTOR "Vd,0(s),tVm" MATCH_VLSSEG3E16V MASK_VLSSEG3E16V (Some MF_match_opcode) INSN_DREF;
    mk_opcode "th.vlsseg3wu.v" 0 INSN_CLASS_XTHEADVECTOR "Vd,0(s),tVm" MATCH_VLSSEG3E32V MASK_VLSSEG3E32V (Some MF_match_opcode) INSN_DREF;
    mk_opcode "th.vlsseg3e.v" 0 INSN_CLASS_XTHEADVECTOR "Vd,0(s),tVm" MATCH_VLSSEG3E64V MASK_VLSSEG3E64V (Some MF_match_opcode) INSN_DREF;
    mk_opcode "th.vssseg3b.v" 0 INSN_CLASS_XTHEADVECTOR "Vd,0(s),tVm" MATCH_VSSSEG3E8V MASK_VSSSEG3E8V (Some MF_match_opcode) INSN_DREF;
    mk_opcode "th.vssseg3h.v" 0 INSN_CLASS_XTHEADVECTOR "Vd,0(s),tVm" MATCH_VSSSEG3E16V MASK_VSSSEG3E16V (Some MF_match_opcode) INSN_DREF;
    mk_opcode "th.vssseg3w.v" 0 INSN_CLASS_XTHEADVECTOR "Vd,0(s),tVm" MATCH_VSSSEG3E32V MASK_VSSSEG3E32V (Some MF_match_opcode) INSN_DREF;
    mk_opcode "th.vssseg3e.v" 0 INSN_CLASS_XTHEADVECTOR "Vd,0(s),tVm" MATCH_VSSSEG3E64V MASK_VSSSEG3E64V (Some MF_match_opcode) INSN_DREF;
    mk_opcode "th.vlsseg4b.v" 0 INSN_CLASS_XTHEADVECTOR "Vd,0(s),tVm" MATCH_TH_VLSSEG4BV MASK_TH_VLSSEG4BV (Some MF_match_opcode) INSN_DREF;
    mk_opcode "th.vlsseg4h.v" 0 INSN_CLASS_XTHEADVECTOR "Vd,0(s),tVm" MATCH_TH_VLSSEG4HV MASK_TH_VLSSEG4HV (Some MF_match_opcode) INSN_DREF;
    mk_opcode "th.vlsseg4w.v" 0 INSN_CLASS_XTHEADVECTOR "Vd,0(s),tVm" MATCH_TH_VLSSEG4WV MASK_TH_VLSSEG4WV (Some MF_match_opcode) INSN_DREF;
    mk_opcode "th.vlsseg4bu.v" 0 INSN_CLASS_XTHEADVECTOR "Vd,0(s),tVm" MATCH_VLSSEG4E8V MASK_VLSSEG4E8V (Some MF_match_opcode) INSN_DREF;
    mk_opcode "th.vlsseg4hu.v" 0 INSN_CLASS_XTHEADVECTOR "Vd,0(s),tVm" MATCH_VLSSEG4E16V MASK_VLSSEG4E16V (Some MF_match_opcode) INSN_DREF;
    mk_opcode "th.vlsseg4wu.v" 0 INSN_CLASS_XTHEADVECTOR "Vd,0(s),tVm" MATCH_VLSSEG4E32V MASK_VLSSEG4E32V (Some MF_match_opcode) INSN_DREF;
    mk_opcode "th.vlsseg4e.v" 0 INSN_CLASS_XTHEADVECTOR "Vd,0(s),tVm" MATCH_VLSSEG4E64V MASK_VLSSEG4E64V (Some MF_match_opcode) INSN_DREF;
    mk_opcode "th.vssseg4b.v" 0 INSN_CLASS_XTHEADVECTOR "Vd,0(s),tVm" MATCH_VSSSEG4E8V MASK_VSSSEG4E8V (Some MF_match_opcode) INSN_DREF;
    mk_opcode "th.vssseg4h.v" 0 INSN_CLASS_XTHEADVECTOR "Vd,0(s),tVm" MATCH_VSSSEG4E16V MASK_VSSSEG4E16V (Some MF_match_opcode) INSN_DREF;
    mk_opcode "th.vssseg4w.v" 0 INSN_CLASS_XTHEADVECTOR "Vd,0(s),tVm" MATCH_VSSSEG4E32V MASK_VSSSEG4E32V (Some MF_match_opcode) INSN_DREF;
    mk_opcode "th.vssseg4e.v" 0 INSN_CLASS_XTHEADVECTOR "Vd,0(s),tVm" MATCH_VSSSEG4E64V MASK_VSSSEG4E64V (Some MF_match_opcode) INSN_DREF;
    mk_opcode "th.vlsseg5b.v" 0 INSN_CLASS_XTHEADVECTOR "Vd,0(s),tVm" MATCH_TH_VLSSEG5BV MASK_TH_VLSSEG5BV (Some MF_match_opcode) INSN_DREF;
    mk_opcode "th.vlsseg5h.v" 0 INSN_CLASS_XTHEADVECTOR "Vd,0(s),tVm" MATCH_TH_VLSSEG5HV MASK_TH_VLSSEG5HV (Some MF_match_opcode) INSN_DREF;
    mk_opcode "th.vlsseg5w.v" 0 INSN_CLASS_XTHEADVECTOR "Vd,0(s),tVm" MATCH_TH_VLSSEG5WV MASK_TH_VLSSEG5WV (Some MF_match_opcode) INSN_DREF;
    mk_opcode "th.vlsseg5bu.v" 0 INSN_CLASS_XTHEADVECTOR "Vd,0(s),tVm" MATCH_VLSSEG5E8V MASK_VLSSEG5E8V (Some MF_match_opcode) INSN_DREF;
    mk_opcode "th.vlsseg5hu.v" 0 INSN_CLASS_XTHEADVECTOR "Vd,0(s),tVm" MATCH_VLSSEG5E16V MASK_VLSSEG5E16V (Some MF_match_opcode) INSN_DREF;
    mk_opcode "th.vlsseg5wu.v" 0 INSN_CLASS_XTHEADVECTOR "Vd,0(s),tVm" MATCH_VLSSEG5E32V MASK_VLSSEG5E32V (Some MF_match_opcode) INSN_DREF;
    mk_opcode "th.vlsseg5e.v" 0 INSN_CLASS_XTHEADVECTOR "Vd,0(s),tVm" MATCH_VLSSEG5E64V MASK_VLSSEG5E64V (Some MF_match_opcode) INSN_DREF;
    mk_opcode "th.vssseg5b.v" 0 INSN_CLASS_XTHEADVECTOR "Vd,0(s),tVm" MATCH_VSSSEG5E8V MASK_VSSSEG5E8V (Some MF_match_opcode) INSN_DREF;
    mk_opcode "th.vssseg5h.v" 0 INSN_CLASS_XTHEADVECTOR "Vd,0(s),tVm" MATCH_VSSSEG5E16V MASK_VSSSEG5E16V (Some MF_match_opcode) INSN_DREF;
    mk_opcode "th.vssseg5w.v" 0 INSN_CLASS_XTHEADVECTOR "Vd,0(s),tVm" MATCH_VSSSEG5E32V MASK_VSSSEG5E32V (Some MF_match_opcode) INSN_DREF;
    mk_opcode "th.vssseg5e.v" 0 INSN_CLASS_XTHEADVECTOR "Vd,0(s),tVm" MATCH_VSSSEG5E64V MASK_VSSSEG5E64V (Some MF_match_opcode) INSN_DREF;
    mk_opcode "th.vlsseg6b.v" 0 INSN_CLASS_XTHEADVECTOR "Vd,0(s),tVm" MATCH_TH_VLSSEG6BV MASK_TH_VLSSEG6BV (Some MF_match_opcode) INSN_DREF;
    mk_opcode "th.vlsseg6h.v" 0 INSN_CLASS_XTHEADVECTOR "Vd,0(s),tVm" MATCH_TH_VLSSEG6HV MASK_TH_VLSSEG6HV (Some MF_match_opcode) INSN_DREF;
    mk_opcode "th.vlsseg6w.v" 0 INSN_CLASS_XTHEADVECTOR "Vd,0(s),tVm" MATCH_TH_VLSSEG6WV MASK_TH_VLSSEG6WV (Some MF_match_opcode) INSN_DREF;
    mk_opcode "th.vlsseg6bu.v" 0 INSN_CLASS_XTHEADVECTOR "Vd,0(s),tVm" MATCH_VLSSEG6E8V MASK_VLSSEG6E8V (Some MF_match_opcode) INSN_DREF;
    mk_opcode "th.vlsseg6hu.v" 0 INSN_CLASS_XTHEADVECTOR "Vd,0(s),tVm" MATCH_VLSSEG6E16V MASK_VLSSEG6E16V (Some MF_match_opcode) INSN_DREF;
    mk_opcode "th.vlsseg6wu.v" 0 INSN_CLASS_XTHEADVECTOR "Vd,0(s),tVm" MATCH_VLSSEG6E32V MASK_VLSSEG6E32V (Some MF_match_opcode) INSN_DREF;
    mk_opcode "th.vlsseg6e.v" 0 INSN_CLASS_XTHEADVECTOR "Vd,0(s),tVm" MATCH_VLSSEG6E64V MASK_VLSSEG6E64V (Some MF_match_opcode) INSN_DREF;
    mk_opcode "th.vssseg6b.v" 0 INSN_CLASS_XTHEADVECTOR "Vd,0(s),tVm" MATCH_VSSSEG6E8V MASK_VSSSEG6E8V (Some MF_match_opcode) INSN_DREF;
    mk_opcode "th.vssseg6h.v" 0 INSN_CLASS_XTHEADVECTOR "Vd,0(s),tVm" MATCH_VSSSEG6E16V MASK_VSSSEG6E16V (Some MF_match_opcode) INSN_DREF;
    mk_opcode "th.vssseg6w.v" 0 INSN_CLASS_XTHEADVECTOR "Vd,0(s),tVm" MATCH_VSSSEG6E32V MASK_VSSSEG6E32V (Some MF_match_opcode) INSN_DREF;
    mk_opcode "th.vssseg6e.v" 0 INSN_CLASS_XTHEADVECTOR "Vd,0(s),tVm" MATCH_VSSSEG6E64V MASK_VSSSEG6E64V (Some MF_match_opcode) INSN_DREF;
    mk_opcode "th.vlsseg7b.v" 0 INSN_CLASS_XTHEADVECTOR "Vd,0(s),tVm" MATCH_TH_VLSSEG7BV MASK_TH_VLSSEG7BV (Some MF_match_opcode) INSN_DREF;
    mk_opcode "th.vlsseg7h.v" 0 INSN_CLASS_XTHEADVECTOR "Vd,0(s),tVm" MATCH_TH_VLSSEG7HV MASK_TH_VLSSEG7HV (Some MF_match_opcode) INSN_DREF;
    mk_opcode "th.vlsseg7w.v" 0 INSN_CLASS_XTHEADVECTOR "Vd,0(s),tVm" MATCH_TH_VLSSEG7WV MASK_TH_VLSSEG7WV (Some MF_match_opcode) INSN_DREF;
    mk_opcode "th.vlsseg7bu.v" 0 INSN_CLASS_XTHEADVECTOR "Vd,0(s),tVm" MATCH_VLSSEG7E8V MASK_VLSSEG7E8V (Some MF_match_opcode) INSN_DREF;
    mk_opcode "th.vlsseg7hu.v" 0 INSN_CLASS_XTHEADVECTOR "Vd,0(s),tVm" MATCH_VLSSEG7E16V MASK_VLSSEG7E16V (Some MF_match_opcode) INSN_DREF;
    mk_opcode "th.vlsseg7wu.v" 0 INSN_CLASS_XTHEADVECTOR "Vd,0(s),tVm" MATCH_VLSSEG7E32V MASK_VLSSEG7E32V (Some MF_match_opcode) INSN_DREF;
    mk_opcode "th.vlsseg7e.v" 0 INSN_CLASS_XTHEADVECTOR "Vd,0(s),tVm" MATCH_VLSSEG7E64V MASK_VLSSEG7E64V (Some MF_match_opcode) INSN_DREF;
    mk_opcode "th.vssseg7b.v" 0 INSN_CLASS_XTHEADVECTOR "Vd,0(s),tVm" MATCH_VSSSEG7E8V MASK_VSSSEG7E8V (Some MF_match_opcode) INSN_DREF;
    mk_opcode "th.vssseg7h.v" 0 INSN_CLASS_XTHEADVECTOR "Vd,0(s),tVm" MATCH_VSSSEG7E16V MASK_VSSSEG7E16V (Some MF_match_opcode) INSN_DREF;
    mk_opcode "th.vssseg7w.v" 0 INSN_CLASS_XTHEADVECTOR "Vd,0(s),tVm" MATCH_VSSSEG7E32V MASK_VSSSEG7E32V (Some MF_match_opcode) INSN_DREF;
    mk_opcode "th.vssseg7e.v" 0 INSN_CLASS_XTHEADVECTOR "Vd,0(s),tVm" MATCH_VSSSEG7E64V MASK_VSSSEG7E64V (Some MF_match_opcode) INSN_DREF;
    mk_opcode "th.vlsseg8b.v" 0 INSN_CLASS_XTHEADVECTOR "Vd,0(s),tVm" MATCH_TH_VLSSEG8BV MASK_TH_VLSSEG8BV (Some MF_match_opcode) INSN_DREF;
    mk_opcode "th.vlsseg8h.v" 0 INSN_CLASS_XTHEADVECTOR "Vd,0(s),tVm" MATCH_TH_VLSSEG8HV MASK_TH_VLSSEG8HV (Some MF_match_opcode) INSN_DREF;
    mk_opcode "th.vlsseg8w.v" 0 INSN_CLASS_XTHEADVECTOR "Vd,0(s),tVm" MATCH_TH_VLSSEG8WV MASK_TH_VLSSEG8WV (Some MF_match_opcode) INSN_DREF;
    mk_opcode "th.vlsseg8bu.v" 0 INSN_CLASS_XTHEADVECTOR "Vd,0(s),tVm" MATCH_VLSSEG8E8V MASK_VLSSEG8E8V (Some MF_match_opcode) INSN_DREF;
    mk_opcode "th.vlsseg8hu.v" 0 INSN_CLASS_XTHEADVECTOR "Vd,0(s),tVm" MATCH_VLSSEG8E16V MASK_VLSSEG8E16V (Some MF_match_opcode) INSN_DREF;
    mk_opcode "th.vlsseg8wu.v" 0 INSN_CLASS_XTHEADVECTOR "Vd,0(s),tVm" MATCH_VLSSEG8E32V MASK_VLSSEG8E32V (Some MF_match_opcode) INSN_DREF;
    mk_opcode "th.vlsseg8e.v" 0 INSN_CLASS_XTHEADVECTOR "Vd,0(s),tVm" MATCH_VLSSEG8E64V MASK_VLSSEG8E64V (Some MF_match_opcode) INSN_DREF;
    mk_opcode "th.vssseg8b.v" 0 INSN_CLASS_XTHEADVECTOR "Vd,0(s),tVm" MATCH_VSSSEG8E8V MASK_VSSSEG8E8V (Some MF_match_opcode) INSN_DREF;
    mk_opcode "th.vssseg8h.v" 0 INSN_CLASS_XTHEADVECTOR "Vd,0(s),tVm" MATCH_VSSSEG8E16V MASK_VSSSEG8E16V (Some MF_match_opcode) INSN_DREF;
    mk_opcode "th.vssseg8w.v" 0 INSN_CLASS_XTHEADVECTOR "Vd,0(s),tVm" MATCH_VSSSEG8E32V MASK_VSSSEG8E32V (Some MF_match_opcode) INSN_DREF;
    mk_opcode "th.vssseg8e.v" 0 INSN_CLASS_XTHEADVECTOR "Vd,0(s),tVm" MATCH_VSSSEG8E64V MASK_VSSSEG8E64V (Some MF_match_opcode) INSN_DREF;
    mk_opcode "th.vlxseg2b.v" 0 INSN_CLASS_XTHEADVECTOR "Vd,0(s),VtVm" MATCH_TH_VLXSEG2BV MASK_TH_VLXSEG2BV (Some MF_match_opcode) INSN_DREF;
    mk_opcode "th.vlxseg2h.v" 0 INSN_CLASS_XTHEADVECTOR "Vd,0(s),VtVm" MATCH_TH_VLXSEG2HV MASK_TH_VLXSEG2HV (Some MF_match_opcode) INSN_DREF ].

(** Lines 2453-2592. *)
Definition riscv_opcodes_16 : list riscv_opcode :=
  [ mk_opcode "th.vlxseg2w.v" 0 INSN_CLASS_XTHEADVECTOR "Vd,0(s),VtVm" MATCH_TH_VLXSEG2WV MASK_TH_VLXSEG2WV (Some MF_match_opcode) INSN_DREF;
    mk_opcode "th.vlxseg2bu.v" 0 INSN_CLASS_XTHEADVECTOR "Vd,0(s),VtVm" MATCH_VLOXSEG2EI8V MASK_VLOXSEG2EI8V (Some MF_match_opcode) INSN_DREF;
    mk_opcode "th.vlxseg2hu.v" 0 INSN_CLASS_XTHEADVECTOR "Vd,0(s),VtVm" MATCH_VLOXSEG2EI16V MASK_VLOXSEG2EI16V (Some MF_match_opcode) INSN_DREF;
    mk_opcode "th.vlxseg2wu.v" 0 INSN_CLASS_XTHEADVECTOR "Vd,0(s),VtVm" MATCH_VLOXSEG2EI32V MASK_VLOXSEG2EI32V (Some MF_match_opcode) INSN_DREF;
    mk_opcode "th.vlxseg2e.v" 0 INSN_CLASS_XTHEADVECTOR "Vd,0(s),VtVm" MATCH_VLOXSEG2EI64V MASK_VLOXSEG2EI64V (Some MF_match_opcode) INSN_DREF;
    mk_opcode "th.vsxseg2b.v" 0 INSN_CLASS_XTHEADVECTOR "Vd,0(s),VtVm" MATCH_VSOXSEG2EI8V MASK_VSOXSEG2EI8V (Some MF_match_opcode) INSN_DREF;
    mk_opcode "th.vsxseg2h.v" 0 INSN_CLASS_XTHEADVECTOR "Vd,0(s),VtVm" MATCH_VSOXSEG2EI16V MASK_VSOXSEG2EI16V (Some MF_match_opcode) INSN_DREF;
    mk_opcode "th.vsxseg2w.v" 0 INSN_CLASS_XTHEADVECTOR "Vd,0(s),VtVm" MATCH_VSOXSEG2EI32V MASK_VSOXSEG2EI32V (Some MF_match_opcode) INSN_DREF;
    mk_opcode "th.vsxseg2e.v" 0 INSN_CLASS_XTHEADVECTOR "Vd,0(s),VtVm" MATCH_VSOXSEG2EI64V MASK_VSOXSEG2EI64V (Some MF_match_opcode) INSN_DREF;
    mk_opcode "th.vlxseg3b.v" 0 INSN_CLASS_XTHEADVECTOR "Vd,0(s),VtVm" MATCH_TH_VLXSEG3BV MASK_TH_VLXSEG3BV (Some MF_match_opcode) INSN_DREF;
    mk_opcode "th.vlxseg3h.v" 0 INSN_CLASS_XTHEADVECTOR "Vd,0(s),VtVm" MATCH_TH_VLXSEG3HV MASK_TH_VLXSEG3HV (Some MF_match_opcode) INSN_DREF;
    mk_opcode "th.vlxseg3w.v" 0 INSN_CLASS_XTHEADVECTOR "Vd,0(s),VtVm" MATCH_TH_VLXSEG3WV MASK_TH_VLXSEG3WV (Some MF_match_opcode) INSN_DREF;
    mk_opcode "th.vlxseg3bu.v" 0 INSN_CLASS_XTHEADVECTOR "Vd,0(s),VtVm" MATCH_VLOXSEG3EI8V MASK_VLOXSEG3EI8V (Some MF_match_opcode) INSN_DREF;
    mk_opcode "th.vlxseg3hu.v" 0 INSN_CLASS_XTHEADVECTOR "Vd,0(s),VtVm" MATCH_VLOXSEG3EI16V MASK_VLOXSEG3EI16V (Some MF_match_opcode) INSN_DREF;
    mk_opcode "th.vlxseg3wu.v" 0 INSN_CLASS_XTHEADVECTOR "Vd,0(s),VtVm" MATCH_VLOXSEG3EI32V MASK_VLOXSEG3EI32V (Some MF_match_opcode) INSN_DREF;
    mk_opcode "th.vlxseg3e.v" 0 INSN_CLASS_XTHEADVECTOR "Vd,0(s),VtVm" MATCH_VLOXSEG3EI64V MASK_VLOXSEG3EI64V (Some MF_match_opcode) INSN_DREF;
    mk_opcode "th.vsxseg3b.v" 0 INSN_CLASS_XTHEADVECTOR "Vd,0(s),VtVm" MATCH_VSOXSEG3EI8V MASK_VSOXSEG3EI8V (Some MF_match_opcode) INSN_DREF;
    mk_opcode "th.vsxseg3h.v" 0 INSN_CLASS_XTHEADVECTOR "Vd,0(s),VtVm" MATCH_VSOXSEG3EI16V MASK_VSOXSEG3EI16V (Some MF_match_opcode) INSN_DREF;
    mk_opcode "th.vsxseg3w.v" 0 INSN_CLASS_XTHEADVECTOR "Vd,0(s),VtVm" MATCH_VSOXSEG3EI32V MASK_VSOXSEG3EI32V (Some MF_match_opcode) INSN_DREF;
    mk_opcode "th.vsxseg3e.v" 0 INSN_CLASS_XTHEADVECTOR "Vd,0(s),VtVm" MATCH_VSOXSEG3EI64V MASK_VSOXSEG3EI64V (Some MF_match_opcode) INSN_DREF;
    mk_opcode "th.vlxseg4b.v" 0 INSN_CLASS_XTHEADVECTOR "Vd,0(s),VtVm" MATCH_TH_VLXSEG4BV MASK_TH_VLXSEG4BV (Some MF_match_opcode) INSN_DREF;
    mk_opcode "th.vlxseg4h.v" 0 INSN_CLASS_XTHEADVECTOR "Vd,0(s),VtVm" MATCH_TH_VLXSEG4HV MASK_TH_VLXSEG4HV (Some MF_match_opcode) INSN_DREF;
    mk_opcode "th.vlxseg4w.v" 0 INSN_CLASS_XTHEADVECTOR "Vd,0(s),VtVm" MATCH_TH_VLXSEG4WV MASK_TH_VLXSEG4WV (Some MF_match_opcode) INSN_DREF;
    mk_opcode "th.vlxseg4bu.v" 0 INSN_CLASS_XTHEADVECTOR "Vd,0(s),VtVm" MATCH_VLOXSEG4EI8V MASK_VLOXSEG4EI8V (Some MF_match_opcode) INSN_DREF;
    mk_opcode "th.vlxseg4hu.v" 0 INSN_CLASS_XTHEADVECTOR "Vd,0(s),VtVm" MATCH_VLOXSEG4EI16V MASK_VLOXSEG4EI16V (Some MF_match_opcode) INSN_DREF;
    mk_opcode "th.vlxseg4wu.v" 0 INSN_CLASS_XTHEADVECTOR "Vd,0(s),VtVm" MATCH_VLOXSEG4EI32V MASK_VLOXSEG4EI32V (Some MF_match_opcode) INSN_DREF;
    mk_opcode "th.vlxseg4e.v" 0 INSN_CLASS_XTHEADVECTOR "Vd,0(s),VtVm" MATCH_VLOXSEG4EI64V MASK_VLOXSEG4EI64V (Some MF_match_opcode) INSN_DREF;
    mk_opcode "th.vsxseg4b.v" 0 INSN_CLASS_XTHEADVECTOR "Vd,0(s),VtVm" MATCH_VSOXSEG4EI8V MASK_VSOXSEG4EI8V (Some MF_match_opcode) INSN_DREF;
    mk_opcode "th.vsxseg4h.v" 0 INSN_CLASS_XTHEADVECTOR "Vd,0(s),VtVm" MATCH_VSOXSEG4EI16V MASK_VSOXSEG4EI16V (Some MF_match_opcode) INSN_DREF;
    mk_opcode "th.vsxseg4w.v" 0 INSN_CLASS_XTHEADVECTOR "Vd,0(s),VtVm" MATCH_VSOXSEG4EI32V MASK_VSOXSEG4EI32V (Some MF_match_opcode) INSN_DREF;
    mk_opcode "th.vsxseg4e.v" 0 INSN_CLASS_XTHEADVECTOR "Vd,0(s),VtVm" MATCH_VSOXSEG4EI64V MASK_VSOXSEG4EI64V (Some MF_match_opcode) INSN_DREF;
    mk_opcode "th.vlxseg5b.v" 0 INSN_CLASS_XTHEADVECTOR "Vd,0(s),VtVm" MATCH_TH_VLXSEG5BV MASK_TH_VLXSEG5BV (Some MF_match_opcode) INSN_DREF;
    mk_opcode "th.vlxseg5h.v" 0 INSN_CLASS_XTHEADVECTOR "Vd,0(s),VtVm" MATCH_TH_VLXSEG5HV MASK_TH_VLXSEG5HV (Some MF_match_opcode) INSN_DREF;
    mk_opcode "th.vlxseg5w.v" 0 INSN_CLASS_XTHEADVECTOR "Vd,0(s),VtVm" MATCH_TH_VLXSEG5WV MASK_TH_VLXSEG5WV (Some MF_match_opcode) INSN_DREF;
    mk_opcode "th.vlxseg5bu.v" 0 INSN_CLASS_XTHEADVECTOR "Vd,0(s),VtVm" MATCH_VLOXSEG5EI8V MASK_VLOXSEG5EI8V (Some MF_match_opcode) INSN_DREF;
    mk_opcode "th.vlxseg5hu.v" 0 INSN_CLASS_XTHEADVECTOR "Vd,0(s),VtVm" MATCH_VLOXSEG5EI16V MASK_VLOXSEG5EI16V (Some MF_match_opcode) INSN_DREF;
    mk_opcode "th.vlxseg5wu.v" 0 INSN_CLASS_XTHEADVECTOR "Vd,0(s),VtVm" MATCH_VLOXSEG5EI32V MASK_VLOXSEG5EI32V (Some MF_match_opcode) INSN_DREF;
    mk_opcode "th.vlxseg5e.v" 0 INSN_CLASS_XTHEADVECTOR "Vd,0(s),VtVm" MATCH_VLOXSEG5EI64V MASK_VLOXSEG5EI64V (Some MF_match_opcode) INSN_DREF;
    mk_opcode "th.vsxseg5b.v" 0 INSN_CLASS_XTHEADVECTOR "Vd,0(s),VtVm" MATCH_VSOXSEG5EI8V MASK_VSOXSEG5EI8V (Some MF_match_opcode) INSN_DREF;
    mk_opcode "th.vsxseg5h.v" 0 INSN_CLASS_XTHEADVECTOR "Vd,0(s),VtVm" MATCH_VSOXSEG5EI16V MASK_VSOXSEG5EI16V (Some MF_match_opcode) INSN_DREF;
    mk_opcode "th.vsxseg5w.v" 0 INSN_CLASS_XTHEADVECTOR "Vd,0(s),VtVm" MATCH_VSOXSEG5EI32V MASK_VSOXSEG5EI32V (Some MF_match_opcode) INSN_DREF;
    mk_opcode "th.vsxseg5e.v" 0 INSN_CLASS_XTHEADVECTOR "Vd,0(s),VtVm" MATCH_VSOXSEG5EI64V MASK_VSOXSEG5EI64V (Some MF_match_opcode) INSN_DREF;
    mk_opcode "th.vlxseg6b.v" 0 INSN_CLASS_XTHEADVECTOR "Vd,0(s),VtVm" MATCH_TH_VLXSEG6BV MASK_TH_VLXSEG6BV (Some MF_match_opcode) INSN_DREF;
    mk_opcode "th.vlxseg6h.v" 0 INSN_CLASS_XTHEADVECTOR "Vd,0(s),VtVm" MATCH_TH_VLXSEG6HV MASK_TH_VLXSEG6HV (Some MF_match_opcode) INSN_DREF;
    mk_opcode "th.vlxseg6w.v" 0 INSN_CLASS_XTHEADVECTOR "Vd,0(s),VtVm" MATCH_TH_VLXSEG6WV MASK_TH_VLXSEG6WV (Some MF_match_opcode) INSN_DREF;
    mk_opcode "th.vlxseg6bu.v" 0 INSN_CLASS_XTHEADVECTOR "Vd,0(s),VtVm" MATCH_VLOXSEG6EI8V MASK_VLOXSEG6EI8V (Some MF_match_opcode) INSN_DREF;
    mk_opcode "th.vlxseg6hu.v" 0 INSN_CLASS_XTHEADVECTOR "Vd,0(s),VtVm" MATCH_VLOXSEG6EI16V MASK_VLOXSEG6EI16V (Some MF_match_opcode) INSN_DREF;
    mk_opcode "th.vlxseg6wu.v" 0 INSN_CLASS_XTHEADVECTOR "Vd,0(s),VtVm" MATCH_VLOXSEG6EI32V MASK_VLOXSEG6EI32V (Some MF_match_opcode) INSN_DREF;
    mk_opcode "th.vlxseg6e.v" 0 INSN_CLASS_XTHEADVECTOR "Vd,0(s),VtVm" MATCH_VLOXSEG6EI64V MASK_VLOXSEG6EI64V (Some MF_match_opcode) INSN_DREF;
    mk_opcode "th.vsxseg6b.v" 0 INSN_CLASS_XTHEADVECTOR "Vd,0(s),VtVm" MATCH_VSOXSEG6EI8V MASK_VSOXSEG6EI8V (Some MF_match_opcode) INSN_DREF;
    mk_opcode "th.vsxseg6h.v" 0 INSN_CLASS_XTHEADVECTOR "Vd,0(s),VtVm" MATCH_VSOXSEG6EI16V MASK_VSOXSEG6EI16V (Some MF_match_opcode) INSN_DREF;
    mk_opcode "th.vsxseg6w.v" 0 INSN_CLASS_XTHEADVECTOR "Vd,0(s),VtVm" MATCH_VSOXSEG6EI32V MASK_VSOXSEG6EI32V (Some MF_match_opcode) INSN_DREF;
    mk_opcode "th.vsxseg6e.v" 0 INSN_CLASS_XTHEADVECTOR "Vd,0(s),VtVm" MATCH_VSOXSEG6EI64V MASK_VSOXSEG6EI64V (Some MF_match_opcode) INSN_DREF;
    mk_opcode "th.vlxseg7b.v" 0 INSN_CLASS_XTHEADVECTOR "Vd,0(s),VtVm" MATCH_TH_VLXSEG7BV MASK_TH_VLXSEG7BV (Some MF_match_opcode) INSN_DREF;
    mk_opcode "th.vlxseg7h.v" 0 INSN_CLASS_XTHEADVECTOR "Vd,0(s),VtVm" MATCH_TH_VLXSEG7HV MASK_TH_VLXSEG7HV (Some MF_match_opcode) INSN_DREF;
    mk_opcode "th.vlxseg7w.v" 0 INSN_CLASS_XTHEADVECTOR "Vd,0(s),VtVm" MATCH_TH_VLXSEG7WV MASK_TH_VLXSEG7WV (Some MF_match_opcode) INSN_DREF;
    mk_opcode "th.vlxseg7bu.v" 0 INSN_CLASS_XTHEADVECTOR "Vd,0(s),VtVm" MATCH_VLOXSEG7EI8V MASK_VLOXSEG7EI8V (Some MF_match_opcode) INSN_DREF;
    mk_opcode "th.vlxseg7hu.v" 0 INSN_CLASS_XTHEADVECTOR "Vd,0(s),VtVm" MATCH_VLOXSEG7EI16V MASK_VLOXSEG7EI16V (Some MF_match_opcode) INSN_DREF;
    mk_opcode "th.vlxseg7wu.v" 0 INSN_CLASS_XTHEADVECTOR "Vd,0(s),VtVm" MATCH_VLOXSEG7EI32V MASK_VLOXSEG7EI32V (Some MF_match_opcode) INSN_DREF;
    mk_opcode "th.vlxseg7e.v" 0 INSN_CLASS_XTHEADVECTOR "Vd,0(s),VtVm" MATCH_VLOXSEG7EI64V MASK_VLOXSEG7EI64V (Some MF_match_opcode) INSN_DREF;
    mk_opcode "th.vsxseg7b.v" 0 INSN_CLASS_XTHEADVECTOR "Vd,0(s),VtVm" MATCH_VSOXSEG7EI8V MASK_VSOXSEG7EI8V (Some MF_match_opcode) INSN_DREF;
    mk_opcode "th.vsxseg7h.v" 0 INSN_CLASS_XTHEADVECTOR "Vd,0(s),VtVm" MATCH_VSOXSEG7EI16V MASK_VSOXSEG7EI16V (Some MF_match_opcode) INSN_DREF;
    mk_opcode "th.vsxseg7w.v" 0 INSN_CLASS_XTHEADVECTOR "Vd,0(s),VtVm" MATCH_VSOXSEG7EI32V MASK_VSOXSEG7EI32V (Some MF_match_opcode) INSN_DREF;
    mk_opcode "th.vsxseg7e.v" 0 INSN_CLASS_XTHEADVECTOR "Vd,0(s),VtVm" MATCH_VSOXSEG7EI64V MASK_VSOXSEG7EI64V (Some MF_match_opcode) INSN_DREF;
    mk_opcode "th.vlxseg8b.v" 0 INSN_CLASS_XTHEADVECTOR "Vd,0(s),VtVm" MATCH_TH_VLXSEG8BV MASK_TH_VLXSEG8BV (Some MF_match_opcode) INSN_DREF;
    mk_opcode "th.vlxseg8h.v" 0 INSN_CLASS_XTHEADVECTOR "Vd,0(s),VtVm" MATCH_TH_VLXSEG8HV MASK_TH_VLXSEG8HV (Some MF_match_opcode) INSN_DREF;
    mk_opcode "th.vlxseg8w.v" 0 INSN_CLASS_XTHEADVECTOR "Vd,0(s),VtVm" MATCH_TH_VLXSEG8WV MASK_TH_VLXSEG8WV (Some MF_match_opcode) INSN_DREF;
    mk_opcode "th.vlxseg8bu.v" 0 INSN_CLASS_XTHEADVECTOR "Vd,0(s),VtVm" MATCH_VLOXSEG8EI8V MASK_VLOXSEG8EI8V (Some MF_match_opcode) INSN_DREF;
    mk_opcode "th.vlxseg8hu.v" 0 INSN_CLASS_XTHEADVECTOR "Vd,0(s),VtVm" MATCH_VLOXSEG8EI16V MASK_VLOXSEG8EI16V (Some MF_match_opcode) INSN_DREF;
    mk_opcode "th.vlxseg8wu.v" 0 INSN_CLASS_XTHEADVECTOR "Vd,0(s),VtVm" MATCH_VLOXSEG8EI32V MASK_VLOXSEG8EI32V (Some MF_match_opcode) INSN_DREF;
    mk_opcode "th.vlxseg8e.v" 0 INSN_CLASS_XTHEADVECTOR "Vd,0(s),VtVm" MATCH_VLOXSEG8EI64V MASK_VLOXSEG8EI64V (Some MF_match_opcode) INSN_DREF;
    mk_opcode "th.vsxseg8b.v" 0 INSN_CLASS_XTHEADVECTOR "Vd,0(s),VtVm" MATCH_VSOXSEG8EI8V MASK_VSOXSEG8EI8V (Some MF_match_opcode) INSN_DREF;
    mk_opcode "th.vsxseg8h.v" 0 INSN_CLASS_XTHEADVECTOR "Vd,0(s),VtVm" MATCH_VSOXSEG8EI16V MASK_VSOXSEG8EI16V (Some MF_match_opcode) INSN_DREF;
    mk_opcode "th.vsxseg8w.v" 0 INSN_CLASS_XTHEADVECTOR "Vd,0(s),VtVm" MATCH_VSOXSEG8EI32V MASK_VSOXSEG8EI32V (Some MF_match_opcode) INSN_DREF;
    mk_opcode "th.vsxseg8e.v" 0 INSN_CLASS_XTHEADVECTOR "Vd,0(s),VtVm" MATCH_VSOXSEG8EI64V MASK_VSOXSEG8EI64V (Some MF_match_opcode) INSN_DREF;
    mk_opcode "th.vlseg2bff.v" 0 INSN_CLASS_XTHEADVECTOR "Vd,0(s)Vm" MATCH_TH_VLSEG2BFFV MASK_TH_VLSEG2BFFV (Some MF_match_opcode) INSN_DREF;
    mk_opcode "th.vlseg2hff.v" 0 INSN_CLASS_XTHEADVECTOR "Vd,0(s)Vm" MATCH_TH_VLSEG2HFFV MASK_TH_VLSEG2HFFV (Some MF_match_opcode) INSN_DREF;
    mk_opcode "th.vlseg2wff.v" 0 INSN_CLASS_XTHEADVECTOR "Vd,0(s)Vm" MATCH_TH_VLSEG2WFFV MASK_TH_VLSEG2WFFV (Some MF_match_opcode) INSN_DREF;
    mk_opcode "th.vlseg2buff.v" 0 INSN_CLASS_XTHEADVECTOR "Vd,0(s)Vm" MATCH_VLSEG2E8FFV MASK_VLSEG2E8FFV (Some MF_match_opcode) INSN_DREF;
    mk_opcode "th.vlseg2huff.v" 0 INSN_CLASS_XTHEADVECTOR "Vd,0(s)Vm" MATCH_VLSEG2E16FFV MASK_VLSEG2E16FFV (Some MF_match_opcode) INSN_DREF;
    mk_opcode "th.vlseg2wuff.v" 0 INSN_CLASS_XTHEADVECTOR "Vd,0(s)Vm" MATCH_VLSEG2E32FFV MASK_VLSEG2E32FFV (Some MF_match_opcode) INSN_DREF;
    mk_opcode "th.vlseg2eff.v" 0 INSN_CLASS_XTHEADVECTOR "Vd,0(s)Vm" MATCH_VLSEG2E64FFV MASK_VLSEG2E64FFV (Some MF_match_opcode) INSN_DREF;
    mk_opcode "th.vlseg3bff.v" 0 INSN_CLASS_XTHEADVECTOR "Vd,0(s)Vm" MATCH_TH_VLSEG3BFFV MASK_TH_VLSEG3BFFV (Some MF_match_opcode) INSN_DREF;
    mk_opcode "th.vlseg3hff.v" 0 INSN_CLASS_XTHEADVECTOR "Vd,0(s)Vm" MATCH_TH_VLSEG3HFFV MASK_TH_VLSEG3HFFV (Some MF_match_opcode) INSN_DREF;
    mk_opcode "th.vlseg3wff.v" 0 INSN_CLASS_XTHEADVECTOR "Vd,0(s)Vm" MATCH_TH_VLSEG3WFFV MASK_TH_VLSEG3WFFV (Some MF_match_opcode) INSN_DREF;
    mk_opcode "th.vlseg3buff.v" 0 INSN_CLASS_XTHEADVECTOR "Vd,0(s)Vm" MATCH_VLSEG3E8FFV MASK_VLSEG3E8FFV (Some MF_match_opcode) INSN_DREF;
    mk_opcode "th.vlseg3huff.v" 0 INSN_CLASS_XTHEADVECTOR "Vd,0(s)Vm" MATCH_VLSEG3E16FFV MASK_VLSEG3E16FFV (Some MF_match_opcode) INSN_DREF;
    mk_opcode "th.vlseg3wuff.v" 0 INSN_CLASS_XTHEADVECTOR "Vd,0(s)Vm" MATCH_VLSEG3E32FFV MASK_VLSEG3E32FFV (Some MF_match_opcode) INSN_DREF;
    mk_opcode "th.vlseg3eff.v" 0 INSN_CLASS_XTHEADVECTOR "Vd,0(s)Vm" MATCH_VLSEG3E64FFV MASK_VLSEG3E64FFV (Some MF_match_opcode) INSN_DREF;
    mk_opcode "th.vlseg4bff.v" 0 INSN_CLASS_XTHEADVECTOR "Vd,0(s)Vm" MATCH_TH_VLSEG4BFFV MASK_TH_VLSEG4BFFV (Some MF_match_opcode) INSN_DREF;
    mk_opcode "th.vlseg4hff.v" 0 INSN_CLASS_XTHEADVECTOR "Vd,0(s)Vm" MATCH_TH_VLSEG4HFFV MASK_TH_VLSEG4HFFV (Some MF_match_opcode) INSN_DREF;
    mk_opcode "th.vlseg4wff.v" 0 INSN_CLASS_XTHEADVECTOR "Vd,0(s)Vm" MATCH_TH_VLSEG4WFFV MASK_TH_VLSEG4WFFV (Some MF_match_opcode) INSN_DREF;
    mk_opcode "th.vlseg4buff.v" 0 INSN_CLASS_XTHEADVECTOR "Vd,0(s)Vm" MATCH_VLSEG4E8FFV MASK_VLSEG4E8FFV (Some MF_match_opcode) INSN_DREF;
    mk_opcode "th.vlseg4huff.v" 0 INSN_CLASS_XTHEADVECTOR "Vd,0(s)Vm" MATCH_VLSEG4E16FFV MASK_VLSEG4E16FFV (Some MF_match_opcode) INSN_DREF;
    mk_opcode "th.vlseg4wuff.v" 0 INSN_CLASS_XTHEADVECTOR "Vd,0(s)Vm" MATCH_VLSEG4E32FFV MASK_VLSEG4E32FFV (Some MF_match_opcode) INSN_DREF;
    mk_opcode "th.vlseg4eff.v" 0 INSN_CLASS_XTHEADVECTOR "Vd,0(s)Vm" MATCH_VLSEG4E64FFV MASK_VLSEG4E64FFV (Some MF_match_opcode) INSN_DREF;
    mk_opcode "th.vlseg5bff.v" 0 INSN_CLASS_XTHEADVECTOR "Vd,0(s)Vm" MATCH_TH_VLSEG5BFFV MASK_TH_VLSEG5BFFV (Some MF_match_opcode) INSN_DREF;
    mk_opcode "th.vlseg5hff.v" 0 INSN_CLASS_XTHEADVECTOR "Vd,0(s)Vm" MATCH_TH_VLSEG5HFFV MASK_TH_VLSEG5HFFV (Some MF_match_opcode) INSN_DREF;
    mk_opcode "th.vlseg5wff.v" 0 INSN_CLASS_XTHEADVECTOR "Vd,0(s)Vm" MATCH_TH_VLSEG5WFFV MASK_TH_VLSEG5WFFV (Some MF_match_opcode) INSN_DREF;
    mk_opcode "th.vlseg5buff.v" 0 INSN_CLASS_XTHEADVECTOR "Vd,0(s)Vm" MATCH_VLSEG5E8FFV MASK_VLSEG5E8FFV (Some MF_match_opcode) INSN_DREF;
    mk_opcode "th.vlseg5huff.v" 0 INSN_CLASS_XTHEADVECTOR "Vd,0(s)Vm" MATCH_VLSEG5E16FFV MASK_VLSEG5E16FFV (Some MF_match_opcode) INSN_DREF;
    mk_opcode "th.vlseg5wuff.v" 0 INSN_CLASS_XTHEADVECTOR "Vd,0(s)Vm" MATCH_VLSEG5E32FFV MASK_VLSEG5E32FFV (Some MF_match_opcode) INSN_DREF;
    mk_opcode "th.vlseg5eff.v" 0 INSN_CLASS_XTHEADVECTOR "Vd,0(s)Vm" MATCH_VLSEG5E64FFV MASK_VLSEG5E64FFV (Some MF_match_opcode) INSN_DREF;
    mk_opcode "th.vlseg6bff.v" 0 INSN_CLASS_XTHEADVECTOR "Vd,0(s)Vm" MATCH_TH_VLSEG6BFFV MASK_TH_VLSEG6BFFV (Some MF_match_opcode) INSN_DREF;
    mk_opcode "th.vlseg6hff.v" 0 INSN_CLASS_XTHEADVECTOR "Vd,0(s)Vm" MATCH_TH_VLSEG6HFFV MASK_TH_VLSEG6HFFV (Some MF_match_opcode) INSN_DREF;
    mk_opcode "th.vlseg6wff.v" 0 INSN_CLASS_XTHEADVECTOR "Vd,0(s)Vm" MATCH_TH_VLSEG6WFFV MASK_TH_VLSEG6WFFV (Some MF_match_opcode) INSN_DREF;
    mk_opcode "th.vlseg6buff.v" 0 INSN_CLASS_XTHEADVECTOR "Vd,0(s)Vm" MATCH_VLSEG6E8FFV MASK_VLSEG6E8FFV (Some MF_match_opcode) INSN_DREF;
    mk_opcode "th.vlseg6huff.v" 0 INSN_CLASS_XTHEADVECTOR "Vd,0(s)Vm" MATCH_VLSEG6E16FFV MASK_VLSEG6E16FFV (Some MF_match_opcode) INSN_DREF;
    mk_opcode "th.vlseg6wuff.v" 0 INSN_CLASS_XTHEADVECTOR "Vd,0(s)Vm" MATCH_VLSEG6E32FFV MASK_VLSEG6E32FFV (Some MF_match_opcode) INSN_DREF;
    mk_opcode "th.vlseg6eff.v" 0 INSN_CLASS_XTHEADVECTOR "Vd,0(s)Vm" MATCH_VLSEG6E64FFV MASK_VLSEG6E64FFV (Some MF_match_opcode) INSN_DREF;
    mk_opcode "th.vlseg7bff.v" 0 INSN_CLASS_XTHEADVECTOR "Vd,0(s)Vm" MATCH_TH_VLSEG7BFFV MASK_TH_VLSEG7BFFV (Some MF_match_opcode) INSN_DREF;
    mk_opcode "th.vlseg7hff.v" 0 INSN_CLASS_XTHEADVECTOR "Vd,0(s)Vm" MATCH_TH_VLSEG7HFFV MASK_TH_VLSEG7HFFV (Some MF_match_opcode) INSN_DREF;
    mk_opcode "th.vlseg7wff.v" 0 INSN_CLASS_XTHEADVECTOR "Vd,0(s)Vm" MATCH_TH_VLSEG7WFFV MASK_TH_VLSEG7WFFV (Some MF_match_opcode) INSN_DREF;
    mk_opcode "th.vlseg7buff.v" 0 INSN_CLASS_XTHEADVECTOR "Vd,0(s)Vm" MATCH_VLSEG7E8FFV MASK_VLSEG7E8FFV (Some MF_match_opcode) INSN_DREF;
    mk_opcode "th.vlseg7huff.v" 0 INSN_CLASS_XTHEADVECTOR "Vd,0(s)Vm" MATCH_VLSEG7E16FFV MASK_VLSEG7E16FFV (Some MF_match_opcode) INSN_DREF;
    mk_opcode "th.vlseg7wuff.v" 0 INSN_CLASS_XTHEADVECTOR "Vd,0(s)Vm" MATCH_VLSEG7E32FFV MASK_VLSEG7E32FFV (Some MF_match_opcode) INSN_DREF;
    mk_opcode "th.vlseg7eff.v" 0 INSN_CLASS_XTHEADVECTOR "Vd,0(s)Vm" MATCH_VLSEG7E64FFV MASK_VLSEG7E64FFV (Some MF_match_opcode) INSN_DREF;
    mk_opcode "th.vlseg8bff.v" 0 INSN_CLASS_XTHEADVECTOR "Vd,0(s)Vm" MATCH_TH_VLSEG8BFFV MASK_TH_VLSEG8BFFV (Some MF_match_opcode) INSN_DREF;
    mk_opcode "th.vlseg8hff.v" 0 INSN_CLASS_XTHEADVECTOR "Vd,0(s)Vm" MATCH_TH_VLSEG8HFFV MASK_TH_VLSEG8HFFV (Some MF_match_opcode) INSN_DREF;
    mk_opcode "th.vlseg8wff.v" 0 INSN_CLASS_XTHEADVECTOR "Vd,0(s)Vm" MATCH_TH_VLSEG8WFFV MASK_TH_VLSEG8WFFV (Some MF_match_opcode) INSN_DREF;
    mk_opcode "th.vlseg8buff.v" 0 INSN_CLASS_XTHEADVECTOR "Vd,0(s)Vm" MATCH_VLSEG8E8FFV MASK_VLSEG8E8FFV (Some MF_match_opcode) INSN_DREF;
    mk_opcode "th.vlseg8huff.v" 0 INSN_CLASS_XTHEADVECTOR "Vd,0(s)Vm" MATCH_VLSEG8E16FFV MASK_VLSEG8E16FFV (Some MF_match_opcode) INSN_DREF;
    mk_opcode "th.vlseg8wuff.v" 0 INSN_CLASS_XTHEADVECTOR "Vd,0(s)Vm" MATCH_VLSEG8E32FFV MASK_VLSEG8E32FFV (Some MF_match_opcode) INSN_DREF;
    mk_opcode "th.vlseg8eff.v" 0 INSN_CLASS_XTHEADVECTOR "Vd,0(s)Vm" MATCH_VLSEG8E64FFV MASK_VLSEG8E64FFV (Some MF_match_opcode) INSN_DREF;
    mk_opcode "th.vamoaddw.v" 0 INSN_CLASS_XTHEADZVAMO "Ve,Vt,(s),VfVm" MATCH_TH_VAMOADDWV MASK_TH_VAMOADDWV (Some MF_match_opcode) INSN_DREF;
    mk_opcode "th.vamoaddd.v" 0 INSN_CLASS_XTHEADZVAMO "Ve,Vt,(s),VfVm" MATCH_TH_VAMOADDDV MASK_TH_VAMOADDDV (Some MF_match_opcode) INSN_DREF;
    mk_opcode "th.vamoswapw.v" 0 INSN_CLASS_XTHEADZVAMO "Ve,Vt,(s),VfVm" MATCH_TH_VAMOSWAPWV MASK_TH_VAMOSWAPWV (Some MF_match_opcode) INSN_DREF;
    mk_opcode "th.vamoswapd.v" 0 INSN_CLASS_XTHEADZVAMO "Ve,Vt,(s),VfVm" MATCH_TH_VAMOSWAPDV MASK_TH_VAMOSWAPDV (Some MF_match_opcode) INSN_DREF;
    mk_opcode "th.vamoxorw.v" 0 INSN_CLASS_XTHEADZVAMO "Ve,Vt,(s),VfVm" MATCH_TH_VAMOXORWV MASK_TH_VAMOXORWV (Some MF_match_opcode) INSN_DREF;
    mk_opcode "th.vamoxord.v" 0 INSN_CLASS_XTHEADZVAMO "Ve,Vt,(s),VfVm" MATCH_TH_VAMOXORDV MASK_TH_VAMOXORDV (Some MF_match_opcode) INSN_DREF;
    mk_opcode "th.vamoandw.v" 0 INSN_CLASS_XTHEADZVAMO "Ve,Vt,(s),VfVm" MATCH_TH_VAMOANDWV MASK_TH_VAMOANDWV (Some MF_match_opcode) INSN_DREF;
    mk_opcode "th.vamoandd.v" 0 INSN_CLASS_XTHEADZVAMO "Ve,Vt,(s),VfVm" MATCH_TH_VAMOANDDV MASK_TH_VAMOANDDV (Some MF_match_opcode) INSN_DREF;
    mk_opcode "th.vamoorw.v" 0 INSN_CLASS_XTHEADZVAMO "Ve,Vt,(s),VfVm" MATCH_TH_VAMOORWV MASK_TH_VAMOORWV (Some MF_match_opcode) INSN_DREF;
    mk_opcode "th.vamoord.v" 0 INSN_CLASS_XTHEADZVAMO "Ve,Vt,(s),VfVm" MATCH_TH_VAMOORDV MASK_TH_VAMOORDV (Some MF_match_opcode) INSN_DREF;
    mk_opcode "th.vamominw.v" 0 INSN_CLASS_XTHEADZVAMO "Ve,Vt,(s),VfVm" MATCH_TH_VAMOMINWV MASK_TH_VAMOMINWV (Some MF_match_opcode) INSN_DREF;
    mk_opcode "th.vamomind.v" 0 INSN_CLASS_XTHEADZVAMO "Ve,Vt,(s),VfVm" MATCH_TH_VAMOMINDV MASK_TH_VAMOMINDV (Some MF_match_opcode) INSN_DREF;
    mk_opcode "th.vamomaxw.v" 0 INSN_CLASS_XTHEADZVAMO "Ve,Vt,(s),VfVm" MATCH_TH_VAMOMAXWV MASK_TH_VAMOMAXWV (Some MF_match_opcode) INSN_DREF;
    mk_opcode "th.vamomaxd.v" 0 INSN_CLASS_XTHEADZVAMO "Ve,Vt,(s),VfVm" MATCH_TH_VAMOMAXDV MASK_TH_VAMOMAXDV (Some MF_match_opcode) INSN_DREF;
    mk_opcode "th.vamominuw.v" 0 INSN_CLASS_XTHEADZVAMO "Ve,Vt,(s),VfVm" MATCH_TH_VAMOMINUWV MASK_TH_VAMOMINUWV (Some MF_match_opcode) INSN_DREF;
    mk_opcode "th.vamominud.v" 0 INSN_CLASS_XTHEADZVAMO "Ve,Vt,(s),VfVm" MATCH_TH_VAMOMINUDV MASK_TH_VAMOMINUDV (Some MF_match_opcode) INSN_DREF ].

(** Lines 2593-2732. *)
Definition riscv_opcodes_17 : list riscv_opcode :=
  [ mk_opcode "th.vamomaxuw.v" 0 INSN_CLASS_XTHEADZVAMO "Ve,Vt,(s),VfVm" MATCH_TH_VAMOMAXUWV MASK_TH_VAMOMAXUWV (Some MF_match_opcode) INSN_DREF;
    mk_opcode "th.vamomaxud.v" 0 INSN_CLASS_XTHEADZVAMO "Ve,Vt,(s),VfVm" MATCH_TH_VAMOMAXUDV MASK_TH_VAMOMAXUDV (Some MF_match_opcode) INSN_DREF;
    mk_opcode "th.vneg.v" 0 INSN_CLASS_XTHEADVECTOR "Vd,VtVm" MATCH_VRSUBVX (MASK_VRSUBVX .| MASK_RS1) (Some MF_match_opcode) INSN_ALIAS;
    mk_opcode "th.vadd.vv" 0 INSN_CLASS_XTHEADVECTOR "Vd,Vt,VsVm" MATCH_VADDVV MASK_VADDVV (Some MF_match_opcode) 0;
    mk_opcode "th.vadd.vx" 0 INSN_CLASS_XTHEADVECTOR "Vd,Vt,sVm" MATCH_VADDVX MASK_VADDVX (Some MF_match_opcode) 0;
    mk_opcode "th.vadd.vi" 0 INSN_CLASS_XTHEADVECTOR "Vd,Vt,ViVm" MATCH_VADDVI MASK_VADDVI (Some MF_match_opcode) 0;
    mk_opcode "th.vsub.vv" 0 INSN_CLASS_XTHEADVECTOR "Vd,Vt,VsVm" MATCH_VSUBVV MASK_VSUBVV (Some MF_match_opcode) 0;
    mk_opcode "th.vsub.vx" 0 INSN_CLASS_XTHEADVECTOR "Vd,Vt,sVm" MATCH_VSUBVX MASK_VSUBVX (Some MF_match_opcode) 0;
    mk_opcode "th.vrsub.vx" 0 INSN_CLASS_XTHEADVECTOR "Vd,Vt,sVm" MATCH_VRSUBVX MASK_VRSUBVX (Some MF_match_opcode) 0;
    mk_opcode "th.vrsub.vi" 0 INSN_CLASS_XTHEADVECTOR "Vd,Vt,ViVm" MATCH_VRSUBVI MASK_VRSUBVI (Some MF_match_opcode) 0;
    mk_opcode "th.vwcvt.x.x.v" 0 INSN_CLASS_XTHEADVECTOR "Vd,VtVm" MATCH_VWCVTXXV MASK_VWCVTXXV (Some MF_match_opcode) INSN_ALIAS;
    mk_opcode "th.vwcvtu.x.x.v" 0 INSN_CLASS_XTHEADVECTOR "Vd,VtVm" MATCH_VWCVTUXXV MASK_VWCVTUXXV (Some MF_match_opcode) INSN_ALIAS;
    mk_opcode "th.vwaddu.vv" 0 INSN_CLASS_XTHEADVECTOR "Vd,Vt,VsVm" MATCH_VWADDUVV MASK_VWADDUVV (Some MF_match_opcode) 0;
    mk_opcode "th.vwaddu.vx" 0 INSN_CLASS_XTHEADVECTOR "Vd,Vt,sVm" MATCH_VWADDUVX MASK_VWADDUVX (Some MF_match_opcode) 0;
    mk_opcode "th.vwsubu.vv" 0 INSN_CLASS_XTHEADVECTOR "Vd,Vt,VsVm" MATCH_VWSUBUVV MASK_VWSUBUVV (Some MF_match_opcode) 0;
    mk_opcode "th.vwsubu.vx" 0 INSN_CLASS_XTHEADVECTOR "Vd,Vt,sVm" MATCH_VWSUBUVX MASK_VWSUBUVX (Some MF_match_opcode) 0;
    mk_opcode "th.vwadd.vv" 0 INSN_CLASS_XTHEADVECTOR "Vd,Vt,VsVm" MATCH_VWADDVV MASK_VWADDVV (Some MF_match_opcode) 0;
    mk_opcode "th.vwadd.vx" 0 INSN_CLASS_XTHEADVECTOR "Vd,Vt,sVm" MATCH_VWADDVX MASK_VWADDVX (Some MF_match_opcode) 0;
    mk_opcode "th.vwsub.vv" 0 INSN_CLASS_XTHEADVECTOR "Vd,Vt,VsVm" MATCH_VWSUBVV MASK_VWSUBVV (Some MF_match_opcode) 0;
    mk_opcode "th.vwsub.vx" 0 INSN_CLASS_XTHEADVECTOR "Vd,Vt,sVm" MATCH_VWSUBVX MASK_VWSUBVX (Some MF_match_opcode) 0;
    mk_opcode "th.vwaddu.wv" 0 INSN_CLASS_XTHEADVECTOR "Vd,Vt,VsVm" MATCH_VWADDUWV MASK_VWADDUWV (Some MF_match_opcode) 0;
    mk_opcode "th.vwaddu.wx" 0 INSN_CLASS_XTHEADVECTOR "Vd,Vt,sVm" MATCH_VWADDUWX MASK_VWADDUWX (Some MF_match_opcode) 0;
    mk_opcode "th.vwsubu.wv" 0 INSN_CLASS_XTHEADVECTOR "Vd,Vt,VsVm" MATCH_VWSUBUWV MASK_VWSUBUWV (Some MF_match_opcode) 0;
    mk_opcode "th.vwsubu.wx" 0 INSN_CLASS_XTHEADVECTOR "Vd,Vt,sVm" MATCH_VWSUBUWX MASK_VWSUBUWX (Some MF_match_opcode) 0;
    mk_opcode "th.vwadd.wv" 0 INSN_CLASS_XTHEADVECTOR "Vd,Vt,VsVm" MATCH_VWADDWV MASK_VWADDWV (Some MF_match_opcode) 0;
    mk_opcode "th.vwadd.wx" 0 INSN_CLASS_XTHEADVECTOR "Vd,Vt,sVm" MATCH_VWADDWX MASK_VWADDWX (Some MF_match_opcode) 0;
    mk_opcode "th.vwsub.wv" 0 INSN_CLASS_XTHEADVECTOR "Vd,Vt,VsVm" MATCH_VWSUBWV MASK_VWSUBWV (Some MF_match_opcode) 0;
    mk_opcode "th.vwsub.wx" 0 INSN_CLASS_XTHEADVECTOR "Vd,Vt,sVm" MATCH_VWSUBWX MASK_VWSUBWX (Some MF_match_opcode) 0;
    mk_opcode "th.vadc.vvm" 0 INSN_CLASS_XTHEADVECTOR "Vd,Vt,Vs,V0" MATCH_TH_VADCVVM MASK_TH_VADCVVM (Some MF_match_opcode) 0;
    mk_opcode "th.vadc.vxm" 0 INSN_CLASS_XTHEADVECTOR "Vd,Vt,s,V0" MATCH_TH_VADCVXM MASK_TH_VADCVXM (Some MF_match_opcode) 0;
    mk_opcode "th.vadc.vim" 0 INSN_CLASS_XTHEADVECTOR "Vd,Vt,Vi,V0" MATCH_TH_VADCVIM MASK_TH_VADCVIM (Some MF_match_opcode) 0;
    mk_opcode "th.vmadc.vvm" 0 INSN_CLASS_XTHEADVECTOR "Vd,Vt,Vs,V0" MATCH_VMADCVV MASK_VMADCVV (Some MF_match_opcode) 0;
    mk_opcode "th.vmadc.vxm" 0 INSN_CLASS_XTHEADVECTOR "Vd,Vt,s,V0" MATCH_VMADCVX MASK_VMADCVX (Some MF_match_opcode) 0;
    mk_opcode "th.vmadc.vim" 0 INSN_CLASS_XTHEADVECTOR "Vd,Vt,Vi,V0" MATCH_VMADCVI MASK_VMADCVI (Some MF_match_opcode) 0;
    mk_opcode "th.vsbc.vvm" 0 INSN_CLASS_XTHEADVECTOR "Vd,Vt,Vs,V0" MATCH_TH_VSBCVVM MASK_TH_VSBCVVM (Some MF_match_opcode) 0;
    mk_opcode "th.vsbc.vxm" 0 INSN_CLASS_XTHEADVECTOR "Vd,Vt,s,V0" MATCH_TH_VSBCVXM MASK_TH_VSBCVXM (Some MF_match_opcode) 0;
    mk_opcode "th.vmsbc.vvm" 0 INSN_CLASS_XTHEADVECTOR "Vd,Vt,Vs,V0" MATCH_VMSBCVV MASK_VMSBCVV (Some MF_match_opcode) 0;
    mk_opcode "th.vmsbc.vxm" 0 INSN_CLASS_XTHEADVECTOR "Vd,Vt,s,V0" MATCH_VMSBCVX MASK_VMSBCVX (Some MF_match_opcode) 0;
    mk_opcode "th.vnot.v" 0 INSN_CLASS_XTHEADVECTOR "Vd,VtVm" MATCH_VNOTV MASK_VNOTV (Some MF_match_opcode) INSN_ALIAS;
    mk_opcode "th.vand.vv" 0 INSN_CLASS_XTHEADVECTOR "Vd,Vt,VsVm" MATCH_VANDVV MASK_VANDVV (Some MF_match_opcode) 0;
    mk_opcode "th.vand.vx" 0 INSN_CLASS_XTHEADVECTOR "Vd,Vt,sVm" MATCH_VANDVX MASK_VANDVX (Some MF_match_opcode) 0;
    mk_opcode "th.vand.vi" 0 INSN_CLASS_XTHEADVECTOR "Vd,Vt,ViVm" MATCH_VANDVI MASK_VANDVI (Some MF_match_opcode) 0;
    mk_opcode "th.vor.vv" 0 INSN_CLASS_XTHEADVECTOR "Vd,Vt,VsVm" MATCH_VORVV MASK_VORVV (Some MF_match_opcode) 0;
    mk_opcode "th.vor.vx" 0 INSN_CLASS_XTHEADVECTOR "Vd,Vt,sVm" MATCH_VORVX MASK_VORVX (Some MF_match_opcode) 0;
    mk_opcode "th.vor.vi" 0 INSN_CLASS_XTHEADVECTOR "Vd,Vt,ViVm" MATCH_VORVI MASK_VORVI (Some MF_match_opcode) 0;
    mk_opcode "th.vxor.vv" 0 INSN_CLASS_XTHEADVECTOR "Vd,Vt,VsVm" MATCH_VXORVV MASK_VXORVV (Some MF_match_opcode) 0;
    mk_opcode "th.vxor.vx" 0 INSN_CLASS_XTHEADVECTOR "Vd,Vt,sVm" MATCH_VXORVX MASK_VXORVX (Some MF_match_opcode) 0;
    mk_opcode "th.vxor.vi" 0 INSN_CLASS_XTHEADVECTOR "Vd,Vt,ViVm" MATCH_VXORVI MASK_VXORVI (Some MF_match_opcode) 0;
    mk_opcode "th.vsll.vv" 0 INSN_CLASS_XTHEADVECTOR "Vd,Vt,VsVm" MATCH_VSLLVV MASK_VSLLVV (Some MF_match_opcode) 0;
    mk_opcode "th.vsll.vx" 0 INSN_CLASS_XTHEADVECTOR "Vd,Vt,sVm" MATCH_VSLLVX MASK_VSLLVX (Some MF_match_opcode) 0;
    mk_opcode "th.vsll.vi" 0 INSN_CLASS_XTHEADVECTOR "Vd,Vt,VjVm" MATCH_VSLLVI MASK_VSLLVI (Some MF_match_opcode) 0;
    mk_opcode "th.vsrl.vv" 0 INSN_CLASS_XTHEADVECTOR "Vd,Vt,VsVm" MATCH_VSRLVV MASK_VSRLVV (Some MF_match_opcode) 0;
    mk_opcode "th.vsrl.vx" 0 INSN_CLASS_XTHEADVECTOR "Vd,Vt,sVm" MATCH_VSRLVX MASK_VSRLVX (Some MF_match_opcode) 0;
    mk_opcode "th.vsrl.vi" 0 INSN_CLASS_XTHEADVECTOR "Vd,Vt,VjVm" MATCH_VSRLVI MASK_VSRLVI (Some MF_match_opcode) 0;
    mk_opcode "th.vsra.vv" 0 INSN_CLASS_XTHEADVECTOR "Vd,Vt,VsVm" MATCH_VSRAVV MASK_VSRAVV (Some MF_match_opcode) 0;
    mk_opcode "th.vsra.vx" 0 INSN_CLASS_XTHEADVECTOR "Vd,Vt,sVm" MATCH_VSRAVX MASK_VSRAVX (Some MF_match_opcode) 0;
    mk_opcode "th.vsra.vi" 0 INSN_CLASS_XTHEADVECTOR "Vd,Vt,VjVm" MATCH_VSRAVI MASK_VSRAVI (Some MF_match_opcode) 0;
    mk_opcode "th.vncvt.x.x.v" 0 INSN_CLASS_XTHEADVECTOR "Vd,VtVm" MATCH_VNCVTXXW MASK_VNCVTXXW (Some MF_match_opcode) INSN_ALIAS;
    mk_opcode "th.vnsrl.vv" 0 INSN_CLASS_XTHEADVECTOR "Vd,Vt,VsVm" MATCH_VNSRLWV MASK_VNSRLWV (Some MF_match_opcode) 0;
    mk_opcode "th.vnsrl.vx" 0 INSN_CLASS_XTHEADVECTOR "Vd,Vt,sVm" MATCH_VNSRLWX MASK_VNSRLWX (Some MF_match_opcode) 0;
    mk_opcode "th.vnsrl.vi" 0 INSN_CLASS_XTHEADVECTOR "Vd,Vt,VjVm" MATCH_VNSRLWI MASK_VNSRLWI (Some MF_match_opcode) 0;
    mk_opcode "th.vnsra.vv" 0 INSN_CLASS_XTHEADVECTOR "Vd,Vt,VsVm" MATCH_VNSRAWV MASK_VNSRAWV (Some MF_match_opcode) 0;
    mk_opcode "th.vnsra.vx" 0 INSN_CLASS_XTHEADVECTOR "Vd,Vt,sVm" MATCH_VNSRAWX MASK_VNSRAWX (Some MF_match_opcode) 0;
    mk_opcode "th.vnsra.vi" 0 INSN_CLASS_XTHEADVECTOR "Vd,Vt,VjVm" MATCH_VNSRAWI MASK_VNSRAWI (Some MF_match_opcode) 0;
    mk_opcode "th.vmseq.vv" 0 INSN_CLASS_XTHEADVECTOR "Vd,Vt,VsVm" MATCH_VMSEQVV MASK_VMSEQVV (Some MF_match_opcode) 0;
    mk_opcode "th.vmseq.vx" 0 INSN_CLASS_XTHEADVECTOR "Vd,Vt,sVm" MATCH_VMSEQVX MASK_VMSEQVX (Some MF_match_opcode) 0;
    mk_opcode "th.vmseq.vi" 0 INSN_CLASS_XTHEADVECTOR "Vd,Vt,ViVm" MATCH_VMSEQVI MASK_VMSEQVI (Some MF_match_opcode) 0;
    mk_opcode "th.vmsne.vv" 0 INSN_CLASS_XTHEADVECTOR "Vd,Vt,VsVm" MATCH_VMSNEVV MASK_VMSNEVV (Some MF_match_opcode) 0;
    mk_opcode "th.vmsne.vx" 0 INSN_CLASS_XTHEADVECTOR "Vd,Vt,sVm" MATCH_VMSNEVX MASK_VMSNEVX (Some MF_match_opcode) 0;
    mk_opcode "th.vmsne.vi" 0 INSN_CLASS_XTHEADVECTOR "Vd,Vt,ViVm" MATCH_VMSNEVI MASK_VMSNEVI (Some MF_match_opcode) 0;
    mk_opcode "th.vmsltu.vv" 0 INSN_CLASS_XTHEADVECTOR "Vd,Vt,VsVm" MATCH_VMSLTUVV MASK_VMSLTUVV (Some MF_match_opcode) 0;
    mk_opcode "th.vmsltu.vx" 0 INSN_CLASS_XTHEADVECTOR "Vd,Vt,sVm" MATCH_VMSLTUVX MASK_VMSLTUVX (Some MF_match_opcode) 0;
    mk_opcode "th.vmslt.vv" 0 INSN_CLASS_XTHEADVECTOR "Vd,Vt,VsVm" MATCH_VMSLTVV MASK_VMSLTVV (Some MF_match_opcode) 0;
    mk_opcode "th.vmslt.vx" 0 INSN_CLASS_XTHEADVECTOR "Vd,Vt,sVm" MATCH_VMSLTVX MASK_VMSLTVX (Some MF_match_opcode) 0;
    mk_opcode "th.vmsleu.vv" 0 INSN_CLASS_XTHEADVECTOR "Vd,Vt,VsVm" MATCH_VMSLEUVV MASK_VMSLEUVV (Some MF_match_opcode) 0;
    mk_opcode "th.vmsleu.vx" 0 INSN_CLASS_XTHEADVECTOR "Vd,Vt,sVm" MATCH_VMSLEUVX MASK_VMSLEUVX (Some MF_match_opcode) 0;
    mk_opcode "th.vmsleu.vi" 0 INSN_CLASS_XTHEADVECTOR "Vd,Vt,ViVm" MATCH_VMSLEUVI MASK_VMSLEUVI (Some MF_match_opcode) 0;
    mk_opcode "th.vmsle.vv" 0 INSN_CLASS_XTHEADVECTOR "Vd,Vt,VsVm" MATCH_VMSLEVV MASK_VMSLEVV (Some MF_match_opcode) 0;
    mk_opcode "th.vmsle.vx" 0 INSN_CLASS_XTHEADVECTOR "Vd,Vt,sVm" MATCH_VMSLEVX MASK_VMSLEVX (Some MF_match_opcode) 0;
    mk_opcode "th.vmsle.vi" 0 INSN_CLASS_XTHEADVECTOR "Vd,Vt,ViVm" MATCH_VMSLEVI MASK_VMSLEVI (Some MF_match_opcode) 0;
    mk_opcode "th.vmsgtu.vx" 0 INSN_CLASS_XTHEADVECTOR "Vd,Vt,sVm" MATCH_VMSGTUVX MASK_VMSGTUVX (Some MF_match_opcode) 0;
    mk_opcode "th.vmsgtu.vi" 0 INSN_CLASS_XTHEADVECTOR "Vd,Vt,ViVm" MATCH_VMSGTUVI MASK_VMSGTUVI (Some MF_match_opcode) 0;
    mk_opcode "th.vmsgt.vx" 0 INSN_CLASS_XTHEADVECTOR "Vd,Vt,sVm" MATCH_VMSGTVX MASK_VMSGTVX (Some MF_match_opcode) 0;
    mk_opcode "th.vmsgt.vi" 0 INSN_CLASS_XTHEADVECTOR "Vd,Vt,ViVm" MATCH_VMSGTVI MASK_VMSGTVI (Some MF_match_opcode) 0;
    mk_opcode "th.vmsgt.vv" 0 INSN_CLASS_XTHEADVECTOR "Vd,Vs,VtVm" MATCH_VMSLTVV MASK_VMSLTVV (Some MF_match_opcode) INSN_ALIAS;
    mk_opcode "th.vmsgtu.vv" 0 INSN_CLASS_XTHEADVECTOR "Vd,Vs,VtVm" MATCH_VMSLTUVV MASK_VMSLTUVV (Some MF_match_opcode) INSN_ALIAS;
    mk_opcode "th.vmsge.vv" 0 INSN_CLASS_XTHEADVECTOR "Vd,Vs,VtVm" MATCH_VMSLEVV MASK_VMSLEVV (Some MF_match_opcode) INSN_ALIAS;
    mk_opcode "th.vmsgeu.vv" 0 INSN_CLASS_XTHEADVECTOR "Vd,Vs,VtVm" MATCH_VMSLEUVV MASK_VMSLEUVV (Some MF_match_opcode) INSN_ALIAS;
    mk_opcode "th.vmslt.vi" 0 INSN_CLASS_XTHEADVECTOR "Vd,Vt,VkVm" MATCH_VMSLEVI MASK_VMSLEVI (Some MF_match_opcode) INSN_ALIAS;
    mk_opcode "th.vmsltu.vi" 0 INSN_CLASS_XTHEADVECTOR "Vd,Vt,VkVm" MATCH_VMSLEUVI MASK_VMSLEUVI (Some MF_match_opcode) INSN_ALIAS;
    mk_opcode "th.vmsge.vi" 0 INSN_CLASS_XTHEADVECTOR "Vd,Vt,VkVm" MATCH_VMSGTVI MASK_VMSGTVI (Some MF_match_opcode) INSN_ALIAS;
    mk_opcode "th.vmsgeu.vi" 0 INSN_CLASS_XTHEADVECTOR "Vd,Vt,VkVm" MATCH_VMSGTUVI MASK_VMSGTUVI (Some MF_match_opcode) INSN_ALIAS;
    mk_opcode "th.vmsge.vx" 0 INSN_CLASS_XTHEADVECTOR "Vd,Vt,sVm" 0 M_VMSGE None INSN_MACRO;
    mk_opcode "th.vmsge.vx" 0 INSN_CLASS_XTHEADVECTOR "Vd,Vt,s,VM,VT" 0 M_VMSGE None INSN_MACRO;
    mk_opcode "th.vmsgeu.vx" 0 INSN_CLASS_XTHEADVECTOR "Vd,Vt,sVm" 1 M_VMSGE None INSN_MACRO;
    mk_opcode "th.vmsgeu.vx" 0 INSN_CLASS_XTHEADVECTOR "Vd,Vt,s,VM,VT" 1 M_VMSGE None INSN_MACRO;
    mk_opcode "th.vminu.vv" 0 INSN_CLASS_XTHEADVECTOR "Vd,Vt,VsVm" MATCH_VMINUVV MASK_VMINUVV (Some MF_match_opcode) 0;
    mk_opcode "th.vminu.vx" 0 INSN_CLASS_XTHEADVECTOR "Vd,Vt,sVm" MATCH_VMINUVX MASK_VMINUVX (Some MF_match_opcode) 0;
    mk_opcode "th.vmin.vv" 0 INSN_CLASS_XTHEADVECTOR "Vd,Vt,VsVm" MATCH_VMINVV MASK_VMINVV (Some MF_match_opcode) 0;
    mk_opcode "th.vmin.vx" 0 INSN_CLASS_XTHEADVECTOR "Vd,Vt,sVm" MATCH_VMINVX MASK_VMINVX (Some MF_match_opcode) 0;
    mk_opcode "th.vmaxu.vv" 0 INSN_CLASS_XTHEADVECTOR "Vd,Vt,VsVm" MATCH_VMAXUVV MASK_VMAXUVV (Some MF_match_opcode) 0;
    mk_opcode "th.vmaxu.vx" 0 INSN_CLASS_XTHEADVECTOR "Vd,Vt,sVm" MATCH_VMAXUVX MASK_VMAXUVX (Some MF_match_opcode) 0;
    mk_opcode "th.vmax.vv" 0 INSN_CLASS_XTHEADVECTOR "Vd,Vt,VsVm" MATCH_VMAXVV MASK_VMAXVV (Some MF_match_opcode) 0;
    mk_opcode "th.vmax.vx" 0 INSN_CLASS_XTHEADVECTOR "Vd,Vt,sVm" MATCH_VMAXVX MASK_VMAXVX (Some MF_match_opcode) 0;
    mk_opcode "th.vmul.vv" 0 INSN_CLASS_XTHEADVECTOR "Vd,Vt,VsVm" MATCH_VMULVV MASK_VMULVV (Some MF_match_opcode) 0;
    mk_opcode "th.vmul.vx" 0 INSN_CLASS_XTHEADVECTOR "Vd,Vt,sVm" MATCH_VMULVX MASK_VMULVX (Some MF_match_opcode) 0;
    mk_opcode "th.vmulh.vv" 0 INSN_CLASS_XTHEADVECTOR "Vd,Vt,VsVm" MATCH_VMULHVV MASK_VMULHVV (Some MF_match_opcode) 0;
    mk_opcode "th.vmulh.vx" 0 INSN_CLASS_XTHEADVECTOR "Vd,Vt,sVm" MATCH_VMULHVX MASK_VMULHVX (Some MF_match_opcode) 0;
    mk_opcode "th.vmulhu.vv" 0 INSN_CLASS_XTHEADVECTOR "Vd,Vt,VsVm" MATCH_VMULHUVV MASK_VMULHUVV (Some MF_match_opcode) 0;
    mk_opcode "th.vmulhu.vx" 0 INSN_CLASS_XTHEADVECTOR "Vd,Vt,sVm" MATCH_VMULHUVX MASK_VMULHUVX (Some MF_match_opcode) 0;
    mk_opcode "th.vmulhsu.vv" 0 INSN_CLASS_XTHEADVECTOR "Vd,Vt,VsVm" MATCH_VMULHSUVV MASK_VMULHSUVV (Some MF_match_opcode) 0;
    mk_opcode "th.vmulhsu.vx" 0 INSN_CLASS_XTHEADVECTOR "Vd,Vt,sVm" MATCH_VMULHSUVX MASK_VMULHSUVX (Some MF_match_opcode) 0;
    mk_opcode "th.vwmul.vv" 0 INSN_CLASS_XTHEADVECTOR "Vd,Vt,VsVm" MATCH_VWMULVV MASK_VWMULVV (Some MF_match_opcode) 0;
    mk_opcode "th.vwmul.vx" 0 INSN_CLASS_XTHEADVECTOR "Vd,Vt,sVm" MATCH_VWMULVX MASK_VWMULVX (Some MF_match_opcode) 0;
    mk_opcode "th.vwmulu.vv" 0 INSN_CLASS_XTHEADVECTOR "Vd,Vt,VsVm" MATCH_VWMULUVV MASK_VWMULUVV (Some MF_match_opcode) 0;
    mk_opcode "th.vwmulu.vx" 0 INSN_CLASS_XTHEADVECTOR "Vd,Vt,sVm" MATCH_VWMULUVX MASK_VWMULUVX (Some MF_match_opcode) 0;
    mk_opcode "th.vwmulsu.vv" 0 INSN_CLASS_XTHEADVECTOR "Vd,Vt,VsVm" MATCH_VWMULSUVV MASK_VWMULSUVV (Some MF_match_opcode) 0;
    mk_opcode "th.vwmulsu.vx" 0 INSN_CLASS_XTHEADVECTOR "Vd,Vt,sVm" MATCH_VWMULSUVX MASK_VWMULSUVX (Some MF_match_opcode) 0;
    mk_opcode "th.vmacc.vv" 0 INSN_CLASS_XTHEADVECTOR "Vd,Vs,VtVm" MATCH_VMACCVV MASK_VMACCVV (Some MF_match_opcode) 0;
    mk_opcode "th.vmacc.vx" 0 INSN_CLASS_XTHEADVECTOR "Vd,s,VtVm" MATCH_VMACCVX MASK_VMACCVX (Some MF_match_opcode) 0;
    mk_opcode "th.vnmsac.vv" 0 INSN_CLASS_XTHEADVECTOR "Vd,Vs,VtVm" MATCH_VNMSACVV MASK_VNMSACVV (Some MF_match_opcode) 0;
    mk_opcode "th.vnmsac.vx" 0 INSN_CLASS_XTHEADVECTOR "Vd,s,VtVm" MATCH_VNMSACVX MASK_VNMSACVX (Some MF_match_opcode) 0;
    mk_opcode "th.vmadd.vv" 0 INSN_CLASS_XTHEADVECTOR "Vd,Vs,VtVm" MATCH_VMADDVV MASK_VMADDVV (Some MF_match_opcode) 0;
    mk_opcode "th.vmadd.vx" 0 INSN_CLASS_XTHEADVECTOR "Vd,s,VtVm" MATCH_VMADDVX MASK_VMADDVX (Some MF_match_opcode) 0;
    mk_opcode "th.vnmsub.vv" 0 INSN_CLASS_XTHEADVECTOR "Vd,Vs,VtVm" MATCH_VNMSUBVV MASK_VNMSUBVV (Some MF_match_opcode) 0;
    mk_opcode "th.vnmsub.vx" 0 INSN_CLASS_XTHEADVECTOR "Vd,s,VtVm" MATCH_VNMSUBVX MASK_VNMSUBVX (Some MF_match_opcode) 0;
    mk_opcode "th.vwmaccu.vv" 0 INSN_CLASS_XTHEADVECTOR "Vd,Vs,VtVm" MATCH_VWMACCUVV MASK_VWMACCUVV (Some MF_match_opcode) 0;
    mk_opcode "th.vwmaccu.vx" 0 INSN_CLASS_XTHEADVECTOR "Vd,s,VtVm" MATCH_VWMACCUVX MASK_VWMACCUVX (Some MF_match_opcode) 0;
    mk_opcode "th.vwmacc.vv" 0 INSN_CLASS_XTHEADVECTOR "Vd,Vs,VtVm" MATCH_VWMACCVV MASK_VWMACCVV (Some MF_match_opcode) 0;
    mk_opcode "th.vwmacc.vx" 0 INSN_CLASS_XTHEADVECTOR "Vd,s,VtVm" MATCH_VWMACCVX MASK_VWMACCVX (Some MF_match_opcode) 0;
    mk_opcode "th.vwmaccsu.vv" 0 INSN_CLASS_XTHEADVECTOR "Vd,Vs,VtVm" MATCH_TH_VWMACCSUVV MASK_TH_VWMACCSUVV (Some MF_match_opcode) 0;
    mk_opcode "th.vwmaccsu.vx" 0 INSN_CLASS_XTHEADVECTOR "Vd,s,VtVm" MATCH_VWMACCUSVX MASK_VWMACCUSVX (Some MF_match_opcode) 0;
    mk_opcode "th.vwmaccus.vx" 0 INSN_CLASS_XTHEADVECTOR "Vd,s,VtVm" MATCH_VWMACCSUVX MASK_VWMACCSUVX (Some MF_match_opcode) 0;
    mk_opcode "th.vdivu.vv" 0 INSN_CLASS_XTHEADVECTOR "Vd,Vt,VsVm" MATCH_VDIVUVV MASK_VDIVUVV (Some MF_match_opcode) 0;
    mk_opcode "th.vdivu.vx" 0 INSN_CLASS_XTHEADVECTOR "Vd,Vt,sVm" MATCH_VDIVUVX MASK_VDIVUVX (Some MF_match_opcode) 0;
    mk_opcode "th.vdiv.vv" 0 INSN_CLASS_XTHEADVECTOR "Vd,Vt,VsVm" MATCH_VDIVVV MASK_VDIVVV (Some MF_match_opcode) 0;
    mk_opcode "th.vdiv.vx" 0 INSN_CLASS_XTHEADVECTOR "Vd,Vt,sVm" MATCH_VDIVVX MASK_VDIVVX (Some MF_match_opcode) 0;
    mk_opcode "th.vremu.vv" 0 INSN_CLASS_XTHEADVECTOR "Vd,Vt,VsVm" MATCH_VREMUVV MASK_VREMUVV (Some MF_match_opcode) 0;
    mk_opcode "th.vremu.vx" 0 INSN_CLASS_XTHEADVECTOR "Vd,Vt,sVm" MATCH_VREMUVX MASK_VREMUVX (Some MF_match_opcode) 0;
    mk_opcode "th.vrem.vv" 0 INSN_CLASS_XTHEADVECTOR "Vd,Vt,VsVm" MATCH_VREMVV MASK_VREMVV (Some MF_match_opcode) 0 ].

(** Lines 2733-2872. *)
Definition riscv_opcodes_18 : list riscv_opcode :=
  [ mk_opcode "th.vrem.vx" 0 INSN_CLASS_XTHEADVECTOR "Vd,Vt,sVm" MATCH_VREMVX MASK_VREMVX (Some MF_match_opcode) 0;
    mk_opcode "th.vmerge.vvm" 0 INSN_CLASS_XTHEADVECTOR "Vd,Vt,Vs,V0" MATCH_VMERGEVVM MASK_VMERGEVVM (Some MF_match_opcode) 0;
    mk_opcode "th.vmerge.vxm" 0 INSN_CLASS_XTHEADVECTOR "Vd,Vt,s,V0" MATCH_VMERGEVXM MASK_VMERGEVXM (Some MF_match_opcode) 0;
    mk_opcode "th.vmerge.vim" 0 INSN_CLASS_XTHEADVECTOR "Vd,Vt,Vi,V0" MATCH_VMERGEVIM MASK_VMERGEVIM (Some MF_match_opcode) 0;
    mk_opcode "th.vmv.v.v" 0 INSN_CLASS_XTHEADVECTOR "Vd,Vs" MATCH_VMVVV MASK_VMVVV (Some MF_match_opcode) 0;
    mk_opcode "th.vmv.v.x" 0 INSN_CLASS_XTHEADVECTOR "Vd,s" MATCH_VMVVX MASK_VMVVX (Some MF_match_opcode) 0;
    mk_opcode "th.vmv.v.i" 0 INSN_CLASS_XTHEADVECTOR "Vd,Vi" MATCH_VMVVI MASK_VMVVI (Some MF_match_opcode) 0;
    mk_opcode "th.vsaddu.vv" 0 INSN_CLASS_XTHEADVECTOR "Vd,Vt,VsVm" MATCH_VSADDUVV MASK_VSADDUVV (Some MF_match_opcode) 0;
    mk_opcode "th.vsaddu.vx" 0 INSN_CLASS_XTHEADVECTOR "Vd,Vt,sVm" MATCH_VSADDUVX MASK_VSADDUVX (Some MF_match_opcode) 0;
    mk_opcode "th.vsaddu.vi" 0 INSN_CLASS_XTHEADVECTOR "Vd,Vt,ViVm" MATCH_VSADDUVI MASK_VSADDUVI (Some MF_match_opcode) 0;
    mk_opcode "th.vsadd.vv" 0 INSN_CLASS_XTHEADVECTOR "Vd,Vt,VsVm" MATCH_VSADDVV MASK_VSADDVV (Some MF_match_opcode) 0;
    mk_opcode "th.vsadd.vx" 0 INSN_CLASS_XTHEADVECTOR "Vd,Vt,sVm" MATCH_VSADDVX MASK_VSADDVX (Some MF_match_opcode) 0;
    mk_opcode "th.vsadd.vi" 0 INSN_CLASS_XTHEADVECTOR "Vd,Vt,ViVm" MATCH_VSADDVI MASK_VSADDVI (Some MF_match_opcode) 0;
    mk_opcode "th.vssubu.vv" 0 INSN_CLASS_XTHEADVECTOR "Vd,Vt,VsVm" MATCH_VSSUBUVV MASK_VSSUBUVV (Some MF_match_opcode) 0;
    mk_opcode "th.vssubu.vx" 0 INSN_CLASS_XTHEADVECTOR "Vd,Vt,sVm" MATCH_VSSUBUVX MASK_VSSUBUVX (Some MF_match_opcode) 0;
    mk_opcode "th.vssub.vv" 0 INSN_CLASS_XTHEADVECTOR "Vd,Vt,VsVm" MATCH_VSSUBVV MASK_VSSUBVV (Some MF_match_opcode) 0;
    mk_opcode "th.vssub.vx" 0 INSN_CLASS_XTHEADVECTOR "Vd,Vt,sVm" MATCH_VSSUBVX MASK_VSSUBVX (Some MF_match_opcode) 0;
    mk_opcode "th.vaadd.vv" 0 INSN_CLASS_XTHEADVECTOR "Vd,Vt,VsVm" MATCH_TH_VAADDVV MASK_TH_VAADDVV (Some MF_match_opcode) 0;
    mk_opcode "th.vaadd.vx" 0 INSN_CLASS_XTHEADVECTOR "Vd,Vt,sVm" MATCH_TH_VAADDVX MASK_TH_VAADDVX (Some MF_match_opcode) 0;
    mk_opcode "th.vaadd.vi" 0 INSN_CLASS_XTHEADVECTOR "Vd,Vt,ViVm" MATCH_TH_VAADDVI MASK_TH_VAADDVI (Some MF_match_opcode) 0;
    mk_opcode "th.vasub.vv" 0 INSN_CLASS_XTHEADVECTOR "Vd,Vt,VsVm" MATCH_TH_VASUBVV MASK_TH_VASUBVV (Some MF_match_opcode) 0;
    mk_opcode "th.vasub.vx" 0 INSN_CLASS_XTHEADVECTOR "Vd,Vt,sVm" MATCH_TH_VASUBVX MASK_TH_VASUBVX (Some MF_match_opcode) 0;
    mk_opcode "th.vsmul.vv" 0 INSN_CLASS_XTHEADVECTOR "Vd,Vt,VsVm" MATCH_VSMULVV MASK_VSMULVV (Some MF_match_opcode) 0;
    mk_opcode "th.vsmul.vx" 0 INSN_CLASS_XTHEADVECTOR "Vd,Vt,sVm" MATCH_VSMULVX MASK_VSMULVX (Some MF_match_opcode) 0;
    mk_opcode "th.vwsmaccu.vv" 0 INSN_CLASS_XTHEADVECTOR "Vd,Vs,VtVm" MATCH_VQMACCUVV MASK_VQMACCUVV (Some MF_match_opcode) 0;
    mk_opcode "th.vwsmaccu.vx" 0 INSN_CLASS_XTHEADVECTOR "Vd,s,VtVm" MATCH_VQMACCUVX MASK_VQMACCUVX (Some MF_match_opcode) 0;
    mk_opcode "th.vwsmacc.vv" 0 INSN_CLASS_XTHEADVECTOR "Vd,Vs,VtVm" MATCH_VQMACCVV MASK_VQMACCVV (Some MF_match_opcode) 0;
    mk_opcode "th.vwsmacc.vx" 0 INSN_CLASS_XTHEADVECTOR "Vd,s,VtVm" MATCH_VQMACCVX MASK_VQMACCVX (Some MF_match_opcode) 0;
    mk_opcode "th.vwsmaccsu.vv" 0 INSN_CLASS_XTHEADVECTOR "Vd,Vs,VtVm" MATCH_TH_VWSMACCSUVV MASK_TH_VWSMACCSUVV (Some MF_match_opcode) 0;
    mk_opcode "th.vwsmaccsu.vx" 0 INSN_CLASS_XTHEADVECTOR "Vd,s,VtVm" MATCH_VQMACCUSVX MASK_VQMACCUSVX (Some MF_match_opcode) 0;
    mk_opcode "th.vwsmaccus.vx" 0 INSN_CLASS_XTHEADVECTOR "Vd,s,VtVm" MATCH_VQMACCSUVX MASK_VQMACCSUVX (Some MF_match_opcode) 0;
    mk_opcode "th.vssrl.vv" 0 INSN_CLASS_XTHEADVECTOR "Vd,Vt,VsVm" MATCH_VSSRLVV MASK_VSSRLVV (Some MF_match_opcode) 0;
    mk_opcode "th.vssrl.vx" 0 INSN_CLASS_XTHEADVECTOR "Vd,Vt,sVm" MATCH_VSSRLVX MASK_VSSRLVX (Some MF_match_opcode) 0;
    mk_opcode "th.vssrl.vi" 0 INSN_CLASS_XTHEADVECTOR "Vd,Vt,VjVm" MATCH_VSSRLVI MASK_VSSRLVI (Some MF_match_opcode) 0;
    mk_opcode "th.vssra.vv" 0 INSN_CLASS_XTHEADVECTOR "Vd,Vt,VsVm" MATCH_VSSRAVV MASK_VSSRAVV (Some MF_match_opcode) 0;
    mk_opcode "th.vssra.vx" 0 INSN_CLASS_XTHEADVECTOR "Vd,Vt,sVm" MATCH_VSSRAVX MASK_VSSRAVX (Some MF_match_opcode) 0;
    mk_opcode "th.vssra.vi" 0 INSN_CLASS_XTHEADVECTOR "Vd,Vt,VjVm" MATCH_VSSRAVI MASK_VSSRAVI (Some MF_match_opcode) 0;
    mk_opcode "th.vnclipu.vv" 0 INSN_CLASS_XTHEADVECTOR "Vd,Vt,VsVm" MATCH_VNCLIPUWV MASK_VNCLIPUWV (Some MF_match_opcode) 0;
    mk_opcode "th.vnclipu.vx" 0 INSN_CLASS_XTHEADVECTOR "Vd,Vt,sVm" MATCH_VNCLIPUWX MASK_VNCLIPUWX (Some MF_match_opcode) 0;
    mk_opcode "th.vnclipu.vi" 0 INSN_CLASS_XTHEADVECTOR "Vd,Vt,VjVm" MATCH_VNCLIPUWI MASK_VNCLIPUWI (Some MF_match_opcode) 0;
    mk_opcode "th.vnclip.vv" 0 INSN_CLASS_XTHEADVECTOR "Vd,Vt,VsVm" MATCH_VNCLIPWV MASK_VNCLIPWV (Some MF_match_opcode) 0;
    mk_opcode "th.vnclip.vx" 0 INSN_CLASS_XTHEADVECTOR "Vd,Vt,sVm" MATCH_VNCLIPWX MASK_VNCLIPWX (Some MF_match_opcode) 0;
    mk_opcode "th.vnclip.vi" 0 INSN_CLASS_XTHEADVECTOR "Vd,Vt,VjVm" MATCH_VNCLIPWI MASK_VNCLIPWI (Some MF_match_opcode) 0;
    mk_opcode "th.vfadd.vv" 0 INSN_CLASS_XTHEADVECTOR "Vd,Vt,VsVm" MATCH_VFADDVV MASK_VFADDVV (Some MF_match_opcode) 0;
    mk_opcode "th.vfadd.vf" 0 INSN_CLASS_XTHEADVECTOR "Vd,Vt,SVm" MATCH_VFADDVF MASK_VFADDVF (Some MF_match_opcode) 0;
    mk_opcode "th.vfsub.vv" 0 INSN_CLASS_XTHEADVECTOR "Vd,Vt,VsVm" MATCH_VFSUBVV MASK_VFSUBVV (Some MF_match_opcode) 0;
    mk_opcode "th.vfsub.vf" 0 INSN_CLASS_XTHEADVECTOR "Vd,Vt,SVm" MATCH_VFSUBVF MASK_VFSUBVF (Some MF_match_opcode) 0;
    mk_opcode "th.vfrsub.vf" 0 INSN_CLASS_XTHEADVECTOR "Vd,Vt,SVm" MATCH_VFRSUBVF MASK_VFRSUBVF (Some MF_match_opcode) 0;
    mk_opcode "th.vfwadd.vv" 0 INSN_CLASS_XTHEADVECTOR "Vd,Vt,VsVm" MATCH_VFWADDVV MASK_VFWADDVV (Some MF_match_opcode) 0;
    mk_opcode "th.vfwadd.vf" 0 INSN_CLASS_XTHEADVECTOR "Vd,Vt,SVm" MATCH_VFWADDVF MASK_VFWADDVF (Some MF_match_opcode) 0;
    mk_opcode "th.vfwsub.vv" 0 INSN_CLASS_XTHEADVECTOR "Vd,Vt,VsVm" MATCH_VFWSUBVV MASK_VFWSUBVV (Some MF_match_opcode) 0;
    mk_opcode "th.vfwsub.vf" 0 INSN_CLASS_XTHEADVECTOR "Vd,Vt,SVm" MATCH_VFWSUBVF MASK_VFWSUBVF (Some MF_match_opcode) 0;
    mk_opcode "th.vfwadd.wv" 0 INSN_CLASS_XTHEADVECTOR "Vd,Vt,VsVm" MATCH_VFWADDWV MASK_VFWADDWV (Some MF_match_opcode) 0;
    mk_opcode "th.vfwsub.wv" 0 INSN_CLASS_XTHEADVECTOR "Vd,Vt,VsVm" MATCH_VFWSUBWV MASK_VFWSUBWV (Some MF_match_opcode) 0;
    mk_opcode "th.vfwadd.wf" 0 INSN_CLASS_XTHEADVECTOR "Vd,Vt,SVm" MATCH_VFWADDWF MASK_VFWADDWF (Some MF_match_opcode) 0;
    mk_opcode "th.vfwsub.wf" 0 INSN_CLASS_XTHEADVECTOR "Vd,Vt,SVm" MATCH_VFWSUBWF MASK_VFWSUBWF (Some MF_match_opcode) 0;
    mk_opcode "th.vfmul.vv" 0 INSN_CLASS_XTHEADVECTOR "Vd,Vt,VsVm" MATCH_VFMULVV MASK_VFMULVV (Some MF_match_opcode) 0;
    mk_opcode "th.vfmul.vf" 0 INSN_CLASS_XTHEADVECTOR "Vd,Vt,SVm" MATCH_VFMULVF MASK_VFMULVF (Some MF_match_opcode) 0;
    mk_opcode "th.vfdiv.vv" 0 INSN_CLASS_XTHEADVECTOR "Vd,Vt,VsVm" MATCH_VFDIVVV MASK_VFDIVVV (Some MF_match_opcode) 0;
    mk_opcode "th.vfdiv.vf" 0 INSN_CLASS_XTHEADVECTOR "Vd,Vt,SVm" MATCH_VFDIVVF MASK_VFDIVVF (Some MF_match_opcode) 0;
    mk_opcode "th.vfrdiv.vf" 0 INSN_CLASS_XTHEADVECTOR "Vd,Vt,SVm" MATCH_VFRDIVVF MASK_VFRDIVVF (Some MF_match_opcode) 0;
    mk_opcode "th.vfwmul.vv" 0 INSN_CLASS_XTHEADVECTOR "Vd,Vt,VsVm" MATCH_VFWMULVV MASK_VFWMULVV (Some MF_match_opcode) 0;
    mk_opcode "th.vfwmul.vf" 0 INSN_CLASS_XTHEADVECTOR "Vd,Vt,SVm" MATCH_VFWMULVF MASK_VFWMULVF (Some MF_match_opcode) 0;
    mk_opcode "th.vfmadd.vv" 0 INSN_CLASS_XTHEADVECTOR "Vd,Vs,VtVm" MATCH_VFMADDVV MASK_VFMADDVV (Some MF_match_opcode) 0;
    mk_opcode "th.vfmadd.vf" 0 INSN_CLASS_XTHEADVECTOR "Vd,S,VtVm" MATCH_VFMADDVF MASK_VFMADDVF (Some MF_match_opcode) 0;
    mk_opcode "th.vfnmadd.vv" 0 INSN_CLASS_XTHEADVECTOR "Vd,Vs,VtVm" MATCH_VFNMADDVV MASK_VFNMADDVV (Some MF_match_opcode) 0;
    mk_opcode "th.vfnmadd.vf" 0 INSN_CLASS_XTHEADVECTOR "Vd,S,VtVm" MATCH_VFNMADDVF MASK_VFNMADDVF (Some MF_match_opcode) 0;
    mk_opcode "th.vfmsub.vv" 0 INSN_CLASS_XTHEADVECTOR "Vd,Vs,VtVm" MATCH_VFMSUBVV MASK_VFMSUBVV (Some MF_match_opcode) 0;
    mk_opcode "th.vfmsub.vf" 0 INSN_CLASS_XTHEADVECTOR "Vd,S,VtVm" MATCH_VFMSUBVF MASK_VFMSUBVF (Some MF_match_opcode) 0;
    mk_opcode "th.vfnmsub.vv" 0 INSN_CLASS_XTHEADVECTOR "Vd,Vs,VtVm" MATCH_VFNMSUBVV MASK_VFNMSUBVV (Some MF_match_opcode) 0;
    mk_opcode "th.vfnmsub.vf" 0 INSN_CLASS_XTHEADVECTOR "Vd,S,VtVm" MATCH_VFNMSUBVF MASK_VFNMSUBVF (Some MF_match_opcode) 0;
    mk_opcode "th.vfmacc.vv" 0 INSN_CLASS_XTHEADVECTOR "Vd,Vs,VtVm" MATCH_VFMACCVV MASK_VFMACCVV (Some MF_match_opcode) 0;
    mk_opcode "th.vfmacc.vf" 0 INSN_CLASS_XTHEADVECTOR "Vd,S,VtVm" MATCH_VFMACCVF MASK_VFMACCVF (Some MF_match_opcode) 0;
    mk_opcode "th.vfnmacc.vv" 0 INSN_CLASS_XTHEADVECTOR "Vd,Vs,VtVm" MATCH_VFNMACCVV MASK_VFNMACCVV (Some MF_match_opcode) 0;
    mk_opcode "th.vfnmacc.vf" 0 INSN_CLASS_XTHEADVECTOR "Vd,S,VtVm" MATCH_VFNMACCVF MASK_VFNMACCVF (Some MF_match_opcode) 0;
    mk_opcode "th.vfmsac.vv" 0 INSN_CLASS_XTHEADVECTOR "Vd,Vs,VtVm" MATCH_VFMSACVV MASK_VFMSACVV (Some MF_match_opcode) 0;
    mk_opcode "th.vfmsac.vf" 0 INSN_CLASS_XTHEADVECTOR "Vd,S,VtVm" MATCH_VFMSACVF MASK_VFMSACVF (Some MF_match_opcode) 0;
    mk_opcode "th.vfnmsac.vv" 0 INSN_CLASS_XTHEADVECTOR "Vd,Vs,VtVm" MATCH_VFNMSACVV MASK_VFNMSACVV (Some MF_match_opcode) 0;
    mk_opcode "th.vfnmsac.vf" 0 INSN_CLASS_XTHEADVECTOR "Vd,S,VtVm" MATCH_VFNMSACVF MASK_VFNMSACVF (Some MF_match_opcode) 0;
    mk_opcode "th.vfwmacc.vv" 0 INSN_CLASS_XTHEADVECTOR "Vd,Vs,VtVm" MATCH_VFWMACCVV MASK_VFWMACCVV (Some MF_match_opcode) 0;
    mk_opcode "th.vfwmacc.vf" 0 INSN_CLASS_XTHEADVECTOR "Vd,S,VtVm" MATCH_VFWMACCVF MASK_VFWMACCVF (Some MF_match_opcode) 0;
    mk_opcode "th.vfwnmacc.vv" 0 INSN_CLASS_XTHEADVECTOR "Vd,Vs,VtVm" MATCH_VFWNMACCVV MASK_VFWNMACCVV (Some MF_match_opcode) 0;
    mk_opcode "th.vfwnmacc.vf" 0 INSN_CLASS_XTHEADVECTOR "Vd,S,VtVm" MATCH_VFWNMACCVF MASK_VFWNMACCVF (Some MF_match_opcode) 0;
    mk_opcode "th.vfwmsac.vv" 0 INSN_CLASS_XTHEADVECTOR "Vd,Vs,VtVm" MATCH_VFWMSACVV MASK_VFWMSACVV (Some MF_match_opcode) 0;
    mk_opcode "th.vfwmsac.vf" 0 INSN_CLASS_XTHEADVECTOR "Vd,S,VtVm" MATCH_VFWMSACVF MASK_VFWMSACVF (Some MF_match_opcode) 0;
    mk_opcode "th.vfwnmsac.vv" 0 INSN_CLASS_XTHEADVECTOR "Vd,Vs,VtVm" MATCH_VFWNMSACVV MASK_VFWNMSACVV (Some MF_match_opcode) 0;
    mk_opcode "th.vfwnmsac.vf" 0 INSN_CLASS_XTHEADVECTOR "Vd,S,VtVm" MATCH_VFWNMSACVF MASK_VFWNMSACVF (Some MF_match_opcode) 0;
    mk_opcode "th.vfsqrt.v" 0 INSN_CLASS_XTHEADVECTOR "Vd,VtVm" MATCH_TH_VFSQRTV MASK_TH_VFSQRTV (Some MF_match_opcode) 0;
    mk_opcode "th.vfmin.vv" 0 INSN_CLASS_XTHEADVECTOR "Vd,Vt,VsVm" MATCH_VFMINVV MASK_VFMINVV (Some MF_match_opcode) 0;
    mk_opcode "th.vfmin.vf" 0 INSN_CLASS_XTHEADVECTOR "Vd,Vt,SVm" MATCH_VFMINVF MASK_VFMINVF (Some MF_match_opcode) 0;
    mk_opcode "th.vfmax.vv" 0 INSN_CLASS_XTHEADVECTOR "Vd,Vt,VsVm" MATCH_VFMAXVV MASK_VFMAXVV (Some MF_match_opcode) 0;
    mk_opcode "th.vfmax.vf" 0 INSN_CLASS_XTHEADVECTOR "Vd,Vt,SVm" MATCH_VFMAXVF MASK_VFMAXVF (Some MF_match_opcode) 0;
    mk_opcode "th.vfneg.v" 0 INSN_CLASS_XTHEADVECTOR "Vd,VuVm" MATCH_VFSGNJNVV MASK_VFSGNJNVV (Some MF_match_vs1_eq_vs2) INSN_ALIAS;
    mk_opcode "th.vfabs.v" 0 INSN_CLASS_XTHEADVECTOR "Vd,VuVm" MATCH_VFSGNJXVV MASK_VFSGNJXVV (Some MF_match_vs1_eq_vs2) INSN_ALIAS;
    mk_opcode "th.vfsgnj.vv" 0 INSN_CLASS_XTHEADVECTOR "Vd,Vt,VsVm" MATCH_VFSGNJVV MASK_VFSGNJVV (Some MF_match_opcode) 0;
    mk_opcode "th.vfsgnj.vf" 0 INSN_CLASS_XTHEADVECTOR "Vd,Vt,SVm" MATCH_VFSGNJVF MASK_VFSGNJVF (Some MF_match_opcode) 0;
    mk_opcode "th.vfsgnjn.vv" 0 INSN_CLASS_XTHEADVECTOR "Vd,Vt,VsVm" MATCH_VFSGNJNVV MASK_VFSGNJNVV (Some MF_match_opcode) 0;
    mk_opcode "th.vfsgnjn.vf" 0 INSN_CLASS_XTHEADVECTOR "Vd,Vt,SVm" MATCH_VFSGNJNVF MASK_VFSGNJNVF (Some MF_match_opcode) 0;
    mk_opcode "th.vfsgnjx.vv" 0 INSN_CLASS_XTHEADVECTOR "Vd,Vt,VsVm" MATCH_VFSGNJXVV MASK_VFSGNJXVV (Some MF_match_opcode) 0;
    mk_opcode "th.vfsgnjx.vf" 0 INSN_CLASS_XTHEADVECTOR "Vd,Vt,SVm" MATCH_VFSGNJXVF MASK_VFSGNJXVF (Some MF_match_opcode) 0;
    mk_opcode "th.vmfeq.vv" 0 INSN_CLASS_XTHEADVECTOR "Vd,Vt,VsVm" MATCH_VMFEQVV MASK_VMFEQVV (Some MF_match_opcode) 0;
    mk_opcode "th.vmfeq.vf" 0 INSN_CLASS_XTHEADVECTOR "Vd,Vt,SVm" MATCH_VMFEQVF MASK_VMFEQVF (Some MF_match_opcode) 0;
    mk_opcode "th.vmfne.vv" 0 INSN_CLASS_XTHEADVECTOR "Vd,Vt,VsVm" MATCH_VMFNEVV MASK_VMFNEVV (Some MF_match_opcode) 0;
    mk_opcode "th.vmfne.vf" 0 INSN_CLASS_XTHEADVECTOR "Vd,Vt,SVm" MATCH_VMFNEVF MASK_VMFNEVF (Some MF_match_opcode) 0;
    mk_opcode "th.vmflt.vv" 0 INSN_CLASS_XTHEADVECTOR "Vd,Vt,VsVm" MATCH_VMFLTVV MASK_VMFLTVV (Some MF_match_opcode) 0;
    mk_opcode "th.vmflt.vf" 0 INSN_CLASS_XTHEADVECTOR "Vd,Vt,SVm" MATCH_VMFLTVF MASK_VMFLTVF (Some MF_match_opcode) 0;
    mk_opcode "th.vmfle.vv" 0 INSN_CLASS_XTHEADVECTOR "Vd,Vt,VsVm" MATCH_VMFLEVV MASK_VMFLEVV (Some MF_match_opcode) 0;
    mk_opcode "th.vmfle.vf" 0 INSN_CLASS_XTHEADVECTOR "Vd,Vt,SVm" MATCH_VMFLEVF MASK_VMFLEVF (Some MF_match_opcode) 0;
    mk_opcode "th.vmfgt.vf" 0 INSN_CLASS_XTHEADVECTOR "Vd,Vt,SVm" MATCH_VMFGTVF MASK_VMFGTVF (Some MF_match_opcode) 0;
    mk_opcode "th.vmfge.vf" 0 INSN_CLASS_XTHEADVECTOR "Vd,Vt,SVm" MATCH_VMFGEVF MASK_VMFGEVF (Some MF_match_opcode) 0;
    mk_opcode "th.vmfgt.vv" 0 INSN_CLASS_XTHEADVECTOR "Vd,Vs,VtVm" MATCH_VMFLTVV MASK_VMFLTVV (Some MF_match_opcode) INSN_ALIAS;
    mk_opcode "th.vmfge.vv" 0 INSN_CLASS_XTHEADVECTOR "Vd,Vs,VtVm" MATCH_VMFLEVV MASK_VMFLEVV (Some MF_match_opcode) INSN_ALIAS;
    mk_opcode "th.vmford.vv" 0 INSN_CLASS_XTHEADVECTOR "Vd,Vt,VsVm" MATCH_TH_VMFORDVV MASK_TH_VMFORDVV (Some MF_match_opcode) 0;
    mk_opcode "th.vmford.vf" 0 INSN_CLASS_XTHEADVECTOR "Vd,Vt,SVm" MATCH_TH_VMFORDVF MASK_TH_VMFORDVF (Some MF_match_opcode) 0;
    mk_opcode "th.vfclass.v" 0 INSN_CLASS_XTHEADVECTOR "Vd,VtVm" MATCH_TH_VFCLASSV MASK_TH_VFCLASSV (Some MF_match_opcode) 0;
    mk_opcode "th.vfmerge.vfm" 0 INSN_CLASS_XTHEADVECTOR "Vd,Vt,S,V0" MATCH_VFMERGEVFM MASK_VFMERGEVFM (Some MF_match_opcode) 0;
    mk_opcode "th.vfmv.v.f" 0 INSN_CLASS_XTHEADVECTOR "Vd,S" MATCH_VFMVVF MASK_VFMVVF (Some MF_match_opcode) 0;
    mk_opcode "th.vfcvt.xu.f.v" 0 INSN_CLASS_XTHEADVECTOR "Vd,VtVm" MATCH_TH_VFCVTXUFV MASK_TH_VFCVTXUFV (Some MF_match_opcode) 0;
    mk_opcode "th.vfcvt.x.f.v" 0 INSN_CLASS_XTHEADVECTOR "Vd,VtVm" MATCH_TH_VFCVTXFV MASK_TH_VFCVTXFV (Some MF_match_opcode) 0;
    mk_opcode "th.vfcvt.f.xu.v" 0 INSN_CLASS_XTHEADVECTOR "Vd,VtVm" MATCH_TH_VFCVTFXUV MASK_TH_VFCVTFXUV (Some MF_match_opcode) 0;
    mk_opcode "th.vfcvt.f.x.v" 0 INSN_CLASS_XTHEADVECTOR "Vd,VtVm" MATCH_TH_VFCVTFXV MASK_TH_VFCVTFXV (Some MF_match_opcode) 0;
    mk_opcode "th.vfwcvt.xu.f.v" 0 INSN_CLASS_XTHEADVECTOR "Vd,VtVm" MATCH_TH_VFWCVTXUFV MASK_TH_VFWCVTXUFV (Some MF_match_opcode) 0;
    mk_opcode "th.vfwcvt.x.f.v" 0 INSN_CLASS_XTHEADVECTOR "Vd,VtVm" MATCH_TH_VFWCVTXFV MASK_TH_VFWCVTXFV (Some MF_match_opcode) 0;
    mk_opcode "th.vfwcvt.f.xu.v" 0 INSN_CLASS_XTHEADVECTOR "Vd,VtVm" MATCH_TH_VFWCVTFXUV MASK_TH_VFWCVTFXUV (Some MF_match_opcode) 0;
    mk_opcode "th.vfwcvt.f.x.v" 0 INSN_CLASS_XTHEADVECTOR "Vd,VtVm" MATCH_TH_VFWCVTFXV MASK_TH_VFWCVTFXV (Some MF_match_opcode) 0;
    mk_opcode "th.vfwcvt.f.f.v" 0 INSN_CLASS_XTHEADVECTOR "Vd,VtVm" MATCH_TH_VFWCVTFFV MASK_TH_VFWCVTFFV (Some MF_match_opcode) 0;
    mk_opcode "th.vfncvt.xu.f.v" 0 INSN_CLASS_XTHEADVECTOR "Vd,VtVm" MATCH_TH_VFNCVTXUFV MASK_TH_VFNCVTXUFV (Some MF_match_opcode) 0;
    mk_opcode "th.vfncvt.x.f.v" 0 INSN_CLASS_XTHEADVECTOR "Vd,VtVm" MATCH_TH_VFNCVTXFV MASK_TH_VFNCVTXFV (Some MF_match_opcode) 0;
    mk_opcode "th.vfncvt.f.xu.v" 0 INSN_CLASS_XTHEADVECTOR "Vd,VtVm" MATCH_TH_VFNCVTFXUV MASK_TH_VFNCVTFXUV (Some MF_match_opcode) 0;
    mk_opcode "th.vfncvt.f.x.v" 0 INSN_CLASS_XTHEADVECTOR "Vd,VtVm" MATCH_TH_VFNCVTFXV MASK_TH_VFNCVTFXV (Some MF_match_opcode) 0;
    mk_opcode "th.vfncvt.f.f.v" 0 INSN_CLASS_XTHEADVECTOR "Vd,VtVm" MATCH_TH_VFNCVTFFV MASK_TH_VFNCVTFFV (Some MF_match_opcode) 0;
    mk_opcode "th.vredsum.vs" 0 INSN_CLASS_XTHEADVECTOR "Vd,Vt,VsVm" MATCH_VREDSUMVS MASK_VREDSUMVS (Some MF_match_opcode) 0;
    mk_opcode "th.vredmaxu.vs" 0 INSN_CLASS_XTHEADVECTOR "Vd,Vt,VsVm" MATCH_VREDMAXUVS MASK_VREDMAXUVS (Some MF_match_opcode) 0;
    mk_opcode "th.vredmax.vs" 0 INSN_CLASS_XTHEADVECTOR "Vd,Vt,VsVm" MATCH_VREDMAXVS MASK_VREDMAXVS (Some MF_match_opcode) 0;
    mk_opcode "th.vredminu.vs" 0 INSN_CLASS_XTHEADVECTOR "Vd,Vt,VsVm" MATCH_VREDMINUVS MASK_VREDMINUVS (Some MF_match_opcode) 0;
    mk_opcode "th.vredmin.vs" 0 INSN_CLASS_XTHEADVECTOR "Vd,Vt,VsVm" MATCH_VREDMINVS MASK_VREDMINVS (Some MF_match_opcode) 0;
    mk_opcode "th.vredand.vs" 0 INSN_CLASS_XTHEADVECTOR "Vd,Vt,VsVm" MATCH_VREDANDVS MASK_VREDANDVS (Some MF_match_opcode) 0;
    mk_opcode "th.vredor.vs" 0 INSN_CLASS_XTHEADVECTOR "Vd,Vt,VsVm" MATCH_VREDORVS MASK_VREDORVS (Some MF_match_opcode) 0;
    mk_opcode "th.vredxor.vs" 0 INSN_CLASS_XTHEADVECTOR "Vd,Vt,VsVm" MATCH_VREDXORVS MASK_VREDXORVS (Some MF_match_opcode) 0;
    mk_opcode "th.vwredsumu.vs" 0 INSN_CLASS_XTHEADVECTOR "Vd,Vt,VsVm" MATCH_VWREDSUMUVS MASK_VWREDSUMUVS (Some MF_match_opcode) 0 ].

(** Lines 2873-2948. *)
Definition riscv_opcodes_19 : list riscv_opcode :=
  [ mk_opcode "th.vwredsum.vs" 0 INSN_CLASS_XTHEADVECTOR "Vd,Vt,VsVm" MATCH_VWREDSUMVS MASK_VWREDSUMVS (Some MF_match_opcode) 0;
    mk_opcode "th.vfredosum.vs" 0 INSN_CLASS_XTHEADVECTOR "Vd,Vt,VsVm" MATCH_VFREDOSUMVS MASK_VFREDOSUMVS (Some MF_match_opcode) 0;
    mk_opcode "th.vfredsum.vs" 0 INSN_CLASS_XTHEADVECTOR "Vd,Vt,VsVm" MATCH_VFREDUSUMVS MASK_VFREDUSUMVS (Some MF_match_opcode) 0;
    mk_opcode "th.vfredmax.vs" 0 INSN_CLASS_XTHEADVECTOR "Vd,Vt,VsVm" MATCH_VFREDMAXVS MASK_VFREDMAXVS (Some MF_match_opcode) 0;
    mk_opcode "th.vfredmin.vs" 0 INSN_CLASS_XTHEADVECTOR "Vd,Vt,VsVm" MATCH_VFREDMINVS MASK_VFREDMINVS (Some MF_match_opcode) 0;
    mk_opcode "th.vfwredosum.vs" 0 INSN_CLASS_XTHEADVECTOR "Vd,Vt,VsVm" MATCH_VFWREDOSUMVS MASK_VFWREDOSUMVS (Some MF_match_opcode) 0;
    mk_opcode "th.vfwredsum.vs" 0 INSN_CLASS_XTHEADVECTOR "Vd,Vt,VsVm" MATCH_VFWREDUSUMVS MASK_VFWREDUSUMVS (Some MF_match_opcode) 0;
    mk_opcode "th.vmcpy.m" 0 INSN_CLASS_XTHEADVECTOR "Vd,Vu" MATCH_VMANDMM MASK_VMANDMM (Some MF_match_vs1_eq_vs2) INSN_ALIAS;
    mk_opcode "th.vmmv.m" 0 INSN_CLASS_XTHEADVECTOR "Vd,Vu" MATCH_VMANDMM MASK_VMANDMM (Some MF_match_vs1_eq_vs2) INSN_ALIAS;
    mk_opcode "th.vmclr.m" 0 INSN_CLASS_XTHEADVECTOR "Vv" MATCH_VMXORMM MASK_VMXORMM (Some MF_match_vd_eq_vs1_eq_vs2) INSN_ALIAS;
    mk_opcode "th.vmset.m" 0 INSN_CLASS_XTHEADVECTOR "Vv" MATCH_VMXNORMM MASK_VMXNORMM (Some MF_match_vd_eq_vs1_eq_vs2) INSN_ALIAS;
    mk_opcode "th.vmnot.m" 0 INSN_CLASS_XTHEADVECTOR "Vd,Vu" MATCH_VMNANDMM MASK_VMNANDMM (Some MF_match_vs1_eq_vs2) INSN_ALIAS;
    mk_opcode "th.vmand.mm" 0 INSN_CLASS_XTHEADVECTOR "Vd,Vt,Vs" MATCH_VMANDMM MASK_VMANDMM (Some MF_match_opcode) 0;
    mk_opcode "th.vmnand.mm" 0 INSN_CLASS_XTHEADVECTOR "Vd,Vt,Vs" MATCH_VMNANDMM MASK_VMNANDMM (Some MF_match_opcode) 0;
    mk_opcode "th.vmandnot.mm" 0 INSN_CLASS_XTHEADVECTOR "Vd,Vt,Vs" MATCH_VMANDNMM MASK_VMANDNMM (Some MF_match_opcode) 0;
    mk_opcode "th.vmxor.mm" 0 INSN_CLASS_XTHEADVECTOR "Vd,Vt,Vs" MATCH_VMXORMM MASK_VMXORMM (Some MF_match_opcode) 0;
    mk_opcode "th.vmor.mm" 0 INSN_CLASS_XTHEADVECTOR "Vd,Vt,Vs" MATCH_VMORMM MASK_VMORMM (Some MF_match_opcode) 0;
    mk_opcode "th.vmnor.mm" 0 INSN_CLASS_XTHEADVECTOR "Vd,Vt,Vs" MATCH_VMNORMM MASK_VMNORMM (Some MF_match_opcode) 0;
    mk_opcode "th.vmornot.mm" 0 INSN_CLASS_XTHEADVECTOR "Vd,Vt,Vs" MATCH_VMORNMM MASK_VMORNMM (Some MF_match_opcode) 0;
    mk_opcode "th.vmxnor.mm" 0 INSN_CLASS_XTHEADVECTOR "Vd,Vt,Vs" MATCH_VMXNORMM MASK_VMXNORMM (Some MF_match_opcode) 0;
    mk_opcode "th.vmpopc.m" 0 INSN_CLASS_XTHEADVECTOR "d,VtVm" MATCH_TH_VMPOPCM MASK_TH_VMPOPCM (Some MF_match_opcode) 0;
    mk_opcode "th.vmfirst.m" 0 INSN_CLASS_XTHEADVECTOR "d,VtVm" MATCH_TH_VMFIRSTM MASK_TH_VMFIRSTM (Some MF_match_opcode) 0;
    mk_opcode "th.vmsbf.m" 0 INSN_CLASS_XTHEADVECTOR "Vd,VtVm" MATCH_TH_VMSBFM MASK_TH_VMSBFM (Some MF_match_opcode) 0;
    mk_opcode "th.vmsif.m" 0 INSN_CLASS_XTHEADVECTOR "Vd,VtVm" MATCH_TH_VMSIFM MASK_TH_VMSIFM (Some MF_match_opcode) 0;
    mk_opcode "th.vmsof.m" 0 INSN_CLASS_XTHEADVECTOR "Vd,VtVm" MATCH_TH_VMSOFM MASK_TH_VMSOFM (Some MF_match_opcode) 0;
    mk_opcode "th.viota.m" 0 INSN_CLASS_XTHEADVECTOR "Vd,VtVm" MATCH_TH_VIOTAM MASK_TH_VIOTAM (Some MF_match_opcode) 0;
    mk_opcode "th.vid.v" 0 INSN_CLASS_XTHEADVECTOR "VdVm" MATCH_TH_VIDV MASK_TH_VIDV (Some MF_match_opcode) 0;
    mk_opcode "th.vmv.x.s" 0 INSN_CLASS_XTHEADVECTOR "d,Vt" MATCH_TH_VMVXS MASK_TH_VMVXS (Some MF_match_opcode) INSN_ALIAS;
    mk_opcode "th.vext.x.v" 0 INSN_CLASS_XTHEADVECTOR "d,Vt,s" MATCH_TH_VEXTXV MASK_TH_VEXTXV (Some MF_match_opcode) 0;
    mk_opcode "th.vmv.s.x" 0 INSN_CLASS_XTHEADVECTOR "Vd,s" MATCH_TH_VMVSX MASK_TH_VMVSX (Some MF_match_opcode) 0;
    mk_opcode "th.vfmv.f.s" 0 INSN_CLASS_XTHEADVECTOR "D,Vt" MATCH_TH_VFMVFS MASK_TH_VFMVFS (Some MF_match_opcode) 0;
    mk_opcode "th.vfmv.s.f" 0 INSN_CLASS_XTHEADVECTOR "Vd,S" MATCH_TH_VFMVSF MASK_TH_VFMVSF (Some MF_match_opcode) 0;
    mk_opcode "th.vslideup.vx" 0 INSN_CLASS_XTHEADVECTOR "Vd,Vt,sVm" MATCH_VSLIDEUPVX MASK_VSLIDEUPVX (Some MF_match_opcode) 0;
    mk_opcode "th.vslideup.vi" 0 INSN_CLASS_XTHEADVECTOR "Vd,Vt,VjVm" MATCH_VSLIDEUPVI MASK_VSLIDEUPVI (Some MF_match_opcode) 0;
    mk_opcode "th.vslidedown.vx" 0 INSN_CLASS_XTHEADVECTOR "Vd,Vt,sVm" MATCH_VSLIDEDOWNVX MASK_VSLIDEDOWNVX (Some MF_match_opcode) 0;
    mk_opcode "th.vslidedown.vi" 0 INSN_CLASS_XTHEADVECTOR "Vd,Vt,VjVm" MATCH_VSLIDEDOWNVI MASK_VSLIDEDOWNVI (Some MF_match_opcode) 0;
    mk_opcode "th.vslide1up.vx" 0 INSN_CLASS_XTHEADVECTOR "Vd,Vt,sVm" MATCH_VSLIDE1UPVX MASK_VSLIDE1UPVX (Some MF_match_opcode) 0;
    mk_opcode "th.vslide1down.vx" 0 INSN_CLASS_XTHEADVECTOR "Vd,Vt,sVm" MATCH_VSLIDE1DOWNVX MASK_VSLIDE1DOWNVX (Some MF_match_opcode) 0;
    mk_opcode "th.vrgather.vv" 0 INSN_CLASS_XTHEADVECTOR "Vd,Vt,VsVm" MATCH_VRGATHERVV MASK_VRGATHERVV (Some MF_match_opcode) 0;
    mk_opcode "th.vrgather.vx" 0 INSN_CLASS_XTHEADVECTOR "Vd,Vt,sVm" MATCH_VRGATHERVX MASK_VRGATHERVX (Some MF_match_opcode) 0;
    mk_opcode "th.vrgather.vi" 0 INSN_CLASS_XTHEADVECTOR "Vd,Vt,VjVm" MATCH_VRGATHERVI MASK_VRGATHERVI (Some MF_match_opcode) 0;
    mk_opcode "th.vcompress.vm" 0 INSN_CLASS_XTHEADVECTOR "Vd,Vt,Vs" MATCH_VCOMPRESSVM MASK_VCOMPRESSVM (Some MF_match_opcode) 0;
    mk_opcode "vt.maskc" 64 INSN_CLASS_XVENTANACONDOPS "d,s,t" MATCH_VT_MASKC MASK_VT_MASKC (Some MF_match_opcode) 0;
    mk_opcode "vt.maskcn" 64 INSN_CLASS_XVENTANACONDOPS "d,s,t" MATCH_VT_MASKCN MASK_VT_MASKCN (Some MF_match_opcode) 0;
    mk_opcode "sf.vc.x" 0 INSN_CLASS_XSFVCP "XsO2,Xst,Xsd,s" MATCH_SF_VC_X MASK_SF_VC_X (Some MF_match_opcode) 0;
    mk_opcode "sf.vc.v.x" 0 INSN_CLASS_XSFVCP "XsO2,Xst,Vd,s" MATCH_SF_VC_V_X MASK_SF_VC_V_X (Some MF_match_opcode) 0;
    mk_opcode "sf.vc.i" 0 INSN_CLASS_XSFVCP "XsO2,Xst,Xsd,Vi" MATCH_SF_VC_I MASK_SF_VC_I (Some MF_match_opcode) 0;
    mk_opcode "sf.vc.v.i" 0 INSN_CLASS_XSFVCP "XsO2,Xst,Vd,Vi" MATCH_SF_VC_V_I MASK_SF_VC_V_I (Some MF_match_opcode) 0;
    mk_opcode "sf.vc.vv" 0 INSN_CLASS_XSFVCP "XsO2,Xsd,Vt,Vs" MATCH_SF_VC_VV MASK_SF_VC_VV (Some MF_match_opcode) 0;
    mk_opcode "sf.vc.v.vv" 0 INSN_CLASS_XSFVCP "XsO2,Vd,Vt,Vs" MATCH_SF_VC_V_VV MASK_SF_VC_V_VV (Some MF_match_opcode) 0;
    mk_opcode "sf.vc.xv" 0 INSN_CLASS_XSFVCP "XsO2,Xsd,Vt,s" MATCH_SF_VC_XV MASK_SF_VC_XV (Some MF_match_opcode) 0;
    mk_opcode "sf.vc.v.xv" 0 INSN_CLASS_XSFVCP "XsO2,Vd,Vt,s" MATCH_SF_VC_V_XV MASK_SF_VC_V_XV (Some MF_match_opcode) 0;
    mk_opcode "sf.vc.iv" 0 INSN_CLASS_XSFVCP "XsO2,Xsd,Vt,Vi" MATCH_SF_VC_IV MASK_SF_VC_IV (Some MF_match_opcode) 0;
    mk_opcode "sf.vc.v.iv" 0 INSN_CLASS_XSFVCP "XsO2,Vd,Vt,Vi" MATCH_SF_VC_V_IV MASK_SF_VC_V_IV (Some MF_match_opcode) 0;
    mk_opcode "sf.vc.fv" 0 INSN_CLASS_XSFVCP "XsO1,Xsd,Vt,S" MATCH_SF_VC_FV MASK_SF_VC_FV (Some MF_match_opcode) 0;
    mk_opcode "sf.vc.v.fv" 0 INSN_CLASS_XSFVCP "XsO1,Vd,Vt,S" MATCH_SF_VC_V_FV MASK_SF_VC_V_FV (Some MF_match_opcode) 0;
    mk_opcode "sf.vc.vvv" 0 INSN_CLASS_XSFVCP "XsO2,Vd,Vt,Vs" MATCH_SF_VC_VVV MASK_SF_VC_VVV (Some MF_match_opcode) 0;
    mk_opcode "sf.vc.v.vvv" 0 INSN_CLASS_XSFVCP "XsO2,Vd,Vt,Vs" MATCH_SF_VC_V_VVV MASK_SF_VC_V_VVV (Some MF_match_opcode) 0;
    mk_opcode "sf.vc.xvv" 0 INSN_CLASS_XSFVCP "XsO2,Vd,Vt,s" MATCH_SF_VC_XVV MASK_SF_VC_XVV (Some MF_match_opcode) 0;
    mk_opcode "sf.vc.v.xvv" 0 INSN_CLASS_XSFVCP "XsO2,Vd,Vt,s" MATCH_SF_VC_V_XVV MASK_SF_VC_V_XVV (Some MF_match_opcode) 0;
    mk_opcode "sf.vc.ivv" 0 INSN_CLASS_XSFVCP "XsO2,Vd,Vt,Vi" MATCH_SF_VC_IVV MASK_SF_VC_IVV (Some MF_match_opcode) 0;
    mk_opcode "sf.vc.v.ivv" 0 INSN_CLASS_XSFVCP "XsO2,Vd,Vt,Vi" MATCH_SF_VC_V_IVV MASK_SF_VC_V_IVV (Some MF_match_opcode) 0;
    mk_opcode "sf.vc.fvv" 0 INSN_CLASS_XSFVCP "XsO1,Vd,Vt,S" MATCH_SF_VC_FVV MASK_SF_VC_FVV (Some MF_match_opcode) 0;
    mk_opcode "sf.vc.v.fvv" 0 INSN_CLASS_XSFVCP "XsO1,Vd,Vt,S" MATCH_SF_VC_V_FVV MASK_SF_VC_V_FVV (Some MF_match_opcode) 0;
    mk_opcode "sf.vc.vvw" 0 INSN_CLASS_XSFVCP "XsO2,Vd,Vt,Vs" MATCH_SF_VC_VVW MASK_SF_VC_VVW (Some MF_match_opcode) 0;
    mk_opcode "sf.vc.v.vvw" 0 INSN_CLASS_XSFVCP "XsO2,Vd,Vt,Vs" MATCH_SF_VC_V_VVW MASK_SF_VC_V_VVW (Some MF_match_opcode) 0;
    mk_opcode "sf.vc.xvw" 0 INSN_CLASS_XSFVCP "XsO2,Vd,Vt,s" MATCH_SF_VC_XVW MASK_SF_VC_XVW (Some MF_match_opcode) 0;
    mk_opcode "sf.vc.v.xvw" 0 INSN_CLASS_XSFVCP "XsO2,Vd,Vt,s" MATCH_SF_VC_V_XVW MASK_SF_VC_V_XVW (Some MF_match_opcode) 0;
    mk_opcode "sf.vc.ivw" 0 INSN_CLASS_XSFVCP "XsO2,Vd,Vt,Vi" MATCH_SF_VC_IVW MASK_SF_VC_IVW (Some MF_match_opcode) 0;
    mk_opcode "sf.vc.v.ivw" 0 INSN_CLASS_XSFVCP "XsO2,Vd,Vt,Vi" MATCH_SF_VC_V_IVW MASK_SF_VC_V_IVW (Some MF_match_opcode) 0;
    mk_opcode "sf.vc.fvw" 0 INSN_CLASS_XSFVCP "XsO1,Vd,Vt,S" MATCH_SF_VC_FVW MASK_SF_VC_FVW (Some MF_match_opcode) 0;
    mk_opcode "sf.vc.v.fvw" 0 INSN_CLASS_XSFVCP "XsO1,Vd,Vt,S" MATCH_SF_VC_V_FVW MASK_SF_VC_V_FVW (Some MF_match_opcode) 0 ].

