(* ===== verification/OpcodeTable.v ===== *)
(** * The opcode tables of opcodes/riscv-opc.c

    [riscv_opcodes], the instruction table, and [riscv_insn_types], the formats
    of the [.insn] directive.  The terminating all-zero entry of the C arrays is
    the end of the list. *)
From Stdlib Require Import ZArith.
From stdpp Require Import base strings list.
From S2P Require Import Prelude OpcodeH RiscvH OpcodeMatch OpcodeTableA OpcodeTableB OpcodeTableC.

#[local] Open Scope Z_scope.
#[local] Open Scope c_scope.
#[local] Open Scope string_scope.

Definition riscv_insn_types : list riscv_opcode :=
  [ mk_opcode "r" 0 INSN_CLASS_I "O4,F3,F7,d,s,t" 0 0 (Some MF_match_opcode) 0;
    mk_opcode "r" 0 INSN_CLASS_F "O4,F3,F7,D,s,t" 0 0 (Some MF_match_opcode) 0;
    mk_opcode "r" 0 INSN_CLASS_F "O4,F3,F7,d,S,t" 0 0 (Some MF_match_opcode) 0;
    mk_opcode "r" 0 INSN_CLASS_F "O4,F3,F7,D,S,t" 0 0 (Some MF_match_opcode) 0;
    mk_opcode "r" 0 INSN_CLASS_F "O4,F3,F7,d,s,T" 0 0 (Some MF_match_opcode) 0;
    mk_opcode "r" 0 INSN_CLASS_F "O4,F3,F7,D,s,T" 0 0 (Some MF_match_opcode) 0;
    mk_opcode "r" 0 INSN_CLASS_F "O4,F3,F7,d,S,T" 0 0 (Some MF_match_opcode) 0;
    mk_opcode "r" 0 INSN_CLASS_F "O4,F3,F7,D,S,T" 0 0 (Some MF_match_opcode) 0;
    mk_opcode "r" 0 INSN_CLASS_I "O4,F3,F2,d,s,t,r" 0 0 (Some MF_match_opcode) 0;
    mk_opcode "r" 0 INSN_CLASS_F "O4,F3,F2,D,s,t,r" 0 0 (Some MF_match_opcode) 0;
    mk_opcode "r" 0 INSN_CLASS_F "O4,F3,F2,d,S,t,r" 0 0 (Some MF_match_opcode) 0;
    mk_opcode "r" 0 INSN_CLASS_F "O4,F3,F2,D,S,t,r" 0 0 (Some MF_match_opcode) 0;
    mk_opcode "r" 0 INSN_CLASS_F "O4,F3,F2,d,s,T,r" 0 0 (Some MF_match_opcode) 0;
    mk_opcode "r" 0 INSN_CLASS_F "O4,F3,F2,D,s,T,r" 0 0 (Some MF_match_opcode) 0;
    mk_opcode "r" 0 INSN_CLASS_F "O4,F3,F2,d,S,T,r" 0 0 (Some MF_match_opcode) 0;
    mk_opcode "r" 0 INSN_CLASS_F "O4,F3,F2,D,S,T,r" 0 0 (Some MF_match_opcode) 0;
    mk_opcode "r" 0 INSN_CLASS_F "O4,F3,F2,d,s,t,R" 0 0 (Some MF_match_opcode) 0;
    mk_opcode "r" 0 INSN_CLASS_F "O4,F3,F2,D,s,t,R" 0 0 (Some MF_match_opcode) 0;
    mk_opcode "r" 0 INSN_CLASS_F "O4,F3,F2,d,S,t,R" 0 0 (Some MF_match_opcode) 0;
    mk_opcode "r" 0 INSN_CLASS_F "O4,F3,F2,D,S,t,R" 0 0 (Some MF_match_opcode) 0;
    mk_opcode "r" 0 INSN_CLASS_F "O4,F3,F2,d,s,T,R" 0 0 (Some MF_match_opcode) 0;
    mk_opcode "r" 0 INSN_CLASS_F "O4,F3,F2,D,s,T,R" 0 0 (Some MF_match_opcode) 0;
    mk_opcode "r" 0 INSN_CLASS_F "O4,F3,F2,d,S,T,R" 0 0 (Some MF_match_opcode) 0;
    mk_opcode "r" 0 INSN_CLASS_F "O4,F3,F2,D,S,T,R" 0 0 (Some MF_match_opcode) 0;
    mk_opcode "r4" 0 INSN_CLASS_I "O4,F3,F2,d,s,t,r" 0 0 (Some MF_match_opcode) 0;
    mk_opcode "r4" 0 INSN_CLASS_F "O4,F3,F2,D,s,t,r" 0 0 (Some MF_match_opcode) 0;
    mk_opcode "r4" 0 INSN_CLASS_F "O4,F3,F2,d,S,t,r" 0 0 (Some MF_match_opcode) 0;
    mk_opcode "r4" 0 INSN_CLASS_F "O4,F3,F2,D,S,t,r" 0 0 (Some MF_match_opcode) 0;
    mk_opcode "r4" 0 INSN_CLASS_F "O4,F3,F2,d,s,T,r" 0 0 (Some MF_match_opcode) 0;
    mk_opcode "r4" 0 INSN_CLASS_F "O4,F3,F2,D,s,T,r" 0 0 (Some MF_match_opcode) 0;
    mk_opcode "r4" 0 INSN_CLASS_F "O4,F3,F2,d,S,T,r" 0 0 (Some MF_match_opcode) 0;
    mk_opcode "r4" 0 INSN_CLASS_F "O4,F3,F2,D,S,T,r" 0 0 (Some MF_match_opcode) 0;
    mk_opcode "r4" 0 INSN_CLASS_F "O4,F3,F2,d,s,t,R" 0 0 (Some MF_match_opcode) 0;
    mk_opcode "r4" 0 INSN_CLASS_F "O4,F3,F2,D,s,t,R" 0 0 (Some MF_match_opcode) 0;
    mk_opcode "r4" 0 INSN_CLASS_F "O4,F3,F2,d,S,t,R" 0 0 (Some MF_match_opcode) 0;
    mk_opcode "r4" 0 INSN_CLASS_F "O4,F3,F2,D,S,t,R" 0 0 (Some MF_match_opcode) 0;
    mk_opcode "r4" 0 INSN_CLASS_F "O4,F3,F2,d,s,T,R" 0 0 (Some MF_match_opcode) 0;
    mk_opcode "r4" 0 INSN_CLASS_F "O4,F3,F2,D,s,T,R" 0 0 (Some MF_match_opcode) 0;
    mk_opcode "r4" 0 INSN_CLASS_F "O4,F3,F2,d,S,T,R" 0 0 (Some MF_match_opcode) 0;
    mk_opcode "r4" 0 INSN_CLASS_F "O4,F3,F2,D,S,T,R" 0 0 (Some MF_match_opcode) 0;
    mk_opcode "i" 0 INSN_CLASS_I "O4,F3,d,s,j" 0 0 (Some MF_match_opcode) 0;
    mk_opcode "i" 0 INSN_CLASS_F "O4,F3,D,s,j" 0 0 (Some MF_match_opcode) 0;
    mk_opcode "i" 0 INSN_CLASS_F "O4,F3,d,S,j" 0 0 (Some MF_match_opcode) 0;
    mk_opcode "i" 0 INSN_CLASS_F "O4,F3,D,S,j" 0 0 (Some MF_match_opcode) 0;
    mk_opcode "i" 0 INSN_CLASS_I "O4,F3,d,o(s)" 0 0 (Some MF_match_opcode) 0;
    mk_opcode "i" 0 INSN_CLASS_F "O4,F3,D,o(s)" 0 0 (Some MF_match_opcode) 0;
    mk_opcode "s" 0 INSN_CLASS_I "O4,F3,t,q(s)" 0 0 (Some MF_match_opcode) 0;
    mk_opcode "s" 0 INSN_CLASS_F "O4,F3,T,q(s)" 0 0 (Some MF_match_opcode) 0;
    mk_opcode "sb" 0 INSN_CLASS_I "O4,F3,s,t,p" 0 0 (Some MF_match_opcode) 0;
    mk_opcode "sb" 0 INSN_CLASS_F "O4,F3,S,t,p" 0 0 (Some MF_match_opcode) 0;
    mk_opcode "sb" 0 INSN_CLASS_F "O4,F3,s,T,p" 0 0 (Some MF_match_opcode) 0;
    mk_opcode "sb" 0 INSN_CLASS_F "O4,F3,S,T,p" 0 0 (Some MF_match_opcode) 0;
    mk_opcode "b" 0 INSN_CLASS_I "O4,F3,s,t,p" 0 0 (Some MF_match_opcode) 0;
    mk_opcode "b" 0 INSN_CLASS_F "O4,F3,S,t,p" 0 0 (Some MF_match_opcode) 0;
    mk_opcode "b" 0 INSN_CLASS_F "O4,F3,s,T,p" 0 0 (Some MF_match_opcode) 0;
    mk_opcode "b" 0 INSN_CLASS_F "O4,F3,S,T,p" 0 0 (Some MF_match_opcode) 0;
    mk_opcode "u" 0 INSN_CLASS_I "O4,d,u" 0 0 (Some MF_match_opcode) 0;
    mk_opcode "u" 0 INSN_CLASS_F "O4,D,u" 0 0 (Some MF_match_opcode) 0;
    mk_opcode "uj" 0 INSN_CLASS_I "O4,d,a" 0 0 (Some MF_match_opcode) 0;
    mk_opcode "uj" 0 INSN_CLASS_F "O4,D,a" 0 0 (Some MF_match_opcode) 0;
    mk_opcode "j" 0 INSN_CLASS_I "O4,d,a" 0 0 (Some MF_match_opcode) 0;
    mk_opcode "j" 0 INSN_CLASS_F "O4,D,a" 0 0 (Some MF_match_opcode) 0;
    mk_opcode "cr" 0 INSN_CLASS_C "O2,CF4,d,CV" 0 0 (Some MF_match_opcode) 0;
    mk_opcode "cr" 0 INSN_CLASS_F_AND_C "O2,CF4,D,CV" 0 0 (Some MF_match_opcode) 0;
    mk_opcode "cr" 0 INSN_CLASS_F_AND_C "O2,CF4,d,CT" 0 0 (Some MF_match_opcode) 0;
    mk_opcode "cr" 0 INSN_CLASS_F_AND_C "O2,CF4,D,CT" 0 0 (Some MF_match_opcode) 0;
    mk_opcode "ci" 0 INSN_CLASS_C "O2,CF3,d,Co" 0 0 (Some MF_match_opcode) 0;
    mk_opcode "ci" 0 INSN_CLASS_F_AND_C "O2,CF3,D,Co" 0 0 (Some MF_match_opcode) 0;
    mk_opcode "ciw" 0 INSN_CLASS_C "O2,CF3,Ct,C8" 0 0 (Some MF_match_opcode) 0;
    mk_opcode "ciw" 0 INSN_CLASS_F_AND_C "O2,CF3,CD,C8" 0 0 (Some MF_match_opcode) 0;
    mk_opcode "css" 0 INSN_CLASS_C "O2,CF3,CV,C6" 0 0 (Some MF_match_opcode) 0;
    mk_opcode "css" 0 INSN_CLASS_F_AND_C "O2,CF3,CT,C6" 0 0 (Some MF_match_opcode) 0;
    mk_opcode "cl" 0 INSN_CLASS_C "O2,CF3,Ct,C5(Cs)" 0 0 (Some MF_match_opcode) 0;
    mk_opcode "cl" 0 INSN_CLASS_F_AND_C "O2,CF3,CD,C5(Cs)" 0 0 (Some MF_match_opcode) 0;
    mk_opcode "cl" 0 INSN_CLASS_F_AND_C "O2,CF3,Ct,C5(CS)" 0 0 (Some MF_match_opcode) 0;
    mk_opcode "cl" 0 INSN_CLASS_F_AND_C "O2,CF3,CD,C5(CS)" 0 0 (Some MF_match_opcode) 0;
    mk_opcode "cs" 0 INSN_CLASS_C "O2,CF3,Ct,C5(Cs)" 0 0 (Some MF_match_opcode) 0;
    mk_opcode "cs" 0 INSN_CLASS_F_AND_C "O2,CF3,CD,C5(Cs)" 0 0 (Some MF_match_opcode) 0;
    mk_opcode "cs" 0 INSN_CLASS_F_AND_C "O2,CF3,Ct,C5(CS)" 0 0 (Some MF_match_opcode) 0;
    mk_opcode "cs" 0 INSN_CLASS_F_AND_C "O2,CF3,CD,C5(CS)" 0 0 (Some MF_match_opcode) 0;
    mk_opcode "ca" 0 INSN_CLASS_C "O2,CF6,CF2,Cs,Ct" 0 0 (Some MF_match_opcode) 0;
    mk_opcode "ca" 0 INSN_CLASS_F_AND_C "O2,CF6,CF2,CS,Ct" 0 0 (Some MF_match_opcode) 0;
    mk_opcode "ca" 0 INSN_CLASS_F_AND_C "O2,CF6,CF2,Cs,CD" 0 0 (Some MF_match_opcode) 0;
    mk_opcode "ca" 0 INSN_CLASS_F_AND_C "O2,CF6,CF2,CS,CD" 0 0 (Some MF_match_opcode) 0;
    mk_opcode "cb" 0 INSN_CLASS_C "O2,CF3,Cs,Cp" 0 0 (Some MF_match_opcode) 0;
    mk_opcode "cb" 0 INSN_CLASS_F_AND_C "O2,CF3,CS,Cp" 0 0 (Some MF_match_opcode) 0;
    mk_opcode "cj" 0 INSN_CLASS_C "O2,CF3,Ca" 0 0 (Some MF_match_opcode) 0 ].

Definition riscv_opcodes : list riscv_opcode :=
  riscv_opcodes_1 ++
  riscv_opcodes_2 ++
  riscv_opcodes_3 ++
  riscv_opcodes_4 ++
  riscv_opcodes_5 ++
  riscv_opcodes_6 ++
  riscv_opcodes_7 ++
  riscv_opcodes_8 ++
  riscv_opcodes_9 ++
  riscv_opcodes_10 ++
  riscv_opcodes_11 ++
  riscv_opcodes_12 ++
  riscv_opcodes_13 ++
  riscv_opcodes_14 ++
  riscv_opcodes_15 ++
  riscv_opcodes_16 ++
  riscv_opcodes_17 ++
  riscv_opcodes_18 ++
  riscv_opcodes_19.
