(* ===== verification/Validate.v ===== *)
(** * Start-up validation of the opcode tables (gas/config/tc-riscv.c)

    [validate_riscv_insn] and [init_opcode_hash]: the consistency check every
    opcode entry goes through when the assembler starts, and the hash table
    that maps a mnemonic to its first entry.  A [const char *] walking an
    operand string is the list of the characters that are left; a pointer into
    the opcode array is the list of the entries from there to its end. *)
From Stdlib Require Import ZArith Bool Ascii Lia.
From stdpp Require Import base strings list gmap.
From S2P Require Import Prelude OpcodeH RiscvH OpcodeMatch OpcodeTable.

#[local] Open Scope Z_scope.
#[local] Open Scope c_scope.

(** ** Bits an operand uses *)

Definition USE_BITS (f : op_field) : Z := OP_MASK f <<u OP_SH f.
Definition USE_IMM (n s : Z) : Z := ((1 <<u n) - 1) <<u s.

(** What the [switch] of [validate_riscv_insn] does with one operand: the bits
    added to [used_bits] and the rest of the operand string, or the jump to
    [unknown_validate_operand].  Each argument list starts after the letters
    already read. *)
Definition operand_use : Type := option (Z * list ascii).

(** [case 'C'], compressed operands. *)
Definition validate_rvc (p : list ascii) : operand_use :=
  match p with
  | "U"%char :: q | "c"%char :: q => Some (0, q)
  | "T"%char :: q | "V"%char :: q => Some (USE_BITS FLD_CRS2, q)
  | "S"%char :: q | "s"%char :: q => Some (USE_BITS FLD_CRS1S, q)
  | "w"%char :: q => Some (0, q)
  | "D"%char :: q | "t"%char :: q => Some (USE_BITS FLD_CRS2S, q)
  | "x"%char :: q | "z"%char :: q => Some (0, q)
  | ">"%char :: q | "u"%char :: q | "v"%char :: q | "o"%char :: q | "j"%char :: q =>
      Some (ENCODE_CITYPE_IMM minus_1U, q)
  | "L"%char :: q => Some (ENCODE_CITYPE_ADDI16SP_IMM minus_1U, q)
  | "m"%char :: q => Some (ENCODE_CITYPE_LWSP_IMM minus_1U, q)
  | "n"%char :: q => Some (ENCODE_CITYPE_LDSP_IMM minus_1U, q)
  | "6"%char :: q => Some (ENCODE_CSSTYPE_IMM minus_1U, q)
  | "M"%char :: q => Some (ENCODE_CSSTYPE_SWSP_IMM minus_1U, q)
  | "N"%char :: q => Some (ENCODE_CSSTYPE_SDSP_IMM minus_1U, q)
  | "8"%char :: q => Some (ENCODE_CIWTYPE_IMM minus_1U, q)
  | "K"%char :: q => Some (ENCODE_CIWTYPE_ADDI4SPN_IMM minus_1U, q)
  | "5"%char :: q => Some (ENCODE_CLTYPE_IMM minus_1U, q)
  | "k"%char :: q => Some (ENCODE_CLTYPE_LW_IMM minus_1U, q)
  | "l"%char :: q => Some (ENCODE_CLTYPE_LD_IMM minus_1U, q)
  | "p"%char :: q => Some (ENCODE_CBTYPE_IMM minus_1U, q)
  | "a"%char :: q => Some (ENCODE_CJTYPE_IMM minus_1U, q)
  | "F"%char :: "6"%char :: q => Some (USE_BITS FLD_CFUNCT6, q)
  | "F"%char :: "4"%char :: q => Some (USE_BITS FLD_CFUNCT4, q)
  | "F"%char :: "3"%char :: q => Some (USE_BITS FLD_CFUNCT3, q)
  | "F"%char :: "2"%char :: q => Some (USE_BITS FLD_CFUNCT2, q)
  | _ => None
  end.

(** [case 'V'], vector operands. *)
Definition validate_rvv (p : list ascii) : operand_use :=
  match p with
  | "d"%char :: q | "f"%char :: q => Some (USE_BITS FLD_VD, q)
  | "e"%char :: q => Some (USE_BITS FLD_VWD, q)
  | "s"%char :: q => Some (USE_BITS FLD_VS1, q)
  | "t"%char :: q => Some (USE_BITS FLD_VS2, q)
  | "u"%char :: q => Some (USE_BITS FLD_VS1 .| USE_BITS FLD_VS2, q)
  | "v"%char :: q => Some (USE_BITS FLD_VD .| USE_BITS FLD_VS1 .| USE_BITS FLD_VS2, q)
  | "0"%char :: q => Some (0, q)
  | "b"%char :: q => Some (ENCODE_RVV_VB_IMM minus_1U, q)
  | "c"%char :: q => Some (ENCODE_RVV_VC_IMM minus_1U, q)
  | "i"%char :: q | "j"%char :: q | "k"%char :: q => Some (USE_BITS FLD_VIMM, q)
  | "l"%char :: q => Some (ENCODE_RVV_VI_UIMM6 minus_1U, q)
  | "m"%char :: q => Some (USE_BITS FLD_VMASK, q)
  | "M"%char :: q | "T"%char :: q => Some (0, q)
  | _ => None
  end.

(** [case 'W'], operands of the standard z extensions. *)
Definition validate_w (p : list ascii) : operand_use :=
  match p with
  | "i"%char :: "f"%char :: q => Some (ENCODE_STYPE_IMM minus_1U, q)
  | "f"%char :: "v"%char :: q => Some (USE_BITS FLD_RS1, q)
  | "c"%char :: "h"%char :: q => Some (ENCODE_ZCB_HALFWORD_UIMM minus_1U, q)
  | "c"%char :: "b"%char :: q => Some (ENCODE_ZCB_BYTE_UIMM minus_1U, q)
  | "c"%char :: "f"%char :: q => Some (0, q)
  | _ => None
  end.

(** [use_imm:], the N\@S operands of the T-Head instructions. *)
Definition validate_use_imm (p : list ascii) : operand_use :=
  let '(n, p) := strtol10 p in
  match p with
  | "@"%char :: p => let '(s, p) := strtol10 p in Some (USE_IMM n s, p)
  | _ => None
  end.

(** [case 'X'], vendor operands. *)
Definition validate_x (p : list ascii) : operand_use :=
  match p with
  | "t"%char :: "V"%char :: "c"%char :: q => Some (ENCODE_RVV_VC_IMM minus_1U, q)
  | "t"%char :: "l"%char :: q => Some (0, find_char ","%char q)
  | "t"%char :: "s"%char :: q | "t"%char :: "u"%char :: q => validate_use_imm q
  | "c"%char :: "2"%char :: q => Some (ENCODE_CV_IS2_UIMM5 minus_1U, q)
  | "c"%char :: "3"%char :: q => Some (ENCODE_CV_IS3_UIMM5 minus_1U, q)
  | "s"%char :: "d"%char :: q => Some (USE_BITS FLD_RD, q)
  | "s"%char :: "t"%char :: q => Some (USE_BITS FLD_RS2, q)
  | "s"%char :: "O"%char :: "2"%char :: q => Some (USE_BITS FLD_XSO2, q)
  | "s"%char :: "O"%char :: "1"%char :: q => Some (USE_BITS FLD_XSO1, q)
  | _ => None
  end.

(** The outer [switch], on the current letter. *)
Definition validate_operand (p : list ascii) : operand_use :=
  match p with
  | "C"%char :: q => validate_rvc q
  | "V"%char :: q => validate_rvv q
  | ","%char :: q | "("%char :: q | ")"%char :: q => Some (0, q)
  | "<"%char :: q => Some (USE_BITS FLD_SHAMTW, q)
  | ">"%char :: q => Some (USE_BITS FLD_SHAMT, q)
  | "A"%char :: q | "B"%char :: q | "c"%char :: q | "I"%char :: q => Some (0, q)
  | "D"%char :: q | "d"%char :: q => Some (USE_BITS FLD_RD, q)
  | "y"%char :: q => Some (USE_BITS FLD_BS, q)
  | "Y"%char :: q => Some (USE_BITS FLD_RNUM, q)
  | "Z"%char :: q | "S"%char :: q | "s"%char :: q => Some (USE_BITS FLD_RS1, q)
  | "U"%char :: q => Some (USE_BITS FLD_RS1 .| USE_BITS FLD_RS2, q)
  | "T"%char :: q | "t"%char :: q => Some (USE_BITS FLD_RS2, q)
  | "R"%char :: q | "r"%char :: q => Some (USE_BITS FLD_RS3, q)
  | "m"%char :: q => Some (USE_BITS FLD_RM, q)
  | "E"%char :: q => Some (USE_BITS FLD_CSR, q)
  | "P"%char :: q => Some (USE_BITS FLD_PRED, q)
  | "Q"%char :: q => Some (USE_BITS FLD_SUCC, q)
  | "o"%char :: q | "j"%char :: q => Some (ENCODE_ITYPE_IMM minus_1U, q)
  | "a"%char :: q => Some (ENCODE_JTYPE_IMM minus_1U, q)
  | "p"%char :: q => Some (ENCODE_BTYPE_IMM minus_1U, q)
  | "q"%char :: q => Some (ENCODE_STYPE_IMM minus_1U, q)
  | "u"%char :: q => Some (ENCODE_UTYPE_IMM minus_1U, q)
  | "z"%char :: q | "["%char :: q | "]"%char :: q | "0"%char :: q | "1"%char :: q => Some (0, q)
  | "F"%char :: "7"%char :: q => Some (USE_BITS FLD_FUNCT7, q)
  | "F"%char :: "3"%char :: q => Some (USE_BITS FLD_FUNCT3, q)
  | "F"%char :: "2"%char :: q => Some (USE_BITS FLD_FUNCT2, q)
  | "O"%char :: "4"%char :: q => Some (USE_BITS FLD_OP, q)
  | "O"%char :: "2"%char :: q => Some (USE_BITS FLD_OP2, q)
  | "W"%char :: q => validate_w q
  | "X"%char :: q => validate_x q
  | _ => None
  end.

(** The loop over the operand string; [fuel] is its length, and every operand
    consumes at least one character. *)
Fixpoint validate_operands (fuel : nat) (used_bits : Z) (p : list ascii) : option Z :=
  match p with
  | [] => Some used_bits
  | _ :: _ =>
      match fuel with
      | O => None
      | S fuel' =>
          match validate_operand p with
          | Some (b, q) => validate_operands fuel' (used_bits .| b) q
          | None => None
          end
      end
  end.

(** [validate_riscv_insn (opc, length)]. *)
Definition validate_riscv_insn (opc : riscv_opcode) (length : Z) : bool :=
  let length := if length =? 0 then riscv_insn_length (match_ opc) else length in
  let length := if 8 <? length then 8 else length in
  let insn_width := 8 * length in
  let required_bits := (2 ^ 64 - 1) >> (64 - insn_width) in
  let used_bits := mask opc in
  if negb ((used_bits .& match_ opc) =? (match_ opc .& required_bits)) then false
  else
    match validate_operands (String.length (args opc)) used_bits (chars (args opc)) with
    | None => false
    | Some used_bits => used_bits =? required_bits
    end.

(** ** The mnemonic hash table *)

Inductive init_error : Type :=
| duplicate (name : string)          (* as_fatal "internal: duplicate %s" *)
| broken_assembler (op : riscv_opcode) (* as_fatal "internal: broken assembler" *)
| macro_in_insn_types (op : riscv_opcode). (* gas_assert (!insn_directive_p) *)

(** One iteration of the inner [do] loop, on entry [op] of the group [nm]. *)
Definition check_entry (insn_directive_p : bool) (nm : string) (op : riscv_opcode)
  : option init_error :=
  if negb (pinfo op =? INSN_MACRO) then
    let length := if insn_directive_p
                  then (match nm with
                        | String "c"%char _ => 2
                        | _ => 4
                        end)
                  else 0 in
    if validate_riscv_insn op length then None else Some (broken_assembler op)
  else if insn_directive_p then Some (macro_in_insn_types op) else None.

(** [init_opcode_hash]: [start] is true when [ops] begins a new group (the
    outer loop), otherwise [nm] is the name of the group the inner loop is in. *)
Fixpoint init_opcode_hash_from (insn_directive_p start : bool) (nm : string)
    (ops : list riscv_opcode) (hash : gmap string (list riscv_opcode))
  : init_error + gmap string (list riscv_opcode) :=
  match ops with
  | [] => inr hash
  | op :: ops' =>
      if start || negb (String.eqb (name op) nm) then
        match hash !! name op with
        | Some _ => inl (duplicate (name op))
        | None =>
            match check_entry insn_directive_p (name op) op with
            | Some e => inl e
            | None => init_opcode_hash_from insn_directive_p false (name op) ops'
                        (<[name op := ops]> hash)
            end
        end
      else
        match check_entry insn_directive_p nm op with
        | Some e => inl e
        | None => init_opcode_hash_from insn_directive_p false nm ops' hash
        end
  end.

Definition init_opcode_hash (opcodes : list riscv_opcode) (insn_directive_p : bool)
  : init_error + gmap string (list riscv_opcode) :=
  init_opcode_hash_from insn_directive_p true "" opcodes ∅.

(** The entries the assembler tries for a mnemonic: from the entry the hash
    table points to, while the name stays the same. *)
Fixpoint same_name (nm : string) (ops : list riscv_opcode) : list riscv_opcode :=
  match ops with
  | op :: ops' => if String.eqb (name op) nm then op :: same_name nm ops' else []
  | [] => []
  end.

Definition candidates (hash : gmap string (list riscv_opcode)) (nm : string) : list riscv_opcode :=
  match hash !! nm with
  | Some ops => same_name nm ops
  | None => []
  end.

(** ** Properties *)

(** [init_opcode_hash] accepts a table only if all its entries validate. *)
Lemma init_opcode_hash_from_checked d start nm ops hash h :
  init_opcode_hash_from d start nm ops hash = inr h ->
  Forall (fun op => pinfo op <> INSN_MACRO ->
            exists nm', nm' = name op /\ check_entry d nm' op = None) ops.
Proof.
  revert start nm hash. induction ops as [|op ops IH]; simpl; intros start nm hash H; [constructor|].
  repeat split_match_in H; try done; constructor; eauto.
  intros _. exists nm. split; [|done].
  apply orb_false_iff in Heqb as [_ Heqb]. apply negb_false_iff, String.eqb_eq in Heqb. done.
Qed.

Lemma init_opcode_hash_checked ops h :
  init_opcode_hash ops false = inr h ->
  Forall (fun op => pinfo op <> INSN_MACRO -> validate_riscv_insn op 0 = true) ops.
Proof.
  intros H. apply init_opcode_hash_from_checked in H.
  eapply Forall_impl; [exact H|]. simpl. intros op Hop Hm.
  destruct (Hop Hm) as (nm & _ & Hc). unfold check_entry in Hc.
  apply Z.eqb_neq in Hm. rewrite Hm in Hc. simpl in Hc.
  by destruct (validate_riscv_insn op 0).
Qed.

(** The invariant of the loop over the table: [h0] already has group [nm]. *)
Lemma init_opcode_hash_from_inv d ops :
  forall nm h0 h, is_Some (h0 !! nm) ->
  init_opcode_hash_from d false nm ops h0 = inr h ->
  (forall s v, h0 !! s = Some v -> h !! s = Some v) /\
  (forall s, is_Some (h0 !! s) -> s <> nm -> filter (fun op => name op = s) ops = []) /\
  filter (fun op => name op = nm) ops = same_name nm ops /\
  (forall s, h0 !! s = None -> candidates h s = filter (fun op => name op = s) ops).
Proof.
  induction ops as [|op ops IH]; intros nm h0 h Hnm H.
  { simpl in H. injection H as <-. repeat split; try done.
    intros s Hs. unfold candidates. by rewrite Hs. }
  simpl in H. destruct (String.eqb_spec (name op) nm) as [Hn|Hn]; simpl in H.
  - destruct (check_entry d nm op); [done|].
    destruct (IH _ _ _ Hnm H) as (I1 & I2 & I3 & I4).
    split_and!; [done| | |].
    + intros s Hs Hsn. rewrite filter_cons_False by congruence. auto.
    + simpl. rewrite filter_cons_True, I3 by done. subst nm. by rewrite String.eqb_refl.
    + intros s Hs. rewrite filter_cons_False; [auto|].
      intros E. rewrite <- E, Hn, <- not_eq_None_Some in *. destruct Hnm. congruence.
  - destruct (h0 !! name op) eqn:Hop; [done|].
    destruct (check_entry d (name op) op); [done|].
    apply IH in H as (I1 & I2 & I3 & I4); [|rewrite lookup_insert_eq; eauto].
    assert (Hne : forall s, is_Some (h0 !! s) -> s <> name op)
      by (intros s [v Hv] ->; congruence).
    split_and!.
    + intros s v Hs. apply I1. rewrite lookup_insert_ne; [done|]. symmetry. apply Hne. eauto.
    + intros s Hs _. pose proof (Hne s Hs). rewrite filter_cons_False by congruence.
      apply I2; [rewrite lookup_insert_ne by congruence; done|done].
    + simpl. rewrite (proj2 (String.eqb_neq _ _) Hn). rewrite filter_cons_False by done.
      apply I2; [|by apply Hne]. rewrite lookup_insert_ne; [done|]. symmetry. by apply Hne.
    + intros s Hs. destruct (decide (s = name op)) as [->|Hso].
      * rewrite filter_cons_True, I3 by done. unfold candidates.
        erewrite I1 by apply lookup_insert_eq. simpl. by rewrite String.eqb_refl.
      * rewrite filter_cons_False by congruence. apply I4. by rewrite lookup_insert_ne.
Qed.

Lemma hash_candidates (ops : list riscv_opcode) (d : bool)
    (h : gmap string (list riscv_opcode)) (nm : string) :
  init_opcode_hash ops d = inr h ->
  candidates h nm = filter (fun op => name op = nm) ops.
Proof.
  unfold init_opcode_hash. destruct ops as [|op ops]; simpl.
  - intros H. injection H as <-. done.
  - rewrite lookup_empty. destruct (check_entry d (name op) op); [done|]. intros H.
    apply init_opcode_hash_from_inv in H as (I1 & _ & I3 & I4); [|rewrite lookup_insert_eq; eauto].
    destruct (decide (name op = nm)) as [Hn|Hn].
    + subst nm. rewrite filter_cons_True, I3 by done. unfold candidates.
      erewrite I1 by apply lookup_insert_eq. simpl. by rewrite String.eqb_refl.
    + rewrite filter_cons_False by done. apply I4. rewrite lookup_insert_ne by done. apply lookup_empty.
Qed.

Lemma candidates_in (ops : list riscv_opcode) (d : bool) (h : gmap string (list riscv_opcode))
    (nm : string) (op : riscv_opcode) :
  init_opcode_hash ops d = inr h -> In op (candidates h nm) -> In op ops /\ name op = nm.
Proof.
  intros Hh. rewrite (hash_candidates ops d h nm Hh). rewrite <- list_elem_of_In, list_elem_of_filter.
  intros [Hn Hin]. split; [by apply list_elem_of_In|done].
Qed.

(** When [init_opcode_hash] accepts a table, the entries the assembler
    tries for a mnemonic (from the hashed entry on, while the name matches) are
    exactly the entries of the whole table with that name, in table order: no
    overload of an instruction is unreachable and none of another instruction
    is tried. *)
Theorem init_opcode_hash_candidates (ops : list riscv_opcode) (d : bool)
    (h : gmap string (list riscv_opcode)) (nm : string) :
  init_opcode_hash ops d = inr h ->
  candidates h nm = filter (fun op => name op = nm) ops.
Proof. apply hash_candidates. Qed.

(** The hash tables [md_begin] builds. *)
Definition op_hash : gmap string (list riscv_opcode) :=
  success_or ∅ (init_opcode_hash riscv_opcodes false).
Definition insn_type_hash : gmap string (list riscv_opcode) :=
  success_or ∅ (init_opcode_hash riscv_insn_types true).

Lemma op_hash_ok : init_opcode_hash riscv_opcodes false = inr op_hash.
Proof. apply success_or_inr. vm_compute. reflexivity. Qed.

Lemma insn_type_hash_ok : init_opcode_hash riscv_insn_types true = inr insn_type_hash.
Proof. apply success_or_inr. vm_compute. reflexivity. Qed.

Lemma init_opcode_hash_candidates_witness :
  map args (candidates op_hash "jal") = ["Ca"; "a"; "d,a"]%string.
Proof.
  rewrite (init_opcode_hash_candidates riscv_opcodes false op_hash "jal" op_hash_ok).
  vm_compute. reflexivity.
Defined.

(** The bits the operands of [op] may write. *)
Definition operand_bits (op : riscv_opcode) : option Z :=
  validate_operands (String.length (args op)) 0 (chars (args op)).

Lemma validate_operands_lor fuel a b p :
  validate_operands fuel (a .| b) p = Z.lor a <$> validate_operands fuel b p.
Proof.
  revert a b p. induction fuel as [|fuel IH]; intros a b [|c p];
    cbn [validate_operands]; try done.
  destruct (validate_operand (c :: p)) as [[u q]|]; [|done].
  by rewrite <- IH, Z.lor_assoc.
Qed.

(** The match value of the entry unimp, sign-extended from an int. *)
Definition unimp_match : Z := 0xffffffffc0001073.

Definition match_in_width (op : riscv_opcode) : bool :=
  (0 <=? match_ op) && (match_ op <? 2 ^ (8 * riscv_insn_length (match_ op))).

Lemma riscv_opcodes_short :
  forallb (fun op => (pinfo op =? INSN_MACRO)
             || (riscv_insn_length (match_ op) <=? 8)
                && (match_in_width op || String.eqb (name op) "unimp" && (match_ op =? unimp_match)))
    riscv_opcodes = true.
Proof. vm_compute. reflexivity. Qed.

Lemma validate_riscv_insn_bits (op : riscv_opcode) :
  1 <= riscv_insn_length (match_ op) <= 8 ->
  validate_riscv_insn op 0 = true ->
  exists used, operand_bits op = Some used /\
    Z.lor (mask op) used = Z.ones (8 * riscv_insn_length (match_ op)) /\
    Z.land (match_ op) (mask op) = Z.land (match_ op) (Z.ones (8 * riscv_insn_length (match_ op))).
Proof.
  intros Hl. unfold validate_riscv_insn, operand_bits. simpl.
  destruct (Z.ltb_spec 8 (riscv_insn_length (match_ op))) as [|_]; [lia|].
  assert (Hreq : (2 ^ 64 - 1) >> (64 - 8 * riscv_insn_length (match_ op))
                 = Z.ones (8 * riscv_insn_length (match_ op))).
  { replace (2 ^ 64 - 1) with (Z.ones 64) by reflexivity. apply Z.bits_inj'. intros i Hi.
    rewrite Z.shiftr_spec, !Z.testbit_ones_nonneg by lia.
    destruct (Z.ltb_spec (i + (64 - 8 * riscv_insn_length (match_ op))) 64),
      (Z.ltb_spec i (8 * riscv_insn_length (match_ op))); done || lia. }
  rewrite Hreq. destruct (negb _) eqn:E; [done|]. apply negb_false_iff, Z.eqb_eq in E.
  rewrite <- (Z.lor_0_r (mask op)) at 1. rewrite validate_operands_lor.
  destruct (validate_operands _ 0 _) as [u|]; simpl; [|done].
  intros Hu. apply Z.eqb_eq in Hu. exists u. rewrite Z.land_comm. done.
Qed.

Lemma insn_length_pos (w : Z) : 2 <= riscv_insn_length w.
Proof.
  unfold riscv_insn_length. repeat split_match; try lia.
  assert (0 <= Z.land (Z.shiftr w 11) 0xe) by (apply Z.land_nonneg; lia). lia.
Qed.

(** C17: the start-up checks pass on the shipped tables: neither
    [init_opcode_hash] call of [md_begin] is fatal, and every entry of
    [riscv_opcodes] that is not a macro is fully specified, i.e. its mask and the
    bits of its operands together cover the instruction exactly (no bit beyond
    its length, none undefined), and within that length its match value has no
    bit outside its mask.  The match value has no bit beyond the length either,
    except for the entry unimp, where it is sign-extended to 64 bits. *)
Theorem riscv_opcodes_well_formed (op : riscv_opcode) :
  In op riscv_opcodes -> pinfo op <> INSN_MACRO ->
  let width := 8 * riscv_insn_length (match_ op) in
  (exists h, init_opcode_hash riscv_opcodes false = inr h) /\
  (exists h, init_opcode_hash riscv_insn_types true = inr h) /\
  (exists used, operand_bits op = Some used /\
    Z.lor (mask op) used = Z.ones width /\ Z.land (match_ op) (mask op) = match_ op mod 2 ^ width) /\
  (0 <= match_ op < 2 ^ width \/ name op = "unimp"%string /\ match_ op = unimp_match).
Proof.
  intros Hin Hm. cbv zeta. split; [eauto using op_hash_ok|]. split; [eauto using insn_type_hash_ok|].
  pose proof (init_opcode_hash_checked _ _ op_hash_ok) as Hv.
  rewrite Forall_forall in Hv. specialize (Hv op (proj2 (list_elem_of_In _ _) Hin) Hm).
  pose proof riscv_opcodes_short as Hs. rewrite forallb_forall in Hs. specialize (Hs op Hin).
  pose proof (insn_length_pos (match_ op)).
  apply orb_true_iff in Hs as [Hs|Hs]; [by apply Z.eqb_eq in Hs|]. apply andb_true_iff in Hs as [Hs1 Hs2].
  apply Z.leb_le in Hs1. split.
  - destruct (validate_riscv_insn_bits op) as (u & H1 & H2 & H3); [lia|done|].
    exists u. split; [done|]. split; [done|]. rewrite H3, Z.land_ones by lia. done.
  - unfold match_in_width in Hs2. apply orb_true_iff in Hs2 as [Hs2|Hs2]; [left|right]; apply andb_true_iff in Hs2 as [Ha Hb].
    + apply Z.leb_le in Ha. apply Z.ltb_lt in Hb. lia.
    + apply String.eqb_eq in Ha. apply Z.eqb_eq in Hb. done.
Qed.

Lemma riscv_opcodes_well_formed_witness :
  exists used, operand_bits (nth 38 riscv_opcodes (mk_opcode "" 0 INSN_CLASS_NONE "" 0 0 None 0))
               = Some used.
Proof.
  destruct (riscv_opcodes_well_formed (nth 38 riscv_opcodes (mk_opcode "" 0 INSN_CLASS_NONE "" 0 0 None 0)))
    as (_ & _ & (used & H & _) & _).
  - apply nth_In. vm_compute. lia.
  - vm_compute. congruence.
  - exists used. exact H.
Defined.
