(* ===== verification/SubsetTables.v ===== *)
(** * Extension tables (bfd/elfxx-riscv.c, bfd/elfxx-riscv.h, bfd/cpu-riscv.[ch])

    The specification classes, the known ISA extensions with their default
    versions, and the implications between extensions. *)
From Stdlib Require Import ZArith Bool String.
From stdpp Require Import base list strings.
From S2P Require Import Prelude.

#[local] Open Scope Z_scope.

Definition RISCV_UNKNOWN_VERSION : Z := -1.

Inductive riscv_spec_class : Set :=
| ISA_SPEC_CLASS_NONE | ISA_SPEC_CLASS_2P2 | ISA_SPEC_CLASS_20190608
| ISA_SPEC_CLASS_20191213 | ISA_SPEC_CLASS_DRAFT
| PRIV_SPEC_CLASS_NONE | PRIV_SPEC_CLASS_1P9P1 | PRIV_SPEC_CLASS_1P10
| PRIV_SPEC_CLASS_1P11 | PRIV_SPEC_CLASS_1P12 | PRIV_SPEC_CLASS_DRAFT.

#[global] Instance riscv_spec_class_eq_dec : EqDecision riscv_spec_class.
Proof. solve_decision. Defined.

(** The [enum] values, in declaration order. *)
Definition spec_value (c : riscv_spec_class) : Z :=
  match c with
  | ISA_SPEC_CLASS_NONE => 0 | ISA_SPEC_CLASS_2P2 => 1 | ISA_SPEC_CLASS_20190608 => 2
  | ISA_SPEC_CLASS_20191213 => 3 | ISA_SPEC_CLASS_DRAFT => 4
  | PRIV_SPEC_CLASS_NONE => 5 | PRIV_SPEC_CLASS_1P9P1 => 6 | PRIV_SPEC_CLASS_1P10 => 7
  | PRIV_SPEC_CLASS_1P11 => 8 | PRIV_SPEC_CLASS_1P12 => 9 | PRIV_SPEC_CLASS_DRAFT => 10
  end.

(** [riscv_isa_specs] and [riscv_priv_specs]. *)
Definition riscv_isa_specs : list (string * riscv_spec_class) :=
  [("2.2", ISA_SPEC_CLASS_2P2); ("20190608", ISA_SPEC_CLASS_20190608);
   ("20191213", ISA_SPEC_CLASS_20191213)]%string.

Definition riscv_priv_specs : list (string * riscv_spec_class) :=
  [("1.9.1", PRIV_SPEC_CLASS_1P9P1); ("1.10", PRIV_SPEC_CLASS_1P10);
   ("1.11", PRIV_SPEC_CLASS_1P11); ("1.12", PRIV_SPEC_CLASS_1P12)]%string.

(** The [check_func] of an implication. *)
Inductive check_func_t : Set := CF_check_implicit_always | CF_check_implicit_for_i.

Record riscv_implicit_subset : Set := mk_implicit {
  subset_name : string;
  implicit_name : string;
  check_func : check_func_t;
}.

Definition EXT_DEFAULT : Z := 0x1.

Record riscv_supported_ext : Set := mk_ext {
  ext_name : string;
  isa_spec_class : riscv_spec_class;
  ext_major_version : Z;
  ext_minor_version : Z;
  default_enable : Z;
}.

Definition riscv_implicit_subsets : list riscv_implicit_subset :=
  [ mk_implicit "e" "i" CF_check_implicit_always;
    mk_implicit "i" "zicsr" CF_check_implicit_for_i;
    mk_implicit "i" "zifencei" CF_check_implicit_for_i;
    mk_implicit "g" "i" CF_check_implicit_always;
    mk_implicit "g" "m" CF_check_implicit_always;
    mk_implicit "g" "a" CF_check_implicit_always;
    mk_implicit "g" "f" CF_check_implicit_always;
    mk_implicit "g" "d" CF_check_implicit_always;
    mk_implicit "g" "zicsr" CF_check_implicit_always;
    mk_implicit "g" "zifencei" CF_check_implicit_always;
    mk_implicit "m" "zmmul" CF_check_implicit_always;
    mk_implicit "h" "zicsr" CF_check_implicit_always;
    mk_implicit "q" "d" CF_check_implicit_always;
    mk_implicit "v" "d" CF_check_implicit_always;
    mk_implicit "v" "zve64d" CF_check_implicit_always;
    mk_implicit "v" "zvl128b" CF_check_implicit_always;
    mk_implicit "zvfh" "zvfhmin" CF_check_implicit_always;
    mk_implicit "zvfh" "zfhmin" CF_check_implicit_always;
    mk_implicit "zvfhmin" "zve32f" CF_check_implicit_always;
    mk_implicit "zve64d" "d" CF_check_implicit_always;
    mk_implicit "zve64d" "zve64f" CF_check_implicit_always;
    mk_implicit "zve64f" "zve32f" CF_check_implicit_always;
    mk_implicit "zve64f" "zve64x" CF_check_implicit_always;
    mk_implicit "zve64f" "zvl64b" CF_check_implicit_always;
    mk_implicit "zve32f" "f" CF_check_implicit_always;
    mk_implicit "zve32f" "zvl32b" CF_check_implicit_always;
    mk_implicit "zve32f" "zve32x" CF_check_implicit_always;
    mk_implicit "zve64x" "zve32x" CF_check_implicit_always;
    mk_implicit "zve64x" "zvl64b" CF_check_implicit_always;
    mk_implicit "zve32x" "zvl32b" CF_check_implicit_always;
    mk_implicit "zve32x" "zicsr" CF_check_implicit_always;
    mk_implicit "zvl65536b" "zvl32768b" CF_check_implicit_always;
    mk_implicit "zvl32768b" "zvl16384b" CF_check_implicit_always;
    mk_implicit "zvl16384b" "zvl8192b" CF_check_implicit_always;
    mk_implicit "zvl8192b" "zvl4096b" CF_check_implicit_always;
    mk_implicit "zvl4096b" "zvl2048b" CF_check_implicit_always;
    mk_implicit "zvl2048b" "zvl1024b" CF_check_implicit_always;
    mk_implicit "zvl1024b" "zvl512b" CF_check_implicit_always;
    mk_implicit "zvl512b" "zvl256b" CF_check_implicit_always;
    mk_implicit "zvl256b" "zvl128b" CF_check_implicit_always;
    mk_implicit "zvl128b" "zvl64b" CF_check_implicit_always;
    mk_implicit "zvl64b" "zvl32b" CF_check_implicit_always;
    mk_implicit "zicntr" "zicsr" CF_check_implicit_always;
    mk_implicit "zihpm" "zicsr" CF_check_implicit_always;
    mk_implicit "zcd" "d" CF_check_implicit_always;
    mk_implicit "zcf" "f" CF_check_implicit_always;
    mk_implicit "zfa" "f" CF_check_implicit_always;
    mk_implicit "d" "f" CF_check_implicit_always;
    mk_implicit "zfh" "zfhmin" CF_check_implicit_always;
    mk_implicit "zfhmin" "f" CF_check_implicit_always;
    mk_implicit "f" "zicsr" CF_check_implicit_always;
    mk_implicit "zqinx" "zdinx" CF_check_implicit_always;
    mk_implicit "zdinx" "zfinx" CF_check_implicit_always;
    mk_implicit "zhinx" "zhinxmin" CF_check_implicit_always;
    mk_implicit "zhinxmin" "zfinx" CF_check_implicit_always;
    mk_implicit "zfinx" "zicsr" CF_check_implicit_always;
    mk_implicit "zk" "zkn" CF_check_implicit_always;
    mk_implicit "zk" "zkr" CF_check_implicit_always;
    mk_implicit "zk" "zkt" CF_check_implicit_always;
    mk_implicit "zkn" "zbkb" CF_check_implicit_always;
    mk_implicit "zkn" "zbkc" CF_check_implicit_always;
    mk_implicit "zkn" "zbkx" CF_check_implicit_always;
    mk_implicit "zkn" "zkne" CF_check_implicit_always;
    mk_implicit "zkn" "zknd" CF_check_implicit_always;
    mk_implicit "zkn" "zknh" CF_check_implicit_always;
    mk_implicit "zks" "zbkb" CF_check_implicit_always;
    mk_implicit "zks" "zbkc" CF_check_implicit_always;
    mk_implicit "zks" "zbkx" CF_check_implicit_always;
    mk_implicit "zks" "zksed" CF_check_implicit_always;
    mk_implicit "zks" "zksh" CF_check_implicit_always;
    mk_implicit "zvbb" "zvkb" CF_check_implicit_always;
    mk_implicit "zvkn" "zvkned" CF_check_implicit_always;
    mk_implicit "zvkn" "zvknha" CF_check_implicit_always;
    mk_implicit "zvkn" "zvknhb" CF_check_implicit_always;
    mk_implicit "zvkn" "zvkb" CF_check_implicit_always;
    mk_implicit "zvkn" "zvkt" CF_check_implicit_always;
    mk_implicit "zvkng" "zvkn" CF_check_implicit_always;
    mk_implicit "zvkng" "zvkg" CF_check_implicit_always;
    mk_implicit "zvknc" "zvkn" CF_check_implicit_always;
    mk_implicit "zvknc" "zvbc" CF_check_implicit_always;
    mk_implicit "zvks" "zvksed" CF_check_implicit_always;
    mk_implicit "zvks" "zvksh" CF_check_implicit_always;
    mk_implicit "zvks" "zvkb" CF_check_implicit_always;
    mk_implicit "zvks" "zvkt" CF_check_implicit_always;
    mk_implicit "zvksg" "zvks" CF_check_implicit_always;
    mk_implicit "zvksg" "zvkg" CF_check_implicit_always;
    mk_implicit "zvksc" "zvks" CF_check_implicit_always;
    mk_implicit "zvksc" "zvbc" CF_check_implicit_always;
    mk_implicit "zcf" "zca" CF_check_implicit_always;
    mk_implicit "zcd" "zca" CF_check_implicit_always;
    mk_implicit "zcb" "zca" CF_check_implicit_always;
    mk_implicit "smaia" "ssaia" CF_check_implicit_always;
    mk_implicit "smcntrpmf" "zicsr" CF_check_implicit_always;
    mk_implicit "smstateen" "ssstateen" CF_check_implicit_always;
    mk_implicit "smepmp" "zicsr" CF_check_implicit_always;
    mk_implicit "ssaia" "zicsr" CF_check_implicit_always;
    mk_implicit "sscofpmf" "zicsr" CF_check_implicit_always;
    mk_implicit "ssstateen" "zicsr" CF_check_implicit_always;
    mk_implicit "sstc" "zicsr" CF_check_implicit_always;
    mk_implicit "svadu" "zicsr" CF_check_implicit_always;
    mk_implicit "xsfvcp" "zve32x" CF_check_implicit_always ]%string.

Definition riscv_supported_std_ext : list riscv_supported_ext :=
  [ mk_ext "e" ISA_SPEC_CLASS_20191213 1 9 0;
    mk_ext "e" ISA_SPEC_CLASS_20190608 1 9 0;
    mk_ext "e" ISA_SPEC_CLASS_2P2 1 9 0;
    mk_ext "i" ISA_SPEC_CLASS_20191213 2 1 0;
    mk_ext "i" ISA_SPEC_CLASS_20190608 2 1 0;
    mk_ext "i" ISA_SPEC_CLASS_2P2 2 0 0;
    mk_ext "g" ISA_SPEC_CLASS_NONE RISCV_UNKNOWN_VERSION RISCV_UNKNOWN_VERSION EXT_DEFAULT;
    mk_ext "m" ISA_SPEC_CLASS_20191213 2 0 0;
    mk_ext "m" ISA_SPEC_CLASS_20190608 2 0 0;
    mk_ext "m" ISA_SPEC_CLASS_2P2 2 0 0;
    mk_ext "a" ISA_SPEC_CLASS_20191213 2 1 0;
    mk_ext "a" ISA_SPEC_CLASS_20190608 2 0 0;
    mk_ext "a" ISA_SPEC_CLASS_2P2 2 0 0;
    mk_ext "f" ISA_SPEC_CLASS_20191213 2 2 0;
    mk_ext "f" ISA_SPEC_CLASS_20190608 2 2 0;
    mk_ext "f" ISA_SPEC_CLASS_2P2 2 0 0;
    mk_ext "d" ISA_SPEC_CLASS_20191213 2 2 0;
    mk_ext "d" ISA_SPEC_CLASS_20190608 2 2 0;
    mk_ext "d" ISA_SPEC_CLASS_2P2 2 0 0;
    mk_ext "q" ISA_SPEC_CLASS_20191213 2 2 0;
    mk_ext "q" ISA_SPEC_CLASS_20190608 2 2 0;
    mk_ext "q" ISA_SPEC_CLASS_2P2 2 0 0;
    mk_ext "c" ISA_SPEC_CLASS_20191213 2 0 0;
    mk_ext "c" ISA_SPEC_CLASS_20190608 2 0 0;
    mk_ext "c" ISA_SPEC_CLASS_2P2 2 0 0;
    mk_ext "v" ISA_SPEC_CLASS_DRAFT 1 0 0;
    mk_ext "h" ISA_SPEC_CLASS_DRAFT 1 0 0 ]%string.

Definition riscv_supported_std_z_ext : list riscv_supported_ext :=
  [ mk_ext "zicbom" ISA_SPEC_CLASS_DRAFT 1 0 0;
    mk_ext "zicbop" ISA_SPEC_CLASS_DRAFT 1 0 0;
    mk_ext "zicboz" ISA_SPEC_CLASS_DRAFT 1 0 0;
    mk_ext "zicond" ISA_SPEC_CLASS_DRAFT 1 0 0;
    mk_ext "zicntr" ISA_SPEC_CLASS_DRAFT 2 0 0;
    mk_ext "zicsr" ISA_SPEC_CLASS_20191213 2 0 0;
    mk_ext "zicsr" ISA_SPEC_CLASS_20190608 2 0 0;
    mk_ext "zifencei" ISA_SPEC_CLASS_20191213 2 0 0;
    mk_ext "zifencei" ISA_SPEC_CLASS_20190608 2 0 0;
    mk_ext "zihintntl" ISA_SPEC_CLASS_DRAFT 1 0 0;
    mk_ext "zihintpause" ISA_SPEC_CLASS_DRAFT 2 0 0;
    mk_ext "zihpm" ISA_SPEC_CLASS_DRAFT 2 0 0;
    mk_ext "zmmul" ISA_SPEC_CLASS_DRAFT 1 0 0;
    mk_ext "zawrs" ISA_SPEC_CLASS_DRAFT 1 0 0;
    mk_ext "zfa" ISA_SPEC_CLASS_DRAFT 1 0 0;
    mk_ext "zfh" ISA_SPEC_CLASS_DRAFT 1 0 0;
    mk_ext "zfhmin" ISA_SPEC_CLASS_DRAFT 1 0 0;
    mk_ext "zfinx" ISA_SPEC_CLASS_DRAFT 1 0 0;
    mk_ext "zdinx" ISA_SPEC_CLASS_DRAFT 1 0 0;
    mk_ext "zqinx" ISA_SPEC_CLASS_DRAFT 1 0 0;
    mk_ext "zhinx" ISA_SPEC_CLASS_DRAFT 1 0 0;
    mk_ext "zhinxmin" ISA_SPEC_CLASS_DRAFT 1 0 0;
    mk_ext "zbb" ISA_SPEC_CLASS_DRAFT 1 0 0;
    mk_ext "zba" ISA_SPEC_CLASS_DRAFT 1 0 0;
    mk_ext "zbc" ISA_SPEC_CLASS_DRAFT 1 0 0;
    mk_ext "zbs" ISA_SPEC_CLASS_DRAFT 1 0 0;
    mk_ext "zbkb" ISA_SPEC_CLASS_DRAFT 1 0 0;
    mk_ext "zbkc" ISA_SPEC_CLASS_DRAFT 1 0 0;
    mk_ext "zbkx" ISA_SPEC_CLASS_DRAFT 1 0 0;
    mk_ext "zk" ISA_SPEC_CLASS_DRAFT 1 0 0;
    mk_ext "zkn" ISA_SPEC_CLASS_DRAFT 1 0 0;
    mk_ext "zknd" ISA_SPEC_CLASS_DRAFT 1 0 0;
    mk_ext "zkne" ISA_SPEC_CLASS_DRAFT 1 0 0;
    mk_ext "zknh" ISA_SPEC_CLASS_DRAFT 1 0 0;
    mk_ext "zkr" ISA_SPEC_CLASS_DRAFT 1 0 0;
    mk_ext "zks" ISA_SPEC_CLASS_DRAFT 1 0 0;
    mk_ext "zksed" ISA_SPEC_CLASS_DRAFT 1 0 0;
    mk_ext "zksh" ISA_SPEC_CLASS_DRAFT 1 0 0;
    mk_ext "zkt" ISA_SPEC_CLASS_DRAFT 1 0 0;
    mk_ext "zve32x" ISA_SPEC_CLASS_DRAFT 1 0 0;
    mk_ext "zve32f" ISA_SPEC_CLASS_DRAFT 1 0 0;
    mk_ext "zve64x" ISA_SPEC_CLASS_DRAFT 1 0 0;
    mk_ext "zve64f" ISA_SPEC_CLASS_DRAFT 1 0 0;
    mk_ext "zve64d" ISA_SPEC_CLASS_DRAFT 1 0 0;
    mk_ext "zvbb" ISA_SPEC_CLASS_DRAFT 1 0 0;
    mk_ext "zvbc" ISA_SPEC_CLASS_DRAFT 1 0 0;
    mk_ext "zvfh" ISA_SPEC_CLASS_DRAFT 1 0 0;
    mk_ext "zvfhmin" ISA_SPEC_CLASS_DRAFT 1 0 0;
    mk_ext "zvkb" ISA_SPEC_CLASS_DRAFT 1 0 0;
    mk_ext "zvkg" ISA_SPEC_CLASS_DRAFT 1 0 0;
    mk_ext "zvkn" ISA_SPEC_CLASS_DRAFT 1 0 0;
    mk_ext "zvkng" ISA_SPEC_CLASS_DRAFT 1 0 0;
    mk_ext "zvknc" ISA_SPEC_CLASS_DRAFT 1 0 0;
    mk_ext "zvkned" ISA_SPEC_CLASS_DRAFT 1 0 0;
    mk_ext "zvknha" ISA_SPEC_CLASS_DRAFT 1 0 0;
    mk_ext "zvknhb" ISA_SPEC_CLASS_DRAFT 1 0 0;
    mk_ext "zvksed" ISA_SPEC_CLASS_DRAFT 1 0 0;
    mk_ext "zvksh" ISA_SPEC_CLASS_DRAFT 1 0 0;
    mk_ext "zvks" ISA_SPEC_CLASS_DRAFT 1 0 0;
    mk_ext "zvksg" ISA_SPEC_CLASS_DRAFT 1 0 0;
    mk_ext "zvksc" ISA_SPEC_CLASS_DRAFT 1 0 0;
    mk_ext "zvkt" ISA_SPEC_CLASS_DRAFT 1 0 0;
    mk_ext "zvl32b" ISA_SPEC_CLASS_DRAFT 1 0 0;
    mk_ext "zvl64b" ISA_SPEC_CLASS_DRAFT 1 0 0;
    mk_ext "zvl128b" ISA_SPEC_CLASS_DRAFT 1 0 0;
    mk_ext "zvl256b" ISA_SPEC_CLASS_DRAFT 1 0 0;
    mk_ext "zvl512b" ISA_SPEC_CLASS_DRAFT 1 0 0;
    mk_ext "zvl1024b" ISA_SPEC_CLASS_DRAFT 1 0 0;
    mk_ext "zvl2048b" ISA_SPEC_CLASS_DRAFT 1 0 0;
    mk_ext "zvl4096b" ISA_SPEC_CLASS_DRAFT 1 0 0;
    mk_ext "zvl8192b" ISA_SPEC_CLASS_DRAFT 1 0 0;
    mk_ext "zvl16384b" ISA_SPEC_CLASS_DRAFT 1 0 0;
    mk_ext "zvl32768b" ISA_SPEC_CLASS_DRAFT 1 0 0;
    mk_ext "zvl65536b" ISA_SPEC_CLASS_DRAFT 1 0 0;
    mk_ext "ztso" ISA_SPEC_CLASS_DRAFT 1 0 0;
    mk_ext "zca" ISA_SPEC_CLASS_DRAFT 1 0 0;
    mk_ext "zcb" ISA_SPEC_CLASS_DRAFT 1 0 0;
    mk_ext "zcf" ISA_SPEC_CLASS_DRAFT 1 0 0;
    mk_ext "zcd" ISA_SPEC_CLASS_DRAFT 1 0 0 ]%string.

Definition riscv_supported_std_s_ext : list riscv_supported_ext :=
  [ mk_ext "smaia" ISA_SPEC_CLASS_DRAFT 1 0 0;
    mk_ext "smcntrpmf" ISA_SPEC_CLASS_DRAFT 1 0 0;
    mk_ext "smepmp" ISA_SPEC_CLASS_DRAFT 1 0 0;
    mk_ext "smstateen" ISA_SPEC_CLASS_DRAFT 1 0 0;
    mk_ext "ssaia" ISA_SPEC_CLASS_DRAFT 1 0 0;
    mk_ext "sscofpmf" ISA_SPEC_CLASS_DRAFT 1 0 0;
    mk_ext "ssstateen" ISA_SPEC_CLASS_DRAFT 1 0 0;
    mk_ext "sstc" ISA_SPEC_CLASS_DRAFT 1 0 0;
    mk_ext "svadu" ISA_SPEC_CLASS_DRAFT 1 0 0;
    mk_ext "svinval" ISA_SPEC_CLASS_DRAFT 1 0 0;
    mk_ext "svnapot" ISA_SPEC_CLASS_DRAFT 1 0 0;
    mk_ext "svpbmt" ISA_SPEC_CLASS_DRAFT 1 0 0 ]%string.

Definition riscv_supported_std_zxm_ext : list riscv_supported_ext :=
  []%string.

Definition riscv_supported_vendor_x_ext : list riscv_supported_ext :=
  [ mk_ext "xcvmac" ISA_SPEC_CLASS_DRAFT 1 0 0;
    mk_ext "xcvalu" ISA_SPEC_CLASS_DRAFT 1 0 0;
    mk_ext "xtheadba" ISA_SPEC_CLASS_DRAFT 1 0 0;
    mk_ext "xtheadbb" ISA_SPEC_CLASS_DRAFT 1 0 0;
    mk_ext "xtheadbs" ISA_SPEC_CLASS_DRAFT 1 0 0;
    mk_ext "xtheadcmo" ISA_SPEC_CLASS_DRAFT 1 0 0;
    mk_ext "xtheadcondmov" ISA_SPEC_CLASS_DRAFT 1 0 0;
    mk_ext "xtheadfmemidx" ISA_SPEC_CLASS_DRAFT 1 0 0;
    mk_ext "xtheadfmv" ISA_SPEC_CLASS_DRAFT 1 0 0;
    mk_ext "xtheadint" ISA_SPEC_CLASS_DRAFT 1 0 0;
    mk_ext "xtheadmac" ISA_SPEC_CLASS_DRAFT 1 0 0;
    mk_ext "xtheadmemidx" ISA_SPEC_CLASS_DRAFT 1 0 0;
    mk_ext "xtheadmempair" ISA_SPEC_CLASS_DRAFT 1 0 0;
    mk_ext "xtheadsync" ISA_SPEC_CLASS_DRAFT 1 0 0;
    mk_ext "xtheadvector" ISA_SPEC_CLASS_DRAFT 1 0 0;
    mk_ext "xtheadzvamo" ISA_SPEC_CLASS_DRAFT 1 0 0;
    mk_ext "xventanacondops" ISA_SPEC_CLASS_DRAFT 1 0 0;
    mk_ext "xsfvcp" ISA_SPEC_CLASS_DRAFT 1 0 0 ]%string.

(** [riscv_all_supported_ext]. *)
Definition riscv_all_supported_ext : list (list riscv_supported_ext) :=
  [riscv_supported_std_ext; riscv_supported_std_z_ext; riscv_supported_std_s_ext;
   riscv_supported_std_zxm_ext; riscv_supported_vendor_x_ext].
