(* ===== verification/Subset.v ===== *)
(** * ISA subset lists (bfd/elfxx-riscv.c, bfd/elfxx-riscv.h)

    The list of enabled ISA extensions: its canonical order, look-up,
    insertion and removal, the parser of ISA strings, the closure under
    implied extensions, the conflict check, and the printer of the
    architecture string.

    A [riscv_subset_t] chain is the list of its nodes, so a node pointer is an
    index in that list ([None] for [NULL]); [tail] is kept as such a pointer.
    [error_handler] is the log [errors].  *)
From Stdlib Require Import ZArith Bool Ascii Lia.
From stdpp Require Import base list strings.
From S2P Require Import Prelude RiscvH SubsetTables.

#[local] Open Scope Z_scope.

(** ** Data *)

Record riscv_subset_t : Set := mk_subset {
  sub_name : string;
  major_version : Z;
  minor_version : Z;
}.

Record riscv_subset_list_t : Set := mk_subset_list {
  nodes : list riscv_subset_t;      (* the chain from head *)
  tail : option nat;
  arch_str : option string;
}.

(** The messages [error_handler] is called with. *)
Inductive subset_error : Set :=
| E_x_version (s : string) | E_no_default_version (s : string)
| E_first_extension | E_unknown_std (c : ascii) | E_ends_with_p (s : string)
| E_unknown_prefixed (s : string) | E_separate | E_rve_h (xlen : Z) | E_q (xlen : Z)
| E_zcf (xlen : Z) | E_zfinx_f | E_xtheadvector_v | E_zvl_needs_zve
| E_uppercase | E_rv_prefix
| E_option_ends_with_p | E_option_unknown (s : string) | E_option_base (s : string)
| E_outside_order (c : ascii)   (* no message of the code: [riscv_ext_order] was read outside of its bounds *)
| E_bound.      (* no message of the code: the bound on the iterations of a loop was reached *)

Record riscv_parse_subset_t : Set := mk_rps {
  subset_list : riscv_subset_list_t;
  errors : list subset_error;
  rps_xlen : Z;
  isa_spec : riscv_spec_class;
  check_unknown_prefixed_ext : bool;
}.

Definition error_handler (rps : riscv_parse_subset_t) (e : subset_error) : riscv_parse_subset_t :=
  mk_rps (subset_list rps) (errors rps ++ [e]) (rps_xlen rps) (isa_spec rps)
    (check_unknown_prefixed_ext rps).

Definition set_subset_list (rps : riscv_parse_subset_t) (l : riscv_subset_list_t)
  : riscv_parse_subset_t :=
  mk_rps l (errors rps) (rps_xlen rps) (isa_spec rps) (check_unknown_prefixed_ext rps).

Definition set_rps_xlen (rps : riscv_parse_subset_t) (xlen : Z) : riscv_parse_subset_t :=
  mk_rps (subset_list rps) (errors rps) xlen (isa_spec rps) (check_unknown_prefixed_ext rps).

(** ** Canonical order *)

Inductive riscv_prefix_ext_class : Set :=
| RV_ISA_CLASS_Z | RV_ISA_CLASS_S | RV_ISA_CLASS_ZXM | RV_ISA_CLASS_X | RV_ISA_CLASS_SINGLE.

#[global] Instance riscv_prefix_ext_class_eq_dec : EqDecision riscv_prefix_ext_class.
Proof. solve_decision. Defined.

(** The [enum] value of a class. *)
Definition class_value (c : riscv_prefix_ext_class) : Z :=
  match c with
  | RV_ISA_CLASS_Z => 1 | RV_ISA_CLASS_S => 2 | RV_ISA_CLASS_ZXM => 3
  | RV_ISA_CLASS_X => 4 | RV_ISA_CLASS_SINGLE => 5
  end.

Definition parse_config : list (riscv_prefix_ext_class * string) :=
  [(RV_ISA_CLASS_ZXM, "zxm"); (RV_ISA_CLASS_Z, "z"); (RV_ISA_CLASS_S, "s");
   (RV_ISA_CLASS_X, "x")]%string.

Fixpoint prefix_class_from (config : list (riscv_prefix_ext_class * string)) (arch : list ascii)
  : riscv_prefix_ext_class :=
  match config with
  | [] => RV_ISA_CLASS_SINGLE
  | (class, prefix) :: config' =>
      match strip_prefix (chars prefix) arch with
      | Some _ => class
      | None => prefix_class_from config' arch
      end
  end.

Definition riscv_get_prefix_class (arch : list ascii) : riscv_prefix_ext_class :=
  prefix_class_from parse_config arch.

Definition riscv_known_prefixed_ext (ext : string) (known_exts : list riscv_supported_ext) : bool :=
  existsb (fun e => String.eqb ext (ext_name e)) known_exts.

Definition riscv_recognized_prefixed_ext (ext : string) : bool :=
  match riscv_get_prefix_class (chars ext) with
  | RV_ISA_CLASS_Z => riscv_known_prefixed_ext ext riscv_supported_std_z_ext
  | RV_ISA_CLASS_ZXM => riscv_known_prefixed_ext ext riscv_supported_std_zxm_ext
  | RV_ISA_CLASS_S => riscv_known_prefixed_ext ext riscv_supported_std_s_ext
  | RV_ISA_CLASS_X => negb (String.eqb ext "x")
  | RV_ISA_CLASS_SINGLE => false
  end.

Definition riscv_ext_canonical_order : list ascii := chars "eigmafdqlcbkjtpvnh".

(** [riscv_ext_order[c - 'a']] after [riscv_init_ext_order]: the position of
    the letter from 1, or 0.  The array has 26 elements; what the code finds
    outside of it, for a character that is no lower case letter, is not known.
    Where a string makes the parsers read there, they stop with
    [E_outside_order]; the names of a well-formed list are compared without
    leaving the array ([compare_reads_inside] in SubsetOrder). *)
Definition in_ext_order (c : ascii) : bool := (97 <=? nat_of_ascii c)%nat && (nat_of_ascii c <=? 122)%nat.

Fixpoint order_from (order : Z) (letters : list ascii) (c : ascii) : Z :=
  match letters with
  | [] => 0
  | d :: letters' => if Ascii.eqb c d then order else order_from (order + 1) letters' c
  end.

Definition riscv_ext_order (c : ascii) : Z := order_from 1 riscv_ext_canonical_order c.

(** The character [*p]; the terminator of the string is NUL. *)
Definition head_char (p : list ascii) : ascii :=
  match p with c :: _ => c | [] => "000"%char end.

Definition next_char (p : list ascii) : list ascii := List.tl p.

Definition riscv_compare_subsets (s1 s2 : string) : Z :=
  let subset1 := chars s1 in
  let subset2 := chars s2 in
  let order1 := riscv_ext_order (head_char subset1) in
  let order2 := riscv_ext_order (head_char subset2) in
  if (order1 >? 0) && (order2 >? 0) then order1 - order2
  else
    let class1 := riscv_get_prefix_class subset1 in
    let class2 := riscv_get_prefix_class subset2 in
    let order1 := if decide (class1 = RV_ISA_CLASS_SINGLE) then order1 else - class_value class1 in
    let order2 := if decide (class2 = RV_ISA_CLASS_SINGLE) then order2 else - class_value class2 in
    if order1 =? order2 then
      if decide (class1 = RV_ISA_CLASS_Z) then
        let subset1 := next_char subset1 in
        let subset2 := next_char subset2 in
        let order1 := riscv_ext_order (head_char subset1) in
        let order2 := riscv_ext_order (head_char subset2) in
        if negb (order1 =? order2) then order1 - order2
        else strcasecmp (next_char subset1) (next_char subset2)
      else strcasecmp (next_char subset1) (next_char subset2)
    else order2 - order1.

(** ** Look-up, insertion, removal *)

(** The loop of [riscv_lookup_subset], at node [i] with predecessor [pre_s]. *)
Fixpoint lookup_loop (s : list riscv_subset_t) (i : nat) (pre_s : option nat) (subset : string)
  : bool * option nat :=
  match s with
  | [] => (false, pre_s)
  | n :: s' =>
      let cmp := riscv_compare_subsets (sub_name n) subset in
      if cmp =? 0 then (true, Some i)
      else if cmp >? 0 then (false, pre_s)
      else lookup_loop s' (S i) (Some i) subset
  end.

(** The result and [*current]. *)
Definition riscv_lookup_subset (l : riscv_subset_list_t) (subset : string) : bool * option nat :=
  match tail l ≫= (nodes l !!.) with
  | Some t => if riscv_compare_subsets (sub_name t) subset <? 0 then (false, tail l)
              else lookup_loop (nodes l) 0 None subset
  | None => lookup_loop (nodes l) 0 None subset
  end.

Definition riscv_add_subset (l : riscv_subset_list_t) (subset : string) (major minor : Z)
  : riscv_subset_list_t :=
  let '(found, current) := riscv_lookup_subset l subset in
  if found then l
  else
    let new := mk_subset subset major minor in
    (* where the new node goes: after [current], or at the head *)
    let pos := match current with Some k => S k | None => O end in
    let nodes' := take pos (nodes l) ++ new :: drop pos (nodes l) in
    let tail' := match drop pos (nodes l) with
                 | [] => Some pos                     (* new->next == NULL *)
                 | _ :: _ => (fun t => if (pos <=? t)%nat then S t else t) <$> tail l
                 end in
    mk_subset_list nodes' tail' (arch_str l).

(** The loop of [riscv_remove_subset]: the index of the node [subset]. *)
Fixpoint find_node (s : list riscv_subset_t) (subset : string) : option nat :=
  match s with
  | [] => None
  | n :: s' => if String.eqb (sub_name n) subset then Some O else S <$> find_node s' subset
  end.

Definition riscv_remove_subset (l : riscv_subset_list_t) (subset : string) : riscv_subset_list_t :=
  match find_node (nodes l) subset with
  | None => l
  | Some i =>
      let tail' := match drop (S i) (nodes l) with
                   | [] => match i with O => None | S pre => Some pre end
                   | _ :: _ => (fun t => if (i <? t)%nat then pred t else t) <$> tail l
                   end in
      mk_subset_list (take i (nodes l) ++ drop (S i) (nodes l)) tail' (arch_str l)
  end.

Definition riscv_release_subset_list (l : riscv_subset_list_t) : riscv_subset_list_t :=
  mk_subset_list [] None None.

(** [riscv_copy_subset_list]: [riscv_copy_subset] sets [tail] at the last node;
    for an empty list nothing sets it, and it keeps what [xmalloc] left there. *)
Fixpoint riscv_copy_subset (i : nat) (s : list riscv_subset_t) (new_tail : option nat)
  : list riscv_subset_t * option nat :=
  match s with
  | [] => ([], new_tail)
  | n :: s' =>
      let '(next, new_tail') := riscv_copy_subset (S i) s' new_tail in
      (mk_subset (sub_name n) (major_version n) (minor_version n) :: next,
       match s' with [] => Some i | _ :: _ => new_tail' end)
  end.

Definition riscv_copy_subset_list (garbage : option nat) (l : riscv_subset_list_t)
  : riscv_subset_list_t :=
  let '(new, new_tail) := riscv_copy_subset 0 (nodes l) garbage in
  mk_subset_list new new_tail (arch_str l).

(** ** Versions *)

Fixpoint find_version (table : list riscv_supported_ext) (name : string)
    (default_isa_spec : riscv_spec_class) (versions : Z * Z) : Z * Z :=
  match table with
  | [] => versions
  | e :: table' =>
      if String.eqb (ext_name e) name
         && (bool_decide (isa_spec_class e = ISA_SPEC_CLASS_DRAFT)
             || bool_decide (isa_spec_class e = default_isa_spec))
      then (ext_major_version e, ext_minor_version e)
      else find_version table' name default_isa_spec versions
  end.

Definition riscv_get_default_ext_version (default_isa_spec : riscv_spec_class) (name : string)
    (versions : Z * Z) : Z * Z :=
  if decide (default_isa_spec = ISA_SPEC_CLASS_NONE) then versions
  else
    let table := match riscv_get_prefix_class (chars name) with
                 | RV_ISA_CLASS_ZXM => riscv_supported_std_zxm_ext
                 | RV_ISA_CLASS_Z => riscv_supported_std_z_ext
                 | RV_ISA_CLASS_S => riscv_supported_std_s_ext
                 | RV_ISA_CLASS_X => riscv_supported_vendor_x_ext
                 | RV_ISA_CLASS_SINGLE => riscv_supported_std_ext
                 end in
    find_version table name default_isa_spec versions.

Definition unknown_version (versions : Z * Z) : bool :=
  (versions.1 =? RISCV_UNKNOWN_VERSION) || (versions.2 =? RISCV_UNKNOWN_VERSION).

Definition riscv_parse_add_subset (rps : riscv_parse_subset_t) (subset : string)
    (major minor : Z) (implicit : bool) : riscv_parse_subset_t :=
  let versions := if unknown_version (major, minor)
                  then riscv_get_default_ext_version (isa_spec rps) subset (major, minor)
                  else (major, minor) in
  if negb implicit && unknown_version versions then
    if Ascii.eqb (head_char (chars subset)) "x" then error_handler rps (E_x_version subset)
    else if negb (String.eqb subset "zicsr") && negb (String.eqb subset "zifencei")
    then error_handler rps (E_no_default_version subset)
    else rps
  else
    set_subset_list rps (riscv_add_subset (subset_list rps) subset versions.1 versions.2).

(** The loop of [riscv_parsing_subset_version]: the end pointer, [major_p],
    [*major_version] and [version]. *)
Fixpoint version_loop (p : list ascii) (major_p : bool) (major version : Z)
  : list ascii * bool * Z * Z :=
  match p with
  | [] => (p, major_p, major, version)
  | c :: p' =>
      if Ascii.eqb c "p" then
        if negb (is_digit (head_char p')) then (p, major_p, major, version)
        else version_loop p' false version 0
      else if is_digit c
      then version_loop p' major_p major (s32 (version * 10 + (Z.of_nat (nat_of_ascii c) - 48)))
      else (p, major_p, major, version)
  end.

(** The end of the version, the major and the minor version. *)
Definition riscv_parsing_subset_version (p : list ascii) : list ascii * Z * Z :=
  let '(p, major_p, major, version) := version_loop p true 0 0 in
  let '(major, minor) := if major_p then (version, 0) else (major, version) in
  if (major =? 0) && (minor =? 0) then (p, RISCV_UNKNOWN_VERSION, RISCV_UNKNOWN_VERSION)
  else (p, major, minor).

(** ** Parsing an ISA string *)

(** Look back from the end of an extension to the first letter which is not
    part of <major>p<minor>; [r] is the extension reversed. *)
Fixpoint back_over_version (any minor : bool) (r : list ascii) : list ascii :=
  match r with
  | [] => []
  | c :: r' =>
      if is_digit c then back_over_version true minor r'
      else if any && negb minor && Ascii.eqb c "p" && is_digit (head_char r')
      then back_over_version any true r'
      else r
  end.

Definition ends_with_number_p (r : list ascii) : bool :=
  Ascii.eqb (head_char r) "p" && is_digit (head_char (next_char r)).

(** The start of one iteration of the loop of [riscv_parse_extensions]: the
    name of the extension (its letters, reversed) and the text after it. *)
Definition split_extension (p : list ascii) : list ascii * list ascii :=
  match riscv_get_prefix_class p with
  | RV_ISA_CLASS_SINGLE => ([head_char p], next_char p)
  | _ =>
      let token := (span_until ["_"%char] p).1 in
      let r := back_over_version false false (rev token) in
      (r, drop (length r) p)
  end.

(** The loop of [riscv_parse_extensions]; [fuel] is the length of the string.
    The result is [true] unless the function returns NULL. *)
Fixpoint parse_extensions_loop (fuel : nat) (rps : riscv_parse_subset_t) (p : list ascii)
  : riscv_parse_subset_t * bool :=
  match fuel, p with
  | _, [] => (rps, true)
  | O, _ :: _ => (error_handler rps E_bound, false)
  | S fuel', c :: p' =>
      if Ascii.eqb c "_" then parse_extensions_loop fuel' rps p'
      else
        let class := riscv_get_prefix_class p in
        let single := bool_decide (class = RV_ISA_CLASS_SINGLE) in
        if single && (riscv_ext_order c =? 0)
        then (error_handler rps (if in_ext_order c then E_unknown_std c else E_outside_order c), false)
        else
          let '(r, rest) := split_extension p in
          let subset := unchars (rev r) in
          if negb single && ends_with_number_p r
          then (error_handler rps (E_ends_with_p subset), false)
          else
            let '(end_of_version, major, minor) := riscv_parsing_subset_version rest in
            if negb single && check_unknown_prefixed_ext rps
               && negb (riscv_recognized_prefixed_ext subset)
            then (error_handler rps (E_unknown_prefixed subset), false)
            else
              let g := single && String.eqb subset "g" in
              let rps := if g
                         then riscv_parse_add_subset rps subset RISCV_UNKNOWN_VERSION
                                RISCV_UNKNOWN_VERSION true
                         else riscv_parse_add_subset rps subset major minor false in
              if negb single
                 && match end_of_version with [] => false | d :: _ => negb (Ascii.eqb d "_") end
              then (error_handler rps E_separate, false)
              else parse_extensions_loop fuel' rps end_of_version
  end.

Definition riscv_parse_extensions (rps : riscv_parse_subset_t) (p : list ascii)
  : riscv_parse_subset_t * bool :=
  let c := head_char p in
  if negb (Ascii.eqb c "e") && negb (Ascii.eqb c "i") && negb (Ascii.eqb c "g")
  then (error_handler rps E_first_extension, false)
  else parse_extensions_loop (length p) rps p.

(** ** Implied extensions *)

(** [t->check_func (t->implicit_name, subset)]. *)
Definition call_check_func (f : check_func_t) (subset : riscv_subset_t) : bool :=
  match f with
  | CF_check_implicit_always => true
  | CF_check_implicit_for_i =>
      (major_version subset <? 2) || ((major_version subset =? 2) && (minor_version subset <? 1))
  end.

(** The condition under which the entry [t] adds its implied extension. *)
Definition implicit_fires (l : riscv_subset_list_t) (t : riscv_implicit_subset) : bool :=
  match riscv_lookup_subset l (subset_name t) with
  | (true, Some i) =>
      negb (riscv_lookup_subset l (implicit_name t)).1
      && match nodes l !! i with
         | Some subset => call_check_func (check_func t) subset
         | None => false
         end
  | _ => false
  end.

(** [riscv_parse_add_implicit_subsets]: the first entry of the table that
    fires adds its extension and the scan restarts.  [fuel] bounds the
    restarts: each one adds an extension that occurs in the table. *)
Fixpoint add_implicit_loop (fuel : nat) (rps : riscv_parse_subset_t) : riscv_parse_subset_t :=
  match fuel with
  | O => rps
  | S fuel' =>
      match List.find (implicit_fires (subset_list rps)) riscv_implicit_subsets with
      | Some t => add_implicit_loop fuel'
                    (riscv_parse_add_subset rps (implicit_name t) RISCV_UNKNOWN_VERSION
                       RISCV_UNKNOWN_VERSION true)
      | None => rps
      end
  end.

Definition riscv_parse_add_implicit_subsets (rps : riscv_parse_subset_t) : riscv_parse_subset_t :=
  add_implicit_loop (length riscv_implicit_subsets) rps.

(** ** Conflicts *)

Definition riscv_subset_supports (rps : riscv_parse_subset_t) (feature : string) : bool :=
  (riscv_lookup_subset (subset_list rps) feature).1.

(** Report [e] and clear [no_conflict] if [b]. *)
Definition conflict_if (b : bool) (e : subset_error) (st : riscv_parse_subset_t * bool)
  : riscv_parse_subset_t * bool :=
  if b then (error_handler st.1 e, false) else st.

Definition old_q (l : riscv_subset_list_t) : bool :=
  match riscv_lookup_subset l "q" with
  | (true, Some i) =>
      match nodes l !! i with
      | Some q => (major_version q <? 2) || ((major_version q =? 2) && (minor_version q <? 2))
      | None => false
      end
  | _ => false
  end.

Definition has_prefix (prefix : string) (l : riscv_subset_list_t) : bool :=
  existsb (fun s => match strip_prefix (chars prefix) (chars (sub_name s)) with
                    | Some _ => true
                    | None => false
                    end) (nodes l).

Definition riscv_parse_check_conflicts (rps : riscv_parse_subset_t) : riscv_parse_subset_t * bool :=
  let xlen := rps_xlen rps in
  let sup := riscv_subset_supports rps in
  let l := subset_list rps in
  let st := conflict_if (sup "e" && sup "h") (E_rve_h xlen) (rps, true) in
  let st := conflict_if (old_q l && (xlen <? 64)) (E_q xlen) st in
  let st := conflict_if (sup "zcf" && (xlen >? 32)) (E_zcf xlen) st in
  let st := conflict_if (sup "zfinx" && sup "f") E_zfinx_f st in
  let st := conflict_if (sup "xtheadvector" && sup "v") E_xtheadvector_v st in
  conflict_if (has_prefix "zvl" l && negb (has_prefix "zve" l)) E_zvl_needs_zve st.

(** ** Entry points of the parser *)

Definition add_default_exts (table : list riscv_supported_ext) (rps : riscv_parse_subset_t)
  : riscv_parse_subset_t :=
  foldl (fun rps e =>
           if negb (Z.land (default_enable e) EXT_DEFAULT =? 0)
           then riscv_parse_add_subset rps (ext_name e) RISCV_UNKNOWN_VERSION
                  RISCV_UNKNOWN_VERSION (String.eqb (ext_name e) "g")
           else rps) rps table.

Definition riscv_set_default_arch (rps : riscv_parse_subset_t) : riscv_parse_subset_t :=
  foldl (fun rps table => add_default_exts table rps) rps riscv_all_supported_ext.

Definition riscv_parse_subset (rps : riscv_parse_subset_t) (arch : option string)
  : riscv_parse_subset_t * bool :=
  match arch with
  | None => riscv_parse_check_conflicts
              (riscv_parse_add_implicit_subsets (riscv_set_default_arch rps))
  | Some arch =>
      let arch := chars arch in
      if existsb is_upper arch then (error_handler rps E_uppercase, false)
      else
        let parsed :=
          match strip_prefix (chars "rv32") arch with
          | Some p => Some (32, p)
          | None => match strip_prefix (chars "rv64") arch with
                    | Some p => Some (64, p)
                    | None => None
                    end
          end in
        match parsed with
        | None => ((match arch with [] => rps | _ => error_handler rps E_rv_prefix end), false)
        | Some (xlen, p) =>
            match riscv_parse_extensions (set_rps_xlen rps xlen) p with
            | (rps, false) => (rps, false)
            | (rps, true) =>
                riscv_parse_check_conflicts (riscv_parse_add_implicit_subsets rps)
            end
        end
  end.

(** ** .option arch *)

(** The extension name (reversed) at the head of an [.option arch] item and
    the text after it.  When only version characters are found, the first
    character is the name. *)
Definition split_option (p : list ascii) : list ascii * list ascii :=
  let token := (span_until [","%char] p).1 in
  let r := match token with
           | [] => []
           | c :: _ => match back_over_version false false (rev token) with
                       | [] => [c]
                       | r => r
                       end
           end in
  (r, drop (length r) p).

(** The loop of [riscv_update_subset]; [fuel] is the length of the argument.
    [before] is the byte in front of the copy of the string, which the test
    for a trailing <number>p reads when the name is the single letter p. *)
Fixpoint update_loop (fuel : nat) (before : ascii) (rps : riscv_parse_subset_t) (p : list ascii)
  : riscv_parse_subset_t * bool :=
  let restart p :=
    riscv_parse_subset (set_subset_list rps (riscv_release_subset_list (subset_list rps)))
      (Some (unchars p)) in
  match fuel, p with
  | _, [] => restart []
  | O, _ :: _ => (error_handler rps E_bound, false)
  | S fuel', sign :: p =>
      if negb (Ascii.eqb sign "+") && negb (Ascii.eqb sign "-") then restart (sign :: p)
      else
        let len := length (span_until [","%char] p).1 in
        let '(r, rest) := split_option p in
        let subset := unchars (rev r) in
        if (1 <? len)%nat && ends_with_number_p (r ++ [before])
        then (error_handler rps E_option_ends_with_p, false)
        else
          let '(end_of_version, major, minor) := riscv_parsing_subset_version rest in
          if match r with
             | [] => true
             | [c] => riscv_ext_order c =? 0
             | _ => check_unknown_prefixed_ext rps && negb (riscv_recognized_prefixed_ext subset)
             end
          then (error_handler rps (match r with
                                   | [c] => if in_ext_order c then E_option_unknown subset else E_outside_order c
                                   | _ => E_option_unknown subset
                                   end), false)
          else if String.eqb subset "i" || String.eqb subset "e" || String.eqb subset "g"
          then (error_handler rps (E_option_base subset), false)
          else
            let rps := if Ascii.eqb sign "-"
                       then set_subset_list rps (riscv_remove_subset (subset_list rps) subset)
                       else riscv_parse_add_subset rps subset major minor true in
            match end_of_version with
            | ","%char :: p => update_loop fuel' before rps p
            | _ => riscv_parse_check_conflicts (riscv_parse_add_implicit_subsets rps)
            end
  end.

Definition riscv_update_subset (before : ascii) (rps : riscv_parse_subset_t) (str : string)
  : riscv_parse_subset_t * bool :=
  update_loop (String.length str) before rps (chars str).

(** ** Printing the architecture string *)

(** The loop of [riscv_estimate_digit]; an [unsigned] has at most ten digits. *)
Fixpoint estimate_digit_loop (fuel : nat) (num : Z) : Z :=
  match fuel with
  | O => 0
  | S fuel' => if num =? 0 then 0 else 1 + estimate_digit_loop fuel' (num / 10)
  end.

Definition riscv_estimate_digit (num : Z) : Z :=
  if num =? 0 then 1 else estimate_digit_loop 10 num.

Fixpoint riscv_estimate_arch_strlen1 (subset : list riscv_subset_t) : Z :=
  match subset with
  | [] => 6
  | n :: next =>
      riscv_estimate_arch_strlen1 next + Z.of_nat (String.length (sub_name n))
      + riscv_estimate_digit (u32 (major_version n)) + 1
      + riscv_estimate_digit (u32 (minor_version n)) + 1
  end.

Definition riscv_estimate_arch_strlen (l : riscv_subset_list_t) : Z :=
  riscv_estimate_arch_strlen1 (nodes l).

(** [snprintf (buf, size, ...)]: the text is cut after [size - 1] characters. *)
Definition snprintf (size : Z) (text : list ascii) : list ascii := take (Z.to_nat (size - 1)) text.

(** What [snprintf] formats for one node. *)
Definition subset_text (n : riscv_subset_t) : list ascii :=
  (if (strcasecmp (chars (sub_name n)) (chars "i") =? 0)
      || (strcasecmp (chars (sub_name n)) (chars "e") =? 0)
   then [] else ["_"%char])
  ++ chars (sub_name n) ++ fmt_d (major_version n) ++ "p"%char :: fmt_d (minor_version n).

(** The [while] loop: the nodes after [name] that are not skipped. *)
Fixpoint skip_nodes (name : string) (next : list riscv_subset_t) : list riscv_subset_t :=
  match next with
  | [] => []
  | n :: next' =>
      if (String.eqb name "e" && String.eqb (sub_name n) "i")
         || (major_version n =? RISCV_UNKNOWN_VERSION)
         || (minor_version n =? RISCV_UNKNOWN_VERSION)
      then skip_nodes (sub_name n) next'
      else next
  end.

(** [riscv_arch_str1], with [attr_str] as the string built so far; [fuel] is
    the length of the chain. *)
Fixpoint riscv_arch_str1 (fuel : nat) (subset : list riscv_subset_t) (attr_str : list ascii)
    (bufsz : Z) : list ascii :=
  match fuel, subset with
  | S fuel', n :: next =>
      riscv_arch_str1 fuel' (skip_nodes (sub_name n) next)
        (attr_str ++ snprintf bufsz (subset_text n)) bufsz
  | _, _ => attr_str
  end.

Definition riscv_arch_str (xlen : Z) (l : riscv_subset_list_t) : list ascii :=
  let arch_str_len := riscv_estimate_arch_strlen l in
  riscv_arch_str1 (length (nodes l)) (nodes l)
    (snprintf arch_str_len (chars "rv" ++ fmt_u xlen)) arch_str_len.

(** ** Instruction classes *)

(** [false] for the classes that reach [error_handler "internal: unreachable"]. *)
Definition riscv_multi_subset_supports (rps : riscv_parse_subset_t) (c : riscv_insn_class) : bool :=
  let sup := riscv_subset_supports rps in
  match c with
  | INSN_CLASS_I => sup "i"
  | INSN_CLASS_ZICBOM => sup "zicbom"
  | INSN_CLASS_ZICBOP => sup "zicbop"
  | INSN_CLASS_ZICBOZ => sup "zicboz"
  | INSN_CLASS_ZICOND => sup "zicond"
  | INSN_CLASS_ZICSR => sup "zicsr"
  | INSN_CLASS_ZIFENCEI => sup "zifencei"
  | INSN_CLASS_ZIHINTNTL => sup "zihintntl"
  | INSN_CLASS_ZIHINTNTL_AND_C => (sup "zihintntl" && (sup "c" || sup "zca"))
  | INSN_CLASS_ZIHINTPAUSE => sup "zihintpause"
  | INSN_CLASS_M => sup "m"
  | INSN_CLASS_ZMMUL => sup "zmmul"
  | INSN_CLASS_A => sup "a"
  | INSN_CLASS_ZAWRS => sup "zawrs"
  | INSN_CLASS_F => sup "f"
  | INSN_CLASS_D => sup "d"
  | INSN_CLASS_Q => sup "q"
  | INSN_CLASS_C => (sup "c" || sup "zca")
  | INSN_CLASS_F_AND_C => (sup "f" && (sup "c" || sup "zcf"))
  | INSN_CLASS_D_AND_C => (sup "d" && (sup "c" || sup "zcd"))
  | INSN_CLASS_F_INX => (sup "f" || sup "zfinx")
  | INSN_CLASS_D_INX => (sup "d" || sup "zdinx")
  | INSN_CLASS_Q_INX => (sup "q" || sup "zqinx")
  | INSN_CLASS_ZFH_INX => (sup "zfh" || sup "zhinx")
  | INSN_CLASS_ZFHMIN => sup "zfhmin"
  | INSN_CLASS_ZFHMIN_INX => (sup "zfhmin" || sup "zhinxmin")
  | INSN_CLASS_ZFHMIN_AND_D_INX => ((sup "zfhmin" && sup "d") || (sup "zhinxmin" && sup "zdinx"))
  | INSN_CLASS_ZFHMIN_AND_Q_INX => ((sup "zfhmin" && sup "q") || (sup "zhinxmin" && sup "zqinx"))
  | INSN_CLASS_ZFA => sup "zfa"
  | INSN_CLASS_D_AND_ZFA => sup "d" && sup "zfa"
  | INSN_CLASS_Q_AND_ZFA => sup "q" && sup "zfa"
  | INSN_CLASS_ZFH_AND_ZFA => sup "zfh" && sup "zfa"
  | INSN_CLASS_ZFH_OR_ZVFH_AND_ZFA => (sup "zfh" || sup "zvfh") && sup "zfa"
  | INSN_CLASS_ZBA => sup "zba"
  | INSN_CLASS_ZBB => sup "zbb"
  | INSN_CLASS_ZBC => sup "zbc"
  | INSN_CLASS_ZBS => sup "zbs"
  | INSN_CLASS_ZBKB => sup "zbkb"
  | INSN_CLASS_ZBKC => sup "zbkc"
  | INSN_CLASS_ZBKX => sup "zbkx"
  | INSN_CLASS_ZBB_OR_ZBKB => (sup "zbb" || sup "zbkb")
  | INSN_CLASS_ZBC_OR_ZBKC => (sup "zbc" || sup "zbkc")
  | INSN_CLASS_ZKND => sup "zknd"
  | INSN_CLASS_ZKNE => sup "zkne"
  | INSN_CLASS_ZKNH => sup "zknh"
  | INSN_CLASS_ZKND_OR_ZKNE => (sup "zknd" || sup "zkne")
  | INSN_CLASS_ZKSED => sup "zksed"
  | INSN_CLASS_ZKSH => sup "zksh"
  | INSN_CLASS_V => (sup "v" || sup "zve64x" || sup "zve32x")
  | INSN_CLASS_ZVEF => (sup "v" || sup "zve64d" || sup "zve64f" || sup "zve32f")
  | INSN_CLASS_ZVBB => sup "zvbb"
  | INSN_CLASS_ZVBC => sup "zvbc"
  | INSN_CLASS_ZVKB => sup "zvkb"
  | INSN_CLASS_ZVKG => sup "zvkg"
  | INSN_CLASS_ZVKNED => sup "zvkned"
  | INSN_CLASS_ZVKNHA_OR_ZVKNHB => (sup "zvknha" || sup "zvknhb")
  | INSN_CLASS_ZVKSED => sup "zvksed"
  | INSN_CLASS_ZVKSH => sup "zvksh"
  | INSN_CLASS_ZCB => sup "zcb"
  | INSN_CLASS_ZCB_AND_ZBB => (sup "zcb" && sup "zbb")
  | INSN_CLASS_ZCB_AND_ZBA => (sup "zcb" && sup "zba")
  | INSN_CLASS_ZCB_AND_ZMMUL => (sup "zcb" && sup "zmmul")
  | INSN_CLASS_SVINVAL => sup "svinval"
  | INSN_CLASS_H => sup "h"
  | INSN_CLASS_XCVMAC => sup "xcvmac"
  | INSN_CLASS_XCVALU => sup "xcvalu"
  | INSN_CLASS_XTHEADBA => sup "xtheadba"
  | INSN_CLASS_XTHEADBB => sup "xtheadbb"
  | INSN_CLASS_XTHEADBS => sup "xtheadbs"
  | INSN_CLASS_XTHEADCMO => sup "xtheadcmo"
  | INSN_CLASS_XTHEADCONDMOV => sup "xtheadcondmov"
  | INSN_CLASS_XTHEADFMEMIDX => sup "xtheadfmemidx"
  | INSN_CLASS_XTHEADFMV => sup "xtheadfmv"
  | INSN_CLASS_XTHEADINT => sup "xtheadint"
  | INSN_CLASS_XTHEADMAC => sup "xtheadmac"
  | INSN_CLASS_XTHEADMEMIDX => sup "xtheadmemidx"
  | INSN_CLASS_XTHEADMEMPAIR => sup "xtheadmempair"
  | INSN_CLASS_XTHEADSYNC => sup "xtheadsync"
  | INSN_CLASS_XTHEADVECTOR => sup "xtheadvector"
  | INSN_CLASS_XTHEADZVAMO => sup "xtheadzvamo"
  | INSN_CLASS_XVENTANACONDOPS => sup "xventanacondops"
  | INSN_CLASS_XSFVCP => sup "xsfvcp"
  | INSN_CLASS_NONE => false (* internal: unreachable *)
  end%string.

(** The text naming the missing extensions, or the NULL of the default case. *)
Definition riscv_multi_subset_supports_ext (rps : riscv_parse_subset_t) (c : riscv_insn_class) : option string :=
  let sup := riscv_subset_supports rps in
  match c with
  | INSN_CLASS_I => Some "i"
  | INSN_CLASS_ZICBOM => Some "zicbom"
  | INSN_CLASS_ZICBOP => Some "zicbop"
  | INSN_CLASS_ZICBOZ => Some "zicboz"
  | INSN_CLASS_ZICOND => Some "zicond"
  | INSN_CLASS_ZICSR => Some "zicsr"
  | INSN_CLASS_ZIFENCEI => Some "zifencei"
  | INSN_CLASS_ZIHINTNTL => Some "zihintntl"
  | INSN_CLASS_ZIHINTNTL_AND_C =>
      if negb (sup "zihintntl")
      then if negb (sup "c") && negb (sup "zca")
      then Some "zihintntl' and `c', or `zihintntl' and `zca"
      else Some "zihintntl"
      else Some "c' or `zca"
  | INSN_CLASS_ZIHINTPAUSE => Some "zihintpause"
  | INSN_CLASS_M => Some "m"
  | INSN_CLASS_ZMMUL => Some "m' or `zmmul"
  | INSN_CLASS_A => Some "a"
  | INSN_CLASS_ZAWRS => Some "zawrs"
  | INSN_CLASS_F => Some "f"
  | INSN_CLASS_D => Some "d"
  | INSN_CLASS_Q => Some "q"
  | INSN_CLASS_C => Some "c' or `zca"
  | INSN_CLASS_F_AND_C =>
      if negb (sup "f")
      then if negb (sup "c") && negb (sup "zcf")
      then Some "f' and `c', or `f' and `zcf"
      else Some "f"
      else Some "c' or `zcf"
  | INSN_CLASS_D_AND_C =>
      if negb (sup "d")
      then if negb (sup "c") && negb (sup "zcd")
      then Some "d' and `c', or `d' and `zcd"
      else Some "d"
      else Some "c' or `zcd"
  | INSN_CLASS_F_INX => Some "f' or `zfinx"
  | INSN_CLASS_D_INX => Some "d' or `zdinx"
  | INSN_CLASS_Q_INX => Some "q' or `zqinx"
  | INSN_CLASS_ZFH_INX => Some "zfh' or `zhinx"
  | INSN_CLASS_ZFHMIN => Some "zfhmin"
  | INSN_CLASS_ZFHMIN_INX => Some "zfhmin' or `zhinxmin"
  | INSN_CLASS_ZFHMIN_AND_D_INX =>
      if sup "zfhmin"
      then Some "d"
      else if sup "d"
      then Some "zfhmin"
      else if sup "zhinxmin"
      then Some "zdinx"
      else if sup "zdinx"
      then Some "zhinxmin"
      else Some "zfhmin' and `d', or `zhinxmin' and `zdinx"
  | INSN_CLASS_ZFHMIN_AND_Q_INX =>
      if sup "zfhmin"
      then Some "q"
      else if sup "q"
      then Some "zfhmin"
      else if sup "zhinxmin"
      then Some "zqinx"
      else if sup "zqinx"
      then Some "zhinxmin"
      else Some "zfhmin' and `q', or `zhinxmin' and `zqinx"
  | INSN_CLASS_ZFA => Some "zfa"
  | INSN_CLASS_D_AND_ZFA =>
      if negb (sup "d") && negb (sup "zfa")
      then Some "d' and `zfa"
      else if negb (sup "d")
      then Some "d"
      else Some "zfa"
  | INSN_CLASS_Q_AND_ZFA =>
      if negb (sup "q") && negb (sup "zfa")
      then Some "q' and `zfa"
      else if negb (sup "q")
      then Some "q"
      else Some "zfa"
  | INSN_CLASS_ZFH_AND_ZFA =>
      if negb (sup "zfh") && negb (sup "zfa")
      then Some "zfh' and `zfa"
      else if negb (sup "zfh")
      then Some "zfh"
      else Some "zfa"
  | INSN_CLASS_ZFH_OR_ZVFH_AND_ZFA =>
      if negb (sup "zfa")
      then if negb (sup "zfh") && negb (sup "zvfh")
      then Some "zfh' and `zfa', or `zvfh' and `zfa"
      else Some "zfa"
      else Some "zfh' or `zvfh"
  | INSN_CLASS_ZBA => Some "zba"
  | INSN_CLASS_ZBB => Some "zbb"
  | INSN_CLASS_ZBC => Some "zbc"
  | INSN_CLASS_ZBS => Some "zbs"
  | INSN_CLASS_ZBKB => Some "zbkb"
  | INSN_CLASS_ZBKC => Some "zbkc"
  | INSN_CLASS_ZBKX => Some "zbkx"
  | INSN_CLASS_ZBB_OR_ZBKB => Some "zbb' or `zbkb"
  | INSN_CLASS_ZBC_OR_ZBKC => Some "zbc' or `zbkc"
  | INSN_CLASS_ZKND => Some "zknd"
  | INSN_CLASS_ZKNE => Some "zkne"
  | INSN_CLASS_ZKNH => Some "zknh"
  | INSN_CLASS_ZKND_OR_ZKNE => Some "zknd' or `zkne"
  | INSN_CLASS_ZKSED => Some "zksed"
  | INSN_CLASS_ZKSH => Some "zksh"
  | INSN_CLASS_V => Some "v' or `zve64x' or `zve32x"
  | INSN_CLASS_ZVEF => Some "v' or `zve64d' or `zve64f' or `zve32f"
  | INSN_CLASS_ZVBB => Some "zvbb"
  | INSN_CLASS_ZVBC => Some "zvbc"
  | INSN_CLASS_ZVKB => Some "zvkb"
  | INSN_CLASS_ZVKG => Some "zvkg"
  | INSN_CLASS_ZVKNED => Some "zvkned"
  | INSN_CLASS_ZVKNHA_OR_ZVKNHB => Some "zvknha' or `zvknhb"
  | INSN_CLASS_ZVKSED => Some "zvksed"
  | INSN_CLASS_ZVKSH => Some "zvksh"
  | INSN_CLASS_ZCB => Some "zcb"
  | INSN_CLASS_ZCB_AND_ZBA => Some "zcb' and `zba"
  | INSN_CLASS_ZCB_AND_ZBB => Some "zcb' and `zbb"
  | INSN_CLASS_ZCB_AND_ZMMUL => Some "zcb' and `zmmul', or `zcb' and `m"
  | INSN_CLASS_SVINVAL => Some "svinval"
  | INSN_CLASS_H => Some "h"
  | INSN_CLASS_XCVMAC => Some "xcvmac"
  | INSN_CLASS_XCVALU => Some "xcvalu"
  | INSN_CLASS_XTHEADBA => Some "xtheadba"
  | INSN_CLASS_XTHEADBB => Some "xtheadbb"
  | INSN_CLASS_XTHEADBS => Some "xtheadbs"
  | INSN_CLASS_XTHEADCMO => Some "xtheadcmo"
  | INSN_CLASS_XTHEADCONDMOV => Some "xtheadcondmov"
  | INSN_CLASS_XTHEADFMEMIDX => Some "xtheadfmemidx"
  | INSN_CLASS_XTHEADFMV => Some "xtheadfmv"
  | INSN_CLASS_XTHEADINT => Some "xtheadint"
  | INSN_CLASS_XTHEADMAC => Some "xtheadmac"
  | INSN_CLASS_XTHEADMEMIDX => Some "xtheadmemidx"
  | INSN_CLASS_XTHEADMEMPAIR => Some "xtheadmempair"
  | INSN_CLASS_XTHEADSYNC => Some "xtheadsync"
  | INSN_CLASS_XTHEADVECTOR => Some "xtheadvector"
  | INSN_CLASS_XTHEADZVAMO => Some "xtheadzvamo"
  | _ => None (* internal: unreachable *)
  end%string.
