(* ===== verification/SubsetOrder.v ===== *)
(** * The canonical order of ISA extensions

    [riscv_compare_subsets] is a strict total order on well-formed extension
    names: it compares a key made of the rank of the extension (its letter, or
    its prefix class), for z extensions the rank of their second letter, and
    the remaining characters. *)
From Stdlib Require Import ZArith Bool Ascii Lia.
From stdpp Require Import base list strings.
From S2P Require Import Prelude RiscvH SubsetTables Subset.

#[local] Open Scope Z_scope.

(** ** Lexicographic comparison *)

Fixpoint lex (a b : list Z) : comparison :=
  match a, b with
  | [], [] => Eq
  | [], _ :: _ => Lt
  | _ :: _, [] => Gt
  | x :: a', y :: b' => match x ?= y with Eq => lex a' b' | c => c end
  end.

Lemma lex_refl a : lex a a = Eq.
Proof. induction a; simpl; [done|]. by rewrite Z.compare_refl. Qed.

Lemma lex_eq a b : lex a b = Eq -> a = b.
Proof.
  revert b. induction a as [|x a IH]; intros [|y b]; simpl; try done.
  destruct (Z.compare_spec x y); try done. intros. f_equal; auto.
Qed.

Lemma lex_antisym a b : lex b a = CompOpp (lex a b).
Proof.
  revert b. induction a as [|x a IH]; intros [|y b]; simpl; try done.
  rewrite (Z.compare_antisym x y). by destruct (x ?= y); simpl.
Qed.

Lemma lex_trans a b c : lex a b = Lt -> lex b c = Lt -> lex a c = Lt.
Proof.
  revert b c. induction a as [|x a IH]; intros [|y b] [|z c]; simpl; try done.
  destruct (Z.compare_spec x y) as [->|Hxy|Hxy], (Z.compare_spec y z) as [->|Hyz|Hyz];
    try done; intros Ha Hb.
  - eauto.
  - by rewrite (proj2 (Z.compare_lt_iff _ _) Hxy).
  - by rewrite (proj2 (Z.compare_lt_iff x z) ltac:(lia)).
Qed.

(** ** Well-formed names *)

Definition name_char (c : ascii) : bool := negb (is_upper c) && negb (Ascii.eqb c "000").

(** A single canonical letter, or a prefixed name in lower case; the second
    letter of a z extension names the letter it is associated with. *)
Definition ok_ext (s : string) : bool :=
  let p := chars s in
  match riscv_get_prefix_class p with
  | RV_ISA_CLASS_SINGLE => (riscv_ext_order (head_char p) >? 0) && (length p =? 1)%nat
  | RV_ISA_CLASS_Z => (riscv_ext_order (head_char (next_char p)) >? 0) && forallb name_char p
  | _ => forallb name_char p
  end.

Definition ext_key (s : string) : list Z :=
  let p := chars s in
  match riscv_get_prefix_class p with
  | RV_ISA_CLASS_SINGLE => [riscv_ext_order (head_char p)]
  | RV_ISA_CLASS_Z => 101 :: riscv_ext_order (head_char (next_char p))
                          :: map tolower (next_char (next_char p))
  | c => (100 + class_value c) :: map tolower (next_char p)
  end.

(** ** Characters *)

Lemma name_char_tolower c : name_char c = true -> tolower c = Z.of_nat (nat_of_ascii c).
Proof.
  unfold name_char, tolower. rewrite andb_true_iff. intros [H _].
  apply negb_true_iff in H. by rewrite H.
Qed.

Lemma nat_of_ascii_inj c d : nat_of_ascii c = nat_of_ascii d -> c = d.
Proof. intros H. by rewrite <- (ascii_nat_embedding c), H, ascii_nat_embedding. Qed.

Lemma tolower_inj c d :
  name_char c = true -> name_char d = true -> tolower c = tolower d -> c = d.
Proof.
  intros Hc Hd. rewrite !name_char_tolower by done. intros. apply nat_of_ascii_inj. lia.
Qed.

Lemma tolower_pos c : name_char c = true -> 0 < tolower c.
Proof.
  intros H. rewrite name_char_tolower by done. unfold name_char in H. apply andb_true_iff in H as [_ H].
  assert (nat_of_ascii c <> 0%nat); [|lia]. intros E.
  assert (c = "000"%char) as -> by (by apply nat_of_ascii_inj). done.
Qed.

Lemma map_tolower_inj a b :
  forallb name_char a = true -> forallb name_char b = true ->
  map tolower a = map tolower b -> a = b.
Proof.
  revert b. induction a as [|c a IH]; intros [|d b]; simpl; try done.
  intros Ha Hb E. apply andb_true_iff in Ha as [], Hb as []. injection E as E1 E2.
  f_equal; eauto using tolower_inj.
Qed.

Lemma strcasecmp_lex a b :
  forallb name_char a = true -> forallb name_char b = true ->
  (strcasecmp a b ?= 0) = lex (map tolower a) (map tolower b).
Proof.
  revert b. induction a as [|c a IH]; intros [|d b]; simpl; try done.
  - intros _ H. apply andb_true_iff in H as [H _]. apply tolower_pos in H.
    rewrite Z.compare_lt_iff. lia.
  - intros H _. apply andb_true_iff in H as [H _]. apply tolower_pos in H.
    rewrite Z.compare_gt_iff. lia.
  - intros Ha Hb. apply andb_true_iff in Ha as [_ Ha], Hb as [_ Hb].
    destruct (Z.eqb_spec (tolower c) (tolower d)) as [->|Hn].
    + rewrite Z.compare_refl. auto.
    + rewrite (Z.compare_sub (tolower c) (tolower d)).
      by destruct (Z.compare_spec (tolower c - tolower d) 0); [lia|..].
Qed.

Lemma forallb_next (f : ascii -> bool) (p : list ascii) :
  forallb f p = true -> forallb f (next_char p) = true.
Proof. destruct p; simpl; [done|]. rewrite andb_true_iff. by intros []. Qed.

#[local] Hint Resolve forallb_next : core.

(** ** Letters and prefix classes *)

Lemma order_from_lookup k letters c :
  1 <= k -> order_from k letters c <> 0 ->
  k <= order_from k letters c /\ letters !! Z.to_nat (order_from k letters c - k) = Some c.
Proof.
  revert k. induction letters as [|d letters IH]; simpl; intros k Hk Hn; [done|].
  destruct (Ascii.eqb_spec c d) as [->|Hcd].
  - rewrite Z.sub_diag. by split; [lia|].
  - destruct (IH (k + 1) ltac:(lia) Hn) as [Hle Hl]. split; [lia|].
    replace (Z.to_nat (order_from (k + 1) letters c - k))
      with (S (Z.to_nat (order_from (k + 1) letters c - (k + 1)))) by lia.
    exact Hl.
Qed.

Lemma riscv_ext_order_range c : 0 <= riscv_ext_order c <= 18.
Proof.
  unfold riscv_ext_order.
  destruct (decide (order_from 1 riscv_ext_canonical_order c = 0)) as [->|Hn]; [lia|].
  pose proof (order_from_lookup 1 riscv_ext_canonical_order c ltac:(lia) Hn) as [H1 H2].
  apply lookup_lt_Some in H2. change (length riscv_ext_canonical_order) with 18%nat in H2. lia.
Qed.

Lemma riscv_ext_order_inj c d :
  riscv_ext_order c = riscv_ext_order d -> 0 < riscv_ext_order c -> c = d.
Proof.
  unfold riscv_ext_order. intros E Hpos.
  pose proof (order_from_lookup 1 riscv_ext_canonical_order c ltac:(lia) ltac:(lia)) as [_ Hc].
  pose proof (order_from_lookup 1 riscv_ext_canonical_order d ltac:(lia) ltac:(lia)) as [_ Hd].
  rewrite E in Hc. congruence.
Qed.

Lemma strip_prefix_app p q r : strip_prefix p q = Some r -> q = p ++ r.
Proof.
  revert q. induction p as [|c p IH]; intros [|d q]; simpl; try congruence.
  destruct (Ascii.eqb_spec c d) as [->|]; [|done]. intros H. f_equal. auto.
Qed.

(** The letter a class of prefixed names starts with. *)
Definition class_letter (c : riscv_prefix_ext_class) : ascii :=
  match c with
  | RV_ISA_CLASS_Z | RV_ISA_CLASS_ZXM => "z"
  | RV_ISA_CLASS_S => "s"
  | RV_ISA_CLASS_X => "x"
  | RV_ISA_CLASS_SINGLE => "000"
  end%char.

Lemma prefix_class_letter p :
  riscv_get_prefix_class p <> RV_ISA_CLASS_SINGLE ->
  p = class_letter (riscv_get_prefix_class p) :: next_char p.
Proof.
  unfold riscv_get_prefix_class, parse_config. cbn [prefix_class_from].
  repeat match goal with
  | |- context [strip_prefix ?a ?b] =>
      let E := fresh "E" in
      destruct (strip_prefix a b) as [q|] eqn:E;
      [apply strip_prefix_app in E; rewrite E; done|]
  end. done.
Qed.

Lemma prefix_class_order p :
  riscv_get_prefix_class p <> RV_ISA_CLASS_SINGLE -> riscv_ext_order (head_char p) = 0.
Proof.
  intros H. rewrite (prefix_class_letter p H). simpl.
  destruct (riscv_get_prefix_class p); reflexivity || done.
Qed.

(** Comparing well-formed names stays inside of [riscv_ext_order]. *)
Lemma compare_reads_inside (s : string) :
  ok_ext s = true ->
  in_ext_order (head_char (chars s)) = true /\
  (riscv_get_prefix_class (chars s) = RV_ISA_CLASS_Z -> in_ext_order (head_char (next_char (chars s))) = true).
Proof.
  assert (Hin : forall c, (riscv_ext_order c >? 0) = true -> in_ext_order c = true).
  { intros [[] [] [] [] [] [] [] []]; vm_compute; congruence. }
  unfold ok_ext. pose proof (prefix_class_letter (chars s)) as Hl.
  destruct (riscv_get_prefix_class (chars s)); rewrite ?andb_true_iff; intros H; split; try done;
    try (rewrite Hl by done; reflexivity); try intros _; apply Hin; by destruct H.
Qed.

(** ** The comparison is the order of the keys *)

Lemma compare_sub_0 a b : (a - b ?= 0) = (a ?= b).
Proof. symmetry. apply Z.compare_sub. Qed.

Lemma lex_sign v x y a b :
  x <> y -> (0 < v <-> y < x) -> (v < 0 <-> x < y) -> (v ?= 0) = lex (x :: a) (y :: b).
Proof.
  intros Hn Hg Hl. simpl. by destruct (Z.compare_spec x y), (Z.compare_spec v 0); lia || done.
Qed.

Lemma riscv_compare_subsets_key (s1 s2 : string) :
  ok_ext s1 = true -> ok_ext s2 = true ->
  (riscv_compare_subsets s1 s2 ?= 0) = lex (ext_key s1) (ext_key s2).
Proof.
  unfold ok_ext, ext_key, riscv_compare_subsets. cbv zeta.
  set (p := chars s1). set (q := chars s2). clearbody p q.
  pose proof (riscv_ext_order_range (head_char p)) as Rp.
  pose proof (riscv_ext_order_range (head_char q)) as Rq.
  pose proof (prefix_class_order p) as Op. pose proof (prefix_class_order q) as Oq.
  destruct (riscv_get_prefix_class p) eqn:Cp, (riscv_get_prefix_class q) eqn:Cq;
    intros Hp Hq; breflect;
    repeat match goal with H : _ <> _ -> _ = 0 |- _ => specialize (H ltac:(congruence)) end;
    repeat match goal with H : (_ >? 0) = true |- _ => apply Z.gtb_lt in H end;
    repeat match goal with |- context [?a >? 0] =>
      destruct (Z.gtb_spec a 0); try lia end; cbn [andb];
    repeat (case_decide; try congruence);
    cbn [class_value];
    repeat match goal with |- context [?a =? ?b] =>
      match b with
      | riscv_ext_order (head_char (next_char _)) => fail 1
      | _ => destruct (Z.eqb_spec a b); try lia
      end end;
    try (apply lex_sign; lia).
  all: try (rewrite strcasecmp_lex by auto; done).
  2: { rewrite compare_sub_0. simpl. by destruct (_ ?= _). }
  simpl. destruct (Z.eqb_spec (riscv_ext_order (head_char (next_char p)))
             (riscv_ext_order (head_char (next_char q)))) as [->|Hn]; simpl.
  - rewrite strcasecmp_lex by auto. by rewrite Z.compare_refl.
  - rewrite compare_sub_0. by destruct (Z.compare_spec (riscv_ext_order (head_char (next_char p)))
             (riscv_ext_order (head_char (next_char q)))).
Qed.

Lemma order_head_next p : 0 < riscv_ext_order (head_char p) -> p = head_char p :: next_char p.
Proof. destruct p; [vm_compute; done|done]. Qed.

Lemma ext_key_inj (s1 s2 : string) :
  ok_ext s1 = true -> ok_ext s2 = true -> ext_key s1 = ext_key s2 -> s1 = s2.
Proof.
  intros H1 H2 E. rewrite <- (unchars_chars s1), <- (unchars_chars s2). f_equal.
  revert H1 H2 E. unfold ok_ext, ext_key. set (p := chars s1). set (q := chars s2). clearbody p q.
  pose proof (riscv_ext_order_range (head_char p)) as Rp.
  pose proof (riscv_ext_order_range (head_char q)) as Rq.
  pose proof (prefix_class_letter p) as Lp. pose proof (prefix_class_letter q) as Lq.
  destruct (riscv_get_prefix_class p) eqn:Cp, (riscv_get_prefix_class q) eqn:Cq;
    cbn [class_value]; intros H1 H2 E; breflect; injection E as E; try lia.
  all: repeat match goal with H : _ <> _ -> _ = _ |- _ =>
         specialize (H ltac:(congruence)); rewrite H end.
  all: f_equal; eauto using map_tolower_inj, forallb_next.
  - rewrite (order_head_next (next_char p)), (order_head_next (next_char q)) by lia.
    f_equal; [apply riscv_ext_order_inj; lia|apply map_tolower_inj; auto using forallb_next].
  - destruct p as [|c [|]], q as [|d [|]]; simpl in *; try done. f_equal.
    apply riscv_ext_order_inj; lia.
Qed.

(** ** The order on names *)

Definition ext_lt (s1 s2 : string) : Prop := lex (ext_key s1) (ext_key s2) = Lt.

Lemma ext_lt_trans s1 s2 s3 : ext_lt s1 s2 -> ext_lt s2 s3 -> ext_lt s1 s3.
Proof. apply lex_trans. Qed.

Lemma ext_lt_irrefl s : ~ ext_lt s s.
Proof. unfold ext_lt. by rewrite lex_refl. Qed.

Lemma ext_lt_asym s1 s2 : ext_lt s1 s2 -> ~ ext_lt s2 s1.
Proof. intros H1 H2. exact (ext_lt_irrefl _ (ext_lt_trans _ _ _ H1 H2)). Qed.

Lemma riscv_compare_subsets_spec (s1 s2 : string) :
  ok_ext s1 = true -> ok_ext s2 = true ->
  CompareSpec (s1 = s2) (ext_lt s1 s2) (ext_lt s2 s1) (riscv_compare_subsets s1 s2 ?= 0).
Proof.
  intros H1 H2. rewrite riscv_compare_subsets_key by done. unfold ext_lt.
  rewrite (lex_antisym (ext_key s1) (ext_key s2)).
  destruct (lex (ext_key s1) (ext_key s2)) eqn:E; constructor; try done.
  apply lex_eq in E. by apply ext_key_inj.
Qed.

(** [riscv_compare_subsets] is a strict total order on well-formed
    extension names: it returns 0 exactly for equal names, swapping the
    arguments swaps the sign, and it is transitive; hence the canonical order
    of an architecture string is well defined. *)
Theorem riscv_compare_subsets_total_order (s1 s2 s3 : string) :
  ok_ext s1 = true -> ok_ext s2 = true -> ok_ext s3 = true ->
  (riscv_compare_subsets s1 s2 = 0 <-> s1 = s2) /\
  (riscv_compare_subsets s1 s2 < 0 <-> 0 < riscv_compare_subsets s2 s1) /\
  (riscv_compare_subsets s1 s2 < 0 -> riscv_compare_subsets s2 s3 < 0 ->
   riscv_compare_subsets s1 s3 < 0).
Proof.
  intros H1 H2 H3. rewrite <- (Z.compare_gt_iff (riscv_compare_subsets s2 s1) 0).
  rewrite <- !Z.compare_lt_iff, <- Z.compare_eq_iff, !riscv_compare_subsets_key by done. split_and!.
  - split; [intros E; by apply ext_key_inj, lex_eq|intros ->; apply lex_refl].
  - rewrite (lex_antisym (ext_key s1)). by destruct (lex (ext_key s1) (ext_key s2)).
  - apply lex_trans.
Qed.

Lemma riscv_compare_subsets_total_order_witness :
  riscv_compare_subsets "m" "zba" < 0 /\ riscv_compare_subsets "zba" "zvl128b" < 0 /\
  riscv_compare_subsets "m" "zvl128b" < 0.
Proof.
  split; [vm_compute; reflexivity|]. split; [vm_compute; reflexivity|].
  apply (riscv_compare_subsets_total_order "m" "zba" "zvl128b"); vm_compute; reflexivity.
Defined.
