(* ===== verification/SubsetSpec.v ===== *)
(** * What the subset list promises

    The chain is kept strictly sorted in canonical order with [tail] at its
    last node; under that invariant look-up, insertion, removal and copy
    implement the operations of a finite map from extension names to versions,
    the implied extensions are the least closed set above the given ones, and
    the printed architecture string fits the buffer allocated for it. *)
From Stdlib Require Import ZArith Bool Ascii Lia Sorting.Sorted.
From stdpp Require Import base list strings gmap.
From S2P Require Import Prelude RiscvH SubsetTables Subset SubsetOrder.

#[local] Open Scope Z_scope.

(** ** Invariant *)

Definition node_ok (n : riscv_subset_t) : Prop := ok_ext (sub_name n) = true.
Definition node_lt (n1 n2 : riscv_subset_t) : Prop := ext_lt (sub_name n1) (sub_name n2).

Definition last_index {A} (l : list A) : option nat :=
  match length l with O => None | S k => Some k end.

Record subset_list_wf (l : riscv_subset_list_t) : Prop := {
  wf_ok : Forall node_ok (nodes l);
  wf_sorted : StronglySorted node_lt (nodes l);
  wf_tail : tail l = last_index (nodes l);
}.

(** ** Abstraction: a map from names to versions *)

Definition node_entry (n : riscv_subset_t) : string * (Z * Z) :=
  (sub_name n, (major_version n, minor_version n)).

Definition exts_of (ns : list riscv_subset_t) : gmap string (Z * Z) :=
  list_to_map (node_entry <$> ns).

Definition exts (l : riscv_subset_list_t) : gmap string (Z * Z) := exts_of (nodes l).

(** ** Look-up *)

(** The place of [s] in a sorted chain: at node [k], or between [k-1] and [k]. *)
Inductive placed (s : string) (ns : list riscv_subset_t) : bool -> nat -> Prop :=
| placed_at k n : ns !! k = Some n -> sub_name n = s -> placed s ns true k
| placed_before k : (k <= length ns)%nat ->
    Forall (fun n => ext_lt (sub_name n) s) (take k ns) ->
    Forall (fun n => ext_lt s (sub_name n)) (drop k ns) -> placed s ns false k.

(** The pointer [lookup_loop] returns for a place. *)
Definition place_ptr (found : bool) (i k : nat) (pre : option nat) : option nat :=
  if found then Some (i + k)%nat else match k with O => pre | S k' => Some (i + k')%nat end.

Lemma StronglySorted_tail {A} (R : A -> A -> Prop) a l :
  StronglySorted R (a :: l) -> StronglySorted R l.
Proof. by inversion 1. Qed.

Lemma StronglySorted_head {A} (R : A -> A -> Prop) a l :
  StronglySorted R (a :: l) -> Forall (R a) l.
Proof. by inversion 1. Qed.

Lemma lookup_loop_placed (s : string) ns i pre :
  ok_ext s = true -> Forall node_ok ns -> StronglySorted node_lt ns ->
  exists found k, placed s ns found k /\ lookup_loop ns i pre s = (found, place_ptr found i k pre).
Proof.
  intros Hs. revert i pre. induction ns as [|n ns IH]; intros i pre Hok Hsort.
  { exists false, O. split; [|done]. by constructor. }
  apply Forall_cons in Hok as [Hn Hok]. simpl.
  pose proof (riscv_compare_subsets_spec (sub_name n) s Hn Hs) as Hc.
  pose proof (StronglySorted_head _ _ _ Hsort) as Hhd.
  destruct (Z.compare_spec (riscv_compare_subsets (sub_name n) s) 0) as [E|E|E]; inversion Hc as [Hc'|Hc'|Hc'].
  - rewrite E. simpl. exists true, O. split; [by apply (placed_at _ _ _ n)|]. simpl. do 2 f_equal. lia.
  - destruct (Z.eqb_spec (riscv_compare_subsets (sub_name n) s) 0); [lia|].
    destruct (Z.gtb_spec (riscv_compare_subsets (sub_name n) s) 0); [lia|].
    destruct (IH (S i) (Some i) Hok (StronglySorted_tail _ _ _ Hsort)) as (found & k & Hp & ->).
    exists found, (S k). split.
    + destruct Hp as [k m Hk Hm|k Hk H1 H2]; [by apply (placed_at _ _ _ m)|].
      constructor; simpl; [lia|by constructor|done].
    + destruct found; simpl; f_equal; [f_equal; lia|]. destruct k; simpl; f_equal; lia.
  - destruct (Z.eqb_spec (riscv_compare_subsets (sub_name n) s) 0); [lia|].
    destruct (Z.gtb_spec (riscv_compare_subsets (sub_name n) s) 0); [|lia].
    exists false, O. split; [|done]. constructor; simpl; [lia|done|].
    constructor; [done|]. eapply Forall_impl; [exact Hhd|]. intros m Hm. by eapply ext_lt_trans.
Qed.

(** A sorted chain has at most one place for a name. *)
Lemma placed_unique s ns f1 k1 f2 k2 :
  StronglySorted node_lt ns -> placed s ns f1 k1 -> placed s ns f2 k2 -> f1 = f2.
Proof.
  intros Hsort H1 H2.
  assert (Haux : forall k n k', ns !! k = Some n -> sub_name n = s ->
     Forall (fun n => ext_lt (sub_name n) s) (take k' ns) ->
     Forall (fun n => ext_lt s (sub_name n)) (drop k' ns) -> False).
  { intros k n k' Hk Hn Ht Hd. rewrite <- (take_drop k' ns) in Hk.
    apply lookup_app_Some in Hk as [Hk|[_ Hk]];
      [pose proof (Forall_lookup_1 _ _ _ _ Ht Hk) as H|pose proof (Forall_lookup_1 _ _ _ _ Hd Hk) as H];
      simpl in H; rewrite Hn in H; by apply ext_lt_irrefl in H. }
  destruct H1, H2; eauto; exfalso; eauto.
Qed.

Lemma lookup_loop_past s ns i pre :
  ok_ext s = true -> Forall node_ok ns -> Forall (fun n => ext_lt (sub_name n) s) ns ->
  lookup_loop ns i pre s = (false, place_ptr false i (length ns) pre).
Proof.
  intros Hs. revert i pre. induction ns as [|n ns IH]; intros i pre Hok Hlt; simpl; [done|].
  apply Forall_cons in Hok as [Hn Hok], Hlt as [Hlt1 Hlt].
  pose proof (riscv_compare_subsets_spec (sub_name n) s Hn Hs) as Hc.
  destruct (Z.compare_spec (riscv_compare_subsets (sub_name n) s) 0) as [E|E|E];
    inversion Hc as [Hc'|Hc'|Hc'].
  - rewrite Hc' in Hlt1. by apply ext_lt_irrefl in Hlt1.
  - destruct (Z.eqb_spec (riscv_compare_subsets (sub_name n) s) 0); [lia|].
    destruct (Z.gtb_spec (riscv_compare_subsets (sub_name n) s) 0); [lia|].
    rewrite IH by done. f_equal. destruct (length ns); simpl; f_equal; lia.
  - by apply ext_lt_asym in Hlt1.
Qed.

Lemma StronglySorted_last {A} (R : A -> A -> Prop) (l : list A) k x :
  StronglySorted R l -> last_index l = Some k -> l !! k = Some x ->
  Forall (fun y => R y x \/ y = x) l.
Proof.
  intros Hs. revert k. induction Hs as [|a l Hs IH Ha]; intros k; [done|].
  destruct l as [|b l].
  - intros Hk. injection Hk as <-. intros Hx. injection Hx as ->. by constructor; [right|].
  - intros Hk. injection Hk as <-. intros Hx. constructor; [|by apply (IH (length l))].
    left. exact (Forall_lookup_1 _ _ (length l) x Ha Hx).
Qed.

(** The test of the last node in front of the loop changes nothing but the
    time it takes. *)
Lemma riscv_lookup_subset_loop l s :
  subset_list_wf l -> ok_ext s = true ->
  riscv_lookup_subset l s = lookup_loop (nodes l) 0 None s.
Proof.
  intros [Hok Hsort Htail] Hs. unfold riscv_lookup_subset. rewrite Htail.
  destruct (last_index (nodes l)) as [k|] eqn:Hk; [|done]. simpl.
  destruct (nodes l !! k) as [t|] eqn:Ht; [|done].
  destruct (Z.ltb_spec (riscv_compare_subsets (sub_name t) s) 0) as [Hlt|]; [|done].
  pose proof (Forall_lookup_1 _ _ _ _ Hok Ht) as Htok.
  assert (Hts : ext_lt (sub_name t) s).
  { pose proof (riscv_compare_subsets_spec (sub_name t) s Htok Hs) as Hc.
    rewrite (proj2 (Z.compare_lt_iff _ _) Hlt) in Hc. by inversion Hc. }
  rewrite lookup_loop_past; try done.
  - unfold last_index in Hk. destruct (length (nodes l)); [done|]. by injection Hk as ->.
  - eapply Forall_impl; [by apply (StronglySorted_last _ _ k t Hsort)|].
    intros n [Hn| ->]; [by eapply ext_lt_trans|done].
Qed.

Lemma riscv_lookup_subset_placed l s :
  subset_list_wf l -> ok_ext s = true ->
  exists found k, placed s (nodes l) found k /\
    riscv_lookup_subset l s = (found, place_ptr found 0 k None).
Proof.
  intros Hwf Hs. rewrite riscv_lookup_subset_loop by done. destruct Hwf.
  by apply lookup_loop_placed.
Qed.

(** ** Names are distinct *)

Lemma sorted_names_NoDup ns : StronglySorted node_lt ns -> NoDup (node_entry <$> ns).*1.
Proof.
  induction 1 as [|n ns Hs IH Hn]; simpl; constructor; [|done].
  rewrite <- list_fmap_compose. intros Hin. apply list_elem_of_fmap in Hin as (m & Hm & Hin).
  rewrite Forall_forall in Hn. specialize (Hn m Hin). unfold node_lt in Hn. simpl in Hm.
  rewrite Hm in Hn. by apply ext_lt_irrefl in Hn.
Qed.

Lemma exts_of_lookup ns k n :
  StronglySorted node_lt ns -> ns !! k = Some n ->
  exts_of ns !! sub_name n = Some (major_version n, minor_version n).
Proof.
  intros Hs Hk. unfold exts_of. apply elem_of_list_to_map.
  - by apply sorted_names_NoDup.
  - apply list_elem_of_fmap. exists n. split; [done|]. by apply list_elem_of_lookup_2 in Hk.
Qed.

Lemma exts_of_lookup_None ns s :
  Forall (fun n => sub_name n <> s) ns -> exts_of ns !! s = None.
Proof.
  intros H. apply not_elem_of_list_to_map_1. rewrite <- list_fmap_compose. intros Hin.
  apply list_elem_of_fmap in Hin as (m & -> & Hin). rewrite Forall_forall in H. by apply (H m Hin).
Qed.

Lemma lt_gt_ne s ns :
  Forall (fun n => ext_lt (sub_name n) s) ns \/ Forall (fun n => ext_lt s (sub_name n)) ns ->
  Forall (fun n => sub_name n <> s) ns.
Proof.
  intros [H|H]; (eapply Forall_impl; [exact H|]); simpl; intros n Hn E; rewrite E in Hn;
    by apply ext_lt_irrefl in Hn.
Qed.

Lemma placed_exts s ns found k :
  StronglySorted node_lt ns -> placed s ns found k -> found = bool_decide (is_Some (exts_of ns !! s)).
Proof.
  intros Hs [k' n Hk <-|k' Hk H1 H2].
  - symmetry. apply bool_decide_eq_true. rewrite (exts_of_lookup ns k' n) by done. eauto.
  - symmetry. apply bool_decide_eq_false. rewrite exts_of_lookup_None; [by intros []|].
    rewrite <- (take_drop k' ns). apply Forall_app. split; apply lt_gt_ne; auto.
Qed.

Lemma riscv_lookup_subset_exts l s :
  subset_list_wf l -> ok_ext s = true ->
  (riscv_lookup_subset l s).1 = bool_decide (is_Some (exts l !! s)).
Proof.
  intros Hwf Hs. destruct (riscv_lookup_subset_placed l s Hwf Hs) as (found & k & Hp & ->).
  simpl. eapply placed_exts; [apply Hwf|exact Hp].
Qed.

(** A found node carries the versions of the map. *)
Lemma riscv_lookup_subset_found l s :
  subset_list_wf l -> ok_ext s = true -> (riscv_lookup_subset l s).1 = true ->
  exists k n, riscv_lookup_subset l s = (true, Some k) /\ nodes l !! k = Some n /\
    sub_name n = s /\ exts l !! s = Some (major_version n, minor_version n).
Proof.
  intros Hwf Hs. destruct (riscv_lookup_subset_placed l s Hwf Hs) as (found & k & Hp & ->).
  simpl. intros ->. inversion Hp as [k' n Hk Hn|]; subst. exists k, n. split_and!; try done.
  unfold exts. eapply exts_of_lookup; [apply Hwf|exact Hk].
Qed.

(** ** Insertion *)

Lemma StronglySorted_app_insert {A} (R : A -> A -> Prop) (l1 l2 : list A) x :
  StronglySorted R (l1 ++ l2) ->
  Forall (fun y => R y x) l1 -> Forall (R x) l2 -> StronglySorted R (l1 ++ x :: l2).
Proof.
  intros Hs H1 H2. induction l1 as [|a l1 IH]; simpl in *; [by constructor|].
  inversion Hs as [|? ? Hs' Ha]; subst. apply Forall_cons in H1 as [Hax H1].
  constructor; [auto|]. apply Forall_app in Ha as [Ha1 Ha2]. apply Forall_app. split; [done|].
  by constructor.
Qed.

Lemma last_index_insert {A} (l : list A) k x :
  (k <= length l)%nat ->
  last_index (take k l ++ x :: drop k l)
  = match drop k l with
    | [] => Some k
    | _ :: _ => (fun t => if (k <=? t)%nat then S t else t) <$> last_index l
    end.
Proof.
  intros Hk. unfold last_index. rewrite length_app, length_take, length_cons, length_drop.
  replace (k `min` length l + S (length l - k))%nat with (S (length l)) by lia.
  destruct (drop k l) as [|y l'] eqn:E; apply (f_equal length) in E; rewrite length_drop in E; simpl in E.
  - f_equal. lia.
  - destruct (length l) as [|n]; simpl; [lia|]. destruct (Nat.leb_spec k n); [done|lia].
Qed.

Lemma insert_pos k : match place_ptr false 0 k None with Some j => S j | None => O end = k.
Proof. by destruct k. Qed.

Lemma riscv_add_subset_wf l s M m :
  subset_list_wf l -> ok_ext s = true -> subset_list_wf (riscv_add_subset l s M m).
Proof.
  intros Hwf Hs. destruct (riscv_lookup_subset_placed l s Hwf Hs) as (found & k & Hp & E).
  unfold riscv_add_subset. rewrite E. destruct Hp as [|k Hk H1 H2]; [done|].
  rewrite insert_pos. destruct Hwf as [Hok Hsort Htail]. constructor; simpl.
  - rewrite <- (take_drop k (nodes l)) in Hok. apply Forall_app in Hok as [Hok1 Hok2].
    apply Forall_app. split; [done|]. by constructor.
  - apply StronglySorted_app_insert; try done. by rewrite take_drop.
  - rewrite Htail. by rewrite last_index_insert.
Qed.

Lemma riscv_add_subset_exts l s M m :
  subset_list_wf l -> ok_ext s = true ->
  exts (riscv_add_subset l s M m)
  = match exts l !! s with Some _ => exts l | None => <[s := (M, m)]> (exts l) end.
Proof.
  intros Hwf Hs. destruct (riscv_lookup_subset_placed l s Hwf Hs) as (found & k & Hp & E).
  unfold riscv_add_subset. rewrite E. unfold exts at 2.
  destruct Hp as [k n Hk <-|k Hk H1 H2].
  - rewrite (exts_of_lookup (nodes l) k n); [done|apply Hwf|done].
  - rewrite insert_pos. rewrite exts_of_lookup_None.
    2:{ rewrite <- (take_drop k (nodes l)). apply Forall_app. split; apply lt_gt_ne; auto. }
    unfold exts, exts_of. simpl. rewrite fmap_app, list_to_map_app, fmap_cons. simpl.
    rewrite <- insert_union_r.
    + rewrite <- list_to_map_app, <- fmap_app, take_drop. done.
    + apply exts_of_lookup_None. apply lt_gt_ne. auto.
Qed.

(** ** Removal *)

Lemma find_node_Some ns s k :
  find_node ns s = Some k -> exists n, ns !! k = Some n /\ sub_name n = s.
Proof.
  revert k. induction ns as [|n ns IH]; intros k; simpl; [done|].
  destruct (String.eqb_spec (sub_name n) s) as [<-|]; [intros H; injection H as <-; eauto|].
  destruct (find_node ns s) as [j|]; [|done]. simpl. intros H. injection H as <-. eauto.
Qed.

Lemma find_node_None ns s : find_node ns s = None -> Forall (fun n => sub_name n <> s) ns.
Proof.
  induction ns as [|n ns IH]; simpl; [constructor|].
  destruct (String.eqb_spec (sub_name n) s) as [<-|]; [done|].
  destruct (find_node ns s); [done|]. constructor; auto.
Qed.

Lemma StronglySorted_delete {A} (R : A -> A -> Prop) (l1 l2 : list A) x :
  StronglySorted R (l1 ++ x :: l2) -> StronglySorted R (l1 ++ l2).
Proof.
  induction l1 as [|a l1 IH]; simpl; inversion 1; subst; [done|].
  constructor; [auto|]. match goal with H : Forall _ (_ ++ _) |- _ => apply Forall_app in H as [Ha Hb] end.
  apply Forall_app. split; [done|]. by apply Forall_cons in Hb as [_ Hb].
Qed.

Lemma last_index_delete {A} (l : list A) k x :
  l !! k = Some x ->
  last_index (take k l ++ drop (S k) l)
  = match drop (S k) l with
    | [] => match k with O => None | S pre => Some pre end
    | _ :: _ => (fun t => if (k <? t)%nat then pred t else t) <$> last_index l
    end.
Proof.
  intros Hk. apply lookup_lt_Some in Hk. unfold last_index.
  rewrite length_app, length_take, length_drop.
  destruct (drop (S k) l) as [|y l'] eqn:E; apply (f_equal length) in E; rewrite length_drop in E; simpl in E.
  - replace (k `min` length l + (length l - S k))%nat with k by lia. by destruct k.
  - destruct (length l) as [|[|n]]; [lia..|].
    replace (k `min` S (S n) + (S (S n) - S k))%nat with (S n) by lia. simpl.
    destruct (Nat.ltb_spec k (S n)); [done|lia].
Qed.

Lemma riscv_remove_subset_wf l s : subset_list_wf l -> subset_list_wf (riscv_remove_subset l s).
Proof.
  intros [Hok Hsort Htail]. unfold riscv_remove_subset.
  destruct (find_node (nodes l) s) as [k|] eqn:E; [|done].
  apply find_node_Some in E as (n & Hk & Hn).
  pose proof (take_drop_middle _ _ _ Hk) as Hsplit. rewrite <- Hsplit in Hok, Hsort.
  constructor; simpl.
  - apply Forall_app in Hok as [H1 H2]. apply Forall_cons in H2 as [_ H2]. by apply Forall_app.
  - by apply StronglySorted_delete in Hsort.
  - rewrite Htail. by rewrite (last_index_delete _ _ n).
Qed.

Lemma riscv_remove_subset_exts l s :
  subset_list_wf l -> exts (riscv_remove_subset l s) = delete s (exts l).
Proof.
  intros [Hok Hsort Htail]. unfold riscv_remove_subset.
  destruct (find_node (nodes l) s) as [k|] eqn:E.
  - apply find_node_Some in E as (n & Hk & <-).
    pose proof (take_drop_middle _ _ _ Hk) as Hsplit. unfold exts. simpl.
    rewrite <- Hsplit at 3. rewrite <- Hsplit in Hsort. apply sorted_names_NoDup in Hsort.
    unfold exts_of. rewrite !fmap_app, fmap_cons, !list_to_map_app. simpl.
    rewrite !fmap_app, !fmap_cons in Hsort. simpl in Hsort.
    apply NoDup_app in Hsort as (_ & H1 & H2). apply NoDup_cons in H2 as [H2 _].
    rewrite delete_union, delete_insert_id, (delete_id (list_to_map (node_entry <$> take k _))); try done.
    + apply not_elem_of_list_to_map_1. intros Hin. apply (H1 _ Hin). left.
    + by apply not_elem_of_list_to_map_1.
  - apply find_node_None in E. symmetry. apply delete_id. by apply exts_of_lookup_None.
Qed.

(** ** Copy and release *)

Lemma riscv_copy_subset_spec i ns g :
  riscv_copy_subset i ns g = (ns, match length ns with O => g | S k => Some (i + k)%nat end).
Proof.
  revert i. induction ns as [|[nm M m] ns IH]; intros i; simpl; [done|].
  rewrite IH. simpl. f_equal. destruct ns; simpl; f_equal; lia.
Qed.

Lemma riscv_copy_subset_list_eq g l :
  subset_list_wf l -> nodes l <> [] -> riscv_copy_subset_list g l = l.
Proof.
  intros [_ _ Htail] Hne. unfold riscv_copy_subset_list. rewrite riscv_copy_subset_spec.
  destruct l as [[|n ns] t a]; simpl in *; [done|]. by rewrite Htail.
Qed.

Lemma riscv_release_subset_list_wf l : subset_list_wf (riscv_release_subset_list l).
Proof. repeat constructor. Qed.

(** ** Insertion through [riscv_parse_add_subset] *)

(** The versions the parser gives to an extension it adds. *)
Definition resolved_version (spec : riscv_spec_class) (s : string) (M m : Z) : Z * Z :=
  if unknown_version (M, m) then riscv_get_default_ext_version spec s (M, m) else (M, m).

Lemma riscv_parse_add_implicit rps s M m :
  riscv_parse_add_subset rps s M m true
  = set_subset_list rps
      (riscv_add_subset (subset_list rps) s (resolved_version (isa_spec rps) s M m).1
         (resolved_version (isa_spec rps) s M m).2).
Proof. reflexivity. Qed.

Lemma riscv_parse_add_subset_wf rps s M m imp :
  subset_list_wf (subset_list rps) -> ok_ext s = true ->
  subset_list_wf (subset_list (riscv_parse_add_subset rps s M m imp)).
Proof.
  intros Hwf Hs. unfold riscv_parse_add_subset.
  repeat split_match; simpl; auto using riscv_add_subset_wf.
Qed.

(** ** Implied extensions *)

Definition unknown : Z := RISCV_UNKNOWN_VERSION.

Definition check_versions (f : check_func_t) (v : Z * Z) : bool :=
  call_check_func f (mk_subset "" v.1 v.2).

(** The extensions that follow from [m0]: those of [m0] with their versions,
    and those an applicable entry of the table implies, with the default
    version of the specification. *)
Inductive derivable (spec : riscv_spec_class) (m0 : gmap string (Z * Z)) : string -> Z * Z -> Prop :=
| derivable_base s v : m0 !! s = Some v -> derivable spec m0 s v
| derivable_implied t v :
    In t riscv_implicit_subsets -> derivable spec m0 (subset_name t) v ->
    check_versions (check_func t) v = true -> m0 !! implicit_name t = None ->
    derivable spec m0 (implicit_name t) (resolved_version spec (implicit_name t) unknown unknown).

Lemma implicit_names_ok t :
  In t riscv_implicit_subsets -> ok_ext (subset_name t) = true /\ ok_ext (implicit_name t) = true.
Proof.
  assert (H : forallb (fun t => ok_ext (subset_name t) && ok_ext (implicit_name t))
                riscv_implicit_subsets = true) by (vm_compute; reflexivity).
  rewrite forallb_forall in H. intros Ht. by apply andb_true_iff, H.
Qed.

Lemma call_check_func_versions f n v :
  (major_version n, minor_version n) = v -> call_check_func f n = check_versions f v.
Proof. by intros <-. Qed.

Lemma implicit_fires_iff l t :
  subset_list_wf l -> In t riscv_implicit_subsets ->
  implicit_fires l t = true <->
  exists v, exts l !! subset_name t = Some v /\ exts l !! implicit_name t = None /\
    check_versions (check_func t) v = true.
Proof.
  intros Hwf Ht. destruct (implicit_names_ok t Ht) as [Hs Hi]. unfold implicit_fires.
  pose proof (riscv_lookup_subset_exts l (subset_name t) Hwf Hs) as Hl.
  rewrite (riscv_lookup_subset_exts l (implicit_name t) Hwf Hi).
  destruct (exts l !! subset_name t) as [v|] eqn:Ev.
  - rewrite bool_decide_eq_true_2 in Hl by eauto.
    destruct (riscv_lookup_subset_found l _ Hwf Hs Hl) as (k & n & -> & Hk & _ & Hn).
    rewrite Hk. rewrite Ev in Hn. injection Hn as ->.
    rewrite (call_check_func_versions _ _ _ eq_refl).
    rewrite andb_true_iff, negb_true_iff, bool_decide_eq_false, <- eq_None_not_Some.
    split; [eauto|]. intros (v & Hv & ? & ?). by injection Hv as <-.
  - rewrite bool_decide_eq_false_2 in Hl by (by intros []).
    destruct (riscv_lookup_subset l (subset_name t)) as [[] ?]; [done|].
    split; [done|]. by intros (v & ? & _).
Qed.

(** The entries whose implied extension is still missing. *)
Definition missing (m : gmap string (Z * Z)) (t : riscv_implicit_subset) : bool :=
  bool_decide (m !! implicit_name t = None).

Definition count_missing (m : gmap string (Z * Z)) : nat :=
  length (List.filter (missing m) riscv_implicit_subsets).

Lemma filter_length_lt {A} (f g : A -> bool) (l : list A) x :
  (forall y, g y = true -> f y = true) -> In x l -> f x = true -> g x = false ->
  (length (List.filter g l) < length (List.filter f l))%nat.
Proof.
  intros Hfg Hin Hf Hg. induction l as [|y l IH]; [done|].
  assert (Hle : (length (List.filter g l) <= length (List.filter f l))%nat).
  { clear -Hfg. induction l as [|z l IH]; simpl; [lia|].
    destruct (g z) eqn:E; [rewrite (Hfg z E); simpl; lia|]. destruct (f z); simpl; lia. }
  simpl. destruct Hin as [->|Hin].
  - rewrite Hf, Hg. simpl. lia.
  - specialize (IH Hin). destruct (g y) eqn:E; [rewrite (Hfg y E); simpl; lia|].
    destruct (f y); simpl; lia.
Qed.

Lemma count_missing_insert m t v :
  In t riscv_implicit_subsets -> m !! implicit_name t = None ->
  (count_missing (<[implicit_name t := v]> m) < count_missing m)%nat.
Proof.
  intros Ht Hm. apply (filter_length_lt _ _ _ t); unfold missing; try done.
  - intros y. rewrite !bool_decide_eq_true, lookup_insert_None. by intros [].
  - by apply bool_decide_eq_true.
  - apply bool_decide_eq_false. by rewrite lookup_insert_eq.
Qed.

(** What one restart keeps: the invariant, the extensions below, and that
    everything is derivable. *)
Record closure_inv (spec : riscv_spec_class) (m0 : gmap string (Z * Z))
    (rps : riscv_parse_subset_t) : Prop := {
  ci_wf : subset_list_wf (subset_list rps);
  ci_spec : isa_spec rps = spec;
  ci_above : m0 ⊆ exts (subset_list rps);
  ci_derivable : forall s v, exts (subset_list rps) !! s = Some v -> derivable spec m0 s v;
}.

Lemma closure_inv_step spec m0 rps t :
  closure_inv spec m0 rps -> In t riscv_implicit_subsets ->
  implicit_fires (subset_list rps) t = true ->
  let rps' := riscv_parse_add_subset rps (implicit_name t) unknown unknown true in
  closure_inv spec m0 rps' /\
  (count_missing (exts (subset_list rps')) < count_missing (exts (subset_list rps)))%nat.
Proof.
  intros [Hwf Hspec Habove Hder] Ht Hf. destruct (implicit_names_ok t Ht) as [_ Hok].
  apply implicit_fires_iff in Hf as (v & Hv & Hnone & Hc); [|done..].
  rewrite riscv_parse_add_implicit. cbv zeta.
  assert (E : exts (riscv_add_subset (subset_list rps) (implicit_name t)
      (resolved_version (isa_spec rps) (implicit_name t) unknown unknown).1
      (resolved_version (isa_spec rps) (implicit_name t) unknown unknown).2)
    = <[implicit_name t := resolved_version spec (implicit_name t) unknown unknown]>
        (exts (subset_list rps))).
  { rewrite riscv_add_subset_exts, Hnone, Hspec by done. by destruct (resolved_version _ _ _ _). }
  unfold set_subset_list. split; [constructor; cbn [subset_list isa_spec]|]; cbn [subset_list].
  - by apply riscv_add_subset_wf.
  - done.
  - rewrite E. etransitivity; [exact Habove|]. by apply insert_subseteq.
  - rewrite E. intros s w. rewrite lookup_insert_Some. intros [[<- <-]|[_ Hs]]; [|auto].
    eapply derivable_implied; eauto. by eapply lookup_weaken_None.
  - rewrite E. by apply count_missing_insert.
Qed.

Lemma add_implicit_loop_closed fuel spec m0 rps :
  closure_inv spec m0 rps -> (count_missing (exts (subset_list rps)) <= fuel)%nat ->
  closure_inv spec m0 (add_implicit_loop fuel rps) /\
  (forall t, In t riscv_implicit_subsets ->
     implicit_fires (subset_list (add_implicit_loop fuel rps)) t = false).
Proof.
  revert rps. induction fuel as [|fuel IH]; intros rps Hinv Hfuel;
    cbn [add_implicit_loop].
  - split; [done|]. intros t Ht. destruct (implicit_fires _ t) eqn:E; [|done].
    destruct (closure_inv_step _ _ _ _ Hinv Ht E) as [_ Hlt]. lia.
  - destruct (List.find (implicit_fires (subset_list rps)) riscv_implicit_subsets) as [t|] eqn:E.
    + apply List.find_some in E as [Ht E].
      destruct (closure_inv_step _ _ _ _ Hinv Ht E) as [Hinv' Hlt]. apply IH; [done|].
      change RISCV_UNKNOWN_VERSION with unknown. lia.
    + split; [done|]. intros t Ht. by apply (List.find_none _ _ E).
Qed.

Lemma count_missing_le m : (count_missing m <= length riscv_implicit_subsets)%nat.
Proof. apply List.filter_length_le. Qed.

Lemma closed_derivable spec m0 rps :
  closure_inv spec m0 rps ->
  (forall t, In t riscv_implicit_subsets -> implicit_fires (subset_list rps) t = false) ->
  forall s v, derivable spec m0 s v -> exts (subset_list rps) !! s = Some v.
Proof.
  intros [Hwf Hspec Habove Hder] Hclosed s v Hd. induction Hd as [s v Hs|t v Ht _ IH Hc Hnone].
  - by eapply lookup_weaken.
  - destruct (exts (subset_list rps) !! implicit_name t) as [w|] eqn:E.
    + apply Hder in E. inversion E as [? ? Hs|]; subst; congruence.
    + specialize (Hclosed t Ht). apply not_true_iff_false in Hclosed. destruct Hclosed.
      apply implicit_fires_iff; eauto.
Qed.

Lemma closure_inv_start rps :
  subset_list_wf (subset_list rps) ->
  closure_inv (isa_spec rps) (exts (subset_list rps)) rps.
Proof. intros Hwf. constructor; try done. intros. by constructor. Qed.

Lemma riscv_parse_add_implicit_subsets_inv rps :
  subset_list_wf (subset_list rps) ->
  closure_inv (isa_spec rps) (exts (subset_list rps)) (riscv_parse_add_implicit_subsets rps) /\
  (forall t, In t riscv_implicit_subsets ->
     implicit_fires (subset_list (riscv_parse_add_implicit_subsets rps)) t = false).
Proof.
  intros Hwf. apply add_implicit_loop_closed; [by apply closure_inv_start|apply count_missing_le].
Qed.

(** ** Properties *)

(** A list for the examples: rv32i with m and the extensions it implies. *)
Definition example_list : riscv_subset_list_t :=
  mk_subset_list [mk_subset "i" 2 1; mk_subset "m" 2 0; mk_subset "zicsr" 2 0; mk_subset "zmmul" 1 0]
    (Some 3%nat) None.

Lemma example_list_wf : subset_list_wf example_list.
Proof. repeat constructor. Qed.

(** C12: refinement of a finite map.  Under the invariant (strictly sorted in
    canonical order, [tail] at the last node) [riscv_lookup_subset] decides
    membership, [riscv_add_subset] inserts a missing name and leaves the list
    alone otherwise, [riscv_remove_subset] deletes, [riscv_copy_subset_list]
    copies a non-empty list faithfully whatever the allocator leaves in the
    new header, and all of them keep the invariant. *)
Theorem subset_list_refines_map (l : riscv_subset_list_t) (s : string) (M m : Z) (g : option nat) :
  subset_list_wf l -> ok_ext s = true ->
  (riscv_lookup_subset l s).1 = bool_decide (is_Some (exts l !! s)) /\
  subset_list_wf (riscv_add_subset l s M m) /\
  exts (riscv_add_subset l s M m)
    = match exts l !! s with Some _ => exts l | None => <[s := (M, m)]> (exts l) end /\
  subset_list_wf (riscv_remove_subset l s) /\
  exts (riscv_remove_subset l s) = delete s (exts l) /\
  (nodes l <> [] -> riscv_copy_subset_list g l = l).
Proof.
  intros Hwf Hs. split_and!.
  - by apply riscv_lookup_subset_exts.
  - by apply riscv_add_subset_wf.
  - by apply riscv_add_subset_exts.
  - by apply riscv_remove_subset_wf.
  - by apply riscv_remove_subset_exts.
  - by apply riscv_copy_subset_list_eq.
Qed.

Lemma subset_list_refines_map_witness :
  exts (riscv_add_subset example_list "c" 2 0) = <["c" := (2, 0)]> (exts example_list).
Proof.
  destruct (subset_list_refines_map example_list "c" 2 0 None example_list_wf eq_refl)
    as (_ & _ & H & _).
  rewrite H. vm_compute. reflexivity.
Defined.

(** The fast path of [riscv_lookup_subset], which compares with [tail]
    before scanning, returns the very result of the scan, [*current] included;
    and when the name is missing that pointer is the last smaller node, so
    inserting after it keeps the order. *)
Theorem riscv_lookup_subset_tail_test (l : riscv_subset_list_t) (s : string) :
  subset_list_wf l -> ok_ext s = true ->
  riscv_lookup_subset l s = lookup_loop (nodes l) 0 None s /\
  ((riscv_lookup_subset l s).1 = false ->
   let k := match (riscv_lookup_subset l s).2 with Some j => S j | None => O end in
   Forall (fun n => ext_lt (sub_name n) s) (take k (nodes l)) /\
   Forall (fun n => ext_lt s (sub_name n)) (drop k (nodes l))).
Proof.
  intros Hwf Hs. split; [by apply riscv_lookup_subset_loop|].
  destruct (riscv_lookup_subset_placed l s Hwf Hs) as (found & k & Hp & ->). simpl.
  intros ->. rewrite insert_pos. by inversion Hp.
Qed.

Lemma riscv_lookup_subset_tail_test_witness :
  riscv_lookup_subset example_list "zvl32b" = lookup_loop (nodes example_list) 0 None "zvl32b".
Proof.
  exact (proj1 (riscv_lookup_subset_tail_test example_list "zvl32b" example_list_wf eq_refl)).
Defined.

(** C34: the implied extensions are computed completely and exactly.  The
    restarting scan of [riscv_parse_add_implicit_subsets] ends (within as many
    restarts as the table has entries), and afterwards an extension is present
    with version [v] iff it was given with that version, or it follows by a
    chain of applicable table entries and [v] is its default version. *)
Theorem riscv_parse_add_implicit_subsets_least (rps : riscv_parse_subset_t) (s : string) (v : Z * Z) :
  subset_list_wf (subset_list rps) ->
  exts (subset_list (riscv_parse_add_implicit_subsets rps)) !! s = Some v <->
  derivable (isa_spec rps) (exts (subset_list rps)) s v.
Proof.
  intros Hwf. destruct (riscv_parse_add_implicit_subsets_inv rps Hwf) as [Hinv Hc].
  split; [by apply Hinv|by apply closed_derivable].
Qed.

Lemma riscv_parse_add_implicit_subsets_least_witness :
  derivable ISA_SPEC_CLASS_20191213 {["q" := (2, 2)]} "f"%string (2, 2).
Proof.
  apply (riscv_parse_add_implicit_subsets_least
    (mk_rps (mk_subset_list [mk_subset "q" 2 2] (Some 0%nat) None) [] 64 ISA_SPEC_CLASS_20191213 true)
    "f" (2, 2)).
  - repeat constructor.
  - vm_compute. reflexivity.
Defined.
