(* ===== verification/SubsetParse.v ===== *)
(** * The ISA string parser: invariant, termination, closure, conflicts

    Parsing keeps the chain well formed, its loops never exhaust their fuel,
    and a string that is accepted yields a list closed under the implications
    of the table and free of the conflicts the parser knows. *)
From Stdlib Require Import ZArith Bool Ascii Lia Sorting.Sorted.
From stdpp Require Import base list strings gmap.
From S2P Require Import Prelude RiscvH SubsetTables Subset SubsetOrder SubsetSpec.

#[local] Open Scope Z_scope.

(** ** Suffixes *)

(** [q] is what is left of [p] after some characters. *)
Definition rest_of (q p : list ascii) : Prop := exists a, p = a ++ q.

Lemma rest_of_refl p : rest_of p p.
Proof. by exists []. Qed.

Lemma rest_of_trans a b c : rest_of a b -> rest_of b c -> rest_of a c.
Proof. intros [x ->] [y ->]. exists (y ++ x). by rewrite app_assoc. Qed.

Lemma rest_of_cons c q p : rest_of q p -> rest_of q (c :: p).
Proof. intros [a ->]. by exists (c :: a). Qed.

Lemma rest_of_drop k p : rest_of (drop k p) p.
Proof. exists (take k p). by rewrite take_drop. Qed.

Lemma rest_of_length q p : rest_of q p -> (length q <= length p)%nat.
Proof. intros [a ->]. rewrite length_app. lia. Qed.

Lemma rest_of_forallb f q p : rest_of q p -> forallb f p = true -> forallb f q = true.
Proof. intros [a ->]. rewrite forallb_app, andb_true_iff. by intros []. Qed.

#[local] Hint Resolve rest_of_refl rest_of_cons rest_of_drop : core.

Lemma version_loop_rest p b M v q b' M' v' :
  version_loop p b M v = (q, b', M', v') -> rest_of q p.
Proof.
  revert b M v. induction p as [|c p IH]; simpl; intros b M v H; [by injection H as <- _ _ _|].
  repeat split_match_in H; try (injection H as <- _ _ _); eauto.
Qed.

Lemma riscv_parsing_subset_version_rest p q M m :
  riscv_parsing_subset_version p = (q, M, m) -> rest_of q p.
Proof.
  unfold riscv_parsing_subset_version.
  destruct (version_loop p true 0 0) as [[[q' b] M'] v] eqn:E. apply version_loop_rest in E.
  repeat split_match; intros H; by injection H as <- _ _.
Qed.

(** ** The split of an extension from its version *)

Lemma span_until_app cs p : (span_until cs p).1 ++ (span_until cs p).2 = p.
Proof.
  induction p as [|c p IH]; simpl; [done|]. destruct (existsb _ cs); [done|].
  destruct (span_until cs p). simpl in *. by rewrite IH.
Qed.

Lemma back_over_version_rest a b r : rest_of (back_over_version a b r) r.
Proof. revert a b. induction r as [|c r IH]; intros; simpl; repeat split_match; auto. Qed.

Lemma rest_of_rev q p : rest_of q (rev p) -> exists b, p = rev q ++ b.
Proof.
  intros [a H]. exists (rev a). rewrite <- rev_app_distr, <- H. by rewrite rev_involutive.
Qed.

(** The name and the rest make up the string. *)
Lemma split_extension_app p r rest :
  p <> [] -> split_extension p = (r, rest) -> p = rev r ++ rest.
Proof.
  intros Hne. unfold split_extension.
  assert (Haux : forall r rest,
    (back_over_version false false (rev (span_until ["_"%char] p).1),
     drop (length (back_over_version false false (rev (span_until ["_"%char] p).1))) p)
      = (r, rest) -> p = rev r ++ rest).
  { intros r' rest' H. injection H as H1 <-.
    pose proof (back_over_version_rest false false (rev (span_until ["_"%char] p).1)) as Hr.
    rewrite H1 in *. apply rest_of_rev in Hr as [b Hb].
    rewrite <- (span_until_app ["_"%char] p) at 1 2. rewrite Hb, <- app_assoc.
    rewrite drop_app_length'; [done|]. by rewrite length_rev. }
  destruct (riscv_get_prefix_class p); auto.
  intros H. injection H as <- <-. by destruct p.
Qed.

(** A name that starts with a letter other than p is never all version. *)
Lemma back_over_version_letter c l a m :
  is_digit c = false -> Ascii.eqb c "p" = false -> back_over_version a m (l ++ [c]) <> [].
Proof.
  intros Hd Hc. revert a m. induction l as [|d l IH]; intros a m; simpl.
  - by rewrite Hd, Hc, andb_false_r.
  - destruct (is_digit d); [auto|]. by destruct (_ && _).
Qed.

Lemma split_extension_nonempty p r rest :
  split_extension p = (r, rest) -> r <> [].
Proof.
  unfold split_extension. pose proof (prefix_class_letter p) as Hl.
  destruct (riscv_get_prefix_class p);
    try (intros H; injection H as <- <-; done);
    specialize (Hl ltac:(congruence)); rewrite Hl; simpl;
    destruct (span_until ["_"%char] (next_char p)) as [a b]; simpl;
    intros H; injection H as H _; rewrite <- H; by apply back_over_version_letter.
Qed.

(** ** Names the parser adds are well formed *)

Lemma known_exts_ok s :
  riscv_known_prefixed_ext s (riscv_supported_std_z_ext ++ riscv_supported_std_s_ext
     ++ riscv_supported_std_zxm_ext) = true -> ok_ext s = true.
Proof.
  unfold riscv_known_prefixed_ext. rewrite existsb_exists. intros (e & He & Hs).
  apply String.eqb_eq in Hs as ->.
  assert (H : forallb (fun e => ok_ext (ext_name e)) (riscv_supported_std_z_ext
     ++ riscv_supported_std_s_ext ++ riscv_supported_std_zxm_ext) = true) by (vm_compute; reflexivity).
  rewrite forallb_forall in H. by apply H.
Qed.

Lemma recognized_ok s :
  riscv_recognized_prefixed_ext s = true -> forallb name_char (chars s) = true -> ok_ext s = true.
Proof.
  unfold riscv_recognized_prefixed_ext. destruct (riscv_get_prefix_class (chars s)) eqn:E; intros H Hc.
  1-3: apply known_exts_ok; unfold riscv_known_prefixed_ext in *; rewrite !existsb_app, H;
       by rewrite ?orb_true_r.
  - unfold ok_ext. by rewrite E.
  - done.
Qed.

Lemma single_ok c : riscv_ext_order c <> 0 -> ok_ext (unchars [c]) = true.
Proof.
  intros H. unfold ok_ext. rewrite chars_unchars. pose proof (riscv_ext_order_range c) as R.
  pose proof (prefix_class_order [c]) as Ho. simpl in Ho.
  destruct (riscv_get_prefix_class [c]); try (specialize (Ho ltac:(congruence)); lia).
  simpl. rewrite andb_true_r. apply Z.gtb_lt. lia.
Qed.

(** The end of an iteration of the parser: what is left, and the name added. *)
Lemma split_extension_name p r rest :
  p <> [] -> forallb name_char p = true -> split_extension p = (r, rest) ->
  forallb name_char (rev r) = true /\ forallb name_char rest = true /\
  (length rest < length p)%nat.
Proof.
  intros Hne Hp Hs. pose proof (split_extension_nonempty _ _ _ Hs) as Hr.
  apply split_extension_app in Hs; [|done]. rewrite Hs, forallb_app in Hp.
  apply andb_true_iff in Hp as []. split_and!; try done.
  rewrite Hs, length_app, length_rev. destruct r; [done|]. simpl. lia.
Qed.

Lemma split_extension_single p c p' :
  p = c :: p' -> riscv_get_prefix_class p = RV_ISA_CLASS_SINGLE -> split_extension p = ([c], p').
Proof. intros -> H. unfold split_extension. by rewrite H. Qed.

Lemma parse_add_check rps s M m imp :
  check_unknown_prefixed_ext (riscv_parse_add_subset rps s M m imp) = check_unknown_prefixed_ext rps.
Proof. unfold riscv_parse_add_subset. by repeat split_match. Qed.

(** ** The loop over the extensions *)

Lemma parse_extensions_loop_wf fuel rps p rps' ok :
  subset_list_wf (subset_list rps) -> check_unknown_prefixed_ext rps = true ->
  forallb name_char p = true -> parse_extensions_loop fuel rps p = (rps', ok) ->
  subset_list_wf (subset_list rps').
Proof.
  revert rps p. induction fuel as [|fuel IH]; intros rps p Hwf Hu Hp;
    (destruct p as [|c p]; cbn [parse_extensions_loop]; [intros H; by injection H as <- _|]).
  { intros H; by injection H as <- _. }
  destruct (Ascii.eqb c "_"); [apply IH; try done; by apply (forallb_next _ (c :: p))|].
  destruct (bool_decide _ && _) eqn:Hsingle; [intros H; by injection H as <- _|].
  destruct (split_extension (c :: p)) as [r rest] eqn:Hs.
  destruct (split_extension_name (c :: p) r rest ltac:(done) Hp Hs) as (Hname & Hrest & _).
  destruct (negb _ && ends_with_number_p r); [intros H; by injection H as <- _|].
  destruct (riscv_parsing_subset_version rest) as [[q M] m] eqn:Hv.
  apply riscv_parsing_subset_version_rest in Hv. rewrite Hu.
  destruct (negb _ && true && _) eqn:Hrec; [intros H; by injection H as <- _|].
  assert (Hok : ok_ext (unchars (rev r)) = true).
  { destruct (bool_decide_reflect (riscv_get_prefix_class (c :: p) = RV_ISA_CLASS_SINGLE)) as [E|E];
      simpl in *.
    - rewrite (split_extension_single _ c p eq_refl E) in Hs. injection Hs as <- _.
      apply single_ok. by apply Z.eqb_neq.
    - apply negb_false_iff in Hrec. apply recognized_ok; [done|]. by rewrite chars_unchars. }
  assert (Hwf' : forall b, subset_list_wf (subset_list
     (if b : bool then riscv_parse_add_subset rps (unchars (rev r)) RISCV_UNKNOWN_VERSION
                RISCV_UNKNOWN_VERSION true
      else riscv_parse_add_subset rps (unchars (rev r)) M m false)))
    by (intros []; by apply riscv_parse_add_subset_wf).
  match goal with |- context [if ?b then (error_handler _ E_separate, _) else _] => destruct b end;
    [intros H; injection H as <- _; apply Hwf'|].
  apply IH; [apply Hwf'| |by eapply rest_of_forallb].
  match goal with |- context [if ?b then _ else _] => destruct b end; by rewrite parse_add_check.
Qed.

(** The fuel, the length of the string, is enough. *)
Lemma parse_extensions_loop_fuel fuel rps p :
  (length p <= fuel)%nat ->
  parse_extensions_loop fuel rps p = parse_extensions_loop (length p) rps p.
Proof.
  revert rps p. induction fuel as [fuel IH] using lt_wf_ind. intros rps p Hle.
  destruct p as [|c p]; [by destruct fuel|]. destruct fuel as [|fuel]; [simpl in Hle; lia|].
  cbn [length] in *. cbn [parse_extensions_loop].
  destruct (Ascii.eqb c "_"); [apply IH; lia|].
  destruct (_ && (riscv_ext_order c =? 0)); [done|].
  destruct (split_extension (c :: p)) as [r rest] eqn:Hs.
  pose proof (split_extension_nonempty _ _ _ Hs) as Hr.
  apply split_extension_app in Hs; [|done]. apply (f_equal length) in Hs.
  rewrite length_app, length_rev in Hs. simpl in Hs. destruct r as [|d r]; [done|]. simpl in Hs.
  destruct (negb _ && ends_with_number_p _); [done|].
  destruct (riscv_parsing_subset_version rest) as [[q M] m] eqn:Hv.
  apply riscv_parsing_subset_version_rest, rest_of_length in Hv.
  repeat match goal with |- (if ?b then _ else _) = _ => destruct b; [done|] end.
  rewrite (IH fuel) by lia. by rewrite (IH (length p)) by lia.
Qed.

(** ** Closed and conflict-free sets of extensions *)

Definition has (m : gmap string (Z * Z)) (s : string) : Prop := is_Some (m !! s).

Definition closed (m : gmap string (Z * Z)) : Prop :=
  forall t v, In t riscv_implicit_subsets -> m !! subset_name t = Some v ->
    check_versions (check_func t) v = true -> has m (implicit_name t).

Definition has_with_prefix (prefix : string) (m : gmap string (Z * Z)) : Prop :=
  exists s rest, has m s /\ chars s = chars prefix ++ rest.

Record conflict_free (xlen : Z) (m : gmap string (Z * Z)) : Prop := {
  cf_e_h : ~ (has m "e" /\ has m "h");
  cf_q : forall M n, m !! "q"%string = Some (M, n) -> 64 <= xlen \/ 2 < M \/ (M = 2 /\ 2 <= n);
  cf_zcf : has m "zcf" -> xlen <= 32;
  cf_zfinx : ~ (has m "zfinx" /\ has m "f");
  cf_xtheadvector : ~ (has m "xtheadvector" /\ has m "v");
  cf_zvl : has_with_prefix "zvl" m -> has_with_prefix "zve" m;
}.

Lemma riscv_subset_supports_has rps s :
  subset_list_wf (subset_list rps) -> ok_ext s = true ->
  riscv_subset_supports rps s = true <-> has (exts (subset_list rps)) s.
Proof.
  intros Hwf Hs. unfold riscv_subset_supports. rewrite riscv_lookup_subset_exts by done.
  apply bool_decide_eq_true.
Qed.

Lemma strip_prefix_complete p r : strip_prefix p (p ++ r) = Some r.
Proof. induction p as [|c p IH]; simpl; [done|]. by rewrite Ascii.eqb_refl. Qed.

Lemma exts_has_node l s :
  subset_list_wf l -> has (exts l) s <-> exists n, In n (nodes l) /\ sub_name n = s.
Proof.
  intros Hwf. split.
  - intros [v Hv]. apply elem_of_list_to_map_2, list_elem_of_fmap in Hv as (n & Hn & Hin).
    injection Hn as -> _. exists n. by rewrite <- list_elem_of_In.
  - intros (n & Hin & <-). apply list_elem_of_In, list_elem_of_lookup in Hin as [k Hk].
    exists (major_version n, minor_version n). eapply exts_of_lookup; [apply Hwf|done].
Qed.

Lemma has_prefix_iff prefix l :
  subset_list_wf l -> has_prefix prefix l = true <-> has_with_prefix prefix (exts l).
Proof.
  intros Hwf. unfold has_prefix, has_with_prefix. rewrite existsb_exists. split.
  - intros (n & Hin & H). destruct (strip_prefix _ _) as [r|] eqn:E; [|done].
    apply strip_prefix_app in E. exists (sub_name n), r. split; [|done]. apply exts_has_node; eauto.
  - intros (s & r & Hs & E). apply exts_has_node in Hs as (n & Hin & <-); [|done].
    exists n. by rewrite E, strip_prefix_complete.
Qed.

Lemma old_q_false l M m :
  subset_list_wf l -> old_q l = false -> exts l !! "q"%string = Some (M, m) ->
  2 < M \/ (M = 2 /\ 2 <= m).
Proof.
  intros Hwf Hq He. unfold old_q in Hq.
  destruct (riscv_lookup_subset_found l "q" Hwf eq_refl) as (k & n & Hl & Hk & _ & Hv).
  { rewrite riscv_lookup_subset_exts by done. apply bool_decide_eq_true. eauto. }
  rewrite Hl, Hk in Hq. rewrite He in Hv. injection Hv as -> ->. breflect.
  destruct H0; breflect; lia.
Qed.

Lemma conflict_if_true b e st rps : conflict_if b e st = (rps, true) -> b = false /\ st = (rps, true).
Proof. unfold conflict_if. by destruct b. Qed.

Lemma conflict_if_list b e st : subset_list (conflict_if b e st).1 = subset_list st.1.
Proof. by destruct b. Qed.

Lemma check_conflicts_list rps :
  subset_list (riscv_parse_check_conflicts rps).1 = subset_list rps.
Proof. unfold riscv_parse_check_conflicts. by rewrite !conflict_if_list. Qed.

Lemma check_conflicts_true rps rps' :
  subset_list_wf (subset_list rps) -> riscv_parse_check_conflicts rps = (rps', true) ->
  rps' = rps /\ conflict_free (rps_xlen rps) (exts (subset_list rps)).
Proof.
  intros Hwf. unfold riscv_parse_check_conflicts. cbv zeta. intros H.
  apply conflict_if_true in H as [Hz H]. apply conflict_if_true in H as [Hv H].
  apply conflict_if_true in H as [Hf H]. apply conflict_if_true in H as [Hc H].
  apply conflict_if_true in H as [Hq H]. apply conflict_if_true in H as [He H].
  injection H as <-. split; [done|].
  constructor; try (rewrite <- !riscv_subset_supports_has by done).
  - intros [H1 H2]. by rewrite H1, H2 in He.
  - intros M n Hm. apply andb_false_iff in Hq as [Hq|Hq]; [right; by eapply old_q_false|].
    apply Z.ltb_ge in Hq. by left.
  - intros H1. rewrite H1 in Hc. simpl in Hc. rewrite Z.gtb_ltb in Hc. by apply Z.ltb_ge in Hc.
  - intros [H1 H2]. by rewrite H1, H2 in Hf.
  - intros [H1 H2]. by rewrite H1, H2 in Hv.
  - rewrite <- !has_prefix_iff by done. intros H1. rewrite H1 in Hz. simpl in Hz.
    by apply negb_false_iff in Hz.
Qed.

Lemma old_q_true l :
  subset_list_wf l -> old_q l = true ->
  exists M m, exts l !! "q"%string = Some (M, m) /\ (M < 2 \/ (M = 2 /\ m < 2)).
Proof.
  intros Hwf Hq. unfold old_q in Hq.
  destruct (riscv_lookup_subset l "q") as [[] c] eqn:El; [|done].
  destruct (riscv_lookup_subset_found l "q" Hwf eq_refl) as (k & n & Hl & Hk & _ & Hv); [by rewrite El|].
  rewrite El in Hl. injection Hl as ->. rewrite Hk in Hq. eexists _, _. split; [exact Hv|].
  apply orb_true_iff in Hq as [Hq|Hq]; breflect; lia.
Qed.

(** A list without conflicts is accepted as it is. *)
Lemma check_conflicts_free rps :
  subset_list_wf (subset_list rps) -> conflict_free (rps_xlen rps) (exts (subset_list rps)) ->
  riscv_parse_check_conflicts rps = (rps, true).
Proof.
  intros Hwf [H1 H2 H3 H4 H5 H6].
  rewrite <- 2 riscv_subset_supports_has in H1, H4, H5 by done. rewrite <- riscv_subset_supports_has in H3 by done.
  unfold riscv_parse_check_conflicts. cbv zeta.
  assert (E1 : riscv_subset_supports rps "e" && riscv_subset_supports rps "h" = false)
    by (apply not_true_is_false; rewrite andb_true_iff; exact H1).
  assert (E2 : old_q (subset_list rps) && (rps_xlen rps <? 64) = false).
  { apply not_true_is_false. rewrite andb_true_iff, Z.ltb_lt. intros [Hq Hx].
    apply old_q_true in Hq as (M & m & Hq & Hv); [|done]. specialize (H2 _ _ Hq). lia. }
  assert (E3 : riscv_subset_supports rps "zcf" && (rps_xlen rps >? 32) = false).
  { apply not_true_is_false. rewrite andb_true_iff, Z.gtb_lt. intros [Hz Hx]. specialize (H3 Hz). lia. }
  assert (E4 : riscv_subset_supports rps "zfinx" && riscv_subset_supports rps "f" = false)
    by (apply not_true_is_false; rewrite andb_true_iff; exact H4).
  assert (E5 : riscv_subset_supports rps "xtheadvector" && riscv_subset_supports rps "v" = false)
    by (apply not_true_is_false; rewrite andb_true_iff; exact H5).
  assert (E6 : has_prefix "zvl" (subset_list rps) && negb (has_prefix "zve" (subset_list rps)) = false).
  { apply not_true_is_false. rewrite andb_true_iff, negb_true_iff, has_prefix_iff by done. intros [Hl He].
    apply H6 in Hl. apply has_prefix_iff in Hl; [|done]. congruence. }
  by rewrite E1, E2, E3, E4, E5, E6.
Qed.

Lemma add_implicit_xlen rps s M m imp :
  rps_xlen (riscv_parse_add_subset rps s M m imp) = rps_xlen rps.
Proof. unfold riscv_parse_add_subset. by repeat split_match. Qed.

Lemma add_implicit_loop_xlen fuel rps : rps_xlen (add_implicit_loop fuel rps) = rps_xlen rps.
Proof.
  revert rps. induction fuel as [|fuel IH]; intros rps; cbn [add_implicit_loop]; [done|].
  destruct (List.find (implicit_fires (subset_list rps)) riscv_implicit_subsets); [|done].
  by rewrite IH.
Qed.

Lemma closure_closed rps :
  subset_list_wf (subset_list rps) ->
  closed (exts (subset_list (riscv_parse_add_implicit_subsets rps))).
Proof.
  intros Hwf. destruct (riscv_parse_add_implicit_subsets_inv rps Hwf) as [[Hwf' _ _ _] Hc].
  intros t v Ht Hv Hcheck. specialize (Hc t Ht).
  destruct (exts (subset_list (riscv_parse_add_implicit_subsets rps)) !! implicit_name t)
    as [w|] eqn:E; [by exists w|].
  apply not_true_iff_false in Hc. destruct Hc. apply implicit_fires_iff; eauto.
Qed.

(** What both entry points end with. *)
Lemma close_and_check rps rps' ok :
  subset_list_wf (subset_list rps) ->
  riscv_parse_check_conflicts (riscv_parse_add_implicit_subsets rps) = (rps', ok) ->
  subset_list_wf (subset_list rps') /\
  (ok = true -> closed (exts (subset_list rps')) /\ rps_xlen rps' = rps_xlen rps /\
     conflict_free (rps_xlen rps') (exts (subset_list rps'))).
Proof.
  intros Hwf H. destruct (riscv_parse_add_implicit_subsets_inv rps Hwf) as [[Hwf' _ _ _] _].
  split.
  - apply (f_equal fst) in H. simpl in H. rewrite <- H, check_conflicts_list. done.
  - intros ->. apply check_conflicts_true in H as [-> Hcf]; [|done].
    split_and!; [by apply closure_closed|apply add_implicit_loop_xlen|done].
Qed.

(** ** Entry points *)

Lemma parse_loop_xlen fuel rps p rps' ok :
  parse_extensions_loop fuel rps p = (rps', ok) -> rps_xlen rps' = rps_xlen rps.
Proof.
  revert rps p. induction fuel as [|fuel IH]; intros rps [|c p]; cbn [parse_extensions_loop];
    try (intros H; by injection H as <- _).
  repeat match goal with
  | |- match ?x with _ => _ end = _ -> _ => destruct x
  end; intros H; try (by injection H as <- _); try (injection H as <- _; simpl); try apply IH in H;
  try rewrite H; repeat split_match; by rewrite ?add_implicit_xlen.
Qed.

(** [no_nul] and lower case: what a C string without capitals satisfies. *)
Lemma name_chars_of arch :
  existsb is_upper arch = false -> ~ In "000"%char arch -> forallb name_char arch = true.
Proof.
  intros Hu Hn. apply forallb_forall. intros c Hc. unfold name_char. apply andb_true_iff.
  split; apply negb_true_iff.
  - destruct (is_upper c) eqn:E; [|done]. apply not_true_iff_false in Hu. destruct Hu.
    apply existsb_exists. eauto.
  - apply Ascii.eqb_neq. by intros ->.
Qed.

Lemma strip_prefix_rest a p q : strip_prefix a p = Some q -> rest_of q p.
Proof. intros H. apply strip_prefix_app in H. by exists a. Qed.

(** The xlen an architecture string starts with. *)
Definition names_xlen (arch : string) (xlen : Z) : Prop :=
  (xlen = 32 /\ is_Some (strip_prefix (chars "rv32") (chars arch))) \/
  (xlen = 64 /\ is_Some (strip_prefix (chars "rv64") (chars arch))).

Lemma riscv_parse_subset_string rps arch rps' ok :
  subset_list_wf (subset_list rps) -> check_unknown_prefixed_ext rps = true ->
  ~ In "000"%char (chars arch) -> riscv_parse_subset rps (Some arch) = (rps', ok) ->
  subset_list_wf (subset_list rps') /\
  (ok = true -> closed (exts (subset_list rps')) /\ names_xlen arch (rps_xlen rps') /\
     conflict_free (rps_xlen rps') (exts (subset_list rps'))).
Proof.
  intros Hwf Hu Hn. unfold riscv_parse_subset.
  destruct (existsb is_upper (chars arch)) eqn:Hup; [intros H; by injection H as <- <-|].
  pose proof (name_chars_of _ Hup Hn) as Hc.
  assert (Hgo : forall xlen p, rest_of p (chars arch) -> names_xlen arch xlen ->
    match riscv_parse_extensions (set_rps_xlen rps xlen) p with
    | (r, true) => riscv_parse_check_conflicts (riscv_parse_add_implicit_subsets r)
    | (r, false) => (r, false)
    end = (rps', ok) ->
    subset_list_wf (subset_list rps') /\
    (ok = true -> closed (exts (subset_list rps')) /\ names_xlen arch (rps_xlen rps') /\
       conflict_free (rps_xlen rps') (exts (subset_list rps')))).
  { intros xlen p Hp Hx. unfold riscv_parse_extensions.
    destruct (_ && _ && _); [intros H; by injection H as <- <-|].
    destruct (parse_extensions_loop _ _ p) as [r b] eqn:E.
    assert (Hr : subset_list_wf (subset_list r))
      by (eapply parse_extensions_loop_wf; [..|exact E]; try done; by eapply rest_of_forallb).
    destruct b; [|intros H; by injection H as <- <-].
    intros H. apply close_and_check in H as [Hwf' Hok]; [|done]. split; [done|].
    intros Ht. destruct (Hok Ht) as (Hcl & Hxl & Hcf). apply parse_loop_xlen in E. simpl in E.
    rewrite Hxl, E in *. done. }
  destruct (strip_prefix (chars "rv32") (chars arch)) as [p|] eqn:E32.
  { apply Hgo; [by eapply strip_prefix_rest|left; rewrite E32; eauto]. }
  destruct (strip_prefix (chars "rv64") (chars arch)) as [p|] eqn:E64.
  { apply Hgo; [by eapply strip_prefix_rest|right; rewrite E64; eauto]. }
  destruct (chars arch); intros H; by injection H as <- <-.
Qed.

(** ** .option arch *)

Lemma split_option_app p r rest : split_option p = (r, rest) -> p = rev r ++ rest.
Proof.
  unfold split_option. pose proof (span_until_app [","%char] p) as Hp.
  destruct (span_until [","%char] p) as [token tl]. simpl in *.
  destruct token as [|c token]; [intros H; by injection H as <- <-|].
  pose proof (back_over_version_rest false false (rev (c :: token))) as Hr.
  destruct (back_over_version false false (rev (c :: token))) as [|d r'].
  - intros H. injection H as <- <-. by rewrite <- Hp.
  - intros H. injection H as <- <-. apply rest_of_rev in Hr as [b Hb].
    rewrite <- Hp, Hb, <- app_assoc. rewrite drop_app_length'; [done|]. by rewrite length_rev.
Qed.

Lemma chars_no_nul p : forallb name_char p = true -> ~ In "000"%char (chars (unchars p)).
Proof.
  rewrite chars_unchars, forallb_forall. intros H Hin. apply H in Hin. done.
Qed.

(** What an accepted option leaves: a well-formed, closed list. *)
Definition good_result (st : riscv_parse_subset_t * bool) : Prop :=
  subset_list_wf (subset_list st.1) /\
  (st.2 = true -> closed (exts (subset_list st.1)) /\
     conflict_free (rps_xlen st.1) (exts (subset_list st.1))).

Lemma good_failure rps : subset_list_wf (subset_list rps) -> good_result (rps, false).
Proof. by split. Qed.

Lemma update_loop_good fuel before rps p :
  subset_list_wf (subset_list rps) -> check_unknown_prefixed_ext rps = true ->
  forallb name_char p = true -> good_result (update_loop fuel before rps p).
Proof.
  revert rps p. induction fuel as [|fuel IH]; intros rps p Hwf Hu Hp.
  all: assert (Hrestart : forall p, forallb name_char p = true ->
    good_result (riscv_parse_subset (set_subset_list rps
      (riscv_release_subset_list (subset_list rps))) (Some (unchars p)))).
  1,3: intros q Hq; destruct (riscv_parse_subset _ _) as [r b] eqn:E;
    apply riscv_parse_subset_string in E as [H1 H2];
    [split; [done|]; simpl; intros Hb; destruct (H2 Hb) as (H3 & _ & H4); done
    |apply riscv_release_subset_list_wf|done|by apply chars_no_nul].
  all: destruct p as [|sign p]; cbn [update_loop]; [by apply Hrestart|].
  { by apply good_failure. }
  destruct (negb _ && negb _); [by apply Hrestart|].
  destruct (split_option p) as [r rest] eqn:Hs.
  apply split_option_app in Hs. pose proof Hp as Hp'. apply forallb_next in Hp'. simpl in Hp'.
  rewrite Hs, forallb_app in Hp'. apply andb_true_iff in Hp' as [Hr Hrest].
  destruct (_ && ends_with_number_p _); [by apply good_failure|].
  destruct (riscv_parsing_subset_version rest) as [[q M] m] eqn:Hv.
  apply riscv_parsing_subset_version_rest in Hv.
  match goal with |- context [if ?b then (error_handler _ (match _ with [] => E_option_unknown _ | _ => _ end), _) else _] =>
    destruct b eqn:Hk end; [by apply good_failure|].
  match goal with |- context [if ?b then (error_handler _ (E_option_base _), _) else _] =>
    destruct b end; [by apply good_failure|].
  assert (Hok : ok_ext (unchars (rev r)) = true).
  { destruct r as [|c [|d r]]; [done|apply single_ok; by apply Z.eqb_neq|].
    rewrite Hu in Hk. apply negb_false_iff in Hk. apply recognized_ok; [done|].
    by rewrite chars_unchars. }
  set (rps1 := if Ascii.eqb sign "-" then _ else _).
  assert (Hwf1 : subset_list_wf (subset_list rps1) /\ check_unknown_prefixed_ext rps1 = true).
  { unfold rps1. destruct (Ascii.eqb sign "-").
    - split; [by apply riscv_remove_subset_wf|done].
    - rewrite parse_add_check. split; [by apply riscv_parse_add_subset_wf|done]. }
  destruct Hwf1 as [Hwf1 Hu1].
  assert (Hend : good_result (riscv_parse_check_conflicts (riscv_parse_add_implicit_subsets rps1))).
  { destruct (riscv_parse_check_conflicts _) as [r' b] eqn:E.
    apply close_and_check in E as [H1 H2]; [|done]. split; [done|].
    intros Hb. by destruct (H2 Hb) as (H3 & _ & H4). }
  destruct q as [|d q]; [done|].
  assert (Hq : forallb name_char q = true)
    by (eapply rest_of_forallb; [|exact Hrest]; destruct Hv as [a ->]; exists (a ++ [d]);
        by rewrite <- app_assoc).
  destruct d as [[] [] [] [] [] [] [] []]; try exact Hend. by apply IH.
Qed.

(** ** Markers of the model in the log *)

(** No error of a kind was added to the log. *)
Definition adds_none (bad : subset_error -> Prop) (rps rps' : riscv_parse_subset_t) : Prop :=
  forall e, bad e -> In e (errors rps') -> In e (errors rps).

(** What is no message of the code. *)
Definition marker (e : subset_error) : Prop := e = E_bound \/ exists c, e = E_outside_order c.

(** A read outside of [riscv_ext_order]. *)
Definition outside (e : subset_error) : Prop := exists c, e = E_outside_order c.

Lemma adds_none_trans bad rps1 rps2 rps3 :
  adds_none bad rps1 rps2 -> adds_none bad rps2 rps3 -> adds_none bad rps1 rps3.
Proof. unfold adds_none. auto. Qed.

Lemma error_adds_none (bad : subset_error -> Prop) rps0 rps e :
  ~ bad e -> adds_none bad rps0 rps -> adds_none bad rps0 (error_handler rps e).
Proof.
  intros He H e' Hb Hin. cbn in Hin. apply in_app_iff in Hin as [?|[<-|[]]]; [by apply H|done].
Qed.

Section markers.

Context (bad : subset_error -> Prop) (Hbad : forall e, bad e -> marker e).

Ltac message := let H := fresh in intros H; apply Hbad in H as [H|[? H]]; discriminate H.

Lemma parse_add_adds_none rps0 rps s M m imp :
  adds_none bad rps0 rps -> adds_none bad rps0 (riscv_parse_add_subset rps s M m imp).
Proof.
  intros H. unfold riscv_parse_add_subset. repeat split_match; try exact H; apply error_adds_none; (message || exact H).
Qed.

Lemma add_implicit_adds_none fuel rps0 rps : adds_none bad rps0 rps -> adds_none bad rps0 (add_implicit_loop fuel rps).
Proof.
  revert rps. induction fuel as [|fuel IH]; intros rps H; cbn [add_implicit_loop]; [done|].
  destruct (List.find _ _); [|done]. by apply IH, parse_add_adds_none.
Qed.

Lemma check_conflicts_adds_none rps0 rps :
  adds_none bad rps0 rps -> adds_none bad rps0 (riscv_parse_check_conflicts rps).1.
Proof.
  assert (Hif : forall b e st, ~ bad e -> adds_none bad rps0 st.1 -> adds_none bad rps0 (conflict_if b e st).1)
    by (intros [] e st He H; [by apply error_adds_none|done]).
  intros H. unfold riscv_parse_check_conflicts. repeat (apply Hif; [message|]). exact H.
Qed.

End markers.

(** The strings that are parsed without leaving [riscv_ext_order]: lower case
    letters, digits and underscores, where no digit follows an underscore. *)
Fixpoint arch_text (p : list ascii) : bool :=
  match p with
  | [] => true
  | c :: p' =>
      (if Ascii.eqb c "_" then negb (is_digit (head_char p')) else in_ext_order c || is_digit c) && arch_text p'
  end.

Lemma arch_text_rest q p : rest_of q p -> arch_text p = true -> arch_text q = true.
Proof.
  intros [a ->]. induction a as [|c a IH]; [done|]. cbn [app arch_text]. rewrite andb_true_iff. intros [_ H]. by apply IH.
Qed.

Lemma version_loop_stops p b M v q b' M' v' :
  version_loop p b M v = (q, b', M', v') -> is_digit (head_char q) = false.
Proof.
  revert b M v. induction p as [|c p IH]; cbn [version_loop]; intros b M v H; [by injection H as <- _ _ _|].
  destruct (Ascii.eqb_spec c "p") as [->|Hc].
  - destruct (negb _); [by injection H as <- _ _ _|by eapply IH].
  - destruct (is_digit c) eqn:Hd; [by eapply IH|by injection H as <- _ _ _].
Qed.

Lemma version_stops p q M m : riscv_parsing_subset_version p = (q, M, m) -> is_digit (head_char q) = false.
Proof.
  unfold riscv_parsing_subset_version.
  destruct (version_loop p true 0 0) as [[[q' b] M'] v] eqn:E. apply version_loop_stops in E.
  repeat split_match; intros H; by injection H as <- _ _.
Qed.

Lemma outside_marker e : outside e -> marker e.
Proof. by right. Qed.

Ltac not_outside := let H := fresh in intros [? H]; discriminate H.

Lemma parse_loop_inside fuel rps0 rps p :
  arch_text p = true -> is_digit (head_char p) = false -> adds_none outside rps0 rps ->
  adds_none outside rps0 (parse_extensions_loop fuel rps p).1.
Proof.
  revert rps p. induction fuel as [|fuel IH]; intros rps [|c p] Hp Hd Ha;
    cbn [parse_extensions_loop]; [done|apply error_adds_none; [not_outside|done]|done|].
  cbn [arch_text head_char] in Hp, Hd. apply andb_true_iff in Hp as [Hc Hp].
  destruct (Ascii.eqb_spec c "_") as [->|Hu].
  { apply negb_true_iff in Hc. by apply IH. }
  rewrite Hd, orb_false_r in Hc. rewrite Hc.
  destruct (_ && (riscv_ext_order c =? 0)); [apply error_adds_none; [not_outside|done]|].
  destruct (split_extension (c :: p)) as [r rest] eqn:Hs. pose proof Hs as Hs'.
  apply split_extension_app in Hs'; [|done].
  destruct (negb _ && ends_with_number_p _); [apply error_adds_none; [not_outside|done]|].
  destruct (riscv_parsing_subset_version rest) as [[q M] m] eqn:Hv.
  assert (Hq : arch_text q = true).
  { eapply (arch_text_rest q (c :: p)); [eapply rest_of_trans; [by eapply riscv_parsing_subset_version_rest|]|].
    - by exists (rev r).
    - cbn [arch_text]. rewrite (proj2 (Ascii.eqb_neq c "_") Hu), Hc. done. }
  apply version_stops in Hv.
  destruct (negb _ && _ && _); [apply error_adds_none; [not_outside|done]|].
  match goal with |- context [if ?b then (error_handler _ E_separate, _) else _] => destruct b end;
    [apply error_adds_none; [not_outside|]|apply IH; [done|done|]];
    match goal with |- context [if ?b then _ else _] => destruct b end;
    by apply (parse_add_adds_none outside outside_marker).
Qed.

Lemma parse_subset_inside rps arch :
  arch_text (chars arch) = true -> adds_none outside rps (riscv_parse_subset rps (Some arch)).1.
Proof.
  intros Ht. unfold riscv_parse_subset.
  assert (H0 : adds_none outside rps rps) by (by intros e _).
  destruct (existsb is_upper (chars arch)); [apply error_adds_none; [not_outside|done]|].
  assert (Hgo : forall xlen p, rest_of p (chars arch) -> adds_none outside rps
    (match riscv_parse_extensions (set_rps_xlen rps xlen) p with
     | (r, true) => riscv_parse_check_conflicts (riscv_parse_add_implicit_subsets r)
     | (r, false) => (r, false)
     end).1).
  { intros xlen p Hr. unfold riscv_parse_extensions.
    destruct (_ && _ && _) eqn:Hf; [apply error_adds_none; [not_outside|done]|].
    assert (Hd : is_digit (head_char p) = false).
    { destruct (is_digit (head_char p)) eqn:Hd; [|done]. exfalso. revert Hf.
      destruct (head_char p) as [[] [] [] [] [] [] [] []]; cbv in Hd |- *; congruence. }
    pose proof (parse_loop_inside (length p) rps (set_rps_xlen rps xlen) p (arch_text_rest _ _ Hr Ht) Hd H0) as H.
    destruct (parse_extensions_loop _ _ _) as [r []]; [|done].
    by apply (check_conflicts_adds_none outside outside_marker), (add_implicit_adds_none outside outside_marker). }
  destruct (strip_prefix (chars "rv32") (chars arch)) eqn:E1;
    [apply Hgo; apply strip_prefix_app in E1; by eexists|].
  destruct (strip_prefix (chars "rv64") (chars arch)) eqn:E2;
    [apply Hgo; apply strip_prefix_app in E2; by eexists|].
  destruct (chars arch); [done|apply error_adds_none; [not_outside|done]].
Qed.

(** ** Termination *)

(** No loop has run into its bound. *)
Definition no_bound (rps : riscv_parse_subset_t) : Prop := ~ In E_bound (errors rps).

Lemma bound_marker e : e = E_bound -> marker e.
Proof. by left. Qed.

Lemma no_bound_adds_none rps rps' : no_bound rps -> adds_none (fun e => e = E_bound) rps rps' -> no_bound rps'.
Proof. intros H Ha Hin. by apply H, Ha. Qed.

Lemma error_no_bound rps e : e <> E_bound -> no_bound rps -> no_bound (error_handler rps e).
Proof. intros He H. eapply no_bound_adds_none; [exact H|]. apply error_adds_none; [done|by intros e' _]. Qed.

Lemma parse_add_no_bound rps s M m imp : no_bound rps -> no_bound (riscv_parse_add_subset rps s M m imp).
Proof. intros H. eapply no_bound_adds_none; [exact H|]. apply (parse_add_adds_none _ bound_marker). by intros e' _. Qed.

Lemma add_implicit_no_bound fuel rps : no_bound rps -> no_bound (add_implicit_loop fuel rps).
Proof. intros H. eapply no_bound_adds_none; [exact H|]. apply (add_implicit_adds_none _ bound_marker). by intros e' _. Qed.

Lemma check_conflicts_no_bound rps : no_bound rps -> no_bound (riscv_parse_check_conflicts rps).1.
Proof. intros H. eapply no_bound_adds_none; [exact H|]. apply (check_conflicts_adds_none _ bound_marker). by intros e' _. Qed.

(** The text after an extension and its version is shorter. *)
Lemma after_version_shorter a r rest (q : list ascii) M m :
  a = rev r ++ rest -> r <> [] -> riscv_parsing_subset_version rest = (q, M, m) ->
  (length q < length a)%nat.
Proof.
  intros -> Hr Hv. apply riscv_parsing_subset_version_rest, rest_of_length in Hv.
  rewrite length_app, length_rev. destruct r; [done|]. simpl. lia.
Qed.

Lemma parse_loop_no_bound fuel rps p :
  (length p <= fuel)%nat -> no_bound rps -> no_bound (parse_extensions_loop fuel rps p).1.
Proof.
  revert rps p. induction fuel as [|fuel IH]; intros rps [|c p] Hle Hb;
    cbn [parse_extensions_loop]; try done; [simpl in Hle; lia|].
  simpl in Hle. destruct (Ascii.eqb c "_"); [apply IH; [lia|done]|].
  destruct (_ && (riscv_ext_order c =? 0)); [apply error_no_bound; [by destruct (in_ext_order c)|done]|].
  destruct (split_extension (c :: p)) as [r rest] eqn:Hs.
  pose proof (split_extension_nonempty _ _ _ Hs) as Hr. apply split_extension_app in Hs; [|done].
  destruct (negb _ && ends_with_number_p _); [by apply error_no_bound|].
  destruct (riscv_parsing_subset_version rest) as [[q M] m] eqn:Hv.
  pose proof (after_version_shorter _ _ _ _ _ _ Hs Hr Hv) as Hq. simpl in Hq.
  destruct (negb _ && _ && _); [by apply error_no_bound|].
  match goal with |- context [if ?b then (error_handler _ E_separate, _) else _] => destruct b end;
    [apply error_no_bound; [done|]|apply IH; [lia|]];
    match goal with |- context [if ?b then _ else _] => destruct b end; by apply parse_add_no_bound.
Qed.

Lemma parse_subset_no_bound rps arch : no_bound rps -> no_bound (riscv_parse_subset rps (Some arch)).1.
Proof.
  intros Hb. unfold riscv_parse_subset.
  destruct (existsb is_upper (chars arch)); [by apply error_no_bound|].
  assert (Hgo : forall xlen p, no_bound
    (match riscv_parse_extensions (set_rps_xlen rps xlen) p with
     | (r, true) => riscv_parse_check_conflicts (riscv_parse_add_implicit_subsets r)
     | (r, false) => (r, false)
     end).1).
  { intros xlen p. unfold riscv_parse_extensions. destruct (_ && _ && _); [by apply error_no_bound|].
    pose proof (parse_loop_no_bound (length p) (set_rps_xlen rps xlen) p (le_n _) Hb) as H.
    destruct (parse_extensions_loop _ _ _) as [r []]; [|done].
    by apply check_conflicts_no_bound, add_implicit_no_bound. }
  destruct (strip_prefix (chars "rv32") (chars arch)); [apply Hgo|].
  destruct (strip_prefix (chars "rv64") (chars arch)); [apply Hgo|].
  destruct (chars arch); [done|by apply error_no_bound].
Qed.

Lemma update_loop_no_bound fuel before rps p :
  (length p <= fuel)%nat -> no_bound rps -> no_bound (update_loop fuel before rps p).1.
Proof.
  revert rps p. induction fuel as [|fuel IH]; intros rps [|c p] Hle Hb; cbn [update_loop];
    try (by apply parse_subset_no_bound); [simpl in Hle; lia|].
  simpl in Hle. destruct (negb _ && negb _); [by apply parse_subset_no_bound|].
  destruct (split_option p) as [r rest] eqn:Hs. apply split_option_app in Hs.
  destruct (_ && ends_with_number_p _); [by apply error_no_bound|].
  destruct (riscv_parsing_subset_version rest) as [[q M] m] eqn:Hv.
  assert (Hq : (length q <= length p)%nat).
  { apply riscv_parsing_subset_version_rest, rest_of_length in Hv. rewrite Hs, length_app. lia. }
  match goal with |- context [if ?b then (error_handler _ (match _ with [] => E_option_unknown _ | _ => _ end), _) else _] =>
    destruct b end; [apply error_no_bound; [destruct r as [|x [|? ?]]; try done; by destruct (in_ext_order x)|done]|].
  match goal with |- context [if ?b then (error_handler _ (E_option_base _), _) else _] =>
    destruct b end; [by apply error_no_bound|].
  set (rps1 := if Ascii.eqb c "-" then _ else _).
  assert (Hb1 : no_bound rps1)
    by (unfold rps1; destruct (Ascii.eqb c "-"); [done|by apply parse_add_no_bound]).
  assert (Hend : no_bound (riscv_parse_check_conflicts (riscv_parse_add_implicit_subsets rps1)).1)
    by (by apply check_conflicts_no_bound, add_implicit_no_bound).
  destruct q as [|d q]; [done|]. simpl in Hq.
  destruct d as [[] [] [] [] [] [] [] []]; try exact Hend. apply IH; [lia|done].
Qed.

(** The initial state of the assembler: an empty list. *)
Definition empty_list : riscv_subset_list_t := mk_subset_list [] None None.

Lemma empty_list_wf : subset_list_wf empty_list.
Proof. repeat constructor. Qed.

Definition start_rps (spec : riscv_spec_class) : riscv_parse_subset_t :=
  mk_rps empty_list [] 0 spec true.

(** ** Properties *)

(** C14: [riscv_parse_subset], with check_unknown_prefixed_ext set as the
    assembler does.  A string of lower case letters, digits and underscores in
    which no digit follows an underscore is parsed without reading outside of
    [riscv_ext_order]; for every string that is parsed without, accepted or not,
    the list stays well formed, and if the string is accepted, the list is closed
    under the implication table and free of the conflicts (e with h, old q below
    rv64, zcf above rv32, zfinx with f, xtheadvector with v, zvl without zve) at
    the xlen the string names. *)
Theorem riscv_parse_subset_sound (rps : riscv_parse_subset_t) (arch : string)
    (rps' : riscv_parse_subset_t) (ok : bool) :
  subset_list_wf (subset_list rps) -> check_unknown_prefixed_ext rps = true ->
  ~ In "000"%char (chars arch) -> riscv_parse_subset rps (Some arch) = (rps', ok) ->
  (arch_text (chars arch) = true -> adds_none outside rps rps') /\
  (adds_none outside rps rps' ->
   subset_list_wf (subset_list rps') /\
   (ok = true -> closed (exts (subset_list rps')) /\ names_xlen arch (rps_xlen rps') /\
      conflict_free (rps_xlen rps') (exts (subset_list rps')))).
Proof.
  intros Hwf Hu Hn E. split; [|intros _; by eapply riscv_parse_subset_string].
  intros Ht. pose proof (parse_subset_inside rps arch Ht) as H. by rewrite E in H.
Qed.

Lemma riscv_parse_subset_sound_witness :
  let st := riscv_parse_subset (start_rps ISA_SPEC_CLASS_20191213) (Some "rv64gc_zba") in
  st.2 = true /\ map sub_name (nodes (subset_list st.1))
    = ["i"; "g"; "m"; "a"; "f"; "d"; "c"; "zicsr"; "zifencei"; "zmmul"; "zba"]%string /\
  subset_list_wf (subset_list st.1).
Proof.
  split; [vm_compute; reflexivity|]. split; [vm_compute; reflexivity|].
  destruct (riscv_parse_subset_sound (start_rps ISA_SPEC_CLASS_20191213) "rv64gc_zba"
    (riscv_parse_subset (start_rps ISA_SPEC_CLASS_20191213) (Some "rv64gc_zba")).1
    (riscv_parse_subset (start_rps ISA_SPEC_CLASS_20191213) (Some "rv64gc_zba")).2) as [H1 H2].
  - apply empty_list_wf.
  - reflexivity.
  - simpl. intuition discriminate.
  - vm_compute. reflexivity.
  - apply H2, H1. vm_compute. reflexivity.
Defined.

(** A digit where an extension is expected makes the parser read in front of
    [riscv_ext_order]. *)
Lemma digit_reads_outside :
  errors (riscv_parse_subset (start_rps ISA_SPEC_CLASS_20191213) (Some "rv64i_2")).1 = [E_outside_order "2"].
Proof. reflexivity. Qed.

(** [.option arch].  For an argument in lower case, [riscv_update_subset]
    leaves a well-formed list in all cases (a read outside of [riscv_ext_order]
    ends it here with the marker of the model), and when it succeeds, after all
    additions and removals, the list is closed under implication and has no
    conflict. *)
Theorem riscv_update_subset_sound (before : ascii) (rps : riscv_parse_subset_t) (str : string) :
  subset_list_wf (subset_list rps) -> check_unknown_prefixed_ext rps = true ->
  forallb name_char (chars str) = true ->
  good_result (riscv_update_subset before rps str).
Proof. apply update_loop_good. Qed.

Lemma riscv_update_subset_sound_witness :
  let rps := (riscv_parse_subset (start_rps ISA_SPEC_CLASS_20191213) (Some "rv32imc")).1 in
  let st := riscv_update_subset "000" rps "+zbb1p0,-c" in
  map sub_name (nodes (subset_list st.1)) = ["i"; "m"; "zmmul"; "zbb"]%string /\
  st.2 = true /\ closed (exts (subset_list st.1)).
Proof.
  cbv zeta. split; [vm_compute; reflexivity|]. split; [vm_compute; reflexivity|].
  apply (riscv_update_subset_sound "000"
    (riscv_parse_subset (start_rps ISA_SPEC_CLASS_20191213) (Some "rv32imc")).1 "+zbb1p0,-c").
  - destruct (riscv_parse_subset_string (start_rps ISA_SPEC_CLASS_20191213) "rv32imc" _ _
      empty_list_wf eq_refl ltac:(simpl; intuition discriminate) (surjective_pairing _)) as [H _].
    exact H.
  - vm_compute. reflexivity.
  - vm_compute. reflexivity.
  - vm_compute. reflexivity.
Defined.

(** C35: the loops of the parser and of .option arch end: every iteration
    consumes a character, so that the bounds of the model, the lengths of the
    strings, are never reached, and a larger bound gives the same result. *)
Theorem riscv_parse_extensions_terminates (fuel : nat) (before : ascii) (rps : riscv_parse_subset_t)
    (p : list ascii) :
  (length p <= fuel)%nat -> no_bound rps ->
  no_bound (parse_extensions_loop fuel rps p).1 /\
  no_bound (update_loop fuel before rps p).1 /\
  parse_extensions_loop fuel rps p = parse_extensions_loop (length p) rps p.
Proof.
  intros Hle Hb. split_and!.
  - by apply parse_loop_no_bound.
  - by apply update_loop_no_bound.
  - by apply parse_extensions_loop_fuel.
Qed.

Lemma riscv_parse_extensions_terminates_witness :
  no_bound (update_loop 20 "000" (start_rps ISA_SPEC_CLASS_2P2) (chars "+zba1p0,-m")).1 /\
  parse_extensions_loop 20 (start_rps ISA_SPEC_CLASS_2P2) (chars "+zba1p0,-m")
  = parse_extensions_loop 10 (start_rps ISA_SPEC_CLASS_2P2) (chars "+zba1p0,-m").
Proof.
  apply (riscv_parse_extensions_terminates 20 "000" (start_rps ISA_SPEC_CLASS_2P2) (chars "+zba1p0,-m")).
  - vm_compute. lia.
  - intros [].
Defined.

(** The message for a missing extension is lost for two instruction
    classes: [riscv_multi_subset_supports_ext] falls into its internal error
    (and returns NULL) exactly for the class NONE, which no instruction has,
    and for XVENTANACONDOPS and XSFVCP, whose instructions
    [riscv_multi_subset_supports] can reject. *)
Theorem riscv_multi_subset_supports_ext_null (rps : riscv_parse_subset_t) (c : riscv_insn_class) :
  riscv_multi_subset_supports_ext rps c = None <->
  c = INSN_CLASS_NONE \/ c = INSN_CLASS_XVENTANACONDOPS \/ c = INSN_CLASS_XSFVCP.
Proof.
  split.
  - unfold riscv_multi_subset_supports_ext.
    destruct c; repeat match goal with |- context [if ?b then _ else _] => destruct b end;
      intros H; try discriminate H; auto.
  - by intros [->|[->| ->]].
Qed.

(** [.option arch] takes capital letters that [riscv_parse_subset] rejects:
    the list then holds a name that no architecture string may contain. *)
Lemma option_arch_accepts_uppercase :
  let rps := (riscv_parse_subset (start_rps ISA_SPEC_CLASS_20191213) (Some "rv32i")).1 in
  let st := riscv_update_subset "000" rps "+xFoo1p0" in
  st.2 = true /\ map sub_name (nodes (subset_list st.1)) = ["i"; "xFoo"]%string /\
  (riscv_parse_subset (start_rps ISA_SPEC_CLASS_20191213) (Some "rv32i2p1_xFoo1p0")).2 = false.
Proof. vm_compute. repeat split. Qed.
