(* ===== verification/SubsetPrint.v ===== *)
(** * The architecture string: buffer bound and round trip

    [riscv_arch_str] prints the subset list into a buffer whose size
    [riscv_estimate_arch_strlen] computes beforehand; nothing is cut, the string
    fits unless versions are above INT_MAX, and
    parsing the string gives back the extensions whose versions are known. *)
From Stdlib Require Import ZArith Bool Ascii Lia Sorting.Sorted.
From stdpp Require Import base list strings gmap.
From S2P Require Import Prelude RiscvH SubsetTables Subset SubsetOrder SubsetSpec SubsetParse.

#[local] Open Scope Z_scope.

(** ** What is printed *)

(** The test of the [while] loop of [riscv_arch_str1]. *)
Definition skipped (prev : string) (n : riscv_subset_t) : bool :=
  (String.eqb prev "e" && String.eqb (sub_name n) "i")
  || (major_version n =? RISCV_UNKNOWN_VERSION) || (minor_version n =? RISCV_UNKNOWN_VERSION).

Fixpoint printed_from (prev : string) (ns : list riscv_subset_t) : list riscv_subset_t :=
  match ns with
  | [] => []
  | n :: ns' => if skipped prev n then printed_from (sub_name n) ns'
                else n :: printed_from (sub_name n) ns'
  end.

(** The nodes that appear in the string; the first one always does. *)
Definition printed (ns : list riscv_subset_t) : list riscv_subset_t :=
  match ns with [] => [] | n :: ns' => n :: printed_from (sub_name n) ns' end.

Lemma printed_skip prev ns : printed_from prev ns = printed (skip_nodes prev ns).
Proof.
  revert prev. induction ns as [|n ns IH]; intros prev; simpl; [done|].
  unfold skipped. destruct (_ || _ || _); [apply IH|done].
Qed.

Lemma skip_nodes_length prev ns : (length (skip_nodes prev ns) <= length ns)%nat.
Proof.
  revert prev. induction ns as [|n ns IH]; intros prev; simpl; [lia|].
  destruct (_ || _ || _); [|simpl; lia]. specialize (IH (sub_name n)). lia.
Qed.

(** ** Lengths *)

(** A C int; a number that is parsed wraps around to a negative one when it is
    too large. *)
Definition version_int (v : Z) : Prop := - 2 ^ 31 <= v < 2 ^ 31.
Definition versions_int (n : riscv_subset_t) : Prop :=
  version_int (major_version n) /\ version_int (minor_version n).

(** The versions that did not wrap around. *)
Definition version_ok (v : Z) : Prop := -1 <= v < 2 ^ 31.
Definition versions_ok (n : riscv_subset_t) : Prop :=
  version_ok (major_version n) /\ version_ok (minor_version n).

Definition wrapped (v : Z) : Z := if v <? -1 then 1 else 0.
Definition wrapped_versions (ns : list riscv_subset_t) : Z :=
  foldr (fun n z => wrapped (major_version n) + wrapped (minor_version n) + z) 0 ns.

Lemma versions_ok_int n : versions_ok n -> versions_int n.
Proof. unfold versions_ok, versions_int, version_ok, version_int. lia. Qed.

Lemma wrapped_cases v : wrapped v = 0 \/ wrapped v = 1.
Proof. unfold wrapped. destruct (v <? -1); auto. Qed.

Lemma versions_ok_wrapped ns : Forall versions_ok ns -> wrapped_versions ns = 0.
Proof.
  induction 1 as [|n ns [[HM _] [Hm _]] _ IH]; [done|]. cbn [wrapped_versions foldr]. fold (wrapped_versions ns).
  unfold wrapped. rewrite (proj2 (Z.ltb_ge _ _) HM), (proj2 (Z.ltb_ge _ _) Hm), IH. done.
Qed.

Lemma decimal_length fuel n :
  0 < n < 10 ^ Z.of_nat fuel -> Z.of_nat (length (decimal fuel n)) = estimate_digit_loop fuel n.
Proof.
  revert n. induction fuel as [|fuel IH]; intros n Hn; [simpl in Hn; lia|].
  cbn [decimal estimate_digit_loop]. destruct (Z.eqb_spec n 0); [lia|].
  rewrite Nat2Z.inj_succ, Z.pow_succ_r in Hn by lia.
  destruct (Z.ltb_spec n 10).
  - rewrite Z.div_small by lia. destruct fuel; reflexivity.
  - rewrite length_app. simpl length. rewrite Nat2Z.inj_add, IH; [lia|].
    split; [apply Z.div_str_pos; lia|]. apply Z.div_lt_upper_bound; lia.
Qed.

Lemma estimate_digits k fuel v :
  (k < fuel)%nat -> 10 ^ Z.of_nat k <= v < 10 ^ Z.of_nat (S k) -> estimate_digit_loop fuel v = Z.of_nat (S k).
Proof.
  revert fuel v. induction k as [|k IH]; intros [|fuel] v Hf Hv; [lia| |lia|]; cbn [estimate_digit_loop].
  - cbn in Hv. rewrite (proj2 (Z.eqb_neq v 0)), (Z.div_small v 10) by lia. by destruct fuel.
  - rewrite !Nat2Z.inj_succ, !Z.pow_succ_r in Hv by lia.
    pose proof (Z.pow_pos_nonneg 10 (Z.of_nat k) ltac:(lia) ltac:(lia)).
    rewrite (proj2 (Z.eqb_neq v 0)) by lia. rewrite IH; [lia|lia|].
    rewrite Nat2Z.inj_succ, Z.pow_succ_r by lia. split; [apply Z.div_le_lower_bound; lia|apply Z.div_lt_upper_bound; lia].
Qed.

Lemma estimate_ten_digits v : 10 ^ 9 <= v < 10 ^ 10 -> riscv_estimate_digit v = 10.
Proof.
  intros Hv. unfold riscv_estimate_digit. rewrite (proj2 (Z.eqb_neq v 0)) by lia.
  by rewrite (estimate_digits 9) by (done || lia).
Qed.

Lemma decimal_ten_digits v : 0 < v < 10 ^ 10 -> Z.of_nat (length (decimal 10 v)) <= 10.
Proof.
  intros Hv. assert (H : forall fuel n, (length (decimal fuel n) <= fuel)%nat).
  { induction fuel as [|fuel IH]; intros n; cbn [decimal]; [cbn; lia|]. destruct (n <? 10); [cbn; lia|].
    rewrite length_app. specialize (IH (n / 10)). cbn. lia. }
  specialize (H 10%nat v). lia.
Qed.

Lemma fmt_d_length v :
  version_int v -> Z.of_nat (length (fmt_d v)) <= riscv_estimate_digit (u32 v) + wrapped v.
Proof.
  unfold version_int, fmt_d, u32, wrapped. intros Hv.
  destruct (Z.ltb_spec v 0).
  - assert (E : v mod 2 ^ 32 = v + 2 ^ 32) by (symmetry; apply (Z.mod_unique _ _ (-1)); lia).
    rewrite E, estimate_ten_digits by lia.
    destruct (Z.ltb_spec v (-1)); [|replace v with (-1) by lia; vm_compute; done].
    pose proof (decimal_ten_digits (- v) ltac:(lia)). cbn [length]. lia.
  - rewrite Z.mod_small by lia. unfold riscv_estimate_digit. destruct (Z.eqb_spec v 0) as [->|]; [done|].
    rewrite (proj2 (Z.ltb_ge v (-1))) by lia. rewrite decimal_length; simpl; lia.
Qed.

(** The estimated room of one node. *)
Definition node_room (n : riscv_subset_t) : Z :=
  Z.of_nat (String.length (sub_name n)) + riscv_estimate_digit (u32 (major_version n)) + 1
  + riscv_estimate_digit (u32 (minor_version n)) + 1.

Lemma subset_text_length n :
  versions_int n ->
  Z.of_nat (length (subset_text n)) <= node_room n + wrapped (major_version n) + wrapped (minor_version n).
Proof.
  intros [HM Hm]. apply fmt_d_length in HM, Hm. unfold subset_text, node_room.
  rewrite !length_app. simpl length. rewrite length_chars. destruct (_ || _); simpl length; lia.
Qed.

Definition total_room (ns : list riscv_subset_t) : Z := foldr (fun n z => node_room n + z) 0 ns.

Lemma estimate_room ns : riscv_estimate_arch_strlen1 ns = 6 + total_room ns.
Proof. induction ns as [|n ns IH]; simpl; [done|]. rewrite IH. unfold node_room. lia. Qed.

Lemma estimate_digit_loop_nonneg fuel n : 0 <= estimate_digit_loop fuel n.
Proof.
  revert n. induction fuel as [|fuel IH]; intros n; simpl; [lia|].
  destruct (n =? 0); [lia|]. specialize (IH (n / 10)). lia.
Qed.

Lemma node_room_nonneg n : 0 <= node_room n.
Proof.
  unfold node_room, riscv_estimate_digit.
  pose proof (estimate_digit_loop_nonneg 10 (u32 (major_version n))).
  pose proof (estimate_digit_loop_nonneg 10 (u32 (minor_version n))).
  repeat split_match; lia.
Qed.

Lemma total_room_nonneg ns : 0 <= total_room ns.
Proof.
  induction ns as [|n ns IH]; simpl; [lia|]. pose proof (node_room_nonneg n). lia.
Qed.

Lemma skip_nodes_room prev ns : total_room (skip_nodes prev ns) <= total_room ns.
Proof.
  revert prev. induction ns as [|n ns IH]; intros prev; simpl; [lia|].
  destruct (_ || _ || _); [|simpl; lia]. specialize (IH (sub_name n)).
  pose proof (node_room_nonneg n). lia.
Qed.

Lemma skip_nodes_wrapped prev ns : wrapped_versions (skip_nodes prev ns) <= wrapped_versions ns.
Proof.
  revert prev. induction ns as [|n ns IH]; intros prev; simpl; [lia|].
  pose proof (wrapped_cases (major_version n)). pose proof (wrapped_cases (minor_version n)).
  destruct (_ || _ || _); [|simpl; lia]. specialize (IH (sub_name n)). lia.
Qed.

Lemma skip_nodes_Forall P prev ns : Forall P ns -> Forall P (skip_nodes prev ns).
Proof.
  intros H. revert prev. induction H as [|n ns Hn H IH]; intros prev; simpl; [done|].
  destruct (_ || _ || _); [auto|by constructor].
Qed.

Lemma snprintf_fits size text :
  Z.of_nat (length text) < size -> snprintf size text = text.
Proof. intros H. unfold snprintf. apply take_ge. lia. Qed.

Lemma riscv_arch_str1_printed fuel ns acc bufsz :
  (length ns <= fuel)%nat -> Forall versions_int ns -> total_room ns + 2 < bufsz ->
  riscv_arch_str1 fuel ns acc bufsz = acc ++ concat (map subset_text (printed ns)).
Proof.
  revert ns acc. induction fuel as [|fuel IH]; intros ns acc Hlen Hv Hr.
  { destruct ns; simpl in *; [|lia]. by rewrite app_nil_r. }
  destruct ns as [|n ns]; simpl in *; [by rewrite app_nil_r|].
  apply Forall_cons in Hv as [Hn Hv]. pose proof (total_room_nonneg ns).
  rewrite snprintf_fits.
  2: { pose proof (subset_text_length n Hn). pose proof (wrapped_cases (major_version n)).
       pose proof (wrapped_cases (minor_version n)). lia. }
  rewrite IH.
  - by rewrite <- app_assoc, printed_skip.
  - pose proof (skip_nodes_length (sub_name n) ns). lia.
  - by apply skip_nodes_Forall.
  - pose proof (skip_nodes_room (sub_name n) ns). pose proof (node_room_nonneg n). lia.
Qed.

Lemma printed_length fuel ns :
  (length ns <= fuel)%nat -> Forall versions_int ns ->
  Z.of_nat (length (concat (map subset_text (printed ns)))) <= total_room ns + wrapped_versions ns.
Proof.
  revert ns. induction fuel as [|fuel IH]; intros ns Hlen Hv.
  { destruct ns; simpl in *; lia. }
  destruct ns as [|n ns]; simpl in *; [lia|]. apply Forall_cons in Hv as [Hn Hv].
  rewrite length_app, printed_skip.
  assert (Hs : (length (skip_nodes (sub_name n) ns) <= fuel)%nat)
    by (pose proof (skip_nodes_length (sub_name n) ns); lia).
  specialize (IH _ Hs (skip_nodes_Forall _ _ _ Hv)). pose proof (subset_text_length n Hn).
  pose proof (skip_nodes_room (sub_name n) ns). pose proof (skip_nodes_wrapped (sub_name n) ns). lia.
Qed.

Lemma fmt_u_length xlen : 0 <= xlen < 1000 -> (length (fmt_u xlen) <= 3)%nat.
Proof.
  intros Hx. unfold fmt_u, u32. rewrite Z.mod_small by lia.
  destruct (Z.eq_dec xlen 0) as [->|]; [vm_compute; lia|].
  pose proof (decimal_length 10 xlen ltac:(change (10 ^ Z.of_nat 10) with 10000000000; lia)) as H.
  cbn [estimate_digit_loop] in H. destruct (Z.eqb_spec xlen 0); [lia|].
  destruct (Z.eqb_spec (xlen / 10) 0); [lia|].
  destruct (Z.eqb_spec (xlen / 10 / 10) 0); [lia|].
  replace (xlen / 10 / 10 / 10) with 0 in H; [rewrite Z.eqb_refl in H; lia|].
  symmetry. rewrite !Z.div_div by lia. apply Z.div_small. lia.
Qed.

Lemma riscv_arch_str_text xlen l :
  0 <= xlen < 1000 -> Forall versions_int (nodes l) ->
  riscv_arch_str xlen l = chars "rv" ++ fmt_u xlen ++ concat (map subset_text (printed (nodes l))).
Proof.
  intros Hx Hv. unfold riscv_arch_str, riscv_estimate_arch_strlen. rewrite estimate_room.
  pose proof (total_room_nonneg (nodes l)). pose proof (fmt_u_length xlen Hx).
  rewrite riscv_arch_str1_printed by (done || lia).
  rewrite snprintf_fits; [by rewrite <- app_assoc|]. rewrite length_app. simpl length. lia.
Qed.

(** ** Reading digits back *)

Lemma digit_char_cases d : 0 <= d < 10 ->
  is_digit (digit_char d) = true /\ Ascii.eqb (digit_char d) "p" = false /\
  Ascii.eqb (digit_char d) "_" = false /\ is_upper (digit_char d) = false /\
  Z.of_nat (nat_of_ascii (digit_char d)) - 48 = d.
Proof.
  intros Hd. assert (H : d = 0 \/ d = 1 \/ d = 2 \/ d = 3 \/ d = 4 \/ d = 5 \/ d = 6 \/ d = 7 \/ d = 8 \/ d = 9) by lia.
  repeat destruct H as [->|H]; try (subst d); vm_compute; done.
Qed.

(** A digit string: not empty, only digits. *)
Definition digit_string (p : list ascii) : Prop := p <> [] /\ forallb is_digit p = true.

Lemma decimal_digits fuel n :
  0 <= n < 10 ^ Z.of_nat fuel -> (0 < fuel)%nat -> digit_string (decimal fuel n).
Proof.
  revert n. induction fuel as [|fuel IH]; intros n Hn Hf; [lia|]. cbn [decimal].
  rewrite Nat2Z.inj_succ, Z.pow_succ_r in Hn by lia.
  destruct (Z.ltb_spec n 10).
  - destruct (digit_char_cases n ltac:(lia)) as (H1 & _). split; [done|]. simpl. by rewrite H1.
  - destruct fuel as [|fuel]; [simpl in Hn; lia|].
    destruct (IH (n / 10)) as [H1 H2]; [|lia|].
    { split; [apply Z.div_pos; lia|]. apply Z.div_lt_upper_bound; lia. }
    split; [by destruct (decimal (S fuel) (n / 10))|]. rewrite forallb_app, H2. simpl.
    pose proof (Z.mod_pos_bound n 10 ltac:(lia)) as Hm.
    destruct (digit_char_cases (n mod 10) Hm) as (-> & _). done.
Qed.

Lemma version_loop_decimal fuel n p b M :
  0 <= n < 10 ^ Z.of_nat fuel -> n < 2 ^ 31 -> (0 < fuel)%nat ->
  version_loop (decimal fuel n ++ p) b M 0 = version_loop p b M n.
Proof.
  revert n p. induction fuel as [|fuel IH]; intros n p Hn Hb Hf; [lia|]. cbn [decimal].
  rewrite Nat2Z.inj_succ, Z.pow_succ_r in Hn by lia.
  destruct (Z.ltb_spec n 10).
  - destruct (digit_char_cases n ltac:(lia)) as (H1 & H2 & _ & _ & H5). simpl.
    rewrite H1, H2, H5. f_equal. unfold s32. rewrite swrap_small; simpl; lia.
  - destruct fuel as [|fuel]; [simpl in Hn; lia|].
    pose proof (Z.div_mod n 10 ltac:(lia)) as Hdm. pose proof (Z.mod_pos_bound n 10 ltac:(lia)) as Hm.
    rewrite <- app_assoc. rewrite IH; [|split; [apply Z.div_pos; lia|apply Z.div_lt_upper_bound; lia]|
      apply Z.div_lt_upper_bound; lia|lia].
    destruct (digit_char_cases (n mod 10) Hm) as (H1 & H2 & _ & _ & H5). simpl.
    rewrite H1, H2, H5. f_equal. unfold s32. rewrite swrap_small; simpl; lia.
Qed.

(** Where a version ends. *)
Definition at_end (p : list ascii) : Prop := p = [] \/ exists q, p = "_"%char :: q.

Definition known_version (M m : Z) : Prop := 0 <= M < 2 ^ 31 /\ 0 <= m < 2 ^ 31 /\ (M <> 0 \/ m <> 0).

Lemma fmt_d_decimal v : 0 <= v -> fmt_d v = decimal 10 v.
Proof. intros H. unfold fmt_d. by destruct (Z.ltb_spec v 0); [lia|]. Qed.

Lemma fmt_d_digits v : 0 <= v < 2 ^ 31 -> digit_string (fmt_d v).
Proof. intros H. rewrite fmt_d_decimal by lia. apply decimal_digits; simpl; lia. Qed.

Lemma version_loop_end p b M v : at_end p -> version_loop p b M v = (p, b, M, v).
Proof. by intros [->|[q ->]]. Qed.

Lemma parsing_version_text M m p :
  known_version M m -> at_end p ->
  riscv_parsing_subset_version (fmt_d M ++ "p"%char :: fmt_d m ++ p) = (p, M, m).
Proof.
  intros (HM & Hm & Hne) Hp. unfold riscv_parsing_subset_version.
  pose proof (fmt_d_digits m Hm) as [Hd1 Hd2].
  rewrite (fmt_d_decimal M), version_loop_decimal by (simpl; lia).
  cbn [version_loop]. change (Ascii.eqb "p" "p") with true. cbn iota.
  assert (Hhd : is_digit (head_char (fmt_d m ++ p)) = true).
  { destruct (fmt_d m); [done|]. simpl in *. by apply andb_true_iff in Hd2 as []. }
  rewrite Hhd. cbn [negb]. rewrite (fmt_d_decimal m), version_loop_decimal by (simpl; lia).
  rewrite version_loop_end by done.
  destruct (Z.eqb_spec M 0), (Z.eqb_spec m 0); simpl; done || lia.
Qed.

(** ** Splitting the name from its version *)

Definition printable (s : string) : bool :=
  let r := rev (chars s) in
  negb (is_digit (head_char r)) && negb (ends_with_number_p r)
  && negb (existsb (Ascii.eqb "_") (chars s)).

Lemma back_over_digits d any minor r :
  forallb is_digit d = true ->
  back_over_version any minor (d ++ r)
  = back_over_version (any || negb (length d =? 0)%nat) minor r.
Proof.
  revert any. induction d as [|c d IH]; intros any; simpl; [by rewrite orb_false_r|].
  rewrite andb_true_iff. intros [Hc Hd]. rewrite Hc, IH by done. by rewrite orb_true_r.
Qed.

Lemma digit_not c d : is_digit c = true -> is_digit d = false -> Ascii.eqb d c = false.
Proof. intros Hc Hd. apply Ascii.eqb_neq. congruence. Qed.

Lemma forallb_rev {A} (f : A -> bool) l : forallb f (rev l) = forallb f l.
Proof.
  induction l as [|a l IH]; simpl; [done|]. rewrite forallb_app, IH. simpl.
  by rewrite andb_true_r, andb_comm.
Qed.

Lemma back_over_version_text name dM dm :
  digit_string dM -> digit_string dm -> is_digit (head_char (rev name)) = false ->
  back_over_version false false (rev (name ++ dM ++ "p"%char :: dm)) = rev name.
Proof.
  intros [HM1 HM2] [Hm1 Hm2] Hn. rewrite !rev_app_distr. simpl. rewrite <- !app_assoc.
  rewrite back_over_digits by (by rewrite forallb_rev).
  rewrite length_rev. destruct dm as [|c dm]; [done|]. cbn [length Nat.eqb negb orb].
  cbn [app back_over_version]. change (is_digit "p") with false. cbn iota.
  assert (Hhd : is_digit (head_char (rev dM ++ rev name)) = true).
  { rewrite <- forallb_rev in HM2. destruct (rev dM) eqn:E.
    - apply (f_equal (@length _)) in E. rewrite length_rev in E. by destruct dM.
    - simpl in *. by apply andb_true_iff in HM2 as []. }
  rewrite Hhd. simpl. rewrite back_over_digits by (by rewrite forallb_rev).
  rewrite length_rev. destruct dM as [|c' dM]; [done|]. simpl.
  destruct (rev name) as [|d r]; [done|]. simpl in *. by rewrite Hn.
Qed.

Lemma span_until_text a p :
  existsb (Ascii.eqb "_") a = false -> at_end p -> (span_until ["_"%char] (a ++ p)).1 = a.
Proof.
  intros Ha Hp. induction a as [|c a IH]; cbn [app span_until existsb].
  - by destruct Hp as [->|[q ->]].
  - cbn [existsb] in Ha. apply orb_false_iff in Ha as [Hc Ha].
    rewrite Ascii.eqb_sym, Hc. specialize (IH Ha). cbn [orb].
    destruct (span_until ["_"%char] (a ++ p)). simpl in *. by rewrite IH.
Qed.

Lemma digits_no_underscore d : forallb is_digit d = true -> existsb (Ascii.eqb "_") d = false.
Proof.
  induction d as [|c d IH]; cbn [forallb existsb]; [done|]. rewrite andb_true_iff. intros [Hc Hd].
  rewrite (digit_not c "_") by done. auto.
Qed.

(** A prefix made of letters is not completed by a version. *)
Lemma strip_prefix_digit a s c p :
  Forall (fun x => x <> c) a ->
  is_Some (strip_prefix a (s ++ c :: p)) <-> is_Some (strip_prefix a s).
Proof.
  revert s. induction a as [|x a IH]; intros s Ha; [by destruct s|].
  apply Forall_cons in Ha as [Hx Ha]. destruct s as [|y s]; cbn [app strip_prefix].
  - apply Ascii.eqb_neq in Hx. rewrite Hx. split; by intros [].
  - destruct (Ascii.eqb x y); [by apply IH|]. split; by intros [].
Qed.

Lemma prefix_class_digit s c p :
  is_digit c = true -> riscv_get_prefix_class (s ++ c :: p) = riscv_get_prefix_class s.
Proof.
  intros Hc. unfold riscv_get_prefix_class, parse_config. cbn [prefix_class_from].
  repeat match goal with
  | |- context [strip_prefix (chars ?pre) (s ++ c :: p)] =>
      let H := fresh in
      assert (H : is_Some (strip_prefix (chars pre) (s ++ c :: p)) <-> is_Some (strip_prefix (chars pre) s))
        by (apply strip_prefix_digit; repeat constructor; intros <-; done);
      destruct (strip_prefix (chars pre) (s ++ c :: p)), (strip_prefix (chars pre) s);
      try done; try (by destruct (proj1 H (mk_is_Some _ _ eq_refl)));
      try (by destruct (proj2 H (mk_is_Some _ _ eq_refl))); clear H
  end.
Qed.

(** ** Parsing one printed extension *)

(** An extension that survives being printed and parsed. *)
Record round_trips (n : riscv_subset_t) : Prop := {
  rt_ok : ok_ext (sub_name n) = true;
  rt_printable : printable (sub_name n) = true;
  rt_not_g : sub_name n <> "g"%string;
  rt_version : known_version (major_version n) (minor_version n);
  rt_recognized : riscv_get_prefix_class (chars (sub_name n)) <> RV_ISA_CLASS_SINGLE ->
                  riscv_recognized_prefixed_ext (sub_name n) = true;
}.

Definition version_text (n : riscv_subset_t) : list ascii :=
  fmt_d (major_version n) ++ "p"%char :: fmt_d (minor_version n).

Lemma printable_split s :
  printable s = true ->
  is_digit (head_char (rev (chars s))) = false /\ ends_with_number_p (rev (chars s)) = false /\
  existsb (Ascii.eqb "_") (chars s) = false.
Proof. unfold printable. rewrite !andb_true_iff, !negb_true_iff. tauto. Qed.

Lemma prefix_class_text n q :
  round_trips n ->
  riscv_get_prefix_class (chars (sub_name n) ++ version_text n ++ q)
  = riscv_get_prefix_class (chars (sub_name n)).
Proof.
  intros [_ _ _ (HM & _) _]. apply fmt_d_digits in HM as [HM1 HM2]. unfold version_text.
  destruct (fmt_d (major_version n)) as [|c dM]; [done|]. simpl.
  apply prefix_class_digit. simpl in HM2. by apply andb_true_iff in HM2 as [].
Qed.

Lemma parse_add_known rps s M m :
  known_version M m ->
  riscv_parse_add_subset rps s M m false
  = set_subset_list rps (riscv_add_subset (subset_list rps) s M m).
Proof.
  intros (HM & Hm & _). unfold riscv_parse_add_subset.
  assert (Hk : unknown_version (M, m) = false)
    by (unfold unknown_version, RISCV_UNKNOWN_VERSION; simpl; lia).
  by rewrite !Hk.
Qed.

Lemma split_extension_text n q :
  round_trips n -> at_end q ->
  split_extension (chars (sub_name n) ++ version_text n ++ q)
  = (rev (chars (sub_name n)), version_text n ++ q).
Proof.
  intros Hn Hq. pose proof (prefix_class_text n q Hn) as Hc.
  destruct Hn as [Hok Hp _ (HM & Hm & _) _]. apply printable_split in Hp as (Hd & _ & Hu).
  pose proof (fmt_d_digits _ HM) as [HM1 HM2]. pose proof (fmt_d_digits _ Hm) as [Hm1 Hm2].
  unfold split_extension, version_text in *.
  destruct (fmt_d (major_version n)) as [|c dM] eqn:EM; [done|].
  rewrite Hc. unfold ok_ext in Hok.
  assert (Hpre : forall a, existsb (Ascii.eqb "_") a = false ->
    back_over_version false false (rev (a ++ (c :: dM) ++ "p"%char :: fmt_d (minor_version n)))
      = rev a ->
    let r := back_over_version false false (rev (span_until ["_"%char]
        (a ++ ((c :: dM) ++ "p"%char :: fmt_d (minor_version n)) ++ q)).1) in
    (r, drop (length r) (a ++ ((c :: dM) ++ "p"%char :: fmt_d (minor_version n)) ++ q))
    = (rev a, ((c :: dM) ++ "p"%char :: fmt_d (minor_version n)) ++ q)).
  { intros a Ha Hb. cbv zeta. rewrite (app_assoc a), span_until_text; [|..|done].
    - rewrite Hb, length_rev, <- app_assoc, drop_app_length. done.
    - rewrite !existsb_app, Ha, (digits_no_underscore (c :: dM)) by done.
      change (existsb (Ascii.eqb "_") (fmt_d (minor_version n)) = false).
      by apply digits_no_underscore. }
  assert (Hback := back_over_version_text (chars (sub_name n)) (c :: dM) (fmt_d (minor_version n))
     (conj HM1 HM2) (conj Hm1 Hm2) Hd).
  destruct (riscv_get_prefix_class (chars (sub_name n))); try (by apply Hpre).
  apply andb_true_iff in Hok as [_ Hl]. apply Nat.eqb_eq in Hl.
  by destruct (chars (sub_name n)) as [|x [|]].
Qed.

Lemma parse_printed_one rps n q :
  round_trips n -> at_end q ->
  let p := chars (sub_name n) ++ version_text n ++ q in
  parse_extensions_loop (length p) rps p
  = parse_extensions_loop (length q)
      (set_subset_list rps (riscv_add_subset (subset_list rps) (sub_name n)
         (major_version n) (minor_version n))) q.
Proof.
  intros Hn Hq p. pose proof (split_extension_text n q Hn Hq) as Hs. fold p in Hs.
  pose proof (split_extension_nonempty _ _ _ Hs) as Hne.
  pose proof (prefix_class_text n q Hn) as Hcls. fold p in Hcls.
  destruct Hn as [Hok Hp Hg Hv Hrec]. pose proof Hv as (HM & Hm & Hnz).
  apply printable_split in Hp as (Hd & He & Hu).
  destruct p as [|c p'] eqn:Ep.
  { apply (f_equal length) in Ep. unfold p in Ep. rewrite length_app in Ep.
    destruct (chars (sub_name n)); [done|]. simpl in Ep. lia. }
  assert (Hc : exists s', chars (sub_name n) = c :: s').
  { subst p. destruct (chars (sub_name n)) as [|x s']; [done|]. simpl in Ep. injection Ep as -> _. eauto. }
  destruct Hc as [s' Hc]. cbn [length parse_extensions_loop]. rewrite Hs, Hcls.
  rewrite rev_involutive, unchars_chars, He, andb_false_r.
  assert (Hc_ : Ascii.eqb c "_" = false).
  { rewrite Hc in Hu. cbn [existsb] in Hu. apply orb_false_iff in Hu as [Hu _]. by rewrite Ascii.eqb_sym. }
  rewrite Hc_. unfold version_text. rewrite <- app_assoc. simpl ((_ :: _) ++ q).
  rewrite parsing_version_text by done.
  rewrite parse_add_known by done. apply String.eqb_neq in Hg. rewrite Hg, andb_false_r.
  assert (Hend : match q with [] => false | d :: _ => negb (Ascii.eqb d "_") end = false)
    by (by destruct Hq as [->|[q' ->]]).
  rewrite Hend, andb_false_r. 
  assert (Hlen : (length q <= length p')%nat).
  { apply (f_equal length) in Ep. subst p. rewrite !length_app, Hc in Ep. unfold version_text in Ep.
    rewrite !length_app in Ep. simpl in Ep. lia. }
  destruct (bool_decide_reflect (riscv_get_prefix_class (chars (sub_name n)) = RV_ISA_CLASS_SINGLE)) as [E|E].
  - unfold ok_ext in Hok. rewrite E, Hc in Hok. simpl in Hok. apply andb_true_iff in Hok as [Ho _].
    apply Z.gtb_lt in Ho. destruct (Z.eqb_spec (riscv_ext_order c) 0); [lia|].
    cbn [negb andb]. by apply parse_extensions_loop_fuel.
  - rewrite (Hrec E). cbn [negb andb]. rewrite andb_false_r. by apply parse_extensions_loop_fuel.
Qed.

(** ** Parsing the whole string *)

Lemma ok_ext_name_chars s : ok_ext s = true -> forallb name_char (chars s) = true.
Proof.
  unfold ok_ext. destruct (riscv_get_prefix_class (chars s)); intros H; try done;
    apply andb_true_iff in H as [H1 H2]; [done|].
  destruct (chars s) as [|c [|]]; [done| |done]. simpl in *. rewrite andb_true_r.
  apply Z.gtb_lt in H1.
  pose proof (order_from_lookup 1 riscv_ext_canonical_order c ltac:(lia)
                ltac:(unfold riscv_ext_order in H1; lia)) as [_ Hl].
  apply list_elem_of_lookup_2, list_elem_of_In in Hl.
  assert (Hall : forallb name_char riscv_ext_canonical_order = true) by (vm_compute; reflexivity).
  rewrite forallb_forall in Hall. auto.
Qed.

Lemma strcasecmp_neq s t :
  ok_ext s = true -> ok_ext t = true -> s <> t -> (strcasecmp (chars s) (chars t) =? 0) = false.
Proof.
  intros Hs Ht Hne. apply Z.eqb_neq. intros E. apply Hne.
  rewrite <- (unchars_chars s), <- (unchars_chars t). f_equal.
  apply ok_ext_name_chars in Hs, Ht. apply map_tolower_inj; try done.
  apply lex_eq. rewrite <- strcasecmp_lex by done. by rewrite E.
Qed.

Lemma subset_text_prefixed n :
  ok_ext (sub_name n) = true -> sub_name n <> "i"%string -> sub_name n <> "e"%string ->
  subset_text n = "_"%char :: chars (sub_name n) ++ version_text n.
Proof. intros Hok Hi He. unfold subset_text. by rewrite !strcasecmp_neq by done. Qed.

Definition append_nodes (l : riscv_subset_list_t) (ns : list riscv_subset_t) : riscv_subset_list_t :=
  mk_subset_list (nodes l ++ ns) (last_index (nodes l ++ ns)) (arch_str l).

Lemma add_at_end l n :
  subset_list_wf l -> ok_ext (sub_name n) = true -> Forall (fun m => node_lt m n) (nodes l) ->
  riscv_add_subset l (sub_name n) (major_version n) (minor_version n) = append_nodes l [n].
Proof.
  intros Hwf Hok Hlt. unfold riscv_add_subset.
  rewrite riscv_lookup_subset_loop, lookup_loop_past by (done || apply Hwf).
  rewrite insert_pos, take_ge, drop_ge by lia. unfold append_nodes. destruct n. f_equal.
  unfold last_index. rewrite length_app. simpl. by rewrite Nat.add_1_r.
Qed.

Lemma append_nodes_app l a b : append_nodes (append_nodes l a) b = append_nodes l (a ++ b).
Proof. unfold append_nodes. simpl. by rewrite <- app_assoc. Qed.

Lemma append_nodes_nil l : subset_list_wf l -> append_nodes l [] = l.
Proof.
  intros [_ _ Ht]. unfold append_nodes. rewrite app_nil_r, <- Ht. by destruct l.
Qed.

(** Extensions after the base one: each is printed with its underscore. *)
Definition follower (n : riscv_subset_t) : Prop :=
  round_trips n /\ sub_name n <> "i"%string /\ sub_name n <> "e"%string.

Lemma followers_at_end ns : Forall follower ns -> at_end (concat (map subset_text ns)).
Proof.
  destruct 1 as [|n ns [Hn [Hi He]] _]; [by left|]. right. simpl.
  rewrite subset_text_prefixed by (done || apply Hn). simpl. eauto.
Qed.

Lemma parse_printed_followers rps ns :
  subset_list_wf (subset_list rps) -> Forall follower ns -> StronglySorted node_lt ns ->
  Forall (fun n => Forall (fun m => node_lt m n) (nodes (subset_list rps))) ns ->
  let p := concat (map subset_text ns) in
  parse_extensions_loop (length p) rps p
  = (set_subset_list rps (append_nodes (subset_list rps) ns), true).
Proof.
  revert rps. induction ns as [|n ns IH]; intros rps Hwf Hf Hs Hlt; cbv zeta.
  { simpl. rewrite append_nodes_nil by done. by destruct rps. }
  apply Forall_cons in Hf as [(Hn & Hi & He) Hf], Hlt as [Hlt1 Hlt].
  pose proof (followers_at_end ns Hf) as Hend.
  pose proof (rt_ok _ Hn) as Hok. cbn [map concat].
  rewrite subset_text_prefixed by done. cbn [app length]. cbn [parse_extensions_loop].
  change (Ascii.eqb "_" "_") with true. cbn iota. rewrite <- app_assoc.
  rewrite parse_printed_one, add_at_end by done. rewrite IH; clear IH.
  - simpl. by rewrite append_nodes_app.
  - simpl. rewrite <- add_at_end by done. by apply riscv_add_subset_wf.
  - done.
  - by eapply StronglySorted_tail.
  - apply StronglySorted_head in Hs. rewrite !Forall_forall in *. intros m Hm. simpl.
    apply Forall_app. split; [auto|]. constructor; [auto|done].
Qed.

(** ** Round trip *)

Definition version_known (n : riscv_subset_t) : bool :=
  negb (unknown_version (major_version n, minor_version n)).

Lemma printed_from_known prev ns :
  prev <> "e"%string -> Forall (fun n => sub_name n <> "e"%string) ns ->
  printed_from prev ns = List.filter version_known ns.
Proof.
  intros Hp H. revert prev Hp. induction H as [|n ns Hn H IH]; intros prev Hp; simpl; [done|].
  unfold skipped, version_known, unknown_version. simpl.
  apply String.eqb_neq in Hp. rewrite Hp. simpl.
  rewrite !IH by done. by destruct (_ || _).
Qed.

Lemma digit_not_upper c : is_digit c = true -> is_upper c = false.
Proof. unfold is_digit, is_upper. lia. Qed.

Definition no_upper (p : list ascii) : Prop := existsb is_upper p = false.

Lemma no_upper_app a b : no_upper a -> no_upper b -> no_upper (a ++ b).
Proof. unfold no_upper. rewrite existsb_app. by intros -> ->. Qed.

Lemma digits_no_upper p : digit_string p -> no_upper p.
Proof.
  intros [_ H]. unfold no_upper. induction p as [|c p IH]; [done|]. cbn [forallb existsb] in *.
  apply andb_true_iff in H as [Hc H]. rewrite digit_not_upper by done. auto.
Qed.

Lemma name_chars_no_upper p : forallb name_char p = true -> no_upper p.
Proof.
  unfold no_upper. induction p as [|c p IH]; [done|]. cbn [forallb existsb].
  rewrite andb_true_iff. intros [Hc Hp]. unfold name_char in Hc. apply andb_true_iff in Hc as [Hc _].
  apply negb_true_iff in Hc. rewrite Hc. auto.
Qed.

Lemma subset_text_no_upper n : round_trips n -> no_upper (subset_text n).
Proof.
  intros [Hok _ _ (HM & Hm & _) _]. unfold subset_text. apply no_upper_app.
  { by destruct (_ || _). }
  apply no_upper_app; [by apply name_chars_no_upper, ok_ext_name_chars|].
  apply no_upper_app; [by apply digits_no_upper, fmt_d_digits|].
  apply (no_upper_app ["p"%char]); [done|]. by apply digits_no_upper, fmt_d_digits.
Qed.

Lemma texts_no_upper ns : Forall round_trips ns -> no_upper (concat (map subset_text ns)).
Proof.
  induction 1 as [|n ns Hn _ IH]; [done|]. simpl. apply no_upper_app; [|done].
  by apply subset_text_no_upper.
Qed.

Lemma closed_nothing_fires l :
  subset_list_wf l -> closed (exts l) ->
  List.find (implicit_fires l) riscv_implicit_subsets = None.
Proof.
  intros Hwf Hc. destruct (List.find (implicit_fires l) riscv_implicit_subsets) as [t|] eqn:E; [|done].
  apply List.find_some in E as [Ht Hf]. apply implicit_fires_iff in Hf as (v & Hv & Hn & Hk); [|done..].
  destruct (Hc t v Ht Hv Hk) as [w Hw]. congruence.
Qed.

Lemma closed_implicit_id rps :
  subset_list_wf (subset_list rps) -> closed (exts (subset_list rps)) ->
  riscv_parse_add_implicit_subsets rps = rps.
Proof.
  intros Hwf Hc. unfold riscv_parse_add_implicit_subsets.
  destruct (length riscv_implicit_subsets); cbn [add_implicit_loop]; [done|].
  by rewrite closed_nothing_fires.
Qed.

Lemma StronglySorted_filter {A} (R : A -> A -> Prop) (f : A -> bool) l :
  StronglySorted R l -> StronglySorted R (List.filter f l).
Proof.
  induction 1 as [|a l Hs IH Ha]; simpl; [constructor|]. destruct (f a); [|done].
  constructor; [done|]. rewrite List.Forall_forall in *. intros x Hx.
  apply List.filter_In in Hx as [Hx _]. auto.
Qed.

(** No extension precedes [i] but [e]. *)
Lemma after_i_not_base n0 ns :
  StronglySorted node_lt (n0 :: ns) -> sub_name n0 = "i"%string ->
  Forall (fun n => sub_name n <> "i"%string /\ sub_name n <> "e"%string) ns.
Proof.
  intros Hs Hn. apply StronglySorted_head in Hs. eapply Forall_impl; [exact Hs|].
  intros n. unfold node_lt. rewrite Hn. intros H. split; intros E; rewrite E in H; vm_compute in H; done.
Qed.

(** The list a printed string stands for. *)
Definition known_nodes (l : riscv_subset_list_t) : list riscv_subset_t :=
  List.filter version_known (nodes l).

Lemma empty_nodes_wf l : nodes l = [] -> tail l = None -> subset_list_wf l.
Proof. destruct l as [ns t a]. simpl. intros -> ->. repeat constructor. Qed.

Lemma parse_extensions_known rps l n0 ns :
  nodes (subset_list rps) = [] -> tail (subset_list rps) = None ->
  subset_list_wf l -> nodes l = n0 :: ns -> sub_name n0 = "i"%string -> version_known n0 = true ->
  Forall (fun n => version_known n = true -> round_trips n) (nodes l) ->
  riscv_parse_extensions rps (concat (map subset_text (printed (nodes l))))
  = (set_subset_list rps (append_nodes (subset_list rps) (known_nodes l)), true).
Proof.
  intros He Ht [Hok Hs _] Hl Hi Hk Hrt. unfold known_nodes. rewrite Hl in *.
  pose proof (empty_nodes_wf _ He Ht) as Hwf0.
  apply Forall_cons in Hrt as [Hrt0 Hrt]. specialize (Hrt0 Hk).
  pose proof (after_i_not_base _ _ Hs Hi) as Hbase.
  assert (Hf : Forall follower (List.filter version_known ns)).
  { rewrite List.Forall_forall in *. intros n Hn. apply List.filter_In in Hn as [Hn Hv].
    destruct (Hbase n Hn). split_and!; try done. by apply Hrt. }
  cbn [printed]. rewrite printed_from_known.
  2: by rewrite Hi. 2: by (eapply Forall_impl; [exact Hbase|]; by intros ? []).
  cbn [map concat]. simpl (List.filter _ (n0 :: ns)). rewrite Hk.
  set (q := concat (map subset_text (List.filter version_known ns))).
  assert (Et : subset_text n0 ++ q = chars (sub_name n0) ++ version_text n0 ++ q).
  { unfold subset_text, version_text. rewrite Hi. simpl. by rewrite <- app_assoc. }
  assert (Hh : head_char (chars (sub_name n0) ++ version_text n0 ++ q) = "i"%char) by (by rewrite Hi).
  rewrite Et. unfold riscv_parse_extensions. rewrite Hh. cbv zeta.
  change (negb (Ascii.eqb "i" "e") && negb (Ascii.eqb "i" "i") && negb (Ascii.eqb "i" "g")) with false.
  cbn iota. rewrite parse_printed_one by (done || by apply followers_at_end).
  rewrite add_at_end by (done || apply Hrt0 || (rewrite He; constructor)).
  unfold q. rewrite parse_printed_followers; try done.
  - simpl. by rewrite append_nodes_app.
  - simpl. rewrite <- add_at_end by (done || apply Hrt0 || (rewrite He; constructor)).
    apply riscv_add_subset_wf; [done|by apply Hrt0].
  - apply StronglySorted_filter. by eapply StronglySorted_tail.
  - simpl. rewrite He. apply StronglySorted_head in Hs. rewrite List.Forall_forall in *.
    intros n Hn. apply List.filter_In in Hn as [Hn _]. simpl. repeat constructor. auto.
Qed.

Lemma append_empty l ns :
  nodes l = [] -> append_nodes l ns = mk_subset_list ns (last_index ns) (arch_str l).
Proof. intros H. unfold append_nodes. by rewrite H. Qed.

Lemma known_nodes_wf l a :
  subset_list_wf l ->
  subset_list_wf (mk_subset_list (known_nodes l) (last_index (known_nodes l)) a).
Proof.
  intros [Hok Hs _]. constructor; simpl; [|by apply StronglySorted_filter|done].
  rewrite List.Forall_forall in *. intros n Hn. apply List.filter_In in Hn as [Hn _]. auto.
Qed.

Lemma printed_round_trips l n0 ns :
  subset_list_wf l -> nodes l = n0 :: ns -> sub_name n0 = "i"%string -> version_known n0 = true ->
  Forall (fun n => version_known n = true -> round_trips n) (nodes l) ->
  Forall round_trips (printed (nodes l)).
Proof.
  intros [_ Hs _] Hl Hi Hk Hrt. rewrite Hl in *. apply Forall_cons in Hrt as [Hrt0 Hrt].
  pose proof (after_i_not_base _ _ Hs Hi) as Hbase. cbn [printed].
  rewrite printed_from_known.
  2: by rewrite Hi. 2: by (eapply Forall_impl; [exact Hbase|]; by intros ? []).
  constructor; [auto|]. rewrite List.Forall_forall in *. intros n Hn.
  apply List.filter_In in Hn as [Hn Hv]. auto.
Qed.

Lemma rv_prefix xlen p :
  xlen = 32 \/ xlen = 64 -> no_upper p ->
  existsb is_upper (chars "rv" ++ fmt_u xlen ++ p) = false /\
  match strip_prefix (chars "rv32") (chars "rv" ++ fmt_u xlen ++ p) with
  | Some q => Some (32, q)
  | None => match strip_prefix (chars "rv64") (chars "rv" ++ fmt_u xlen ++ p) with
            | Some q => Some (64, q)
            | None => None
            end
  end = Some (xlen, p).
Proof. intros [->| ->] Hp; split; try done; by apply no_upper_app. Qed.

(** C15: the architecture string round-trips.  Take a canonical list with base
    [i] at a known version, whose extensions of known version are printable (the
    name is one the parser recognises and does not end like a version, the
    version is not 0p0), closed under implication, and whose versions have not
    wrapped around.  [riscv_arch_str] prints it to a string that
    [riscv_parse_subset] reads back, from an empty list, to exactly the extensions
    of known version (the others are not printed), in the same order, with the
    same versions and [xlen]; what the parser returns is what its conflict check
    says of that list, so without a conflict the string is accepted and nothing
    is reported. *)
Theorem riscv_arch_str_round_trip (rps : riscv_parse_subset_t) (l : riscv_subset_list_t)
    (n0 : riscv_subset_t) (ns : list riscv_subset_t) (xlen : Z) :
  let back := set_subset_list (set_rps_xlen rps xlen)
                (mk_subset_list (known_nodes l) (last_index (known_nodes l)) (arch_str (subset_list rps))) in
  nodes (subset_list rps) = [] -> tail (subset_list rps) = None ->
  xlen = 32 \/ xlen = 64 -> subset_list_wf l -> Forall versions_ok (nodes l) ->
  nodes l = n0 :: ns -> sub_name n0 = "i"%string -> version_known n0 = true ->
  Forall (fun n => version_known n = true -> round_trips n) (nodes l) ->
  closed (exts_of (known_nodes l)) ->
  riscv_parse_subset rps (Some (unchars (riscv_arch_str xlen l))) = riscv_parse_check_conflicts back /\
  (conflict_free xlen (exts_of (known_nodes l)) ->
   riscv_parse_subset rps (Some (unchars (riscv_arch_str xlen l))) = (back, true)).
Proof.
  intros back He Ht Hx Hwf Hv Hl Hi Hk Hrt Hcl.
  assert (E : riscv_parse_subset rps (Some (unchars (riscv_arch_str xlen l))) = riscv_parse_check_conflicts back).
  { rewrite riscv_arch_str_text by (lia || (eapply Forall_impl; [exact Hv|apply versions_ok_int])).
    unfold riscv_parse_subset. rewrite chars_unchars.
    destruct (rv_prefix xlen (concat (map subset_text (printed (nodes l)))) Hx) as [-> ->].
    { eapply texts_no_upper, printed_round_trips; done. }
    rewrite (parse_extensions_known _ l n0 ns) by done.
    cbn [subset_list set_rps_xlen]. rewrite append_empty by done.
    rewrite closed_implicit_id; [done|by apply known_nodes_wf|done]. }
  split; [exact E|]. intros Hc. rewrite E. apply check_conflicts_free; [by apply known_nodes_wf|exact Hc].
Qed.

(** A decision procedure for [closed]. *)
Definition closed_b (m : gmap string (Z * Z)) : bool :=
  forallb (fun t => match m !! subset_name t with
                    | Some v => negb (check_versions (check_func t) v)
                                || bool_decide (is_Some (m !! implicit_name t))
                    | None => true
                    end) riscv_implicit_subsets.

Lemma closed_b_closed m : closed_b m = true -> closed m.
Proof.
  unfold closed_b. rewrite forallb_forall. intros H t v Ht Hv Hc. specialize (H t Ht).
  rewrite Hv, Hc in H. simpl in H. by apply bool_decide_eq_true in H.
Qed.

Lemma riscv_arch_str_round_trip_witness :
  unchars (riscv_arch_str 32 example_list) = "rv32i2p1_m2p0_zicsr2p0_zmmul1p0"%string /\
  nodes (subset_list (riscv_parse_subset (start_rps ISA_SPEC_CLASS_20191213)
           (Some (unchars (riscv_arch_str 32 example_list)))).1) = nodes example_list.
Proof.
  split; [vm_compute; reflexivity|].
  destruct (riscv_arch_str_round_trip (start_rps ISA_SPEC_CLASS_20191213) example_list
    (mk_subset "i" 2 1) [mk_subset "m" 2 0; mk_subset "zicsr" 2 0; mk_subset "zmmul" 1 0] 32) as [E _].
  - reflexivity.
  - reflexivity.
  - left. reflexivity.
  - apply example_list_wf.
  - repeat constructor; vm_compute; congruence.
  - reflexivity.
  - reflexivity.
  - reflexivity.
  - repeat constructor; try (vm_compute; done); vm_compute; intuition congruence.
  - apply closed_b_closed. vm_compute. reflexivity.
  - rewrite E. vm_compute. reflexivity.
Defined.

(** C36: the buffer of the architecture string.  For versions that are C ints
    and an xlen below 1000, [riscv_arch_str] cuts nothing: its result is the text
    of the nodes it does not skip.  With its terminator it takes no more than the
    [riscv_estimate_arch_strlen] bytes allocated and one more for each version
    below -1, which is what a number above INT_MAX in an ISA string becomes and
    which the estimate counts as unsigned; so it fits if there is none. *)
Theorem riscv_arch_str_fits (xlen : Z) (l : riscv_subset_list_t) :
  0 <= xlen < 1000 -> Forall versions_int (nodes l) ->
  riscv_arch_str xlen l = chars "rv" ++ fmt_u xlen ++ concat (map subset_text (printed (nodes l))) /\
  Z.of_nat (length (riscv_arch_str xlen l)) + 1 <= riscv_estimate_arch_strlen l + wrapped_versions (nodes l) /\
  (Forall versions_ok (nodes l) -> Z.of_nat (length (riscv_arch_str xlen l)) + 1 <= riscv_estimate_arch_strlen l).
Proof.
  intros Hx Hv. split; [by apply riscv_arch_str_text|]. rewrite riscv_arch_str_text by done.
  pose proof (printed_length (length (nodes l)) (nodes l) ltac:(lia) Hv).
  pose proof (fmt_u_length xlen Hx). unfold riscv_estimate_arch_strlen. rewrite estimate_room.
  rewrite !length_app. simpl (length (chars "rv")).
  split; [lia|]. intros Hok. rewrite (versions_ok_wrapped _ Hok) in *. lia.
Qed.

Lemma riscv_arch_str_fits_witness :
  Z.of_nat (length (riscv_arch_str 64 (mk_subset_list
     [mk_subset "i" 2147483647 2147483647; mk_subset "zfoo" (-1) (-1)] None None))) + 1
  <= riscv_estimate_arch_strlen (mk_subset_list
     [mk_subset "i" 2147483647 2147483647; mk_subset "zfoo" (-1) (-1)] None None).
Proof.
  apply (riscv_arch_str_fits 64 (mk_subset_list
     [mk_subset "i" 2147483647 2147483647; mk_subset "zfoo" (-1) (-1)] None None)).
  - lia.
  - repeat constructor; vm_compute; congruence.
  - repeat constructor; vm_compute; congruence.
Defined.

(** The buffer is too small for an ISA string the assembler takes: the versions
    of i and m wrap around, and 84 bytes are written to the 82 allocated. *)
Lemma arch_str_overruns_buffer :
  let st := riscv_parse_subset (start_rps ISA_SPEC_CLASS_20191213) (Some "rv64i3000000000p3000000000_m3000000000p3000000000") in
  st.2 = true /\ riscv_estimate_arch_strlen (subset_list st.1) = 82 /\
  length (riscv_arch_str 64 (subset_list st.1)) = 83%nat.
Proof. vm_compute. repeat split. Qed.
