(* ===== verification/CsrTable.v ===== *)
(** * Control and status registers (include/opcode/riscv-opc.h, gas/config/tc-riscv.c)

    The [DECLARE_CSR] and [DECLARE_CSR_ALIAS] lists: name, number, class, and
    the privileged specifications that define and withdraw the register. *)
From Stdlib Require Import ZArith String.
From stdpp Require Import base list strings.
From S2P Require Import Prelude SubsetTables.

#[local] Open Scope Z_scope.

Inductive riscv_csr_class : Set :=
| CSR_CLASS_NONE | CSR_CLASS_I | CSR_CLASS_I_32 | CSR_CLASS_F
| CSR_CLASS_ZKR | CSR_CLASS_V | CSR_CLASS_DEBUG | CSR_CLASS_H
| CSR_CLASS_H_32 | CSR_CLASS_SMAIA | CSR_CLASS_SMAIA_32 | CSR_CLASS_SMCNTRPMF
| CSR_CLASS_SMCNTRPMF_32 | CSR_CLASS_SMSTATEEN | CSR_CLASS_SMSTATEEN_32 | CSR_CLASS_SSAIA
| CSR_CLASS_SSAIA_AND_H | CSR_CLASS_SSAIA_32 | CSR_CLASS_SSAIA_AND_H_32 | CSR_CLASS_SSSTATEEN
| CSR_CLASS_SSSTATEEN_AND_H | CSR_CLASS_SSSTATEEN_AND_H_32 | CSR_CLASS_SSCOFPMF | CSR_CLASS_SSCOFPMF_32
| CSR_CLASS_SSTC | CSR_CLASS_SSTC_AND_H | CSR_CLASS_SSTC_32 | CSR_CLASS_SSTC_AND_H_32
| CSR_CLASS_XTHEADVECTOR.

#[global] Instance riscv_csr_class_eq_dec : EqDecision riscv_csr_class.
Proof. solve_decision. Defined.

Record csr_decl : Set := mk_csr {
  csr_name : string;
  csr_num : Z;
  csr_decl_class : riscv_csr_class;
  csr_define : riscv_spec_class;
  csr_abort : riscv_spec_class;
}.

Definition csr_decls_1 : list csr_decl :=
  [ mk_csr "cycle" 0xc00 CSR_CLASS_I PRIV_SPEC_CLASS_1P9P1 PRIV_SPEC_CLASS_DRAFT;
    mk_csr "time" 0xc01 CSR_CLASS_I PRIV_SPEC_CLASS_1P9P1 PRIV_SPEC_CLASS_DRAFT;
    mk_csr "instret" 0xc02 CSR_CLASS_I PRIV_SPEC_CLASS_1P9P1 PRIV_SPEC_CLASS_DRAFT;
    mk_csr "hpmcounter3" 0xc03 CSR_CLASS_I PRIV_SPEC_CLASS_1P9P1 PRIV_SPEC_CLASS_DRAFT;
    mk_csr "hpmcounter4" 0xc04 CSR_CLASS_I PRIV_SPEC_CLASS_1P9P1 PRIV_SPEC_CLASS_DRAFT;
    mk_csr "hpmcounter5" 0xc05 CSR_CLASS_I PRIV_SPEC_CLASS_1P9P1 PRIV_SPEC_CLASS_DRAFT;
    mk_csr "hpmcounter6" 0xc06 CSR_CLASS_I PRIV_SPEC_CLASS_1P9P1 PRIV_SPEC_CLASS_DRAFT;
    mk_csr "hpmcounter7" 0xc07 CSR_CLASS_I PRIV_SPEC_CLASS_1P9P1 PRIV_SPEC_CLASS_DRAFT;
    mk_csr "hpmcounter8" 0xc08 CSR_CLASS_I PRIV_SPEC_CLASS_1P9P1 PRIV_SPEC_CLASS_DRAFT;
    mk_csr "hpmcounter9" 0xc09 CSR_CLASS_I PRIV_SPEC_CLASS_1P9P1 PRIV_SPEC_CLASS_DRAFT;
    mk_csr "hpmcounter10" 0xc0a CSR_CLASS_I PRIV_SPEC_CLASS_1P9P1 PRIV_SPEC_CLASS_DRAFT;
    mk_csr "hpmcounter11" 0xc0b CSR_CLASS_I PRIV_SPEC_CLASS_1P9P1 PRIV_SPEC_CLASS_DRAFT;
    mk_csr "hpmcounter12" 0xc0c CSR_CLASS_I PRIV_SPEC_CLASS_1P9P1 PRIV_SPEC_CLASS_DRAFT;
    mk_csr "hpmcounter13" 0xc0d CSR_CLASS_I PRIV_SPEC_CLASS_1P9P1 PRIV_SPEC_CLASS_DRAFT;
    mk_csr "hpmcounter14" 0xc0e CSR_CLASS_I PRIV_SPEC_CLASS_1P9P1 PRIV_SPEC_CLASS_DRAFT;
    mk_csr "hpmcounter15" 0xc0f CSR_CLASS_I PRIV_SPEC_CLASS_1P9P1 PRIV_SPEC_CLASS_DRAFT;
    mk_csr "hpmcounter16" 0xc10 CSR_CLASS_I PRIV_SPEC_CLASS_1P9P1 PRIV_SPEC_CLASS_DRAFT;
    mk_csr "hpmcounter17" 0xc11 CSR_CLASS_I PRIV_SPEC_CLASS_1P9P1 PRIV_SPEC_CLASS_DRAFT;
    mk_csr "hpmcounter18" 0xc12 CSR_CLASS_I PRIV_SPEC_CLASS_1P9P1 PRIV_SPEC_CLASS_DRAFT;
    mk_csr "hpmcounter19" 0xc13 CSR_CLASS_I PRIV_SPEC_CLASS_1P9P1 PRIV_SPEC_CLASS_DRAFT;
    mk_csr "hpmcounter20" 0xc14 CSR_CLASS_I PRIV_SPEC_CLASS_1P9P1 PRIV_SPEC_CLASS_DRAFT;
    mk_csr "hpmcounter21" 0xc15 CSR_CLASS_I PRIV_SPEC_CLASS_1P9P1 PRIV_SPEC_CLASS_DRAFT;
    mk_csr "hpmcounter22" 0xc16 CSR_CLASS_I PRIV_SPEC_CLASS_1P9P1 PRIV_SPEC_CLASS_DRAFT;
    mk_csr "hpmcounter23" 0xc17 CSR_CLASS_I PRIV_SPEC_CLASS_1P9P1 PRIV_SPEC_CLASS_DRAFT;
    mk_csr "hpmcounter24" 0xc18 CSR_CLASS_I PRIV_SPEC_CLASS_1P9P1 PRIV_SPEC_CLASS_DRAFT;
    mk_csr "hpmcounter25" 0xc19 CSR_CLASS_I PRIV_SPEC_CLASS_1P9P1 PRIV_SPEC_CLASS_DRAFT;
    mk_csr "hpmcounter26" 0xc1a CSR_CLASS_I PRIV_SPEC_CLASS_1P9P1 PRIV_SPEC_CLASS_DRAFT;
    mk_csr "hpmcounter27" 0xc1b CSR_CLASS_I PRIV_SPEC_CLASS_1P9P1 PRIV_SPEC_CLASS_DRAFT;
    mk_csr "hpmcounter28" 0xc1c CSR_CLASS_I PRIV_SPEC_CLASS_1P9P1 PRIV_SPEC_CLASS_DRAFT;
    mk_csr "hpmcounter29" 0xc1d CSR_CLASS_I PRIV_SPEC_CLASS_1P9P1 PRIV_SPEC_CLASS_DRAFT;
    mk_csr "hpmcounter30" 0xc1e CSR_CLASS_I PRIV_SPEC_CLASS_1P9P1 PRIV_SPEC_CLASS_DRAFT;
    mk_csr "hpmcounter31" 0xc1f CSR_CLASS_I PRIV_SPEC_CLASS_1P9P1 PRIV_SPEC_CLASS_DRAFT;
    mk_csr "cycleh" 0xc80 CSR_CLASS_I_32 PRIV_SPEC_CLASS_1P9P1 PRIV_SPEC_CLASS_DRAFT;
    mk_csr "timeh" 0xc81 CSR_CLASS_I_32 PRIV_SPEC_CLASS_1P9P1 PRIV_SPEC_CLASS_DRAFT;
    mk_csr "instreth" 0xc82 CSR_CLASS_I_32 PRIV_SPEC_CLASS_1P9P1 PRIV_SPEC_CLASS_DRAFT;
    mk_csr "hpmcounter3h" 0xc83 CSR_CLASS_I_32 PRIV_SPEC_CLASS_1P9P1 PRIV_SPEC_CLASS_DRAFT;
    mk_csr "hpmcounter4h" 0xc84 CSR_CLASS_I_32 PRIV_SPEC_CLASS_1P9P1 PRIV_SPEC_CLASS_DRAFT;
    mk_csr "hpmcounter5h" 0xc85 CSR_CLASS_I_32 PRIV_SPEC_CLASS_1P9P1 PRIV_SPEC_CLASS_DRAFT;
    mk_csr "hpmcounter6h" 0xc86 CSR_CLASS_I_32 PRIV_SPEC_CLASS_1P9P1 PRIV_SPEC_CLASS_DRAFT;
    mk_csr "hpmcounter7h" 0xc87 CSR_CLASS_I_32 PRIV_SPEC_CLASS_1P9P1 PRIV_SPEC_CLASS_DRAFT;
    mk_csr "hpmcounter8h" 0xc88 CSR_CLASS_I_32 PRIV_SPEC_CLASS_1P9P1 PRIV_SPEC_CLASS_DRAFT;
    mk_csr "hpmcounter9h" 0xc89 CSR_CLASS_I_32 PRIV_SPEC_CLASS_1P9P1 PRIV_SPEC_CLASS_DRAFT;
    mk_csr "hpmcounter10h" 0xc8a CSR_CLASS_I_32 PRIV_SPEC_CLASS_1P9P1 PRIV_SPEC_CLASS_DRAFT;
    mk_csr "hpmcounter11h" 0xc8b CSR_CLASS_I_32 PRIV_SPEC_CLASS_1P9P1 PRIV_SPEC_CLASS_DRAFT;
    mk_csr "hpmcounter12h" 0xc8c CSR_CLASS_I_32 PRIV_SPEC_CLASS_1P9P1 PRIV_SPEC_CLASS_DRAFT;
    mk_csr "hpmcounter13h" 0xc8d CSR_CLASS_I_32 PRIV_SPEC_CLASS_1P9P1 PRIV_SPEC_CLASS_DRAFT;
    mk_csr "hpmcounter14h" 0xc8e CSR_CLASS_I_32 PRIV_SPEC_CLASS_1P9P1 PRIV_SPEC_CLASS_DRAFT;
    mk_csr "hpmcounter15h" 0xc8f CSR_CLASS_I_32 PRIV_SPEC_CLASS_1P9P1 PRIV_SPEC_CLASS_DRAFT;
    mk_csr "hpmcounter16h" 0xc90 CSR_CLASS_I_32 PRIV_SPEC_CLASS_1P9P1 PRIV_SPEC_CLASS_DRAFT;
    mk_csr "hpmcounter17h" 0xc91 CSR_CLASS_I_32 PRIV_SPEC_CLASS_1P9P1 PRIV_SPEC_CLASS_DRAFT;
    mk_csr "hpmcounter18h" 0xc92 CSR_CLASS_I_32 PRIV_SPEC_CLASS_1P9P1 PRIV_SPEC_CLASS_DRAFT;
    mk_csr "hpmcounter19h" 0xc93 CSR_CLASS_I_32 PRIV_SPEC_CLASS_1P9P1 PRIV_SPEC_CLASS_DRAFT;
    mk_csr "hpmcounter20h" 0xc94 CSR_CLASS_I_32 PRIV_SPEC_CLASS_1P9P1 PRIV_SPEC_CLASS_DRAFT;
    mk_csr "hpmcounter21h" 0xc95 CSR_CLASS_I_32 PRIV_SPEC_CLASS_1P9P1 PRIV_SPEC_CLASS_DRAFT;
    mk_csr "hpmcounter22h" 0xc96 CSR_CLASS_I_32 PRIV_SPEC_CLASS_1P9P1 PRIV_SPEC_CLASS_DRAFT;
    mk_csr "hpmcounter23h" 0xc97 CSR_CLASS_I_32 PRIV_SPEC_CLASS_1P9P1 PRIV_SPEC_CLASS_DRAFT;
    mk_csr "hpmcounter24h" 0xc98 CSR_CLASS_I_32 PRIV_SPEC_CLASS_1P9P1 PRIV_SPEC_CLASS_DRAFT;
    mk_csr "hpmcounter25h" 0xc99 CSR_CLASS_I_32 PRIV_SPEC_CLASS_1P9P1 PRIV_SPEC_CLASS_DRAFT;
    mk_csr "hpmcounter26h" 0xc9a CSR_CLASS_I_32 PRIV_SPEC_CLASS_1P9P1 PRIV_SPEC_CLASS_DRAFT;
    mk_csr "hpmcounter27h" 0xc9b CSR_CLASS_I_32 PRIV_SPEC_CLASS_1P9P1 PRIV_SPEC_CLASS_DRAFT;
    mk_csr "hpmcounter28h" 0xc9c CSR_CLASS_I_32 PRIV_SPEC_CLASS_1P9P1 PRIV_SPEC_CLASS_DRAFT;
    mk_csr "hpmcounter29h" 0xc9d CSR_CLASS_I_32 PRIV_SPEC_CLASS_1P9P1 PRIV_SPEC_CLASS_DRAFT;
    mk_csr "hpmcounter30h" 0xc9e CSR_CLASS_I_32 PRIV_SPEC_CLASS_1P9P1 PRIV_SPEC_CLASS_DRAFT;
    mk_csr "hpmcounter31h" 0xc9f CSR_CLASS_I_32 PRIV_SPEC_CLASS_1P9P1 PRIV_SPEC_CLASS_DRAFT;
    mk_csr "sstatus" 0x100 CSR_CLASS_I PRIV_SPEC_CLASS_1P9P1 PRIV_SPEC_CLASS_DRAFT;
    mk_csr "sie" 0x104 CSR_CLASS_I PRIV_SPEC_CLASS_1P9P1 PRIV_SPEC_CLASS_DRAFT;
    mk_csr "stvec" 0x105 CSR_CLASS_I PRIV_SPEC_CLASS_1P9P1 PRIV_SPEC_CLASS_DRAFT;
    mk_csr "scounteren" 0x106 CSR_CLASS_I PRIV_SPEC_CLASS_1P10 PRIV_SPEC_CLASS_DRAFT;
    mk_csr "senvcfg" 0x10a CSR_CLASS_I PRIV_SPEC_CLASS_1P12 PRIV_SPEC_CLASS_DRAFT;
    mk_csr "sscratch" 0x140 CSR_CLASS_I PRIV_SPEC_CLASS_1P9P1 PRIV_SPEC_CLASS_DRAFT;
    mk_csr "sepc" 0x141 CSR_CLASS_I PRIV_SPEC_CLASS_1P9P1 PRIV_SPEC_CLASS_DRAFT;
    mk_csr "scause" 0x142 CSR_CLASS_I PRIV_SPEC_CLASS_1P9P1 PRIV_SPEC_CLASS_DRAFT;
    mk_csr "stval" 0x143 CSR_CLASS_I PRIV_SPEC_CLASS_1P10 PRIV_SPEC_CLASS_DRAFT;
    mk_csr "sip" 0x144 CSR_CLASS_I PRIV_SPEC_CLASS_1P9P1 PRIV_SPEC_CLASS_DRAFT;
    mk_csr "satp" 0x180 CSR_CLASS_I PRIV_SPEC_CLASS_1P10 PRIV_SPEC_CLASS_DRAFT;
    mk_csr "mvendorid" 0xf11 CSR_CLASS_I PRIV_SPEC_CLASS_1P9P1 PRIV_SPEC_CLASS_DRAFT;
    mk_csr "marchid" 0xf12 CSR_CLASS_I PRIV_SPEC_CLASS_1P9P1 PRIV_SPEC_CLASS_DRAFT;
    mk_csr "mimpid" 0xf13 CSR_CLASS_I PRIV_SPEC_CLASS_1P9P1 PRIV_SPEC_CLASS_DRAFT;
    mk_csr "mhartid" 0xf14 CSR_CLASS_I PRIV_SPEC_CLASS_1P9P1 PRIV_SPEC_CLASS_DRAFT;
    mk_csr "mconfigptr" 0xf15 CSR_CLASS_I PRIV_SPEC_CLASS_1P12 PRIV_SPEC_CLASS_DRAFT;
    mk_csr "mstatus" 0x300 CSR_CLASS_I PRIV_SPEC_CLASS_1P9P1 PRIV_SPEC_CLASS_DRAFT;
    mk_csr "misa" 0x301 CSR_CLASS_I PRIV_SPEC_CLASS_1P9P1 PRIV_SPEC_CLASS_DRAFT;
    mk_csr "medeleg" 0x302 CSR_CLASS_I PRIV_SPEC_CLASS_1P9P1 PRIV_SPEC_CLASS_DRAFT;
    mk_csr "mideleg" 0x303 CSR_CLASS_I PRIV_SPEC_CLASS_1P9P1 PRIV_SPEC_CLASS_DRAFT;
    mk_csr "mie" 0x304 CSR_CLASS_I PRIV_SPEC_CLASS_1P9P1 PRIV_SPEC_CLASS_DRAFT;
    mk_csr "mtvec" 0x305 CSR_CLASS_I PRIV_SPEC_CLASS_1P9P1 PRIV_SPEC_CLASS_DRAFT;
    mk_csr "mcounteren" 0x306 CSR_CLASS_I PRIV_SPEC_CLASS_1P10 PRIV_SPEC_CLASS_DRAFT;
    mk_csr "mstatush" 0x310 CSR_CLASS_I_32 PRIV_SPEC_CLASS_1P12 PRIV_SPEC_CLASS_DRAFT;
    mk_csr "mscratch" 0x340 CSR_CLASS_I PRIV_SPEC_CLASS_1P9P1 PRIV_SPEC_CLASS_DRAFT;
    mk_csr "mepc" 0x341 CSR_CLASS_I PRIV_SPEC_CLASS_1P9P1 PRIV_SPEC_CLASS_DRAFT;
    mk_csr "mcause" 0x342 CSR_CLASS_I PRIV_SPEC_CLASS_1P9P1 PRIV_SPEC_CLASS_DRAFT;
    mk_csr "mtval" 0x343 CSR_CLASS_I PRIV_SPEC_CLASS_1P10 PRIV_SPEC_CLASS_DRAFT;
    mk_csr "mip" 0x344 CSR_CLASS_I PRIV_SPEC_CLASS_1P9P1 PRIV_SPEC_CLASS_DRAFT;
    mk_csr "mtinst" 0x34a CSR_CLASS_I PRIV_SPEC_CLASS_1P12 PRIV_SPEC_CLASS_DRAFT;
    mk_csr "mtval2" 0x34b CSR_CLASS_I PRIV_SPEC_CLASS_1P12 PRIV_SPEC_CLASS_DRAFT;
    mk_csr "menvcfg" 0x30a CSR_CLASS_I PRIV_SPEC_CLASS_1P12 PRIV_SPEC_CLASS_DRAFT;
    mk_csr "menvcfgh" 0x31a CSR_CLASS_I_32 PRIV_SPEC_CLASS_1P12 PRIV_SPEC_CLASS_DRAFT;
    mk_csr "mseccfg" 0x747 CSR_CLASS_I PRIV_SPEC_CLASS_1P12 PRIV_SPEC_CLASS_DRAFT;
    mk_csr "mseccfgh" 0x757 CSR_CLASS_I_32 PRIV_SPEC_CLASS_1P12 PRIV_SPEC_CLASS_DRAFT;
    mk_csr "pmpcfg0" 0x3a0 CSR_CLASS_I PRIV_SPEC_CLASS_1P10 PRIV_SPEC_CLASS_DRAFT;
    mk_csr "pmpcfg1" 0x3a1 CSR_CLASS_I_32 PRIV_SPEC_CLASS_1P10 PRIV_SPEC_CLASS_DRAFT;
    mk_csr "pmpcfg2" 0x3a2 CSR_CLASS_I PRIV_SPEC_CLASS_1P10 PRIV_SPEC_CLASS_DRAFT;
    mk_csr "pmpcfg3" 0x3a3 CSR_CLASS_I_32 PRIV_SPEC_CLASS_1P10 PRIV_SPEC_CLASS_DRAFT;
    mk_csr "pmpcfg4" 0x3a4 CSR_CLASS_I PRIV_SPEC_CLASS_1P12 PRIV_SPEC_CLASS_DRAFT;
    mk_csr "pmpcfg5" 0x3a5 CSR_CLASS_I_32 PRIV_SPEC_CLASS_1P12 PRIV_SPEC_CLASS_DRAFT;
    mk_csr "pmpcfg6" 0x3a6 CSR_CLASS_I PRIV_SPEC_CLASS_1P12 PRIV_SPEC_CLASS_DRAFT;
    mk_csr "pmpcfg7" 0x3a7 CSR_CLASS_I_32 PRIV_SPEC_CLASS_1P12 PRIV_SPEC_CLASS_DRAFT;
    mk_csr "pmpcfg8" 0x3a8 CSR_CLASS_I PRIV_SPEC_CLASS_1P12 PRIV_SPEC_CLASS_DRAFT;
    mk_csr "pmpcfg9" 0x3a9 CSR_CLASS_I_32 PRIV_SPEC_CLASS_1P12 PRIV_SPEC_CLASS_DRAFT;
    mk_csr "pmpcfg10" 0x3aa CSR_CLASS_I PRIV_SPEC_CLASS_1P12 PRIV_SPEC_CLASS_DRAFT;
    mk_csr "pmpcfg11" 0x3ab CSR_CLASS_I_32 PRIV_SPEC_CLASS_1P12 PRIV_SPEC_CLASS_DRAFT;
    mk_csr "pmpcfg12" 0x3ac CSR_CLASS_I PRIV_SPEC_CLASS_1P12 PRIV_SPEC_CLASS_DRAFT;
    mk_csr "pmpcfg13" 0x3ad CSR_CLASS_I_32 PRIV_SPEC_CLASS_1P12 PRIV_SPEC_CLASS_DRAFT;
    mk_csr "pmpcfg14" 0x3ae CSR_CLASS_I PRIV_SPEC_CLASS_1P12 PRIV_SPEC_CLASS_DRAFT;
    mk_csr "pmpcfg15" 0x3af CSR_CLASS_I_32 PRIV_SPEC_CLASS_1P12 PRIV_SPEC_CLASS_DRAFT;
    mk_csr "pmpaddr0" 0x3b0 CSR_CLASS_I PRIV_SPEC_CLASS_1P10 PRIV_SPEC_CLASS_DRAFT;
    mk_csr "pmpaddr1" 0x3b1 CSR_CLASS_I PRIV_SPEC_CLASS_1P10 PRIV_SPEC_CLASS_DRAFT;
    mk_csr "pmpaddr2" 0x3b2 CSR_CLASS_I PRIV_SPEC_CLASS_1P10 PRIV_SPEC_CLASS_DRAFT;
    mk_csr "pmpaddr3" 0x3b3 CSR_CLASS_I PRIV_SPEC_CLASS_1P10 PRIV_SPEC_CLASS_DRAFT;
    mk_csr "pmpaddr4" 0x3b4 CSR_CLASS_I PRIV_SPEC_CLASS_1P10 PRIV_SPEC_CLASS_DRAFT;
    mk_csr "pmpaddr5" 0x3b5 CSR_CLASS_I PRIV_SPEC_CLASS_1P10 PRIV_SPEC_CLASS_DRAFT;
    mk_csr "pmpaddr6" 0x3b6 CSR_CLASS_I PRIV_SPEC_CLASS_1P10 PRIV_SPEC_CLASS_DRAFT;
    mk_csr "pmpaddr7" 0x3b7 CSR_CLASS_I PRIV_SPEC_CLASS_1P10 PRIV_SPEC_CLASS_DRAFT;
    mk_csr "pmpaddr8" 0x3b8 CSR_CLASS_I PRIV_SPEC_CLASS_1P10 PRIV_SPEC_CLASS_DRAFT;
    mk_csr "pmpaddr9" 0x3b9 CSR_CLASS_I PRIV_SPEC_CLASS_1P10 PRIV_SPEC_CLASS_DRAFT;
    mk_csr "pmpaddr10" 0x3ba CSR_CLASS_I PRIV_SPEC_CLASS_1P10 PRIV_SPEC_CLASS_DRAFT;
    mk_csr "pmpaddr11" 0x3bb CSR_CLASS_I PRIV_SPEC_CLASS_1P10 PRIV_SPEC_CLASS_DRAFT;
    mk_csr "pmpaddr12" 0x3bc CSR_CLASS_I PRIV_SPEC_CLASS_1P10 PRIV_SPEC_CLASS_DRAFT;
    mk_csr "pmpaddr13" 0x3bd CSR_CLASS_I PRIV_SPEC_CLASS_1P10 PRIV_SPEC_CLASS_DRAFT;
    mk_csr "pmpaddr14" 0x3be CSR_CLASS_I PRIV_SPEC_CLASS_1P10 PRIV_SPEC_CLASS_DRAFT;
    mk_csr "pmpaddr15" 0x3bf CSR_CLASS_I PRIV_SPEC_CLASS_1P10 PRIV_SPEC_CLASS_DRAFT;
    mk_csr "pmpaddr16" 0x3c0 CSR_CLASS_I PRIV_SPEC_CLASS_1P12 PRIV_SPEC_CLASS_DRAFT;
    mk_csr "pmpaddr17" 0x3c1 CSR_CLASS_I PRIV_SPEC_CLASS_1P12 PRIV_SPEC_CLASS_DRAFT;
    mk_csr "pmpaddr18" 0x3c2 CSR_CLASS_I PRIV_SPEC_CLASS_1P12 PRIV_SPEC_CLASS_DRAFT;
    mk_csr "pmpaddr19" 0x3c3 CSR_CLASS_I PRIV_SPEC_CLASS_1P12 PRIV_SPEC_CLASS_DRAFT;
    mk_csr "pmpaddr20" 0x3c4 CSR_CLASS_I PRIV_SPEC_CLASS_1P12 PRIV_SPEC_CLASS_DRAFT;
    mk_csr "pmpaddr21" 0x3c5 CSR_CLASS_I PRIV_SPEC_CLASS_1P12 PRIV_SPEC_CLASS_DRAFT;
    mk_csr "pmpaddr22" 0x3c6 CSR_CLASS_I PRIV_SPEC_CLASS_1P12 PRIV_SPEC_CLASS_DRAFT;
    mk_csr "pmpaddr23" 0x3c7 CSR_CLASS_I PRIV_SPEC_CLASS_1P12 PRIV_SPEC_CLASS_DRAFT;
    mk_csr "pmpaddr24" 0x3c8 CSR_CLASS_I PRIV_SPEC_CLASS_1P12 PRIV_SPEC_CLASS_DRAFT;
    mk_csr "pmpaddr25" 0x3c9 CSR_CLASS_I PRIV_SPEC_CLASS_1P12 PRIV_SPEC_CLASS_DRAFT;
    mk_csr "pmpaddr26" 0x3ca CSR_CLASS_I PRIV_SPEC_CLASS_1P12 PRIV_SPEC_CLASS_DRAFT;
    mk_csr "pmpaddr27" 0x3cb CSR_CLASS_I PRIV_SPEC_CLASS_1P12 PRIV_SPEC_CLASS_DRAFT;
    mk_csr "pmpaddr28" 0x3cc CSR_CLASS_I PRIV_SPEC_CLASS_1P12 PRIV_SPEC_CLASS_DRAFT;
    mk_csr "pmpaddr29" 0x3cd CSR_CLASS_I PRIV_SPEC_CLASS_1P12 PRIV_SPEC_CLASS_DRAFT;
    mk_csr "pmpaddr30" 0x3ce CSR_CLASS_I PRIV_SPEC_CLASS_1P12 PRIV_SPEC_CLASS_DRAFT ]%string.

Definition csr_decls_2 : list csr_decl :=
  [ mk_csr "pmpaddr31" 0x3cf CSR_CLASS_I PRIV_SPEC_CLASS_1P12 PRIV_SPEC_CLASS_DRAFT;
    mk_csr "pmpaddr32" 0x3d0 CSR_CLASS_I PRIV_SPEC_CLASS_1P12 PRIV_SPEC_CLASS_DRAFT;
    mk_csr "pmpaddr33" 0x3d1 CSR_CLASS_I PRIV_SPEC_CLASS_1P12 PRIV_SPEC_CLASS_DRAFT;
    mk_csr "pmpaddr34" 0x3d2 CSR_CLASS_I PRIV_SPEC_CLASS_1P12 PRIV_SPEC_CLASS_DRAFT;
    mk_csr "pmpaddr35" 0x3d3 CSR_CLASS_I PRIV_SPEC_CLASS_1P12 PRIV_SPEC_CLASS_DRAFT;
    mk_csr "pmpaddr36" 0x3d4 CSR_CLASS_I PRIV_SPEC_CLASS_1P12 PRIV_SPEC_CLASS_DRAFT;
    mk_csr "pmpaddr37" 0x3d5 CSR_CLASS_I PRIV_SPEC_CLASS_1P12 PRIV_SPEC_CLASS_DRAFT;
    mk_csr "pmpaddr38" 0x3d6 CSR_CLASS_I PRIV_SPEC_CLASS_1P12 PRIV_SPEC_CLASS_DRAFT;
    mk_csr "pmpaddr39" 0x3d7 CSR_CLASS_I PRIV_SPEC_CLASS_1P12 PRIV_SPEC_CLASS_DRAFT;
    mk_csr "pmpaddr40" 0x3d8 CSR_CLASS_I PRIV_SPEC_CLASS_1P12 PRIV_SPEC_CLASS_DRAFT;
    mk_csr "pmpaddr41" 0x3d9 CSR_CLASS_I PRIV_SPEC_CLASS_1P12 PRIV_SPEC_CLASS_DRAFT;
    mk_csr "pmpaddr42" 0x3da CSR_CLASS_I PRIV_SPEC_CLASS_1P12 PRIV_SPEC_CLASS_DRAFT;
    mk_csr "pmpaddr43" 0x3db CSR_CLASS_I PRIV_SPEC_CLASS_1P12 PRIV_SPEC_CLASS_DRAFT;
    mk_csr "pmpaddr44" 0x3dc CSR_CLASS_I PRIV_SPEC_CLASS_1P12 PRIV_SPEC_CLASS_DRAFT;
    mk_csr "pmpaddr45" 0x3dd CSR_CLASS_I PRIV_SPEC_CLASS_1P12 PRIV_SPEC_CLASS_DRAFT;
    mk_csr "pmpaddr46" 0x3de CSR_CLASS_I PRIV_SPEC_CLASS_1P12 PRIV_SPEC_CLASS_DRAFT;
    mk_csr "pmpaddr47" 0x3df CSR_CLASS_I PRIV_SPEC_CLASS_1P12 PRIV_SPEC_CLASS_DRAFT;
    mk_csr "pmpaddr48" 0x3e0 CSR_CLASS_I PRIV_SPEC_CLASS_1P12 PRIV_SPEC_CLASS_DRAFT;
    mk_csr "pmpaddr49" 0x3e1 CSR_CLASS_I PRIV_SPEC_CLASS_1P12 PRIV_SPEC_CLASS_DRAFT;
    mk_csr "pmpaddr50" 0x3e2 CSR_CLASS_I PRIV_SPEC_CLASS_1P12 PRIV_SPEC_CLASS_DRAFT;
    mk_csr "pmpaddr51" 0x3e3 CSR_CLASS_I PRIV_SPEC_CLASS_1P12 PRIV_SPEC_CLASS_DRAFT;
    mk_csr "pmpaddr52" 0x3e4 CSR_CLASS_I PRIV_SPEC_CLASS_1P12 PRIV_SPEC_CLASS_DRAFT;
    mk_csr "pmpaddr53" 0x3e5 CSR_CLASS_I PRIV_SPEC_CLASS_1P12 PRIV_SPEC_CLASS_DRAFT;
    mk_csr "pmpaddr54" 0x3e6 CSR_CLASS_I PRIV_SPEC_CLASS_1P12 PRIV_SPEC_CLASS_DRAFT;
    mk_csr "pmpaddr55" 0x3e7 CSR_CLASS_I PRIV_SPEC_CLASS_1P12 PRIV_SPEC_CLASS_DRAFT;
    mk_csr "pmpaddr56" 0x3e8 CSR_CLASS_I PRIV_SPEC_CLASS_1P12 PRIV_SPEC_CLASS_DRAFT;
    mk_csr "pmpaddr57" 0x3e9 CSR_CLASS_I PRIV_SPEC_CLASS_1P12 PRIV_SPEC_CLASS_DRAFT;
    mk_csr "pmpaddr58" 0x3ea CSR_CLASS_I PRIV_SPEC_CLASS_1P12 PRIV_SPEC_CLASS_DRAFT;
    mk_csr "pmpaddr59" 0x3eb CSR_CLASS_I PRIV_SPEC_CLASS_1P12 PRIV_SPEC_CLASS_DRAFT;
    mk_csr "pmpaddr60" 0x3ec CSR_CLASS_I PRIV_SPEC_CLASS_1P12 PRIV_SPEC_CLASS_DRAFT;
    mk_csr "pmpaddr61" 0x3ed CSR_CLASS_I PRIV_SPEC_CLASS_1P12 PRIV_SPEC_CLASS_DRAFT;
    mk_csr "pmpaddr62" 0x3ee CSR_CLASS_I PRIV_SPEC_CLASS_1P12 PRIV_SPEC_CLASS_DRAFT;
    mk_csr "pmpaddr63" 0x3ef CSR_CLASS_I PRIV_SPEC_CLASS_1P12 PRIV_SPEC_CLASS_DRAFT;
    mk_csr "mcycle" 0xb00 CSR_CLASS_I PRIV_SPEC_CLASS_1P9P1 PRIV_SPEC_CLASS_DRAFT;
    mk_csr "minstret" 0xb02 CSR_CLASS_I PRIV_SPEC_CLASS_1P9P1 PRIV_SPEC_CLASS_DRAFT;
    mk_csr "mhpmcounter3" 0xb03 CSR_CLASS_I PRIV_SPEC_CLASS_1P9P1 PRIV_SPEC_CLASS_DRAFT;
    mk_csr "mhpmcounter4" 0xb04 CSR_CLASS_I PRIV_SPEC_CLASS_1P9P1 PRIV_SPEC_CLASS_DRAFT;
    mk_csr "mhpmcounter5" 0xb05 CSR_CLASS_I PRIV_SPEC_CLASS_1P9P1 PRIV_SPEC_CLASS_DRAFT;
    mk_csr "mhpmcounter6" 0xb06 CSR_CLASS_I PRIV_SPEC_CLASS_1P9P1 PRIV_SPEC_CLASS_DRAFT;
    mk_csr "mhpmcounter7" 0xb07 CSR_CLASS_I PRIV_SPEC_CLASS_1P9P1 PRIV_SPEC_CLASS_DRAFT;
    mk_csr "mhpmcounter8" 0xb08 CSR_CLASS_I PRIV_SPEC_CLASS_1P9P1 PRIV_SPEC_CLASS_DRAFT;
    mk_csr "mhpmcounter9" 0xb09 CSR_CLASS_I PRIV_SPEC_CLASS_1P9P1 PRIV_SPEC_CLASS_DRAFT;
    mk_csr "mhpmcounter10" 0xb0a CSR_CLASS_I PRIV_SPEC_CLASS_1P9P1 PRIV_SPEC_CLASS_DRAFT;
    mk_csr "mhpmcounter11" 0xb0b CSR_CLASS_I PRIV_SPEC_CLASS_1P9P1 PRIV_SPEC_CLASS_DRAFT;
    mk_csr "mhpmcounter12" 0xb0c CSR_CLASS_I PRIV_SPEC_CLASS_1P9P1 PRIV_SPEC_CLASS_DRAFT;
    mk_csr "mhpmcounter13" 0xb0d CSR_CLASS_I PRIV_SPEC_CLASS_1P9P1 PRIV_SPEC_CLASS_DRAFT;
    mk_csr "mhpmcounter14" 0xb0e CSR_CLASS_I PRIV_SPEC_CLASS_1P9P1 PRIV_SPEC_CLASS_DRAFT;
    mk_csr "mhpmcounter15" 0xb0f CSR_CLASS_I PRIV_SPEC_CLASS_1P9P1 PRIV_SPEC_CLASS_DRAFT;
    mk_csr "mhpmcounter16" 0xb10 CSR_CLASS_I PRIV_SPEC_CLASS_1P9P1 PRIV_SPEC_CLASS_DRAFT;
    mk_csr "mhpmcounter17" 0xb11 CSR_CLASS_I PRIV_SPEC_CLASS_1P9P1 PRIV_SPEC_CLASS_DRAFT;
    mk_csr "mhpmcounter18" 0xb12 CSR_CLASS_I PRIV_SPEC_CLASS_1P9P1 PRIV_SPEC_CLASS_DRAFT;
    mk_csr "mhpmcounter19" 0xb13 CSR_CLASS_I PRIV_SPEC_CLASS_1P9P1 PRIV_SPEC_CLASS_DRAFT;
    mk_csr "mhpmcounter20" 0xb14 CSR_CLASS_I PRIV_SPEC_CLASS_1P9P1 PRIV_SPEC_CLASS_DRAFT;
    mk_csr "mhpmcounter21" 0xb15 CSR_CLASS_I PRIV_SPEC_CLASS_1P9P1 PRIV_SPEC_CLASS_DRAFT;
    mk_csr "mhpmcounter22" 0xb16 CSR_CLASS_I PRIV_SPEC_CLASS_1P9P1 PRIV_SPEC_CLASS_DRAFT;
    mk_csr "mhpmcounter23" 0xb17 CSR_CLASS_I PRIV_SPEC_CLASS_1P9P1 PRIV_SPEC_CLASS_DRAFT;
    mk_csr "mhpmcounter24" 0xb18 CSR_CLASS_I PRIV_SPEC_CLASS_1P9P1 PRIV_SPEC_CLASS_DRAFT;
    mk_csr "mhpmcounter25" 0xb19 CSR_CLASS_I PRIV_SPEC_CLASS_1P9P1 PRIV_SPEC_CLASS_DRAFT;
    mk_csr "mhpmcounter26" 0xb1a CSR_CLASS_I PRIV_SPEC_CLASS_1P9P1 PRIV_SPEC_CLASS_DRAFT;
    mk_csr "mhpmcounter27" 0xb1b CSR_CLASS_I PRIV_SPEC_CLASS_1P9P1 PRIV_SPEC_CLASS_DRAFT;
    mk_csr "mhpmcounter28" 0xb1c CSR_CLASS_I PRIV_SPEC_CLASS_1P9P1 PRIV_SPEC_CLASS_DRAFT;
    mk_csr "mhpmcounter29" 0xb1d CSR_CLASS_I PRIV_SPEC_CLASS_1P9P1 PRIV_SPEC_CLASS_DRAFT;
    mk_csr "mhpmcounter30" 0xb1e CSR_CLASS_I PRIV_SPEC_CLASS_1P9P1 PRIV_SPEC_CLASS_DRAFT;
    mk_csr "mhpmcounter31" 0xb1f CSR_CLASS_I PRIV_SPEC_CLASS_1P9P1 PRIV_SPEC_CLASS_DRAFT;
    mk_csr "mcycleh" 0xb80 CSR_CLASS_I_32 PRIV_SPEC_CLASS_1P9P1 PRIV_SPEC_CLASS_DRAFT;
    mk_csr "minstreth" 0xb82 CSR_CLASS_I_32 PRIV_SPEC_CLASS_1P9P1 PRIV_SPEC_CLASS_DRAFT;
    mk_csr "mhpmcounter3h" 0xb83 CSR_CLASS_I_32 PRIV_SPEC_CLASS_1P9P1 PRIV_SPEC_CLASS_DRAFT;
    mk_csr "mhpmcounter4h" 0xb84 CSR_CLASS_I_32 PRIV_SPEC_CLASS_1P9P1 PRIV_SPEC_CLASS_DRAFT;
    mk_csr "mhpmcounter5h" 0xb85 CSR_CLASS_I_32 PRIV_SPEC_CLASS_1P9P1 PRIV_SPEC_CLASS_DRAFT;
    mk_csr "mhpmcounter6h" 0xb86 CSR_CLASS_I_32 PRIV_SPEC_CLASS_1P9P1 PRIV_SPEC_CLASS_DRAFT;
    mk_csr "mhpmcounter7h" 0xb87 CSR_CLASS_I_32 PRIV_SPEC_CLASS_1P9P1 PRIV_SPEC_CLASS_DRAFT;
    mk_csr "mhpmcounter8h" 0xb88 CSR_CLASS_I_32 PRIV_SPEC_CLASS_1P9P1 PRIV_SPEC_CLASS_DRAFT;
    mk_csr "mhpmcounter9h" 0xb89 CSR_CLASS_I_32 PRIV_SPEC_CLASS_1P9P1 PRIV_SPEC_CLASS_DRAFT;
    mk_csr "mhpmcounter10h" 0xb8a CSR_CLASS_I_32 PRIV_SPEC_CLASS_1P9P1 PRIV_SPEC_CLASS_DRAFT;
    mk_csr "mhpmcounter11h" 0xb8b CSR_CLASS_I_32 PRIV_SPEC_CLASS_1P9P1 PRIV_SPEC_CLASS_DRAFT;
    mk_csr "mhpmcounter12h" 0xb8c CSR_CLASS_I_32 PRIV_SPEC_CLASS_1P9P1 PRIV_SPEC_CLASS_DRAFT;
    mk_csr "mhpmcounter13h" 0xb8d CSR_CLASS_I_32 PRIV_SPEC_CLASS_1P9P1 PRIV_SPEC_CLASS_DRAFT;
    mk_csr "mhpmcounter14h" 0xb8e CSR_CLASS_I_32 PRIV_SPEC_CLASS_1P9P1 PRIV_SPEC_CLASS_DRAFT;
    mk_csr "mhpmcounter15h" 0xb8f CSR_CLASS_I_32 PRIV_SPEC_CLASS_1P9P1 PRIV_SPEC_CLASS_DRAFT;
    mk_csr "mhpmcounter16h" 0xb90 CSR_CLASS_I_32 PRIV_SPEC_CLASS_1P9P1 PRIV_SPEC_CLASS_DRAFT;
    mk_csr "mhpmcounter17h" 0xb91 CSR_CLASS_I_32 PRIV_SPEC_CLASS_1P9P1 PRIV_SPEC_CLASS_DRAFT;
    mk_csr "mhpmcounter18h" 0xb92 CSR_CLASS_I_32 PRIV_SPEC_CLASS_1P9P1 PRIV_SPEC_CLASS_DRAFT;
    mk_csr "mhpmcounter19h" 0xb93 CSR_CLASS_I_32 PRIV_SPEC_CLASS_1P9P1 PRIV_SPEC_CLASS_DRAFT;
    mk_csr "mhpmcounter20h" 0xb94 CSR_CLASS_I_32 PRIV_SPEC_CLASS_1P9P1 PRIV_SPEC_CLASS_DRAFT;
    mk_csr "mhpmcounter21h" 0xb95 CSR_CLASS_I_32 PRIV_SPEC_CLASS_1P9P1 PRIV_SPEC_CLASS_DRAFT;
    mk_csr "mhpmcounter22h" 0xb96 CSR_CLASS_I_32 PRIV_SPEC_CLASS_1P9P1 PRIV_SPEC_CLASS_DRAFT;
    mk_csr "mhpmcounter23h" 0xb97 CSR_CLASS_I_32 PRIV_SPEC_CLASS_1P9P1 PRIV_SPEC_CLASS_DRAFT;
    mk_csr "mhpmcounter24h" 0xb98 CSR_CLASS_I_32 PRIV_SPEC_CLASS_1P9P1 PRIV_SPEC_CLASS_DRAFT;
    mk_csr "mhpmcounter25h" 0xb99 CSR_CLASS_I_32 PRIV_SPEC_CLASS_1P9P1 PRIV_SPEC_CLASS_DRAFT;
    mk_csr "mhpmcounter26h" 0xb9a CSR_CLASS_I_32 PRIV_SPEC_CLASS_1P9P1 PRIV_SPEC_CLASS_DRAFT;
    mk_csr "mhpmcounter27h" 0xb9b CSR_CLASS_I_32 PRIV_SPEC_CLASS_1P9P1 PRIV_SPEC_CLASS_DRAFT;
    mk_csr "mhpmcounter28h" 0xb9c CSR_CLASS_I_32 PRIV_SPEC_CLASS_1P9P1 PRIV_SPEC_CLASS_DRAFT;
    mk_csr "mhpmcounter29h" 0xb9d CSR_CLASS_I_32 PRIV_SPEC_CLASS_1P9P1 PRIV_SPEC_CLASS_DRAFT;
    mk_csr "mhpmcounter30h" 0xb9e CSR_CLASS_I_32 PRIV_SPEC_CLASS_1P9P1 PRIV_SPEC_CLASS_DRAFT;
    mk_csr "mhpmcounter31h" 0xb9f CSR_CLASS_I_32 PRIV_SPEC_CLASS_1P9P1 PRIV_SPEC_CLASS_DRAFT;
    mk_csr "mcountinhibit" 0x320 CSR_CLASS_I PRIV_SPEC_CLASS_1P11 PRIV_SPEC_CLASS_DRAFT;
    mk_csr "mhpmevent3" 0x323 CSR_CLASS_I PRIV_SPEC_CLASS_1P9P1 PRIV_SPEC_CLASS_DRAFT;
    mk_csr "mhpmevent4" 0x324 CSR_CLASS_I PRIV_SPEC_CLASS_1P9P1 PRIV_SPEC_CLASS_DRAFT;
    mk_csr "mhpmevent5" 0x325 CSR_CLASS_I PRIV_SPEC_CLASS_1P9P1 PRIV_SPEC_CLASS_DRAFT;
    mk_csr "mhpmevent6" 0x326 CSR_CLASS_I PRIV_SPEC_CLASS_1P9P1 PRIV_SPEC_CLASS_DRAFT;
    mk_csr "mhpmevent7" 0x327 CSR_CLASS_I PRIV_SPEC_CLASS_1P9P1 PRIV_SPEC_CLASS_DRAFT;
    mk_csr "mhpmevent8" 0x328 CSR_CLASS_I PRIV_SPEC_CLASS_1P9P1 PRIV_SPEC_CLASS_DRAFT;
    mk_csr "mhpmevent9" 0x329 CSR_CLASS_I PRIV_SPEC_CLASS_1P9P1 PRIV_SPEC_CLASS_DRAFT;
    mk_csr "mhpmevent10" 0x32a CSR_CLASS_I PRIV_SPEC_CLASS_1P9P1 PRIV_SPEC_CLASS_DRAFT;
    mk_csr "mhpmevent11" 0x32b CSR_CLASS_I PRIV_SPEC_CLASS_1P9P1 PRIV_SPEC_CLASS_DRAFT;
    mk_csr "mhpmevent12" 0x32c CSR_CLASS_I PRIV_SPEC_CLASS_1P9P1 PRIV_SPEC_CLASS_DRAFT;
    mk_csr "mhpmevent13" 0x32d CSR_CLASS_I PRIV_SPEC_CLASS_1P9P1 PRIV_SPEC_CLASS_DRAFT;
    mk_csr "mhpmevent14" 0x32e CSR_CLASS_I PRIV_SPEC_CLASS_1P9P1 PRIV_SPEC_CLASS_DRAFT;
    mk_csr "mhpmevent15" 0x32f CSR_CLASS_I PRIV_SPEC_CLASS_1P9P1 PRIV_SPEC_CLASS_DRAFT;
    mk_csr "mhpmevent16" 0x330 CSR_CLASS_I PRIV_SPEC_CLASS_1P9P1 PRIV_SPEC_CLASS_DRAFT;
    mk_csr "mhpmevent17" 0x331 CSR_CLASS_I PRIV_SPEC_CLASS_1P9P1 PRIV_SPEC_CLASS_DRAFT;
    mk_csr "mhpmevent18" 0x332 CSR_CLASS_I PRIV_SPEC_CLASS_1P9P1 PRIV_SPEC_CLASS_DRAFT;
    mk_csr "mhpmevent19" 0x333 CSR_CLASS_I PRIV_SPEC_CLASS_1P9P1 PRIV_SPEC_CLASS_DRAFT;
    mk_csr "mhpmevent20" 0x334 CSR_CLASS_I PRIV_SPEC_CLASS_1P9P1 PRIV_SPEC_CLASS_DRAFT;
    mk_csr "mhpmevent21" 0x335 CSR_CLASS_I PRIV_SPEC_CLASS_1P9P1 PRIV_SPEC_CLASS_DRAFT;
    mk_csr "mhpmevent22" 0x336 CSR_CLASS_I PRIV_SPEC_CLASS_1P9P1 PRIV_SPEC_CLASS_DRAFT;
    mk_csr "mhpmevent23" 0x337 CSR_CLASS_I PRIV_SPEC_CLASS_1P9P1 PRIV_SPEC_CLASS_DRAFT;
    mk_csr "mhpmevent24" 0x338 CSR_CLASS_I PRIV_SPEC_CLASS_1P9P1 PRIV_SPEC_CLASS_DRAFT;
    mk_csr "mhpmevent25" 0x339 CSR_CLASS_I PRIV_SPEC_CLASS_1P9P1 PRIV_SPEC_CLASS_DRAFT;
    mk_csr "mhpmevent26" 0x33a CSR_CLASS_I PRIV_SPEC_CLASS_1P9P1 PRIV_SPEC_CLASS_DRAFT;
    mk_csr "mhpmevent27" 0x33b CSR_CLASS_I PRIV_SPEC_CLASS_1P9P1 PRIV_SPEC_CLASS_DRAFT;
    mk_csr "mhpmevent28" 0x33c CSR_CLASS_I PRIV_SPEC_CLASS_1P9P1 PRIV_SPEC_CLASS_DRAFT;
    mk_csr "mhpmevent29" 0x33d CSR_CLASS_I PRIV_SPEC_CLASS_1P9P1 PRIV_SPEC_CLASS_DRAFT;
    mk_csr "mhpmevent30" 0x33e CSR_CLASS_I PRIV_SPEC_CLASS_1P9P1 PRIV_SPEC_CLASS_DRAFT;
    mk_csr "mhpmevent31" 0x33f CSR_CLASS_I PRIV_SPEC_CLASS_1P9P1 PRIV_SPEC_CLASS_DRAFT;
    mk_csr "hstatus" 0x600 CSR_CLASS_H PRIV_SPEC_CLASS_NONE PRIV_SPEC_CLASS_NONE;
    mk_csr "hedeleg" 0x602 CSR_CLASS_H PRIV_SPEC_CLASS_NONE PRIV_SPEC_CLASS_NONE;
    mk_csr "hideleg" 0x603 CSR_CLASS_H PRIV_SPEC_CLASS_NONE PRIV_SPEC_CLASS_NONE;
    mk_csr "hie" 0x604 CSR_CLASS_H PRIV_SPEC_CLASS_NONE PRIV_SPEC_CLASS_NONE;
    mk_csr "hcounteren" 0x606 CSR_CLASS_H PRIV_SPEC_CLASS_NONE PRIV_SPEC_CLASS_NONE;
    mk_csr "hgeie" 0x607 CSR_CLASS_H PRIV_SPEC_CLASS_NONE PRIV_SPEC_CLASS_NONE;
    mk_csr "htval" 0x643 CSR_CLASS_H PRIV_SPEC_CLASS_NONE PRIV_SPEC_CLASS_NONE;
    mk_csr "hip" 0x644 CSR_CLASS_H PRIV_SPEC_CLASS_NONE PRIV_SPEC_CLASS_NONE;
    mk_csr "hvip" 0x645 CSR_CLASS_H PRIV_SPEC_CLASS_NONE PRIV_SPEC_CLASS_NONE;
    mk_csr "htinst" 0x64a CSR_CLASS_H PRIV_SPEC_CLASS_NONE PRIV_SPEC_CLASS_NONE;
    mk_csr "hgeip" 0xe12 CSR_CLASS_H PRIV_SPEC_CLASS_NONE PRIV_SPEC_CLASS_NONE;
    mk_csr "henvcfg" 0x60a CSR_CLASS_H PRIV_SPEC_CLASS_NONE PRIV_SPEC_CLASS_NONE;
    mk_csr "henvcfgh" 0x61a CSR_CLASS_H_32 PRIV_SPEC_CLASS_NONE PRIV_SPEC_CLASS_NONE;
    mk_csr "hgatp" 0x680 CSR_CLASS_H PRIV_SPEC_CLASS_NONE PRIV_SPEC_CLASS_NONE;
    mk_csr "htimedelta" 0x605 CSR_CLASS_H PRIV_SPEC_CLASS_NONE PRIV_SPEC_CLASS_NONE;
    mk_csr "htimedeltah" 0x615 CSR_CLASS_H_32 PRIV_SPEC_CLASS_NONE PRIV_SPEC_CLASS_NONE;
    mk_csr "vsstatus" 0x200 CSR_CLASS_H PRIV_SPEC_CLASS_NONE PRIV_SPEC_CLASS_NONE;
    mk_csr "vsie" 0x204 CSR_CLASS_H PRIV_SPEC_CLASS_NONE PRIV_SPEC_CLASS_NONE;
    mk_csr "vstvec" 0x205 CSR_CLASS_H PRIV_SPEC_CLASS_NONE PRIV_SPEC_CLASS_NONE;
    mk_csr "vsscratch" 0x240 CSR_CLASS_H PRIV_SPEC_CLASS_NONE PRIV_SPEC_CLASS_NONE;
    mk_csr "vsepc" 0x241 CSR_CLASS_H PRIV_SPEC_CLASS_NONE PRIV_SPEC_CLASS_NONE;
    mk_csr "vscause" 0x242 CSR_CLASS_H PRIV_SPEC_CLASS_NONE PRIV_SPEC_CLASS_NONE ]%string.

Definition csr_decls_3 : list csr_decl :=
  [ mk_csr "vstval" 0x243 CSR_CLASS_H PRIV_SPEC_CLASS_NONE PRIV_SPEC_CLASS_NONE;
    mk_csr "vsip" 0x244 CSR_CLASS_H PRIV_SPEC_CLASS_NONE PRIV_SPEC_CLASS_NONE;
    mk_csr "vsatp" 0x280 CSR_CLASS_H PRIV_SPEC_CLASS_NONE PRIV_SPEC_CLASS_NONE;
    mk_csr "miselect" 0x350 CSR_CLASS_SMAIA PRIV_SPEC_CLASS_NONE PRIV_SPEC_CLASS_NONE;
    mk_csr "mireg" 0x351 CSR_CLASS_SMAIA PRIV_SPEC_CLASS_NONE PRIV_SPEC_CLASS_NONE;
    mk_csr "mtopei" 0x35c CSR_CLASS_SMAIA PRIV_SPEC_CLASS_NONE PRIV_SPEC_CLASS_NONE;
    mk_csr "mtopi" 0xfb0 CSR_CLASS_SMAIA PRIV_SPEC_CLASS_NONE PRIV_SPEC_CLASS_NONE;
    mk_csr "mvien" 0x308 CSR_CLASS_SMAIA PRIV_SPEC_CLASS_NONE PRIV_SPEC_CLASS_NONE;
    mk_csr "mvip" 0x309 CSR_CLASS_SMAIA PRIV_SPEC_CLASS_NONE PRIV_SPEC_CLASS_NONE;
    mk_csr "midelegh" 0x313 CSR_CLASS_SMAIA_32 PRIV_SPEC_CLASS_NONE PRIV_SPEC_CLASS_NONE;
    mk_csr "mieh" 0x314 CSR_CLASS_SMAIA_32 PRIV_SPEC_CLASS_NONE PRIV_SPEC_CLASS_NONE;
    mk_csr "mvienh" 0x318 CSR_CLASS_SMAIA_32 PRIV_SPEC_CLASS_NONE PRIV_SPEC_CLASS_NONE;
    mk_csr "mviph" 0x319 CSR_CLASS_SMAIA_32 PRIV_SPEC_CLASS_NONE PRIV_SPEC_CLASS_NONE;
    mk_csr "miph" 0x354 CSR_CLASS_SMAIA_32 PRIV_SPEC_CLASS_NONE PRIV_SPEC_CLASS_NONE;
    mk_csr "mcyclecfg" 0x321 CSR_CLASS_SMCNTRPMF PRIV_SPEC_CLASS_1P10 PRIV_SPEC_CLASS_DRAFT;
    mk_csr "minstretcfg" 0x322 CSR_CLASS_SMCNTRPMF PRIV_SPEC_CLASS_1P10 PRIV_SPEC_CLASS_DRAFT;
    mk_csr "mcyclecfgh" 0x721 CSR_CLASS_SMCNTRPMF_32 PRIV_SPEC_CLASS_1P10 PRIV_SPEC_CLASS_DRAFT;
    mk_csr "minstretcfgh" 0x722 CSR_CLASS_SMCNTRPMF_32 PRIV_SPEC_CLASS_1P10 PRIV_SPEC_CLASS_DRAFT;
    mk_csr "mstateen0" 0x30c CSR_CLASS_SMSTATEEN PRIV_SPEC_CLASS_NONE PRIV_SPEC_CLASS_NONE;
    mk_csr "mstateen1" 0x30d CSR_CLASS_SMSTATEEN PRIV_SPEC_CLASS_NONE PRIV_SPEC_CLASS_NONE;
    mk_csr "mstateen2" 0x30e CSR_CLASS_SMSTATEEN PRIV_SPEC_CLASS_NONE PRIV_SPEC_CLASS_NONE;
    mk_csr "mstateen3" 0x30f CSR_CLASS_SMSTATEEN PRIV_SPEC_CLASS_NONE PRIV_SPEC_CLASS_NONE;
    mk_csr "sstateen0" 0x10c CSR_CLASS_SSSTATEEN PRIV_SPEC_CLASS_NONE PRIV_SPEC_CLASS_NONE;
    mk_csr "sstateen1" 0x10d CSR_CLASS_SSSTATEEN PRIV_SPEC_CLASS_NONE PRIV_SPEC_CLASS_NONE;
    mk_csr "sstateen2" 0x10e CSR_CLASS_SSSTATEEN PRIV_SPEC_CLASS_NONE PRIV_SPEC_CLASS_NONE;
    mk_csr "sstateen3" 0x10f CSR_CLASS_SSSTATEEN PRIV_SPEC_CLASS_NONE PRIV_SPEC_CLASS_NONE;
    mk_csr "hstateen0" 0x60c CSR_CLASS_SSSTATEEN_AND_H PRIV_SPEC_CLASS_NONE PRIV_SPEC_CLASS_NONE;
    mk_csr "hstateen1" 0x60d CSR_CLASS_SSSTATEEN_AND_H PRIV_SPEC_CLASS_NONE PRIV_SPEC_CLASS_NONE;
    mk_csr "hstateen2" 0x60e CSR_CLASS_SSSTATEEN_AND_H PRIV_SPEC_CLASS_NONE PRIV_SPEC_CLASS_NONE;
    mk_csr "hstateen3" 0x60f CSR_CLASS_SSSTATEEN_AND_H PRIV_SPEC_CLASS_NONE PRIV_SPEC_CLASS_NONE;
    mk_csr "mstateen0h" 0x31c CSR_CLASS_SMSTATEEN_32 PRIV_SPEC_CLASS_NONE PRIV_SPEC_CLASS_NONE;
    mk_csr "mstateen1h" 0x31d CSR_CLASS_SMSTATEEN_32 PRIV_SPEC_CLASS_NONE PRIV_SPEC_CLASS_NONE;
    mk_csr "mstateen2h" 0x31e CSR_CLASS_SMSTATEEN_32 PRIV_SPEC_CLASS_NONE PRIV_SPEC_CLASS_NONE;
    mk_csr "mstateen3h" 0x31f CSR_CLASS_SMSTATEEN_32 PRIV_SPEC_CLASS_NONE PRIV_SPEC_CLASS_NONE;
    mk_csr "hstateen0h" 0x61c CSR_CLASS_SSSTATEEN_AND_H_32 PRIV_SPEC_CLASS_NONE PRIV_SPEC_CLASS_NONE;
    mk_csr "hstateen1h" 0x61d CSR_CLASS_SSSTATEEN_AND_H_32 PRIV_SPEC_CLASS_NONE PRIV_SPEC_CLASS_NONE;
    mk_csr "hstateen2h" 0x61e CSR_CLASS_SSSTATEEN_AND_H_32 PRIV_SPEC_CLASS_NONE PRIV_SPEC_CLASS_NONE;
    mk_csr "hstateen3h" 0x61f CSR_CLASS_SSSTATEEN_AND_H_32 PRIV_SPEC_CLASS_NONE PRIV_SPEC_CLASS_NONE;
    mk_csr "siselect" 0x150 CSR_CLASS_SSAIA PRIV_SPEC_CLASS_NONE PRIV_SPEC_CLASS_NONE;
    mk_csr "sireg" 0x151 CSR_CLASS_SSAIA PRIV_SPEC_CLASS_NONE PRIV_SPEC_CLASS_NONE;
    mk_csr "stopei" 0x15c CSR_CLASS_SSAIA PRIV_SPEC_CLASS_NONE PRIV_SPEC_CLASS_NONE;
    mk_csr "stopi" 0xdb0 CSR_CLASS_SSAIA PRIV_SPEC_CLASS_NONE PRIV_SPEC_CLASS_NONE;
    mk_csr "sieh" 0x114 CSR_CLASS_SSAIA_32 PRIV_SPEC_CLASS_NONE PRIV_SPEC_CLASS_NONE;
    mk_csr "siph" 0x154 CSR_CLASS_SSAIA_32 PRIV_SPEC_CLASS_NONE PRIV_SPEC_CLASS_NONE;
    mk_csr "hvien" 0x608 CSR_CLASS_SSAIA_AND_H PRIV_SPEC_CLASS_NONE PRIV_SPEC_CLASS_NONE;
    mk_csr "hvictl" 0x609 CSR_CLASS_SSAIA_AND_H PRIV_SPEC_CLASS_NONE PRIV_SPEC_CLASS_NONE;
    mk_csr "hviprio1" 0x646 CSR_CLASS_SSAIA_AND_H PRIV_SPEC_CLASS_NONE PRIV_SPEC_CLASS_NONE;
    mk_csr "hviprio2" 0x647 CSR_CLASS_SSAIA_AND_H PRIV_SPEC_CLASS_NONE PRIV_SPEC_CLASS_NONE;
    mk_csr "vsiselect" 0x250 CSR_CLASS_SSAIA_AND_H PRIV_SPEC_CLASS_NONE PRIV_SPEC_CLASS_NONE;
    mk_csr "vsireg" 0x251 CSR_CLASS_SSAIA_AND_H PRIV_SPEC_CLASS_NONE PRIV_SPEC_CLASS_NONE;
    mk_csr "vstopei" 0x25c CSR_CLASS_SSAIA_AND_H PRIV_SPEC_CLASS_NONE PRIV_SPEC_CLASS_NONE;
    mk_csr "vstopi" 0xeb0 CSR_CLASS_SSAIA_AND_H PRIV_SPEC_CLASS_NONE PRIV_SPEC_CLASS_NONE;
    mk_csr "hidelegh" 0x613 CSR_CLASS_SSAIA_AND_H_32 PRIV_SPEC_CLASS_NONE PRIV_SPEC_CLASS_NONE;
    mk_csr "hvienh" 0x618 CSR_CLASS_SSAIA_AND_H_32 PRIV_SPEC_CLASS_NONE PRIV_SPEC_CLASS_NONE;
    mk_csr "hviph" 0x655 CSR_CLASS_SSAIA_AND_H_32 PRIV_SPEC_CLASS_NONE PRIV_SPEC_CLASS_NONE;
    mk_csr "hviprio1h" 0x656 CSR_CLASS_SSAIA_AND_H_32 PRIV_SPEC_CLASS_NONE PRIV_SPEC_CLASS_NONE;
    mk_csr "hviprio2h" 0x657 CSR_CLASS_SSAIA_AND_H_32 PRIV_SPEC_CLASS_NONE PRIV_SPEC_CLASS_NONE;
    mk_csr "vsieh" 0x214 CSR_CLASS_SSAIA_AND_H_32 PRIV_SPEC_CLASS_NONE PRIV_SPEC_CLASS_NONE;
    mk_csr "vsiph" 0x254 CSR_CLASS_SSAIA_AND_H_32 PRIV_SPEC_CLASS_NONE PRIV_SPEC_CLASS_NONE;
    mk_csr "scountovf" 0xda0 CSR_CLASS_SSCOFPMF PRIV_SPEC_CLASS_NONE PRIV_SPEC_CLASS_NONE;
    mk_csr "mhpmevent3h" 0x723 CSR_CLASS_SSCOFPMF_32 PRIV_SPEC_CLASS_NONE PRIV_SPEC_CLASS_NONE;
    mk_csr "mhpmevent4h" 0x724 CSR_CLASS_SSCOFPMF_32 PRIV_SPEC_CLASS_NONE PRIV_SPEC_CLASS_NONE;
    mk_csr "mhpmevent5h" 0x725 CSR_CLASS_SSCOFPMF_32 PRIV_SPEC_CLASS_NONE PRIV_SPEC_CLASS_NONE;
    mk_csr "mhpmevent6h" 0x726 CSR_CLASS_SSCOFPMF_32 PRIV_SPEC_CLASS_NONE PRIV_SPEC_CLASS_NONE;
    mk_csr "mhpmevent7h" 0x727 CSR_CLASS_SSCOFPMF_32 PRIV_SPEC_CLASS_NONE PRIV_SPEC_CLASS_NONE;
    mk_csr "mhpmevent8h" 0x728 CSR_CLASS_SSCOFPMF_32 PRIV_SPEC_CLASS_NONE PRIV_SPEC_CLASS_NONE;
    mk_csr "mhpmevent9h" 0x729 CSR_CLASS_SSCOFPMF_32 PRIV_SPEC_CLASS_NONE PRIV_SPEC_CLASS_NONE;
    mk_csr "mhpmevent10h" 0x72a CSR_CLASS_SSCOFPMF_32 PRIV_SPEC_CLASS_NONE PRIV_SPEC_CLASS_NONE;
    mk_csr "mhpmevent11h" 0x72b CSR_CLASS_SSCOFPMF_32 PRIV_SPEC_CLASS_NONE PRIV_SPEC_CLASS_NONE;
    mk_csr "mhpmevent12h" 0x72c CSR_CLASS_SSCOFPMF_32 PRIV_SPEC_CLASS_NONE PRIV_SPEC_CLASS_NONE;
    mk_csr "mhpmevent13h" 0x72d CSR_CLASS_SSCOFPMF_32 PRIV_SPEC_CLASS_NONE PRIV_SPEC_CLASS_NONE;
    mk_csr "mhpmevent14h" 0x72e CSR_CLASS_SSCOFPMF_32 PRIV_SPEC_CLASS_NONE PRIV_SPEC_CLASS_NONE;
    mk_csr "mhpmevent15h" 0x72f CSR_CLASS_SSCOFPMF_32 PRIV_SPEC_CLASS_NONE PRIV_SPEC_CLASS_NONE;
    mk_csr "mhpmevent16h" 0x730 CSR_CLASS_SSCOFPMF_32 PRIV_SPEC_CLASS_NONE PRIV_SPEC_CLASS_NONE;
    mk_csr "mhpmevent17h" 0x731 CSR_CLASS_SSCOFPMF_32 PRIV_SPEC_CLASS_NONE PRIV_SPEC_CLASS_NONE;
    mk_csr "mhpmevent18h" 0x732 CSR_CLASS_SSCOFPMF_32 PRIV_SPEC_CLASS_NONE PRIV_SPEC_CLASS_NONE;
    mk_csr "mhpmevent19h" 0x733 CSR_CLASS_SSCOFPMF_32 PRIV_SPEC_CLASS_NONE PRIV_SPEC_CLASS_NONE;
    mk_csr "mhpmevent20h" 0x734 CSR_CLASS_SSCOFPMF_32 PRIV_SPEC_CLASS_NONE PRIV_SPEC_CLASS_NONE;
    mk_csr "mhpmevent21h" 0x735 CSR_CLASS_SSCOFPMF_32 PRIV_SPEC_CLASS_NONE PRIV_SPEC_CLASS_NONE;
    mk_csr "mhpmevent22h" 0x736 CSR_CLASS_SSCOFPMF_32 PRIV_SPEC_CLASS_NONE PRIV_SPEC_CLASS_NONE;
    mk_csr "mhpmevent23h" 0x737 CSR_CLASS_SSCOFPMF_32 PRIV_SPEC_CLASS_NONE PRIV_SPEC_CLASS_NONE;
    mk_csr "mhpmevent24h" 0x738 CSR_CLASS_SSCOFPMF_32 PRIV_SPEC_CLASS_NONE PRIV_SPEC_CLASS_NONE;
    mk_csr "mhpmevent25h" 0x739 CSR_CLASS_SSCOFPMF_32 PRIV_SPEC_CLASS_NONE PRIV_SPEC_CLASS_NONE;
    mk_csr "mhpmevent26h" 0x73a CSR_CLASS_SSCOFPMF_32 PRIV_SPEC_CLASS_NONE PRIV_SPEC_CLASS_NONE;
    mk_csr "mhpmevent27h" 0x73b CSR_CLASS_SSCOFPMF_32 PRIV_SPEC_CLASS_NONE PRIV_SPEC_CLASS_NONE;
    mk_csr "mhpmevent28h" 0x73c CSR_CLASS_SSCOFPMF_32 PRIV_SPEC_CLASS_NONE PRIV_SPEC_CLASS_NONE;
    mk_csr "mhpmevent29h" 0x73d CSR_CLASS_SSCOFPMF_32 PRIV_SPEC_CLASS_NONE PRIV_SPEC_CLASS_NONE;
    mk_csr "mhpmevent30h" 0x73e CSR_CLASS_SSCOFPMF_32 PRIV_SPEC_CLASS_NONE PRIV_SPEC_CLASS_NONE;
    mk_csr "mhpmevent31h" 0x73f CSR_CLASS_SSCOFPMF_32 PRIV_SPEC_CLASS_NONE PRIV_SPEC_CLASS_NONE;
    mk_csr "stimecmp" 0x14d CSR_CLASS_SSTC PRIV_SPEC_CLASS_NONE PRIV_SPEC_CLASS_NONE;
    mk_csr "stimecmph" 0x15d CSR_CLASS_SSTC_32 PRIV_SPEC_CLASS_NONE PRIV_SPEC_CLASS_NONE;
    mk_csr "vstimecmp" 0x24d CSR_CLASS_SSTC_AND_H PRIV_SPEC_CLASS_NONE PRIV_SPEC_CLASS_NONE;
    mk_csr "vstimecmph" 0x25d CSR_CLASS_SSTC_AND_H_32 PRIV_SPEC_CLASS_NONE PRIV_SPEC_CLASS_NONE;
    mk_csr "mbase" 0x380 CSR_CLASS_I PRIV_SPEC_CLASS_1P9P1 PRIV_SPEC_CLASS_1P10;
    mk_csr "mbound" 0x381 CSR_CLASS_I PRIV_SPEC_CLASS_1P9P1 PRIV_SPEC_CLASS_1P10;
    mk_csr "mibase" 0x382 CSR_CLASS_I PRIV_SPEC_CLASS_1P9P1 PRIV_SPEC_CLASS_1P10;
    mk_csr "mibound" 0x383 CSR_CLASS_I PRIV_SPEC_CLASS_1P9P1 PRIV_SPEC_CLASS_1P10;
    mk_csr "mdbase" 0x384 CSR_CLASS_I PRIV_SPEC_CLASS_1P9P1 PRIV_SPEC_CLASS_1P10;
    mk_csr "mdbound" 0x385 CSR_CLASS_I PRIV_SPEC_CLASS_1P9P1 PRIV_SPEC_CLASS_1P10;
    mk_csr "ustatus" 0x0 CSR_CLASS_I PRIV_SPEC_CLASS_1P9P1 PRIV_SPEC_CLASS_1P12;
    mk_csr "uie" 0x4 CSR_CLASS_I PRIV_SPEC_CLASS_1P9P1 PRIV_SPEC_CLASS_1P12;
    mk_csr "utvec" 0x5 CSR_CLASS_I PRIV_SPEC_CLASS_1P9P1 PRIV_SPEC_CLASS_1P12;
    mk_csr "uscratch" 0x40 CSR_CLASS_I PRIV_SPEC_CLASS_1P9P1 PRIV_SPEC_CLASS_1P12;
    mk_csr "uepc" 0x41 CSR_CLASS_I PRIV_SPEC_CLASS_1P9P1 PRIV_SPEC_CLASS_1P12;
    mk_csr "ucause" 0x42 CSR_CLASS_I PRIV_SPEC_CLASS_1P9P1 PRIV_SPEC_CLASS_1P12;
    mk_csr "utval" 0x43 CSR_CLASS_I PRIV_SPEC_CLASS_1P10 PRIV_SPEC_CLASS_1P12;
    mk_csr "uip" 0x44 CSR_CLASS_I PRIV_SPEC_CLASS_1P9P1 PRIV_SPEC_CLASS_1P12;
    mk_csr "sedeleg" 0x102 CSR_CLASS_I PRIV_SPEC_CLASS_1P9P1 PRIV_SPEC_CLASS_1P12;
    mk_csr "sideleg" 0x103 CSR_CLASS_I PRIV_SPEC_CLASS_1P9P1 PRIV_SPEC_CLASS_1P12;
    mk_csr "fflags" 0x1 CSR_CLASS_F PRIV_SPEC_CLASS_NONE PRIV_SPEC_CLASS_NONE;
    mk_csr "frm" 0x2 CSR_CLASS_F PRIV_SPEC_CLASS_NONE PRIV_SPEC_CLASS_NONE;
    mk_csr "fcsr" 0x3 CSR_CLASS_F PRIV_SPEC_CLASS_NONE PRIV_SPEC_CLASS_NONE;
    mk_csr "dcsr" 0x7b0 CSR_CLASS_DEBUG PRIV_SPEC_CLASS_NONE PRIV_SPEC_CLASS_NONE;
    mk_csr "dpc" 0x7b1 CSR_CLASS_DEBUG PRIV_SPEC_CLASS_NONE PRIV_SPEC_CLASS_NONE;
    mk_csr "dscratch0" 0x7b2 CSR_CLASS_DEBUG PRIV_SPEC_CLASS_NONE PRIV_SPEC_CLASS_NONE;
    mk_csr "dscratch1" 0x7b3 CSR_CLASS_DEBUG PRIV_SPEC_CLASS_NONE PRIV_SPEC_CLASS_NONE;
    mk_csr "tselect" 0x7a0 CSR_CLASS_DEBUG PRIV_SPEC_CLASS_NONE PRIV_SPEC_CLASS_NONE;
    mk_csr "tdata1" 0x7a1 CSR_CLASS_DEBUG PRIV_SPEC_CLASS_NONE PRIV_SPEC_CLASS_NONE;
    mk_csr "tdata2" 0x7a2 CSR_CLASS_DEBUG PRIV_SPEC_CLASS_NONE PRIV_SPEC_CLASS_NONE;
    mk_csr "tdata3" 0x7a3 CSR_CLASS_DEBUG PRIV_SPEC_CLASS_NONE PRIV_SPEC_CLASS_NONE;
    mk_csr "tinfo" 0x7a4 CSR_CLASS_DEBUG PRIV_SPEC_CLASS_NONE PRIV_SPEC_CLASS_NONE;
    mk_csr "tcontrol" 0x7a5 CSR_CLASS_DEBUG PRIV_SPEC_CLASS_NONE PRIV_SPEC_CLASS_NONE;
    mk_csr "hcontext" 0x6a8 CSR_CLASS_DEBUG PRIV_SPEC_CLASS_NONE PRIV_SPEC_CLASS_NONE;
    mk_csr "scontext" 0x5a8 CSR_CLASS_DEBUG PRIV_SPEC_CLASS_NONE PRIV_SPEC_CLASS_NONE;
    mk_csr "mcontext" 0x7a8 CSR_CLASS_DEBUG PRIV_SPEC_CLASS_NONE PRIV_SPEC_CLASS_NONE;
    mk_csr "mscontext" 0x7aa CSR_CLASS_DEBUG PRIV_SPEC_CLASS_NONE PRIV_SPEC_CLASS_NONE;
    mk_csr "seed" 0x015 CSR_CLASS_ZKR PRIV_SPEC_CLASS_NONE PRIV_SPEC_CLASS_NONE;
    mk_csr "vstart" 0x008 CSR_CLASS_V PRIV_SPEC_CLASS_NONE PRIV_SPEC_CLASS_NONE;
    mk_csr "vxsat" 0x009 CSR_CLASS_V PRIV_SPEC_CLASS_NONE PRIV_SPEC_CLASS_NONE;
    mk_csr "vxrm" 0x00a CSR_CLASS_V PRIV_SPEC_CLASS_NONE PRIV_SPEC_CLASS_NONE;
    mk_csr "vcsr" 0x00f CSR_CLASS_V PRIV_SPEC_CLASS_NONE PRIV_SPEC_CLASS_NONE;
    mk_csr "vl" 0xc20 CSR_CLASS_V PRIV_SPEC_CLASS_NONE PRIV_SPEC_CLASS_NONE;
    mk_csr "vtype" 0xc21 CSR_CLASS_V PRIV_SPEC_CLASS_NONE PRIV_SPEC_CLASS_NONE;
    mk_csr "vlenb" 0xc22 CSR_CLASS_V PRIV_SPEC_CLASS_NONE PRIV_SPEC_CLASS_NONE ]%string.

Definition csr_aliases : list csr_decl :=
  [ mk_csr "ubadaddr" 0x43 CSR_CLASS_I PRIV_SPEC_CLASS_1P9P1 PRIV_SPEC_CLASS_1P10;
    mk_csr "sbadaddr" 0x143 CSR_CLASS_I PRIV_SPEC_CLASS_1P9P1 PRIV_SPEC_CLASS_1P10;
    mk_csr "sptbr" 0x180 CSR_CLASS_I PRIV_SPEC_CLASS_1P9P1 PRIV_SPEC_CLASS_1P10;
    mk_csr "mbadaddr" 0x343 CSR_CLASS_I PRIV_SPEC_CLASS_1P9P1 PRIV_SPEC_CLASS_1P10;
    mk_csr "mucounteren" 0x320 CSR_CLASS_I PRIV_SPEC_CLASS_1P9P1 PRIV_SPEC_CLASS_1P10;
    mk_csr "mscounteren" 0x321 CSR_CLASS_I PRIV_SPEC_CLASS_1P9P1 PRIV_SPEC_CLASS_1P10;
    mk_csr "mhcounteren" 0x322 CSR_CLASS_I PRIV_SPEC_CLASS_1P9P1 PRIV_SPEC_CLASS_1P10;
    mk_csr "dscratch" 0x7b2 CSR_CLASS_DEBUG PRIV_SPEC_CLASS_NONE PRIV_SPEC_CLASS_NONE;
    mk_csr "mcontrol" 0x7a1 CSR_CLASS_DEBUG PRIV_SPEC_CLASS_NONE PRIV_SPEC_CLASS_NONE;
    mk_csr "mcontrol6" 0x7a1 CSR_CLASS_DEBUG PRIV_SPEC_CLASS_NONE PRIV_SPEC_CLASS_NONE;
    mk_csr "icount" 0x7a1 CSR_CLASS_DEBUG PRIV_SPEC_CLASS_NONE PRIV_SPEC_CLASS_NONE;
    mk_csr "itrigger" 0x7a1 CSR_CLASS_DEBUG PRIV_SPEC_CLASS_NONE PRIV_SPEC_CLASS_NONE;
    mk_csr "etrigger" 0x7a1 CSR_CLASS_DEBUG PRIV_SPEC_CLASS_NONE PRIV_SPEC_CLASS_NONE;
    mk_csr "tmexttrigger" 0x7a1 CSR_CLASS_DEBUG PRIV_SPEC_CLASS_NONE PRIV_SPEC_CLASS_NONE;
    mk_csr "textra32" 0x7a3 CSR_CLASS_DEBUG PRIV_SPEC_CLASS_NONE PRIV_SPEC_CLASS_NONE;
    mk_csr "textra64" 0x7a3 CSR_CLASS_DEBUG PRIV_SPEC_CLASS_NONE PRIV_SPEC_CLASS_NONE;
    mk_csr "th.vstart" 0x008 CSR_CLASS_XTHEADVECTOR PRIV_SPEC_CLASS_NONE PRIV_SPEC_CLASS_NONE;
    mk_csr "th.vxsat" 0x009 CSR_CLASS_XTHEADVECTOR PRIV_SPEC_CLASS_NONE PRIV_SPEC_CLASS_NONE;
    mk_csr "th.vxrm" 0x00a CSR_CLASS_XTHEADVECTOR PRIV_SPEC_CLASS_NONE PRIV_SPEC_CLASS_NONE;
    mk_csr "th.vl" 0xc20 CSR_CLASS_XTHEADVECTOR PRIV_SPEC_CLASS_NONE PRIV_SPEC_CLASS_NONE;
    mk_csr "th.vtype" 0xc21 CSR_CLASS_XTHEADVECTOR PRIV_SPEC_CLASS_NONE PRIV_SPEC_CLASS_NONE;
    mk_csr "th.vlenb" 0xc22 CSR_CLASS_XTHEADVECTOR PRIV_SPEC_CLASS_NONE PRIV_SPEC_CLASS_NONE ]%string.

Definition csr_decls : list csr_decl := csr_decls_1 ++ csr_decls_2 ++ csr_decls_3.
