(* ===== verification/Disasm.v ===== *)
(** * The disassembler (opcodes/riscv-dis.c)

    Selection of the opcode entry for an instruction word through the hash of
    its low bits, printing of its operands with the tracking of addresses
    built by lui/auipc, and the fall-back [.insn] line.

    What is printed is a list of [piece]s (the styles of the text are left
    out).  The globals the printing depends on are gathered in [dis_env]. *)
From Stdlib Require Import ZArith Bool Ascii Lia.
From stdpp Require Import base list strings.
From S2P Require Import Prelude OpcodeH RiscvH OpcodeMatch OpcodeTable SubsetTables Subset CsrTable.

#[local] Open Scope Z_scope.
#[local] Open Scope c_scope.

(** ** Opcode selection *)

Definition OP_HASH_IDX (i : Z) : Z :=
  i .& (if riscv_insn_length i =? 2 then 0x3 else OP_MASK FLD_OP).

(** [riscv_hash[idx]]: the table from its first entry with that index on. *)
Fixpoint riscv_hash (table : list riscv_opcode) (idx : Z) : option (list riscv_opcode) :=
  match table with
  | [] => None
  | op :: table' => if OP_HASH_IDX (match_ op) =? idx then Some table else riscv_hash table' idx
  end.

(** The tests of the loop of [riscv_disassemble_insn] on one entry. *)
Definition dis_accepts (rps : riscv_parse_subset_t) (xlen : Z) (no_aliases : bool) (word : Z)
    (op : riscv_opcode) : bool :=
  negb (pinfo op =? INSN_MACRO)
  && match match_func op with Some f => call_match_func f op word | None => false end
  && negb (no_aliases && negb ((pinfo op .& INSN_ALIAS) =? 0))
  && negb (negb (xlen_requirement op =? 0) && negb (xlen_requirement op =? xlen))
  && riscv_multi_subset_supports rps (insn_class op).

Definition find_opcode (rps : riscv_parse_subset_t) (xlen : Z) (no_aliases : bool) (word : Z)
  : option riscv_opcode :=
  match riscv_hash riscv_opcodes (OP_HASH_IDX word) with
  | Some ops => List.find (dis_accepts rps xlen no_aliases word) ops
  | None => None
  end.

(** ** Operand printing *)

Inductive piece : Type :=
| P_text (s : string)          (* %s or %c *)
| P_dec (v : Z)                (* %d, %lu, %li *)
| P_hex (v : Z)                (* 0x%x *)
| P_float (v : Z * Z)          (* %a *)
| P_address (v : Z)            (* print_address_func *)
| P_null.                      (* a null pointer given to %s *)

Definition NO_ADDR : Z := 2 ^ 64 - 1.   (* (bfd_vma) -1 *)

Record riscv_private_data : Type := mk_pd {
  pd_gp : Z;
  print_addr : Z;
  hi_addr : list Z;
  to_print_addr : bool;
  has_gp : bool;
}.

(** The state of the loop: private data, [info->target] and what was printed. *)
Record dis_state : Type := mk_ds {
  ds_pd : riscv_private_data;
  target : Z;
  printed_pieces : list piece;
}.

Record dis_env : Type := mk_env {
  riscv_gpr_names : list string;
  riscv_fpr_names : list string;
  mach_riscv64 : bool;            (* info->mach == bfd_mach_riscv64 *)
  env_xlen : Z;
  env_rps : riscv_parse_subset_t;
  default_priv_spec : riscv_spec_class;
}.

(** A read of an array of names. *)
Definition name_at (names : list string) (i : Z) : piece :=
  match names !! Z.to_nat i with Some s => P_text s | None => P_null end.

Definition arg_print (val : Z) (array : list (option string)) : piece :=
  match array !! Z.to_nat val with
  | Some (Some s) => P_text s
  | _ => P_text "unknown"
  end.

Definition maybe_print_address (xlen : Z) (pd : riscv_private_data) (base_reg offset : Z)
    (wide : bool) : riscv_private_data :=
  let hi := default NO_ADDR (hi_addr pd !! Z.to_nat base_reg) in
  let r :=
    if negb (hi =? NO_ADDR) then
      Some (u64 ((if negb (base_reg =? 0) then hi else 0) + offset),
            <[Z.to_nat base_reg := NO_ADDR]> (hi_addr pd))
    else if (base_reg =? X_GP) && has_gp pd then Some (u64 (pd_gp pd + offset), hi_addr pd)
    else if (base_reg =? X_TP) || (base_reg =? 0) then Some (u64 offset, hi_addr pd)
    else None in
  match r with
  | None => pd
  | Some (addr, his) =>
      let addr := if wide then u64 (s32 addr) else addr in
      let addr := if xlen =? 32 then u32 addr else addr in
      mk_pd (pd_gp pd) addr his true (has_gp pd)
  end.

(** The hash of CSR names for the current privileged specification. *)
Definition csr_visible (spec : riscv_spec_class) (d : csr_decl) : bool :=
  (bool_decide (csr_define d = PRIV_SPEC_CLASS_NONE)
   && bool_decide (csr_abort d = PRIV_SPEC_CLASS_NONE))
  || ((spec_value (csr_define d) <=? spec_value spec) && (spec_value spec <? spec_value (csr_abort d))).

Definition riscv_csr_hash (spec : riscv_spec_class) (num : Z) : option string :=
  let spec := if decide (spec = PRIV_SPEC_CLASS_NONE) then PRIV_SPEC_CLASS_1P12 else spec in
  csr_name <$> List.find (fun d => (csr_num d =? num) && csr_visible spec d)
                 (csr_decls ++ csr_aliases).

Definition print_csr (env : dis_env) (csr : Z) : piece :=
  match riscv_csr_hash (default_priv_spec env) csr with
  | Some s =>
      if riscv_subset_supports (env_rps env) "xtheadvector"
         && existsb (Z.eqb csr) [CSR_VSTART; CSR_VXSAT; CSR_VXRM; CSR_VL; CSR_VTYPE; CSR_VLENB]
      then P_text (String.append "th." s)
      else P_text s
  | None => P_hex csr
  end.

(** What one operand prints: the rest of the operand string and the new
    state; [None] is the jump to [undefined_modifier]. *)
Definition arg_result : Type := option (list ascii * dis_state).

Definition put (st : dis_state) (ps : list piece) : dis_state :=
  mk_ds (ds_pd st) (target st) (printed_pieces st ++ ps).
Definition set_pd (st : dis_state) (pd : riscv_private_data) : dis_state :=
  mk_ds pd (target st) (printed_pieces st).
Definition put_target (st : dis_state) (v : Z) : dis_state :=
  mk_ds (ds_pd st) v (printed_pieces st ++ [P_address v]).
Definition set_hi (pd : riscv_private_data) (rd v : Z) : riscv_private_data :=
  mk_pd (pd_gp pd) (print_addr pd) (<[Z.to_nat rd := v]> (hi_addr pd)) (to_print_addr pd) (has_gp pd).

(** A vtype immediate, by its parts if they are all known: [case 'b'/'c']. *)
Definition print_vtype (imm : Z) : piece * list piece :=
  let vlmul := EXTRACT_OPERAND FLD_VLMUL imm in
  let vsew := EXTRACT_OPERAND FLD_VSEW imm in
  let vta := EXTRACT_OPERAND FLD_VTA imm in
  let vma := EXTRACT_OPERAND FLD_VMA imm in
  match riscv_vsew !! Z.to_nat vsew, riscv_vlmul !! Z.to_nat vlmul,
        riscv_vta !! Z.to_nat vta, riscv_vma !! Z.to_nat vma with
  | Some (Some sew), Some (Some lmul), Some (Some ta), Some (Some ma) =>
      if (imm >> 8) =? 0
      then (P_text sew, [P_text ","; P_text lmul; P_text ","; P_text ta; P_text ","; P_text ma])
      else (P_dec imm, [])
  | _, _, _, _ => (P_dec imm, [])
  end.

(** [case 'C'], compressed operands. *)
Definition print_rvc (env : dis_env) (l pc : Z) (p : list ascii) (st : dis_state) : arg_result :=
  let gpr i := name_at (riscv_gpr_names env) i in
  let fpr i := name_at (riscv_fpr_names env) i in
  let rd := EXTRACT_OPERAND FLD_RD l in
  match p with
  | "s"%char :: q | "w"%char :: q => Some (q, put st [gpr (EXTRACT_OPERAND FLD_CRS1S l + 8)])
  | "t"%char :: q | "x"%char :: q => Some (q, put st [gpr (EXTRACT_OPERAND FLD_CRS2S l + 8)])
  | "U"%char :: q => Some (q, put st [gpr rd])
  | "c"%char :: q => Some (q, put st [gpr X_SP])
  | "V"%char :: q => Some (q, put st [gpr (EXTRACT_OPERAND FLD_CRS2 l)])
  | "o"%char :: q | "j"%char :: q =>
      let imm := s32 (EXTRACT_CITYPE_IMM l) in
      let pd := ds_pd st in
      let pd := if ((l .& MASK_C_ADDI) =? MATCH_C_ADDI) && negb (rd =? 0)
                then maybe_print_address (env_xlen env) pd rd imm false else pd in
      let pd := if mach_riscv64 env && ((l .& MASK_C_ADDIW) =? MATCH_C_ADDIW) && negb (rd =? 0)
                then maybe_print_address (env_xlen env) pd rd imm true else pd in
      Some (q, put (set_pd st pd) [P_dec imm])
  | "k"%char :: q => Some (q, put st [P_dec (s32 (EXTRACT_CLTYPE_LW_IMM l))])
  | "l"%char :: q => Some (q, put st [P_dec (s32 (EXTRACT_CLTYPE_LD_IMM l))])
  | "m"%char :: q => Some (q, put st [P_dec (s32 (EXTRACT_CITYPE_LWSP_IMM l))])
  | "n"%char :: q => Some (q, put st [P_dec (s32 (EXTRACT_CITYPE_LDSP_IMM l))])
  | "K"%char :: q => Some (q, put st [P_dec (s32 (EXTRACT_CIWTYPE_ADDI4SPN_IMM l))])
  | "L"%char :: q => Some (q, put st [P_dec (s32 (EXTRACT_CITYPE_ADDI16SP_IMM l))])
  | "M"%char :: q => Some (q, put st [P_dec (s32 (EXTRACT_CSSTYPE_SWSP_IMM l))])
  | "N"%char :: q => Some (q, put st [P_dec (s32 (EXTRACT_CSSTYPE_SDSP_IMM l))])
  | "p"%char :: q => Some (q, put_target st (u64 (EXTRACT_CBTYPE_IMM l + pc)))
  | "a"%char :: q => Some (q, put_target st (u64 (EXTRACT_CJTYPE_IMM l + pc)))
  | "u"%char :: q => Some (q, put st [P_hex (u32 (EXTRACT_CITYPE_IMM l .& (RISCV_BIGIMM_REACH - 1)))])
  | ">"%char :: q => Some (q, put st [P_hex (u32 (EXTRACT_CITYPE_IMM l) .& 0x3f)])
  | "<"%char :: q => Some (q, put st [P_hex (u32 (EXTRACT_CITYPE_IMM l) .& 0x1f)])
  | "T"%char :: q => Some (q, put st [fpr (EXTRACT_OPERAND FLD_CRS2 l)])
  | "D"%char :: q => Some (q, put st [fpr (EXTRACT_OPERAND FLD_CRS2S l + 8)])
  | _ :: q => Some (q, st)
  | [] => Some ([], st)
  end.

(** [case 'V'], vector operands. *)
Definition print_rvv (env : dis_env) (l : Z) (p : list ascii) (st : dis_state) : arg_result :=
  let vec i := name_at riscv_vecr_names_numeric i in
  match p with
  | "d"%char :: q | "f"%char :: q => Some (q, put st [vec (EXTRACT_OPERAND FLD_VD l)])
  | "e"%char :: q =>
      Some (q, put st [if EXTRACT_OPERAND FLD_VWD l =? 0 then name_at (riscv_gpr_names env) 0
                       else vec (EXTRACT_OPERAND FLD_VD l)])
  | "s"%char :: q => Some (q, put st [vec (EXTRACT_OPERAND FLD_VS1 l)])
  | "t"%char :: q | "u"%char :: q | "v"%char :: q => Some (q, put st [vec (EXTRACT_OPERAND FLD_VS2 l)])
  | "0"%char :: q => Some (q, put st [vec 0])
  | "b"%char :: q => let '(a, b) := print_vtype (s32 (EXTRACT_RVV_VB_IMM l)) in Some (q, put st (a :: b))
  | "c"%char :: q => let '(a, b) := print_vtype (s32 (EXTRACT_RVV_VC_IMM l)) in Some (q, put st (a :: b))
  | "i"%char :: q => Some (q, put st [P_dec (s32 (EXTRACT_RVV_VI_IMM l))])
  | "j"%char :: q => Some (q, put st [P_dec (s32 (EXTRACT_RVV_VI_UIMM l))])
  | "k"%char :: q => Some (q, put st [P_dec (s32 (EXTRACT_RVV_OFFSET l))])
  | "l"%char :: q => Some (q, put st [P_dec (s32 (EXTRACT_RVV_VI_UIMM6 l))])
  | "m"%char :: q =>
      Some (q, if EXTRACT_OPERAND FLD_VMASK l =? 0
               then put st [P_text ","; name_at riscv_vecm_names_numeric 0] else st)
  | _ :: q => Some (q, st)
  | [] => Some ([], st)
  end.

(** [case 'W'], operands of the standard z extensions. *)
Definition print_w (l : Z) (p : list ascii) (st : dis_state) : arg_result :=
  let rs1 := EXTRACT_OPERAND FLD_RS1 l in
  match p with
  | "i"%char :: "f"%char :: q => Some (q, put st [P_dec (s32 (EXTRACT_STYPE_IMM l))])
  | "f"%char :: "v"%char :: q =>
      Some (q, put st [match riscv_fli_symval !! Z.to_nat rs1 with
                       | Some (Some s) => P_text s
                       | _ => P_float (default (0, 0) (riscv_fli_numval !! Z.to_nat rs1))
                       end])
  | "c"%char :: "b"%char :: q => Some (q, put st [P_dec (s32 (EXTRACT_ZCB_BYTE_UIMM l))])
  | "c"%char :: "h"%char :: q => Some (q, put st [P_dec (s32 (EXTRACT_ZCB_HALFWORD_UIMM l))])
  | _ => None
  end.

(** The T-Head vtype immediate; a reserved vsew gives a null name. *)
Definition print_th_vtype (imm : Z) : list piece :=
  let vediv := EXTRACT_OPERAND FLD_XTHEADVEDIV imm in
  let vlmul := EXTRACT_OPERAND FLD_XTHEADVLMUL imm in
  let vsew := EXTRACT_OPERAND FLD_XTHEADVSEW imm in
  let res := EXTRACT_OPERAND FLD_XTHEADVTYPE_RES imm in
  match riscv_vsew !! Z.to_nat vsew, riscv_th_vlen !! Z.to_nat vlmul,
        riscv_th_vediv !! Z.to_nat vediv with
  | Some sew, Some vlen, Some ediv =>
      if res =? 0 then
        let str (o : option string) := match o with Some s => P_text s | None => P_null end in
        [str sew; P_text ","; str vlen; P_text ","; str ediv]
      else [P_dec imm]
  | _, _, _ => [P_dec imm]
  end.

(** [print_imm:], an immediate N\@S. *)
Definition print_imm (sign : bool) (l : Z) (p : list ascii) (st : dis_state) : arg_result :=
  let '(n, p) := strtol10 p in
  match p with
  | "@"%char :: p =>
      let '(s, p) := strtol10 p in
      Some (p, put st [P_dec (if sign then s64 (EXTRACT_S_IMM n s l) else EXTRACT_U_IMM n s l)])
  | _ => None
  end.

(** [case 'X'], vendor operands. *)
Definition print_x (l : Z) (p : list ascii) (st : dis_state) : arg_result :=
  match p with
  | "t"%char :: "V"%char :: "c"%char :: q => Some (q, put st (print_th_vtype (s32 (EXTRACT_RVV_VC_IMM l))))
  | "t"%char :: "l"%char :: q =>
      let '(lit, q) := span_until [","%char] q in Some (q, put st (map (fun c => P_text (String c "")) lit))
  | "t"%char :: "s"%char :: q => print_imm true l q st
  | "t"%char :: "u"%char :: q => print_imm false l q st
  | "c"%char :: "2"%char :: q => Some (q, put st [P_dec (s32 (EXTRACT_CV_IS2_UIMM5 l))])
  | "c"%char :: "3"%char :: q => Some (q, put st [P_dec (s32 (EXTRACT_CV_IS3_UIMM5 l))])
  | "s"%char :: "d"%char :: q => Some (q, put st [P_hex (EXTRACT_OPERAND FLD_RD l)])
  | "s"%char :: "t"%char :: q => Some (q, put st [P_hex (EXTRACT_OPERAND FLD_RS2 l)])
  | "s"%char :: "O"%char :: "2"%char :: q => Some (q, put st [P_hex (EXTRACT_OPERAND FLD_XSO2 l)])
  | "s"%char :: "O"%char :: "1"%char :: q => Some (q, put st [P_hex (EXTRACT_OPERAND FLD_XSO1 l)])
  | "s"%char :: "O"%char :: _ :: q => Some (q, st)
  | "s"%char :: _ :: q => Some (q, st)
  | _ => None
  end.

(** The outer [switch], on the current letter. *)
Definition print_operand (env : dis_env) (l pc : Z) (p : list ascii) (st : dis_state) : arg_result :=
  let gpr i := name_at (riscv_gpr_names env) i in
  let fpr i := name_at (riscv_fpr_names env) i in
  let rs1 := EXTRACT_OPERAND FLD_RS1 l in
  let rd := EXTRACT_OPERAND FLD_RD l in
  let maybe (imm : Z) (wide : bool) (st : dis_state) :=
    set_pd st (maybe_print_address (env_xlen env) (ds_pd st) rs1 (s32 imm) wide) in
  (* [case 'j'], also reached by falling through from [case 'o'] *)
  let case_j (st : dis_state) :=
    let imm := EXTRACT_ITYPE_IMM l in
    let st := if (((l .& MASK_ADDI) =? MATCH_ADDI) && negb (rs1 =? 0))
                 || ((l .& MASK_JALR) =? MATCH_JALR) then maybe imm false st else st in
    let st := if mach_riscv64 env && ((l .& MASK_ADDIW) =? MATCH_ADDIW) && negb (rs1 =? 0)
              then maybe imm true st else st in
    put st [P_dec (s32 imm)] in
  match p with
  | "C"%char :: q => print_rvc env l pc q st
  | "V"%char :: q => print_rvv env l q st
  | ","%char :: q => Some (q, put st [P_text ","])
  | "("%char :: q => Some (q, put st [P_text "("])
  | ")"%char :: q => Some (q, put st [P_text ")"])
  | "["%char :: q => Some (q, put st [P_text "["])
  | "]"%char :: q => Some (q, put st [P_text "]"])
  | "0"%char :: q => Some (q, match q with [] => put st [P_text "0"] | _ => st end)
  | "s"%char :: q =>
      let st := if (l .& MASK_JALR) =? MATCH_JALR then maybe (EXTRACT_ITYPE_IMM l) false st else st in
      Some (q, put st [gpr rs1])
  | "t"%char :: q => Some (q, put st [gpr (EXTRACT_OPERAND FLD_RS2 l)])
  | "u"%char :: q => Some (q, put st [P_hex (u32 (EXTRACT_UTYPE_IMM l) >> RISCV_IMM_BITS)])
  | "m"%char :: q => Some (q, put st [arg_print (EXTRACT_OPERAND FLD_RM l) riscv_rm])
  | "P"%char :: q => Some (q, put st [arg_print (EXTRACT_OPERAND FLD_PRED l) riscv_pred_succ])
  | "Q"%char :: q => Some (q, put st [arg_print (EXTRACT_OPERAND FLD_SUCC l) riscv_pred_succ])
  | "o"%char :: q => Some (q, case_j (maybe (EXTRACT_ITYPE_IMM l) false st))
  | "j"%char :: q => Some (q, case_j st)
  | "q"%char :: q =>
      let imm := EXTRACT_STYPE_IMM l in Some (q, put (maybe imm false st) [P_dec (s32 imm)])
  | "a"%char :: q => Some (q, put_target st (u64 (EXTRACT_JTYPE_IMM l + pc)))
  | "p"%char :: q => Some (q, put_target st (u64 (EXTRACT_BTYPE_IMM l + pc)))
  | "d"%char :: q =>
      let pd := ds_pd st in
      let pd := if (l .& MASK_AUIPC) =? MATCH_AUIPC then set_hi pd rd (u64 (pc + EXTRACT_UTYPE_IMM l))
                else if (l .& MASK_LUI) =? MATCH_LUI then set_hi pd rd (EXTRACT_UTYPE_IMM l)
                else if (l .& MASK_C_LUI) =? MATCH_C_LUI then set_hi pd rd (EXTRACT_CITYPE_LUI_IMM l)
                else pd in
      Some (q, put (set_pd st pd) [gpr rd])
  | "y"%char :: q => Some (q, put st [P_hex (EXTRACT_OPERAND FLD_BS l)])
  | "z"%char :: q => Some (q, put st [gpr 0])
  | ">"%char :: q => Some (q, put st [P_hex (EXTRACT_OPERAND FLD_SHAMT l)])
  | "<"%char :: q => Some (q, put st [P_hex (EXTRACT_OPERAND FLD_SHAMTW l)])
  | "S"%char :: q | "U"%char :: q => Some (q, put st [fpr rs1])
  | "T"%char :: q => Some (q, put st [fpr (EXTRACT_OPERAND FLD_RS2 l)])
  | "D"%char :: q => Some (q, put st [fpr rd])
  | "R"%char :: q => Some (q, put st [fpr (EXTRACT_OPERAND FLD_RS3 l)])
  | "E"%char :: q => Some (q, put st [print_csr env (EXTRACT_OPERAND FLD_CSR l)])
  | "Y"%char :: q => Some (q, put st [P_hex (EXTRACT_OPERAND FLD_RNUM l)])
  | "Z"%char :: q => Some (q, put st [P_dec rs1])
  | "W"%char :: q => print_w l q st
  | "X"%char :: q => print_x l q st
  | _ => None
  end.

(** [undefined_modifier]: the letter the operand started with. *)
Definition undefined_modifier (p : list ascii) (st : dis_state) : dis_state :=
  put st [P_text "# internal error, undefined modifier (";
          P_text (String (head_char p) ""); P_text ")"].

(** The loop over the operands; [fuel] is the length of the string. *)
Fixpoint print_operands (fuel : nat) (env : dis_env) (l pc : Z) (p : list ascii) (st : dis_state)
  : dis_state :=
  match p, fuel with
  | [], _ | _, O => st
  | _ :: _, S fuel' =>
      match print_operand env l pc p st with
      | Some (q, st) => print_operands fuel' env l pc q st
      | None => undefined_modifier p st
      end
  end.

Definition print_insn_args (env : dis_env) (oparg : string) (l pc : Z) (st : dis_state) : dis_state :=
  let p := chars oparg in
  let st := match p with [] => st | _ => put st [P_text (String "009"%char "")] end in
  print_operands (length p) env l pc p st.

(** ** One instruction *)

Inductive dis_insn_type : Set :=
| dis_noninsn | dis_nonbranch | dis_branch | dis_condbranch | dis_jsr | dis_dref.

Definition insn_type_of (op : riscv_opcode) : dis_insn_type :=
  let t := pinfo op .& INSN_TYPE in
  if t =? INSN_BRANCH then dis_branch
  else if t =? INSN_CONDBRANCH then dis_condbranch
  else if t =? INSN_JSR then dis_jsr
  else if t =? INSN_DREF then dis_dref
  else dis_nonbranch.

Definition data_size_of (op : riscv_opcode) : Z :=
  let d := pinfo op .& INSN_DATA_SIZE in
  if d =? 0 then 0 else 1 << ((d >> INSN_DATA_SIZE_SHIFT) - 1).

(** Two bytes of the packet, little endian. *)
Definition parcel (packet : list Z) (i : Z) : Z :=
  default 0 (packet !! Z.to_nat i) + default 0 (packet !! Z.to_nat (i + 1)) * 256.

(** The loop that prints the parcels of an unknown instruction from the top,
    leaving out leading zero parcels; [n] parcels are left. *)
Fixpoint print_parcels (n : nat) (packet : list Z) (printed : bool) : list Z :=
  match n with
  | O => []
  | S n' =>
      let word := parcel packet (2 * Z.of_nat n') in
      if (word =? 0) && negb printed then print_parcels n' packet printed
      else word :: print_parcels n' packet true
  end.

(** What [riscv_disassemble_insn] does: the entry found with the state after
    printing, or the [.insn] line with its length and 16-bit parcels. *)
Inductive dis_output : Type :=
| dis_insn (op : riscv_opcode) (ty : dis_insn_type) (size : Z) (st : dis_state)
| dis_directive (len : Z) (parcels : list Z).

Definition riscv_disassemble_insn (env : dis_env) (no_aliases : bool) (pd : riscv_private_data)
    (memaddr word : Z) (packet : list Z) : dis_output * Z :=
  let insnlen := riscv_insn_length word in
  match find_opcode (env_rps env) (env_xlen env) no_aliases word with
  | Some op =>
      let st := print_insn_args env (args op) word memaddr (mk_ds pd 0 [P_text (name op)]) in
      let st := if to_print_addr (ds_pd st) then
                  let pd := ds_pd st in
                  mk_ds (mk_pd (pd_gp pd) (print_addr pd) (hi_addr pd) false (has_gp pd))
                    (print_addr pd)
                    (printed_pieces st ++ [P_text " # "; P_address (print_addr pd)])
                else st in
      (dis_insn op (insn_type_of op) (data_size_of op) st, insnlen)
  | None => (dis_directive insnlen (print_parcels (Z.to_nat (insnlen / 2)) packet false), insnlen)
  end.
