(* ===== verification/DisasmSpec.v ===== *)
(** * Properties of the disassembler

    The hash of the low bits loses no instruction, every operand string of the
    table is understood, and what is printed for reserved or unknown encodings. *)
From Stdlib Require Import ZArith Bool Ascii Lia.
From stdpp Require Import base list strings.
From S2P Require Import Prelude OpcodeH RiscvH OpcodeMatch OpcodeTable SubsetTables Subset.
From S2P Require Import CsrTable Disasm Words.

#[local] Open Scope Z_scope.
#[local] Open Scope c_scope.

(** ** The hash of the low bits *)

(** The entries the hash relies on: the fixed bits include those that give the
    length and the index. *)
Definition hash_ok (op : riscv_opcode) : bool :=
  (pinfo op =? INSN_MACRO)
  || match match_func op with
     | Some MF_match_rs1_nonzero | None => false
     | Some _ =>
         (negb ((match_ op .& 0x3) =? 0x3) && ((mask op .& 0x3) =? 0x3))
         || ((riscv_insn_length (match_ op) =? 4) && ((mask op .& 0x7f) =? 0x7f))
     end.

Lemma riscv_opcodes_hash_ok : forallb hash_ok riscv_opcodes = true.
Proof. vm_compute. reflexivity. Qed.

(** Every match function but [match_rs1_nonzero] tests the fixed bits. *)
Lemma match_func_opcode f op word :
  f <> MF_match_rs1_nonzero -> pinfo op <> INSN_MACRO ->
  call_match_func f op word = true -> match_opcode op word = true.
Proof.
  intros Hf Hp. apply Z.eqb_neq in Hp.
  destruct f; try done; cbn [call_match_func];
    unfold match_rs1_eq_rs2, match_c_add, match_c_lui, match_slli_as_c_slli, match_c_add_with_hint,
      match_c_nop, match_c_addi16sp, match_c_lui_with_hint, match_c_addi4spn, match_c_slli,
      match_c_slli64, match_srxi_as_c_srxi, match_vs1_eq_vs2, match_vd_eq_vs1_eq_vs2,
      match_th_load_inc, match_th_load_pair, match_rd_nonzero; rewrite ?Hp; cbn [orb];
    rewrite ?andb_true_iff; intros H; destruct_and?; assumption.
Qed.

(** Words with the fixed bits agree with the match value on any subset of them. *)
Lemma match_opcode_bits op word k :
  match_opcode op word = true -> mask op .& k = k -> word .& k = match_ op .& k.
Proof.
  unfold match_opcode. intros Hm Hk. apply Z.eqb_eq in Hm.
  apply Z.bits_inj'. intros i Hi. rewrite !Z.land_spec.
  apply (f_equal (fun x => Z.testbit x i)) in Hm, Hk.
  rewrite Z.land_spec, Z.lxor_spec, Z.bits_0 in Hm. rewrite Z.land_spec in Hk.
  destruct (Z.testbit word i), (Z.testbit (match_ op) i), (Z.testbit (mask op) i), (Z.testbit k i);
    done.
Qed.

Lemma hash_ok_idx op word f :
  hash_ok op = true -> pinfo op <> INSN_MACRO -> match_func op = Some f ->
  call_match_func f op word = true -> OP_HASH_IDX (match_ op) = OP_HASH_IDX word.
Proof.
  unfold hash_ok. intros H Hp Hf Hm. apply Z.eqb_neq in Hp as Hp'. rewrite Hp', Hf in H. simpl in H.
  assert (Hop : match_opcode op word = true)
    by (apply (match_func_opcode f); try done; by intros ->).
  assert (H' : negb (match_ op .& 0x3 =? 0x3) && (mask op .& 0x3 =? 0x3)
               || (riscv_insn_length (match_ op) =? 4) && (mask op .& 0x7f =? 0x7f) = true)
    by (by destruct f).
  unfold OP_HASH_IDX. apply orb_true_iff in H' as [H'|H']; apply andb_true_iff in H' as [H1 H2];
    apply Z.eqb_eq in H2; pose proof (match_opcode_bits _ _ _ Hop H2) as Hb.
  - apply negb_true_iff, Z.eqb_neq in H1. by rewrite !length_rvc by congruence.
  - apply Z.eqb_eq in H1. rewrite H1. apply length_4_iff in H1 as [H3 H5].
    assert (Hw : riscv_insn_length word = 4).
    { apply length_4_iff. split.
      - by rewrite (land_low word (match_ op) 0x7f 0x3).
      - by rewrite (land_low word (match_ op) 0x7f 0x1f). }
    by rewrite Hw.
Qed.

Lemma find_hash table f idx :
  (forall op, In op table -> f op = true -> OP_HASH_IDX (match_ op) = idx) ->
  match riscv_hash table idx with Some ops => List.find f ops | None => None end = List.find f table.
Proof.
  induction table as [|op table IH]; intros H; simpl; [done|].
  destruct (Z.eqb_spec (OP_HASH_IDX (match_ op)) idx) as [|Hne]; [done|].
  rewrite IH by (intros; apply H; [by right|done]).
  destruct (f op) eqn:E; [|done]. exfalso. apply Hne, H; [by left|done].
Qed.

Lemma find_opcode_linear rps xlen no_aliases word :
  find_opcode rps xlen no_aliases word
  = List.find (dis_accepts rps xlen no_aliases word) riscv_opcodes.
Proof.
  unfold find_opcode. apply find_hash. intros op Hin Ha.
  pose proof riscv_opcodes_hash_ok as Hok. rewrite forallb_forall in Hok. specialize (Hok op Hin).
  unfold dis_accepts in Ha. rewrite !andb_true_iff in Ha. destruct Ha as [[[[Hp Hm] _] _] _].
  apply negb_true_iff, Z.eqb_neq in Hp. destruct (match_func op) as [f|] eqn:Ef; [|done].
  by apply (hash_ok_idx op word f).
Qed.

(** C13: the hash on the low bits of the instruction word loses nothing: for
    any word, subset list, xlen and alias setting, the entry the disassembler
    finds from the hashed position on is the first entry of the whole table
    that it accepts. *)
Theorem find_opcode_is_linear_search (rps : riscv_parse_subset_t) (xlen : Z) (no_aliases : bool)
    (word : Z) :
  find_opcode rps xlen no_aliases word
  = List.find (dis_accepts rps xlen no_aliases word) riscv_opcodes.
Proof. apply find_opcode_linear. Qed.


(** ** Operand strings *)

(** How far an operand reaches depends on its letters alone. *)
Definition rest (r : arg_result) : option (list ascii) := fst <$> r.

Ltac split_char c := destruct c as [[] [] [] [] [] [] [] []]; try reflexivity.

Lemma print_rvc_rest env l pc env' l' pc' p st st' :
  rest (print_rvc env l pc p st) = rest (print_rvc env' l' pc' p st').
Proof. destruct p as [|c q]; [reflexivity|]. split_char c. Qed.

Lemma print_rvv_rest env l env' l' p st st' :
  rest (print_rvv env l p st) = rest (print_rvv env' l' p st').
Proof.
  destruct p as [|c q]; [reflexivity|]. split_char c; unfold print_rvv;
    repeat match goal with |- context [print_vtype ?x] => destruct (print_vtype x) end; reflexivity.
Qed.

Lemma print_w_rest l l' p st st' : rest (print_w l p st) = rest (print_w l' p st').
Proof.
  destruct p as [|c q]; [reflexivity|]. split_char c; (destruct q as [|d q]; [reflexivity|]; split_char d).
Qed.

Lemma print_imm_rest sign l l' p st st' :
  rest (print_imm sign l p st) = rest (print_imm sign l' p st').
Proof.
  unfold print_imm. destruct (strtol10 p) as [n q]. destruct q as [|c q]; [reflexivity|].
  split_char c. by destruct (strtol10 q).
Qed.

Lemma print_x_rest l l' p st st' : rest (print_x l p st) = rest (print_x l' p st').
Proof.
  destruct p as [|c q]; [reflexivity|].
  split_char c; (destruct q as [|d q]; [reflexivity|]; split_char d);
    try apply print_imm_rest;
    try (cbn [print_x]; destruct (span_until _ q); reflexivity);
    (destruct q as [|e q]; [reflexivity|]; split_char e).
Qed.

Lemma print_operand_rest env l pc env' l' pc' p st st' :
  rest (print_operand env l pc p st) = rest (print_operand env' l' pc' p st').
Proof.
  destruct p as [|c q]; [reflexivity|].
  split_char c; unfold print_operand; cbv zeta;
    first [apply print_rvc_rest | apply print_rvv_rest | apply print_w_rest | apply print_x_rest].
Qed.

(** A run of the operand loop that reaches the end of the string without an
    undefined modifier. *)
Inductive prints_all (env : dis_env) (l pc : Z) : list ascii -> dis_state -> dis_state -> Prop :=
| prints_end st : prints_all env l pc [] st st
| prints_one c p q st st1 st2 :
    print_operand env l pc (c :: p) st = Some (q, st1) ->
    prints_all env l pc q st1 st2 -> prints_all env l pc (c :: p) st st2.

Definition idle_env : dis_env :=
  mk_env [] [] false 0
    (mk_rps (mk_subset_list [] None None) [] 0 ISA_SPEC_CLASS_NONE false) PRIV_SPEC_CLASS_NONE.
Definition idle_state : dis_state := mk_ds (mk_pd 0 0 [] false false) 0 [].

Fixpoint understood (fuel : nat) (p : list ascii) : bool :=
  match p, fuel with
  | [], _ => true
  | _ :: _, O => false
  | _ :: _, S fuel' =>
      match rest (print_operand idle_env 0 0 p idle_state) with
      | Some q => understood fuel' q
      | None => false
      end
  end.

Lemma understood_prints fuel env l pc p st :
  understood fuel p = true -> prints_all env l pc p st (print_operands fuel env l pc p st).
Proof.
  revert p st. induction fuel as [|fuel IH]; intros [|c p] st; cbn [understood print_operands];
    try (intros; discriminate); try (intros; constructor).
  rewrite (print_operand_rest idle_env 0 0 env l pc _ _ st).
  destruct (print_operand env l pc (c :: p) st) as [[q st1]|] eqn:E; cbn [rest fmap]; [|done].
  simpl. intros H. econstructor; [exact E|auto].
Qed.

#[export] Instance match_func_t_eq_dec : EqDecision match_func_t.
Proof. solve_decision. Defined.

(** An entry that differs from [op] in its name and operands only. *)
Definition same_encoding (op op' : riscv_opcode) : bool :=
  (xlen_requirement op =? xlen_requirement op') && bool_decide (insn_class op = insn_class op')
  && (match_ op =? match_ op') && (mask op =? mask op')
  && bool_decide (match_func op = match_func op') && (pinfo op =? pinfo op').

Lemma same_encoding_accepts op op' rps xlen na word :
  same_encoding op op' = true -> dis_accepts rps xlen na word op = dis_accepts rps xlen na word op'.
Proof.
  unfold same_encoding. destruct op, op'. simpl. rewrite !andb_true_iff, !bool_decide_eq_true, !Z.eqb_eq.
  intros [[[[[-> ->] ->] ->] ->] ->]. unfold dis_accepts. simpl.
  destruct match_func0 as [f|]; [|done]. by destruct f.
Qed.

(** Each entry is understood or comes after one of the same encoding. *)
Fixpoint covered (seen ops : list riscv_opcode) : bool :=
  match ops with
  | [] => true
  | op :: ops' =>
      (if (pinfo op =? INSN_MACRO) || understood (length (chars (args op))) (chars (args op))
       then true else existsb (same_encoding op) seen)
      && covered (op :: seen) ops'
  end.

Lemma covered_split seen l1 op l2 :
  covered seen (l1 ++ op :: l2) = true ->
  (pinfo op =? INSN_MACRO) || understood (length (chars (args op))) (chars (args op)) = true \/
  exists x, (In x l1 \/ In x seen) /\ same_encoding op x = true.
Proof.
  revert seen. induction l1 as [|a l1 IH]; intros seen; cbn [covered app]; rewrite andb_true_iff; intros [H1 H2].
  - destruct (_ || _); [by left|]. right. apply existsb_exists in H1 as (x & Hx & Hs). eauto.
  - destruct (IH _ H2) as [H|(x & [Hx|[->|Hx]] & Hs)]; [by left|right; exists x; split; [|done]..].
    + left. by right.
    + left. by left.
    + by right.
Qed.

Lemma find_split {A} (f : A -> bool) l x :
  List.find f l = Some x -> exists l1 l2, l = l1 ++ x :: l2 /\ f x = true /\ forall y, In y l1 -> f y = false.
Proof.
  induction l as [|a l IH]; simpl; [done|]. destruct (f a) eqn:E.
  - intros H. injection H as ->. exists [], l. done.
  - intros H. destruct (IH H) as (l1 & l2 & -> & Hx & Hl). exists (a :: l1), l2.
    split_and!; try done. intros y [<-|Hy]; auto.
Qed.

Lemma riscv_opcodes_covered : covered [] riscv_opcodes = true.
Proof. vm_compute. reflexivity. Qed.

(** The disassembler knows every operand letter it meets: whenever it
    selects an entry for a word, printing the operands of that entry runs to
    the end of the operand string without reaching the internal error for an
    undefined modifier, whatever the state.  (The table has two entries with
    letters only the assembler knows; they always come after an entry of the
    same encoding.) *)
Theorem find_opcode_operands_understood (op : riscv_opcode) (rps : riscv_parse_subset_t)
    (xlen : Z) (no_aliases : bool) (word : Z) (env : dis_env) (pc : Z) (st : dis_state) :
  find_opcode rps xlen no_aliases word = Some op ->
  prints_all env word pc (chars (args op))
    (match chars (args op) with [] => st | _ => put st [P_text (String "009"%char "")] end)
    (print_insn_args env (args op) word pc st).
Proof.
  intros Hf. rewrite find_opcode_linear in Hf. apply find_split in Hf as (l1 & l2 & Hl & Ha & Hno).
  unfold print_insn_args. apply understood_prints.
  pose proof riscv_opcodes_covered as Hc. rewrite Hl in Hc.
  apply covered_split in Hc as [Hc|(x & [Hx|[]] & Hs)].
  - unfold dis_accepts in Ha. rewrite !andb_true_iff in Ha. destruct Ha as [[[[Hp _] _] _] _].
    apply negb_true_iff in Hp. by rewrite Hp in Hc.
  - apply (same_encoding_accepts _ _ rps xlen no_aliases word) in Hs. rewrite Ha in Hs.
    by rewrite Hno in Hs.
Qed.

(** rv64i_zcb for the examples. *)
Definition example_rps : riscv_parse_subset_t :=
  (riscv_parse_subset (mk_rps (mk_subset_list [] None None) [] 0 ISA_SPEC_CLASS_20191213 false)
     (Some "rv64ic_zcb")).1.

Lemma find_opcode_operands_understood_witness :
  prints_all idle_env 0x9c61 0 (chars "Cs,Cw") (put idle_state [P_text (String "009"%char "")])
    (print_insn_args idle_env "Cs,Cw" 0x9c61 0 idle_state).
Proof.
  apply (find_opcode_operands_understood
    (mk_opcode "zext.b" 0 INSN_CLASS_ZCB "Cs,Cw" MATCH_C_ZEXT_B MASK_C_ZEXT_B
       (Some MF_match_opcode) INSN_ALIAS) example_rps 64 false 0x9c61).
  vm_compute. reflexivity.
Defined.

(** ** Reserved and unknown encodings *)

(** A T-Head vtype immediate whose vsew field is reserved is printed
    through a null name: the table of vsew names has no name for the values 4
    to 7, and, unlike for the standard vtype, nothing tests for that. *)
Theorem print_th_vtype_null (imm : Z) :
  In P_null (print_th_vtype imm) <->
  4 <= EXTRACT_OPERAND FLD_XTHEADVSEW imm /\ EXTRACT_OPERAND FLD_XTHEADVTYPE_RES imm = 0.
Proof.
  unfold print_th_vtype.
  assert (Hr : forall f, 0 <= EXTRACT_OPERAND f imm <= OP_MASK f).
  { intros f. unfold EXTRACT_OPERAND, EXTRACT_BITS.
    assert (0 <= OP_MASK f) by (destruct f; vm_compute; congruence).
    assert (Hl : 0 <= ((imm >> OP_SH f) .& OP_MASK f) <= OP_MASK f).
    { split; [apply Z.land_nonneg; auto|]. by apply land_le_r. }
    assert (OP_MASK f < 2 ^ 32) by (destruct f; vm_compute; congruence).
    unfold u32. rewrite Z.mod_small by lia. done. }
  pose proof (Hr FLD_XTHEADVSEW) as H1. pose proof (Hr FLD_XTHEADVLMUL) as H2.
  pose proof (Hr FLD_XTHEADVEDIV) as H3. simpl in H1, H2, H3.
  generalize (EXTRACT_OPERAND FLD_XTHEADVTYPE_RES imm) as res.
  revert H1 H2 H3. generalize (EXTRACT_OPERAND FLD_XTHEADVSEW imm) as vsew.
  generalize (EXTRACT_OPERAND FLD_XTHEADVLMUL imm) as vlmul.
  generalize (EXTRACT_OPERAND FLD_XTHEADVEDIV imm) as vediv. intros vediv vlmul vsew H1 H2 H3 res.
  assert (E1 : vlmul = 0 \/ vlmul = 1 \/ vlmul = 2 \/ vlmul = 3) by lia.
  assert (E2 : vediv = 0 \/ vediv = 1 \/ vediv = 2 \/ vediv = 3) by lia.
  assert (E3 : vsew = 0 \/ vsew = 1 \/ vsew = 2 \/ vsew = 3 \/ vsew = 4 \/ vsew = 5 \/ vsew = 6 \/ vsew = 7) by lia.
  clear H1 H2 H3.
  destruct E1 as [->|[->|[->| ->]]], E2 as [->|[->|[->| ->]]];
    repeat destruct E3 as [->|E3]; try subst vsew; simpl; destruct (Z.eqb_spec res 0); simpl;
    intuition (congruence || lia).
Qed.

(** A word no entry accepts is printed as an [.insn] line whose digits are
    missing exactly when all its parcels are zero. *)
Theorem unknown_zero_word_has_no_digits (n : nat) (packet : list Z) :
  print_parcels n packet false = [] <->
  forall i, (i < n)%nat -> parcel packet (2 * Z.of_nat i) = 0.
Proof.
  induction n as [|n IH]; simpl; [split; [intros _ i Hi; lia|done]|].
  destruct (Z.eqb_spec (parcel packet (2 * Z.of_nat n)) 0) as [E|E]; simpl.
  - rewrite IH. split; intros H i Hi; [|apply H; lia].
    destruct (Nat.eq_dec i n) as [->|]; [done|apply H; lia].
  - split; [done|]. intros H. exfalso. apply E, H. lia.
Qed.

Lemma unimp_without_c_has_no_digits :
  let rps := (riscv_parse_subset (mk_rps (mk_subset_list [] None None) [] 0 ISA_SPEC_CLASS_20191213 false)
                (Some "rv32i")).1 in
  riscv_disassemble_insn (mk_env riscv_gpr_names_abi riscv_fpr_names_abi false 32 rps PRIV_SPEC_CLASS_NONE)
    false (mk_pd 0 0 [] false false) 0 0 [0; 0]
  = (dis_directive 2 [], 2).
Proof. vm_compute. reflexivity. Qed.
