(* ===== verification/LoadConst.v ===== *)
(** * Loading constants (gas/config/tc-riscv.c)

    [load_const], the expansion of [li], and [riscv_ext], the expansion of the
    extension pseudo-instructions, with the instructions they emit run on a
    register file.  An emitted line ([md_assemblef]) is an [emitted] value; the
    immediates are the ones printed into the line. *)
From Stdlib Require Import ZArith Bool Lia.
From stdpp Require Import base list.
From S2P Require Import Prelude RiscvH.

#[local] Open Scope Z_scope.
#[local] Open Scope c_scope.

(** ** Emitted instructions and their meaning *)

Inductive emitted : Type :=
| E_lui (rd imm : Z)
| E_addi (rd rs imm : Z)
| E_addiw (rd rs imm : Z)
| E_slli (rd rs shamt : Z)
| E_srli (rd rs shamt : Z)
| E_srai (rd rs shamt : Z).

(** Register contents, as unsigned [xlen]-bit numbers; [x0] reads as 0. *)
Definition regfile : Type := Z -> Z.

Definition get (r : regfile) (i : Z) : Z := if i =? 0 then 0 else r i.
Definition set (r : regfile) (i v : Z) : regfile := fun j => if j =? i then v else r j.

(** One instruction, as the ISA manual defines it. *)
Definition step (xlen : Z) (i : emitted) (r : regfile) : regfile :=
  match i with
  | E_lui rd imm => set r rd (s32 (imm << 12) mod 2 ^ xlen)
  | E_addi rd rs imm => set r rd ((get r rs + imm) mod 2 ^ xlen)
  | E_addiw rd rs imm => set r rd (s32 (get r rs + imm) mod 2 ^ xlen)
  | E_slli rd rs shamt => set r rd ((get r rs << shamt) mod 2 ^ xlen)
  | E_srli rd rs shamt => set r rd (get r rs >> shamt)
  | E_srai rd rs shamt => set r rd ((swrap xlen (get r rs) >> shamt) mod 2 ^ xlen)
  end.

Definition run (xlen : Z) (code : list emitted) (r : regfile) : regfile :=
  foldl (fun r i => step xlen i r) r code.

(** What the assembler checks of these instructions. *)
Definition encodable (xlen : Z) (i : emitted) : Prop :=
  match i with
  | E_lui rd imm => 0 <= imm < RISCV_BIGIMM_REACH
  | E_addi _ _ imm => - 2048 <= imm < 2048
  | E_addiw _ _ imm => - 2048 <= imm < 2048 /\ xlen = 64
  | E_slli _ _ shamt | E_srli _ _ shamt | E_srai _ _ shamt => 0 <= shamt < xlen
  end.

(** ** The expansions *)

Definition IS_SEXT_32BIT_NUM (x : Z) : bool :=
  ((x .& Z.lnot 0x7fffffff) =? 0) || ((x .& Z.lnot 0x7fffffff) =? Z.lnot 0x7fffffff).

(** [ADD32_INSN]. *)
Definition ADD32_INSN (xlen rd rs imm : Z) : emitted :=
  if xlen =? 64 then E_addiw rd rs imm else E_addi rd rs imm.

(** [while (((upper.X_add_number >> shift) & 1) == 0) shift++;] a nonzero
    64-bit value has a bit set, so 64 steps are enough. *)
Fixpoint find_shift (fuel : nat) (upper shift : Z) : Z :=
  match fuel with
  | O => shift
  | S fuel' => if ((upper >> shift) .& 1) =? 0 then find_shift fuel' upper (shift + 1) else shift
  end.

(** [lower.X_add_number]. *)
Definition low_part (x : Z) : Z :=
  let sign := 1 << (RISCV_IMM_BITS - 1) in
  s64 (((x .& (sign + sign - 1)) .^ sign) - sign).

(** [load_const (reg, ep)] for a constant [x]; [None] only if [fuel] runs out. *)
Fixpoint load_const (fuel : nat) (xlen reg x : Z) : option (list emitted) :=
  match fuel with
  | O => None
  | S fuel' =>
      let shift := RISCV_IMM_BITS in
      let lower := low_part x in
      let upper := s64 (x - lower) in
      if (xlen >? 32) && negb (IS_SEXT_32BIT_NUM x) then
        let shift := find_shift 64 upper shift in
        match load_const fuel' xlen reg (upper >> shift) with
        | None => None
        | Some code =>
            Some (code ++ E_slli reg reg shift
                       :: (if negb (lower =? 0) then [E_addi reg reg lower] else []))
        end
      else
        let '(code, hi_reg) :=
          if negb (upper =? 0) then ([E_lui reg (u32 upper >> shift)], reg) else ([], 0) in
        Some (code ++ (if negb (lower =? 0) || (hi_reg =? 0)
                       then [ADD32_INSN xlen reg hi_reg lower] else []))
  end.

(** [riscv_ext]. *)
Definition riscv_ext (destreg srcreg shift : Z) (sign : bool) : list emitted :=
  [E_slli destreg srcreg shift;
   if sign then E_srai destreg destreg shift else E_srli destreg destreg shift].

(** ** Arithmetic *)

Lemma low_part_swrap (x : Z) : low_part x = swrap 12 x.
Proof.
  unfold low_part. change (1 << (RISCV_IMM_BITS - 1)) with 2048.
  change (2048 + 2048 - 1) with (Z.ones 12). rewrite Z.land_ones by lia.
  unfold swrap. change (2 ^ (12 - 1)) with 2048.
  assert (Hy : 0 <= x mod 2 ^ 12 < 4096) by (apply Z.mod_pos_bound; lia).
  rewrite <- (Zplus_mod_idemp_l x 2048). revert Hy. generalize (x mod 2 ^ 12) as y. intros y Hy.
  change (2 ^ 12) with 4096.
  assert (Hx : y .^ 2048 = (y + 2048) mod 4096).
  { destruct (Z.lt_ge_cases y 2048).
    - rewrite Z.mod_small by lia. symmetry. apply Z.add_nocarry_lxor.
      change 2048 with (2 ^ 11). apply Z.bits_inj'. intros i Hi. rewrite Z.land_spec, Z.bits_0.
      destruct (Z.eq_dec i 11) as [->|].
      + rewrite (testbit_high y 11) by lia. done.
      + by rewrite Z.pow2_bits_false, andb_false_r by lia.
    - replace (y + 2048) with (y - 2048 + 1 * 4096) by lia. rewrite Z.mod_add, Z.mod_small by lia.
      assert (E : y = (y - 2048) .^ 2048).
      { rewrite <- Z.add_nocarry_lxor; [lia|]. change 2048 with (2 ^ 11) at 2.
        apply Z.bits_inj'. intros i Hi. rewrite Z.land_spec, Z.bits_0.
        destruct (Z.eq_dec i 11) as [->|].
        + rewrite (testbit_high (y - 2048) 11) by lia. done.
        + by rewrite Z.pow2_bits_false, andb_false_r by lia. }
      rewrite E at 1. by rewrite Z.lxor_assoc, Z.lxor_nilpotent, Z.lxor_0_r. }
  rewrite Hx. pose proof (Z.mod_pos_bound (y + 2048) 4096 ltac:(lia)).
  unfold s64. rewrite swrap_small; simpl; lia.
Qed.

Lemma low_part_range (x : Z) : - 2048 <= low_part x < 2048.
Proof. rewrite low_part_swrap. apply (swrap_range 12). lia. Qed.

Lemma low_part_mod (x : Z) : (x - low_part x) mod 4096 = 0.
Proof.
  rewrite low_part_swrap. unfold swrap. change (2 ^ (12 - 1)) with 2048. change (2 ^ 12) with 4096.
  pose proof (Z.div_mod (x + 2048) 4096 ltac:(lia)).
  replace (x - ((x + 2048) mod 4096 - 2048)) with ((x + 2048) / 4096 * 4096) by lia.
  by apply Z.mod_mul.
Qed.

Lemma IS_SEXT_32BIT_NUM_iff (x : Z) : IS_SEXT_32BIT_NUM x = true <-> - 2 ^ 31 <= x < 2 ^ 31.
Proof.
  unfold IS_SEXT_32BIT_NUM. change 0x7fffffff with (Z.ones 31).
  rewrite <- Z.ldiff_land, Z.ldiff_ones_r, Z.shiftr_div_pow2, Z.shiftl_mul_pow2 by lia.
  change (Z.lnot (Z.ones 31)) with (- 2 ^ 31).
  rewrite orb_true_iff, !Z.eqb_eq. pose proof (Z.div_mod x (2 ^ 31) ltac:(lia)).
  pose proof (Z.mod_pos_bound x (2 ^ 31) ltac:(lia)). lia.
Qed.

Lemma s64_cong (x : Z) : exists k, s64 x = x + k * 2 ^ 64.
Proof.
  unfold s64, swrap. exists (- ((x + 2 ^ (64 - 1)) / 2 ^ 64)).
  pose proof (Z.div_mod (x + 2 ^ (64 - 1)) (2 ^ 64) ltac:(lia)). lia.
Qed.

Lemma mod_pow2_le (x a b : Z) : 0 <= a <= b -> x mod 2 ^ b = 0 -> x mod 2 ^ a = 0.
Proof.
  intros Hab Hx. apply Z.mod_divide in Hx as [k ->]; [|lia].
  replace b with ((b - a) + a) by lia. rewrite Z.pow_add_r, Z.mul_assoc by lia.
  apply Z.mod_mul. lia.
Qed.

Lemma find_shift_spec (fuel : nat) (upper k : Z) :
  upper <> 0 -> - 2 ^ 63 <= upper < 2 ^ 63 -> 0 <= k <= 63 -> upper mod 2 ^ k = 0 ->
  k <= find_shift fuel upper k <= 63 /\ upper mod 2 ^ find_shift fuel upper k = 0.
Proof.
  intros Hn Hr. revert k. induction fuel as [|fuel IH]; intros k Hk Hm; simpl; [lia|].
  destruct (Z.eqb_spec ((upper >> k) .& 1) 0) as [E|]; [|lia].
  assert (Hm' : upper mod 2 ^ (k + 1) = 0).
  { rewrite Z.pow_add_r, Z.rem_mul_r, Hm by lia. change 1 with (Z.ones 1) in E.
    rewrite Z.land_ones, Z.shiftr_div_pow2 in E by lia. change (2 ^ 1) with 2 in *. lia. }
  assert (k <> 63).
  { intros ->. apply Z.mod_divide in Hm' as [j Hj]; [|lia]. change (2 ^ (63 + 1)) with (2 * 2 ^ 63) in Hj.
    assert (j = 0) by lia. lia. }
  specialize (IH (k + 1) ltac:(lia) Hm'). lia.
Qed.

(** ** Reading the register back *)

Lemma get_set_eq r i v : 0 < i -> get (set r i v) i = v.
Proof. intros H. unfold get, set. rewrite Z.eqb_refl. by destruct (Z.eqb_spec i 0); [lia|]. Qed.

Lemma get_set_ne r i j v : i <> j -> get (set r i v) j = get r j.
Proof. intros H. unfold get, set. by destruct (Z.eqb_spec j i); [congruence|]. Qed.

Lemma run_app xlen a b r : run xlen (a ++ b) r = run xlen b (run xlen a r).
Proof. apply foldl_app. Qed.

(** The destination of every instruction is [reg]. *)
Definition writes_only (reg : Z) (i : emitted) : Prop :=
  match i with
  | E_lui rd _ | E_addi rd _ _ | E_addiw rd _ _ | E_slli rd _ _ | E_srli rd _ _ | E_srai rd _ _ => rd = reg
  end.

Lemma run_writes_only xlen reg code r j :
  Forall (writes_only reg) code -> j <> reg -> get (run xlen code r) j = get r j.
Proof.
  intros H Hj. revert r. induction H as [|i code Hi _ IH]; intros r; [done|].
  unfold run in *. simpl. rewrite IH. destruct i; simpl in *; subst; rewrite get_set_ne; done.
Qed.

(** A loaded constant: the code is encodable, touches [reg] only, and leaves
    the constant there whatever the registers held. *)
Record loads (xlen reg x : Z) (code : list emitted) : Prop := {
  loads_encodable : Forall (encodable xlen) code;
  loads_writes : Forall (writes_only reg) code;
  loads_value : forall r, get (run xlen code r) reg = x mod 2 ^ xlen;
}.

(** The upper immediate of lui, and that it complements the lower one. *)
Lemma hi_lo_parts (x : Z) :
  let upper := s64 (x - low_part x) in
  let h := u32 upper >> 12 in
  0 <= h < 2 ^ 20 /\ (h * 2 ^ 12 + low_part x) mod 2 ^ 32 = x mod 2 ^ 32 /\ upper mod 2 ^ 12 = 0.
Proof.
  intros upper h. pose proof (low_part_mod x) as Hm.
  destruct (s64_cong (x - low_part x)) as [k Hk]. fold upper in Hk.
  assert (Hup : upper mod 2 ^ 12 = 0).
  { rewrite Hk. change (2 ^ 64) with (2 ^ 52 * 2 ^ 12). rewrite Z.mul_assoc, Z.mod_add by lia. exact Hm. }
  assert (Hu : u32 upper mod 2 ^ 12 = 0).
  { unfold u32. apply Z.mod_divide in Hup as [j ->]; [|lia]. change (2 ^ 32) with (2 ^ 20 * 2 ^ 12).
    rewrite Z.mul_mod_distr_r by lia. by apply Z.mod_mul. }
  assert (Hh : u32 upper = h * 2 ^ 12).
  { unfold h. rewrite Z.shiftr_div_pow2 by lia.
    pose proof (Z.div_mod (u32 upper) (2 ^ 12) ltac:(lia)). lia. }
  pose proof (u32_range upper). split_and!; [lia..| |done].
  rewrite <- Hh. unfold u32. rewrite Zplus_mod_idemp_l, Hk.
  replace (x - low_part x + k * 2 ^ 64 + low_part x) with (x + k * 2 ^ 32 * 2 ^ 32) by lia.
  by apply Z.mod_add.
Qed.

Lemma s32_mod (a : Z) : s32 (a mod 2 ^ 32) = s32 a.
Proof. by apply swrap_idem_mod. Qed.

Lemma s32_mod_32 (a : Z) : s32 a mod 2 ^ 32 = a mod 2 ^ 32.
Proof. by apply swrap_mod. Qed.

Lemma mod_64_32 (a : Z) : (a mod 2 ^ 64) mod 2 ^ 32 = a mod 2 ^ 32.
Proof.
  pose proof (Z.div_mod a (2 ^ 64) ltac:(lia)).
  replace (a mod 2 ^ 64) with (a + - (a / 2 ^ 64 * 2 ^ 32) * 2 ^ 32) by lia. by apply Z.mod_add.
Qed.

(** A 32-bit result agrees with the constant. *)
Lemma sext_result (x v : Z) :
  - 2 ^ 31 <= x < 2 ^ 31 -> v mod 2 ^ 32 = x mod 2 ^ 32 -> s32 v = x.
Proof.
  intros Hx Hv. rewrite <- s32_mod, Hv, s32_mod. unfold s32. apply swrap_small; lia.
Qed.

Definition base_constant (xlen x : Z) : Prop :=
  xlen = 32 \/ xlen = 64 /\ - 2 ^ 31 <= x < 2 ^ 31.

Lemma lui_value xlen reg r h x :
  base_constant xlen x -> 0 < reg -> (h * 2 ^ 12) mod 2 ^ 32 = x mod 2 ^ 32 ->
  get (step xlen (E_lui reg h) r) reg = x mod 2 ^ xlen.
Proof.
  intros Hx Hreg Hh. simpl. rewrite get_set_eq, Z.shiftl_mul_pow2 by lia.
  destruct Hx as [->|[-> Hx]]; [by rewrite s32_mod_32|by rewrite (sext_result x)].
Qed.

Lemma add32_value xlen reg rs r lower x :
  base_constant xlen x -> 0 < reg -> (get r rs + lower) mod 2 ^ 32 = x mod 2 ^ 32 ->
  get (step xlen (ADD32_INSN xlen reg rs lower) r) reg = x mod 2 ^ xlen.
Proof.
  intros Hx Hreg Hv. unfold ADD32_INSN. destruct Hx as [->|[-> Hx]]; simpl; rewrite get_set_eq by done.
  - done.
  - by rewrite (sext_result x).
Qed.

Lemma add32_ok xlen reg rs lower x :
  base_constant xlen x -> - 2048 <= lower < 2048 ->
  encodable xlen (ADD32_INSN xlen reg rs lower) /\ writes_only reg (ADD32_INSN xlen reg rs lower).
Proof. intros [->|[-> _]] Hl; simpl; done. Qed.

Ltac solve_Forall := repeat (first [apply Forall_nil; exact I | apply Forall_cons; split]); try done.

(** The final case: lui and addi[w] build a constant of 32 significant bits. *)
Lemma load_base (xlen reg x : Z) :
  base_constant xlen x -> 0 < reg ->
  let lower := low_part x in
  let upper := s64 (x - lower) in
  let '(code, hi_reg) :=
    if negb (upper =? 0) then ([E_lui reg (u32 upper >> 12)], reg) else ([], 0) in
  loads xlen reg x
    (code ++ (if negb (lower =? 0) || (hi_reg =? 0) then [ADD32_INSN xlen reg hi_reg lower] else [])).
Proof.
  intros Hx Hreg lower upper. pose proof (low_part_range x) as Hl.
  destruct (hi_lo_parts x) as (Hh & Hmod & _). fold lower upper in Hl, Hh, Hmod.
  assert (Hlui : encodable xlen (E_lui reg (u32 upper >> 12))) by exact Hh.
  destruct (Z.eqb_spec upper 0) as [E|E]; cbn [negb].
  - rewrite orb_true_r. destruct (add32_ok xlen reg 0 lower x Hx Hl) as [Ha Hw].
    constructor; [solve_Forall..|]. intros r. apply add32_value; try done.
    rewrite E in Hmod. simpl. exact Hmod.
  - destruct (Z.eqb_spec reg 0); [lia|]. rewrite orb_false_r.
    destruct (Z.eqb_spec lower 0) as [El|El]; cbn [negb app].
    + constructor; [solve_Forall..|]. intros r. apply lui_value; try done.
      by rewrite El, Z.add_0_r in Hmod.
    + destruct (add32_ok xlen reg reg lower x Hx Hl) as [Ha Hw].
      constructor; [solve_Forall..|]. intros r. cbn [run foldl].
      apply add32_value; try done. cbn [step]. rewrite get_set_eq, Z.shiftl_mul_pow2 by lia.
      rewrite <- Zplus_mod_idemp_l. rewrite <- Hmod, <- (Zplus_mod_idemp_l (_ * _)). do 2 f_equal.
      destruct Hx as [->|[-> _]]; rewrite ?mod_64_32, ?Zmod_mod; apply s32_mod_32.
Qed.

(** ** The recursion *)

Lemma multiple_bound (u m b : Z) : 0 < m -> u mod m = 0 -> b mod m = 0 -> u < b + m -> u <= b.
Proof.
  intros Hm Hu Hb Hlt. apply Z.mod_divide in Hu as [p ->]; [|lia]. apply Z.mod_divide in Hb as [q ->]; [|lia].
  assert (p < q + 1) by nia. nia.
Qed.

(** The upper part is no larger than the constant. *)
Lemma upper_bound (x b : Z) :
  12 <= b <= 63 -> - 2 ^ 63 <= x < 2 ^ 63 -> - 2 ^ b <= x <= 2 ^ b ->
  - 2 ^ b <= s64 (x - low_part x) <= 2 ^ b.
Proof.
  intros Hb Hr Hx. pose proof (low_part_range x) as Hl. pose proof (low_part_mod x) as Hm.
  assert (Hpow : 2 ^ b mod 4096 = 0) by (by apply (mod_pow2_le (2 ^ b) 12 b); [lia|apply Z.mod_same; lia]).
  assert (Hpow' : (- 2 ^ b) mod 4096 = 0) by (by apply Z.mod_opp_l_z).
  destruct (Z.eq_dec b 63) as [->|Hne].
  { pose proof (swrap_range 64 (x - low_part x) ltac:(lia)) as H. fold (s64 (x - low_part x)) in H.
    change (64 - 1) with 63 in H. lia. }
  assert (H2 : x - low_part x <= 2 ^ b) by (apply (multiple_bound _ 4096); lia).
  assert (H1 : - (x - low_part x) <= 2 ^ b).
  { apply (multiple_bound _ 4096); try lia. by apply Z.mod_opp_l_z. }
  assert (2 ^ b <= 2 ^ 62) by (apply Z.pow_le_mono_r; lia).
  unfold s64. rewrite swrap_small; [lia|lia|]. change (2 ^ (64 - 1)) with (2 * 2 ^ 62). lia.
Qed.

Lemma shifted_bound (u s b : Z) :
  12 <= s -> 12 <= b -> - 2 ^ b <= u <= 2 ^ b -> - 2 ^ (b - 12) <= u >> s <= 2 ^ (b - 12).
Proof.
  intros Hs Hb Hu. rewrite Z.shiftr_div_pow2 by lia.
  assert (Ep : 2 ^ b = 2 ^ (b - 12) * 2 ^ 12) by (rewrite <- Z.pow_add_r by lia; f_equal; lia).
  assert (H12 : 2 ^ 12 <= 2 ^ s) by (apply Z.pow_le_mono_r; lia).
  assert (0 < 2 ^ (b - 12)) by (apply Z.pow_pos_nonneg; lia).
  split.
  - apply Z.div_le_lower_bound; [lia|]. nia.
  - apply Z.div_le_upper_bound; [lia|]. nia.
Qed.

(** One unfolding of the recursive case adds a shift and an addition. *)
Lemma loads_shift (reg x s : Z) (code : list emitted) :
  0 < reg -> 12 <= s <= 63 ->
  let lower := low_part x in
  let upper := s64 (x - lower) in
  upper mod 2 ^ s = 0 -> loads 64 reg (upper >> s) code ->
  loads 64 reg x
    (code ++ E_slli reg reg s :: (if negb (lower =? 0) then [E_addi reg reg lower] else [])).
Proof.
  intros Hreg Hs lower upper Hm [Henc Hw Hv].
  pose proof (low_part_range x) as Hl. fold lower in Hl.
  assert (Hsl : encodable 64 (E_slli reg reg s)) by (simpl; lia).
  assert (Hval : forall r, get (run 64 (code ++ [E_slli reg reg s]) r) reg = upper mod 2 ^ 64).
  { intros r. rewrite run_app. cbn [run foldl step]. rewrite get_set_eq, Hv by done.
    rewrite Z.shiftl_mul_pow2, Zmult_mod_idemp_l, Z.shiftr_div_pow2 by lia. f_equal.
    pose proof (Z.div_mod upper (2 ^ s) ltac:(lia)). lia. }
  destruct (s64_cong (x - lower)) as [k Hk]. fold upper in Hk.
  assert (Hsum : (upper + lower) mod 2 ^ 64 = x mod 2 ^ 64).
  { rewrite Hk. replace (x - lower + k * 2 ^ 64 + lower) with (x + k * 2 ^ 64) by lia. by apply Z.mod_add. }
  destruct (Z.eqb_spec lower 0) as [E|E]; cbn [negb].
  - constructor; [apply Forall_app; split; [done|solve_Forall]..|]. intros r.
    rewrite Hval, <- Hsum, E. f_equal. lia.
  - constructor; [apply Forall_app; split; [done|solve_Forall]..|]. intros r.
    replace (code ++ [E_slli reg reg s; E_addi reg reg lower])
      with ((code ++ [E_slli reg reg s]) ++ [E_addi reg reg lower]) by (by rewrite <- app_assoc).
    rewrite run_app. cbn [run foldl step]. rewrite get_set_eq by done.
    change (foldl (fun r i => step 64 i r) r (code ++ [E_slli reg reg s]))
      with (run 64 (code ++ [E_slli reg reg s]) r).
    by rewrite Hval, Zplus_mod_idemp_l.
Qed.

Lemma load_const_loads (n fuel : nat) (xlen reg x : Z) :
  (n < fuel)%nat -> xlen = 32 \/ xlen = 64 -> 0 < reg -> - 2 ^ 63 <= x < 2 ^ 63 ->
  - 2 ^ (27 + 12 * Z.of_nat n) <= x <= 2 ^ (27 + 12 * Z.of_nat n) -> (n <= 3)%nat ->
  exists code, load_const fuel xlen reg x = Some code /\ loads xlen reg x code /\
    (length code <= 2 + 2 * n)%nat.
Proof.
  revert fuel x. induction n as [|n IH]; intros fuel x Hf Hxlen Hreg Hr Hb Hn;
    (destruct fuel as [|fuel]; [lia|]); cbn [load_const];
    pose proof (load_base xlen reg x) as Hbase; cbv zeta in Hbase.
  all: destruct ((xlen >? 32) && negb (IS_SEXT_32BIT_NUM x)) eqn:E.
  2, 4: assert (Hbc : base_constant xlen x);
    [destruct Hxlen as [->| ->]; [by left|right; split; [done|]];
     apply IS_SEXT_32BIT_NUM_iff; by apply negb_false_iff in E
    |specialize (Hbase Hbc Hreg); change RISCV_IMM_BITS with 12;
     destruct (negb (s64 (x - low_part x) =? 0)); eexists; (split; [reflexivity|]; split; [exact Hbase|]);
     destruct (_ || _); simpl; lia].
  - exfalso. apply andb_true_iff in E as [_ E]. apply negb_true_iff, not_true_iff_false in E.
    apply E, IS_SEXT_32BIT_NUM_iff. simpl in Hb. lia.
  - apply andb_true_iff in E as [E1 E2]. apply negb_true_iff, not_true_iff_false in E2.
    rewrite IS_SEXT_32BIT_NUM_iff in E2. destruct Hxlen as [->| ->]; [done|]. clear Hbase E1.
    destruct (hi_lo_parts x) as (_ & _ & Hup). pose proof (low_part_range x) as Hl.
    set (upper := s64 (x - low_part x)) in *.
    assert (Hrange : - 2 ^ 63 <= upper < 2 ^ 63) by (apply (swrap_range 64); lia).
    assert (Hne : upper <> 0).
    { destruct (s64_cong (x - low_part x)) as [k Hk]. fold upper in Hk. intros Hz.
      assert (k = 0) by lia. lia. }
    destruct (find_shift_spec 64 upper 12 Hne Hrange ltac:(lia) Hup) as [Hs Hm].
    change RISCV_IMM_BITS with 12.
    assert (Hub : - 2 ^ (27 + 12 * Z.of_nat (S n)) <= upper <= 2 ^ (27 + 12 * Z.of_nat (S n)))
      by (apply upper_bound; lia).
    set (s := find_shift 64 upper 12) in *.
    pose proof (shifted_bound upper s (27 + 12 * Z.of_nat (S n)) ltac:(lia) ltac:(lia) Hub) as Hsb.
    replace (27 + 12 * Z.of_nat (S n) - 12) with (27 + 12 * Z.of_nat n) in Hsb by lia.
    assert (2 ^ (27 + 12 * Z.of_nat n) <= 2 ^ 62) by (apply Z.pow_le_mono_r; lia).
    destruct (IH fuel (upper >> s)) as (code & -> & Hloads & Hlen); try lia.
    eexists. split; [reflexivity|]. split; [apply loads_shift; done || lia|].
    rewrite length_app. simpl. destruct (negb _); simpl; lia.
Qed.

(** ** Properties *)

(** C10: [li] is correct for every constant.  On rv32 and rv64, for every
    64-bit constant and every register but x0, [load_const] ends (after at most
    three recursive calls), and the at most eight instructions it emits have
    encodable operands, change no other register, and leave the constant
    modulo 2^xlen in the register whatever it held before. *)
Theorem load_const_correct (xlen reg x : Z) :
  xlen = 32 \/ xlen = 64 -> 0 < reg -> - 2 ^ 63 <= x < 2 ^ 63 ->
  exists code, load_const 4 xlen reg x = Some code /\ (length code <= 8)%nat /\
    Forall (encodable xlen) code /\
    forall r, get (run xlen code r) reg = x mod 2 ^ xlen /\
      (forall j, j <> reg -> get (run xlen code r) j = get r j).
Proof.
  intros Hxlen Hreg Hx.
  destruct (load_const_loads 3 4 xlen reg x) as (code & E & [H1 H2 H3] & Hlen); try done || lia.
  exists code. split_and!; try done. intros r. split; [apply H3|].
  intros j Hj. by apply (run_writes_only _ reg).
Qed.

Lemma load_const_correct_witness :
  get (run 64 (default [] (load_const 4 64 10 0x123456789abcdef0)) (fun _ => 7)) 10
  = 0x123456789abcdef0.
Proof.
  destruct (load_const_correct 64 10 0x123456789abcdef0) as (code & E & _ & _ & H).
  - right. reflexivity.
  - lia.
  - lia.
  - rewrite E. simpl. destruct (H (fun _ => 7)) as [Hv _]. rewrite Hv. reflexivity.
Defined.

(** The extension pseudo-instructions.  [riscv_ext] with shift
    [xlen - w] leaves in the destination the low [w] bits of the source,
    sign-extended ([sext.b], [sext.h]) or zero-extended ([zext.h], [zext.w]). *)
Theorem riscv_ext_correct (xlen w destreg srcreg : Z) (sign : bool) (r : regfile) :
  0 < w <= xlen -> 0 < destreg -> 0 <= get r srcreg < 2 ^ xlen ->
  get (run xlen (riscv_ext destreg srcreg (xlen - w) sign) r) destreg
  = if sign then swrap w (get r srcreg) mod 2 ^ xlen else get r srcreg mod 2 ^ w.
Proof.
  intros Hw Hd Hv. unfold riscv_ext. cbn [run foldl].
  assert (Hp : 2 ^ xlen = 2 ^ w * 2 ^ (xlen - w)) by (rewrite <- Z.pow_add_r by lia; f_equal; lia).
  assert (0 < 2 ^ (xlen - w)) by (apply Z.pow_pos_nonneg; lia).
  assert (0 < 2 ^ w) by (apply Z.pow_pos_nonneg; lia).
  assert (Hsl : (get r srcreg << (xlen - w)) mod 2 ^ xlen = (get r srcreg mod 2 ^ w) * 2 ^ (xlen - w)).
  { rewrite Z.shiftl_mul_pow2 by lia. rewrite Hp. by rewrite Z.mul_mod_distr_r by lia. }
  destruct sign; cbn [step]; rewrite !get_set_eq, Hsl by done.
  - f_equal. rewrite Z.shiftr_div_pow2 by lia. unfold swrap.
    assert (Hh : 2 ^ (xlen - 1) = 2 ^ (w - 1) * 2 ^ (xlen - w))
      by (rewrite <- Z.pow_add_r by lia; f_equal; lia).
    rewrite Hh, Hp, <- Z.mul_add_distr_r, Z.mul_mod_distr_r by lia.
    rewrite <- Z.mul_sub_distr_r, Z.div_mul by lia. by rewrite Zplus_mod_idemp_l.
  - rewrite Z.shiftr_div_pow2 by lia. by apply Z.div_mul; lia.
Qed.

Lemma riscv_ext_correct_witness :
  get (run 64 (riscv_ext 5 6 (64 - 16) true) (fun _ => 0x18000)) 5 = 0xffffffffffff8000.
Proof.
  rewrite (riscv_ext_correct 64 16 5 6 true (fun _ => 0x18000)).
  - reflexivity.
  - lia.
  - lia.
  - vm_compute. split; congruence.
Defined.
