(* ===== verification/Bytes.v ===== *)
(** * Bytes of a frag (gas/write.c, bfd)

    A buffer is the list of its bytes; [bfd_getl16], [bfd_putl32] and the
    like read and write numbers in it, [number_to_chars_*] lays a number out in
    either byte order. *)
From Stdlib Require Import ZArith Lia.
From stdpp Require Import base list.
From S2P Require Import Prelude.

#[local] Open Scope Z_scope.

Fixpoint bytes_le (n : nat) (w : Z) : list Z :=
  match n with O => [] | S n' => w mod 256 :: bytes_le n' (w / 256) end.

Fixpoint word_le (l : list Z) : Z :=
  match l with [] => 0 | b :: l' => b + 256 * word_le l' end.

(** Read and write [n] bytes at [off]. *)
Definition getl (n : nat) (buf : list Z) (off : nat) : Z := word_le (take n (drop off buf)).
Definition putb (bytes : list Z) (buf : list Z) (off : nat) : list Z :=
  take off buf ++ bytes ++ drop (off + length bytes) buf.
Definition putl (n : nat) (w : Z) (buf : list Z) (off : nat) : list Z :=
  putb (bytes_le n w) buf off.

Definition bfd_getl16 := getl 2.
Definition bfd_getl32 := getl 4.
Definition bfd_putl16 := putl 2.
Definition bfd_putl32 := putl 4.

(** [number_to_chars_littleendian (buf, val, n)]: the low byte first. *)
Definition number_to_chars_littleendian (val : Z) (n : nat) : list Z := bytes_le n val.

(** [number_to_chars_bigendian (buf, val, n)]: filled from the last byte back. *)
Fixpoint number_to_chars_bigendian (val : Z) (n : nat) : list Z :=
  match n with
  | O => []
  | S n' => number_to_chars_bigendian (val / 256) n' ++ [val mod 256]
  end.

Definition md_number_to_chars (target_big_endian : bool) (val : Z) (n : nat) : list Z :=
  if target_big_endian then number_to_chars_bigendian val n
  else number_to_chars_littleendian val n.

(** ** Lemmas *)

Lemma bytes_le_length n w : length (bytes_le n w) = n.
Proof. revert w. induction n; intros w; simpl; auto. Qed.

Lemma word_bytes n w : word_le (bytes_le n w) = w mod 2 ^ (8 * Z.of_nat n).
Proof.
  revert w. induction n as [|n IH]; intros w; [simpl; by rewrite Z.mod_1_r|].
  cbn [bytes_le word_le]. rewrite IH, Nat2Z.inj_succ.
  replace (8 * Z.succ (Z.of_nat n)) with (8 + 8 * Z.of_nat n) by lia.
  rewrite Z.pow_add_r by lia. change (2 ^ 8) with 256. rewrite Z.rem_mul_r by lia. done.
Qed.

Lemma bytes_word n l :
  Forall (fun b => 0 <= b < 256) l -> length l = n -> bytes_le n (word_le l) = l.
Proof.
  revert l. induction n as [|n IH]; intros [|b l] Hl Hn; try done.
  apply Forall_cons in Hl as [Hb Hl]. injection Hn as Hn. cbn [bytes_le word_le].
  assert (E1 : (b + 256 * word_le l) mod 256 = b)
    by (rewrite Z.mul_comm, Z.mod_add, Z.mod_small; lia).
  assert (E2 : (b + 256 * word_le l) / 256 = word_le l)
    by (rewrite Z.mul_comm, Z.div_add, Z.div_small; lia).
  by rewrite E1, E2, IH.
Qed.

Lemma word_le_app l1 l2 : word_le (l1 ++ l2) = word_le l1 + 2 ^ (8 * Z.of_nat (length l1)) * word_le l2.
Proof.
  induction l1 as [|b l1 IH]; [simpl; lia|]. cbn [app word_le length]. rewrite IH, Nat2Z.inj_succ.
  replace (8 * Z.succ (Z.of_nat (length l1))) with (8 + 8 * Z.of_nat (length l1)) by lia.
  rewrite Z.pow_add_r by lia. change (2 ^ 8) with 256. ring.
Qed.

Lemma word_le_bound l :
  Forall (fun b => 0 <= b < 256) l -> 0 <= word_le l < 2 ^ (8 * Z.of_nat (length l)).
Proof.
  induction 1 as [|b l Hb _ IH]; [done|]. cbn [word_le length].
  replace (8 * Z.of_nat (S (length l))) with (8 + 8 * Z.of_nat (length l)) by lia.
  rewrite Z.pow_add_r by lia. change (2 ^ 8) with 256. lia.
Qed.

Lemma putb_length bytes buf off :
  (off + length bytes <= length buf)%nat -> length (putb bytes buf off) = length buf.
Proof. intros H. unfold putb. rewrite !length_app, length_take, length_drop. lia. Qed.

Lemma putl_length n w buf off : (off + n <= length buf)%nat -> length (putl n w buf off) = length buf.
Proof. intros H. apply putb_length. by rewrite bytes_le_length. Qed.

(** Reading back what was written. *)
Lemma getl_putl n w buf off :
  (off + n <= length buf)%nat -> getl n (putl n w buf off) off = w mod 2 ^ (8 * Z.of_nat n).
Proof.
  intros H. unfold getl, putl, putb. rewrite bytes_le_length.
  rewrite drop_app_length' by (rewrite length_take; lia).
  rewrite take_app_length' by (by rewrite bytes_le_length). apply word_bytes.
Qed.

(** Reading the low bytes of what was written. *)
Lemma getl_putl_low k n w buf off :
  (k <= n)%nat -> (off + n <= length buf)%nat ->
  getl k (putl n w buf off) off = w mod 2 ^ (8 * Z.of_nat k).
Proof.
  intros Hk H. unfold getl, putl, putb. rewrite bytes_le_length.
  rewrite drop_app_length' by (rewrite length_take; lia).
  rewrite take_app_le by (by rewrite bytes_le_length).
  assert (E : take k (bytes_le n w) = bytes_le k w).
  { clear H. revert n w Hk. induction k as [|k IH]; intros [|n] w Hk; simpl; try done; [lia|].
    f_equal. apply IH. lia. }
  rewrite E. apply word_bytes.
Qed.

(** A write leaves the bytes in front of it and behind it alone. *)
Lemma getl_putl_after n m w buf off off' :
  (off + n <= off')%nat -> (off + n <= length buf)%nat ->
  getl m (putl n w buf off) off' = getl m buf off'.
Proof.
  intros H1 H2. unfold getl, putl, putb. rewrite bytes_le_length. f_equal. f_equal.
  rewrite app_assoc, drop_app_ge by (rewrite length_app, length_take, bytes_le_length; lia).
  rewrite length_app, length_take, bytes_le_length, drop_drop. f_equal. lia.
Qed.

Lemma getl_putl_before n m w buf off off' :
  (off' + m <= off)%nat -> (off <= length buf)%nat ->
  getl m (putl n w buf off) off' = getl m buf off'.
Proof.
  intros H1 H2. unfold getl, putl, putb. f_equal.
  rewrite drop_app_le by (rewrite length_take; lia).
  rewrite take_app_le by (rewrite length_drop, length_take; lia).
  rewrite <- (take_drop off buf) at 2. rewrite drop_app_le by (rewrite length_take; lia).
  by rewrite take_app_le by (rewrite length_drop, length_take; lia).
Qed.

Lemma md_number_to_chars_word (big : bool) (val : Z) (n : nat) :
  length (md_number_to_chars big val n) = n /\
  word_le (if big then rev (md_number_to_chars big val n) else md_number_to_chars big val n)
  = val mod 2 ^ (8 * Z.of_nat n).
Proof.
  assert (Hbig : forall v m, number_to_chars_bigendian v m = rev (bytes_le m v)).
  { intros v m. revert v. induction m as [|m IH]; intros v; simpl; [done|]. by rewrite IH. }
  unfold md_number_to_chars, number_to_chars_littleendian. destruct big.
  - rewrite Hbig, rev_involutive, length_rev, bytes_le_length. split; [done|apply word_bytes].
  - rewrite bytes_le_length. split; [done|apply word_bytes].
Qed.

(** The field at [off] after a write in either byte order. *)
Lemma word_putb (big : bool) (val : Z) (n : nat) (buf : list Z) (off : nat) :
  (off + n <= length buf)%nat ->
  let bytes := take n (drop off (putb (md_number_to_chars big val n) buf off)) in
  word_le (if big then rev bytes else bytes) = val mod 2 ^ (8 * Z.of_nat n).
Proof.
  intros H. pose proof (md_number_to_chars_word big val n) as [Hl Hw]. unfold putb. cbn zeta.
  rewrite drop_app_length' by (rewrite length_take; lia).
  rewrite take_app_length' by done. done.
Qed.

(** The bytes around a write. *)
Lemma putb_around bytes buf off :
  (off + length bytes <= length buf)%nat ->
  take off (putb bytes buf off) = take off buf /\
  drop (off + length bytes) (putb bytes buf off) = drop (off + length bytes) buf.
Proof.
  intros H. unfold putb. split.
  - rewrite take_app_le by (rewrite length_take; lia). by rewrite take_take, Nat.min_id.
  - rewrite app_assoc, drop_app_length' by (rewrite length_app, length_take; lia). done.
Qed.

(** Both byte orders store the same number: the big-endian layout is the
    little-endian one reversed, and reading the bytes back in the right order
    gives the value modulo 2^(8 n). *)
Theorem md_number_to_chars_value (big : bool) (val : Z) (n : nat) :
  length (md_number_to_chars big val n) = n /\
  word_le (if big then rev (md_number_to_chars big val n) else md_number_to_chars big val n)
  = val mod 2 ^ (8 * Z.of_nat n).
Proof. apply md_number_to_chars_word. Qed.
