(* ===== verification/Howto.v ===== *)
(** * ELF relocations (bfd/elfxx-riscv.c, include/elf/riscv.h)

    The relocation numbers, the howto tables, the map from BFD codes, the
    lookup functions and the special functions of the relocations. *)
From Stdlib Require Import ZArith Bool String Ascii Lia.
From stdpp Require Import base list strings.
From S2P Require Import Prelude OpcodeH RiscvH OpcodeMatch Bytes.

#[local] Open Scope Z_scope.
#[local] Open Scope c_scope.

(** [bfd_reloc_code_real_type]: the codes the RISC-V port names; [RELOC_OTHER]
    is any code of another target. *)
Inductive reloc : Set :=
| BFD_RELOC_NONE | BFD_RELOC_CTOR
| BFD_RELOC_8 | BFD_RELOC_16 | BFD_RELOC_32 | BFD_RELOC_64 | BFD_RELOC_RVA | BFD_RELOC_12_PCREL
| BFD_RELOC_RISCV_HI20 | BFD_RELOC_RISCV_LO12_I | BFD_RELOC_RISCV_LO12_S | BFD_RELOC_RISCV_GOT_HI20
| BFD_RELOC_RISCV_ADD8 | BFD_RELOC_RISCV_ADD16 | BFD_RELOC_RISCV_ADD32 | BFD_RELOC_RISCV_ADD64
| BFD_RELOC_RISCV_SUB6 | BFD_RELOC_RISCV_SUB8 | BFD_RELOC_RISCV_SUB16 | BFD_RELOC_RISCV_SUB32
| BFD_RELOC_RISCV_SUB64 | BFD_RELOC_RISCV_SET6 | BFD_RELOC_RISCV_SET8 | BFD_RELOC_RISCV_SET16
| BFD_RELOC_RISCV_SET32 | BFD_RELOC_RISCV_RELAX | BFD_RELOC_RISCV_SET_ULEB128
| BFD_RELOC_RISCV_SUB_ULEB128 | BFD_RELOC_RISCV_TPREL_HI20 | BFD_RELOC_RISCV_TPREL_LO12_I
| BFD_RELOC_RISCV_TPREL_LO12_S | BFD_RELOC_RISCV_TPREL_ADD | BFD_RELOC_RISCV_TLS_GOT_HI20
| BFD_RELOC_RISCV_TLS_GD_HI20 | BFD_RELOC_RISCV_TLS_DTPMOD32 | BFD_RELOC_RISCV_TLS_DTPMOD64
| BFD_RELOC_RISCV_TLS_DTPREL32 | BFD_RELOC_RISCV_TLS_DTPREL64 | BFD_RELOC_RISCV_TLS_TPREL32
| BFD_RELOC_RISCV_TLS_TPREL64 | BFD_RELOC_RISCV_CFA | BFD_RELOC_RISCV_JMP | BFD_RELOC_RISCV_RVC_BRANCH
| BFD_RELOC_RISCV_RVC_JUMP | BFD_RELOC_RISCV_CALL | BFD_RELOC_RISCV_CALL_PLT
| BFD_RELOC_RISCV_PCREL_HI20 | BFD_RELOC_RISCV_PCREL_LO12_I | BFD_RELOC_RISCV_PCREL_LO12_S
| BFD_RELOC_RISCV_ALIGN | BFD_RELOC_RISCV_32_PCREL | RELOC_OTHER.

#[export] Instance reloc_eq_dec : EqDecision reloc.
Proof. solve_decision. Defined.

(** Relocation numbers; [R_RISCV_RVC_LUI] and the five after [R_RISCV_max]
    carry the values of their second, internal, definition. *)
Abbreviation R_RISCV_NONE := 0%Z (only parsing).
Abbreviation R_RISCV_32 := 1%Z (only parsing).
Abbreviation R_RISCV_64 := 2%Z (only parsing).
Abbreviation R_RISCV_RELATIVE := 3%Z (only parsing).
Abbreviation R_RISCV_COPY := 4%Z (only parsing).
Abbreviation R_RISCV_JUMP_SLOT := 5%Z (only parsing).
Abbreviation R_RISCV_TLS_DTPMOD32 := 6%Z (only parsing).
Abbreviation R_RISCV_TLS_DTPMOD64 := 7%Z (only parsing).
Abbreviation R_RISCV_TLS_DTPREL32 := 8%Z (only parsing).
Abbreviation R_RISCV_TLS_DTPREL64 := 9%Z (only parsing).
Abbreviation R_RISCV_TLS_TPREL32 := 10%Z (only parsing).
Abbreviation R_RISCV_TLS_TPREL64 := 11%Z (only parsing).
Abbreviation R_RISCV_BRANCH := 16%Z (only parsing).
Abbreviation R_RISCV_JAL := 17%Z (only parsing).
Abbreviation R_RISCV_CALL := 18%Z (only parsing).
Abbreviation R_RISCV_CALL_PLT := 19%Z (only parsing).
Abbreviation R_RISCV_GOT_HI20 := 20%Z (only parsing).
Abbreviation R_RISCV_TLS_GOT_HI20 := 21%Z (only parsing).
Abbreviation R_RISCV_TLS_GD_HI20 := 22%Z (only parsing).
Abbreviation R_RISCV_PCREL_HI20 := 23%Z (only parsing).
Abbreviation R_RISCV_PCREL_LO12_I := 24%Z (only parsing).
Abbreviation R_RISCV_PCREL_LO12_S := 25%Z (only parsing).
Abbreviation R_RISCV_HI20 := 26%Z (only parsing).
Abbreviation R_RISCV_LO12_I := 27%Z (only parsing).
Abbreviation R_RISCV_LO12_S := 28%Z (only parsing).
Abbreviation R_RISCV_TPREL_HI20 := 29%Z (only parsing).
Abbreviation R_RISCV_TPREL_LO12_I := 30%Z (only parsing).
Abbreviation R_RISCV_TPREL_LO12_S := 31%Z (only parsing).
Abbreviation R_RISCV_TPREL_ADD := 32%Z (only parsing).
Abbreviation R_RISCV_ADD8 := 33%Z (only parsing).
Abbreviation R_RISCV_ADD16 := 34%Z (only parsing).
Abbreviation R_RISCV_ADD32 := 35%Z (only parsing).
Abbreviation R_RISCV_ADD64 := 36%Z (only parsing).
Abbreviation R_RISCV_SUB8 := 37%Z (only parsing).
Abbreviation R_RISCV_SUB16 := 38%Z (only parsing).
Abbreviation R_RISCV_SUB32 := 39%Z (only parsing).
Abbreviation R_RISCV_SUB64 := 40%Z (only parsing).
Abbreviation R_RISCV_ALIGN := 43%Z (only parsing).
Abbreviation R_RISCV_RVC_BRANCH := 44%Z (only parsing).
Abbreviation R_RISCV_RVC_JUMP := 45%Z (only parsing).
Abbreviation R_RISCV_RELAX := 51%Z (only parsing).
Abbreviation R_RISCV_SUB6 := 52%Z (only parsing).
Abbreviation R_RISCV_SET6 := 53%Z (only parsing).
Abbreviation R_RISCV_SET8 := 54%Z (only parsing).
Abbreviation R_RISCV_SET16 := 55%Z (only parsing).
Abbreviation R_RISCV_SET32 := 56%Z (only parsing).
Abbreviation R_RISCV_32_PCREL := 57%Z (only parsing).
Abbreviation R_RISCV_IRELATIVE := 58%Z (only parsing).
Abbreviation R_RISCV_SET_ULEB128 := 60%Z (only parsing).
Abbreviation R_RISCV_SUB_ULEB128 := 61%Z (only parsing).
Abbreviation R_RISCV_max := 62%Z (only parsing).
Abbreviation R_RISCV_DELETE := 62%Z (only parsing).
Abbreviation R_RISCV_RVC_LUI := 63%Z (only parsing).
Abbreviation R_RISCV_GPREL_I := 64%Z (only parsing).
Abbreviation R_RISCV_GPREL_S := 65%Z (only parsing).
Abbreviation R_RISCV_TPREL_I := 66%Z (only parsing).
Abbreviation R_RISCV_TPREL_S := 67%Z (only parsing).

Inductive complain_overflow : Set :=
| complain_overflow_dont | complain_overflow_bitfield | complain_overflow_signed
| complain_overflow_unsigned.

Inductive special_function_t : Set :=
| SF_bfd_elf_generic_reloc | SF_riscv_elf_add_sub_reloc | SF_riscv_elf_ignore_reloc.

Record reloc_howto_type : Set := mk_howto {
  type_ : Z;
  rightshift : Z;
  reloc_size : nat;
  bitsize : nat;
  pc_relative : bool;
  bitpos : Z;
  complain_on_overflow : complain_overflow;
  special_function : option special_function_t;
  howto_name : option string;
  partial_inplace : bool;
  src_mask : Z;
  dst_mask : Z;
  pcrel_offset : bool;
}.

Definition HOWTO (type right : Z) (size bits : nat) (pcrel : bool) (left : Z) (ovf : complain_overflow)
    (func : special_function_t) (name : string) (inplace : bool) (src_mask dst_mask : Z)
    (pcrel_off : bool) : reloc_howto_type :=
  mk_howto type right size bits pcrel left ovf (Some func) (Some name) inplace src_mask dst_mask
    pcrel_off.

Definition EMPTY_HOWTO (C : Z) : reloc_howto_type :=
  mk_howto C 0 1 0 false 0 complain_overflow_dont None None false 0 0 false.

Definition MINUS_ONE : Z := u64 (0 - 1).

Definition howto_table_1 : list reloc_howto_type :=
  [ HOWTO R_RISCV_NONE 0 0 0 false 0 complain_overflow_dont SF_bfd_elf_generic_reloc "R_RISCV_NONE" false 0 0 false;
    HOWTO R_RISCV_32 0 4 32 false 0 complain_overflow_dont SF_bfd_elf_generic_reloc "R_RISCV_32" false 0 0xffffffff false;
    HOWTO R_RISCV_64 0 8 64 false 0 complain_overflow_dont SF_bfd_elf_generic_reloc "R_RISCV_64" false 0 MINUS_ONE false;
    HOWTO R_RISCV_RELATIVE 0 4 32 false 0 complain_overflow_dont SF_bfd_elf_generic_reloc "R_RISCV_RELATIVE" false 0 0xffffffff false;
    HOWTO R_RISCV_COPY 0 0 0 false 0 complain_overflow_bitfield SF_bfd_elf_generic_reloc "R_RISCV_COPY" false 0 0 false;
    HOWTO R_RISCV_JUMP_SLOT 0 8 64 false 0 complain_overflow_bitfield SF_bfd_elf_generic_reloc "R_RISCV_JUMP_SLOT" false 0 0 false;
    HOWTO R_RISCV_TLS_DTPMOD32 0 4 32 false 0 complain_overflow_dont SF_bfd_elf_generic_reloc "R_RISCV_TLS_DTPMOD32" false 0 0xffffffff false;
    HOWTO R_RISCV_TLS_DTPMOD64 0 8 64 false 0 complain_overflow_dont SF_bfd_elf_generic_reloc "R_RISCV_TLS_DTPMOD64" false 0 MINUS_ONE false;
    HOWTO R_RISCV_TLS_DTPREL32 0 4 32 false 0 complain_overflow_dont SF_bfd_elf_generic_reloc "R_RISCV_TLS_DTPREL32" true 0 0xffffffff false;
    HOWTO R_RISCV_TLS_DTPREL64 0 8 64 false 0 complain_overflow_dont SF_bfd_elf_generic_reloc "R_RISCV_TLS_DTPREL64" true 0 MINUS_ONE false ].

Definition howto_table_2 : list reloc_howto_type :=
  [ HOWTO R_RISCV_TLS_TPREL32 0 4 32 false 0 complain_overflow_dont SF_bfd_elf_generic_reloc "R_RISCV_TLS_TPREL32" false 0 0xffffffff false;
    HOWTO R_RISCV_TLS_TPREL64 0 8 64 false 0 complain_overflow_dont SF_bfd_elf_generic_reloc "R_RISCV_TLS_TPREL64" false 0 MINUS_ONE false;
    EMPTY_HOWTO 12;
    EMPTY_HOWTO 13;
    EMPTY_HOWTO 14;
    EMPTY_HOWTO 15;
    HOWTO R_RISCV_BRANCH 0 4 32 true 0 complain_overflow_signed SF_bfd_elf_generic_reloc "R_RISCV_BRANCH" false 0 (ENCODE_BTYPE_IMM minus_1U) true;
    HOWTO R_RISCV_JAL 0 4 32 true 0 complain_overflow_dont SF_bfd_elf_generic_reloc "R_RISCV_JAL" false 0 (ENCODE_JTYPE_IMM minus_1U) true;
    HOWTO R_RISCV_CALL 0 8 64 true 0 complain_overflow_dont SF_bfd_elf_generic_reloc "R_RISCV_CALL" false 0 (ENCODE_UTYPE_IMM minus_1U .| (ENCODE_ITYPE_IMM minus_1U <<u 32)) true;
    HOWTO R_RISCV_CALL_PLT 0 8 64 true 0 complain_overflow_dont SF_bfd_elf_generic_reloc "R_RISCV_CALL_PLT" false 0 (ENCODE_UTYPE_IMM minus_1U .| (ENCODE_ITYPE_IMM minus_1U <<u 32)) true;
    HOWTO R_RISCV_GOT_HI20 0 4 32 true 0 complain_overflow_dont SF_bfd_elf_generic_reloc "R_RISCV_GOT_HI20" false 0 (ENCODE_UTYPE_IMM minus_1U) false;
    HOWTO R_RISCV_TLS_GOT_HI20 0 4 32 true 0 complain_overflow_dont SF_bfd_elf_generic_reloc "R_RISCV_TLS_GOT_HI20" false 0 (ENCODE_UTYPE_IMM minus_1U) false;
    HOWTO R_RISCV_TLS_GD_HI20 0 4 32 true 0 complain_overflow_dont SF_bfd_elf_generic_reloc "R_RISCV_TLS_GD_HI20" false 0 (ENCODE_UTYPE_IMM minus_1U) false ].

Definition howto_table_3 : list reloc_howto_type :=
  [ HOWTO R_RISCV_PCREL_HI20 0 4 32 true 0 complain_overflow_dont SF_bfd_elf_generic_reloc "R_RISCV_PCREL_HI20" false 0 (ENCODE_UTYPE_IMM minus_1U) true;
    HOWTO R_RISCV_PCREL_LO12_I 0 4 32 false 0 complain_overflow_dont SF_bfd_elf_generic_reloc "R_RISCV_PCREL_LO12_I" false 0 (ENCODE_ITYPE_IMM minus_1U) false;
    HOWTO R_RISCV_PCREL_LO12_S 0 4 32 false 0 complain_overflow_dont SF_bfd_elf_generic_reloc "R_RISCV_PCREL_LO12_S" false 0 (ENCODE_STYPE_IMM minus_1U) false;
    HOWTO R_RISCV_HI20 0 4 32 false 0 complain_overflow_dont SF_bfd_elf_generic_reloc "R_RISCV_HI20" false 0 (ENCODE_UTYPE_IMM minus_1U) false;
    HOWTO R_RISCV_LO12_I 0 4 32 false 0 complain_overflow_dont SF_bfd_elf_generic_reloc "R_RISCV_LO12_I" false 0 (ENCODE_ITYPE_IMM minus_1U) false;
    HOWTO R_RISCV_LO12_S 0 4 32 false 0 complain_overflow_dont SF_bfd_elf_generic_reloc "R_RISCV_LO12_S" false 0 (ENCODE_STYPE_IMM minus_1U) false;
    HOWTO R_RISCV_TPREL_HI20 0 4 32 false 0 complain_overflow_signed SF_bfd_elf_generic_reloc "R_RISCV_TPREL_HI20" true 0 (ENCODE_UTYPE_IMM minus_1U) false;
    HOWTO R_RISCV_TPREL_LO12_I 0 4 32 false 0 complain_overflow_signed SF_bfd_elf_generic_reloc "R_RISCV_TPREL_LO12_I" false 0 (ENCODE_ITYPE_IMM minus_1U) false;
    HOWTO R_RISCV_TPREL_LO12_S 0 4 32 false 0 complain_overflow_signed SF_bfd_elf_generic_reloc "R_RISCV_TPREL_LO12_S" false 0 (ENCODE_STYPE_IMM minus_1U) false ].

Definition howto_table_4 : list reloc_howto_type :=
  [ HOWTO R_RISCV_TPREL_ADD 0 0 0 false 0 complain_overflow_dont SF_bfd_elf_generic_reloc "R_RISCV_TPREL_ADD" false 0 0 false;
    HOWTO R_RISCV_ADD8 0 1 8 false 0 complain_overflow_dont SF_riscv_elf_add_sub_reloc "R_RISCV_ADD8" false 0 0xff false;
    HOWTO R_RISCV_ADD16 0 2 16 false 0 complain_overflow_dont SF_riscv_elf_add_sub_reloc "R_RISCV_ADD16" false 0 0xffff false;
    HOWTO R_RISCV_ADD32 0 4 32 false 0 complain_overflow_dont SF_riscv_elf_add_sub_reloc "R_RISCV_ADD32" false 0 0xffffffff false;
    HOWTO R_RISCV_ADD64 0 8 64 false 0 complain_overflow_dont SF_riscv_elf_add_sub_reloc "R_RISCV_ADD64" false 0 MINUS_ONE false;
    HOWTO R_RISCV_SUB8 0 1 8 false 0 complain_overflow_dont SF_riscv_elf_add_sub_reloc "R_RISCV_SUB8" false 0 0xff false;
    HOWTO R_RISCV_SUB16 0 2 16 false 0 complain_overflow_dont SF_riscv_elf_add_sub_reloc "R_RISCV_SUB16" false 0 0xffff false;
    HOWTO R_RISCV_SUB32 0 4 32 false 0 complain_overflow_dont SF_riscv_elf_add_sub_reloc "R_RISCV_SUB32" false 0 0xffffffff false;
    HOWTO R_RISCV_SUB64 0 8 64 false 0 complain_overflow_dont SF_riscv_elf_add_sub_reloc "R_RISCV_SUB64" false 0 MINUS_ONE false;
    EMPTY_HOWTO 41;
    EMPTY_HOWTO 42 ].

Definition howto_table_5 : list reloc_howto_type :=
  [ HOWTO R_RISCV_ALIGN 0 0 0 false 0 complain_overflow_dont SF_bfd_elf_generic_reloc "R_RISCV_ALIGN" false 0 0 false;
    HOWTO R_RISCV_RVC_BRANCH 0 2 16 true 0 complain_overflow_signed SF_bfd_elf_generic_reloc "R_RISCV_RVC_BRANCH" false 0 (ENCODE_CBTYPE_IMM minus_1U) true;
    HOWTO R_RISCV_RVC_JUMP 0 2 16 true 0 complain_overflow_dont SF_bfd_elf_generic_reloc "R_RISCV_RVC_JUMP" false 0 (ENCODE_CJTYPE_IMM minus_1U) true;
    EMPTY_HOWTO 46;
    EMPTY_HOWTO 47;
    EMPTY_HOWTO 48;
    EMPTY_HOWTO 49;
    EMPTY_HOWTO 50;
    HOWTO R_RISCV_RELAX 0 0 0 false 0 complain_overflow_dont SF_bfd_elf_generic_reloc "R_RISCV_RELAX" false 0 0 false;
    HOWTO R_RISCV_SUB6 0 1 8 false 0 complain_overflow_dont SF_riscv_elf_add_sub_reloc "R_RISCV_SUB6" false 0 0x3f false;
    HOWTO R_RISCV_SET6 0 1 8 false 0 complain_overflow_dont SF_bfd_elf_generic_reloc "R_RISCV_SET6" false 0 0x3f false;
    HOWTO R_RISCV_SET8 0 1 8 false 0 complain_overflow_dont SF_bfd_elf_generic_reloc "R_RISCV_SET8" false 0 0xff false;
    HOWTO R_RISCV_SET16 0 2 16 false 0 complain_overflow_dont SF_bfd_elf_generic_reloc "R_RISCV_SET16" false 0 0xffff false;
    HOWTO R_RISCV_SET32 0 4 32 false 0 complain_overflow_dont SF_bfd_elf_generic_reloc "R_RISCV_SET32" false 0 0xffffffff false ].

Definition howto_table_6 : list reloc_howto_type :=
  [ HOWTO R_RISCV_32_PCREL 0 4 32 true 0 complain_overflow_dont SF_bfd_elf_generic_reloc "R_RISCV_32_PCREL" false 0 0xffffffff false;
    HOWTO R_RISCV_IRELATIVE 0 4 32 false 0 complain_overflow_dont SF_bfd_elf_generic_reloc "R_RISCV_IRELATIVE" false 0 0xffffffff false;
    EMPTY_HOWTO 59;
    HOWTO R_RISCV_SET_ULEB128 0 0 0 false 0 complain_overflow_dont SF_riscv_elf_ignore_reloc "R_RISCV_SET_ULEB128" false 0 0 false;
    HOWTO R_RISCV_SUB_ULEB128 0 0 0 false 0 complain_overflow_dont SF_riscv_elf_ignore_reloc "R_RISCV_SUB_ULEB128" false 0 0 false ].

Definition howto_table : list reloc_howto_type :=
  howto_table_1 ++ howto_table_2 ++ howto_table_3 ++ howto_table_4 ++ howto_table_5 ++ howto_table_6.

Definition howto_table_internal : list reloc_howto_type :=
  [ EMPTY_HOWTO 0;
    HOWTO R_RISCV_RVC_LUI 0 2 16 false 0 complain_overflow_dont SF_bfd_elf_generic_reloc "R_RISCV_RVC_LUI" false 0 (ENCODE_CITYPE_IMM minus_1U) false;
    HOWTO R_RISCV_GPREL_I 0 4 32 false 0 complain_overflow_dont SF_bfd_elf_generic_reloc "R_RISCV_GPREL_I" false 0 (ENCODE_ITYPE_IMM minus_1U) false;
    HOWTO R_RISCV_GPREL_S 0 4 32 false 0 complain_overflow_dont SF_bfd_elf_generic_reloc "R_RISCV_GPREL_S" false 0 (ENCODE_STYPE_IMM minus_1U) false;
    HOWTO R_RISCV_TPREL_I 0 4 32 false 0 complain_overflow_signed SF_bfd_elf_generic_reloc "R_RISCV_TPREL_I" false 0 (ENCODE_ITYPE_IMM minus_1U) false;
    HOWTO R_RISCV_TPREL_S 0 4 32 false 0 complain_overflow_signed SF_bfd_elf_generic_reloc "R_RISCV_TPREL_S" false 0 (ENCODE_STYPE_IMM minus_1U) false ].

Definition riscv_reloc_map : list (reloc * Z) :=
  [ (BFD_RELOC_NONE, R_RISCV_NONE);
    (BFD_RELOC_32, R_RISCV_32);
    (BFD_RELOC_64, R_RISCV_64);
    (BFD_RELOC_RISCV_ADD8, R_RISCV_ADD8);
    (BFD_RELOC_RISCV_ADD16, R_RISCV_ADD16);
    (BFD_RELOC_RISCV_ADD32, R_RISCV_ADD32);
    (BFD_RELOC_RISCV_ADD64, R_RISCV_ADD64);
    (BFD_RELOC_RISCV_SUB8, R_RISCV_SUB8);
    (BFD_RELOC_RISCV_SUB16, R_RISCV_SUB16);
    (BFD_RELOC_RISCV_SUB32, R_RISCV_SUB32);
    (BFD_RELOC_RISCV_SUB64, R_RISCV_SUB64);
    (BFD_RELOC_CTOR, R_RISCV_64);
    (BFD_RELOC_12_PCREL, R_RISCV_BRANCH);
    (BFD_RELOC_RISCV_HI20, R_RISCV_HI20);
    (BFD_RELOC_RISCV_LO12_I, R_RISCV_LO12_I);
    (BFD_RELOC_RISCV_LO12_S, R_RISCV_LO12_S);
    (BFD_RELOC_RISCV_PCREL_LO12_I, R_RISCV_PCREL_LO12_I);
    (BFD_RELOC_RISCV_PCREL_LO12_S, R_RISCV_PCREL_LO12_S);
    (BFD_RELOC_RISCV_CALL, R_RISCV_CALL);
    (BFD_RELOC_RISCV_CALL_PLT, R_RISCV_CALL_PLT);
    (BFD_RELOC_RISCV_PCREL_HI20, R_RISCV_PCREL_HI20);
    (BFD_RELOC_RISCV_JMP, R_RISCV_JAL);
    (BFD_RELOC_RISCV_GOT_HI20, R_RISCV_GOT_HI20);
    (BFD_RELOC_RISCV_TLS_DTPMOD32, R_RISCV_TLS_DTPMOD32);
    (BFD_RELOC_RISCV_TLS_DTPREL32, R_RISCV_TLS_DTPREL32);
    (BFD_RELOC_RISCV_TLS_DTPMOD64, R_RISCV_TLS_DTPMOD64);
    (BFD_RELOC_RISCV_TLS_DTPREL64, R_RISCV_TLS_DTPREL64);
    (BFD_RELOC_RISCV_TLS_TPREL32, R_RISCV_TLS_TPREL32);
    (BFD_RELOC_RISCV_TLS_TPREL64, R_RISCV_TLS_TPREL64);
    (BFD_RELOC_RISCV_TPREL_HI20, R_RISCV_TPREL_HI20);
    (BFD_RELOC_RISCV_TPREL_ADD, R_RISCV_TPREL_ADD);
    (BFD_RELOC_RISCV_TPREL_LO12_S, R_RISCV_TPREL_LO12_S);
    (BFD_RELOC_RISCV_TPREL_LO12_I, R_RISCV_TPREL_LO12_I);
    (BFD_RELOC_RISCV_TLS_GOT_HI20, R_RISCV_TLS_GOT_HI20);
    (BFD_RELOC_RISCV_TLS_GD_HI20, R_RISCV_TLS_GD_HI20);
    (BFD_RELOC_RISCV_ALIGN, R_RISCV_ALIGN);
    (BFD_RELOC_RISCV_RVC_BRANCH, R_RISCV_RVC_BRANCH);
    (BFD_RELOC_RISCV_RVC_JUMP, R_RISCV_RVC_JUMP);
    (BFD_RELOC_RISCV_RELAX, R_RISCV_RELAX);
    (BFD_RELOC_RISCV_SUB6, R_RISCV_SUB6);
    (BFD_RELOC_RISCV_SET6, R_RISCV_SET6);
    (BFD_RELOC_RISCV_SET8, R_RISCV_SET8);
    (BFD_RELOC_RISCV_SET16, R_RISCV_SET16);
    (BFD_RELOC_RISCV_SET32, R_RISCV_SET32);
    (BFD_RELOC_RISCV_32_PCREL, R_RISCV_32_PCREL);
    (BFD_RELOC_RISCV_SET_ULEB128, R_RISCV_SET_ULEB128);
    (BFD_RELOC_RISCV_SUB_ULEB128, R_RISCV_SUB_ULEB128) ].

(** ** Lookup functions *)

(** [riscv_reloc_type_lookup (abfd, code)]; an index past the table would be
    undefined, and is [None] here as well. *)
Fixpoint reloc_map_find (m : list (reloc * Z)) (code : reloc) : option reloc_howto_type :=
  match m with
  | [] => None
  | (bfd_val, elf_val) :: m' =>
      if decide (bfd_val = code) then howto_table !! Z.to_nat elf_val else reloc_map_find m' code
  end.

Definition riscv_reloc_type_lookup (code : reloc) : option reloc_howto_type :=
  reloc_map_find riscv_reloc_map code.

Definition riscv_reloc_name_lookup (r_name : string) : option reloc_howto_type :=
  List.find (fun h => match howto_name h with
                      | Some n => strcasecmp (chars n) (chars r_name) =? 0
                      | None => false
                      end) howto_table.

(** [riscv_elf_rtype_to_howto (abfd, r_type)]. *)
Definition riscv_elf_rtype_to_howto (r_type : Z) : option reloc_howto_type :=
  if r_type <? Z.of_nat (length howto_table) then howto_table !! Z.to_nat r_type
  else if r_type <? R_RISCV_max + Z.of_nat (length howto_table_internal)
  then howto_table_internal !! Z.to_nat (r_type - R_RISCV_max)
  else None.

(** ** Special functions *)

(** [bfd_get] and [bfd_put] in the byte order of the file; other sizes abort. *)
Definition bfd_get (big : bool) (bits : nat) (data : list Z) (off : nat) : option Z :=
  if existsb (Nat.eqb bits) [8; 16; 32; 64]%nat
  then let bytes := take (bits / 8) (drop off data) in
       Some (word_le (if big then rev bytes else bytes))
  else None.

Definition bfd_put (big : bool) (bits : nat) (val : Z) (data : list Z) (off : nat)
  : option (list Z) :=
  if existsb (Nat.eqb bits) [8; 16; 32; 64]%nat
  then Some (putb (md_number_to_chars big val (bits / 8)) data off)
  else None.

Inductive bfd_reloc_status_type : Set :=
| bfd_reloc_ok | bfd_reloc_overflow | bfd_reloc_outofrange | bfd_reloc_continue
| bfd_reloc_notsupported | bfd_reloc_dangerous.

Record arelent : Type := mk_arelent {
  rel_address : Z;
  rel_addend : Z;
  rel_howto : reloc_howto_type;
}.

(** What the special functions ask of the symbol, the sections and the files. *)
Record reloc_context : Type := mk_reloc_context {
  rc_output_bfd : bool;        (* output_bfd != NULL: a relocatable link *)
  rc_section_sym : bool;       (* symbol->flags & BSF_SECTION_SYM *)
  rc_symbol_address : Z;       (* value + output_section->vma + output_offset *)
  rc_output_offset : Z;        (* of the input section *)
  rc_big_endian : bool;
}.

(** [bfd_reloc_offset_in_range]: the field lies within the section. *)
Definition bfd_reloc_offset_in_range (h : reloc_howto_type) (limit octet : Z) : bool :=
  (octet <=? limit) && (Z.of_nat (reloc_size h) <=? limit - octet).

(** The [switch] of [riscv_elf_add_sub_reloc]. *)
Definition add_sub_value (howto : reloc_howto_type) (old_value relocation : Z) : Z :=
  match type_ howto with
  | R_RISCV_ADD8 | R_RISCV_ADD16 | R_RISCV_ADD32 | R_RISCV_ADD64 => u64 (old_value + relocation)
  | R_RISCV_SUB6 =>
      (old_value .& u64 (Z.lnot (dst_mask howto)))
      .| (u64 ((old_value .& dst_mask howto) - relocation) .& dst_mask howto)
  | R_RISCV_SUB8 | R_RISCV_SUB16 | R_RISCV_SUB32 | R_RISCV_SUB64 => u64 (old_value - relocation)
  | _ => relocation
  end.

(** [riscv_elf_add_sub_reloc]; [None] is the abort of [bfd_get]. *)
Definition riscv_elf_add_sub_reloc (ctx : reloc_context) (e : arelent) (data : list Z)
  : option (bfd_reloc_status_type * arelent * list Z) :=
  let howto := rel_howto e in
  if rc_output_bfd ctx && negb (rc_section_sym ctx)
     && (negb (partial_inplace howto) || (rel_addend e =? 0))
  then Some (bfd_reloc_ok,
             mk_arelent (u64 (rel_address e + rc_output_offset ctx)) (rel_addend e) howto, data)
  else if rc_output_bfd ctx then Some (bfd_reloc_continue, e, data)
  else
    let relocation := u64 (rc_symbol_address ctx + rel_addend e) in
    if negb (bfd_reloc_offset_in_range howto (Z.of_nat (length data)) (rel_address e))
    then Some (bfd_reloc_outofrange, e, data)
    else
      let off := Z.to_nat (rel_address e) in
      match bfd_get (rc_big_endian ctx) (bitsize howto) data off with
      | None => None
      | Some old_value =>
          let relocation := add_sub_value howto old_value relocation in
          (fun data => (bfd_reloc_ok, e, data))
          <$> bfd_put (rc_big_endian ctx) (bitsize howto) relocation data off
      end.

(** [riscv_elf_ignore_reloc]. *)
Definition riscv_elf_ignore_reloc (ctx : reloc_context) (e : arelent)
  : bfd_reloc_status_type * arelent :=
  (bfd_reloc_ok,
   if rc_output_bfd ctx
   then mk_arelent (u64 (rel_address e + rc_output_offset ctx)) (rel_addend e) (rel_howto e)
   else e).
