(* ===== verification/HowtoSpec.v ===== *)
(** * Properties of the relocation tables (bfd/elfxx-riscv.c)

    The three ways to find a howto agree, and the ADD/SUB relocations compute
    differences of symbols in place. *)
From Stdlib Require Import ZArith Bool String Ascii Lia.
From stdpp Require Import base list strings.
From S2P Require Import Prelude OpcodeH RiscvH OpcodeMatch Bytes Words Howto.

#[local] Open Scope Z_scope.
#[local] Open Scope c_scope.

(** ** Lookups *)

(** A howto found for relocation number [r] is the entry of that number, and
    its name leads back to it. *)
Definition howto_at (r : Z) (h : reloc_howto_type) : Prop :=
  type_ h = r /\ riscv_elf_rtype_to_howto r = Some h /\
  exists n, howto_name h = Some n /\ riscv_reloc_name_lookup n = Some h.

Definition type_is (r : Z) (o : option reloc_howto_type) : bool :=
  match o with Some h => type_ h =? r | None => false end.

Definition howto_at_b (r : Z) : bool :=
  match howto_table !! Z.to_nat r with
  | Some h => (type_ h =? r)
              && match howto_name h with
                 | Some n => type_is r (riscv_reloc_name_lookup n)
                 | None => false
                 end
  | None => false
  end && (0 <=? r) && (r <? Z.of_nat (length howto_table)).

(** Every entry of the table stands at the index that is its type. *)
Lemma howto_table_indexed :
  forallb (fun i => match howto_table !! i with
                    | Some h => type_ h =? Z.of_nat i
                    | None => false
                    end) (seq 0 (length howto_table)) = true.
Proof. vm_compute. reflexivity. Qed.

Lemma howto_in_table h : In h howto_table -> howto_table !! Z.to_nat (type_ h) = Some h.
Proof.
  intros (i & Hi)%list_elem_of_In%list_elem_of_lookup_1.
  pose proof howto_table_indexed as Ht. rewrite forallb_forall in Ht.
  specialize (Ht i). rewrite Hi in Ht.
  assert (Hl : (i < length howto_table)%nat) by (by apply lookup_lt_Some in Hi).
  assert (E : (type_ h =? Z.of_nat i) = true) by (apply Ht, in_seq; lia).
  apply Z.eqb_eq in E. by rewrite E, Nat2Z.id.
Qed.

Lemma howto_at_b_spec r :
  howto_at_b r = true -> exists h, howto_table !! Z.to_nat r = Some h /\ howto_at r h.
Proof.
  unfold howto_at_b. intros H. breflect.
  destruct (howto_table !! Z.to_nat r) as [h|] eqn:Eh; [|done]. breflect.
  exists h. split; [done|]. split; [done|]. split.
  { unfold riscv_elf_rtype_to_howto. by rewrite (proj2 (Z.ltb_lt r _)) by lia. }
  destruct (howto_name h) as [n|]; [|done]. exists n. split; [done|].
  unfold type_is in *. destruct (riscv_reloc_name_lookup n) as [h'|] eqn:En; [|done]. breflect.
  pose proof (find_some _ _ En) as [Hin _]. apply howto_in_table in Hin. congruence.
Qed.

Lemma riscv_reloc_map_ok : forallb (fun e => howto_at_b (snd e)) riscv_reloc_map = true.
Proof. vm_compute. reflexivity. Qed.

Lemma reloc_map_find_spec m code :
  (exists r, In (code, r) m /\ reloc_map_find m code = howto_table !! Z.to_nat r)
  \/ (reloc_map_find m code = None /\ forall r, ~ In (code, r) m).
Proof.
  induction m as [|[b e] m IH]; [right; split; [done|by intros r []]|].
  cbn [reloc_map_find]. case_decide as Hd; [subst; left; exists e; split; [by left|done]|].
  destruct IH as [(r & Hin & E)|[E Hn]]; [left; exists r; split; [by right|done]|].
  right. split; [done|]. intros r [[= -> ->]|Hin]; [done|by eapply Hn].
Qed.

(** The three ways to find a howto agree: a BFD code of the map leads to
    the entry whose type is the mapped ELF number, that number leads to the
    same entry, and so does the entry's name; a code outside the map has no howto. *)
Theorem riscv_reloc_lookups_agree (code : reloc) :
  match riscv_reloc_type_lookup code with
  | Some h => exists r, In (code, r) riscv_reloc_map /\ howto_at r h
  | None => forall r, ~ In (code, r) riscv_reloc_map
  end.
Proof.
  unfold riscv_reloc_type_lookup.
  destruct (reloc_map_find_spec riscv_reloc_map code) as [(r & Hin & ->)|[-> Hn]]; [|done].
  pose proof riscv_reloc_map_ok as Hok. rewrite forallb_forall in Hok.
  destruct (howto_at_b_spec r (Hok _ Hin)) as (h & -> & Hh). eauto.
Qed.

(** ** Differences of symbols *)

(** The pairs of relocations a difference of two symbols is split into. *)
Definition add_sub_pairs : list (Z * Z * nat) :=
  [ (R_RISCV_ADD8, R_RISCV_SUB8, 1%nat); (R_RISCV_ADD16, R_RISCV_SUB16, 2%nat);
    (R_RISCV_ADD32, R_RISCV_SUB32, 4%nat); (R_RISCV_ADD64, R_RISCV_SUB64, 8%nat) ].

(** [data'] is [data] but for the [n] bytes at [off], which hold [v]. *)
Definition field_set (big : bool) (n : nat) (v : Z) (off : nat) (data data' : list Z) : Prop :=
  bfd_get big (8 * n) data' off = Some (v mod 2 ^ (8 * Z.of_nat n)) /\
  length data' = length data /\ take off data' = take off data /\
  drop (off + n) data' = drop (off + n) data.

Lemma bfd_put_field big n v off data :
  In n [1; 2; 4; 8]%nat -> (off + n <= length data)%nat ->
  exists data', bfd_put big (8 * n) v data off = Some data' /\ field_set big n v off data data'.
Proof.
  intros Hn Hl. set (bytes := md_number_to_chars big v n).
  assert (Hb : length bytes = n) by apply md_number_to_chars_word.
  assert (Hdiv : (8 * n / 8)%nat = n) by (rewrite Nat.mul_comm; apply Nat.div_mul; lia).
  assert (Hsz : existsb (Nat.eqb (8 * n)) [8; 16; 32; 64]%nat = true).
  { cbn [In] in Hn. destruct Hn as [<-|[<-|[<-|[<-|[]]]]]; reflexivity. }
  exists (putb bytes data off). unfold field_set, bfd_put, bfd_get. rewrite Hsz, Hdiv.
  split; [done|]. split; [f_equal; by apply word_putb|].
  split; [apply putb_length; lia|]. rewrite <- Hb. apply putb_around. lia.
Qed.

Lemma field_set_trans big n v v' off d1 d2 d3 :
  field_set big n v off d1 d2 -> field_set big n v' off d2 d3 -> field_set big n v' off d1 d3.
Proof. unfold field_set. intros (_ & ? & ? & ?) (? & ? & ? & ?). intuition congruence. Qed.

Lemma field_set_mod big n v v' off d d' :
  v mod 2 ^ (8 * Z.of_nat n) = v' mod 2 ^ (8 * Z.of_nat n) ->
  field_set big n v off d d' -> field_set big n v' off d d'.
Proof. unfold field_set. by intros ->. Qed.

Lemma u64_mod_field x n : In n [1; 2; 4; 8]%nat -> u64 x mod 2 ^ (8 * Z.of_nat n) = x mod 2 ^ (8 * Z.of_nat n).
Proof.
  intros Hn. unfold u64. apply Z.mod_mod_divide.
  cbn [In] in Hn. destruct Hn as [<-|[<-|[<-|[<-|[]]]]]; [exists (2^56)|exists (2^48)|exists (2^32)|exists 1]; reflexivity.
Qed.

Definition final_context (big : bool) (sym : Z) : reloc_context :=
  mk_reloc_context false false sym 0 big.

Lemma add_sub_final big sym h addend off data n :
  bitsize h = (8 * n)%nat -> reloc_size h = n ->
  In n [1; 2; 4; 8]%nat -> (off + n <= length data)%nat ->
  exists old data', bfd_get big (8 * n) data off = Some old /\
    riscv_elf_add_sub_reloc (final_context big sym) (mk_arelent (Z.of_nat off) addend h) data
    = Some (bfd_reloc_ok, mk_arelent (Z.of_nat off) addend h, data') /\
    field_set big n (add_sub_value h old (u64 (sym + addend))) off data data'.
Proof.
  intros Hb Hs Hn Hl.
  assert (Hold : exists old, bfd_get big (8 * n) data off = Some old).
  { unfold bfd_get. cbn [In] in Hn.
    destruct Hn as [<-|[<-|[<-|[<-|[]]]]]; eexists; reflexivity. }
  destruct Hold as [old Ho]. exists old.
  destruct (bfd_put_field big n (add_sub_value h old (u64 (sym + addend))) off data Hn Hl)
    as (data' & Hp & Hf).
  exists data'. split; [done|]. split; [|done].
  unfold riscv_elf_add_sub_reloc, final_context, bfd_reloc_offset_in_range. cbn -[add_sub_value Nat.mul bfd_put bfd_get].
  rewrite Hs, Hb, Nat2Z.id, Ho.
  rewrite (proj2 (Z.leb_le (Z.of_nat off) _)) by lia.
  rewrite (proj2 (Z.leb_le (Z.of_nat n) _)) by lia. cbn [andb negb]. by rewrite Hp.
Qed.

(** A difference of symbols is computed in place: applied to the same
    field, the R_RISCV_ADD and R_RISCV_SUB relocations of its width add the
    first symbol and subtract the second, modulo the width of the field, in
    either byte order and whatever the field held, and change no other byte. *)
Theorem add_sub_relocs_difference (big : bool) (add sub : Z) (n : nat) (ha hs : reloc_howto_type)
    (sym1 addend1 sym2 addend2 old : Z) (off : nat) (data : list Z) :
  In (add, sub, n) add_sub_pairs ->
  riscv_elf_rtype_to_howto add = Some ha -> riscv_elf_rtype_to_howto sub = Some hs ->
  (off + n <= length data)%nat -> bfd_get big (8 * n) data off = Some old ->
  exists data1 data2,
    riscv_elf_add_sub_reloc (final_context big sym1) (mk_arelent (Z.of_nat off) addend1 ha) data
    = Some (bfd_reloc_ok, mk_arelent (Z.of_nat off) addend1 ha, data1) /\
    riscv_elf_add_sub_reloc (final_context big sym2) (mk_arelent (Z.of_nat off) addend2 hs) data1
    = Some (bfd_reloc_ok, mk_arelent (Z.of_nat off) addend2 hs, data2) /\
    field_set big n (old + (sym1 + addend1) - (sym2 + addend2)) off data data2.
Proof.
  intros Hin Ha Hs Hl Hold.
  assert (Hw : In n [1; 2; 4; 8]%nat /\ bitsize ha = (8 * n)%nat /\ reloc_size ha = n /\
    bitsize hs = (8 * n)%nat /\ reloc_size hs = n /\
    (forall o r, add_sub_value ha o r = u64 (o + r)) /\
    (forall o r, add_sub_value hs o r = u64 (o - r))).
  { unfold add_sub_pairs in Hin. cbn [In] in Hin.
    destruct Hin as [[= <- <- <-]|[[= <- <- <-]|[[= <- <- <-]|[[= <- <- <-]|[]]]]];
      vm_compute in Ha; vm_compute in Hs; injection Ha as <-; injection Hs as <-;
      (split; [simpl; tauto|]); repeat (split; [reflexivity|]); split; reflexivity. }
  destruct Hw as (Hn & Ba & Sa & Bs & Ss & Va & Vs).
  destruct (add_sub_final big sym1 ha addend1 off data n Ba Sa Hn Hl)
    as (o1 & d1 & Ho1 & R1 & F1).
  rewrite Hold in Ho1. injection Ho1 as <-. rewrite Va in F1.
  destruct (add_sub_final big sym2 hs addend2 off d1 n Bs Ss Hn) as (o2 & d2 & Ho2 & R2 & F2).
  { destruct F1 as (_ & -> & _). done. }
  exists d1, d2. split; [done|]. split; [done|].
  refine (field_set_mod _ _ _ _ _ _ _ _ (field_set_trans _ _ _ _ _ _ _ _ F1 F2)).
  destruct F1 as (Ho & _). rewrite Ho in Ho2. injection Ho2 as <-.
  rewrite Vs, (u64_mod_field _ _ Hn). rewrite Zminus_mod, Z.mod_mod, (u64_mod_field _ _ Hn) by lia.
  rewrite !u64_mod_field, <- Zminus_mod, Zminus_mod by done.
  rewrite (Zplus_mod old), u64_mod_field, <- Zplus_mod, <- Zminus_mod by done. reflexivity.
Qed.

Lemma add_sub_relocs_difference_witness :
  exists ha hs data1 data2,
    riscv_elf_add_sub_reloc (final_context false 0x1010) (mk_arelent 1 4 ha) [7; 1; 0; 9]
    = Some (bfd_reloc_ok, mk_arelent 1 4 ha, data1) /\
    riscv_elf_add_sub_reloc (final_context false 0x1000) (mk_arelent 1 0 hs) data1
    = Some (bfd_reloc_ok, mk_arelent 1 0 hs, data2) /\
    field_set false 2 21 1 [7; 1; 0; 9] data2.
Proof.
  destruct (riscv_elf_rtype_to_howto R_RISCV_ADD16) as [ha|] eqn:Ha; [|discriminate].
  destruct (riscv_elf_rtype_to_howto R_RISCV_SUB16) as [hs|] eqn:Hs; [|discriminate].
  exists ha, hs.
  apply (add_sub_relocs_difference false R_RISCV_ADD16 R_RISCV_SUB16 2 ha hs 0x1010 4 0x1000 0 1 1
           [7; 1; 0; 9]); [vm_compute; tauto|done|done|simpl; lia|reflexivity].
Defined.
