(* ===== verification/Fixups.v ===== *)
(** * Applying fixups (gas/config/tc-riscv.c)

    [md_apply_fix], [riscv_apply_const_reloc] and the table of PC-relative high
    parts.  A fixup is applied to the bytes of its frag; the fixups chained
    after it are returned as a list, errors as a log. *)
From Stdlib Require Import ZArith Bool Lia.
From stdpp Require Import base list gmap.
From S2P Require Import Prelude OpcodeH RiscvH Bytes Howto.

#[local] Open Scope Z_scope.
#[local] Open Scope c_scope.

(** What is asked of a symbol. *)
Record symbol : Type := mk_symbol {
  S_IS_DEFINED : bool;
  S_IS_WEAK : bool;
  S_IS_LOCAL : bool;
  S_GET_SEGMENT : nat;
  S_IN_EH_FRAME : bool;      (* the segment is named .eh_frame *)
  S_GET_VALUE : Z;
}.

(** The frag a fixup points into: its own, or that of [fr_opcode]. *)
Inductive frag_ref : Set := Own_frag | Opcode_frag.

Record fixS : Type := mk_fix {
  fx_r_type : reloc;
  fx_addsy : option symbol;
  fx_subsy : option symbol;
  fx_where : nat;
  fx_size : nat;
  fx_offset : Z;
  fx_addnumber : Z;
  fx_done : bool;
  fx_tcbit : bool;
  fx_source_macro : Z;
  fx_frag : frag_ref;
}.

Definition set_r_type (f : fixS) (r : reloc) : fixS :=
  mk_fix r (fx_addsy f) (fx_subsy f) (fx_where f) (fx_size f) (fx_offset f) (fx_addnumber f) (fx_done f) (fx_tcbit f)
    (fx_source_macro f) (fx_frag f).
Definition set_done (f : fixS) : fixS :=
  mk_fix (fx_r_type f) (fx_addsy f) (fx_subsy f) (fx_where f) (fx_size f) (fx_offset f)
    (fx_addnumber f) true
    (fx_tcbit f) (fx_source_macro f) (fx_frag f).
Definition set_syms (f : fixS) (add sub : option symbol) : fixS :=
  mk_fix (fx_r_type f) add sub (fx_where f) (fx_size f) (fx_offset f) (fx_addnumber f) (fx_done f)
    (fx_tcbit f) (fx_source_macro f) (fx_frag f).
Definition set_place (f : fixS) (where_ size : nat) : fixS :=
  mk_fix (fx_r_type f) (fx_addsy f) (fx_subsy f) where_ size (fx_offset f) (fx_addnumber f) (fx_done f)
    (fx_tcbit f) (fx_source_macro f) (fx_frag f).
Definition set_offset (f : fixS) (o : Z) : fixS :=
  mk_fix (fx_r_type f) (fx_addsy f) (fx_subsy f) (fx_where f) (fx_size f) o (fx_addnumber f) (fx_done f)
    (fx_tcbit f) (fx_source_macro f) (fx_frag f).
Definition set_addnumber (f : fixS) (n : Z) : fixS :=
  mk_fix (fx_r_type f) (fx_addsy f) (fx_subsy f) (fx_where f) (fx_size f) (fx_offset f) n
    (fx_done f) (fx_tcbit f) (fx_source_macro f) (fx_frag f).
Definition set_frag (f : fixS) (r : frag_ref) : fixS :=
  mk_fix (fx_r_type f) (fx_addsy f) (fx_subsy f) (fx_where f) (fx_size f) (fx_offset f) (fx_addnumber f) (fx_done f)
    (fx_tcbit f) (fx_source_macro f) r.

(** The surroundings: the frag of the fixup, the section, the options. *)
Record fix_env : Type := mk_fix_env {
  frag_address : Z;
  frag_fix : nat;             (* fr_fix *)
  opcode_byte : Z;            (* fr_literal[fx_where] of the frag in fr_opcode *)
  env_seg : nat;
  opt_relax : bool;           (* riscv_opts.relax *)
  target_big_endian : bool;
}.

Record riscv_pcrel_hi_fixup : Type := mk_pcrel { hi_symbol : symbol; hi_target : Z }.

Inductive fix_error : Set := FE_tls_constant | FE_subtract.

(** What one call changes. *)
Record fix_state : Type := mk_fix_state {
  st_buf : list Z;
  st_fix : fixS;
  st_next : list fixS;                          (* fixups chained after it *)
  st_pcrel : gmap Z riscv_pcrel_hi_fixup;       (* riscv_pcrel_hi_fixup_hash *)
  st_tls : bool;                                (* S_SET_THREAD_LOCAL (fx_addsy) *)
  st_errors : list fix_error;
}.

Definition md_pcrel_from (env : fix_env) (f : fixS) : Z := u64 (Z.of_nat (fx_where f) + frag_address env).

(** [riscv_record_pcrel_fixup]: a later entry for an address replaces it. *)
Definition riscv_record_pcrel_fixup (p : gmap Z riscv_pcrel_hi_fixup) (address : Z) (s : symbol)
    (target : Z) : gmap Z riscv_pcrel_hi_fixup :=
  <[address := mk_pcrel s target]> p.

(** [riscv_apply_const_reloc]; [None] is [abort]. *)
Definition riscv_apply_const_reloc (r : reloc) (value : Z) : option Z :=
  match r with
  | BFD_RELOC_32 => Some value
  | BFD_RELOC_RISCV_HI20 => Some (ENCODE_UTYPE_IMM (RISCV_CONST_HIGH_PART value))
  | BFD_RELOC_RISCV_LO12_S => Some (ENCODE_STYPE_IMM value)
  | BFD_RELOC_RISCV_LO12_I => Some (ENCODE_ITYPE_IMM value)
  | _ => None
  end.

(** The difference of two symbols becomes a pair of relocations; the pair of
    types and, for CFA, the new place.  [None] is [as_fatal] or [abort]. *)
Definition split_difference (env : fix_env) (f : fixS) : option (fixS * fixS) :=
  let nx := set_offset (set_syms f (fx_subsy f) None) 0 in
  let f := set_syms f (fx_addsy f) None in
  let both r1 r2 := Some (set_r_type f r1, set_r_type nx r2) in
  match fx_r_type f with
  | BFD_RELOC_64 => both BFD_RELOC_RISCV_ADD64 BFD_RELOC_RISCV_SUB64
  | BFD_RELOC_32 => both BFD_RELOC_RISCV_ADD32 BFD_RELOC_RISCV_SUB32
  | BFD_RELOC_16 => both BFD_RELOC_RISCV_ADD16 BFD_RELOC_RISCV_SUB16
  | BFD_RELOC_8 => both BFD_RELOC_RISCV_ADD8 BFD_RELOC_RISCV_SUB8
  | BFD_RELOC_RISCV_CFA =>
      let subtype := opcode_byte env in
      let loc := (frag_fix env - Z.to_nat (subtype .& 7))%nat in
      if subtype =? 0x02 (* DW_CFA_advance_loc1 *) then
        Some (set_r_type (set_place f (loc + 1) (fx_size f)) BFD_RELOC_RISCV_SET8,
              set_r_type (set_place nx (loc + 1) (fx_size nx)) BFD_RELOC_RISCV_SUB8)
      else if subtype =? 0x03 (* DW_CFA_advance_loc2 *) then
        Some (set_r_type (set_place f (loc + 1) 2) BFD_RELOC_RISCV_SET16,
              set_r_type (set_place nx (loc + 1) 2) BFD_RELOC_RISCV_SUB16)
      else if subtype =? 0x04 (* DW_CFA_advance_loc4 *) then
        Some (set_r_type (set_place f loc 4) BFD_RELOC_RISCV_SET32,
              set_r_type (set_place nx loc 4) BFD_RELOC_RISCV_SUB32)
      else if (subtype <? 0x80) && negb ((subtype .& 0x40) =? 0) then
        Some (set_r_type (set_frag f Opcode_frag) BFD_RELOC_RISCV_SET6,
              set_r_type (set_frag nx Opcode_frag) BFD_RELOC_RISCV_SUB6)
      else None
  | _ => None
  end.

(** [case BFD_RELOC_RVA] and what falls through to it: fill the value in if no
    symbol is left; [None] is the failed assertion on the size. *)
Definition fill_value (env : fix_env) (val : Z) (st : fix_state) : option fix_state :=
  let f := st_fix st in
  match fx_addsy f with
  | Some _ => Some st
  | None =>
      if (fx_size f <=? 8)%nat then
        Some (mk_fix_state
                (putb (md_number_to_chars (target_big_endian env) val (fx_size f)) (st_buf st)
                   (fx_where f))
                (set_done f) (st_next st) (st_pcrel st) (st_tls st) (st_errors st))
      else None
  end.

(** Data relocations: [BFD_RELOC_32] and the cases it falls through to. *)
Definition fix_data (env : fix_env) (val : Z) (st : fix_state) : option fix_state :=
  let f := st_fix st in
  let general :=
    match fx_addsy f, fx_subsy f with
    | Some _, Some _ =>
        match split_difference env f with
        | Some (f', nx) =>
            fill_value env val
              (mk_fix_state (st_buf st) f' (nx :: st_next st) (st_pcrel st) (st_tls st)
                 (st_errors st))
        | None => None
        end
    | _, _ => fill_value env val st
    end in
  match fx_r_type f, fx_addsy f, fx_subsy f with
  | BFD_RELOC_32, Some _, Some sub =>
      if S_IN_EH_FRAME sub
         && (S_GET_VALUE sub =? u64 (frag_address env + Z.of_nat (fx_where f)))
      then Some (mk_fix_state (st_buf st)
                   (set_r_type (set_syms f (fx_addsy f) None) BFD_RELOC_RISCV_32_PCREL)
                   (st_next st) (st_pcrel st) (st_tls st) (st_errors st))
      else general
  | _, _, _ => general
  end.

Definition set_buf (st : fix_state) (buf : list Z) : fix_state :=
  mk_fix_state buf (st_fix st) (st_next st) (st_pcrel st) (st_tls st) (st_errors st).
Definition set_fix (st : fix_state) (f : fixS) : fix_state :=
  mk_fix_state (st_buf st) f (st_next st) (st_pcrel st) (st_tls st) (st_errors st).

(** Or [bits] into the instruction of [n] bytes at the fixup. *)
Definition or_insn (n : nat) (bits : Z) (st : fix_state) : fix_state :=
  let off := fx_where (st_fix st) in
  set_buf st (putl n (getl n (st_buf st) off .| bits) (st_buf st) off).

(** A PC-relative branch field, filled in tentatively if there is a symbol. *)
Definition fix_branch (env : fix_env) (n : nat) (encode : Z -> Z) (val : Z) (st : fix_state)
  : fix_state :=
  match fx_addsy (st_fix st) with
  | Some s => let target := u64 (S_GET_VALUE s + val) in
              let delta := u64 (target - md_pcrel_from env (st_fix st)) in
              or_insn n (encode delta) st
  | None => st
  end.

(** TLS relocations need a symbol. *)
Definition fix_tls (st : fix_state) : fix_state :=
  match fx_addsy (st_fix st) with
  | Some _ => mk_fix_state (st_buf st) (st_fix st) (st_next st) (st_pcrel st) true (st_errors st)
  | None => mk_fix_state (st_buf st) (st_fix st) (st_next st) (st_pcrel st) (st_tls st)
              (st_errors st ++ [FE_tls_constant])
  end.

Definition fix_pcrel_hi (env : fix_env) (val : Z) (st : fix_state) : fix_state :=
  match fx_addsy (st_fix st) with
  | Some s =>
      if S_IS_LOCAL s && (S_GET_SEGMENT s =? env_seg env)%nat then
        let target := u64 (S_GET_VALUE s + val) in
        let value := u64 (target - md_pcrel_from env (st_fix st)) in
        let pcrel := riscv_record_pcrel_fixup (st_pcrel st) (md_pcrel_from env (st_fix st)) s target in
        let st := mk_fix_state (st_buf st) (st_fix st) (st_next st) pcrel (st_tls st) (st_errors st) in
        let st := or_insn 4 (ENCODE_UTYPE_IMM (RISCV_CONST_HIGH_PART value)) st in
        if negb (opt_relax env) then set_fix st (set_done (st_fix st)) else st
      else st
  | None => st
  end.

(** [None] is the dereference of a null [fx_addsy]. *)
Definition fix_pcrel_lo (env : fix_env) (val : Z) (st : fix_state) : option fix_state :=
  match fx_addsy (st_fix st) with
  | None => None
  | Some s =>
      let location_pcrel_hi := u64 (S_GET_VALUE s + val) in
      match st_pcrel st !! location_pcrel_hi with
      | Some entry =>
          if S_IS_LOCAL (hi_symbol entry)
             && (S_GET_SEGMENT (hi_symbol entry) =? env_seg env)%nat then
            let value := u64 (hi_target entry - location_pcrel_hi) in
            let st := or_insn 4 (ENCODE_ITYPE_IMM value) st in
            Some (if negb (opt_relax env) then set_fix st (set_done (st_fix st)) else st)
          else Some st
      | None => Some st
      end
  end.

(** The [switch]: the new state and [relaxable]; [None] is a fatal error. *)
Definition fix_switch (env : fix_env) (val : Z) (st : fix_state) : option (fix_state * bool) :=
  let keep r := (fun st => (st, r)) <$> Some st in
  match fx_r_type (st_fix st) with
  | (BFD_RELOC_RISCV_HI20 | BFD_RELOC_RISCV_LO12_I | BFD_RELOC_RISCV_LO12_S) as r =>
      match riscv_apply_const_reloc r val with
      | Some bits =>
          let st := or_insn 4 bits st in
          Some (match fx_addsy (st_fix st) with
                | None => set_fix st (set_done (st_fix st))
                | Some _ => st
                end, true)
      | None => None
      end
  | BFD_RELOC_RISCV_GOT_HI20 =>
      keep ((fx_source_macro (st_fix st) =? M_LA) || (fx_source_macro (st_fix st) =? M_LGA))
  | BFD_RELOC_RISCV_ADD8 | BFD_RELOC_RISCV_ADD16 | BFD_RELOC_RISCV_ADD32 | BFD_RELOC_RISCV_ADD64
  | BFD_RELOC_RISCV_SUB6 | BFD_RELOC_RISCV_SUB8 | BFD_RELOC_RISCV_SUB16 | BFD_RELOC_RISCV_SUB32
  | BFD_RELOC_RISCV_SUB64 | BFD_RELOC_RISCV_RELAX | BFD_RELOC_RISCV_SET_ULEB128
  | BFD_RELOC_RISCV_SUB_ULEB128 | BFD_RELOC_RISCV_ALIGN => keep false
  | BFD_RELOC_RISCV_TPREL_HI20 | BFD_RELOC_RISCV_TPREL_LO12_I | BFD_RELOC_RISCV_TPREL_LO12_S
  | BFD_RELOC_RISCV_TPREL_ADD => Some (fix_tls st, true)
  | BFD_RELOC_RISCV_TLS_GOT_HI20 | BFD_RELOC_RISCV_TLS_GD_HI20 | BFD_RELOC_RISCV_TLS_DTPREL32
  | BFD_RELOC_RISCV_TLS_DTPREL64 => Some (fix_tls st, false)
  | BFD_RELOC_32 | BFD_RELOC_64 | BFD_RELOC_16 | BFD_RELOC_8 | BFD_RELOC_RISCV_CFA =>
      (fun st => (st, false)) <$> fix_data env val st
  | BFD_RELOC_RVA => (fun st => (st, false)) <$> fill_value env val st
  | BFD_RELOC_RISCV_JMP => Some (fix_branch env 4 ENCODE_JTYPE_IMM val st, false)
  | BFD_RELOC_12_PCREL => Some (fix_branch env 4 ENCODE_BTYPE_IMM val st, false)
  | BFD_RELOC_RISCV_RVC_BRANCH => Some (fix_branch env 2 ENCODE_CBTYPE_IMM val st, false)
  | BFD_RELOC_RISCV_RVC_JUMP => Some (fix_branch env 2 ENCODE_CJTYPE_IMM val st, false)
  | BFD_RELOC_RISCV_CALL | BFD_RELOC_RISCV_CALL_PLT => keep true
  | BFD_RELOC_RISCV_PCREL_HI20 => Some (fix_pcrel_hi env val st, true)
  | BFD_RELOC_RISCV_PCREL_LO12_S | BFD_RELOC_RISCV_PCREL_LO12_I =>
      (fun st => (st, true)) <$> fix_pcrel_lo env val st
  | r => match riscv_reloc_type_lookup r with
         | Some _ => None   (* internal: bad relocation *)
         | None => keep false
         end
  end.

(** [md_apply_fix (fixP, valP, seg)]. *)
Definition md_apply_fix (env : fix_env) (val : Z) (buf : list Z) (f : fixS)
    (pcrel : gmap Z riscv_pcrel_hi_fixup) : option fix_state :=
  match fix_switch env val (mk_fix_state buf (set_addnumber f val) [] pcrel false []) with
  | None => None
  | Some (st, relaxable) =>
      let errors := match fx_subsy (st_fix st) with
                    | Some _ => st_errors st ++ [FE_subtract]
                    | None => st_errors st
                    end in
      let f := st_fix st in
      let next := match fx_addsy f with
                  | Some _ =>
                      if relaxable && fx_tcbit f
                      then set_place (set_r_type (set_syms f None None) BFD_RELOC_RISCV_RELAX)
                             (fx_where f) 0 :: st_next st
                      else st_next st
                  | None => st_next st
                  end in
      Some (mk_fix_state (st_buf st) f next (st_pcrel st) (st_tls st) errors)
  end.
