(* ===== verification/FixupsSpec.v ===== *)
(** * What applied fixups mean

    The high and low parts [md_apply_fix] writes add up to the value or reach
    the target, for absolute and for PC-relative pairs. *)
From Stdlib Require Import ZArith Bool Lia.
From stdpp Require Import base list gmap.
From S2P Require Import Prelude OpcodeH RiscvH Immediates Words Bytes Howto Fixups.

#[local] Open Scope Z_scope.
#[local] Open Scope c_scope.

(** ** High and low parts *)

(** A field only depends on the bits below its end. *)
Lemma RV_X_congr x y s n m :
  0 <= s -> 0 <= n -> s + n <= m -> x mod 2 ^ m = y mod 2 ^ m -> RV_X x s n = RV_X y s n.
Proof.
  intros Hs Hn Hm H. apply Z.bits_inj'. intros i Hi. rewrite !RV_X_testbit by lia.
  destruct (Z.ltb_spec i n); simpl; [|by rewrite ?andb_false_r].
  assert (E : Z.testbit (x mod 2 ^ m) (s + i) = Z.testbit (y mod 2 ^ m) (s + i)) by (by rewrite H).
  rewrite !Z.mod_pow2_bits_low in E by lia. 
  by rewrite E.
Qed.

(** The part of [v] an auipc or lui adds, and the part a 12-bit immediate adds. *)
Definition hi_part (v : Z) : Z := s32 (v + 2048 - (v + 2048) mod 4096).
Definition lo_part (v : Z) : Z := swrap 12 v.

Lemma const_high_part v :
  RISCV_CONST_HIGH_PART (u64 v) = u64 (v + 2048) - (v + 2048) mod 4096.
Proof.
  unfold RISCV_CONST_HIGH_PART. change (RISCV_IMM_REACH / 2) with 2048.
  change (u64 (Z.lnot (RISCV_IMM_REACH - 1))) with (Z.ldiff (Z.ones 64) (Z.ones 12)).
  assert (E : u64 (u64 v + 2048) = u64 (v + 2048)) by u64_ring. rewrite E.
  set (x := v + 2048).
  replace (u64 x .& Z.ldiff (Z.ones 64) (Z.ones 12)) with (Z.ldiff (u64 x .& Z.ones 64) (Z.ones 12))
    by (apply Z.bits_inj'; intros i Hi;
        by rewrite Z.land_spec, !Z.ldiff_spec, Z.land_spec, andb_assoc).
  rewrite Z.land_ones by lia. unfold u64 at 1. rewrite Z.mod_mod by lia. fold (u64 x).
  rewrite Z.ldiff_ones_r, Z.shiftr_div_pow2, Z.shiftl_mul_pow2 by lia.
  change (2 ^ 12) with 4096. clearbody x. clear v E. u64_ring.
Qed.

Lemma encode_hi v : ENCODE_UTYPE_IMM (RISCV_CONST_HIGH_PART (u64 v)) = ENCODE_UTYPE_IMM (u64 (hi_part v)).
Proof.
  unfold ENCODE_UTYPE_IMM. f_equal. apply (RV_X_congr _ _ _ _ 32); [lia..|].
  rewrite const_high_part. unfold hi_part, s32. u64_ring.
Qed.

Lemma encode_lo_i v : ENCODE_ITYPE_IMM (u64 v) = ENCODE_ITYPE_IMM (u64 (lo_part v)).
Proof.
  unfold ENCODE_ITYPE_IMM. f_equal. apply (RV_X_congr _ _ _ _ 12); [lia..|].
  unfold lo_part. u64_ring.
Qed.

Lemma encode_lo_s v : ENCODE_STYPE_IMM (u64 v) = ENCODE_STYPE_IMM (u64 (lo_part v)).
Proof.
  assert (E : u64 v mod 2 ^ 12 = u64 (lo_part v) mod 2 ^ 12) by (unfold lo_part; u64_ring).
  unfold ENCODE_STYPE_IMM. f_equal; f_equal; apply (RV_X_congr _ _ _ _ 12); lia || done.
Qed.

Lemma hi_part_range v : in_range (Signed 12 32) (hi_part v).
Proof.
  split; [|apply (swrap_range 32); lia]. unfold hi_part, s32. change (2 ^ 12) with 4096.
  u64_ring.
Qed.

Lemma lo_part_range v : in_range (Signed 0 12) (lo_part v).
Proof. split; [apply Z.mod_1_r|apply (swrap_range 12); lia]. Qed.

(** The parts add up: modulo 2^32 always, exactly below 2^31 - 2^11. *)
Lemma hi_lo_sum v :
  u32 (u64 (hi_part v) + u64 (lo_part v)) = u32 v /\
  (- 2 ^ 31 <= v < 2 ^ 31 - 2 ^ 11 -> hi_part v + lo_part v = v).
Proof. unfold hi_part, lo_part, s32, u32. split; [u64_ring|intros Hv; u64_ring]. Qed.

(** ** Words in the buffer *)

(** Reading a word back after another one was or-ed into the buffer. *)
Lemma getl_or_same buf off w b :
  (off + 4 <= length buf)%nat -> getl 4 buf off = w -> 0 <= w < 2 ^ 32 -> 0 <= b < 2 ^ 32 ->
  getl 4 (putl 4 (w .| b) buf off) off = w .| b.
Proof.
  intros Hl Hw Hwr Hb. rewrite getl_putl by done. apply Z.mod_small. by apply lor_range.
Qed.

Lemma getl_disjoint buf off off' w :
  (off + 4 <= off' \/ off' + 4 <= off)%nat -> (off + 4 <= length buf)%nat ->
  getl 4 (putl 4 w buf off) off' = getl 4 buf off'.
Proof.
  intros [H|H] Hl; [by apply getl_putl_after|apply getl_putl_before; lia].
Qed.

Lemma getl_range n buf off : Forall (fun b => 0 <= b < 256) buf -> 0 <= getl n buf off < 2 ^ (8 * Z.of_nat n).
Proof.
  intros H. unfold getl. assert (Hf : Forall (fun b => 0 <= b < 256) (take n (drop off buf)))
    by (by apply Forall_take, Forall_drop).
  assert (Hl : (length (take n (drop off buf)) <= n)%nat) by (rewrite length_take; lia).
  revert Hf Hl. generalize (take n (drop off buf)) as l. intros l Hf. revert n.
  induction Hf as [|b l Hb _ IH]; intros n Hl; cbn [word_le].
  { split; [lia|]. apply Z.pow_pos_nonneg; lia. }
  destruct n as [|n]; [simpl in Hl; lia|]. simpl in Hl. specialize (IH n ltac:(lia)).
  rewrite Nat2Z.inj_succ. replace (8 * Z.succ (Z.of_nat n)) with (8 + 8 * Z.of_nat n) by lia.
  rewrite Z.pow_add_r by lia. change (2 ^ 8) with 256. lia.
Qed.

(** ** Absolute pairs *)

(** The format of a low-part relocation. *)
Definition lo12_format (r : reloc) : option imm_format :=
  match r with
  | BFD_RELOC_RISCV_LO12_I => Some fmt_ITYPE_IMM
  | BFD_RELOC_RISCV_LO12_S => Some fmt_STYPE_IMM
  | _ => None
  end.

Lemma lo12_format_ok r fm v :
  lo12_format r = Some fm ->
  In fm imm_formats /\ fmt_kind fm = Signed 0 12 /\
  riscv_apply_const_reloc r (u64 v) = Some (fmt_encode fm (u64 (lo_part v))).
Proof.
  intros H. destruct r; try discriminate; injection H as <-; cbn [riscv_apply_const_reloc fmt_encode];
    (split; [unfold imm_formats; in_list|split; [done|]]); f_equal; [apply encode_lo_i|apply encode_lo_s].
Qed.

(** A fixup against a constant: the bits are or-ed in and the fixup is done. *)
Lemma apply_const_fix env p buf f v bits :
  (fx_r_type f = BFD_RELOC_RISCV_HI20 \/ is_Some (lo12_format (fx_r_type f))) ->
  fx_addsy f = None -> fx_subsy f = None ->
  riscv_apply_const_reloc (fx_r_type f) v = Some bits ->
  exists st, md_apply_fix env v buf f p = Some st /\
    st_buf st = putl 4 (getl 4 buf (fx_where f) .| bits) buf (fx_where f) /\
    fx_done (st_fix st) = true /\ st_next st = [] /\ st_errors st = [] /\ st_pcrel st = p.
Proof.
  intros Hr Ha Hs Hb. destruct f as [r a sy wh sz o n dn tc sm fr]. simpl in *. subst a sy.
  unfold md_apply_fix, fix_switch. cbn [fx_r_type st_fix set_addnumber].
  assert (Hc : r = BFD_RELOC_RISCV_HI20 \/ r = BFD_RELOC_RISCV_LO12_I \/ r = BFD_RELOC_RISCV_LO12_S).
  { destruct Hr as [?|[? Hr]]; [auto|]. destruct r; try discriminate; auto. }
  destruct Hc as [->|[->| ->]]; rewrite Hb; eexists; split_and!; reflexivity.
Qed.

Lemma UTYPE_fmt :
  ENCODE_UTYPE_IMM = fmt_encode fmt_UTYPE_IMM /\ EXTRACT_UTYPE_IMM = fmt_extract fmt_UTYPE_IMM /\
  In fmt_UTYPE_IMM imm_formats.
Proof. split_and!; [done|done|]. unfold imm_formats. in_list. Qed.

Lemma part_range64 w x : 0 < w <= 64 -> - 2 ^ 63 <= swrap w x < 2 ^ 63.
Proof.
  intros Hw. pose proof (swrap_range w x ltac:(lia)).
  assert (2 ^ (w - 1) <= 2 ^ 63) by (apply Z.pow_le_mono_r; lia). lia.
Qed.

(** The high part filled into a lui or auipc whose immediate is clear. *)
Lemma hi_filled w v :
  w .& ENCODE_UTYPE_IMM (-1) = 0 ->
  EXTRACT_UTYPE_IMM (w .| ENCODE_UTYPE_IMM (RISCV_CONST_HIGH_PART (u64 v))) = u64 (hi_part v) /\
  (w .| ENCODE_UTYPE_IMM (RISCV_CONST_HIGH_PART (u64 v))) .& 0xfff = w .& 0xfff.
Proof.
  intros Hw. rewrite encode_hi. destruct UTYPE_fmt as (EN & -> & Hf). rewrite EN in *.
  destruct (filled_field fmt_UTYPE_IMM w (hi_part v) _ Hf eq_refl) as [HE HX]; try done.
  - apply part_range64. lia.
  - apply hi_part_range.
  - split; [done|]. apply HX. by vm_compute.
Qed.

Lemma lo_filled fm w v :
  In fm imm_formats -> fmt_kind fm = Signed 0 12 -> w .& fmt_encode fm (-1) = 0 ->
  fmt_extract fm (w .| fmt_encode fm (u64 (lo_part v))) = u64 (lo_part v).
Proof.
  intros Hf Hk Hw. apply extract_inserted; try done; [apply part_range64; lia|].
  rewrite Hk. apply lo_part_range.
Qed.

(** A %hi fixup on a lui and a %lo fixup on an I- or S-type instruction,
    both against a constant, are resolved on the spot (fx_done, no relocation
    left, no error), touch nothing else of the lui, and the two immediates add
    up to the constant modulo 2^32, exactly so from -2^31 to 2^31 - 2^11. *)
Theorem hi20_lo12_fixups_sum env p buf f1 f2 fm v :
  Forall (fun b => 0 <= b < 256) buf ->
  fx_r_type f1 = BFD_RELOC_RISCV_HI20 -> lo12_format (fx_r_type f2) = Some fm ->
  fx_addsy f1 = None -> fx_subsy f1 = None -> fx_addsy f2 = None -> fx_subsy f2 = None ->
  (fx_where f1 + 4 <= length buf)%nat -> (fx_where f2 + 4 <= length buf)%nat ->
  (fx_where f1 + 4 <= fx_where f2 \/ fx_where f2 + 4 <= fx_where f1)%nat ->
  getl 4 buf (fx_where f1) .& ENCODE_UTYPE_IMM (-1) = 0 ->
  getl 4 buf (fx_where f2) .& fmt_encode fm (-1) = 0 ->
  exists st1 st2,
    md_apply_fix env (u64 v) buf f1 p = Some st1 /\
    md_apply_fix env (u64 v) (st_buf st1) f2 p = Some st2 /\
    (fx_done (st_fix st1) = true /\ fx_done (st_fix st2) = true) /\
    st_next st1 = [] /\ st_next st2 = [] /\ st_errors st1 = [] /\ st_errors st2 = [] /\
    let X1 := getl 4 (st_buf st2) (fx_where f1) in
    let X2 := getl 4 (st_buf st2) (fx_where f2) in
    X1 .& 0xfff = getl 4 buf (fx_where f1) .& 0xfff /\
    u32 (EXTRACT_UTYPE_IMM X1 + fmt_extract fm X2) = u32 v /\
    (- 2 ^ 31 <= v < 2 ^ 31 - 2 ^ 11 -> u64 (EXTRACT_UTYPE_IMM X1 + fmt_extract fm X2) = u64 v).
Proof.
  intros Hb Hr1 Hr2 Ha1 Hs1 Ha2 Hs2 Hl1 Hl2 Hd Hc1 Hc2.
  destruct (lo12_format_ok _ _ v Hr2) as (Hfm & Hk & Hcr).
  destruct UTYPE_fmt as (EN & _ & HfU).
  set (B := ENCODE_UTYPE_IMM (RISCV_CONST_HIGH_PART (u64 v))).
  destruct (apply_const_fix env p buf f1 (u64 v) B) as (st1 & E1 & B1 & D1 & N1 & R1 & _);
    [by left|done|done|by rewrite Hr1|].
  destruct (apply_const_fix env p (st_buf st1) f2 (u64 v) (fmt_encode fm (u64 (lo_part v))))
    as (st2 & E2 & B2 & D2 & N2 & R2 & _); [right; by eexists|done|done|done|].
  exists st1, st2. split_and!; try done. rewrite B2. rewrite B1.
  pose proof (getl_range 4 buf (fx_where f1) Hb) as R1'.
  pose proof (getl_range 4 buf (fx_where f2) Hb) as R2'.
  assert (HB : 0 <= B < 2 ^ 32) by (unfold B; rewrite EN; by apply encode_range).
  assert (G2 : getl 4 (putl 4 (getl 4 buf (fx_where f1) .| B) buf (fx_where f1)) (fx_where f2)
               = getl 4 buf (fx_where f2)) by (by apply getl_disjoint).
  rewrite G2. rewrite (getl_disjoint _ (fx_where f2) (fx_where f1)) by (rewrite ?putl_length; lia).
  rewrite getl_or_same by done.
  rewrite getl_or_same by (done || rewrite ?putl_length by lia; done || by apply encode_range).
  destruct (hi_filled _ v Hc1) as [HE HX]. fold B in HE, HX. cbv zeta.
  rewrite HE, HX, (lo_filled fm _ v Hfm Hk Hc2). destruct (hi_lo_sum v) as [S1 S2].
  split_and!; [done|done|]. intros Hv. rewrite <- (S2 Hv) at 3. u64_ring.
Qed.

(** A fixup against a constant at [where_]. *)
Definition const_fix (r : reloc) (where_ : nat) : fixS :=
  mk_fix r None None where_ 4 0 0 false false (-1) Own_frag.

(** lui a0 and addi a0, a0 with clear immediates. *)
Definition lui_addi : list Z := bytes_le 4 0x00000537 ++ bytes_le 4 0x00050513.

Lemma lui_addi_bytes : Forall (fun b => 0 <= b < 256) lui_addi.
Proof. by apply (forallb_Forall (fun b => (0 <=? b) && (b <? 256))); [intros b Hb; breflect; lia|]. Qed.

Lemma hi20_lo12_fixups_sum_witness :
  exists st1 st2,
    md_apply_fix (mk_fix_env 0 0 0 1 true false) (u64 0x12345fff) lui_addi
      (const_fix BFD_RELOC_RISCV_HI20 0) ∅ = Some st1 /\
    md_apply_fix (mk_fix_env 0 0 0 1 true false) (u64 0x12345fff) (st_buf st1)
      (const_fix BFD_RELOC_RISCV_LO12_I 4) ∅ = Some st2 /\
    u32 (EXTRACT_UTYPE_IMM (getl 4 (st_buf st2) 0) + EXTRACT_ITYPE_IMM (getl 4 (st_buf st2) 4))
    = 0x12345fff.
Proof.
  destruct (hi20_lo12_fixups_sum (mk_fix_env 0 0 0 1 true false) ∅ lui_addi
    (const_fix BFD_RELOC_RISCV_HI20 0) (const_fix BFD_RELOC_RISCV_LO12_I 4) fmt_ITYPE_IMM 0x12345fff
    lui_addi_bytes eq_refl eq_refl eq_refl eq_refl eq_refl eq_refl ltac:(simpl; lia) ltac:(simpl; lia)
    ltac:(simpl; lia) eq_refl eq_refl)
    as (st1 & st2 & E1 & E2 & _ & _ & _ & _ & _ & _ & S & _).
  exists st1, st2. split; [exact E1|]. split; [exact E2|]. exact S.
Defined.

(** ** PC-relative pairs *)

(** The relocation that marks a relaxable fixup. *)
Definition relax_marker (f : fixS) : fixS :=
  set_place (set_r_type (set_syms f None None) BFD_RELOC_RISCV_RELAX) (fx_where f) 0.

Lemma apply_pcrel_hi env p buf f v s :
  fx_r_type f = BFD_RELOC_RISCV_PCREL_HI20 -> fx_addsy f = Some s -> fx_subsy f = None ->
  S_IS_LOCAL s = true -> S_GET_SEGMENT s = env_seg env ->
  let A := md_pcrel_from env f in
  let T := u64 (S_GET_VALUE s + v) in
  exists st, md_apply_fix env v buf f p = Some st /\
    st_buf st = putl 4 (getl 4 buf (fx_where f)
                        .| ENCODE_UTYPE_IMM (RISCV_CONST_HIGH_PART (u64 (T - A)))) buf (fx_where f) /\
    fx_done (st_fix st) = fx_done f || negb (opt_relax env) /\
    st_next st = (if fx_tcbit f then [relax_marker (st_fix st)] else []) /\ st_errors st = [] /\
    st_pcrel st = <[A := mk_pcrel s T]> p.
Proof.
  intros Hr Ha Hs Hl Hg A T. destruct f as [r a sy wh sz o n dn tc sm fr]. simpl in *. subst r a sy.
  unfold md_apply_fix, fix_switch. cbn -[u64 putl getl ENCODE_UTYPE_IMM RISCV_CONST_HIGH_PART].
  unfold fix_pcrel_hi. cbn -[u64 putl getl ENCODE_UTYPE_IMM RISCV_CONST_HIGH_PART].
  rewrite Hl, Hg, Nat.eqb_refl. cbn -[u64 putl getl ENCODE_UTYPE_IMM RISCV_CONST_HIGH_PART].
  destruct (opt_relax env), tc; cbn -[u64 putl getl ENCODE_UTYPE_IMM RISCV_CONST_HIGH_PART];
    eexists; split_and!; try reflexivity; simpl; by rewrite ?orb_true_r, ?orb_false_r.
Qed.

Lemma apply_pcrel_lo env p buf f v sl s T A :
  fx_r_type f = BFD_RELOC_RISCV_PCREL_LO12_I \/ fx_r_type f = BFD_RELOC_RISCV_PCREL_LO12_S ->
  fx_addsy f = Some sl -> fx_subsy f = None ->
  u64 (S_GET_VALUE sl + v) = A -> p !! A = Some (mk_pcrel s T) ->
  S_IS_LOCAL s = true -> S_GET_SEGMENT s = env_seg env ->
  exists st, md_apply_fix env v buf f p = Some st /\
    st_buf st = putl 4 (getl 4 buf (fx_where f) .| ENCODE_ITYPE_IMM (u64 (T - A))) buf (fx_where f) /\
    fx_done (st_fix st) = fx_done f || negb (opt_relax env) /\
    st_next st = (if fx_tcbit f then [relax_marker (st_fix st)] else []) /\ st_errors st = [] /\
    st_pcrel st = p.
Proof.
  intros Hr Ha Hs HA Hp Hl Hg. destruct f as [r a sy wh sz o n dn tc sm fr]. simpl in *. subst a sy.
  unfold md_apply_fix, fix_switch, fix_pcrel_lo.
  destruct Hr as [-> | ->]; cbn -[u64 putl getl ENCODE_ITYPE_IMM lookup]; rewrite HA, Hp;
    cbn -[u64 putl getl ENCODE_ITYPE_IMM]; rewrite Hl, Hg, Nat.eqb_refl;
    destruct (opt_relax env), tc; cbn -[u64 putl getl ENCODE_ITYPE_IMM];
    eexists; split_and!; try reflexivity; simpl; by rewrite ?orb_true_r, ?orb_false_r.
Qed.

Lemma ITYPE_fmt :
  ENCODE_ITYPE_IMM = fmt_encode fmt_ITYPE_IMM /\ EXTRACT_ITYPE_IMM = fmt_extract fmt_ITYPE_IMM /\
  In fmt_ITYPE_IMM imm_formats.
Proof. split_and!; [done|done|]. unfold imm_formats. in_list. Qed.

(** A %pcrel_hi fixup on an auipc against a local symbol of the section,
    followed by the %pcrel_lo fixup that names the auipc: the pair is resolved
    through the table of high parts, and auipc plus the I-type immediate give
    the address of symbol + addend (modulo 2^32 always, exactly for a distance
    from -2^31 to 2^31 - 2^11).  Both fixups are done exactly if relaxation is off,
    and each is followed by an R_RISCV_RELAX marker exactly if it was marked. *)
Theorem pcrel_fixups_reach_target env p buf f1 f2 s sl v1 v2 :
  Forall (fun b => 0 <= b < 256) buf ->
  fx_r_type f1 = BFD_RELOC_RISCV_PCREL_HI20 -> fx_r_type f2 = BFD_RELOC_RISCV_PCREL_LO12_I ->
  fx_addsy f1 = Some s -> fx_subsy f1 = None -> fx_addsy f2 = Some sl -> fx_subsy f2 = None ->
  S_IS_LOCAL s = true -> S_GET_SEGMENT s = env_seg env ->
  fx_done f1 = false -> fx_done f2 = false ->
  u64 (S_GET_VALUE sl + v2) = md_pcrel_from env f1 ->
  (fx_where f1 + 4 <= length buf)%nat -> (fx_where f2 + 4 <= length buf)%nat ->
  (fx_where f1 + 4 <= fx_where f2 \/ fx_where f2 + 4 <= fx_where f1)%nat ->
  getl 4 buf (fx_where f1) .& ENCODE_UTYPE_IMM (-1) = 0 ->
  getl 4 buf (fx_where f2) .& ENCODE_ITYPE_IMM (-1) = 0 ->
  exists st1 st2,
    md_apply_fix env v1 buf f1 p = Some st1 /\
    md_apply_fix env v2 (st_buf st1) f2 (st_pcrel st1) = Some st2 /\
    fx_done (st_fix st1) = negb (opt_relax env) /\ fx_done (st_fix st2) = negb (opt_relax env) /\
    st_next st1 = (if fx_tcbit f1 then [relax_marker (st_fix st1)] else []) /\
    st_next st2 = (if fx_tcbit f2 then [relax_marker (st_fix st2)] else []) /\
    let A := md_pcrel_from env f1 in
    let T := S_GET_VALUE s + v1 in
    let hi := EXTRACT_UTYPE_IMM (getl 4 (st_buf st2) (fx_where f1)) in
    let lo := EXTRACT_ITYPE_IMM (getl 4 (st_buf st2) (fx_where f2)) in
    u32 (A + hi + lo) = u32 T /\
    (- 2 ^ 31 <= s64 (T - A) < 2 ^ 31 - 2 ^ 11 -> u64 (A + hi + lo) = u64 T).
Proof.
  intros Hb Hr1 Hr2 Ha1 Hs1 Ha2 Hs2 Hl Hg Hd1 Hd2 HA Hl1 Hl2 Hd Hc1 Hc2.
  set (A := md_pcrel_from env f1) in *. set (T := S_GET_VALUE s + v1).
  destruct (apply_pcrel_hi env p buf f1 v1 s Hr1 Ha1 Hs1 Hl Hg) as (st1 & E1 & B1 & D1 & N1 & _ & P1).
  fold A T in B1, P1.
  destruct (apply_pcrel_lo env (st_pcrel st1) (st_buf st1) f2 v2 sl s (u64 T) A)
    as (st2 & E2 & B2 & D2 & N2 & _ & _); try done; [by left|by rewrite P1, lookup_insert_eq|].
  exists st1, st2. rewrite Hd1 in D1. rewrite Hd2 in D2. split_and!; try done.
  cbv zeta. rewrite B2, B1.
  assert (EV : u64 (u64 T - A) = u64 (s64 (T - A))) by u64_ring. rewrite EV.
  destruct UTYPE_fmt as (EN & _ & HfU). destruct ITYPE_fmt as (ENI & EXI & HfI).
  pose proof (getl_range 4 buf (fx_where f1) Hb) as R1'.
  pose proof (getl_range 4 buf (fx_where f2) Hb) as R2'.
  set (B := ENCODE_UTYPE_IMM _).
  assert (HB : 0 <= B < 2 ^ 32) by (unfold B; rewrite EN; by apply encode_range).
  rewrite (getl_disjoint _ (fx_where f1) (fx_where f2)) by done.
  rewrite (getl_disjoint _ (fx_where f2) (fx_where f1)) by (rewrite ?putl_length; lia).
  rewrite (getl_or_same buf) by done.
  rewrite getl_or_same by (done || rewrite ?putl_length by lia; done || rewrite ?getl_disjoint by done;
                           done || rewrite ENI; by apply encode_range).
  destruct (hi_filled _ (s64 (T - A)) Hc1) as [HE _]. fold B in HE. rewrite HE.
  rewrite encode_lo_i, ENI, EXI, (lo_filled fmt_ITYPE_IMM) by (done || by rewrite <- ENI).
  destruct (hi_lo_sum (s64 (T - A))) as [S1 S2]. split.
  - clear - S1. unfold u32 in *. rewrite <- Z.add_assoc, <- Zplus_mod_idemp_r, S1. u64_ring.
  - intros Hv. specialize (S2 Hv). clear - S2. u64_ring.
Qed.

(** auipc a1 at 0x1000 with a target 0x123 bytes away, and the instruction that
    names it. *)
Definition sample_env : fix_env := mk_fix_env 0x1000 0 0 1 false false.
Definition sample_target : symbol := mk_symbol true false true 1 false 0x1123.
Definition sample_label : symbol := mk_symbol true false true 1 false 0x1000.
Definition auipc_then (w : Z) : list Z := bytes_le 4 0x00000597 ++ bytes_le 4 w.
Definition pcrel_hi_fix : fixS :=
  mk_fix BFD_RELOC_RISCV_PCREL_HI20 (Some sample_target) None 0 4 0 0 false true (-1) Own_frag.
Definition pcrel_lo_fix (r : reloc) : fixS :=
  mk_fix r (Some sample_label) None 4 4 0 0 false true (-1) Own_frag.

Lemma pcrel_fixups_reach_target_witness :
  exists st1 st2,
    md_apply_fix sample_env 0 (auipc_then 0x00058513) pcrel_hi_fix ∅ = Some st1 /\
    md_apply_fix sample_env 0 (st_buf st1) (pcrel_lo_fix BFD_RELOC_RISCV_PCREL_LO12_I) (st_pcrel st1)
    = Some st2 /\
    u64 (0x1000 + EXTRACT_UTYPE_IMM (getl 4 (st_buf st2) 0)
         + EXTRACT_ITYPE_IMM (getl 4 (st_buf st2) 4)) = 0x1123.
Proof.
  destruct (pcrel_fixups_reach_target sample_env ∅ (auipc_then 0x00058513) pcrel_hi_fix
    (pcrel_lo_fix BFD_RELOC_RISCV_PCREL_LO12_I) sample_target sample_label 0 0)
    as (st1 & st2 & E1 & E2 & _ & _ & _ & _ & _ & S); try reflexivity; simpl; try lia.
  - by apply (forallb_Forall (fun b => (0 <=? b) && (b <? 256))); [intros b Hb; breflect; lia|].
  - exists st1, st2. split; [exact E1|]. split; [exact E2|]. apply S. vm_compute. split; congruence.
Defined.

(** ** A low part in a store *)

Lemma STYPE_fmt :
  ENCODE_STYPE_IMM = fmt_encode fmt_STYPE_IMM /\ EXTRACT_STYPE_IMM = fmt_extract fmt_STYPE_IMM /\
  In fmt_STYPE_IMM imm_formats.
Proof. split_and!; [done|done|]. unfold imm_formats. in_list. Qed.

(** The 4096 low parts. *)
Definition low_parts : list Z := map (fun n => Z.of_nat n - 2048) (seq 0 4096).

Lemma low_parts_ok :
  forallb (fun lo => (ENCODE_ITYPE_IMM (u64 lo) =? ((lo mod 32) << 20) .| ENCODE_STYPE_IMM (u64 (lo - lo mod 32)))
             && ((ENCODE_ITYPE_IMM (u64 lo) >> 20) .& 31 =? lo mod 32)
             && (((lo mod 32) << 20) .& ENCODE_STYPE_IMM (-1) =? 0)) low_parts = true.
Proof. vm_compute. reflexivity. Qed.

(** As an I-type immediate, a low part fills the upper half of the S-type
    immediate and the field of rs2. *)
Lemma low_part_as_store lo :
  - 2 ^ 11 <= lo < 2 ^ 11 ->
  ENCODE_ITYPE_IMM (u64 lo) = ((lo mod 32) << 20) .| ENCODE_STYPE_IMM (u64 (lo - lo mod 32)) /\
  (ENCODE_ITYPE_IMM (u64 lo) >> 20) .& 31 = lo mod 32 /\ ((lo mod 32) << 20) .& ENCODE_STYPE_IMM (-1) = 0.
Proof.
  intros Hlo. pose proof low_parts_ok as H. rewrite forallb_forall in H. specialize (H lo).
  rewrite !andb_true_iff, !Z.eqb_eq in H. destruct H as [[H1 H2] H3]; [|done].
  apply in_map_iff. exists (Z.to_nat (lo + 2048)). split; [lia|]. apply in_seq. change (2 ^ 11) with 2048 in Hlo. lia.
Qed.

(** C40: a %pcrel_lo fixup on a store is filled in as if the store were I-type.
    Whenever such a fixup is resolved, for any store whose offset is still 0, any
    high part that is found and any target, the low five bits of the low part are
    or-ed into rs2, and the store has the offset of the low part without them: so
    it stores the register it names at the address it means only if these bits
    are 0.  Nothing is reported, and with relaxation off the fixup is done, so
    that no relocation is left to repair it. *)
Theorem pcrel_lo12_s_fixup_corrupts_store env p buf f v sl s T A :
  Forall (fun b => 0 <= b < 256) buf -> (fx_where f + 4 <= length buf)%nat ->
  fx_r_type f = BFD_RELOC_RISCV_PCREL_LO12_S -> fx_addsy f = Some sl -> fx_subsy f = None ->
  u64 (S_GET_VALUE sl + v) = A -> p !! A = Some (mk_pcrel s T) ->
  S_IS_LOCAL s = true -> S_GET_SEGMENT s = env_seg env ->
  getl 4 buf (fx_where f) .& ENCODE_STYPE_IMM (-1) = 0 ->
  exists st, md_apply_fix env v buf f p = Some st /\ st_errors st = [] /\
    fx_done (st_fix st) = fx_done f || negb (opt_relax env) /\
    let store := getl 4 buf (fx_where f) in
    let X := getl 4 (st_buf st) (fx_where f) in
    let lo := lo_part (T - A) in
    EXTRACT_OPERAND FLD_RS2 X = EXTRACT_OPERAND FLD_RS2 store .| (lo mod 32) /\
    EXTRACT_STYPE_IMM X = u64 (lo - lo mod 32).
Proof.
  intros Hb Hl Hr Ha Hs HA Hp Hloc Hseg Hz.
  destruct (apply_pcrel_lo env p buf f v sl s T A) as (st & E & B & D & _ & Er & _); try done; [by right|].
  exists st. split; [exact E|]. split; [exact Er|]. split; [exact D|]. cbv zeta.
  destruct STYPE_fmt as (EN & EX & Hf). destruct ITYPE_fmt as (ENI & _ & HfI).
  pose proof (getl_range 4 buf (fx_where f) Hb) as Rw.
  rewrite B, getl_or_same by (done || rewrite ENI; by apply encode_range).
  rewrite encode_lo_i. set (lo := lo_part (T - A)).
  destruct (lo_part_range (T - A)) as [_ Hlo]. fold lo in Hlo. cbn [Z.sub] in Hlo.
  destruct (low_part_as_store lo Hlo) as (H1 & H2 & H3). split.
  - rewrite !(extract_bits FLD_RS2 5) by (done || lia). change (OP_SH FLD_RS2) with 20. change (OP_MASK FLD_RS2) with 31.
    by rewrite Z.shiftr_lor, Z.land_lor_distr_l, H2.
  - assert (El : lo - lo mod 32 = lo_part (lo - lo mod 32)).
    { unfold lo_part. rewrite swrap_small; [done|lia|]. change (2 ^ (12 - 1)) with 2048. change (2 ^ 11) with 2048 in Hlo.
      Z.div_mod_to_equations. lia. }
    rewrite H1, Z.lor_assoc, El, EX, EN. apply lo_filled; [done|done|].
    rewrite <- EN, Z.land_lor_distr_l, Hz, H3. done.
Qed.

(** sw a0, %pcrel_lo(label)(a1) for a low part of 0x123 becomes
    sw a1, 0x120(a1). *)
Lemma pcrel_lo12_s_fixup_corrupts_store_witness :
  exists st1 st2,
    md_apply_fix sample_env 0 (auipc_then 0x00a5a023) pcrel_hi_fix ∅ = Some st1 /\
    md_apply_fix sample_env 0 (st_buf st1) (pcrel_lo_fix BFD_RELOC_RISCV_PCREL_LO12_S) (st_pcrel st1)
    = Some st2 /\ fx_done (st_fix st2) = true /\
    let X := getl 4 (st_buf st2) 4 in
    EXTRACT_OPERAND FLD_RS2 0x00a5a023 = 10 /\ EXTRACT_OPERAND FLD_RS2 X = 11 /\ EXTRACT_STYPE_IMM X = 0x120.
Proof.
  destruct (md_apply_fix sample_env 0 (auipc_then 0x00a5a023) pcrel_hi_fix ∅) as [st1|] eqn:E1;
    [|vm_compute in E1; discriminate E1].
  assert (H1 : st_buf st1 = auipc_then 0x00a5a023 /\ st_pcrel st1 !! 0x1000 = Some (mk_pcrel sample_target 0x1123))
    by (vm_compute in E1; injection E1 as <-; vm_compute; done).
  destruct H1 as [Hbuf Hp]. exists st1.
  destruct (pcrel_lo12_s_fixup_corrupts_store sample_env (st_pcrel st1) (st_buf st1)
    (pcrel_lo_fix BFD_RELOC_RISCV_PCREL_LO12_S) 0 sample_label sample_target 0x1123 0x1000)
    as (st2 & E2 & _ & D & R & I).
  - rewrite Hbuf. repeat constructor; vm_compute; congruence.
  - rewrite Hbuf. vm_compute. lia.
  - reflexivity.
  - reflexivity.
  - reflexivity.
  - reflexivity.
  - exact Hp.
  - reflexivity.
  - reflexivity.
  - rewrite Hbuf. vm_compute. reflexivity.
  - exists st2. split; [reflexivity|]. split; [exact E2|]. split; [exact D|]. split; [reflexivity|]. split.
    + etransitivity; [exact R|]. rewrite Hbuf. vm_compute. reflexivity.
    + etransitivity; [exact I|]. vm_compute. reflexivity.
Defined.
