(* ===== verification/Relax.v ===== *)
(** * Branch relaxation (gas/config/tc-riscv.c)

    The relaxation state of a branch frag, the length chosen for it, and its
    final expansion. *)
From Stdlib Require Import ZArith Bool Lia.
From stdpp Require Import base list.
From S2P Require Import Prelude OpcodeH RiscvH Bytes Howto Fixups.

#[local] Open Scope Z_scope.
#[local] Open Scope c_scope.

(** ** Relaxation state *)

Definition b2z (b : bool) (v : Z) : Z := if b then v else 0.

Definition RELAX_BRANCH_ENCODE (uncond rvc : bool) (length : Z) : Z :=
  u32 (0xc0000000 .| b2z uncond 1 .| b2z rvc 2 .| (length << 2)).
Definition RELAX_BRANCH_P (i : Z) : bool := (i .& 0xf0000000) =? 0xc0000000.
Definition RELAX_BRANCH_LENGTH (i : Z) : Z := (i >> 2) .& 0xF.
Definition RELAX_BRANCH_RVC (i : Z) : bool := negb ((i .& 2) =? 0).
Definition RELAX_BRANCH_UNCOND (i : Z) : bool := negb ((i .& 1) =? 0).

Record frag : Type := mk_frag {
  fr_subtype : Z;
  fr_var : Z;
  fr_symbol : option symbol;
  fr_offset : Z;
  fr_address : Z;
  fr_fix : nat;
  fr_literal : list Z;      (* the bytes, the branch from [fr_fix] on *)
}.

Definition set_relax (f : frag) (subtype var : Z) : frag :=
  mk_frag subtype var (fr_symbol f) (fr_offset f) (fr_address f) (fr_fix f) (fr_literal f).

(** The distance to the target, as an [offsetT]. *)
Definition branch_distance (f : frag) (s : symbol) : Z :=
  s64 (s64 (S_GET_VALUE s + fr_offset f) - (fr_address f + Z.of_nat (fr_fix f))).

(** [relaxed_branch_length (fragp, sec, update)]: the frag, updated on demand,
    and the length; 8 without a frag. *)
Definition relaxed_branch_length (fragp : option frag) (sec : nat) (update : bool)
  : option frag * Z :=
  match fragp with
  | None => (None, 8)
  | Some f =>
      let jump := RELAX_BRANCH_UNCOND (fr_subtype f) in
      let rvc := RELAX_BRANCH_RVC (fr_subtype f) in
      let length := if jump then 4 else 8 in
      let length :=
        match fr_symbol f with
        | Some s =>
            if S_IS_DEFINED s && negb (S_IS_WEAK s) && (sec =? S_GET_SEGMENT s)%nat then
              let val := branch_distance f s in
              let rvc_range := if jump then RVC_JUMP_REACH else RVC_BRANCH_REACH in
              if rvc && (u64 (val + rvc_range / 2) <? rvc_range) then 2
              else if u64 (val + RISCV_BRANCH_REACH / 2) <? RISCV_BRANCH_REACH then 4
              else if negb jump && rvc then 6
              else length
            else length
        | None => length
        end in
      (Some (if update then set_relax f (RELAX_BRANCH_ENCODE jump rvc length) (fr_var f) else f),
       length)
  end.

(** [riscv_relax_frag]: the frag and how much it grows. *)
Definition riscv_relax_frag (sec : nat) (f : frag) : frag * Z :=
  if RELAX_BRANCH_P (fr_subtype f) then
    let old_var := fr_var f in
    let '(f', length) := relaxed_branch_length (Some f) sec true in
    let f' := default f f' in
    (set_relax f' (fr_subtype f') length, length - old_var)
  else (f, 0).

(** [md_estimate_size_before_relax]: the frag with its estimated size, and the
    size. *)
Definition md_estimate_size_before_relax (segtype : nat) (f : frag) : frag * Z :=
  let length := (relaxed_branch_length (Some f) segtype false).2 in
  (set_relax f (fr_subtype f) length, length).

(** ** Expansion *)

(** [fix_new_exp (fragp, where, size, &exp, false, reloc)] for the expression
    [fr_symbol + fr_offset]. *)
Definition fix_new_exp (f : frag) (where_ size : nat) (r : reloc) : fixS :=
  mk_fix r (fr_symbol f) None where_ size (fr_offset f) 0 false false (-1) Own_frag.

(** The 32-bit form of an RVC branch; [None] is [abort]. *)
Definition expand_rvc (insn : Z) : option Z :=
  let rs1 := 8 + ((insn >> OP_SH FLD_CRS1S) .& OP_MASK FLD_CRS1S) in
  if (insn .& MASK_C_J) =? MATCH_C_J then Some MATCH_JAL
  else if (insn .& MASK_C_JAL) =? MATCH_C_JAL then Some (MATCH_JAL .| (X_RA << OP_SH FLD_RD))
  else if (insn .& MASK_C_BEQZ) =? MATCH_C_BEQZ then Some (MATCH_BEQ .| (rs1 << OP_SH FLD_RS1))
  else if (insn .& MASK_C_BNEZ) =? MATCH_C_BNEZ then Some (MATCH_BNE .| (rs1 << OP_SH FLD_RS1))
  else None.

(** [jump:], a jal to the target at [off]. *)
Definition emit_jump (f : frag) (buf : list Z) (off : nat) : list Z * fixS * nat :=
  (bfd_putl32 MATCH_JAL buf off, fix_new_exp f off 4 BFD_RELOC_RISCV_JMP, (off + 4)%nat).

(** The second [switch]: the bytes, the fixup and the end position. *)
Definition convert_base (f : frag) (length : Z) (uncond : bool) (buf : list Z) (off : nat)
  : option (list Z * fixS * nat) :=
  if length =? 8 then
    if uncond then None
    else
      let insn := bfd_getl32 buf off in
      let insn := insn .^ (MATCH_BEQ .^ MATCH_BNE) in
      let insn := insn .| ENCODE_BTYPE_IMM 8 in
      Some (emit_jump f (bfd_putl32 insn buf off) (off + 4))
  else if length =? 4 then
    Some (buf, fix_new_exp f off 4 (if uncond then BFD_RELOC_RISCV_JMP else BFD_RELOC_12_PCREL),
          (off + 4)%nat)
  else None.

(** The whole expansion, before the final assertion. *)
Definition convert_branch (f : frag) : option (list Z * fixS * nat) :=
  let buf := fr_literal f in
  let off := fr_fix f in
  let length := RELAX_BRANCH_LENGTH (fr_subtype f) in
  let uncond := RELAX_BRANCH_UNCOND (fr_subtype f) in
  if RELAX_BRANCH_RVC (fr_subtype f) then
    if (length =? 8) || (length =? 4) then
      match expand_rvc (bfd_getl16 buf off) with
      | Some insn => convert_base f length uncond (bfd_putl32 insn buf off) off
      | None => None
      end
    else if length =? 6 then
      let insn := bfd_getl16 buf off in
      let insn := insn .^ (MATCH_C_BEQZ .^ MATCH_C_BNEZ) in
      let insn := insn .| ENCODE_CBTYPE_IMM 6 in
      Some (emit_jump f (bfd_putl16 insn buf off) (off + 2))
    else if length =? 2 then
      Some (buf, fix_new_exp f off 2 (if uncond then BFD_RELOC_RISCV_RVC_JUMP
                                      else BFD_RELOC_RISCV_RVC_BRANCH), (off + 2)%nat)
    else None
  else convert_base f length uncond buf off.

(** [md_convert_frag_branch]: the frag and the new fixup; [None] for [abort]
    and failed assertions. *)
Definition md_convert_frag_branch (f : frag) : option (frag * fixS) :=
  if fr_var f =? RELAX_BRANCH_LENGTH (fr_subtype f) then
    match convert_branch f with
    | Some (buf, fixp, end_) =>
        if Z.of_nat end_ =? Z.of_nat (fr_fix f) + fr_var f
        then Some (mk_frag (fr_subtype f) (fr_var f) (fr_symbol f) (fr_offset f) (fr_address f)
                     (fr_fix f + Z.to_nat (fr_var f)) buf, fixp)
        else None
    | None => None
    end
  else None.
