(* ===== verification/RelaxSpec.v ===== *)
(** * Branch relaxation preserves control flow

    A control transfer instruction is given its meaning on a register file;
    the bytes [md_convert_frag_branch] leaves, once its fixup is applied by
    [md_apply_fix], go where the original branch goes. *)
From Stdlib Require Import ZArith Bool Lia.
From stdpp Require Import base list gmap.
From S2P Require Import Prelude OpcodeH RiscvH Immediates Words Bytes Howto Fixups Relax.

#[local] Open Scope Z_scope.
#[local] Open Scope c_scope.

(** ** Meaning of control transfers *)

(** Signed comparison of [xlen]-bit registers. *)
Definition signed_lt (xlen a b : Z) : bool := swrap xlen a <? swrap xlen b.

(** The condition of a 32-bit conditional branch. *)
Definition condition (xlen : Z) (w a b : Z) : option bool :=
  let f := w .& MASK_BEQ in
  if f =? MATCH_BEQ then Some (a =? b)
  else if f =? MATCH_BNE then Some (negb (a =? b))
  else if f =? MATCH_BLT then Some (signed_lt xlen a b)
  else if f =? MATCH_BGE then Some (negb (signed_lt xlen a b))
  else if f =? MATCH_BLTU then Some (a <? b)
  else if f =? MATCH_BGEU then Some (negb (a <? b))
  else None.

(** The destination of a jump and the register that gets the return address;
    [None] if [w] is no direct jump. *)
Definition jump (w : Z) : option (Z * Z) :=
  if riscv_insn_length w =? 2 then
    if (w .& MASK_C_J) =? MATCH_C_J then Some (EXTRACT_CJTYPE_IMM w, 0)
    else if (w .& MASK_C_JAL) =? MATCH_C_JAL then Some (EXTRACT_CJTYPE_IMM w, X_RA)
    else None
  else if (w .& MASK_JAL) =? MATCH_JAL then Some (EXTRACT_JTYPE_IMM w, bits w 7 5)
  else None.

Section Flow.
  Context (xlen : Z) (regs : Z -> Z).

(** Is the branch [w] taken?  [None] if [w] is no conditional branch. *)
Definition taken (w : Z) : option bool :=
  if riscv_insn_length w =? 2 then
    let a := regs (8 + bits w 7 3) in
    if (w .& MASK_C_BEQZ) =? MATCH_C_BEQZ then Some (a =? 0)
    else if (w .& MASK_C_BNEZ) =? MATCH_C_BNEZ then Some (negb (a =? 0))
    else None
  else condition xlen w (regs (bits w 15 5)) (regs (bits w 20 5)).

(** Where the instruction [w] at [pc] goes, and the link register it sets
    (0 for none). *)
Definition transfer (pc w : Z) : option (Z * Z) :=
  match jump w with
  | Some (d, link) => Some (u64 (pc + d), link)
  | None =>
      match taken w with
      | Some true =>
          Some (u64 (pc + (if riscv_insn_length w =? 2 then EXTRACT_CBTYPE_IMM w
                           else EXTRACT_BTYPE_IMM w)), 0)
      | Some false => Some (u64 (pc + riscv_insn_length w), 0)
      | None => None
      end
  end.

(** The instruction at an offset. *)
Definition read_insn (buf : list Z) (off : nat) : Z :=
  if riscv_insn_length (bfd_getl16 buf off) =? 2 then bfd_getl16 buf off else bfd_getl32 buf off.

(** Where the flow leaves the [len] bytes at [off], which is at address [pc]:
    one instruction, or two if the first falls through to the second. *)
Definition flow (pc len : Z) (buf : list Z) (off : nat) : option (Z * Z) :=
  let w := read_insn buf off in
  let n := riscv_insn_length w in
  match transfer pc w with
  | None => None
  | Some (q, link) =>
      if (n <? len) && (q =? u64 (pc + n))
      then transfer (pc + n) (read_insn buf (off + Z.to_nat n))
      else Some (q, link)
  end.

End Flow.

(** ** Reading the buffer *)

Lemma read_putl32 X buf off :
  (off + 4 <= length buf)%nat -> 0 <= X < 2 ^ 32 -> riscv_insn_length X = 4 ->
  read_insn (bfd_putl32 X buf off) off = X.
Proof.
  intros Hlen HX H4. unfold read_insn.
  assert (Hlow : riscv_insn_length (bfd_getl16 (bfd_putl32 X buf off) off) = 4).
  { unfold bfd_getl16, bfd_putl32. rewrite getl_putl_low by lia. change (8 * Z.of_nat 2) with 16.
    apply length_4_iff in H4. apply length_4_iff. by rewrite !land_mod by (lia || reflexivity). }
  rewrite Hlow. simpl. unfold bfd_getl32, bfd_putl32. rewrite getl_putl by done.
  by rewrite Z.mod_small.
Qed.

Lemma read_putl16 X buf off :
  (off + 2 <= length buf)%nat -> 0 <= X < 2 ^ 16 -> riscv_insn_length X = 2 ->
  read_insn (bfd_putl16 X buf off) off = X.
Proof.
  intros Hlen HX H2. unfold read_insn, bfd_getl16, bfd_putl16. rewrite getl_putl by done.
  change (8 * Z.of_nat 2) with 16. rewrite (Z.mod_small X) by done. by rewrite H2.
Qed.

Lemma read_putl_after n X buf off off' :
  (off + n <= off')%nat -> (off + n <= length buf)%nat ->
  read_insn (putl n X buf off) off' = read_insn buf off'.
Proof.
  intros H1 H2. unfold read_insn, bfd_getl16, bfd_getl32. by rewrite !getl_putl_after.
Qed.

Lemma read_putl_before n X buf off off' :
  (off' + 4 <= off)%nat -> (off <= length buf)%nat ->
  read_insn (putl n X buf off) off' = read_insn buf off'.
Proof.
  intros H1 H2. unfold read_insn, bfd_getl16, bfd_getl32.
  by rewrite !getl_putl_before by lia.
Qed.

Lemma read_putl_before16 n X buf off off' :
  (off' + 2 <= off)%nat -> (off <= length buf)%nat -> riscv_insn_length (bfd_getl16 buf off') = 2 ->
  read_insn (putl n X buf off) off' = read_insn buf off'.
Proof.
  intros H1 H2 H3. unfold read_insn, bfd_getl16, bfd_getl32 in *.
  rewrite !(getl_putl_before n 2) by lia. by rewrite H3.
Qed.

(** ** Conditional branches *)

(** Bits outside an encoded field. *)
Ltac outside H := rewrite H by (vm_compute; reflexivity).

Lemma u64_add_u64 a b : u64 (a + u64 b) = u64 (a + b).
Proof. unfold u64. by rewrite Zplus_mod_idemp_r. Qed.

(** The opcode bits of a conditional branch, and those that decide whether it
    is taken. *)
Definition B_OP : Z := 0x63.
Definition BRANCH_BITS : Z := 0x1fff07f.

Lemma opcode_length w : w .& 0x7f = B_OP -> riscv_insn_length w = 4.
Proof. intros H. by apply (length_4_opcode w B_OP). Qed.

Lemma taken_agree xlen regs w w' :
  w .& BRANCH_BITS = w' .& BRANCH_BITS -> w .& 0x7f = B_OP ->
  taken xlen regs w' = taken xlen regs w.
Proof.
  intros H Hop. unfold taken.
  assert (Hop' : w' .& 0x7f = B_OP) by (by rewrite <- (land_low w w' BRANCH_BITS)).
  rewrite (opcode_length w), (opcode_length w') by done. simpl.
  rewrite (bits_agree w w' 15 5), (bits_agree w w' 20 5)
    by (done || by apply (land_low _ _ BRANCH_BITS)).
  unfold condition. by rewrite (land_low w w' BRANCH_BITS MASK_BEQ).
Qed.

Lemma jump_branch w : w .& 0x7f = B_OP -> jump w = None.
Proof.
  intros Hop. unfold jump. rewrite opcode_length by done. simpl.
  change MASK_JAL with 0x7f. by rewrite Hop.
Qed.

(** A conditional branch with the offset or-ed into its clear field. *)
Lemma transfer_branch xlen regs pc w d t :
  w .& 0x7f = B_OP -> w .& ENCODE_BTYPE_IMM (-1) = 0 -> taken xlen regs w = Some t ->
  - 2 ^ 63 <= d < 2 ^ 63 -> in_range (Signed 1 13) d ->
  transfer xlen regs pc (w .| ENCODE_BTYPE_IMM (u64 d))
  = Some (u64 (pc + (if t then d else 4)), 0).
Proof.
  intros Hop Hclr Ht Hd Hr.
  destruct BTYPE_fmt as (EN & EX & Hf). rewrite EN in *. set (X := w .| _).
  destruct (filled_field fmt_BTYPE_IMM w d X) as [HE HX]; try done.
  assert (HopX : X .& 0x7f = B_OP) by (by outside HX).
  unfold transfer. rewrite jump_branch by done.
  rewrite (taken_agree xlen regs w X) by (done || by outside HX).
  rewrite Ht, opcode_length by done. simpl.
  rewrite EX, HE. destruct t; [by rewrite u64_add_u64|done].
Qed.

(** Flipping bit 12 negates the condition. *)
Lemma branch_funct w : w .& 0x7f = B_OP ->
  exists f, 0 <= f < 8 /\ w .& MASK_BEQ = (f << 12) .| B_OP.
Proof.
  intros Hop. exists (bits w 12 3). split.
  - unfold bits. rewrite Z.land_ones by lia. apply Z.mod_pos_bound. lia.
  - change MASK_BEQ with ((Z.ones 3 << 12) .| 0x7f).
    rewrite Z.land_lor_distr_r, Hop. f_equal. unfold bits.
    apply Z.bits_inj'. intros i Hi. rewrite Z.land_spec, !Z.shiftl_spec, Z.land_spec by lia.
    destruct (Z.lt_ge_cases i 12).
    + rewrite !(Z.testbit_neg_r _ (i - 12)) by lia. by rewrite andb_false_r.
    + rewrite Z.shiftr_spec by lia. by replace (i - 12 + 12) with i by lia.
Qed.

Lemma taken_inverted xlen regs w :
  w .& 0x7f = B_OP -> taken xlen regs (w .^ 0x1000) = negb <$> taken xlen regs w.
Proof.
  intros Hop. unfold taken.
  rewrite (opcode_length w), (opcode_length (w .^ 0x1000))
    by (done || by rewrite land_lxor_distr, Hop). simpl.
  rewrite (bits_agree (w .^ 0x1000) w 15 5), (bits_agree (w .^ 0x1000) w 20 5)
    by (done || by rewrite land_lxor_distr, Z.lxor_0_r).
  generalize (regs (bits w 15 5)) as a, (regs (bits w 20 5)) as b. intros a b.
  unfold condition. rewrite land_lxor_distr. change (0x1000 .& MASK_BEQ) with 0x1000.
  destruct (branch_funct w Hop) as (f & Hf & ->).
  assert (E : f = 0 \/ f = 1 \/ f = 2 \/ f = 3 \/ f = 4 \/ f = 5 \/ f = 6 \/ f = 7) by lia.
  generalize (a =? b) as p, (signed_lt xlen a b) as q, (a <? b) as r. intros p q r.
  destruct E as [->|[->|[->|[->|[->|[->|[->| ->]]]]]]], p, q, r; reflexivity.
Qed.

(** ** Compressed branches *)

Definition C_OP : Z := 0xe003.
Definition CBRANCH_BITS : Z := 0xe383.

Lemma c_length w op : w .& C_OP = op -> op .& 0x3 <> 0x3 -> riscv_insn_length w = 2.
Proof. intros Hw Hop. apply length_rvc. rewrite <- Hw, <- Z.land_assoc in Hop. exact Hop. Qed.

Lemma ctaken_agree xlen regs w w' :
  w .& CBRANCH_BITS = w' .& CBRANCH_BITS -> riscv_insn_length w = 2 -> riscv_insn_length w' = 2 ->
  taken xlen regs w' = taken xlen regs w.
Proof.
  intros H H2 H2'. unfold taken. rewrite H2, H2'. simpl.
  rewrite (bits_agree w w' 7 3) by (done || by apply (land_low _ _ CBRANCH_BITS)).
  by rewrite (land_low w w' CBRANCH_BITS MASK_C_BEQZ).
Qed.

Lemma ctaken_op xlen regs w t :
  riscv_insn_length w = 2 -> taken xlen regs w = Some t ->
  w .& C_OP = MATCH_C_BEQZ \/ w .& C_OP = MATCH_C_BNEZ.
Proof.
  intros H2. unfold taken. rewrite H2. simpl.
  change MASK_C_BEQZ with C_OP. change MASK_C_BNEZ with C_OP.
  destruct (Z.eqb_spec (w .& C_OP) MATCH_C_BEQZ); [by left|].
  destruct (Z.eqb_spec (w .& C_OP) MATCH_C_BNEZ); [by right|done].
Qed.

Lemma cjump_none w op :
  w .& C_OP = op -> op .& 0x3 <> 0x3 -> op <> MATCH_C_J -> op <> MATCH_C_JAL -> jump w = None.
Proof.
  intros Hw H3 HJ HL. unfold jump. rewrite (c_length w op) by done. simpl.
  change MASK_C_J with C_OP. change MASK_C_JAL with C_OP. rewrite Hw.
  by rewrite (proj2 (Z.eqb_neq _ _) HJ), (proj2 (Z.eqb_neq _ _) HL).
Qed.

Lemma transfer_cbranch xlen regs pc w d t :
  riscv_insn_length w = 2 -> w .& ENCODE_CBTYPE_IMM (-1) = 0 -> taken xlen regs w = Some t ->
  - 2 ^ 63 <= d < 2 ^ 63 -> in_range (Signed 1 9) d ->
  transfer xlen regs pc (w .| ENCODE_CBTYPE_IMM (u64 d))
  = Some (u64 (pc + (if t then d else 2)), 0).
Proof.
  intros H2 Hclr Ht Hd Hr.
  destruct CBTYPE_fmt as (EN & EX & Hf). rewrite EN in *. set (X := w .| _).
  destruct (filled_field fmt_CBTYPE_IMM w d X) as [HE HX]; try done.
  assert (HopX : exists op, X .& C_OP = op /\ op .& 0x3 <> 0x3 /\ op <> MATCH_C_J /\ op <> MATCH_C_JAL).
  { outside HX. by destruct (ctaken_op _ _ _ _ H2 Ht) as [-> | ->]; eexists. }
  destruct HopX as (op & HopX & Hop3 & HJ & HL).
  assert (H2X : riscv_insn_length X = 2) by (by apply (c_length X op)).
  unfold transfer. rewrite (cjump_none X op) by done.
  rewrite (ctaken_agree xlen regs w X) by (done || by outside HX).
  rewrite Ht, H2X. simpl.
  rewrite EX, HE. destruct t; [by rewrite u64_add_u64|done].
Qed.

(** Flipping bit 13 exchanges c.beqz and c.bnez. *)
Lemma ctaken_inverted xlen regs w t :
  riscv_insn_length w = 2 -> taken xlen regs w = Some t ->
  riscv_insn_length (w .^ 0x2000) = 2 /\ taken xlen regs (w .^ 0x2000) = Some (negb t).
Proof.
  intros H2 Ht. pose proof (ctaken_op _ _ _ _ H2 Ht) as Hop.
  assert (Hop' : (w .^ 0x2000) .& C_OP = (w .& C_OP) .^ 0x2000) by apply land_lxor_distr.
  assert (H2' : riscv_insn_length (w .^ 0x2000) = 2).
  { by destruct Hop as [E|E]; rewrite E in Hop'; eapply c_length. }
  split; [done|]. revert Ht. unfold taken. rewrite H2, H2'. simpl.
  change MASK_C_BEQZ with C_OP. change MASK_C_BNEZ with C_OP. rewrite Hop'.
  rewrite (bits_agree (w .^ 0x2000) w 7 3) by (done || by rewrite land_lxor_distr, Z.lxor_0_r).
  by destruct Hop as [-> | ->]; cbn -[Z.eqb Z.add]; intros [= <-]; rewrite ?negb_involutive.
Qed.

(** ** Jumps *)

Definition J_OP : Z := 0x6f.

Lemma transfer_jal xlen regs pc w d :
  w .& 0x7f = J_OP -> w .& ENCODE_JTYPE_IMM (-1) = 0 ->
  - 2 ^ 63 <= d < 2 ^ 63 -> in_range (Signed 1 21) d ->
  transfer xlen regs pc (w .| ENCODE_JTYPE_IMM (u64 d)) = Some (u64 (pc + d), bits w 7 5).
Proof.
  intros Hop Hclr Hd Hr.
  destruct JTYPE_fmt as (EN & EX & Hf). rewrite EN in *. set (X := w .| _).
  destruct (filled_field fmt_JTYPE_IMM w d X) as [HE HX]; try done.
  unfold transfer, jump. rewrite (length_4_opcode X J_OP) by (done || by outside HX). simpl.
  change MASK_JAL with 0x7f. outside HX. rewrite Hop. simpl.
  rewrite (bits_agree X w 7 5) by (done || by outside HX).
  rewrite EX, HE. by rewrite u64_add_u64.
Qed.

(** The three bits a compressed jump is recognised by. *)
Lemma cjump_op w e link :
  riscv_insn_length w = 2 -> jump w = Some (e, link) ->
  e = EXTRACT_CJTYPE_IMM w /\
  (w .& C_OP = MATCH_C_J /\ link = 0 \/ w .& C_OP = MATCH_C_JAL /\ link = X_RA).
Proof.
  intros H2. unfold jump. rewrite H2. change (2 =? 2) with true. cbn match.
  destruct (Z.eqb_spec (w .& MASK_C_J) MATCH_C_J) as [E|_].
  { intros [= <- <-]. auto. }
  destruct (Z.eqb_spec (w .& MASK_C_JAL) MATCH_C_JAL) as [E|_]; [|done].
  intros [= <- <-]. auto.
Qed.

Lemma cjump_some w op :
  w .& C_OP = op -> op = MATCH_C_J \/ op = MATCH_C_JAL ->
  jump w = Some (EXTRACT_CJTYPE_IMM w, if op =? MATCH_C_J then 0 else X_RA).
Proof.
  intros Hw Hop. unfold jump. rewrite (c_length w op) by (done || by destruct Hop as [-> | ->]).
  change (2 =? 2) with true. cbn match. change MASK_C_J with C_OP. change MASK_C_JAL with C_OP.
  rewrite Hw. by destruct Hop as [-> | ->].
Qed.

Lemma transfer_cj xlen regs pc w d e link :
  riscv_insn_length w = 2 -> jump w = Some (e, link) -> w .& ENCODE_CJTYPE_IMM (-1) = 0 ->
  - 2 ^ 63 <= d < 2 ^ 63 -> in_range (Signed 1 12) d ->
  transfer xlen regs pc (w .| ENCODE_CJTYPE_IMM (u64 d)) = Some (u64 (pc + d), link).
Proof.
  intros H2 Hj Hclr Hd Hr. destruct (cjump_op _ _ _ H2 Hj) as [_ Hop].
  destruct CJTYPE_fmt as (EN & EX & Hf). rewrite EN in *. set (X := w .| _).
  destruct (filled_field fmt_CJTYPE_IMM w d X) as [HE HX]; try done.
  unfold transfer. rewrite (cjump_some X (w .& C_OP))
    by (by outside HX || destruct Hop as [[-> _]|[-> _]]; auto).
  rewrite EX, HE, u64_add_u64.
  by destruct Hop as [[-> ->]|[-> ->]].
Qed.

(** ** The branch a frag starts with *)

(** Whether the transfer [w] happens, and the link register. *)
Definition branch_effect (xlen : Z) (regs : Z -> Z) (w : Z) : option (bool * Z) :=
  match jump w with
  | Some (_, link) => Some (true, link)
  | None => (fun t => (t, 0)) <$> taken xlen regs w
  end.

(** The instruction a branch frag is created with: of the size and the kind its
    subtype records, with a clear offset field. *)
Record frag_insn (uncond rvc : bool) (w : Z) : Prop := {
  fi_length : riscv_insn_length w = if rvc then 2 else 4;
  fi_range : 0 <= w < if rvc then 2 ^ 16 else 2 ^ 32;
  fi_kind : uncond = bool_decide (is_Some (jump w));
  fi_clear :
    w .& (if rvc then if uncond then ENCODE_CJTYPE_IMM (-1) else ENCODE_CBTYPE_IMM (-1)
          else if uncond then ENCODE_JTYPE_IMM (-1) else ENCODE_BTYPE_IMM (-1)) = 0;
}.

Lemma branch_op xlen regs w t :
  riscv_insn_length w = 4 -> taken xlen regs w = Some t -> w .& 0x7f = B_OP.
Proof.
  intros H4. unfold taken. rewrite H4. simpl. unfold condition.
  replace (w .& 0x7f) with ((w .& MASK_BEQ) .& 0x7f) by (by rewrite <- Z.land_assoc).
  intros H. repeat (match type of H with (if ?x =? ?y then _ else _) = _ =>
    destruct (Z.eqb_spec x y) as [E|_]; [by rewrite E|] end). done.
Qed.

Lemma jal_op w e link :
  riscv_insn_length w = 4 -> jump w = Some (e, link) -> w .& 0x7f = J_OP /\ link = bits w 7 5.
Proof.
  intros H4. unfold jump. rewrite H4. simpl. change MASK_JAL with 0x7f.
  destruct (Z.eqb_spec (w .& 0x7f) MATCH_JAL); [|done]. intros [= _ <-]. done.
Qed.

(** The 32-bit form of a compressed branch is an instruction with the same
    effect. *)
Lemma expand_cjump w e link :
  riscv_insn_length w = 2 -> jump w = Some (e, link) ->
  exists X, expand_rvc w = Some X /\ frag_insn true false X /\
    exists e', jump X = Some (e', link).
Proof.
  intros H2 Hj. destruct (cjump_op _ _ _ H2 Hj) as [_ Hop]. unfold expand_rvc.
  change MASK_C_J with C_OP. change MASK_C_JAL with C_OP.
  destruct Hop as [[-> ->]|[-> ->]]; (eexists; split; [reflexivity|]);
    (split; [|eexists; reflexivity]); split; first [reflexivity|split; reflexivity|by vm_compute].
Qed.

Lemma small_field w : 0 <= bits w 7 3 < 8.
Proof. unfold bits. rewrite Z.land_ones by lia. apply Z.mod_pos_bound. lia. Qed.

Lemma expand_cbranch xlen regs w t :
  riscv_insn_length w = 2 -> taken xlen regs w = Some t -> regs 0 = 0 ->
  exists X, expand_rvc w = Some X /\ frag_insn false false X /\ taken xlen regs X = Some t.
Proof.
  intros H2 Ht H0. pose proof (ctaken_op _ _ _ _ H2 Ht) as Hop. revert Ht.
  unfold expand_rvc, taken. rewrite H2. change (2 =? 2) with true. cbn match.
  change MASK_C_J with C_OP. change MASK_C_JAL with C_OP.
  change MASK_C_BEQZ with C_OP. change MASK_C_BNEZ with C_OP.
  change ((w >> OP_SH FLD_CRS1S) .& OP_MASK FLD_CRS1S) with (bits w 7 3).
  pose proof (small_field w) as Hr. revert Hr. generalize (bits w 7 3) as r. intros r Hr.
  assert (E : r = 0 \/ r = 1 \/ r = 2 \/ r = 3 \/ r = 4 \/ r = 5 \/ r = 6 \/ r = 7) by lia.
  destruct Hop as [-> | ->]; cbn -[Z.eqb Z.add Z.shiftl Z.lor]; intros [= <-]; rewrite <- H0;
  destruct E as [->|[->|[->|[->|[->|[->|[->| ->]]]]]]]; (eexists; split; [reflexivity|]);
    (split; [|reflexivity]); split; first [reflexivity|split; reflexivity|by vm_compute].
Qed.

Lemma expand_rvc_correct xlen regs uncond w t link :
  frag_insn uncond true w -> branch_effect xlen regs w = Some (t, link) -> regs 0 = 0 ->
  exists X, expand_rvc w = Some X /\ frag_insn uncond false X /\
    branch_effect xlen regs X = Some (t, link).
Proof.
  intros Hi He H0. pose proof (fi_kind _ _ _ Hi) as Hk. revert He. unfold branch_effect.
  destruct (jump w) as [[e l]|] eqn:Hj; simpl in Hk; subst uncond.
  - intros [= <- <-].
    destruct (expand_cjump w e l (fi_length _ _ _ Hi) Hj) as (X & ? & ? & e' & HX).
    exists X. by rewrite HX.
  - destruct (taken xlen regs w) as [b|] eqn:Ht; intros [= <- <-].
    destruct (expand_cbranch xlen regs w b (fi_length _ _ _ Hi) Ht H0) as (X & ? & HXi & HX).
    exists X. pose proof (fi_kind _ _ _ HXi) as HXk. destruct (jump X); [done|]. by rewrite HX.
Qed.

(** ** Applying the fixup *)

(** The fixups of branches: the bytes they rewrite and the encoding. *)
Definition branch_reloc (r : reloc) : option (nat * (Z -> Z)) :=
  match r with
  | BFD_RELOC_RISCV_JMP => Some (4%nat, ENCODE_JTYPE_IMM)
  | BFD_RELOC_12_PCREL => Some (4%nat, ENCODE_BTYPE_IMM)
  | BFD_RELOC_RISCV_RVC_BRANCH => Some (2%nat, ENCODE_CBTYPE_IMM)
  | BFD_RELOC_RISCV_RVC_JUMP => Some (2%nat, ENCODE_CJTYPE_IMM)
  | _ => None
  end.

(** The bytes after [md_apply_fix]. *)
Definition fixed_bytes (env : fix_env) (p : gmap Z riscv_pcrel_hi_fixup) (buf : list Z) (fx : fixS)
  : option (list Z) := st_buf <$> md_apply_fix env (u64 (fx_offset fx)) buf fx p.

Section Convert.
  Context (xlen : Z) (regs : Z -> Z) (env : fix_env) (p : gmap Z riscv_pcrel_hi_fixup).
  Context (f : frag) (s : symbol).
  Context (Hsym : fr_symbol f = Some s) (Hzero : regs 0 = 0) (Henv : frag_address env = fr_address f).

Abbreviation pc := (fr_address f + Z.of_nat (fr_fix f)).
Abbreviation d := (branch_distance f s).
Abbreviation fix0 := (fr_fix f).

(** The offset of the target from an instruction [k] bytes into the frag. *)
Lemma fixup_delta k :
  u64 (u64 (S_GET_VALUE s + u64 (fr_offset f)) - u64 (Z.of_nat (fix0 + k) + fr_address f))
  = u64 (d - Z.of_nat k).
Proof.
  unfold branch_distance. u64_ring.
Qed.

Lemma target_reached : u64 (pc + d) = u64 (S_GET_VALUE s + fr_offset f).
Proof.
  unfold branch_distance. u64_ring.
Qed.

Lemma distance_range : - 2 ^ 63 <= d < 2 ^ 63.
Proof. apply (swrap_range 64). lia. Qed.

Lemma fixed_branch buf where_ k size r n enc :
  branch_reloc r = Some (n, enc) -> where_ = (fix0 + k)%nat ->
  fixed_bytes env p buf (fix_new_exp f where_ size r)
  = Some (putl n (getl n buf where_ .| enc (u64 (d - Z.of_nat k))) buf where_).
Proof.
  intros Hr ->. unfold fixed_bytes, md_apply_fix, fix_new_exp. rewrite Hsym.
  destruct r; try discriminate; injection Hr as <- <-; cbn -[putl getl u64 Nat.add];
    unfold md_pcrel_from; cbn -[putl getl u64 Nat.add]; by rewrite Henv, fixup_delta.
Qed.

(** ** One instruction *)

Lemma flow_one L buf off X :
  read_insn buf off = X -> riscv_insn_length X = L ->
  flow xlen regs pc L buf off = transfer xlen regs pc X.
Proof.
  intros HX HL. unfold flow. rewrite HX, HL, Z.ltb_irrefl. simpl.
  by destruct (transfer xlen regs pc X) as [[q l]|].
Qed.

(** A branch over a jump. *)
Lemma flow_two buf n L X Y (t : bool) link e q :
  read_insn buf fix0 = X -> riscv_insn_length X = n -> n < L < 2 ^ 64 -> 0 <= n ->
  transfer xlen regs pc X = Some (u64 (pc + (if t then L else n)), link) ->
  read_insn buf (fix0 + Z.to_nat n) = Y -> transfer xlen regs (pc + n) Y = Some (q, e) ->
  flow xlen regs pc L buf fix0 = Some (if t then u64 (pc + L) else q, if t then link else e).
Proof.
  intros HX Hn HL H0 Ht HY Hq. unfold flow. rewrite HX, Hn, Ht, HY, Hq.
  rewrite (proj2 (Z.ltb_lt n L)) by lia. simpl. destruct t; [|by rewrite Z.eqb_refl].
  destruct (Z.eqb_spec (u64 (pc + L)) (u64 (pc + n))) as [E|_]; [|done].
  exfalso. unfold u64 in E. assert (Hm : (L - n) mod 2 ^ 64 = 0).
  { replace (L - n) with ((pc + L) - (pc + n)) by lia. rewrite Zminus_mod, E, Z.sub_diag. done. }
  rewrite Z.mod_small in Hm; lia.
Qed.

(** With the fixup [fx] applied, the [L] bytes of the branch go to the target
    if [t], and behind themselves otherwise. *)
Definition goes (buf : list Z) (fx : fixS) (L : Z) (t : bool) (link : Z) : Prop :=
  exists buf', fixed_bytes env p buf fx = Some buf' /\
    flow xlen regs pc L buf' fix0 = Some (u64 (if t then pc + d else pc + L), link).

(** A field filled in at the frag's own instruction. *)
Lemma goes_one buf size r n enc X L (t : bool) link :
  branch_reloc r = Some (n, enc) -> (n = 2 \/ n = 4)%nat -> L = Z.of_nat n ->
  (fix0 + n <= length buf)%nat ->
  X = getl n buf fix0 .| enc (u64 d) -> 0 <= X < 2 ^ (8 * Z.of_nat n) -> riscv_insn_length X = L ->
  transfer xlen regs pc X = Some (u64 (if t then pc + d else pc + L), link) ->
  goes buf (fix_new_exp f fix0 size r) L t link.
Proof.
  intros Hr Hn -> Hlen HX HXr HXl Ht. eexists. split.
  - apply (fixed_branch buf fix0 0 size r n enc Hr). lia.
  - rewrite Z.sub_0_r, <- HX. rewrite (flow_one _ _ _ X); [done| |done].
    destruct Hn as [-> | ->]; [by apply read_putl16|by apply read_putl32].
Qed.

Lemma goes_branch4 buf size w t :
  bfd_getl32 buf fix0 = w -> (fix0 + 4 <= length buf)%nat -> frag_insn false false w ->
  taken xlen regs w = Some t -> in_range (Signed 1 13) d ->
  goes buf (fix_new_exp f fix0 size BFD_RELOC_12_PCREL) 4 t 0.
Proof.
  intros Hw Hlen [H4 Hwr _ Hc] Ht Hd. pose proof (branch_op _ _ _ _ H4 Ht) as Hop.
  pose proof distance_range as Hdr. destruct BTYPE_fmt as (EN & _ & Hf).
  eapply (goes_one buf size _ 4 ENCODE_BTYPE_IMM (w .| ENCODE_BTYPE_IMM (u64 d))); try done; auto.
  - by rewrite <- Hw.
  - apply lor_range; [lia|done|]. rewrite EN. by apply encode_range.
  - apply opcode_length. rewrite land_lor_out; [done|]. rewrite EN. apply encode_out; [done|].
    by vm_compute.
  - rewrite (transfer_branch xlen regs pc w d t) by done. by destruct t.
Qed.

Lemma goes_jump4 buf size w e link :
  bfd_getl32 buf fix0 = w -> (fix0 + 4 <= length buf)%nat -> frag_insn true false w ->
  jump w = Some (e, link) -> in_range (Signed 1 21) d ->
  goes buf (fix_new_exp f fix0 size BFD_RELOC_RISCV_JMP) 4 true link.
Proof.
  intros Hw Hlen [H4 Hwr _ Hc] Hj Hd. destruct (jal_op _ _ _ H4 Hj) as [Hop ->].
  pose proof distance_range as Hdr. destruct JTYPE_fmt as (EN & _ & Hf).
  eapply (goes_one buf size _ 4 ENCODE_JTYPE_IMM (w .| ENCODE_JTYPE_IMM (u64 d))); try done; auto.
  - by rewrite <- Hw.
  - apply lor_range; [lia|done|]. rewrite EN. by apply encode_range.
  - apply (length_4_opcode _ J_OP); [|done|done]. rewrite land_lor_out; [done|]. rewrite EN.
    apply encode_out; [done|]. by vm_compute.
  - by rewrite (transfer_jal xlen regs pc w d).
Qed.

Lemma goes_cbranch2 buf size w t :
  bfd_getl16 buf fix0 = w -> (fix0 + 2 <= length buf)%nat -> frag_insn false true w ->
  taken xlen regs w = Some t -> in_range (Signed 1 9) d ->
  goes buf (fix_new_exp f fix0 size BFD_RELOC_RISCV_RVC_BRANCH) 2 t 0.
Proof.
  intros Hw Hlen [H2 Hwr _ Hc] Ht Hd. pose proof (ctaken_op _ _ _ _ H2 Ht) as Hop.
  pose proof distance_range as Hdr. destruct CBTYPE_fmt as (EN & _ & Hf).
  eapply (goes_one buf size _ 2 ENCODE_CBTYPE_IMM (w .| ENCODE_CBTYPE_IMM (u64 d))); try done; auto.
  - by rewrite <- Hw.
  - apply lor_range; [lia|done|]. rewrite EN. apply encode_range16; [done|by vm_compute].
  - apply (c_length _ (w .& C_OP)); [|by destruct Hop as [-> | ->]].
    rewrite land_lor_out; [done|]. rewrite EN. apply encode_out; [done|]. by vm_compute.
  - rewrite (transfer_cbranch xlen regs pc w d t) by done. by destruct t.
Qed.

Lemma goes_cjump2 buf size w e link :
  bfd_getl16 buf fix0 = w -> (fix0 + 2 <= length buf)%nat -> frag_insn true true w ->
  jump w = Some (e, link) -> in_range (Signed 1 12) d ->
  goes buf (fix_new_exp f fix0 size BFD_RELOC_RISCV_RVC_JUMP) 2 true link.
Proof.
  intros Hw Hlen [H2 Hwr _ Hc] Hj Hd. destruct (cjump_op _ _ _ H2 Hj) as [_ Hop].
  pose proof distance_range as Hdr. destruct CJTYPE_fmt as (EN & _ & Hf).
  eapply (goes_one buf size _ 2 ENCODE_CJTYPE_IMM (w .| ENCODE_CJTYPE_IMM (u64 d))); try done; auto.
  - by rewrite <- Hw.
  - apply lor_range; [lia|done|]. rewrite EN. apply encode_range16; [done|by vm_compute].
  - apply (c_length _ (w .& C_OP)); [|by destruct Hop as [[-> _]|[-> _]]].
    rewrite land_lor_out; [done|]. rewrite EN. apply encode_out; [done|]. by vm_compute.
  - by rewrite (transfer_cj xlen regs pc w d e link).
Qed.

(** ** A branch over a jump *)

(** The jump [emit_jump] leaves behind [n] bytes, with its fixup applied. *)
Lemma emitted_jump buf n :
  (fix0 + n + 4 <= length buf)%nat -> in_range (Signed 1 21) (d - Z.of_nat n) ->
  - 2 ^ 63 <= d - Z.of_nat n ->
  exists J, 0 <= J < 2 ^ 32 /\ riscv_insn_length J = 4 /\
    (let '(buf', fx, _) := emit_jump f buf (fix0 + n) in
     exists buf'', fixed_bytes env p buf' fx = Some (bfd_putl32 J buf'' (fix0 + n)) /\
       buf'' = bfd_putl32 MATCH_JAL buf (fix0 + n)) /\
    transfer xlen regs (pc + Z.of_nat n) J = Some (u64 (pc + d), 0).
Proof.
  intros Hlen Hd Hd'. pose proof distance_range as Hdr. destruct JTYPE_fmt as (EN & _ & Hf).
  exists (MATCH_JAL .| ENCODE_JTYPE_IMM (u64 (d - Z.of_nat n))). split_and!.
  - apply Z.lor_nonneg. split; [done|]. rewrite EN. apply encode_range, Hf.
  - apply lor_range; [lia|done|]. rewrite EN. by apply encode_range.
  - apply (length_4_opcode _ J_OP); [|done|done]. rewrite land_lor_out; [done|]. rewrite EN.
    apply encode_out; [done|]. by vm_compute.
  - unfold emit_jump. eexists. split; [|done].
    rewrite (fixed_branch _ (fix0 + n) n 4 _ 4 ENCODE_JTYPE_IMM) by done.
    unfold bfd_putl32. by rewrite getl_putl by lia.
  - rewrite transfer_jal by (done || lia). do 2 f_equal. f_equal. lia.
Qed.

(** The inverted branch [X] of [n] bytes in front of that jump. *)
Lemma goes_over buf n X t :
  (n = 2 \/ n = 4)%nat -> (fix0 + n + 4 <= length buf)%nat ->
  read_insn (putl n X buf fix0) fix0 = X -> riscv_insn_length X = Z.of_nat n ->
  (n = 2%nat -> bfd_getl16 (putl n X buf fix0) fix0 = X) ->
  transfer xlen regs pc X = Some (u64 (pc + (if negb t then Z.of_nat n + 4 else Z.of_nat n)), 0) ->
  in_range (Signed 1 21) (d - Z.of_nat n) -> - 2 ^ 63 <= d - Z.of_nat n ->
  let '(buf', fx, _) := emit_jump f (putl n X buf fix0) (fix0 + n) in
  goes buf' fx (Z.of_nat n + 4) t 0.
Proof.
  intros Hn Hlen Hread HXl H16 HX Hd Hd'.
  assert (Hl : length (putl n X buf fix0) = length buf) by (apply putl_length; lia).
  destruct (emitted_jump (putl n X buf fix0) n) as (J & HJr & HJl & HJ & HJt);
    [rewrite Hl; lia|done|done|].
  unfold emit_jump in *. destruct HJ as (buf'' & Hfix & ->). eexists. split; [exact Hfix|].
  assert (Hl' : length (bfd_putl32 MATCH_JAL (putl n X buf fix0) (fix0 + n)) = length buf)
    by (unfold bfd_putl32; rewrite putl_length; lia).
  rewrite (flow_two _ (Z.of_nat n) (Z.of_nat n + 4) X J (negb t) 0 0 (u64 (pc + d))); try done.
  - by destruct t.
  - unfold bfd_putl32 in *. destruct Hn as [-> | ->].
    + assert (A1 : riscv_insn_length (bfd_getl16 (putl 2 X buf fix0) fix0) = 2)
        by (by rewrite H16).
      assert (A2 : riscv_insn_length
                     (bfd_getl16 (putl 4 MATCH_JAL (putl 2 X buf fix0) (fix0 + 2)) fix0) = 2)
        by (unfold bfd_getl16 in *; by rewrite getl_putl_before by lia).
      rewrite (read_putl_before16 4 J) by (done || rewrite ?Hl'; lia).
      by rewrite (read_putl_before16 4 MATCH_JAL) by (done || rewrite ?Hl; lia).
    + rewrite (read_putl_before 4 J) by (rewrite ?Hl'; lia).
      by rewrite (read_putl_before 4 MATCH_JAL) by (rewrite ?Hl; lia).
  - destruct Hn as [-> | ->]; lia.
  - lia.
  - rewrite Nat2Z.id. apply read_putl32; [rewrite Hl'; lia|done|done].
Qed.

Lemma goes_branch8 buf w t :
  bfd_getl32 buf fix0 = w -> (fix0 + 8 <= length buf)%nat -> frag_insn false false w ->
  taken xlen regs w = Some t -> in_range (Signed 1 21) (d - 4) ->
  let X := (w .^ (MATCH_BEQ .^ MATCH_BNE)) .| ENCODE_BTYPE_IMM 8 in
  let '(buf', fx, _) := emit_jump f (bfd_putl32 X buf fix0) (fix0 + 4) in
  goes buf' fx 8 t 0.
Proof.
  intros Hw Hlen [H4 Hwr _ Hc] Ht Hd X. pose proof (branch_op _ _ _ _ H4 Ht) as Hop.
  destruct BTYPE_fmt as (EN & _ & Hf). change (MATCH_BEQ .^ MATCH_BNE) with 0x1000 in X.
  assert (HopX : (w .^ 0x1000) .& 0x7f = B_OP) by (by rewrite land_lxor_distr, Hop).
  assert (HcX : (w .^ 0x1000) .& ENCODE_BTYPE_IMM (-1) = 0)
    by (rewrite land_lxor_distr, Hc; by vm_compute).
  assert (HX4 : riscv_insn_length X = 4).
  { apply opcode_length. unfold X. rewrite land_lor_out; [done|by vm_compute]. }
  assert (HXr : 0 <= X < 2 ^ 32).
  { apply lor_range; [lia| |by rewrite EN; apply encode_range]. by apply lxor_range. }
  apply (goes_over buf 4 X t); [by right|lia| |done|done| |done|destruct Hd; lia].
  - apply read_putl32; [lia|done|done].
  - unfold X. change 8 with (u64 8).
    rewrite (transfer_branch xlen regs pc _ 8 (negb t)); try done.
    by rewrite taken_inverted, Ht.
Qed.

Lemma goes_cbranch6 buf w t :
  bfd_getl16 buf fix0 = w -> (fix0 + 6 <= length buf)%nat -> frag_insn false true w ->
  taken xlen regs w = Some t -> in_range (Signed 1 21) (d - 2) ->
  let X := (w .^ (MATCH_C_BEQZ .^ MATCH_C_BNEZ)) .| ENCODE_CBTYPE_IMM 6 in
  let '(buf', fx, _) := emit_jump f (bfd_putl16 X buf fix0) (fix0 + 2) in
  goes buf' fx 6 t 0.
Proof.
  intros Hw Hlen [H2 Hwr _ Hc] Ht Hd X.
  destruct CBTYPE_fmt as (EN & _ & Hf). change (MATCH_C_BEQZ .^ MATCH_C_BNEZ) with 0x2000 in X.
  destruct (ctaken_inverted _ _ _ _ H2 Ht) as [HI2 HIt].
  pose proof (ctaken_op _ _ _ _ HI2 HIt) as Hop.
  assert (HcX : (w .^ 0x2000) .& ENCODE_CBTYPE_IMM (-1) = 0)
    by (rewrite land_lxor_distr, Hc; by vm_compute).
  assert (HX2 : riscv_insn_length X = 2).
  { apply (c_length _ ((w .^ 0x2000) .& C_OP)); [|by destruct Hop as [-> | ->]].
    unfold X. rewrite land_lor_out; [done|by vm_compute]. }
  assert (HXr : 0 <= X < 2 ^ 16).
  { apply lor_range; [lia|by apply lxor_range|]. rewrite EN. apply encode_range16; [done|by vm_compute]. }
  apply (goes_over buf 2 X t); [by left|lia| |done| | |done|destruct Hd; lia].
  - apply read_putl16; [lia|done|done].
  - intros _. unfold bfd_getl16. rewrite getl_putl by lia. by rewrite Z.mod_small.
  - unfold X. change 6 with (u64 6) at 1.
    rewrite (transfer_cbranch xlen regs pc _ 6 (negb t)); try done.
Qed.

(** ** The expansion *)

(** A 32-bit branch kept, or turned into a branch over a jump. *)
Lemma convert_base_goes buf uncond w L t link :
  bfd_getl32 buf fix0 = w -> (fix0 + Z.to_nat L <= length buf)%nat -> frag_insn uncond false w ->
  branch_effect xlen regs w = Some (t, link) ->
  (L = 4 /\ in_range (if uncond then Signed 1 21 else Signed 1 13) d) \/
  (L = 8 /\ uncond = false /\ in_range (Signed 1 21) (d - 4)) ->
  exists buf' fx, convert_base f L uncond buf fix0 = Some (buf', fx, (fix0 + Z.to_nat L)%nat) /\
    goes buf' fx L t link.
Proof.
  intros Hw Hlen Hi He Hd. pose proof (fi_kind _ _ _ Hi) as Hk. unfold branch_effect in He.
  destruct Hd as [[-> Hd]|(-> & -> & Hd)].
  - destruct (jump w) as [[e l]|] eqn:Hj; simpl in Hk; subst uncond.
    + simplify_eq. do 2 eexists. split; [reflexivity|]. by eapply goes_jump4.
    + destruct (taken xlen regs w) as [b|] eqn:Ht; simplify_eq/=.
      do 2 eexists. split; [reflexivity|]. by eapply goes_branch4.
  - destruct (jump w) as [[e l]|] eqn:Hj; simpl in Hk; [done|].
    destruct (taken xlen regs w) as [b|] eqn:Ht; simplify_eq/=.
    do 2 eexists. split.
    { unfold convert_base, emit_jump. change (8 =? 8) with true. cbv beta iota zeta.
      replace (fix0 + 4 + 4)%nat with (fix0 + Z.to_nat 8)%nat by lia. reflexivity. }
    by apply (goes_branch8 buf (bfd_getl32 buf fix0) t).
Qed.

End Convert.

(** ** Lengths *)

(** A branch [d] bytes away is reached by the expansion to [L] bytes. *)
Definition reaches (uncond rvc : bool) (L d : Z) : Prop :=
  (L = 2 /\ rvc = true /\ in_range (if uncond then Signed 1 12 else Signed 1 9) d) \/
  (L = 4 /\ in_range (if uncond then Signed 1 21 else Signed 1 13) d) \/
  (L = 6 /\ rvc = true /\ uncond = false /\ in_range (Signed 1 21) (d - 2)) \/
  (L = 8 /\ uncond = false /\ in_range (Signed 1 21) (d - 4)).

(** The word the expansion of a frag reads. *)
Definition frag_word (rvc : bool) (f : frag) : Z :=
  if rvc then bfd_getl16 (fr_literal f) (fr_fix f) else bfd_getl32 (fr_literal f) (fr_fix f).

(** A branch frag whose length is [L], with room for it. *)
Record branch_frag (uncond rvc : bool) (L : Z) (f : frag) : Prop := {
  bf_subtype : fr_subtype f = RELAX_BRANCH_ENCODE uncond rvc L;
  bf_var : fr_var f = L;
  bf_room : (fr_fix f + 8 <= length (fr_literal f))%nat;
  bf_insn : frag_insn uncond rvc (frag_word rvc f);
}.

(** The relaxation state packs and unpacks. *)
Lemma relax_branch_fields uncond rvc L :
  L = 2 \/ L = 4 \/ L = 6 \/ L = 8 ->
  let i := RELAX_BRANCH_ENCODE uncond rvc L in
  RELAX_BRANCH_P i = true /\ RELAX_BRANCH_LENGTH i = L /\
  RELAX_BRANCH_UNCOND i = uncond /\ RELAX_BRANCH_RVC i = rvc.
Proof. intros [->|[->|[->| ->]]]; by destruct uncond, rvc. Qed.

Lemma reaches_length uncond rvc L d : reaches uncond rvc L d -> L = 2 \/ L = 4 \/ L = 6 \/ L = 8.
Proof. unfold reaches. intuition. Qed.

(** A compressed branch kept, or put in front of a jump. *)
Lemma convert_rvc_goes xlen regs env p f s uncond w L t link :
  fr_symbol f = Some s -> frag_address env = fr_address f ->
  w = bfd_getl16 (fr_literal f) (fr_fix f) -> (fr_fix f + 8 <= length (fr_literal f))%nat ->
  frag_insn uncond true w -> branch_effect xlen regs w = Some (t, link) ->
  (L = 2 /\ in_range (if uncond then Signed 1 12 else Signed 1 9) (branch_distance f s)) \/
  (L = 6 /\ uncond = false /\ in_range (Signed 1 21) (branch_distance f s - 2)) ->
  fr_subtype f = RELAX_BRANCH_ENCODE uncond true L ->
  exists buf' fx, convert_branch f = Some (buf', fx, (fr_fix f + Z.to_nat L)%nat) /\
    goes xlen regs env p f s buf' fx L t link.
Proof.
  intros Hsym Henv Hw Hroom Hi He Hd Hs. pose proof (fi_kind _ _ _ Hi) as Hk.
  assert (HL : L = 2 \/ L = 4 \/ L = 6 \/ L = 8) by intuition.
  destruct (relax_branch_fields uncond true L HL) as (_ & HLn & HU & HR).
  unfold convert_branch. rewrite Hs, HLn, HU, HR, <- Hw. unfold branch_effect in He.
  destruct Hd as [(-> & Hd)|(-> & -> & Hd)].
  - do 2 eexists. split; [reflexivity|]. revert He.
    destruct (jump w) as [[e l]|] eqn:Hj; simpl in Hk; subst uncond.
    + intros [= <- <-]. eapply goes_cjump2 with (w := w) (e := e); eauto. lia.
    + destruct (taken xlen regs w) as [b|] eqn:Ht; intros [= <- <-].
      eapply goes_cbranch2 with (w := w); eauto. lia.
  - revert He. destruct (jump w) as [[e l]|] eqn:Hj; simpl in Hk; [done|].
    destruct (taken xlen regs w) as [b|] eqn:Ht; intros [= <- <-].
    do 2 eexists. split.
    { unfold emit_jump. change (6 =? 8) with false. change (6 =? 4) with false.
      change (6 =? 6) with true. cbv beta iota zeta delta [orb].
      replace (fr_fix f + 2 + 4)%nat with (fr_fix f + Z.to_nat 6)%nat by lia. reflexivity. }
    apply (goes_cbranch6 xlen regs env p f s Hsym Henv (fr_literal f) w b); try done. lia.
Qed.

Lemma convert_branch_goes xlen regs env p f s uncond rvc L t link :
  branch_frag uncond rvc L f -> fr_symbol f = Some s -> frag_address env = fr_address f ->
  regs 0 = 0 -> branch_effect xlen regs (frag_word rvc f) = Some (t, link) ->
  reaches uncond rvc L (branch_distance f s) ->
  exists buf' fx, convert_branch f = Some (buf', fx, (fr_fix f + Z.to_nat L)%nat) /\
    goes xlen regs env p f s buf' fx L t link.
Proof.
  intros [Hs Hv Hroom Hi] Hsym Henv H0 He Hd.
  destruct (relax_branch_fields uncond rvc L (reaches_length _ _ _ _ Hd)) as (_ & HL & HU & HR).
  assert (Hdec : rvc = true /\ (L = 2 \/ L = 6) \/ (L = 4 \/ L = 8)) by (unfold reaches in Hd; intuition).
  destruct Hdec as [[-> HL26]|HL48].
  - eapply convert_rvc_goes; eauto. unfold reaches in Hd. intuition lia.
  - assert (Hd' : (L = 4 /\ in_range (if uncond then Signed 1 21 else Signed 1 13) (branch_distance f s)) \/
      (L = 8 /\ uncond = false /\ in_range (Signed 1 21) (branch_distance f s - 4)))
      by (unfold reaches in Hd; intuition lia).
    unfold convert_branch. rewrite Hs, HL, HU, HR. unfold frag_word in *. destruct rvc.
    + destruct (expand_rvc_correct _ _ _ _ _ _ Hi He H0) as (X & -> & HXi & HXe).
      replace ((L =? 8) || (L =? 4)) with true by (by destruct HL48 as [-> | ->]).
      eapply (convert_base_goes) with (w := X); eauto.
      * unfold bfd_getl32, bfd_putl32. rewrite getl_putl by lia.
        rewrite Z.mod_small; [done|exact (fi_range _ _ _ HXi)].
      * unfold bfd_putl32. rewrite putl_length; lia.
    + eapply convert_base_goes; eauto. lia.
Qed.

(** C11: expanding a branch frag keeps its meaning.  For every length [L] whose
    expansion reaches the target, [md_convert_frag_branch] succeeds, and once
    [md_apply_fix] has filled in the fixup it made, executing the [L] bytes goes
    to symbol + offset exactly if the original branch (or jump) is taken and
    behind the [L] bytes otherwise, with the same link register: compressed
    branches become 32-bit ones, and far ones the inverted branch over a jal. *)
Theorem md_convert_frag_branch_flow xlen regs env p f s uncond rvc L t link :
  branch_frag uncond rvc L f -> fr_symbol f = Some s -> frag_address env = fr_address f ->
  regs 0 = 0 -> branch_effect xlen regs (frag_word rvc f) = Some (t, link) ->
  reaches uncond rvc L (branch_distance f s) ->
  exists f' fx buf',
    md_convert_frag_branch f = Some (f', fx) /\ fr_fix f' = (fr_fix f + Z.to_nat L)%nat /\
    fixed_bytes env p (fr_literal f') fx = Some buf' /\
    flow xlen regs (fr_address f + Z.of_nat (fr_fix f)) L buf' (fr_fix f)
    = Some (u64 (if t then S_GET_VALUE s + fr_offset f
                 else fr_address f + Z.of_nat (fr_fix f) + L), link).
Proof.
  intros Hf Hsym Henv H0 He Hd. pose proof (reaches_length _ _ _ _ Hd) as HL.
  destruct (convert_branch_goes _ _ _ p _ _ _ _ _ _ _ Hf Hsym Henv H0 He Hd)
    as (buf & fx & Hc & buf' & Hfix & Hflow).
  destruct Hf as [Hs Hv _ _]. unfold md_convert_frag_branch.
  destruct (relax_branch_fields uncond rvc L HL) as (_ & HLn & _ & _).
  rewrite Hc, Hv, Hs, HLn, Z.eqb_refl, (proj2 (Z.eqb_eq _ _)) by lia.
  do 3 eexists. split_and!; [reflexivity|done|exact Hfix|]. rewrite Hflow.
  destruct t; [by rewrite target_reached|done].
Qed.

(** A frag at 0x100000 with a branch behind its first two bytes, 4102 bytes
    before its target. *)
Definition sample_frag (uncond rvc : bool) (L : Z) (w : Z) : frag :=
  mk_frag (RELAX_BRANCH_ENCODE uncond rvc L) L (Some (mk_symbol true false true 1 false 0x101000)) 8
    0x100000 2 ([1; 0] ++ bytes_le 8 w).

Lemma md_convert_frag_branch_flow_witness :
  exists f' fx buf',
    md_convert_frag_branch (sample_frag false true 6 0xc101) = Some (f', fx) /\
    fr_fix f' = 8%nat /\
    fixed_bytes (mk_fix_env 0x100000 0 0 1 true false) ∅ (fr_literal f') fx = Some buf' /\
    flow 64 (fun _ => 0) 0x100002 6 buf' 2 = Some (u64 0x101008, 0).
Proof.
  apply (md_convert_frag_branch_flow 64 (fun _ => 0) (mk_fix_env 0x100000 0 0 1 true false) ∅
    (sample_frag false true 6 0xc101) (mk_symbol true false true 1 false 0x101000)
    false true 6 true 0); try reflexivity.
  - split; [reflexivity|reflexivity|simpl; lia|].
    split; [reflexivity|split; [vm_compute; discriminate|reflexivity]|reflexivity|reflexivity].
  - right; right; left. repeat split; vm_compute; discriminate.
Defined.

(** ** The chosen length *)




