(* ===== verification/Align.v ===== *)
(** * Code alignment (gas/config/tc-riscv.c)

    [riscv_make_nops], the worst-case padding of [riscv_frag_align_code] for the
    linker to shorten, and the padding [riscv_handle_align] leaves in a frag when
    the linker does not relax. *)
From Stdlib Require Import ZArith Bool Lia.
From stdpp Require Import base list.
From S2P Require Import Prelude OpcodeH RiscvH Bytes Howto Fixups Relax.

#[local] Open Scope Z_scope.

(** ** Filling with nops *)

(** [for ( ; i < bytes; i += 4)]; [None] if [fuel] runs out. *)
Fixpoint fill_nops (fuel : nat) (buf : list Z) (p i bytes : nat) : option (list Z) :=
  if (i <? bytes)%nat then
    match fuel with
    | O => None
    | S fuel' =>
        fill_nops fuel' (putb (number_to_chars_littleendian RISCV_NOP 4) buf (p + i)) p (i + 4) bytes
    end
  else Some buf.

(** [riscv_make_nops (buf + p, bytes)]. *)
Definition riscv_make_nops (buf : list Z) (p bytes : nat) : option (list Z) :=
  let '(buf, i) := if (bytes mod 2 =? 1)%nat then (putb [0] buf p, 1%nat) else (buf, 0%nat) in
  let '(buf, i) := if ((bytes - i) mod 4 =? 2)%nat
                   then (putb (number_to_chars_littleendian RVC_NOP 2) buf (p + i), (i + 2)%nat)
                   else (buf, i) in
  fill_nops bytes buf p i bytes.

(** ** Alignment while the linker relaxes *)

(** What [riscv_frag_align_code (n)] decides: nothing is needed, the generic code
    takes over, or the nops (their number is the addend of the
    BFD_RELOC_RISCV_ALIGN fixup).  [None] if [riscv_make_nops] gives none. *)
Inductive align_result : Type :=
| Align_none
| Align_generic
| Align_nops (nops : list Z) (addend : Z).

Definition riscv_frag_align_code (rvc relax : bool) (n : nat) : option align_result :=
  let bytes := 2 ^ Z.of_nat n in
  let insn_alignment := if rvc then 2 else 4 in
  let worst_case_bytes := u64 (bytes - insn_alignment) in
  if bytes <=? insn_alignment then Some Align_none
  else if negb relax then Some Align_generic
  else
    match riscv_make_nops (replicate (Z.to_nat worst_case_bytes) 0) 0 (Z.to_nat worst_case_bytes) with
    | Some nops => Some (Align_nops nops worst_case_bytes)
    | None => None
    end.

(** ** Alignment by the assembler *)

Definition set_fill (f : frag) (var : Z) (fix_ : nat) (literal : list Z) : frag :=
  mk_frag (fr_subtype f) var (fr_symbol f) (fr_offset f) (fr_address f) fix_ literal.

(** [riscv_handle_align (fragP)] for a frag of type rs_align_code whose successor
    is at [next_address]: the frag, and whether the symbol for an odd byte of
    padding is added. *)
Definition riscv_handle_align (relax : bool) (next_address : Z) (f : frag) : option (frag * bool) :=
  if negb relax then
    let bytes := s64 (next_address - fr_address f - Z.of_nat (fr_fix f)) in
    let size := 4 in
    let excess := Z.rem bytes size in
    let odd_padding := Z.rem excess 2 =? 1 in
    if bytes <=? 0 then Some (f, false)
    else
      let padded :=
        if negb (excess =? 0)
        then riscv_make_nops (fr_literal f) (fr_fix f) (Z.to_nat excess)
        else Some (fr_literal f) in
      match padded with
      | Some literal =>
          let fix_ := (fr_fix f + Z.to_nat excess)%nat in
          match riscv_make_nops literal fix_ (Z.to_nat size) with
          | Some literal => Some (set_fill f size fix_ literal, negb (excess =? 0) && odd_padding)
          | None => None
          end
      | None => None
      end
  else Some (f, false).

(** What the generic code makes of the frag ([cvt_frag_to_fill] and
    [write_contents] of gas/write.c): the fixed bytes, then [fr_offset] copies of
    the [fr_var] bytes behind them. *)
Definition written_fill (next_address : Z) (f : frag) : list Z :=
  let count := Z.quot (next_address - fr_address f - Z.of_nat (fr_fix f)) (fr_var f) in
  take (fr_fix f) (fr_literal f)
  ++ concat (replicate (Z.to_nat count) (take (Z.to_nat (fr_var f)) (drop (fr_fix f) (fr_literal f)))).
