(* ===== verification/AlignSpec.v ===== *)
(** * Padding is made of nops

    The bytes [riscv_make_nops] writes, read back as instructions, and the
    padding both ways of aligning code end with. *)
From Stdlib Require Import ZArith Bool Lia.
From stdpp Require Import base list.
From S2P Require Import Prelude OpcodeH RiscvH Words Bytes Howto Fixups Relax Align.

#[local] Open Scope Z_scope.

(** ** Specification *)

(** A zero byte if the size is odd, then one 2-byte nop if needed, then 4-byte
    nops. *)
Definition padding (bytes : nat) : list Z :=
  (if Nat.odd bytes then [0] else [])
  ++ (if Nat.odd (bytes / 2) then bytes_le 2 RVC_NOP else [])
  ++ concat (replicate (bytes / 4) (bytes_le 4 RISCV_NOP)).

(** The instructions of a byte sequence, by the length rule of the ISA. *)
Fixpoint insns (fuel : nat) (l : list Z) : option (list Z) :=
  match fuel, l with
  | _, [] => Some []
  | O, _ :: _ => None
  | S fuel', _ :: _ =>
      let n := Z.to_nat (riscv_insn_length (getl 2 l 0)) in
      if (length l <? n)%nat then None else cons (getl n l 0) <$> insns fuel' (drop n l)
  end.

(** ** Writing *)

Lemma putb_putb a b buf p :
  (p + length a + length b <= length buf)%nat ->
  putb b (putb a buf p) (p + length a) = putb (a ++ b) buf p.
Proof.
  intros H. unfold putb.
  assert (HT : length (take p buf) = p) by (rewrite length_take; lia).
  assert (E1 : take (p + length a) (take p buf ++ a ++ drop (p + length a) buf) = take p buf ++ a)
    by (rewrite app_assoc; apply take_app_length'; rewrite length_app; lia).
  assert (E2 : drop (p + length a + length b) (take p buf ++ a ++ drop (p + length a) buf)
               = drop (p + length (a ++ b)) buf).
  { rewrite app_assoc, drop_app_ge by (rewrite length_app; lia).
    rewrite drop_drop, !length_app, HT. f_equal. lia. }
  by rewrite E1, E2, <- !app_assoc.
Qed.

Lemma putb_nil buf p : putb [] buf p = buf.
Proof. unfold putb. simpl. rewrite Nat.add_0_r. apply take_drop. Qed.

Lemma concat_replicate_length {A} k (l : list A) : length (concat (replicate k l)) = (k * length l)%nat.
Proof. induction k as [|k IH]; simpl; [done|]. rewrite length_app, IH. lia. Qed.

Lemma fill_nops_spec fuel k buf p i bytes :
  bytes = (i + 4 * k)%nat -> (k <= fuel)%nat -> (p + bytes <= length buf)%nat ->
  fill_nops fuel buf p i bytes
  = Some (putb (concat (replicate k (bytes_le 4 RISCV_NOP))) buf (p + i)).
Proof.
  revert fuel buf i. induction k as [|k IH]; intros fuel buf i Hb Hf Hl.
  - destruct fuel; simpl; rewrite (proj2 (Nat.ltb_ge i bytes)) by lia; by rewrite putb_nil.
  - destruct fuel as [|fuel]; [lia|]. cbn [fill_nops].
    rewrite (proj2 (Nat.ltb_lt i bytes)) by lia. unfold number_to_chars_littleendian.
    rewrite IH; [|lia|lia|rewrite putb_length by (rewrite bytes_le_length; lia); lia].
    f_equal. cbn [replicate concat]. replace (p + (i + 4))%nat with (p + i + length (bytes_le 4 RISCV_NOP))%nat
      by (rewrite bytes_le_length; lia).
    apply putb_putb. rewrite concat_replicate_length, bytes_le_length. lia.
Qed.

Lemma nat_parts bytes :
  bytes = ((if Nat.odd bytes then 1 else 0) + (if Nat.odd (bytes / 2) then 2 else 0) + 4 * (bytes / 4))%nat.
Proof.
  pose proof (Nat.div_mod_eq bytes 2) as H1. pose proof (Nat.div_mod_eq (bytes / 2) 2) as H2.
  assert (Ho : forall n, (if Nat.odd n then 1 else 0)%nat = (n mod 2)%nat).
  { intros n. pose proof (Nat.div_mod_eq n 2). pose proof (Nat.mod_upper_bound n 2 ltac:(lia)).
    destruct (Nat.odd n) eqn:E.
    - apply Nat.odd_spec in E as [m E]. lia.
    - assert (Ee : Nat.even n = true) by (by rewrite <- Nat.negb_odd, E).
      apply Nat.even_spec in Ee as [m Ee]. lia. }
  assert (E4 : (bytes / 4 = bytes / 2 / 2)%nat) by (rewrite Nat.Div0.div_div; done).
  pose proof (Ho bytes). pose proof (Ho (bytes / 2)%nat). rewrite E4.
  destruct (Nat.odd bytes), (Nat.odd (bytes / 2)); lia.
Qed.

Lemma padding_length bytes : length (padding bytes) = bytes.
Proof.
  unfold padding. rewrite !length_app, concat_replicate_length, bytes_le_length.
  pose proof (nat_parts bytes). destruct (Nat.odd bytes), (Nat.odd (bytes / 2)); simpl in *; lia.
Qed.

Lemma odd_mod2 n : (n mod 2 =? 1)%nat = Nat.odd n.
Proof.
  pose proof (Nat.div_mod_eq n 2). pose proof (Nat.mod_upper_bound n 2 ltac:(lia)).
  destruct (Nat.odd n) eqn:E.
  - apply Nat.odd_spec in E as [m E]. apply Nat.eqb_eq. lia.
  - assert (Ee : Nat.even n = true) by (by rewrite <- Nat.negb_odd, E).
    apply Nat.even_spec in Ee as [m Ee]. apply Nat.eqb_neq. lia.
Qed.

Lemma half_odd bytes :
  ((bytes - (if Nat.odd bytes then 1 else 0)) mod 4 =? 2)%nat = Nat.odd (bytes / 2).
Proof.
  pose proof (nat_parts bytes) as H. destruct (Nat.odd (bytes / 2)) eqn:E.
  - apply Nat.eqb_eq. symmetry. apply (Nat.mod_unique _ _ (bytes / 4)); destruct (Nat.odd bytes); lia.
  - apply Nat.eqb_neq. intros H2. pose proof (Nat.div_mod_eq (bytes - (if Nat.odd bytes then 1 else 0)) 4).
    destruct (Nat.odd bytes); lia.
Qed.

(** The loop behind what is already written. *)
Lemma fill_after a buf p i k bytes :
  i = length a -> bytes = (length a + 4 * k)%nat -> (p + bytes <= length buf)%nat ->
  fill_nops bytes (putb a buf p) p i bytes
  = Some (putb (a ++ concat (replicate k (bytes_le 4 RISCV_NOP))) buf p).
Proof.
  intros -> Hb Hl. rewrite (fill_nops_spec _ k) by (rewrite ?putb_length; lia).
  f_equal. apply putb_putb. rewrite concat_replicate_length, bytes_le_length. lia.
Qed.

(** The loop of nops ends and writes the padding, and nothing else. *)
Lemma make_nops_padding buf p bytes :
  (p + bytes <= length buf)%nat -> riscv_make_nops buf p bytes = Some (putb (padding bytes) buf p).
Proof.
  intros Hl. pose proof (nat_parts bytes) as Hp. pose proof (half_odd bytes) as Hh.
  unfold riscv_make_nops, padding, number_to_chars_littleendian. rewrite odd_mod2.
  destruct (Nat.odd bytes); rewrite Hh; destruct (Nat.odd (bytes / 2)).
  - change (p + 1)%nat with (p + length [0])%nat.
    rewrite putb_putb by (rewrite bytes_le_length; simpl; lia).
    rewrite app_assoc. apply fill_after; [done|rewrite ?length_app, ?bytes_le_length; cbn [length]; lia|done].
  - apply fill_after; [done|rewrite ?length_app, ?bytes_le_length; cbn [length]; lia|done].
  - rewrite Nat.add_0_r. apply fill_after; [done|rewrite ?length_app, ?bytes_le_length; cbn [length]; lia|done].
  - rewrite <- (putb_nil buf p) at 1. apply fill_after; [done|rewrite ?length_app, ?bytes_le_length; cbn [length]; lia|done].
Qed.

(** ** Reading back *)

(** The instructions of the padding, if its size is even. *)
Definition nop_insns (bytes : nat) : list Z :=
  (if Nat.odd (bytes / 2) then [RVC_NOP] else []) ++ replicate (bytes / 4) RISCV_NOP.

Lemma insns_step fuel n w l :
  (2 <= n)%nat -> riscv_insn_length (w mod 2 ^ 16) = Z.of_nat n -> 0 <= w < 2 ^ (8 * Z.of_nat n) ->
  insns (S fuel) (bytes_le n w ++ l) = cons w <$> insns fuel l.
Proof.
  intros Hn Hlen Hw. destruct (bytes_le n w ++ l) as [|b l'] eqn:E.
  { apply (f_equal length) in E. rewrite length_app, bytes_le_length in E. simpl in E. lia. }
  cbn [insns]. rewrite <- E.
  assert (G : forall k, (k <= n)%nat -> getl k (bytes_le n w ++ l) 0 = w mod 2 ^ (8 * Z.of_nat k)).
  { intros k Hk. pose proof (getl_putl_low k n w (bytes_le n 0 ++ l) 0 Hk) as H.
    unfold putl, putb in H. simpl in H. rewrite drop_app_length' in H by (by rewrite !bytes_le_length).
    apply H. rewrite length_app, bytes_le_length. lia. }
  rewrite (G 2%nat) by lia. change (8 * Z.of_nat 2) with 16. rewrite Hlen, Nat2Z.id.
  rewrite (proj2 (Nat.ltb_ge _ n)) by (rewrite length_app, bytes_le_length; lia).
  rewrite G, Z.mod_small by done. by rewrite drop_app_length' by (by rewrite bytes_le_length).
Qed.

Lemma insns_nops fuel k :
  (k <= fuel)%nat -> insns fuel (concat (replicate k (bytes_le 4 RISCV_NOP))) = Some (replicate k RISCV_NOP).
Proof.
  revert fuel. induction k as [|k IH]; intros fuel Hf; [by destruct fuel|].
  destruct fuel as [|fuel]; [lia|]. cbn [replicate concat].
  rewrite insns_step by (lia || done). by rewrite IH by lia.
Qed.

Lemma insns_padding bytes fuel :
  Nat.odd bytes = false -> (bytes <= fuel)%nat -> insns fuel (padding bytes) = Some (nop_insns bytes).
Proof.
  intros He Hf. unfold padding, nop_insns. rewrite He. cbn [app].
  pose proof (nat_parts bytes) as Hp. rewrite He in Hp. destruct (Nat.odd (bytes / 2)).
  - destruct fuel as [|fuel]; [lia|]. rewrite insns_step by (lia || done). by rewrite insns_nops by lia.
  - cbn [app]. apply insns_nops. lia.
Qed.

Lemma insns_padding_tail bytes fuel :
  (bytes <= fuel)%nat ->
  insns fuel (drop (bytes mod 2) (padding bytes)) = Some (nop_insns bytes).
Proof.
  intros Hf. pose proof (odd_mod2 bytes) as Ho. pose proof (Nat.mod_upper_bound bytes 2 ltac:(lia)).
  destruct (Nat.odd bytes) eqn:E.
  - apply Nat.eqb_eq in Ho. rewrite Ho. unfold padding. rewrite E. cbn [app]. rewrite skipn_cons, drop_0.
    pose proof (nat_parts bytes) as Hp. rewrite E in Hp. unfold nop_insns.
    destruct (Nat.odd (bytes / 2)).
    + destruct fuel as [|fuel]; [lia|]. rewrite insns_step by (lia || done). by rewrite insns_nops by lia.
    + cbn [app]. apply insns_nops. lia.
  - apply Nat.eqb_neq in Ho. replace (bytes mod 2)%nat with 0%nat by lia. rewrite drop_0.
    by apply insns_padding.
Qed.

Definition is_nop (w : Z) : Prop := w = RVC_NOP \/ w = RISCV_NOP.

Lemma nop_insns_nops bytes :
  Forall is_nop (nop_insns bytes) /\ (length (filter (fun w => w = RVC_NOP) (nop_insns bytes)) <= 1)%nat.
Proof.
  assert (Hr : forall k, filter (fun w => w = RVC_NOP) (replicate k RISCV_NOP) = []).
  { intros k. induction k as [|k IH]; [done|]. cbn [replicate]. by rewrite filter_cons_False. }
  unfold nop_insns. split.
  - apply Forall_app. split; [destruct (Nat.odd (bytes / 2)); repeat constructor; by left|].
    apply Forall_replicate. by right.
  - rewrite filter_app, Hr, app_nil_r. destruct (Nat.odd (bytes / 2)); vm_compute; lia.
Qed.

(** ** Properties *)

(** [riscv_make_nops] fills exactly the bytes it is given and ends.  Apart
    from one leading zero byte for an odd size, what it writes reads back,
    by the length rule of the ISA, as a sequence of nops with at most one
    2-byte one. *)
Theorem riscv_make_nops_fills buf p bytes :
  (p + bytes <= length buf)%nat ->
  exists pad ws,
    riscv_make_nops buf p bytes = Some (take p buf ++ pad ++ drop (p + bytes) buf) /\
    length pad = bytes /\ ((bytes mod 2)%nat = 1%nat -> head pad = Some 0) /\
    insns bytes (drop (bytes mod 2) pad) = Some ws /\ Forall is_nop ws /\
    (length (filter (fun w => w = RVC_NOP) ws) <= 1)%nat.
Proof.
  intros Hl. exists (padding bytes), (nop_insns bytes). destruct (nop_insns_nops bytes) as [H1 H2].
  split_and!; try done.
  - rewrite make_nops_padding by done. unfold putb. by rewrite padding_length.
  - apply padding_length.
  - intros Ho. apply Nat.eqb_eq in Ho. rewrite odd_mod2 in Ho. unfold padding. by rewrite Ho.
  - by apply insns_padding_tail.
Qed.

Lemma riscv_make_nops_fills_witness :
  exists pad ws, riscv_make_nops (replicate 16 7) 3 7 = Some (take 3 (replicate 16 7) ++ pad ++ drop 10 (replicate 16 7)) /\
    insns 7 (drop 1 pad) = Some ws /\ Forall is_nop ws.
Proof.
  destruct (riscv_make_nops_fills (replicate 16 7) 3 7) as (pad & ws & H1 & _ & _ & H2 & H3 & _).
  - simpl. lia.
  - exists pad, ws. split; [exact H1|]. split; [exact H2|exact H3].
Defined.

Lemma padding_split k r :
  (r < 4)%nat ->
  padding (r + 4 * k) = padding r ++ concat (replicate k (bytes_le 4 RISCV_NOP)).
Proof.
  intros Hr.
  assert (E4 : ((r + 4 * k) / 4 = k)%nat) by (symmetry; apply (Nat.div_unique _ _ _ r); lia).
  assert (E2 : ((r + 4 * k) / 2 = r / 2 + 2 * k)%nat).
  { pose proof (Nat.div_mod_eq r 2). pose proof (Nat.mod_upper_bound r 2 ltac:(lia)).
    symmetry. apply (Nat.div_unique _ _ _ (r mod 2)); lia. }
  unfold padding. rewrite E4, E2, (Nat.div_small r 4) by lia. cbn [replicate concat].
  replace (Nat.odd (r + 4 * k)) with (Nat.odd r)
    by (rewrite Nat.odd_add_even; [done|exists (2 * k)%nat; lia]).
  replace (Nat.odd (r / 2 + 2 * k)) with (Nat.odd (r / 2))
    by (rewrite Nat.odd_add_even; [done|exists k; lia]).
  by rewrite app_nil_r, <- app_assoc.
Qed.

Lemma take_putb a buf p :
  (p + length a <= length buf)%nat -> take (p + length a) (putb a buf p) = take p buf ++ a.
Proof.
  intros H. unfold putb. rewrite app_assoc. apply take_app_length'.
  rewrite length_app, length_take. lia.
Qed.

Lemma pattern_behind buf p :
  (p + 4 <= length buf)%nat -> take 4 (drop p (putb (padding 4) buf p)) = bytes_le 4 RISCV_NOP.
Proof.
  intros H. unfold putb. rewrite drop_app_length' by (rewrite length_take; lia). done.
Qed.

Lemma take_before a buf p : (p <= length buf)%nat -> take p (putb a buf p) = take p buf.
Proof. intros H. unfold putb. apply take_app_length'. rewrite length_take. lia. Qed.

(** Aligning code without linker relaxation.  With the seven bytes of room
    MAX_MEM_FOR_RS_ALIGN_CODE reserves, [riscv_handle_align] leaves a frag that the
    generic code writes out as its fixed bytes followed by exactly the padding
    [riscv_make_nops] would put into the whole gap up to the next frag; the
    data symbol is added exactly if the gap is odd. *)
Theorem riscv_handle_align_padding next f gap :
  next = fr_address f + Z.of_nat (fr_fix f) + Z.of_nat gap -> (0 < gap)%nat ->
  Z.of_nat gap < 2 ^ 63 -> (fr_fix f + 7 <= length (fr_literal f))%nat ->
  exists f', riscv_handle_align false next f = Some (f', Nat.odd gap) /\
    written_fill next f' = take (fr_fix f) (fr_literal f) ++ padding gap /\
    fr_var f' = 4.
Proof.
  intros Hn Hg Hmax Hroom. set (k := (gap / 4)%nat). set (r := (gap mod 4)%nat).
  assert (Egap : gap = (r + 4 * k)%nat) by (pose proof (Nat.div_mod_eq gap 4); lia).
  assert (Hr : (r < 4)%nat) by (apply Nat.mod_upper_bound; lia). clearbody k r.
  assert (Eb : s64 (next - fr_address f - Z.of_nat (fr_fix f)) = Z.of_nat gap)
    by (replace (next - fr_address f - Z.of_nat (fr_fix f)) with (Z.of_nat gap) by lia;
        apply (swrap_small 64); lia).
  assert (Ex : Z.rem (Z.of_nat gap) 4 = Z.of_nat r)
    by (symmetry; apply (Z.rem_unique _ _ (Z.of_nat k)); lia).
  unfold riscv_handle_align. rewrite Eb, Ex, Nat2Z.id. cbn [negb].
  rewrite (proj2 (Z.leb_gt _ 0)) by lia.
  assert (Hp : (if negb (Z.of_nat r =? 0) then riscv_make_nops (fr_literal f) (fr_fix f) r
                else Some (fr_literal f)) = Some (putb (padding r) (fr_literal f) (fr_fix f))).
  { destruct (Z.eqb_spec (Z.of_nat r) 0) as [E|_]; simpl; [|apply make_nops_padding; lia].
    replace r with 0%nat by lia. by rewrite putb_nil. }
  rewrite Hp. change (Z.to_nat 4) with 4%nat.
  assert (Hl : length (putb (padding r) (fr_literal f) (fr_fix f)) = length (fr_literal f))
    by (apply putb_length; rewrite padding_length; lia).
  rewrite make_nops_padding by (rewrite Hl; lia).
  eexists. split; [f_equal; f_equal|split; [|done]].
  - subst gap. rewrite Nat.odd_add_even by (exists (2 * k)%nat; lia).
    destruct r as [|[|[|[|r]]]]; try done; lia.
  - unfold written_fill. cbn [set_fill fr_fix fr_literal fr_var fr_address].
    rewrite take_before by (rewrite Hl; lia). rewrite pattern_behind by (rewrite Hl; lia).
    rewrite <- (padding_length r) at 1. rewrite take_putb by (rewrite padding_length; lia).
    replace (Z.to_nat _) with k.
    + rewrite Egap, padding_split by done. by rewrite app_assoc.
    + replace (next - fr_address f - Z.of_nat (fr_fix f + r)) with (Z.of_nat k * 4) by lia.
      rewrite Z.quot_mul by lia. by rewrite Nat2Z.id.
Qed.

Lemma riscv_handle_align_padding_witness :
  exists f', riscv_handle_align false 0x1010 (mk_frag 0 1 None 0 0x1000 2 (replicate 9 7)) = Some (f', false) /\
    written_fill 0x1010 f' = [7; 7] ++ padding 14.
Proof.
  destruct (riscv_handle_align_padding 0x1010 (mk_frag 0 1 None 0 0x1000 2 (replicate 9 7)) 14)
    as (f' & H1 & H2 & _).
  - reflexivity.
  - lia.
  - reflexivity.
  - simpl. lia.
  - exists f'. split; [exact H1|exact H2].
Defined.

(** Aligning code for the linker to relax.  [riscv_frag_align_code] emits
    the worst case: as many bytes of nops as the addend says, all of them whole
    instructions, enough to align any address code can be at, and no fewer
    would do. *)
Lemma riscv_frag_align_code_worst_case (rvc : bool) n ialign :
  ialign = (if rvc then 2 else 4) -> ialign < 2 ^ Z.of_nat n -> (n < 63)%nat ->
  exists nops ws addend,
    riscv_frag_align_code rvc true n = Some (Align_nops nops addend) /\
    Z.of_nat (length nops) = addend /\ addend = 2 ^ Z.of_nat n - ialign /\
    insns (length nops) nops = Some ws /\ Forall is_nop ws /\
    (forall pc, pc mod ialign = 0 -> 0 <= (- pc) mod 2 ^ Z.of_nat n <= addend) /\
    (exists pc, pc mod ialign = 0 /\ (- pc) mod 2 ^ Z.of_nat n = addend).
Proof.
  intros Hi Hn Hmax. set (m := 2 ^ Z.of_nat n) in *.
  assert (Hm : m <= 2 ^ 62) by (apply Z.pow_le_mono_r; lia).
  assert (Hm4 : exists j, m = j * ialign).
  { assert (2 <= Z.of_nat n \/ ialign = 2) as [H|H].
    - destruct rvc; [by right|left]. subst ialign. destruct n as [|[|n]]; [by vm_compute in Hn..|lia].
    - exists (2 ^ (Z.of_nat n - 2) * (4 / ialign)). unfold m.
      replace (Z.of_nat n) with (Z.of_nat n - 2 + 2) at 1 by lia.
      rewrite Z.pow_add_r by lia. destruct rvc; subst ialign; change (2 ^ 2) with 4; [change (4 / 2) with 2|change (4 / 4) with 1]; lia.
    - exists (2 ^ (Z.of_nat n - 1)). rewrite H. unfold m.
      destruct n as [|n]; [simpl in m, Hn; lia|].
      replace (Z.of_nat (S n)) with (Z.of_nat (S n) - 1 + 1) at 1 by lia.
      rewrite Z.pow_add_r by lia. done. }
  destruct Hm4 as [j Hj].
  assert (Hia : 0 < ialign) by (destruct rvc; lia).
  set (W := Z.to_nat (m - ialign)).
  assert (HW : u64 (m - ialign) = Z.of_nat W) by (rewrite u64_small by lia; lia).
  unfold riscv_frag_align_code. rewrite <- Hi. fold m. rewrite HW, Nat2Z.id.
  rewrite (proj2 (Z.leb_gt m ialign)) by lia. cbn [negb].
  rewrite make_nops_padding by (rewrite length_replicate; lia).
  assert (Hput : putb (padding W) (replicate W 0) 0 = padding W).
  { unfold putb. rewrite padding_length, drop_ge by (rewrite length_replicate; lia).
    by rewrite app_nil_r. }
  rewrite Hput. exists (padding W), (nop_insns W), (Z.of_nat W). rewrite padding_length.
  split_and!; try done.
  - fold m. lia.
  - apply insns_padding; [|done]. apply not_true_iff_false. intros Ho.
    apply Nat.odd_spec in Ho as [q Hq]. assert (EW : Z.of_nat W = m - ialign) by lia.
    clearbody m W. destruct rvc; simpl in Hi; subst ialign; lia.
  - apply nop_insns_nops.
  - intros pc Hpc. apply Z.mod_divide in Hpc as [q ->]; [|lia].
    pose proof (Z.mod_pos_bound (- (q * ialign)) m ltac:(lia)) as Hb.
    assert (Hd : (ialign | (- (q * ialign)) mod m)).
    { rewrite Z.mod_eq by lia. apply Z.divide_sub_r; [exists (- q); lia|].
      apply Z.divide_mul_l. by exists j. }
    destruct Hd as [x Hx]. rewrite Hx in *. assert (EW : Z.of_nat W = m - ialign) by lia.
    rewrite EW. assert (x < j) by (apply (Z.mul_lt_mono_pos_r ialign); lia). nia.
  - exists ialign. split; [by apply Z_mod_same_full|].
    symmetry. apply (Z.mod_unique_pos _ _ (-1)); lia.
Qed.
