(* ===== verification/Regs.v ===== *)
(** * Names the assembler looks up (gas/config/tc-riscv.c, gas/read.c)

    The lexical classes of characters, the hash tables of register names,
    opcode names and CSRs with the functions that fill and search them, and the
    checks made on CSR instructions.  A [char **] argument is the characters
    that are left; warnings and errors are returned in the order they are
    reported. *)
From Stdlib Require Import ZArith Bool Ascii Lia.
From stdpp Require Import base list strings gmap.
From S2P Require Import Prelude OpcodeH RiscvH OpcodeMatch.
From S2P Require Import SubsetTables Subset CsrTable.

#[local] Open Scope Z_scope.
#[local] Open Scope c_scope.

(** ** Characters *)

(** [lex_type], with the default values of the LEX_ macros: 1 if the character
    may continue a name, 2 if it may begin one. *)
Definition lex_type (c : ascii) : Z :=
  let n := Z.of_nat (nat_of_ascii c) in
  if (48 <=? n) && (n <=? 57) then 1
  else if ((65 <=? n) && (n <=? 90)) || ((97 <=? n) && (n <=? 122)) || (128 <=? n)
          || (n =? 36) || (n =? 46) || (n =? 95) then 3
  else 0.

Definition is_name_beginner (c : ascii) : bool := negb ((lex_type c .& 2) =? 0).
Definition is_part_of_name (c : ascii) : bool := negb ((lex_type c .& 1) =? 0).

Fixpoint part_of_name (s : list ascii) : list ascii * list ascii :=
  match s with
  | c :: s' => if is_part_of_name c then let '(a, b) := part_of_name s' in (c :: a, b) else ([], s)
  | [] => ([], [])
  end.

(** "Find end of name": the name [*s] is cut to, and [e]. *)
Definition end_of_name (s : list ascii) : list ascii * list ascii :=
  match s with
  | c :: s' => if is_name_beginner c then let '(a, b) := part_of_name s' in (c :: a, b)
               else part_of_name s
  | [] => ([], [])
  end.

(** ** What the assembler reports *)

Inductive diag : Type :=
| W_csr_rv32 (s : string) | W_csr_h (s : string) | W_csr_ext (s ext : string)
| W_csr_priv (s priv : string)
| W_csr_read_only
| D_large_constant | D_unknown_csr | D_not_absolute (insn : string)
| D_unclosed | D_reloc_unsupported (op : string)
| D_bad_funct (n : Z) | D_bad_opcode | D_vset_imm | D_vector_imm
| D_shift (n : Z) | D_csrxi (n : Z) | D_csr_address (n : Z) | D_lui_range
| D_bs (n : Z) | D_rnum (n : Z) | D_prefetch (n : Z) | D_fli | D_literal | D_improper_imm (n : Z)
| D_bit_field (last : Z)
| D_csr_class
| D_expression (msg : string).    (* reported by expression () *)

(** The errors among them ([as_bad]); the others are warnings. *)
Definition is_error (d : diag) : bool :=
  match d with
  | W_csr_rv32 _ | W_csr_h _ | W_csr_ext _ _ | W_csr_priv _ _ | W_csr_read_only => false
  | _ => true
  end.

(** ** Opcode names *)

Definition opcode_name_list : list (string * Z) :=
  [ ("C0", 0x0); ("C1", 0x1); ("C2", 0x2);
    ("LOAD", 0x03); ("LOAD_FP", 0x07); ("CUSTOM_0", 0x0b); ("MISC_MEM", 0x0f); ("OP_IMM", 0x13);
    ("AUIPC", 0x17); ("OP_IMM_32", 0x1b);
    ("STORE", 0x23); ("STORE_FP", 0x27); ("CUSTOM_1", 0x2b); ("AMO", 0x2f); ("OP", 0x33);
    ("LUI", 0x37); ("OP_32", 0x3b);
    ("MADD", 0x43); ("MSUB", 0x47); ("NMADD", 0x4f); ("NMSUB", 0x4b); ("OP_FP", 0x53);
    ("OP_V", 0x57); ("CUSTOM_2", 0x5b);
    ("BRANCH", 0x63); ("JALR", 0x67); ("JAL", 0x6f); ("SYSTEM", 0x73); ("CUSTOM_3", 0x7b)
  ]%string.

(** [str_hash_insert] without replacement; a duplicate is fatal. *)
Definition hash_new {A} (h : gmap string A) (key : string) (v : A) : option (gmap string A) :=
  match h !! key with Some _ => None | None => Some (<[key := v]> h) end.

Fixpoint init_opcode_names_hash (l : list (string * Z)) (h : gmap string Z) : option (gmap string Z) :=
  match l with
  | [] => Some h
  | (nm, v) :: l' => h' ← hash_new h nm v; init_opcode_names_hash l' h'
  end.

Definition opcode_names_hash : gmap string Z :=
  default ∅ (init_opcode_names_hash opcode_name_list ∅).

(** [opcode_name_lookup (&s)]: the value found, the new [*s], and [e], the new
    [expr_parse_end]. *)
Definition opcode_name_lookup (s : list ascii) : option Z * list ascii * list ascii :=
  let '(nm, e) := end_of_name s in
  match opcode_names_hash !! unchars nm with
  | Some o => (Some o, e, e)
  | None => (None, s, e)
  end.

(** ** Registers *)

Inductive reg_class : Set := RCLASS_GPR | RCLASS_FPR | RCLASS_VECR | RCLASS_VECM | RCLASS_CSR.

#[export] Instance reg_class_eq_dec : EqDecision reg_class.
Proof. solve_decision. Defined.

Definition RCLASS_MAX : Z := 4.
Definition class_num (c : reg_class) : Z :=
  match c with
  | RCLASS_GPR => 0 | RCLASS_FPR => 1 | RCLASS_VECR => 2 | RCLASS_VECM => 3 | RCLASS_CSR => 5
  end.

Definition ENCODE_REG_HASH (cls : reg_class) (n : Z) : Z := n * RCLASS_MAX + class_num cls + 1.
Definition DECODE_REG_CLASS (hash : Z) : Z := (hash - 1) mod RCLASS_MAX.
Definition DECODE_REG_NUM (hash : Z) : Z := (hash - 1) / RCLASS_MAX.

Definition hash_reg_name (cls : reg_class) (nm : string) (n : Z) (h : gmap string Z)
  : option (gmap string Z) := hash_new h nm (ENCODE_REG_HASH cls n).

Fixpoint hash_reg_names_from (cls : reg_class) (i : Z) (names : list string) (h : gmap string Z)
  : option (gmap string Z) :=
  match names with
  | [] => Some h
  | nm :: names' => h' ← hash_reg_name cls nm i h; hash_reg_names_from cls (i + 1) names' h'
  end.

Definition hash_reg_names (cls : reg_class) (names : list string) (h : gmap string Z)
  : option (gmap string Z) := hash_reg_names_from cls 0 names h.

(** The register part of [md_begin]; [None] is the fatal duplicate. *)
Definition init_reg_names : option (gmap string Z) :=
  h ← hash_reg_names RCLASS_GPR riscv_gpr_names_numeric ∅;
  h ← hash_reg_names RCLASS_GPR riscv_gpr_names_abi h;
  h ← hash_reg_names RCLASS_FPR riscv_fpr_names_numeric h;
  h ← hash_reg_names RCLASS_FPR riscv_fpr_names_abi h;
  h ← hash_reg_names RCLASS_VECR riscv_vecr_names_numeric h;
  h ← hash_reg_names RCLASS_VECM riscv_vecm_names_numeric h;
  hash_reg_name RCLASS_GPR "fp" 8 h.

Definition reg_names_hash : gmap string Z := default ∅ init_reg_names.

(** [struct riscv_set_options]. *)
Record riscv_set_options : Set := mk_opts {
  pic : bool;
  rvc : bool;
  relax : bool;
  arch_attr : bool;
  csr_check : bool;
}.

(** The globals assembling an instruction depends on. *)
Record as_env : Type := mk_as_env {
  riscv_rps_as : riscv_parse_subset_t;
  xlen : Z;
  riscv_opts : riscv_set_options;
  as_priv_spec : riscv_spec_class;       (* default_priv_spec *)
  ulong : Z;                             (* width of the host's unsigned long *)
}.

Definition supports (env : as_env) (feature : string) : bool :=
  riscv_subset_supports (riscv_rps_as env) feature.

(** ** Control and status registers *)

Record riscv_csr_extra : Set := mk_csr_extra {
  csr_class : riscv_csr_class;
  address : Z;
  define_version : riscv_spec_class;
  abort_version : riscv_spec_class;
}.

#[export] Instance riscv_csr_extra_eq_dec : EqDecision riscv_csr_extra.
Proof. solve_decision. Defined.

(** [riscv_init_csr_hash]: the entries of a name are chained in the order of
    their declarations, equal ones once. *)
Definition riscv_init_csr_hash (h : gmap string (list riscv_csr_extra)) (d : csr_decl)
  : gmap string (list riscv_csr_extra) :=
  let entry := mk_csr_extra (csr_decl_class d) (csr_num d) (csr_define d) (csr_abort d) in
  let chain := default [] (h !! csr_name d) in
  if existsb (fun e => bool_decide (e = entry)) chain then h
  else <[csr_name d := chain ++ [entry]]> h.

Definition csr_extra_hash : gmap string (list riscv_csr_extra) :=
  foldl riscv_init_csr_hash ∅ (csr_decls ++ csr_aliases).

(** What the [switch] of [riscv_csr_address] sets: [need_check_version],
    [is_rv32_only], [is_h_required] and [extension]. *)
Definition csr_class_info (c : riscv_csr_class) : option (bool * bool * bool * option string) :=
  match c with
  | CSR_CLASS_I_32 => Some (true, true, false, Some "i"%string)
  | CSR_CLASS_I => Some (true, false, false, Some "i"%string)
  | CSR_CLASS_H_32 => Some (false, true, false, Some "h"%string)
  | CSR_CLASS_H => Some (false, false, false, Some "h"%string)
  | CSR_CLASS_F => Some (false, false, false, Some "f"%string)
  | CSR_CLASS_ZKR => Some (false, false, false, Some "zkr"%string)
  | CSR_CLASS_V => Some (false, false, false, Some "zve32x"%string)
  | CSR_CLASS_SMAIA_32 => Some (false, true, false, Some "smaia"%string)
  | CSR_CLASS_SMAIA => Some (false, false, false, Some "smaia"%string)
  | CSR_CLASS_SMCNTRPMF_32 => Some (true, true, false, Some "smcntrpmf"%string)
  | CSR_CLASS_SMCNTRPMF => Some (true, false, false, Some "smcntrpmf"%string)
  | CSR_CLASS_SMSTATEEN_32 => Some (false, true, false, Some "smstateen"%string)
  | CSR_CLASS_SMSTATEEN => Some (false, false, false, Some "smstateen"%string)
  | CSR_CLASS_SSAIA => Some (false, false, false, Some "ssaia"%string)
  | CSR_CLASS_SSAIA_AND_H => Some (false, false, true, Some "ssaia"%string)
  | CSR_CLASS_SSAIA_32 => Some (false, true, false, Some "ssaia"%string)
  | CSR_CLASS_SSAIA_AND_H_32 => Some (false, true, true, Some "ssaia"%string)
  | CSR_CLASS_SSSTATEEN_AND_H_32 => Some (false, true, true, Some "ssstateen"%string)
  | CSR_CLASS_SSSTATEEN_AND_H => Some (false, false, true, Some "ssstateen"%string)
  | CSR_CLASS_SSSTATEEN => Some (false, false, false, Some "ssstateen"%string)
  | CSR_CLASS_SSCOFPMF_32 => Some (false, true, false, Some "sscofpmf"%string)
  | CSR_CLASS_SSCOFPMF => Some (false, false, false, Some "sscofpmf"%string)
  | CSR_CLASS_SSTC => Some (false, false, false, Some "sstc"%string)
  | CSR_CLASS_SSTC_AND_H => Some (false, false, true, Some "sstc"%string)
  | CSR_CLASS_SSTC_32 => Some (false, true, false, Some "sstc"%string)
  | CSR_CLASS_SSTC_AND_H_32 => Some (false, true, true, Some "sstc"%string)
  | CSR_CLASS_DEBUG => Some (false, false, false, None)
  | CSR_CLASS_XTHEADVECTOR => Some (false, false, false, Some "xtheadvector"%string)
  | CSR_CLASS_NONE => None
  end.

(** The [while] loop: the first entry that the privileged specification has. *)
Definition csr_entry_for (spec : riscv_spec_class) (need_check_version : bool)
    (chain : list riscv_csr_extra) : option riscv_csr_extra :=
  List.find (fun e => negb need_check_version
                      || ((spec_value (define_version e) <=? spec_value spec)
                          && (spec_value spec <? spec_value (abort_version e)))) chain.

(** [RISCV_GET_PRIV_SPEC_NAME]. *)
Definition priv_spec_name (c : riscv_spec_class) : option string :=
  fst <$> List.find (fun p => bool_decide (snd p = c)) riscv_priv_specs.

Definition warn_if (b : bool) (d : diag) : list diag := if b then [d] else [].

(** [riscv_csr_address (csr_name, entry)], the chain [entry :: next]. *)
Definition riscv_csr_address (env : as_env) (nm : string) (entry : riscv_csr_extra)
    (next : list riscv_csr_extra) : Z * list diag :=
  let '(need_check_version, is_rv32_only, is_h_required, extension, bad) :=
    match csr_class_info (csr_class entry) with
    | Some (v, r, h, e) => (v, r, h, e, [])
    | None => (false, false, false, None, [D_csr_class])
    end in
  let check := csr_check (riscv_opts env) in
  let warnings :=
    bad ++ (if check then
      warn_if (is_rv32_only && negb (xlen env =? 32)) (W_csr_rv32 nm)
      ++ warn_if (is_h_required && negb (supports env "h")) (W_csr_h nm)
      ++ match extension with
         | Some e => warn_if (negb (supports env e)) (W_csr_ext nm e)
         | None => []
         end
    else []) in
  match csr_entry_for (as_priv_spec env) need_check_version (entry :: next) with
  | Some e => (address e, warnings)
  | None =>
      (address entry,
       warnings ++ (if check then
                      match priv_spec_name (as_priv_spec env) with
                      | Some p => [W_csr_priv nm p]
                      | None => []
                      end
                    else []))
  end.

(** [-1U], the answer for an unknown name. *)
Definition reg_csr_lookup_internal (env : as_env) (s : string) : option Z * list diag :=
  match csr_extra_hash !! s with
  | Some (entry :: next) => let '(a, w) := riscv_csr_address env s entry next in (Some a, w)
  | _ => (None, [])
  end.

Definition reg_lookup_internal (env : as_env) (s : string) (cls : reg_class)
  : option Z * list diag :=
  if decide (cls = RCLASS_CSR) then reg_csr_lookup_internal env s
  else
    match reg_names_hash !! s with
    | None => (None, [])
    | Some r =>
        if negb (DECODE_REG_CLASS r =? class_num cls) then (None, [])
        else if supports env "e" && bool_decide (cls = RCLASS_GPR) && (15 <? DECODE_REG_NUM r)
        then (None, [])
        else (Some (DECODE_REG_NUM r), [])
    end.

(** [reg_lookup (&s, class, &regno)]: on success the register and the rest. *)
Definition reg_lookup (env : as_env) (s : list ascii) (cls : reg_class)
  : option (Z * list ascii) * list diag :=
  let '(nm, e) := end_of_name s in
  match reg_lookup_internal env (unchars nm) cls with
  | (Some reg, w) => (Some (reg, e), w)
  | (None, w) => (None, w)
  end.

(** [arg_lookup (&s, array, size, &regno)]. *)
Fixpoint arg_find (arg : string) (i : Z) (array : list (option string)) : option Z :=
  match array with
  | [] => None
  | Some a :: array' => if String.eqb a arg then Some i else arg_find arg (i + 1) array'
  | None :: array' => arg_find arg (i + 1) array'
  end.

Definition arg_lookup (s : list ascii) (array : list (option string)) : option (Z * list ascii) :=
  let '(arg, e) := span_until [","%char] s in
  match arg with
  | [] => None
  | _ => (fun i => (i, e)) <$> arg_find (unchars arg) 0 array
  end.

(** [flt_lookup (f, array, size, &regno)]; infinities and NaNs are [None]. *)
Fixpoint flt_find (f : Z * Z) (i : Z) (array : list (Z * Z)) : option Z :=
  match array with
  | [] => None
  | a :: array' => if bool_decide (a = f) then Some i else flt_find f (i + 1) array'
  end.

Definition flt_lookup (f : option (Z * Z)) (array : list (Z * Z)) : option Z :=
  f ← f; flt_find f 0 array.

(** ** Checks on CSR and privileged instructions *)

Inductive csr_insn_type : Set := INSN_NOT_CSR | INSN_CSRRW | INSN_CSRRS | INSN_CSRRC.

#[export] Instance csr_insn_type_eq_dec : EqDecision csr_insn_type.
Proof. solve_decision. Defined.

Definition insn_is (insn m k : Z) : bool := ((insn .^ m) .& k) =? 0.

Definition riscv_csr_insn_type (insn : Z) : csr_insn_type :=
  if insn_is insn MATCH_CSRRW MASK_CSRRW || insn_is insn MATCH_CSRRWI MASK_CSRRWI then INSN_CSRRW
  else if insn_is insn MATCH_CSRRS MASK_CSRRS || insn_is insn MATCH_CSRRSI MASK_CSRRSI
  then INSN_CSRRS
  else if insn_is insn MATCH_CSRRC MASK_CSRRC || insn_is insn MATCH_CSRRCI MASK_CSRRCI
  then INSN_CSRRC
  else INSN_NOT_CSR.

Definition riscv_csr_read_only_check (insn : Z) : bool :=
  let csr := (insn .& (OP_MASK FLD_CSR << OP_SH FLD_CSR)) >> OP_SH FLD_CSR in
  let rs1 := (insn .& (OP_MASK FLD_RS1 << OP_SH FLD_RS1)) >> OP_SH FLD_RS1 in
  let readonly := ((csr .& (0x3 << 10)) >> 10) =? 0x3 in
  let csr_insn := riscv_csr_insn_type insn in
  negb (readonly
        && (((bool_decide (csr_insn = INSN_CSRRS) || bool_decide (csr_insn = INSN_CSRRC))
             && negb (rs1 =? 0))
            || bool_decide (csr_insn = INSN_CSRRW))).

Definition riscv_is_priv_insn (insn : Z) : bool :=
  insn_is insn MATCH_SRET MASK_SRET || insn_is insn MATCH_MRET MASK_MRET
  || insn_is insn MATCH_SFENCE_VMA MASK_SFENCE_VMA || insn_is insn MATCH_WFI MASK_WFI
  || insn_is insn MATCH_SFENCE_VM MASK_SFENCE_VM.
