(* ===== verification/RegsSpec.v ===== *)
(** * Properties of the CSR tables and checks (gas/config/tc-riscv.c, opcodes/riscv-dis.c)

    The names the disassembler prints for CSR numbers are read back as these
    numbers, and writes to read-only CSRs are recognised exactly. *)
From Stdlib Require Import ZArith Bool Ascii Lia.
From stdpp Require Import base list strings gmap.
From S2P Require Import Prelude OpcodeH RiscvH Immediates Words OpcodeMatch.
From S2P Require Import SubsetTables Subset CsrTable Disasm Regs.

#[local] Open Scope Z_scope.
#[local] Open Scope c_scope.

(** ** Names *)

Definition priv_specs : list riscv_spec_class :=
  [PRIV_SPEC_CLASS_1P9P1; PRIV_SPEC_CLASS_1P10; PRIV_SPEC_CLASS_1P11; PRIV_SPEC_CLASS_1P12].

(** The address of a name depends on the privileged specification only. *)
Definition csr_number (spec : riscv_spec_class) (nm : string) : option Z :=
  match csr_extra_hash !! nm with
  | Some (entry :: next) =>
      let check := match csr_class_info (csr_class entry) with
                   | Some (v, _, _, _) => v
                   | None => false
                   end in
      Some (address (default entry (csr_entry_for spec check (entry :: next))))
  | _ => None
  end.

Lemma csr_lookup_number env nm :
  (reg_csr_lookup_internal env nm).1 = csr_number (as_priv_spec env) nm.
Proof.
  unfold reg_csr_lookup_internal, csr_number.
  destruct (csr_extra_hash !! nm) as [[|entry next]|]; [reflexivity| |reflexivity].
  unfold riscv_csr_address.
  destruct (csr_class_info (csr_class entry)) as [[[[v r] h] e]|];
    destruct (csr_entry_for _ _ _); reflexivity.
Qed.

(** Every visible declaration. *)
Definition csr_name_ok (spec : riscv_spec_class) (d : csr_decl) : bool :=
  negb (csr_visible spec d) || bool_decide (csr_number spec (csr_name d) = Some (csr_num d)).

Lemma csr_names_ok :
  forallb (fun spec => forallb (csr_name_ok spec) (csr_decls ++ csr_aliases)) priv_specs = true.
Proof. vm_compute. reflexivity. Qed.

(** The CSRs printed with the prefix of the T-Head vector extension. *)
Definition th_csrs : list Z := [CSR_VSTART; CSR_VXSAT; CSR_VXRM; CSR_VL; CSR_VTYPE; CSR_VLENB].

Lemma th_csr_names_ok :
  forallb (fun spec => forallb (fun n =>
    match riscv_csr_hash spec n with
    | Some s => bool_decide (csr_number spec (String.append "th." s) = Some n)
    | None => false
    end) th_csrs) priv_specs = true.
Proof. vm_compute. reflexivity. Qed.

#[local] Opaque csr_extra_hash csr_decls csr_aliases.

(** The CSR names of the disassembler and of the assembler agree: under
    each privileged specification, the name printed for a CSR number (with the
    T-Head prefix, where that is printed) is looked up as that number. *)
Theorem csr_names_round_trip (env : as_env) (denv : dis_env) (n : Z) (s : string) :
  In (as_priv_spec env) priv_specs -> default_priv_spec denv = as_priv_spec env ->
  print_csr denv n = P_text s -> (reg_csr_lookup_internal env s).1 = Some n.
Proof.
  rewrite csr_lookup_number. intros Hs Hd. unfold print_csr. rewrite Hd.
  set (spec := as_priv_spec env) in *. clearbody spec.
  assert (Hn : spec <> PRIV_SPEC_CLASS_NONE).
  { intros ->. unfold priv_specs in Hs. cbn [In] in Hs. intuition discriminate. }
  destruct (riscv_csr_hash spec n) as [s0|] eqn:Eh; [|discriminate].
  destruct (riscv_subset_supports (env_rps denv) "xtheadvector" && _) eqn:Et; intros [= <-].
  - apply andb_true_iff in Et as [_ Et]. apply existsb_exists in Et as (m & Hm & Em).
    apply Z.eqb_eq in Em. subst m. pose proof th_csr_names_ok as Hok.
    rewrite forallb_forall in Hok. specialize (Hok spec Hs).
    rewrite forallb_forall in Hok. specialize (Hok n Hm). rewrite Eh in Hok.
    exact (bool_decide_eq_true_1 _ Hok).
  - unfold riscv_csr_hash in Eh. rewrite decide_False in Eh by exact Hn.
    destruct (List.find _ _) as [d|] eqn:Ef; [|discriminate Eh]. injection Eh as <-.
    apply find_some in Ef as [Hin Hv]. apply andb_true_iff in Hv as [En Hv]. apply Z.eqb_eq in En.
    pose proof csr_names_ok as Hok. rewrite forallb_forall in Hok. specialize (Hok spec Hs).
    rewrite forallb_forall in Hok. specialize (Hok d Hin). unfold csr_name_ok in Hok.
    rewrite Hv in Hok. cbn [negb orb] in Hok. rewrite <- En. exact (bool_decide_eq_true_1 _ Hok).
Qed.

Definition example_env (spec : riscv_spec_class) : as_env :=
  mk_as_env (mk_rps (mk_subset_list [] None None) [] 64 ISA_SPEC_CLASS_20191213 true) 64
    (mk_opts false true true true true) spec 64.

Lemma csr_names_round_trip_witness :
  (reg_csr_lookup_internal (example_env PRIV_SPEC_CLASS_1P11) "mstatus").1 = Some 0x300.
Proof.
  apply (csr_names_round_trip (example_env PRIV_SPEC_CLASS_1P11)
           (mk_env [] [] true 64 (riscv_rps_as (example_env PRIV_SPEC_CLASS_1P11)) PRIV_SPEC_CLASS_1P11)
           0x300 "mstatus").
  - vm_compute. tauto.
  - reflexivity.
  - vm_compute. reflexivity.
Defined.

(** ** Read-only registers *)

Lemma insn_is_land insn m k : insn_is insn m k = (insn .& k =? m .& k).
Proof.
  unfold insn_is. rewrite land_lxor_distr. destruct (Z.eqb_spec (insn .& k) (m .& k)) as [->|H].
  - by rewrite Z.lxor_nilpotent.
  - apply Z.eqb_neq. by rewrite Z.lxor_eq_0_iff.
Qed.

(** The opcode and the function field of a SYSTEM instruction. *)
Lemma system_fields w m :
  (w .& 0x707f =? m .& 0x707f)
  = (bits w 0 7 =? bits m 0 7) && (bits w 12 3 =? bits m 12 3).
Proof.
  assert (E : forall x, x .& 0x707f = bits x 0 7 .| (bits x 12 3 << 12)).
  { intros x. unfold bits. apply Z.bits_inj'. intros i Hi.
    rewrite Z.lor_spec, Z.shiftl_spec, !Z.land_spec by lia.
    change 0x707f with (Z.ones 7 .| (Z.ones 3 << 12)).
    rewrite Z.lor_spec, Z.shiftl_spec, Z.shiftr_spec, Z.add_0_r by lia.
    destruct (Z.lt_ge_cases i 12).
    - rewrite (Z.testbit_neg_r (Z.ones 3)) by lia. rewrite !andb_false_r, !orb_false_r. done.
    - rewrite Z.shiftr_spec by lia. replace (i - 12 + 12) with i by lia.
      by rewrite (Z.testbit_ones_nonneg 7), (proj2 (Z.ltb_ge i 7)), !andb_false_r by lia. }
  rewrite !E. apply eq_iff_eq_true. rewrite andb_true_iff, !Z.eqb_eq. split; [|by intros [-> ->]].
  intros H. assert (Hb : forall x, bits (bits x 0 7 .| (bits x 12 3 << 12)) 0 7 = bits x 0 7 /\
                             bits (bits x 0 7 .| (bits x 12 3 << 12)) 12 3 = bits x 12 3).
  { intros x. rewrite <- !E. unfold bits. split; apply Z.bits_inj'; intros i Hi;
      rewrite !Z.land_spec, !Z.shiftr_spec, !Z.land_spec by lia.
    - change 0x707f with (Z.ones 7 .| (Z.ones 3 << 12)).
      rewrite Z.lor_spec, Z.shiftl_spec, !Z.add_0_r, !Z.testbit_ones_nonneg by lia.
      destruct (Z.ltb_spec i 7); [by rewrite !andb_true_r|by rewrite !andb_false_r].
    - change 0x707f with (Z.ones 7 .| (Z.ones 3 << 12)).
      rewrite Z.lor_spec, Z.shiftl_spec by lia. replace (i + 12 - 12) with i by lia.
      rewrite !Z.testbit_ones_nonneg by lia.
      destruct (Z.ltb_spec i 3); [by rewrite orb_true_r, !andb_true_r|by rewrite !andb_false_r]. }
  split; [rewrite <- (proj1 (Hb w)), <- (proj1 (Hb m))|rewrite <- (proj2 (Hb w)), <- (proj2 (Hb m))];
    by rewrite H.
Qed.

Lemma bits_field w s n : 0 <= s -> (w .& (Z.ones n << s)) >> s = bits w s n.
Proof. intros Hs. by rewrite bits_land. Qed.

Lemma bits_sub w s n a k :
  0 <= s -> 0 <= a -> 0 <= k -> a + k <= n -> (bits w s n .& (Z.ones k << a)) >> a = bits w (s + a) k.
Proof.
  intros Hs Ha Hk Hn. unfold bits. apply Z.bits_inj'. intros i Hi.
  rewrite !Z.shiftr_spec, !Z.land_spec, Z.shiftl_spec, !Z.shiftr_spec, !Z.testbit_ones_nonneg by lia.
  replace (i + a - a) with i by lia. replace (i + a + s) with (i + (s + a)) by lia.
  destruct (Z.ltb_spec i k); [|by rewrite !andb_false_r].
  by rewrite (proj2 (Z.ltb_lt (i + a) n)), !andb_true_r by lia.
Qed.

Lemma bits_low w s : bits w s 2 = bits w s 3 mod 4.
Proof.
  unfold bits. rewrite !Z.land_ones by lia. change 4 with (2 ^ 2).
  by rewrite Z.mod_mod_divide by (exists 2; reflexivity).
Qed.

Lemma bits_range3 w s : 0 <= bits w s 3 < 8.
Proof. unfold bits. rewrite Z.land_ones by lia. apply Z.mod_pos_bound. lia. Qed.

(** A write to a read-only CSR is recognised exactly: the check fails if
    and only if the word is a SYSTEM instruction that accesses a CSR (function
    field not 0 or 4), the two top bits of the CSR number are set, and the
    instruction writes: it is a csrrw or csrrwi, or its rs1 field is not 0. *)
Theorem csr_read_only_check_exact (w : Z) :
  riscv_csr_read_only_check w = false <->
  bits w 0 7 = 0x73 /\ bits w 12 2 <> 0 /\ bits w 30 2 = 3 /\
  (bits w 12 2 = 1 \/ bits w 15 5 <> 0).
Proof.
  unfold riscv_csr_read_only_check.
  change (OP_MASK FLD_CSR << OP_SH FLD_CSR) with (Z.ones 12 << 20).
  change (OP_MASK FLD_RS1 << OP_SH FLD_RS1) with (Z.ones 5 << 15).
  change (OP_SH FLD_CSR) with 20. change (OP_SH FLD_RS1) with 15.
  rewrite !bits_field by lia. change (0x3 << 10) with (Z.ones 2 << 10).
  rewrite bits_sub by lia. change (20 + 10) with 30. rewrite negb_false_iff.
  unfold riscv_csr_insn_type. rewrite !insn_is_land, !system_fields, !(bits_low w 12).
  change (bits 0x1073 0 7) with 0x73. change (bits 0x1073 12 3) with 1.
  change (bits 0x5073 0 7) with 0x73. change (bits 0x5073 12 3) with 5.
  change (bits 0x2073 0 7) with 0x73. change (bits 0x2073 12 3) with 2.
  change (bits 0x6073 0 7) with 0x73. change (bits 0x6073 12 3) with 6.
  change (bits 0x3073 0 7) with 0x73. change (bits 0x3073 12 3) with 3.
  change (bits 0x7073 0 7) with 0x73. change (bits 0x7073 12 3) with 7.
  pose proof (bits_range3 w 12) as Hr. generalize dependent (bits w 12 3). intros f Hr.
  destruct (Z.eqb_spec (bits w 0 7) 0x73) as [Eo|Eo]; cbn [andb orb].
  2: { split; [|tauto]. change (bool_decide (INSN_NOT_CSR = _)) with false.
       cbn [andb orb]. rewrite andb_false_r. discriminate. }
  destruct (Z.eqb_spec (bits w 30 2) 3) as [E3|E3]; cbn [andb]; [|split; [discriminate|tauto]].
  destruct (Z.eqb_spec (bits w 15 5) 0) as [E0|E0]; cbn [negb];
    assert (Hf : f = 0 \/ f = 1 \/ f = 2 \/ f = 3 \/ f = 4 \/ f = 5 \/ f = 6 \/ f = 7) by lia;
    destruct Hf as [->|[->|[->|[->|[->|[->|[->| ->]]]]]]];
    (split; [intros H; vm_compute in H; try discriminate H; split_and!; try done; auto
            | intros (H1 & H2 & H3 & [H4|H4]); vm_compute; first [reflexivity|exfalso; by apply H2
              | discriminate H4 | exfalso; by apply H4]]).
Qed.
