(* ===== verification/Expr.v ===== *)
(** * Operand expressions (gas/config/tc-riscv.c)

    The state [riscv_ip] threads through the operands of an instruction, and
    the functions that read an expression from the operand text: relocation
    operators, opcode names, vtype immediates.  The general expression parser
    [expression] (gas/expr.c) is a parameter: from the characters that are left
    it returns the expression, the rest, and what it reported; it is told
    whether operands are being probed. *)
From Stdlib Require Import ZArith Bool Ascii Lia.
From stdpp Require Import base list strings.
From S2P Require Import Prelude OpcodeH RiscvH OpcodeMatch Howto Regs.

#[local] Open Scope Z_scope.
#[local] Open Scope c_scope.

(** ** Data *)

Inductive operatorT : Set :=
| O_illegal | O_absent | O_constant | O_symbol | O_register | O_big | O_other.

#[export] Instance operatorT_eq_dec : EqDecision operatorT.
Proof. solve_decision. Defined.

Definition op_is (a b : operatorT) : bool := bool_decide (a = b).

(** [expressionS]; [X_add_number] is an [offsetT]. *)
Record expressionS : Type := mk_expr {
  X_op : operatorT;
  X_add_number : Z;
  X_add_symbol : option string;
}.

Definition set_X_op (e : expressionS) (o : operatorT) : expressionS :=
  mk_expr o (X_add_number e) (X_add_symbol e).
Definition set_X_add_number (e : expressionS) (n : Z) : expressionS :=
  mk_expr (X_op e) n (X_add_symbol e).

Definition percent_op_match : Type := list (string * reloc).

(** The variables of [riscv_ip] and the globals it writes; [imm_reloc] is
    [None] for [BFD_RELOC_UNUSED]. *)
Record ip_state : Type := mk_ip {
  asarg : list ascii;
  insn_opcode : Z;
  imm_expr : expressionS;
  imm_reloc : option reloc;
  percent_op : percent_op_match;       (* p *)
  expr_parse_end : list ascii;
  insn_with_csr : bool;
  explicit_priv_attr : bool;
  log : list diag;
}.

Definition set_asarg (st : ip_state) (s : list ascii) : ip_state :=
  mk_ip s (insn_opcode st) (imm_expr st) (imm_reloc st) (percent_op st) (expr_parse_end st)
    (insn_with_csr st) (explicit_priv_attr st) (log st).
Definition set_opcode (st : ip_state) (w : Z) : ip_state :=
  mk_ip (asarg st) w (imm_expr st) (imm_reloc st) (percent_op st) (expr_parse_end st)
    (insn_with_csr st) (explicit_priv_attr st) (log st).
Definition set_imm (st : ip_state) (e : expressionS) : ip_state :=
  mk_ip (asarg st) (insn_opcode st) e (imm_reloc st) (percent_op st) (expr_parse_end st)
    (insn_with_csr st) (explicit_priv_attr st) (log st).
Definition set_reloc (st : ip_state) (r : option reloc) : ip_state :=
  mk_ip (asarg st) (insn_opcode st) (imm_expr st) r (percent_op st) (expr_parse_end st)
    (insn_with_csr st) (explicit_priv_attr st) (log st).
Definition set_p (st : ip_state) (p : percent_op_match) : ip_state :=
  mk_ip (asarg st) (insn_opcode st) (imm_expr st) (imm_reloc st) p (expr_parse_end st)
    (insn_with_csr st) (explicit_priv_attr st) (log st).
Definition set_parse_end (st : ip_state) (s : list ascii) : ip_state :=
  mk_ip (asarg st) (insn_opcode st) (imm_expr st) (imm_reloc st) (percent_op st) s
    (insn_with_csr st) (explicit_priv_attr st) (log st).
Definition set_with_csr (st : ip_state) (b : bool) : ip_state :=
  mk_ip (asarg st) (insn_opcode st) (imm_expr st) (imm_reloc st) (percent_op st)
    (expr_parse_end st) b (explicit_priv_attr st) (log st).
Definition set_priv_attr (st : ip_state) : ip_state :=
  mk_ip (asarg st) (insn_opcode st) (imm_expr st) (imm_reloc st) (percent_op st)
    (expr_parse_end st) (insn_with_csr st) true (log st).
Definition report (st : ip_state) (ds : list diag) : ip_state :=
  mk_ip (asarg st) (insn_opcode st) (imm_expr st) (imm_reloc st) (percent_op st)
    (expr_parse_end st) (insn_with_csr st) (explicit_priv_attr st) (log st ++ ds).
Definition as_bad_if (b : bool) (d : diag) (st : ip_state) : ip_state :=
  if b then report st [d] else st.

Definition X_op_is (st : ip_state) (o : operatorT) : bool := op_is (X_op (imm_expr st)) o.
Definition X_num (st : ip_state) : Z := X_add_number (imm_expr st).

(** ** Relocation operators *)

Definition percent_op_utype : percent_op_match :=
  [ ("tprel_hi", BFD_RELOC_RISCV_TPREL_HI20); ("pcrel_hi", BFD_RELOC_RISCV_PCREL_HI20);
    ("got_pcrel_hi", BFD_RELOC_RISCV_GOT_HI20);
    ("tls_ie_pcrel_hi", BFD_RELOC_RISCV_TLS_GOT_HI20);
    ("tls_gd_pcrel_hi", BFD_RELOC_RISCV_TLS_GD_HI20); ("hi", BFD_RELOC_RISCV_HI20) ]%string.
Definition percent_op_itype : percent_op_match :=
  [ ("lo", BFD_RELOC_RISCV_LO12_I); ("tprel_lo", BFD_RELOC_RISCV_TPREL_LO12_I);
    ("pcrel_lo", BFD_RELOC_RISCV_PCREL_LO12_I) ]%string.
Definition percent_op_stype : percent_op_match :=
  [ ("lo", BFD_RELOC_RISCV_LO12_S); ("tprel_lo", BFD_RELOC_RISCV_TPREL_LO12_S);
    ("pcrel_lo", BFD_RELOC_RISCV_PCREL_LO12_S) ]%string.
Definition percent_op_rtype : percent_op_match :=
  [ ("tprel_add", BFD_RELOC_RISCV_TPREL_ADD) ]%string.
Definition percent_op_null : percent_op_match := [].

(** [strncasecmp (s, prefix, strlen (prefix)) == 0]: the rest of [s]. *)
Fixpoint strip_prefix_case (prefix s : list ascii) : option (list ascii) :=
  match prefix, s with
  | [], _ => Some s
  | c :: prefix', d :: s' => if tolower c =? tolower d then strip_prefix_case prefix' s' else None
  | _ :: _, [] => None
  end.

(** [parse_relocation (&str, &reloc, percent_op)], [str] being the characters
    after the percent sign: the new [str], the relocation, what is reported. *)
Fixpoint parse_relocation (str : list ascii) (ops : percent_op_match)
  : option (list ascii * option reloc * list diag) :=
  match ops with
  | [] => None
  | (op, r) :: ops' =>
      match strip_prefix_case (chars op) str with
      | None => parse_relocation str ops'
      | Some rest =>
          match skip_space rest with
          | "("%char :: _ as str' =>
              match riscv_reloc_type_lookup r with
              | Some _ => Some (str', Some r, [])
              | None => Some (str', None, [D_reloc_unsupported op])
              end
          | _ => parse_relocation str ops'
          end
      end
  end.

(** "Skip over whitespace and brackets", counting the brackets. *)
Fixpoint skip_brackets (str : list ascii) (depth : nat) : list ascii * nat :=
  match str with
  | " "%char :: str' | "009"%char :: str' => skip_brackets str' depth
  | "("%char :: str' => skip_brackets str' (S depth)
  | _ => (str, depth)
  end.

(** "Match every open bracket": what is left, and of how many. *)
Fixpoint close_brackets (str : list ascii) (depth : nat) : list ascii * nat :=
  match depth, str with
  | S d, ")"%char :: str' => close_brackets str' d
  | S _, " "%char :: str' | S _, "009"%char :: str' => close_brackets str' depth
  | _, _ => (str, depth)
  end.

(** [riscv_handle_implicit_zero_offset (ep, s)]. *)
Definition implicit_zero_offset (s : list ascii) : bool :=
  match s with
  | "("%char :: s' => negb (existsb (Ascii.eqb "("%char) s')
  | _ => false
  end.

(** ** Constants *)

Definition IS_ZEXT_32BIT_NUM (x : Z) : bool :=
  ((x .& Z.lnot 0xffffffff) =? 0) || ((x .& Z.lnot 0xffffffff) =? Z.lnot 0xffffffff).

Definition normalize_constant_expr (env : as_env) (ex : expressionS) : expressionS :=
  if 32 <? xlen env then ex
  else if (op_is (X_op ex) O_constant || op_is (X_op ex) O_symbol)
          && IS_ZEXT_32BIT_NUM (X_add_number ex)
  then set_X_add_number ex (((X_add_number ex .& 0xffffffff) .^ 0x80000000) - 0x80000000)
  else ex.

(** [check_absolute_expr (ip, ex, maybe_csr)], [insn] being the mnemonic. *)
Definition check_absolute_expr (env : as_env) (insn : string) (maybe_csr : bool) (st : ip_state)
  : ip_state :=
  let ds := if X_op_is st O_big then [D_large_constant]
            else if maybe_csr && X_op_is st O_symbol then [D_unknown_csr]
            else if negb (X_op_is st O_constant) then [D_not_absolute insn]
            else [] in
  set_imm (report st ds) (normalize_constant_expr env (imm_expr st)).

(** ** Reading expressions *)

Section expressions.

Context (env : as_env).
Context (expression : bool -> list ascii -> expressionS * list ascii * list diag).

(** [my_getExpression (imm_expr, str)]. *)
Definition getExpression (probing : bool) (str : list ascii) (st : ip_state) : ip_state :=
  let '(ep, e, ds) := expression probing str in
  report (set_parse_end (set_imm st ep) e) ds.

Definition my_getExpression (st : ip_state) : ip_state := getExpression true (asarg st) st.

(** The end of [my_getSmallExpression], from the crux on. *)
Definition small_tail (crux : list ascii) (crux_depth : nat) (str : list ascii) (str_depth : nat)
    (reloc_index : Z) (st : ip_state) : Z * ip_state :=
  match str with
  | "%"%char :: _ => (0, set_imm st (set_X_op (imm_expr st) O_illegal))
  | _ =>
      let probing := (str_depth =? 0)%nat && (reloc_index =? 0) in
      let st := getExpression probing crux st in
      let '(str, depth) := close_brackets (expr_parse_end st) crux_depth in
      let st := as_bad_if (0 <? depth)%nat D_unclosed st in
      (reloc_index, set_parse_end st str)
  end.

(** [my_getSmallExpression (imm_expr, imm_reloc, str, percent_op)]: the number
    of relocation operators, and the new state. *)
Definition getSmallExpression (str0 : list ascii) (ops : percent_op_match) (st : ip_state)
  : Z * ip_state :=
  let '(str, depth) := skip_brackets str0 0 in
  match str with
  | "%"%char :: str' =>
      match parse_relocation str' ops with
      | Some (str1, r, ds) =>
          let st := report (set_reloc st r) ds in
          let '(str2, depth2) := skip_brackets str1 depth in
          small_tail str1 depth str2 depth2 1 st
      | None => small_tail str0 0 str depth 0 st
      end
  | _ => small_tail str0 0 str depth 0 st
  end.

Definition my_getSmallExpression (st : ip_state) : Z * ip_state :=
  getSmallExpression (asarg st) (percent_op st) st.

(** [my_getOpcodeExpression (imm_expr, imm_reloc, asarg)]. *)
Definition my_getOpcodeExpression (st : ip_state) : Z * ip_state :=
  let '(o, str, e) := opcode_name_lookup (asarg st) in
  let st := set_parse_end st e in
  match o with
  | Some v => (0, set_imm st (mk_expr O_constant v (X_add_symbol (imm_expr st))))
  | None => getSmallExpression str percent_op_null st
  end.

(** One [arg_lookup] of a vtype: the value, whether it was found, and the text
    after it and its comma. *)
Definition vtype_arg (array : list (option string)) (str : list ascii) : Z * bool * list ascii :=
  match arg_lookup str array with
  | Some (v, ","%char :: str') => (v, true, str')
  | Some (v, str') => (v, true, str')
  | None => (0, false, str)
  end.

(** [my_getVsetvliExpression (imm_expr, asarg)]. *)
Definition my_getVsetvliExpression (st : ip_state) : ip_state :=
  let '(vsew_value, vsew_found, str) := vtype_arg riscv_vsew (asarg st) in
  let '(vlmul_value, vlmul_found, str) := vtype_arg riscv_vlmul str in
  let '(vta_value, vta_found, str) := vtype_arg riscv_vta str in
  let '(vma_value, vma_found, str) := vtype_arg riscv_vma str in
  if vsew_found || vlmul_found || vta_found || vma_found then
    set_parse_end
      (set_imm st (mk_expr O_constant
                     ((vlmul_value << OP_SH FLD_VLMUL) .| (vsew_value << OP_SH FLD_VSEW)
                      .| (vta_value << OP_SH FLD_VTA) .| (vma_value << OP_SH FLD_VMA))
                     (X_add_symbol (imm_expr st)))) str
  else getExpression true str st.

(** [my_getThVsetvliExpression (imm_expr, asarg)]. *)
Definition my_getThVsetvliExpression (st : ip_state) : ip_state :=
  let '(vsew_value, vsew_found, str) := vtype_arg riscv_vsew (asarg st) in
  let '(vlen_value, vlen_found, str) := vtype_arg riscv_th_vlen str in
  let '(vediv_value, vediv_found, str) := vtype_arg riscv_th_vediv str in
  if vlen_found || vediv_found || vsew_found then
    set_parse_end
      (set_imm st (mk_expr O_constant ((vediv_value << 5) .| (vsew_value << 2) .| vlen_value)
                     (X_add_symbol (imm_expr st)))) str
  else getExpression true str st.

End expressions.
