(* ===== verification/Ip.v ===== *)
(** * The operand parser of the assembler (gas/config/tc-riscv.c)

    [riscv_ip]: for each opcode entry of the mnemonic, the operand string of
    the entry directs how the text of the operands is read; the first entry
    that takes all of it is chosen.  One definition models each group of cases
    of its [switch].  [expression] (gas/expr.c) and the C library's [strtof]
    are parameters; [strtof] returns whether [errno] was set, the number as
    mantissa and exponent of 2 (none for infinities and NaNs), and the rest. *)
From Stdlib Require Import ZArith Bool Ascii Lia.
From stdpp Require Import base list strings gmap.
From S2P Require Import Prelude OpcodeH RiscvH OpcodeMatch OpcodeTable Validate.
From S2P Require Import SubsetTables Subset CsrTable Howto Regs Expr.

#[local] Open Scope Z_scope.
#[local] Open Scope c_scope.

(** ** One operand *)

(** What a case of the [switch] ends with: [continue] with the rest of the
    operand string, [break], the jump to [unknown_riscv_ip_operand], or the
    operand text read past its end. *)
Inductive op_result : Type :=
| Continue (oparg : list ascii) (st : ip_state)
| Break (st : ip_state)
| Unknown
| Overrun.

Definition INSERT_OPERAND (f : op_field) (st : ip_state) (v : Z) : ip_state :=
  set_opcode st (INSERT_BITS (insn_opcode st) v (OP_MASK f) (OP_SH f)).
Definition INSERT_IMM (n s : Z) (st : ip_state) (v : Z) : ip_state :=
  set_opcode st (INSERT_BITS (insn_opcode st) v ((1 <<u n) - 1) s).
(** [ip->insn_opcode |= bits]. *)
Definition or_opcode (st : ip_state) (bits : Z) : ip_state :=
  set_opcode st (insn_opcode st .| bits).

(** [asarg = expr_parse_end]. *)
Definition take_expr (st : ip_state) : ip_state := set_asarg st (expr_parse_end st).
(** ... with [imm_expr->X_op = O_absent]: the operand is in the instruction. *)
Definition imm_done (st : ip_state) : ip_state :=
  take_expr (set_imm st (set_X_op (imm_expr st) O_absent)).

(** [imm_expr] after [riscv_handle_implicit_zero_offset] returned true. *)
Definition zero_offset (st : ip_state) : ip_state :=
  set_imm st (mk_expr O_constant 0 (X_add_symbol (imm_expr st))).

Section operands.

Context (env : as_env).
Context (expression : bool -> list ascii -> expressionS * list ascii * list diag).
Context (strtof : list ascii -> bool * option (Z * Z) * list ascii).
Context (insn : riscv_opcode).

Abbreviation small := (my_getSmallExpression expression).
Abbreviation full := (my_getExpression expression).
Abbreviation absolute := (check_absolute_expr env (name insn)).

(** [(unsigned long) x]. *)
Definition to_ulong (x : Z) : Z := x mod 2 ^ ulong env.

(** [reg_lookup (&asarg, class, &regno)], then [k] if it succeeds. *)
Definition with_reg (cls : reg_class) (st : ip_state) (k : Z -> ip_state -> op_result)
  : op_result :=
  let '(r, ds) := reg_lookup env (asarg st) cls in
  let st := report st ds in
  match r with
  | Some (regno, e) => k regno (set_asarg st e)
  | None => Break st
  end.

(** A register inserted into [f] if [ok]. *)
Definition reg_into (cls : reg_class) (ok : Z -> bool) (f : op_field) (v : Z -> Z) (q : list ascii)
    (st : ip_state) : op_result :=
  with_reg cls st (fun regno st =>
    if ok regno then Continue q (INSERT_OPERAND f st (v regno)) else Break st).

(** A register that must satisfy [ok] of the instruction so far. *)
Definition reg_check (cls : reg_class) (ok : Z -> Z -> bool) (q : list ascii) (st : ip_state)
  : op_result :=
  with_reg cls st (fun regno st => if ok (insn_opcode st) regno then Continue q st else Break st).

Definition any_reg (_ : Z) : bool := true.
Definition rvc_reg (regno : Z) : bool := (8 <=? regno) && (regno <=? 15).
Definition same (regno : Z) : Z := regno.

(** A constant that [ok] accepts, or-ed into the instruction by [enc]. *)
Definition const_imm (ok : Z -> bool) (enc : Z -> Z) (q : list ascii) (st : ip_state) : op_result :=
  let '(n, st) := small st in
  if negb (n =? 0) || negb (X_op_is st O_constant) || negb (ok (X_num st)) then Break st
  else Continue q (imm_done (or_opcode st (enc (X_num st)))).

(** The same, with an implicit zero offset before a single bracket. *)
Definition offset_imm (ok : Z -> bool) (enc : Z -> Z) (q : list ascii) (st : ip_state) : op_result :=
  if implicit_zero_offset (asarg st) then Continue q (zero_offset st)
  else const_imm ok enc q st.

(** A constant below [bound] for a field of a [.insn] instruction. *)
Definition field_imm (get : ip_state -> Z * ip_state) (ok : Z -> bool) (f : op_field) (d : diag)
    (q : list ascii) (st : ip_state) : op_result :=
  let '(n, st) := get st in
  if negb (n =? 0) || negb (X_op_is st O_constant) || negb (ok (X_num st))
  then Break (report st [d])
  else Continue q (imm_done (INSERT_OPERAND f st (X_num st))).

Definition below (bound x : Z) : bool := (0 <=? x) && (x <? bound).

(** An absolute expression that is reported when [bad], and inserted anyway. *)
Definition abs_imm (get : ip_state -> ip_state) (bad : Z -> bool) (d : Z -> diag)
    (put : ip_state -> Z -> ip_state) (q : list ascii) (st : ip_state) : op_result :=
  let st := absolute false (get st) in
  let st := as_bad_if (bad (X_num st)) (d (X_num st)) st in
  Continue q (imm_done (put st (X_num st))).

Definition or_enc (enc : Z -> Z) (st : ip_state) (x : Z) : ip_state := or_opcode st (enc x).

(** [branch:], [jump:]. *)
Definition ip_branch (q : list ascii) (st : ip_state) : op_result :=
  Continue q (take_expr (full (set_reloc st (Some BFD_RELOC_12_PCREL)))).
Definition ip_jump (q : list ascii) (st : ip_state) : op_result :=
  Continue q (set_reloc (take_expr (full st)) (Some BFD_RELOC_RISCV_JMP)).

(** [rvc_lui:]. *)
Definition rvc_lui (q : list ascii) (st : ip_state) : op_result :=
  let x := X_num st in
  if negb (X_op_is st O_constant) || (x <=? 0) || (RISCV_BIGIMM_REACH <=? x)
     || ((RISCV_RVC_IMM_REACH / 2 <=? x) && (x <? RISCV_BIGIMM_REACH - RISCV_RVC_IMM_REACH / 2))
  then Break st
  else Continue q (imm_done (or_opcode st (ENCODE_CITYPE_IMM x))).

(** [case 'C'], compressed operands. *)
Definition ip_rvc (p : list ascii) (st : ip_state) : op_result :=
  match p with
  | "s"%char :: q => reg_into RCLASS_GPR rvc_reg FLD_CRS1S (fun r => r mod 8) q st
  | "w"%char :: q => reg_check RCLASS_GPR (fun w r => EXTRACT_OPERAND FLD_CRS1S w + 8 =? r) q st
  | "t"%char :: q => reg_into RCLASS_GPR rvc_reg FLD_CRS2S (fun r => r mod 8) q st
  | "x"%char :: q => reg_check RCLASS_GPR (fun w r => EXTRACT_OPERAND FLD_CRS2S w + 8 =? r) q st
  | "U"%char :: q => reg_check RCLASS_GPR (fun w r => EXTRACT_OPERAND FLD_RD w =? r) q st
  | "V"%char :: q => reg_into RCLASS_GPR any_reg FLD_CRS2 same q st
  | "c"%char :: q => reg_check RCLASS_GPR (fun _ r => r =? X_SP) q st
  | "z"%char :: q => reg_check RCLASS_GPR (fun _ r => r =? 0) q st
  | ">"%char :: q => const_imm (fun x => to_ulong x <? xlen env) ENCODE_CITYPE_IMM q st
  | "5"%char :: q =>
      const_imm (fun x => below 32 x && VALID_CLTYPE_IMM (u64 x)) ENCODE_CLTYPE_IMM q st
  | "6"%char :: q =>
      const_imm (fun x => below 64 x && VALID_CSSTYPE_IMM (u64 x)) ENCODE_CSSTYPE_IMM q st
  | "8"%char :: q =>
      const_imm (fun x => below 256 x && VALID_CIWTYPE_IMM (u64 x)) ENCODE_CIWTYPE_IMM q st
  | "j"%char :: q =>
      const_imm (fun x => negb (x =? 0) && VALID_CITYPE_IMM (u64 x)) ENCODE_CITYPE_IMM q st
  | "k"%char :: q => offset_imm (fun x => VALID_CLTYPE_LW_IMM (u64 x)) ENCODE_CLTYPE_LW_IMM q st
  | "l"%char :: q => offset_imm (fun x => VALID_CLTYPE_LD_IMM (u64 x)) ENCODE_CLTYPE_LD_IMM q st
  | "m"%char :: q => offset_imm (fun x => VALID_CITYPE_LWSP_IMM (u64 x)) ENCODE_CITYPE_LWSP_IMM q st
  | "n"%char :: q => offset_imm (fun x => VALID_CITYPE_LDSP_IMM (u64 x)) ENCODE_CITYPE_LDSP_IMM q st
  | "o"%char :: q => const_imm (fun x => VALID_CITYPE_IMM (u64 x)) ENCODE_CITYPE_IMM q st
  | "K"%char :: q =>
      const_imm (fun x => negb (x =? 0) && VALID_CIWTYPE_ADDI4SPN_IMM (u64 x))
        ENCODE_CIWTYPE_ADDI4SPN_IMM q st
  | "L"%char :: q =>
      const_imm (fun x => VALID_CITYPE_ADDI16SP_IMM (u64 x)) ENCODE_CITYPE_ADDI16SP_IMM q st
  | "M"%char :: q =>
      offset_imm (fun x => VALID_CSSTYPE_SWSP_IMM (u64 x)) ENCODE_CSSTYPE_SWSP_IMM q st
  | "N"%char :: q =>
      offset_imm (fun x => VALID_CSSTYPE_SDSP_IMM (u64 x)) ENCODE_CSSTYPE_SDSP_IMM q st
  | "u"%char :: q =>
      let '(n, st) := small (set_p st percent_op_utype) in
      if negb (n =? 0) then Break st else rvc_lui q st
  | "v"%char :: q =>
      let '(n, st) := small st in
      let x := X_num st in
      if negb (n =? 0) || negb ((x .& (RISCV_IMM_REACH - 1)) =? 0) || negb (s32 x =? x)
      then Break st
      else rvc_lui q (set_imm st (set_X_add_number (imm_expr st) (u32 x >> RISCV_IMM_BITS)))
  | "p"%char :: q => ip_branch q st
  | "a"%char :: q => ip_jump q st
  | "S"%char :: q => reg_into RCLASS_FPR rvc_reg FLD_CRS1S (fun r => r mod 8) q st
  | "D"%char :: q => reg_into RCLASS_FPR rvc_reg FLD_CRS2S (fun r => r mod 8) q st
  | "T"%char :: q => reg_into RCLASS_FPR any_reg FLD_CRS2 same q st
  | "F"%char :: "6"%char :: q => field_imm small (below 64) FLD_CFUNCT6 (D_bad_funct 63) q st
  | "F"%char :: "4"%char :: q => field_imm small (below 16) FLD_CFUNCT4 (D_bad_funct 15) q st
  | "F"%char :: "3"%char :: q => field_imm small (below 8) FLD_CFUNCT3 (D_bad_funct 7) q st
  | "F"%char :: "2"%char :: q => field_imm small (below 4) FLD_CFUNCT2 (D_bad_funct 3) q st
  | _ => Unknown
  end.

(** A mask operand: the register [v0.t]. *)
Definition ip_mask (q : list ascii) (st : ip_state) : op_result :=
  with_reg RCLASS_VECM st (fun regno st =>
    if regno =? 0 then Continue q (INSERT_OPERAND FLD_VMASK st 0) else Break st).

(** [case 'V'], vector operands. *)
Definition ip_rvv (p : list ascii) (st : ip_state) : op_result :=
  match p with
  | "d"%char :: q => reg_into RCLASS_VECR any_reg FLD_VD same q st
  | "e"%char :: q =>
      let vecr st := with_reg RCLASS_VECR st (fun regno st =>
                       Continue q (INSERT_OPERAND FLD_VD (INSERT_OPERAND FLD_VWD st 1) regno)) in
      let '(r, ds) := reg_lookup env (asarg st) RCLASS_GPR in
      let st := report st ds in
      match r with
      | Some (regno, e) =>
          if regno =? 0 then Continue q (INSERT_OPERAND FLD_VWD (set_asarg st e) 0)
          else vecr (set_asarg st e)
      | None => vecr st
      end
  | "f"%char :: q =>
      with_reg RCLASS_VECR st (fun regno st =>
        if EXTRACT_OPERAND FLD_VWD (insn_opcode st) =? 0
        then Continue q (INSERT_OPERAND FLD_VD st regno)
        else if EXTRACT_OPERAND FLD_VD (insn_opcode st) =? regno then Continue q st
        else Break st)
  | "s"%char :: q => reg_into RCLASS_VECR any_reg FLD_VS1 same q st
  | "t"%char :: q => reg_into RCLASS_VECR any_reg FLD_VS2 same q st
  | "u"%char :: q =>
      with_reg RCLASS_VECR st (fun regno st =>
        Continue q (INSERT_OPERAND FLD_VS2 (INSERT_OPERAND FLD_VS1 st regno) regno))
  | "v"%char :: q =>
      with_reg RCLASS_VECR st (fun regno st =>
        Continue q (INSERT_OPERAND FLD_VS2
                      (INSERT_OPERAND FLD_VS1 (INSERT_OPERAND FLD_VD st regno) regno) regno))
  | "0"%char :: q => reg_check RCLASS_VECR (fun _ r => r =? 0) q st
  | "b"%char :: q =>
      abs_imm (my_getVsetvliExpression expression) (fun x => negb (VALID_RVV_VB_IMM (u64 x)))
        (fun _ => D_vset_imm) (or_enc ENCODE_RVV_VB_IMM) q st
  | "c"%char :: q =>
      abs_imm (my_getVsetvliExpression expression) (fun x => negb (VALID_RVV_VC_IMM (u64 x)))
        (fun _ => D_vset_imm) (or_enc ENCODE_RVV_VC_IMM) q st
  | "i"%char :: q =>
      abs_imm full (fun x => (15 <? x) || (x <? -16)) (fun _ => D_vector_imm)
        (INSERT_OPERAND FLD_VIMM) q st
  | "j"%char :: q =>
      abs_imm full (fun x => (x <? 0) || (32 <=? x)) (fun _ => D_vector_imm)
        (INSERT_OPERAND FLD_VIMM) q st
  | "k"%char :: q =>
      abs_imm full (fun x => (16 <? x) || (x <? -15)) (fun _ => D_vector_imm)
        (fun st x => INSERT_OPERAND FLD_VIMM st (x - 1)) q st
  | "l"%char :: q =>
      abs_imm full (fun x => (x <? 0) || (64 <=? x)) (fun _ => D_vector_imm)
        (or_enc ENCODE_RVV_VI_UIMM6) q st
  | "m"%char :: q =>
      match asarg st with
      | [] => Continue q (INSERT_OPERAND FLD_VMASK st 1)
      | ","%char :: e => ip_mask q (set_asarg st e)
      | _ => Break st
      end
  | "M"%char :: q => ip_mask q st
  | "T"%char :: q =>
      with_reg RCLASS_VECR st (fun regno st =>
        if regno =? 0 then Break st else Continue q (INSERT_OPERAND FLD_VFUNCT6 st regno))
  | _ => Unknown
  end.

(** [load_store:] and [alu_op:], for the operand letter [c]. *)
Definition ip_alu_op (c : ascii) (q : list ascii) (st : ip_state) : op_result :=
  let '(n, st) := small st in
  if n =? 0 then
    let st := set_imm st (normalize_constant_expr env (imm_expr st)) in
    let x := X_num st in
    if negb (X_op_is st O_constant) || (Ascii.eqb c "0" && negb (x =? 0)) || Ascii.eqb c "1"
       || (RISCV_IMM_REACH / 2 <=? x) || (x <? - (RISCV_IMM_REACH / 2))
    then Break st
    else Continue q (take_expr st)
  else Continue q (take_expr st).

Definition ip_load_store (c : ascii) (q : list ascii) (st : ip_state) : op_result :=
  if implicit_zero_offset (asarg st) then Continue q (zero_offset st) else ip_alu_op c q st.

(** [case 'W'], operands of the standard z extensions. *)
Definition ip_w (p : list ascii) (st : ip_state) : op_result :=
  match p with
  | "i"%char :: "f"%char :: q =>
      if implicit_zero_offset (asarg st) then Continue q (zero_offset st)
      else
        abs_imm full (fun x => negb ((u32 x .& 0x1f) =? 0) || (RISCV_IMM_REACH / 2 <=? x)
                               || (x <? - RISCV_IMM_REACH / 2)) D_prefetch
          (or_enc (fun x => ENCODE_STYPE_IMM (u32 x .& u32 (Z.lnot 0x1f)))) q st
  | "f"%char :: "v"%char :: q =>
      match arg_lookup (asarg st) riscv_fli_symval with
      | Some (regno, e) => Continue q (INSERT_OPERAND FLD_RS1 (set_asarg st e) regno)
      | None =>
          let '(errno, f, e) := strtof (asarg st) in
          let st := set_asarg st e in
          match (if errno || bool_decide (f = Some (0, 0)) then None
                 else flt_lookup f riscv_fli_numval) with
          | Some regno => Continue q (INSERT_OPERAND FLD_RS1 st regno)
          | None => Break (report st [D_fli])
          end
      end
  | "c"%char :: "h"%char :: q =>
      offset_imm (fun x => VALID_ZCB_HALFWORD_UIMM (u64 x)) ENCODE_ZCB_HALFWORD_UIMM q st
  | "c"%char :: "b"%char :: q =>
      offset_imm (fun x => VALID_ZCB_BYTE_UIMM (u64 x)) ENCODE_ZCB_BYTE_UIMM q st
  | "c"%char :: "f"%char :: q => const_imm (fun x => x =? 255) (fun _ => 0) q st
  | _ => Unknown
  end.

(** [parse_imm:], the N\@S operands of the T-Head instructions. *)
Definition ip_parse_imm (sign : bool) (p : list ascii) (st : ip_state) : op_result :=
  let '(n, p) := strtol10 p in
  match p with
  | "@"%char :: p =>
      let '(s, q) := strtol10 p in
      abs_imm full
        (fun x => negb (if sign then VALIDATE_S_IMM x n else VALIDATE_U_IMM (ulong env) x n))
        D_improper_imm (INSERT_IMM n s) q st
  | _ => Unknown
  end.

(** [ENCODE_UIMM_BIT_FIELD]: on a bad value its [break] only leaves the macro. *)
Definition uimm_bit_field (f : op_field) (start last : Z) (q : list ascii) (st : ip_state)
  : op_result :=
  let bound := 1 << (last - start + 1) in
  let '(n, st) := my_getOpcodeExpression expression st in
  if negb (n =? 0) || negb (X_op_is st O_constant) || negb (below bound (X_num st))
  then Continue q (report st [D_bit_field bound])
  else Continue q (imm_done (INSERT_OPERAND f st (X_num st))).

(** A CORE-V shift amount: out of range it is no operand of this entry. *)
Definition ip_cv_uimm5 (enc : Z -> Z) (q : list ascii) (st : ip_state) : op_result :=
  let st := take_expr (absolute false (full st)) in
  if below 32 (X_num st) then Continue q (or_opcode st (enc (X_num st))) else Break st.

(** [case 'X'], vendor operands. *)
Definition ip_x (p : list ascii) (st : ip_state) : op_result :=
  match p with
  | "t"%char :: "V"%char :: "c"%char :: q =>
      abs_imm (my_getThVsetvliExpression expression) (fun x => negb (VALID_RVV_VC_IMM (u64 x)))
        (fun _ => D_vset_imm) (or_enc ENCODE_RVV_VC_IMM) q st
  | "t"%char :: "l"%char :: q =>
      let '(lit, q) := span_until [","%char] q in
      let matches := match strip_prefix lit (asarg st) with Some _ => true | None => false end in
      let st := as_bad_if (negb matches) D_literal st in
      if (length (asarg st) <? length lit)%nat then Overrun
      else Continue q (set_asarg st (drop (length lit) (asarg st)))
  | "t"%char :: "s"%char :: q => ip_parse_imm true q st
  | "t"%char :: "u"%char :: q => ip_parse_imm false q st
  | "c"%char :: "2"%char :: q => ip_cv_uimm5 ENCODE_CV_IS2_UIMM5 q st
  | "c"%char :: "3"%char :: q => ip_cv_uimm5 ENCODE_CV_IS3_UIMM5 q st
  | "s"%char :: "d"%char :: q => uimm_bit_field FLD_RD 7 11 q st
  | "s"%char :: "t"%char :: q => uimm_bit_field FLD_RS2 20 24 q st
  | "s"%char :: "O"%char :: "2"%char :: q => uimm_bit_field FLD_XSO2 26 27 q st
  | "s"%char :: "O"%char :: "1"%char :: q => uimm_bit_field FLD_XSO1 26 26 q st
  | _ => Unknown
  end.

(** A punctuation character of the operand string. *)
Definition ip_char (c : ascii) (q : list ascii) (st : ip_state) : op_result :=
  match asarg st with
  | d :: e => if Ascii.eqb d c then Continue q (set_asarg st e) else Break st
  | [] => Break st
  end.

(** [if ( *asarg == ' ') ++asarg]. *)
Definition skip_one_space (st : ip_state) : ip_state :=
  match asarg st with " "%char :: e => set_asarg st e | _ => st end.

(** An integer register, and a floating-point one (an integer one with zfinx). *)
Definition ip_gpr (put : ip_state -> Z -> ip_state) (q : list ascii) (st : ip_state) : op_result :=
  with_reg RCLASS_GPR st (fun regno st => Continue q (put (skip_one_space st) regno)).
Definition ip_fpr (put : ip_state -> Z -> ip_state) (q : list ascii) (st : ip_state) : op_result :=
  with_reg (if supports env "zfinx" then RCLASS_GPR else RCLASS_FPR) st
    (fun regno st => Continue q (put (skip_one_space st) regno)).

(** One of a list of names. *)
Definition ip_name (array : list (option string)) (f : op_field) (q : list ascii) (st : ip_state)
  : op_result :=
  match arg_lookup (asarg st) array with
  | Some (regno, e) => Continue q (INSERT_OPERAND f (set_asarg st e) regno)
  | None => Break st
  end.

(** [case 'E'], a CSR by name or by number. *)
Definition ip_csr (q : list ascii) (st : ip_state) : op_result :=
  let st := set_priv_attr (set_with_csr st true) in
  let '(r, ds) := reg_lookup env (asarg st) RCLASS_CSR in
  let st := report st ds in
  match r with
  | Some (regno, e) => Continue q (INSERT_OPERAND FLD_CSR (set_asarg st e) regno)
  | None =>
      let st := absolute true (full st) in
      let st := as_bad_if (0xfff <? to_ulong (X_num st)) (D_csr_address (X_num st)) st in
      Continue q (imm_done (INSERT_OPERAND FLD_CSR st (X_num st)))
  end.

(** [case 'u'], an upper immediate. *)
Definition ip_upper (q : list ascii) (st : ip_state) : op_result :=
  let '(n, st) := small (set_p st percent_op_utype) in
  if n =? 0 then
    if negb (X_op_is st O_constant) then Break st
    else
      let x := X_num st in
      let st := as_bad_if ((x <? 0) || (RISCV_BIGIMM_REACH <=? x)) D_lui_range st in
      let st := set_reloc st (Some BFD_RELOC_RISCV_HI20) in
      Continue q (take_expr (set_imm st (set_X_add_number (imm_expr st) (s64 (x << RISCV_IMM_BITS)))))
  else Continue q (take_expr st).

(** [case 'I'], [case 'A'] and [case 'B'], the operands of macros. *)
Definition ip_macro_const (q : list ascii) (st : ip_state) : op_result :=
  let st := full st in
  if negb (X_op_is st O_big) && negb (X_op_is st O_constant) then Break st
  else Continue q (take_expr (set_imm st (normalize_constant_expr env (imm_expr st)))).

Definition ip_macro_symbol (const_ok : bool) (q : list ascii) (st : ip_state) : op_result :=
  let st := full st in
  let st := set_imm st (normalize_constant_expr env (imm_expr st)) in
  if negb (X_op_is st O_symbol) && negb (const_ok && X_op_is st O_constant) then Break st
  else
    let st := if X_op_is st O_symbol then set_reloc st (Some BFD_RELOC_32) else st in
    Continue q (take_expr st).

(** The outer [switch], on the current letter of a non-empty operand string. *)
Definition ip_operand (p : list ascii) (st : ip_state) : op_result :=
  match p with
  | "C"%char :: q => ip_rvc q st
  | "V"%char :: q => ip_rvv q st
  | ","%char :: q => ip_char "," q st
  | "("%char :: q => ip_char "(" q st
  | ")"%char :: q => ip_char ")" q st
  | "["%char :: q => ip_char "[" q st
  | "]"%char :: q => ip_char "]" q st
  | "<"%char :: q =>
      abs_imm full (fun x => 31 <? to_ulong x) D_shift (INSERT_OPERAND FLD_SHAMTW) q st
  | ">"%char :: q =>
      abs_imm full (fun x => xlen env <=? to_ulong x) D_shift (INSERT_OPERAND FLD_SHAMT) q st
  | "Z"%char :: q =>
      abs_imm full (fun x => 31 <? to_ulong x) D_csrxi (INSERT_OPERAND FLD_RS1) q st
  | "E"%char :: q => ip_csr q st
  | "m"%char :: q => ip_name riscv_rm FLD_RM q st
  | "P"%char :: q => ip_name riscv_pred_succ FLD_PRED q st
  | "Q"%char :: q => ip_name riscv_pred_succ FLD_SUCC q st
  | "d"%char :: q => ip_gpr (INSERT_OPERAND FLD_RD) q st
  | "s"%char :: q => ip_gpr (INSERT_OPERAND FLD_RS1) q st
  | "t"%char :: q => ip_gpr (INSERT_OPERAND FLD_RS2) q st
  | "r"%char :: q => ip_gpr (INSERT_OPERAND FLD_RS3) q st
  | "D"%char :: q => ip_fpr (INSERT_OPERAND FLD_RD) q st
  | "S"%char :: q => ip_fpr (INSERT_OPERAND FLD_RS1) q st
  | "U"%char :: q =>
      ip_fpr (fun st r => INSERT_OPERAND FLD_RS2 (INSERT_OPERAND FLD_RS1 st r) r) q st
  | "T"%char :: q => ip_fpr (INSERT_OPERAND FLD_RS2) q st
  | "R"%char :: q => ip_fpr (INSERT_OPERAND FLD_RS3) q st
  | "I"%char :: q => ip_macro_const q st
  | "A"%char :: q => ip_macro_symbol false q st
  | "B"%char :: q => ip_macro_symbol true q st
  | "j"%char :: q =>
      ip_alu_op "j" q (set_reloc (set_p st percent_op_itype) (Some BFD_RELOC_RISCV_LO12_I))
  | "q"%char :: q =>
      ip_load_store "q" q (set_reloc (set_p st percent_op_stype) (Some BFD_RELOC_RISCV_LO12_S))
  | "o"%char :: q =>
      ip_load_store "o" q (set_reloc (set_p st percent_op_itype) (Some BFD_RELOC_RISCV_LO12_I))
  | "1"%char :: q => ip_alu_op "1" q (set_p st percent_op_rtype)
  | "0"%char :: q => ip_load_store "0" q st
  | "p"%char :: q => ip_branch q st
  | "u"%char :: q => ip_upper q st
  | "a"%char :: q => ip_jump q st
  | "c"%char :: q =>
      let st := take_expr (full st) in
      let st := if bool_decide (asarg st = chars "@plt") then set_asarg st [] else st in
      Continue q (set_reloc st (Some BFD_RELOC_RISCV_CALL_PLT))
  | "O"%char :: "4"%char :: q =>
      field_imm (my_getOpcodeExpression expression) (fun x => below 128 x && ((x .& 0x3) =? 3))
        FLD_OP D_bad_opcode q st
  | "O"%char :: "2"%char :: q =>
      field_imm (my_getOpcodeExpression expression) (below 3) FLD_OP2 D_bad_opcode q st
  | "F"%char :: "7"%char :: q => field_imm small (below 128) FLD_FUNCT7 (D_bad_funct 127) q st
  | "F"%char :: "3"%char :: q => field_imm small (below 8) FLD_FUNCT3 (D_bad_funct 7) q st
  | "F"%char :: "2"%char :: q => field_imm small (below 4) FLD_FUNCT2 (D_bad_funct 3) q st
  | "y"%char :: q => abs_imm full (fun x => 3 <? to_ulong x) D_bs (INSERT_OPERAND FLD_BS) q st
  | "Y"%char :: q => abs_imm full (fun x => 10 <? to_ulong x) D_rnum (INSERT_OPERAND FLD_RNUM) q st
  | "z"%char :: q => const_imm (fun x => x =? 0) (fun _ => 0) q st
  | "W"%char :: q => ip_w q st
  | "X"%char :: q => ip_x q st
  | _ => Unknown
  end.

(** ** One opcode entry *)

(** [asarg += strspn (asarg, " \t")]. *)
Fixpoint skip_blanks (s : list ascii) : list ascii :=
  match s with
  | " "%char :: s' | "009"%char :: s' => skip_blanks s'
  | _ => s
  end.

(** The loop over the operand string up to its end; every operand consumes at
    least one of its characters, so its length is enough fuel.  An end state
    is returned as [Continue \[\]]. *)
Fixpoint ip_operands (fuel : nat) (p : list ascii) (st : ip_state) : op_result :=
  let st := set_asarg st (skip_blanks (asarg st)) in
  match p with
  | [] => Continue [] st
  | _ :: _ =>
      match fuel with
      | O => Unknown
      | S fuel' =>
          match ip_operand p st with
          | Continue q st' => ip_operands fuel' q st'
          | r => r
          end
      end
  end.

Inductive ip_msg : Set := Unrecognized_opcode | Illegal_operands | Illegal_for_zve32x.

(** [case '\0'], "End of args": success, or the message and the [break]. *)
Definition ip_end (st : ip_state) : ip_state * option ip_msg :=
  let fail m st := (st, Some m) in
  if match match_func insn with
     | Some f => negb (call_match_func f insn (insn_opcode st))
     | None => false
     end
  then fail Illegal_operands st
  else
    let '(st, err) :=
      if pinfo insn =? INSN_MACRO then (st, None)
      else if (riscv_insn_length (if (match_ insn =? 0) && (mask insn =? 0) then insn_opcode st
                                  else match_ insn) =? 2) && negb (rvc (riscv_opts env))
      then (st, Some Illegal_operands)
      else
        let st := if riscv_is_priv_insn (insn_opcode st) then set_priv_attr st else st in
        let st := if insn_with_csr st && csr_check (riscv_opts env)
                     && negb (riscv_csr_read_only_check (insn_opcode st))
                  then set_with_csr (report st [W_csr_read_only]) false else st in
        if negb ((pinfo insn .& INSN_V_EEW64) =? 0) && supports env "zve32x"
           && negb (supports env "zve64x")
        then (st, Some Illegal_for_zve32x)
        else (st, None) in
    match err with
    | Some m => fail m st
    | None =>
        match asarg st with
        | [] => (set_with_csr st false, None)
        | _ :: _ => fail Illegal_operands st
        end
    end.

End operands.

(** ** All entries of a mnemonic *)

(** The outcome of [riscv_ip]: an entry and the state it left, the error with
    the missing extension, the internal error of an unknown operand letter, or
    the operand text read past its end. *)
Inductive ip_outcome : Type :=
| IP_ok (op : riscv_opcode) (st : ip_state)
| IP_error (msg : ip_msg) (missing_ext : option string) (st : ip_state)
| IP_fatal (op : riscv_opcode)
| IP_overrun (op : riscv_opcode).

Section riscv_ip.

Context (env : as_env).
Context (expression : bool -> list ascii -> expressionS * list ascii * list diag).
Context (strtof : list ascii -> bool * option (Z * Z) * list ascii).

(** The entry can be used at all. *)
Definition entry_enabled (insn : riscv_opcode) : bool :=
  negb (negb (xlen_requirement insn =? 0) && negb (xlen env =? xlen_requirement insn))
  && riscv_multi_subset_supports (riscv_rps_as env) (insn_class insn).

(** The state an entry starts with: [create_insn] and the resets before its
    operand loop; what the entries before it reported stays. *)
Definition create_insn (insn : riscv_opcode) (asargStart : list ascii) (st : ip_state) : ip_state :=
  mk_ip asargStart (match_ insn) (set_X_op (imm_expr st) O_absent) None percent_op_null
    (expr_parse_end st) false (explicit_priv_attr st) (log st).

(** The loop over the entries.  The warning of a read-only CSR puts the character
    after the mnemonic back (an entry with a CSR has operands, so there is one):
    if the entry is then rejected, the comparison of the loop sees the whole
    line, and no further entry is tried. *)
Fixpoint ip_entries (asargStart : list ascii) (msg : ip_msg) (missing_ext : option string)
    (insns : list riscv_opcode) (st : ip_state) : ip_outcome :=
  match insns with
  | [] => IP_error msg missing_ext st
  | insn :: insns' =>
      if negb (xlen_requirement insn =? 0) && negb (xlen env =? xlen_requirement insn)
      then ip_entries asargStart msg missing_ext insns' st
      else if negb (riscv_multi_subset_supports (riscv_rps_as env) (insn_class insn))
      then ip_entries asargStart msg
             (riscv_multi_subset_supports_ext (riscv_rps_as env) (insn_class insn)) insns' st
      else
        match ip_operands env expression strtof insn (String.length (args insn))
                (chars (args insn)) (create_insn insn asargStart st) with
        | Unknown => IP_fatal insn
        | Overrun => IP_overrun insn
        | Break st => ip_entries asargStart Illegal_operands None insns' st
        | Continue _ st =>
            match ip_end env insn st with
            | (st', None) => IP_ok insn st'
            | (st', Some m) =>
                if insn_with_csr st && negb (insn_with_csr st') then IP_error m None st'
                else ip_entries asargStart m None insns' st'
            end
        end
  end.

(** The mnemonic and the text after the first space. *)
Fixpoint split_name (str : list ascii) : list ascii * list ascii :=
  match str with
  | c :: str' => if is_space c then ([], str') else let '(a, b) := split_name str' in (c :: a, b)
  | [] => ([], [])
  end.

(** [riscv_ip (str, ip, imm_expr, imm_reloc, hash)]; [st0] holds the globals
    it starts with. *)
Definition riscv_ip (hash : gmap string (list riscv_opcode)) (str : list ascii) (st0 : ip_state)
  : ip_outcome :=
  let '(nm, asargStart) := split_name str in
  ip_entries asargStart Unrecognized_opcode None (candidates hash (unchars nm)) st0.

End riscv_ip.
