(* ===== verification/IpFrame.v ===== *)
(** * What an operand may change (gas/config/tc-riscv.c)

    The operand parser and the start-up check of the opcode table read the same
    letters: an operand writes no bit of the instruction word but those of its
    letters ([ip_operand_agrees], [ip_operands_writes]). *)
From Stdlib Require Import ZArith Bool Ascii Lia.
From stdpp Require Import base list strings gmap.
From S2P Require Import Prelude OpcodeH RiscvH Immediates Words OpcodeMatch OpcodeTable Validate.
From S2P Require Import SubsetTables Subset CsrTable Howto Regs Expr Ip.

#[local] Open Scope Z_scope.
#[local] Open Scope c_scope.

(** ** Bits an operand writes *)

(** [w'] is a 64-bit word that differs from [w] in bits of [b] only. *)
Definition writes (b w w' : Z) : Prop := 0 <= w' < 2 ^ 64 /\ Z.ldiff w' b = Z.ldiff w b.

Lemma writes_refl b w : 0 <= w < 2 ^ 64 -> writes b w w.
Proof. done. Qed.

Lemma ldiff_lor_split w a b : Z.ldiff w (a .| b) = Z.ldiff (Z.ldiff w a) b.
Proof.
  apply Z.bits_inj'. intros i Hi. rewrite !Z.ldiff_spec, Z.lor_spec.
  by destruct (Z.testbit w i), (Z.testbit a i), (Z.testbit b i).
Qed.

Lemma writes_trans a b w w' w'' : writes a w w' -> writes b w' w'' -> writes (a .| b) w w''.
Proof.
  intros [_ E1] [R E2]. split; [done|].
  rewrite (Z.lor_comm a b), ldiff_lor_split, E2, <- ldiff_lor_split, (Z.lor_comm b a).
  by rewrite ldiff_lor_split, E1, <- ldiff_lor_split.
Qed.

(** A frame on [b] keeps the bits outside of [b]. *)
Lemma writes_land b w w' m : writes b w w' -> b .& m = 0 -> w' .& m = w .& m.
Proof.
  intros [_ E] Hm. apply Z.bits_inj'. intros i Hi.
  assert (H1 : Z.testbit (Z.ldiff w' b) i = Z.testbit (Z.ldiff w b) i) by congruence.
  assert (H2 : Z.testbit (b .& m) i = Z.testbit 0 i) by congruence.
  rewrite !Z.ldiff_spec in H1. rewrite Z.land_spec, Z.bits_0 in H2. rewrite !Z.land_spec.
  destruct (Z.testbit w i), (Z.testbit w' i), (Z.testbit b i), (Z.testbit m i); done.
Qed.

Lemma writes_insert w v m s :
  0 <= w < 2 ^ 64 -> writes (m <<u s) w (INSERT_BITS w v m s).
Proof.
  intros Hw. unfold INSERT_BITS. split.
  - apply lor_range; [lia| |apply u64_range]. split; [apply Z.land_nonneg; lia|].
    apply (Z.le_lt_trans _ w); [|lia]. rewrite Z.land_comm. apply land_le_r. lia.
  - apply Z.bits_inj'. intros i Hi.
    rewrite !Z.ldiff_spec, Z.lor_spec, Z.land_spec.
    rewrite !u64_testbit, Z.lnot_spec, u64_testbit by lia. rewrite !Z.shiftl_spec, Z.land_spec by lia.
    destruct (Z.ltb_spec i 64) as [Hl|Hl].
    + simpl. destruct (Z.testbit w i), (Z.testbit m (i - s)), (Z.testbit v (i - s)); done.
    + rewrite (testbit_high w 64) by lia. done.
Qed.

Lemma writes_or_encode f w x :
  In f imm_formats -> 0 <= w < 2 ^ 64 -> writes (fmt_encode f (-1)) w (w .| fmt_encode f x).
Proof.
  intros Hf Hw. pose proof (encode_range f x Hf). destruct (imm_format_elim f Hf) as [Hok Hden].
  split; [apply lor_range; lia|]. rewrite <- (format_encode_masked f Hok Hden x).
  apply Z.bits_inj'. intros i Hi. rewrite !Z.ldiff_spec, Z.lor_spec, Z.land_spec.
  destruct (Z.testbit w i), (Z.testbit (fmt_encode f x) i), (Z.testbit (fmt_encode f (-1)) i); done.
Qed.

(** The result of an operand agrees with what the start-up check says of its
    letters: the same letters are consumed, only the bits of the operand are
    written, and unknown letters are unknown to both. *)
Definition op_agrees (use : operand_use) (w : Z) (r : op_result) : Prop :=
  match r with
  | Continue q st => exists b, use = Some (b, q) /\ writes b w (insn_opcode st)
  | Break _ | Overrun => True
  | Unknown => use = None
  end.

(** ** Expressions do not touch the instruction *)

Create Rewrite HintDb ip_st.

Section state.

Context (env : as_env).
Context (expression : bool -> list ascii -> expressionS * list ascii * list diag).

Lemma opcode_as_bad_if b d st : insn_opcode (as_bad_if b d st) = insn_opcode st.
Proof. by destruct b. Qed.

Lemma opcode_getExpression pr s st : insn_opcode (getExpression expression pr s st) = insn_opcode st.
Proof. unfold getExpression. by destruct (expression pr s) as [[ep e] ds]. Qed.

Lemma opcode_small_tail c cd s sd ri st :
  insn_opcode (small_tail expression c cd s sd ri st).2 = insn_opcode st.
Proof.
  unfold small_tail.
  assert (H : forall p, insn_opcode
    (let st := getExpression expression p c st in
     let '(str, depth) := close_brackets (expr_parse_end st) cd in
     (ri, set_parse_end (as_bad_if (0 <? depth)%nat D_unclosed st) str)).2 = insn_opcode st).
  { intros p. cbv zeta. destruct (close_brackets _ cd) as [str depth]. simpl.
    by rewrite opcode_as_bad_if, opcode_getExpression. }
  destruct s as [|ch s']; [apply H|]. destruct ch as [[] [] [] [] [] [] [] []]; try apply H; done.
Qed.

Lemma opcode_small s ops st : insn_opcode (getSmallExpression expression s ops st).2 = insn_opcode st.
Proof.
  unfold getSmallExpression. destruct (skip_brackets s 0) as [str depth].
  destruct str as [|ch str']; [apply opcode_small_tail|].
  destruct ch as [[] [] [] [] [] [] [] []]; try apply opcode_small_tail.
  destruct (parse_relocation str' ops) as [[[str1 r] ds]|]; [|apply opcode_small_tail].
  destruct (skip_brackets str1 depth) as [str2 depth2]. by rewrite opcode_small_tail.
Qed.

Lemma opcode_my_small st : insn_opcode (my_getSmallExpression expression st).2 = insn_opcode st.
Proof. apply opcode_small. Qed.

Lemma opcode_my_opcode st : insn_opcode (my_getOpcodeExpression expression st).2 = insn_opcode st.
Proof.
  unfold my_getOpcodeExpression. destruct (opcode_name_lookup (asarg st)) as [[[v|] str] e];
    [done|by rewrite opcode_small].
Qed.

Lemma opcode_full st : insn_opcode (my_getExpression expression st) = insn_opcode st.
Proof. apply opcode_getExpression. Qed.

Lemma opcode_absolute nm mc st : insn_opcode (check_absolute_expr env nm mc st) = insn_opcode st.
Proof. done. Qed.

Lemma opcode_vsetvli st : insn_opcode (my_getVsetvliExpression expression st) = insn_opcode st.
Proof.
  unfold my_getVsetvliExpression. destruct (vtype_arg riscv_vsew _) as [[a b] s1].
  destruct (vtype_arg riscv_vlmul s1) as [[a2 b2] s2]. destruct (vtype_arg riscv_vta s2) as [[a3 b3] s3].
  destruct (vtype_arg riscv_vma s3) as [[a4 b4] s4].
  destruct (b || b2 || b3 || b4); [done|apply opcode_getExpression].
Qed.

Lemma opcode_th_vsetvli st : insn_opcode (my_getThVsetvliExpression expression st) = insn_opcode st.
Proof.
  unfold my_getThVsetvliExpression. destruct (vtype_arg riscv_vsew _) as [[a b] s1].
  destruct (vtype_arg riscv_th_vlen s1) as [[a2 b2] s2].
  destruct (vtype_arg riscv_th_vediv s2) as [[a3 b3] s3].
  destruct (b2 || b3 || b); [done|apply opcode_getExpression].
Qed.

End state.

#[export] Hint Rewrite opcode_as_bad_if opcode_my_small opcode_my_opcode opcode_full
  opcode_absolute opcode_vsetvli opcode_th_vsetvli : ip_st.

(** ** Every operand agrees with the start-up check *)

Section agreement.

Context (env : as_env).
Context (expression : bool -> list ascii -> expressionS * list ascii * list diag).
Context (strtof : list ascii -> bool * option (Z * Z) * list ascii).
Context (insn : riscv_opcode).

(** A write of the word a state holds. *)
Definition puts (b : Z) (put : ip_state -> Z -> ip_state) : Prop :=
  forall st v, 0 <= insn_opcode st < 2 ^ 64 -> writes b (insn_opcode st) (insn_opcode (put st v)).

Lemma puts_field f : puts (USE_BITS f) (INSERT_OPERAND f).
Proof. intros st v Hw. by apply writes_insert. Qed.

Lemma puts_field2 f g :
  puts (USE_BITS f .| USE_BITS g) (fun st r => INSERT_OPERAND g (INSERT_OPERAND f st r) r).
Proof.
  intros st v Hw. pose proof (puts_field f st v Hw) as H1.
  apply (writes_trans _ _ _ _ _ H1), puts_field, H1.
Qed.

Lemma puts_encode f : In f imm_formats -> puts (fmt_encode f (-1)) (or_enc (fmt_encode f)).
Proof. intros Hf st v Hw. by apply writes_or_encode. Qed.

Lemma with_reg_agrees cls st k b q w :
  0 <= w < 2 ^ 64 -> insn_opcode st = w ->
  (forall regno st', insn_opcode st' = w -> op_agrees (Some (b, q)) w (k regno st')) ->
  op_agrees (Some (b, q)) w (with_reg env cls st k).
Proof.
  intros Hw Hs Hk. unfold with_reg. destruct (reg_lookup env (asarg st) cls) as [[[regno e]|] ds].
  - by apply Hk.
  - done.
Qed.

Lemma reg_into_agrees cls ok f v q st :
  0 <= insn_opcode st < 2 ^ 64 ->
  op_agrees (Some (USE_BITS f, q)) (insn_opcode st) (reg_into env cls ok f v q st).
Proof.
  intros Hw. apply with_reg_agrees; [done..|]. intros regno st' E.
  destruct (ok regno); [|done]. exists (USE_BITS f). split; [done|].
  rewrite <- E. apply puts_field. by rewrite E.
Qed.

Lemma reg_check_agrees cls ok q st b :
  0 <= insn_opcode st < 2 ^ 64 ->
  op_agrees (Some (b, q)) (insn_opcode st) (reg_check env cls ok q st).
Proof.
  intros Hw. apply with_reg_agrees; [done..|]. intros regno st' E.
  destruct (ok _ regno); [|done]. exists b. split; [done|]. rewrite E. by apply writes_refl.
Qed.

Lemma const_imm_agrees ok enc b q st :
  puts b (or_enc enc) -> 0 <= insn_opcode st < 2 ^ 64 ->
  op_agrees (Some (b, q)) (insn_opcode st) (const_imm expression ok enc q st).
Proof.
  intros Hp Hw. unfold const_imm. pose proof (opcode_my_small expression st) as E.
  destruct (my_getSmallExpression expression st) as [n st']. simpl in E.
  destruct (_ || _); [done|]. exists b. split; [done|]. rewrite <- E. apply Hp. by rewrite E.
Qed.

Lemma offset_imm_agrees ok enc b q st :
  puts b (or_enc enc) -> 0 <= insn_opcode st < 2 ^ 64 ->
  op_agrees (Some (b, q)) (insn_opcode st) (offset_imm expression ok enc q st).
Proof.
  intros Hp Hw. unfold offset_imm. destruct (implicit_zero_offset (asarg st)).
  - exists b. split; [done|by apply writes_refl].
  - by apply const_imm_agrees.
Qed.

Lemma field_imm_agrees get ok f d q st :
  insn_opcode (get st).2 = insn_opcode st -> 0 <= insn_opcode st < 2 ^ 64 ->
  op_agrees (Some (USE_BITS f, q)) (insn_opcode st) (field_imm get ok f d q st).
Proof.
  intros E Hw. unfold field_imm. destruct (get st) as [n st']. simpl in E.
  destruct (_ || _); [done|]. exists (USE_BITS f). split; [done|].
  rewrite <- E. apply puts_field. by rewrite E.
Qed.

Lemma abs_imm_agrees get bad d put b q st :
  insn_opcode (get st) = insn_opcode st -> puts b put -> 0 <= insn_opcode st < 2 ^ 64 ->
  op_agrees (Some (b, q)) (insn_opcode st) (abs_imm env insn get bad d put q st).
Proof.
  intros E Hp Hw. unfold abs_imm. cbv zeta. exists b. split; [done|]. rewrite <- E.
  set (st1 := as_bad_if _ _ _).
  assert (E1 : insn_opcode st1 = insn_opcode (get st)) by (unfold st1; by autorewrite with ip_st).
  change (insn_opcode (imm_done (put st1 ?x))) with (insn_opcode (put st1 x)).
  rewrite <- E1. apply Hp. by rewrite E1, E.
Qed.

Lemma rvc_lui_agrees q st :
  0 <= insn_opcode st < 2 ^ 64 ->
  op_agrees (Some (fmt_encode fmt_CITYPE_IMM (-1), q)) (insn_opcode st) (rvc_lui q st).
Proof.
  intros Hw. unfold rvc_lui. cbv zeta. destruct (_ || _); [done|].
  exists (fmt_encode fmt_CITYPE_IMM (-1)). split; [done|]. apply (puts_encode fmt_CITYPE_IMM); [|done].
  unfold imm_formats. in_list.
Qed.

(** [q] is consumed and nothing is written: the operand becomes a fixup. *)
Lemma no_write_agrees b q st st' :
  insn_opcode st' = insn_opcode st -> 0 <= insn_opcode st < 2 ^ 64 ->
  op_agrees (Some (b, q)) (insn_opcode st) (Continue q st').
Proof. intros E Hw. exists b. split; [done|]. rewrite E. by apply writes_refl. Qed.

Lemma ip_branch_agrees b q st :
  0 <= insn_opcode st < 2 ^ 64 ->
  op_agrees (Some (b, q)) (insn_opcode st) (ip_branch expression q st).
Proof. intros Hw. apply no_write_agrees; [|done]. apply (opcode_full expression (set_reloc st _)). Qed.

Lemma ip_jump_agrees b q st :
  0 <= insn_opcode st < 2 ^ 64 ->
  op_agrees (Some (b, q)) (insn_opcode st) (ip_jump expression q st).
Proof. intros Hw. apply no_write_agrees; [|done]. apply (opcode_full expression st). Qed.

End agreement.

(** The immediates that are or-ed into the word write the bits the check
    reserves for them. *)
Lemma puts_enc f b :
  In f imm_formats -> fmt_encode f (-1) = b -> puts b (or_enc (fmt_encode f)).
Proof. intros Hf <-. by apply puts_encode. Qed.

Create HintDb ip_puts discriminated.

Ltac puts_format f :=
  apply (puts_enc f); [unfold imm_formats; in_list|vm_compute; reflexivity].

Lemma puts_ITYPE_IMM : puts (ENCODE_ITYPE_IMM minus_1U) (or_enc ENCODE_ITYPE_IMM).
Proof. puts_format fmt_ITYPE_IMM. Qed.
Lemma puts_STYPE_IMM : puts (ENCODE_STYPE_IMM minus_1U) (or_enc ENCODE_STYPE_IMM).
Proof. puts_format fmt_STYPE_IMM. Qed.
Lemma puts_CITYPE_IMM : puts (ENCODE_CITYPE_IMM minus_1U) (or_enc ENCODE_CITYPE_IMM).
Proof. puts_format fmt_CITYPE_IMM. Qed.
Lemma puts_CITYPE_ADDI16SP_IMM : puts (ENCODE_CITYPE_ADDI16SP_IMM minus_1U) (or_enc ENCODE_CITYPE_ADDI16SP_IMM).
Proof. puts_format fmt_CITYPE_ADDI16SP_IMM. Qed.
Lemma puts_CITYPE_LWSP_IMM : puts (ENCODE_CITYPE_LWSP_IMM minus_1U) (or_enc ENCODE_CITYPE_LWSP_IMM).
Proof. puts_format fmt_CITYPE_LWSP_IMM. Qed.
Lemma puts_CITYPE_LDSP_IMM : puts (ENCODE_CITYPE_LDSP_IMM minus_1U) (or_enc ENCODE_CITYPE_LDSP_IMM).
Proof. puts_format fmt_CITYPE_LDSP_IMM. Qed.
Lemma puts_CSSTYPE_IMM : puts (ENCODE_CSSTYPE_IMM minus_1U) (or_enc ENCODE_CSSTYPE_IMM).
Proof. puts_format fmt_CSSTYPE_IMM. Qed.
Lemma puts_CSSTYPE_SWSP_IMM : puts (ENCODE_CSSTYPE_SWSP_IMM minus_1U) (or_enc ENCODE_CSSTYPE_SWSP_IMM).
Proof. puts_format fmt_CSSTYPE_SWSP_IMM. Qed.
Lemma puts_CSSTYPE_SDSP_IMM : puts (ENCODE_CSSTYPE_SDSP_IMM minus_1U) (or_enc ENCODE_CSSTYPE_SDSP_IMM).
Proof. puts_format fmt_CSSTYPE_SDSP_IMM. Qed.
Lemma puts_CIWTYPE_IMM : puts (ENCODE_CIWTYPE_IMM minus_1U) (or_enc ENCODE_CIWTYPE_IMM).
Proof. puts_format fmt_CIWTYPE_IMM. Qed.
Lemma puts_CIWTYPE_ADDI4SPN_IMM : puts (ENCODE_CIWTYPE_ADDI4SPN_IMM minus_1U) (or_enc ENCODE_CIWTYPE_ADDI4SPN_IMM).
Proof. puts_format fmt_CIWTYPE_ADDI4SPN_IMM. Qed.
Lemma puts_CLTYPE_IMM : puts (ENCODE_CLTYPE_IMM minus_1U) (or_enc ENCODE_CLTYPE_IMM).
Proof. puts_format fmt_CLTYPE_IMM. Qed.
Lemma puts_CLTYPE_LW_IMM : puts (ENCODE_CLTYPE_LW_IMM minus_1U) (or_enc ENCODE_CLTYPE_LW_IMM).
Proof. puts_format fmt_CLTYPE_LW_IMM. Qed.
Lemma puts_CLTYPE_LD_IMM : puts (ENCODE_CLTYPE_LD_IMM minus_1U) (or_enc ENCODE_CLTYPE_LD_IMM).
Proof. puts_format fmt_CLTYPE_LD_IMM. Qed.
Lemma puts_RVV_VB_IMM : puts (ENCODE_RVV_VB_IMM minus_1U) (or_enc ENCODE_RVV_VB_IMM).
Proof. puts_format fmt_RVV_VB_IMM. Qed.
Lemma puts_RVV_VC_IMM : puts (ENCODE_RVV_VC_IMM minus_1U) (or_enc ENCODE_RVV_VC_IMM).
Proof. puts_format fmt_RVV_VC_IMM. Qed.
Lemma puts_RVV_VI_UIMM6 : puts (ENCODE_RVV_VI_UIMM6 minus_1U) (or_enc ENCODE_RVV_VI_UIMM6).
Proof. puts_format fmt_RVV_VI_UIMM6. Qed.
Lemma puts_ZCB_BYTE_UIMM : puts (ENCODE_ZCB_BYTE_UIMM minus_1U) (or_enc ENCODE_ZCB_BYTE_UIMM).
Proof. puts_format fmt_ZCB_BYTE_UIMM. Qed.
Lemma puts_ZCB_HALFWORD_UIMM : puts (ENCODE_ZCB_HALFWORD_UIMM minus_1U) (or_enc ENCODE_ZCB_HALFWORD_UIMM).
Proof. puts_format fmt_ZCB_HALFWORD_UIMM. Qed.
Lemma puts_CV_IS2_UIMM5 : puts (ENCODE_CV_IS2_UIMM5 minus_1U) (or_enc ENCODE_CV_IS2_UIMM5).
Proof. puts_format fmt_CV_IS2_UIMM5. Qed.
Lemma puts_CV_IS3_UIMM5 : puts (ENCODE_CV_IS3_UIMM5 minus_1U) (or_enc ENCODE_CV_IS3_UIMM5).
Proof. puts_format fmt_CV_IS3_UIMM5. Qed.

Lemma puts_nothing : puts 0 (or_enc (fun _ => 0)).
Proof. intros st v Hw. unfold or_enc, or_opcode. simpl. rewrite Z.lor_0_r. by apply writes_refl. Qed.

Lemma puts_field_minus_1 f : puts (USE_BITS f) (fun st x => INSERT_OPERAND f st (x - 1)).
Proof. intros st v Hw. by apply puts_field. Qed.

Lemma puts_field3 f g h :
  puts (USE_BITS f .| USE_BITS g .| USE_BITS h)
    (fun st r => INSERT_OPERAND h (INSERT_OPERAND g (INSERT_OPERAND f st r) r) r).
Proof.
  intros st v Hw. pose proof (puts_field2 f g st v Hw) as H1.
  apply (writes_trans _ _ _ _ _ H1), puts_field, H1.
Qed.

(** A prefetch offset, and an N\@S immediate. *)
Lemma puts_prefetch :
  puts (ENCODE_STYPE_IMM minus_1U)
    (or_enc (fun x => ENCODE_STYPE_IMM (u32 x .& u32 (Z.lnot 0x1f)))).
Proof. intros st v Hw. by apply puts_STYPE_IMM. Qed.

Lemma puts_imm n s : puts (USE_IMM n s) (INSERT_IMM n s).
Proof. intros st v Hw. by apply writes_insert. Qed.

#[export] Hint Resolve puts_nothing puts_field puts_field2 puts_field3 puts_field_minus_1 puts_prefetch puts_imm
  puts_ITYPE_IMM puts_STYPE_IMM puts_CITYPE_IMM puts_CITYPE_ADDI16SP_IMM
  puts_CITYPE_LWSP_IMM puts_CITYPE_LDSP_IMM puts_CSSTYPE_IMM puts_CSSTYPE_SWSP_IMM
  puts_CSSTYPE_SDSP_IMM puts_CIWTYPE_IMM puts_CIWTYPE_ADDI4SPN_IMM puts_CLTYPE_IMM
  puts_CLTYPE_LW_IMM puts_CLTYPE_LD_IMM puts_RVV_VB_IMM puts_RVV_VC_IMM
  puts_RVV_VI_UIMM6 puts_ZCB_BYTE_UIMM puts_ZCB_HALFWORD_UIMM puts_CV_IS2_UIMM5
  puts_CV_IS3_UIMM5 : ip_puts.

Lemma citype_mask : ENCODE_CITYPE_IMM minus_1U = fmt_encode fmt_CITYPE_IMM (-1).
Proof. vm_compute. reflexivity. Qed.

(** The bits an operand may write and the letters after it: what the start-up
    check says, but for three vector operands the check does not count in full
    ([Ve], whose VD the operand [Vf] beside it counts, and two of macros). *)
Definition ip_use (p : list ascii) : operand_use :=
  match p with
  | "V"%char :: "e"%char :: q => Some (USE_BITS FLD_VWD .| USE_BITS FLD_VD, q)
  | "V"%char :: "M"%char :: q => Some (USE_BITS FLD_VMASK, q)
  | "V"%char :: "T"%char :: q => Some (USE_BITS FLD_VFUNCT6, q)
  | _ => validate_operand p
  end.

Section letters.

Context (env : as_env).
Context (expression : bool -> list ascii -> expressionS * list ascii * list diag).
Context (strtof : list ascii -> bool * option (Z * Z) * list ascii).
Context (insn : riscv_opcode).

Lemma ip_mask_agrees b q st :
  0 <= insn_opcode st < 2 ^ 64 -> b = USE_BITS FLD_VMASK ->
  op_agrees (Some (b, q)) (insn_opcode st) (ip_mask env q st).
Proof.
  intros Hw ->. apply with_reg_agrees; [done..|]. intros regno st' E.
  destruct (regno =? 0); [|done]. eexists. split; [done|]. rewrite <- E.
  apply puts_field. by rewrite E.
Qed.

(** A register written by [put]. *)
Lemma reg_put_agrees cls b q st put :
  puts b put -> 0 <= insn_opcode st < 2 ^ 64 ->
  op_agrees (Some (b, q)) (insn_opcode st) (with_reg env cls st (fun r st => Continue q (put st r))).
Proof.
  intros Hp Hw. apply with_reg_agrees; [done..|]. intros regno st' E.
  exists b. split; [done|]. rewrite <- E. apply Hp. by rewrite E.
Qed.

Ltac agree_step :=
  match goal with
  | |- op_agrees None _ Unknown => exact eq_refl
  | |- op_agrees _ _ (Break _) => exact I
  | |- op_agrees _ _ (reg_into _ _ _ _ _ _ _) => apply reg_into_agrees; assumption
  | |- op_agrees _ _ (reg_check _ _ _ _ _) => apply reg_check_agrees; assumption
  | |- op_agrees _ _ (const_imm _ _ _ _ _) =>
      apply const_imm_agrees; [solve [auto with ip_puts]|assumption]
  | |- op_agrees _ _ (offset_imm _ _ _ _ _) =>
      apply offset_imm_agrees; [solve [auto with ip_puts]|assumption]
  | |- op_agrees _ _ (field_imm _ _ _ _ _ _) =>
      apply field_imm_agrees; [solve [by autorewrite with ip_st]|assumption]
  | |- op_agrees _ _ (abs_imm _ _ _ _ _ _ _ _) =>
      apply abs_imm_agrees; [solve [by autorewrite with ip_st]|solve [auto with ip_puts]|assumption]
  | |- op_agrees _ _ (ip_branch _ _ _) => apply ip_branch_agrees; assumption
  | |- op_agrees _ _ (ip_jump _ _ _) => apply ip_jump_agrees; assumption
  | |- op_agrees _ _ (with_reg _ _ _ (fun _ _ => Continue _ _)) =>
      apply reg_put_agrees; [solve [auto with ip_puts]|assumption]
  | |- op_agrees _ _ (ip_mask _ _ _) => apply ip_mask_agrees; [assumption|reflexivity]
  end.

Ltac each_char c :=
  destruct c as [[] [] [] [] [] [] [] []];
  cbn [ip_use validate_operand validate_rvc ip_rvc validate_rvv ip_rvv validate_w ip_w validate_x ip_x];
  try agree_step.

(** A [lui] immediate read into [st']. *)
Lemma rvc_lui_agrees' q st st' :
  insn_opcode st' = insn_opcode st -> 0 <= insn_opcode st < 2 ^ 64 ->
  op_agrees (Some (ENCODE_CITYPE_IMM minus_1U, q)) (insn_opcode st) (rvc_lui q st').
Proof. intros E Hw. rewrite citype_mask, <- E. apply rvc_lui_agrees. by rewrite E. Qed.

Lemma ip_rvc_agrees p st :
  0 <= insn_opcode st < 2 ^ 64 ->
  op_agrees (validate_rvc p) (insn_opcode st) (ip_rvc env expression p st).
Proof.
  intros Hw. destruct p as [|c q]; [done|]. each_char c.
  3: destruct q as [|d q]; [done|]; each_char d.
  - pose proof (opcode_my_small expression (set_p st percent_op_utype)) as E.
    destruct (my_getSmallExpression _ _) as [n st']. destruct (negb _); [done|].
    by apply rvc_lui_agrees'.
  - pose proof (opcode_my_small expression st) as E.
    destruct (my_getSmallExpression _ _) as [n st']. destruct (_ || _); [done|].
    by apply rvc_lui_agrees'.
Qed.

(** The destination of a T-Head vector AMO. *)
Lemma puts_amo_vd :
  puts (USE_BITS FLD_VWD .| USE_BITS FLD_VD)
    (fun st r => INSERT_OPERAND FLD_VD (INSERT_OPERAND FLD_VWD st 1) r).
Proof.
  intros st v Hw. pose proof (puts_field FLD_VWD st 1 Hw) as H1.
  apply (writes_trans _ _ _ _ _ H1), puts_field, H1.
Qed.

Lemma puts_vwd st :
  0 <= insn_opcode st < 2 ^ 64 ->
  writes (USE_BITS FLD_VWD .| USE_BITS FLD_VD) (insn_opcode st)
    (insn_opcode (INSERT_OPERAND FLD_VWD st 0)).
Proof.
  intros Hw. pose proof (puts_field FLD_VWD st 0 Hw) as H1.
  apply (writes_trans _ _ _ _ _ H1), writes_refl, H1.
Qed.

Lemma ip_rvv_agrees p st :
  0 <= insn_opcode st < 2 ^ 64 ->
  op_agrees (ip_use ("V"%char :: p)) (insn_opcode st) (ip_rvv env expression insn p st).
Proof.
  intros Hw. destruct p as [|c q]; [done|]. each_char c.
  - destruct (asarg st) as [|d e].
    + eexists. split; [done|]. by apply puts_field.
    + change (insn_opcode st) with (insn_opcode (set_asarg st e)).
      destruct d as [[] [] [] [] [] [] [] []]; agree_step.
  - destruct (reg_lookup env (asarg st) RCLASS_GPR) as [[[r e]|] ds]; [destruct (r =? 0)|].
    + eexists. split; [done|]. by apply (puts_vwd (set_asarg (report st ds) e)).
    + by apply (reg_put_agrees _ _ _ (set_asarg (report st ds) e) _ puts_amo_vd).
    + by apply (reg_put_agrees _ _ _ (report st ds) _ puts_amo_vd).
  - apply with_reg_agrees; [done..|]. intros regno st' E.
    destruct (_ =? 0); [|destruct (_ =? regno); [|done]]; eexists; (split; [done|]); rewrite <- E;
      [apply puts_field|apply writes_refl]; by rewrite E.
  - apply with_reg_agrees; [done..|]. intros regno st' E. destruct (regno =? 0); [done|].
    eexists; (split; [done|]); rewrite <- E; apply puts_field; by rewrite E.
Qed.

Lemma ip_w_agrees p st :
  0 <= insn_opcode st < 2 ^ 64 ->
  op_agrees (validate_w p) (insn_opcode st) (ip_w env expression strtof insn p st).
Proof.
  intros Hw. destruct p as [|c q]; [done|]. each_char c; (destruct q as [|d q]; [done|]; each_char d).
  - destruct (implicit_zero_offset (asarg st)); [|agree_step].
    eexists. split; [done|by apply writes_refl].
  - destruct (arg_lookup (asarg st) riscv_fli_symval) as [[regno e]|].
    + eexists. split; [done|]. by apply (puts_field FLD_RS1 (set_asarg st e)).
    + destruct (strtof (asarg st)) as [[errno f] e].
      destruct (if errno || _ then None else _) as [regno|]; [|done].
      eexists. split; [done|]. by apply (puts_field FLD_RS1 (set_asarg st e)).
Qed.

Lemma uimm_bit_field_agrees f a b q st :
  0 <= insn_opcode st < 2 ^ 64 ->
  op_agrees (Some (USE_BITS f, q)) (insn_opcode st) (uimm_bit_field expression f a b q st).
Proof.
  intros Hw. unfold uimm_bit_field. pose proof (opcode_my_opcode expression st) as E.
  destruct (my_getOpcodeExpression expression st) as [n st']. simpl in E.
  destruct (_ || _); [by apply no_write_agrees|].
  eexists. split; [done|]. rewrite <- E. apply puts_field. by rewrite E.
Qed.

Lemma ip_cv_agrees enc b q st :
  puts b (or_enc enc) -> 0 <= insn_opcode st < 2 ^ 64 ->
  op_agrees (Some (b, q)) (insn_opcode st) (ip_cv_uimm5 env expression insn enc q st).
Proof.
  intros Hp Hw. unfold ip_cv_uimm5. cbv zeta. set (st' := take_expr _).
  assert (E : insn_opcode st' = insn_opcode st) by apply (opcode_full expression st).
  destruct (below _ _); [|done]. exists b. split; [done|]. rewrite <- E. apply Hp. by rewrite E.
Qed.

Lemma ip_parse_imm_agrees sign p st :
  0 <= insn_opcode st < 2 ^ 64 ->
  op_agrees (validate_use_imm p) (insn_opcode st) (ip_parse_imm env expression insn sign p st).
Proof.
  intros Hw. unfold validate_use_imm, ip_parse_imm. destruct (strtol10 p) as [n q].
  destruct q as [|c q]; [done|]. each_char c. destruct (strtol10 q) as [s r]. agree_step.
Qed.

Lemma span_until_find c q : (span_until [c] q).2 = find_char c q.
Proof.
  induction q as [|d q IH]; [done|]. cbn [span_until find_char existsb].
  rewrite (Ascii.eqb_sym c d), orb_false_r. destruct (Ascii.eqb d c); [done|].
  destruct (span_until [c] q) as [a b]. done.
Qed.

Lemma ip_literal_agrees q st :
  0 <= insn_opcode st < 2 ^ 64 ->
  op_agrees (Some (0, find_char "," q)) (insn_opcode st)
    (ip_x env expression insn ("t"%char :: "l"%char :: q) st).
Proof.
  intros Hw. cbn [ip_x]. rewrite <- span_until_find. destruct (span_until [","%char] q) as [lit r].
  destruct (_ <? _)%nat; [done|]. apply no_write_agrees; [|done].
  apply (opcode_as_bad_if _ D_literal st).
Qed.

Lemma ip_x_agrees p st :
  0 <= insn_opcode st < 2 ^ 64 ->
  op_agrees (validate_x p) (insn_opcode st) (ip_x env expression insn p st).
Proof.
  intros Hw. destruct p as [|c q]; [done|]. each_char c; (destruct q as [|d q]; [done|]; each_char d).
  all: first [ apply ip_literal_agrees; assumption
             | apply ip_parse_imm_agrees; assumption
             | apply uimm_bit_field_agrees; assumption
             | apply ip_cv_agrees; [solve [auto with ip_puts]|assumption]
             | idtac ].
  all: destruct q as [|e q]; [done|]; each_char e; apply uimm_bit_field_agrees; assumption.
Qed.

Lemma opcode_skip_one_space st : insn_opcode (skip_one_space st) = insn_opcode st.
Proof.
  unfold skip_one_space. destruct (asarg st) as [|c e]; [done|].
  by destruct c as [[] [] [] [] [] [] [] []].
Qed.

Lemma puts_after_space b put :
  puts b put -> puts b (fun st r => put (skip_one_space st) r).
Proof.
  intros Hp st r Hw. rewrite <- (opcode_skip_one_space st). apply Hp. by rewrite opcode_skip_one_space.
Qed.

Lemma ip_gpr_agrees b put q st :
  puts b put -> 0 <= insn_opcode st < 2 ^ 64 ->
  op_agrees (Some (b, q)) (insn_opcode st) (ip_gpr env put q st).
Proof. intros Hp Hw. unfold ip_gpr. by apply (reg_put_agrees _ b q st _ (puts_after_space b put Hp)). Qed.

Lemma ip_fpr_agrees b put q st :
  puts b put -> 0 <= insn_opcode st < 2 ^ 64 ->
  op_agrees (Some (b, q)) (insn_opcode st) (ip_fpr env put q st).
Proof. intros Hp Hw. unfold ip_fpr. by apply (reg_put_agrees _ b q st _ (puts_after_space b put Hp)). Qed.

Lemma ip_char_agrees b c q st :
  0 <= insn_opcode st < 2 ^ 64 -> op_agrees (Some (b, q)) (insn_opcode st) (ip_char c q st).
Proof.
  intros Hw. unfold ip_char. destruct (asarg st) as [|d e]; [done|].
  destruct (Ascii.eqb d c); [by apply no_write_agrees|done].
Qed.

Lemma ip_name_agrees arr f q st :
  0 <= insn_opcode st < 2 ^ 64 ->
  op_agrees (Some (USE_BITS f, q)) (insn_opcode st) (ip_name arr f q st).
Proof.
  intros Hw. unfold ip_name. destruct (arg_lookup (asarg st) arr) as [[r e]|]; [|done].
  eexists. split; [done|]. by apply (puts_field f (set_asarg st e)).
Qed.

Lemma ip_csr_agrees q st :
  0 <= insn_opcode st < 2 ^ 64 ->
  op_agrees (Some (USE_BITS FLD_CSR, q)) (insn_opcode st) (ip_csr env expression insn q st).
Proof.
  intros Hw. unfold ip_csr. cbv zeta.
  set (st1 := set_priv_attr (set_with_csr st true)).
  assert (E : insn_opcode st1 = insn_opcode st) by done.
  destruct (reg_lookup env (asarg st1) RCLASS_CSR) as [[[r e]|] ds]; eexists; (split; [done|]).
  - by apply (puts_field FLD_CSR (set_asarg (report st1 ds) e)).
  - set (st2 := as_bad_if _ _ _).
    assert (E2 : insn_opcode st2 = insn_opcode st).
    { unfold st2. rewrite opcode_as_bad_if, opcode_absolute, opcode_full. done. }
    rewrite <- E2. apply (puts_field FLD_CSR st2). by rewrite E2.
Qed.

Lemma ip_upper_agrees b q st :
  0 <= insn_opcode st < 2 ^ 64 ->
  op_agrees (Some (b, q)) (insn_opcode st) (ip_upper expression q st).
Proof.
  intros Hw. unfold ip_upper. pose proof (opcode_my_small expression (set_p st percent_op_utype)) as E.
  destruct (my_getSmallExpression _ _) as [n st']. cbn [snd] in E.
  destruct (n =? 0); [destruct (negb _); [done|]|]; (apply no_write_agrees; [|done]).
  - exact (eq_trans (opcode_as_bad_if _ D_lui_range st') E).
  - exact E.
Qed.

Lemma ip_alu_op_agrees c b q st :
  0 <= insn_opcode st < 2 ^ 64 ->
  op_agrees (Some (b, q)) (insn_opcode st) (ip_alu_op env expression c q st).
Proof.
  intros Hw. unfold ip_alu_op. pose proof (opcode_my_small expression st) as E.
  destruct (my_getSmallExpression _ _) as [n st']. cbn [snd] in E.
  destruct (n =? 0); [destruct (_ || _); [done|]|]; by apply no_write_agrees.
Qed.

Lemma ip_load_store_agrees c b q st :
  0 <= insn_opcode st < 2 ^ 64 ->
  op_agrees (Some (b, q)) (insn_opcode st) (ip_load_store env expression c q st).
Proof.
  intros Hw. unfold ip_load_store.
  destruct (implicit_zero_offset _); [by apply no_write_agrees|by apply ip_alu_op_agrees].
Qed.

Lemma ip_macro_const_agrees b q st :
  0 <= insn_opcode st < 2 ^ 64 ->
  op_agrees (Some (b, q)) (insn_opcode st) (ip_macro_const env expression q st).
Proof.
  intros Hw. unfold ip_macro_const. destruct (_ && _); [done|].
  apply no_write_agrees; [|done]. apply (opcode_full expression st).
Qed.

Lemma ip_macro_symbol_agrees k b q st :
  0 <= insn_opcode st < 2 ^ 64 ->
  op_agrees (Some (b, q)) (insn_opcode st) (ip_macro_symbol env expression k q st).
Proof.
  intros Hw. unfold ip_macro_symbol. destruct (_ && _); [done|].
  apply no_write_agrees; [|done]. destruct (X_op_is _ O_symbol); apply (opcode_full expression st).
Qed.

Lemma ip_call_agrees b q st :
  0 <= insn_opcode st < 2 ^ 64 ->
  op_agrees (Some (b, q)) (insn_opcode st)
    (ip_operand env expression strtof insn ("c"%char :: q) st).
Proof.
  intros Hw. cbn [ip_operand]. apply no_write_agrees; [|done].
  destruct (bool_decide _); apply (opcode_full expression st).
Qed.

Ltac operand_step :=
  first [ agree_step
        | match goal with
          | |- op_agrees _ _ (ip_gpr _ _ _ _) => apply ip_gpr_agrees; [solve [auto with ip_puts]|assumption]
          | |- op_agrees _ _ (ip_fpr _ _ _ _) => apply ip_fpr_agrees; [solve [auto with ip_puts]|assumption]
          | |- op_agrees _ _ (ip_char _ _ _) => apply ip_char_agrees; assumption
          | |- op_agrees _ _ (ip_name _ _ _ _) => apply ip_name_agrees; assumption
          | |- op_agrees _ _ (ip_csr _ _ _ _ _) => apply ip_csr_agrees; assumption
          | |- op_agrees _ _ (ip_upper _ _ _) => apply ip_upper_agrees; assumption
          | |- op_agrees _ ?w (ip_alu_op _ _ _ _ ?s) =>
              change w with (insn_opcode s); apply ip_alu_op_agrees; assumption
          | |- op_agrees _ ?w (ip_load_store _ _ _ _ ?s) =>
              change w with (insn_opcode s); apply ip_load_store_agrees; assumption
          | |- op_agrees _ _ (ip_macro_const _ _ _ _) => apply ip_macro_const_agrees; assumption
          | |- op_agrees _ _ (ip_macro_symbol _ _ _ _ _) => apply ip_macro_symbol_agrees; assumption
          | |- op_agrees _ _ (ip_rvc _ _ _ _) => apply ip_rvc_agrees; assumption
          | |- op_agrees _ _ (ip_rvv _ _ _ _ _) => apply ip_rvv_agrees; assumption
          | |- op_agrees _ _ (ip_w _ _ _ _ _ _) => apply ip_w_agrees; assumption
          | |- op_agrees _ _ (ip_x _ _ _ _ _) => apply ip_x_agrees; assumption
          end ].

(** What the parser does with an operand stays within [ip_use]. *)
Lemma ip_operand_agrees p st :
  p <> [] -> 0 <= insn_opcode st < 2 ^ 64 ->
  op_agrees (ip_use p) (insn_opcode st) (ip_operand env expression strtof insn p st).
Proof.
  intros Hp Hw. destruct p as [|c q]; [done|]. clear Hp.
  destruct c as [[] [] [] [] [] [] [] []];
    first [ apply ip_rvv_agrees; assumption | apply ip_call_agrees; assumption
          | cbn [ip_use validate_operand ip_operand]; try operand_step ].
  all: (destruct q as [|d q]; [done|]);
    destruct d as [[] [] [] [] [] [] [] []]; operand_step.
Qed.

End letters.

(** ** The operand loop *)

(** The bits all operands of a string may write. *)
Fixpoint ip_uses (fuel : nat) (p : list ascii) : option Z :=
  match p with
  | [] => Some 0
  | _ :: _ =>
      match fuel with
      | O => None
      | S fuel' =>
          match ip_use p with
          | Some (b, q) => Z.lor b <$> ip_uses fuel' q
          | None => None
          end
      end
  end.

Section loop.

Context (env : as_env).
Context (expression : bool -> list ascii -> expressionS * list ascii * list diag).
Context (strtof : list ascii -> bool * option (Z * Z) * list ascii).
Context (insn : riscv_opcode).

(** Known letters are known to the parser, and the operands write the bits
    of their letters and no others. *)
Lemma ip_operands_writes fuel p st b :
  ip_uses fuel p = Some b -> 0 <= insn_opcode st < 2 ^ 64 ->
  match ip_operands env expression strtof insn fuel p st with
  | Continue _ st' => writes b (insn_opcode st) (insn_opcode st')
  | Unknown => False
  | Break _ | Overrun => True
  end.
Proof.
  revert p st b. induction fuel as [|fuel IH]; intros [|c p] st b Hu Hw;
    cbn [ip_operands ip_uses] in *; try done.
  pose proof (ip_operand_agrees env expression strtof insn (c :: p)
                (set_asarg st (skip_blanks (asarg st))) ltac:(done) Hw) as Ha.
  destruct (ip_operand _ _ _ _ _ _) as [r st1|st1| |]; cbn [op_agrees] in Ha; try done.
  2: by rewrite Ha in Hu.
  destruct Ha as (b1 & E1 & H1). rewrite E1 in Hu.
  destruct (ip_uses fuel r) as [b2|] eqn:E2; [|done]. injection Hu as <-.
  specialize (IH r st1 b2 E2 (proj1 H1)).
  destruct (ip_operands _ _ _ _ _ _ _) as [r' st2|st2| |]; try done. by eapply writes_trans.
Qed.

End loop.
