(* ===== verification/IpSpec.v ===== *)
(** * Properties of the operand parser (gas/config/tc-riscv.c)

    What holds of an instruction [riscv_ip] has assembled, that the shipped
    tables never reach its internal error, and that the disassembler recognises
    what it assembled. *)
From Stdlib Require Import ZArith Bool Ascii Lia.
From stdpp Require Import base list strings gmap.
From S2P Require Import Prelude OpcodeH RiscvH Immediates Words OpcodeMatch OpcodeTable Validate.
From S2P Require Import SubsetTables Subset CsrTable Disasm DisasmSpec.
From S2P Require Import Howto Regs Expr Ip IpFrame.

#[local] Open Scope Z_scope.
#[local] Open Scope c_scope.

(** ** The shipped tables *)

(** Every letter is known; for entries that are not macros, the operands write
    inside the instruction, which has no other bits (the entry unimp, without
    operands, has them), the match function tests the fixed bits, and these
    decide the length. *)
Definition entry_ok (op : riscv_opcode) : bool :=
  let len := riscv_insn_length (match_ op) in
  match ip_uses (String.length (args op)) (chars (args op)) with
  | None => false
  | Some b =>
      (0 <=? match_ op) && (match_ op <? 2 ^ 64)
      && ((pinfo op =? INSN_MACRO)
          || ((Z.ldiff (b .| match_ op) (Z.ones (8 * len)) =? 0)
              || String.eqb (name op) "unimp" && (match_ op =? unimp_match) && (b =? 0))
             && match match_func op with
                | Some f => negb (bool_decide (f = MF_match_rs1_nonzero))
                | None => false
                end
             && (negb ((match_ op .& 0x3) =? 0x3) && ((mask op .& 0x3) =? 0x3)
                 || (len =? 4) && ((mask op .& 0x1f) =? 0x1f)))
  end.

Lemma riscv_opcodes_ok : forallb entry_ok riscv_opcodes = true.
Proof. vm_compute. reflexivity. Qed.

(** The letters of the [.insn] formats. *)
Definition letters_ok (op : riscv_opcode) : bool :=
  match ip_uses (String.length (args op)) (chars (args op)) with
  | Some _ => (0 <=? match_ op) && (match_ op <? 2 ^ 64)
  | None => false
  end.

Lemma entry_ok_letters op : entry_ok op = true -> letters_ok op = true.
Proof.
  unfold entry_ok, letters_ok. destruct (ip_uses _ _); [|done]. intros H. breflect.
  by apply andb_true_iff; split; [apply Z.leb_le|apply Z.ltb_lt].
Qed.

Lemma riscv_insn_types_letters : forallb letters_ok riscv_insn_types = true.
Proof. vm_compute. reflexivity. Qed.

(** ** Assembled instructions *)

Section entries.

Context (env : as_env).
Context (expression : bool -> list ascii -> expressionS * list ascii * list diag).
Context (strtof : list ascii -> bool * option (Z * Z) * list ascii).

Abbreviation operands op := (ip_operands env expression strtof op (String.length (args op)) (chars (args op))).

(** The entry that was chosen took all operands and passed the final checks. *)
Lemma ip_entries_ok start msg me insns st op st' :
  ip_entries env expression strtof start msg me insns st = IP_ok op st' ->
  In op insns /\ entry_enabled env op = true /\
  exists st0 q st1, operands op (create_insn op start st0) = Continue q st1 /\
    ip_end env op st1 = (st', None).
Proof.
  revert msg me st. induction insns as [|i insns IH]; intros msg me st; cbn [ip_entries]; [done|].
  destruct (negb (xlen_requirement i =? 0) && _) eqn:Ex;
    [|destruct (riscv_multi_subset_supports (riscv_rps_as env) (insn_class i)) eqn:Es; cbn [negb]].
  1,3: intros (H1 & H2)%IH; split; [by right|done].
  destruct (ip_operands _ _ _ i _ _ _) as [q st1|st1| |] eqn:Eo; try done.
  2: { intros (H1 & H2)%IH. split; [by right|done]. }
  destruct (ip_end env i st1) as [st2 [m|]] eqn:Ee.
  { destruct (insn_with_csr st1 && _); [done|]. intros (H1 & H2)%IH. split; [by right|done]. }
  intros [= <- <-]. split; [by left|]. split; [|eauto].
  unfold entry_enabled. by rewrite Ex, Es.
Qed.

(** The [.insn] and the instruction tables never reach the internal error. *)
Lemma ip_entries_not_fatal start msg me insns st :
  (forall op, In op insns -> letters_ok op = true) ->
  forall op, ip_entries env expression strtof start msg me insns st <> IP_fatal op.
Proof.
  revert msg me st. induction insns as [|i insns IH]; intros msg me st Hl op; cbn [ip_entries]; [done|].
  assert (IH' : forall m e s, ip_entries env expression strtof start m e insns s <> IP_fatal op).
  { intros m e s. apply IH. intros o Ho. apply Hl. by right. }
  destruct (_ && _); [done|]. destruct (riscv_multi_subset_supports _ _); cbn [negb]; [|done].
  specialize (Hl i (or_introl eq_refl)). unfold letters_ok in Hl.
  destruct (ip_uses _ _) as [b|] eqn:Eu; [|done]. breflect.
  pose proof (ip_operands_writes env expression strtof i _ _ (create_insn i start st) b Eu) as Hw.
  destruct (ip_operands _ _ _ i _ _ _) as [q st1|st1| |]; try done.
  - destruct (ip_end env i st1) as [st2 [m|]]; [by destruct (insn_with_csr st1 && _)|done].
  - exfalso. apply Hw. done.
Qed.

Lemma ip_end_ok op st st' :
  ip_end env op st = (st', None) ->
  insn_opcode st' = insn_opcode st /\ asarg st' = [] /\
  (forall f, match_func op = Some f -> call_match_func f op (insn_opcode st) = true) /\
  (pinfo op <> INSN_MACRO -> mask op <> 0 -> riscv_insn_length (match_ op) = 2 ->
   rvc (riscv_opts env) = true).
Proof.
  unfold ip_end.
  destruct (match match_func op with Some _ => _ | None => _ end) eqn:Em; [done|].
  assert (Hf : forall f, match_func op = Some f -> call_match_func f op (insn_opcode st) = true).
  { intros f E. rewrite E in Em. by apply negb_false_iff in Em. }
  destruct (pinfo op =? INSN_MACRO) eqn:Ep.
  - destruct (asarg st) as [|c a] eqn:Ea; [|done]. intros [= <-]. split_and!; try done.
    apply Z.eqb_eq in Ep. done.
  - destruct (_ && negb (rvc _)) eqn:Er; [done|].
    set (st1 := if riscv_is_priv_insn _ then _ else _).
    set (st2 := if insn_with_csr st1 && _ && _ then _ else _).
    assert (E2 : insn_opcode st2 = insn_opcode st).
    { subst st2 st1. by repeat case_match. }
    destruct (_ && negb (supports env "zve64x")); [done|].
    destruct (asarg st2) as [|c a] eqn:Ea; [|done]. intros [= <-]. split_and!; try done.
    intros _ Hm Hl. apply Z.eqb_neq in Hm. rewrite Hm, andb_false_r in Er.
    rewrite Hl in Er. simpl in Er. by apply negb_false_iff in Er.
Qed.

End entries.

Lemma length_agrees op w :
  (match_ op .& 0x3 <> 0x3 /\ mask op .& 0x3 = 0x3
   \/ riscv_insn_length (match_ op) = 4 /\ mask op .& 0x1f = 0x1f) ->
  match_opcode op w = true -> riscv_insn_length w = riscv_insn_length (match_ op).
Proof.
  intros [[Hl Hm]|[Hl Hm]] Ho.
  - rewrite (length_rvc (match_ op) Hl). apply length_rvc. by rewrite (match_opcode_bits op w 0x3 Ho Hm).
  - rewrite Hl. apply length_4_iff. apply length_4_iff in Hl as [H3 H1f].
    assert (Hm3 : mask op .& 0x3 = 0x3).
    { change 0x3 with (0x1f .& 0x3). by rewrite Z.land_assoc, Hm. }
    split; [by rewrite (match_opcode_bits op w 0x3 Ho Hm3)|].
    by rewrite (match_opcode_bits op w 0x1f Ho Hm).
Qed.

Lemma ldiff_ones_range w n : 0 <= n -> 0 <= w -> Z.ldiff w (Z.ones n) = 0 -> w < 2 ^ n.
Proof.
  intros Hn Hw H. rewrite Z.ldiff_ones_r in H by lia. rewrite Z.shiftl_mul_pow2, Z.shiftr_div_pow2 in H by lia.
  pose proof (Z.pow_pos_nonneg 2 n ltac:(lia) Hn).
  assert (w / 2 ^ n = 0) as Hq by nia. apply Z.div_small_iff in Hq; lia.
Qed.

(** Inside [n] bits: what is written over a word of [n] bits stays there. *)
Lemma writes_inside b w w' n :
  0 <= n -> writes b w w' -> Z.ldiff (b .| w) (Z.ones n) = 0 -> 0 <= w' < 2 ^ n.
Proof.
  intros Hn [Hr E] H. split; [lia|]. apply ldiff_ones_range; [done|lia|].
  apply Z.bits_inj'. intros i Hi. rewrite Z.bits_0, Z.ldiff_spec.
  apply (f_equal (fun x => Z.testbit x i)) in E, H. rewrite !Z.ldiff_spec in E.
  rewrite Z.ldiff_spec, Z.lor_spec, Z.bits_0 in H.
  destruct (Z.testbit w i), (Z.testbit w' i), (Z.testbit b i), (Z.testbit (Z.ones n) i); done.
Qed.

(** What is known of an assembled instruction that is not a macro. *)
Record assembled (env : as_env) (op : riscv_opcode) (st : ip_state) : Prop := {
  asm_enabled : entry_enabled env op = true;
  asm_all_text : asarg st = [];
  asm_match : exists f, match_func op = Some f /\ call_match_func f op (insn_opcode st) = true;
  asm_fixed_bits : insn_opcode st .& mask op = match_ op .& mask op;
  asm_length : riscv_insn_length (insn_opcode st) = riscv_insn_length (match_ op);
  asm_width : 0 <= insn_opcode st < 2 ^ (8 * riscv_insn_length (insn_opcode st))
              \/ name op = "unimp"%string /\ insn_opcode st = unimp_match;
  asm_rvc : riscv_insn_length (insn_opcode st) = 2 -> rvc (riscv_opts env) = true;
}.

Lemma entry_assembled env expression strtof op start sa q st1 st :
  entry_ok op = true -> pinfo op <> INSN_MACRO -> entry_enabled env op = true ->
  ip_operands env expression strtof op (String.length (args op)) (chars (args op))
    (create_insn op start sa) = Continue q st1 ->
  ip_end env op st1 = (st, None) -> assembled env op st.
Proof.
  intros Hok Hp Hen Ho He. unfold entry_ok in Hok.
  destruct (ip_uses (String.length (args op)) (chars (args op))) as [b|] eqn:Eu; [|discriminate Hok].
  apply andb_true_iff in Hok as [Hok1 Hok2].
  assert (Hr : 0 <= insn_opcode (create_insn op start sa) < 2 ^ 64)
    by (cbn [create_insn insn_opcode]; breflect; lia). clear Hok1.
  pose proof (ip_operands_writes env expression strtof op _ _ (create_insn op start sa) b Eu Hr) as Hw.
  rewrite Ho in Hw. cbn [create_insn insn_opcode] in Hw.
  destruct (ip_end_ok env op st1 st He) as (Eo & Ea & Hf & Hrvc).
  apply orb_true_iff in Hok2 as [Hok2|Hok2]; breflect; [destruct (Hp Hok2)|].
  destruct (match_func op) as [f|] eqn:Ef; [|discriminate].
  match goal with H : negb _ = true |- _ => apply negb_true_iff, bool_decide_eq_false in H end.
  specialize (Hf f eq_refl).
  assert (Hm : match_opcode op (insn_opcode st1) = true) by (by apply (match_func_opcode f)).
  assert (Hlen : match_ op .& 0x3 <> 0x3 /\ mask op .& 0x3 = 0x3
    \/ riscv_insn_length (match_ op) = 4 /\ mask op .& 0x1f = 0x1f)
    by (match goal with H : _ \/ _ |- _ => destruct H as [H|H]; breflect; [by left|by right] end).
  assert (Hl : riscv_insn_length (insn_opcode st1) = riscv_insn_length (match_ op))
    by (by apply length_agrees).
  pose proof (insn_length_pos (match_ op)).
  split; rewrite ?Eo, ?Hl; try done.
  - by exists f.
  - apply (match_opcode_bits op); [done|apply Z.land_diag].
  - match goal with H : (Z.ldiff _ _ =? 0) = true \/ _ |- _ => destruct H as [Hb|Hb] end.
    + apply Z.eqb_eq in Hb. left. apply (writes_inside b (match_ op)); [lia|done..].
    + apply andb_true_iff in Hb as [Hb Hb0]. apply andb_true_iff in Hb as [Hn Hb].
      apply String.eqb_eq in Hn. apply Z.eqb_eq in Hb, Hb0. right. split; [done|].
      destruct Hw as [_ Hw]. rewrite Hb0, !Z.ldiff_0_r, Hb in Hw. done.
  - intros Hl2. apply Hrvc; [done| |done]. intros Hm0. rewrite Hm0 in Hlen. by destruct Hlen as [[]|[]].
Qed.

Lemma riscv_ip_assembled env expression strtof str st0 op st :
  riscv_ip env expression strtof op_hash str st0 = IP_ok op st ->
  pinfo op <> INSN_MACRO ->
  In op riscv_opcodes /\ name op = unchars (split_name str).1 /\ assembled env op st.
Proof.
  unfold riscv_ip. destruct (split_name str) as [nm start]. cbn [fst]. intros H Hp.
  apply ip_entries_ok in H as (Hin & Hen & sa & q & st1 & Ho & He).
  destruct (candidates_in _ _ _ _ _ op_hash_ok Hin) as [Hin' Hn]. split; [exact Hin'|]. split; [exact Hn|].
  pose proof riscv_opcodes_ok as Hok. rewrite forallb_forall in Hok.
  exact (entry_assembled env expression strtof op start sa q st1 st (Hok op Hin') Hp Hen Ho He).
Qed.

(** ** A concrete expression parser

    Signed decimal numbers and symbols, for the examples below. *)
Definition decimal_expression (probing : bool) (s : list ascii)
  : expressionS * list ascii * list diag :=
  let '(n, e) := strtol10 s in
  if decide (e = s)
  then let '(nm, e) := end_of_name s in (mk_expr O_symbol 0 (Some (unchars nm)), e, [])
  else (mk_expr O_constant n None, e, []).

Definition no_strtof (s : list ascii) : bool * option (Z * Z) * list ascii := (true, None, s).

Definition rv64_rps : riscv_parse_subset_t :=
  (riscv_parse_subset (mk_rps (mk_subset_list [] None None) [] 64 ISA_SPEC_CLASS_20191213 true)
     (Some "rv64gcv_xtheadmempair"%string)).1.
Definition rv64_env : as_env :=
  mk_as_env rv64_rps 64 (mk_opts false true true true true) PRIV_SPEC_CLASS_1P11 64.
Definition start_state : ip_state :=
  mk_ip [] 0 (mk_expr O_absent 0 None) None percent_op_null [] false false [].

Abbreviation assemble s :=
  (riscv_ip rv64_env decimal_expression no_strtof op_hash (chars s) start_state).

(** The word, for the examples. *)
Definition word_of (o : ip_outcome) : option Z :=
  match o with IP_ok op st => if pinfo op =? INSN_MACRO then None else Some (insn_opcode st) | _ => None end.

Lemma word_of_ok o w :
  word_of o = Some w ->
  exists op st, o = IP_ok op st /\ pinfo op <> INSN_MACRO /\ insn_opcode st = w.
Proof.
  destruct o as [op st| | |]; try done. simpl. destruct (Z.eqb_spec (pinfo op) INSN_MACRO); [done|].
  intros [= <-]. by exists op, st.
Qed.

(** C1: whatever the general expression parser does, an instruction that
    [riscv_ip] assembles (and that is not a macro) is well typed: its entry is
    one of the mnemonic, enabled by xlen and the subset list; its match
    function accepts the word, so the fixed bits are those of the entry; the
    word has the length the entry's match value has and no bit beyond it, except
    for unimp, whose match value is sign-extended to 64 bits; it is compressed
    only if compression is on; and all of the text was used. *)
Theorem riscv_ip_encodes (env : as_env)
    (expression : bool -> list ascii -> expressionS * list ascii * list diag)
    (strtof : list ascii -> bool * option (Z * Z) * list ascii)
    (str : list ascii) (st0 : ip_state) (op : riscv_opcode) (st : ip_state) :
  riscv_ip env expression strtof op_hash str st0 = IP_ok op st ->
  pinfo op <> INSN_MACRO ->
  In op riscv_opcodes /\ name op = unchars (split_name str).1 /\ assembled env op st.
Proof. apply riscv_ip_assembled. Qed.

Lemma riscv_ip_encodes_witness :
  exists op st, assemble "lw a0, 4(sp)" = IP_ok op st /\ insn_opcode st = 0x4512 /\
    assembled rv64_env op st.
Proof.
  assert (Hw : word_of (assemble "lw a0, 4(sp)") = Some 0x4512) by (vm_compute; reflexivity).
  apply word_of_ok in Hw as (op & st & E & Hp & Hw). exists op, st.
  split; [exact E|]. split; [exact Hw|].
  apply (riscv_ip_encodes rv64_env decimal_expression no_strtof (chars "lw a0, 4(sp)") start_state op st E Hp).
Defined.

(** C33: what the assembler assembles, the disassembler recognises: under the
    same subset list and xlen, and with aliases on, it finds an entry for the
    word, and the first one it accepts is the assembled entry or comes before
    it in the table. *)
Theorem assembled_word_is_recognised (env : as_env)
    (expression : bool -> list ascii -> expressionS * list ascii * list diag)
    (strtof : list ascii -> bool * option (Z * Z) * list ascii)
    (str : list ascii) (st0 : ip_state) (op : riscv_opcode) (st : ip_state) :
  riscv_ip env expression strtof op_hash str st0 = IP_ok op st ->
  pinfo op <> INSN_MACRO ->
  exists op' l1 l2,
    find_opcode (riscv_rps_as env) (xlen env) false (insn_opcode st) = Some op' /\
    riscv_opcodes = l1 ++ op' :: l2 /\ In op (op' :: l2).
Proof.
  intros H Hp. apply riscv_ip_assembled in H as (Hin & _ & Ha); [|exact Hp].
  rewrite find_opcode_linear.
  assert (Hacc : dis_accepts (riscv_rps_as env) (xlen env) false (insn_opcode st) op = true).
  { destruct (asm_match _ _ _ Ha) as (f & Ef & Hf). pose proof (asm_enabled _ _ _ Ha) as He.
    unfold entry_enabled in He. apply andb_true_iff in He as [Hx Hs].
    unfold dis_accepts. apply Z.eqb_neq in Hp. rewrite Hp, Ef, Hf, Hs. cbn [negb andb].
    by rewrite (Z.eqb_sym (xlen_requirement op) (xlen env)), Hx. }
  destruct (List.find (dis_accepts (riscv_rps_as env) (xlen env) false (insn_opcode st)) riscv_opcodes)
    as [op'|] eqn:Ef.
  - apply find_split in Ef as (l1 & l2 & El & _ & Hno). exists op', l1, l2.
    split; [reflexivity|]. split; [exact El|]. rewrite El in Hin.
    apply in_app_or in Hin as [Hin|Hin]; [|exact Hin].
    rewrite (Hno op Hin) in Hacc. discriminate Hacc.
  - pose proof (find_none _ _ Ef op Hin) as E. rewrite E in Hacc. discriminate Hacc.
Qed.

Lemma assembled_word_is_recognised_witness :
  exists op', find_opcode (riscv_rps_as rv64_env) (xlen rv64_env) false 0x4512 = Some op'.
Proof.
  assert (Hw : word_of (assemble "lw a0, 4(sp)") = Some 0x4512) by (vm_compute; reflexivity).
  apply word_of_ok in Hw as (op & st & E & Hp & Hw). rewrite <- Hw.
  destruct (assembled_word_is_recognised rv64_env decimal_expression no_strtof
              (chars "lw a0, 4(sp)") start_state op st E Hp) as (op' & _ & _ & H & _).
  exists op'. exact H.
Defined.

(** The internal error for an unknown operand letter is unreachable: with
    the shipped tables, neither [riscv_ip] on an instruction nor on a [.insn]
    format ever reports it, whatever the text, the options and the expression
    parser are. *)
Theorem riscv_ip_never_fatal (env : as_env)
    (expression : bool -> list ascii -> expressionS * list ascii * list diag)
    (strtof : list ascii -> bool * option (Z * Z) * list ascii)
    (str : list ascii) (st0 : ip_state) (op : riscv_opcode) :
  riscv_ip env expression strtof op_hash str st0 <> IP_fatal op /\
  riscv_ip env expression strtof insn_type_hash str st0 <> IP_fatal op.
Proof.
  unfold riscv_ip. destruct (split_name str) as [nm start].
  split; apply ip_entries_not_fatal; intros o Ho.
  - apply (candidates_in _ _ _ _ _ op_hash_ok) in Ho as [Ho _].
    pose proof riscv_opcodes_ok as Hok. rewrite forallb_forall in Hok.
    apply entry_ok_letters, (Hok o Ho).
  - apply (candidates_in _ _ _ _ _ insn_type_hash_ok) in Ho as [Ho _].
    pose proof riscv_insn_types_letters as Hok. rewrite forallb_forall in Hok. exact (Hok o Ho).
Qed.

(** A literal operand is skipped by its own length even when the text is
    shorter: for the T-Head paired load without its last operand the parser
    moves past the terminating null of the line. *)
Theorem literal_operand_overruns :
  exists op,
    riscv_ip rv64_env decimal_expression no_strtof op_hash (chars "th.lwd a0,a1,(a2),1,") start_state
    = IP_overrun op /\ args op = "d,t,(s),Xtu2@25,Xtl3"%string.
Proof.
  assert (H : match assemble "th.lwd a0,a1,(a2),1," with
              | IP_overrun op => String.eqb (args op) "d,t,(s),Xtu2@25,Xtl3"
              | _ => false
              end = true) by (vm_compute; reflexivity).
  destruct (assemble "th.lwd a0,a1,(a2),1,") as [| | |op]; try discriminate H.
  exists op. split; [reflexivity|]. by apply String.eqb_eq.
Qed.
