(* ===== verification/IpRoundTrip.v ===== *)
(** * Assembling what was disassembled (opcodes/riscv-dis.c, gas/config/tc-riscv.c)

    For the entries of the opcode table whose operands are registers, masks,
    rounding modes and the empty offset of atomic and vector memory accesses,
    the text the disassembler prints for the operands of a word is read back by
    the operand parser as the same word. *)
From Stdlib Require Import ZArith Bool Ascii Lia.
From stdpp Require Import base list strings gmap.
From S2P Require Import Prelude OpcodeH RiscvH Immediates Words OpcodeMatch OpcodeTable Validate.
From S2P Require Import SubsetTables Subset CsrTable Disasm DisasmSpec.
From S2P Require Import Howto Regs Expr Ip IpFrame IpSpec.

#[local] Open Scope Z_scope.
#[local] Open Scope c_scope.

(** ** Operand strings covered *)

(** After a register: the end, a punctuation character, an empty offset before
    a bracket, or an optional mask at the end. *)
Definition sep_next (p : list ascii) : bool :=
  match p with
  | [] | ","%char :: _ | "("%char :: _ | ")"%char :: _ => true
  | "V"%char :: "m"%char :: [] => true
  | _ => false
  end.

Definition covers (b : Z) (f : op_field) : bool := (b .& USE_BITS f) =? USE_BITS f.

(** The operand strings covered: the bits of the word known at the end, [b]
    being the ones known before.  A register that must equal an earlier one is
    covered if that one is. *)
Fixpoint direct (b : Z) (p : list ascii) : option Z :=
  let reg f q := if sep_next q then direct (b .| USE_BITS f) q else None in
  let check (ok : bool) q := if ok && sep_next q then direct b q else None in
  match p with
  | [] => Some b
  | ","%char :: q | "("%char :: q | ")"%char :: q => direct b q
  | "0"%char :: ("("%char :: q') as q =>
      if existsb (Ascii.eqb "("%char) q' then None else direct b q
  | "d"%char :: q | "D"%char :: q => reg FLD_RD q
  | "s"%char :: q | "S"%char :: q => reg FLD_RS1 q
  | "t"%char :: q | "T"%char :: q => reg FLD_RS2 q
  | "R"%char :: q => reg FLD_RS3 q
  | "m"%char :: [] => Some (b .| USE_BITS FLD_RM)
  | "C"%char :: "s"%char :: q => reg FLD_CRS1S q
  | "C"%char :: "t"%char :: q | "C"%char :: "D"%char :: q => reg FLD_CRS2S q
  | "C"%char :: "V"%char :: q | "C"%char :: "T"%char :: q => reg FLD_CRS2 q
  | "C"%char :: "w"%char :: q => check (covers b FLD_CRS1S) q
  | "C"%char :: "x"%char :: q => check (covers b FLD_CRS2S) q
  | "C"%char :: "U"%char :: q => check (covers b FLD_RD) q
  | "C"%char :: "c"%char :: q => check true q
  | "V"%char :: "d"%char :: q => reg FLD_VD q
  | "V"%char :: "s"%char :: q => reg FLD_VS1 q
  | "V"%char :: "t"%char :: q => reg FLD_VS2 q
  | "V"%char :: "0"%char :: q => check true q
  | "V"%char :: "m"%char :: [] => Some (b .| USE_BITS FLD_VMASK)
  | _ => None
  end.

(** An entry is covered if the fixed bits and its operands are the whole word. *)
Definition direct_entry (op : riscv_opcode) : bool :=
  negb (pinfo op =? INSN_MACRO)
  && match direct (mask op) (chars (args op)) with
     | Some b => b =? Z.ones (8 * riscv_insn_length (match_ op))
     | None => false
     end.

(** ** Text *)

(** What is printed, when it is names and punctuation only. *)
Fixpoint text_of (ps : list piece) : option (list ascii) :=
  match ps with
  | [] => Some []
  | P_text s :: ps' => app (chars s) <$> text_of ps'
  | _ :: _ => None
  end.

Lemma text_of_app ps ps' t t' :
  text_of ps = Some t -> text_of ps' = Some t' -> text_of (ps ++ ps') = Some (t ++ t').
Proof.
  revert t. induction ps as [|[s| | | | |] ps IH]; intros t; simpl; try done.
  - by intros [= <-].
  - destruct (text_of ps) as [t1|]; [|done]. intros [= <-] H. rewrite (IH t1) by done.
    simpl. by rewrite app_assoc.
Qed.

(** The text after a register. *)
Definition sep (t : list ascii) : bool :=
  match t with
  | [] => true
  | c :: _ => existsb (Ascii.eqb c) [","%char; "("%char; ")"%char]
  end.

Lemma sep_cases t :
  sep t = true -> t = [] \/ exists c t', t = c :: t' /\ In c [","%char; "("%char; ")"%char].
Proof.
  destruct t as [|c t]; [by left|]. intros H. right. exists c, t. split; [done|].
  unfold sep in H. apply existsb_exists in H as (d & Hd & E). apply Ascii.eqb_eq in E. by subst.
Qed.

Definition name_chars (nm : list ascii) : bool :=
  match nm with
  | c :: nm' => is_name_beginner c && forallb is_part_of_name nm'
  | [] => false
  end.

Lemma part_of_name_app nm t :
  forallb is_part_of_name nm = true -> sep t = true -> part_of_name (nm ++ t) = (nm, t).
Proof.
  intros Hn Hs. induction nm as [|c nm IH].
  - destruct (sep_cases t Hs) as [->|(c & t' & -> & Hc)]; [done|].
    cbn [In] in Hc. by destruct Hc as [<-|[<-|[<-|[]]]].
  - cbn [forallb app part_of_name] in *. apply andb_true_iff in Hn as [Hc Hn].
    rewrite Hc, IH by done. done.
Qed.

Lemma end_of_name_app nm t :
  name_chars nm = true -> sep t = true -> end_of_name (nm ++ t) = (nm, t).
Proof.
  destruct nm as [|c nm]; [done|]. cbn [name_chars app end_of_name]. intros H Hs.
  apply andb_true_iff in H as [Hc Hn]. by rewrite Hc, part_of_name_app.
Qed.

(** ** Register names *)

Definition register_files : list (reg_class * list string) :=
  [ (RCLASS_GPR, riscv_gpr_names_numeric); (RCLASS_GPR, riscv_gpr_names_abi);
    (RCLASS_FPR, riscv_fpr_names_numeric); (RCLASS_FPR, riscv_fpr_names_abi);
    (RCLASS_VECR, riscv_vecr_names_numeric); (RCLASS_VECM, riscv_vecm_names_numeric) ].

Definition register_file_ok (f : reg_class * list string) : bool :=
  forallb (fun i => match (snd f) !! i with
                    | Some nm => name_chars (chars nm)
                                 && bool_decide (reg_names_hash !! nm
                                                 = Some (ENCODE_REG_HASH (fst f) (Z.of_nat i)))
                    | None => false
                    end) (seq 0 (length (snd f))).

Lemma register_files_ok : forallb register_file_ok register_files = true.
Proof. vm_compute. reflexivity. Qed.

#[local] Opaque reg_names_hash.

Lemma register_name cls names i nm :
  In (cls, names) register_files -> names !! i = Some nm ->
  name_chars (chars nm) = true /\ reg_names_hash !! nm = Some (ENCODE_REG_HASH cls (Z.of_nat i)).
Proof.
  intros Hf Hi. pose proof register_files_ok as Hok. rewrite forallb_forall in Hok.
  specialize (Hok _ Hf). unfold register_file_ok in Hok. cbn [fst snd] in Hok.
  rewrite forallb_forall in Hok.
  assert (Hl : In i (seq 0 (length names))) by (apply lookup_lt_Some in Hi; apply in_seq; lia).
  specialize (Hok i Hl). rewrite Hi in Hok. apply andb_true_iff in Hok as [H1 H2].
  split; [exact H1|exact (bool_decide_eq_true_1 _ H2)].
Qed.

Lemma decode_encode cls n :
  cls <> RCLASS_CSR -> DECODE_REG_CLASS (ENCODE_REG_HASH cls n) = class_num cls /\
                      DECODE_REG_NUM (ENCODE_REG_HASH cls n) = n.
Proof.
  intros Hc. unfold DECODE_REG_CLASS, DECODE_REG_NUM, ENCODE_REG_HASH, RCLASS_MAX.
  replace (n * 4 + class_num cls + 1 - 1) with (class_num cls + n * 4) by lia.
  rewrite Z.mod_add, Z.div_add by lia. destruct cls; simpl; lia || done.
Qed.

(** A register name in front of a separator is looked up as its number. *)
Lemma reg_lookup_name env cls names i nm t :
  supports env "e" = false -> In (cls, names) register_files -> names !! i = Some nm ->
  sep t = true -> reg_lookup env (chars nm ++ t) cls = (Some (Z.of_nat i, t), []).
Proof.
  intros He Hf Hi Hs. destruct (register_name cls names i nm Hf Hi) as [Hn Hh].
  assert (Hc : cls <> RCLASS_CSR)
    by (unfold register_files in Hf; cbn [In] in Hf; intuition congruence).
  destruct (decode_encode cls (Z.of_nat i) Hc) as [Dc Dn].
  unfold reg_lookup. rewrite end_of_name_app, unchars_chars by done.
  unfold reg_lookup_internal. rewrite decide_False, Hh, Dc, Dn, Z.eqb_refl, He by done. done.
Qed.

(** ** Fields *)

(** [x] has the bits [b] of [w]. *)
Definition agree (w b x : Z) : Prop := x .& b = w .& b.

Lemma agree_lor w a b x : agree w a x -> agree w b x -> agree w (a .| b) x.
Proof. unfold agree. rewrite !Z.land_lor_distr_r. by intros -> ->. Qed.

Lemma agree_writes w b c x x' : agree w b x -> writes c x x' -> agree w c x' -> agree w (b .| c) x'.
Proof.
  intros Ha [_ E] Hc. unfold agree in *. apply Z.bits_inj'. intros i Hi.
  apply (f_equal (fun z => Z.testbit z i)) in Ha, E, Hc.
  rewrite !Z.land_spec in Ha, Hc. rewrite !Z.ldiff_spec in E. rewrite !Z.land_spec, !Z.lor_spec.
  destruct (Z.testbit w i), (Z.testbit x i), (Z.testbit x' i), (Z.testbit b i), (Z.testbit c i); done.
Qed.

Definition field_mask_ok (f : op_field) : bool :=
  (0 <=? OP_SH f) && (OP_SH f <? 32) && (OP_MASK f =? Z.ones (Z.log2 (OP_MASK f + 1)))
  && (1 <=? OP_MASK f) && (OP_MASK f <? 2 ^ 12).

Lemma field_masks f : field_mask_ok f = true.
Proof. by destruct f. Qed.

Lemma extract_range f w : 0 <= EXTRACT_OPERAND f w <= OP_MASK f.
Proof.
  pose proof (field_masks f) as H. unfold field_mask_ok in H. breflect.
  unfold EXTRACT_OPERAND, EXTRACT_BITS.
  assert (R : 0 <= (w >> OP_SH f) .& OP_MASK f <= OP_MASK f)
    by (split; [apply Z.land_nonneg; lia|apply land_le_r; lia]).
  unfold u32. rewrite Z.mod_small by lia. exact R.
Qed.

(** Inserting the field of [w] makes the bits of the field those of [w]. *)
Lemma agree_insert w f x :
  agree w (USE_BITS f) (INSERT_BITS x (EXTRACT_OPERAND f w) (OP_MASK f) (OP_SH f)).
Proof.
  pose proof (field_masks f) as H. unfold field_mask_ok in H. breflect.
  assert (E : EXTRACT_OPERAND f w = (w >> OP_SH f) .& OP_MASK f).
  { unfold EXTRACT_OPERAND, EXTRACT_BITS, u32. apply Z.mod_small.
    split; [apply Z.land_nonneg; lia|]. apply (Z.le_lt_trans _ (OP_MASK f)); [apply land_le_r|]; lia. }
  rewrite E. unfold agree, INSERT_BITS, USE_BITS. apply Z.bits_inj'. intros i Hi.
  rewrite !Z.land_spec, Z.lor_spec, Z.land_spec, !u64_testbit, Z.lnot_spec, u64_testbit by lia.
  rewrite !Z.shiftl_spec, !Z.land_spec by lia.
  destruct (Z.ltb_spec i 64); cbn [andb]; [|by rewrite !andb_false_r].
  destruct (Z.lt_ge_cases i (OP_SH f)).
  - rewrite (Z.testbit_neg_r (OP_MASK f)) by lia. by rewrite !andb_false_r.
  - rewrite Z.shiftr_spec by lia. replace (i - OP_SH f + OP_SH f) with i by lia.
    destruct (Z.testbit x i), (Z.testbit w i), (Z.testbit (OP_MASK f) (i - OP_SH f)); done.
Qed.

(** A covered field reads the same. *)
Lemma agree_extract w b f x :
  covers b f = true -> agree w b x -> EXTRACT_OPERAND f x = EXTRACT_OPERAND f w.
Proof.
  unfold covers, agree. intros Hc Ha. apply Z.eqb_eq in Hc.
  assert (Hu : x .& USE_BITS f = w .& USE_BITS f) by (by apply (land_low x w b)).
  pose proof (field_masks f) as H. unfold field_mask_ok in H. breflect.
  unfold EXTRACT_OPERAND, EXTRACT_BITS. f_equal. apply Z.bits_inj'. intros i Hi.
  rewrite !Z.land_spec, !Z.shiftr_spec by lia.
  apply (f_equal (fun z => Z.testbit z (i + OP_SH f))) in Hu. unfold USE_BITS in Hu.
  rewrite !Z.land_spec, u64_testbit, Z.shiftl_spec in Hu by lia.
  replace (i + OP_SH f - OP_SH f) with i in Hu by lia.
  destruct (Z.testbit (OP_MASK f) i) eqn:Em; [|by rewrite !andb_false_r].
  assert (i < 12).
  { destruct (Z.lt_ge_cases i 12); [done|]. rewrite (testbit_high (OP_MASK f) 12) in Em by lia. done. }
  rewrite (proj2 (Z.ltb_lt (i + OP_SH f) 64)) in Hu by lia. rewrite !andb_true_r in *. exact Hu.
Qed.

(** ** One operand *)

Section round_trip.

Context (env : as_env) (denv : dis_env).
Context (expression : bool -> list ascii -> expressionS * list ascii * list diag).
Context (strtof : list ascii -> bool * option (Z * Z) * list ascii).
Context (insn : riscv_opcode) (w pc : Z).
Context (He : supports env "e" = false) (Hz : supports env "zfinx" = false).
Context (Hg : In (RCLASS_GPR, riscv_gpr_names denv) register_files).
Context (Hf : In (RCLASS_FPR, riscv_fpr_names denv) register_files).

Definition width (st : ip_state) : Prop := 0 <= insn_opcode st < 2 ^ 64.

(** The letters [p] up to [q] print the text [t], ... *)
Definition prints (p q t : list ascii) : Prop :=
  forall ds, exists ds' ps, print_operand denv w pc p ds = Some (q, ds') /\
    printed_pieces ds' = printed_pieces ds ++ ps /\ text_of ps = Some t.

(** ... and read it back, after which the bits [b'] are known. *)
Definition result (b' : Z) (q t' : list ascii) (r : op_result) : Prop :=
  exists st', r = Continue q st' /\ asarg st' = t' /\ width st' /\ agree w b' (insn_opcode st').

Definition parses (b : Z) (p q t t' : list ascii) (b' : Z) : Prop :=
  forall st, asarg st = t ++ t' -> width st -> agree w b (insn_opcode st) ->
  result b' q t' (ip_operand env expression strtof insn p st).

Lemma prints_name p q names i nm ds1 :
  names !! Z.to_nat i = Some nm ->
  (forall ds, printed_pieces (ds1 ds) = printed_pieces ds) ->
  (forall ds, print_operand denv w pc p ds = Some (q, put (ds1 ds) [name_at names i])) ->
  prints p q (chars nm).
Proof.
  intros Hn H1 Hp ds. eexists _, [P_text nm]. split; [apply Hp|]. unfold name_at. rewrite Hn.
  simpl. rewrite H1, app_nil_r. done.
Qed.

Lemma names_32 cls names i :
  In (cls, names) register_files -> cls <> RCLASS_VECM -> 0 <= i <= 31 ->
  exists nm, names !! Z.to_nat i = Some nm.
Proof.
  intros Hin Hc Hi. assert (Hl : length names = 32%nat).
  { unfold register_files in Hin. cbn [In] in Hin.
    repeat (destruct Hin as [Hin|Hin]; [injection Hin as <- <-; reflexivity || by destruct Hc|]).
    destruct Hin. }
  apply lookup_lt_is_Some_2. lia.
Qed.

Lemma result_insert b f q t' st v :
  width st -> agree w b (insn_opcode st) -> v = EXTRACT_OPERAND f w -> asarg st = t' ->
  result (b .| USE_BITS f) q t' (Continue q (INSERT_OPERAND f st v)).
Proof.
  intros Hw Ha -> Ht. eexists. split; [done|]. split; [done|].
  pose proof (puts_field f st (EXTRACT_OPERAND f w) Hw) as Hp.
  split; [apply Hp|]. apply (agree_writes w b _ (insn_opcode st)); [done|exact Hp|apply agree_insert].
Qed.

Lemma with_reg_name cls names i nm t' st k :
  In (cls, names) register_files -> names !! Z.to_nat i = Some nm -> 0 <= i -> sep t' = true ->
  asarg st = chars nm ++ t' ->
  with_reg env cls st k = k i (set_asarg (report st []) t').
Proof.
  intros Hin Hn Hi Hs Ha. unfold with_reg.
  rewrite Ha, (reg_lookup_name env cls names (Z.to_nat i) nm t' He Hin Hn Hs), Z2Nat.id by lia. done.
Qed.

Lemma reg_into_name cls names i nm ok f v b q t' st :
  In (cls, names) register_files -> names !! Z.to_nat i = Some nm -> 0 <= i ->
  ok i = true -> v i = EXTRACT_OPERAND f w -> sep t' = true ->
  asarg st = chars nm ++ t' -> width st -> agree w b (insn_opcode st) ->
  result (b .| USE_BITS f) q t' (reg_into env cls ok f v q st).
Proof.
  intros Hin Hn Hi Hok Hv Hs Ha Hw Hb. unfold reg_into.
  rewrite (with_reg_name cls names i nm t' st _ Hin Hn Hi Hs Ha), Hok. by apply result_insert.
Qed.

Lemma reg_check_name cls names i nm ok b q t' st :
  In (cls, names) register_files -> names !! Z.to_nat i = Some nm -> 0 <= i ->
  ok (insn_opcode st) i = true -> sep t' = true ->
  asarg st = chars nm ++ t' -> width st -> agree w b (insn_opcode st) ->
  result b q t' (reg_check env cls ok q st).
Proof.
  intros Hin Hn Hi Hok Hs Ha Hw Hb. unfold reg_check.
  rewrite (with_reg_name cls names i nm t' st _ Hin Hn Hi Hs Ha).
  cbn [insn_opcode set_asarg report]. rewrite Hok. eexists. split; [done|]. done.
Qed.

Lemma skip_one_space_sep st t' :
  sep t' = true -> asarg st = t' -> skip_one_space st = st.
Proof.
  intros Hs Ha. unfold skip_one_space. rewrite Ha.
  destruct (sep_cases t' Hs) as [->|(c & t & -> & Hc)]; [done|].
  cbn [In] in Hc. by destruct Hc as [<-|[<-|[<-|[]]]].
Qed.

(** [ip_gpr] and [ip_fpr]. *)
Lemma gpr_name cls names i nm f b q t' st :
  In (cls, names) register_files -> names !! Z.to_nat i = Some nm -> 0 <= i ->
  i = EXTRACT_OPERAND f w -> sep t' = true ->
  asarg st = chars nm ++ t' -> width st -> agree w b (insn_opcode st) ->
  result (b .| USE_BITS f) q t'
    (with_reg env cls st (fun r st => Continue q (INSERT_OPERAND f (skip_one_space st) r))).
Proof.
  intros Hin Hn Hi Hv Hs Ha Hw Hb.
  rewrite (with_reg_name cls names i nm t' st _ Hin Hn Hi Hs Ha).
  rewrite (skip_one_space_sep _ t') by done. by apply result_insert.
Qed.


(** ** The operand loops *)

Definition open_in (t : list ascii) : bool := existsb (Ascii.eqb "("%char) t.

Lemma open_in_app t t' : open_in (t ++ t') = open_in t || open_in t'.
Proof. apply existsb_app. Qed.

(** The letters [p] print [t], and reading [t] with [b] known gives [b']. *)
Definition round_trip (p : list ascii) (b : Z) (t : list ascii) (b' : Z) : Prop :=
  (forall fuel ds, (length p <= fuel)%nat ->
     exists ps, printed_pieces (print_operands fuel denv w pc p ds) = printed_pieces ds ++ ps /\
       text_of ps = Some t) /\
  (forall fuel st, (length p <= fuel)%nat -> asarg st = t -> width st -> agree w b (insn_opcode st) ->
     result b' [] [] (ip_operands env expression strtof insn fuel p st)).

(** What later operands ask of the text of the ones after them. *)
Definition shape (p t : list ascii) : Prop :=
  skip_blanks t = t /\
  (sep_next p = true -> sep t = true) /\ (open_in p = false -> open_in t = false) /\
  (forall q, p = "("%char :: q ->
     exists t', t = "("%char :: t' /\ (open_in q = false -> open_in t' = false)).

Lemma round_trip_step p q b b1 b' t t' :
  (length q < length p)%nat -> prints p q t -> parses b p q t t' b1 ->
  skip_blanks (t ++ t') = t ++ t' -> round_trip q b1 t' b' -> round_trip p b (t ++ t') b'.
Proof.
  intros Hl Hp Hr Hs [Rp Rr]. split.
  - intros fuel ds Hfuel. destruct p as [|c p]; [simpl in Hl; lia|]. destruct fuel as [|fuel]; [simpl in Hfuel; lia|].
    cbn [print_operands]. destruct (Hp ds) as (ds' & ps & -> & E & Ht).
    destruct (Rp fuel ds') as (ps' & E' & Ht'); [simpl in *; lia|].
    exists (ps ++ ps'). rewrite E', E, app_assoc. split; [done|]. by apply text_of_app.
  - intros fuel st Hfuel Ha Hw Hb. destruct p as [|c p]; [simpl in Hl; lia|].
    destruct fuel as [|fuel]; [simpl in Hfuel; lia|]. cbn [ip_operands]. rewrite Ha, Hs.
    destruct (Hr (set_asarg st (t ++ t'))) as (st' & -> & Ha' & Hw' & Hb'); [done..|].
    apply Rr; try done. simpl in *; lia.
Qed.

Lemma round_trip_nil b : round_trip [] b [] b.
Proof.
  split.
  - intros fuel ds _. exists []. rewrite app_nil_r. by destruct fuel.
  - intros fuel st _ Ha Hw Hb. eexists. split; [by destruct fuel|]. cbn [asarg set_asarg]. by rewrite Ha.
Qed.

Lemma name_text nm t :
  name_chars (chars nm) = true ->
  skip_blanks (chars nm ++ t) = chars nm ++ t /\ open_in (chars nm) = false.
Proof.
  destruct (chars nm) as [|c l]; [done|]. cbn [name_chars app]. intros H.
  apply andb_true_iff in H as [Hc Hl]. split.
  - cbn [skip_blanks]. destruct c as [[] [] [] [] [] [] [] []]; done.
  - unfold open_in. cbn [existsb]. apply orb_false_iff. split.
    + by destruct c as [[] [] [] [] [] [] [] []].
    + clear Hc. induction l as [|d l IH]; [done|]. cbn [forallb existsb] in *.
      apply andb_true_iff in Hl as [Hd Hl]. apply orb_false_iff. split; [|by apply IH].
      by destruct d as [[] [] [] [] [] [] [] []].
Qed.

(** A register operand in front of operands that round-trip. *)
Lemma round_trip_name p q cls names i b b1 b' t' ds1 :
  In (cls, names) register_files -> cls <> RCLASS_VECM -> 0 <= i <= 31 ->
  (length q < length p)%nat ->
  (forall ds, printed_pieces (ds1 ds) = printed_pieces ds) ->
  (forall ds, print_operand denv w pc p ds = Some (q, put (ds1 ds) [name_at names i])) ->
  (forall nm st, names !! Z.to_nat i = Some nm -> asarg st = chars nm ++ t' -> width st ->
     agree w b (insn_opcode st) ->
     result b1 q t' (ip_operand env expression strtof insn p st)) ->
  round_trip q b1 t' b' ->
  exists t, round_trip p b t b' /\ skip_blanks t = t /\
    (open_in t' = false -> open_in t = false).
Proof.
  intros Hin Hc Hi Hl H1 Hp Hr Hq. destruct (names_32 cls names i Hin Hc Hi) as [nm Hn].
  destruct (register_name cls names _ nm Hin Hn) as [Hnm _].
  destruct (name_text nm t' Hnm) as [Hsk Hop].
  exists (chars nm ++ t'). split; [|split; [done|by rewrite open_in_app, Hop]].
  apply (round_trip_step p q b b1); try done.
  - by apply (prints_name p q names i nm ds1).
  - intros st Ha Hw Hb. by apply (Hr nm).
Qed.

(** A punctuation character. *)
Lemma round_trip_char c q b t b' :
  In c [","%char; "("%char; ")"%char] -> round_trip q b t b' -> round_trip (c :: q) b (c :: t) b'.
Proof.
  intros Hc Hq. change (c :: t) with ([c] ++ t). apply (round_trip_step (c :: q) q b b); try done.
  - simpl; lia.
  - intros ds. eexists _, [P_text (String c "")].
    cbn [In] in Hc. destruct Hc as [<-|[<-|[<-|[]]]]; repeat split; reflexivity.
  - intros st Ha Hw Hb.
    assert (E : ip_operand env expression strtof insn (c :: q) st = ip_char c q st).
    { cbn [In] in Hc. by destruct Hc as [<-|[<-|[<-|[]]]]. }
    rewrite E. unfold ip_char. rewrite Ha. cbn [app]. rewrite Ascii.eqb_refl.
    eexists. split; [done|]. done.
  - cbn [In] in Hc. by destruct Hc as [<-|[<-|[<-|[]]]].
Qed.

(** The empty offset before a bracket. *)
Lemma round_trip_zero q b t b' :
  open_in t = false -> round_trip ("("%char :: q) b ("("%char :: t) b' ->
  round_trip ("0"%char :: "("%char :: q) b ("("%char :: t) b'.
Proof.
  intros Ho Hq. change ("("%char :: t) with ([] ++ "("%char :: t).
  apply (round_trip_step _ ("("%char :: q) b b); try done.
  - simpl; lia.
  - intros ds. exists ds, []. by rewrite app_nil_r.
  - intros st Ha Hw Hb. cbn [ip_operand]. unfold ip_load_store. rewrite Ha. cbn [app implicit_zero_offset].
    unfold open_in in Ho. rewrite Ho. eexists. split; [done|]. done.
Qed.


(** A rounding mode at the end. *)
Lemma rm_lookup i s : riscv_rm !! i = Some (Some s) -> arg_lookup (chars s) riscv_rm = Some (Z.of_nat i, []).
Proof.
  intros H. do 8 (destruct i as [|i]; [simplify_eq/=; reflexivity|]). destruct i; discriminate H.
Qed.

Lemma round_trip_rm b s :
  riscv_rm !! Z.to_nat (EXTRACT_OPERAND FLD_RM w) = Some (Some s) ->
  round_trip ["m"%char] b (chars s) (b .| USE_BITS FLD_RM).
Proof.
  intros Hs. rewrite <- (app_nil_r (chars s)).
  apply (round_trip_step _ [] b (b .| USE_BITS FLD_RM)); [simpl; lia|..|apply round_trip_nil].
  - intros ds. eexists _, [P_text s]. cbn [print_operand]. unfold arg_print. rewrite Hs. simpl.
    by rewrite app_nil_r.
  - intros st Ha Hw Hb. cbn [ip_operand]. unfold ip_name. rewrite Ha, app_nil_r, (rm_lookup _ _ Hs).
    pose proof (extract_range FLD_RM w). apply result_insert; try done. rewrite Z2Nat.id; lia.
  - rewrite app_nil_r. set (i := Z.to_nat _) in Hs.
    do 8 (destruct i as [|i]; [simplify_eq/=; reflexivity|]). destruct i; discriminate Hs.
Qed.

(** An optional mask at the end. *)
Definition mask_text : list ascii :=
  if EXTRACT_OPERAND FLD_VMASK w =? 0 then chars ",v0.t" else [].

Lemma round_trip_mask b :
  round_trip ["V"%char; "m"%char] b mask_text (b .| USE_BITS FLD_VMASK).
Proof.
  rewrite <- (app_nil_r mask_text). unfold mask_text.
  pose proof (extract_range FLD_VMASK w) as Hr. cbn [OP_MASK] in Hr.
  apply (round_trip_step _ [] b (b .| USE_BITS FLD_VMASK)); [simpl; lia|..|apply round_trip_nil].
  - intros ds. cbn [print_operand print_rvv].
    destruct (_ =? 0); [eexists _, [P_text ","; P_text "v0.t"]|exists ds, []]; repeat split.
    by rewrite app_nil_r.
  - intros st Ha Hw Hb. cbn [ip_operand ip_rvv]. rewrite Ha.
    destruct (Z.eqb_spec (EXTRACT_OPERAND FLD_VMASK w) 0) as [E|E].
    + change (result (b .| USE_BITS FLD_VMASK) [] [] (ip_mask env [] (set_asarg st (chars "v0.t" ++ [])))).
      unfold ip_mask. rewrite (with_reg_name RCLASS_VECM riscv_vecm_names_numeric 0 "v0.t" []); try done.
      { by apply result_insert. }
      unfold register_files. in_list.
    + apply result_insert; try done. lia.
  - by destruct (_ =? 0).
Qed.

(** ** All operands *)

(** Whether a rounding mode is among the operands. *)
Fixpoint needs_rm (p : list ascii) : bool :=
  match p with
  | [] => false
  | "m"%char :: [] => true
  | "V"%char :: _ :: q | "C"%char :: _ :: q => needs_rm q
  | _ :: q => needs_rm q
  end.

Lemma vecr_file : In (RCLASS_VECR, riscv_vecr_names_numeric) register_files.
Proof. unfold register_files. in_list. Qed.

Lemma shape_letters p q t t' :
  shape q t' -> sep_next p = false -> (forall r, p <> "("%char :: r) ->
  (open_in p = false -> open_in q = false) -> skip_blanks t = t ->
  (open_in t' = false -> open_in t = false) -> shape p t.
Proof.
  intros (_ & _ & Ho & _) Hp Hn Hq Hs Ht. unfold shape. rewrite Hp. split; [done|].
  split; [done|]. split; [auto|]. intros r E. by destruct (Hn r).
Qed.

Lemma shape_char c q t :
  In c [","%char; "("%char; ")"%char] -> shape q t -> shape (c :: q) (c :: t).
Proof.
  intros Hc (_ & _ & Ho & _). cbn [In] in Hc. unfold shape.
  destruct Hc as [<-|[<-|[<-|[]]]]; (split; [done|]); (split; [done|]);
    (split; [first [exact Ho|discriminate]|]); intros r [= <-]; eauto.
Qed.

Lemma shape_mask : shape ["V"%char; "m"%char] mask_text.
Proof. unfold mask_text. by destruct (_ =? 0). Qed.

Lemma shape_rm i s : riscv_rm !! i = Some (Some s) -> shape ["m"%char] (chars s).
Proof.
  intros H. do 8 (destruct i as [|i]; [simplify_eq/=; try done|]); destruct i; discriminate H.
Qed.

(** A register operand: the names printed, the number, and how the parser
    reads it back. *)
Lemma direct_name p q cls names i b b1 b' ds1 :
  (forall ds, print_operand denv w pc p ds = Some (q, put (ds1 ds) [name_at names i])) ->
  (forall ds, printed_pieces (ds1 ds) = printed_pieces ds) ->
  (exists t', round_trip q b1 t' b' /\ shape q t') -> sep_next q = true ->
  In (cls, names) register_files -> cls <> RCLASS_VECM -> 0 <= i <= 31 ->
  (length q < length p)%nat -> sep_next p = false -> (forall r, p <> "("%char :: r) ->
  (open_in p = false -> open_in q = false) ->
  (forall nm st t', names !! Z.to_nat i = Some nm -> sep t' = true -> asarg st = chars nm ++ t' ->
     width st -> agree w b (insn_opcode st) ->
     result b1 q t' (ip_operand env expression strtof insn p st)) ->
  exists t, round_trip p b t b' /\ shape p t.
Proof.
  intros Hpr H1 (t' & Hrt & Hsh) Hs Hin Hc Hi Hl Hp Hn Ho Hr.
  assert (Hst : sep t' = true) by (by apply Hsh).
  destruct (round_trip_name p q cls names i b b1 b' t' ds1 Hin Hc Hi Hl H1 Hpr) as (t & Ht1 & Ht2 & Ht3);
    [intros nm st Hnm; by apply (Hr nm)|done|].
  exists t. split; [done|]. by apply (shape_letters p q t t').
Qed.

Lemma field_31 f : OP_MASK f = 31 -> 0 <= EXTRACT_OPERAND f w <= 31.
Proof. intros <-. apply extract_range. Qed.

Lemma field_8 f : OP_MASK f = 7 -> 0 <= EXTRACT_OPERAND f w + 8 <= 31.
Proof. intros E. pose proof (extract_range f w). lia. Qed.

Lemma rvc_field f : OP_MASK f = 7 ->
  rvc_reg (EXTRACT_OPERAND f w + 8) = true /\
  (EXTRACT_OPERAND f w + 8) mod 8 = EXTRACT_OPERAND f w.
Proof.
  intros E. pose proof (extract_range f w) as R. rewrite E in R. unfold rvc_reg. split.
  - apply andb_true_iff; split; apply Z.leb_le; lia.
  - replace (EXTRACT_OPERAND f w + 8) with (EXTRACT_OPERAND f w + 1 * 8) by lia.
    rewrite Z.mod_add, Z.mod_small; lia.
Qed.

Ltac name_case cls names i :=
  eapply (direct_name _ _ cls names i);
  [ intros ds; reflexivity | intros ds; cbv beta; repeat case_match; reflexivity
  | eassumption | assumption | first [assumption | apply vecr_file] | discriminate
  | first [apply field_31; reflexivity | apply field_8; reflexivity | lia]
  | simpl; lia | reflexivity | discriminate
  | unfold open_in; cbn [existsb]; rewrite ?orb_false_iff; tauto
  | intros nm st t' Hn Hs Ha Hw Hb; cbn [ip_operand ip_rvc ip_rvv] ].

Ltac field_case cls names f := name_case cls names (EXTRACT_OPERAND f w).

(** Read back by [ip_gpr] or [ip_fpr], by [reg_into], by [reg_check]. *)
Ltac read_gpr := eapply gpr_name; [eassumption|eassumption|apply field_31; reflexivity|reflexivity|done..].
Ltac read_into :=
  eapply reg_into_name;
  [first [eassumption|apply vecr_file]|eassumption
  |first [apply field_31; reflexivity | apply field_8; reflexivity]|..|done|done|done|done];
  first [reflexivity | by apply rvc_field].
Ltac read_check :=
  eapply reg_check_name;
  [first [eassumption|apply vecr_file]|eassumption
  |first [apply field_31; reflexivity | apply field_8; reflexivity | lia]|..|done|done|done|done].

(** The operands after a register round-trip. *)
Ltac rest_case IHp Hd q :=
  match type of Hd with
  | (if ?g then direct ?b1 _ else None) = Some ?b' =>
      destruct g eqn:Hsep; [|discriminate Hd];
      try (apply andb_true_iff in Hsep as [Hcov Hsep]);
      assert (Hq : exists t', round_trip q b1 t' b' /\ shape q t')
        by (apply IHp; [simpl in *; lia|exact Hd|intros Hm; exact Hm])
  end.

(** A covered operand string prints a text that reads back as the word. *)
Lemma direct_round_trip n p b b' :
  (length p <= n)%nat -> direct b p = Some b' ->
  (needs_rm p = true -> exists s, riscv_rm !! Z.to_nat (EXTRACT_OPERAND FLD_RM w) = Some (Some s)) ->
  exists t, round_trip p b t b' /\ shape p t.
Proof.
  revert p b. induction n as [|n IH]; intros p b Hl Hd Hrm.
  { destruct p; [|simpl in Hl; lia]. injection Hd as <-. exists []. split; [apply round_trip_nil|done]. }
  destruct p as [|c p].
  { injection Hd as <-. exists []. split; [apply round_trip_nil|done]. }
  assert (IHp : forall q b1, (length q <= n)%nat -> direct b1 q = Some b' ->
    (needs_rm q = true -> needs_rm (c :: p) = true) ->
    exists t, round_trip q b1 t b' /\ shape q t) by (intros q b1 Hq H1 H2; apply IH; auto).
  clear IH.
  destruct c as [[] [] [] [] [] [] [] []]; try discriminate Hd; cbn [direct] in Hd.
  - rest_case IHp Hd p. field_case RCLASS_GPR (riscv_gpr_names denv) FLD_RS1. read_gpr.
  - rest_case IHp Hd p. field_case RCLASS_FPR (riscv_fpr_names denv) FLD_RS1. unfold ip_fpr. rewrite Hz. read_gpr.
  - destruct p as [|d q]; [discriminate Hd|].
    destruct d as [[] [] [] [] [] [] [] []]; try discriminate Hd; cbn [direct] in Hd; rest_case IHp Hd q.
    + name_case RCLASS_GPR (riscv_gpr_names denv) (EXTRACT_OPERAND FLD_CRS1S w + 8). read_check.
      rewrite (agree_extract w b FLD_CRS1S) by done. apply Z.eqb_refl.
    + name_case RCLASS_GPR (riscv_gpr_names denv) (EXTRACT_OPERAND FLD_CRS1S w + 8). read_into.
    + name_case RCLASS_GPR (riscv_gpr_names denv) 2. read_check. done.
    + field_case RCLASS_GPR (riscv_gpr_names denv) FLD_RD. read_check.
      rewrite (agree_extract w b FLD_RD) by done. apply Z.eqb_refl.
    + field_case RCLASS_GPR (riscv_gpr_names denv) FLD_CRS2. read_into.
    + name_case RCLASS_GPR (riscv_gpr_names denv) (EXTRACT_OPERAND FLD_CRS2S w + 8). read_into.
    + field_case RCLASS_FPR (riscv_fpr_names denv) FLD_CRS2. read_into.
    + name_case RCLASS_FPR (riscv_fpr_names denv) (EXTRACT_OPERAND FLD_CRS2S w + 8). read_into.
    + name_case RCLASS_GPR (riscv_gpr_names denv) (EXTRACT_OPERAND FLD_CRS2S w + 8). read_check.
      rewrite (agree_extract w b FLD_CRS2S) by done. apply Z.eqb_refl.
  - destruct p as [|d p]; [|discriminate Hd]. injection Hd as <-. destruct (Hrm eq_refl) as [s Hs].
    exists (chars s). split; [by apply round_trip_rm|]. by apply (shape_rm (Z.to_nat (EXTRACT_OPERAND FLD_RM w))).
  - destruct (IHp p b) as (t & Hr & Hsh); [simpl in *; lia|exact Hd|done|].
    eexists. split; [apply round_trip_char; [in_list|exact Hr]|apply shape_char; [in_list|done]].
  - destruct p as [|d q]; [discriminate Hd|].
    destruct d as [[] [] [] [] [] [] [] []]; try discriminate Hd; cbn [direct] in Hd.
    + rest_case IHp Hd q. field_case RCLASS_VECR riscv_vecr_names_numeric FLD_VS1. read_into.
    + destruct q as [|d q]; [|discriminate Hd]. injection Hd as <-.
      exists mask_text. split; [apply round_trip_mask|apply shape_mask].
    + rest_case IHp Hd q. field_case RCLASS_VECR riscv_vecr_names_numeric FLD_VS2. read_into.
    + rest_case IHp Hd q. field_case RCLASS_VECR riscv_vecr_names_numeric FLD_VD. read_into.
    + rest_case IHp Hd q. name_case RCLASS_VECR riscv_vecr_names_numeric 0. read_check. done.
  - rest_case IHp Hd p. field_case RCLASS_FPR (riscv_fpr_names denv) FLD_RS3. unfold ip_fpr. rewrite Hz. read_gpr.
  - destruct (IHp p b) as (t & Hr & Hsh); [simpl in *; lia|exact Hd|done|].
    eexists. split; [apply round_trip_char; [in_list|exact Hr]|apply shape_char; [in_list|done]].
  - rest_case IHp Hd p. field_case RCLASS_GPR (riscv_gpr_names denv) FLD_RS2. read_gpr.
  - rest_case IHp Hd p. field_case RCLASS_FPR (riscv_fpr_names denv) FLD_RS2. unfold ip_fpr. rewrite Hz. read_gpr.
  - rest_case IHp Hd p. field_case RCLASS_GPR (riscv_gpr_names denv) FLD_RD. read_gpr.
  - rest_case IHp Hd p. field_case RCLASS_FPR (riscv_fpr_names denv) FLD_RD. unfold ip_fpr. rewrite Hz. read_gpr.
  - destruct (IHp p b) as (t & Hr & Hsh); [simpl in *; lia|exact Hd|done|].
    eexists. split; [apply round_trip_char; [in_list|exact Hr]|apply shape_char; [in_list|done]].
  - destruct p as [|d q]; [discriminate Hd|].
    destruct d as [[] [] [] [] [] [] [] []]; try discriminate Hd; cbn [direct] in Hd.
    destruct (existsb _ q) eqn:Eo; [discriminate Hd|].
    destruct (IHp ("("%char :: q) b) as (t & Hr & Hsh); [simpl in *; lia|exact Hd|done|].
    destruct (proj2 (proj2 (proj2 Hsh)) q eq_refl) as (t' & -> & Ho). specialize (Ho Eo).
    exists ("("%char :: t'). split; [by apply round_trip_zero|].
    unfold shape. split; [done|]. split; [done|]. split; [done|]. intros r. done.
Qed.

End round_trip.

Lemma direct_entry_elim op :
  direct_entry op = true ->
  direct (mask op) (chars (args op)) = Some (Z.ones (8 * riscv_insn_length (match_ op))).
Proof.
  unfold direct_entry. intros H. apply andb_true_iff in H as [_ H].
  destruct (direct _ _) as [b|]; [|discriminate H]. apply Z.eqb_eq in H. by rewrite H.
Qed.

(** The tab before the operands. *)
Definition lead (p : list ascii) : list ascii := match p with [] => [] | _ :: _ => ["009"%char] end.

(** C3: disassembling and assembling again is the identity: for every entry of
    the table whose operands are registers, masks, rounding modes and empty
    offsets (1907 of the 2400), and every word with the fixed bits of the
    entry, the text the disassembler prints for the operands is read by the
    operand parser, for that entry, without an error and to its end, and the
    instruction assembled is the word (for unimp, whose match value is extended
    to 64 bits, its 32 bits are those of the word); numeric and ABI register
    names alike.
    The base is not RV32E/RV64E, zfinx is off, and a printed rounding mode is
    a valid one. *)
Theorem disassembled_operands_reassemble (env : as_env) (denv : dis_env)
    (expression : bool -> list ascii -> expressionS * list ascii * list diag)
    (strtof : list ascii -> bool * option (Z * Z) * list ascii)
    (op : riscv_opcode) (w pc : Z) (ds : dis_state) (st : ip_state) :
  In op riscv_opcodes -> direct_entry op = true ->
  supports env "e" = false -> supports env "zfinx" = false ->
  In (RCLASS_GPR, riscv_gpr_names denv) register_files ->
  In (RCLASS_FPR, riscv_fpr_names denv) register_files ->
  0 <= w < 2 ^ (8 * riscv_insn_length (match_ op)) -> w .& mask op = match_ op .& mask op ->
  (needs_rm (chars (args op)) = true ->
   exists s, riscv_rm !! Z.to_nat (EXTRACT_OPERAND FLD_RM w) = Some (Some s)) ->
  exists ps text st',
    printed_pieces (print_insn_args denv (args op) w pc ds) = printed_pieces ds ++ ps /\
    text_of ps = Some (lead (chars (args op)) ++ text) /\
    ip_operands env expression strtof op (String.length (args op)) (chars (args op))
      (create_insn op text st) = Continue [] st' /\
    insn_opcode st' mod 2 ^ (8 * riscv_insn_length (match_ op)) = w /\
    (name op <> "unimp"%string -> insn_opcode st' = w) /\ asarg st' = [].
Proof.
  intros Hin Hd He Hz Hg Hf Hw Hm Hrm.
  assert (Hok : entry_ok op = true).
  { pose proof riscv_opcodes_ok as H. rewrite forallb_forall in H. exact (H op Hin). }
  clear Hin. apply direct_entry_elim in Hd as Hb.
  destruct (direct_round_trip env denv expression strtof op w pc He Hz Hg Hf
              (length (chars (args op))) (chars (args op)) (mask op) _ ltac:(lia) Hb Hrm)
    as (text & [Rp Rr] & _).
  unfold entry_ok in Hok.
  destruct (ip_uses (String.length (args op)) (chars (args op))) as [u|] eqn:Eu; [|discriminate Hok].
  apply andb_true_iff in Hok as [Hr Hok]. apply andb_true_iff in Hr as [Hr1 Hr2].
  apply Z.leb_le in Hr1. apply Z.ltb_lt in Hr2.
  unfold direct_entry in Hd. apply andb_true_iff in Hd as [Hmac _]. apply negb_true_iff in Hmac.
  rewrite Hmac in Hok. cbn [orb] in Hok. rewrite !andb_true_iff in Hok. destruct Hok as [[Hin _] _].
  destruct (Rr (String.length (args op)) (create_insn op text st)) as (st' & E & Ha & Hw' & Hag).
  { by rewrite length_chars. } { done. } { done. } { symmetry. exact Hm. }
  pose proof (ip_operands_writes env expression strtof op _ _ (create_insn op text st) u Eu) as Hwr.
  rewrite E in Hwr. specialize (Hwr (conj Hr1 Hr2)).
  pose proof (insn_length_pos (match_ op)) as Hpos.
  assert (Em : insn_opcode st' mod 2 ^ (8 * riscv_insn_length (match_ op)) = w).
  { unfold agree in Hag. rewrite !Z.land_ones in Hag by lia. rewrite Hag. by apply Z.mod_small. }
  assert (Ew : name op <> "unimp"%string -> insn_opcode st' = w).
  { intros Hn. apply orb_true_iff in Hin as [Hin|Hin].
    - apply Z.eqb_eq in Hin.
      apply (writes_inside u (match_ op) _ (8 * riscv_insn_length (match_ op))) in Hwr; [|lia|exact Hin].
      by rewrite Z.mod_small in Em.
    - apply andb_true_iff in Hin as [Hin _]. apply andb_true_iff in Hin as [Hin _].
      by apply String.eqb_eq in Hin. }
  set (ds1 := match chars (args op) with [] => ds | _ => put ds [P_text (String "009"%char "")] end).
  destruct (Rp (length (chars (args op))) ds1 ltac:(lia)) as (ps & Hps & Ht).
  exists (match chars (args op) with [] => [] | _ => [P_text (String "009"%char "")] end ++ ps), text, st'.
  split_and!; try done.
  - unfold print_insn_args. fold ds1. rewrite Hps. unfold ds1.
    destruct (chars (args op)); [done|]. cbn [printed_pieces put]. by rewrite app_assoc.
  - apply text_of_app; [|exact Ht]. by destruct (chars (args op)).
Qed.

(** The masked vector load [vle8.v v8,(a0),v0.t]. *)
Definition vle8_entry : riscv_opcode :=
  default (mk_opcode "" 0 INSN_CLASS_NONE "" 0 0 None 0)
    (List.find (fun op => String.eqb (name op) "vle8.v") riscv_opcodes).

Definition abi_denv : dis_env :=
  mk_env riscv_gpr_names_abi riscv_fpr_names_abi true 64 rv64_rps PRIV_SPEC_CLASS_1P11.

Lemma disassembled_operands_reassemble_witness :
  exists ps text st',
    printed_pieces (print_insn_args abi_denv (args vle8_entry) 0x00050407 0 idle_state) = [] ++ ps /\
    text_of ps = Some (lead (chars (args vle8_entry)) ++ text) /\
    ip_operands rv64_env decimal_expression no_strtof vle8_entry (String.length (args vle8_entry))
      (chars (args vle8_entry)) (create_insn vle8_entry text start_state) = Continue [] st' /\
    insn_opcode st' mod 2 ^ (8 * riscv_insn_length (match_ vle8_entry)) = 0x00050407 /\
    (name vle8_entry <> "unimp"%string -> insn_opcode st' = 0x00050407) /\ asarg st' = [].
Proof.
  apply (disassembled_operands_reassemble rv64_env abi_denv decimal_expression no_strtof vle8_entry
           0x00050407 0 idle_state start_state).
  - unfold vle8_entry.
    destruct (List.find (fun op => String.eqb (name op) "vle8.v") riscv_opcodes) as [op|] eqn:E.
    + exact (proj1 (find_some _ _ E)).
    + vm_compute in E. discriminate E.
  - vm_compute. reflexivity.
  - vm_compute. reflexivity.
  - vm_compute. reflexivity.
  - right. left. reflexivity.
  - right. right. right. left. reflexivity.
  - vm_compute. split; congruence.
  - vm_compute. reflexivity.
  - vm_compute. discriminate.
Defined.
