(* ===== verification/Mapping.v ===== *)
(** * Mapping symbols of the assembler (gas/config/tc-riscv.c)

    The symbols [$x], [$x<arch>] and [$d] that tell code from data in a section:
    their creation while a section is assembled, and the removal of the
    superfluous ones when the addresses of the frags are known. *)
From Stdlib Require Import ZArith Bool Lia Ascii String.
From stdpp Require Import base list strings gmap.
From S2P Require Import Prelude RiscvH.

#[local] Open Scope Z_scope.
#[local] Open Scope list_scope.

(** A mapping symbol: its name, the frag it points into (by number) and the
    offset there; false once [symbol_remove] took it out of the chain. *)
Record map_symbol : Set := mk_msym {
  ms_name : string;
  ms_frag : nat;
  ms_value : nat;
  ms_live : bool;
}.

(** The mapping state of a section: every symbol made so far, and, by their
    positions in that list, [first_map_symbol] and [last_map_symbol] of the
    frags, [map_state] and [arch_map_symbol] of the segment. *)
Record mapping : Type := mk_mapping {
  msyms : list map_symbol;
  first_map_symbol : gmap nat nat;
  last_map_symbol : gmap nat nat;
  map_state : riscv_seg_mstate;
  arch_map_symbol : option nat;
}.

Definition ms_name_at (m : mapping) (i : nat) : list ascii :=
  match msyms m !! i with Some s => chars (ms_name s) | None => [] end.
Definition ms_value_at (m : mapping) (i : nat) : nat :=
  match msyms m !! i with Some s => ms_value s | None => 0%nat end.

Definition symbol_remove (m : mapping) (i : nat) : mapping :=
  mk_mapping (alter (fun s => mk_msym (ms_name s) (ms_frag s) (ms_value s) false) i (msyms m))
    (first_map_symbol m) (last_map_symbol m) (map_state m) (arch_map_symbol m).

(** [make_mapping_symbol] up to the test of [removed]: the new state and
    [removed]; [None] is [abort]. *)
Definition new_mapping_symbol (state : riscv_seg_mstate) (value frag : nat)
    (arch_str : option string) (m : mapping) : option (mapping * option nat) :=
  match match state with
        | MAP_DATA => Some "$d"%string
        | MAP_INSN => Some (append "$x" (default ""%string arch_str))
        | MAP_NONE => None
        end with
  | None => None
  | Some name =>
      let symbol := length (msyms m) in
      let first := first_map_symbol m !! frag in
      let last := last_map_symbol m !! frag in
      let removed :=
        if (value =? 0)%nat then first
        else match last with
             | Some l => if (ms_value_at m l =? value)%nat then Some l else None
             | None => None
             end in
      Some (mk_mapping (msyms m ++ [mk_msym name frag value true])
              (if (value =? 0)%nat then <[frag := symbol]> (first_map_symbol m)
               else first_map_symbol m)
              (<[frag := symbol]> (last_map_symbol m))
              (map_state m)
              (match arch_str with Some _ => Some symbol | None => arch_map_symbol m end),
            removed)
  end.

(** [strncmp (name, "$xrv", 4) == 0]. *)
Definition is_arch_symbol (name : list ascii) : bool :=
  match strip_prefix (chars "$xrv") name with Some _ => true | None => false end.

Definition remove_if (removed : option nat) (m : mapping) : mapping :=
  match removed with Some r => symbol_remove m r | None => m end.

(** [make_mapping_symbol]; [fr_fix] is that of the frag. *)
Definition make_mapping_symbol (state : riscv_seg_mstate) (value frag fr_fix : nat)
    (arch_str : option string) (odd_data_padding : bool) (m : mapping) : option mapping :=
  match new_mapping_symbol state value frag arch_str m with
  | None => None
  | Some (m, None) => Some m
  | Some (m, Some removed) =>
      if odd_data_padding then
        let name := ms_name_at m removed in
        let str := if is_arch_symbol name then Some (unchars (drop 2 name)) else None in
        match new_mapping_symbol MAP_INSN (fr_fix + 1) frag str m with
        | None => None
        | Some (m, removed2) => Some (symbol_remove (remove_if removed2 m) removed)
        end
      else Some (symbol_remove m removed)
  end.

Definition set_map_state (m : mapping) (st : riscv_seg_mstate) : mapping :=
  mk_mapping (msyms m) (first_map_symbol m) (last_map_symbol m) st (arch_map_symbol m).

(** [riscv_mapping_state (to_state, max_chars, fr_align_code)] in frag number
    [frag] whose end is at [fix_]; [text] is whether the section is an ordinary
    one that holds code, [arch_str] the string of the current subset list. *)
Definition riscv_mapping_state (text : bool) (arch_str : string) (frag fix_ : nat)
    (to_state : riscv_seg_mstate) (max_chars : nat) (fr_align_code : bool) (m : mapping)
  : option mapping :=
  let go (reset_seg_arch_str : bool) :=
    make_mapping_symbol to_state (fix_ - max_chars) frag fix_
      (if reset_seg_arch_str then Some arch_str else None) false (set_map_state m to_state) in
  let insn := bool_decide (to_state = MAP_INSN) in
  if negb text then Some m
  else
    match arch_map_symbol m with
    | None => if insn then go true
              else if bool_decide (map_state m = to_state) then Some m else go false
    | Some seg_arch_symbol =>
        if insn && negb fr_align_code
           && negb (bool_decide (chars arch_str = drop 2 (ms_name_at m seg_arch_symbol)))
        then go true
        else if bool_decide (map_state m = to_state) then Some m else go false
    end.

(** The kinds of variable frags [riscv_init_frag] tells apart. *)
Inductive relax_stateT : Set := rs_fill | rs_align | rs_align_test | rs_align_code | rs_other.

Definition riscv_init_frag (debugging text : bool) (arch_str : string) (frag fix_ : nat)
    (fr_type : relax_stateT) (max_chars : nat) (m : mapping) : option mapping :=
  if debugging then Some m
  else
    match fr_type with
    | rs_fill | rs_align | rs_align_test =>
        riscv_mapping_state text arch_str frag fix_ MAP_DATA max_chars false m
    | rs_align_code => riscv_mapping_state text arch_str frag fix_ MAP_INSN max_chars true m
    | rs_other => Some m
    end.

Definition riscv_add_odd_padding_symbol (frag fr_fix : nat) (m : mapping) : option mapping :=
  make_mapping_symbol MAP_DATA fr_fix frag fr_fix None true m.

(** ** After the layout *)

Section layout.

(** The frags of the section with their addresses, in order. *)
Context (fr_address : nat -> Z).

(** [S_GET_VALUE]. *)
Definition S_GET_VALUE_of (m : mapping) (i : nat) : Z :=
  match msyms m !! i with
  | Some s => fr_address (ms_frag s) + Z.of_nat (ms_value s)
  | None => 0
  end.

(** The inner loop of [riscv_check_mapping_symbols], over the frags after the
    one whose [last] symbol is at its end. *)
Fixpoint check_overlap (last : nat) (nexts : list nat) (m : mapping) : mapping :=
  match nexts with
  | [] => m
  | next :: rest =>
      match first_map_symbol m !! next with
      | Some next_first =>
          let removed := if is_arch_symbol (ms_name_at m last)
                            && bool_decide (ms_name_at m next_first = chars "$x")
                         then next_first else last in
          symbol_remove m removed
      | None =>
          match rest with
          | [] => symbol_remove m last
          | next' :: _ =>
              if negb (fr_address next =? fr_address next') then m
              else check_overlap last rest m
          end
      end
  end.

(** [riscv_check_mapping_symbols] on the frags of a section. *)
Fixpoint riscv_check_mapping_symbols (frags : list nat) (m : mapping) : mapping :=
  match frags with
  | [] => m
  | fragp :: nexts =>
      let m :=
        match last_map_symbol m !! fragp, nexts with
        | Some last, next :: _ =>
            if S_GET_VALUE_of m last <? fr_address next then m else check_overlap last nexts m
        | _, _ => m
        end in
      riscv_check_mapping_symbols nexts m
  end.

End layout.
