(* ===== verification/MappingSpec.v ===== *)
(** * Properties of the mapping symbols

    The symbols of a section, seen as a list of positions and names: what the
    assembler keeps in its frags refines it, and it tells the kind of every
    piece of the section. *)
From Stdlib Require Import ZArith Bool Lia Ascii String Sorting.Sorted.
From stdpp Require Import base list strings gmap.
From S2P Require Import Prelude RiscvH Mapping.

#[local] Open Scope Z_scope.
#[local] Open Scope list_scope.

(** ** Assembling a section *)

(** A piece of a section: where it is, whether it is code, and under which
    architecture string; padding does not care for the latter. *)
Record piece : Set := mk_piece {
  pc_frag : nat;
  pc_off : nat;
  pc_len : nat;
  pc_insn : bool;
  pc_align : bool;
  pc_arch : string;
}.

Record section_state : Type := mk_section {
  sec_map : mapping;
  sec_frag : nat;              (* the number of frag_now *)
  sec_fix : nat;               (* frag_now_fix () *)
  sec_arch : string;
  sec_pieces : list piece;
}.

(** [E_put insn align late n]: [n] bytes; [late] when the symbol is made after
    the bytes are reserved, as for variable frags and padding. *)
Inductive event : Set :=
| E_put (insn align late : bool) (n : nat)
| E_new_frag
| E_arch (a : string).

Definition section_step (s : section_state) (e : event) : option section_state :=
  match e with
  | E_put insn align late n =>
      let '(fix_, max_chars) := if late then (sec_fix s + n, n)%nat else (sec_fix s, 0)%nat in
      match riscv_mapping_state true (sec_arch s) (sec_frag s) fix_
              (if insn then MAP_INSN else MAP_DATA) max_chars align (sec_map s) with
      | Some m => Some (mk_section m (sec_frag s) (sec_fix s + n) (sec_arch s)
                          (sec_pieces s ++ [mk_piece (sec_frag s) (sec_fix s) n insn align (sec_arch s)]))
      | None => None
      end
  | E_new_frag => Some (mk_section (sec_map s) (S (sec_frag s)) 0 (sec_arch s) (sec_pieces s))
  | E_arch a => Some (mk_section (sec_map s) (sec_frag s) (sec_fix s) a (sec_pieces s))
  end.

Definition section_run (s : section_state) (es : list event) : option section_state :=
  foldl (fun r e => match r with Some s => section_step s e | None => None end) (Some s) es.

Definition empty_section (a : string) : section_state :=
  mk_section (mk_mapping [] ∅ ∅ MAP_NONE None) 0 0 a [].

(** ** The list of live symbols *)

Abbreviation position := (nat * nat)%type.
Definition pos_le (p q : position) : Prop := (p.1 < q.1 \/ p.1 = q.1 /\ p.2 <= q.2)%nat.
Definition pos_lt (p q : position) : Prop := (p.1 < q.1 \/ p.1 = q.1 /\ p.2 < q.2)%nat.

#[local] Instance pos_le_dec p q : Decision (pos_le p q).
Proof. unfold pos_le. apply _. Defined.

Abbreviation entry := (nat * nat * string)%type.
Definition entry_of (s : map_symbol) : entry := ((ms_frag s, ms_value s), ms_name s).
Definition live (l : list map_symbol) : list entry := entry_of <$> filter (fun s => ms_live s = true) l.

(** The symbol that rules at a position, and the last one there with an
    architecture string. *)
Definition has_arch (name : string) : Prop := name <> "$d"%string /\ name <> "$x"%string.

#[local] Instance has_arch_dec n : Decision (has_arch n).
Proof. unfold has_arch. apply _. Defined.

Definition in_force (A : list entry) (p : position) : option string :=
  snd <$> last (filter (fun e => pos_le e.1 p) A).
Definition arch_in_force (A : list entry) (p : position) : option string :=
  snd <$> last (filter (fun e => has_arch e.2) (filter (fun e => pos_le e.1 p) A)).

Definition kind (name : string) : riscv_seg_mstate :=
  if decide (name = "$d"%string) then MAP_DATA else MAP_INSN.

(** The effect of a new symbol: it replaces one at the same position. *)
Definition place (p : position) (name : string) (A : list entry) : list entry :=
  filter (fun e => e.1 <> p) A ++ [(p, name)].

Lemma live_app l1 l2 : live (l1 ++ l2) = live l1 ++ live l2.
Proof. unfold live. by rewrite filter_app, fmap_app. Qed.

Lemma live_dead l : Forall (fun s => ms_live s = false) l -> live l = [].
Proof.
  induction 1 as [|s l Hs _ IH]; [done|]. unfold live in *. rewrite filter_cons, Hs. simpl. done.
Qed.

Lemma live_cons s l : ms_live s = true -> live (s :: l) = entry_of s :: live l.
Proof. intros H. unfold live. rewrite filter_cons, H. by rewrite decide_True. Qed.

(** The positions of a sorted list before a bound. *)
Lemma filter_ne_below (A : list entry) p :
  Forall (fun e => pos_lt e.1 p) A -> filter (fun e => e.1 <> p) A = A.
Proof.
  induction 1 as [|e A He _ IH]; [done|]. rewrite filter_cons_True, IH; [done|].
  intros Heq. rewrite Heq in He. unfold pos_lt in He. lia.
Qed.

(** ** The invariant *)

Definition here (s : section_state) : position := (sec_frag s, sec_fix s).

(** The symbol with index [i] is the last live one, and in frag [f]. *)
Definition last_live (l : list map_symbol) (i f : nat) : Prop :=
  exists l1 s l2, l = l1 ++ s :: l2 /\ i = length l1 /\ ms_live s = true /\
    Forall (fun s => ms_live s = false) l2 /\ ms_frag s = f.

Record symbols_ok (s : section_state) (A : list entry) : Prop := {
  i_live : live (msyms (sec_map s)) = A;
  i_sorted : StronglySorted (fun e e' => pos_lt e.1 e'.1) A;
  i_bound : Forall (fun e => pos_le e.1 (here s)) A;
  i_fresh : forall g, (sec_frag s < g)%nat ->
    first_map_symbol (sec_map s) !! g = None /\ last_map_symbol (sec_map s) !! g = None;
  i_last : match last_map_symbol (sec_map s) !! sec_frag s with
           | Some i => last_live (msyms (sec_map s)) i (sec_frag s)
           | None => Forall (fun e => e.1.1 <> sec_frag s) A
           end;
  i_first : sec_fix s = 0%nat ->
    first_map_symbol (sec_map s) !! sec_frag s = last_map_symbol (sec_map s) !! sec_frag s;
  i_here : forall n, last A = Some (here s, n) -> n = "$d"%string;
  i_kind : match last A with
           | Some (_, n) => kind n = map_state (sec_map s)
           | None => map_state (sec_map s) = MAP_NONE
           end;
  i_arch : match arch_map_symbol (sec_map s) with
           | Some i => exists a, a <> ""%string /\
               ms_name_at (sec_map s) i = chars (append "$x" a) /\
               snd <$> last (filter (fun e => has_arch e.2) A) = Some (append "$x" a)
           | None => filter (fun e => has_arch e.2) A = [] /\ map_state (sec_map s) <> MAP_INSN
           end;
}.

Record piece_ok (s : section_state) (A : list entry) (pc : piece) : Prop := {
  p_before : pos_le (pc_frag pc, (pc_off pc + pc_len pc)%nat) (here s);
  p_kind : forall k, (k < pc_len pc)%nat ->
    exists n, in_force A (pc_frag pc, pc_off pc + k)%nat = Some n /\
      kind n = (if pc_insn pc then MAP_INSN else MAP_DATA);
  p_arch : pc_insn pc = true -> pc_align pc = false ->
    arch_in_force A (pc_frag pc, pc_off pc) = Some (append "$x" (pc_arch pc));
  p_insn : pc_insn pc = true -> (0 < pc_len pc)%nat;
}.

Lemma sorted_app_inv {X} (R : X -> X -> Prop) (l1 l2 : list X) :
  StronglySorted R (l1 ++ l2) ->
  StronglySorted R l1 /\ StronglySorted R l2 /\ forall x y, In x l1 -> In y l2 -> R x y.
Proof.
  induction l1 as [|a l1 IH]; simpl; intros H; [split_and!; [constructor|done|done]|].
  inversion H as [|? ? Hs Ha]; subst. destruct (IH Hs) as (H1 & H2 & H3).
  rewrite Forall_app in Ha. destruct Ha as [Ha1 Ha2].
  split_and!; [by constructor|done|]. rewrite List.Forall_forall in Ha2.
  intros x y [<-|Hx] Hy; [by apply Ha2|by apply H3].
Qed.

Lemma sorted_snoc {X} (R : X -> X -> Prop) (l : list X) (x : X) :
  StronglySorted R l -> Forall (fun y => R y x) l -> StronglySorted R (l ++ [x]).
Proof.
  induction l as [|a l IH]; simpl; intros Hs Hf; [by repeat constructor|].
  inversion Hs; inversion Hf; subst. constructor; [by apply IH|].
  rewrite Forall_app. split; [done|by constructor].
Qed.

(** At a bound of the list, only the last entry can have the bound's position. *)
Lemma filter_here (A : list entry) p :
  StronglySorted (fun e e' => pos_lt e.1 e'.1) A -> Forall (fun e => pos_le e.1 p) A ->
  (filter (fun e => e.1 <> p) A = A /\ Forall (fun e => pos_lt e.1 p) A) \/
  exists B n, A = B ++ [(p, n)] /\ filter (fun e => e.1 <> p) A = B /\
    Forall (fun e => pos_lt e.1 p) B.
Proof.
  intros Hs Hb. destruct (decide (Forall (fun e => e.1 <> p) A)) as [H|H].
  - left. assert (Hlt : Forall (fun e => pos_lt e.1 p) A).
    { rewrite List.Forall_forall in *. intros e He. specialize (Hb e He). specialize (H e He).
      destruct e as [[x y] n], p as [x' y']. unfold pos_le, pos_lt in *. simpl in *.
      destruct Hb as [Hb|[Hb1 Hb2]]; [by left|]. right. split; [done|].
      destruct (decide (y = y')); [|lia]. subst. done. }
    split; [by apply filter_ne_below|done].
  - right. apply not_Forall_Exists in H; [|apply _]. apply Exists_exists in H as ([q n] & Hin & Hq).
    simpl in Hq. apply dec_stable in Hq. subst q.
    apply list_elem_of_split in Hin as (B & C & ->).
    destruct (sorted_app_inv _ _ _ Hs) as (_ & HsC & HBC).
    assert (HltB : Forall (fun e => pos_lt e.1 p) B).
    { rewrite List.Forall_forall. intros e He. apply (HBC e (p, n) He). by left. }
    assert (C = []) as ->.
    { destruct C as [|e C]; [done|]. inversion HsC as [|? ? _ HC]; subst.
      inversion HC as [|? ? H1 _]; subst. rewrite Forall_app, !Forall_cons in Hb.
      destruct Hb as (_ & _ & H2 & _). unfold pos_le, pos_lt in *. simpl in *. lia. }
    exists B, n. split_and!; [done| |done].
    rewrite filter_app, filter_ne_below by done. rewrite filter_cons_False by (simpl; auto).
    by rewrite app_nil_r.
Qed.

Definition kill (s : map_symbol) : map_symbol := mk_msym (ms_name s) (ms_frag s) (ms_value s) false.

Lemma last_live_entry l i f :
  last_live l i f -> exists v n, last (live l) = Some ((f, v), n) /\ l !! i = Some (mk_msym n f v true).
Proof.
  intros (l1 & s & l2 & -> & -> & Hs & Hd & Hf). exists (ms_value s), (ms_name s).
  rewrite live_app, live_cons, (live_dead l2) by done. rewrite last_snoc, list_lookup_middle by done.
  unfold entry_of. rewrite Hf. split; [done|]. destruct s. simpl in *. by subst.
Qed.

Lemma last_live_kill l i f s :
  last_live l i f -> live (alter kill i l ++ [s]) = removelast (live l) ++ live [s].
Proof.
  intros (l1 & s0 & l2 & -> & -> & Hs & Hd & Hf). rewrite alter_app_r_alt, Nat.sub_diag by lia.
  change (alter kill 0%nat (s0 :: l2)) with (kill s0 :: l2).
  rewrite !live_app, (live_cons s0), (live_dead l2), removelast_last by done.
  rewrite (live_dead (kill s0 :: l2)); [by rewrite app_nil_r|]. by constructor.
Qed.

(** Which symbol a new one at the current position replaces. *)
Lemma removed_symbol s A :
  symbols_ok s A ->
  let m := sec_map s in
  let u := sec_fix s in
  let removed :=
    if (u =? 0)%nat then first_map_symbol m !! sec_frag s
    else match last_map_symbol m !! sec_frag s with
         | Some l => if (ms_value_at m l =? u)%nat then Some l else None
         | None => None
         end in
  match removed with
  | Some i => last_live (msyms m) i (sec_frag s) /\
              exists B n, A = B ++ [(here s, n)] /\ filter (fun e => e.1 <> here s) A = B
  | None => filter (fun e => e.1 <> here s) A = A
  end.
Proof.
  intros [Hl Hs Hb _ Hlast Hfirst _ _ _]. cbv zeta.
  assert (Hno : Forall (fun e => e.1 <> here s) A -> filter (fun e => e.1 <> here s) A = A).
  { intros H. destruct (filter_here A (here s) Hs Hb) as [[H1 _]|(B & n & -> & _)]; [done|].
    rewrite Forall_app, Forall_cons in H. by destruct H as (_ & [] & _). }
  destruct (last_map_symbol (sec_map s) !! sec_frag s) as [i|] eqn:E.
  - destruct (last_live_entry _ _ _ Hlast) as (v & n & HA & Hi). rewrite Hl in HA.
    unfold ms_value_at. rewrite Hi. cbn [ms_value].
    destruct (decide (v = sec_fix s)) as [->|Hv].
    + rewrite Nat.eqb_refl.
      assert (Hr : (if (sec_fix s =? 0)%nat then first_map_symbol (sec_map s) !! sec_frag s else Some i)
                   = Some i).
      { destruct (Nat.eqb_spec (sec_fix s) 0) as [H0|]; [by rewrite Hfirst|done]. }
      rewrite Hr. split; [done|].
      destruct (filter_here A (here s) Hs Hb) as [[_ H]|(B & n' & -> & H & _)]; [|by eauto].
      apply last_Some in HA as [B ->]. rewrite Forall_app, Forall_cons in H.
      destruct H as (_ & H & _). unfold pos_lt in H. simpl in H. lia.
    + assert (Hu : sec_fix s <> 0%nat).
      { intros H0. apply last_Some in HA as [B ->]. rewrite Forall_app, Forall_cons in Hb.
        destruct Hb as (_ & Hb & _). unfold pos_le, here in Hb. simpl in Hb. lia. }
      rewrite (proj2 (Nat.eqb_neq _ _) Hu), (proj2 (Nat.eqb_neq _ _) Hv).
      destruct (filter_here A (here s) Hs Hb) as [[H _]|(B & n' & -> & _)]; [done|].
      rewrite last_snoc in HA. injection HA as Hv' _. congruence.
  - assert (Hf : filter (fun e => e.1 <> here s) A = A).
    { apply Hno. eapply Forall_impl; [exact Hlast|]. intros [[x y] n] He [= Hx Hy]. by apply He. }
    destruct (Nat.eqb_spec (sec_fix s) 0) as [H0|]; [by rewrite Hfirst|done].
Qed.

(** What a new symbol at the current position makes of the state. *)
Lemma make_symbol_refines s A st fx arch m' :
  symbols_ok s A ->
  make_mapping_symbol st (sec_fix s) (sec_frag s) fx arch false (set_map_state (sec_map s) st) = Some m' ->
  let m := sec_map s in
  let k := length (msyms m) in
  let name := match st with MAP_DATA => "$d"%string | _ => append "$x" (default ""%string arch) end in
  live (msyms m') = place (here s) name A /\
  last_live (msyms m') k (sec_frag s) /\
  last_map_symbol m' = <[sec_frag s := k]> (last_map_symbol m) /\
  first_map_symbol m' = (if (sec_fix s =? 0)%nat then <[sec_frag s := k]> (first_map_symbol m)
                         else first_map_symbol m) /\
  map_state m' = st /\
  arch_map_symbol m' = match arch with Some _ => Some k | None => arch_map_symbol m end /\
  ms_name_at m' k = chars name /\
  (forall i x, ms_name_at m i = x -> x <> [] -> ms_name_at m' i = x).
Proof.
  intros Hok. pose proof (removed_symbol s A Hok) as Hr. cbv zeta in *.
  destruct Hok as [Hl Hs Hb _ _ _ _ _ _].
  unfold make_mapping_symbol, new_mapping_symbol, ms_value_at in *.
  cbn [set_map_state msyms first_map_symbol last_map_symbol map_state arch_map_symbol].
  set (name := match st with MAP_DATA => "$d"%string | _ => _ end).
  assert (Hn : match st with
               | MAP_NONE => None
               | MAP_DATA => Some "$d"%string
               | MAP_INSN => Some (append "$x" (default ""%string arch))
               end = Some name \/ st = MAP_NONE) by (destruct st; auto).
  destruct Hn as [->| ->]; [|done].
  set (new := mk_msym name (sec_frag s) (sec_fix s) true).
  assert (Hlast : forall l, last_live (l ++ [new]) (length l) (sec_frag s)).
  { intros l. exists l, new, []. by repeat split. }
  assert (Hname : forall l, length l = length (msyms (sec_map s)) ->
    match (l ++ [new]) !! length (msyms (sec_map s)) with Some s => chars (ms_name s) | None => [] end
    = chars name) by (intros l <-; by rewrite list_lookup_middle).
  match type of Hr with match ?r with Some _ => _ | None => _ end => set (removed := r) in * end.
  destruct removed as [i|]; intros [= <-]; unfold ms_name_at, symbol_remove;
    cbn [msyms first_map_symbol last_map_symbol map_state arch_map_symbol].
  - destruct Hr as [Hll (B & n & -> & HB)].
    assert (Hi : (i < length (msyms (sec_map s)))%nat).
    { destruct (last_live_entry _ _ _ Hll) as (v & n' & _ & Hi). by apply lookup_lt_Some in Hi. }
    change (fun s0 => mk_msym (ms_name s0) (ms_frag s0) (ms_value s0) false) with kill.
    rewrite alter_app_l by done.
    split_and!; try done.
    + rewrite (last_live_kill _ _ (sec_frag s)) by done. rewrite Hl, removelast_last.
      unfold place. by rewrite HB.
    + rewrite <- (length_alter kill (msyms (sec_map s)) i). apply Hlast.
    + apply Hname. apply length_alter.
    + intros j x <- Hx. destruct (decide (j < length (msyms (sec_map s)))%nat) as [Hj|Hj].
      * rewrite lookup_app_l by (by rewrite length_alter).
        destruct (decide (i = j)) as [->|Hij].
        -- rewrite list_lookup_alter_eq. by destruct (msyms (sec_map s) !! j).
        -- by rewrite list_lookup_alter_ne.
      * rewrite (lookup_ge_None_2 (msyms (sec_map s)) j) in Hx by lia. done.
  - split_and!; try done.
    + rewrite live_app, Hl. unfold place. by rewrite Hr.
    + by apply Hname.
    + intros j x <- Hx. destruct (decide (j < length (msyms (sec_map s)))%nat) as [Hj|Hj].
      * by rewrite lookup_app_l.
      * rewrite (lookup_ge_None_2 (msyms (sec_map s)) j) in Hx by lia. done.
Qed.

(** ** Steps *)

Lemma kind_code a : kind (append "$x" a) = MAP_INSN.
Proof. unfold kind. by rewrite decide_False. Qed.

Lemma has_arch_code a : a <> ""%string -> has_arch (append "$x" a).
Proof. intros Ha. split; [done|]. simpl. intros [= H]. done. Qed.

(** Every entry of a list that ends at [p] counts at [p]. *)
Lemma filter_bound (A : list entry) p :
  Forall (fun e => pos_le e.1 p) A -> filter (fun e => pos_le e.1 p) A = A.
Proof. induction 1 as [|e A He _ IH]; [done|]. by rewrite filter_cons_True, IH. Qed.

(** A symbol placed after [q] does not matter at [q]. *)
Lemma filter_place (A : list entry) p q name :
  pos_lt q p ->
  filter (fun e => pos_le e.1 q) (place p name A) = filter (fun e => pos_le e.1 q) A.
Proof.
  intros Hq. unfold place. rewrite filter_app, filter_cons_False, app_nil_r.
  2: { simpl. unfold pos_lt, pos_le in *. lia. }
  induction A as [|e A IH]; [done|]. destruct (decide (e.1 = p)) as [He|He].
  - rewrite filter_cons_False by (simpl; auto). rewrite IH. symmetry. apply filter_cons_False.
    simpl. rewrite He. unfold pos_lt, pos_le in *. lia.
  - rewrite (filter_cons_True _ e) by done. rewrite !filter_cons, IH. done.
Qed.

Lemma place_sorted (A : list entry) p name :
  StronglySorted (fun e e' => pos_lt e.1 e'.1) A -> Forall (fun e => pos_le e.1 p) A ->
  StronglySorted (fun e e' => pos_lt e.1 e'.1) (place p name A) /\
  Forall (fun e => pos_le e.1 p) (place p name A).
Proof.
  intros Hs Hb. unfold place.
  assert (Hle : forall B : list entry, Forall (fun e => pos_lt e.1 p) B ->
    Forall (fun e => pos_le e.1 p) (B ++ [(p, name)])).
  { intros B HB. rewrite Forall_app, Forall_cons. split_and!; [|simpl; unfold pos_le; lia|constructor].
    eapply Forall_impl; [exact HB|]. intros e. unfold pos_lt, pos_le. lia. }
  destruct (filter_here A p Hs Hb) as [[-> H]|(B & n & -> & -> & H)].
  - split; [by apply sorted_snoc|by apply Hle].
  - apply sorted_app_inv in Hs as (Hs & _). split; [by apply sorted_snoc|by apply Hle].
Qed.

(** The entries with an architecture are not the replaced ones. *)
Lemma arch_entries_kept s A :
  symbols_ok s A ->
  filter (fun e => has_arch e.2) (filter (fun e => e.1 <> here s) A) = filter (fun e => has_arch e.2) A.
Proof.
  intros [_ Hs Hb _ _ _ Hh _ _].
  destruct (filter_here A (here s) Hs Hb) as [[-> _]|(B & n & -> & -> & _)]; [done|].
  rewrite filter_app, filter_cons_False, app_nil_r; [done|]. simpl.
  rewrite (Hh n) by apply last_snoc. by intros [].
Qed.

(** The two outcomes of [riscv_mapping_state] for a piece at the current end. *)
Lemma mapping_state_cases s A (insn align : bool) fix_ max m' :
  symbols_ok s A -> (fix_ - max = sec_fix s)%nat ->
  let st := if insn then MAP_INSN else MAP_DATA in
  riscv_mapping_state true (sec_arch s) (sec_frag s) fix_ st max align (sec_map s) = Some m' ->
  (m' = sec_map s /\ map_state m' = st /\
   (insn = true -> align = false -> exists i, arch_map_symbol m' = Some i /\
      ms_name_at m' i = chars (append "$x" (sec_arch s)))) \/
  (exists arch, (arch = Some (sec_arch s) /\ insn = true \/ arch = None /\
      (insn = false \/ exists i, arch_map_symbol (sec_map s) = Some i /\
         (align = false -> ms_name_at (sec_map s) i = chars (append "$x" (sec_arch s))))) /\
    make_mapping_symbol st (sec_fix s) (sec_frag s) fix_ arch false (set_map_state (sec_map s) st)
    = Some m').
Proof.
  intros Hok Hv. cbv zeta. unfold riscv_mapping_state. cbn [negb]. rewrite Hv.
  pose proof (i_arch _ _ Hok) as Ha.
  assert (Hi : bool_decide ((if insn then MAP_INSN else MAP_DATA) = MAP_INSN) = insn) by (by destruct insn).
  rewrite Hi. destruct (arch_map_symbol (sec_map s)) as [i|] eqn:E.
  - destruct Ha as (b & Hb & Hname & _). rewrite Hname.
    assert (Hd : drop 2 (chars (append "$x" b)) = chars b) by done. rewrite Hd.
    destruct insn; cbn [andb]; [|rewrite !andb_false_l || idtac].
    + destruct align; cbn [negb andb].
      * destruct (bool_decide (map_state _ = _)) eqn:Em; intros H; [injection H as <-; left|right; exists None].
        -- split_and!; [done|by apply bool_decide_eq_true in Em|done].
        -- split; [right|done]. split; [done|]. right. by exists i.
      * destruct (bool_decide_reflect (chars (sec_arch s) = chars b)) as [Heq|Heq]; cbn [negb].
        -- assert (sec_arch s = b) as ->
             by (rewrite <- (unchars_chars (sec_arch s)), Heq; apply unchars_chars).
           destruct (bool_decide (map_state _ = _)) eqn:Em; intros H; [injection H as <-; left|right; exists None].
           ++ split_and!; [done|by apply bool_decide_eq_true in Em|]. intros _ _. by exists i.
           ++ split; [right|done]. split; [done|]. right. by exists i.
        -- intros H. right. exists (Some (sec_arch s)). split; [by left|done].
    + destruct (bool_decide (map_state _ = _)) eqn:Em; intros H; [injection H as <-; left|right; exists None].
      * split_and!; [done|by apply bool_decide_eq_true in Em|done].
      * split; [right; split; [done|by left]|done].
  - destruct insn.
    + intros H. right. exists (Some (sec_arch s)). split; [by left|done].
    + destruct (bool_decide (map_state _ = _)) eqn:Em; intros H; [injection H as <-; left|right; exists None].
      * split_and!; [done|by apply bool_decide_eq_true in Em|done].
      * split; [right; split; [done|by left]|done].
Qed.

Lemma pos_le_trans p q r : pos_le p q -> pos_le q r -> pos_le p r.
Proof. unfold pos_le. lia. Qed.

(** A piece without a new symbol. *)
Lemma symbols_ok_extend s A n pcs :
  symbols_ok s A ->
  symbols_ok (mk_section (sec_map s) (sec_frag s) (sec_fix s + n) (sec_arch s) pcs) A.
Proof.
  intros [Hl Hs Hb Hf Hla Hfi Hh Hk Ha]. constructor; try done.
  - eapply Forall_impl; [exact Hb|]. intros e He. eapply pos_le_trans; [exact He|].
    unfold pos_le, here. simpl. lia.
  - simpl. intros H0. apply Hfi. lia.
  - intros nm Hlast. apply Hh. pose proof Hlast as Hlast'. apply last_Some in Hlast' as [B HB].
    rewrite HB, Forall_app, Forall_cons in Hb. destruct Hb as (_ & Hb & _).
    unfold pos_le, here in *. simpl in *. rewrite Hlast. repeat f_equal. lia.
Qed.

(** A piece with a new symbol. *)
Lemma symbols_ok_place s A (insn : bool) fx arch n pcs m' :
  let st := if insn then MAP_INSN else MAP_DATA in
  symbols_ok s A -> (insn = true -> 0 < n)%nat -> sec_arch s <> ""%string ->
  (arch = Some (sec_arch s) /\ insn = true \/ arch = None /\
     (insn = false \/ is_Some (arch_map_symbol (sec_map s)))) ->
  make_mapping_symbol st (sec_fix s) (sec_frag s) fx arch false (set_map_state (sec_map s) st) = Some m' ->
  let name := if insn then append "$x" (default ""%string arch) else "$d"%string in
  symbols_ok (mk_section m' (sec_frag s) (sec_fix s + n) (sec_arch s) pcs) (place (here s) name A).
Proof.
  cbv zeta. intros Hok Hn Hne Harch Hm.
  destruct (make_symbol_refines s A _ fx arch m' Hok Hm) as (H1 & H2 & H3 & H4 & H5 & H6 & H7 & H8).
  set (name := if insn then append "$x" (default ""%string arch) else "$d"%string).
  assert (Hname : match (if insn then MAP_INSN else MAP_DATA) with
      MAP_DATA => "$d"%string | _ => append "$x" (default ""%string arch) end = name)
    by (unfold name; by destruct insn).
  rewrite Hname in H1, H7. clear Hname.
  destruct (place_sorted A (here s) name (i_sorted _ _ Hok) (i_bound _ _ Hok)) as [Hs Hb].
  pose proof (arch_entries_kept s A Hok) as Hkept.
  destruct Hok as [Hl _ _ Hf Hla Hfi Hh Hk Ha].
  constructor; cbn [sec_map sec_frag sec_fix]; rewrite ?H3, ?H5; try done.
  - eapply Forall_impl; [exact Hb|]. intros e He. eapply pos_le_trans; [exact He|].
    unfold pos_le, here. simpl. lia.
  - intros g Hg. destruct (Hf g Hg) as [Hf1 Hf2]. rewrite H4. split.
    + destruct (_ =? _)%nat; [rewrite lookup_insert_ne by lia|]; done.
    + by rewrite lookup_insert_ne by lia.
  - by rewrite lookup_insert_eq.
  - intros H0. rewrite H4. replace (sec_fix s) with 0%nat by lia. simpl. by rewrite !lookup_insert_eq.
  - unfold place. intros nm. rewrite last_snoc. intros [= Hu <-]. unfold name.
    destruct insn; [|done]. specialize (Hn eq_refl). lia.
  - unfold place. rewrite last_snoc. unfold name. destruct insn; [apply kind_code|done].
  - rewrite H6. unfold place. rewrite filter_app, Hkept.
    destruct Harch as [[-> Hi]|[-> Hi]].
    + exists (sec_arch s). unfold name in *. rewrite Hi in *. split_and!; [done|done|].
      rewrite filter_cons_True by (by apply has_arch_code). by rewrite filter_nil, last_snoc.
    + rewrite filter_cons_False.
      2: { unfold name. intros []. destruct insn; done. }
      rewrite filter_nil, app_nil_r. destruct (arch_map_symbol (sec_map s)) as [i|].
      * destruct Ha as (a & Ha1 & Ha2 & Ha3). exists a. split_and!; [done| |done].
        apply (H8 i); [done|]. by destruct a.
      * destruct Ha as [Ha1 Ha2]. split; [done|]. destruct Hi as [->|[? ?]]; done.
Qed.

Lemma here_extend s n : pos_le (here s) (sec_frag s, (sec_fix s + n)%nat).
Proof. unfold pos_le, here. simpl. lia. Qed.

(** Old pieces keep their symbols. *)
Lemma piece_ok_place s s' A A' pc :
  piece_ok s A pc -> pos_le (here s) (here s') ->
  A' = A \/ (exists name, A' = place (here s) name A) -> piece_ok s' A' pc.
Proof.
  intros [Hb Hk Ha Hi] Hle HA.
  assert (Hq : forall k, (k < pc_len pc)%nat -> filter (fun e => pos_le e.1 (pc_frag pc, pc_off pc + k)%nat) A'
               = filter (fun e => pos_le e.1 (pc_frag pc, pc_off pc + k)%nat) A).
  { intros k Hl. destruct HA as [->|[name ->]]; [done|]. apply filter_place.
    unfold pos_le, pos_lt, here in *. simpl in *. lia. }
  constructor; [by eapply pos_le_trans| | |done].
  - intros k Hl. unfold in_force. rewrite Hq by done. by apply Hk.
  - intros H1 H2. unfold arch_in_force. specialize (Hq 0%nat (Hi H1)). rewrite Nat.add_0_r in Hq.
    rewrite Hq. by apply Ha.
Qed.

(** The new piece is ruled by the last symbol. *)
Lemma piece_ok_new s A (insn align : bool) n :
  symbols_ok s A -> Forall (fun e => pos_le e.1 (sec_frag s, (sec_fix s - n)%nat)) A ->
  (n <= sec_fix s)%nat -> (insn = true -> 0 < n)%nat ->
  map_state (sec_map s) = (if insn then MAP_INSN else MAP_DATA) ->
  (insn = true -> align = false -> exists i, arch_map_symbol (sec_map s) = Some i /\
     ms_name_at (sec_map s) i = chars (append "$x" (sec_arch s))) ->
  piece_ok s A (mk_piece (sec_frag s) (sec_fix s - n) n insn align (sec_arch s)).
Proof.
  intros [Hl Hs Hb Hf Hla Hfi Hh Hk Ha] Hb' Hle Hn Hst Harch.
  constructor; cbn [pc_frag pc_off pc_len pc_insn pc_align pc_arch]; [|intros k Hk'|intros H1 H2|done].
  - unfold pos_le, here. simpl. lia.
  - unfold in_force. rewrite filter_bound
      by (eapply Forall_impl; [exact Hb'|]; intros e; unfold pos_le; simpl; lia).
    rewrite Hst in Hk.
    destruct (last A) as [[p nm]|]; [by exists nm|by destruct insn].
  - destruct (Harch H1 H2) as (i & Hi & Hnm). rewrite Hi in Ha.
    destruct Ha as (a & _ & Ha1 & Ha2). unfold arch_in_force. rewrite filter_bound, Ha2 by done.
    rewrite Ha1 in Hnm. f_equal. rewrite <- (unchars_chars (append "$x" a)), Hnm. apply unchars_chars.
Qed.

(** An instruction or code padding is not empty, and there is always an
    architecture string. *)
Definition event_ok (e : event) : Prop :=
  match e with
  | E_put insn _ _ n => insn = true -> (0 < n)%nat
  | E_new_frag => True
  | E_arch a => a <> ""%string
  end.

Definition section_ok (s : section_state) : Prop :=
  sec_arch s <> ""%string /\
  exists A, symbols_ok s A /\ Forall (piece_ok s A) (sec_pieces s).

(** The current piece after its bytes, and the invariant of the rest. *)
Lemma section_put_ok s A (insn align : bool) fix_ max n m' :
  symbols_ok s A -> Forall (piece_ok s A) (sec_pieces s) -> sec_arch s <> ""%string ->
  (insn = true -> 0 < n)%nat -> (fix_ - max = sec_fix s)%nat ->
  riscv_mapping_state true (sec_arch s) (sec_frag s) fix_ (if insn then MAP_INSN else MAP_DATA) max
    align (sec_map s) = Some m' ->
  let s' := mk_section m' (sec_frag s) (sec_fix s + n) (sec_arch s)
    (sec_pieces s ++ [mk_piece (sec_frag s) (sec_fix s) n insn align (sec_arch s)]) in
  exists A', symbols_ok s' A' /\ Forall (piece_ok s' A') (sec_pieces s').
Proof.
  intros Hok Hp Hne He Hv Em. cbv zeta. cbn [sec_pieces].
  set (s' := mk_section _ _ _ _ _).
  assert (Hpieces : forall A', symbols_ok s' A' -> Forall (fun e => pos_le e.1 (here s)) A' ->
    A' = A \/ (exists name, A' = place (here s) name A) ->
    map_state m' = (if insn then MAP_INSN else MAP_DATA) ->
    (insn = true -> align = false -> exists i, arch_map_symbol m' = Some i /\
       ms_name_at m' i = chars (append "$x" (sec_arch s))) ->
    symbols_ok s' A' /\
    Forall (piece_ok s' A') (sec_pieces s ++ [mk_piece (sec_frag s) (sec_fix s) n insn align (sec_arch s)])).
  { intros A' H1 H2 HA H3 H4. split; [done|]. rewrite Forall_app, Forall_singleton. split.
    - eapply Forall_impl; [exact Hp|]. intros pc Hpc.
      eapply piece_ok_place; [exact Hpc|exact (here_extend s n)|done].
    - pose proof (piece_ok_new _ A' insn align n H1) as H. unfold s' in H. cbn [sec_frag sec_fix sec_map sec_arch] in H.
      replace (sec_fix s + n - n)%nat with (sec_fix s) in H by lia. apply H; try done. lia. }
  destruct (mapping_state_cases s A insn align fix_ max m' Hok Hv Em)
    as [(-> & Hst & Harch)|(arch & Harch & Hm)].
  { exists A. apply Hpieces; [by apply symbols_ok_extend|apply Hok|by left|done|done]. }
  set (name := if insn then append "$x" (default ""%string arch) else "$d"%string).
  destruct (make_symbol_refines s A _ fix_ arch m' Hok Hm) as (_ & _ & _ & _ & H5 & H6 & H7 & H8).
  exists (place (here s) name A). apply Hpieces; [| |right; by exists name|done|].
  - apply (symbols_ok_place s A insn fix_ arch n _ m'); [done|done|done| |done].
    destruct Harch as [?|[H1 [H2|(i & H2 & _)]]]; [by left|right; auto..].
  - by apply place_sorted; apply Hok.
  - intros Hi Hal. rewrite H6. destruct Harch as [[-> _]|[-> [H|(i & H & Hnm)]]].
    + rewrite Hi in H7. by exists (length (msyms (sec_map s))).
    + congruence.
    + exists i. split; [done|]. apply (H8 i); [by apply Hnm|done].
Qed.

(** A new frag. *)
Lemma section_frag_ok s A :
  symbols_ok s A -> Forall (piece_ok s A) (sec_pieces s) ->
  let s' := mk_section (sec_map s) (S (sec_frag s)) 0 (sec_arch s) (sec_pieces s) in
  symbols_ok s' A /\ Forall (piece_ok s' A) (sec_pieces s').
Proof.
  intros Hok Hp. cbv zeta. destruct Hok as [Hl Hs Hb Hf Hla Hfi Hh Hk Ha].
  assert (Hlt : Forall (fun e => pos_lt e.1 (S (sec_frag s), 0%nat)) A).
  { eapply Forall_impl; [exact Hb|]. intros e. unfold pos_le, pos_lt, here. simpl. lia. }
  destruct (Hf (S (sec_frag s)) ltac:(lia)) as [Hf1 Hf2]. split.
  - constructor; cbn [sec_map sec_frag sec_fix]; try done.
    + eapply Forall_impl; [exact Hlt|]. intros e. unfold pos_le, pos_lt, here. simpl. lia.
    + intros g Hg. apply Hf. lia.
    + rewrite Hf2. eapply Forall_impl; [exact Hb|]. intros e. unfold pos_le, here. simpl. lia.
    + by rewrite Hf1, Hf2.
    + intros nm HA. apply last_Some in HA as [B ->]. rewrite Forall_app, Forall_cons in Hlt.
      destruct Hlt as (_ & Hlt & _). unfold pos_lt, here in Hlt. simpl in Hlt. lia.
  - eapply Forall_impl; [exact Hp|]. intros pc Hpc. eapply piece_ok_place; [exact Hpc| |by left].
    unfold pos_le, here. simpl. lia.
Qed.

Lemma section_step_ok s e s' :
  section_ok s -> event_ok e -> section_step s e = Some s' -> section_ok s'.
Proof.
  intros (Hne & A & Hok & Hp) He. destruct e as [insn align late n| |a]; cbn [section_step].
  - destruct (if late then _ else _) as [fix_ max] eqn:Efix.
    assert (Hv : (fix_ - max = sec_fix s)%nat) by (destruct late; injection Efix as <- <-; lia).
    destruct (riscv_mapping_state _ _ _ _ _ _ _ _) as [m'|] eqn:Em; [|done]. intros [= <-].
    split; [done|]. by eapply section_put_ok.
  - intros [= <-]. split; [done|]. exists A. by apply section_frag_ok.
  - intros [= <-]. split; [done|]. exists A. split.
    + destruct Hok as [Hl Hs Hb Hf Hla Hfi Hh Hk Ha]. by constructor.
    + eapply Forall_impl; [exact Hp|]. intros pc Hpc. eapply piece_ok_place; [exact Hpc| |by left].
      unfold pos_le, here. simpl. lia.
Qed.

(** Making a symbol for code or data never aborts. *)
Lemma section_step_total s e : exists s', section_step s e = Some s'.
Proof.
  destruct e as [insn align late n| |a]; cbn [section_step]; [|by eexists..].
  destruct (if late then _ else _) as [fix_ max].
  assert (H : exists m', riscv_mapping_state true (sec_arch s) (sec_frag s) fix_
    (if insn then MAP_INSN else MAP_DATA) max align (sec_map s) = Some m').
  { unfold riscv_mapping_state, make_mapping_symbol, new_mapping_symbol. destruct insn;
      cbn [negb set_map_state msyms first_map_symbol last_map_symbol map_state arch_map_symbol];
      repeat case_match; by eexists. }
  destruct H as [m' ->]. by eexists.
Qed.

Lemma section_run_ok es s :
  section_ok s -> Forall event_ok es -> exists s', section_run s es = Some s' /\ section_ok s'.
Proof.
  unfold section_run. revert s. induction es as [|e es IH]; intros s Hs He; [by exists s|].
  inversion He; subst. cbn [foldl]. destruct (section_step_total s e) as [s1 E]. rewrite E.
  apply IH; [|done]. by eapply section_step_ok.
Qed.

Lemma empty_section_ok a : a <> ""%string -> section_ok (empty_section a).
Proof.
  intros Ha. split; [done|]. exists []. split; [|constructor].
  constructor; try done; try constructor; done.
Qed.

(** C18: the mapping symbols tell code from data.  However a section is put
    together from instructions, data, padding, new frags and changes of the
    architecture, no symbol is impossible to make, the symbols that remain are
    in strictly ascending order, the one that rules at each byte of a piece
    says what the piece is, and the last architecture named where it starts is
    the one an instruction was assembled under.  Instructions and code
    padding are not empty. *)
Theorem mapping_symbols_classify (a : string) (es : list event) :
  a <> ""%string -> Forall event_ok es ->
  exists s, section_run (empty_section a) es = Some s /\
    let A := live (msyms (sec_map s)) in
    StronglySorted (fun e e' => pos_lt e.1 e'.1) A /\
    Forall (fun pc =>
      let p := (pc_frag pc, pc_off pc) in
      (forall k, (k < pc_len pc)%nat -> exists n, in_force A (pc_frag pc, pc_off pc + k)%nat = Some n /\
         kind n = (if pc_insn pc then MAP_INSN else MAP_DATA)) /\
      (pc_insn pc = true -> pc_align pc = false ->
         arch_in_force A p = Some (append "$x" (pc_arch pc)))) (sec_pieces s).
Proof.
  intros Ha He. destruct (section_run_ok es _ (empty_section_ok a Ha) He) as (s & Hr & _ & A & Hok & Hp).
  exists s. split; [done|]. cbv zeta. rewrite (i_live _ _ Hok). split; [apply Hok|].
  eapply Forall_impl; [exact Hp|]. intros pc [_ H1 H2 _]. done.
Qed.

Lemma mapping_symbols_classify_witness :
  exists s, section_run (empty_section "rv64i2p1")
      [E_put true false false 4; E_put false false false 0; E_put false false false 8;
       E_arch "rv64i2p1_c2p0"; E_put true true true 6; E_new_frag; E_put true false false 2] = Some s /\
    live (msyms (sec_map s))
    = [((0, 0)%nat, "$xrv64i2p1"%string); ((0, 4)%nat, "$d"%string); ((0, 12)%nat, "$x"%string);
       ((1, 0)%nat, "$xrv64i2p1_c2p0"%string)] /\
    Forall (fun pc => forall k, (k < pc_len pc)%nat -> exists n,
      in_force (live (msyms (sec_map s))) (pc_frag pc, pc_off pc + k)%nat = Some n /\
      kind n = (if pc_insn pc then MAP_INSN else MAP_DATA)) (sec_pieces s).
Proof.
  destruct (mapping_symbols_classify "rv64i2p1"
    [E_put true false false 4; E_put false false false 0; E_put false false false 8;
     E_arch "rv64i2p1_c2p0"; E_put true true true 6; E_new_frag; E_put true false false 2])
    as (s & Hr & _ & H).
  - discriminate.
  - repeat constructor; simpl; try discriminate; lia.
  - exists s. split; [exact Hr|]. vm_compute in Hr. injection Hr as <-.
    split; [vm_compute; reflexivity|].
    eapply Forall_impl; [exact H|]. intros pc [H1 _]. exact H1.
Defined.

(** The arch symbol can be lost in the layout.  Padding without bytes at
    the start of a section carries the only symbol with the architecture; when
    data follows, [riscv_check_mapping_symbols] keeps the data symbol, and the
    code after the data starts with a plain [$x]. *)
Theorem first_arch_symbol_lost :
  exists s, section_run (empty_section "rv64i2p1")
      [E_put true true true 7; E_new_frag; E_put false false false 4; E_put true false false 4] = Some s /\
    live (msyms (riscv_check_mapping_symbols (fun _ => 0) [0; 1]%nat (sec_map s)))
    = [((1, 0)%nat, "$d"%string); ((1, 4)%nat, "$x"%string)].
Proof. eexists. split; vm_compute; reflexivity. Qed.
