(* ===== verification/Options.v ===== *)
(** * Options of the assembler (gas/config/tc-riscv.c)

    The command-line options, the start-up after them, the [.option] directive
    with its stack, the ABI and privileged-specification settings made before
    the first instruction, and the ELF attributes written at the end. *)
From Stdlib Require Import ZArith Bool Lia Ascii String.
From stdpp Require Import base list strings.
From S2P Require Import Prelude SubsetTables Subset Regs.

#[local] Open Scope Z_scope.
#[local] Open Scope c_scope.
#[local] Open Scope list_scope.

(** ** State *)

Inductive float_abi_t : Set :=
| FLOAT_ABI_DEFAULT | FLOAT_ABI_SOFT | FLOAT_ABI_SINGLE | FLOAT_ABI_DOUBLE | FLOAT_ABI_QUAD.

#[export] Instance float_abi_t_eq_dec : EqDecision float_abi_t.
Proof. solve_decision. Defined.

Definition float_abi_value (f : float_abi_t) : Z :=
  match f with
  | FLOAT_ABI_DEFAULT => -1 | FLOAT_ABI_SOFT => 0 | FLOAT_ABI_SINGLE => 1
  | FLOAT_ABI_DOUBLE => 2 | FLOAT_ABI_QUAD => 3
  end.

Abbreviation EF_RISCV_RVC := 0x0001.
Abbreviation EF_RISCV_FLOAT_ABI := 0x0006.
Abbreviation EF_RISCV_RVE := 0x0008.
Abbreviation EF_RISCV_TSO := 0x0010.

(** What [as_bad], [as_warn] and [as_fatal] are called with; the messages of
    the subset parser are in the log of [rps]. *)
Inductive option_msg : Set :=
| M_unknown_isa_spec (s : string) | M_unknown_priv_spec (s : string)
| M_unknown_priv_attr (major minor revision : Z)
| M_arch_empty | M_abi_too_wide | M_abi_too_narrow | M_abi_rve
| M_abi_float (f : float_abi_t) | M_default_arch | M_pop_without_push
| M_unrecognized_option (name : string) | M_bad_priv_spec (s : string).

(** The globals.  [rps] is [riscv_rps_as]: its list, and through its pointers
    [xlen] and [default_isa_spec].  [attr_priv] holds the three integer ELF
    attributes of the privileged specification, [attr_arch] the string one. *)
Record settings : Type := mk_settings {
  default_arch_with_ext : option string;
  rps : riscv_parse_subset_t;
  priv_spec : riscv_spec_class;                 (* default_priv_spec *)
  opts : riscv_set_options;                     (* riscv_opts *)
  opts_stack : list (riscv_set_options * riscv_subset_list_t);
  abi_xlen : Z;
  float_abi : float_abi_t;
  rve_abi : bool;
  explicit_mabi : bool;
  elf_flags : Z;
  big_endian : bool;
  dwarf_cie_version : Z;                        (* flag_dwarf_cie_version *)
  start_assemble : bool;
  explicit_attr : bool;
  priv_used : bool;                             (* explicit_priv_attr *)
  attr_arch : option string;
  attr_priv : Z * Z * Z;
  msgs : list option_msg;
}.

Definition with_rps (s : settings) (r : riscv_parse_subset_t) : settings :=
  mk_settings (default_arch_with_ext s) r (priv_spec s) (opts s) (opts_stack s) (abi_xlen s)
    (float_abi s) (rve_abi s) (explicit_mabi s) (elf_flags s) (big_endian s) (dwarf_cie_version s)
    (start_assemble s) (explicit_attr s) (priv_used s) (attr_arch s) (attr_priv s) (msgs s).
Definition with_priv_spec (s : settings) (c : riscv_spec_class) : settings :=
  mk_settings (default_arch_with_ext s) (rps s) c (opts s) (opts_stack s) (abi_xlen s)
    (float_abi s) (rve_abi s) (explicit_mabi s) (elf_flags s) (big_endian s) (dwarf_cie_version s)
    (start_assemble s) (explicit_attr s) (priv_used s) (attr_arch s) (attr_priv s) (msgs s).
Definition with_opts (s : settings) (o : riscv_set_options) : settings :=
  mk_settings (default_arch_with_ext s) (rps s) (priv_spec s) o (opts_stack s) (abi_xlen s)
    (float_abi s) (rve_abi s) (explicit_mabi s) (elf_flags s) (big_endian s) (dwarf_cie_version s)
    (start_assemble s) (explicit_attr s) (priv_used s) (attr_arch s) (attr_priv s) (msgs s).
Definition with_stack (s : settings) (st : list (riscv_set_options * riscv_subset_list_t))
  : settings :=
  mk_settings (default_arch_with_ext s) (rps s) (priv_spec s) (opts s) st (abi_xlen s)
    (float_abi s) (rve_abi s) (explicit_mabi s) (elf_flags s) (big_endian s) (dwarf_cie_version s)
    (start_assemble s) (explicit_attr s) (priv_used s) (attr_arch s) (attr_priv s) (msgs s).
Definition with_elf_flags (s : settings) (f : Z) : settings :=
  mk_settings (default_arch_with_ext s) (rps s) (priv_spec s) (opts s) (opts_stack s) (abi_xlen s)
    (float_abi s) (rve_abi s) (explicit_mabi s) f (big_endian s) (dwarf_cie_version s)
    (start_assemble s) (explicit_attr s) (priv_used s) (attr_arch s) (attr_priv s) (msgs s).
Definition with_arch_option (s : settings) (a : string) : settings :=
  mk_settings (Some a) (rps s) (priv_spec s) (opts s) (opts_stack s) (abi_xlen s)
    (float_abi s) (rve_abi s) (explicit_mabi s) (elf_flags s) (big_endian s) (dwarf_cie_version s)
    (start_assemble s) (explicit_attr s) (priv_used s) (attr_arch s) (attr_priv s) (msgs s).
Definition with_mabi (s : settings) : settings :=
  mk_settings (default_arch_with_ext s) (rps s) (priv_spec s) (opts s) (opts_stack s) (abi_xlen s)
    (float_abi s) (rve_abi s) true (elf_flags s) (big_endian s) (dwarf_cie_version s)
    (start_assemble s) (explicit_attr s) (priv_used s) (attr_arch s) (attr_priv s) (msgs s).
Definition with_endian (s : settings) (b : bool) : settings :=
  mk_settings (default_arch_with_ext s) (rps s) (priv_spec s) (opts s) (opts_stack s) (abi_xlen s)
    (float_abi s) (rve_abi s) (explicit_mabi s) (elf_flags s) b (dwarf_cie_version s)
    (start_assemble s) (explicit_attr s) (priv_used s) (attr_arch s) (attr_priv s) (msgs s).
Definition with_cie_version (s : settings) (v : Z) : settings :=
  mk_settings (default_arch_with_ext s) (rps s) (priv_spec s) (opts s) (opts_stack s) (abi_xlen s)
    (float_abi s) (rve_abi s) (explicit_mabi s) (elf_flags s) (big_endian s) v
    (start_assemble s) (explicit_attr s) (priv_used s) (attr_arch s) (attr_priv s) (msgs s).
Definition with_started (s : settings) : settings :=
  mk_settings (default_arch_with_ext s) (rps s) (priv_spec s) (opts s) (opts_stack s) (abi_xlen s)
    (float_abi s) (rve_abi s) (explicit_mabi s) (elf_flags s) (big_endian s) (dwarf_cie_version s)
    true (explicit_attr s) (priv_used s) (attr_arch s) (attr_priv s) (msgs s).
Definition with_attrs (s : settings) (a : option string) (p : Z * Z * Z) : settings :=
  mk_settings (default_arch_with_ext s) (rps s) (priv_spec s) (opts s) (opts_stack s) (abi_xlen s)
    (float_abi s) (rve_abi s) (explicit_mabi s) (elf_flags s) (big_endian s) (dwarf_cie_version s)
    (start_assemble s) (explicit_attr s) (priv_used s) a p (msgs s).
Definition with_explicit_attr (s : settings) : settings :=
  mk_settings (default_arch_with_ext s) (rps s) (priv_spec s) (opts s) (opts_stack s) (abi_xlen s)
    (float_abi s) (rve_abi s) (explicit_mabi s) (elf_flags s) (big_endian s) (dwarf_cie_version s)
    (start_assemble s) true (priv_used s) (attr_arch s) (attr_priv s) (msgs s).
Definition message (s : settings) (m : option_msg) : settings :=
  mk_settings (default_arch_with_ext s) (rps s) (priv_spec s) (opts s) (opts_stack s) (abi_xlen s)
    (float_abi s) (rve_abi s) (explicit_mabi s) (elf_flags s) (big_endian s) (dwarf_cie_version s)
    (start_assemble s) (explicit_attr s) (priv_used s) (attr_arch s) (attr_priv s) (msgs s ++ [m]).
Definition message_if (b : bool) (m : option_msg) (s : settings) : settings :=
  if b then message s m else s.

Definition has_ext (s : settings) (feature : string) : bool := riscv_subset_supports (rps s) feature.

(** ** Specifications *)

(** [RISCV_GET_SPEC_CLASS]: [None] leaves the class alone. *)
Definition spec_class (specs : list (string * riscv_spec_class)) (name : string)
  : option riscv_spec_class :=
  snd <$> List.find (fun p => String.eqb (fst p) name) specs.

(** [riscv_get_priv_spec_class_from_numbers]; [buf] has 36 bytes. *)
Definition riscv_get_priv_spec_class_from_numbers (major minor revision : Z)
    (class : riscv_spec_class) : riscv_spec_class :=
  let dot := ["."%char] in
  let text := fmt_u major ++ dot ++ fmt_u minor
              ++ (if revision =? 0 then [] else dot ++ fmt_u revision) in
  default class (spec_class riscv_priv_specs (unchars (snprintf 36 text))).

Definition set_isa_spec (s : settings) (c : riscv_spec_class) : settings :=
  with_rps s (mk_rps (subset_list (rps s)) (errors (rps s)) (rps_xlen (rps s)) c
                (check_unknown_prefixed_ext (rps s))).

Definition riscv_set_default_isa_spec (s : settings) (name : string) : settings * bool :=
  match spec_class riscv_isa_specs name with
  | None => (message s (M_unknown_isa_spec name), false)
  | Some c => (set_isa_spec s c, true)
  end.

(** [riscv_set_default_priv_spec]; without a name, from the attributes. *)
Definition riscv_set_default_priv_spec (s : settings) (name : option string) : settings * bool :=
  match name with
  | Some n =>
      match spec_class riscv_priv_specs n with
      | Some c => (with_priv_spec s c, true)
      | None => (message s (M_unknown_priv_spec n), false)
      end
  | None =>
      let '(major, minor, revision) := attr_priv s in
      if (major =? 0) && (minor =? 0) && (revision =? 0) then (s, true)
      else
        let class := riscv_get_priv_spec_class_from_numbers major minor revision
                       PRIV_SPEC_CLASS_NONE in
        if bool_decide (class = PRIV_SPEC_CLASS_NONE)
        then (message s (M_unknown_priv_attr major minor revision), false)
        else (with_priv_spec s class, true)
  end.

(** ** Architecture and ABI *)

Definition riscv_set_rvc (s : settings) (rvc_value : bool) : settings :=
  let s := if rvc_value then with_elf_flags s (elf_flags s .| EF_RISCV_RVC) else s in
  let o := opts s in
  with_opts s (mk_opts (pic o) rvc_value (relax o) (arch_attr o) (csr_check o)).

Definition riscv_set_tso (s : settings) : settings :=
  with_elf_flags s (elf_flags s .| EF_RISCV_TSO).

Definition set_arch_str (l : riscv_subset_list_t) (a : string) : riscv_subset_list_t :=
  mk_subset_list (nodes l) (tail l) (Some a).

Definition riscv_reset_subsets_list_arch_str (s : settings) : settings :=
  let l := subset_list (rps s) in
  with_rps s (set_subset_list (rps s) (set_arch_str l (unchars (riscv_arch_str (rps_xlen (rps s)) l)))).

(** The flags that follow from the extensions, at the end of [riscv_set_arch]
    and of [.option arch]. *)
Definition flags_from_exts (s : settings) : settings :=
  let s := riscv_set_rvc s false in
  let s := if has_ext s "c" || has_ext s "zca" then riscv_set_rvc s true else s in
  if has_ext s "ztso" then riscv_set_tso s else s.

(** [riscv_set_arch]; [None] is the null pointer of a missing -march. *)
Definition riscv_set_arch (s : settings) (arch : option string) : settings :=
  if bool_decide (arch = Some ""%string) then message s M_arch_empty
  else
    let r := set_subset_list (rps s) (riscv_release_subset_list (subset_list (rps s))) in
    flags_from_exts (riscv_reset_subsets_list_arch_str (with_rps s (riscv_parse_subset r arch).1)).

Definition riscv_set_abi (s : settings) (new_xlen : Z) (new_float_abi : float_abi_t) (rve : bool)
  : settings :=
  mk_settings (default_arch_with_ext s) (rps s) (priv_spec s) (opts s) (opts_stack s) new_xlen
    new_float_abi rve (explicit_mabi s) (elf_flags s) (big_endian s) (dwarf_cie_version s)
    (start_assemble s) (explicit_attr s) (priv_used s) (attr_arch s) (attr_priv s) (msgs s).

(** [riscv_set_abi_by_arch]; [None] is the failed assertion. *)
Definition riscv_set_abi_by_arch (s : settings) : option settings :=
  let xlen := rps_xlen (rps s) in
  let chosen :=
    if negb (explicit_mabi s) then
      Some (if has_ext s "q" then riscv_set_abi s xlen FLOAT_ABI_QUAD false
            else if has_ext s "d" then riscv_set_abi s xlen FLOAT_ABI_DOUBLE false
            else if has_ext s "e" then riscv_set_abi s xlen FLOAT_ABI_SOFT true
            else riscv_set_abi s xlen FLOAT_ABI_SOFT false)
    else if (abi_xlen s =? 0) || (xlen =? 0) || bool_decide (float_abi s = FLOAT_ABI_DEFAULT)
    then None
    else
      let s1 := if xlen <? abi_xlen s then message s M_abi_too_wide
                else message_if (abi_xlen s <? xlen) M_abi_too_narrow s in
      let s2 := message_if (has_ext s "e" && negb (rve_abi s)) M_abi_rve s1 in
      Some (match float_abi s with
            | FLOAT_ABI_SINGLE => message_if (negb (has_ext s "f")) (M_abi_float FLOAT_ABI_SINGLE) s2
            | FLOAT_ABI_DOUBLE => message_if (negb (has_ext s "d")) (M_abi_float FLOAT_ABI_DOUBLE) s2
            | FLOAT_ABI_QUAD => message_if (negb (has_ext s "q")) (M_abi_float FLOAT_ABI_QUAD) s2
            | _ => s2
            end) in
  match chosen with
  | None => None
  | Some s =>
      let flags := (elf_flags s .& u32 (Z.lnot EF_RISCV_FLOAT_ABI))
                   .| u32 (float_abi_value (float_abi s) << 1) in
      Some (with_elf_flags s (if rve_abi s then flags .| EF_RISCV_RVE else flags))
  end.

(** ** Command line *)

Inductive option_code : Set :=
| OPTION_MARCH | OPTION_PIC | OPTION_NO_PIC | OPTION_MABI | OPTION_RELAX | OPTION_NO_RELAX
| OPTION_ARCH_ATTR | OPTION_NO_ARCH_ATTR | OPTION_CSR_CHECK | OPTION_NO_CSR_CHECK
| OPTION_MISA_SPEC | OPTION_MPRIV_SPEC | OPTION_BIG_ENDIAN | OPTION_LITTLE_ENDIAN
| OPTION_OTHER.

Definition set_pic (s : settings) (b : bool) : settings :=
  let o := opts s in with_opts s (mk_opts b (rvc o) (relax o) (arch_attr o) (csr_check o)).
Definition set_relax_opt (s : settings) (b : bool) : settings :=
  let o := opts s in with_opts s (mk_opts (pic o) (rvc o) b (arch_attr o) (csr_check o)).
Definition set_arch_attr (s : settings) (b : bool) : settings :=
  let o := opts s in with_opts s (mk_opts (pic o) (rvc o) (relax o) b (csr_check o)).
Definition set_csr_check (s : settings) (b : bool) : settings :=
  let o := opts s in with_opts s (mk_opts (pic o) (rvc o) (relax o) (arch_attr o) b).

(** The names of [-mabi]. *)
Definition abi_names : list (string * (Z * float_abi_t * bool)) :=
  [("ilp32", (32, FLOAT_ABI_SOFT, false)); ("ilp32e", (32, FLOAT_ABI_SOFT, true));
   ("ilp32f", (32, FLOAT_ABI_SINGLE, false)); ("ilp32d", (32, FLOAT_ABI_DOUBLE, false));
   ("ilp32q", (32, FLOAT_ABI_QUAD, false));
   ("lp64", (64, FLOAT_ABI_SOFT, false)); ("lp64e", (64, FLOAT_ABI_SOFT, true));
   ("lp64f", (64, FLOAT_ABI_SINGLE, false)); ("lp64d", (64, FLOAT_ABI_DOUBLE, false));
   ("lp64q", (64, FLOAT_ABI_QUAD, false))]%string.

(** [md_parse_option (c, arg)]; false is "not recognised". *)
Definition md_parse_option (s : settings) (c : option_code) (arg : string) : settings * bool :=
  match c with
  | OPTION_MARCH => (with_arch_option s arg, true)
  | OPTION_NO_PIC => (set_pic s false, true)
  | OPTION_PIC => (set_pic s true, true)
  | OPTION_MABI =>
      match List.find (fun p => String.eqb (fst p) arg) abi_names with
      | Some (_, (x, f, e)) => (with_mabi (riscv_set_abi s x f e), true)
      | None => (s, false)
      end
  | OPTION_RELAX => (set_relax_opt s true, true)
  | OPTION_NO_RELAX => (set_relax_opt s false, true)
  | OPTION_ARCH_ATTR => (set_arch_attr s true, true)
  | OPTION_NO_ARCH_ATTR => (set_arch_attr s false, true)
  | OPTION_CSR_CHECK => (set_csr_check s true, true)
  | OPTION_NO_CSR_CHECK => (set_csr_check s false, true)
  | OPTION_MISA_SPEC => riscv_set_default_isa_spec s arg
  | OPTION_MPRIV_SPEC => riscv_set_default_priv_spec s (Some arg)
  | OPTION_BIG_ENDIAN => (with_endian s true, true)
  | OPTION_LITTLE_ENDIAN => (with_endian s false, true)
  | OPTION_OTHER => (s, false)
  end.

(** The globals before any option; [attr_default] is [DEFAULT_RISCV_ATTR] and
    [arch] is [DEFAULT_RISCV_ARCH_WITH_EXT], both set by the build. *)
Definition initial_settings (attr_default : bool) (arch : option string) : settings :=
  mk_settings arch (mk_rps (mk_subset_list [] None None) [] 0 ISA_SPEC_CLASS_NONE true)
    PRIV_SPEC_CLASS_NONE (mk_opts false false true attr_default false) [] 0 FLOAT_ABI_DEFAULT false
    false 0 false (-1) false false false None (0, 0, 0) [].

(** [riscv_after_parse_args]; [default_arch] is [DEFAULT_ARCH]. *)
Definition riscv_after_parse_args (default_arch : string) (s : settings) : settings :=
  let s := if negb (rps_xlen (rps s) =? 0) then s
           else if String.eqb default_arch "riscv32" then with_rps s (set_rps_xlen (rps s) 32)
           else if String.eqb default_arch "riscv64" then with_rps s (set_rps_xlen (rps s) 64)
           else message s M_default_arch in
  let s := if bool_decide (isa_spec (rps s) = ISA_SPEC_CLASS_NONE)
           then (riscv_set_default_isa_spec s "20191213").1 else s in
  let s := if bool_decide (priv_spec s = PRIV_SPEC_CLASS_NONE)
           then (riscv_set_default_priv_spec s (Some "1.11"%string)).1 else s in
  let s := riscv_set_arch s (default_arch_with_ext s) in
  if dwarf_cie_version s =? -1 then with_cie_version s 3 else s.

(** ** Directives *)

(** The text after "arch,", without one leading space. *)
Definition option_arch_arg (name : string) : option string :=
  match strip_prefix (chars "arch,") (chars name) with
  | Some (c :: p) => Some (unchars (if is_space c then p else c :: p))
  | Some [] => Some ""%string
  | None => None
  end.

Section directives.

(** The byte in front of a copied argument, and what [xmalloc] leaves in the
    tail pointer of a copied empty list. *)
Context (before : ascii) (garbage : option nat).

(** [riscv_update_subset] on [riscv_rps_as], then the new architecture string. *)
Definition update_arch (s : settings) (arg : string) : settings :=
  riscv_reset_subsets_list_arch_str (with_rps s (riscv_update_subset before (rps s) arg).1).

(** [s_riscv_option] on the text of the line. *)
Definition s_riscv_option (s : settings) (name : string) : settings :=
  if String.eqb name "rvc" then riscv_set_rvc (update_arch s "+c") true
  else if String.eqb name "norvc" then riscv_set_rvc (update_arch s "-c") false
  else if String.eqb name "pic" then set_pic s true
  else if String.eqb name "nopic" then set_pic s false
  else if String.eqb name "relax" then set_relax_opt s true
  else if String.eqb name "norelax" then set_relax_opt s false
  else if String.eqb name "csr-check" then set_csr_check s true
  else if String.eqb name "no-csr-check" then set_csr_check s false
  else
    match option_arch_arg name with
    | Some arg => flags_from_exts (update_arch s arg)
    | None =>
        if String.eqb name "push" then
          with_rps (with_stack s ((opts s, subset_list (rps s)) :: opts_stack s))
            (set_subset_list (rps s) (riscv_copy_subset_list garbage (subset_list (rps s))))
        else if String.eqb name "pop" then
          match opts_stack s with
          | [] => message s M_pop_without_push
          | (o, l) :: st => with_rps (with_opts (with_stack s st) o) (set_subset_list (rps s) l)
          end
        else message s (M_unrecognized_option name)
    end.

End directives.

(** The attributes [.attribute] can name. *)
Inductive attribute : Set :=
| Tag_RISCV_arch (v : string)
| Tag_RISCV_priv_spec (v : Z) | Tag_RISCV_priv_spec_minor (v : Z)
| Tag_RISCV_priv_spec_revision (v : Z)
| Tag_other.

(** [s_riscv_attribute]: the generic directive has stored the value, then the
    port reacts to it; [None] is [as_fatal]. *)
Definition s_riscv_attribute (s : settings) (a : attribute) : option settings :=
  let s := with_explicit_attr s in
  let '(major, minor, revision) := attr_priv s in
  match a with
  | Tag_RISCV_arch v =>
      let s := with_attrs s (Some v) (attr_priv s) in
      if start_assemble s then None else Some (riscv_set_arch s (Some v))
  | Tag_RISCV_priv_spec v =>
      if start_assemble s then None else Some (with_attrs s (attr_arch s) (v, minor, revision))
  | Tag_RISCV_priv_spec_minor v =>
      if start_assemble s then None else Some (with_attrs s (attr_arch s) (major, v, revision))
  | Tag_RISCV_priv_spec_revision v =>
      if start_assemble s then None else Some (with_attrs s (attr_arch s) (major, minor, v))
  | Tag_other => Some s
  end.

(** What [md_assemble] does at the first instruction; false when it gives up on
    the instruction, [None] for the failed assertion. *)
Definition first_instruction (s : settings) : option (settings * bool) :=
  if start_assemble s then Some (s, true)
  else
    match riscv_set_abi_by_arch (with_started s) with
    | None => None
    | Some s => Some (riscv_set_default_priv_spec s None)
    end.

(** ** Attributes at the end *)

(** The loop of [riscv_write_out_attrs] over the name of the privileged
    specification: [i], [number], [versions]; [None] is its internal error. *)
Fixpoint parse_priv_name (p : list ascii) (i : nat) (number : Z) (versions : list Z)
  : option (list Z) :=
  match p with
  | [] => Some (<[i := number]> versions)
  | c :: p =>
      if Ascii.eqb c "." && (i <? 3)%nat
      then parse_priv_name p (S i) 0 (<[i := number]> versions)
      else if is_digit c then parse_priv_name p i (u32 (number * 10 + (Z.of_nat (nat_of_ascii c) - 48))) versions
      else None
  end.

(** [riscv_write_out_attrs]; [None] if there is no name for the specification. *)
Definition riscv_write_out_attrs (s : settings) : option settings :=
  let s := with_attrs s (arch_str (subset_list (rps s))) (attr_priv s) in
  let '(s, ok) := if start_assemble s then (s, true) else riscv_set_default_priv_spec s None in
  if negb ok || negb (priv_used s) then Some s
  else
    match priv_spec_name (priv_spec s) with
    | None => None
    | Some priv_str =>
        match parse_priv_name (chars priv_str) 0 0 [0; 0; 0] with
        | Some [major; minor; revision] => Some (with_attrs s (attr_arch s) (major, minor, revision))
        | _ => Some (message s (M_bad_priv_spec priv_str))
        end
    end.

Definition riscv_set_public_attributes (s : settings) : option settings :=
  if arch_attr (opts s) || explicit_attr s then riscv_write_out_attrs s else Some s.

(** The view of the settings the operand parser has. *)
Definition env_of (ulong : Z) (s : settings) : as_env :=
  mk_as_env (rps s) (rps_xlen (rps s)) (opts s) (priv_spec s) ulong.
