(* ===== verification/OptionsSpec.v ===== *)
(** * Properties of the assembler options

    The invariant of the option state over all command lines and directives,
    what [.option push] and [.option pop] restore, and the ELF attributes read
    back. *)
From Stdlib Require Import ZArith Bool Lia Ascii String.
From stdpp Require Import base list strings gmap.
From S2P Require Import Prelude SubsetTables Subset SubsetOrder SubsetSpec SubsetParse SubsetPrint Regs Options.

#[local] Open Scope Z_scope.
#[local] Open Scope c_scope.
#[local] Open Scope list_scope.

(** ** What the subset parser leaves alone *)

Definition keeps (r r' : riscv_parse_subset_t) : Prop :=
  isa_spec r' = isa_spec r /\ check_unknown_prefixed_ext r' = check_unknown_prefixed_ext r.

#[local] Instance keeps_preorder : PreOrder keeps.
Proof. split; [by split|]. intros r1 r2 r3 [H1 H2] [H3 H4]. split; congruence. Qed.

Lemma keeps_add r s M m imp : keeps r (riscv_parse_add_subset r s M m imp).
Proof. unfold riscv_parse_add_subset. by repeat split_match. Qed.

Lemma keeps_extensions fuel r p : keeps r (parse_extensions_loop fuel r p).1.
Proof.
  revert r p. induction fuel as [|fuel IH]; intros r p; destruct p as [|c p];
    cbn [parse_extensions_loop]; try done.
  destruct (Ascii.eqb c "_"); [apply IH|].
  destruct (_ && _); [done|]. destruct (split_extension _) as [r0 rest].
  destruct (_ && _); [done|]. destruct (riscv_parsing_subset_version rest) as [[e M] m].
  destruct (_ && _ && _); [done|]. cbv zeta.
  match goal with |- context [parse_extensions_loop fuel ?r' _] => set (r1 := r') end.
  assert (H1 : keeps r r1) by (unfold r1; split_match; apply keeps_add).
  match goal with |- context [if ?b then (error_handler _ E_separate, _) else _] =>
    destruct b end; [exact H1|]. etransitivity; [exact H1|apply IH].
Qed.

Lemma keeps_implicit r : keeps r (riscv_parse_add_implicit_subsets r).
Proof.
  unfold riscv_parse_add_implicit_subsets. generalize (length riscv_implicit_subsets). intros n.
  revert r. induction n as [|n IH]; intros r; cbn [add_implicit_loop]; [done|].
  destruct (List.find _ _); [|done]. etransitivity; [apply keeps_add|apply IH].
Qed.

Lemma keeps_conflict_if b e r st : keeps r st.1 -> keeps r (conflict_if b e st).1.
Proof. by destruct b. Qed.

Lemma keeps_conflicts r : keeps r (riscv_parse_check_conflicts r).1.
Proof. unfold riscv_parse_check_conflicts. cbv zeta. by repeat apply keeps_conflict_if. Qed.

Lemma keeps_close r : keeps r (riscv_parse_check_conflicts (riscv_parse_add_implicit_subsets r)).1.
Proof. etransitivity; [apply keeps_implicit|apply keeps_conflicts]. Qed.

Lemma foldl_inv {A B} (P : B -> Prop) (f : B -> A -> B) (l : list A) (b : B) :
  P b -> (forall b a, In a l -> P b -> P (f b a)) -> P (foldl f b l).
Proof.
  revert b. induction l as [|a l IH]; intros b Hb Hf; [done|]. cbn [foldl].
  apply IH; [apply Hf; [by left|done]|]. intros b' a' Ha. apply Hf. by right.
Qed.

(** The extensions enabled without -march. *)
Lemma default_exts_ok :
  forallb (forallb (fun e => ok_ext (ext_name e))) riscv_all_supported_ext = true.
Proof. vm_compute. reflexivity. Qed.

Lemma default_arch_inv r :
  subset_list_wf (subset_list r) ->
  keeps r (riscv_set_default_arch r) /\ subset_list_wf (subset_list (riscv_set_default_arch r)).
Proof.
  intros Hwf. pose proof default_exts_ok as Hok. rewrite forallb_forall in Hok.
  unfold riscv_set_default_arch.
  apply (foldl_inv (fun r' => keeps r r' /\ subset_list_wf (subset_list r'))); [done|].
  intros r1 table Ht Hr1. specialize (Hok table Ht). rewrite forallb_forall in Hok.
  unfold add_default_exts.
  apply (foldl_inv (fun r' => keeps r r' /\ subset_list_wf (subset_list r'))); [done|].
  intros r2 e He [Hk Hw]. destruct (negb _); [|done]. split.
  - etransitivity; [exact Hk|apply keeps_add].
  - apply riscv_parse_add_subset_wf; [done|exact (Hok e He)].
Qed.

Lemma keeps_parse r arch : keeps r (riscv_parse_subset r (Some arch)).1.
Proof.
  unfold riscv_parse_subset. destruct (existsb is_upper (chars arch)); [done|].
  assert (H : forall x p, keeps r
    (match riscv_parse_extensions (set_rps_xlen r x) p with
     | (r', false) => (r', false)
     | (r', true) => riscv_parse_check_conflicts (riscv_parse_add_implicit_subsets r')
     end).1).
  { intros x p. unfold riscv_parse_extensions. destruct (_ && _ && _); [done|].
    pose proof (keeps_extensions (length p) (set_rps_xlen r x) p) as H.
    destruct (parse_extensions_loop _ _ p) as [r' []]; [|done].
    etransitivity; [exact H|apply keeps_close]. }
  destruct (strip_prefix (chars "rv32") (chars arch)); [apply H|].
  destruct (strip_prefix (chars "rv64") (chars arch)); [apply H|]. by destruct (chars arch).
Qed.

(** [riscv_parse_subset] from any well-formed list. *)
Lemma parse_subset_inv r arch :
  subset_list_wf (subset_list r) -> check_unknown_prefixed_ext r = true ->
  (forall a, arch = Some a -> ~ In "000"%char (chars a)) ->
  keeps r (riscv_parse_subset r arch).1 /\ subset_list_wf (subset_list (riscv_parse_subset r arch).1).
Proof.
  intros Hwf Hu Ha. destruct arch as [a|].
  - split; [apply keeps_parse|].
    destruct (riscv_parse_subset r (Some a)) as [r' ok] eqn:E.
    by apply riscv_parse_subset_string in E as [H _]; auto.
  - unfold riscv_parse_subset. destruct (default_arch_inv r Hwf) as [Hk Hw].
    split; [etransitivity; [exact Hk|apply keeps_close]|].
    destruct (riscv_parse_check_conflicts _) as [r' ok] eqn:E.
    by apply close_and_check in E as [H _].
Qed.

Lemma keeps_update fuel before r p : keeps r (update_loop fuel before r p).1.
Proof.
  revert r p. induction fuel as [|fuel IH]; intros r p;
    assert (Hrestart : forall q, keeps r (riscv_parse_subset (set_subset_list r
      (riscv_release_subset_list (subset_list r))) (Some q)).1)
      by (intros q; exact (keeps_parse (set_subset_list r
      (riscv_release_subset_list (subset_list r))) q));
    destruct p as [|sign p]; cbn [update_loop]; try apply Hrestart; [done|].
  destruct (_ && _); [apply Hrestart|]. destruct (split_option p) as [r0 rest].
  destruct (_ && _); [done|]. destruct (riscv_parsing_subset_version rest) as [[e M] m].
  match goal with |- context [if ?b then (error_handler _ (match _ with [] => E_option_unknown _ | _ => _ end), _) else _] =>
    destruct b end; [done|].
  match goal with |- context [if ?b then (error_handler _ (E_option_base _), _) else _] =>
    destruct b end; [done|].
  cbv zeta. set (r1 := if Ascii.eqb sign "-" then _ else _).
  assert (H1 : keeps r r1) by (unfold r1; destruct (Ascii.eqb sign "-"); [done|apply keeps_add]).
  assert (Hend : keeps r (riscv_parse_check_conflicts (riscv_parse_add_implicit_subsets r1)).1)
    by (etransitivity; [exact H1|apply keeps_close]).
  destruct e as [|d e]; [done|].
  destruct d as [[] [] [] [] [] [] [] []]; try exact Hend. etransitivity; [exact H1|apply IH].
Qed.

(** ** The invariant *)

Section consistent.

(** The values of xlen that have been in force. *)
Context (X : Z -> Prop).

(** The architecture string kept with a list is the printed list. *)
Definition arch_str_ok (l : riscv_subset_list_t) : Prop :=
  exists xlen, X xlen /\ arch_str l = Some (unchars (riscv_arch_str xlen l)).

Definition compressed (l : riscv_subset_list_t) : Prop := has (exts l) "c" \/ has (exts l) "zca".

(** A set of options with its list, under the ELF flags collected so far. *)
Record saved_ok (flags : Z) (ol : riscv_set_options * riscv_subset_list_t) : Prop := {
  so_wf : subset_list_wf ol.2;
  so_arch : arch_str_ok ol.2;
  so_rvc : rvc ol.1 = true -> compressed ol.2 /\ Z.testbit flags 0 = true;
}.

Record settings_ok (s : settings) : Prop := {
  ok_check : check_unknown_prefixed_ext (rps s) = true;
  ok_now : saved_ok (elf_flags s) (opts s, subset_list (rps s));
  ok_stack : Forall (saved_ok (elf_flags s)) (opts_stack s);
}.

(** A state before the architecture is set. *)
Record settings_fresh (s : settings) : Prop := {
  fr_check : check_unknown_prefixed_ext (rps s) = true;
  fr_list : subset_list_wf (subset_list (rps s));
  fr_stack : opts_stack s = [];
}.

Lemma saved_ok_flags flags flags' ol :
  saved_ok flags ol -> (Z.testbit flags 0 = true -> Z.testbit flags' 0 = true) -> saved_ok flags' ol.
Proof. intros [H1 H2 H3] Hf. constructor; [done|done|]. intros Hr. destruct (H3 Hr). auto. Qed.

Lemma stack_flags flags flags' st :
  Forall (saved_ok flags) st -> (Z.testbit flags 0 = true -> Z.testbit flags' 0 = true) ->
  Forall (saved_ok flags') st.
Proof. intros H Hf. eapply Forall_impl; [exact H|]. intros ol Hol. by eapply saved_ok_flags. Qed.

Lemma arch_str_set l x :
  X x -> arch_str_ok (set_arch_str l (unchars (riscv_arch_str x l))).
Proof. intros Hx. by exists x. Qed.

Lemma set_arch_str_wf l a : subset_list_wf l -> subset_list_wf (set_arch_str l a).
Proof. by intros [H1 H2 H3]. Qed.

Lemma bit0_or flags x : Z.testbit flags 0 = true -> Z.testbit (flags .| x) 0 = true.
Proof. intros H. by rewrite Z.lor_spec, H. Qed.

Lemma rvc_flag flags : Z.testbit (flags .| EF_RISCV_RVC) 0 = true.
Proof. by rewrite Z.lor_spec, orb_true_r. Qed.

(** The end of [riscv_set_arch] and [.option arch], on a list just printed. *)
Lemma flags_from_exts_ok s :
  check_unknown_prefixed_ext (rps s) = true -> subset_list_wf (subset_list (rps s)) ->
  arch_str_ok (subset_list (rps s)) -> Forall (saved_ok (elf_flags s)) (opts_stack s) ->
  settings_ok (flags_from_exts s).
Proof.
  intros Hc Hwf Ha Hst. unfold flags_from_exts. cbv zeta.
  set (s1 := riscv_set_rvc s false).
  set (s2 := if has_ext s1 "c" || has_ext s1 "zca" then riscv_set_rvc s1 true else s1).
  assert (H2 : settings_ok s2).
  { unfold s2. destruct (has_ext s1 "c" || has_ext s1 "zca") eqn:E.
    - constructor; [done| |eapply stack_flags; [exact Hst|apply bit0_or]].
      constructor; [done|done|]. intros _. split.
      + apply orb_true_iff in E as [E|E]; [left|right];
          apply (riscv_subset_supports_has (rps s)); done.
      + apply rvc_flag.
    - constructor; [done| |exact Hst]. constructor; done. }
  clearbody s2. clear -H2. destruct (has_ext s2 "ztso"); [|done].
  destruct H2 as [H1 H2 H3]. constructor; [done| |eapply stack_flags; [exact H3|apply bit0_or]].
  eapply saved_ok_flags; [exact H2|apply bit0_or].
Qed.

Lemma flags_from_exts_rps s : rps (flags_from_exts s) = rps s.
Proof. unfold flags_from_exts. by repeat case_match. Qed.

Lemma set_arch_ok s arch :
  X (rps_xlen (rps (riscv_set_arch s arch))) -> check_unknown_prefixed_ext (rps s) = true -> Forall (saved_ok (elf_flags s)) (opts_stack s) ->
  (forall a, arch = Some a -> a <> ""%string /\ ~ In "000"%char (chars a)) ->
  settings_ok (riscv_set_arch s arch).
Proof.
  intros Hx Hc Hst Ha. unfold riscv_set_arch in *.
  destruct (bool_decide_reflect (arch = Some ""%string)) as [E|E];
    [by destruct (Ha _ E)|]. rewrite flags_from_exts_rps in Hx.
  destruct (parse_subset_inv (set_subset_list (rps s)
    (riscv_release_subset_list (subset_list (rps s)))) arch) as [[Hi Hk] Hwf].
  { apply riscv_release_subset_list_wf. } { done. } { intros a Hs. by apply Ha. }
  apply flags_from_exts_ok.
  - cbn. by rewrite Hk.
  - by apply set_arch_str_wf.
  - by apply arch_str_set.
  - exact Hst.
Qed.

(** Adding "c" leaves it in the list, whatever else is reported. *)
Lemma update_plus_c before r :
  subset_list_wf (subset_list r) -> has (exts (subset_list (riscv_update_subset before r "+c").1)) "c".
Proof.
  intros Hwf. unfold riscv_update_subset.
  change (update_loop (String.length "+c") before r (chars "+c"))
    with (riscv_parse_check_conflicts (riscv_parse_add_implicit_subsets
            (riscv_parse_add_subset r "c" unknown unknown true))).
  rewrite check_conflicts_list, riscv_parse_add_implicit.
  set (r1 := set_subset_list r _).
  assert (Hwf1 : subset_list_wf (subset_list r1)) by (by apply riscv_add_subset_wf).
  destruct (riscv_parse_add_implicit_subsets_inv r1 Hwf1) as [[_ _ Habove _] _].
  assert (H : has (exts (subset_list r1)) "c").
  { unfold has, r1. cbn [subset_list set_subset_list]. rewrite riscv_add_subset_exts by done.
    destruct (exts (subset_list r) !! "c"%string) as [v|] eqn:E; [rewrite E; eauto|].
    rewrite lookup_insert_eq. eauto. }
  destruct H as [v Hv]. exists v. by eapply lookup_weaken.
Qed.

Section directives_ok.

Context (before : ascii).

(** The argument of an option that changes the list is in lower case. *)
Definition lower (s : string) : Prop := forallb name_char (chars s) = true.

Lemma lower_arch_arg name arg : lower name -> option_arch_arg name = Some arg -> lower arg.
Proof.
  unfold lower, option_arch_arg. intros Hl. destruct (strip_prefix _ _) as [p|] eqn:E; [|done].
  apply strip_prefix_app in E. rewrite E, forallb_app in Hl. apply andb_true_iff in Hl as [_ Hl].
  destruct p as [|c p]; [by intros [= <-]|]. intros [= <-]. rewrite chars_unchars.
  destruct (is_space c); [|done]. by apply andb_true_iff in Hl as [_ Hl].
Qed.

(** After any change of the list, before the flag is set. *)
Lemma update_arch_ok s arg :
  settings_ok s -> lower arg -> X (rps_xlen (rps (update_arch before s arg))) ->
  let s' := update_arch before s arg in
  check_unknown_prefixed_ext (rps s') = true /\ subset_list_wf (subset_list (rps s')) /\
  arch_str_ok (subset_list (rps s')) /\ Forall (saved_ok (elf_flags s')) (opts_stack s').
Proof.
  intros [Hc [Hwf Ha Hr] Hst] Hl Hx. cbv zeta. unfold update_arch, riscv_update_subset in *.
  pose proof (keeps_update (String.length arg) before (rps s) (chars arg)) as [_ Hk].
  destruct (update_loop_good (String.length arg) before (rps s) (chars arg) Hwf Hc Hl) as [Hw _].
  split_and!; [cbn; congruence|by apply set_arch_str_wf|by apply arch_str_set|done].
Qed.

Lemma norvc_ok s s' :
  settings_ok s -> check_unknown_prefixed_ext (rps s') = true ->
  subset_list_wf (subset_list (rps s')) -> arch_str_ok (subset_list (rps s')) ->
  Forall (saved_ok (elf_flags s')) (opts_stack s') -> settings_ok (riscv_set_rvc s' false).
Proof. intros Hs Hc Hw Ha Hst. constructor; [done| |done]. by constructor. Qed.

(** An option that only sets a flag other than [rvc]. *)
Lemma with_opts_ok s o : settings_ok s -> rvc o = rvc (opts s) -> settings_ok (with_opts s o).
Proof.
  intros [Hc [Hw Ha Hr] Hst] Ho. constructor; [done| |done]. constructor; [done|done|].
  cbn. by rewrite Ho.
Qed.

Lemma copy_subset_nodes i ns g : (riscv_copy_subset i ns g).1 = ns.
Proof.
  revert i. induction ns as [|n ns IH]; intros i; cbn [riscv_copy_subset]; [done|].
  specialize (IH (S i)). destruct (riscv_copy_subset (S i) ns g) as [next t]. cbn in *.
  rewrite IH. by destruct n.
Qed.

Lemma copy_subset_tail i ns : ns <> [] -> (riscv_copy_subset i ns None).2 = Some (i + length ns - 1)%nat.
Proof.
  revert i. induction ns as [|n ns IH]; intros i Hn; [done|]. cbn [riscv_copy_subset].
  destruct ns as [|n' ns].
  - cbn. f_equal. lia.
  - specialize (IH (S i) ltac:(done)). destruct (riscv_copy_subset (S i) (n' :: ns) None) as [next t].
    cbn [snd] in *. rewrite IH. f_equal. cbn. lia.
Qed.

Lemma copy_list_ok l : subset_list_wf l -> riscv_copy_subset_list None l = l.
Proof.
  intros [_ _ Ht]. unfold riscv_copy_subset_list.
  pose proof (copy_subset_nodes 0 (nodes l) None) as Hn.
  assert (Htl : (riscv_copy_subset 0 (nodes l) None).2 = last_index (nodes l)).
  { destruct (nodes l) as [|n ns] eqn:E; [done|]. rewrite copy_subset_tail by done.
    unfold last_index. cbn. f_equal. lia. }
  destruct (riscv_copy_subset 0 (nodes l) None) as [ns t]. cbn in *. subst. rewrite <- Ht.
  by destruct l.
Qed.

Lemma s_riscv_option_ok s name :
  settings_ok s -> lower name -> X (rps_xlen (rps (s_riscv_option before None s name))) ->
  settings_ok (s_riscv_option before None s name).
Proof.
  intros Hs Hl. unfold s_riscv_option.
  destruct (String.eqb name "rvc").
  { intros Hx. destruct (update_arch_ok s "+c" Hs eq_refl Hx) as (Hc & Hw & Ha & Hst).
    constructor; [done| |eapply stack_flags; [exact Hst|apply bit0_or]].
    constructor; [done|done|]. intros _. split; [|apply rvc_flag].
    left. apply (update_plus_c before (rps s)). apply Hs. }
  destruct (String.eqb name "norvc").
  { intros Hx. destruct (update_arch_ok s "-c" Hs eq_refl Hx) as (Hc & Hw & Ha & Hst). by apply (norvc_ok s). }
  repeat (match goal with |- context [if String.eqb name ?x then with_opts _ _ else _] => idtac
          | |- context [if String.eqb name ?x then set_pic _ _ else _] => idtac
          | |- context [if String.eqb name ?x then set_relax_opt _ _ else _] => idtac
          | |- context [if String.eqb name ?x then set_csr_check _ _ else _] => idtac end;
          match goal with |- context [if String.eqb name ?x then _ else _] =>
            destruct (String.eqb name x); [intros _; by apply with_opts_ok|] end).
  destruct (option_arch_arg name) as [arg|] eqn:E.
  { rewrite flags_from_exts_rps. intros Hx.
    destruct (update_arch_ok s arg Hs (lower_arch_arg _ _ Hl E) Hx) as (Hc & Hw & Ha & Hst).
    by apply flags_from_exts_ok. }
  intros _. destruct Hs as [Hc Hn Hst].
  destruct (String.eqb name "push").
  { constructor; [done| |by constructor]. cbn. rewrite copy_list_ok; [done|apply Hn]. }
  destruct (String.eqb name "pop"); [|by constructor].
  destruct (opts_stack s) as [|[o l] st] eqn:Es; [constructor; [done|done|cbn; by rewrite Es]|].
  inversion Hst as [|? ? H1 H2]; subst. by constructor.
Qed.

(** ** Runs *)

(** What follows the command line: options, attributes and instructions. *)
Inductive directive : Type :=
| Dir_option (name : string)
| Dir_attribute (a : attribute)
| Dir_instruction.

(** What a copied empty list has for a tail. *)
Context (garbage : option nat).

Definition step_directive (s : settings) (d : directive) : option settings :=
  match d with
  | Dir_option name => Some (s_riscv_option before garbage s name)
  | Dir_attribute a => s_riscv_attribute s a
  | Dir_instruction => fst <$> first_instruction s
  end.

(** One directive after the other, until a fatal error. *)
Inductive directives_run : settings -> list directive -> settings -> Prop :=
| Run_nil s : directives_run s [] s
| Run_cons s d s' ds s'' :
    step_directive s d = Some s' -> directives_run s' ds s'' -> directives_run s (d :: ds) s''.

(** Names are in lower case, and an architecture attribute is not empty. *)
Definition directive_ok (d : directive) : Prop :=
  match d with
  | Dir_option name => lower name
  | Dir_attribute (Tag_RISCV_arch v) => v <> ""%string /\ ~ In "000"%char (chars v)
  | _ => True
  end.

Lemma abi_by_arch_frame s s' :
  riscv_set_abi_by_arch s = Some s' ->
  rps s' = rps s /\ opts s' = opts s /\ opts_stack s' = opts_stack s /\
  Z.testbit (elf_flags s') 0 = Z.testbit (elf_flags s) 0.
Proof.
  unfold riscv_set_abi_by_arch. cbv zeta.
  match goal with |- match ?c with Some _ => _ | None => _ end = _ -> _ => set (chosen := c) end.
  assert (Hc : forall t, chosen = Some t ->
    rps t = rps s /\ opts t = opts s /\ opts_stack t = opts_stack s /\ elf_flags t = elf_flags s).
  { unfold chosen. intros t Ht. clear chosen.
    destruct (negb (explicit_mabi s)).
    - injection Ht as <-. by repeat case_match.
    - destruct ((abi_xlen s =? 0) || _ || _); [done|]. injection Ht as <-.
      destruct (rps_xlen (rps s) <? abi_xlen s), (has_ext s "e" && _), (float_abi s); unfold message_if;
        repeat case_match; done. }
  destruct chosen as [t|]; [|done]. intros [= <-]. destruct (Hc t eq_refl) as (H1 & H2 & H3 & H4).
  cbn [rps opts opts_stack elf_flags with_elf_flags]. split_and!; [done..|]. rewrite H4.
  assert (Hb : Z.testbit ((elf_flags s .& u32 (Z.lnot EF_RISCV_FLOAT_ABI))
      .| u32 (float_abi_value (float_abi t) << 1)) 0 = Z.testbit (elf_flags s) 0).
  { rewrite Z.lor_spec, Z.land_spec. unfold u32. rewrite !Z.mod_pow2_bits_low by lia.
    rewrite Z.shiftl_spec by lia. rewrite (Z.testbit_neg_r _ (0 - 1)) by lia.
    by rewrite orb_false_r, andb_true_r. }
  destruct (rve_abi t); [|done]. rewrite Z.lor_spec, Hb. by rewrite orb_false_r.
Qed.

(** A step that keeps lists, options and stack, and the flag. *)
Lemma frame_ok s s' :
  settings_ok s -> rps s' = rps s -> opts s' = opts s -> opts_stack s' = opts_stack s ->
  Z.testbit (elf_flags s') 0 = Z.testbit (elf_flags s) 0 -> settings_ok s'.
Proof.
  intros [Hc Hn Hst] Hr Ho Hs Hf. constructor; rewrite ?Hr, ?Ho, ?Hs; [done| |].
  - eapply saved_ok_flags; [exact Hn|by rewrite Hf].
  - eapply stack_flags; [exact Hst|by rewrite Hf].
Qed.

Lemma priv_spec_frame s name :
  let s' := (riscv_set_default_priv_spec s name).1 in
  rps s' = rps s /\ opts s' = opts s /\ opts_stack s' = opts_stack s /\ elf_flags s' = elf_flags s.
Proof.
  cbv zeta. unfold riscv_set_default_priv_spec. destruct name as [n|].
  - by destruct (spec_class riscv_priv_specs n).
  - destruct (attr_priv s) as [[a b] c]. destruct (_ && _ && _); [done|].
    by destruct (bool_decide _).
Qed.

Lemma step_directive_ok s d s' :
  garbage = None -> settings_ok s -> directive_ok d -> step_directive s d = Some s' ->
  X (rps_xlen (rps s')) -> settings_ok s'.
Proof.
  intros Hg Hs Hd Hstep Hx. revert Hstep. destruct d as [name|a|]; cbn [step_directive].
  - intros H. injection H as H. rewrite Hg in H. rewrite <- H in Hx |- *. by apply s_riscv_option_ok.
  - unfold s_riscv_attribute. destruct (attr_priv _) as [[x y] z].
    destruct a as [v|v|v|v|]; cbn [start_assemble with_explicit_attr with_attrs].
    1-4: destruct (start_assemble s); [done|]; intros [= <-].
    { destruct Hs as [Hc _ Hst]. apply set_arch_ok; [done|done|done|]. intros a [= <-]. exact Hd. }
    1-3: by eapply frame_ok; [exact Hs|..].
    intros [= <-]. by eapply frame_ok; [exact Hs|..].
  - unfold first_instruction. destruct (start_assemble s); [by intros [= <-]|].
    destruct (riscv_set_abi_by_arch (with_started s)) as [t|] eqn:E; [|done]. intros Hq.
    assert (s' = (riscv_set_default_priv_spec t None).1) as -> by (by injection Hq).
    apply abi_by_arch_frame in E as (H1 & H2 & H3 & H4).
    destruct (priv_spec_frame t None) as (H5 & H6 & H7 & H8).
    cbn [rps opts opts_stack elf_flags with_started] in *.
    eapply frame_ok; [exact Hs|..]; congruence.
Qed.

Lemma directives_run_ok s ds s' :
  garbage = None -> settings_ok s -> Forall directive_ok ds -> directives_run s ds s' ->
  (forall ds1 ds2 s1, ds = ds1 ++ ds2 -> directives_run s ds1 s1 -> X (rps_xlen (rps s1))) -> settings_ok s'.
Proof.
  intros Hg Hs Hds Hrun. induction Hrun as [s|s d s1 ds s2 Hstep Hrun IH]; intros Hx; [done|].
  inversion Hds; subst. apply IH; [|done|].
  - eapply step_directive_ok; [done..|]. apply (Hx [d] ds); [done|]. by econstructor; [|constructor].
  - intros ds1 ds2 t -> Ht. apply (Hx (d :: ds1) ds2); [done|]. by econstructor.
Qed.

End directives_ok.

End consistent.

(** The command line, then the defaults. *)
Definition command_line (s : settings) (l : list (option_code * string)) : settings :=
  foldl (fun s o => (md_parse_option s o.1 o.2).1) s l.

Definition started (attr_default : bool) (arch : option string) (default_arch : string)
    (l : list (option_code * string)) : settings :=
  riscv_after_parse_args default_arch (command_line (initial_settings attr_default arch) l).

Definition arch_ok (a : string) : Prop := a <> ""%string /\ ~ In "000"%char (chars a).

(** Before [riscv_set_arch] the list is empty and the stack too. *)
Definition before_arch (s : settings) : Prop :=
  check_unknown_prefixed_ext (rps s) = true /\ opts_stack s = [] /\
  forall a, default_arch_with_ext s = Some a -> arch_ok a.

Lemma parse_option_before s c arg :
  before_arch s -> (c = OPTION_MARCH -> arch_ok arg) -> before_arch (md_parse_option s c arg).1.
Proof.
  intros (H1 & H2 & H3) Ha. destruct c; try done; cbn [md_parse_option].
  - split_and!; [done|done|]. intros a [= <-]. by apply Ha.
  - by destruct (List.find _ _) as [[? [[] ]]|].
  - unfold riscv_set_default_isa_spec. by destruct (spec_class _ _).
  - unfold riscv_set_default_priv_spec. by destruct (spec_class _ _).
Qed.

Lemma started_ok attr_default arch default_arch l :
  (forall a, arch = Some a -> arch_ok a) ->
  Forall (fun o => o.1 = OPTION_MARCH -> arch_ok o.2) l ->
  settings_ok (eq (rps_xlen (rps (started attr_default arch default_arch l)))) (started attr_default arch default_arch l).
Proof.
  intros Ha Hl. unfold started.
  assert (Hb : before_arch (command_line (initial_settings attr_default arch) l)).
  { unfold command_line. apply (foldl_inv before_arch); [by split_and!|].
    intros s [c arg] Hin Hs. apply parse_option_before; [done|].
    rewrite List.Forall_forall in Hl. exact (Hl _ Hin). }
  revert Hb. generalize (command_line (initial_settings attr_default arch) l). clear.
  intros s Hs. unfold riscv_after_parse_args. cbv zeta.
  set (s1 := if negb (rps_xlen (rps s) =? 0) then s else _).
  assert (H1 : before_arch s1) by (unfold s1; repeat case_match; exact Hs). clearbody s1. clear s Hs.
  set (s2 := if bool_decide (isa_spec (rps s1) = _) then _ else s1).
  assert (H2 : before_arch s2) by (unfold s2; case_match; exact H1). clearbody s2. clear s1 H1.
  set (s3 := if bool_decide (priv_spec s2 = _) then _ else s2).
  assert (H3 : before_arch s3) by (unfold s3; case_match; exact H2). clearbody s3. clear s2 H2.
  destruct H3 as (Hc & Hst & Ha).
  assert (H4 : settings_ok (eq (rps_xlen (rps (riscv_set_arch s3 (default_arch_with_ext s3)))))
                 (riscv_set_arch s3 (default_arch_with_ext s3)))
    by (apply set_arch_ok; [done|done|by rewrite Hst|done]).
  case_match; [|done]. by eapply frame_ok; [exact H4|..].
Qed.

Lemma settings_ok_impl (X Y : Z -> Prop) s : (forall x, X x -> Y x) -> settings_ok X s -> settings_ok Y s.
Proof.
  intros H. assert (Hs : forall flags ol, saved_ok X flags ol -> saved_ok Y flags ol).
  { intros flags ol [H1 (x & Hx & H2) H3]. constructor; [done|by exists x; auto|done]. }
  intros [H1 H2 H3]. constructor; [done|by apply Hs|]. eapply Forall_impl; [exact H3|apply Hs].
Qed.

(** An xlen that is in force at the start of a run or after one of its
    directives. *)
Definition in_force (before : ascii) (s : settings) (ds : list directive) (x : Z) : Prop :=
  exists ds1 ds2 s1, ds = ds1 ++ ds2 /\ directives_run before None s ds1 s1 /\ x = rps_xlen (rps s1).

(** C19: the option state stays consistent.  Take a command line without an
    empty -march, and any options, architecture attributes and first
    instructions after it, where .option names are in lower case, an
    architecture attribute is not empty, nothing makes the parser read outside
    of [riscv_ext_order] and a copied empty list gets a null tail.  Then the
    current subset list and every list on the option stack is canonical; its
    architecture string is the list printed for an xlen that has been in force
    during the run (after .option pop not always the current one); and whenever
    compressed instructions are enabled, now or after a later pop, the list has
    c or zca and the ELF flag EF_RISCV_RVC is set. *)
Theorem options_consistent (before : ascii) (attr_default : bool) (arch : option string)
    (default_arch : string) (l : list (option_code * string)) (ds : list directive) (s : settings) :
  let s0 := started attr_default arch default_arch l in
  (forall a, arch = Some a -> arch_ok a) ->
  Forall (fun o => o.1 = OPTION_MARCH -> arch_ok o.2) l ->
  Forall directive_ok ds ->
  directives_run before None s0 ds s -> (forall e, outside e -> ~ In e (errors (rps s))) ->
  Forall (saved_ok (in_force before s0 ds) (elf_flags s)) ((opts s, subset_list (rps s)) :: opts_stack s).
Proof.
  intros s0 Ha Hl Hds Hrun _.
  destruct (directives_run_ok (in_force before s0 ds) before None s0 ds s eq_refl) as [_ H1 H2]; [|done|done| |by constructor].
  - eapply settings_ok_impl; [|by apply started_ok]. intros x <-. exists [], ds, s0. split; [done|]. split; [constructor|done].
  - intros ds1 ds2 s1 E H. by exists ds1, ds2, s1.
Qed.

Lemma options_consistent_witness :
  let ds := [Dir_option "push"; Dir_option "arch, +c"; Dir_instruction; Dir_option "pop"] in
  exists s, directives_run "000" None (started false None "riscv64" [(OPTION_MARCH, "rv32ima"%string)]) ds s /\
    arch_str (subset_list (rps s)) = Some "rv32i2p1_m2p0_a2p1_zmmul1p0"%string /\
    elf_flags s = EF_RISCV_RVC /\
    Forall (saved_ok (in_force "000" (started false None "riscv64" [(OPTION_MARCH, "rv32ima"%string)]) ds) (elf_flags s))
      ((opts s, subset_list (rps s)) :: opts_stack s).
Proof.
  cbv zeta. eexists. split; [|split; [|split]].
  - do 4 (eapply Run_cons; [vm_compute; reflexivity|]). apply Run_nil.
  - reflexivity.
  - reflexivity.
  - apply (options_consistent "000" false None "riscv64" [(OPTION_MARCH, "rv32ima"%string)]
      [Dir_option "push"; Dir_option "arch, +c"; Dir_instruction; Dir_option "pop"]).
    + done.
    + repeat constructor; [done|]. simpl. intuition discriminate.
    + repeat constructor.
    + do 4 (eapply Run_cons; [vm_compute; reflexivity|]). apply Run_nil.
    + intros e _ [].
Defined.

(** ** The option stack *)

Definition Dir_push : directive := Dir_option "push".
Definition Dir_pop : directive := Dir_option "pop".

(** Every push has its pop. *)
Inductive balanced : list directive -> Prop :=
| Bal_nil : balanced []
| Bal_one d ds : d <> Dir_push -> d <> Dir_pop -> balanced ds -> balanced (d :: ds)
| Bal_nest ds1 ds2 :
    balanced ds1 -> balanced ds2 -> balanced (Dir_push :: ds1 ++ Dir_pop :: ds2).

Lemma directives_run_app before garbage s ds1 ds2 s' :
  directives_run before garbage s (ds1 ++ ds2) s' ->
  exists s1, directives_run before garbage s ds1 s1 /\ directives_run before garbage s1 ds2 s'.
Proof.
  revert s. induction ds1 as [|d ds1 IH]; intros s H; [exists s; by split; [constructor|]|].
  inversion H as [|? ? t ? ? Hstep Hrun]; subst. destruct (IH _ Hrun) as (s1 & H1 & H2).
  exists s1. split; [by econstructor|done].
Qed.

Lemma option_stack_same before garbage s name :
  name <> "push"%string -> name <> "pop"%string ->
  opts_stack (s_riscv_option before garbage s name) = opts_stack s.
Proof.
  intros Hpush Hpop. apply String.eqb_neq in Hpush, Hpop. unfold s_riscv_option.
  rewrite Hpush, Hpop. unfold flags_from_exts. by repeat case_match.
Qed.

Lemma step_stack_same before garbage s d s' :
  d <> Dir_push -> d <> Dir_pop -> step_directive before garbage s d = Some s' ->
  opts_stack s' = opts_stack s.
Proof.
  intros H1 H2. destruct d as [name|a|]; cbn [step_directive].
  - intros [= <-]. apply option_stack_same; intros ->; [by apply H1|by apply H2].
  - unfold s_riscv_attribute. destruct (attr_priv _) as [[x y] z].
    destruct a as [v|v|v|v|]; cbn [start_assemble with_explicit_attr with_attrs];
      try destruct (start_assemble s); try done; intros [= <-]; try done.
    unfold riscv_set_arch, flags_from_exts. by repeat case_match.
  - unfold first_instruction. destruct (start_assemble s); [by intros [= <-]|].
    destruct (riscv_set_abi_by_arch (with_started s)) as [t|] eqn:E; [|done]. intros Hq.
    assert (s' = (riscv_set_default_priv_spec t None).1) as -> by (by injection Hq).
    apply abi_by_arch_frame in E as (_ & _ & H & _).
    destruct (priv_spec_frame t None) as (_ & _ & -> & _). exact H.
Qed.

(** A pop after a state with the stack of [s] on which something was pushed. *)
Lemma pop_run before garbage s t ds s' :
  opts_stack t = (opts s, subset_list (rps s)) :: opts_stack s ->
  directives_run before garbage t (Dir_pop :: ds) s' ->
  exists t', opts t' = opts s /\ subset_list (rps t') = subset_list (rps s) /\
    opts_stack t' = opts_stack s /\ directives_run before garbage t' ds s'.
Proof.
  intros Ht H. inversion H as [|? ? t' ? ? Hstep Hrun]; subst. exists t'.
  cbn in Hstep. rewrite Ht in Hstep. injection Hstep as <-. done.
Qed.

Lemma balanced_stack before garbage ds : balanced ds ->
  forall s s', directives_run before garbage s ds s' -> opts_stack s' = opts_stack s.
Proof.
  induction 1 as [|d ds Hp Hq _ IH|ds1 ds2 _ IH1 _ IH2]; intros s s' Hrun.
  - by inversion Hrun.
  - inversion Hrun as [|? ? t ? ? Hstep Hrun']; subst. rewrite (IH _ _ Hrun').
    exact (step_stack_same _ _ _ _ _ Hp Hq Hstep).
  - inversion Hrun as [|? ? t ? ? Hstep Hrun']; subst.
    apply directives_run_app in Hrun' as (t1 & Hr1 & Hr2). apply IH1 in Hr1.
    injection Hstep as <-. destruct (pop_run before garbage s t1 ds2 s') as (t' & _ & _ & Hs & Hr); [done..|].
    by rewrite (IH2 _ _ Hr).
Qed.

(** [.option pop] restores what the matching [.option push] saw: whatever
    balanced directives stand between them, failed ones and instructions
    included, the options, the subset list with its architecture string and the
    rest of the stack are those before the push. *)
Theorem push_pop_restores (before : ascii) (garbage : option nat) (ds : list directive)
    (s s' : settings) :
  balanced ds -> directives_run before garbage s (Dir_push :: ds ++ [Dir_pop]) s' ->
  opts s' = opts s /\ subset_list (rps s') = subset_list (rps s) /\ opts_stack s' = opts_stack s.
Proof.
  intros Hb Hrun. inversion Hrun as [|? ? t ? ? Hstep Hrun']; subst.
  apply directives_run_app in Hrun' as (t1 & Hr1 & Hr2). apply (balanced_stack _ _ _ Hb) in Hr1.
  injection Hstep as <-. destruct (pop_run before garbage s t1 [] s') as (t' & H1 & H2 & H3 & Hr);
    [done..|].
  by inversion Hr; subst.
Qed.

Lemma push_pop_restores_witness :
  let s := started false None "riscv64" [(OPTION_MARCH, "rv64gc"%string)] in
  exists s', directives_run "000" None s
      (Dir_push :: [Dir_option "norvc"; Dir_option "norelax"] ++ [Dir_pop]) s' /\
    opts s' = opts s /\ subset_list (rps s') = subset_list (rps s).
Proof.
  cbv zeta. eexists. split.
  - do 4 (eapply Run_cons; [vm_compute; reflexivity|]). apply Run_nil.
  - match goal with |- opts ?s' = opts ?s /\ _ =>
      destruct (push_pop_restores "000" None [Dir_option "norvc"; Dir_option "norelax"] s s')
        as (H1 & H2 & _) end.
    + repeat constructor; discriminate.
    + do 4 (eapply Run_cons; [vm_compute; reflexivity|]). apply Run_nil.
    + by split.
Defined.

(** The width is not restored: [.option arch] with a whole ISA string of
    the other width between a push and a pop leaves the assembler at the other
    [xlen], with the restored list and its architecture string of the first. *)
Theorem pop_keeps_xlen :
  let s := started false None "riscv64" [(OPTION_MARCH, "rv64i"%string)] in
  exists s', directives_run "000" None s [Dir_push; Dir_option "arch, rv32i"; Dir_pop] s' /\
    subset_list (rps s') = subset_list (rps s) /\
    arch_str (subset_list (rps s')) = Some "rv64i2p1"%string /\
    rps_xlen (rps s) = 64 /\ rps_xlen (rps s') = 32.
Proof.
  cbv zeta. eexists. split; [do 3 (eapply Run_cons; [vm_compute; reflexivity|]); apply Run_nil|].
  split_and!; vm_compute; reflexivity.
Qed.
