(* ===== verification/IpReloc.v ===== *)
(** * Relocations of operands

    Which relocation the operand parser can leave for an instruction: none or
    that of a branch, unless one of a few letters is among the operands, and
    then one of a 32-bit instruction. *)
From Stdlib Require Import ZArith Bool Ascii Lia String.
From stdpp Require Import base list strings gmap.
From S2P Require Import Prelude OpcodeH RiscvH Immediates Words OpcodeMatch OpcodeTable Validate.
From S2P Require Import SubsetTables Subset CsrTable Howto Regs Expr Ip IpFrame IpSpec.

#[local] Open Scope Z_scope.
#[local] Open Scope c_scope.
#[local] Open Scope list_scope.

(** The state of the relocation: unchanged or a branch's, and the operators
    unchanged or those of an upper immediate. *)
Definition keeps_reloc (st st' : ip_state) : Prop :=
  (imm_reloc st' = imm_reloc st \/ imm_reloc st' = Some BFD_RELOC_12_PCREL \/
   imm_reloc st' = Some BFD_RELOC_RISCV_JMP) /\
  (percent_op st' = percent_op st \/ percent_op st' = percent_op_utype).

Definition same_reloc (st st' : ip_state) : Prop :=
  imm_reloc st' = imm_reloc st /\ percent_op st' = percent_op st.

Lemma same_reloc_refl st : same_reloc st st.
Proof. by split. Qed.

Lemma same_reloc_trans a b c : same_reloc a b -> same_reloc b c -> same_reloc a c.
Proof. intros [H1 H2] [H3 H4]. split; congruence. Qed.

Lemma same_keeps st st' : same_reloc st st' -> keeps_reloc st st'.
Proof. intros [H1 H2]. split; by left. Qed.

(** A result that goes on does so with the relocation kept. *)
Definition reloc_kept (st : ip_state) (r : op_result) : Prop :=
  match r with Continue _ st' => keeps_reloc st st' | _ => True end.

Section state.

Context (env : as_env).
Context (expression : bool -> list ascii -> expressionS * list ascii * list diag).

Lemma reloc_as_bad_if b d st : same_reloc st (as_bad_if b d st).
Proof. by destruct b. Qed.

Lemma reloc_getExpression pr s st : same_reloc st (getExpression expression pr s st).
Proof. unfold getExpression. by destruct (expression pr s) as [[ep e] ds]. Qed.

Lemma reloc_small_tail c cd s sd ri st : same_reloc st (small_tail expression c cd s sd ri st).2.
Proof.
  unfold small_tail.
  assert (H : forall p, same_reloc st
    (let st := getExpression expression p c st in
     let '(str, depth) := close_brackets (expr_parse_end st) cd in
     (ri, set_parse_end (as_bad_if (0 <? depth)%nat D_unclosed st) str)).2).
  { intros p. cbv zeta. destruct (close_brackets _ cd) as [str depth].
    eapply same_reloc_trans; [apply (reloc_getExpression p c st)|].
    apply (reloc_as_bad_if (0 <? depth)%nat D_unclosed). }
  destruct s as [|ch s']; [apply H|]. destruct ch as [[] [] [] [] [] [] [] []]; try apply H; done.
Qed.

Lemma small_tail_count c cd s sd ri st :
  let '(n, st') := small_tail expression c cd s sd ri st in
  n = ri \/ X_op_is st' O_constant = false.
Proof.
  unfold small_tail.
  destruct s as [|ch s']; [|destruct ch as [[] [] [] [] [] [] [] []]]; try (by right);
    destruct (close_brackets _ cd) as [str depth]; by left.
Qed.

(** The operators whose relocation a constant expression cannot have. *)
Lemma reloc_small s ops st :
  let '(n, st') := getSmallExpression expression s ops st in
  percent_op st' = percent_op st /\
  (imm_reloc st' = imm_reloc st \/
   (n = 0 -> X_op_is st' O_constant = false) /\
   (imm_reloc st' = None \/ exists o r, In (o, r) ops /\ imm_reloc st' = Some r)).
Proof.
  unfold getSmallExpression.
  assert (Hplain : forall str depth,
    let '(n, st') := small_tail expression s 0 str depth 0 st in
    percent_op st' = percent_op st /\ (imm_reloc st' = imm_reloc st \/
      (n = 0 -> X_op_is st' O_constant = false) /\
      (imm_reloc st' = None \/ exists o r, In (o, r) ops /\ imm_reloc st' = Some r))).
  { intros str depth. pose proof (reloc_small_tail s 0 str depth 0 st) as [H1 H2].
    destruct (small_tail _ _ _ _ _ _ _) as [n st']. cbn [snd] in *. split; [done|by left]. }
  destruct (skip_brackets s 0) as [str depth].
  destruct str as [|ch str']; [apply Hplain|].
  destruct ch as [[] [] [] [] [] [] [] []]; try apply Hplain.
  destruct (parse_relocation str' ops) as [[[str1 r] ds]|] eqn:E; [|apply Hplain].
  assert (Hr : r = None \/ exists o r', In (o, r') ops /\ r = Some r').
  { clear -E. revert E. induction ops as [|[o r0] ops IH]; cbn [parse_relocation]; [done|].
    intros E. assert (Hrest : parse_relocation str' ops = Some (str1, r, ds) ->
      r = None \/ exists o' r', In (o', r') ((o, r0) :: ops) /\ r = Some r').
    { intros E'. destruct (IH E') as [H|(o' & r' & H & H')]; [by left|]. right.
      exists o', r'. split; [by right|done]. }
    destruct (strip_prefix_case _ _) as [rest|]; [|by apply Hrest].
    destruct (skip_space rest) as [|ch q]; [by apply Hrest|].
    destruct ch as [[] [] [] [] [] [] [] []]; try by apply Hrest.
    destruct (riscv_reloc_type_lookup r0); injection E as <- <- <-; [right|by left].
    exists o, r0. split; [by left|done]. }
  destruct (skip_brackets str1 depth) as [str2 depth2].
  set (st1 := report (set_reloc st r) ds).
  pose proof (reloc_small_tail str1 depth str2 depth2 1 st1) as [H1 H2].
  pose proof (small_tail_count str1 depth str2 depth2 1 st1) as Hc.
  destruct (small_tail expression str1 depth str2 depth2 1 st1) as [n st']. cbn [snd] in *.
  split; [done|]. right. split; [intros ->; by destruct Hc|]. by rewrite H1.
Qed.

Lemma reloc_opcode_expr st : same_reloc st (my_getOpcodeExpression expression st).2.
Proof.
  unfold my_getOpcodeExpression. destruct (opcode_name_lookup (asarg st)) as [[[v|] str] e]; [done|].
  pose proof (reloc_small str percent_op_null (set_parse_end st e)) as H.
  unfold getSmallExpression in *. destruct (skip_brackets str 0) as [str1 depth].
  destruct str1 as [|ch str']; [apply (reloc_small_tail _ _ _ _ _ (set_parse_end st e))|].
  destruct ch as [[] [] [] [] [] [] [] []]; apply (reloc_small_tail _ _ _ _ _ (set_parse_end st e)).
Qed.

Lemma reloc_vsetvli st : same_reloc st (my_getVsetvliExpression expression st).
Proof.
  unfold my_getVsetvliExpression. destruct (vtype_arg riscv_vsew _) as [[a b] s1].
  destruct (vtype_arg riscv_vlmul s1) as [[a2 b2] s2]. destruct (vtype_arg riscv_vta s2) as [[a3 b3] s3].
  destruct (vtype_arg riscv_vma s3) as [[a4 b4] s4].
  destruct (b || b2 || b3 || b4); [done|apply reloc_getExpression].
Qed.

Lemma reloc_th_vsetvli st : same_reloc st (my_getThVsetvliExpression expression st).
Proof.
  unfold my_getThVsetvliExpression. destruct (vtype_arg riscv_vsew _) as [[a b] s1].
  destruct (vtype_arg riscv_th_vlen s1) as [[a2 b2] s2].
  destruct (vtype_arg riscv_th_vediv s2) as [[a3 b3] s3].
  destruct (b2 || b3 || b); [done|apply reloc_getExpression].
Qed.

Lemma reloc_full st : same_reloc st (my_getExpression expression st).
Proof. apply reloc_getExpression. Qed.

End state.

(** ** Operands *)

Create HintDb ip_reloc.
#[local] Hint Resolve same_reloc_refl same_keeps reloc_full reloc_vsetvli reloc_th_vsetvli : ip_reloc.

Section letters.

Context (env : as_env).
Context (expression : bool -> list ascii -> expressionS * list ascii * list diag).
Context (strtof : list ascii -> bool * option (Z * Z) * list ascii).
Context (insn : riscv_opcode).

(** Functions that put a value into the instruction. *)
Definition put_keeps (put : ip_state -> Z -> ip_state) : Prop := forall st v, same_reloc st (put st v).

Lemma with_reg_kept cls st k :
  (forall r st', same_reloc st st' -> reloc_kept st (k r st')) -> reloc_kept st (with_reg env cls st k).
Proof.
  intros Hk. unfold with_reg. destruct (reg_lookup env (asarg st) cls) as [[[r e]|] ds]; [|done].
  by apply Hk.
Qed.

Lemma reg_into_kept cls ok f v q st : reloc_kept st (reg_into env cls ok f v q st).
Proof. apply with_reg_kept. intros r st' H. destruct (ok r); [by apply same_keeps|done]. Qed.

Lemma reg_check_kept cls ok q st : reloc_kept st (reg_check env cls ok q st).
Proof. apply with_reg_kept. intros r st' H. destruct (ok _ r); [by apply same_keeps|done]. Qed.

Lemma reg_put_kept cls put q st :
  put_keeps put -> reloc_kept st (with_reg env cls st (fun r st => Continue q (put st r))).
Proof.
  intros Hp. apply with_reg_kept. intros r st' H. apply same_keeps.
  by eapply same_reloc_trans; [exact H|apply Hp].
Qed.

Lemma small_constant st n st' :
  my_getSmallExpression expression st = (n, st') -> n = 0 -> X_op_is st' O_constant = true ->
  same_reloc st st'.
Proof.
  unfold my_getSmallExpression. intros E Hn Hc.
  pose proof (reloc_small expression (asarg st) (percent_op st) st) as H. rewrite E in H.
  destruct H as [H1 [H2|[H2 _]]]; [by split|]. rewrite (H2 Hn) in Hc. done.
Qed.

Lemma const_imm_kept ok enc q st : reloc_kept st (const_imm expression ok enc q st).
Proof.
  unfold const_imm. destruct (my_getSmallExpression expression st) as [n st'] eqn:E.
  destruct (n =? 0) eqn:En; cbn [negb orb]; [|done].
  destruct (X_op_is st' O_constant) eqn:Ex; cbn [negb orb]; [|done].
  destruct (ok _); cbn [negb]; [|done]. apply Z.eqb_eq in En.
  by apply same_keeps, (small_constant _ _ _ E).
Qed.

Lemma offset_imm_kept ok enc q st : reloc_kept st (offset_imm expression ok enc q st).
Proof.
  unfold offset_imm. destruct (implicit_zero_offset _); [by apply same_keeps|apply const_imm_kept].
Qed.

Lemma field_imm_small_kept ok f d q st :
  reloc_kept st (field_imm (my_getSmallExpression expression) ok f d q st).
Proof.
  unfold field_imm. destruct (my_getSmallExpression expression st) as [n st'] eqn:E.
  destruct (n =? 0) eqn:En; cbn [negb orb]; [|done].
  destruct (X_op_is st' O_constant) eqn:Ex; cbn [negb orb]; [|done].
  destruct (ok _); cbn [negb]; [|done]. apply Z.eqb_eq in En.
  by apply same_keeps, (small_constant _ _ _ E).
Qed.

Lemma field_imm_opcode_kept ok f d q st :
  reloc_kept st (field_imm (my_getOpcodeExpression expression) ok f d q st).
Proof.
  unfold field_imm. pose proof (reloc_opcode_expr expression st) as H.
  destruct (my_getOpcodeExpression expression st) as [n st']. cbn [snd] in H.
  destruct (_ || _ || _); [done|]. by apply same_keeps.
Qed.

Lemma abs_imm_kept get bad d put q st :
  (forall st, same_reloc st (get st)) -> put_keeps put ->
  reloc_kept st (abs_imm env insn get bad d put q st).
Proof.
  intros Hg Hp. unfold abs_imm. apply same_keeps.
  set (st1 := check_absolute_expr env (name insn) false (get st)).
  assert (H1 : same_reloc st st1).
  { destruct (Hg st) as [H1 H2]. split; [exact H1|exact H2]. }
  pose proof (reloc_as_bad_if (bad (X_num st1)) (d (X_num st1)) st1) as H2.
  eapply same_reloc_trans; [exact H1|]. eapply same_reloc_trans; [exact H2|].
  exact (Hp _ _).
Qed.

Lemma put_field f : put_keeps (INSERT_OPERAND f).
Proof. done. Qed.
Lemma put_or enc : put_keeps (or_enc enc).
Proof. done. Qed.
Lemma put_imm n s : put_keeps (INSERT_IMM n s).
Proof. done. Qed.

Lemma branch_kept q st : reloc_kept st (ip_branch expression q st).
Proof.
  destruct (reloc_full expression (set_reloc st (Some BFD_RELOC_12_PCREL))) as [H1 H2].
  split; [right; left; exact H1|left; exact H2].
Qed.

Lemma jump_kept q st : reloc_kept st (ip_jump expression q st).
Proof.
  destruct (reloc_full expression st) as [H1 H2]. split; [right; by right|left; exact H2].
Qed.

Lemma rvc_lui_kept q st st0 :
  (X_op_is st O_constant = true -> keeps_reloc st0 st) -> reloc_kept st0 (rvc_lui q st).
Proof.
  intros H. unfold rvc_lui. cbv zeta.
  destruct (X_op_is st O_constant) eqn:E; cbn [negb orb]; [|done].
  destruct (_ || _ || _); [done|]. exact (H eq_refl).
Qed.

Lemma mask_kept q st st0 : same_reloc st0 st -> reloc_kept st0 (ip_mask env q st).
Proof.
  intros H. unfold ip_mask, with_reg.
  destruct (reg_lookup env (asarg st) RCLASS_VECM) as [[[r e]|] ds]; [|done].
  destruct (r =? 0); [|done]. by apply same_keeps.
Qed.

(** Dispatch on the head of the operand's definition. *)
Ltac kept_step :=
  match goal with
  | |- reloc_kept _ Unknown => exact I
  | |- reloc_kept _ (Break _) => exact I
  | |- reloc_kept _ (reg_into _ _ _ _ _ _ _) => apply reg_into_kept
  | |- reloc_kept _ (reg_check _ _ _ _ _) => apply reg_check_kept
  | |- reloc_kept _ (const_imm _ _ _ _ _) => apply const_imm_kept
  | |- reloc_kept _ (offset_imm _ _ _ _ _) => apply offset_imm_kept
  | |- reloc_kept _ (field_imm (my_getSmallExpression _) _ _ _ _ _) => apply field_imm_small_kept
  | |- reloc_kept _ (field_imm (my_getOpcodeExpression _) _ _ _ _ _) => apply field_imm_opcode_kept
  | |- reloc_kept _ (abs_imm _ _ _ _ _ _ _ _) => apply abs_imm_kept; [auto with ip_reloc|done]
  | |- reloc_kept _ (ip_branch _ _ _) => apply branch_kept
  | |- reloc_kept _ (ip_jump _ _ _) => apply jump_kept
  | |- reloc_kept _ (ip_mask _ _ _) => apply mask_kept; done
  | |- reloc_kept _ (with_reg _ _ _ _) =>
      apply with_reg_kept; intros ? ? ?; repeat case_match; try exact I; apply same_keeps; assumption
  end.

Lemma ip_rvc_kept p st : reloc_kept st (ip_rvc env expression p st).
Proof.
  destruct p as [|c q]; [done|].
  destruct c as [[] [] [] [] [] [] [] []]; cbn [ip_rvc]; try kept_step.
  3: destruct q as [|d q]; [done|]; destruct d as [[] [] [] [] [] [] [] []]; kept_step.
  - destruct (my_getSmallExpression expression (set_p st percent_op_utype)) as [n st'] eqn:E.
    destruct (n =? 0) eqn:En; cbn [negb]; [|done]. apply rvc_lui_kept. intros Hc.
    apply Z.eqb_eq in En. destruct (small_constant _ _ _ E En Hc) as [H1 H2].
    split; [by left|by right].
  - destruct (my_getSmallExpression expression st) as [n st'] eqn:E.
    destruct (n =? 0) eqn:En; cbn [negb orb]; [|done]. destruct (_ || _); [done|].
    apply rvc_lui_kept. intros Hc. apply Z.eqb_eq in En.
    destruct (small_constant _ _ _ E En Hc) as [H1 H2]. apply same_keeps. by split.
Qed.

Lemma ip_rvv_kept p st : reloc_kept st (ip_rvv env expression insn p st).
Proof.
  destruct p as [|c q]; [done|].
  destruct c as [[] [] [] [] [] [] [] []]; cbn [ip_rvv]; try kept_step.
  - destruct (asarg st) as [|d e]; [by apply same_keeps|].
    destruct d as [[] [] [] [] [] [] [] []]; kept_step.
  - destruct (reg_lookup env (asarg st) RCLASS_GPR) as [[[r e]|] ds].
    + destruct (r =? 0); [by apply same_keeps|].
      apply (with_reg_kept RCLASS_VECR (set_asarg (report st ds) e)). intros r' st' H.
      by apply same_keeps.
    + apply (with_reg_kept RCLASS_VECR (report st ds)). intros r' st' H. by apply same_keeps.
Qed.

Lemma ip_w_kept p st : reloc_kept st (ip_w env expression strtof insn p st).
Proof.
  destruct p as [|c q]; [done|]. destruct c as [[] [] [] [] [] [] [] []]; cbn [ip_w]; try exact I.
  all: destruct q as [|d q]; [done|]; destruct d as [[] [] [] [] [] [] [] []]; try exact I; try kept_step.
  - destruct (implicit_zero_offset _); [by apply same_keeps|kept_step].
  - destruct (arg_lookup (asarg st) riscv_fli_symval) as [[r e]|]; [by apply same_keeps|].
    destruct (strtof (asarg st)) as [[errno f] e]. destruct (if _ || _ then None else _); [|done].
    by apply same_keeps.
Qed.

Lemma uimm_bit_field_kept f a b q st : reloc_kept st (uimm_bit_field expression f a b q st).
Proof.
  unfold uimm_bit_field. pose proof (reloc_opcode_expr expression st) as H.
  destruct (my_getOpcodeExpression expression st) as [n st']. cbn [snd] in H.
  destruct (_ || _ || _); by apply same_keeps.
Qed.

Lemma ip_cv_kept enc q st : reloc_kept st (ip_cv_uimm5 env expression insn enc q st).
Proof.
  unfold ip_cv_uimm5. cbv zeta. destruct (below 32 _); [|done]. apply same_keeps.
  destruct (reloc_full expression st) as [H1 H2]. by split.
Qed.

Lemma parse_imm_kept sign p st : reloc_kept st (ip_parse_imm env expression insn sign p st).
Proof.
  unfold ip_parse_imm. destruct (strtol10 p) as [n p1]. destruct p1 as [|c p1]; [done|].
  destruct c as [[] [] [] [] [] [] [] []]; try exact I. destruct (strtol10 p1) as [s q]. kept_step.
Qed.

Lemma literal_kept (b : bool) (n : nat) q st (st1 := as_bad_if b D_literal st) :
  reloc_kept st (if (length (asarg st1) <? n)%nat then Overrun
                 else Continue q (set_asarg st1 (drop n (asarg st1)))).
Proof. destruct (_ <? _)%nat; [done|]. apply same_keeps. by destruct b. Qed.

Lemma ip_x_kept p st : reloc_kept st (ip_x env expression insn p st).
Proof.
  destruct p as [|c q]; [done|]. destruct c as [[] [] [] [] [] [] [] []]; cbn [ip_x]; try exact I.
  all: destruct q as [|d q]; [done|]; destruct d as [[] [] [] [] [] [] [] []]; try exact I;
    try apply uimm_bit_field_kept; try apply ip_cv_kept; try apply parse_imm_kept.
  - destruct q as [|d q]; [done|]; destruct d as [[] [] [] [] [] [] [] []]; try exact I;
      apply uimm_bit_field_kept.
  - destruct q as [|d q]; [done|]; destruct d as [[] [] [] [] [] [] [] []]; try exact I; kept_step.
  - destruct (span_until [","%char] q) as [lit q']. apply literal_kept.
Qed.

(** The letters that can leave another relocation. *)
Definition reloc_letter (p : list ascii) : bool :=
  match p with
  | "j"%char :: _ | "q"%char :: _ | "o"%char :: _ | "1"%char :: _ | "0"%char :: _ | "u"%char :: _
  | "c"%char :: _ | "A"%char :: _ | "B"%char :: _ => true
  | _ => false
  end.

Lemma skip_one_space_same st : same_reloc st (skip_one_space st).
Proof.
  unfold skip_one_space. destruct (asarg st) as [|c e]; [done|].
  by destruct c as [[] [] [] [] [] [] [] []].
Qed.

Lemma gpr_kept put q st : put_keeps put -> reloc_kept st (ip_gpr env put q st).
Proof.
  intros Hp. unfold ip_gpr. apply with_reg_kept. intros r st' H. apply same_keeps.
  eapply same_reloc_trans; [exact H|]. eapply same_reloc_trans; [apply skip_one_space_same|apply Hp].
Qed.

Lemma fpr_kept put q st : put_keeps put -> reloc_kept st (ip_fpr env put q st).
Proof.
  intros Hp. unfold ip_fpr. apply with_reg_kept. intros r st' H. apply same_keeps.
  eapply same_reloc_trans; [exact H|]. eapply same_reloc_trans; [apply skip_one_space_same|apply Hp].
Qed.

Lemma char_kept c q st : reloc_kept st (ip_char c q st).
Proof.
  unfold ip_char. destruct (asarg st) as [|d e]; [done|].
  destruct (Ascii.eqb d c); [by apply same_keeps|done].
Qed.

Lemma name_kept arr f q st : reloc_kept st (ip_name arr f q st).
Proof. unfold ip_name. destruct (arg_lookup _ _) as [[r e]|]; [by apply same_keeps|done]. Qed.

Lemma csr_kept q st : reloc_kept st (ip_csr env expression insn q st).
Proof.
  unfold ip_csr. cbv zeta. set (st1 := set_priv_attr (set_with_csr st true)).
  destruct (reg_lookup env (asarg st1) RCLASS_CSR) as [[[r e]|] ds]; [by apply same_keeps|].
  set (st2 := check_absolute_expr env (name insn) true (my_getExpression expression (report st1 ds))).
  assert (H : same_reloc st st2).
  { destruct (reloc_full expression (report st1 ds)) as [H1 H2]. split; [exact H1|exact H2]. }
  apply same_keeps. eapply same_reloc_trans; [exact H|].
  eapply same_reloc_trans; [apply reloc_as_bad_if|]. by split.
Qed.

Lemma macro_const_kept q st : reloc_kept st (ip_macro_const env expression q st).
Proof.
  unfold ip_macro_const. destruct (_ && _); [done|]. apply same_keeps.
  destruct (reloc_full expression st) as [H1 H2]. by split.
Qed.

(** Any other letter keeps the relocation. *)
Lemma ip_operand_kept p st :
  reloc_letter p = false -> reloc_kept st (ip_operand env expression strtof insn p st).
Proof.
  destruct p as [|c q]; [done|].
  destruct c as [[] [] [] [] [] [] [] []]; cbn [reloc_letter]; intros Hr; try discriminate Hr;
    cbn [ip_operand];
    first [ kept_step
          | match goal with
            | |- reloc_kept _ (ip_gpr _ _ _ _) => apply gpr_kept; done
            | |- reloc_kept _ (ip_fpr _ _ _ _) => apply fpr_kept; done
            | |- reloc_kept _ (ip_char _ _ _) => apply char_kept
            | |- reloc_kept _ (ip_name _ _ _ _) => apply name_kept
            | |- reloc_kept _ (ip_csr _ _ _ _ _) => apply csr_kept
            | |- reloc_kept _ (ip_macro_const _ _ _ _) => apply macro_const_kept
            | |- reloc_kept _ (ip_rvc _ _ _ _) => apply ip_rvc_kept
            | |- reloc_kept _ (ip_rvv _ _ _ _ _) => apply ip_rvv_kept
            | |- reloc_kept _ (ip_w _ _ _ _ _ _) => apply ip_w_kept
            | |- reloc_kept _ (ip_x _ _ _ _ _) => apply ip_x_kept
            end
          | idtac ].
  all: destruct q as [|d q]; [done|]; destruct d as [[] [] [] [] [] [] [] []]; kept_step.
Qed.

(** A relocation with a field of at most four bytes. *)
Definition reloc4 (r : reloc) : bool :=
  match riscv_reloc_type_lookup r with Some h => (reloc_size h <=? 4)%nat | None => false end.

Definition branch_reloc (r : reloc) : bool :=
  bool_decide (r = BFD_RELOC_12_PCREL) || bool_decide (r = BFD_RELOC_RISCV_JMP).

(** The relocations of a 32-bit instruction, and those of a compressed one. *)
Definition insn4_reloc (r : option reloc) : Prop :=
  match r with Some r => branch_reloc r || reloc4 r = true | None => True end.
Definition insn2_reloc (r : option reloc) : Prop :=
  match r with Some r => branch_reloc r = true | None => True end.

Definition state4 (st : ip_state) : Prop :=
  insn4_reloc (imm_reloc st) /\ Forall (fun x => reloc4 x.2 = true) (percent_op st).

Lemma utype_reloc4 : Forall (fun x => reloc4 x.2 = true) percent_op_utype.
Proof. repeat constructor. Qed.

Lemma keeps_state4 st st' : keeps_reloc st st' -> state4 st -> state4 st'.
Proof.
  intros [H1 H2] [H3 H4]. split.
  - destruct H1 as [->|[->| ->]]; done.
  - destruct H2 as [->| ->]; [done|apply utype_reloc4].
Qed.

Lemma keeps_insn2 st st' :
  keeps_reloc st st' -> insn2_reloc (imm_reloc st) -> insn2_reloc (imm_reloc st').
Proof. intros [[->|[->| ->]] _]; done. Qed.

(** The expression of an operand with relocation operators. *)
Lemma small_state4 st :
  state4 st -> state4 (my_getSmallExpression expression st).2.
Proof.
  intros [H1 H2]. pose proof (reloc_small expression (asarg st) (percent_op st) st) as H.
  unfold my_getSmallExpression. destruct (getSmallExpression _ _ _ _) as [n st']. cbn [snd].
  destruct H as [Hp Hr]. split; [|by rewrite Hp].
  destruct Hr as [->|[_ [->|(o & r & Hin & ->)]]]; [done|done|]. cbn.
  rewrite List.Forall_forall in H2. specialize (H2 (o, r) Hin). cbn in H2. by rewrite H2, orb_true_r.
Qed.

Lemma alu_state4 c q st :
  state4 st -> match ip_alu_op env expression c q st with Continue _ st' => state4 st' | _ => True end.
Proof.
  intros H. apply small_state4 in H. unfold ip_alu_op.
  destruct (my_getSmallExpression expression st) as [n st']. cbn [snd] in H.
  destruct (n =? 0); [|done]. cbv zeta. destruct (_ || _); done.
Qed.

Lemma load_store_state4 c q st :
  state4 st -> match ip_load_store env expression c q st with Continue _ st' => state4 st' | _ => True end.
Proof.
  intros H. unfold ip_load_store. destruct (implicit_zero_offset _); [done|by apply alu_state4].
Qed.

Lemma upper_state4 q st :
  state4 st -> match ip_upper expression q st with Continue _ st' => state4 st' | _ => True end.
Proof.
  intros [H1 H2]. unfold ip_upper.
  assert (H : state4 (set_p st percent_op_utype)) by (split; [done|apply utype_reloc4]).
  apply small_state4 in H. destruct (my_getSmallExpression _ _) as [n st']. cbn [snd] in H.
  destruct (n =? 0); [|done]. destruct (negb _); [done|]. cbv zeta. destruct H as [H3 H4].
  split; [done|]. by destruct (_ || _).
Qed.

Lemma macro_symbol_state4 k q st :
  state4 st -> match ip_macro_symbol env expression k q st with Continue _ st' => state4 st' | _ => True end.
Proof.
  intros [H1 H2]. unfold ip_macro_symbol. destruct (_ && _); [done|].
  destruct (reloc_full expression st) as [H3 H4]. destruct (X_op_is _ O_symbol).
  - split; [done|]. cbn. by rewrite H4.
  - split; cbn; [by rewrite H3|by rewrite H4].
Qed.

Definition call_letter (p : list ascii) : bool := match p with "c"%char :: _ => true | _ => false end.

Lemma ip_operand_state4 p st :
  call_letter p = false -> state4 st ->
  match ip_operand env expression strtof insn p st with Continue _ st' => state4 st' | _ => True end.
Proof.
  intros Hc Hs. destruct (reloc_letter p) eqn:Hr.
  - destruct p as [|c q]; [done|].
    destruct c as [[] [] [] [] [] [] [] []]; try discriminate Hr; try discriminate Hc; clear Hr Hc;
      cbn [ip_operand];
      match goal with
      | |- context [ip_alu_op _ _ _ _ ?s] => apply alu_state4
      | |- context [ip_load_store _ _ _ _ ?s] => apply load_store_state4
      | |- context [ip_upper _ _ _] => apply upper_state4
      | |- context [ip_macro_symbol _ _ _ _ _] => apply macro_symbol_state4
      end; try done; destruct Hs as [H1 H2]; (split; [first [exact H1|done]|repeat constructor]).
  - pose proof (ip_operand_kept p st Hr) as H.
    destruct (ip_operand _ _ _ _ _ _); try done. by eapply keeps_state4.
Qed.

(** ** The loop *)

(** [P] holds of every operand in a string. *)
Fixpoint letters_all (P : list ascii -> bool) (fuel : nat) (p : list ascii) : bool :=
  match p with
  | [] => true
  | _ :: _ =>
      match fuel with
      | O => false
      | S fuel' => P p && match ip_use p with Some (_, q) => letters_all P fuel' q | None => false end
      end
  end.

Lemma ip_operands_inv (P : list ascii -> bool) (I : list ascii -> ip_state -> Prop) :
  (forall p st e, I p st -> I p (set_asarg st e)) ->
  (forall p b q st st', P p = true -> ip_use p = Some (b, q) -> I p st ->
     ip_operand env expression strtof insn p st = Continue q st' -> I q st') ->
  forall fuel p st q st', letters_all P fuel p = true -> 0 <= insn_opcode st < 2 ^ 64 -> I p st ->
  ip_operands env expression strtof insn fuel p st = Continue q st' -> I [] st'.
Proof.
  intros Hset Hstep. induction fuel as [|fuel IH]; intros [|c p] st q st' Hl Hw HI;
    cbn [ip_operands letters_all] in *; try done.
  1-2: intros [= <- <-]; by apply Hset.
  apply andb_true_iff in Hl as [HP Hl].
  pose proof (ip_operand_agrees env expression strtof insn (c :: p)
                (set_asarg st (skip_blanks (asarg st))) ltac:(done) Hw) as Ha.
  destruct (ip_operand _ _ _ _ _ _) as [r st1|st1| |] eqn:Eo; cbn [op_agrees] in Ha; try done.
  destruct Ha as (b & Eu & Hb). rewrite Eu in Hl.
  apply IH; [done|apply Hb|]. by eapply Hstep; [exact HP|exact Eu| |exact Eo]; apply Hset.
Qed.

End letters.

(** ** The shipped table *)

Definition has_c (p : list ascii) : bool := existsb (Ascii.eqb "c") p.

(** The operands of calls: the target, and registers. *)
Definition call_operand (p : list ascii) : bool :=
  match p with
  | "c"%char :: _ | "d"%char :: _ | "s"%char :: _ | ","%char :: _ => true
  | _ => false
  end.

Definition entry_relocs (op : riscv_opcode) : bool :=
  let n := String.length (args op) in
  let p := chars (args op) in
  if pinfo op =? INSN_MACRO
  then negb (mask op =? M_CALL) || (letters_all call_operand n p && has_c p)
  else letters_all (fun p => negb (call_letter p)) n p
       && (negb (riscv_insn_length (match_ op) =? 2) || letters_all (fun p => negb (reloc_letter p)) n p).

Lemma riscv_opcodes_relocs : forallb entry_relocs riscv_opcodes = true.
Proof. vm_compute. reflexivity. Qed.

Section relocations.

Context (env : as_env).
Context (expression : bool -> list ascii -> expressionS * list ascii * list diag).
Context (strtof : list ascii -> bool * option (Z * Z) * list ascii).

Lemma ip_end_reloc op st st' m : ip_end env op st = (st', m) -> imm_reloc st' = imm_reloc st.
Proof. unfold ip_end. repeat case_match; intros [= <- <-]; simplify_eq; done. Qed.

Abbreviation operands op := (ip_operands env expression strtof op (String.length (args op)) (chars (args op))).

Lemma operands_insn4 op st q st' :
  letters_all (fun p => negb (call_letter p)) (String.length (args op)) (chars (args op)) = true ->
  0 <= insn_opcode st < 2 ^ 64 -> state4 st -> operands op st = Continue q st' -> state4 st'.
Proof.
  intros Hl Hw Hs H.
  refine (ip_operands_inv env expression strtof op (fun p => negb (call_letter p)) (fun _ => state4) _ _
    _ _ _ _ _ Hl Hw Hs H); [done|].
  intros p b r s s' Hp _ HI E. apply negb_true_iff in Hp.
  pose proof (ip_operand_state4 env expression strtof op p s Hp HI) as H4. by rewrite E in H4.
Qed.

Lemma operands_insn2 op st q st' :
  letters_all (fun p => negb (reloc_letter p)) (String.length (args op)) (chars (args op)) = true ->
  0 <= insn_opcode st < 2 ^ 64 -> insn2_reloc (imm_reloc st) -> operands op st = Continue q st' ->
  insn2_reloc (imm_reloc st').
Proof.
  intros Hl Hw Hs H.
  refine (ip_operands_inv env expression strtof op (fun p => negb (reloc_letter p))
    (fun _ st => insn2_reloc (imm_reloc st)) _ _ _ _ _ _ _ Hl Hw Hs H); [done|].
  intros p b r s s' Hp _ HI E. apply negb_true_iff in Hp.
  pose proof (ip_operand_kept env expression strtof op p s Hp) as H4. rewrite E in H4.
  by eapply keeps_insn2.
Qed.

(** A register or a comma does not touch the relocation. *)
Lemma plain_operand op p q st st' :
  call_operand p = true -> call_letter p = false ->
  ip_operand env expression strtof op p st = Continue q st' -> same_reloc st st' /\ has_c p = has_c q.
Proof.
  intros Hp Hc. destruct p as [|c r]; [done|].
  destruct c as [[] [] [] [] [] [] [] []]; try discriminate Hp; try discriminate Hc;
    cbn [ip_operand]; clear Hp Hc.
  1,3: unfold ip_gpr, with_reg; destruct (reg_lookup env (asarg st) RCLASS_GPR) as [[[r' e]|] ds]; [|done];
    intros [= <- <-]; (split; [|done]);
    apply (same_reloc_trans _ (skip_one_space (set_asarg (report st ds) e)));
    [apply (skip_one_space_same (set_asarg (report st ds) e))|done].
  unfold ip_char. destruct (asarg st) as [|d e]; [done|]. destruct (Ascii.eqb d ","); [|done].
  by intros [= <- <-].
Qed.

Lemma operands_call op st q st' :
  letters_all call_operand (String.length (args op)) (chars (args op)) = true ->
  has_c (chars (args op)) = true -> 0 <= insn_opcode st < 2 ^ 64 ->
  operands op st = Continue q st' -> imm_reloc st' = Some BFD_RELOC_RISCV_CALL_PLT.
Proof.
  intros Hl Hc Hw H.
  refine (ip_operands_inv env expression strtof op call_operand
    (fun p st => has_c p = false -> imm_reloc st = Some BFD_RELOC_RISCV_CALL_PLT) _ _ _ _ _ _ _ Hl Hw _ H
    eq_refl); [done| |by rewrite Hc].
  intros p b r s s' Hp _ HI E Hr. destruct (call_letter p) eqn:Hcl.
  - destruct p as [|c p]; [done|]. destruct c as [[] [] [] [] [] [] [] []]; try discriminate Hcl.
    cbn [ip_operand] in E. injection E as _ <-. done.
  - destruct (plain_operand op p r s s' Hp Hcl E) as [[H1 _] H2]. rewrite H1. apply HI. congruence.
Qed.

(** What an assembled instruction can be relocated by. *)
Lemma riscv_ip_reloc str st0 op st :
  riscv_ip env expression strtof op_hash str st0 = IP_ok op st ->
  (pinfo op <> INSN_MACRO -> insn4_reloc (imm_reloc st) /\
     (riscv_insn_length (match_ op) = 2 -> insn2_reloc (imm_reloc st))) /\
  (pinfo op = INSN_MACRO -> mask op = M_CALL -> imm_reloc st = Some BFD_RELOC_RISCV_CALL_PLT).
Proof.
  unfold riscv_ip. destruct (split_name str) as [nm start]. intros H.
  apply ip_entries_ok in H as (Hin & _ & sa & q & st1 & Ho & He).
  apply (candidates_in _ _ _ _ _ op_hash_ok) in Hin as [Hin _].
  pose proof riscv_opcodes_relocs as Hr. rewrite forallb_forall in Hr. specialize (Hr op Hin).
  pose proof riscv_opcodes_ok as Hk. rewrite forallb_forall in Hk. specialize (Hk op Hin).
  clear Hin. rewrite (ip_end_reloc _ _ _ _ He).
  assert (Hw : 0 <= insn_opcode (create_insn op start sa) < 2 ^ 64).
  { apply entry_ok_letters in Hk. unfold letters_ok in Hk. destruct (ip_uses _ _); [|done].
    breflect. by split. }
  unfold entry_relocs in Hr. split; intros Hp; [rewrite (proj2 (Z.eqb_neq _ _) Hp) in Hr|].
  - apply andb_true_iff in Hr as [H4 H2]. split.
    + apply (operands_insn4 op (create_insn op start sa) q st1); try done.
    + intros Hlen. rewrite Hlen in H2. cbn [negb orb Z.eqb] in H2.
      by apply (operands_insn2 op (create_insn op start sa) q st1).
  - intros Hm. rewrite Hp, Hm, !Z.eqb_refl in Hr. cbn [negb orb] in Hr.
    apply andb_true_iff in Hr as [H1 H2].
    by apply (operands_call op (create_insn op start sa) q st1).
Qed.

End relocations.
