(* ===== verification/Emit.v ===== *)
(** * Emitting instructions (gas/config/tc-riscv.c, gas/frags.c)

    What [md_assemble] does with a line: the frags and fixups it appends, the
    mapping symbols, and the expansion of macros into further instructions.
    The section is an ordinary one; line-number information is left out. *)
From Stdlib Require Import ZArith Bool Lia Ascii String.
From stdpp Require Import base list strings gmap.
From S2P Require Import Prelude OpcodeH RiscvH OpcodeTable Validate SubsetTables Subset LoadConst Bytes Howto Fixups Relax Regs Expr Ip Mapping Options.

#[local] Open Scope Z_scope.
#[local] Open Scope c_scope.
#[local] Open Scope list_scope.

(** ** State *)

(** A symbol an expression can refer to: one of the source, or an internal
    label. *)
Inductive sym : Set := Sym_user (s : string) | Sym_label (k : nat).

(** [expressionS] as the fixups keep it. *)
Record address_expr : Set := mk_addr {
  ae_op : operatorT;
  ae_sym : option sym;
  ae_num : Z;
}.

Definition addr_of (e : expressionS) : address_expr :=
  mk_addr (X_op e) (Sym_user <$> X_add_symbol e) (X_add_number e).

(** The variable part of a frag of type rs_machine_dependent. *)
Record variant : Set := mk_variant {
  v_var : Z;
  v_subtype : Z;
  v_symbol : option sym;
  v_offset : Z;
}.

(** A closed frag; without a variable part it is an empty ".fill". *)
Record out_frag : Set := mk_out_frag {
  of_literal : list Z;
  of_fix : nat;
  of_variant : option variant;
}.

(** A fixup; the frag is a null pointer until the instruction is placed. *)
Record out_fix : Set := mk_out_fix {
  xf_frag : option nat;
  xf_where : nat;
  xf_size : nat;
  xf_exp : address_expr;
  xf_r_type : reloc;
  xf_tcbit : bool;
  xf_source_macro : Z;
}.

(** What is wrong with the values of .insn. *)
Inductive value_msg : Set := VM_not_constant | VM_unrecognized | VM_length_conflict.

Inductive emit_msg : Set :=
| EM_statement (m : ip_msg) (missing_ext : option string)
| EM_value (m : value_msg) (missing_ext : option string)
| EM_dtprel | EM_junk_at_end
| EM_offset_too_large | EM_large_constant | EM_register_expression
| EM_vector_temp | EM_macro_not_implemented.

(** What ends the assembler: a failed assertion, an internal error, a null
    relocation howto, a write outside the memory of a frag, operand text read
    past its end, a littlenum read outside of [generic_bignum]; [Out_of_fuel] is
    the bound of the model. *)
Inductive emit_stop : Set :=
| Assert_failed | Internal_error | Null_howto | Null_arch_str | Memory_overrun | Text_overrun
| Bignum_overrun | Out_of_fuel.

(** The output state.  [frag_buf] is the memory from [fr_literal] of [frag_now]
    to the end of the obstack chunk, of which [frag_used] bytes are taken. *)
Record out_state : Type := mk_out {
  cfg : settings;
  ipg : ip_state;
  smap : mapping;
  frags : list out_frag;
  frag_buf : list Z;
  frag_used : nat;
  fixes : list out_fix;
  labels : list (nat * nat);
  source_macro : Z;
  emsgs : list emit_msg;
}.

Definition set_cfg (st : out_state) (c : settings) (i : ip_state) (m : mapping) : out_state :=
  mk_out c i m (frags st) (frag_buf st) (frag_used st) (fixes st) (labels st) (source_macro st)
    (emsgs st).
Definition set_frags (st : out_state) (f : list out_frag) (b : list Z) (u : nat) : out_state :=
  mk_out (cfg st) (ipg st) (smap st) f b u (fixes st) (labels st) (source_macro st) (emsgs st).
Definition set_fixes (st : out_state) (f : list out_fix) : out_state :=
  mk_out (cfg st) (ipg st) (smap st) (frags st) (frag_buf st) (frag_used st) f (labels st)
    (source_macro st) (emsgs st).
Definition set_labels (st : out_state) (l : list (nat * nat)) : out_state :=
  mk_out (cfg st) (ipg st) (smap st) (frags st) (frag_buf st) (frag_used st) (fixes st) l
    (source_macro st) (emsgs st).
Definition set_source_macro (st : out_state) (m : Z) : out_state :=
  mk_out (cfg st) (ipg st) (smap st) (frags st) (frag_buf st) (frag_used st) (fixes st) (labels st)
    m (emsgs st).
Definition set_emsgs (st : out_state) (e : list emit_msg) : out_state :=
  mk_out (cfg st) (ipg st) (smap st) (frags st) (frag_buf st) (frag_used st) (fixes st) (labels st)
    (source_macro st) e.

(** The number of [frag_now], and the room left in its chunk. *)
Definition frag_now (st : out_state) : nat := length (frags st).
Definition obstack_room (st : out_state) : nat := (length (frag_buf st) - frag_used st)%nat.

(** ** State and failure *)

Inductive result (A : Type) : Type :=
| Ok (a : A) (st : out_state)
| Stop (why : emit_stop).
Arguments Ok {A} a st.
Arguments Stop {A} why.

Definition em (A : Type) : Type := out_state -> result A.

Definition ret {A} (a : A) : em A := fun st => Ok a st.
Definition bind {A B} (m : em A) (k : A -> em B) : em B :=
  fun st => match m st with Ok a st' => k a st' | Stop w => Stop w end.
Definition stop {A} (w : emit_stop) : em A := fun _ => Stop w.
Definition get_state : em out_state := fun st => Ok st st.
Definition modify (f : out_state -> out_state) : em unit := fun st => Ok tt (f st).

Notation "'let*' x ':=' m 'in' k" := (bind m (fun x => k))
  (at level 10, x name, m at level 100, k at level 200) : c_scope.
Notation "m ';*' k" := (bind m (fun _ => k)) (at level 199, right associativity) : c_scope.

Definition as_bad (m : emit_msg) : em unit := modify (fun st => set_emsgs st (emsgs st ++ [m])).

(** ** Instructions *)

Record riscv_cl_insn : Type := mk_cl_insn {
  ci_mo : riscv_opcode;
  ci_opcode : Z;
  ci_long : nat -> Z;            (* insn_long_opcode *)
  ci_fixp : option nat;          (* the fixup, by its number *)
}.

(** [create_insn] leaves the long opcode empty: its first byte is 0. *)
Abbreviation mk_insn mo w fixp := (mk_cl_insn mo w (fun _ => 0) fixp).

Definition insn_length (ip : riscv_cl_insn) : nat := Z.to_nat (riscv_insn_length (ci_opcode ip)).

(** What [install_insn] writes. *)
Definition insn_bytes (ip : riscv_cl_insn) : list Z :=
  if negb (ci_long ip 0%nat =? 0) then map (ci_long ip) (seq 0 (insn_length ip))
  else number_to_chars_littleendian (ci_opcode ip) (insn_length ip).

(** ** Frags *)

(** The obstack the frags are allocated on: the size of a frag header, the
    offset of [contents] in struct _obstack_chunk, the size of a chunk, and what
    depends on addresses, the bytes the frag before leaves for alignment. *)
Record obstack : Type := mk_obstack {
  SIZEOF_STRUCT_FRAG : nat;
  chunk_header : nat;
  chunk_size : nat;
  frag_padding : nat -> nat;
}.

(** The size of a chunk [_obstack_newchunk (h, length)] allocates when no object
    has been started and the alignment mask is 0. *)
Definition newchunk_size (length chunk_size : nat) : nat :=
  let new_size := (length + 100)%nat in
  if (new_size <? chunk_size)%nat then chunk_size else new_size.

(** The room behind a frag that [frag_alloc] allocates, with [room] bytes left
    in the chunk when the frag before is closed. *)
Definition frag_room (ob : obstack) (room chunk : nat) : nat :=
  let room := (room - frag_padding ob room)%nat in
  if (room <? SIZEOF_STRUCT_FRAG ob)%nat
  then (newchunk_size (SIZEOF_STRUCT_FRAG ob) chunk - chunk_header ob - SIZEOF_STRUCT_FRAG ob)%nat
  else (room - SIZEOF_STRUCT_FRAG ob)%nat.

(** The sizes of the structures: a frag is not empty, and the header of a chunk
    (two pointers, and what alignment adds) is at most 32 bytes long. *)
Class ObstackLaws (ob : obstack) : Prop := obstack_laws {
  frag_not_empty : (0 < SIZEOF_STRUCT_FRAG ob)%nat;
  chunk_header_short : (chunk_header ob <= 32)%nat;
}.

Section emit.

Context (ob : obstack).

(** [frag_new (old_frags_var_max_size)], the fields of the old frag set. *)
Definition frag_new (old_frags_var_max_size : nat) (v : option variant) (chunk : nat) : em unit :=
  fun st =>
    if (frag_used st <? old_frags_var_max_size)%nat then Stop Assert_failed
    else Ok tt (set_frags st
      (frags st ++ [mk_out_frag (take (frag_used st) (frag_buf st))
                      (frag_used st - old_frags_var_max_size) v])
      (replicate (frag_room ob (obstack_room st) chunk) 0) 0).

(** [frag_wane (frag_now); frag_new (0)]. *)
Definition new_frag (chunk : nat) : em unit := frag_new 0 None chunk.

Fixpoint grow_loop (fuel nchars chunk : nat) : em unit :=
  let* st := get_state in
  if (obstack_room st <? nchars)%nat then
    match fuel with
    | O => stop Out_of_fuel
    | S fuel' => new_frag chunk ;* grow_loop fuel' nchars chunk
    end
  else ret tt.

(** [frag_grow]; each turn uses up room or ends the loop. *)
Definition frag_grow (nchars : nat) : em unit :=
  let* st := get_state in
  if (obstack_room st <? nchars)%nat then
    let more := if Z.of_nat nchars <? 0x10000 then (2 * nchars)%nat
                else (nchars + Z.to_nat 0x10000)%nat in
    let newc := (more + SIZEOF_STRUCT_FRAG ob)%nat in
    grow_loop (S (obstack_room st)) nchars (Nat.max newc (chunk_size ob))
  else ret tt.

(** [obstack_blank_fast]. *)
Definition blank_fast (nchars : nat) : em unit :=
  modify (fun st => set_frags st (frags st) (frag_buf st) (frag_used st + nchars)).

(** [frag_more (nchars) - frag_now->fr_literal]. *)
Definition frag_more (nchars : nat) : em nat :=
  frag_grow nchars ;*
  let* st := get_state in
  blank_fast nchars ;*
  ret (frag_used st).

(** [frag_var (rs_machine_dependent, max_chars, var, ...)]. *)
Definition frag_var (max_chars : nat) (v : variant) : em unit :=
  frag_grow max_chars ;* blank_fast max_chars ;* frag_new max_chars (Some v) (chunk_size ob).

(** ** Placing instructions *)

(** [install_insn] at [where_] of [frag_now]. *)
Definition install_insn (ip : riscv_cl_insn) (where_ : nat) : em unit := fun st =>
  if (where_ + insn_length ip <=? length (frag_buf st))%nat then
    Ok tt (set_frags st (frags st)
             (putb (insn_bytes ip) (frag_buf st) where_)
             (frag_used st))
  else Stop Memory_overrun.

Definition move_fix (frag where_ : nat) (f : out_fix) : out_fix :=
  mk_out_fix (Some frag) where_ (xf_size f) (xf_exp f) (xf_r_type f) (xf_tcbit f) (xf_source_macro f).

(** [move_insn (insn, frag_now, where)]. *)
Definition move_insn (ip : riscv_cl_insn) (where_ : nat) : em unit :=
  modify (fun st => match ci_fixp ip with
                    | Some i => set_fixes st (alter (move_fix (frag_now st) where_) i (fixes st))
                    | None => st
                    end) ;*
  install_insn ip where_.

Definition add_fixed_insn (ip : riscv_cl_insn) : em unit :=
  let* where_ := frag_more (insn_length ip) in
  move_insn ip where_.

Definition add_relaxed_insn (ip : riscv_cl_insn) (max_chars : nat) (v : variant) : em unit :=
  frag_grow max_chars ;*
  let* where_ := frag_more 0 in
  move_insn ip where_ ;*
  frag_var max_chars v.

(** [fix_new_exp] with the frag and the offset of an instruction that is not
    placed yet; the number of the new fixup. *)
Definition fix_new_exp (size : nat) (e : address_expr) (r_type : reloc) : em nat :=
  (if bool_decide (ae_op e = O_register) then as_bad EM_register_expression else ret tt) ;*
  let* st := get_state in
  modify (fun st => set_fixes st (fixes st ++ [mk_out_fix None 0 size e r_type
                                                 (relax (opts (cfg st))) (source_macro st)])) ;*
  ret (length (fixes st)).

(** The relocations after whose instruction a new frag starts. *)
Definition starts_frag (r : option reloc) : bool :=
  match r with
  | Some BFD_RELOC_RISCV_HI20 | Some BFD_RELOC_RISCV_PCREL_HI20
  | Some BFD_RELOC_RISCV_TPREL_HI20 | Some BFD_RELOC_RISCV_TPREL_ADD => true
  | _ => false
  end.

(** [append_insn (ip, address_expr, reloc_type)]. *)
Definition append_insn (ip : riscv_cl_insn) (address_expr : option address_expr)
    (reloc_type : option reloc) : em unit :=
  let fixed (ip : riscv_cl_insn) :=
    add_fixed_insn ip ;* (if starts_frag reloc_type then new_frag (chunk_size ob) else ret tt) in
  match reloc_type with
  | None => fixed ip
  | Some r =>
      match address_expr with
      | None => stop Assert_failed
      | Some e =>
          if bool_decide (r = BFD_RELOC_12_PCREL) || bool_decide (r = BFD_RELOC_RISCV_JMP) then
            let j := bool_decide (r = BFD_RELOC_RISCV_JMP) in
            let best_case := Z.of_nat (insn_length ip) in
            let worst_case := (relaxed_branch_length None 0 false).2 in
            add_relaxed_insn ip (Z.to_nat worst_case)
              (mk_variant best_case (RELAX_BRANCH_ENCODE j (best_case =? 2) worst_case)
                 (ae_sym e) (ae_num e))
          else
            match riscv_reloc_type_lookup r with
            | None => stop Null_howto
            | Some howto =>
                let* i := fix_new_exp (reloc_size howto) e r in
                fixed (mk_cl_insn (ci_mo ip) (ci_opcode ip) (ci_long ip) (Some i))
            end
      end
  end.

(** ** Macros *)

(** An argument of [macro_build]. *)
Inductive macro_arg : Set := MA_int (n : Z) | MA_reloc (r : reloc).

Definition insert (f : op_field) (w v : Z) : Z := INSERT_BITS w v (OP_MASK f) (OP_SH f).

(** The loop of [macro_build] over its format: the instruction and [r]. *)
Fixpoint macro_operands (fmt : list ascii) (args : list macro_arg) (w : Z) (r : option reloc)
    (has_ep : bool) : (Z * option reloc) + emit_stop :=
  match fmt, args with
  | [], _ => inl (w, r)
  | ","%char :: fmt, _ => macro_operands fmt args w r has_ep
  | "V"%char :: "d"%char :: fmt, MA_int n :: args =>
      macro_operands fmt args (insert FLD_VD w n) r has_ep
  | "V"%char :: "s"%char :: fmt, MA_int n :: args =>
      macro_operands fmt args (insert FLD_VS1 w n) r has_ep
  | "V"%char :: "t"%char :: fmt, MA_int n :: args =>
      macro_operands fmt args (insert FLD_VS2 w n) r has_ep
  | "V"%char :: "m"%char :: fmt, MA_int n :: args =>
      if n =? -1 then macro_operands fmt args (insert FLD_VMASK w 1) r has_ep
      else if n =? 0 then macro_operands fmt args (insert FLD_VMASK w 0) r has_ep
      else inr Internal_error
  | "d"%char :: fmt, MA_int n :: args => macro_operands fmt args (insert FLD_RD w n) r has_ep
  | "s"%char :: fmt, MA_int n :: args => macro_operands fmt args (insert FLD_RS1 w n) r has_ep
  | "t"%char :: fmt, MA_int n :: args => macro_operands fmt args (insert FLD_RS2 w n) r has_ep
  | "j"%char :: fmt, MA_reloc r' :: args | "u"%char :: fmt, MA_reloc r' :: args
  | "q"%char :: fmt, MA_reloc r' :: args =>
      if has_ep then macro_operands fmt args w (Some r') has_ep else inr Assert_failed
  | _, _ => inr Internal_error
  end.

(** The first entry with that name that is not a compressed instruction. *)
Definition macro_entry (name : string) : option riscv_opcode :=
  List.find (fun mo => 4 <=? riscv_insn_length (match_ mo)) (candidates op_hash name).

(** [macro_build (ep, name, fmt, ...)]. *)
Definition macro_build (ep : option address_expr) (name fmt : string) (args : list macro_arg)
  : em unit :=
  match macro_entry name with
  | None => stop Assert_failed
  | Some mo =>
      let has_ep := match ep with Some _ => true | None => false end in
      match macro_operands (chars fmt) args (match_ mo) None has_ep with
      | inr w => stop w
      | inl (w, r) =>
          if eqb has_ep (match r with Some _ => true | None => false end)
          then append_insn (mk_insn mo w None) ep r
          else stop Assert_failed
      end
  end.

Definition make_internal_label : em nat :=
  let* st := get_state in
  modify (fun st => set_labels st (labels st ++ [(frag_now st, frag_used st)])) ;*
  ret (length (labels st)).

Definition pcrel_access (destreg tempreg : Z) (ep : address_expr) (lo_insn lo_pattern : string)
    (hi_reloc lo_reloc : reloc) : em unit :=
  let* label := make_internal_label in
  let ep2 := mk_addr O_symbol (Some (Sym_label label)) 0 in
  macro_build (Some ep) "auipc" "d,u" [MA_int tempreg; MA_reloc hi_reloc] ;*
  macro_build (Some ep2) lo_insn lo_pattern [MA_int destreg; MA_int tempreg; MA_reloc lo_reloc].

Definition pcrel_load (destreg tempreg : Z) (ep : address_expr) (lo_insn : string)
    (hi_reloc lo_reloc : reloc) : em unit :=
  pcrel_access destreg tempreg ep lo_insn "d,s,j" hi_reloc lo_reloc.

Definition pcrel_store (srcreg tempreg : Z) (ep : address_expr) (lo_insn : string)
    (hi_reloc lo_reloc : reloc) : em unit :=
  pcrel_access srcreg tempreg ep lo_insn "t,s,q" hi_reloc lo_reloc.

Definition riscv_call (destreg tempreg : Z) (ep : address_expr) (r : reloc) : em unit :=
  frag_grow 8 ;*
  macro_build (Some ep) "auipc" "d,u" [MA_int tempreg; MA_reloc r] ;*
  macro_build None "jalr" "d,s" [MA_int destreg; MA_int tempreg] ;*
  new_frag (chunk_size ob).

Definition vector_macro (mo : riscv_opcode) (w : Z) : em unit :=
  let vd := EXTRACT_OPERAND FLD_VD w in
  let vs1 := EXTRACT_OPERAND FLD_VS1 w in
  let vs2 := EXTRACT_OPERAND FLD_VS2 w in
  let vm := EXTRACT_OPERAND FLD_VMASK w in
  let vtemp := EXTRACT_OPERAND FLD_VFUNCT6 w in
  let vmslt_vx := if match_ mo =? 0 then "vmslt.vx"%string else "vmsltu.vx"%string in
  let vmslt d m := macro_build None vmslt_vx "Vd,Vt,sVm" [MA_int d; MA_int vs2; MA_int vs1; MA_int m] in
  let mm op d s2 s1 := macro_build None op "Vd,Vt,Vs" [MA_int d; MA_int s2; MA_int s1] in
  if mask mo =? M_VMSGE then
    if negb (vm =? 0) then vmslt vd (-1) ;* mm "vmnand.mm"%string vd vd vd
    else if negb (vtemp =? 0) then
      if vd =? vm then vmslt vtemp (-1) ;* mm "vmandnot.mm"%string vd vm vtemp
      else vmslt vtemp (-1) ;* mm "vmandnot.mm"%string vtemp vm vtemp ;*
           mm "vmandnot.mm"%string vd vd vm ;* mm "vmor.mm"%string vd vtemp vd
    else if negb (vd =? vm) then vmslt vd vm ;* mm "vmxor.mm"%string vd vd vm
    else as_bad EM_vector_temp
  else ret tt.

(** [%x] of a 64-bit number. *)
Definition hex_char (d : Z) : ascii := ascii_of_nat (Z.to_nat (if d <? 10 then 48 + d else 87 + d)).
Fixpoint hex (fuel : nat) (n : Z) : list ascii :=
  match fuel with
  | O => []
  | S fuel' => if n <? 16 then [hex_char n] else hex fuel' (n / 16) ++ [hex_char (n mod 16)]
  end.

(** The text [load_const] and [riscv_ext] hand to [md_assemblef]. *)
Definition emitted_text (xlen : Z) (e : emitted) : list ascii :=
  let reg r := chars "x" ++ fmt_d r in
  let args name rd rs imm := chars name ++ chars " " ++ reg rd ++ chars ", " ++ reg rs
                             ++ chars ", " ++ imm in
  let hexadecimal n := chars "0x" ++ hex 16 n in
  match e with
  | E_lui rd imm => chars "lui " ++ reg rd ++ chars ", " ++ hexadecimal imm
  | E_addi rd rs imm => args "addi"%string rd rs (fmt_d imm)
  | E_addiw rd rs imm => args "addiw"%string rd rs (fmt_d imm)
  | E_slli rd rs shamt => args "slli"%string rd rs (hexadecimal shamt)
  | E_srli rd rs shamt => args "srli"%string rd rs (hexadecimal shamt)
  | E_srai rd rs shamt => args "srai"%string rd rs (hexadecimal shamt)
  end.

(** Lines one after the other. *)
Fixpoint assemble_all (asm : list ascii -> em unit) (lines : list (list ascii)) : em unit :=
  match lines with
  | [] => ret tt
  | l :: lines => asm l ;* assemble_all asm lines
  end.

(** [macro (ip, imm_expr, imm_reloc)]; [asm] is [md_assemble]. *)
Definition macro (asm : list ascii -> em unit) (mo : riscv_opcode) (w : Z) (imm : expressionS)
    (imm_reloc : option reloc) : em unit :=
  let* st := get_state in
  let rd := EXTRACT_OPERAND FLD_RD w in
  let rs1 := EXTRACT_OPERAND FLD_RS1 w in
  let rs2 := EXTRACT_OPERAND FLD_RS2 w in
  let xlen := rps_xlen (rps (cfg st)) in
  let ep := addr_of imm in
  let load_address_insn := if abi_xlen (cfg st) =? 64 then "ld"%string else "lw"%string in
  let lines code := assemble_all asm (map (emitted_text xlen) code) in
  let load_const reg :=
    if bool_decide (X_op imm = O_constant) then
      match load_const 4 xlen reg (X_add_number imm) with
      | Some code => lines code
      | None => stop Out_of_fuel
      end
    else as_bad EM_large_constant in
  let m := mask mo in
  modify (fun st => set_source_macro st m) ;*
  (if m =? M_LI then load_const rd
   else if (m =? M_LA) || (m =? M_LLA) || (m =? M_LGA) then
     (if negb (IS_SEXT_32BIT_NUM (X_add_number imm)) then as_bad EM_offset_too_large else ret tt) ;*
     (if bool_decide (X_op imm = O_constant) then load_const rd
      else if (pic (opts (cfg st)) && (m =? M_LA)) || (m =? M_LGA) then
        pcrel_load rd rd ep load_address_insn BFD_RELOC_RISCV_GOT_HI20 BFD_RELOC_RISCV_PCREL_LO12_I
      else
        pcrel_load rd rd ep "addi" BFD_RELOC_RISCV_PCREL_HI20 BFD_RELOC_RISCV_PCREL_LO12_I)
   else if m =? M_LA_TLS_GD then
     pcrel_load rd rd ep "addi" BFD_RELOC_RISCV_TLS_GD_HI20 BFD_RELOC_RISCV_PCREL_LO12_I
   else if m =? M_LA_TLS_IE then
     pcrel_load rd rd ep load_address_insn BFD_RELOC_RISCV_TLS_GOT_HI20 BFD_RELOC_RISCV_PCREL_LO12_I
   else if m =? M_Lx then
     pcrel_load rd rd ep (name mo) BFD_RELOC_RISCV_PCREL_HI20 BFD_RELOC_RISCV_PCREL_LO12_I
   else if m =? M_FLx then
     pcrel_load rd rs1 ep (name mo) BFD_RELOC_RISCV_PCREL_HI20 BFD_RELOC_RISCV_PCREL_LO12_I
   else if m =? M_Sx_FSx then
     pcrel_store rs2 rs1 ep (name mo) BFD_RELOC_RISCV_PCREL_HI20 BFD_RELOC_RISCV_PCREL_LO12_S
   else if m =? M_CALL then
     match imm_reloc with
     | Some r => riscv_call rd rs1 ep r
     | None => stop Assert_failed
     end
   else if m =? M_EXTH then
     lines (riscv_ext rd rs1 (xlen - 16) (Ascii.eqb (head_char (chars (name mo))) "s"))
   else if m =? M_ZEXTW then lines (riscv_ext rd rs1 (xlen - 32) false)
   else if m =? M_SEXTB then lines (riscv_ext rd rs1 (xlen - 8) true)
   else if m =? M_VMSGE then vector_macro mo w
   else as_bad EM_macro_not_implemented) ;*
  modify (fun st => set_source_macro st (-1)).

(** ** A line *)

Context (expression : bool -> list ascii -> expressionS * list ascii * list diag).
Context (strtof : list ascii -> bool * option (Z * Z) * list ascii).
Context (ulong : Z).                 (* the width of an unsigned long *)
Context (text : bool).               (* the section holds code *)

Definition with_priv_used (s : settings) (b : bool) : settings :=
  mk_settings (default_arch_with_ext s) (rps s) (priv_spec s) (opts s) (opts_stack s) (abi_xlen s)
    (float_abi s) (rve_abi s) (explicit_mabi s) (elf_flags s) (big_endian s) (dwarf_cie_version s)
    (start_assemble s) (explicit_attr s) b (attr_arch s) (attr_priv s) (msgs s).

(** [riscv_mapping_state (MAP_INSN, 0, false)] for [frag_now]. *)
Definition mapping_insn : em unit := fun st =>
  match arch_str (subset_list (rps (cfg st))) with
  | None => Stop Null_arch_str
  | Some a =>
      match riscv_mapping_state text a (frag_now st) (frag_used st) MAP_INSN 0 false (smap st) with
      | Some m => Ok tt (set_cfg st (cfg st) (ipg st) m)
      | None => Stop Internal_error
      end
  end.

(** [md_assemble (str)]; [depth] bounds the macros within macros. *)
Fixpoint md_assemble (depth : nat) (str : list ascii) : em unit :=
  let* st := get_state in
  match first_instruction (cfg st) with
  | None => stop Assert_failed
  | Some (c, ok) =>
      modify (fun st => set_cfg st c (ipg st) (smap st)) ;*
      if negb ok then ret tt
      else
        mapping_insn ;*
        let after i := modify (fun st => set_cfg st (with_priv_used (cfg st) (explicit_priv_attr i)) i
                                           (smap st)) in
        match riscv_ip (env_of ulong c) expression strtof op_hash str (ipg st) with
        | IP_fatal _ => stop Internal_error
        | IP_overrun _ => stop Text_overrun
        | IP_error msg missing_ext i => after i ;* as_bad (EM_statement msg missing_ext)
        | IP_ok mo i =>
            after i ;*
            if pinfo mo =? INSN_MACRO then
              macro (match depth with
                     | O => fun _ => stop Out_of_fuel
                     | S depth' => md_assemble depth'
                     end) mo (insn_opcode i) (imm_expr i) (imm_reloc i)
            else append_insn (mk_insn mo (insn_opcode i) None) (Some (addr_of (imm_expr i)))
                   (imm_reloc i)
        end
  end.

End emit.
