(* ===== verification/EmitSpec.v ===== *)
(** * Properties of instruction emission

    Frags never overflow their memory, an instruction is appended as its bytes
    with its fixup on them, and the expansions of macros compute what they
    stand for. *)
From Stdlib Require Import ZArith Bool Lia Ascii String.
From stdpp Require Import base list strings gmap.
From S2P Require Import Prelude OpcodeH RiscvH Words OpcodeMatch OpcodeTable Validate SubsetTables Subset LoadConst Bytes Howto Fixups Relax Regs Expr Ip IpFrame IpSpec IpReloc Mapping Options OptionsSpec Emit.

#[local] Open Scope Z_scope.
#[local] Open Scope c_scope.
#[local] Open Scope list_scope.

(** ** The output as bytes *)

(** The bytes so far; a relaxable frag counts with its variable part. *)
Definition code (st : out_state) : list Z :=
  concat (map of_literal (frags st)) ++ take (frag_used st) (frag_buf st).

(** Nothing but the output and the messages has changed. *)
Record same_but_output (st st' : out_state) : Prop := {
  sbo_cfg : cfg st' = cfg st;
  sbo_ipg : ipg st' = ipg st;
  sbo_smap : smap st' = smap st;
  sbo_labels : labels st' = labels st;
  sbo_macro : source_macro st' = source_macro st;
  sbo_emsgs : prefix (emsgs st) (emsgs st');
}.

#[export] Instance same_but_output_preorder : PreOrder same_but_output.
Proof.
  split; [by constructor|]. intros a b c [] []. constructor; [congruence..|by etransitivity].
Qed.

(** The fixed bytes of a frag. *)
Definition frag_size (st : out_state) (k : nat) : nat :=
  match frags st !! k with Some f => of_fix f | None => frag_used st end.

(** Every frag only grows. *)
Definition sizes_grow (st st' : out_state) : Prop :=
  (frag_now st <= frag_now st')%nat /\
  forall k, (k <= frag_now st)%nat -> (frag_size st k <= frag_size st' k)%nat.

#[export] Instance sizes_grow_preorder : PreOrder sizes_grow.
Proof.
  split; [by split|]. intros a b c [H1 H2] [H3 H4]. split; [lia|]. intros k Hk.
  specialize (H2 k Hk). specialize (H4 k ltac:(lia)). lia.
Qed.

(** A frag without a variable part. *)
Definition plain_frag (f : out_frag) : Prop :=
  of_variant f = None /\ of_fix f = length (of_literal f).

Lemma sizes_grow_close st st' f :
  frags st' = frags st ++ [f] -> (frag_used st <= of_fix f)%nat -> sizes_grow st st'.
Proof.
  intros E Hu. unfold sizes_grow, frag_size, frag_now. rewrite E, length_app. split; [lia|].
  intros k Hk. destruct (decide (k = length (frags st))) as [->|Hne].
  - by rewrite list_lookup_middle, lookup_ge_None_2 by done.
  - rewrite lookup_app_l by lia.
    assert (Hs : is_Some (frags st !! k)) by (apply lookup_lt_is_Some; lia). destruct Hs as [g ->]. done.
Qed.

Definition fits (st : out_state) : Prop := (frag_used st <= length (frag_buf st))%nat.

Section emission.

Context (ob : obstack) `{!ObstackLaws ob}.

(** Frags that were only closed in between: nothing is lost. *)
Record grown (st st' : out_state) : Prop := {
  g_fits : fits st';
  g_code : code st' = code st;
  g_frags : exists fs, frags st' = frags st ++ fs /\
    Forall plain_frag fs;
  g_size : sizes_grow st st';
  g_same : same_but_output st st';
  g_fixes : fixes st' = fixes st;
}.

Lemma grown_refl st : fits st -> grown st st.
Proof. intros H. constructor; [done|done| |done|done|done]. exists []. by rewrite app_nil_r. Qed.

Lemma grown_trans a b c : grown a b -> grown b c -> grown a c.
Proof.
  intros [F1 C1 (x & X & X') Z1 S1 E1] [F2 C2 (y & Y & Y') Z2 S2 E2].
  constructor; [done|congruence| |by etransitivity|by etransitivity|congruence].
  exists (x ++ y). rewrite Y, X, <- app_assoc. by rewrite Forall_app.
Qed.

(** Closing the current frag. *)
Lemma new_frag_ok chunk st :
  fits st ->
  exists st', new_frag ob chunk st = Ok tt st' /\ grown st st' /\
    obstack_room st' = frag_room ob (obstack_room st) chunk /\ frag_used st' = 0%nat.
Proof.
  intros Hf. eexists. split; [reflexivity|]. split; [|split; [|reflexivity]].
  - constructor; [| | | |by constructor|reflexivity].
    + unfold fits. cbn. lia.
    + unfold code. cbn. rewrite map_app, concat_app. cbn. rewrite !app_nil_r. reflexivity.
    + eexists. split; [reflexivity|]. apply Forall_singleton. split; [done|]. cbn.
      rewrite length_take. unfold fits in Hf. lia.
    + eapply sizes_grow_close; [reflexivity|]. cbn. lia.
  - unfold obstack_room. cbn. rewrite length_replicate. lia.
Qed.

(** A new frag uses up the current chunk, or gets a new one, with 68 bytes of
    room at least and as much as the chunk size asked for gives. *)
Lemma frag_room_progress room chunk :
  (frag_room ob room chunk < room \/
   68 <= frag_room ob room chunk /\
   chunk <= frag_room ob room chunk + SIZEOF_STRUCT_FRAG ob + chunk_header ob)%nat.
Proof.
  pose proof frag_not_empty. pose proof chunk_header_short. unfold frag_room, newchunk_size.
  destruct (Nat.ltb_spec (room - frag_padding ob room) (SIZEOF_STRUCT_FRAG ob)); [|lia].
  destruct (Nat.ltb_spec (SIZEOF_STRUCT_FRAG ob + 100) chunk); lia.
Qed.

(** [frag_grow] makes the room it is asked for and changes nothing else. *)
Lemma grow_loop_ok nchars chunk :
  (nchars <= 68 \/ nchars + SIZEOF_STRUCT_FRAG ob + chunk_header ob <= chunk)%nat ->
  forall fuel st, fits st -> (obstack_room st < fuel)%nat ->
  exists st', grow_loop ob fuel nchars chunk st = Ok tt st' /\ grown st st' /\
    (nchars <= obstack_room st')%nat.
Proof.
  intros Hc. induction fuel as [|fuel IH]; intros st Hf Hr; [lia|].
  cbn [grow_loop]. unfold bind at 1. cbn [get_state].
  destruct (Nat.ltb_spec (obstack_room st) nchars) as [Hlt|Hge].
  2: { exists st. split; [reflexivity|]. split; [by apply grown_refl|done]. }
  destruct (new_frag_ok chunk st Hf) as (st1 & E1 & G1 & R1 & _). unfold bind. rewrite E1.
  destruct (frag_room_progress (obstack_room st) chunk) as [H|H].
  - destruct (IH st1) as (st2 & E2 & G2 & R2); [apply G1|lia|].
    exists st2. split; [done|]. split; [by eapply grown_trans|done].
  - exists st1. split; [|split; [done|lia]]. destruct fuel as [|fuel]; cbn [grow_loop];
      unfold bind, get_state; rewrite (proj2 (Nat.ltb_ge (obstack_room st1) nchars)) by lia; reflexivity.
Qed.

Lemma frag_grow_ok nchars st :
  fits st -> exists st', frag_grow ob nchars st = Ok tt st' /\ grown st st' /\
    (nchars <= obstack_room st')%nat /\ ((nchars <= obstack_room st)%nat -> st' = st).
Proof.
  intros Hf. unfold frag_grow, bind, get_state.
  destruct (Nat.ltb_spec (obstack_room st) nchars) as [Hlt|Hge].
  - destruct (grow_loop_ok nchars (Nat.max ((if Z.of_nat nchars <? 0x10000 then 2 * nchars
        else nchars + Z.to_nat 0x10000) + SIZEOF_STRUCT_FRAG ob) (chunk_size ob))
        ltac:(pose proof chunk_header_short; destruct (_ <? _); lia) (S (obstack_room st)) st Hf ltac:(lia)) as (st' & E & G & R).
    exists st'. split; [exact E|]. split; [exact G|]. split; [exact R|lia].
  - exists st. split; [reflexivity|]. split; [by apply grown_refl|done].
Qed.

(** ** Placing an instruction *)

(** The bytes [bs] at the end of the current frag; [fx] is what became of the
    fixups, given the place of the bytes. *)
Record placed_at_end (st st' : out_state) (bs : list Z) (fx : nat -> nat -> list out_fix) : Prop := {
  pe_fits : fits st';
  pe_code : code st' = code st ++ bs;
  pe_room : (length bs <= frag_used st')%nat;
  pe_frags : exists fs, frags st' = frags st ++ fs /\
    Forall plain_frag fs;
  pe_size : sizes_grow st st';
  pe_same : same_but_output st st';
  pe_fixes : fixes st' = fx (frag_now st') (frag_used st' - length bs)%nat;
  pe_here : (length bs <= obstack_room st)%nat ->
    frags st' = frags st /\ frag_used st' = (frag_used st + length bs)%nat /\
    length (frag_buf st') = length (frag_buf st);
}.

Definition moved (ip : riscv_cl_insn) (l : list out_fix) (frag where_ : nat) : list out_fix :=
  match ci_fixp ip with Some i => alter (move_fix frag where_) i l | None => l end.

Lemma insn_bytes_length ip : length (insn_bytes ip) = insn_length ip.
Proof.
  unfold insn_bytes. destruct (negb _); [by rewrite length_map, length_seq|apply bytes_le_length].
Qed.

Lemma take_putb_end bs buf u :
  (u + length bs <= length buf)%nat -> take (u + length bs) (putb bs buf u) = take u buf ++ bs.
Proof.
  intros H. unfold putb. rewrite app_assoc. apply take_app_length'.
  rewrite length_app, length_take. lia.
Qed.

Lemma add_fixed_insn_ok ip st :
  fits st ->
  exists st', add_fixed_insn ob ip st = Ok tt st' /\
    placed_at_end st st' (insn_bytes ip) (moved ip (fixes st)).
Proof.
  intros Hf. destruct (frag_grow_ok (insn_length ip) st Hf) as (s1 & E1 & [F1 C1 X1 Z1 S1 Y1] & R1 & H1).
  unfold add_fixed_insn, frag_more, move_insn, bind, get_state, blank_fast, modify, ret, install_insn.
  rewrite E1. unfold fits, obstack_room in *.
  pose proof (insn_bytes_length ip) as Hl.
  assert (Hin : (frag_used s1 + insn_length ip <= length (frag_buf s1))%nat) by lia.
  assert (Hb : length (putb (insn_bytes ip) (frag_buf s1) (frag_used s1)) = length (frag_buf s1))
    by (apply putb_length; lia).
  assert (Ht : take (frag_used s1 + insn_length ip) (putb (insn_bytes ip) (frag_buf s1) (frag_used s1))
               = take (frag_used s1) (frag_buf s1) ++ insn_bytes ip)
    by (rewrite <- Hl; apply take_putb_end; lia).
  unfold code in C1.
  destruct (ci_fixp ip) as [i|] eqn:Ei; cbn [frag_buf set_frags set_fixes];
    rewrite (proj2 (Nat.leb_le _ _) Hin); (eexists; split; [reflexivity|]);
    constructor; unfold fits, code, frag_now, moved; try (rewrite Ei);
    cbn [frag_buf frag_used frags fixes set_frags set_fixes];
    rewrite ?Hl, ?Nat.add_sub, ?Hb, ?Ht, ?app_assoc, ?C1, ?Y1; try done; try lia.
  1,4: etransitivity; [exact Z1|]; split; [done|]; intros k _; unfold frag_size; cbn; case_match; lia.
  1,3: constructor; apply S1.
  all: intros Hr; specialize (H1 Hr); subst s1; done.
Qed.

(** ** The invariant *)

(** A relaxable frag ends in the room for the longest branch, and its state is
    that of the branch it holds. *)
Definition closed_ok (f : out_frag) : Prop :=
  match of_variant f with
  | None => of_fix f = length (of_literal f)
  | Some v => (of_fix f + 8)%nat = length (of_literal f) /\ (v_var v = 2 \/ v_var v = 4) /\
      exists j, v_subtype v = RELAX_BRANCH_ENCODE j (v_var v =? 2) 8
  end.

(** A fixup whose bytes lie in the fixed part of its frag. *)
Definition placed (st : out_state) (f : out_fix) : Prop :=
  exists k, xf_frag f = Some k /\ (k <= frag_now st)%nat /\
    (xf_where f + xf_size f <= frag_size st k)%nat.

Record out_ok (st : out_state) : Prop := {
  ook_fits : fits st;
  ook_frags : Forall closed_ok (frags st);
  ook_fixes : Forall (placed st) (fixes st);
}.

Lemma placed_grow st st' f : sizes_grow st st' -> placed st f -> placed st' f.
Proof.
  intros [H1 H2] (k & E & Hk & Hw). exists k. specialize (H2 k Hk). split; [done|lia].
Qed.

(** The place of a byte of a frag in the code. *)
Definition offset (st : out_state) (k w : nat) : nat :=
  (length (concat (map of_literal (take k (frags st)))) + w)%nat.

Lemma offset_app st st' k w fs :
  frags st' = frags st ++ fs -> (k <= frag_now st)%nat -> offset st' k w = offset st k w.
Proof. intros E Hk. unfold offset, frag_now in *. by rewrite E, take_app_le. Qed.

Lemma code_length st : fits st -> length (code st) = offset st (frag_now st) (frag_used st).
Proof.
  intros Hf. unfold code, offset, frag_now. rewrite length_app, length_take, take_ge by done.
  unfold fits in Hf. lia.
Qed.

Lemma closed_app l l' fs :
  Forall closed_ok l -> l' = l ++ fs -> Forall plain_frag fs -> Forall closed_ok l'.
Proof.
  intros H -> Hf. apply Forall_app. split; [done|]. eapply Forall_impl; [exact Hf|].
  intros f [E1 E2]. unfold closed_ok. by rewrite E1.
Qed.

Lemma grown_ok st st' : grown st st' -> out_ok st -> out_ok st'.
Proof.
  intros [Hf Hc (fs & E & Hfs) Hz _ Hx] [_ H2 H3]. constructor; [done|by eapply closed_app|].
  rewrite Hx. eapply Forall_impl; [exact H3|]. intros f. by apply placed_grow.
Qed.

(** The instruction with room for its longest form, as a closed frag. *)
Lemma add_relaxed_insn_ok ip v st :
  fits st -> ci_fixp ip = None -> (insn_length ip <= 8)%nat ->
  exists st' fs lit pad, add_relaxed_insn ob ip 8 v st = Ok tt st' /\
    fits st' /\ code st' = code st ++ insn_bytes ip ++ pad /\
    (length (insn_bytes ip ++ pad) = 8)%nat /\
    frags st' = frags st ++ fs ++ [mk_out_frag lit (length lit - 8) (Some v)] /\
    Forall plain_frag fs /\
    (8 <= length lit)%nat /\
    offset st' (length (frags st ++ fs)) (length lit - 8) = length (code st) /\
    sizes_grow st st' /\ same_but_output st st' /\ fixes st' = fixes st.
Proof.
  intros Hf Hi Hlen. destruct (frag_grow_ok 8 st Hf) as (s1 & E1 & [F1 C1 (fs & X1 & X1') Z1 S1 Y1] & R1 & _).
  unfold add_relaxed_insn, frag_more, frag_var, move_insn, bind, get_state, blank_fast, modify, ret,
    install_insn. rewrite E1.
  assert (G0 : frag_grow ob 0 s1 = Ok tt s1).
  { unfold frag_grow, bind, get_state. by rewrite (proj2 (Nat.ltb_ge _ _)) by lia. }
  rewrite G0. rewrite Hi. unfold fits, obstack_room in *.
  cbn [frag_buf set_frags frag_used frags].
  rewrite (proj2 (Nat.leb_le _ _)) by lia.
  pose proof (insn_bytes_length ip) as Hl.
  set (buf := putb (insn_bytes ip) (frag_buf s1) (frag_used s1)).
  assert (Hb : length buf = length (frag_buf s1)) by (apply putb_length; lia).
  match goal with |- context [frag_grow ob 8 ?s] => set (s2 := s) end.
  assert (G2 : frag_grow ob 8 s2 = Ok tt s2).
  { unfold frag_grow, bind, get_state, obstack_room. cbn [s2 frag_buf frag_used set_frags].
    by rewrite (proj2 (Nat.ltb_ge _ _)) by lia. }
  rewrite G2. unfold frag_new. cbn [s2 frag_buf frag_used set_frags frags].
  rewrite (proj2 (Nat.ltb_ge _ _)) by lia. rewrite !Nat.add_0_r, Nat.add_sub.
  assert (Ht : take (frag_used s1 + 8) buf = take (frag_used s1) (frag_buf s1) ++ insn_bytes ip ++
    take (8 - insn_length ip) (drop (frag_used s1 + insn_length ip) (frag_buf s1))).
  { unfold buf, putb. rewrite Hl. rewrite take_app_ge by (rewrite length_take; lia).
    rewrite length_take, take_app_ge by lia. rewrite Hl.
    do 3 f_equal. lia. }
  eexists _, fs, (take (frag_used s1 + 8) buf), _.
  split; [reflexivity|]. unfold fits, code, frag_now, offset.
  cbn [frag_buf frag_used frags fixes set_frags].
  assert (Hll : length (take (frag_used s1 + 8) buf) = (frag_used s1 + 8)%nat)
    by (rewrite length_take; lia).
  unfold code in C1. split_and!.
  all: try (first [done|lia]).
  - rewrite take_0, app_nil_r, map_app, concat_app. cbn [map concat of_literal].
    rewrite app_nil_r, Ht, app_assoc, C1. reflexivity.
  - rewrite length_app, length_take, length_drop, Hl. lia.
  - rewrite X1, <- app_assoc, Hll, Nat.add_sub. reflexivity.
  - rewrite X1, take_app_le by done. rewrite take_ge by done. rewrite <- C1, Hll, length_app, length_take, X1.
    lia.
  - etransitivity; [exact Z1|]. eapply sizes_grow_close; [reflexivity|]. cbn [of_fix]. lia.
  - constructor; apply S1.
Qed.

(** ** [append_insn] *)

(** The fixup of an instruction at [w] of frag [k]. *)
Definition fixup_at (st : out_state) (e : address_expr) (r : reloc) (size k w : nat) : out_fix :=
  mk_out_fix (Some k) w size e r (relax (opts (cfg st))) (source_macro st).

(** An instruction that is not relaxed, with its fixups: its bytes follow the
    code, at [w] of frag [k]. *)
Record appended (st st' : out_state) (ip : riscv_cl_insn) (fx : nat -> nat -> list out_fix)
    (k w : nat) : Prop := {
  ap_fits : fits st';
  ap_code : code st' = code st ++ insn_bytes ip;
  ap_frags : exists fs, frags st' = frags st ++ fs /\ Forall plain_frag fs;
  ap_size : sizes_grow st st';
  ap_same : same_but_output st st';
  ap_fixes : fixes st' = fixes st ++ fx k w;
  ap_frag : (k <= frag_now st')%nat;
  ap_where : (w + insn_length ip <= frag_size st' k)%nat;
  ap_offset : offset st' k w = length (code st);
}.

Lemma appended_of_placed st s1 st' ip fx :
  placed_at_end st s1 (insn_bytes ip) (fun k w => fixes st ++ fx k w) -> grown s1 st' ->
  appended st st' ip fx (frag_now s1) (frag_used s1 - insn_length ip).
Proof.
  intros [F C R (fs & X & X') Z S Y _] [F' C' (fs' & V & V') Z' S' Y'].
  rewrite insn_bytes_length in *.
  assert (Hk : (frag_now s1 <= frag_now st')%nat) by apply Z'.
  constructor; [done|congruence| |by etransitivity|by etransitivity|congruence|done| |].
  - exists (fs ++ fs'). by rewrite V, X, <- app_assoc, Forall_app.
  - transitivity (frag_size s1 (frag_now s1)); [|by apply Z'].
    unfold frag_size, frag_now. rewrite lookup_ge_None_2 by done. lia.
  - rewrite (offset_app _ _ _ _ _ V) by done.
    pose proof (code_length s1 F) as Hc. rewrite C, length_app, insn_bytes_length in Hc.
    unfold offset in *. lia.
Qed.

Lemma alter_last {A} (f : A -> A) l x : alter f (length l) (l ++ [x]) = l ++ [f x].
Proof. rewrite alter_app_r_alt by done. by rewrite Nat.sub_diag. Qed.

(** The end of [append_insn]. *)
Lemma finish_frag_ok (r : option reloc) st :
  fits st -> exists st', (if starts_frag r then new_frag ob (chunk_size ob) else ret tt) st = Ok tt st' /\
    grown st st' /\ (starts_frag r = false -> st' = st).
Proof.
  intros Hf. destruct (starts_frag r).
  - destruct (new_frag_ok (chunk_size ob) st Hf) as (st' & E & G & _). by exists st'.
  - exists st. split; [done|]. split; [by apply grown_refl|done].
Qed.

Lemma append_plain ip e st :
  fits st -> ci_fixp ip = None ->
  exists st' k w, append_insn ob ip e None st = Ok tt st' /\
    appended st st' ip (fun _ _ => []) k w /\
    ((insn_length ip <= obstack_room st)%nat ->
     frags st' = frags st /\ frag_used st' = (frag_used st + insn_length ip)%nat).
Proof.
  intros Hf Hi. destruct (add_fixed_insn_ok ip st Hf) as (s1 & E1 & P1).
  exists s1, (frag_now s1), (frag_used s1 - insn_length ip)%nat. split.
  - cbn [append_insn]. unfold bind. by rewrite E1.
  - split; [apply (appended_of_placed st s1 s1); [|apply grown_refl, P1]|].
    + unfold moved in P1. rewrite Hi in P1. destruct P1. constructor; try done. by rewrite app_nil_r.
    + intros Hr. destruct P1 as [_ _ _ _ _ _ _ W]. rewrite insn_bytes_length in W.
      by destruct (W Hr) as (W1 & W2 & _).
Qed.

Lemma append_fixup ip e r h st :
  fits st -> branch_reloc r = false -> riscv_reloc_type_lookup r = Some h ->
  exists st' k w, append_insn ob ip (Some e) (Some r) st = Ok tt st' /\
    appended st st' ip (fun k w => [fixup_at st e r (reloc_size h) k w]) k w /\
    ((insn_length ip <= obstack_room st)%nat -> starts_frag (Some r) = false ->
     frags st' = frags st /\ frag_used st' = (frag_used st + insn_length ip)%nat /\
     length (frag_buf st') = length (frag_buf st) /\ k = frag_now st /\ w = frag_used st).
Proof.
  intros Hf Hb Hh. unfold append_insn. fold (branch_reloc r). rewrite Hb, Hh.
  set (f0 := mk_out_fix None 0 (reloc_size h) e r (relax (opts (cfg st))) (source_macro st)).
  assert (exists s0, fix_new_exp (reloc_size h) e r st = Ok (length (fixes st)) s0 /\
    fixes s0 = fixes st ++ [f0] /\ frags s0 = frags st /\ frag_buf s0 = frag_buf st /\
    frag_used s0 = frag_used st /\ same_but_output st s0) as (s0 & E0 & X0 & R0 & B0 & U0 & S0).
  { unfold fix_new_exp. destruct (bool_decide (ae_op e = O_register)); (eexists; split; [reflexivity|]);
      (split_and!; try done); constructor; try done. cbn. by apply prefix_app_r. }
  unfold bind at 1. rewrite E0. set (ip' := mk_cl_insn (ci_mo ip) (ci_opcode ip) (ci_long ip) (Some (length (fixes st)))).
  assert (Hf0 : fits s0) by (unfold fits; by rewrite U0, B0).
  destruct (add_fixed_insn_ok ip' s0 Hf0) as (s1 & E1 & P1).
  change (insn_bytes ip') with (insn_bytes ip) in P1.
  assert (P2 : placed_at_end st s1 (insn_bytes ip)
                 (fun k w => fixes st ++ [fixup_at st e r (reloc_size h) k w])).
  { unfold moved in P1. cbn [ci_fixp ip'] in P1.
    assert (Hn0 : frag_now s0 = frag_now st) by (unfold frag_now; by rewrite R0).
    destruct P1 as [F C R X Z S Y W].
    unfold code, sizes_grow, frag_size, obstack_room in *.
    rewrite R0, U0, B0 in *. rewrite Hn0 in *. constructor; try done.
    - by etransitivity.
    - rewrite Y, X0, alter_last. reflexivity. }
  destruct (finish_frag_ok (Some r) s1) as (st' & E2 & G2 & H2); [apply P2|].
  exists st', (frag_now s1), (frag_used s1 - insn_length ip)%nat. split.
  - unfold bind. by rewrite E1.
  - split; [by apply appended_of_placed|]. intros Hroom Hs. specialize (H2 Hs). subst st'.
    destruct P2 as [_ _ _ _ _ _ _ W]. rewrite insn_bytes_length in W.
    destruct (W Hroom) as (W1 & W2 & W3). unfold frag_now. rewrite W1, W2. split_and!; try done. lia.
Qed.

Lemma appended_ok st st' ip fx k w :
  out_ok st -> appended st st' ip fx k w ->
  Forall (fun f => xf_frag f = Some k /\ xf_where f = w /\ (xf_size f <= insn_length ip)%nat) (fx k w) ->
  out_ok st'.
Proof.
  intros [H1 H2 H3] [F C (fs & X & X') Z S Y K W O] Hfx. constructor; [done|by eapply closed_app|].
  rewrite Y. apply Forall_app. split.
  - eapply Forall_impl; [exact H3|]. intros f. by apply placed_grow.
  - eapply Forall_impl; [exact Hfx|]. intros f (E1 & E2 & E3). exists k. split; [done|lia].
Qed.

(** The branch of [append_insn] for branches and jumps. *)
Lemma append_branch ip e r st :
  out_ok st -> ci_fixp ip = None -> branch_reloc r = true ->
  (insn_length ip = 2 \/ insn_length ip = 4)%nat ->
  exists st' pad f, append_insn ob ip (Some e) (Some r) st = Ok tt st' /\ out_ok st' /\
    code st' = code st ++ insn_bytes ip ++ pad /\ (length (insn_bytes ip ++ pad) = 8)%nat /\
    last (frags st') = Some f /\ offset st' (frag_now st' - 1) (of_fix f) = length (code st) /\
    of_variant f = Some (mk_variant (Z.of_nat (insn_length ip))
      (RELAX_BRANCH_ENCODE (bool_decide (r = BFD_RELOC_RISCV_JMP)) (Z.of_nat (insn_length ip) =? 2) 8)
      (ae_sym e) (ae_num e)) /\
    prefix (frags st) (frags st') /\ sizes_grow st st' /\ same_but_output st st' /\
    fixes st' = fixes st.
Proof.
  intros [H1 H2 H3] Hi Hb Hlen. unfold append_insn. fold (branch_reloc r). rewrite Hb.
  change (Z.to_nat (relaxed_branch_length None 0 false).2) with 8%nat.
  change ((relaxed_branch_length None 0 false).2) with 8.
  set (v := mk_variant _ _ _ _).
  destruct (add_relaxed_insn_ok ip v st H1 Hi ltac:(lia))
    as (st' & fs & lit & pad & E & F & C & L & X & X' & L8 & O & Z & S & Y).
  set (f := mk_out_frag lit (length lit - 8) (Some v)) in *.
  exists st', pad, f. split; [exact E|]. split.
  { constructor; [done| |].
    - rewrite X, app_assoc, Forall_app. split; [by eapply closed_app; [exact H2|reflexivity|]|].
      apply Forall_singleton. unfold closed_ok. cbn. split; [lia|]. split; [lia|]. by eexists.
    - rewrite Y. eapply Forall_impl; [exact H3|]. intros x. by apply placed_grow. }
  split_and!; try done.
  - by rewrite X, app_assoc, last_snoc.
  - rewrite <- O. f_equal. unfold frag_now. rewrite X, app_assoc, (length_app (_ ++ _)). cbn. lia.
  - rewrite X. by apply prefix_app_r.
Qed.

(** ** Safe steps *)

(** The settings with which the first instruction can be assembled. *)
Definition ready (c : settings) : Prop :=
  settings_ok (fun _ => True) c /\
  (start_assemble c = true \/ explicit_mabi c = false \/
   (abi_xlen c <> 0 /\ rps_xlen (rps c) <> 0 /\ float_abi c <> FLOAT_ABI_DEFAULT)).

Record good (st : out_state) : Prop := { good_ok : out_ok st; good_ready : ready (cfg st) }.

(** What was emitted stays; without compressed instructions the code keeps its
    alignment. *)
Record extends (st st' : out_state) : Prop := {
  ex_code : prefix (code st) (code st');
  ex_frags : prefix (frags st) (frags st');
  ex_size : sizes_grow st st';
  ex_fixes : prefix (fixes st) (fixes st');
  ex_emsgs : prefix (emsgs st) (emsgs st');
  ex_opts : opts (cfg st') = opts (cfg st);
  ex_align : rvc (opts (cfg st)) = false ->
    exists n, length (code st') = (length (code st) + 4 * n)%nat;
}.

#[export] Instance extends_preorder : PreOrder extends.
Proof.
  split; [constructor; try done; intros _; exists 0%nat; lia|].
  intros a b c [] []. constructor; try (by etransitivity). intros Hr.
  destruct ex_align0 as [n Hn]; [done|]. destruct ex_align1 as [n' Hn']; [congruence|].
  exists (n + n')%nat. lia.
Qed.

Definition safe_at {A} (m : em A) (st : out_state) : Prop :=
  match m st with
  | Ok _ st' => good st' /\ extends st st'
  | Stop w => w = Text_overrun
  end.

Lemma safe_ret {A} (a : A) st : good st -> safe_at (ret a) st.
Proof. by intros. Qed.

Lemma safe_bind {A B} (m : em A) (k : A -> em B) st :
  safe_at m st ->
  (forall a st', m st = Ok a st' -> good st' -> extends st st' -> safe_at (k a) st') ->
  safe_at (bind m k) st.
Proof.
  unfold safe_at, bind. intros Hm Hk. destruct (m st) as [a st'|w]; [|done].
  destruct Hm as [Hg He]. specialize (Hk a st' eq_refl Hg He).
  destruct (k a st') as [b st2|w]; [|done]. destruct Hk. split; [done|by etransitivity].
Qed.

Lemma safe_get {A} (k : out_state -> em A) st : safe_at (k st) st -> safe_at (bind get_state k) st.
Proof. done. Qed.

(** A change outside of the output. *)
Lemma safe_modify f st :
  good st -> frags (f st) = frags st -> frag_buf (f st) = frag_buf st ->
  frag_used (f st) = frag_used st -> fixes (f st) = fixes st -> prefix (emsgs st) (emsgs (f st)) ->
  opts (cfg (f st)) = opts (cfg st) -> ready (cfg (f st)) -> safe_at (modify f) st.
Proof.
  intros [[H1 H2 H3] _] Hf Hb Hu Hx He Ho Hr. unfold safe_at, modify.
  assert (Hc : code (f st) = code st) by (unfold code; by rewrite Hf, Hb, Hu).
  assert (Hz : sizes_grow st (f st))
    by (unfold sizes_grow, frag_size, frag_now; by rewrite Hf, Hu).
  split.
  - constructor; [|done]. constructor; [by unfold fits; rewrite Hu, Hb|by rewrite Hf|].
    rewrite Hx. eapply Forall_impl; [exact H3|]. intros g. by apply placed_grow.
  - constructor; rewrite ?Hc, ?Hf, ?Hx; try done. intros _. exists 0%nat. lia.
Qed.

Lemma safe_as_bad m st : good st -> safe_at (as_bad m) st.
Proof. intros Hg. apply safe_modify; try done; [by apply prefix_app_r|apply Hg]. Qed.

Lemma safe_grown (m : em unit) st st' : good st -> m st = Ok tt st' -> grown st st' -> safe_at m st.
Proof.
  intros [Ho Hr] E G. unfold safe_at. rewrite E. pose proof (grown_ok _ _ G Ho) as Ho'.
  destruct G as [F C (fs & X & _) Z [] Y]. split; [constructor; congruence|].
  constructor; rewrite ?C, ?X, ?Y; try done; try congruence; [by apply prefix_app_r|].
  intros _. exists 0%nat. lia.
Qed.

(** An instruction that follows the code. *)
Lemma safe_appended st st' ip fx k w :
  good st -> out_ok st' -> appended st st' ip fx k w ->
  (rvc (opts (cfg st)) = false -> insn_length ip = 4%nat) -> good st' /\ extends st st'.
Proof.
  intros [Ho Hr] Ho' [F C (fs & X & _) Z [] Y _ _ _] H4. split; [constructor; congruence|].
  constructor; rewrite ?C, ?X, ?Y; try done; try (by apply prefix_app_r); try congruence.
  intros Hv. exists 1%nat. rewrite length_app, insn_bytes_length, (H4 Hv). lia.
Qed.

(** The relocations an instruction can carry. *)
Definition reloc_fits (ip : riscv_cl_insn) (r : option reloc) : Prop :=
  match r with
  | None => True
  | Some r => branch_reloc r = true \/
      exists h, riscv_reloc_type_lookup r = Some h /\ (reloc_size h <= insn_length ip)%nat
  end.

Lemma append_insn_safe ip e r st :
  good st -> ci_fixp ip = None -> (insn_length ip = 2 \/ insn_length ip = 4)%nat ->
  (rvc (opts (cfg st)) = false -> insn_length ip = 4%nat) -> reloc_fits ip r ->
  (r <> None -> e <> None) -> safe_at (append_insn ob ip e r) st.
Proof.
  intros Hg Hi Hlen H4 Hr He. pose proof Hg as [[Hf Hc Hx] Hready]. unfold safe_at. destruct r as [r|].
  - destruct e as [e|]; [|by destruct He]. destruct (branch_reloc r) eqn:Hb.
    + destruct (append_branch ip e r st) as (st' & pad & f & E & Ho & C & L & _ & _ & _ & P & Z & [] & Y);
        try done. rewrite E. split; [constructor; congruence|].
      constructor; rewrite ?C, ?Y; try done; try congruence; [by apply prefix_app_r|].
      intros _. exists 2%nat. rewrite length_app, L. lia.
    + destruct Hr as [Hr|(h & Hh & Hs)]; [congruence|].
      destruct (append_fixup ip e r h st Hf Hb Hh) as (st' & k & w & E & A & _). rewrite E.
      eapply safe_appended; [done| |exact A|done]. eapply appended_ok; [done|exact A|].
      by apply Forall_singleton.
  - destruct (append_plain ip e st Hf Hi) as (st' & k & w & E & A & _). rewrite E.
    eapply safe_appended; [done| |exact A|done]. by eapply appended_ok.
Qed.

(** ** Properties *)

(** A relocation [append_insn] can be called with: it has a howto, and a branch
    is an instruction of two or four bytes. *)
Definition reloc_known (ip : riscv_cl_insn) (r : option reloc) : Prop :=
  match r with
  | None => True
  | Some r => if branch_reloc r then (insn_length ip = 2 \/ insn_length ip = 4)%nat
              else is_Some (riscv_reloc_type_lookup r)
  end.

(** C20: what [append_insn] emits for an instruction of any length, .insn
    included, that has no fixup yet, with a relocation the assembler has a howto
    for.  The bytes of the instruction follow the code, and at just that place is
    what has to be resolved later: nothing, one fixup with the expression, the
    relocation and the size of its howto, or, for a branch or a jump of two or
    four bytes, the start of the variable part of a new frag, which has eight
    bytes of room and records the length of the instruction, its kind and its
    target.  The output stays well formed if the field of the relocation is not
    longer than the instruction (that of a call covers the next one too). *)
Theorem append_insn_emits (ip : riscv_cl_insn) (e : address_expr) (r : option reloc) (st : out_state) :
  out_ok st -> ci_fixp ip = None -> reloc_known ip r ->
  exists st' pad, append_insn ob ip (Some e) r st = Ok tt st' /\ (reloc_fits ip r -> out_ok st') /\
    code st' = code st ++ insn_bytes ip ++ pad /\
    match r with
    | None => pad = [] /\ fixes st' = fixes st
    | Some r =>
        if branch_reloc r then
          (insn_length ip + length pad = 8)%nat /\ fixes st' = fixes st /\
          exists f, last (frags st') = Some f /\
            offset st' (frag_now st' - 1) (of_fix f) = length (code st) /\
            of_variant f = Some (mk_variant (Z.of_nat (insn_length ip))
              (RELAX_BRANCH_ENCODE (bool_decide (r = BFD_RELOC_RISCV_JMP))
                 (Z.of_nat (insn_length ip) =? 2) 8) (ae_sym e) (ae_num e))
        else
          pad = [] /\ exists h k w, riscv_reloc_type_lookup r = Some h /\
            fixes st' = fixes st ++ [fixup_at st e r (reloc_size h) k w] /\
            offset st' k w = length (code st)
    end.
Proof.
  intros Ho Hi Hr. destruct r as [r|]; cbn [reloc_known] in Hr.
  - destruct (branch_reloc r) eqn:Hb.
    + destruct (append_branch ip e r st) as (st' & pad & f & E & O' & C & L & H1 & H2 & H3 & _ & _ & _ & Y);
        try done. exists st', pad. split; [exact E|]. split; [done|]. split; [exact C|].
      rewrite length_app, insn_bytes_length in L. split; [exact L|]. split; [exact Y|]. by exists f.
    + destruct Hr as [h Hh].
      destruct (append_fixup ip e r h st (ook_fits _ Ho) Hb Hh) as (st' & k & w & E & A & _).
      exists st', []. split; [exact E|]. split.
      { intros [Hr|(h' & Hh' & Hs)]; [congruence|]. assert (h' = h) as -> by congruence.
        eapply appended_ok; [done|exact A|by apply Forall_singleton]. }
      rewrite app_nil_r. split; [apply A|]. split; [done|]. exists h, k, w.
      split; [done|]. split; apply A.
  - destruct (append_plain ip (Some e) st (ook_fits _ Ho) Hi) as (st' & k & w & E & A & _).
    exists st', []. split; [exact E|]. split; [intros _; by eapply appended_ok|]. rewrite app_nil_r.
    split; [apply A|]. split; [done|]. destruct A as [_ _ _ _ _ Y _ _ _]. by rewrite app_nil_r in Y.
Qed.

End emission.

(** A section with a frag of eight bytes of room, and a branch in it. *)
Definition tight_obstack : obstack := mk_obstack 16 16 32 (fun _ => 8%nat).

#[export] Instance tight_obstack_laws : ObstackLaws tight_obstack.
Proof. split; cbn; lia. Qed.

Definition tight_state : out_state :=
  mk_out (initial_settings true None) start_state (mk_mapping [] ∅ ∅ MAP_NONE None) []
    [0x13; 0; 0; 0; 0; 0; 0; 0] 4 [] [] (-1) [].

Definition bne_insn : riscv_cl_insn := mk_insn
  (mk_opcode "bne" 0 INSN_CLASS_I "s,t,p" MATCH_BNE MASK_BNE (Some MF_match_opcode) INSN_CONDBRANCH) 0x00b51063 None.

Lemma append_insn_emits_witness :
  exists st', append_insn tight_obstack bne_insn (Some (mk_addr O_symbol (Some (Sym_user "loop")) 0))
                (Some BFD_RELOC_12_PCREL) tight_state = Ok tt st' /\
    code st' = [0x13; 0; 0; 0; 0x63; 0x10; 0xb5; 0; 0; 0; 0; 0] /\ fixes st' = [].
Proof.
  destruct (append_insn_emits tight_obstack bne_insn (mk_addr O_symbol (Some (Sym_user "loop")) 0)
    (Some BFD_RELOC_12_PCREL) tight_state) as (st' & pad & E & _ & _ & _ & Y & _).
  - constructor; [unfold fits; cbn; lia|apply Forall_nil_2..].
  - reflexivity.
  - right. reflexivity.
  - exists st'. split; [exact E|]. split; [|exact Y].
    assert (Hc : match append_insn tight_obstack bne_insn (Some (mk_addr O_symbol (Some (Sym_user "loop")) 0))
                (Some BFD_RELOC_12_PCREL) tight_state with Ok _ s => code s | Stop _ => [] end
      = [0x13; 0; 0; 0; 0x63; 0x10; 0xb5; 0; 0; 0; 0; 0]) by (vm_compute; reflexivity).
    by rewrite E in Hc.
Defined.
