(* ===== verification/AssembleSpec.v ===== *)
(** * Assembling a line is safe

    From [append_insn] to [md_assemble]: whatever the line, the assembler ends
    in a state whose frags and fixups are well formed. *)
From Stdlib Require Import ZArith Bool Lia Ascii String.
From stdpp Require Import base list strings gmap.
From S2P Require Import Prelude OpcodeH RiscvH Words OpcodeMatch OpcodeTable Validate SubsetTables Subset LoadConst Bytes Howto Fixups Relax Regs Expr Ip IpFrame IpSpec IpReloc Mapping Options OptionsSpec Emit EmitSpec.

#[local] Open Scope Z_scope.
#[local] Open Scope c_scope.
#[local] Open Scope list_scope.

(** ** Constants *)

Lemma load_const_none fuel xlen reg x :
  load_const fuel xlen reg x = None -> load_const fuel 64 1 x = None.
Proof.
  revert x. induction fuel as [|fuel IH]; intros x; [done|]. cbn [load_const].
  change (64 >? 32) with true. cbn [andb].
  destruct (negb (IS_SEXT_32BIT_NUM x)) eqn:E.
  - rewrite andb_true_r. destruct (xlen >? 32).
    + destruct (load_const fuel xlen reg _) eqn:El; [done|]. intros _. by rewrite (IH _ El).
    + by destruct (negb (s64 _ =? 0)).
  - rewrite andb_false_r. by destruct (negb (s64 _ =? 0)).
Qed.

(** [load_const] ends for every constant. *)
Lemma load_const_total xlen reg x : is_Some (load_const 4 xlen reg x).
Proof.
  destruct (load_const 4 xlen reg x) as [c|] eqn:E; [by eexists|]. exfalso.
  apply load_const_none in E. cbn [load_const] in E. revert E.
  destruct (_ && negb _) eqn:Eb; [|by destruct (negb (s64 _ =? 0))].
  set (upper := s64 (x - low_part x)).
  assert (Hs : forall s, 12 <= s -> - 2 ^ 51 <= upper >> s <= 2 ^ 51).
  { intros s Hs. rewrite Z.shiftr_div_pow2 by lia.
    assert (- 2 ^ 63 <= upper < 2 ^ 63) by (apply (swrap_range 64); lia).
    assert (2 ^ 12 <= 2 ^ s) by (apply Z.pow_le_mono_r; lia).
    split; [apply Z.div_le_lower_bound|apply Z.div_le_upper_bound]; nia. }
  assert (Hf : forall n u s, s <= find_shift n u s).
  { intros n u. induction n as [|n IH]; intros s; cbn [find_shift]; [lia|].
    destruct (_ =? 0); [|lia]. specialize (IH (s + 1)). lia. }
  specialize (Hs _ (Hf 64%nat upper RISCV_IMM_BITS)).
  destruct (load_const_loads 2 3 64 1 (upper >> find_shift 64 upper RISCV_IMM_BITS))
    as (c & Hc & _); try lia. cbn [load_const] in Hc. by rewrite Hc.
Qed.

(** ** Building an instruction of a macro *)

(** [macro_build] finds a 32-bit entry. *)
Definition builds (nm : string) : bool :=
  match macro_entry nm with
  | Some mo => (riscv_insn_length (match_ mo) =? 4) && (0 <=? match_ mo) && (match_ mo <? 2 ^ 64)
  | None => false
  end.

Lemma macro_names_build :
  forallb builds ["auipc"; "addi"; "lw"; "ld"; "jalr"; "vmslt.vx"; "vmsltu.vx"; "vmnand.mm";
                  "vmandnot.mm"; "vmor.mm"; "vmxor.mm"]%string = true.
Proof. vm_compute. reflexivity. Qed.

(** The load and store macros are named after an instruction. *)
Lemma access_names_build :
  forallb (fun op => negb ((pinfo op =? INSN_MACRO) &&
     ((mask op =? M_Lx) || (mask op =? M_FLx) || (mask op =? M_Sx_FSx))) || builds (name op))
    riscv_opcodes = true.
Proof. vm_compute. reflexivity. Qed.

(** The operand fields a macro fills in leave the length bits alone. *)
Definition fill (w : Z) (fs : list (op_field * Z)) : Z := foldl (fun w p => insert p.1 w p.2) w fs.

Definition high_field (f : op_field) : Prop := (OP_MASK f <<u OP_SH f) .& 0x1f = 0.

Lemma insert_keeps f w v :
  high_field f -> 0 <= w < 2 ^ 64 /\ riscv_insn_length w = 4 ->
  0 <= insert f w v < 2 ^ 64 /\ riscv_insn_length (insert f w v) = 4.
Proof.
  intros Hf [Hw Hl]. pose proof (writes_insert w v (OP_MASK f) (OP_SH f) Hw) as Hi.
  split; [apply Hi|]. apply length_4_iff in Hl as [H3 H5]. apply length_4_iff.
  rewrite !(writes_land _ _ _ _ Hi); [done|exact Hf|].
  change 0x3 with (0x1f .& 0x3). rewrite Z.land_assoc. unfold high_field in Hf. by rewrite Hf.
Qed.

Lemma fill_keeps fs w :
  Forall (fun p => high_field p.1) fs -> 0 <= w < 2 ^ 64 /\ riscv_insn_length w = 4 ->
  0 <= fill w fs < 2 ^ 64 /\ riscv_insn_length (fill w fs) = 4.
Proof.
  intros Hf. revert w. induction Hf as [|p fs Hp _ IH]; intros w Hw; [done|].
  apply IH. by apply insert_keeps.
Qed.

Lemma builds_built nm :
  builds nm = true ->
  exists mo, macro_entry nm = Some mo /\ 0 <= match_ mo < 2 ^ 64 /\ riscv_insn_length (match_ mo) = 4.
Proof.
  unfold builds. destruct (macro_entry nm) as [mo|]; [|done]. intros H. exists mo. breflect. by split.
Qed.

#[local] Opaque builds macro_entry.

Section assemble.

Context (ob : obstack) `{!ObstackLaws ob}.

(** [macro_build] with a format that fills in [fs]. *)
Lemma macro_build_append ep nm fmt args fs r :
  builds nm = true ->
  (forall w, macro_operands (chars fmt) args w None (match ep with Some _ => true | None => false end)
             = inl (fill w fs, r)) ->
  (match ep with Some _ => true | None => false end) = (match r with Some _ => true | None => false end) ->
  Forall (fun p => high_field p.1) fs ->
  exists mo w, macro_build ob ep nm fmt args = append_insn ob (mk_insn mo w None) ep r /\
    macro_entry nm = Some mo /\ w = fill (match_ mo) fs /\ riscv_insn_length w = 4.
Proof.
  intros Hb Hm He Hf. unfold macro_build. apply builds_built in Hb as (mo & Eb & Hw).
  rewrite Eb. exists mo, (fill (match_ mo) fs). rewrite Hm, He, eqb_reflx.
  split; [reflexivity|]. split; [reflexivity|]. split; [reflexivity|]. by apply fill_keeps.
Qed.

Lemma macro_build_safe ep nm fmt args fs r st :
  builds nm = true ->
  (forall w, macro_operands (chars fmt) args w None (match ep with Some _ => true | None => false end)
             = inl (fill w fs, r)) ->
  (match ep with Some _ => true | None => false end) = (match r with Some _ => true | None => false end) ->
  Forall (fun p => high_field p.1) fs -> match r with Some r => reloc4 r = true | None => True end ->
  good st -> safe_at (macro_build ob ep nm fmt args) st.
Proof.
  intros Hb Hm He Hf Hr Hg.
  destruct (macro_build_append ep nm fmt args fs r Hb Hm He Hf) as (mo & w & -> & _ & _ & Hl).
  assert (Hl4 : insn_length (mk_insn mo w None) = 4%nat) by (unfold insn_length; cbn [ci_opcode]; by rewrite Hl).
  clear Hb Hm.
  apply append_insn_safe; [done..|by right|done| |].
  - destruct r as [r|]; [|done]. right. unfold reloc4 in Hr.
    destruct (riscv_reloc_type_lookup r) as [h|]; [|done]. exists h. split; [done|].
    rewrite Hl4. by apply Nat.leb_le in Hr.
  - by destruct ep, r.
Qed.

Lemma builds_name nm :
  In nm ["auipc"; "addi"; "lw"; "ld"; "jalr"; "vmslt.vx"; "vmsltu.vx"; "vmnand.mm";
         "vmandnot.mm"; "vmor.mm"; "vmxor.mm"]%string -> builds nm = true.
Proof. pose proof macro_names_build as H. rewrite forallb_forall in H. apply H. Qed.

(** The formats the macros use. *)
Lemma fmt_du d r w :
  macro_operands (chars "d,u") [MA_int d; MA_reloc r] w None true = inl (fill w [(FLD_RD, d)], Some r).
Proof. reflexivity. Qed.
Lemma fmt_dsj d s r w :
  macro_operands (chars "d,s,j") [MA_int d; MA_int s; MA_reloc r] w None true
  = inl (fill w [(FLD_RD, d); (FLD_RS1, s)], Some r).
Proof. reflexivity. Qed.
Lemma fmt_tsq t s r w :
  macro_operands (chars "t,s,q") [MA_int t; MA_int s; MA_reloc r] w None true
  = inl (fill w [(FLD_RS2, t); (FLD_RS1, s)], Some r).
Proof. reflexivity. Qed.
Lemma fmt_ds d s w :
  macro_operands (chars "d,s") [MA_int d; MA_int s] w None false
  = inl (fill w [(FLD_RD, d); (FLD_RS1, s)], None).
Proof. reflexivity. Qed.
Lemma fmt_vmslt d t s m w :
  m = -1 \/ m = 0 ->
  macro_operands (chars "Vd,Vt,sVm") [MA_int d; MA_int t; MA_int s; MA_int m] w None false
  = inl (fill w [(FLD_VD, d); (FLD_VS2, t); (FLD_RS1, s); (FLD_VMASK, - m)], None).
Proof. intros [->| ->]; reflexivity. Qed.
Lemma fmt_mm d t s w :
  macro_operands (chars "Vd,Vt,Vs") [MA_int d; MA_int t; MA_int s] w None false
  = inl (fill w [(FLD_VD, d); (FLD_VS2, t); (FLD_VS1, s)], None).
Proof. reflexivity. Qed.

Ltac high_fields := repeat (apply Forall_cons; split; [reflexivity|]); apply Forall_nil; exact I.

Lemma auipc_safe ep d r st :
  reloc4 r = true -> good st ->
  safe_at (macro_build ob (Some ep) "auipc" "d,u" [MA_int d; MA_reloc r]) st.
Proof.
  intros Hr Hg. eapply macro_build_safe; [|intros w; apply fmt_du|reflexivity|high_fields|exact Hr|exact Hg].
  apply builds_name. by left.
Qed.

Lemma load_safe ep nm d s r st :
  builds nm = true -> reloc4 r = true -> good st ->
  safe_at (macro_build ob (Some ep) nm "d,s,j" [MA_int d; MA_int s; MA_reloc r]) st.
Proof.
  intros Hn Hr Hg.
  eapply macro_build_safe; [exact Hn|intros w; apply fmt_dsj|reflexivity|high_fields|exact Hr|exact Hg].
Qed.

Lemma store_safe ep nm t s r st :
  builds nm = true -> reloc4 r = true -> good st ->
  safe_at (macro_build ob (Some ep) nm "t,s,q" [MA_int t; MA_int s; MA_reloc r]) st.
Proof.
  intros Hn Hr Hg.
  eapply macro_build_safe; [exact Hn|intros w; apply fmt_tsq|reflexivity|high_fields|exact Hr|exact Hg].
Qed.

Lemma safe_label st : good st -> safe_at make_internal_label st.
Proof.
  intros Hg. unfold make_internal_label. unfold safe_at, bind, get_state, ret.
  pose proof (safe_modify (fun st => set_labels st (labels st ++ [(frag_now st, frag_used st)])) st Hg) as H.
  unfold safe_at, modify in H. apply H; try done. apply Hg.
Qed.

Lemma pcrel_access_safe d t ep nm pat hi lo st :
  builds nm = true -> pat = "d,s,j"%string \/ pat = "t,s,q"%string ->
  reloc4 hi = true -> reloc4 lo = true ->
  good st -> safe_at (pcrel_access ob d t ep nm pat hi lo) st.
Proof.
  intros Hn Hp Hh Hl Hg. unfold pcrel_access. apply safe_bind; [by apply safe_label|].
  intros label s1 _ G1 _. apply safe_bind; [by apply auipc_safe|].
  intros _ s2 _ G2 _. destruct Hp as [->| ->]; [exact (load_safe _ _ _ _ _ _ Hn Hl G2)|exact (store_safe _ _ _ _ _ _ Hn Hl G2)].
Qed.

(** Two instructions in one frag, under a fixup of eight bytes. *)
Lemma call_pair s1 s2 s3 ip ip' fx k3 o3 :
  good s1 -> insn_length ip = 4%nat -> insn_length ip' = 4%nat ->
  appended s1 s2 ip (fun k w => [fx k w]) (frag_now s1) (frag_used s1) ->
  appended s2 s3 ip' (fun _ _ => []) k3 o3 ->
  (forall k w, xf_frag (fx k w) = Some k /\ xf_where (fx k w) = w /\ xf_size (fx k w) = 8%nat) ->
  frags s2 = frags s1 -> frag_used s2 = (frag_used s1 + 4)%nat ->
  frags s3 = frags s2 -> frag_used s3 = (frag_used s2 + 4)%nat ->
  good s3 /\ extends s1 s3.
Proof.
  intros [[F1 C1 P1] Hr] I4 I4' [F2 D2 _ Z2 S2 Y2 _ _ _] [F3 D3 _ Z3 S3 Y3 _ _ _] Hfx X2 U2 X3 U3.
  assert (Z13 : sizes_grow s1 s3) by (by etransitivity).
  assert (S13 : same_but_output s1 s3) by (by etransitivity).
  rewrite app_nil_r in Y3. rewrite Y2 in Y3. rewrite D2, <- app_assoc in D3.
  destruct S13 as [Sc _ _ _ _ Se]. split.
  - constructor; [|by rewrite Sc]. constructor; [done|by rewrite X3, X2|]. rewrite Y3. apply Forall_app. split.
    + eapply Forall_impl; [exact P1|]. intros f. by apply placed_grow.
    + apply Forall_singleton. destruct (Hfx (frag_now s1) (frag_used s1)) as (Q1 & Q2 & Q3).
      exists (frag_now s1). split; [done|]. split; [by apply Z13|]. rewrite Q2, Q3.
      unfold frag_size, frag_now. rewrite X3, X2, lookup_ge_None_2 by done. lia.
  - constructor; rewrite ?D3, ?Y3, ?X3, ?X2, ?Sc; try done; try (by apply prefix_app_r).
    intros _. exists 2%nat. rewrite !length_app, !insn_bytes_length. lia.
Qed.

(** The two instructions of a call lie in one frag, under one fixup. *)
Lemma riscv_call_safe d t ep st :
  good st -> safe_at (riscv_call ob d t ep BFD_RELOC_RISCV_CALL_PLT) st.
Proof.
  intros Hg. unfold riscv_call.
  destruct (frag_grow_ok ob 8 st (ook_fits _ (good_ok _ Hg))) as (s1 & E1 & G1 & R1 & _).
  apply safe_bind; [by eapply safe_grown|]. intros [] s1' E1' Hg1 _. rewrite E1 in E1'. injection E1' as <-.
  destruct (macro_build_append (Some ep) "auipc" "d,u" [MA_int t; MA_reloc BFD_RELOC_RISCV_CALL_PLT]
    [(FLD_RD, t)] (Some BFD_RELOC_RISCV_CALL_PLT)) as (mo & w & Em & _ & _ & L);
    [apply builds_name; by left|apply fmt_du|done|high_fields|].
  destruct (macro_build_append None "jalr" "d,s" [MA_int d; MA_int t]
    [(FLD_RD, d); (FLD_RS1, t)] None) as (mo' & w' & Em' & _ & _ & L');
    [apply builds_name; cbn; tauto|apply fmt_ds|done|high_fields|].
  rewrite Em, Em'. set (ip := mk_insn mo w None). set (ip' := mk_insn mo' w' None).
  assert (I4 : insn_length ip = 4%nat) by (unfold insn_length; cbn [ip ci_opcode]; by rewrite L).
  assert (I4' : insn_length ip' = 4%nat) by (unfold insn_length; cbn [ip' ci_opcode]; by rewrite L').
  clear Em Em' L L'.
  assert (exists h, riscv_reloc_type_lookup BFD_RELOC_RISCV_CALL_PLT = Some h /\ reloc_size h = 8%nat)
    as (h & Hh & H8) by (eexists; split; vm_compute; reflexivity).
  destruct (append_fixup ob ip ep BFD_RELOC_RISCV_CALL_PLT h s1)
    as (s2 & k & o & E2 & A2 & H2); [apply Hg1|done|done|].
  destruct (H2 ltac:(lia) eq_refl) as (X2 & U2 & B2 & -> & ->). clear H2.
  destruct (append_plain ob ip' None s2 (ap_fits _ _ _ _ _ _ A2) eq_refl) as (s3 & k3 & o3 & E3 & A3 & H3).
  destruct H3 as [X3 U3]; [unfold obstack_room in *; lia|].
  rewrite H8 in A2. rewrite I4 in U2. rewrite I4' in U3.
  assert (H : good s3 /\ extends s1 s3)
    by exact (call_pair s1 s2 s3 ip ip' _ k3 o3 Hg1 I4 I4' A2 A3 ltac:(by intros) X2 U2 X3 U3).
  destruct (new_frag_ok ob (chunk_size ob) s3 (ap_fits _ _ _ _ _ _ A3)) as (s4 & E4 & G4 & _).
  pose proof (safe_grown _ s3 s4 (proj1 H) E4 G4) as H4. unfold safe_at in *.
  unfold bind. rewrite E2, E3, E4 in *. split; [apply H4|]. etransitivity; [apply H|apply H4].
Qed.

Lemma vmslt_safe nm d t s m st :
  nm = "vmslt.vx"%string \/ nm = "vmsltu.vx"%string -> m = -1 \/ m = 0 -> good st ->
  safe_at (macro_build ob None nm "Vd,Vt,sVm" [MA_int d; MA_int t; MA_int s; MA_int m]) st.
Proof.
  intros Hn Hm Hg.
  eapply macro_build_safe; [|intros w; by apply fmt_vmslt|reflexivity|high_fields|exact I|exact Hg].
  destruct Hn as [->| ->]; apply builds_name; cbn; tauto.
Qed.

Lemma mm_safe nm d t s st :
  In nm ["vmnand.mm"; "vmandnot.mm"; "vmor.mm"; "vmxor.mm"]%string -> good st ->
  safe_at (macro_build ob None nm "Vd,Vt,Vs" [MA_int d; MA_int t; MA_int s]) st.
Proof.
  intros Hn Hg.
  eapply macro_build_safe; [|intros w; apply fmt_mm|reflexivity|high_fields|exact I|exact Hg].
  apply builds_name. cbn [In] in *. tauto.
Qed.

Lemma vector_macro_safe mo w st : good st -> safe_at (vector_macro ob mo w) st.
Proof.
  intros Hg. unfold vector_macro. cbv zeta.
  set (nm := if match_ mo =? 0 then _ else _).
  assert (Hn : nm = "vmslt.vx"%string \/ nm = "vmsltu.vx"%string)
    by (unfold nm; destruct (_ =? 0); tauto).
  clearbody nm. destruct (mask mo =? M_VMSGE); [|by apply safe_ret].
  assert (Hmm : forall op d t s x, In op ["vmnand.mm"; "vmandnot.mm"; "vmor.mm"; "vmxor.mm"]%string ->
    good x -> safe_at (macro_build ob None op "Vd,Vt,Vs" [MA_int d; MA_int t; MA_int s]) x)
    by (intros; by apply mm_safe).
  destruct (negb (EXTRACT_OPERAND FLD_VMASK w =? 0)) eqn:Ev.
  { apply safe_bind; [apply vmslt_safe; tauto|]. intros _ s1 _ G1 _. apply mm_safe; [cbn; tauto|done]. }
  apply negb_false_iff, Z.eqb_eq in Ev. rewrite Ev.
  destruct (negb (EXTRACT_OPERAND FLD_VFUNCT6 w =? 0)).
  - destruct (EXTRACT_OPERAND FLD_VD w =? 0); (apply safe_bind; [apply vmslt_safe; tauto|]);
      intros _ s1 _ G1 _; [apply mm_safe; [cbn; tauto|done]|].
    apply safe_bind; [apply mm_safe; [cbn; tauto|done]|]. intros _ s2 _ G2 _.
    apply safe_bind; [apply mm_safe; [cbn; tauto|done]|]. intros _ s3 _ G3 _.
    apply mm_safe; [cbn; tauto|done].
  - destruct (negb _); [|by apply safe_as_bad].
    apply safe_bind; [apply vmslt_safe; tauto|]. intros _ s1 _ G1 _. apply mm_safe; [cbn; tauto|done].
Qed.

(** ** Macros *)

Lemma assemble_all_safe asm ls st :
  (forall l x, In l ls -> good x -> safe_at (asm l) x) -> good st -> safe_at (assemble_all asm ls) st.
Proof.
  revert st. induction ls as [|l ls IH]; intros st Ha Hg; cbn [assemble_all]; [by apply safe_ret|].
  apply safe_bind; [apply Ha; [by left|done]|]. intros _ s1 _ G1 _. apply IH; [|done].
  intros l' x Hl. apply Ha. by right.
Qed.

Section macros.

Context (asm : list ascii -> em unit).
Context (asm_text : forall xlen e x, good x -> safe_at (asm (emitted_text xlen e)) x).

Lemma lines_safe xlen code st : good st -> safe_at (assemble_all asm (map (emitted_text xlen) code)) st.
Proof.
  apply assemble_all_safe. intros l x Hl. apply in_map_iff in Hl as (e & <- & _). apply asm_text.
Qed.

Lemma load_const_safe xlen reg imm st :
  good st ->
  safe_at (if bool_decide (X_op imm = O_constant) then
             match load_const 4 xlen reg (X_add_number imm) with
             | Some code => assemble_all asm (map (emitted_text xlen) code)
             | None => stop Out_of_fuel
             end
           else as_bad EM_large_constant) st.
Proof.
  intros Hg. destruct (bool_decide _); [|by apply safe_as_bad].
  destruct (load_const_total xlen reg (X_add_number imm)) as [code ->]. by apply lines_safe.
Qed.

Lemma builds_address (b : bool) : builds (if b then "ld" else "lw") = true.
Proof. apply builds_name. destruct b; cbn [In]; tauto. Qed.

Lemma builds_addi : builds "addi" = true.
Proof. apply builds_name. cbn [In]. tauto. Qed.

Lemma source_macro_safe m st : good st -> safe_at (modify (fun st => set_source_macro st m)) st.
Proof. intros Hg. apply safe_modify; try done. apply Hg. Qed.

Lemma macro_safe mo w imm imm_reloc st :
  In mo riscv_opcodes -> pinfo mo = INSN_MACRO ->
  (mask mo = M_CALL -> imm_reloc = Some BFD_RELOC_RISCV_CALL_PLT) ->
  good st -> safe_at (macro ob asm mo w imm imm_reloc) st.
Proof.
  intros Hin Hp Hcall Hg.
  assert (Hacc : mask mo = M_Lx \/ mask mo = M_FLx \/ mask mo = M_Sx_FSx -> builds (name mo) = true).
  { pose proof access_names_build as H. rewrite forallb_forall in H. specialize (H mo Hin). clear Hin.
    rewrite Hp in H. intros Hm. apply orb_true_iff in H as [H|H]; [|exact H].
    destruct Hm as [Hm|[Hm|Hm]]; rewrite Hm in H; discriminate H. }
  clear Hin. unfold macro. apply safe_get. cbv zeta.
  apply safe_bind; [exact (source_macro_safe _ _ Hg)|]. intros _ x _ Hx _.
  apply safe_bind; [|intros _ y _ Hy _; exact (source_macro_safe _ _ Hy)]. clear Hg Hp.
  destruct (mask mo =? M_LI); [by apply load_const_safe|].
  destruct ((mask mo =? M_LA) || (mask mo =? M_LLA) || _).
  { apply safe_bind; [destruct (negb _); [by apply safe_as_bad|by apply safe_ret]|]. intros _ y _ Hy _.
    destruct (bool_decide (X_op imm = O_constant)) eqn:Eb.
    - pose proof (load_const_safe (rps_xlen (rps (cfg st))) (EXTRACT_OPERAND FLD_RD w) imm y Hy) as H.
      by rewrite Eb in H.
    - destruct (_ || _); (apply pcrel_access_safe; [|by left|done|done|done]);
        [apply builds_address|apply builds_addi]. }
  destruct (mask mo =? M_LA_TLS_GD);
    [apply pcrel_access_safe; [apply builds_addi|by left|done|done|done]|].
  destruct (mask mo =? M_LA_TLS_IE);
    [apply pcrel_access_safe; [apply builds_address|by left|done|done|done]|].
  destruct (Z.eqb_spec (mask mo) M_Lx) as [E|_];
    [apply pcrel_access_safe; [apply Hacc; tauto|by left|done|done|done]|].
  destruct (Z.eqb_spec (mask mo) M_FLx) as [E|_];
    [apply pcrel_access_safe; [apply Hacc; tauto|by left|done|done|done]|].
  destruct (Z.eqb_spec (mask mo) M_Sx_FSx) as [E|_];
    [apply pcrel_access_safe; [apply Hacc; tauto|by right|done|done|done]|].
  destruct (Z.eqb_spec (mask mo) M_CALL) as [E|_];
    [rewrite (Hcall E); by apply riscv_call_safe|].
  do 3 (destruct (mask mo =? _); [by apply lines_safe|]).
  destruct (mask mo =? M_VMSGE); [by apply vector_macro_safe|by apply safe_as_bad].
Qed.

End macros.

(** ** A line *)

Lemma abi_by_arch_started s s' :
  riscv_set_abi_by_arch s = Some s' -> start_assemble s' = start_assemble s.
Proof.
  unfold riscv_set_abi_by_arch. cbv zeta.
  destruct (negb (explicit_mabi s)); [by intros [= <-]; repeat case_match|].
  destruct ((abi_xlen s =? 0) || _ || _); [done|]. intros [= <-].
  destruct (rps_xlen (rps s) <? abi_xlen s), (has_ext s "e" && _), (float_abi s); unfold message_if;
    repeat case_match; done.
Qed.

Lemma priv_spec_started s name : start_assemble (riscv_set_default_priv_spec s name).1 = start_assemble s.
Proof.
  unfold riscv_set_default_priv_spec. destruct name as [n|]; [by destruct (spec_class _ n)|].
  destruct (attr_priv s) as [[a b] c]. destruct (_ && _ && _); [done|]. by destruct (bool_decide _).
Qed.

Lemma first_instruction_ready c :
  ready c -> exists c' ok, first_instruction c = Some (c', ok) /\ ready c' /\ opts c' = opts c.
Proof.
  intros [Hs Hr]. unfold first_instruction. destruct (start_assemble c) eqn:Es.
  { exists c, true. split; [done|]. split; [|done]. split; [done|by left]. }
  destruct (riscv_set_abi_by_arch (with_started c)) as [t|] eqn:Ea.
  - destruct (riscv_set_default_priv_spec t None) as [c' ok] eqn:Ep. exists c', ok. split; [done|].
    pose proof (abi_by_arch_started _ _ Ea) as Hst. apply abi_by_arch_frame in Ea as (H1 & H2 & H3 & H4).
    pose proof (priv_spec_started t None) as Hst'. destruct (priv_spec_frame t None) as (H5 & H6 & H7 & H8).
    rewrite Ep in *. cbn [fst rps opts opts_stack elf_flags start_assemble with_started] in *.
    split; [|congruence]. split; [|left; congruence]. eapply frame_ok; [exact Hs|congruence..].
  - exfalso. revert Ea. unfold riscv_set_abi_by_arch. cbv zeta.
    cbn [explicit_mabi with_started abi_xlen rps float_abi].
    destruct Hr as [Hr|[Hr|(H1 & H2 & H3)]]; [congruence|by rewrite Hr|].
    destruct (negb (explicit_mabi c)); [done|].
    rewrite (proj2 (Z.eqb_neq _ _) H1), (proj2 (Z.eqb_neq _ _) H2), bool_decide_eq_false_2 by done. done.
Qed.

Lemma with_priv_used_ready c b : ready c -> ready (with_priv_used c b).
Proof. intros [Hs Hr]. split; [by eapply frame_ok; [exact Hs|..]|exact Hr]. Qed.

Lemma mapping_insn_safe text st : good st -> safe_at (mapping_insn text) st.
Proof.
  intros Hg. unfold safe_at, mapping_insn. pose proof Hg as [_ [Hs _]].
  destruct (so_arch _ _ _ (ok_now _ _ Hs)) as (x & _ & Hx). cbn [snd] in Hx. rewrite Hx.
  set (a := unchars _). clearbody a.
  assert (exists m, riscv_mapping_state text a (frag_now st) (frag_used st) MAP_INSN 0 false (smap st) = Some m)
    as [m ->].
  { unfold riscv_mapping_state, make_mapping_symbol, new_mapping_symbol. cbv zeta.
    repeat (first [eexists; reflexivity|case_match]); simplify_eq; by eexists. }
  pose proof (safe_modify (fun st => set_cfg st (cfg st) (ipg st) m) st Hg) as H.
  unfold safe_at, modify in H. apply H; try done. apply Hg.
Qed.

Lemma riscv_ip_not_fatal env expression strtof str st0 op :
  riscv_ip env expression strtof op_hash str st0 <> IP_fatal op.
Proof.
  unfold riscv_ip. destruct (split_name str) as [nm start]. apply ip_entries_not_fatal. intros o Ho.
  apply (candidates_in _ _ _ _ _ op_hash_ok) in Ho as [Ho _].
  pose proof riscv_opcodes_ok as Hok. rewrite forallb_forall in Hok. apply entry_ok_letters, (Hok o Ho).
Qed.

Lemma riscv_opcodes_lengths :
  forallb (fun op => (pinfo op =? INSN_MACRO) || (riscv_insn_length (match_ op) =? 2)
                     || (riscv_insn_length (match_ op) =? 4)) riscv_opcodes = true.
Proof. vm_compute. reflexivity. Qed.

(** The instructions a constant or an extension is made of are no macros. *)
Lemma text_names_no_macro :
  forallb (fun nm => forallb (fun op => negb (pinfo op =? INSN_MACRO)) (candidates op_hash nm))
    ["lui"; "addi"; "addiw"; "slli"; "srli"; "srai"]%string = true.
Proof. vm_compute. reflexivity. Qed.

Lemma emitted_text_name xlen e :
  In (unchars (split_name (emitted_text xlen e)).1)
    ["lui"; "addi"; "addiw"; "slli"; "srli"; "srai"]%string.
Proof. destruct e; cbn; tauto. Qed.

Section line.

Context (expression : bool -> list ascii -> expressionS * list ascii * list diag).
Context (strtof : list ascii -> bool * option (Z * Z) * list ascii).
Context (ulong : Z) (text : bool).

(** An instruction that is not a macro. *)
Lemma insn_safe env str st0 op i st :
  riscv_ip env expression strtof op_hash str st0 = IP_ok op i -> pinfo op <> INSN_MACRO ->
  rvc (riscv_opts env) = rvc (opts (cfg st)) -> good st ->
  safe_at (append_insn ob (mk_insn op (insn_opcode i) None) (Some (addr_of (imm_expr i))) (imm_reloc i)) st.
Proof.
  intros H Hp Hrvc Hg. destruct (riscv_ip_reloc _ _ _ _ _ _ _ H) as [Hr _].
  specialize (Hr Hp). apply riscv_ip_assembled in H as (Hin & _ & [_ _ _ _ Hl _ Hv]); [|exact Hp].
  pose proof riscv_opcodes_lengths as Hlen. rewrite forallb_forall in Hlen. specialize (Hlen op Hin).
  clear Hin. rewrite (proj2 (Z.eqb_neq _ _) Hp) in Hlen. cbn [orb] in Hlen.
  rewrite Hl in Hv. destruct Hr as [H4 H2].
  assert (Hi : insn_length (mk_insn op (insn_opcode i) None) = Z.to_nat (riscv_insn_length (match_ op)))
    by (unfold insn_length; cbn [ci_opcode]; by rewrite Hl).
  apply append_insn_safe; [exact _|exact Hg|reflexivity|rewrite Hi|rewrite Hi| |congruence].
  - apply orb_true_iff in Hlen as [E|E]; apply Z.eqb_eq in E; rewrite E; [by left|by right].
  - intros Hn. apply orb_true_iff in Hlen as [E|E]; apply Z.eqb_eq in E; [|by rewrite E].
    specialize (Hv E). congruence.
  - destruct (imm_reloc i) as [r|]; [|done]. cbn [reloc_fits insn4_reloc insn2_reloc] in *.
    apply orb_true_iff in H4 as [H4|H4]; [by left|].
    apply orb_true_iff in Hlen as [E|E]; apply Z.eqb_eq in E; [left; by apply H2|right].
    unfold reloc4 in H4. destruct (riscv_reloc_type_lookup r) as [h|]; [|done]. exists h. split; [done|].
    rewrite Hi, E. by apply Nat.leb_le in H4.
Qed.

Abbreviation asm d := (md_assemble ob expression strtof ulong text d).

Lemma md_assemble_step depth str st :
  good st ->
  (forall env st0 op i, riscv_ip env expression strtof op_hash str st0 = IP_ok op i ->
     pinfo op = INSN_MACRO -> exists d, depth = S d /\
       forall xlen e x, good x -> safe_at (asm d (emitted_text xlen e)) x) ->
  safe_at (asm depth str) st.
Proof.
  intros Hg Hm. destruct (first_instruction_ready _ (good_ready _ Hg)) as (c & ok & Ef & Hc & Ho).
  assert (Hbody : forall sub, (forall env st0 op i,
      riscv_ip env expression strtof op_hash str st0 = IP_ok op i -> pinfo op = INSN_MACRO ->
      forall xlen e x, good x -> safe_at (sub (emitted_text xlen e)) x) ->
    safe_at
      (modify (fun st => set_cfg st c (ipg st) (smap st)) ;*
       if negb ok then ret tt
       else
        mapping_insn text ;*
        let after i := modify (fun st => set_cfg st (with_priv_used (cfg st) (explicit_priv_attr i)) i
                                           (smap st)) in
        match riscv_ip (env_of ulong c) expression strtof op_hash str (ipg st) with
        | IP_fatal _ => stop Internal_error
        | IP_overrun _ => stop Text_overrun
        | IP_error msg missing_ext i => after i ;* as_bad (EM_statement msg missing_ext)
        | IP_ok mo i =>
            after i ;*
            if pinfo mo =? INSN_MACRO then macro ob sub mo (insn_opcode i) (imm_expr i) (imm_reloc i)
            else append_insn ob (mk_insn mo (insn_opcode i) None) (Some (addr_of (imm_expr i)))
                   (imm_reloc i)
        end) st).
  { intros sub Hsub. apply safe_bind; [by apply safe_modify|]. intros _ s1 _ G1 X1.
    destruct ok; cbn [negb]; [|by apply safe_ret].
    apply safe_bind; [by apply mapping_insn_safe|]. intros _ s2 _ G2 X2. cbv zeta.
    assert (Hafter : forall i, safe_at (modify (fun st => set_cfg st
        (with_priv_used (cfg st) (explicit_priv_attr i)) i (smap st))) s2).
    { intros i. apply safe_modify; try done. apply with_priv_used_ready, G2. }
    destruct (riscv_ip (env_of ulong c) expression strtof op_hash str (ipg st)) as [mo i|msg me i|o|o] eqn:Ei.
    - apply safe_bind; [apply Hafter|]. intros _ s3 _ G3 X3.
      destruct (Z.eqb_spec (pinfo mo) INSN_MACRO) as [Hp|Hp].
      + pose proof (riscv_ip_reloc _ _ _ _ _ _ _ Ei) as [_ Hcall].
        specialize (Hsub _ _ _ _ Ei Hp).
        assert (Hin : In mo riscv_opcodes).
        { revert Ei. unfold riscv_ip. destruct (split_name str) as [nm start]. intros Ei.
          apply ip_entries_ok in Ei as (Hin & _).
          by apply (candidates_in _ _ _ _ _ op_hash_ok) in Hin as [Hin _]. }
        apply macro_safe; [exact Hsub|exact Hin|exact Hp|exact (Hcall Hp)|exact G3].
      + apply (insn_safe _ _ _ _ _ _ Ei Hp); [|exact G3].
        rewrite (ex_opts _ _ X3), (ex_opts _ _ X2), (ex_opts _ _ X1), <- Ho. reflexivity.
    - apply safe_bind; [apply Hafter|]. intros _ s3 _ G3 X3. by apply safe_as_bad.
    - by destruct (riscv_ip_not_fatal _ _ _ _ _ _ Ei).
    - reflexivity. }
  destruct depth as [|d]; cbn [md_assemble]; apply safe_get; rewrite Ef; apply Hbody.
  - intros env st0 op i Ei Hp. destruct (Hm _ _ _ _ Ei Hp) as (d & Hd & _). discriminate Hd.
  - intros env st0 op i Ei Hp. destruct (Hm _ _ _ _ Ei Hp) as (d' & [= <-] & H). exact H.
Qed.

End line.

End assemble.

(** ** Properties *)

Section claims.

Context (ob : obstack) `{!ObstackLaws ob}.
Context (expression : bool -> list ascii -> expressionS * list ascii * list diag).
Context (strtof : list ascii -> bool * option (Z * Z) * list ascii).
Context (ulong : Z) (text : bool).

Lemma emitted_safe d xlen e st :
  good st -> safe_at (md_assemble ob expression strtof ulong text d (emitted_text xlen e)) st.
Proof.
  intros Hg. apply md_assemble_step; [exact _|exact Hg|]. intros env st0 op i Ei Hp. exfalso.
  pose proof text_names_no_macro as Hn. rewrite forallb_forall in Hn.
  specialize (Hn _ (emitted_text_name xlen e)). rewrite forallb_forall in Hn. revert Ei.
  unfold riscv_ip. destruct (split_name (emitted_text xlen e)) as [nm start]. intros Ei.
  apply ip_entries_ok in Ei as (Hin & _). specialize (Hn op Hin). rewrite Hp in Hn. discriminate Hn.
Qed.

(** C2: assembling is safe: from a state whose options are consistent and
    whose frags and fixups are well formed, any sequence of lines (instructions
    of any kind, macros, wrong ones), with any expression parser, leads to such
    a state again: no assertion fails, no relocation howto is missing, nothing
    is written outside of a frag, every expansion ends, every fixup lies within
    the fixed part of its frag (the two instructions of a call included) and
    every relaxable frag has the room and the state of its branch.  What was
    emitted before is kept, and without compressed instructions the code only
    grows by multiples of four bytes.  The one other outcome is an operand text
    read past its end. *)
Theorem md_assemble_safe (depth : nat) (lines : list (list ascii)) (st : out_state) :
  good st ->
  match assemble_all (md_assemble ob expression strtof ulong text (S depth)) lines st with
  | Ok _ st' => good st' /\ extends st st'
  | Stop w => w = Text_overrun
  end.
Proof.
  intros Hg. apply (assemble_all_safe (md_assemble ob expression strtof ulong text (S depth))); [|exact Hg].
  intros l x _ Hx. apply md_assemble_step; [exact _|exact Hx|]. intros env st0 op i _ _.
  exists depth. split; [reflexivity|]. intros xlen e y. apply emitted_safe.
Qed.

End claims.

(** An obstack with chunks of 4064 bytes, and an empty section. *)
Definition plain_obstack : obstack :=
  mk_obstack 80 16 4064 (fun room => (room mod 16)%nat).

#[export] Instance plain_obstack_laws : ObstackLaws plain_obstack.
Proof. split; cbn; lia. Qed.

Definition empty_output (c : settings) : out_state :=
  mk_out c start_state (mk_mapping [] ∅ ∅ MAP_NONE None) [] (replicate 64 0) 0 [] [] (-1) [].

Definition march (arch : string) : settings := started true None "riscv64" [(OPTION_MARCH, arch)].

Lemma march_good arch :
  arch_ok arch -> explicit_mabi (march arch) = false -> good (empty_output (march arch)).
Proof.
  intros Ha He. constructor.
  - constructor; [unfold fits; cbn; lia|apply Forall_nil_2..].
  - split; [|right; by left]. eapply settings_ok_impl; [|apply started_ok]; [done|done|]. apply Forall_singleton. cbn. by intros _.
Qed.

Definition sample_lines : list (list ascii) :=
  map chars ["la a0,table"; "beqz a0,done"; "addi a0,a0"; "call f"; "c.addi a0,1"]%string.

Abbreviation sample_run arch :=
  (assemble_all (md_assemble plain_obstack decimal_expression no_strtof 64 true 1) sample_lines
    (empty_output (march arch))).

Lemma md_assemble_safe_witness :
  match sample_run "rv64gc" with
  | Ok _ st' => good st' /\ length (code st') = 26%nat /\ length (fixes st') = 3%nat
  | Stop _ => False
  end.
Proof.
  assert (Hg : good (empty_output (march "rv64gc"))).
  { apply march_good; [split; [done|cbn; intuition discriminate]|vm_compute; reflexivity]. }
  pose proof (md_assemble_safe plain_obstack decimal_expression no_strtof 64 true 0 sample_lines _ Hg) as H.
  assert (E : match sample_run "rv64gc" with
              | Ok _ s => (length (code s), length (fixes s)) | Stop _ => (0, 0)%nat end = (26, 3)%nat)
    by (vm_compute; reflexivity).
  destruct (sample_run "rv64gc") as [[] s|w]; [|discriminate E]. injection E as E1 E2.
  split; [apply H|]. by split.
Defined.
