(* ===== verification/VectorMacro.v ===== *)
(** * The expansion of vmsge.vx and vmsgeu.vx

    The instructions [vector_macro] emits, run on the mask registers: together
    they compute the comparison the macro stands for. *)
From Stdlib Require Import ZArith Bool Lia Ascii String.
From stdpp Require Import base list strings gmap.
From S2P Require Import Prelude OpcodeH RiscvH Words OpcodeMatch OpcodeTable Validate SubsetTables Subset LoadConst Bytes Howto Fixups Relax Regs Expr Ip IpFrame IpSpec Mapping Options Emit EmitSpec AssembleSpec.

#[local] Open Scope Z_scope.
#[local] Open Scope c_scope.
#[local] Open Scope list_scope.

(** ** Mask instructions *)

(** The bit of one element in every mask register. *)
Abbreviation mask_bits := (Z -> bool).

Definition set_bit (b : mask_bits) (v : Z) (x : bool) : mask_bits := fun u => if u =? v then x else b u.

(** One instruction word on the bit of an element; [less u vs2 rs1] tells if the
    element of vector [vs2] is less than register [rs1], unsigned if [u].  The
    elements that are masked off keep their bit. *)
Definition mask_step (less : bool -> Z -> Z -> bool) (w : Z) (b : mask_bits) : option mask_bits :=
  let vd := EXTRACT_OPERAND FLD_VD w in
  let vs2 := EXTRACT_OPERAND FLD_VS2 w in
  let vs1 := EXTRACT_OPERAND FLD_VS1 w in
  let holds m k := w .& k =? m in
  let compare u := Some (if negb (EXTRACT_OPERAND FLD_VMASK w =? 0) || b 0
                         then set_bit b vd (less u vs2 vs1) else b) in
  if holds MATCH_VMSLTVX MASK_VMSLTVX then compare false
  else if holds MATCH_VMSLTUVX MASK_VMSLTUVX then compare true
  else if holds MATCH_VMNANDMM MASK_VMNANDMM then Some (set_bit b vd (negb (b vs2 && b vs1)))
  else if holds MATCH_VMANDNMM MASK_VMANDNMM then Some (set_bit b vd (b vs2 && negb (b vs1)))
  else if holds MATCH_VMORMM MASK_VMORMM then Some (set_bit b vd (b vs2 || b vs1))
  else if holds MATCH_VMXORMM MASK_VMXORMM then Some (set_bit b vd (xorb (b vs2) (b vs1)))
  else None.

Fixpoint mask_run (less : bool -> Z -> Z -> bool) (ws : list Z) (b : mask_bits) : option mask_bits :=
  match ws with
  | [] => Some b
  | w :: ws => match mask_step less w b with Some b => mask_run less ws b | None => None end
  end.

(** ** Fields *)

Lemma extract_insert f n w v :
  OP_MASK f = Z.ones n -> 0 <= n <= 32 -> 0 <= OP_SH f -> n + OP_SH f <= 64 -> 0 <= v < 2 ^ n ->
  EXTRACT_OPERAND f (insert f w v) = v.
Proof.
  intros Hm Hn Hs Hb Hv. rewrite (extract_bits f n) by done. unfold insert, INSERT_BITS. rewrite Hm.
  apply Z.bits_inj'. intros i Hi. rewrite Z.land_spec, Z.shiftr_spec, Z.lor_spec, Z.land_spec by lia.
  rewrite !u64_testbit, Z.lnot_spec, u64_testbit by lia. rewrite !Z.shiftl_spec, Z.land_spec by lia.
  rewrite !Z.add_simpl_r. destruct (Z.ltb_spec i n) as [Hin|Hin].
  - rewrite Z.ones_spec_low by lia. destruct (Z.ltb_spec (i + OP_SH f) 64); [|lia].
    by rewrite !andb_true_r, andb_false_r.
  - rewrite Z.ones_spec_high, andb_false_r by lia. symmetry. apply (testbit_high v n); lia.
Qed.

Lemma extract_land f w :
  0 <= OP_SH f -> EXTRACT_OPERAND f w = u32 ((w .& (OP_MASK f << OP_SH f)) >> OP_SH f).
Proof.
  intros Hs. unfold EXTRACT_OPERAND, EXTRACT_BITS. rewrite Z.shiftr_land, Z.shiftr_shiftl_l by lia.
  by rewrite Z.sub_diag, Z.shiftl_0_r.
Qed.

Lemma extract_insert_other f g w v :
  0 <= w < 2 ^ 64 -> 0 <= OP_SH g -> (OP_MASK f <<u OP_SH f) .& (OP_MASK g << OP_SH g) = 0 ->
  EXTRACT_OPERAND g (insert f w v) = EXTRACT_OPERAND g w.
Proof.
  intros Hw Hs Hd. rewrite !extract_land by done. do 2 f_equal.
  apply (writes_land (OP_MASK f <<u OP_SH f)); [by apply writes_insert|done].
Qed.

Lemma land_insert f w v m :
  0 <= w < 2 ^ 64 -> (OP_MASK f <<u OP_SH f) .& m = 0 -> insert f w v .& m = w .& m.
Proof. intros Hw Hd. apply (writes_land (OP_MASK f <<u OP_SH f)); [by apply writes_insert|done]. Qed.

(** ** The words *)

Definition reg5 (r : Z) : Prop := 0 <= r < 32.

Definition mm_word (m d t s : Z) : Z := fill m [(FLD_VD, d); (FLD_VS2, t); (FLD_VS1, s)].
Definition vmslt_word (m d t s k : Z) : Z :=
  fill m [(FLD_VD, d); (FLD_VS2, t); (FLD_RS1, s); (FLD_VMASK, - k)].

Lemma insert_range f w v : 0 <= w < 2 ^ 64 -> 0 <= insert f w v < 2 ^ 64.
Proof. intros Hw. by apply (writes_insert w v (OP_MASK f) (OP_SH f)). Qed.

#[local] Hint Resolve insert_range : core.

Ltac other_field := rewrite extract_insert_other by (first [reflexivity|done|auto 6]).
Ltac this_field n := apply (extract_insert _ n); first [reflexivity|lia|done].

Lemma mm_word_fields m d t s :
  0 <= m < 2 ^ 64 -> reg5 d -> reg5 t -> reg5 s ->
  EXTRACT_OPERAND FLD_VD (mm_word m d t s) = d /\ EXTRACT_OPERAND FLD_VS2 (mm_word m d t s) = t /\
  EXTRACT_OPERAND FLD_VS1 (mm_word m d t s) = s /\
  mm_word m d t s .& 0xfe00707f = m .& 0xfe00707f /\ mm_word m d t s .& 0xfc00707f = m .& 0xfc00707f.
Proof.
  intros Hm Hd Ht Hs. unfold mm_word, fill, reg5 in *. cbn [foldl fst snd]. split_and!.
  - do 2 other_field. this_field 5.
  - other_field. this_field 5.
  - this_field 5.
  - rewrite !land_insert by (first [reflexivity|auto 6]). reflexivity.
  - rewrite !land_insert by (first [reflexivity|auto 6]). reflexivity.
Qed.

Lemma vmslt_word_fields m d t s k :
  0 <= m < 2 ^ 64 -> reg5 d -> reg5 t -> reg5 s -> k = -1 \/ k = 0 ->
  EXTRACT_OPERAND FLD_VD (vmslt_word m d t s k) = d /\
  EXTRACT_OPERAND FLD_VS2 (vmslt_word m d t s k) = t /\
  EXTRACT_OPERAND FLD_VS1 (vmslt_word m d t s k) = s /\
  EXTRACT_OPERAND FLD_VMASK (vmslt_word m d t s k) = - k /\
  vmslt_word m d t s k .& 0xfc00707f = m .& 0xfc00707f.
Proof.
  intros Hm Hd Ht Hs Hk. unfold vmslt_word, fill, reg5 in *. cbn [foldl fst snd]. split_and!.
  - do 3 other_field. this_field 5.
  - do 2 other_field. this_field 5.
  - other_field. change (EXTRACT_OPERAND FLD_VS1) with (EXTRACT_OPERAND FLD_RS1). this_field 5.
  - this_field 1.
  - rewrite !land_insert by (first [reflexivity|auto 7]). reflexivity.
Qed.

(** The effect of each word. *)
Lemma step_vmslt less (u : bool) d t s k b :
  reg5 d -> reg5 t -> reg5 s -> k = -1 \/ k = 0 ->
  mask_step less (vmslt_word (if u then MATCH_VMSLTUVX else MATCH_VMSLTVX) d t s k) b
  = Some (if negb (k =? 0) || b 0 then set_bit b d (less u t s) else b).
Proof.
  intros Hd Ht Hs Hk.
  destruct (vmslt_word_fields (if u then MATCH_VMSLTUVX else MATCH_VMSLTVX) d t s k)
    as (E1 & E2 & E3 & E4 & E5); [by destruct u|done..|].
  unfold mask_step. cbv zeta. rewrite E1, E2, E3, E4, E5.
  replace (- k =? 0) with (k =? 0) by lia. by destruct u.
Qed.

(** The mask instructions of the expansions, with what they compute. *)
Definition mm_ops : list (string * Z * (bool -> bool -> bool)) :=
  [("vmnand.mm", MATCH_VMNANDMM, fun a b => negb (a && b));
   ("vmandnot.mm", MATCH_VMANDNMM, fun a b => a && negb b);
   ("vmor.mm", MATCH_VMORMM, orb);
   ("vmxor.mm", MATCH_VMXORMM, xorb)]%string.

Lemma step_mm less nm m f d t s b :
  In (nm, m, f) mm_ops -> reg5 d -> reg5 t -> reg5 s ->
  mask_step less (mm_word m d t s) b = Some (set_bit b d (f (b t) (b s))).
Proof.
  intros Hin Hd Ht Hs. cbn [mm_ops In] in Hin.
  assert (Hm : 0 <= m < 2 ^ 64) by (destruct Hin as [E|[E|[E|[E|[]]]]]; injection E as <- <- <-; done).
  destruct (mm_word_fields m d t s Hm Hd Ht Hs) as (E1 & E2 & E3 & E4 & E5).
  unfold mask_step. cbv zeta. rewrite E1, E2, E3, !E4, !E5.
  destruct Hin as [E|[E|[E|[E|[]]]]]; injection E as <- <- <-; reflexivity.
Qed.

(** ** The expansion *)

Definition vector_entries : list (string * Z) :=
  [("vmslt.vx", MATCH_VMSLTVX); ("vmsltu.vx", MATCH_VMSLTUVX); ("vmnand.mm", MATCH_VMNANDMM);
   ("vmandnot.mm", MATCH_VMANDNMM); ("vmor.mm", MATCH_VMORMM); ("vmxor.mm", MATCH_VMXORMM)]%string.

Lemma entry_matches :
  forallb (fun p => match macro_entry p.1 with Some mo => match_ mo =? p.2 | None => false end)
    vector_entries = true.
Proof. vm_compute. reflexivity. Qed.

Lemma entry_match nm m : In (nm, m) vector_entries -> match_ <$> macro_entry nm = Some m.
Proof.
  intros Hin. pose proof entry_matches as H. rewrite forallb_forall in H. specialize (H _ Hin).
  cbn [fst snd] in H. destruct (macro_entry nm); [|done]. apply Z.eqb_eq in H. cbn. by rewrite H.
Qed.

#[local] Opaque macro_entry.

Section expansion.

Context (ob : obstack) `{!ObstackLaws ob}.

Definition emits (m : em unit) (ws : list Z) : Prop :=
  forall st, fits st -> exists st', m st = Ok tt st' /\ fits st' /\
    code st' = code st ++ concat (map (bytes_le 4) ws) /\ fixes st' = fixes st.

Lemma emits_seq m k ws ws' : emits m ws -> emits k ws' -> emits (m ;* k) (ws ++ ws').
Proof.
  intros Hm Hk st Hf. destruct (Hm st Hf) as (s1 & E1 & F1 & C1 & X1).
  destruct (Hk s1 F1) as (s2 & E2 & F2 & C2 & X2). exists s2. unfold bind. rewrite E1.
  split; [exact E2|]. split; [exact F2|]. split; [|congruence].
  by rewrite C2, C1, map_app, concat_app, app_assoc.
Qed.

Lemma emits_build nm fmt args fs m :
  builds nm = true -> match_ <$> macro_entry nm = Some m ->
  (forall w, macro_operands (chars fmt) args w None false = inl (fill w fs, None)) ->
  Forall (fun p => high_field p.1) fs ->
  emits (macro_build ob None nm fmt args) [fill m fs].
Proof.
  intros Hb Hm Ho Hf st Hst.
  destruct (macro_build_append ob None nm fmt args fs None Hb Ho eq_refl Hf) as (mo & w & E & Em & Ew & L).
  rewrite Em in Hm. injection Hm as Hm. rewrite E.
  destruct (append_plain ob (mk_insn mo w None) None st Hst eq_refl) as (st' & k & o & E' & A & _).
  exists st'. destruct A as [F C _ _ _ Y _ _ _]. rewrite app_nil_r in Y.
  split; [exact E'|]. split; [exact F|]. split; [|exact Y]. rewrite C. cbn [map concat].
  rewrite app_nil_r, <- Hm, <- Ew. unfold insn_bytes, insn_length. cbn [ci_opcode]. by rewrite L.
Qed.

Ltac high_fields := repeat (apply Forall_cons; split; [reflexivity|]); apply Forall_nil; exact I.

Lemma emits_vmslt (u : bool) d t s k :
  k = -1 \/ k = 0 ->
  emits (macro_build ob None (if u then "vmsltu.vx" else "vmslt.vx") "Vd,Vt,sVm"
           [MA_int d; MA_int t; MA_int s; MA_int k])
        [vmslt_word (if u then MATCH_VMSLTUVX else MATCH_VMSLTVX) d t s k].
Proof.
  intros Hk. apply emits_build; [| |intros w; by apply fmt_vmslt|high_fields].
  - apply builds_name. destruct u; cbn [In]; tauto.
  - apply entry_match. destruct u; cbn [In vector_entries]; tauto.
Qed.

Lemma emits_mm nm m f d t s :
  In (nm, m, f) mm_ops ->
  emits (macro_build ob None nm "Vd,Vt,Vs" [MA_int d; MA_int t; MA_int s]) [mm_word m d t s].
Proof.
  intros Hin. cbn [mm_ops In] in Hin. apply emits_build; [| |intros w; by apply fmt_mm|high_fields].
  - apply builds_name. destruct Hin as [E|[E|[E|[E|[]]]]]; injection E as <- _ _; cbn [In]; tauto.
  - apply entry_match. destruct Hin as [E|[E|[E|[E|[]]]]]; injection E as <- <- _; cbn [In vector_entries]; tauto.
Qed.

Lemma reg5_field f w : OP_MASK f = Z.ones 5 -> reg5 (EXTRACT_OPERAND f w).
Proof.
  intros Hm. unfold reg5. rewrite (extract_bits f 5), Hm, Z.land_ones by (done || lia).
  apply Z.mod_pos_bound. lia.
Qed.

Lemma set_bit_eq b v x : set_bit b v x v = x.
Proof. unfold set_bit. by rewrite Z.eqb_refl. Qed.

Lemma set_bit_ne b v x u : u <> v -> set_bit b v x u = b u.
Proof. intros H. unfold set_bit. by rewrite (proj2 (Z.eqb_neq _ _) H). Qed.

(** The words of the four expansions. *)
Definition vmsge_words (u : bool) (vd vs2 rs1 vm vtemp : Z) : list Z :=
  let vmslt := vmslt_word (if u then MATCH_VMSLTUVX else MATCH_VMSLTVX) in
  if negb (vm =? 0) then [vmslt vd vs2 rs1 (-1); mm_word MATCH_VMNANDMM vd vd vd]
  else if negb (vtemp =? 0) then
    if vd =? vm then [vmslt vtemp vs2 rs1 (-1); mm_word MATCH_VMANDNMM vd vm vtemp]
    else [vmslt vtemp vs2 rs1 (-1); mm_word MATCH_VMANDNMM vtemp vm vtemp;
          mm_word MATCH_VMANDNMM vd vd vm; mm_word MATCH_VMORMM vd vtemp vd]
  else [vmslt vd vs2 rs1 vm; mm_word MATCH_VMXORMM vd vd vm].

(** The registers after the words. *)
Lemma vmsge_words_run less u vd vs2 rs1 vm vtemp b :
  reg5 vd -> reg5 vs2 -> reg5 rs1 -> reg5 vtemp -> vm = 0 \/ vm = 1 -> (vm = 0 -> vtemp <> vd) ->
  exists b', mask_run less (vmsge_words u vd vs2 rs1 vm vtemp) b = Some b' /\
    b' vd = (if negb (vm =? 0) || b 0 then negb (less u vs2 rs1) else b vd) /\
    forall v, v <> vd -> (vm = 0 -> vtemp <> 0 -> v <> vtemp) -> b' v = b v.
Proof.
  intros Hd Hs2 Hs1 Ht Hvm Htd. assert (H0 : reg5 0) by (unfold reg5; lia).
  assert (Hmm : forall nm m f d t s b, In (nm, m, f) mm_ops -> reg5 d -> reg5 t -> reg5 s ->
    mask_step less (mm_word m d t s) b = Some (set_bit b d (f (b t) (b s)))) by (intros; by eapply step_mm).
  unfold vmsge_words. cbv zeta. destruct Hvm as [->| ->]; cbn [Z.eqb negb orb].
  - specialize (Htd eq_refl). destruct (Z.eqb_spec vtemp 0) as [->|Hn]; cbn [negb].
    + cbn [mask_run]. rewrite step_vmslt by (done || tauto). cbn [Z.eqb negb orb].
      rewrite (Hmm "vmxor.mm"%string _ xorb) by (first [done|cbn; tauto]). eexists. split; [reflexivity|].
      split; [|intros v Hv _; rewrite set_bit_ne by done; destruct (b 0); [by rewrite set_bit_ne|done]].
      rewrite set_bit_eq. destruct (b 0) eqn:E0.
      * rewrite set_bit_eq, set_bit_ne, E0 by done. by destruct (less u vs2 rs1).
      * rewrite E0. by destruct (b vd).
    + destruct (Z.eqb_spec vd 0) as [->|Hd0]; cbn [mask_run];
        rewrite step_vmslt by (done || tauto); cbn [Z.eqb negb orb];
        rewrite (Hmm "vmandnot.mm"%string _ (fun a b => a && negb b)) by (first [done|cbn; tauto]).
      * eexists. split; [reflexivity|]. split.
        -- rewrite set_bit_eq, (set_bit_eq _ vtemp), set_bit_ne by done.
           destruct (b 0) eqn:E0; [done|]. done.
        -- intros v Hv Hv'. specialize (Hv' eq_refl Hn). by rewrite !set_bit_ne.
      * rewrite (Hmm "vmandnot.mm"%string _ (fun a b => a && negb b)) by (first [done|cbn; tauto]).
        rewrite (Hmm "vmor.mm"%string _ orb) by (first [done|cbn; tauto]). eexists. split; [reflexivity|].
        rewrite !set_bit_eq. split.
        -- rewrite (set_bit_ne _ vd _ vtemp), set_bit_eq by done.
           rewrite !(set_bit_ne _ vtemp) by done. destruct (b 0), (b vd), (less u vs2 rs1); done.
        -- intros v Hv Hv'. specialize (Hv' eq_refl Hn). by rewrite !set_bit_ne.
  - cbn [mask_run]. rewrite step_vmslt by (done || tauto). cbn [Z.eqb negb orb].
    rewrite (Hmm "vmnand.mm"%string _ (fun a b => negb (a && b))) by (first [done|cbn; tauto]).
    eexists. split; [reflexivity|]. rewrite !set_bit_eq. split; [by destruct (less u vs2 rs1)|].
    intros v Hv _. by rewrite !set_bit_ne.
Qed.

Lemma vector_macro_emits mo w :
  mask mo = M_VMSGE ->
  (EXTRACT_OPERAND FLD_VMASK w = 0 -> EXTRACT_OPERAND FLD_VFUNCT6 w = 0 -> EXTRACT_OPERAND FLD_VD w <> 0) ->
  emits (vector_macro ob mo w)
    (vmsge_words (negb (match_ mo =? 0)) (EXTRACT_OPERAND FLD_VD w) (EXTRACT_OPERAND FLD_VS2 w)
       (EXTRACT_OPERAND FLD_VS1 w) (EXTRACT_OPERAND FLD_VMASK w) (EXTRACT_OPERAND FLD_VFUNCT6 w)).
Proof.
  intros Hm Hd. unfold vector_macro. cbv zeta. rewrite Hm, Z.eqb_refl.
  generalize dependent (EXTRACT_OPERAND FLD_VMASK w). intros vm.
  generalize dependent (EXTRACT_OPERAND FLD_VFUNCT6 w). intros vtemp.
  generalize dependent (EXTRACT_OPERAND FLD_VD w). intros vd Hd. unfold vmsge_words. cbv zeta.
  assert (Hsl : forall d k, k = -1 \/ k = 0 -> emits (macro_build ob None
      (if match_ mo =? 0 then "vmslt.vx" else "vmsltu.vx") "Vd,Vt,sVm"
      [MA_int d; MA_int (EXTRACT_OPERAND FLD_VS2 w); MA_int (EXTRACT_OPERAND FLD_VS1 w); MA_int k])
    [vmslt_word (if negb (match_ mo =? 0) then MATCH_VMSLTUVX else MATCH_VMSLTVX) d
       (EXTRACT_OPERAND FLD_VS2 w) (EXTRACT_OPERAND FLD_VS1 w) k]).
  { intros d k Hk. pose proof (emits_vmslt (negb (match_ mo =? 0)) d (EXTRACT_OPERAND FLD_VS2 w)
      (EXTRACT_OPERAND FLD_VS1 w) k Hk) as H. by destruct (match_ mo =? 0). }
  destruct (Z.eqb_spec vm 0) as [->|Hvm]; cbn [negb].
  2: { apply (emits_seq _ _ [_] [_]); [apply Hsl; tauto|]. eapply emits_mm. cbn. tauto. }
  destruct (Z.eqb_spec vtemp 0) as [->|Ht]; cbn [negb].
  - rewrite (proj2 (Z.eqb_neq vd 0)) by (by apply Hd). cbn [negb].
    apply (emits_seq _ _ [_] [_]); [apply Hsl; tauto|]. eapply emits_mm. cbn. tauto.
  - destruct (vd =? 0).
    + apply (emits_seq _ _ [_] [_]); [apply Hsl; tauto|]. eapply emits_mm. cbn. tauto.
    + apply (emits_seq _ _ [_] [_; _; _]); [apply Hsl; tauto|].
      apply (emits_seq _ _ [_] [_; _]); [eapply emits_mm; cbn; tauto|].
      apply (emits_seq _ _ [_] [_]); eapply emits_mm; cbn; tauto.
Qed.

(** ** Properties *)

(** C22: the expansion of vmsge.vx and vmsgeu.vx computes what the macro stands
    for.  For every destination, source, mask and temporary register, where the
    temporary register of a masked macro is not the destination, the emitted
    instruction words set the bit of the destination to "the element is not
    less", keep it for the elements that are masked off, and change no other
    register but the temporary one; they follow the code, without fixups. *)
Theorem vector_macro_computes (mo : riscv_opcode) (w : Z) (st : out_state) (vd vs2 rs1 vm vtemp : Z) :
  fits st -> mask mo = M_VMSGE ->
  EXTRACT_OPERAND FLD_VD w = vd -> EXTRACT_OPERAND FLD_VS2 w = vs2 -> EXTRACT_OPERAND FLD_VS1 w = rs1 ->
  EXTRACT_OPERAND FLD_VMASK w = vm -> EXTRACT_OPERAND FLD_VFUNCT6 w = vtemp -> vtemp < 32 ->
  (vm = 0 -> vtemp <> vd) ->
  exists st' ws, vector_macro ob mo w st = Ok tt st' /\
    code st' = code st ++ concat (map (bytes_le 4) ws) /\ fixes st' = fixes st /\
    forall less b, exists b', mask_run less ws b = Some b' /\
      b' vd = (if negb (vm =? 0) || b 0 then negb (less (negb (match_ mo =? 0)) vs2 rs1) else b vd) /\
      forall v, v <> vd -> (vm = 0 -> vtemp <> 0 -> v <> vtemp) -> b' v = b v.
Proof.
  intros Hf Hm Hd Hs2 Hs1 Hvm Ht Ht32 Htd.
  destruct (vector_macro_emits mo w Hm) with (st := st) as (st' & E & _ & C & X);
    [rewrite Hvm, Ht, Hd; intros H0 H1; specialize (Htd H0); congruence|exact Hf|].
  rewrite Hd, Hs2, Hs1, Hvm, Ht in C. eexists st', _. split; [exact E|]. split; [exact C|]. split; [exact X|].
  intros less b. apply vmsge_words_run.
  - rewrite <- Hd. by apply reg5_field.
  - rewrite <- Hs2. by apply reg5_field.
  - rewrite <- Hs1. by apply reg5_field.
  - split; [|lia]. rewrite <- Ht, (extract_bits _ 6), Z.land_nonneg by (done || lia). by right.
  - rewrite <- Hvm, (extract_bits _ 1) by (done || lia). change (OP_MASK FLD_VMASK) with (Z.ones 1).
    rewrite Z.land_ones by lia. pose proof (Z.mod_pos_bound (w >> OP_SH FLD_VMASK) (2 ^ 1) ltac:(lia)). lia.
  - exact Htd.
Qed.

End expansion.

(** vmsge.vx v4,v8,a0,v0.t,v12 as it is parsed. *)
Definition vmsge_entry : riscv_opcode :=
  mk_opcode "vmsge.vx" 0 INSN_CLASS_V "Vd,Vt,s,VM,VT" 0 M_VMSGE None INSN_MACRO.

Definition vmsge_word (vtemp : Z) : Z :=
  fill 0 [(FLD_VD, 4); (FLD_VS2, 8); (FLD_RS1, 10); (FLD_VFUNCT6, vtemp)].

Lemma vector_macro_computes_witness :
  exists st' ws, vector_macro tight_obstack vmsge_entry (vmsge_word 12) tight_state = Ok tt st' /\
    code st' = code tight_state ++ concat (map (bytes_le 4) ws) /\
    exists b', mask_run (fun _ _ _ => false) ws (fun v => v =? 0) = Some b' /\ b' 4 = true /\ b' 5 = false.
Proof.
  destruct (vector_macro_computes tight_obstack vmsge_entry (vmsge_word 12) tight_state 4 8 10 0 12)
    as (st' & ws & E & C & _ & H); try reflexivity.
  - unfold fits. cbn. lia.
  - done.
  - exists st', ws. split; [exact E|]. split; [exact C|].
    destruct (H (fun _ _ _ => false) (fun v => v =? 0)) as (b' & R & H1 & H2). exists b'.
    split; [exact R|]. split; [exact H1|]. rewrite H2; [reflexivity|lia|lia].
Defined.

(** Nothing keeps the temporary register of vmsge.vx apart from the
    destination.  "vmsge.vx v4,v8,a0,v0.t,v4" is assembled without a message,
    although its four instructions clear v4 whatever the elements, the mask and
    the old value of v4 are. *)
Theorem vmsge_temp_is_destination :
  match md_assemble plain_obstack decimal_expression no_strtof 64 true 1
          (chars "vmsge.vx v4,v8,a0,v0.t,v4") (empty_output (march "rv64gcv")) with
  | Ok _ st' => emsgs st' = [] /\
      code st' = concat (map (bytes_le 4) (vmsge_words false 4 8 10 0 4))
  | Stop _ => False
  end /\
  forall less b, exists b', mask_run less (vmsge_words false 4 8 10 0 4) b = Some b' /\ b' 4 = false.
Proof.
  split; [vm_compute; by split|]. intros less b.
  assert (H : forall r, In r [0; 4; 8; 10] -> reg5 r) by (intros r Hr; cbn in Hr; unfold reg5; lia).
  unfold vmsge_words. cbn [Z.eqb negb mask_run].
  rewrite (step_vmslt less false) by (first [tauto|apply H; cbn; tauto]). cbn [Z.eqb negb orb].
  rewrite (step_mm less "vmandnot.mm" _ (fun a b => a && negb b)) by (first [apply H|idtac]; cbn; tauto).
  rewrite (step_mm less "vmandnot.mm" _ (fun a b => a && negb b)) by (first [apply H|idtac]; cbn; tauto).
  rewrite (step_mm less "vmor.mm" _ orb) by (first [apply H|idtac]; cbn; tauto).
  eexists. split; [reflexivity|]. rewrite !set_bit_eq, !(set_bit_ne _ 4 _ 0) by lia.
  by destruct (b 0), (less false 8 10).
Qed.
