(* ===== verification/MappingCheck.v ===== *)
(** * The mapping symbols after the layout

    The removal of superfluous mapping symbols once the addresses of the frags
    are known keeps what the symbols say of every byte. *)
From Stdlib Require Import ZArith Bool Lia Ascii String Sorting.Sorted.
From stdpp Require Import base list strings gmap.
From S2P Require Import Prelude RiscvH Mapping MappingSpec.

#[local] Open Scope Z_scope.
#[local] Open Scope list_scope.

Lemma filter_split {A} (P : A -> Prop) `{!forall x, Decision (P x)} (l : list A) x y z :
  filter P l = x ++ y :: z -> exists l1 l2, l = l1 ++ y :: l2 /\ filter P l2 = z.
Proof.
  revert x. induction l as [|a l IH]; intros x Hx; [by destruct x|].
  rewrite filter_cons in Hx. destruct (decide (P a)) as [Ha|Ha].
  - destruct x as [|b x]; injection Hx as -> Hx.
    + by exists [], l.
    + destruct (IH x Hx) as (l1 & l2 & -> & <-). by exists (b :: l1), l2.
  - destruct (IH x Hx) as (l1 & l2 & -> & <-). by exists (a :: l1), l2.
Qed.

Lemma last_filter_split {A} (P : A -> Prop) `{!forall x, Decision (P x)} (l : list A) y :
  last (filter P l) = Some y -> exists l1 l2, l = l1 ++ y :: l2 /\ P y /\ filter P l2 = [].
Proof.
  intros Hl. apply last_Some in Hl as [x Hx]. pose proof Hx as Hx'.
  apply filter_split in Hx as (l1 & l2 & -> & H2). exists l1, l2. split; [done|]. split; [|done].
  assert (Hin : y ∈ filter P (l1 ++ y :: l2)) by (rewrite Hx'; apply elem_of_app; right; apply list_elem_of_here).
  by apply list_elem_of_filter in Hin as [? _].
Qed.

(** ** The symbols of the frags *)

Abbreviation symbol_at m i s := (msyms m !! i = Some s).

Definition pos_of (s : map_symbol) : position := (ms_frag s, ms_value s).

(** [first_map_symbol] is at the start of its frag, and [last_map_symbol] is the
    last one there; both are in the chain. *)
Record frags_ok (m : mapping) : Prop := {
  fr_first : forall g j, first_map_symbol m !! g = Some j ->
    exists s, symbol_at m j s /\ ms_frag s = g /\ ms_value s = 0%nat /\ ms_live s = true;
  fr_last : forall g r, last_map_symbol m !! g = Some r ->
    exists s, symbol_at m r s /\ ms_frag s = g /\ ms_live s = true /\
      (ms_value s = 0%nat -> is_Some (first_map_symbol m !! g));
  fr_cover : forall i s, symbol_at m i s -> ms_live s = true ->
    exists r, last_map_symbol m !! ms_frag s = Some r /\ (i <= r)%nat;
}.

(** The symbol list after a new symbol. *)
Lemma new_symbol_list st value frag fx arch m m' :
  make_mapping_symbol st value frag fx arch false m = Some m' ->
  exists name removed,
    msyms m' = match removed with Some i => alter kill i (msyms m ++ [mk_msym name frag value true])
               | None => msyms m ++ [mk_msym name frag value true] end /\
    removed = (if (value =? 0)%nat then first_map_symbol m !! frag
               else match last_map_symbol m !! frag with
                    | Some l => if (ms_value_at m l =? value)%nat then Some l else None
                    | None => None end) /\
    first_map_symbol m' = (if (value =? 0)%nat then <[frag := length (msyms m)]> (first_map_symbol m)
                           else first_map_symbol m) /\
    last_map_symbol m' = <[frag := length (msyms m)]> (last_map_symbol m).
Proof.
  unfold make_mapping_symbol, new_mapping_symbol. intros H.
  destruct st; [done|exists "$d"%string|exists (append "$x" (default ""%string arch))];
    cbv iota beta zeta in H; eexists; (split; [|split; [reflexivity|]]);
    destruct (if (value =? 0)%nat then _ else _); by injection H as <-.
Qed.

Lemma alter_kill_lookup (l : list map_symbol) (i j : nat) s :
  alter kill i l !! j = Some s ->
  exists s0, l !! j = Some s0 /\ ms_frag s = ms_frag s0 /\ ms_value s = ms_value s0 /\
    ms_name s = ms_name s0 /\ (ms_live s = true -> i <> j /\ s = s0).
Proof.
  destruct (decide (i = j)) as [->|Hij].
  - rewrite list_lookup_alter_eq. intros (s0 & -> & ->)%fmap_Some. by exists s0.
  - rewrite list_lookup_alter_ne by done. intros ->. by exists s.
Qed.

Lemma frags_ok_new st value frag fx arch m m' :
  frags_ok m -> make_mapping_symbol st value frag fx arch false m = Some m' -> frags_ok m'.
Proof.
  intros [Hf Hl Hc] (name & removed & El & Er & Ef & Ela)%new_symbol_list.
  set (new := mk_msym name frag value true) in *. set (k := length (msyms m)) in *.
  (* what is removed *)
  assert (Hrem : forall i, removed = Some i ->
    exists s, symbol_at m i s /\ ms_frag s = frag /\ ms_value s = value).
  { intros i ->. destruct (Nat.eqb_spec value 0) as [->|Hv].
    - destruct (Hf frag i (eq_sym Er)) as (s & ? & ? & ? & _). by exists s.
    - destruct (last_map_symbol m !! frag) as [l|] eqn:E; [|done].
      destruct (Hl _ _ E) as (s & Hs & Hg & _). unfold ms_value_at in Er. rewrite Hs in Er.
      destruct (Nat.eqb_spec (ms_value s) value); [|done]. injection Er as <-. by exists s. }
  assert (Hold : forall j s, symbol_at m j s -> (ms_frag s, ms_value s) <> (frag, value) -> symbol_at m' j s).
  { intros j s Hs Hne. rewrite El. assert (Hj : (msyms m ++ [new]) !! j = Some s) by (by apply lookup_app_l_Some).
    destruct removed as [i|]; [|done]. rewrite list_lookup_alter_ne; [done|]. intros ->.
    destruct (Hrem j eq_refl) as (s' & Hs' & <- & <-). congruence. }
  assert (Hnew : symbol_at m' k new).
  { rewrite El. assert (Hk : (msyms m ++ [new]) !! k = Some new) by (by apply list_lookup_middle).
    destruct removed as [i|]; [|done]. rewrite list_lookup_alter_ne; [done|]. intros ->.
    destruct (Hrem k eq_refl) as (s' & Hs' & _). apply lookup_lt_Some in Hs'. unfold k in Hs'. lia. }
  constructor.
  - intros g j Hj. rewrite Ef in Hj. destruct (Nat.eqb_spec value 0) as [Hv|Hv].
    + apply lookup_insert_Some in Hj as [[<- <-]|[Hne Hj]]; [by exists new|].
      destruct (Hf g j Hj) as (s & Hs & Hg & H0 & Hlv). exists s. split; [|done]. apply Hold; [done|congruence].
    + destruct (Hf g j Hj) as (s & Hs & Hg & H0 & Hlv). exists s. split; [|done]. apply Hold; [done|congruence].
  - intros g r Hr. rewrite Ela in Hr. apply lookup_insert_Some in Hr as [[<- <-]|[Hne Hr]].
    + exists new. split_and!; [done|done|done|]. cbn [ms_value new]. intros ->.
      rewrite Ef. cbn. by rewrite lookup_insert_eq.
    + destruct (Hl g r Hr) as (s & Hs & Hg & Hlv & H0). exists s. split_and!; try done; [apply Hold; [done|congruence]|].
      intros Hv. rewrite Ef. destruct (value =? 0)%nat; [|by apply H0]. rewrite lookup_insert_ne by done. by apply H0.
  - intros i s Hi Hlv. rewrite Ela.
    assert (Hi' : (msyms m ++ [new]) !! i = Some s).
    { rewrite El in Hi. destruct removed as [q|]; [|done].
      apply alter_kill_lookup in Hi as (s0 & H1 & _ & _ & _ & H2). by destruct (H2 Hlv) as [_ ->]. }
    apply lookup_app_Some in Hi' as [Hi'|[Hge Hi']].
    + pose proof (lookup_lt_Some _ _ _ Hi') as Hlt. destruct (decide (ms_frag s = frag)) as [->|Hne].
      * exists k. rewrite lookup_insert_eq. split; [done|]. unfold k. lia.
      * rewrite lookup_insert_ne by done. by apply Hc.
    + apply list_lookup_singleton_Some in Hi' as [Hz <-]. exists k. cbn [ms_frag new].
      rewrite lookup_insert_eq. split; [done|]. unfold k. lia.
Qed.

Lemma frags_ok_step s e s' :
  section_ok s -> frags_ok (sec_map s) -> section_step s e = Some s' -> frags_ok (sec_map s').
Proof.
  intros (_ & A & Hok & _) Hf. destruct e as [insn align late n| |a]; cbn [section_step]; [|by intros [= <-]..].
  destruct (if late then _ else _) as [fix_ max] eqn:Efix.
  assert (Hv : (fix_ - max = sec_fix s)%nat) by (destruct late; injection Efix as <- <-; lia).
  destruct (riscv_mapping_state _ _ _ _ _ _ _ _) as [m'|] eqn:Em; [|done]. intros [= <-]. cbn [sec_map].
  destruct (mapping_state_cases s A insn align fix_ max m' Hok Hv Em) as [[-> _]|(arch & _ & Hm)]; [done|].
  eapply frags_ok_new; [|exact Hm]. destruct Hf as [H1 H2 H3]. by constructor.
Qed.

Lemma section_run_frags es s s' :
  section_ok s -> frags_ok (sec_map s) -> Forall event_ok es -> section_run s es = Some s' ->
  section_ok s' /\ frags_ok (sec_map s').
Proof.
  unfold section_run. revert s. induction es as [|e es IH]; intros s Hs Hf He; [by intros [= <-]|].
  inversion He; subst. cbn [foldl]. destruct (section_step_total s e) as [s1 E]. rewrite E.
  intros H. apply (IH s1); [by eapply section_step_ok|by eapply frags_ok_step|done|done].
Qed.

Lemma empty_frags_ok a : frags_ok (sec_map (empty_section a)).
Proof. by constructor. Qed.

(** ** The symbol that rules at an address *)

Section layout.

(** The frags [0 .. n - 1], where they are and how many bytes they have; the
    last one is empty. *)
Context (base : nat -> Z) (fsize : nat -> nat) (n : nat).

Definition address (p : position) : Z := base p.1 + Z.of_nat p.2.

Abbreviation addr s := (address (pos_of s)).

Record layout (l : list map_symbol) : Prop := {
  ly_step : forall f, base f + Z.of_nat (fsize f) = base (S f);
  ly_symbols : forall i s, l !! i = Some s -> (ms_frag s < n /\ ms_value s <= fsize (ms_frag s))%nat;
  ly_end : fsize (n - 1) = 0%nat;
}.

(** Symbol [i] is the last one of the chain at or below [a]. *)
Record ruler (m : mapping) (a : Z) (i : nat) (s : map_symbol) : Prop := {
  rl_at : symbol_at m i s;
  rl_live : ms_live s = true;
  rl_below : addr s <= a;
  rl_last : forall j t, (i < j)%nat -> symbol_at m j t -> ms_live t = true -> a < addr t;
}.

Definition says (m : mapping) (a : Z) (k : riscv_seg_mstate) : Prop :=
  exists i s, ruler m a i s /\ kind (ms_name s) = k.

Lemma base_mono l f g : layout l -> (f < g)%nat -> base f + Z.of_nat (fsize f) <= base g.
Proof.
  intros [Hs _ _]. induction 1 as [|g Hg IH]; [rewrite Hs; lia|]. pose proof (Hs g). lia.
Qed.

Lemma ruler_unchanged m a i s r :
  ruler m a i s -> i <> r -> ruler (symbol_remove m r) a i s.
Proof.
  intros [H1 H2 H3 H4] Hne. constructor; try done.
  - cbn [symbol_remove msyms]. by rewrite list_lookup_alter_ne.
  - intros j t Hj Ht Hl. cbn [symbol_remove msyms] in Ht.
    apply (alter_kill_lookup (msyms m)) in Ht as (t0 & Ht & _ & _ & _ & Hk). destruct (Hk Hl) as [_ ->].
    by apply (H4 j).
Qed.

(** A symbol above [a], or with another one after it at the same address, may go. *)
Lemma says_remove_other m a k r sr :
  symbol_at m r sr ->
  a < addr sr \/ (exists j t, (r < j)%nat /\ symbol_at m j t /\ ms_live t = true /\ addr t <= addr sr) ->
  says m a k -> says (symbol_remove m r) a k.
Proof.
  intros Hr Hwhy (i & s & Hru & Hk). exists i, s. split; [|done]. apply ruler_unchanged; [done|].
  intros ->. destruct Hru as [H1 _ H3 H4]. assert (s = sr) as -> by congruence.
  destruct Hwhy as [|(j & t & Hj & Ht & Hl & Hle)]; [lia|]. specialize (H4 j t Hj Ht Hl). lia.
Qed.

(** So may a code symbol right after another one at the same address. *)
Lemma says_remove_second m a k r sr j sj :
  symbol_at m r sr -> ms_live sr = true -> symbol_at m j sj -> (r < j)%nat -> addr sr = addr sj ->
  kind (ms_name sr) = kind (ms_name sj) ->
  (forall i s, (r < i < j)%nat -> symbol_at m i s -> ms_live s = false) ->
  says m a k -> says (symbol_remove m j) a k.
Proof.
  intros Hr Hlr Hj Hrj Ha Hk Hno (i & s & Hru & Hks). destruct (decide (i = j)) as [->|Hne].
  - destruct Hru as [H1 H2 H3 H4]. assert (s = sj) as -> by congruence. exists r, sr.
    split; [|congruence]. constructor; [|done|lia|].
    + cbn [symbol_remove msyms]. rewrite list_lookup_alter_ne by lia. done.
    + intros x t Hx Ht Hl. cbn [symbol_remove msyms] in Ht.
      apply (alter_kill_lookup (msyms m)) in Ht as (t0 & Ht & _ & _ & _ & Hq).
      destruct (Hq Hl) as [Hne ->]. destruct (decide (x < j)%nat) as [Hlt|Hge].
      * rewrite (Hno x t0 ltac:(lia) Ht) in Hl. done.
      * apply (H4 x); [lia|done|done].
  - exists i, s. split; [by apply ruler_unchanged|done].
Qed.

(** ** The pass over the frags *)

(** Before frag [f] is looked at: the first symbol of a later frag is in the
    chain unless nothing of interest comes before it. *)
Record pass_ok (f : nat) (m : mapping) : Prop := {
  ps_first : forall g j, (f <= g)%nat -> first_map_symbol m !! g = Some j ->
    exists s, symbol_at m j s /\ ms_frag s = g /\ ms_value s = 0%nat /\
      (ms_live s = true \/ forall x, (f <= x < g)%nat -> last_map_symbol m !! x = None);
  ps_last : forall g r, (f <= g)%nat -> last_map_symbol m !! g = Some r ->
    exists s, symbol_at m r s /\ ms_frag s = g /\
      (ms_live s = true \/ is_arch_symbol (chars (ms_name s)) = false) /\
      (ms_value s = 0%nat -> is_Some (first_map_symbol m !! g));
  ps_cover : forall i s, symbol_at m i s -> ms_live s = true ->
    exists r, last_map_symbol m !! ms_frag s = Some r /\ (i <= r)%nat;
  ps_order : forall i j s t, symbol_at m i s -> symbol_at m j t -> ms_live s = true -> ms_live t = true ->
    (i < j)%nat -> pos_lt (pos_of s) (pos_of t);
  ps_layout : layout (msyms m);
}.

Lemma pass_ok_next f m : pass_ok f m -> pass_ok (S f) m.
Proof.
  intros [H1 H2 H3 H4 H5]. constructor; try done.
  - intros g j Hg Hj. destruct (H1 g j ltac:(lia) Hj) as (s & Hs & Hf & Hv & Hl). exists s. split_and!; try done.
    destruct Hl as [|Hl]; [by left|right]. intros x Hx. apply Hl. lia.
  - intros g r Hg. apply H2. lia.
Qed.

(** Removing any symbol keeps what does not speak of it. *)
Lemma pass_ok_remove f m i :
  pass_ok (S f) m ->
  (forall s, symbol_at m i s -> (S f <= ms_frag s)%nat ->
     is_arch_symbol (chars (ms_name s)) = false /\
     forall x, (S f <= x < ms_frag s)%nat -> last_map_symbol m !! x = None) ->
  pass_ok (S f) (symbol_remove m i).
Proof.
  intros [H1 H2 H3 H4 H5] Hi.
  assert (Hat : forall j s, symbol_at m j s -> exists s', symbol_at (symbol_remove m i) j s' /\
    pos_of s' = pos_of s /\ ms_name s' = ms_name s /\ (i <> j -> s' = s)).
  { intros j s Hs. cbn [symbol_remove msyms]. destruct (decide (i = j)) as [->|Hne].
    - rewrite list_lookup_alter_eq, Hs. eexists. split; [reflexivity|]. done.
    - rewrite list_lookup_alter_ne by done. by exists s. }
  assert (Hback : forall j s, symbol_at (symbol_remove m i) j s -> ms_live s = true -> symbol_at m j s).
  { intros j s Hs Hl. apply (alter_kill_lookup (msyms m)) in Hs as (s0 & Hs & _ & _ & _ & Hq).
    by destruct (Hq Hl) as [_ ->]. }
  constructor; cbn [symbol_remove first_map_symbol last_map_symbol].
  - intros g j Hg Hj. destruct (H1 g j Hg Hj) as (s & Hs & Hf & Hv & Hl).
    destruct (Hat j s Hs) as (s' & Hs' & [= Hp1 Hp2] & Hn & Hsame). exists s'. split_and!; [done|congruence..|].
    destruct (decide (i = j)) as [->|Hne]; [|by rewrite (Hsame Hne)].
    right. destruct (Hi s Hs ltac:(lia)) as [_ H]. by rewrite Hf in H.
  - intros g r Hg Hr. destruct (H2 g r Hg Hr) as (s & Hs & Hf & Hl & Hv).
    destruct (Hat r s Hs) as (s' & Hs' & [= Hp1 Hp2] & Hn & Hsame). exists s'. rewrite Hp2.
    split_and!; [done|congruence| |done].
    destruct (decide (i = r)) as [->|Hne]; [|by rewrite (Hsame Hne)].
    right. rewrite Hn. destruct (Hi s Hs ltac:(lia)) as [H _]. done.
  - intros j s Hs Hl. by apply (H3 j s); [apply Hback|].
  - intros j k s t Hs Ht Hl1 Hl2. apply H4; [by apply Hback..|done|done].
  - destruct H5 as [K1 K2 K3]. constructor; [done| |done]. intros j s Hs.
    apply (alter_kill_lookup (msyms m)) in Hs as (s0 & Hs & E1 & E2 & _). rewrite E1, E2. by apply (K2 j).
Qed.

(** The three outcomes of the inner loop from frag [g] on. *)
Lemma overlap_cases m r g k :
  (forall f, base f + Z.of_nat (fsize f) = base (S f)) ->
  let m' := check_overlap base r (seq g k) m in
  m' = m \/
  (exists h j, (g <= h < g + k)%nat /\ first_map_symbol m !! h = Some j /\
     (forall x, (g <= x < h)%nat -> first_map_symbol m !! x = None /\ fsize x = 0%nat) /\
     m' = symbol_remove m (if is_arch_symbol (ms_name_at m r) && bool_decide (ms_name_at m j = chars "$x")
                           then j else r)) \/
  (m' = symbol_remove m r /\ (1 <= k)%nat /\
     forall x, (g <= x < g + k - 1)%nat -> fsize x = 0%nat).
Proof.
  intros Hs. revert g. induction k as [|k IH]; intros g; cbn [seq check_overlap]; [by left|].
  destruct (first_map_symbol m !! g) as [j|] eqn:Ej.
  { right. left. exists g, j. split_and!; [lia|lia|done|intros; lia|done]. }
  destruct k as [|k].
  { right. right. split_and!; [done|lia|intros; lia]. }
  specialize (IH (S g)). cbn [seq] in *.
  destruct (Z.eqb_spec (base g) (base (S g))) as [Hb|Hb]; [|by left]. cbn [negb].
  assert (Hz : fsize g = 0%nat) by (specialize (Hs g); lia).
  destruct IH as [->|[(h & j & Hh & Hj & Hno & ->)|(-> & Hk & Hno)]]; [by left|right; left|right; right].
  - exists h, j. split_and!; [lia|lia|done| |done].
    intros x Hx. destruct (decide (x = g)) as [->|]; [done|apply Hno; lia].
  - split_and!; [done|lia|]. intros x Hx. destruct (decide (x = g)) as [->|]; [done|apply Hno; lia].
Qed.

Lemma base_flat l g h :
  layout l -> (g <= h)%nat -> (forall x, (g <= x < h)%nat -> fsize x = 0%nat) -> base h = base g.
Proof.
  intros [Hs _ _]. induction 1 as [|h Hh IH]; intros Hz; [done|].
  rewrite <- Hs, (Hz h) by lia. rewrite IH; [lia|]. intros x Hx. apply Hz. lia.
Qed.

(** The bytes of the section. *)
Definition is_byte (a : Z) : Prop :=
  exists f, (f < n)%nat /\ base f <= a < base f + Z.of_nat (fsize f).

(** The frags the inner loop passed have no symbols. *)
Lemma passed_empty f m h :
  pass_ok f m -> (forall x, (S f <= x < h)%nat -> first_map_symbol m !! x = None /\ fsize x = 0%nat) ->
  forall x, (S f <= x < h)%nat -> last_map_symbol m !! x = None.
Proof.
  intros Hp Hno x Hx. destruct (last_map_symbol m !! x) as [q|] eqn:E; [|done]. exfalso.
  destruct (Hno x Hx) as [H1 H2]. destruct (ps_last _ _ Hp x q ltac:(lia) E) as (s & Hs & Hf & _ & Hz).
  destruct (ly_symbols _ (ps_layout _ _ Hp) q s Hs) as [_ Hv]. rewrite Hf, H2 in Hv.
  destruct (Hz ltac:(lia)) as [j Hj]. congruence.
Qed.

(** Removing the symbol at the end of frag [f] or the one after it. *)
Lemma remove_overlap f m r sr h j :
  pass_ok f m -> last_map_symbol m !! f = Some r -> symbol_at m r sr -> base (S f) <= addr sr ->
  (S f <= h)%nat -> first_map_symbol m !! h = Some j ->
  (forall x, (S f <= x < h)%nat -> first_map_symbol m !! x = None /\ fsize x = 0%nat) ->
  let removed := if is_arch_symbol (ms_name_at m r) && bool_decide (ms_name_at m j = chars "$x") then j else r in
  pass_ok (S f) (symbol_remove m removed) /\
  forall a k, says m a k -> says (symbol_remove m removed) a k.
Proof.
  intros Hp Er Hr Ha Hh Ej Hno. pose proof (ps_layout _ _ Hp) as Hly.
  destruct (ps_last _ _ Hp f r ltac:(lia) Er) as (sr' & Hr' & Hfr & Hlr & _).
  assert (sr' = sr) as -> by congruence. clear Hr'.
  destruct (ps_first _ _ Hp h j ltac:(lia) Ej) as (sj & Hj & Hfj & Hvj & Hlj).
  assert (Hlj' : ms_live sj = true) by (destruct Hlj as [|Hlj]; [done|]; specialize (Hlj f ltac:(lia)); congruence).
  assert (Hsame : addr sr = addr sj).
  { destruct (ly_symbols _ Hly r sr Hr) as [_ Hv]. unfold address, pos_of in *. cbn [fst snd] in *.
    rewrite Hfr in *. rewrite Hfj, Hvj.
    rewrite (base_flat _ (S f) h Hly Hh) by (intros; by apply Hno).
    pose proof (ly_step _ Hly f). lia. }
  assert (Hrj : ms_live sr = true -> (r < j)%nat).
  { intros Hl. destruct (Nat.lt_trichotomy r j) as [|[->|Hgt]]; [done|assert (sr = sj) by congruence; subst sr; lia|].
    pose proof (ps_order _ _ Hp j r sj sr Hj Hr Hlj' Hl Hgt) as H.
    unfold pos_lt, pos_of in H. cbn [fst snd] in H. lia. }
  assert (Hni : forall i, ms_name_at m i = match msyms m !! i with Some s => chars (ms_name s) | None => [] end)
    by done.
  cbv zeta. rewrite !Hni, Hr, Hj.
  destruct (is_arch_symbol (chars (ms_name sr))) eqn:Earch; cbn [andb].
  2: { split.
       - apply pass_ok_remove; [by apply pass_ok_next|]. intros s Hs Hge.
         assert (s = sr) as -> by congruence. lia.
       - intros a k. destruct Hlr as [Hl|_].
         + apply (says_remove_other m a k r sr Hr). right. exists j, sj. split_and!; [auto|done|done|lia].
         + destruct (ms_live sr) eqn:El.
           * apply (says_remove_other m a k r sr Hr). right. exists j, sj. split_and!; [auto|done|done|lia].
           * intros (i & s & Hru & Hk). exists i, s. split; [|done]. apply ruler_unchanged; [done|].
             intros ->. destruct Hru as [H1 H2 _ _]. congruence. }
  assert (Hl : ms_live sr = true) by (destruct Hlr; congruence). specialize (Hrj Hl).
  destruct (bool_decide_reflect (chars (ms_name sj) = chars "$x")) as [Ex|_].
  - split.
    + apply pass_ok_remove; [by apply pass_ok_next|]. intros s Hs Hge.
      assert (s = sj) as -> by congruence. rewrite Ex, Hfj. split; [done|]. by apply (passed_empty f m h).
    + intros a k. apply (says_remove_second m a k r sr j sj); try done.
      * assert (ms_name sj = "$x"%string) as ->.
        { rewrite <- (unchars_chars (ms_name sj)), Ex. done. }
        unfold kind. destruct (decide (ms_name sr = "$d"%string)) as [E|]; [|done].
        rewrite E in Earch. done.
      * intros i s Hi Hs. destruct (ms_live s) eqn:Els; [|done]. exfalso.
        pose proof (ps_order _ _ Hp r i sr s Hr Hs Hl Els ltac:(lia)) as O1.
        pose proof (ps_order _ _ Hp i j s sj Hs Hj Els Hlj' ltac:(lia)) as O2.
        destruct (ps_cover _ _ Hp i s Hs Els) as (q & Hq & Hle).
        unfold pos_lt, pos_of in O1, O2. cbn [fst snd] in O1, O2.
        destruct (decide (ms_frag s = f)) as [Hsf|Hsf]; [rewrite Hsf, Er in Hq; injection Hq as <-; lia|].
        rewrite (passed_empty f m h Hp Hno (ms_frag s)) in Hq by lia. done.
  - split.
    + apply pass_ok_remove; [by apply pass_ok_next|]. intros s Hs Hge.
      assert (s = sr) as -> by congruence. lia.
    + intros a k. apply (says_remove_other m a k r sr Hr). right. exists j, sj. split_and!; [auto|done|done|lia].
Qed.

Lemma byte_below l f a :
  layout l -> (f < n)%nat -> (forall x, (S f <= x < n)%nat -> fsize x = 0%nat) -> is_byte a -> a < base (S f).
Proof.
  intros Hly Hf Hz (g & Hg & Ha). destruct (decide (g <= f)%nat) as [Hle|Hgt].
  - destruct (decide (g = f)) as [->|]; [rewrite <- (ly_step _ Hly f); lia|].
    pose proof (base_mono _ g (S f) Hly ltac:(lia)). lia.
  - rewrite (Hz g) in Ha by lia. lia.
Qed.

(** The whole pass. *)
Lemma check_keeps k f m :
  (f + k)%nat = n -> pass_ok f m ->
  forall a st, is_byte a -> says m a st -> says (riscv_check_mapping_symbols base (seq f k) m) a st.
Proof.
  revert f m. induction k as [|k IH]; intros f m Hn Hp a st Hb Hs; [done|].
  cbn [seq riscv_check_mapping_symbols].
  pose proof (pass_ok_next f m Hp) as Hp1.
  destruct (last_map_symbol m !! f) as [r|] eqn:Er; [|by apply (IH (S f) m); [lia|..]].
  destruct k as [|k]; [by apply (IH (S f) m); [lia|..]|]. cbn [seq].
  destruct (ps_last _ _ Hp f r ltac:(lia) Er) as (sr & Hr & Hfr & _).
  unfold S_GET_VALUE_of. rewrite Hr.
  destruct (Z.ltb_spec (base (ms_frag sr) + Z.of_nat (ms_value sr)) (base (S f))) as [Hlt|Hge];
    [by apply (IH (S f) m); [lia|..]|].
  change (S f :: seq (S (S f)) k) with (seq (S f) (S k)).
  destruct (overlap_cases m r (S f) (S k) (ly_step _ (ps_layout _ _ Hp)))
    as [->|[(h & j & Hh & Hj & Hno & ->)|(-> & _ & Hno)]].
  - by apply (IH (S f) m); [lia|..].
  - destruct (remove_overlap f m r sr h j Hp Er Hr Hge ltac:(lia) Hj Hno) as [Hp2 Hk].
    apply IH; [lia|done|done|]. by apply Hk.
  - apply IH; [lia| |done|].
    + apply pass_ok_remove; [done|]. intros s Hs' Hge'. assert (s = sr) as -> by congruence. lia.
    + apply (says_remove_other m a st r sr Hr); [|done]. left.
      assert (Hz : forall x, (S f <= x < n)%nat -> fsize x = 0%nat).
      { intros x Hx. destruct (decide (x = n - 1)%nat) as [->|]; [apply (ps_layout _ _ Hp)|apply Hno; lia]. }
      pose proof (byte_below _ f a (ps_layout _ _ Hp) ltac:(lia) Hz Hb). unfold address, pos_of. cbn [fst snd]. lia.
Qed.

(** ** From the assembly on *)

Lemma live_order l i j s t :
  StronglySorted (fun e e' => pos_lt e.1 e'.1) (live l) ->
  l !! i = Some s -> l !! j = Some t -> ms_live s = true -> ms_live t = true -> (i < j)%nat ->
  pos_lt (pos_of s) (pos_of t).
Proof.
  intros Hso Hs Ht H1 H2 Hij. rewrite <- (take_drop_middle l i s Hs), live_app, live_cons in Hso by done.
  apply sorted_app_inv in Hso as (_ & Hso & _). inversion Hso as [|? ? _ Hall]; subst.
  rewrite Forall_forall in Hall. apply (Hall (entry_of t)). unfold live. apply list_elem_of_fmap.
  exists t. split; [done|]. apply list_elem_of_filter. split; [done|].
  apply (list_elem_of_lookup_2 _ (j - S i)%nat). rewrite lookup_drop.
  by replace (S i + (j - S i))%nat with j by lia.
Qed.

Lemma pass_ok_start m :
  frags_ok m -> StronglySorted (fun e e' => pos_lt e.1 e'.1) (live (msyms m)) -> layout (msyms m) ->
  pass_ok 0 m.
Proof.
  intros [H1 H2 H3] Hso Hly. constructor; try done.
  - intros g j _ Hj. destruct (H1 g j Hj) as (s & ? & ? & ? & ?). exists s. eauto.
  - intros g r _ Hr. destruct (H2 g r Hr) as (s & ? & ? & ? & ?). exists s. eauto.
  - intros i j s t Hs Ht. intros. by apply (live_order (msyms m) i j).
Qed.

(** The symbol in force at a position that has a byte rules at its address. *)
Lemma in_force_says m f o nm :
  layout (msyms m) -> (o < fsize f)%nat ->
  in_force (live (msyms m)) (f, o) = Some nm -> says m (address (f, o)) (kind nm).
Proof.
  intros Hly Ho Hin. unfold in_force in Hin. apply fmap_Some in Hin as (e & He & ->).
  apply last_filter_split in He as (A1 & A2 & EA & Hle & H2). unfold live in EA.
  apply fmap_app_inv in EA as (L1 & L2 & E1 & E2 & EL). apply eq_sym, fmap_cons_inv in E2 as (s & L3 & -> & E3 & ->).
  assert (Hlive : ms_live s = true).
  { assert (H : s ∈ filter (fun s => ms_live s = true) (msyms m))
      by (rewrite EL; apply elem_of_app; right; apply list_elem_of_here).
    by apply list_elem_of_filter in H as [? _]. }
  apply filter_split in EL as (l1 & l2 & El & Hl2).
  assert (Hs : symbol_at m (length l1) s) by (rewrite El; by apply list_lookup_middle).
  destruct (ly_symbols _ Hly _ _ Hs) as [_ Hv].
  exists (length l1), s. split; [|done]. constructor; [done|done| |].
  - unfold address, pos_of, pos_le, entry_of in *. cbn [fst snd] in *.
    destruct Hle as [Hlt|[-> Hle]]; [pose proof (base_mono _ _ _ Hly Hlt); lia|lia].
  - intros j t Hj Ht Hlt. rewrite El in Ht. rewrite lookup_app_r in Ht by lia.
    destruct (j - length l1)%nat as [|i] eqn:Ei; [lia|]. cbn in Ht.
    assert (Hin : entry_of t ∈ A2).
    { subst A2. apply list_elem_of_fmap. exists t. split; [done|]. rewrite <- Hl2. apply list_elem_of_filter.
      split; [done|by eapply list_elem_of_lookup_2]. }
    assert (Hgt : pos_lt (f, o) (pos_of t)).
    { destruct (decide (pos_le (pos_of t) (f, o))) as [Hc|Hc].
      - assert (Hnil : entry_of t ∈ ([] : list entry)) by (rewrite <- H2; by apply list_elem_of_filter).
        by apply not_elem_of_nil in Hnil.
      - unfold pos_le, pos_lt in *. cbn [fst snd] in *. lia. }
    unfold address, pos_of, pos_lt in *. cbn [fst snd] in *.
    destruct Hgt as [Hg|[Hg Hg']]; [pose proof (base_mono _ _ _ Hly Hg); lia|rewrite <- Hg; lia].
Qed.

Definition pieces_fit (pcs : list piece) : Prop :=
  Forall (fun pc => (pc_frag pc < n /\ pc_off pc + pc_len pc <= fsize (pc_frag pc))%nat) pcs.

(** What a section was assembled from is what its symbols say in the end. *)
Lemma assembled_says arch es s pc k :
  arch <> ""%string -> Forall event_ok es -> section_run (empty_section arch) es = Some s ->
  layout (msyms (sec_map s)) -> pieces_fit (sec_pieces s) ->
  pc ∈ sec_pieces s -> (k < pc_len pc)%nat ->
  says (riscv_check_mapping_symbols base (seq 0 n) (sec_map s))
    (address (pc_frag pc, pc_off pc + k)%nat) (if pc_insn pc then MAP_INSN else MAP_DATA).
Proof.
  intros Ha He Hrun Hly Hfit Hpc Hk.
  destruct (section_run_frags es _ s (empty_section_ok arch Ha) (empty_frags_ok arch) He Hrun)
    as [(_ & A & Hok & Hp) Hf].
  unfold pieces_fit in Hfit. rewrite Forall_forall in Hfit, Hp. destruct (Hfit pc Hpc) as [Hn Hend].
  destruct (p_kind _ _ _ (Hp pc Hpc) k Hk) as (nm & Hin & <-).
  apply check_keeps; [lia| | |].
  - apply pass_ok_start; [done| |done]. rewrite (i_live _ _ Hok). apply Hok.
  - exists (pc_frag pc). split; [done|]. unfold address. cbn [fst snd]. lia.
  - apply in_force_says; [done|lia|]. by rewrite (i_live _ _ Hok).
Qed.

End layout.
