(* ===== verification/DisMap.v ===== *)
(** * The disassembler around the instruction printer (opcodes/riscv-dis.c)

    Options, the search for mapping symbols with what it remembers between
    calls, data dumps, and [print_insn_riscv], which puts them together. *)
From Stdlib Require Import ZArith Bool Lia Ascii String.
From stdpp Require Import base list strings.
From S2P Require Import Prelude OpcodeH RiscvH OpcodeMatch SubsetTables Subset Bytes CsrTable Disasm Regs Options.

#[local] Open Scope Z_scope.
#[local] Open Scope c_scope.
#[local] Open Scope list_scope.

(** ** What the caller provides *)

(** A symbol of the sorted table: name, section (by number), value. *)
Record asymbol : Set := mk_asym {
  sy_name : string;
  sy_section : nat;
  sy_value : Z;
}.

Record asection : Set := mk_asec {
  s_id : nat;
  s_vma : Z;
  s_size : Z;
  s_code : bool;               (* SEC_CODE *)
  s_elf64 : bool;              (* the ELF class of the owner *)
}.

(** [struct disassemble_info], as far as it is read; [symtab_pos] is below the
    size of the table, or -1. *)
Record disassemble_info : Type := mk_info {
  di_section : option asection;
  symtab : list asymbol;
  symtab_elf : bool;           (* the flavour of the first symbol *)
  symtab_pos : Z;
  stop_offset : Z;
  flag_data : bool;            (* DISASSEMBLE_DATA *)
  mach64 : bool;
  mach32 : bool;
}.

Definition info_section (info : disassemble_info) : option nat := s_id <$> di_section info.
Definition symtab_size (info : disassemble_info) : Z := Z.of_nat (length (symtab info)).

(** ** Static variables *)

Inductive dis_error : Set :=
| DE_unrecognized (o : string) | DE_bad_equal (o : string)
| DE_unknown_priv_spec (v : string) | DE_mismatched_priv_spec (v : string) (name : option string).

Record dis_options : Type := mk_dopts {
  gpr_names : option (list string);
  fpr_names : option (list string);
  dis_no_aliases : bool;
  dis_priv_spec : riscv_spec_class;
  dis_errors : list dis_error;
}.

(** [last_map_symbol], [last_stop_offset], [last_map_symbol_boundary],
    [last_map_state] and [last_map_section], with [riscv_rps_dis]. *)
Record map_cache : Type := mk_cache {
  last_symbol : Z;
  last_stop : Z;
  last_boundary : Z;
  last_state : riscv_seg_mstate;
  last_section : option nat;
  riscv_rps_dis : riscv_parse_subset_t;
}.

Definition with_rps_dis (c : map_cache) (r : riscv_parse_subset_t) : map_cache :=
  mk_cache (last_symbol c) (last_stop c) (last_boundary c) (last_state c) (last_section c) r.
Definition with_state (c : map_cache) (s : riscv_seg_mstate) : map_cache :=
  mk_cache (last_symbol c) (last_stop c) (last_boundary c) s (last_section c) (riscv_rps_dis c).

(** ** Options *)

Definition set_default_riscv_dis_options (o : dis_options) : dis_options :=
  mk_dopts (Some riscv_gpr_names_abi) (Some riscv_fpr_names_abi) false (dis_priv_spec o) (dis_errors o).

Definition parse_riscv_dis_option_without_args (o : dis_options) (option : string)
  : dis_options * bool :=
  if String.eqb option "no-aliases" then
    (mk_dopts (gpr_names o) (fpr_names o) true (dis_priv_spec o) (dis_errors o), true)
  else if String.eqb option "numeric" then
    (mk_dopts (Some riscv_gpr_names_numeric) (Some riscv_fpr_names_numeric) (dis_no_aliases o)
       (dis_priv_spec o) (dis_errors o), true)
  else (o, false).

Definition opcodes_error (o : dis_options) (e : dis_error) : dis_options :=
  mk_dopts (gpr_names o) (fpr_names o) (dis_no_aliases o) (dis_priv_spec o) (dis_errors o ++ [e]).

Definition with_dis_priv_spec (o : dis_options) (c : riscv_spec_class) : dis_options :=
  mk_dopts (gpr_names o) (fpr_names o) (dis_no_aliases o) c (dis_errors o).

Definition parse_riscv_dis_option (o : dis_options) (option : string) : dis_options :=
  match parse_riscv_dis_option_without_args o option with
  | (o, true) => o
  | (o, false) =>
      let '(nm, rest) := span_until ["="%char] (chars option) in
      match nm, rest with
      | _, [] => opcodes_error o (DE_unrecognized option)
      | [], _ | _, [_] => opcodes_error o (DE_bad_equal option)
      | _, _ :: v =>
          let value := unchars v in
          if String.eqb (unchars nm) "priv-spec" then
            match spec_class riscv_priv_specs value with
            | None => opcodes_error o (DE_unknown_priv_spec value)
            | Some c =>
                if bool_decide (dis_priv_spec o = PRIV_SPEC_CLASS_NONE) then with_dis_priv_spec o c
                else if negb (bool_decide (dis_priv_spec o = c))
                then opcodes_error o (DE_mismatched_priv_spec value (priv_spec_name (dis_priv_spec o)))
                else o
            end
          else opcodes_error o (DE_unrecognized (unchars nm))
      end
  end.

(** The loop of [parse_riscv_dis_options] over the commas, with the length of
    the text as bound. *)
Fixpoint parse_dis_options_loop (fuel : nat) (o : dis_options) (p : list ascii) : dis_options :=
  let '(opt, rest) := span_until [","%char] p in
  let o := parse_riscv_dis_option o (unchars opt) in
  match rest, fuel with
  | _ :: p, S fuel => parse_dis_options_loop fuel o p
  | _, _ => o
  end.

Definition parse_riscv_dis_options (o : dis_options) (opts_in : string) : dis_options :=
  parse_dis_options_loop (String.length opts_in) (set_default_riscv_dis_options o) (chars opts_in).

(** ** Mapping symbols *)

(** bfd/cpu-riscv.c. *)
Definition riscv_elf_is_mapping_symbols (name : string) : bool :=
  String.eqb name "$d" || String.eqb name "$x"
  || match strip_prefix (chars "$xrv") (chars name) with Some _ => true | None => false end.

(** The symbol is in the section of [info], if there is one. *)
Definition in_section (info : disassemble_info) (s : asymbol) : bool :=
  match di_section info with Some sec => (sy_section s =? s_id sec)%nat | None => true end.

Definition riscv_update_map_state (info : disassemble_info) (s : asymbol)
    (state : riscv_seg_mstate) (r : riscv_parse_subset_t) : riscv_seg_mstate * riscv_parse_subset_t :=
  if negb (in_section info s) then (state, r)
  else if String.eqb (sy_name s) "$x" then (MAP_INSN, r)
  else if String.eqb (sy_name s) "$d" then (MAP_DATA, r)
  else
    match strip_prefix (chars "$xrv") (chars (sy_name s)) with
    | Some _ =>
        (* without the suffix ".n" *)
        let name := (span_until ["."%char] (chars (sy_name s))).1 in
        let r := set_subset_list r (riscv_release_subset_list (subset_list r)) in
        (MAP_INSN, (riscv_parse_subset r (Some (unchars (drop 2 name)))).1)
    | None => (state, r)
    end.

Definition riscv_is_valid_mapping_symbol (info : disassemble_info) (s : asymbol) : bool :=
  in_section info s && riscv_elf_is_mapping_symbols (sy_name s).

(** The first loop of [riscv_search_mapping_symbol], from symbol [n] on; the
    symbol found so far. *)
Fixpoint search_forward (info : disassemble_info) (memaddr : Z) (n : nat) (syms : list asymbol)
    (symbol : option nat) : option nat :=
  match syms with
  | [] => symbol
  | s :: syms =>
      if memaddr <? sy_value s then symbol
      else search_forward info memaddr (S n) syms
             (if riscv_is_valid_mapping_symbol info s then Some n else symbol)
  end.

(** The second loop, from symbol [n - 1] down. *)
Fixpoint search_backward (info : disassemble_info) (n : nat) : option nat :=
  match n with
  | O => None
  | S n' =>
      match symtab info !! n' with
      | None => None
      | Some s =>
          if sy_value s <? match di_section info with Some sec => s_vma sec | None => 0 end then None
          else if riscv_is_valid_mapping_symbol info s then Some n'
          else search_backward info n'
      end
  end.

(** The loop for the next mapping symbol of the section [sec]. *)
Definition next_boundary (sec : nat) (syms : list asymbol) : option Z :=
  sy_value <$> List.find (fun s =>
    (sy_section s =? sec)%nat
    && match chars (sy_name s) with
       | "$"%char :: "x"%char :: _ | "$"%char :: "d"%char :: _ => true
       | _ => false
       end) syms.

(** [riscv_search_mapping_symbol (memaddr, info)]; [None] for the access through
    a null section. *)
Definition riscv_search_mapping_symbol (memaddr : Z) (info : disassemble_info) (c : map_cache)
  : option (riscv_seg_mstate * map_cache) :=
  if bool_decide (last_section c = info_section info) && (memaddr <? last_boundary c)
  then Some (last_state c, c)
  else
    let c := mk_cache (last_symbol c) (last_stop c) (last_boundary c) (last_state c)
               (info_section info) (riscv_rps_dis c) in
    let mstate := match di_section info with
                  | Some sec => if s_code sec then MAP_INSN else MAP_DATA
                  | None => MAP_INSN
                  end in
    if (symtab_size info =? 0) || negb (symtab_elf info) then Some (mstate, c)
    else
      let last := if memaddr <=? 0 then -1 else last_symbol c in
      let from_last := (0 <=? last) && (stop_offset info =? last_stop c) in
      let start n := if from_last && (last <=? n) then last else n in
      let symbol :=
        let n := Z.to_nat (start (symtab_pos info + 1)) in
        match search_forward info memaddr n (drop n (symtab info)) None with
        | Some n => Some n
        | None => search_backward info (Z.to_nat (start (symtab_pos info) + 1))
        end in
      match symbol ≫= fun n => (n,.) <$> symtab info !! n with
      | None => Some (mstate, mk_cache (-1) (stop_offset info) (last_boundary c) (last_state c)
                                (last_section c) (riscv_rps_dis c))
      | Some (n, s) =>
          let '(mstate, r) := riscv_update_map_state info s mstate (riscv_rps_dis c) in
          let boundary :=
            match next_boundary (sy_section s) (drop (S n) (symtab info)), di_section info with
            | Some a, _ => Some a
            | None, Some sec => Some (u64 (s_vma sec + s_size sec))
            | None, None => None
            end in
          match boundary with
          | None => None
          | Some b => Some (mstate, mk_cache (Z.of_nat n) (stop_offset info) b (last_state c)
                                      (last_section c) r)
          end
      end.

(** ** Data *)

(** The loop of [riscv_data_length] for the next mapping symbol. *)
Definition next_symbol_after (memaddr : Z) (info : disassemble_info) (syms : list asymbol)
  : option asymbol :=
  List.find (fun s => (memaddr <? sy_value s) && riscv_is_valid_mapping_symbol info s) syms.

Definition riscv_data_length (memaddr : Z) (info : disassemble_info) (c : map_cache)
  : option (Z * map_cache) :=
  let finish length c := Some (if length =? 3 then 2 else length, c) in
  match (if negb (symtab_size info =? 0) && symtab_elf info && (0 <=? last_symbol c)
         then next_symbol_after memaddr info (drop (Z.to_nat (last_symbol c + 1)) (symtab info))
         else None), di_section info with
  | Some s, _ =>
      let d := sy_value s - memaddr in
      finish (if d <? 4 then d else 4)
        (with_rps_dis c (riscv_update_map_state info s MAP_NONE (riscv_rps_dis c)).2)
  | None, Some sec =>
      let offset := u64 (s_vma sec + s_size sec - memaddr) in
      finish (if offset <? 4 then offset else 4) c
  | None, None => None
  end.

(** [riscv_disassemble_data]: the directive, the digits and the value printed;
    [None] is [abort]. *)
Definition riscv_disassemble_data (bytes_per_chunk data : Z) : option (string * Z * Z) :=
  if bytes_per_chunk =? 1 then Some (".byte"%string, 2, u32 data)
  else if bytes_per_chunk =? 2 then Some (".short"%string, 4, u32 data)
  else if bytes_per_chunk =? 4 then Some (".word"%string, 8, data)
  else if bytes_per_chunk =? 8 then Some (".dword"%string, 16, data)
  else None.

(** ** The entry points *)

(** [riscv_init_disasm_info]: the global pointer, from the last symbol of that
    name. *)
Definition riscv_init_disasm_info (info : disassemble_info) : riscv_private_data :=
  foldl (fun pd s => if String.eqb (sy_name s) "__global_pointer$"
                     then mk_pd (sy_value s) (print_addr pd) (hi_addr pd) (to_print_addr pd) true
                     else pd)
    (mk_pd 0 0 (replicate 32 NO_ADDR) false false) (symtab info).

(** The state of the disassembler; the private data is a null pointer at first. *)
Record dis_file : Type := mk_dis {
  df_opts : dis_options;
  df_cache : map_cache;
  df_pd : option riscv_private_data;
}.

(** A line of output. *)
Inductive dis_line : Type :=
| DL_data (directive : string) (digits value : Z)
| DL_insn (o : dis_output)
| DL_memory_error (memaddr : Z).

(** The width [riscv_disassemble_insn] sets before its search. *)
Definition dis_xlen (info : disassemble_info) (xlen : Z) : Z :=
  if mach64 info then 64
  else if mach32 info then 32
  else match di_section info with Some s => if s_elf64 s then 64 else 32 | None => xlen end.

(** The environment of [riscv_disassemble_insn], with the names it chooses. *)
Definition insn_env (info : disassemble_info) (o : dis_options) (r : riscv_parse_subset_t) : dis_env :=
  let gpr := default riscv_gpr_names_abi (gpr_names o) in
  let fpr := if riscv_subset_supports r "zfinx" then gpr
             else if bool_decide (gpr = riscv_gpr_names_abi) then riscv_fpr_names_abi
             else riscv_fpr_names_numeric in
  mk_env gpr fpr (mach64 info) (dis_xlen info (rps_xlen r))
    (set_rps_xlen r (dis_xlen info (rps_xlen r))) (dis_priv_spec o).

(** [print_insn_riscv (memaddr, info)]: the line, the result and the new state;
    [None] for a null section or [abort].  [options] is
    [info->disassembler_options], [read_memory] gives the bytes if it succeeds. *)
Definition print_insn_riscv (options : option string) (read_memory : Z -> Z -> option (list Z))
    (memaddr : Z) (info : disassemble_info) (d : dis_file) : option (dis_line * Z * dis_file) :=
  let o := match options with
           | Some s => parse_riscv_dis_options (df_opts d) s
           | None => match gpr_names (df_opts d) with
                     | None => set_default_riscv_dis_options (df_opts d)
                     | Some _ => df_opts d
                     end
           end in
  let pd := default (riscv_init_disasm_info info) (df_pd d) in
  match riscv_search_mapping_symbol memaddr info (df_cache d) with
  | None => None
  | Some (mstate, c) =>
      let c := with_state c mstate in
      let failed c := Some (DL_memory_error memaddr, -1, mk_dis o c (Some pd)) in
      if bool_decide (mstate = MAP_DATA) && negb (flag_data info) then
        match riscv_data_length memaddr info c with
        | None => None
        | Some (dump_size, c) =>
            match read_memory memaddr dump_size with
            | None => failed c
            | Some packet =>
                match riscv_disassemble_data dump_size (word_le packet) with
                | None => None
                | Some (dir, digits, v) =>
                    Some (DL_data dir digits v, dump_size, mk_dis o c (Some pd))
                end
            end
        end
      else
        match read_memory memaddr 2 with
        | None => failed c
        | Some p2 =>
            let dump_size := riscv_insn_length (word_le p2) in
            match read_memory memaddr dump_size with
            | None => failed c
            | Some packet =>
                let r := riscv_rps_dis c in
                let env := insn_env info o r in
                (* bfd_get_bits: at most eight bytes fit in insn_t *)
                let '(out, len) := riscv_disassemble_insn env (dis_no_aliases o) pd memaddr
                                     (u64 (word_le packet)) packet in
                let pd := match out with dis_insn _ _ _ st => ds_pd st | dis_directive _ _ => pd end in
                Some (DL_insn out, len, mk_dis o (with_rps_dis c (env_rps env)) (Some pd))
            end
        end
  end.

(** [riscv_get_disassembler]: [attrs] are the architecture and the privileged
    version of the attribute section, if the file is ELF and has one. *)
Definition riscv_get_disassembler (attrs : option (option string * (Z * Z * Z))) (o : dis_options)
    (c : map_cache) : dis_options * map_cache :=
  let '(o, arch) :=
    match attrs with
    | Some (arch, (major, minor, revision)) =>
        (with_dis_priv_spec o (riscv_get_priv_spec_class_from_numbers major minor revision
                                 (dis_priv_spec o)), arch)
    | None => (o, Some "rv64gc"%string)
    end in
  let r := set_subset_list (riscv_rps_dis c) (riscv_release_subset_list (subset_list (riscv_rps_dis c))) in
  (o, with_rps_dis c (riscv_parse_subset r arch).1).

(** [riscv_symbol_is_valid]: the symbols that may be printed as labels. *)
Definition riscv_symbol_is_valid (name : option string) : bool :=
  match name with
  | None => false
  | Some nm => negb (String.eqb nm ".L0 ")
               && negb (riscv_elf_is_mapping_symbols nm)
  end.
