(* ===== verification/DisMapSpec.v ===== *)
(** * Properties of the disassembler's use of mapping symbols

    The search finds the symbol that rules at an address whatever it remembers,
    what it remembers stays right while the addresses grow, and a section is
    disassembled to its end, as the code and data it was assembled from. *)
From Stdlib Require Import ZArith Bool Lia Ascii String Sorting.Sorted.
From stdpp Require Import base list strings.
From S2P Require Import Prelude OpcodeH RiscvH Words OpcodeMatch SubsetTables Subset SubsetOrder Bytes CsrTable Disasm Regs Options DisMap Mapping MappingSpec MappingCheck.

#[local] Open Scope Z_scope.
#[local] Open Scope c_scope.
#[local] Open Scope list_scope.

(** ** The symbol that rules *)

Definition valid := riscv_is_valid_mapping_symbol.

(** Symbol [n] is the last mapping symbol of the section at or below [a]. *)
Record rules (info : disassemble_info) (a : Z) (n : nat) (s : asymbol) : Prop := {
  ru_at : symtab info !! n = Some s;
  ru_valid : valid info s = true;
  ru_below : sy_value s <= a;
  ru_last : forall m t, (n < m)%nat -> symtab info !! m = Some t -> valid info t = true -> a < sy_value t;
}.

Definition no_symbol (info : disassemble_info) (a : Z) : Prop :=
  forall m t, symtab info !! m = Some t -> valid info t = true -> a < sy_value t.

Definition sorted_symbols (l : list asymbol) : Prop :=
  StronglySorted (fun s t => sy_value s <= sy_value t) l.

Lemma rules_unique info a n s n' s' : rules info a n s -> rules info a n' s' -> n = n' /\ s = s'.
Proof.
  intros [H1 H2 H3 H4] [K1 K2 K3 K4].
  destruct (Nat.lt_trichotomy n n') as [H|[->|H]].
  - specialize (H4 _ _ H K1 K2). lia.
  - split; congruence.
  - specialize (K4 _ _ H H1 H2). lia.
Qed.

Lemma sorted_lookup l i j s t :
  sorted_symbols l -> (i <= j)%nat -> l !! i = Some s -> l !! j = Some t -> sy_value s <= sy_value t.
Proof.
  intros Hs. revert i j. induction Hs as [|x l Hs IH Hx]; intros i j Hij Hi Hj; [done|].
  destruct i as [|i], j as [|j]; simplify_eq/=; [lia| |lia|by apply (IH i j); [lia|..]].
  rewrite Forall_forall in Hx. apply Hx. by apply list_elem_of_lookup_2 in Hj.
Qed.

(** The first loop, from symbol [n] on. *)
Lemma search_forward_spec info a n l acc :
  sorted_symbols l ->
  match search_forward info a n l acc with
  | Some k =>
      (acc = Some k /\ forall i s, l !! i = Some s -> valid info s = true -> a < sy_value s) \/
      (exists i s, k = (n + i)%nat /\ l !! i = Some s /\ valid info s = true /\ sy_value s <= a /\
         forall j t, (i < j)%nat -> l !! j = Some t -> valid info t = true -> a < sy_value t)
  | None => acc = None /\ forall i s, l !! i = Some s -> valid info s = true -> a < sy_value s
  end.
Proof.
  revert n acc. induction l as [|s l IH]; intros n acc Hs; cbn [search_forward].
  { destruct acc; [left|]; done. }
  assert (Hl : sorted_symbols l) by (by inversion Hs).
  destruct (Z.ltb_spec a (sy_value s)) as [Hlt|Hge].
  { assert (Hall : forall i t, (s :: l) !! i = Some t -> valid info t = true -> a < sy_value t).
    { intros i t Hi _. pose proof (sorted_lookup (s :: l) 0 i s t Hs ltac:(lia) eq_refl Hi). lia. }
    destruct acc; [left|]; done. }
  fold (valid info s) in *. specialize (IH (S n) (if valid info s then Some n else acc) Hl).
  destruct (search_forward info a (S n) l _) as [k|].
  - destruct IH as [[He Hn]|(i & t & -> & Hi & Hv & Hb & Hn)].
    + destruct (valid info s) eqn:Ev.
      * injection He as <-. right. exists 0%nat, s. split; [lia|]. split_and!; try done.
        intros [|j] t Hj Ht; [lia|]. by apply (Hn j).
      * left. split; [done|]. intros [|i] t Hi Ht; [simplify_eq/=; congruence|by apply (Hn i)].
    + right. exists (S i), t. split; [lia|]. split_and!; try done.
      intros [|j] u Hj Hu; [lia|]. apply (Hn j); [lia|done].
  - destruct IH as [He Hn]. destruct (valid info s) eqn:Ev; [done|]. split; [done|].
    intros [|i] t Hi Ht; [simplify_eq/=; congruence|by apply (Hn i)].
Qed.

(** The second loop, below symbol [n]; the symbols of the section start at its
    address. *)
Lemma search_backward_spec info n :
  sorted_symbols (symtab info) -> (n <= length (symtab info))%nat ->
  (forall s, In s (symtab info) -> valid info s = true ->
     match di_section info with Some sec => s_vma sec | None => 0 end <= sy_value s) ->
  match search_backward info n with
  | Some k => (k < n)%nat /\ exists s, symtab info !! k = Some s /\ valid info s = true /\
      forall m t, (k < m < n)%nat -> symtab info !! m = Some t -> valid info t = false
  | None => forall m t, (m < n)%nat -> symtab info !! m = Some t -> valid info t = false
  end.
Proof.
  intros Hs Hn Hst. induction n as [|n IH]; cbn [search_backward]; [intros; lia|].
  destruct (lookup_lt_is_Some_2 (symtab info) n ltac:(lia)) as [s Es]. rewrite Es.
  destruct (Z.ltb_spec (sy_value s) (match di_section info with Some sec => s_vma sec | None => 0 end)) as [Hlt|Hge].
  { intros m t Hm Ht. destruct (valid info t) eqn:Ev; [|done].
    pose proof (sorted_lookup _ _ _ _ _ Hs (ltac:(lia) : (m <= n)%nat) Ht Es) as Hle.
    apply Hst in Ev; [lia|]. apply list_elem_of_In. by eapply list_elem_of_lookup_2. }
  fold (valid info s). destruct (valid info s) eqn:Ev.
  { split; [lia|]. exists s. split_and!; try done. intros; lia. }
  specialize (IH ltac:(lia)).
  assert (Hstep : forall m t, m = n -> symtab info !! m = Some t -> valid info t = false)
    by (intros m t -> Ht; congruence).
  destruct (search_backward info n) as [k|].
  - destruct IH as (Hk & t & Ht & Hv & Hno). split; [lia|]. exists t. split_and!; try done.
    intros m u Hm Hu. destruct (decide (m = n)); [by eapply Hstep|by apply (Hno m); [lia|]].
  - intros m u Hm Hu. destruct (decide (m = n)); [by eapply Hstep|by apply (IH m); [lia|]].
Qed.

(** ** The search *)

Section search.

Context (sec : asection).

(** What the caller keeps: an ELF table sorted by value, a section with its
    symbols in it, and [symtab_pos] at a symbol not above the address. *)
Record table_ok (info : disassemble_info) : Prop := {
  t_section : di_section info = Some sec;
  t_elf : symtab_elf info = true;
  t_sorted : sorted_symbols (symtab info);
  t_pos : -1 <= symtab_pos info < Z.of_nat (length (symtab info));
  t_start : forall s, In s (symtab info) -> sy_section s = s_id sec ->
    s_vma sec <= sy_value s <= s_vma sec + s_size sec;
  t_vma : 0 <= s_vma sec /\ 0 < s_size sec /\ s_vma sec + s_size sec < 2 ^ 64;
}.

Definition pos_below (info : disassemble_info) (a : Z) : Prop :=
  forall i s, Z.of_nat i <= symtab_pos info -> symtab info !! i = Some s -> sy_value s <= a.

Lemma valid_section info s : di_section info = Some sec -> valid info s = true -> sy_section s = s_id sec.
Proof.
  intros Hs. unfold valid, riscv_is_valid_mapping_symbol, in_section. rewrite Hs.
  intros [H _]%andb_true_iff. by apply Nat.eqb_eq.
Qed.

(** The two loops together, wherever they start. *)
Definition found (info : disassemble_info) (a : Z) (start : Z -> Z) : option nat :=
  let n := Z.to_nat (start (symtab_pos info + 1)) in
  match search_forward info a n (drop n (symtab info)) None with
  | Some n => Some n
  | None => search_backward info (Z.to_nat (start (symtab_pos info) + 1))
  end.

Lemma found_spec info a (from_last : bool) last :
  table_ok info -> pos_below info a ->
  (from_last = true -> 0 <= last) ->
  match found info a (fun n => if from_last && (last <=? n) then last else n) with
  | Some n => exists s, rules info a n s
  | None => no_symbol info a
  end.
Proof.
  intros [Hsec Helf Hs Hpos Hst Hv] Hb Hl.
  set (start := fun n => if from_last && (last <=? n) then last else n). unfold found.
  assert (Hstart : forall n, -1 <= n -> start n <= n /\ (0 <= n -> 0 <= start n) /\ (n = -1 -> start n = -1)).
  { intros n Hn. unfold start. destruct from_last; cbn [andb]; [|lia].
    specialize (Hl eq_refl). destruct (Z.leb_spec last n); lia. }
  set (n := Z.to_nat (start (symtab_pos info + 1))). cbv zeta. set (b := Z.to_nat (start (symtab_pos info) + 1)).
  assert (Hnb : (n <= b)%nat /\ Z.of_nat b <= symtab_pos info + 1).
  { unfold n, b, start. destruct from_last; cbn [andb]; [|lia]. specialize (Hl eq_refl).
    destruct (Z.leb_spec last (symtab_pos info + 1)), (Z.leb_spec last (symtab_pos info)); lia. }
  assert (Hsd : sorted_symbols (drop n (symtab info))).
  { unfold sorted_symbols in *. rewrite <- (take_drop n (symtab info)) in Hs.
    by apply sorted_app_inv in Hs as (_ & H & _). }
  pose proof (search_forward_spec info a n (drop n (symtab info)) None Hsd) as Hf.
  destruct (search_forward info a n (drop n (symtab info)) None) as [k|].
  - destruct Hf as [[Hf _]|(i & s & -> & Hi & Hvs & Hle & Hlast)]; [done|]. cbv iota. exists s.
    rewrite lookup_drop in Hi. constructor; try done. intros m t Hm Ht Hvt.
    apply (Hlast (m - n)%nat t); [lia| |done]. rewrite lookup_drop. by replace (n + (m - n))%nat with m by lia.
  - destruct Hf as [_ Hno].
    assert (Hno' : forall m t, (n <= m)%nat -> symtab info !! m = Some t -> valid info t = true -> a < sy_value t).
    { intros m t Hm Ht. apply (Hno (m - n)%nat). rewrite lookup_drop.
      by replace (n + (m - n))%nat with m by lia. }
    pose proof (search_backward_spec info b Hs ltac:(lia)) as Hbk.
    assert (Hst' : forall s, In s (symtab info) -> valid info s = true -> s_vma sec <= sy_value s).
    { intros s Hin Hvs. apply (Hst s); [done|by eapply valid_section]. }
    rewrite Hsec in Hbk. specialize (Hbk Hst').
    destruct (search_backward info b) as [k|].
    + destruct Hbk as (Hk & s & Es & Hvs & Hno2). cbv iota. exists s. constructor; try done.
      * apply (Hb k s); [lia|done].
      * intros m t Hm Ht Hvt. destruct (decide (m < b)%nat) as [Hmb|Hmb].
        -- specialize (Hno2 m t ltac:(lia) Ht). congruence.
        -- apply (Hno' m t); [lia|done|done].
    + cbv iota. intros m t Ht Hvt. destruct (decide (m < b)%nat) as [Hmb|Hmb].
      * specialize (Hbk m t Hmb Ht). congruence.
      * apply (Hno' m t); [lia|done|done].
Qed.

(** What a mapping symbol says. *)
Definition symbol_state (s : asymbol) : riscv_seg_mstate :=
  if String.eqb (sy_name s) "$d" then MAP_DATA else MAP_INSN.

Lemma update_state info s st r :
  valid info s = true -> (riscv_update_map_state info s st r).1 = symbol_state s.
Proof.
  unfold valid, riscv_is_valid_mapping_symbol, riscv_elf_is_mapping_symbols, riscv_update_map_state,
    symbol_state.
  intros [-> Hn]%andb_true_iff. cbn [negb].
  destruct (String.eqb_spec (sy_name s) "$x") as [->|_]; [done|].
  destruct (String.eqb (sy_name s) "$d"); [done|]. cbn [orb] in Hn. by destruct (strip_prefix _ _).
Qed.

Definition map_name (nm : string) : bool :=
  match chars nm with
  | "$"%char :: "x"%char :: _ | "$"%char :: "d"%char :: _ => true
  | _ => false
  end.

Lemma valid_map_name info s : valid info s = true -> map_name (sy_name s) = true.
Proof.
  unfold valid, riscv_is_valid_mapping_symbol, riscv_elf_is_mapping_symbols, map_name.
  intros [_ Hn]%andb_true_iff.
  destruct (String.eqb_spec (sy_name s) "$d") as [->|_]; [done|].
  destruct (String.eqb_spec (sy_name s) "$x") as [->|_]; [done|]. cbn [orb] in Hn.
  destruct (strip_prefix (chars "$xrv") (chars (sy_name s))) as [q|] eqn:E; [|done].
  apply strip_prefix_app in E. by rewrite E.
Qed.

(** Up to the boundary the symbol keeps ruling. *)
Lemma next_boundary_rules info a n s b a' :
  table_ok info -> rules info a n s ->
  match next_boundary (sy_section s) (drop (S n) (symtab info)) with Some v => b = v | None => True end ->
  a <= a' < b -> rules info a' n s.
Proof.
  intros [Hsec _ Hs _ _ _] [H1 H2 H3 H4] Hb Ha. constructor; try done; [lia|].
  intros m t Hm Ht Hv. unfold next_boundary in Hb.
  set (P := fun u : asymbol => (sy_section u =? sy_section s)%nat && map_name (sy_name u)).
  change (List.find _ (drop (S n) (symtab info))) with (List.find P (drop (S n) (symtab info))) in Hb.
  assert (HP : P t = true).
  { unfold P. rewrite (valid_map_name info t Hv), andb_true_r.
    apply Nat.eqb_eq. rewrite (valid_section info t Hsec Hv), (valid_section info s Hsec H2). done. }
  assert (Htd : drop (S n) (symtab info) !! (m - S n)%nat = Some t)
    by (rewrite lookup_drop; by replace (S n + (m - S n))%nat with m by lia).
  assert (Hsd : sorted_symbols (drop (S n) (symtab info))).
  { unfold sorted_symbols in *. rewrite <- (take_drop (S n) (symtab info)) in Hs.
    by apply sorted_app_inv in Hs as (_ & H & _). }
  revert Hb. generalize dependent (drop (S n) (symtab info)). intros l Htd Hsd.
  assert (Hf : exists u, List.find P l = Some u /\ sy_value u <= sy_value t).
  { clear -Htd Hsd HP. revert Htd. generalize (m - S n)%nat. intros i. revert i.
    induction Hsd as [|u l Hsd IH Hu]; intros i Hi; [done|]. cbn [List.find].
    destruct (P u) eqn:E.
    - exists u. split; [done|]. destruct i as [|i]; simplify_eq/=; [lia|].
      rewrite Forall_forall in Hu. apply Hu. by eapply list_elem_of_lookup_2.
    - destruct i as [|i]; simplify_eq/=; [congruence|]. by apply (IH i). }
  destruct Hf as (u & -> & Hu). cbn. intros ->. lia.
Qed.

(** What is remembered is right at [a]. *)
Definition cache_ok (info : disassemble_info) (a : Z) (c : map_cache) : Prop :=
  last_section c = Some (s_id sec) -> a < last_boundary c ->
  exists n s, rules info a n s /\ last_state c = symbol_state s /\ last_symbol c = Z.of_nat n.

(** The search at [a], where some symbol rules; what is remembered has to be
    right from there on, and stays so. *)
Lemma search_rules info a c n s :
  table_ok info -> pos_below info a -> (forall a', a <= a' -> cache_ok info a' c) -> rules info a n s ->
  exists c', riscv_search_mapping_symbol a info c = Some (symbol_state s, c') /\
    last_symbol c' = Z.of_nat n /\
    forall a', a <= a' -> cache_ok info a' (with_state c' (symbol_state s)).
Proof.
  intros Ht Hp Hc Hr. unfold riscv_search_mapping_symbol, info_section.
  rewrite (t_section _ Ht). cbn [fmap option_fmap option_map].
  destruct (bool_decide (last_section c = Some (s_id sec)) && (a <? last_boundary c)) eqn:Ec.
  { apply andb_true_iff in Ec as [E1 E2]. apply bool_decide_eq_true in E1. apply Z.ltb_lt in E2.
    destruct (Hc a ltac:(lia) E1 E2) as (n' & s' & Hr' & Es & En).
    destruct (rules_unique _ _ _ _ _ _ Hr Hr') as [<- <-].
    exists c. rewrite <- Es. split; [done|]. split; [done|]. intros a' Ha. by destruct c; apply Hc. }
  unfold symtab_size. cbv zeta. cbn [last_symbol last_stop last_boundary last_state last_section riscv_rps_dis].
  pose proof (t_pos _ Ht) as Hpos.
  assert (Hne : Z.of_nat (length (symtab info)) <> 0).
  { destruct Hr as [H1 _ _ _]. apply lookup_lt_Some in H1. lia. }
  rewrite (proj2 (Z.eqb_neq _ _) Hne), (t_elf _ Ht). cbn [orb negb].
  set (last := if a <=? 0 then -1 else last_symbol c).
  set (from_last := (0 <=? last) && (stop_offset info =? last_stop c)).
  pose proof (found_spec info a from_last last Ht Hp) as Hf.
  unfold found in Hf. cbv beta zeta in Hf |- *.
  match goal with |- context [match ?m with Some n => Some n | None => search_backward _ _ end] =>
    set (sym := m) in * end.
  match goal with |- context [?m ≫= _] => set (symbol := m) in * end.
  assert (Hsym : symbol = Some n).
  { specialize (Hf ltac:(unfold from_last; intros [H _]%andb_true_iff; lia)).
    destruct symbol as [k|].
    - destruct Hf as [s' Hr']. by destruct (rules_unique _ _ _ _ _ _ Hr Hr') as [<- _].
    - destruct Hr as [H1 H2 H3 _]. specialize (Hf n s H1 H2). lia. }
  rewrite Hsym. cbn [mbind option_bind]. rewrite (ru_at _ _ _ _ Hr). cbn [fmap option_fmap option_map].
  match goal with |- context [riscv_update_map_state info s ?st ?r] =>
    pose proof (update_state info s st r (ru_valid _ _ _ _ Hr)) as Hu;
    destruct (riscv_update_map_state info s st r) as [st' r'] end.
  cbn [fst] in Hu. subst st'.
  pose proof (next_boundary_rules info a n s) as Hb.
  destruct (next_boundary (sy_section s) (drop (S n) (symtab info))) as [v|];
    (eexists; split; [reflexivity|]; split; [reflexivity|]); intros a' Ha' _ Hlt;
    exists n, s; (split; [|done]); cbn [last_boundary with_state] in Hlt.
  - by apply (Hb v a' Ht Hr).
  - by apply (Hb (a' + 1) a' Ht Hr I); lia.
Qed.

End search.

(** ** A whole section *)

Lemma word_le_low n l :
  (2 <= n)%nat -> (2 <= length l)%nat -> word_le (take n l) mod 2 ^ 16 = word_le (take 2 l) mod 2 ^ 16.
Proof.
  destruct l as [|a [|b l]], n as [|[|n]]; cbn [length]; try lia. intros _ _. cbn [take word_le].
  replace (a + 256 * (b + 256 * word_le (take n l))) with (a + 256 * (b + 256 * 0) + word_le (take n l) * 2 ^ 16)
    by (change (2 ^ 16) with 65536; lia).
  rewrite take_0. cbn [word_le]. apply Z_mod_plus_full.
Qed.

Lemma insn_length_at_least_2 w : 2 <= riscv_insn_length w.
Proof.
  assert (0 <= (w >> 11) .& 0xe) by (apply Z.land_nonneg; lia).
  unfold riscv_insn_length. repeat split_match; lia.
Qed.

Lemma disassemble_insn_length env na pd a w p :
  (riscv_disassemble_insn env na pd a w p).2 = riscv_insn_length w.
Proof. unfold riscv_disassemble_insn. by destruct (find_opcode _ _ _ _). Qed.

(** The caller's loop (objdump with -z) from [addr] to [stop]: the lines with
    their addresses and lengths; it gives up at an error.  [None] if a call ends
    the program or the bound runs out. *)
Fixpoint disassemble (fuel : nat) (read_memory : Z -> Z -> option (list Z))
    (info_for : Z -> disassemble_info) (stop addr : Z) (d : dis_file) : option (list (Z * dis_line * Z)) :=
  if stop <=? addr then Some []
  else
    match fuel with
    | O => None
    | S fuel =>
        match print_insn_riscv None read_memory addr (info_for addr) d with
        | None => None
        | Some (line, len, d) =>
            if len <? 1 then Some [(addr, line, len)]
            else cons (addr, line, len) <$> disassemble fuel read_memory info_for stop (addr + len) d
        end
    end.

Section section.

Context (sec : asection) (syms : list asymbol) (contents : list Z).
Context (read_memory : Z -> Z -> option (list Z)) (info_for : Z -> disassemble_info).

Abbreviation stop := (s_vma sec + s_size sec).

Definition bytes_at (a n : Z) : list Z := take (Z.to_nat n) (drop (Z.to_nat (a - s_vma sec)) contents).

(** Reading succeeds within the section only, and gives its bytes. *)
Definition reads_section : Prop :=
  Z.of_nat (length contents) = s_size sec /\ Forall (fun b => 0 <= b < 256) contents /\
  forall a n, s_vma sec <= a -> 0 <= n ->
    read_memory a n = if a + n <=? stop then Some (bytes_at a n) else None.

(** The caller passes the same table with a proper position at every address. *)
Definition tables_ok : Prop :=
  forall a, s_vma sec <= a < stop ->
    table_ok sec (info_for a) /\ pos_below (info_for a) a /\ symtab (info_for a) = syms /\
    flag_data (info_for a) = false.

(** The length of the instruction at [a]. *)
Definition insn_size (a : Z) : Z := riscv_insn_length (word_le (bytes_at a 2)).

(** The line printed at [a]: an error only for an instruction that does not
    fit, data with its value, in a piece that ends before the next mapping
    symbol, or an instruction of the bytes there. *)
Inductive line_ok (a : Z) (s : asymbol) : dis_line -> Z -> Prop :=
| Line_error :
    symbol_state s = MAP_INSN -> stop < a + 2 \/ stop < a + insn_size a ->
    line_ok a s (DL_memory_error a) (-1)
| Line_data dir len :
    symbol_state s = MAP_DATA -> In (dir, len) [(".byte", 1); (".short", 2); (".word", 4)]%string ->
    a + len <= stop ->
    (forall t, In t syms -> valid (info_for a) t = true -> a < sy_value t -> a + len <= sy_value t) ->
    line_ok a s (DL_data dir (2 * len) (word_le (bytes_at a len))) len
| Line_insn env na pd o :
    symbol_state s = MAP_INSN -> a + insn_size a <= stop ->
    o = (riscv_disassemble_insn env na pd a (u64 (word_le (bytes_at a (insn_size a))))
           (bytes_at a (insn_size a))).1 ->
    line_ok a s (DL_insn o) (insn_size a).

Lemma rules_info info info' a n s :
  symtab info' = symtab info -> di_section info' = di_section info -> rules info a n s -> rules info' a n s.
Proof.
  intros E1 E2 [H1 H2 H3 H4]. unfold valid, riscv_is_valid_mapping_symbol, in_section in *.
  constructor; unfold valid, riscv_is_valid_mapping_symbol, in_section; rewrite ?E1, ?E2; done.
Qed.

(** Data is printed in pieces that end before the next mapping symbol. *)
Lemma find_after info a n s :
  sorted_symbols (symtab info) -> rules info a n s ->
  match next_symbol_after a info (drop (S n) (symtab info)) with
  | Some t => In t (symtab info) /\ valid info t = true /\ a < sy_value t /\
      forall u, In u (symtab info) -> valid info u = true -> a < sy_value u -> sy_value t <= sy_value u
  | None => forall u, In u (symtab info) -> valid info u = true -> a < sy_value u -> False
  end.
Proof.
  intros Hs Hr. unfold next_symbol_after.
  set (P := fun t : asymbol => (a <? sy_value t) && riscv_is_valid_mapping_symbol info t).
  assert (HP : forall u, P u = true <-> a < sy_value u /\ valid info u = true).
  { intros u. unfold P. rewrite andb_true_iff, Z.ltb_lt. done. }
  assert (Hin : forall u, In u (symtab info) -> P u = true -> exists i, drop (S n) (symtab info) !! i = Some u).
  { intros u Hu [Hua Huv]%HP. apply list_elem_of_In, list_elem_of_lookup in Hu as [i Hi].
    destruct (decide (i <= n)%nat) as [Hle|Hgt].
    - pose proof (sorted_lookup _ _ _ _ _ Hs Hle Hi (ru_at _ _ _ _ Hr)). pose proof (ru_below _ _ _ _ Hr). lia.
    - exists (i - S n)%nat. rewrite lookup_drop. by replace (S n + (i - S n))%nat with i by lia. }
  assert (Hsd : sorted_symbols (drop (S n) (symtab info))).
  { unfold sorted_symbols in *. rewrite <- (take_drop (S n) (symtab info)) in Hs.
    by apply sorted_app_inv in Hs as (_ & H & _). }
  assert (Hsub : forall u, In u (drop (S n) (symtab info)) -> In u (symtab info)).
  { intros u Hu. rewrite <- (take_drop (S n) (symtab info)). apply in_or_app. by right. }
  destruct (List.find P (drop (S n) (symtab info))) as [t|] eqn:Ef.
  - pose proof (find_some _ _ Ef) as [H1 H2]. apply HP in H2 as [H2 H3]. split; [by apply Hsub|].
    split; [done|]. split; [done|]. intros u Hu Huv Hua.
    destruct (Hin u Hu ltac:(by apply HP)) as [i Hi]. assert (Hpu : P u = true) by (by apply HP).
    clear -Hsd Ef Hi Hpu. revert i Hi. induction Hsd as [|x l Hsd IH Hx]; intros i Hi; [done|].
    cbn [List.find] in Ef. destruct (P x) eqn:Ex.
    + injection Ef as ->. destruct i as [|i]; simplify_eq/=; [lia|].
      rewrite Forall_forall in Hx. apply Hx. by eapply list_elem_of_lookup_2.
    + destruct i as [|i]; simplify_eq/=; [congruence|]. by apply (IH Ef i).
  - intros u Hu Huv Hua. destruct (Hin u Hu ltac:(by apply HP)) as [i Hi].
    pose proof (find_none _ _ Ef u ltac:(by apply list_elem_of_In; eapply list_elem_of_lookup_2)) as Hn.
    rewrite (proj2 (HP u)) in Hn; done.
Qed.

Lemma data_length_spec info a c n s :
  table_ok sec info -> s_vma sec <= a < stop -> rules info a n s -> last_symbol c = Z.of_nat n ->
  exists len r, riscv_data_length a info c = Some (len, with_rps_dis c r) /\
    (len = 1 \/ len = 2 \/ len = 4) /\ a + len <= stop /\
    forall t, In t (symtab info) -> valid info t = true -> a < sy_value t -> a + len <= sy_value t.
Proof.
  intros Ht Ha Hr Hl. unfold riscv_data_length, symtab_size. cbv zeta.
  assert (Hne : Z.of_nat (length (symtab info)) <> 0).
  { pose proof (ru_at _ _ _ _ Hr) as H1. apply lookup_lt_Some in H1. lia. }
  rewrite (proj2 (Z.eqb_neq _ _) Hne), (t_elf _ _ Ht), Hl, (t_section _ _ Ht). cbn [negb andb].
  rewrite (proj2 (Z.leb_le 0 (Z.of_nat n))) by lia.
  replace (Z.to_nat (Z.of_nat n + 1)) with (S n) by lia.
  pose proof (find_after info a n s (t_sorted _ _ Ht) Hr) as Hf. pose proof (t_vma _ _ Ht) as Hv.
  destruct (next_symbol_after a info (drop (S n) (symtab info))) as [t|].
  - destruct Hf as (Hin & Hvt & Hat & Hmin).
    pose proof (t_start _ _ Ht t Hin ltac:(eapply valid_section; [apply Ht|done])) as Hend.
    eexists _, _. split; [reflexivity|].
    assert (Hlen : let l := if sy_value t - a <? 4 then sy_value t - a else 4 in
      let l' := if l =? 3 then 2 else l in (l' = 1 \/ l' = 2 \/ l' = 4) /\ l' <= sy_value t - a).
    { cbv zeta. destruct (Z.ltb_spec (sy_value t - a) 4); [|cbn; lia].
      destruct (Z.eqb_spec (sy_value t - a) 3); lia. }
    cbv zeta in Hlen. destruct Hlen as [H1 H2]. split; [exact H1|]. split; [lia|].
    intros u Hu Huv Hua. specialize (Hmin u Hu Huv Hua). lia.
  - eexists _, (riscv_rps_dis c). split; [by destruct c|].
    assert (Hw : u64 (stop - a) = stop - a) by (apply Z.mod_small; lia). rewrite Hw.
    assert (Hlen : let l := if stop - a <? 4 then stop - a else 4 in
      let l' := if l =? 3 then 2 else l in (l' = 1 \/ l' = 2 \/ l' = 4) /\ l' <= stop - a).
    { cbv zeta. destruct (Z.ltb_spec (stop - a) 4); [|cbn; lia]. destruct (Z.eqb_spec (stop - a) 3); lia. }
    cbv zeta in Hlen. destruct Hlen as [H1 H2]. split; [exact H1|]. split; [lia|].
    intros u Hu Huv Hua. by destruct (Hf u Hu Huv Hua).
Qed.

Lemma data_line a len :
  len = 1 \/ len = 2 \/ len = 4 -> Forall (fun b => 0 <= b < 256) contents ->
  exists dir, riscv_disassemble_data len (word_le (bytes_at a len))
              = Some (dir, 2 * len, word_le (bytes_at a len)) /\
    In (dir, len) [(".byte", 1); (".short", 2); (".word", 4)]%string.
Proof.
  intros Hlen Hb. set (v := word_le (bytes_at a len)).
  assert (Hv : 0 <= v < 2 ^ 32).
  { pose proof (word_le_bound (bytes_at a len)) as H. fold v in H.
    assert (Hf : Forall (fun b => 0 <= b < 256) (bytes_at a len)) by (by apply Forall_take, Forall_drop).
    specialize (H Hf). assert (Hl : (length (bytes_at a len) <= 4)%nat)
      by (unfold bytes_at; rewrite length_take; lia).
    pose proof (Z.pow_le_mono_r 2 (8 * Z.of_nat (length (bytes_at a len))) 32). lia. }
  assert (Hu : u32 v = v) by (apply Z.mod_small; exact Hv).
  destruct Hlen as [->|[->| ->]]; unfold riscv_disassemble_data; cbn [Z.eqb Pos.eqb]; rewrite ?Hu;
    eexists; (split; [reflexivity|]); cbn; tauto.
Qed.

Lemma insn_size_low a :
  s_vma sec <= a -> Z.of_nat (length contents) = s_size sec -> a + 2 <= stop ->
  riscv_insn_length (u64 (word_le (bytes_at a (insn_size a)))) = insn_size a.
Proof.
  intros Ha Hlc H2. pose proof (insn_length_at_least_2 (word_le (bytes_at a 2))) as Hl2.
  fold (insn_size a) in Hl2. rewrite <- insn_length_low. unfold u64.
  rewrite Z.mod_mod_divide by (by exists (2 ^ 48)). unfold bytes_at at 1.
  rewrite word_le_low by (rewrite ?length_drop; lia). apply insn_length_low.
Qed.

(** One call. *)
Lemma print_insn_step a d n s :
  reads_section -> tables_ok -> s_vma sec <= a < stop -> rules (info_for a) a n s ->
  (forall a', a <= a' -> cache_ok sec (info_for a) a' (df_cache d)) ->
  exists line len d', print_insn_riscv None read_memory a (info_for a) d = Some (line, len, d') /\
    line_ok a s line len /\ (forall a', a <= a' -> cache_ok sec (info_for a) a' (df_cache d')).
Proof.
  intros (Hlc & Hby & Hread) Htab Ha Hr Hc. destruct (Htab a Ha) as (Ht & Hp & Hsy & Hfl).
  destruct (search_rules sec (info_for a) a (df_cache d) n s Ht Hp Hc Hr) as (c & Es & El & Hc').
  unfold print_insn_riscv. rewrite Es. cbv zeta.
  set (c1 := with_state c (symbol_state s)) in *.
  destruct (bool_decide (symbol_state s = MAP_DATA) && negb (flag_data (info_for a))) eqn:Ed.
  - apply andb_true_iff in Ed as [Ed _]. apply bool_decide_eq_true in Ed.
    destruct (data_length_spec (info_for a) a c1 n s Ht Ha Hr El) as (len & r & -> & Hlen & Hend & Hnext).
    assert (Hc2 : forall a', a <= a' -> cache_ok sec (info_for a) a' (with_rps_dis c1 r))
      by (intros a' Ha'; apply (Hc' a' Ha')).
    rewrite Hread by lia. rewrite (proj2 (Z.leb_le _ _) Hend).
    destruct (data_line a len Hlen Hby) as (dir & -> & Hin).
    eexists _, _, _. split; [reflexivity|]. split; [|exact Hc2].
    apply Line_data; [done|exact Hin|done|]. by rewrite <- Hsy.
  - rewrite Hfl, andb_true_r in Ed. apply bool_decide_eq_false in Ed.
    assert (Hi : symbol_state s = MAP_INSN) by (unfold symbol_state in *; by destruct (String.eqb _ _)).
    rewrite Hread by lia. destruct (Z.leb_spec (a + 2) stop) as [H2|H2];
      [|by eexists _, _, _; split; [reflexivity|split; [constructor; [|left]|]]].
    fold (insn_size a). pose proof (insn_length_at_least_2 (word_le (bytes_at a 2))) as Hl2.
    fold (insn_size a) in Hl2.
    rewrite Hread by lia. destruct (Z.leb_spec (a + insn_size a) stop) as [Hend|Hend];
      [|by eexists _, _, _; split; [reflexivity|split; [constructor; [|right]|]]].
    match goal with |- context [riscv_disassemble_insn ?e ?na ?pd a ?w ?p] =>
      pose proof (Line_insn a s e na pd _ Hi Hend eq_refl) as Hline;
      pose proof (disassemble_insn_length e na pd a w p) as Hlen;
      destruct (riscv_disassemble_insn e na pd a w p) as [o len] end.
    cbn [fst snd] in Hline, Hlen. rewrite insn_size_low in Hlen by (rewrite ?Hlc; lia). subst len.
    eexists _, _, _. split; [reflexivity|]. split; [exact Hline|exact Hc'].
Qed.

(** The lines from [a] on: one after the other, each for the symbol that rules
    there, up to the end of the section or to a read error. *)
Inductive covered : Z -> list (Z * dis_line * Z) -> Prop :=
| Cov_end : covered stop []
| Cov_error a n s :
    rules (info_for a) a n s -> line_ok a s (DL_memory_error a) (-1) ->
    covered a [(a, DL_memory_error a, -1)]
| Cov_line a n s line len rest :
    rules (info_for a) a n s -> line_ok a s line len -> 1 <= len -> covered (a + len) rest ->
    covered a ((a, line, len) :: rest).

Lemma line_length a s line len :
  line_ok a s line len -> line = DL_memory_error a /\ len = -1 \/ 1 <= len /\ a + len <= stop.
Proof.
  intros [H1 H2|dir l H1 H2 H3 H4|env na pd o H1 H2 H3]; [by left|right|right].
  - cbn in H2. intuition; simplify_eq; lia.
  - pose proof (insn_length_at_least_2 (word_le (bytes_at a 2))). unfold insn_size in *. lia.
Qed.

(** The section starts with a mapping symbol. *)
Definition starts_mapped : Prop :=
  exists s, In s syms /\ valid (info_for (s_vma sec)) s = true /\ sy_value s = s_vma sec.

Lemma something_rules info a s0 :
  sorted_symbols (symtab info) -> In s0 (symtab info) -> valid info s0 = true -> sy_value s0 <= a ->
  exists n s, rules info a n s.
Proof.
  intros Hs Hin Hv Hle.
  pose proof (search_forward_spec info a 0 (symtab info) None Hs) as H.
  destruct (search_forward info a 0 (symtab info) None) as [k|].
  - destruct H as [[H _]|(i & s & -> & H1 & H2 & H3 & H4)]; [done|]. by exists i, s.
  - destruct H as [_ H]. apply list_elem_of_In, list_elem_of_lookup in Hin as [i Hi].
    specialize (H i s0 Hi Hv). lia.
Qed.

Lemma disassemble_covers fuel a d :
  reads_section -> tables_ok -> starts_mapped -> s_vma sec <= a <= stop -> stop - a <= Z.of_nat fuel ->
  (a < stop -> forall a', a <= a' -> cache_ok sec (info_for a) a' (df_cache d)) ->
  exists lines, disassemble fuel read_memory info_for stop a d = Some lines /\ covered a lines.
Proof.
  intros Hread Htab (s0 & Hin0 & Hv0 & Ha0). revert a d.
  induction fuel as [|fuel IH]; intros a d Ha Hf Hc; cbn [disassemble];
    (destruct (Z.leb_spec stop a) as [Hle|Hlt];
     [exists []; split; [done|]; replace a with stop by lia; constructor|]); [lia|].
  destruct (Htab a ltac:(lia)) as (Ht & Hp & Hsy & Hfl).
  destruct (Htab (s_vma sec) ltac:(lia)) as (Ht0 & _ & Hsy0 & _).
  assert (Hsec : forall b, s_vma sec <= b < stop -> symtab (info_for b) = symtab (info_for a) /\
    di_section (info_for b) = di_section (info_for a)).
  { intros b Hb. destruct (Htab b Hb) as (Htb & _ & Hsb & _).
    by rewrite Hsb, Hsy, (t_section _ _ Htb), (t_section _ _ Ht). }
  assert (Hva : valid (info_for a) s0 = true).
  { revert Hv0. unfold valid, riscv_is_valid_mapping_symbol, in_section.
    by rewrite (t_section _ _ Ht0), (t_section _ _ Ht). }
  destruct (something_rules (info_for a) a s0 (t_sorted _ _ Ht)) as (n & s & Hr);
    [by rewrite Hsy|done|lia|].
  destruct (print_insn_step a d n s Hread Htab ltac:(lia) Hr (Hc Hlt)) as (line & len & d' & -> & Hline & Hc').
  assert (Hend : line = DL_memory_error a /\ len = -1 \/ 1 <= len /\ a + len <= stop)
    by (by eapply line_length).
  destruct Hend as [[-> ->]|[H1 H2]].
  - cbn [Z.ltb Z.compare]. eexists. split; [reflexivity|]. by eapply Cov_error.
  - rewrite (proj2 (Z.ltb_ge len 1)) by lia.
    destruct (IH (a + len) d') as (rest & -> & Hrest); [lia|lia| |].
    + intros Hb b Hb' E1 E2. destruct (Hsec (a + len) ltac:(lia)) as [K1 K2].
      destruct (Hc' b ltac:(lia) E1 E2) as (m & t & Hr' & Hst & Hsm). exists m, t.
      split; [by eapply rules_info; [..|exact Hr']|done].
    + eexists. split; [reflexivity|]. by eapply Cov_line.
Qed.

End section.

(** ** What the assembler marked *)




(** ** Theorems *)


(** What is remembered about another section does no harm. *)
Lemma other_section_ok sec info c a :
  last_section c <> Some (s_id sec) -> cache_ok sec info a c.
Proof. by intros H E. Qed.

(** The bytes of some lines. *)
Definition printed_bytes (lines : list (Z * dis_line * Z)) : Z := foldr (fun x n => x.2 + n) 0 lines.

Lemma printed_bytes_cons x lines : printed_bytes (x :: lines) = x.2 + printed_bytes lines.
Proof. done. Qed.

(** How the lines end: at the end of the section, or with an instruction that
    does not fit into it. *)
Lemma covered_ends sec syms contents info_for a lines :
  covered sec syms contents info_for a lines ->
  let stop := s_vma sec + s_size sec in
  (Forall (fun x => 1 <= x.2) lines /\ a + printed_bytes lines = stop) \/
  (exists pre e, lines = pre ++ [(e, DL_memory_error e, -1)] /\ Forall (fun x => 1 <= x.2) pre /\
     a + printed_bytes pre = e /\ (stop < e + 2 \/ stop < e + insn_size sec contents e)).
Proof.
  cbv zeta. induction 1 as [|b n s Hr Hl|b n s l k rest Hr Hl Hk _ IH].
  - left. split; [constructor|]. cbn. lia.
  - right. exists [], b. split; [done|]. split; [constructor|]. split; [cbn; lia|]. by inversion Hl.
  - destruct IH as [[IH1 IH2]|(pre & e & -> & IH1 & IH2 & IH3)].
    + left. split; [by constructor|]. rewrite printed_bytes_cons. cbn [snd]. lia.
    + right. exists ((b, l, k) :: pre), e. split; [done|]. split; [by constructor|].
      split; [rewrite printed_bytes_cons; cbn [snd]; lia|done].
Qed.

(** C9: a section is disassembled to its end.  When the symbol table is sorted
    and passed with a proper position, the section starts with a mapping symbol,
    the disassembler was last in another section and is not told to disassemble
    data (objdump -D), calling it from the start
    on always makes progress: no call aborts or goes through a null section, the
    lines follow each other, each is an instruction or data as the last mapping
    symbol at or below its address says, and data has its value and ends before
    the next mapping symbol.  The lines go up to the end of the section, or up to
    an instruction that, by the length its first bytes announce, would go beyond
    the end: there the memory error is reported and the rest is not printed. *)
Theorem disassembly_covers_section sec syms contents read_memory info_for d :
  reads_section sec contents read_memory -> tables_ok sec syms info_for ->
  starts_mapped sec syms info_for -> 0 <= s_size sec -> last_section (df_cache d) <> Some (s_id sec) ->
  let stop := s_vma sec + s_size sec in
  exists lines,
    disassemble (Z.to_nat (s_size sec)) read_memory info_for stop (s_vma sec) d = Some lines /\
    covered sec syms contents info_for (s_vma sec) lines /\
    ((Forall (fun x => 1 <= x.2) lines /\ s_vma sec + printed_bytes lines = stop) \/
     (exists pre e, lines = pre ++ [(e, DL_memory_error e, -1)] /\ Forall (fun x => 1 <= x.2) pre /\
        s_vma sec + printed_bytes pre = e /\ (stop < e + 2 \/ stop < e + insn_size sec contents e))).
Proof.
  intros Hr Ht Hs Hsz Hd.
  destruct (disassemble_covers sec syms contents read_memory info_for (Z.to_nat (s_size sec)) (s_vma sec) d)
    as (lines & H1 & H2); [done|done|done|lia|lia|intros _ a' _; by apply other_section_ok|].
  exists lines. split; [exact H1|]. split; [exact H2|]. exact (covered_ends _ _ _ _ _ _ H2).
Qed.


(** ** Examples *)

(** An instruction and six bytes of data. *)
Definition example_sec : asection := mk_asec 1 0 10 true true.
Definition example_syms : list asymbol := [mk_asym "$xrv64i2p1" 1 0; mk_asym "$d" 1 4].
Definition example_bytes : list Z := [0x13; 0x05; 0x10; 0x00; 1; 2; 3; 4; 5; 6].
Definition example_info (a : Z) : disassemble_info :=
  mk_info (Some example_sec) example_syms true (-1) 10 false true false.
Definition example_read (a n : Z) : option (list Z) :=
  if a + n <=? 10 then Some (take (Z.to_nat n) (drop (Z.to_nat a) example_bytes)) else None.
Definition example_dis : dis_file :=
  mk_dis (mk_dopts None None false PRIV_SPEC_CLASS_NONE [])
    (mk_cache (-1) 0 0 MAP_NONE None (mk_rps (mk_subset_list [] None None) [] 0 ISA_SPEC_CLASS_20191213 false)) None.

Lemma example_tables : tables_ok example_sec example_syms example_info.
Proof.
  intros a Ha. split_and!; [|by intros i s Hi; cbn in Hi; lia|done|done].
  constructor; cbn; [done|done| |lia| |lia].
  - repeat constructor; cbn; lia.
  - intros s [<-|[<-|[]]] _; cbn; lia.
Qed.

Lemma example_reads : reads_section example_sec example_bytes example_read.
Proof.
  split; [done|]. split; [repeat constructor; lia|]. intros a n Ha _. unfold example_read, bytes_at.
  cbn [example_sec s_vma s_size]. by rewrite Z.sub_0_r.
Qed.

Definition shape (l : Z * dis_line * Z) : Z * bool * Z :=
  (l.1.1, match l.1.2 with DL_insn _ => true | _ => false end, l.2).

Lemma disassembly_covers_section_witness :
  exists lines,
    disassemble 10 example_read example_info 10 0 example_dis = Some lines /\
    covered example_sec example_syms example_bytes example_info 0 lines /\
    shape <$> lines = [(0, true, 4); (4, false, 4); (8, false, 2)].
Proof.
  destruct (disassembly_covers_section example_sec example_syms example_bytes example_read example_info example_dis)
    as (lines & H1 & H2 & _).
  - exact example_reads.
  - exact example_tables.
  - exists (mk_asym "$xrv64i2p1" 1 0). repeat split. by left.
  - cbn. lia.
  - done.
  - exists lines. split; [exact H1|]. split; [exact H2|].
    assert (H3 : fmap (M := list) shape <$> disassemble 10 example_read example_info 10 0 example_dis
                 = Some [(0, true, 4); (4, false, 4); (8, false, 2)]) by (vm_compute; reflexivity).
    rewrite (H1 : disassemble 10 example_read example_info 10 0 example_dis = Some lines) in H3.
    injection H3 as H3. exact H3.
Defined.


(** ** The boundary of another section *)

Lemma search_forward_none info a n syms :
  (forall t, In t syms -> valid info t = true -> a < sy_value t) -> search_forward info a n syms None = None.
Proof.
  revert n. induction syms as [|t syms IH]; intros n H; cbn [search_forward]; [done|].
  destruct (Z.ltb_spec a (sy_value t)) as [|Hge]; [done|].
  destruct (riscv_is_valid_mapping_symbol info t) eqn:Ev.
  - specialize (H t (or_introl eq_refl) Ev). lia.
  - apply IH. intros u Hu. apply H. by right.
Qed.

Lemma search_backward_none info n :
  (forall i t, (i < n)%nat -> symtab info !! i = Some t -> valid info t = false) -> search_backward info n = None.
Proof.
  induction n as [|n IH]; intros H; cbn [search_backward]; [done|].
  destruct (symtab info !! n) as [t|] eqn:Et; [|done]. destruct (_ <? _); [done|].
  pose proof (H n t ltac:(lia) Et) as Hv. unfold valid in Hv. rewrite Hv. apply IH. intros i u Hi. apply H. lia.
Qed.

Lemma search_no_symbol info a c sec :
  di_section info = Some sec -> last_section c <> Some (s_id sec) -> no_symbol info a -> pos_below info a ->
  exists c', riscv_search_mapping_symbol a info c = Some (if s_code sec then MAP_INSN else MAP_DATA, c') /\
    last_section c' = Some (s_id sec) /\ last_boundary c' = last_boundary c.
Proof.
  intros Hs Hl Hn Hp. unfold riscv_search_mapping_symbol, info_section. rewrite Hs. cbn [fmap option_fmap option_map].
  rewrite bool_decide_eq_false_2 by done. cbn [andb].
  destruct (_ || _); [by eexists|]. cbv zeta. cbn [last_symbol last_stop].
  rewrite search_forward_none.
  2: { intros t Ht. apply list_elem_of_In, list_elem_of_lookup in Ht as [i Hi]. rewrite lookup_drop in Hi. by eapply Hn. }
  rewrite search_backward_none; [by eexists|].
  intros i t Hi Ht. destruct (valid info t) eqn:Ev; [|done]. exfalso.
  pose proof (Hn i t Ht Ev). assert (sy_value t <= a); [|lia]. apply (Hp i); [|done].
  revert Hi. destruct (_ && _) eqn:E; [|lia]. apply andb_true_iff in E as [_ E]. apply Z.leb_le in E. lia.
Qed.

(** C39: the boundary of one section is used in the next.  Whenever the
    disassembler enters another section at an address with no mapping symbol at
    or below it, [last_map_section] becomes the new section while
    [last_map_symbol_boundary] keeps its value; so at every later address of the
    section below that boundary the state that the kind of the section gave is
    returned without a search, whatever mapping symbol rules there: data marked
    with $d in a code section is disassembled as instructions, code marked with
    $x in a data section is dumped. *)
Theorem stale_boundary_hides_symbol (a a' : Z) (info info' : disassemble_info) (c : map_cache) (sec sec' : asection) :
  di_section info = Some sec -> di_section info' = Some sec' -> s_id sec' = s_id sec ->
  last_section c <> Some (s_id sec) -> no_symbol info a -> pos_below info a -> a' < last_boundary c ->
  let state := if s_code sec then MAP_INSN else MAP_DATA in
  exists c1, riscv_search_mapping_symbol a info c = Some (state, c1) /\
    riscv_search_mapping_symbol a' info' (with_state c1 state) = Some (state, with_state c1 state).
Proof.
  intros Hs Hs' Hid Hl Hn Hp Hb. cbv zeta.
  destruct (search_no_symbol info a c sec Hs Hl Hn Hp) as (c1 & E & H1 & H2). exists c1. split; [exact E|].
  unfold riscv_search_mapping_symbol, info_section, with_state. cbn [last_section last_boundary last_state].
  rewrite Hs', H1, H2. cbn [fmap option_fmap option_map]. rewrite Hid, bool_decide_eq_true_2 by done.
  rewrite (proj2 (Z.ltb_lt a' (last_boundary c)) Hb). done.
Qed.

(** A data section of 64 bytes, then a code section with a $d at 8: the data
    there is taken for instructions. *)
Lemma stale_boundary_hides_symbol_witness :
  let syms := [mk_asym "$d" 1 0; mk_asym "$d" 2 8] in
  let first := mk_info (Some (mk_asec 1 0 64 false true)) syms true (-1) 64 false true false in
  let second := mk_info (Some (mk_asec 2 0 16 true true)) syms true (-1) 16 false true false in
  exists c c1 c2, riscv_search_mapping_symbol 0 first (df_cache example_dis) = Some (MAP_DATA, c) /\
    riscv_search_mapping_symbol 0 second c = Some (MAP_INSN, c1) /\
    riscv_search_mapping_symbol 8 second (with_state c1 MAP_INSN) = Some (MAP_INSN, c2) /\
    rules second 8 1 (mk_asym "$d" 2 8) /\ symbol_state (mk_asym "$d" 2 8) = MAP_DATA.
Proof.
  cbv zeta.
  set (syms := [mk_asym "$d" 1 0; mk_asym "$d" 2 8]).
  set (first := mk_info (Some (mk_asec 1 0 64 false true)) syms true (-1) 64 false true false).
  set (second := mk_info (Some (mk_asec 2 0 16 true true)) syms true (-1) 16 false true false).
  destruct (riscv_search_mapping_symbol 0 first (df_cache example_dis)) as [[st c]|] eqn:Ec;
    [|vm_compute in Ec; discriminate Ec].
  assert (Hc : st = MAP_DATA /\ last_section c = Some 1%nat /\ last_boundary c = 64)
    by (vm_compute in Ec; injection Ec as <- <-; done).
  destruct Hc as (-> & Hl & Hb).
  destruct (stale_boundary_hides_symbol 0 8 second second c (mk_asec 2 0 16 true true) (mk_asec 2 0 16 true true))
    as (c1 & H1 & H2).
  - reflexivity.
  - reflexivity.
  - reflexivity.
  - rewrite Hl. discriminate.
  - intros [|[|m]] t Ht Hv; [|injection Ht as <-; cbn; lia|discriminate Ht].
    injection Ht as <-. vm_compute in Hv. discriminate Hv.
  - intros i t Hi _. cbn in Hi. lia.
  - rewrite Hb. lia.
  - exists c, c1, (with_state c1 MAP_INSN). split; [reflexivity|]. split; [exact H1|]. split; [exact H2|].
    split; [|reflexivity]. constructor; [reflexivity|reflexivity|cbn; lia|].
    intros [|[|m]] t Hm Ht; [lia|lia|done].
Defined.
