(* ===== verification/LinkReloc.v ===== *)
(** * Static relocations in the linker (bfd/elfnn-riscv.c)

    [perform_relocation], which puts a value into the contents of a section,
    and the table that pairs the high and the low parts of PC-relative
    addresses. *)
From Stdlib Require Import ZArith Bool Lia.
From stdpp Require Import base list gmap.
From S2P Require Import Prelude OpcodeH RiscvH OpcodeMatch Bytes Howto.

#[local] Open Scope Z_scope.
#[local] Open Scope c_scope.
#[local] Open Scope list_scope.

(** ** Relocation entries (include/elf/common.h) *)

Definition ELF32_R_SYM (i : Z) : Z := i >> 8.
Definition ELF32_R_TYPE (i : Z) : Z := i .& 0xff.
Definition ELF32_R_INFO (s t : Z) : Z := u32 (u32 (u32 s << 8) + (t .& 0xff)).
Definition ELF64_R_SYM (i : Z) : Z := i >> 32.
Definition ELF64_R_TYPE (i : Z) : Z := i .& 0xffffffff.
Definition ELF64_R_INFO (s t : Z) : Z := u64 ((u64 (u64 s << 31) <<u 1) + u64 t).

Record Elf_Internal_Rela : Set := mk_rela {
  r_offset : Z;
  r_info : Z;
  r_addend : Z;
}.

Section arch.

(** [ARCH_SIZE] is 64 or 32; [big] is the byte order of the data. *)
Context (arch64 big : bool).

Definition ELFNN_R_SYM (i : Z) : Z := if arch64 then ELF64_R_SYM i else ELF32_R_SYM i.
Definition ELFNN_R_TYPE (i : Z) : Z := if arch64 then ELF64_R_TYPE i else ELF32_R_TYPE i.
Definition ELFNN_R_INFO (s t : Z) : Z := if arch64 then ELF64_R_INFO s t else ELF32_R_INFO s t.

(** ** Fields of the contents *)

(** A multi-byte destination with a mask of its own is an instruction. *)
Definition riscv_is_insn_reloc (howto : reloc_howto_type) : bool :=
  (8 <? Z.of_nat (bitsize howto)) && negb (dst_mask howto =? 0)
  && negb (u64 (Z.lnot (dst_mask howto
                        .| (if (bitsize howto <? 64)%nat then MINUS_ONE <<u Z.of_nat (bitsize howto) else 0)))
           =? 0).

(** [riscv_get_insn] and [riscv_put_insn]; [None] for another size, which
    aborts, or bytes outside the contents. *)
Definition in_contents (bits : nat) (contents : list Z) (off : Z) : bool :=
  (0 <=? off) && (off + Z.of_nat (bits / 8) <=? Z.of_nat (length contents)).

Definition riscv_get_insn (bits : nat) (contents : list Z) (off : Z) : option Z :=
  if existsb (Nat.eqb bits) [16; 32; 64]%nat && in_contents bits contents off
  then Some (getl (bits / 8) contents (Z.to_nat off)) else None.
Definition riscv_put_insn (bits : nat) (val : Z) (contents : list Z) (off : Z) : option (list Z) :=
  if existsb (Nat.eqb bits) [16; 32; 64]%nat && in_contents bits contents off
  then Some (putl (bits / 8) val contents (Z.to_nat off)) else None.

(** The same for any field: [bfd_get] and [bfd_put] are for data. *)
Definition get_field (howto : reloc_howto_type) (contents : list Z) (off : Z) : option Z :=
  if riscv_is_insn_reloc howto then riscv_get_insn (bitsize howto) contents off
  else if in_contents (bitsize howto) contents off
       then bfd_get big (bitsize howto) contents (Z.to_nat off) else None.
Definition put_field (howto : reloc_howto_type) (val : Z) (contents : list Z) (off : Z) : option (list Z) :=
  if riscv_is_insn_reloc howto then riscv_put_insn (bitsize howto) val contents off
  else if in_contents (bitsize howto) contents off
       then bfd_put big (bitsize howto) val contents (Z.to_nat off) else None.

(** ** LEB128 numbers (bfd/libbfd.c) *)

(** [_bfd_read_unsigned_leb128]: the value and the number of bytes; [None] if
    it runs off the buffer. *)
Fixpoint read_leb128_loop (buf : list Z) (result shift : Z) (num_read : nat) : option (Z * nat) :=
  match buf with
  | [] => None
  | byte :: buf =>
      let '(result, shift) :=
        if shift <? 64 then (result .| ((byte .& 0x7f) <<u shift), shift + 7) else (result, shift) in
      if byte .& 0x80 =? 0 then Some (result, S num_read)
      else read_leb128_loop buf result shift (S num_read)
  end.
Definition _bfd_read_unsigned_leb128 (buf : list Z) : option (Z * nat) := read_leb128_loop buf 0 0 0.

(** [_bfd_write_unsigned_leb128 (p, end, val)] in [buf]: the buffer and the
    position behind the number, or no position if it does not fit.  Ten bytes
    hold 64 bits. *)
Fixpoint write_leb128_loop (fuel : nat) (buf : list Z) (p end_ : nat) (val : Z) : list Z * option nat :=
  match fuel with
  | O => (buf, None)
  | S fuel =>
      if (end_ <? p)%nat then (buf, None)
      else
        let c := val .& 0x7f in
        let val := val >> 7 in
        let c := if val =? 0 then c else c .| 0x80 in
        let buf := <[p := c]> buf in
        if val =? 0 then (buf, Some (S p)) else write_leb128_loop fuel buf (S p) end_ val
  end.
Definition _bfd_write_unsigned_leb128 (buf : list Z) (p end_ : nat) (val : Z) : list Z * option nat :=
  write_leb128_loop 10 buf p end_ val.

(** The loop that counts the bytes of the new number. *)
Fixpoint leb128_length (fuel : nat) (val_t : Z) : nat :=
  match fuel with
  | O => 0
  | S fuel => let val_t := val_t >> 7 in S (if val_t =? 0 then 0 else leb128_length fuel val_t)
  end.

(** The case of R_RISCV_SUB_ULEB128; the length is taken of [(unsigned int)
    value], and [None] also stands for going on with a null pointer when the
    number does not fit after all. *)
Definition relocate_uleb128 (value : Z) (contents : list Z) (off : Z)
  : option (bfd_reloc_status_type * list Z) :=
  let p := Z.to_nat off in
  match _bfd_read_unsigned_leb128 (drop p contents) with
  | None => None
  | Some (_, len) =>
      let endp := (p + len - 1)%nat in
      let contents := <[endp := 0]> (putb (replicate (len - 1) 0x80) contents p) in
      if (len <? leb128_length 5 (u32 value))%nat then Some (bfd_reloc_dangerous, contents)
      else
        match _bfd_write_unsigned_leb128 contents p endp value with
        | (_, None) => None
        | (contents, Some p) =>
            let p := (p - 1)%nat in
            Some (bfd_reloc_ok, if (p <? endp)%nat then alter (fun b => b .| 0x80) p contents else contents)
        end
  end.

(** ** Relocating *)

(** What the [switch] of [perform_relocation] makes of the value: the bits to
    put into the field and the contents, or the status to return. *)
Definition relocation_bits (howto : reloc_howto_type) (rel : Elf_Internal_Rela) (value : Z)
    (contents : list Z) : option (Z * list Z + bfd_reloc_status_type * list Z) :=
  let checked ok bits := Some (if ok : bool then inl (bits, contents) else inr (bfd_reloc_overflow, contents)) in
  let hi := RISCV_CONST_HIGH_PART value in
  let hi_ok := negb arch64 || VALID_UTYPE_IMM hi in
  match ELFNN_R_TYPE (r_info rel) with
  | R_RISCV_HI20 | R_RISCV_TPREL_HI20 | R_RISCV_PCREL_HI20 | R_RISCV_GOT_HI20
  | R_RISCV_TLS_GOT_HI20 | R_RISCV_TLS_GD_HI20 => checked hi_ok (ENCODE_UTYPE_IMM hi)
  | R_RISCV_LO12_I | R_RISCV_GPREL_I | R_RISCV_TPREL_LO12_I | R_RISCV_TPREL_I
  | R_RISCV_PCREL_LO12_I => checked true (ENCODE_ITYPE_IMM value)
  | R_RISCV_LO12_S | R_RISCV_GPREL_S | R_RISCV_TPREL_LO12_S | R_RISCV_TPREL_S
  | R_RISCV_PCREL_LO12_S => checked true (ENCODE_STYPE_IMM value)
  | R_RISCV_CALL | R_RISCV_CALL_PLT =>
      checked hi_ok (ENCODE_UTYPE_IMM hi .| (ENCODE_ITYPE_IMM value <<u 32))
  | R_RISCV_JAL => checked (VALID_JTYPE_IMM value) (ENCODE_JTYPE_IMM value)
  | R_RISCV_BRANCH => checked (VALID_BTYPE_IMM value) (ENCODE_BTYPE_IMM value)
  | R_RISCV_RVC_BRANCH => checked (VALID_CBTYPE_IMM value) (ENCODE_CBTYPE_IMM value)
  | R_RISCV_RVC_JUMP => checked (VALID_CJTYPE_IMM value) (ENCODE_CJTYPE_IMM value)
  | R_RISCV_RVC_LUI =>
      if hi =? 0 then
        (* c.lui does not take zero: it becomes c.li *)
        match riscv_get_insn (bitsize howto) contents (r_offset rel) with
        | None => None
        | Some insn =>
            (fun contents => inl (ENCODE_CITYPE_IMM 0, contents))
            <$> riscv_put_insn (bitsize howto) ((insn .& u64 (Z.lnot MATCH_C_LUI)) .| MATCH_C_LI)
                  contents (r_offset rel)
        end
      else checked (VALID_CITYPE_LUI_IMM hi) (ENCODE_CITYPE_LUI_IMM hi)
  | R_RISCV_SUB_ULEB128 => inr <$> relocate_uleb128 value contents (r_offset rel)
  | R_RISCV_32 | R_RISCV_64 | R_RISCV_ADD8 | R_RISCV_ADD16 | R_RISCV_ADD32 | R_RISCV_ADD64
  | R_RISCV_SUB6 | R_RISCV_SUB8 | R_RISCV_SUB16 | R_RISCV_SUB32 | R_RISCV_SUB64
  | R_RISCV_SET6 | R_RISCV_SET8 | R_RISCV_SET16 | R_RISCV_SET32 | R_RISCV_32_PCREL
  | R_RISCV_TLS_DTPREL32 | R_RISCV_TLS_DTPREL64 => checked true value
  | R_RISCV_DELETE => Some (inr (bfd_reloc_ok, contents))
  | _ => Some (inr (bfd_reloc_notsupported, contents))
  end.

(** [perform_relocation]; [sec_addr] is the address of the input section. *)
Definition perform_relocation (sec_addr : Z) (howto : reloc_howto_type) (rel : Elf_Internal_Rela)
    (value : Z) (contents : list Z) : option (bfd_reloc_status_type * list Z) :=
  let value := if pc_relative howto then u64 (value - u64 (sec_addr + r_offset rel)) else value in
  let value := if ELFNN_R_TYPE (r_info rel) =? R_RISCV_SUB_ULEB128 then value
               else u64 (value + r_addend rel) in
  match relocation_bits howto rel value contents with
  | None => None
  | Some (inr r) => Some r
  | Some (inl (value, contents)) =>
      match get_field howto contents (r_offset rel) with
      | None => None
      | Some word =>
          let word := (word .& u64 (Z.lnot (dst_mask howto))) .| (value .& dst_mask howto) in
          (bfd_reloc_ok,.) <$> put_field howto word contents (r_offset rel)
      end
  end.

(** ** Offsets of thread-local symbols *)

Definition TP_OFFSET : Z := 0.
Definition DTP_OFFSET : Z := 0x800.

Definition dtpoff (tls_sec : option Z) (address : Z) : Z :=
  match tls_sec with None => 0 | Some vma => u64 (address - vma - DTP_OFFSET) end.
Definition tpoff (tls_sec : option Z) (address : Z) : Z :=
  match tls_sec with None => 0 | Some vma => u64 (address - vma - TP_OFFSET) end.

(** ** High and low parts of PC-relative addresses *)

Record riscv_pcrel_hi_reloc : Set := mk_hi { hi_value : Z; hi_type : Z }.

(** The section, its relocation and the contents are those of the call. *)
Record riscv_pcrel_lo_reloc : Set := mk_lo {
  lo_address : Z;
  lo_reloc : Elf_Internal_Rela;
  lo_howto : reloc_howto_type;
}.

(** The hash table, by address, and the list of low parts, the latest first. *)
Record riscv_pcrel_relocs : Type := mk_pcrel_relocs {
  hi_relocs : gmap Z riscv_pcrel_hi_reloc;
  lo_relocs : list riscv_pcrel_lo_reloc;
}.

Definition riscv_init_pcrel_relocs : riscv_pcrel_relocs := mk_pcrel_relocs ∅ [].

(** [riscv_zero_pcrel_hi_reloc]: auipc becomes lui if only the address itself
    is in reach; the relocation and the contents if it did. *)
Definition riscv_zero_pcrel_hi_reloc (link_pic : bool) (rel : Elf_Internal_Rela) (pc addr : Z)
    (contents : list Z) (howto : reloc_howto_type) : option (option (Elf_Internal_Rela * list Z)) :=
  let offset := u64 (addr - pc) in
  if link_pic then Some None
  else if negb arch64 || VALID_UTYPE_IMM (RISCV_CONST_HIGH_PART offset) then Some None
  else if arch64 && negb (VALID_UTYPE_IMM (RISCV_CONST_HIGH_PART addr)) then Some None
  else
    let rel := mk_rela (r_offset rel) (ELFNN_R_INFO addr R_RISCV_HI20) (r_addend rel) in
    match riscv_get_insn (bitsize howto) contents (r_offset rel) with
    | None => None
    | Some insn =>
        (fun contents => Some (rel, contents))
        <$> riscv_put_insn (bitsize howto) ((insn .& u64 (Z.lnot MASK_AUIPC)) .| MATCH_LUI)
              contents (r_offset rel)
    end.

(** [riscv_record_pcrel_hi_reloc], without the failure of the allocator; an
    entry for the address overwrites the old one, which its BFD_ASSERT reports
    ([slot_empty]; the message is added where the function is called). *)
Definition slot_empty (p : riscv_pcrel_relocs) (addr : Z) : bool :=
  match hi_relocs p !! addr with Some _ => false | None => true end.

Definition riscv_record_pcrel_hi_reloc (p : riscv_pcrel_relocs) (addr value type : Z) (absolute : bool)
  : riscv_pcrel_relocs :=
  mk_pcrel_relocs (<[addr := mk_hi (if absolute then value else u64 (value - addr)) type]> (hi_relocs p))
    (lo_relocs p).

Definition riscv_record_pcrel_lo_reloc (p : riscv_pcrel_relocs) (addr : Z) (reloc : Elf_Internal_Rela)
    (howto : reloc_howto_type) : riscv_pcrel_relocs :=
  mk_pcrel_relocs (hi_relocs p) (mk_lo addr reloc howto :: lo_relocs p).

Inductive pcrel_lo_error : Set :=
| PL_missing_hi | PL_got_addend | PL_addend_overflow (hi hi_addend : Z).

(** The test of one low part: its value or the message. *)
Definition pcrel_lo_check (p : riscv_pcrel_relocs) (r : riscv_pcrel_lo_reloc)
  : pcrel_lo_error + Z :=
  match hi_relocs p !! lo_address r with
  | None => inl PL_missing_hi
  | Some entry =>
      let hi := RISCV_CONST_HIGH_PART (hi_value entry) in
      let hi' := RISCV_CONST_HIGH_PART (u64 (hi_value entry + r_addend (lo_reloc r))) in
      if (hi_type entry =? R_RISCV_GOT_HI20) && negb (r_addend (lo_reloc r) =? 0) then inl PL_got_addend
      else if negb (hi =? hi') then inl (PL_addend_overflow hi hi')
      else inr (hi_value entry)
  end.

(** [riscv_resolve_pcrel_lo_relocs]: the contents and the message it stopped
    with, at the offset of the relocation. *)
Fixpoint resolve_lo_loop (sec_addr : Z) (p : riscv_pcrel_relocs) (rs : list riscv_pcrel_lo_reloc)
    (contents : list Z) : option (list Z * option (pcrel_lo_error * Z)) :=
  match rs with
  | [] => Some (contents, None)
  | r :: rs =>
      match pcrel_lo_check p r with
      | inl e => Some (contents, Some (e, r_offset (lo_reloc r)))
      | inr value =>
          match perform_relocation sec_addr (lo_howto r) (lo_reloc r) value contents with
          | None => None
          | Some (_, contents) => resolve_lo_loop sec_addr p rs contents
          end
      end
  end.
Definition riscv_resolve_pcrel_lo_relocs (sec_addr : Z) (p : riscv_pcrel_relocs) (contents : list Z)
  : option (list Z * option (pcrel_lo_error * Z)) :=
  resolve_lo_loop sec_addr p (lo_relocs p) contents.

End arch.
