(* ===== verification/LinkRelocSpec.v ===== *)
(** * Properties of the linker's static relocations

    A relocation puts its value into the field of the instruction and nowhere
    else, refuses exactly the values that do not fit, and the pairs of high and
    low parts reach their targets. *)
From Stdlib Require Import ZArith Bool Lia.
From stdpp Require Import base list gmap.
From S2P Require Import Prelude OpcodeH RiscvH Immediates Words OpcodeMatch Bytes Howto Fixups FixupsSpec LinkReloc.

#[local] Open Scope Z_scope.
#[local] Open Scope c_scope.
#[local] Open Scope list_scope.

(** ** Relocations of one immediate *)

(** What part of the value goes into the instruction. *)
Inductive part : Set := P_hi | P_lo | P_exact.

Definition hi_types : list Z :=
  [R_RISCV_HI20; R_RISCV_TPREL_HI20; R_RISCV_PCREL_HI20; R_RISCV_GOT_HI20; R_RISCV_TLS_GOT_HI20;
   R_RISCV_TLS_GD_HI20].
Definition lo_i_types : list Z :=
  [R_RISCV_LO12_I; R_RISCV_GPREL_I; R_RISCV_TPREL_LO12_I; R_RISCV_TPREL_I; R_RISCV_PCREL_LO12_I].
Definition lo_s_types : list Z :=
  [R_RISCV_LO12_S; R_RISCV_GPREL_S; R_RISCV_TPREL_LO12_S; R_RISCV_TPREL_S; R_RISCV_PCREL_LO12_S].

(** The types of relocations of one immediate, with its format. *)
Definition insn_relocs : list (Z * imm_format * part) :=
  map (fun r => (r, fmt_UTYPE_IMM, P_hi)) hi_types
  ++ map (fun r => (r, fmt_ITYPE_IMM, P_lo)) lo_i_types
  ++ map (fun r => (r, fmt_STYPE_IMM, P_lo)) lo_s_types
  ++ [(R_RISCV_JAL, fmt_JTYPE_IMM, P_exact); (R_RISCV_BRANCH, fmt_BTYPE_IMM, P_exact);
      (R_RISCV_RVC_BRANCH, fmt_CBTYPE_IMM, P_exact); (R_RISCV_RVC_JUMP, fmt_CJTYPE_IMM, P_exact)].

(** The immediate for the value [v], as a signed number. *)
Definition part_of (p : part) (v : Z) : Z :=
  match p with P_hi => hi_part v | P_lo => lo_part v | P_exact => s64 v end.

(** The values that fit. *)
Definition fits (arch64 : bool) (p : part) (f : imm_format) (v : Z) : Prop :=
  match p with
  | P_hi => arch64 = true -> - 2 ^ 31 <= s64 (v + 2048) < 2 ^ 31
  | P_lo => True
  | P_exact => in_range (fmt_kind f) (s64 v)
  end.

(** The value a relocation puts in place. *)
Definition relocated (sec_addr : Z) (howto : reloc_howto_type) (rel : Elf_Internal_Rela) (value : Z) : Z :=
  value - (if pc_relative howto then sec_addr + r_offset rel else 0) + r_addend rel.

Lemma insn_relocs_format r f p : In (r, f, p) insn_relocs -> In f imm_formats.
Proof.
  intros H. assert (In f [fmt_UTYPE_IMM; fmt_ITYPE_IMM; fmt_STYPE_IMM; fmt_JTYPE_IMM; fmt_BTYPE_IMM;
    fmt_CBTYPE_IMM; fmt_CJTYPE_IMM]).
  { cbn [insn_relocs hi_types lo_i_types lo_s_types map app In] in H. cbn [In].
    repeat destruct H as [[= <- <- <-]|H]; tauto. }
  cbn [In] in *. repeat destruct H0 as [<-|H0]; [..|done]; unfold imm_formats; in_list.
Qed.

(** The howtos of these types. *)
Definition howto_fits (e : Z * imm_format * part) : bool :=
  match riscv_elf_rtype_to_howto e.1.1 with
  | Some h => riscv_is_insn_reloc h && existsb (Nat.eqb (bitsize h)) [16; 32]%nat
              && (dst_mask h =? fmt_encode e.1.2 (-1)) && (dst_mask h <? 2 ^ Z.of_nat (bitsize h))
  | None => false
  end.

Lemma insn_relocs_howto r f p howto :
  In (r, f, p) insn_relocs -> riscv_elf_rtype_to_howto r = Some howto ->
  riscv_is_insn_reloc howto = true /\ (bitsize howto = 16%nat \/ bitsize howto = 32%nat) /\
  dst_mask howto = fmt_encode f (-1) /\ dst_mask howto < 2 ^ Z.of_nat (bitsize howto).
Proof.
  intros Hin Hh. assert (Hall : forallb howto_fits insn_relocs = true) by (vm_compute; reflexivity).
  rewrite forallb_forall in Hall. specialize (Hall _ Hin). unfold howto_fits in Hall.
  cbn [fst snd] in Hall. rewrite Hh in Hall. breflect. split; [done|]. split; [|done].
  cbn [existsb] in *. rewrite !orb_true_iff, !Nat.eqb_eq in *. intuition congruence.
Qed.

(** The type of a relocation. *)
Lemma r_type_info arch64 s t : 0 <= t < 256 -> ELFNN_R_TYPE arch64 (ELFNN_R_INFO arch64 s t) = t.
Proof.
  intros Ht. destruct arch64; cbn [ELFNN_R_TYPE ELFNN_R_INFO].
  - unfold ELF64_R_TYPE, ELF64_R_INFO. change 0xffffffff with (Z.ones 32). rewrite Z.land_ones by lia.
    rewrite !Z.shiftl_mul_pow2 by lia. set (x := u64 s). unfold u64.
    change (2 ^ 31) with 2147483648. change (2 ^ 1) with 2. change (2 ^ 64) with 18446744073709551616.
    change (2 ^ 32) with 4294967296. clearbody x. Z.to_euclidean_division_equations. lia.
  - unfold ELF32_R_TYPE, ELF32_R_INFO. change 0xff with (Z.ones 8). rewrite !Z.land_ones by lia.
    rewrite !Z.shiftl_mul_pow2 by lia. set (x := u32 s). unfold u32.
    change (2 ^ 8) with 256. change (2 ^ 32) with 4294967296. clearbody x. Z.to_euclidean_division_equations. lia.
Qed.

(** ** Which values are refused *)

Lemma part_of_range p f v :
  fmt_kind f = match p with P_hi => Signed 12 32 | P_lo => Signed 0 12 | P_exact => fmt_kind f end ->
  - 2 ^ 63 <= part_of p v < 2 ^ 63 /\ (p <> P_exact -> in_range (fmt_kind f) (part_of p v)).
Proof.
  intros Hk. destruct p; cbn [part_of]; (split; [apply part_range64; lia|intros Hp]); try rewrite Hk;
    [apply hi_part_range|apply lo_part_range|by destruct Hp].
Qed.

Lemma valid_high_part v :
  VALID_UTYPE_IMM (RISCV_CONST_HIGH_PART (u64 v)) = true <-> - 2 ^ 31 <= s64 (v + 2048) < 2 ^ 31.
Proof.
  set (z := s64 (v + 2048) - (v + 2048) mod 4096).
  assert (Hz : - 2 ^ 63 <= z < 2 ^ 63) by (unfold z; u64_ring).
  assert (E : RISCV_CONST_HIGH_PART (u64 v) = u64 z).
  { rewrite const_high_part. unfold z. clear. u64_ring. }
  rewrite E. unfold VALID_UTYPE_IMM. rewrite Z.eqb_eq. destruct UTYPE_fmt as (-> & -> & Hf).
  rewrite imm_roundtrip_iff by done. cbn [in_range fmt_kind fmt_UTYPE_IMM]. unfold z.
  change (2 ^ 12) with 4096. split.
  - intros [H1 H2]. clear -H1 H2. u64_ring.
  - intros H. clear -H. u64_ring.
Qed.

Section bits.

Context (arch64 : bool) (howto : reloc_howto_type) (rel : Elf_Internal_Rela) (contents : list Z).

Abbreviation type := (ELFNN_R_TYPE arch64 (r_info rel)).

Definition checked (ok : bool) (bits : Z) : option (Z * list Z + bfd_reloc_status_type * list Z) :=
  Some (if ok then inl (bits, contents) else inr (bfd_reloc_overflow, contents)).

Lemma bits_hi x :
  In type hi_types ->
  relocation_bits arch64 howto rel x contents
  = checked (negb arch64 || VALID_UTYPE_IMM (RISCV_CONST_HIGH_PART x)) (ENCODE_UTYPE_IMM (RISCV_CONST_HIGH_PART x)).
Proof.
  unfold relocation_bits, checked. cbn [hi_types In]. intros H.
  repeat destruct H as [<-|H]; [reflexivity..|done].
Qed.

Lemma bits_lo_i x :
  In type lo_i_types -> relocation_bits arch64 howto rel x contents = checked true (ENCODE_ITYPE_IMM x).
Proof.
  unfold relocation_bits, checked. cbn [lo_i_types In]. intros H.
  repeat destruct H as [<-|H]; [reflexivity..|done].
Qed.

Lemma bits_lo_s x :
  In type lo_s_types -> relocation_bits arch64 howto rel x contents = checked true (ENCODE_STYPE_IMM x).
Proof.
  unfold relocation_bits, checked. cbn [lo_s_types In]. intros H.
  repeat destruct H as [<-|H]; [reflexivity..|done].
Qed.

Lemma bits_exact x :
  (type = R_RISCV_JAL -> relocation_bits arch64 howto rel x contents = checked (VALID_JTYPE_IMM x) (ENCODE_JTYPE_IMM x)) /\
  (type = R_RISCV_BRANCH -> relocation_bits arch64 howto rel x contents = checked (VALID_BTYPE_IMM x) (ENCODE_BTYPE_IMM x)) /\
  (type = R_RISCV_RVC_BRANCH ->
     relocation_bits arch64 howto rel x contents = checked (VALID_CBTYPE_IMM x) (ENCODE_CBTYPE_IMM x)) /\
  (type = R_RISCV_RVC_JUMP ->
     relocation_bits arch64 howto rel x contents = checked (VALID_CJTYPE_IMM x) (ENCODE_CJTYPE_IMM x)).
Proof. unfold relocation_bits, checked. split_and!; intros ->; reflexivity. Qed.

Lemma checked_exact (valid : Z -> bool) f v :
  In f imm_formats -> (forall x, valid x = (fmt_extract f (fmt_encode f x) =? x)) ->
  (fits arch64 P_exact f v /\
   checked (valid (u64 v)) (fmt_encode f (u64 v)) = Some (inl (fmt_encode f (u64 (s64 v)), contents))) \/
  (~ fits arch64 P_exact f v /\
   checked (valid (u64 v)) (fmt_encode f (u64 v)) = Some (inr (bfd_reloc_overflow, contents))).
Proof.
  intros Hf Hv. assert (Hs : - 2 ^ 63 <= s64 v < 2 ^ 63) by (apply part_range64; lia).
  assert (Eu : u64 (s64 v) = u64 v) by u64_ring.
  pose proof (imm_roundtrip_iff f (s64 v) Hf Hs) as Hr. rewrite Eu in *. unfold checked. rewrite Hv.
  cbn [fits]. destruct (Z.eqb_spec (fmt_extract f (fmt_encode f (u64 v))) (u64 v)) as [E|E]; [left|right];
    (split; [|reflexivity]); tauto.
Qed.

Lemma relocation_bits_insn v r f p :
  In (r, f, p) insn_relocs -> type = r ->
  (fits arch64 p f v /\
   relocation_bits arch64 howto rel (u64 v) contents = Some (inl (fmt_encode f (u64 (part_of p v)), contents))) \/
  (~ fits arch64 p f v /\
   relocation_bits arch64 howto rel (u64 v) contents = Some (inr (bfd_reloc_overflow, contents))).
Proof.
  intros Hin <-. unfold insn_relocs in Hin. rewrite !in_app_iff, !in_map_iff in Hin.
  destruct Hin as [(x & [= -> <- <-] & H)|[(x & [= -> <- <-] & H)|[(x & [= -> <- <-] & H)|H]]].
  - rewrite bits_hi, encode_hi by done. destruct UTYPE_fmt as (-> & _ & _). pose proof (valid_high_part v) as Hv.
    unfold checked. cbn [fits part_of].
    destruct (VALID_UTYPE_IMM (RISCV_CONST_HIGH_PART (u64 v))), arch64; cbn [negb orb]; [left|left|right|left];
      (split; [|reflexivity]); [tauto|done| |done]. intros K. specialize (proj2 Hv (K eq_refl)). done.
  - left. split; [done|]. rewrite bits_lo_i, encode_lo_i by done. destruct ITYPE_fmt as (-> & _ & _). reflexivity.
  - left. split; [done|]. rewrite bits_lo_s, encode_lo_s by done. reflexivity.
  - destruct (bits_exact (u64 v)) as (H1 & H2 & H3 & H4). cbn [part_of].
    cbn [In] in H. destruct H as [H|[H|[H|[H|[]]]]]; injection H as H <- <-.
    + rewrite H1 by done. destruct JTYPE_fmt as (EN & EX & Hf). rewrite EN.
      apply (checked_exact VALID_JTYPE_IMM fmt_JTYPE_IMM v Hf). intros x. unfold VALID_JTYPE_IMM.
      rewrite EN, EX. reflexivity.
    + rewrite H2 by done. destruct BTYPE_fmt as (EN & EX & Hf). rewrite EN.
      apply (checked_exact VALID_BTYPE_IMM fmt_BTYPE_IMM v Hf). intros x. unfold VALID_BTYPE_IMM.
      rewrite EN, EX. reflexivity.
    + rewrite H3 by done. destruct CBTYPE_fmt as (EN & EX & Hf). rewrite EN.
      apply (checked_exact VALID_CBTYPE_IMM fmt_CBTYPE_IMM v Hf). intros x. unfold VALID_CBTYPE_IMM.
      rewrite EN, EX. reflexivity.
    + rewrite H4 by done. destruct CJTYPE_fmt as (EN & EX & Hf). rewrite EN.
      apply (checked_exact VALID_CJTYPE_IMM fmt_CJTYPE_IMM v Hf). intros x. unfold VALID_CJTYPE_IMM.
      rewrite EN, EX. reflexivity.
Qed.

End bits.

(** ** One relocation *)

Lemma u64_lnot w m : 0 <= w < 2 ^ 64 -> w .& u64 (Z.lnot m) = Z.ldiff w m.
Proof.
  intros Hw. apply Z.bits_inj'. intros i Hi. rewrite Z.land_spec, Z.ldiff_spec.
  destruct (Z.lt_ge_cases i 64).
  - by rewrite u64_testbit_low, Z.lnot_spec by lia.
  - by rewrite (testbit_high w 64 i) by lia.
Qed.

Lemma lor_below k a b : 0 <= k -> 0 <= a < 2 ^ k -> 0 <= b < 2 ^ k -> 0 <= a .| b < 2 ^ k.
Proof.
  intros Hk Ha Hb. split; [apply Z.lor_nonneg; lia|]. apply bits_range; [done|apply Z.lor_nonneg; lia|].
  intros i Hi. rewrite Z.lor_spec, (testbit_high a k), (testbit_high b k) by lia. done.
Qed.

Lemma ldiff_below k a m : 0 <= k -> 0 <= a < 2 ^ k -> 0 <= Z.ldiff a m < 2 ^ k.
Proof.
  intros Hk Ha. split; [apply Z.ldiff_nonneg; left; lia|].
  apply bits_range; [done|apply Z.ldiff_nonneg; left; lia|].
  intros i Hi. rewrite Z.ldiff_spec, (testbit_high a k) by lia. done.
Qed.

Lemma ldiff_lor_field w m e : e .& m = e -> Z.ldiff (Z.ldiff w m .| e) m = Z.ldiff w m.
Proof.
  intros He. apply Z.bits_inj'. intros i Hi.
  apply (f_equal (fun x => Z.testbit x i)) in He. rewrite Z.land_spec in He.
  rewrite Z.ldiff_spec, Z.lor_spec, Z.ldiff_spec.
  destruct (Z.testbit w i), (Z.testbit m i), (Z.testbit e i); done.
Qed.

Lemma ldiff_field_clear w m : Z.ldiff w m .& m = 0.
Proof.
  apply Z.bits_inj'. intros i Hi. rewrite Z.land_spec, Z.ldiff_spec, Z.bits_0.
  by destruct (Z.testbit w i), (Z.testbit m i).
Qed.

(** The field of an instruction relocation lies in the contents. *)
Definition field_in (howto : reloc_howto_type) (rel : Elf_Internal_Rela) (contents : list Z) : Prop :=
  0 <= r_offset rel /\ r_offset rel + Z.of_nat (bitsize howto / 8) <= Z.of_nat (length contents) /\
  Forall (fun b => 0 <= b < 256) contents.

Abbreviation field_of howto rel contents := (getl (bitsize howto / 8) contents (Z.to_nat (r_offset rel))).

(** The bytes of [contents'] are those of [contents] but for [n] at [off]. *)
Definition same_outside (off n : nat) (contents contents' : list Z) : Prop :=
  length contents' = length contents /\ take off contents' = take off contents /\
  drop (off + n) contents' = drop (off + n) contents.

Lemma putl_same_outside n w contents off :
  (off + n <= length contents)%nat -> same_outside off n contents (putl n w contents off).
Proof.
  intros H. split; [by apply putl_length|]. unfold putl, putb. rewrite bytes_le_length.
  split.
  - rewrite take_app_le by (rewrite length_take; lia). rewrite take_take. f_equal. lia.
  - rewrite drop_app_ge by (rewrite length_take; lia). rewrite length_take.
    rewrite drop_app_ge by (rewrite bytes_le_length; lia). rewrite bytes_le_length, drop_drop. f_equal. lia.
Qed.

Lemma putl_bytes n w contents off :
  Forall (fun b => 0 <= b < 256) contents -> Forall (fun b => 0 <= b < 256) (putl n w contents off).
Proof.
  intros H. unfold putl, putb. rewrite !Forall_app. split_and!; [by apply Forall_take| |by apply Forall_drop].
  clear. revert w. induction n as [|n IH]; intros w; cbn [bytes_le]; constructor; [|apply IH].
  apply Z.mod_pos_bound. lia.
Qed.

Lemma perform_insn arch64 big sec_addr howto rel value contents r f p :
  In (r, f, p) insn_relocs -> ELFNN_R_TYPE arch64 (r_info rel) = r -> riscv_elf_rtype_to_howto r = Some howto ->
  field_in howto rel contents ->
  let v := relocated sec_addr howto rel value in
  let w := Z.ldiff (field_of howto rel contents) (fmt_encode f (-1)) .| fmt_encode f (u64 (part_of p v)) in
  let contents' := putl (bitsize howto / 8) w contents (Z.to_nat (r_offset rel)) in
  (fits arch64 p f v /\
   perform_relocation arch64 big sec_addr howto rel value contents = Some (bfd_reloc_ok, contents') /\
   field_of howto rel contents' = w) \/
  (~ fits arch64 p f v /\
   perform_relocation arch64 big sec_addr howto rel value contents = Some (bfd_reloc_overflow, contents)).
Proof.
  intros Hin Ht Hh (Ho & Hl & Hb). cbv zeta.
  destruct (insn_relocs_howto r f p howto Hin Hh) as (Hi & Hbits & Hmask & Hmr).
  pose proof (insn_relocs_format _ _ _ Hin) as Hf. destruct (imm_format_elim f Hf) as [Hok Hden].
  assert (Hnu : (r =? R_RISCV_SUB_ULEB128) = false).
  { cbn [insn_relocs hi_types lo_i_types lo_s_types map app In] in Hin.
    repeat destruct Hin as [[= <- _ _]|Hin]; [reflexivity..|done]. }
  set (v := relocated sec_addr howto rel value).
  assert (Ev : u64 ((if pc_relative howto then u64 (value - u64 (sec_addr + r_offset rel)) else value) + r_addend rel)
               = u64 v).
  { unfold v, relocated. destruct (pc_relative howto); u64_ring. }
  unfold perform_relocation. rewrite Ht, Hnu, Ev.
  destruct (relocation_bits_insn arch64 howto rel contents v r f p Hin Ht) as [[Hfit ->]|[Hfit ->]];
    [left|by right]. split; [done|].
  set (bits := fmt_encode f (u64 (part_of p v))). set (n := (bitsize howto / 8)%nat).
  assert (Hn : existsb (Nat.eqb (bitsize howto)) [16; 32; 64]%nat = true /\
    Z.of_nat (bitsize howto) = 8 * Z.of_nat n)
    by (unfold n; destruct Hbits as [-> | ->]; split; reflexivity).
  destruct Hn as [Hn H8]. set (w0 := getl n contents (Z.to_nat (r_offset rel))).
  assert (Hw0 : 0 <= w0 < 2 ^ (8 * Z.of_nat n)) by (by apply getl_range).
  assert (H64 : 2 ^ (8 * Z.of_nat n) <= 2 ^ 64)
    by (apply Z.pow_le_mono_r; [lia|]; rewrite <- H8; destruct Hbits as [-> | ->]; lia).
  assert (Hc : in_contents (bitsize howto) contents (r_offset rel) = true).
  { unfold in_contents. fold n. apply andb_true_iff. rewrite !Z.leb_le. unfold n. lia. }
  unfold get_field, put_field, riscv_get_insn, riscv_put_insn. rewrite Hi, Hn, Hc. cbn [andb]. fold n w0.
  rewrite u64_lnot, Hmask by lia.
  assert (Eb : bits .& fmt_encode f (-1) = bits) by (unfold bits; by rewrite format_encode_masked).
  rewrite Eb. split; [reflexivity|].
  rewrite getl_putl by lia. apply Z.mod_small. apply lor_below; [lia|by apply ldiff_below; [lia|]|].
  pose proof (encode_range f (u64 (part_of p v)) Hf) as Hr. fold bits in Hr. split; [lia|].
  rewrite Hmask in Hmr. rewrite <- H8. rewrite <- Eb.
  pose proof (land_le_r bits (fmt_encode f (-1)) ltac:(pose proof (encode_range f (-1) Hf); lia)). lia.
Qed.

(** What the field decodes to. *)
Lemma decoded_field arch64 w r f p v :
  In (r, f, p) insn_relocs -> fits arch64 p f v ->
  fmt_extract f (Z.ldiff w (fmt_encode f (-1)) .| fmt_encode f (u64 (part_of p v))) = u64 (part_of p v).
Proof.
  intros Hin Hfit. pose proof (insn_relocs_format _ _ _ Hin) as Hf.
  assert (Hk : fmt_kind f = match p with P_hi => Signed 12 32 | P_lo => Signed 0 12 | P_exact => fmt_kind f end).
  { cbn [insn_relocs hi_types lo_i_types lo_s_types map app In] in Hin.
    repeat destruct Hin as [[= <- <- <-]|Hin]; [reflexivity..|done]. }
  destruct (part_of_range p f v Hk) as [Hr Hir].
  apply extract_inserted; [done|done| |apply ldiff_field_clear].
  destruct p; [by apply Hir..|exact Hfit].
Qed.

(** ** The calls *)

Lemma getl_8 buf off :
  (off + 8 <= length buf)%nat -> getl 8 buf off = getl 4 buf off + 2 ^ 32 * getl 4 buf (off + 4).
Proof.
  intros H. unfold getl. rewrite <- drop_drop.
  assert (E : take 8 (drop off buf) = take 4 (drop off buf) ++ take 4 (drop 4 (drop off buf))).
  { rewrite <- (take_drop 4 (drop off buf)) at 1. rewrite take_app_ge by (rewrite length_take, length_drop; lia).
    rewrite length_take, length_drop. replace (8 - _)%nat with 4%nat by lia. done. }
  rewrite E, word_le_app, length_take, length_drop. replace (_ `min` _)%nat with 4%nat by lia. done.
Qed.

Lemma getl_halves buf off :
  Forall (fun b => 0 <= b < 256) buf -> (off + 8 <= length buf)%nat ->
  getl 4 buf off = getl 8 buf off mod 2 ^ 32 /\ getl 4 buf (off + 4) = getl 8 buf off / 2 ^ 32.
Proof.
  intros Hb H. pose proof (getl_8 buf off H) as E.
  pose proof (getl_range 4 buf off Hb) as R1. pose proof (getl_range 4 buf (off + 4) Hb) as R2.
  change (8 * Z.of_nat 4) with 32 in *. rewrite E.
  split; Z.to_euclidean_division_equations; lia.
Qed.

Lemma masked_halves w u i eu ei :
  0 <= u < 2 ^ 32 -> 0 <= i < 2 ^ 32 -> 0 <= eu < 2 ^ 32 -> 0 <= ei < 2 ^ 32 -> 0 <= w < 2 ^ 64 ->
  let w' := Z.ldiff w (u .| (i << 32)) .| (eu .| (ei << 32)) in
  w' mod 2 ^ 32 = Z.ldiff (w mod 2 ^ 32) u .| eu /\ w' / 2 ^ 32 = Z.ldiff (w / 2 ^ 32) i .| ei.
Proof.
  intros Hu Hi Heu Hei Hw. cbv zeta. split; apply Z.bits_inj'; intros j Hj.
  - destruct (Z.lt_ge_cases j 32).
    + rewrite Z.mod_pow2_bits_low by lia.
      rewrite !Z.lor_spec, !Z.ldiff_spec, !Z.lor_spec, !Z.shiftl_spec_low by lia.
      rewrite Z.mod_pow2_bits_low, !orb_false_r by lia. done.
    + rewrite Z.mod_pow2_bits_high by lia. rewrite Z.lor_spec, Z.ldiff_spec, Z.mod_pow2_bits_high by lia.
      rewrite (testbit_high eu 32) by lia. done.
  - rewrite <- !Z.shiftr_div_pow2 by lia. rewrite Z.shiftr_spec by lia.
    rewrite !Z.lor_spec, !Z.ldiff_spec, !Z.lor_spec, !Z.shiftl_spec by lia.
    rewrite Z.shiftr_spec by lia. replace (j + 32 - 32) with j by lia.
    rewrite (testbit_high u 32), (testbit_high eu 32) by lia. done.
Qed.

Definition call_types : list Z := [R_RISCV_CALL; R_RISCV_CALL_PLT].

Lemma bits_call arch64 howto rel contents x :
  In (ELFNN_R_TYPE arch64 (r_info rel)) call_types ->
  relocation_bits arch64 howto rel x contents
  = checked contents (negb arch64 || VALID_UTYPE_IMM (RISCV_CONST_HIGH_PART x))
      (ENCODE_UTYPE_IMM (RISCV_CONST_HIGH_PART x) .| (ENCODE_ITYPE_IMM x <<u 32)).
Proof.
  unfold relocation_bits, checked. cbn [call_types In]. intros H.
  repeat destruct H as [<-|H]; [reflexivity..|done].
Qed.

Definition call_howto_ok (r : Z) : bool :=
  match riscv_elf_rtype_to_howto r with
  | Some h => riscv_is_insn_reloc h && (bitsize h =? 64)%nat && pc_relative h
              && (dst_mask h =? (fmt_encode fmt_UTYPE_IMM (-1) .| (fmt_encode fmt_ITYPE_IMM (-1) << 32)))
  | None => false
  end.

Lemma call_howto r howto :
  In r call_types -> riscv_elf_rtype_to_howto r = Some howto ->
  riscv_is_insn_reloc howto = true /\ bitsize howto = 64%nat /\ pc_relative howto = true /\
  dst_mask howto = fmt_encode fmt_UTYPE_IMM (-1) .| (fmt_encode fmt_ITYPE_IMM (-1) << 32).
Proof.
  intros Hin Hh. assert (Hall : forallb call_howto_ok call_types = true) by (vm_compute; reflexivity).
  rewrite forallb_forall in Hall. specialize (Hall _ Hin). unfold call_howto_ok in Hall.
  rewrite Hh in Hall. breflect. split_and!; try done. by apply Nat.eqb_eq.
Qed.

Lemma land_halves eu ei u i :
  0 <= u < 2 ^ 32 -> 0 <= eu < 2 ^ 32 -> eu .& u = eu -> ei .& i = ei ->
  (eu .| (ei << 32)) .& (u .| (i << 32)) = eu .| (ei << 32).
Proof.
  intros Hu Heu E1 E2. apply Z.bits_inj'. intros j Hj.
  apply (f_equal (fun x => Z.testbit x j)) in E1. apply (f_equal (fun x => Z.testbit x (j - 32))) in E2.
  rewrite Z.land_spec in E1, E2. rewrite Z.land_spec, !Z.lor_spec, !Z.shiftl_spec by lia.
  destruct (Z.lt_ge_cases j 32).
  - rewrite !(Z.testbit_neg_r _ (j - 32)) by lia. by rewrite !orb_false_r.
  - rewrite (testbit_high eu 32), (testbit_high u 32) by lia. done.
Qed.

(** An auipc and jalr with a call relocation. *)
Lemma perform_call arch64 big sec_addr howto rel value contents :
  In (ELFNN_R_TYPE arch64 (r_info rel)) call_types ->
  riscv_elf_rtype_to_howto (ELFNN_R_TYPE arch64 (r_info rel)) = Some howto ->
  field_in howto rel contents ->
  let v := value - (sec_addr + r_offset rel) + r_addend rel in
  let off := Z.to_nat (r_offset rel) in
  (fits arch64 P_hi fmt_UTYPE_IMM v /\
   exists contents', perform_relocation arch64 big sec_addr howto rel value contents = Some (bfd_reloc_ok, contents') /\
     same_outside off 8 contents contents' /\ Forall (fun b => 0 <= b < 256) contents' /\
     getl 4 contents' off = Z.ldiff (getl 4 contents off) (fmt_encode fmt_UTYPE_IMM (-1))
                            .| fmt_encode fmt_UTYPE_IMM (u64 (hi_part v)) /\
     getl 4 contents' (off + 4) = Z.ldiff (getl 4 contents (off + 4)) (fmt_encode fmt_ITYPE_IMM (-1))
                                  .| fmt_encode fmt_ITYPE_IMM (u64 (lo_part v))) \/
  (~ fits arch64 P_hi fmt_UTYPE_IMM v /\
   perform_relocation arch64 big sec_addr howto rel value contents = Some (bfd_reloc_overflow, contents)).
Proof.
  intros Hin Hh (Ho & Hl & Hb). cbv zeta.
  destruct (call_howto _ howto Hin Hh) as (Hi & Hbits & Hpc & Hmask). rewrite Hbits in Hl.
  change (Z.of_nat (64 / 8)) with 8 in Hl. set (off := Z.to_nat (r_offset rel)).
  assert (Hnu : (ELFNN_R_TYPE arch64 (r_info rel) =? R_RISCV_SUB_ULEB128) = false)
    by (cbn [call_types In] in Hin; destruct Hin as [<-|[<-|[]]]; reflexivity).
  set (v := value - (sec_addr + r_offset rel) + r_addend rel).
  assert (Ev : u64 (u64 (value - u64 (sec_addr + r_offset rel)) + r_addend rel) = u64 v)
    by (unfold v; u64_ring).
  unfold perform_relocation. rewrite Hnu, Hpc, Ev, bits_call by done. rewrite encode_hi, encode_lo_i.
  destruct UTYPE_fmt as (EU & _ & HfU). destruct ITYPE_fmt as (EI & _ & HfI). rewrite EU, EI.
  set (eu := fmt_encode fmt_UTYPE_IMM (u64 (hi_part v))). set (ei := fmt_encode fmt_ITYPE_IMM (u64 (lo_part v))).
  set (u := fmt_encode fmt_UTYPE_IMM (-1)) in *. set (i := fmt_encode fmt_ITYPE_IMM (-1)) in *.
  assert (Ru : 0 <= u < 2 ^ 32) by (by apply encode_range). assert (Ri : 0 <= i < 2 ^ 32) by (by apply encode_range).
  assert (Reu : 0 <= eu < 2 ^ 32) by (by apply encode_range). assert (Rei : 0 <= ei < 2 ^ 32) by (by apply encode_range).
  assert (Eu : eu .& u = eu) by (by apply format_encode_masked; apply imm_format_elim).
  assert (Ei : ei .& i = ei) by (by apply format_encode_masked; apply imm_format_elim).
  assert (Es : ei <<u 32 = ei << 32).
  { apply u64_small. rewrite Z.shiftl_mul_pow2 by lia. lia. }
  unfold checked. cbn [fits]. pose proof (valid_high_part v) as Hv.
  destruct (negb arch64 || VALID_UTYPE_IMM (RISCV_CONST_HIGH_PART (u64 v))) eqn:Eok; [left|right].
  2: { split; [|done]. apply orb_false_iff in Eok as [Ea Eok]. apply negb_false_iff in Ea. intros H.
       apply H, Hv in Ea. congruence. }
  split; [apply orb_true_iff in Eok; intros ->; destruct Eok as [?|Hq]; [done|by apply Hv]|].
  assert (Hc : in_contents 64 contents (r_offset rel) = true).
  { unfold in_contents. change (Z.of_nat (64 / 8)) with 8. apply andb_true_iff. rewrite !Z.leb_le. lia. }
  unfold get_field, put_field, riscv_get_insn, riscv_put_insn. rewrite Hi, Hbits, Hc. cbn [andb existsb Nat.eqb orb].
  change (64 / 8)%nat with 8%nat. fold off. set (w := getl 8 contents off).
  assert (Rw : 0 <= w < 2 ^ 64) by (apply (getl_range 8); done).
  rewrite u64_lnot, Hmask, Es, land_halves by done.
  destruct (masked_halves w u i eu ei) as [M1 M2]; try done.
  destruct (getl_halves contents off Hb) as [G1 G2]; [unfold off; lia|]. fold w in G1, G2.
  set (w' := Z.ldiff w _ .| _) in *.
  assert (Rw' : 0 <= w' < 2 ^ 64).
  { assert (0 <= (ei << 32) < 2 ^ 64) by (rewrite Z.shiftl_mul_pow2 by lia; lia).
    apply lor_below; [lia|apply ldiff_below; lia|apply lor_below; lia]. }
  eexists. split; [reflexivity|].
  assert (Hb' : Forall (fun b => 0 <= b < 256) (putl 8 w' contents off)) by (by apply putl_bytes).
  destruct (getl_halves (putl 8 w' contents off) off Hb') as [K1 K2]; [rewrite putl_length; unfold off; lia|].
  assert (K : getl 8 (putl 8 w' contents off) off = w')
    by (rewrite getl_putl by (unfold off; lia); by apply Z.mod_small).
  rewrite K in K1, K2. split; [apply putl_same_outside; unfold off; lia|]. split; [done|].
  rewrite K1, K2, M1, M2, G1, G2. done.
Qed.

(** ** Pairs of a high part and low parts *)

Lemma hi_part_high v : hi_part v = s32 (RISCV_CONST_HIGH_PART (u64 v)).
Proof. rewrite const_high_part. unfold hi_part, s32. u64_ring. Qed.

(** An addend that does not carry into the high part. *)
Lemma high_low_target arch64 v a :
  RISCV_CONST_HIGH_PART (u64 v) = RISCV_CONST_HIGH_PART (u64 (v + a)) ->
  fits arch64 P_hi fmt_UTYPE_IMM v ->
  u32 (u64 (hi_part v) + u64 (lo_part (v + a))) = u32 (v + a) /\
  (arch64 = true -> u64 (u64 (hi_part v) + u64 (lo_part (v + a))) = u64 (v + a)).
Proof.
  intros HE Hfit.
  assert (Eh : hi_part v = hi_part (v + a)) by (rewrite !hi_part_high; congruence).
  rewrite Eh. destruct (hi_lo_sum (v + a)) as [H1 _]. split; [done|]. intros Ha.
  specialize (Hfit Ha). apply valid_high_part in Hfit. rewrite HE in Hfit. apply valid_high_part in Hfit.
  assert (H2 : - 2 ^ 31 <= s64 (v + a) + 2048 < 2 ^ 31 ->
    hi_part (s64 (v + a)) + lo_part (s64 (v + a)) = s64 (v + a)).
  { generalize (s64 (v + a)). clear. intros x Hx. unfold hi_part, lo_part, s32. u64_ring. }
  assert (Hp : hi_part (s64 (v + a)) = hi_part (v + a) /\ lo_part (s64 (v + a)) = lo_part (v + a)).
  { unfold hi_part, lo_part, s32. clear. split; u64_ring. }
  destruct Hp as [Hp1 Hp2]. rewrite Hp1, Hp2 in H2.
  assert (Hr : - 2 ^ 31 <= s64 (v + a) + 2048 < 2 ^ 31) by (clear -Hfit; u64_ring).
  specialize (H2 Hr). clear -H2. u64_ring.
Qed.

Definition lo_format (r_type : Z) : option imm_format :=
  match r_type with
  | R_RISCV_PCREL_LO12_I => Some fmt_ITYPE_IMM
  | R_RISCV_PCREL_LO12_S => Some fmt_STYPE_IMM
  | _ => None
  end.

Section pcrel.

Context (arch64 big : bool) (sec_addr : Z).

Abbreviation rtype r := (ELFNN_R_TYPE arch64 (r_info (lo_reloc r))).
Abbreviation offset r := (Z.to_nat (r_offset (lo_reloc r))).

(** A recorded low part of the section. *)
Record lo_ok (size : nat) (r : riscv_pcrel_lo_reloc) (f : imm_format) : Prop := {
  lk_format : lo_format (rtype r) = Some f;
  lk_howto : riscv_elf_rtype_to_howto (rtype r) = Some (lo_howto r);
  lk_in : 0 <= r_offset (lo_reloc r) /\ r_offset (lo_reloc r) + 4 <= Z.of_nat size;
}.

Definition apart (x y : nat) : Prop := (x + 4 <= y \/ y + 4 <= x)%nat.

Lemma lo_in_relocs size r f :
  lo_ok size r f -> In (rtype r, f, P_lo) insn_relocs /\ bitsize (lo_howto r) = 32%nat /\
  pc_relative (lo_howto r) = false.
Proof.
  intros [Hf Hh _]. revert Hf Hh. unfold lo_format.
  assert (Hc : rtype r = R_RISCV_PCREL_LO12_I \/ rtype r = R_RISCV_PCREL_LO12_S \/
    match rtype r with R_RISCV_PCREL_LO12_I | R_RISCV_PCREL_LO12_S => False | _ => True end).
  { destruct (decide (rtype r = R_RISCV_PCREL_LO12_I)); [auto|].
    destruct (decide (rtype r = R_RISCV_PCREL_LO12_S)); [auto|]. right. right. repeat split_match; try done; congruence. }
  destruct Hc as [->|[->|Hc]].
  - intros [= <-]. generalize (lo_howto r). intros h Hh. vm_compute in Hh. injection Hh as <-. split_and!; [|done|done].
    cbn [insn_relocs hi_types lo_i_types lo_s_types map app]. in_list.
  - intros [= <-]. generalize (lo_howto r). intros h Hh. vm_compute in Hh. injection Hh as <-. split_and!; [|done|done].
    cbn [insn_relocs hi_types lo_i_types lo_s_types map app]. in_list.
  - repeat split_match; done.
Qed.

(** One low part. *)
Lemma perform_lo r f value contents :
  lo_ok (length contents) r f -> Forall (fun b => 0 <= b < 256) contents ->
  exists contents', perform_relocation arch64 big sec_addr (lo_howto r) (lo_reloc r) value contents
    = Some (bfd_reloc_ok, contents') /\
    length contents' = length contents /\ Forall (fun b => 0 <= b < 256) contents' /\
    fmt_extract f (getl 4 contents' (offset r)) = u64 (lo_part (value + r_addend (lo_reloc r))) /\
    forall x, apart (offset r) x -> getl 4 contents' x = getl 4 contents x.
Proof.
  intros Hok Hb. destruct (lo_in_relocs _ _ _ Hok) as (Hin & Hbits & Hpc). destruct Hok as [Hf Hh [H1 H2]].
  assert (Hfi : field_in (lo_howto r) (lo_reloc r) contents).
  { split_and!; [done| |done]. rewrite Hbits. change (Z.of_nat (32 / 8)) with 4. lia. }
  destruct (perform_insn arch64 big sec_addr (lo_howto r) (lo_reloc r) value contents _ f P_lo Hin eq_refl Hh Hfi)
    as [(Hfit & Hp & Hw)|[Hn _]]; [|by destruct Hn].
  rewrite Hbits in Hp, Hw. change (32 / 8)%nat with 4%nat in Hp, Hw.
  assert (Ev : relocated sec_addr (lo_howto r) (lo_reloc r) value = value + r_addend (lo_reloc r))
    by (unfold relocated; rewrite Hpc; lia).
  rewrite Ev in *. eexists. split; [exact Hp|]. split; [apply putl_length; lia|]. split; [by apply putl_bytes|].
  split; [|intros x Hx; apply getl_disjoint; [done|lia]].
  rewrite Hw. by apply (decoded_field arch64 _ (rtype r) f P_lo).
Qed.

Lemma resolve_loop p rs : forall fs contents,
  Forall2 (lo_ok (length contents)) rs fs -> ForallOrdPairs (fun r r' => apart (offset r) (offset r')) rs ->
  Forall (fun b => 0 <= b < 256) contents ->
  exists contents' e, resolve_lo_loop arch64 big sec_addr p rs contents = Some (contents', e) /\
    (e = None <-> Forall (fun r => is_Some (match pcrel_lo_check p r with inr v => Some v | inl _ => None end)) rs) /\
    (forall x, (forall r, In r rs -> apart (offset r) x) -> getl 4 contents' x = getl 4 contents x) /\
    (e = None -> Forall2 (fun r f => forall v, pcrel_lo_check p r = inr v ->
       fmt_extract f (getl 4 contents' (offset r)) = u64 (lo_part (v + r_addend (lo_reloc r)))) rs fs).
Proof.
  induction rs as [|r rs IH]; intros fs contents Hok Hd Hb; cbn [resolve_lo_loop].
  { exists contents, None. inversion Hok; subst. repeat split; try done; constructor. }
  inversion Hok as [|? f ? fs' Hr Hrs]; subst. inversion Hd as [|? ? Hr' Hd']; subst.
  destruct (pcrel_lo_check p r) as [err|v] eqn:Ec.
  { eexists _, _. split; [reflexivity|]. split_and!; [|done|done]. split; [done|]. intros H.
    inversion H as [|? ? Hs]; subst. rewrite Ec in Hs. by destruct Hs. }
  destruct (perform_lo r f v contents Hr Hb) as (c1 & -> & Hl1 & Hb1 & Hx1 & Ho1).
  rewrite <- Hl1 in Hrs. destruct (IH fs' c1 Hrs Hd' Hb1) as (c2 & e & -> & He & Ho2 & Hx2).
  eexists _, _. split; [reflexivity|]. split_and!.
  - rewrite He. rewrite Forall_cons, Ec. split; [intros H; split; [by eexists|done]|by intros [_ H]].
  - intros x Hx. rewrite Ho2 by (intros; apply Hx; by right). apply Ho1, Hx. by left.
  - intros Hn. constructor; [|by apply Hx2]. intros v' Ev. assert (v' = v) as -> by congruence.
    rewrite Ho2; [done|]. intros r' Hr1. rewrite Forall_forall in Hr'.
    specialize (Hr' r' ltac:(by apply list_elem_of_In)). unfold apart in *. lia.
Qed.

End pcrel.

(** ** Theorems *)

(** The linker fills in exactly one immediate.  For each of the twenty
    relocation types of one immediate, [perform_relocation] refuses exactly the
    values that do not fit and then changes nothing; otherwise the immediate of
    the instruction decodes to the high part, the low part or the whole of the
    value, no other bit of the instruction and no other byte changes. *)
Theorem relocation_fills_immediate arch64 big sec_addr howto rel value contents r f p :
  In (r, f, p) insn_relocs -> ELFNN_R_TYPE arch64 (r_info rel) = r ->
  riscv_elf_rtype_to_howto r = Some howto -> field_in howto rel contents ->
  let v := relocated sec_addr howto rel value in
  exists st contents',
    perform_relocation arch64 big sec_addr howto rel value contents = Some (st, contents') /\
    (st = bfd_reloc_ok /\ fits arch64 p f v /\
     fmt_extract f (field_of howto rel contents') = u64 (part_of p v) /\
     Z.ldiff (field_of howto rel contents') (dst_mask howto) = Z.ldiff (field_of howto rel contents) (dst_mask howto) /\
     same_outside (Z.to_nat (r_offset rel)) (bitsize howto / 8) contents contents' \/
     st = bfd_reloc_overflow /\ ~ fits arch64 p f v /\ contents' = contents).
Proof.
  intros Hin Ht Hh Hfi. cbv zeta. pose proof Hfi as (Ho & Hl & _).
  destruct (insn_relocs_howto r f p howto Hin Hh) as (_ & _ & Hmask & _).
  pose proof (insn_relocs_format _ _ _ Hin) as Hf. destruct (imm_format_elim f Hf) as [Hok Hden].
  destruct (perform_insn arch64 big sec_addr howto rel value contents r f p Hin Ht Hh Hfi)
    as [(Hfit & -> & Hw)|[Hfit ->]]; eexists _, _; (split; [reflexivity|]); [left|by right].
  split_and!; [done|done| | |].
  - rewrite Hw. by apply (decoded_field arch64 _ r f p).
  - rewrite Hw, Hmask. apply ldiff_lor_field. by apply format_encode_masked.
  - apply putl_same_outside. lia.
Qed.

Lemma relocation_fills_immediate_witness :
  exists howto st contents',
    riscv_elf_rtype_to_howto R_RISCV_JAL = Some howto /\
    perform_relocation true false 0x1000 howto (mk_rela 2 (ELF64_R_INFO 5 R_RISCV_JAL) 4) 0x800
      [1; 2; 0xef; 0; 0; 0] = Some (st, contents') /\
    EXTRACT_JTYPE_IMM (getl 4 contents' 2) = u64 (0x800 - 0x1002 + 4).
Proof.
  destruct (riscv_elf_rtype_to_howto R_RISCV_JAL) as [howto|] eqn:Hh; [|discriminate]. exists howto.
  destruct (relocation_fills_immediate true false 0x1000 howto (mk_rela 2 (ELF64_R_INFO 5 R_RISCV_JAL) 4) 0x800
    [1; 2; 0xef; 0; 0; 0] R_RISCV_JAL fmt_JTYPE_IMM P_exact) as (st & c & Hp & Hc).
  - cbn [insn_relocs hi_types lo_i_types lo_s_types map app]. in_list.
  - reflexivity.
  - exact Hh.
  - vm_compute in Hh. injection Hh as <-. split_and!; [cbn; lia|cbn; lia|repeat constructor; lia].
  - exists st, c. split; [done|]. split; [exact Hp|]. vm_compute in Hh. injection Hh as <-.
    destruct Hc as [(_ & _ & He & _)|(_ & Hn & _)].
    + etransitivity; [exact He|]. vm_compute. reflexivity.
    + exfalso. apply Hn. vm_compute. repeat split; congruence.
Defined.

(** A call reaches its target.  With a call relocation the pair auipc and
    jalr is refused exactly if the distance does not fit; otherwise the address
    of the auipc and the two immediates add up to symbol + addend (modulo 2^32
    on RV32), and nothing else of the two instructions or the section changes. *)
Theorem call_relocation_reaches_target arch64 big sec_addr howto rel value contents :
  In (ELFNN_R_TYPE arch64 (r_info rel)) call_types ->
  riscv_elf_rtype_to_howto (ELFNN_R_TYPE arch64 (r_info rel)) = Some howto -> field_in howto rel contents ->
  let off := Z.to_nat (r_offset rel) in
  let pc := sec_addr + r_offset rel in
  let distance := value + r_addend rel - pc in
  exists st contents',
    perform_relocation arch64 big sec_addr howto rel value contents = Some (st, contents') /\
    (st = bfd_reloc_ok /\ fits arch64 P_hi fmt_UTYPE_IMM distance /\
     (let auipc := getl 4 contents' off in
      let jalr := getl 4 contents' (off + 4) in
      let target := pc + EXTRACT_UTYPE_IMM auipc + EXTRACT_ITYPE_IMM jalr in
      u32 target = u32 (value + r_addend rel) /\
      (arch64 = true -> u64 target = u64 (value + r_addend rel)) /\
      Z.ldiff auipc (ENCODE_UTYPE_IMM (-1)) = Z.ldiff (getl 4 contents off) (ENCODE_UTYPE_IMM (-1)) /\
      Z.ldiff jalr (ENCODE_ITYPE_IMM (-1)) = Z.ldiff (getl 4 contents (off + 4)) (ENCODE_ITYPE_IMM (-1))) /\
     same_outside off 8 contents contents' \/
     st = bfd_reloc_overflow /\ ~ fits arch64 P_hi fmt_UTYPE_IMM distance /\ contents' = contents).
Proof.
  intros Hin Hh Hfi. cbv zeta. set (pc := sec_addr + r_offset rel).
  pose proof (perform_call arch64 big sec_addr howto rel value contents Hin Hh Hfi) as H. cbv zeta in H. fold pc in H.
  replace (value - pc + r_addend rel) with (value + r_addend rel - pc) in H by lia.
  set (v := value + r_addend rel - pc) in *.
  destruct UTYPE_fmt as (EU & XU & HfU). destruct ITYPE_fmt as (EI & XI & HfI). rewrite EU, XU, EI, XI.
  destruct H as [(Hfit & c & -> & Hs & Hb & H1 & H2)|[Hfit ->]]; eexists _, _; (split; [reflexivity|]); [left|by right].
  split; [done|]. split; [done|]. split; [|done].
  assert (D1 : fmt_extract fmt_UTYPE_IMM (getl 4 c (Z.to_nat (r_offset rel))) = u64 (hi_part v)).
  { rewrite H1. apply (decoded_field arch64 _ R_RISCV_HI20 fmt_UTYPE_IMM P_hi); [|done].
    cbn [insn_relocs hi_types lo_i_types lo_s_types map app]. in_list. }
  assert (D2 : fmt_extract fmt_ITYPE_IMM (getl 4 c (Z.to_nat (r_offset rel) + 4)) = u64 (lo_part v)).
  { rewrite H2. apply (decoded_field arch64 _ R_RISCV_LO12_I fmt_ITYPE_IMM P_lo); [|done].
    cbn [insn_relocs hi_types lo_i_types lo_s_types map app]. in_list. }
  rewrite D1, D2. destruct (high_low_target arch64 v 0) as [S1 S2]; [by rewrite Z.add_0_r|done|].
  rewrite Z.add_0_r in S1, S2.
  split; [|split; [intros Ha; specialize (S2 Ha)|split]].
  - clear -S1. unfold v, u32 in *. u64_ring.
  - clear -S2. unfold v in *. u64_ring.
  - rewrite H1. apply ldiff_lor_field. by apply format_encode_masked; apply imm_format_elim.
  - rewrite H2. apply ldiff_lor_field. by apply format_encode_masked; apply imm_format_elim.
Qed.

Lemma call_relocation_reaches_target_witness :
  exists howto contents',
    riscv_elf_rtype_to_howto R_RISCV_CALL_PLT = Some howto /\
    perform_relocation true false 0x1000 howto (mk_rela 0 (ELF64_R_INFO 1 R_RISCV_CALL_PLT) 0) 0x7f800
      [0x97; 0; 0; 0; 0xe7; 0x80; 0; 0] = Some (bfd_reloc_ok, contents') /\
    u64 (0x1000 + EXTRACT_UTYPE_IMM (getl 4 contents' 0) + EXTRACT_ITYPE_IMM (getl 4 contents' 4)) = 0x7f800.
Proof.
  destruct (riscv_elf_rtype_to_howto R_RISCV_CALL_PLT) as [howto|] eqn:Hh; [|discriminate]. exists howto.
  destruct (call_relocation_reaches_target true false 0x1000 howto (mk_rela 0 (ELF64_R_INFO 1 R_RISCV_CALL_PLT) 0) 0x7f800
    [0x97; 0; 0; 0; 0xe7; 0x80; 0; 0]) as (st & c & Hp & Hc).
  - vm_compute. tauto.
  - exact Hh.
  - vm_compute in Hh. injection Hh as <-. split_and!; [cbn; lia|cbn; lia|repeat constructor; lia].
  - exists c. split; [done|]. destruct Hc as [(-> & _ & (_ & He & _) & _)|(_ & Hn & _)].
    + split; [exact Hp|]. apply He. reflexivity.
    + exfalso. apply Hn. intros _. vm_compute. split; congruence.
Defined.

Lemma Forall2_with {A B} (P : A -> Prop) (Q R : A -> B -> Prop) l k :
  Forall P l -> Forall2 Q l k -> (forall x y, P x -> Q x y -> R x y) -> Forall2 R l k.
Proof. intros HP HQ HR. induction HQ; inversion HP; subst; constructor; auto. Qed.

(** The table after the high part at [pc] and the low parts of [los] that name
    it were recorded. *)
Definition recorded (pc value : Z) (los : list (Elf_Internal_Rela * reloc_howto_type)) : riscv_pcrel_relocs :=
  foldr (fun lo p => riscv_record_pcrel_lo_reloc p pc lo.1 lo.2)
    (riscv_record_pcrel_hi_reloc riscv_init_pcrel_relocs pc value R_RISCV_PCREL_HI20 false) los.

Lemma recorded_lists pc value los :
  lo_relocs (recorded pc value los) = map (fun lo => mk_lo pc lo.1 lo.2) los /\
  hi_relocs (recorded pc value los) !! pc = Some (mk_hi (u64 (value - pc)) R_RISCV_PCREL_HI20).
Proof.
  induction los as [|lo los [IH1 IH2]]; cbn [recorded foldr map].
  - split; [done|]. apply lookup_insert_eq.
  - split; [|done]. cbn [riscv_record_pcrel_lo_reloc lo_relocs]. f_equal. exact IH1.
Qed.

(** The pairs of PC-relative parts reach their targets.  An auipc with a
    %pcrel_hi relocation that fits, and any number of I- and S-type instructions
    with %pcrel_lo relocations that name it, apart from each other: resolving
    them ends without a message exactly if no addend carries into the high part,
    and then the address of the auipc, its immediate and the immediate of each
    low part add up to symbol + addend + addend of the low part (modulo 2^32 on
    RV32). *)
Theorem pcrel_relocations_reach_target arch64 big sec_addr howto rel value contents contents1 los fs :
  ELFNN_R_TYPE arch64 (r_info rel) = R_RISCV_PCREL_HI20 ->
  riscv_elf_rtype_to_howto R_RISCV_PCREL_HI20 = Some howto -> field_in howto rel contents ->
  let off := Z.to_nat (r_offset rel) in
  let pc := u64 (sec_addr + r_offset rel) in
  let lo_offset lo := Z.to_nat (r_offset (fst lo)) in
  let v := value + r_addend rel - pc in
  perform_relocation arch64 big sec_addr howto rel value contents = Some (bfd_reloc_ok, contents1) ->
  Forall2 (fun lo => lo_ok arch64 (length contents) (mk_lo pc lo.1 lo.2)) los fs ->
  ForallOrdPairs (fun lo lo' => apart (lo_offset lo) (lo_offset lo')) los ->
  Forall (fun lo => apart (lo_offset lo) off) los ->
  exists contents2 e,
    riscv_resolve_pcrel_lo_relocs arch64 big sec_addr (recorded pc (value + r_addend rel) los) contents1
    = Some (contents2, e) /\
    (e = None <-> Forall (fun lo => RISCV_CONST_HIGH_PART (u64 v) = RISCV_CONST_HIGH_PART (u64 (v + r_addend lo.1))) los) /\
    (e = None -> Forall2 (fun lo f =>
       let target := pc + EXTRACT_UTYPE_IMM (getl 4 contents2 off) + fmt_extract f (getl 4 contents2 (lo_offset lo)) in
       let wanted := value + r_addend rel + r_addend lo.1 in
       u32 target = u32 wanted /\ (arch64 = true -> u64 target = u64 wanted)) los fs).
Proof.
  intros Ht Hh Hfi. cbv zeta. set (pc := u64 (sec_addr + r_offset rel)).
  set (v := value + r_addend rel - pc). intros Hp Hlos Hd Hoff.
  assert (Hin : In (R_RISCV_PCREL_HI20, fmt_UTYPE_IMM, P_hi) insn_relocs)
    by (cbn [insn_relocs hi_types lo_i_types lo_s_types map app]; in_list).
  assert (Hbits : bitsize howto = 32%nat /\ pc_relative howto = true)
    by (vm_compute in Hh; injection Hh as <-; done).
  destruct Hbits as [Hbits Hpc].
  set (v' := relocated sec_addr howto rel value).
  assert (Hvv : u64 v = u64 v') by (unfold v, v', relocated, pc; rewrite Hpc; u64_ring).
  assert (Hparts : hi_part v = hi_part v') by (by rewrite !hi_part_high, Hvv).
  destruct (perform_insn arch64 big sec_addr howto rel value contents _ fmt_UTYPE_IMM P_hi Hin Ht Hh Hfi)
    as [(Hfit & Hp' & Hw)|[_ Hp']]; [|congruence].
  fold v' in Hfit, Hp', Hw. rewrite Hbits in Hw, Hp'. change (32 / 8)%nat with 4%nat in Hw, Hp'.
  set (w := Z.ldiff _ _ .| _) in *. set (off := Z.to_nat (r_offset rel)) in *.
  assert (contents1 = putl 4 w contents off) as -> by congruence. clear Hp Hp'.
  assert (Hoffl : (off + 4 <= length contents)%nat).
  { destruct Hfi as (H1 & H2 & _). rewrite Hbits in H2. change (Z.of_nat (32 / 8)) with 4 in H2. unfold off. lia. }
  destruct (recorded_lists pc (value + r_addend rel) los) as [El Eh]. fold v in Eh.
  set (p := recorded pc (value + r_addend rel) los) in *.
  assert (Hfit' : fits arch64 P_hi fmt_UTYPE_IMM v).
  { intros Ha. specialize (Hfit Ha). apply valid_high_part in Hfit. apply valid_high_part. by rewrite Hvv. }
  assert (Hcheck : forall lo, pcrel_lo_check p (mk_lo pc lo.1 lo.2)
    = if negb (RISCV_CONST_HIGH_PART (u64 v) =? RISCV_CONST_HIGH_PART (u64 (v + r_addend lo.1)))
      then inl (PL_addend_overflow (RISCV_CONST_HIGH_PART (u64 v)) (RISCV_CONST_HIGH_PART (u64 (v + r_addend lo.1))))
      else inr (u64 v)).
  { intros lo. unfold pcrel_lo_check. cbn [lo_address lo_reloc]. rewrite Eh. cbn [hi_value hi_type].
    assert (E : u64 (u64 v + r_addend lo.1) = u64 (v + r_addend lo.1)) by (generalize v; intros; u64_ring).
    rewrite E. reflexivity. }
  destruct (resolve_loop arch64 big sec_addr p (lo_relocs p) fs (putl 4 w contents off))
    as (c2 & e & Hres & He & Ho & Hx).
  { rewrite El. rewrite Forall2_fmap_l. rewrite putl_length by done. exact Hlos. }
  { rewrite El. clear -Hd. induction Hd as [|lo los Hlo Hd IH]; cbn [map]; constructor; [|done].
    rewrite Forall_map. exact Hlo. }
  { apply putl_bytes. apply Hfi. }
  exists c2, e. split; [exact Hres|]. rewrite El in He, Ho, Hx. split.
  - rewrite He, Forall_map. apply Forall_proper; [|done]. intros lo. rewrite Hcheck.
    destruct (Z.eqb_spec (RISCV_CONST_HIGH_PART (u64 v)) (RISCV_CONST_HIGH_PART (u64 (v + r_addend lo.1)))) as [E|E];
      cbn [negb]; split; done || by intros [? ?].
  - intros Hn. specialize (Hx Hn). rewrite Forall2_fmap_l in Hx. rewrite He, Forall_map in Hn.
    assert (Hhi : fmt_extract fmt_UTYPE_IMM (getl 4 c2 off) = u64 (hi_part v)).
    { rewrite Ho.
      - rewrite Hw, Hparts. by apply (decoded_field arch64 _ R_RISCV_PCREL_HI20 fmt_UTYPE_IMM P_hi).
      - intros r Hr. apply in_map_iff in Hr as (lo & <- & Hlo). rewrite Forall_forall in Hoff.
        apply (Hoff lo). by apply list_elem_of_In. }
    destruct UTYPE_fmt as (_ & -> & _). rewrite Hhi.
    refine (Forall2_with _ _ _ _ _ Hn Hx _). intros lo f Hs Hlo. unfold compose in Hlo. rewrite Hcheck in Hs, Hlo.
    destruct (Z.eqb_spec (RISCV_CONST_HIGH_PART (u64 v)) (RISCV_CONST_HIGH_PART (u64 (v + r_addend lo.1)))) as [E|E];
      cbn [negb] in *; [|by destruct Hs].
    specialize (Hlo _ eq_refl). cbn [lo_reloc] in Hlo. rewrite Hlo.
    assert (El2 : lo_part (u64 v + r_addend lo.1) = lo_part (v + r_addend lo.1))
      by (unfold lo_part; generalize v; intros; u64_ring).
    rewrite El2. destruct (high_low_target arch64 v (r_addend lo.1) E Hfit') as [S1 S2].
    assert (Ew : value + r_addend rel + r_addend lo.1 = pc + (v + r_addend lo.1)) by (unfold v; lia).
    rewrite Ew. clearbody v pc. split; [|intros Ha; specialize (S2 Ha)].
    + clear -S1. unfold u32 in *. u64_ring.
    + clear -S2. u64_ring.
Qed.

Lemma pcrel_relocations_reach_target_witness :
  exists howto hlo contents1 contents2,
    riscv_elf_rtype_to_howto R_RISCV_PCREL_HI20 = Some howto /\
    riscv_elf_rtype_to_howto R_RISCV_PCREL_LO12_S = Some hlo /\
    perform_relocation true false 0x1000 howto (mk_rela 0 (ELF64_R_INFO 1 R_RISCV_PCREL_HI20) 8) 0x12ff4
      [0x97; 5; 0; 0; 0x23; 0xa0; 5; 0] = Some (bfd_reloc_ok, contents1) /\
    riscv_resolve_pcrel_lo_relocs true false 0x1000
      (recorded 0x1000 0x12ffc [(mk_rela 4 (ELF64_R_INFO 2 R_RISCV_PCREL_LO12_S) 4, hlo)]) contents1
    = Some (contents2, None) /\
    u64 (0x1000 + EXTRACT_UTYPE_IMM (getl 4 contents2 0) + EXTRACT_STYPE_IMM (getl 4 contents2 4)) = 0x13000.
Proof.
  destruct (riscv_elf_rtype_to_howto R_RISCV_PCREL_HI20) as [howto|] eqn:Hh; [|discriminate].
  destruct (riscv_elf_rtype_to_howto R_RISCV_PCREL_LO12_S) as [hlo|] eqn:Hlo; [|discriminate].
  exists howto, hlo. set (rel := mk_rela 0 (ELF64_R_INFO 1 R_RISCV_PCREL_HI20) 8).
  set (lo := mk_rela 4 (ELF64_R_INFO 2 R_RISCV_PCREL_LO12_S) 4).
  destruct (perform_relocation true false 0x1000 howto rel 0x12ff4 [0x97; 5; 0; 0; 0x23; 0xa0; 5; 0])
    as [[st c1]|] eqn:Hp.
  2: { exfalso. vm_compute in Hh. injection Hh as <-. vm_compute in Hp. discriminate. }
  assert (st = bfd_reloc_ok) as ->.
  { vm_compute in Hh. injection Hh as <-. vm_compute in Hp. injection Hp as <- _. reflexivity. }
  destruct (pcrel_relocations_reach_target true false 0x1000 howto rel 0x12ff4 [0x97; 5; 0; 0; 0x23; 0xa0; 5; 0] c1
    [(lo, hlo)] [fmt_STYPE_IMM]) as (c2 & e & Hr & He & Hx).
  - reflexivity.
  - exact Hh.
  - vm_compute in Hh. injection Hh as <-. split_and!; [cbn; lia|cbn; lia|repeat constructor; lia].
  - exact Hp.
  - constructor; [|constructor]. constructor; [reflexivity|exact Hlo|cbn; lia].
  - repeat constructor.
  - constructor; [|constructor]. right. cbn. lia.
  - assert (e = None) as -> by (apply He; constructor; [vm_compute; reflexivity|constructor]).
    exists c1, c2. split_and!; [done|done|done|exact Hr|].
    specialize (Hx eq_refl). inversion Hx as [|? ? ? ? [_ H] _]; subst. exact (H eq_refl).
Defined.

(** ** LEB128 differences *)

(** The number [v] in [len] bytes. *)
Fixpoint padded (len : nat) (v : Z) : list Z :=
  match len with
  | O => []
  | S len' => match len' with O => [v mod 128] | _ => v mod 128 + 128 :: padded len' (v / 128) end
  end.

Lemma padded_length len v : length (padded len v) = len.
Proof. revert v. induction len as [|[|len] IH]; intros v; [done|done|].
  change (padded (S (S len)) v) with (v mod 128 + 128 :: padded (S len) (v / 128)). cbn [length]. by rewrite IH.
Qed.

Lemma land_7f v : v .& 0x7f = v mod 128.
Proof. exact (Z.land_ones v 7 ltac:(lia)). Qed.

Lemma lor_80 x : 0 <= x < 128 -> x .| 0x80 = x + 128.
Proof.
  intros Hx. rewrite Z.add_nocarry_lxor.
  - rewrite Z.lxor_lor; [done|]. apply Z.bits_inj'. intros i Hi. rewrite Z.land_spec, Z.bits_0.
    change 128 with (2 ^ 7). rewrite Z.pow2_bits_eqb by lia.
    destruct (Z.eqb_spec 7 i) as [<-|]; [|apply andb_false_r]. rewrite (testbit_high x 7) by lia. done.
  - apply Z.bits_inj'. intros i Hi. rewrite Z.land_spec, Z.bits_0.
    change 128 with (2 ^ 7). rewrite Z.pow2_bits_eqb by lia.
    destruct (Z.eqb_spec 7 i) as [<-|]; [|apply andb_false_r]. rewrite (testbit_high x 7) by lia. done.
Qed.

Lemma shift_7 v : v >> 7 = v / 128.
Proof. rewrite Z.shiftr_div_pow2 by lia. done. Qed.

Lemma padded_zero len : padded (S len) 0 = replicate len 0x80 ++ [0].
Proof. induction len as [|len IH]; [done|]. cbn [replicate app]. rewrite <- IH. reflexivity. Qed.

(** Counting the bytes. *)
Lemma leb128_length_le fuel v len :
  0 <= v < 2 ^ (7 * Z.of_nat fuel) -> (1 <= len)%nat ->
  (leb128_length fuel v <= len)%nat <-> v < 2 ^ (7 * Z.of_nat len).
Proof.
  revert v len. induction fuel as [|fuel IH]; intros v len Hv Hl.
  { change (2 ^ (7 * Z.of_nat 0)) with 1 in Hv. assert (v = 0) as -> by lia. cbn. split; [|lia]. intros _.
    apply Z.pow_pos_nonneg; lia. }
  cbn [leb128_length]. rewrite shift_7.
  assert (E : forall n, 2 ^ (7 * Z.of_nat (S n)) = 128 * 2 ^ (7 * Z.of_nat n)).
  { intros n. replace (7 * Z.of_nat (S n)) with (7 + 7 * Z.of_nat n) by lia. by rewrite Z.pow_add_r by lia. }
  rewrite E in Hv. destruct len as [|len]; [lia|]. rewrite E.
  assert (Hp : 0 < 2 ^ (7 * Z.of_nat len)) by (apply Z.pow_pos_nonneg; lia).
  destruct (Z.eqb_spec (v / 128) 0) as [Hz|Hnz].
  { split; [intros _|lia]. Z.to_euclidean_division_equations. lia. }
  destruct len as [|len].
  { change (2 ^ (7 * Z.of_nat 0)) with 1 in *. destruct fuel as [|fuel]; cbn [leb128_length].
    - change (2 ^ (7 * Z.of_nat 0)) with 1 in Hv. Z.to_euclidean_division_equations. lia.
    - split; [lia|]. intros. Z.to_euclidean_division_equations. lia. }
  rewrite <- Nat.succ_le_mono, IH; [|Z.to_euclidean_division_equations; lia|lia].
  split; intros; Z.to_euclidean_division_equations; lia.
Qed.

Lemma pow_7 n : 2 ^ (7 * Z.of_nat (S n)) = 128 * 2 ^ (7 * Z.of_nat n).
Proof.
  replace (7 * Z.of_nat (S n)) with (7 + 7 * Z.of_nat n) by lia. by rewrite Z.pow_add_r by lia.
Qed.

(** Reading a padded number. *)
Lemma read_padded len : forall v acc shift n rest,
  (1 <= len)%nat -> 0 <= shift -> 0 <= v < 2 ^ (7 * Z.of_nat len) -> v * 2 ^ shift < 2 ^ 64 ->
  0 <= acc < 2 ^ shift ->
  read_leb128_loop (padded len v ++ rest) acc shift n = Some (acc + v * 2 ^ shift, (n + len)%nat).
Proof.
  induction len as [|len IH]; intros v acc shift n rest Hl Hs Hv Hv64 Hacc; [lia|].
  assert (Hps : 0 < 2 ^ shift) by (apply Z.pow_pos_nonneg; lia).
  set (d := v mod 128). assert (Hd : 0 <= d < 128) by (apply Z.mod_pos_bound; lia).
  assert (Hq : v = d + 128 * (v / 128)) by (unfold d; Z.to_euclidean_division_equations; lia).
  assert (Hdv : 0 <= d * 2 ^ shift < 2 ^ 64).
  { split; [apply Z.mul_nonneg_nonneg; lia|]. apply Z.le_lt_trans with (v * 2 ^ shift); [|done].
    apply Z.mul_le_mono_nonneg_r; [lia|]. unfold d. apply Z.mod_le; lia. }
  assert (Hstep : forall b, b .& 0x7f = d ->
    (if shift <? 64 then (acc .| ((b .& 0x7f) <<u shift), shift + 7) else (acc, shift))
    = (acc + d * 2 ^ shift, if shift <? 64 then shift + 7 else shift)).
  { intros b ->. destruct (Z.ltb_spec shift 64) as [Hlt|Hge].
    - f_equal. rewrite Z.shiftl_mul_pow2 by lia. rewrite u64_small by exact Hdv.
      rewrite <- Z.shiftl_mul_pow2 by lia. rewrite <- Z.lxor_lor, <- Z.add_nocarry_lxor;
        [done| |]; apply Z.bits_inj'; intros i Hi; rewrite Z.land_spec, Z.bits_0;
        (destruct (Z.lt_ge_cases i shift); [rewrite Z.shiftl_spec_low by lia; apply andb_false_r|]);
        rewrite (testbit_high acc shift) by lia; done.
    - assert (Hp : 2 ^ 64 <= 2 ^ shift) by (apply Z.pow_le_mono_r; lia).
      assert (Hv0 : v = 0) by nia. assert (d = 0) as -> by (unfold d; by rewrite Hv0). f_equal. lia. }
  assert (Hacc' : 0 <= acc + d * 2 ^ shift < 2 ^ (shift + 7)) by (rewrite Z.pow_add_r by lia; change (2 ^ 7) with 128; nia).
  destruct len as [|len].
  - change (2 ^ (7 * Z.of_nat 1)) with 128 in Hv. cbn [padded app read_leb128_loop]. fold d.
    rewrite Hstep by (rewrite land_7f; apply Z.mod_small; lia).
    assert (E8 : d .& 128 = 0).
    { change 128 with (1 << 7). apply Z.bits_inj'. intros i Hi. rewrite Z.land_spec, Z.bits_0.
      change (1 << 7) with (2 ^ 7). rewrite Z.pow2_bits_eqb by lia.
      destruct (Z.eqb_spec 7 i) as [<-|]; [rewrite (testbit_high d 7) by lia; done|apply andb_false_r]. }
    rewrite E8. cbn [Z.eqb]. assert (d = v) as -> by (unfold d; apply Z.mod_small; lia).
    f_equal. f_equal. lia.
  - change (padded (S (S len)) v) with (v mod 128 + 128 :: padded (S len) (v / 128)). fold d.
    cbn [app read_leb128_loop].
    assert (E7 : (d + 128) .& 0x7f = d).
    { rewrite land_7f. replace (d + 128) with (d + 1 * 128) by lia. rewrite Z.mod_add by lia. apply Z.mod_small. lia. }
    rewrite Hstep by done.
    assert (E8 : (d + 128) .& 128 = 128).
    { rewrite <- lor_80 by lia. rewrite Z.land_lor_distr_l. apply Z.bits_inj'. intros i Hi.
      rewrite Z.lor_spec, !Z.land_spec. destruct (Z.testbit d i), (Z.testbit 128 i); done. }
    rewrite E8. cbn [Z.eqb]. rewrite pow_7 in Hv.
    destruct (Z.ltb_spec shift 64) as [Hlt|Hge].
    + rewrite IH; [|lia|lia|split; [apply Z.div_pos; lia|apply Z.div_lt_upper_bound; lia]| |done].
      * f_equal. f_equal; [|lia]. rewrite Z.pow_add_r by lia. change (2 ^ 7) with 128. nia.
      * rewrite Z.pow_add_r by lia. change (2 ^ 7) with 128. nia.
    + assert (2 ^ 64 <= 2 ^ shift) by (apply Z.pow_le_mono_r; lia). assert (v = 0) by nia. subst v.
      assert (d = 0) as -> by done. change (0 / 128) with 0.
      rewrite IH; [f_equal; f_equal; lia|lia|lia|split; [lia|apply Z.pow_pos_nonneg; lia]|lia|lia].
Qed.

Lemma read_length buf : forall acc shift n x m,
  read_leb128_loop buf acc shift n = Some (x, m) -> (n < m <= n + length buf)%nat.
Proof.
  induction buf as [|b buf IH]; intros acc shift n x m; cbn [read_leb128_loop]; [done|].
  destruct (if shift <? 64 then _ else _) as [acc' shift']. destruct (_ =? 0).
  - intros [= _ <-]. cbn [length]. lia.
  - intros H. apply IH in H. cbn [length]. lia.
Qed.

(** Writing into a cleaned field. *)
Lemma write_padded len : forall v pre post fuel,
  (1 <= len)%nat -> 0 <= v < 2 ^ (7 * Z.of_nat len) -> v < 2 ^ (7 * Z.of_nat fuel) -> (1 <= fuel)%nat ->
  let p := length pre in
  let endp := (p + len - 1)%nat in
  exists buf q,
    write_leb128_loop fuel (pre ++ (replicate (len - 1) 0x80 ++ [0]) ++ post) p endp v = (buf, Some q) /\
    (p < q)%nat /\
    (if (q - 1 <? endp)%nat then alter (fun b => b .| 0x80) (q - 1)%nat buf else buf) = pre ++ padded len v ++ post.
Proof.
  induction len as [|len IH]; intros v pre post fuel Hl Hv Hfuel Hf; [lia|]. cbv zeta.
  set (d := v mod 128). assert (Hd : 0 <= d < 128) by (apply Z.mod_pos_bound; lia).
  destruct fuel as [|fuel]; [lia|]. cbn [write_leb128_loop].
  rewrite (proj2 (Nat.ltb_ge _ _)) by lia. rewrite land_7f, shift_7. fold d.
  replace (S len - 1)%nat with len by lia. rewrite pow_7 in Hv, Hfuel.
  destruct (Z.eqb_spec (v / 128) 0) as [Hz|Hnz].
  - assert (Hvd : v = d) by (unfold d; Z.to_euclidean_division_equations; lia).
    eexists _, _. split; [reflexivity|]. split; [lia|]. replace (S (length pre) - 1)%nat with (length pre) by lia.
    destruct len as [|len].
    + rewrite (proj2 (Nat.ltb_ge _ _)) by lia. cbn [replicate app padded]. rewrite insert_app_r_alt, Nat.sub_diag by lia. done.
    + rewrite (proj2 (Nat.ltb_lt _ _)) by lia. rewrite insert_app_r_alt, Nat.sub_diag by lia. cbn [replicate app].
      rewrite alter_app_r_alt, Nat.sub_diag by lia.
      change (padded (S (S len)) v) with (v mod 128 + 128 :: padded (S len) (v / 128)). fold d. rewrite Hz, padded_zero.
      cbn [app]. f_equal. change (alter _ 0%nat (d :: ?l)) with ((d .| 0x80) :: l). cbn. by rewrite lor_80.
  - destruct len as [|len].
    { change (2 ^ (7 * Z.of_nat 0)) with 1 in Hv. Z.to_euclidean_division_equations. lia. }
    destruct fuel as [|fuel].
    { change (2 ^ (7 * Z.of_nat 0)) with 1 in Hfuel. Z.to_euclidean_division_equations. lia. }
    rewrite lor_80 by lia. rewrite insert_app_r_alt, Nat.sub_diag by lia. cbn [replicate app].
    destruct (IH (v / 128) (pre ++ [d + 128]) post (S fuel)) as (buf & q & Hw & Hq & Hb);
      [lia|split; [apply Z.div_pos; lia|apply Z.div_lt_upper_bound; lia]|apply Z.div_lt_upper_bound; lia|lia|].
    rewrite length_app in Hw, Hq, Hb. cbn [length] in Hw, Hq, Hb.
    replace (S len - 1)%nat with len in Hw by lia. rewrite <- app_assoc in Hw, Hb. cbn [app] in Hw, Hb.
    replace (length pre + 1 + S len - 1)%nat with (length pre + S (S len) - 1)%nat in Hw, Hb by lia.
    replace (length pre + 1)%nat with (S (length pre)) in Hw by lia.
    exists buf, q. split; [exact Hw|]. split; [lia|].
    change (padded (S (S len)) v) with (v mod 128 + 128 :: padded (S len) (v / 128)). fold d. exact Hb.
Qed.

Lemma same_outside_app pre mid mid' post :
  length mid' = length mid ->
  same_outside (length pre) (length mid) (pre ++ mid ++ post) (pre ++ mid' ++ post).
Proof.
  intros H. split; [rewrite !length_app; lia|]. rewrite !take_app_length. split; [done|].
  rewrite !(drop_app_ge pre) by lia. replace (length pre + length mid - length pre)%nat with (length mid) by lia.
  by rewrite drop_app_length, <- H, drop_app_length.
Qed.

(** The field after the old number was cleared. *)
Lemma cleared_field pre mid post :
  (1 <= length mid)%nat ->
  <[(length pre + length mid - 1)%nat := 0]> (putb (replicate (length mid - 1) 0x80) (pre ++ mid ++ post) (length pre))
  = pre ++ (replicate (length mid - 1) 0x80 ++ [0]) ++ post.
Proof.
  intros Hl. unfold putb. rewrite take_app_length, length_replicate.
  replace (length pre + length mid - 1)%nat with (length (pre ++ replicate (length mid - 1) 0x80))
    by (rewrite length_app, length_replicate; lia).
  rewrite app_assoc, insert_app_r_alt, Nat.sub_diag by lia.
  rewrite (drop_app_ge pre), <- !app_assoc by lia. f_equal. f_equal.
  replace (length pre + (length mid - 1) - length pre)%nat with (length mid - 1)%nat by lia.
  rewrite drop_app_le by lia.
  destruct (drop (length mid - 1) mid) as [|b [|c l]] eqn:E; [| |].
  - apply (f_equal length) in E. rewrite length_drop in E. cbn in E. lia.
  - done.
  - apply (f_equal length) in E. rewrite length_drop in E. cbn in E. lia.
Qed.

(** A difference in LEB128 keeps its length and can be read back.  For a
    value below 2^32, R_RISCV_SUB_ULEB128 is refused as dangerous exactly if the
    value needs more bytes than the old number; otherwise reading the bytes again
    gives the value and the old length.  No other byte changes either way, and
    the addend is ignored. *)
Theorem uleb128_relocation_roundtrip arch64 big sec_addr howto rel value contents old len :
  ELFNN_R_TYPE arch64 (r_info rel) = R_RISCV_SUB_ULEB128 ->
  riscv_elf_rtype_to_howto R_RISCV_SUB_ULEB128 = Some howto ->
  0 <= r_offset rel -> 0 <= value < 2 ^ 32 ->
  let off := Z.to_nat (r_offset rel) in
  _bfd_read_unsigned_leb128 (drop off contents) = Some (old, len) ->
  exists st contents',
    perform_relocation arch64 big sec_addr howto rel value contents = Some (st, contents') /\
    same_outside off len contents contents' /\
    (st = bfd_reloc_ok /\ value < 2 ^ (7 * Z.of_nat len) /\
     _bfd_read_unsigned_leb128 (drop off contents') = Some (value, len) \/
     st = bfd_reloc_dangerous /\ 2 ^ (7 * Z.of_nat len) <= value).
Proof.
  intros Ht Hh Ho Hv. cbv zeta. set (off := Z.to_nat (r_offset rel)). intros Hread.
  assert (Hpc : pc_relative howto = false) by (vm_compute in Hh; by injection Hh as <-).
  pose proof (read_length _ _ _ _ _ _ Hread) as Hlen. rewrite length_drop in Hlen.
  unfold perform_relocation, relocation_bits. rewrite Ht, Hpc. cbn [Z.eqb Pos.eqb].
  unfold relocate_uleb128. fold off. rewrite Hread.
  set (pre := take off contents). set (mid := take len (drop off contents)). set (post := drop (off + len) contents).
  assert (Ec : contents = pre ++ mid ++ post).
  { unfold pre, mid, post. rewrite <- drop_drop, (take_drop len). by rewrite take_drop. }
  assert (Hpre : length pre = off) by (unfold pre; rewrite length_take; lia).
  assert (Hmid : length mid = len) by (unfold mid; rewrite length_take, length_drop; lia).
  clearbody pre mid post. subst contents. rewrite <- Hpre, <- Hmid in *.
  rewrite cleared_field by lia. set (cleared := replicate (length mid - 1) 0x80 ++ [0]).
  assert (Hcl : length cleared = length mid) by (unfold cleared; rewrite length_app, length_replicate; cbn; lia).
  assert (Hu : u32 value = value) by (apply Z.mod_small; lia). rewrite Hu.
  pose proof (leb128_length_le 5 value (length mid) ltac:(change (2 ^ (7 * Z.of_nat 5)) with (2 ^ 35); lia) ltac:(lia)) as Hle.
  destruct (Nat.ltb_spec (length mid) (leb128_length 5 value)) as [Hlt|Hge].
  { eexists _, _. split; [reflexivity|]. split; [by apply same_outside_app|]. right. split; [done|].
    destruct (Z.lt_ge_cases value (2 ^ (7 * Z.of_nat (length mid)))) as [H|H]; [apply Hle in H; lia|done]. }
  apply Hle in Hge.
  destruct (write_padded (length mid) value pre post 10) as (buf & q & Hw & Hq & Hb);
    [lia|lia|change (2 ^ (7 * Z.of_nat 10)) with (2 ^ 70); lia|lia|].
  fold cleared in Hw. unfold _bfd_write_unsigned_leb128. rewrite Hw.
  eexists _, _. split; [reflexivity|]. rewrite Hb.
  split; [apply same_outside_app; apply padded_length|]. left. split; [done|]. split; [done|].
  rewrite drop_app_length. unfold _bfd_read_unsigned_leb128.
  rewrite read_padded; [f_equal; f_equal; lia|lia|lia|lia|lia|lia].
Qed.

Lemma uleb128_relocation_roundtrip_witness :
  exists howto st contents',
    perform_relocation true false 0 howto (mk_rela 1 (ELF64_R_INFO 1 R_RISCV_SUB_ULEB128) 7) 300
      [9; 0x80; 0x80; 0; 9] = Some (st, contents') /\
    _bfd_read_unsigned_leb128 (drop 1 contents') = Some (300, 3%nat).
Proof.
  destruct (riscv_elf_rtype_to_howto R_RISCV_SUB_ULEB128) as [howto|] eqn:Hh; [|discriminate]. exists howto.
  destruct (uleb128_relocation_roundtrip true false 0 howto (mk_rela 1 (ELF64_R_INFO 1 R_RISCV_SUB_ULEB128) 7) 300
    [9; 0x80; 0x80; 0; 9] 0 3) as (st & c & Hp & _ & [(_ & _ & Hr)|(_ & Hn)]).
  - reflexivity.
  - exact Hh.
  - cbn. lia.
  - lia.
  - reflexivity.
  - exists st, c. split; [exact Hp|exact Hr].
  - exfalso. change (2 ^ (7 * Z.of_nat 3)) with 2097152 in Hn. lia.
Defined.

(** The length of a LEB128 difference is taken of its low 32 bits.  A value
    above 2^32 whose low half needs few bytes passes the test, then does not fit
    into the field, and the code goes on with a null pointer, where the same
    value without its high half is stored without complaint. *)
Theorem uleb128_high_half_unchecked arch64 big sec_addr howto :
  riscv_elf_rtype_to_howto R_RISCV_SUB_ULEB128 = Some howto ->
  let rel := mk_rela 0 (ELFNN_R_INFO arch64 1 R_RISCV_SUB_ULEB128) 0 in
  perform_relocation arch64 big sec_addr howto rel (2 ^ 32 + 5) [0x81; 0x00] = None /\
  perform_relocation arch64 big sec_addr howto rel 5 [0x81; 0x00] = Some (bfd_reloc_ok, [0x85; 0x00]) /\
  perform_relocation arch64 big sec_addr howto rel (2 ^ 32 - 1) [0x81; 0x00] = Some (bfd_reloc_dangerous, [0x80; 0x00]).
Proof.
  intros Hh. vm_compute in Hh. injection Hh as <-. cbv zeta.
  destruct arch64; split_and!; vm_compute; reflexivity.
Qed.

Lemma uleb128_high_half_unchecked_witness :
  exists howto,
    riscv_elf_rtype_to_howto R_RISCV_SUB_ULEB128 = Some howto /\
    perform_relocation true false 0 howto (mk_rela 0 (ELFNN_R_INFO true 1 R_RISCV_SUB_ULEB128) 0) (2 ^ 32 + 5)
      [0x81; 0x00] = None.
Proof.
  destruct (riscv_elf_rtype_to_howto R_RISCV_SUB_ULEB128) as [howto|] eqn:Hh; [|discriminate]. exists howto.
  split; [done|]. apply (uleb128_high_half_unchecked true false 0 howto Hh).
Defined.
