(* ===== verification/LinkRelax.v ===== *)
(** * Linker relaxation (bfd/elfnn-riscv.c)

    Shortening code sequences once the addresses are nearly known: the deletion
    of bytes with the relocations and symbols behind them, the rewriting of
    calls and of absolute, thread-local and PC-relative addresses, alignment,
    and the pass over the relocations of a section. *)
From Stdlib Require Import ZArith Bool Lia.
From stdpp Require Import base list gmap.
From S2P Require Import Prelude OpcodeH RiscvH OpcodeMatch Bytes Howto LinkReloc.

#[local] Open Scope Z_scope.
#[local] Open Scope c_scope.
#[local] Open Scope list_scope.

(** ** Symbols and sections *)

(** A section as the relaxation sees it: its number, its address, and of its
    output section the number and the alignment; the flags asked for. *)
Record section_info : Set := mk_secinfo {
  si_id : Z;
  sec_addr : Z;
  si_output : Z;
  si_align : Z;                (* output_section->alignment_power *)
  si_abs : bool;               (* the output section is the absolute one *)
  si_merge : bool;             (* SEC_MERGE *)
  si_code : bool;              (* SEC_CODE *)
  si_merged : bool;            (* SEC_INFO_TYPE_MERGE *)
}.

Inductive symbol_type : Set := STT_NOTYPE | STT_OBJECT | STT_FUNC | STT_SECTION | STT_GNU_IFUNC.

#[export] Instance symbol_type_eq_dec : EqDecision symbol_type.
Proof. solve_decision. Defined.

(** A local symbol; [None] is SHN_UNDEF. *)
Record Elf_Internal_Sym : Set := mk_sym {
  st_section : option section_info;
  st_value : Z;
  st_size : Z;
  st_type : symbol_type;
}.

Inductive link_hash_type : Set := hash_defined | hash_defweak | hash_undefweak | hash_other.

#[export] Instance link_hash_type_eq_dec : EqDecision link_hash_type.
Proof. solve_decision. Defined.

(** A global symbol, behind its indirections; no section if it is undefined or
    its section is not in the output. *)
Record elf_link_hash_entry : Set := mk_hash {
  h_kind : link_hash_type;
  h_section : option section_info;
  h_value : Z;
  h_size : Z;
  h_type : symbol_type;
  h_versioned : bool;
  h_linker_def : bool;
  h_plt : option Z;            (* plt.offset, if not MINUS_ONE *)
}.

(** ** The second table of PC-relative high parts *)

Record riscv_pcgp_hi_reloc : Set := mk_pcgp_hi {
  hi_sec_off : Z;
  hi_addend : Z;
  hi_addr : Z;
  hi_sym : Z;
  hi_sym_sec : section_info;
  hi_undefined_weak : bool;
}.

(** The high parts, and the offsets of high parts named by low parts that were
    seen first. *)
Record riscv_pcgp_relocs : Set := mk_pcgp {
  pcgp_hi : list riscv_pcgp_hi_reloc;
  pcgp_lo : list Z;
}.

Definition riscv_init_pcgp_relocs : riscv_pcgp_relocs := mk_pcgp [] [].

Definition riscv_record_pcgp_hi_reloc (p : riscv_pcgp_relocs) (h : riscv_pcgp_hi_reloc) : riscv_pcgp_relocs :=
  mk_pcgp (h :: pcgp_hi p) (pcgp_lo p).
Definition riscv_find_pcgp_hi_reloc (p : riscv_pcgp_relocs) (off : Z) : option riscv_pcgp_hi_reloc :=
  List.find (fun h => hi_sec_off h =? off) (pcgp_hi p).
Definition riscv_record_pcgp_lo_reloc (p : riscv_pcgp_relocs) (off : Z) : riscv_pcgp_relocs :=
  mk_pcgp (pcgp_hi p) (off :: pcgp_lo p).
Definition riscv_find_pcgp_lo_reloc (p : riscv_pcgp_relocs) (off : Z) : bool :=
  existsb (Z.eqb off) (pcgp_lo p).

(** [riscv_update_pcgp_relocs]; [toaddr] is the old size of the section. *)
Definition riscv_update_pcgp_relocs (p : riscv_pcgp_relocs) (deleted_sec deleted_addr deleted_count toaddr : Z)
  : riscv_pcgp_relocs :=
  let moved x := if (deleted_addr <? x) && (x <? toaddr) then u64 (x - deleted_count) else x in
  mk_pcgp
    (map (fun h => mk_pcgp_hi (moved (hi_sec_off h)) (hi_addend h)
                     (if si_id (hi_sym_sec h) =? deleted_sec then moved (hi_addr h) else hi_addr h)
                     (hi_sym h) (hi_sym_sec h) (hi_undefined_weak h)) (pcgp_hi p))
    (map moved (pcgp_lo p)).

(** ** Deleting bytes *)

(** [max_alignment] and [max_alignment_for_gp] of the hash table, MINUS_ONE if
    unknown, and the static [first_section]. *)
Record relax_htab : Set := mk_htab {
  max_alignment_ : Z;
  max_alignment_for_gp : Z;
  first_section : option Z;
}.

(** The section under relaxation, the symbols of its file, and what the pass
    remembers: the buffer keeps its length while the size shrinks, and
    [sym_hashes] are positions in the table of global symbols. *)
Record relax_state : Type := mk_relax {
  rx_size : Z;
  rx_contents : list Z;
  rx_relocs : list Elf_Internal_Rela;
  rx_syms : list Elf_Internal_Sym;
  rx_hashes : list nat;
  rx_globals : list elf_link_hash_entry;
  rx_pcgp : riscv_pcgp_relocs;
  rx_again : bool;
  rx_flg0 : bool;
  rx_htab : relax_htab;
}.

Definition with_contents (s : relax_state) (c : list Z) : relax_state :=
  mk_relax (rx_size s) c (rx_relocs s) (rx_syms s) (rx_hashes s) (rx_globals s) (rx_pcgp s) (rx_again s)
    (rx_flg0 s) (rx_htab s).
Definition with_relocs (s : relax_state) (r : list Elf_Internal_Rela) : relax_state :=
  mk_relax (rx_size s) (rx_contents s) r (rx_syms s) (rx_hashes s) (rx_globals s) (rx_pcgp s) (rx_again s)
    (rx_flg0 s) (rx_htab s).
Definition with_pcgp (s : relax_state) (p : riscv_pcgp_relocs) : relax_state :=
  mk_relax (rx_size s) (rx_contents s) (rx_relocs s) (rx_syms s) (rx_hashes s) (rx_globals s) p (rx_again s)
    (rx_flg0 s) (rx_htab s).
Definition with_again (s : relax_state) (b : bool) : relax_state :=
  mk_relax (rx_size s) (rx_contents s) (rx_relocs s) (rx_syms s) (rx_hashes s) (rx_globals s) (rx_pcgp s) b
    (rx_flg0 s) (rx_htab s).
Definition with_flg0 (s : relax_state) : relax_state :=
  mk_relax (rx_size s) (rx_contents s) (rx_relocs s) (rx_syms s) (rx_hashes s) (rx_globals s) (rx_pcgp s)
    (rx_again s) true (rx_htab s).
Definition with_htab (s : relax_state) (h : relax_htab) : relax_state :=
  mk_relax (rx_size s) (rx_contents s) (rx_relocs s) (rx_syms s) (rx_hashes s) (rx_globals s) (rx_pcgp s)
    (rx_again s) (rx_flg0 s) h.

(** [memmove (contents + to, contents + from, n)]; [None] outside the buffer. *)
Definition memmove (contents : list Z) (to from n : Z) : option (list Z) :=
  if (0 <=? to) && (0 <=? from) && (0 <=? n) && (to + n <=? Z.of_nat (length contents))
     && (from + n <=? Z.of_nat (length contents))
  then Some (putb (take (Z.to_nat n) (drop (Z.to_nat from) contents)) contents (Z.to_nat to))
  else None.

(** The value and the size of a symbol of the section. *)
Definition adjust_symbol (addr count toaddr value size : Z) : Z * Z :=
  if (addr <? value) && (value <=? toaddr) then (u64 (value - count), size)
  else if (value <=? addr) && (addr <? u64 (value + size)) && (u64 (value + size) <=? toaddr)
       then (value, u64 (size - count))
       else (value, size).

Definition adjust_local (sec addr count toaddr : Z) (s : Elf_Internal_Sym) : Elf_Internal_Sym :=
  match st_section s with
  | Some i =>
      if si_id i =? sec then
        let '(v, z) := adjust_symbol addr count toaddr (st_value s) (st_size s) in
        mk_sym (st_section s) v z (st_type s)
      else s
  | None => s
  end.

Definition adjust_global (sec addr count toaddr : Z) (h : elf_link_hash_entry) : elf_link_hash_entry :=
  if bool_decide (h_kind h = hash_defined) || bool_decide (h_kind h = hash_defweak) then
    match h_section h with
    | Some i =>
        if si_id i =? sec then
          let '(v, z) := adjust_symbol addr count toaddr (h_value h) (h_size h) in
          mk_hash (h_kind h) (h_section h) v z (h_type h) (h_versioned h) (h_linker_def h) (h_plt h)
        else h
    | None => h
    end
  else h.

(** The loop over [sym_hashes]; [seen] are those before the current one. *)
Fixpoint adjust_globals (wrap : bool) (sec addr count toaddr : Z) (seen hashes : list nat)
    (globals : list elf_link_hash_entry) : list elf_link_hash_entry :=
  match hashes with
  | [] => globals
  | i :: hashes =>
      let again := (wrap || match globals !! i with Some h => h_versioned h | None => false end)
                   && existsb (Nat.eqb i) seen in
      adjust_globals wrap sec addr count toaddr (seen ++ [i]) hashes
        (if again then globals else alter (adjust_global sec addr count toaddr) i globals)
  end.

Section relax.

(** The word size, the file and the link: [wrap] is whether --wrap is used,
    [sec] the section. *)
Context (arch64 wrap : bool) (sec : section_info).

Abbreviation R_TYPE rel := (ELFNN_R_TYPE arch64 (r_info rel)).
Abbreviation R_SYM rel := (ELFNN_R_SYM arch64 (r_info rel)).
Abbreviation R_INFO := (ELFNN_R_INFO arch64).

(** [_riscv_relax_delete_bytes]; [pcgp] is whether the table is passed. *)
Definition _riscv_relax_delete_bytes (addr count : Z) (pcgp : bool) (delete_total toaddr : Z) (s : relax_state)
  : option relax_state :=
  match memmove (rx_contents s) addr (addr + count + delete_total) (u64 (toaddr - addr - count)) with
  | None => None
  | Some contents =>
      let size := u64 (rx_size s - count) in
      let toaddr := u64 (size + count) in
      Some (mk_relax size contents
              (map (fun rel => if (addr <? r_offset rel) && (r_offset rel <? toaddr)
                               then mk_rela (u64 (r_offset rel - count)) (r_info rel) (r_addend rel) else rel)
                 (rx_relocs s))
              (map (adjust_local (si_id sec) addr count toaddr) (rx_syms s))
              (rx_hashes s)
              (adjust_globals wrap (si_id sec) addr count toaddr [] (rx_hashes s) (rx_globals s))
              (if pcgp then riscv_update_pcgp_relocs (rx_pcgp s) (si_id sec) addr count toaddr else rx_pcgp s)
              (rx_again s) (rx_flg0 s) (rx_htab s))
  end.

Definition set_reloc (i : nat) (rel : Elf_Internal_Rela) (s : relax_state) : relax_state :=
  with_relocs s (<[i := rel]> (rx_relocs s)).

(** [_riscv_relax_delete_piecewise]: relocation [rel] becomes the mark.  The
    result false stands for the failure of the caller. *)
Definition _riscv_relax_delete_piecewise (addr count : Z) (rel : option nat) (s : relax_state)
  : option (relax_state * bool) :=
  match rel with
  | None => Some (s, false)
  | Some i => Some (set_reloc i (mk_rela addr (R_INFO 0 R_RISCV_DELETE) count) s, true)
  end.

(** [_riscv_relax_delete_immediate]. *)
Definition _riscv_relax_delete_immediate (addr count : Z) (pcgp : bool) (rel : option nat) (s : relax_state)
  : option (relax_state * bool) :=
  let s :=
    match rel with
    | Some i =>
        match rx_relocs s !! i with
        | Some r => set_reloc i (mk_rela (r_offset r) (R_INFO 0 R_RISCV_NONE) (r_addend r)) s
        | None => s
        end
    | None => s
    end in
  (fun s => (s, true)) <$> _riscv_relax_delete_bytes addr count pcgp 0 (rx_size s) s.

(** The search for the next mark, from relocation [i] on. *)
Fixpoint next_delete (off : Z) (i : nat) (relocs : list Elf_Internal_Rela) : option nat :=
  match relocs with
  | [] => None
  | rel :: relocs =>
      if (R_TYPE rel =? R_RISCV_DELETE) && (off <? r_offset rel) then Some i else next_delete off (S i) relocs
  end.

(** [riscv_relax_resolve_delete_relocs], from relocation [i] on; every round
    moves on, so the number of relocations bounds the rounds. *)
Fixpoint resolve_delete_loop (fuel i : nat) (delete_total : Z) (s : relax_state) : option relax_state :=
  match fuel with
  | O => Some s
  | S fuel =>
      match rx_relocs s !! i with
      | None => Some s
      | Some rel =>
          if negb (R_TYPE rel =? R_RISCV_DELETE) then resolve_delete_loop fuel (S i) delete_total s
          else
            let next := next_delete (r_offset rel) i (drop i (rx_relocs s)) in
            let toaddr := match next ≫= fun j => rx_relocs s !! j with
                          | Some r => r_offset r
                          | None => rx_size s
                          end in
            match _riscv_relax_delete_bytes (r_offset rel) (r_addend rel) false delete_total toaddr s with
            | None => None
            | Some s =>
                let s := match rx_relocs s !! i with
                         | Some r => set_reloc i (mk_rela (r_offset r) (R_INFO 0 R_RISCV_NONE) (r_addend r)) s
                         | None => s
                         end in
                match next with
                | Some j => resolve_delete_loop fuel j (u64 (delete_total + r_addend rel)) s
                | None => Some s
                end
            end
      end
  end.
Definition riscv_relax_resolve_delete_relocs (s : relax_state) : option relax_state :=
  resolve_delete_loop (S (length (rx_relocs s))) 0 0 s.

(** ** The rewritings *)

(** What the rewritings ask of the link: the flags, the global pointer symbol
    if it is defined (its value and section), the thread-local section, and
    the output sections with alignment power, address and size. *)
Context (use_rvc link_pic relro relax_gp : bool).
Context (gp_symbol : option (Z * section_info)) (tls_sec : option Z) (outputs : list (Z * Z * Z)).

Definition ELF_MAXPAGESIZE : Z := 0x1000.

Definition riscv_global_pointer_value : Z :=
  match gp_symbol with None => 0 | Some (v, i) => u64 (v + sec_addr i) end.

(** The alignment of an output section that holds both ends. *)
Definition same_output (i j : section_info) : bool := (si_output i =? si_output j) && negb (si_abs j).

(** [_bfd_riscv_relax_call] for relocation [i]. *)
Definition _bfd_riscv_relax_call (i : nat) (rel : Elf_Internal_Rela) (sym_sec : section_info)
    (symval max_alignment : Z) (s : relax_state) : option (relax_state * bool) :=
  let foff := u64 (symval - u64 (sec_addr sec + r_offset rel)) in
  let near_zero := u64 (symval + RISCV_IMM_REACH / 2) <? RISCV_IMM_REACH in
  let foff :=
    if VALID_JTYPE_IMM foff then
      let max_alignment := if same_output sec sym_sec then 1 <<u si_align sym_sec else max_alignment in
      u64 (foff + (if s64 foff <? 0 then - max_alignment else max_alignment))
    else foff in
  if negb (VALID_JTYPE_IMM foff) && negb (negb link_pic && near_zero) then Some (s, true)
  else
    match riscv_get_insn 32 (rx_contents s) (r_offset rel + 4) with
    | None => None
    | Some jalr =>
        let rd := (jalr >> OP_SH FLD_RD) .& OP_MASK FLD_RD in
        let rvc := use_rvc && VALID_CJTYPE_IMM foff && ((rd =? 0) || (rd =? X_RA) && negb arch64) in
        let '(r_type, auipc, len) :=
          if rvc then (R_RISCV_RVC_JUMP, if rd =? 0 then MATCH_C_J else MATCH_C_JAL, 2)
          else if VALID_JTYPE_IMM foff then (R_RISCV_JAL, MATCH_JAL .| (rd << OP_SH FLD_RD), 4)
          else (R_RISCV_LO12_I, MATCH_JALR .| (rd << OP_SH FLD_RD), 4) in
        match riscv_put_insn (Z.to_nat (8 * len)) auipc (rx_contents s) (r_offset rel) with
        | None => None
        | Some contents =>
            let s := set_reloc i (mk_rela (r_offset rel) (R_INFO (R_SYM rel) r_type) (r_addend rel)) s in
            let s := with_again (with_contents s contents) true in
            _riscv_relax_delete_piecewise (u64 (r_offset rel + len)) (8 - len) (Some (S i)) s
        end
    end.

(** [_bfd_riscv_get_max_alignment]. *)
Definition _bfd_riscv_get_max_alignment (gp : Z) : Z :=
  1 <<u foldl (fun max o =>
          let '(align, addr, size) := o in
          let valid := (gp =? 0) || VALID_ITYPE_IMM (u64 (addr - gp)) || VALID_ITYPE_IMM (u64 (addr + size - gp)) in
          if valid && (max <? align) then align else max) 0 outputs.

(** The alignment to allow for between the global pointer and a symbol. *)
Definition gp_alignment (sym_sec : section_info) (undefined_weak : bool) (gp max_alignment : Z) (s : relax_state)
  : Z * relax_state :=
  if negb undefined_weak && negb (gp =? 0) then
    if match gp_symbol with Some (_, g) => same_output g sym_sec | None => false end
    then (1 <<u si_align sym_sec, s)
    else if max_alignment_for_gp (rx_htab s) =? MINUS_ONE then
      let a := _bfd_riscv_get_max_alignment gp in
      (a, with_htab s (mk_htab (max_alignment_ (rx_htab s)) a (first_section (rx_htab s))))
    else (max_alignment_for_gp (rx_htab s), s)
  else (max_alignment, s).

(** In reach of x0 or gp. *)
Definition gp_reach (undefined_weak : bool) (gp symval max_alignment reserve_size : Z) : bool :=
  undefined_weak || VALID_ITYPE_IMM symval
  || (gp <=? symval) && VALID_ITYPE_IMM (u64 (symval - gp + max_alignment + reserve_size))
  || (symval <? gp) && VALID_ITYPE_IMM (u64 (symval - gp - max_alignment - reserve_size)).

Definition relaxed_gp : Z := if relax_gp then riscv_global_pointer_value else 0.

(** [_bfd_riscv_relax_lui]. *)
Definition _bfd_riscv_relax_lui (i : nat) (rel : Elf_Internal_Rela) (sym_sec : section_info)
    (symval max_alignment reserve_size : Z) (undefined_weak : bool) (s : relax_state)
  : option (relax_state * bool) :=
  let gp := relaxed_gp in
  let '(max_alignment, s) := gp_alignment sym_sec undefined_weak gp max_alignment s in
  let retype t := set_reloc i (mk_rela (r_offset rel) (R_INFO (R_SYM rel) t) (r_addend rel)) in
  if gp_reach undefined_weak gp symval max_alignment reserve_size then
    match R_TYPE rel with
    | R_RISCV_LO12_I => Some (retype R_RISCV_GPREL_I s, true)
    | R_RISCV_LO12_S => Some (retype R_RISCV_GPREL_S s, true)
    | R_RISCV_HI20 => _riscv_relax_delete_piecewise (r_offset rel) 4 (Some i) (with_again s true)
    | _ => None
    end
  else
    let high := RISCV_CONST_HIGH_PART symval in
    if use_rvc && (R_TYPE rel =? R_RISCV_HI20) && VALID_CITYPE_LUI_IMM high
       && VALID_CITYPE_LUI_IMM (u64 (high + (if relro then 2 * ELF_MAXPAGESIZE else ELF_MAXPAGESIZE)))
    then
      match riscv_get_insn 32 (rx_contents s) (r_offset rel) with
      | None => None
      | Some lui =>
          let rd := (lui >> OP_SH FLD_RD) .& OP_MASK FLD_RD in
          if (rd =? 0) || (rd =? X_SP) then Some (s, true)
          else
            let lui := (lui .& (OP_MASK FLD_RD << OP_SH FLD_RD)) .| MATCH_C_LUI in
            match riscv_put_insn 32 lui (rx_contents s) (r_offset rel) with
            | None => None
            | Some contents =>
                _riscv_relax_delete_piecewise (u64 (r_offset rel + 2)) 2 (Some (S i))
                  (with_again (retype R_RISCV_RVC_LUI (with_contents s contents)) true)
            end
      end
    else Some (s, true).

(** [_bfd_riscv_relax_tls_le]. *)
Definition _bfd_riscv_relax_tls_le (i : nat) (rel : Elf_Internal_Rela) (symval : Z) (s : relax_state)
  : option (relax_state * bool) :=
  let retype t := set_reloc i (mk_rela (r_offset rel) (R_INFO (R_SYM rel) t) (r_addend rel)) in
  if negb (RISCV_CONST_HIGH_PART (tpoff tls_sec symval) =? 0) then Some (s, true)
  else
    match R_TYPE rel with
    | R_RISCV_TPREL_LO12_I => Some (retype R_RISCV_TPREL_I s, true)
    | R_RISCV_TPREL_LO12_S => Some (retype R_RISCV_TPREL_S s, true)
    | R_RISCV_TPREL_HI20 | R_RISCV_TPREL_ADD =>
        _riscv_relax_delete_piecewise (r_offset rel) 4 (Some i) (with_again s true)
    | _ => None
    end.

(** The smallest power of two above the addend; it does not end from 2^63 on. *)
Fixpoint align_above (fuel : nat) (alignment addend : Z) : option Z :=
  match fuel with
  | O => None
  | S fuel => if alignment <=? addend then align_above fuel (u64 (alignment * 2)) addend else Some alignment
  end.

(** The loop that writes the nops, [n] of them from [off] on. *)
Fixpoint write_nops (n : nat) (off : Z) (contents : list Z) : option (list Z) :=
  match n with
  | O => Some contents
  | S n => match riscv_put_insn 32 RISCV_NOP contents off with
           | Some contents => write_nops n (off + 4) contents
           | None => None
           end
  end.

(** [_bfd_riscv_relax_align]. *)
Definition _bfd_riscv_relax_align (i : nat) (rel : Elf_Internal_Rela) (symval : Z) (s : relax_state)
  : option (relax_state * bool) :=
  match align_above 65 1 (r_addend rel) with
  | None => None
  | Some alignment =>
      let symval := u64 (symval - r_addend rel) in
      let aligned_addr := u64 ((u64 (symval - 1) .& u64 (Z.lnot (alignment - 1))) + alignment) in
      let nop_bytes := u64 (aligned_addr - symval) in
      let s := with_flg0 s in
      if r_addend rel <? nop_bytes then Some (s, false)
      else
        let s := set_reloc i (mk_rela (r_offset rel) (R_INFO 0 R_RISCV_NONE) (r_addend rel)) s in
        if nop_bytes =? r_addend rel then Some (s, true)
        else
          match write_nops (Z.to_nat (nop_bytes / 4)) (r_offset rel) (rx_contents s) with
          | None => None
          | Some contents =>
              match (if negb (nop_bytes mod 4 =? 0)
                     then riscv_put_insn 16 RVC_NOP contents (r_offset rel + nop_bytes / 4 * 4)
                     else Some contents) with
              | None => None
              | Some contents =>
                  _riscv_relax_delete_immediate (u64 (r_offset rel + nop_bytes)) (u64 (r_addend rel - nop_bytes))
                    false None (with_contents s contents)
              end
          end
  end.

(** [_bfd_riscv_relax_pc]. *)
Definition _bfd_riscv_relax_pc (i : nat) (rel : Elf_Internal_Rela) (sym_sec : section_info)
    (symval max_alignment reserve_size : Z) (undefined_weak : bool) (s : relax_state)
  : option (relax_state * bool) :=
  let gp := relaxed_gp in
  let type := R_TYPE rel in
  (* the target, through the high part for a low part; done otherwise *)
  match (match type with
         | R_RISCV_PCREL_LO12_I | R_RISCV_PCREL_LO12_S =>
             let hi_sec_off := u64 (symval - sec_addr sym_sec - r_addend rel) in
             match riscv_find_pcgp_hi_reloc (rx_pcgp s) hi_sec_off with
             | None => Some (inr (with_pcgp s (riscv_record_pcgp_lo_reloc (rx_pcgp s) hi_sec_off)))
             | Some hi => Some (inl (hi_addr hi, hi_sym_sec hi, hi_undefined_weak hi, hi_sym hi, hi_addend hi))
             end
         | R_RISCV_PCREL_HI20 =>
             if negb undefined_weak && (si_merge sym_sec || si_code sym_sec) then Some (inr s)
             else if riscv_find_pcgp_lo_reloc (rx_pcgp s) (r_offset rel) then Some (inr s)
             else Some (inl (symval, sym_sec, undefined_weak, 0, 0))
         | _ => None
         end) with
  | None => None
  | Some (inr s) => Some (s, true)
  | Some (inl (symval, sym_sec, undefined_weak, sym, addend)) =>
      let '(max_alignment, s) := gp_alignment sym_sec undefined_weak gp max_alignment s in
      if gp_reach undefined_weak gp symval max_alignment reserve_size then
        let low t := Some (set_reloc i (mk_rela (r_offset rel) (R_INFO sym t) (u64 (r_addend rel + addend))) s, true) in
        match type with
        | R_RISCV_PCREL_LO12_I => low R_RISCV_GPREL_I
        | R_RISCV_PCREL_LO12_S => low R_RISCV_GPREL_S
        | _ =>
            let h := mk_pcgp_hi (r_offset rel) (r_addend rel) symval (R_SYM rel) sym_sec undefined_weak in
            let s := with_again (with_pcgp s (riscv_record_pcgp_hi_reloc (rx_pcgp s) h)) true in
            (fun r => (fst r, true)) <$> _riscv_relax_delete_piecewise (r_offset rel) 4 (Some i) s
        end
      else Some (s, true)
  end.

(** ** The pass over a section *)

Inductive relax_func : Set := RF_call | RF_lui | RF_tls_le | RF_pc | RF_align.

(** The symbols the relocations refer to: a merged section moves the offset
    (bfd/merge.c), and the section of the PLT. *)
Context (relax_pass : Z) (merged_section_offset : section_info -> Z -> section_info * Z).
Context (splt : section_info).

Definition relax_func_of (type : Z) : option relax_func :=
  if relax_pass =? 0 then
    match type with
    | R_RISCV_CALL | R_RISCV_CALL_PLT => Some RF_call
    | R_RISCV_HI20 | R_RISCV_LO12_I | R_RISCV_LO12_S => Some RF_lui
    | R_RISCV_TPREL_HI20 | R_RISCV_TPREL_ADD | R_RISCV_TPREL_LO12_I | R_RISCV_TPREL_LO12_S => Some RF_tls_le
    | R_RISCV_PCREL_HI20 | R_RISCV_PCREL_LO12_I | R_RISCV_PCREL_LO12_S =>
        if negb link_pic then Some RF_pc else None
    | _ => None
    end
  else if (relax_pass =? 1) && (type =? R_RISCV_ALIGN) then Some RF_align
  else None.

(** A relocation of pass 0 has to be followed by R_RISCV_RELAX at its offset. *)
Definition has_relax (i : nat) (rel : Elf_Internal_Rela) (s : relax_state) : bool :=
  match rx_relocs s !! S i with
  | Some r => (R_TYPE r =? R_RISCV_RELAX) && (r_offset rel =? r_offset r)
  | None => false
  end.

Definition reserve_for (size addend : Z) : Z :=
  if size <? u64 (size - addend) then 0 else u64 (size - addend).

(** The symbol of a relocation: its section, its offset there, its type and
    whether it is undefined weak, with the new reserve; no symbol if the
    relocation is passed over. *)
Definition reloc_symbol (func : relax_func) (rel : Elf_Internal_Rela) (reserve_size : Z) (s : relax_state)
  : option (section_info * Z * symbol_type * bool) * Z :=
  let sym := R_SYM rel in
  let nlocal := Z.of_nat (length (rx_syms s)) in
  if sym <? nlocal then
    match rx_syms s !! Z.to_nat sym with
    | None => (None, reserve_size)
    | Some isym =>
        let reserve_size := reserve_for (st_size isym) (r_addend rel) in
        (if bool_decide (st_type isym = STT_GNU_IFUNC) then None
         else match st_section isym with
              | None => Some (sec, r_offset rel, st_type isym, false)
              | Some i => Some (i, st_value isym, st_type isym, false)
              end, reserve_size)
    end
  else
    match rx_hashes s !! Z.to_nat (sym - nlocal) ≫= fun n => rx_globals s !! n with
    | None => (None, reserve_size)
    | Some h =>
        if bool_decide (h_type h = STT_GNU_IFUNC) then (None, reserve_size)
        else
          let undefined_weak :=
            bool_decide (h_kind h = hash_undefweak) && negb (h_linker_def h)
            && match func with RF_lui | RF_pc => true | _ => false end in
          let place :=
            match (if link_pic then h_plt h else None) with
            | Some off => Some (splt, off)
            | None =>
                if undefined_weak then Some (mk_secinfo (-1) 0 (-1) 0 false false false false, 0)
                else if bool_decide (h_kind h = hash_defined) || bool_decide (h_kind h = hash_defweak)
                     then (fun i => (i, h_value h)) <$> h_section h
                     else None
            end in
          match place with
          | None => (None, reserve_size)
          | Some (i, v) =>
              (Some (i, v, h_type h, undefined_weak),
               if bool_decide (h_type h = STT_FUNC) then reserve_size else reserve_for (h_size h) (r_addend rel))
          end
    end.

(** The address of the symbol plus the addend. *)
Definition reloc_target (rel : Elf_Internal_Rela) (sym_sec : section_info) (symval : Z) (symtype : symbol_type)
  : section_info * Z :=
  let '(sym_sec, symval) :=
    if si_merged sym_sec && si_merge sym_sec then
      let section := bool_decide (symtype = STT_SECTION) in
      let '(i, v) := merged_section_offset sym_sec (if section then u64 (symval + r_addend rel) else symval) in
      (i, if section then v else u64 (v + r_addend rel))
    else (sym_sec, u64 (symval + r_addend rel)) in
  (sym_sec, u64 (symval + sec_addr sym_sec)).

(** The loop over the relocations, from number [i] on. *)
Fixpoint relax_loop (fuel i : nat) (max_alignment reserve_size : Z) (s : relax_state) : option (relax_state * bool) :=
  match fuel, rx_relocs s !! i with
  | S fuel, Some rel =>
      match relax_func_of (R_TYPE rel) with
      | None => relax_loop fuel (S i) max_alignment reserve_size s
      | Some func =>
          if (relax_pass =? 0) && negb (has_relax i rel s) then relax_loop fuel (S i) max_alignment reserve_size s
          else
            let next := if relax_pass =? 0 then S (S i) else S i in
            match reloc_symbol func rel reserve_size s with
            | (None, reserve_size) => relax_loop fuel next max_alignment reserve_size s
            | (Some (sym_sec, symval, symtype, undefined_weak), reserve_size) =>
                let '(sym_sec, symval) := reloc_target rel sym_sec symval symtype in
                match (match func with
                       | RF_call => _bfd_riscv_relax_call i rel sym_sec symval max_alignment s
                       | RF_lui => _bfd_riscv_relax_lui i rel sym_sec symval max_alignment reserve_size undefined_weak s
                       | RF_tls_le => _bfd_riscv_relax_tls_le i rel symval s
                       | RF_pc => _bfd_riscv_relax_pc i rel sym_sec symval max_alignment reserve_size undefined_weak s
                       | RF_align => _bfd_riscv_relax_align i rel symval s
                       end) with
                | None => None
                | Some (s, false) => Some (s, false)
                | Some (s, true) => relax_loop fuel next max_alignment reserve_size s
                end
            end
      end
  | _, _ => Some (s, true)
  end.

(** [_bfd_riscv_relax_section]; [relocatable], [flags] (SEC_RELOC and
    SEC_HAS_CONTENTS), [disabled] and [phase] are its guards. *)
Definition _bfd_riscv_relax_section (relocatable sec_reloc has_contents disabled : bool) (data_segment_phase : Z)
    (s : relax_state) : option (relax_state * bool) :=
  let s := with_again s false in
  if relocatable || rx_flg0 s || (length (rx_relocs s) =? 0)%nat || negb sec_reloc || negb has_contents
     || disabled && (relax_pass =? 0) || (data_segment_phase =? 4)
  then Some (s, true)
  else
    let h := rx_htab s in
    let h := match first_section h with
             | None => mk_htab (max_alignment_ h) (max_alignment_for_gp h) (Some (si_id sec))
             | Some f => if f =? si_id sec then mk_htab (max_alignment_ h) MINUS_ONE (Some f) else h
             end in
    let max_alignment := if max_alignment_ h =? MINUS_ONE then _bfd_riscv_get_max_alignment 0 else max_alignment_ h in
    let h := mk_htab max_alignment (max_alignment_for_gp h) (first_section h) in
    let s := with_pcgp (with_htab s h) riscv_init_pcgp_relocs in
    match relax_loop (length (rx_relocs s)) 0 max_alignment 0 s with
    | None => None
    | Some (s, false) => Some (s, false)
    | Some (s, true) => (fun s => (s, true)) <$> riscv_relax_resolve_delete_relocs s
    end.

End relax.
