(* ===== verification/LinkRelaxSpec.v ===== *)
(** * Properties of linker relaxation

    Deleting the marked bytes piece by piece is deleting them all at once, and
    the relocations and symbols follow their bytes; a shortened call still
    reaches its target, and an alignment is reached. *)
From Stdlib Require Import ZArith Bool Lia.
From stdpp Require Import base list gmap.
From S2P Require Import Prelude OpcodeH RiscvH Immediates Words OpcodeMatch Bytes Howto Fixups FixupsSpec LinkReloc LinkRelocSpec LinkRelax.

#[local] Open Scope Z_scope.
#[local] Open Scope c_scope.
#[local] Open Scope list_scope.

(** ** Deleting ranges *)

Abbreviation ranges := (list (Z * Z)).

(** The ranges [(o, c)], [c] bytes at [o], in order between [lo] and [hi]. *)
Fixpoint ranges_ok (lo : Z) (D : ranges) (hi : Z) : Prop :=
  match D with
  | [] => lo <= hi
  | (o, c) :: D => lo <= o /\ 0 < c /\ ranges_ok (o + c) D hi
  end.

Fixpoint total (D : ranges) : Z :=
  match D with [] => 0 | (_, c) :: D => c + total D end.

(** Where position [x] is after the deletion. *)
Fixpoint newaddr (D : ranges) (x : Z) : Z :=
  match D with
  | [] => x
  | (o, c) :: D => newaddr D x - if o <? x then c else 0
  end.

(** The bytes between the ranges; [l] are those from [pos] on. *)
Fixpoint survive (pos : Z) (D : ranges) (l : list Z) : list Z :=
  match D with
  | [] => l
  | (o, c) :: D => take (Z.to_nat (o - pos)) l ++ survive (o + c) D (drop (Z.to_nat (o + c - pos)) l)
  end.

Definition deleted (D : ranges) (x : Z) : Prop := exists o c, In (o, c) D /\ o <= x < o + c.

(** Not strictly inside a range. *)
Definition at_edge (D : ranges) (x : Z) : Prop := forall o c, In (o, c) D -> o < x -> o + c <= x.

Lemma total_app D E : total (D ++ E) = total D + total E.
Proof. induction D as [|[o c] D IH]; [done|]. cbn [app total]. lia. Qed.

Lemma newaddr_app D E x : newaddr (D ++ E) x = newaddr D x + newaddr E x - x.
Proof. induction D as [|[o c] D IH]; cbn [app newaddr]; [lia|]. rewrite IH. lia. Qed.

Lemma ranges_total lo D hi : ranges_ok lo D hi -> 0 <= total D <= hi - lo.
Proof.
  revert lo. induction D as [|[o c] D IH]; intros lo H; cbn [ranges_ok total] in *; [lia|].
  destruct H as (H1 & H2 & H3). specialize (IH _ H3). lia.
Qed.

Lemma newaddr_before D x lo hi : ranges_ok lo D hi -> x <= lo -> newaddr D x = x.
Proof.
  revert lo. induction D as [|[o c] D IH]; intros lo H Hx; cbn [ranges_ok newaddr] in *; [done|].
  destruct H as (H1 & H2 & H3). rewrite (proj2 (Z.ltb_ge o x)) by lia. rewrite (IH _ H3) by lia. lia.
Qed.

Lemma newaddr_after D x lo hi : ranges_ok lo D hi -> hi < x \/ hi <= x /\ D <> [] /\ (forall o c, In (o, c) D -> o < x) ->
  newaddr D x = x - total D.
Proof.
  revert lo. induction D as [|[o c] D IH]; intros lo H Hx; cbn [ranges_ok newaddr total] in *; [lia|].
  destruct H as (H1 & H2 & H3). pose proof (ranges_total _ _ _ H3).
  assert (Ho : o < x) by (destruct Hx as [|(_ & _ & Hx)]; [lia|apply (Hx o c); by left]).
  rewrite (proj2 (Z.ltb_lt o x)) by lia.
  destruct D as [|e D]; [cbn [newaddr total]; lia|].
  rewrite (IH _ H3); [lia|]. destruct Hx as [|(Hx & _ & Hall)]; [by left|right].
  split_and!; [done|done|]. intros o' c' Hin. apply (Hall o' c'). by right.
Qed.

Lemma ranges_in lo D hi o c : ranges_ok lo D hi -> In (o, c) D -> lo <= o /\ 0 < c /\ o + c <= hi.
Proof.
  revert lo. induction D as [|[o' c'] D IH]; intros lo H Hin; [done|]. cbn [ranges_ok] in H.
  destruct H as (H1 & H2 & H3). pose proof (ranges_total _ _ _ H3). destruct Hin as [[= -> ->]|Hin]; [lia|].
  destruct (IH _ H3 Hin). lia.
Qed.

Lemma ranges_split D o c M : forall lo hi,
  ranges_ok lo (D ++ (o, c) :: M) hi -> ranges_ok lo D o /\ 0 < c /\ ranges_ok (o + c) M hi.
Proof.
  induction D as [|[o' c'] D IH]; intros lo hi; cbn [app ranges_ok]; [tauto|].
  intros (H1 & H2 & H3). destruct (IH _ _ H3) as (K1 & K2 & K3). tauto.
Qed.

(** Behind all ranges. *)
Lemma newaddr_behind D x lo hi : ranges_ok lo D hi -> hi <= x -> newaddr D x = x - total D.
Proof.
  intros H Hx. destruct (decide (D = [])) as [->|Hne]; [cbn; lia|].
  apply (newaddr_after D x lo hi H). right. split; [done|]. split; [done|].
  intros o c Hin. destruct (ranges_in _ _ _ _ _ H Hin). lia.
Qed.

Lemma newaddr_le lo D hi x : ranges_ok lo D hi -> x <= hi -> newaddr D x <= hi - total D.
Proof.
  revert lo. induction D as [|[o c] D IH]; intros lo H Hx; cbn [ranges_ok newaddr total] in *; [lia|].
  destruct H as (H1 & H2 & H3). specialize (IH _ H3 Hx). pose proof (ranges_total _ _ _ H3).
  destruct (Z.ltb_spec o x); [lia|]. rewrite (newaddr_before D x (o + c) hi H3) by lia. lia.
Qed.

Lemma newaddr_ge lo D hi x : ranges_ok lo D hi -> at_edge D x -> lo <= x -> lo <= newaddr D x <= x.
Proof.
  revert lo. induction D as [|[o c] D IH]; intros lo H He Hx; cbn [ranges_ok newaddr] in *; [lia|].
  destruct H as (H1 & H2 & H3).
  assert (He' : at_edge D x) by (intros o' c' Hin; apply (He o' c'); by right).
  destruct (Z.ltb_spec o x) as [Ho|Ho].
  - specialize (He o c ltac:(by left) Ho). specialize (IH _ H3 He' He). lia.
  - rewrite (newaddr_before D x (o + c) hi H3) by lia. lia.
Qed.

(** One more range behind the others: [o] is seen at [o - total D]. *)
Lemma newaddr_step lo D o x :
  ranges_ok lo D o -> (o - total D <? newaddr D x) = (o <? x) /\ (o < x -> newaddr D x = x - total D).
Proof.
  intros H. assert (Hb : o < x -> newaddr D x = x - total D) by (intros; apply (newaddr_behind D x lo o H); lia).
  split; [|done]. destruct (Z.ltb_spec o x) as [Ho|Ho].
  - rewrite Hb by done. apply Z.ltb_lt. lia.
  - apply Z.ltb_ge. by apply (newaddr_le lo).
Qed.

(** A byte that is kept is found at its new address. *)
Lemma survive_lookup D : forall pos l x,
  ranges_ok pos D (pos + Z.of_nat (length l)) -> pos <= x -> ~ deleted D x ->
  survive pos D l !! Z.to_nat (newaddr D x - pos) = l !! Z.to_nat (x - pos).
Proof.
  induction D as [|[o c] D IH]; intros pos l x H Hx Hd; cbn [ranges_ok newaddr survive] in *; [done|].
  destruct H as (H1 & H2 & H3). pose proof (ranges_total _ _ _ H3) as Ht.
  assert (Hd' : ~ deleted D x) by (intros (o' & c' & Hin & Ho'); apply Hd; exists o', c'; split; [by right|done]).
  destruct (Z.ltb_spec o x) as [Ho|Ho].
  - assert (Hxc : o + c <= x).
    { destruct (Z.lt_ge_cases x (o + c)); [|done]. exfalso. apply Hd. exists o, c. split; [by left|lia]. }
    set (l' := drop (Z.to_nat (o + c - pos)) l).
    assert (Hl' : Z.of_nat (length l') = pos + Z.of_nat (length l) - (o + c))
      by (unfold l'; rewrite length_drop; lia).
    specialize (IH (o + c) l' x ltac:(rewrite Hl'; by replace (o + c + (pos + Z.of_nat (length l) - (o + c)))
      with (pos + Z.of_nat (length l)) by lia) Hxc Hd').
    assert (He : at_edge D x).
    { intros o' c' Hin Ho'. destruct (Z.lt_ge_cases x (o' + c')); [|done]. exfalso. apply Hd'. exists o', c'. split; [done|lia]. }
    pose proof (newaddr_ge _ _ _ _ H3 He Hxc) as Hge.
    rewrite lookup_app_r by (rewrite length_take; lia). rewrite length_take.
    replace (Z.to_nat (newaddr D x - c - pos) - Z.to_nat (o - pos) `min` length l)%nat
      with (Z.to_nat (newaddr D x - (o + c))) by lia.
    rewrite IH. unfold l'. rewrite lookup_drop. f_equal. lia.
  - assert (Hox : x < o).
    { destruct (Z.lt_ge_cases x o); [done|]. exfalso. apply Hd. exists o, c. split; [by left|lia]. }
    rewrite (newaddr_before D x (o + c) _ H3) by lia.
    rewrite lookup_app_l by (rewrite length_take; lia). rewrite lookup_take_lt by lia. f_equal. lia.
Qed.

Lemma survive_length D : forall pos l,
  ranges_ok pos D (pos + Z.of_nat (length l)) -> Z.of_nat (length (survive pos D l)) = Z.of_nat (length l) - total D.
Proof.
  induction D as [|[o c] D IH]; intros pos l H; cbn [ranges_ok survive total] in *; [lia|].
  destruct H as (H1 & H2 & H3). pose proof (ranges_total _ _ _ H3) as Ht.
  rewrite length_app, Nat2Z.inj_add, IH.
  - rewrite length_take, length_drop. lia.
  - rewrite length_drop. replace (o + c + Z.of_nat (length l - Z.to_nat (o + c - pos))) with (pos + Z.of_nat (length l)) by lia. done.
Qed.

(** ** One deletion *)

(** Relocations and symbols after the deletion. *)
Definition moved_reloc (D : ranges) (rel : Elf_Internal_Rela) : Elf_Internal_Rela :=
  mk_rela (newaddr D (r_offset rel)) (r_info rel) (r_addend rel).

Definition moved_span (D : ranges) (value size : Z) : Z * Z :=
  (newaddr D value, newaddr D (value + size) - newaddr D value).

Definition moved_local (sec : Z) (D : ranges) (s : Elf_Internal_Sym) : Elf_Internal_Sym :=
  match st_section s with
  | Some i => if si_id i =? sec then
                let '(v, z) := moved_span D (st_value s) (st_size s) in mk_sym (st_section s) v z (st_type s)
              else s
  | None => s
  end.

Definition defined_in (sec : Z) (h : elf_link_hash_entry) : bool :=
  (bool_decide (h_kind h = hash_defined) || bool_decide (h_kind h = hash_defweak))
  && match h_section h with Some i => si_id i =? sec | None => false end.

Definition moved_global (sec : Z) (D : ranges) (h : elf_link_hash_entry) : elf_link_hash_entry :=
  if defined_in sec h then
    let '(v, z) := moved_span D (h_value h) (h_size h) in
    mk_hash (h_kind h) (h_section h) v z (h_type h) (h_versioned h) (h_linker_def h) (h_plt h)
  else h.

(** A symbol of the section: within it, and its ends not inside a range. *)
Definition span_ok (D : ranges) (n value size : Z) : Prop :=
  0 <= value /\ 0 <= size /\ value + size <= n /\ at_edge D value /\ at_edge D (value + size).

Definition local_ok (sec : Z) (D : ranges) (n : Z) (s : Elf_Internal_Sym) : Prop :=
  match st_section s with
  | Some i => si_id i = sec -> span_ok D n (st_value s) (st_size s)
  | None => True
  end.

Definition global_ok (sec : Z) (D : ranges) (n : Z) (h : elf_link_hash_entry) : Prop :=
  defined_in sec h = true -> span_ok D n (h_value h) (h_size h).

Definition reloc_ok (D : ranges) (n : Z) (rel : Elf_Internal_Rela) : Prop :=
  0 <= r_offset rel < n /\ at_edge D (r_offset rel).

Lemma at_edge_app D E x : at_edge (D ++ E) x -> at_edge D x /\ at_edge E x.
Proof. intros H. split; intros o c Hin; apply H; apply in_or_app; auto. Qed.

Lemma newaddr_snoc lo D o c x :
  ranges_ok lo D o -> newaddr (D ++ [(o, c)]) x = newaddr D x - if o <? x then c else 0.
Proof. intros H. rewrite newaddr_app. cbn [newaddr]. lia. Qed.

Section step.

(** After the ranges [D], [(o, c)] is next; [n] is the original size. *)
Context (D : ranges) (o c n : Z).
Context (HD : ranges_ok 0 D o) (Hc : 0 < c) (Hn : o + c <= n < 2 ^ 63).

Lemma reloc_step rel :
  reloc_ok (D ++ [(o, c)]) n rel ->
  (let r := moved_reloc D rel in
   if (o - total D <? r_offset r) && (r_offset r <? n - total D)
   then mk_rela (u64 (r_offset r - c)) (r_info r) (r_addend r) else r)
  = moved_reloc (D ++ [(o, c)]) rel.
Proof.
  intros [Hr He]. cbn [moved_reloc r_offset r_info r_addend]. unfold moved_reloc. rewrite (newaddr_snoc 0) by done.
  apply at_edge_app in He as [He1 He2].
  destruct (newaddr_step 0 D o (r_offset rel) HD) as [-> Hb].
  pose proof (ranges_total _ _ _ HD) as Ht.
  destruct (Z.ltb_spec o (r_offset rel)) as [Ho|Ho]; cbn [andb].
  - specialize (Hb Ho). specialize (He2 o c ltac:(by left) Ho). rewrite Hb.
    rewrite (proj2 (Z.ltb_lt _ _)) by lia. rewrite u64_small by lia. done.
  - by rewrite Z.sub_0_r.
Qed.

Lemma span_step value size :
  span_ok (D ++ [(o, c)]) n value size ->
  adjust_symbol (o - total D) c (n - total D) (moved_span D value size).1 (moved_span D value size).2
  = moved_span (D ++ [(o, c)]) value size.
Proof.
  intros (Hv & Hs & He & E1 & E2). unfold moved_span, adjust_symbol. cbn [fst snd].
  rewrite !(newaddr_snoc 0 D) by done.
  apply at_edge_app in E1 as [E1 E1']. apply at_edge_app in E2 as [E2 E2'].
  pose proof (ranges_total _ _ _ HD) as Ht.
  assert (Hlow : forall x, at_edge D x -> 0 <= x <= n -> 0 <= newaddr D x <= n).
  { intros x Hx Hxn. pose proof (newaddr_ge 0 D o x HD Hx ltac:(lia)). lia. }
  pose proof (Hlow _ E1 ltac:(lia)) as L1. pose proof (Hlow _ E2 ltac:(lia)) as L2.
  replace (newaddr D value + (newaddr D (value + size) - newaddr D value)) with (newaddr D (value + size)) by lia.
  rewrite (u64_small (newaddr D (value + size))) by lia.
  destruct (newaddr_step 0 D o value HD) as [Q1 B1]. destruct (newaddr_step 0 D o (value + size) HD) as [Q2 B2].
  rewrite Q1, Q2.
  destruct (Z.ltb_spec o value) as [Ho|Ho]; cbn [andb].
  - specialize (B1 Ho). specialize (B2 ltac:(lia)). specialize (E1' o c ltac:(by left) Ho).
    rewrite (proj2 (Z.ltb_lt o (value + size))) by lia. rewrite (proj2 (Z.leb_le _ _)) by lia.
    rewrite u64_small by lia. f_equal. lia.
  - assert (Hle : newaddr D value <= o - total D) by (apply (newaddr_le 0); [done|lia]).
    rewrite (proj2 (Z.leb_le (newaddr D value) _)) by done. cbn [andb].
    destruct (Z.ltb_spec o (value + size)) as [Ho2|Ho2]; cbn [andb].
    + specialize (B2 Ho2). specialize (E2' o c ltac:(by left) Ho2). rewrite (proj2 (Z.leb_le _ _)) by lia.
      rewrite u64_small by lia. f_equal; lia.
    + f_equal; lia.
Qed.

Lemma local_step sec s :
  local_ok sec (D ++ [(o, c)]) n s ->
  adjust_local sec (o - total D) c (n - total D) (moved_local sec D s) = moved_local sec (D ++ [(o, c)]) s.
Proof.
  destruct s as [[i|] v z t]; [|done]. unfold local_ok, adjust_local, moved_local. cbn [st_section st_value st_size st_type].
  destruct (Z.eqb_spec (si_id i) sec) as [E|E]; intros H.
  - specialize (H E). apply span_step in H. destruct (moved_span D v z) as [v' z']. cbn [fst snd] in H.
    cbn [st_section st_value st_size st_type]. rewrite E, Z.eqb_refl, H. done.
  - cbn [st_section]. by rewrite (proj2 (Z.eqb_neq _ _) E).
Qed.

Lemma global_step sec h :
  global_ok sec (D ++ [(o, c)]) n h ->
  adjust_global sec (o - total D) c (n - total D) (moved_global sec D h) = moved_global sec (D ++ [(o, c)]) h.
Proof.
  destruct h as [k i v z t ve ld pl]. unfold global_ok, adjust_global, moved_global, defined_in.
  cbn [h_kind h_section h_value h_size h_type h_versioned h_linker_def h_plt].
  destruct (bool_decide (k = hash_defined) || bool_decide (k = hash_defweak)) eqn:Ek; cbn [andb].
  - destruct i as [i|]; [|cbn [h_kind h_section]; by rewrite Ek].
    destruct (Z.eqb_spec (si_id i) sec) as [E|E]; intros H.
    + specialize (H eq_refl). apply span_step in H. destruct (moved_span D v z) as [v' z']. cbn [fst snd] in H.
      cbn [h_kind h_section h_value h_size h_type h_versioned h_linker_def h_plt].
      rewrite Ek, E, Z.eqb_refl, H. done.
    + cbn [h_kind h_section]. by rewrite Ek, (proj2 (Z.eqb_neq _ _) E).
  - intros _. cbn [h_kind]. by rewrite Ek.
Qed.

End step.

(** ** The global symbols, each once *)

Definition listed (hashes : list nat) (i : nat) : bool := existsb (Nat.eqb i) hashes.

Definition moved_globals (sec : Z) (D : ranges) (hashes : list nat) (globals : list elf_link_hash_entry)
  : list elf_link_hash_entry :=
  imap (fun i h => if listed hashes i then moved_global sec D h else h) globals.

Lemma adjust_globals_lookup wrap sec addr count toaddr hashes : forall seen globals j,
  wrap = true \/ NoDup (seen ++ hashes) ->
  adjust_globals wrap sec addr count toaddr seen hashes globals !! j
  = if listed hashes j && negb (listed seen j) then adjust_global sec addr count toaddr <$> globals !! j
    else globals !! j.
Proof.
  assert (Hin : forall l j, listed l j = true <-> j ∈ l).
  { intros l j. unfold listed. rewrite existsb_exists. split.
    - intros (x & Hx & E). apply Nat.eqb_eq in E as ->. by apply list_elem_of_In.
    - intros Hx. exists j. split; [by apply list_elem_of_In|apply Nat.eqb_refl]. }
  induction hashes as [|i hashes IH]; intros seen globals j Hw; cbn [adjust_globals]; [done|].
  rewrite IH by (rewrite <- app_assoc; exact Hw).
  assert (Hseen : listed (seen ++ [i]) j = listed seen j || (j =? i)%nat)
    by (unfold listed; rewrite existsb_app; cbn [existsb]; by rewrite orb_false_r).
  rewrite Hseen. change (listed (i :: hashes) j) with ((j =? i)%nat || listed hashes j).
  change (existsb (Nat.eqb i) seen) with (listed seen i).
  destruct (Nat.eqb_spec j i) as [->|Hne].
  - rewrite orb_true_r. cbn [negb]. rewrite andb_false_r. cbn [orb andb].
    destruct (listed seen i) eqn:Es; cbn [negb].
    + destruct Hw as [->|Hnd]; [done|]. exfalso. apply Hin in Es.
      rewrite NoDup_app in Hnd. destruct Hnd as (_ & Hnd & _). apply (Hnd i Es). by left.
    + rewrite andb_false_r. by rewrite list_lookup_alter_eq.
  - rewrite orb_false_r. cbn [orb].
    destruct (_ && listed seen i); [done|]. by rewrite list_lookup_alter_ne by done.
Qed.

Lemma globals_step wrap sec D o c n hashes globals :
  ranges_ok 0 D o -> 0 < c -> o + c <= n < 2 ^ 63 ->
  wrap = true \/ NoDup hashes -> Forall (global_ok sec (D ++ [(o, c)]) n) globals ->
  adjust_globals wrap sec (o - total D) c (n - total D) [] hashes (moved_globals sec D hashes globals)
  = moved_globals sec (D ++ [(o, c)]) hashes globals.
Proof.
  intros HD Hc Hn Hw Hg. apply list_eq. intros j. rewrite adjust_globals_lookup by done.
  cbn [listed existsb negb]. rewrite andb_true_r. unfold moved_globals. rewrite !list_lookup_imap.
  destruct (globals !! j) as [h|] eqn:E; [|by destruct (listed hashes j)]. cbn [fmap option_fmap option_map].
  destruct (listed hashes j); [|done]. cbn [fmap option_fmap option_map]. f_equal.
  apply (global_step D o c n HD Hc Hn). rewrite Forall_forall in Hg. apply Hg. by eapply list_elem_of_lookup_2.
Qed.

(** ** All marks *)

Section resolve.

Context (arch64 wrap : bool) (sec : section_info) (n : Z) (L : list Z).
Context (syms : list Elf_Internal_Sym) (hashes : list nat) (globals : list elf_link_hash_entry).
Context (pcgp : riscv_pcgp_relocs) (again flg0 : bool) (htab : relax_htab).

Definition is_mark (rel : Elf_Internal_Rela) : bool := ELFNN_R_TYPE arch64 (r_info rel) =? R_RISCV_DELETE.

Fixpoint marks (relocs : list Elf_Internal_Rela) : ranges :=
  match relocs with
  | [] => []
  | r :: relocs => if is_mark r then (r_offset r, r_addend r) :: marks relocs else marks relocs
  end.

Definition cleared (rel : Elf_Internal_Rela) : Elf_Internal_Rela :=
  if is_mark rel then mk_rela (r_offset rel) (ELFNN_R_INFO arch64 0 R_RISCV_NONE) (r_addend rel) else rel.

(** The state after the ranges [D] were deleted, at the relocations [Rest]. *)
Definition stage (D : ranges) (A Rest : list Elf_Internal_Rela) (B : list Z) : relax_state :=
  mk_relax (n - total D) B (map (fun r => cleared (moved_reloc D r)) A ++ map (moved_reloc D) Rest)
    (map (moved_local (si_id sec) D) syms) hashes (moved_globals (si_id sec) D hashes globals) pcgp again flg0 htab.

Lemma is_mark_moved D r : is_mark (moved_reloc D r) = is_mark r.
Proof. done. Qed.

Lemma marks_app X Y : marks (X ++ Y) = marks X ++ marks Y.
Proof. induction X as [|r X IH]; [done|]. cbn [app marks]. destruct (is_mark r); by rewrite IH. Qed.

(** The next mark. *)
Lemma next_delete_spec D off i X :
  Forall (fun m => off < newaddr D m.1) (marks X) ->
  match next_delete arch64 off i (map (moved_reloc D) X) with
  | Some j => exists Y r Z', X = Y ++ r :: Z' /\ j = (i + length Y)%nat /\ is_mark r = true /\ marks Y = []
  | None => marks X = []
  end.
Proof.
  revert i. induction X as [|r X IH]; intros i H; cbn [map next_delete]; [done|].
  change (ELFNN_R_TYPE arch64 (r_info (moved_reloc D r)) =? R_RISCV_DELETE) with (is_mark r).
  cbn [marks] in *. destruct (is_mark r) eqn:Er; cbn [andb].
  - inversion H as [|? ? H1 H2]; subst. cbn [fst] in H1. cbn [moved_reloc r_offset].
    rewrite (proj2 (Z.ltb_lt _ _)) by done. exists [], r, X. split_and!; [done|cbn; lia|done|done].
  - specialize (IH (S i) H). destruct (next_delete _ _ _ _) as [j|]; [|done].
    destruct IH as (Y & r' & Z' & -> & -> & Hr & HY). exists (r :: Y), r', Z'.
    split_and!; [done|cbn; lia|done|]. cbn [marks]. by rewrite Er.
Qed.

Lemma stage_skip D A X Y B :
  marks X = [] -> stage D A (X ++ Y) B = stage D (A ++ X) Y B.
Proof.
  intros HX. unfold stage. f_equal. rewrite !map_app, <- app_assoc. f_equal. f_equal.
  clear -HX. induction X as [|r X IH]; [done|]. cbn [marks] in HX. cbn [map]. unfold cleared at 1.
  rewrite is_mark_moved. destruct (is_mark r); [done|]. by rewrite IH.
Qed.

(** Deleting one range from a stage. *)
Lemma stage_delete D o c A r X B nxt :
  is_mark r = true -> r_offset r = o -> r_addend r = c ->
  ranges_ok 0 D o -> 0 < c -> o + c <= nxt <= n -> n < 2 ^ 63 -> Z.of_nat (length B) = n ->
  Forall (reloc_ok (D ++ [(o, c)]) n) (A ++ r :: X) -> Forall (local_ok (si_id sec) (D ++ [(o, c)]) n) syms ->
  Forall (global_ok (si_id sec) (D ++ [(o, c)]) n) globals -> wrap = true \/ NoDup hashes ->
  exists s, _riscv_relax_delete_bytes wrap sec (o - total D) c false (total D) (nxt - total D) (stage D A (r :: X) B) = Some s /\
    match rx_relocs s !! length A with
    | Some r => set_reloc (length A) (mk_rela (r_offset r) (ELFNN_R_INFO arch64 0 R_RISCV_NONE) (r_addend r)) s
    | None => s
    end = stage (D ++ [(o, c)]) (A ++ [r]) X
            (putb (take (Z.to_nat (nxt - o - c)) (drop (Z.to_nat (o + c)) B)) B (Z.to_nat (o - total D))).
Proof.
  intros Hm Ho Hc HD Hc0 Hnxt Hn HB Hrel Hloc Hglob Hw. pose proof (ranges_total _ _ _ HD) as Ht.
  unfold _riscv_relax_delete_bytes, memmove. cbn [stage rx_contents rx_size rx_relocs rx_syms rx_hashes rx_globals rx_pcgp].
  rewrite (u64_small (nxt - total D - (o - total D) - c)) by lia.
  replace (nxt - total D - (o - total D) - c) with (nxt - o - c) by lia.
  replace (o - total D + c + total D) with (o + c) by lia.
  rewrite !(proj2 (Z.leb_le _ _)) by lia. cbn [andb]. eexists. split; [reflexivity|].
  rewrite (u64_small (n - total D - c)) by lia. rewrite (u64_small (n - total D - c + c)) by lia.
  replace (n - total D - c + c) with (n - total D) by lia.
  cbn [rx_relocs].
  set (F := fun rel => if (o - total D <? r_offset rel) && (r_offset rel <? n - total D) then _ else rel).
  assert (HF : forall q info, In q (A ++ r :: X) ->
    F (mk_rela (newaddr D (r_offset q)) info (r_addend q)) = mk_rela (newaddr (D ++ [(o, c)]) (r_offset q)) info (r_addend q)).
  { intros q info Hq. rewrite Forall_forall in Hrel. specialize (Hrel q ltac:(by apply list_elem_of_In)).
    pose proof (reloc_step D o c n HD Hc0 ltac:(lia) q Hrel) as Hs. cbv zeta in Hs.
    unfold moved_reloc in Hs. cbn [r_offset r_info r_addend] in Hs. unfold F. cbn [r_offset r_info r_addend].
    destruct (_ && _); injection Hs as Hs; by rewrite Hs. }
  assert (EF : map F (map (fun r => cleared (moved_reloc D r)) A ++ map (moved_reloc D) (r :: X))
               = map (fun r => cleared (moved_reloc (D ++ [(o, c)]) r)) A ++ map (moved_reloc (D ++ [(o, c)])) (r :: X)).
  { rewrite map_app, !map_map. f_equal; apply map_ext_in; intros q Hq.
    - unfold cleared. rewrite !is_mark_moved. unfold moved_reloc. cbn [r_offset r_info r_addend].
      destruct (is_mark q); apply HF; apply in_or_app; by left.
    - unfold moved_reloc. apply HF. apply in_or_app. by right. }
  rewrite EF.
  set (A' := map (fun r => cleared (moved_reloc (D ++ [(o, c)]) r)) A).
  assert (HA' : length A' = length A) by (unfold A'; by rewrite length_map).
  cbn [map]. rewrite (list_lookup_middle A' _ _ (length A)) by done.
  unfold set_reloc, with_relocs, stage. cbn [rx_relocs rx_size rx_contents rx_syms rx_hashes rx_globals rx_pcgp rx_again rx_flg0 rx_htab].
  f_equal.
  - rewrite total_app. cbn [total]. lia.
  - rewrite insert_app_r_alt by lia. rewrite HA', Nat.sub_diag. rewrite map_app, <- app_assoc. f_equal.
    cbn [map app]. change (<[0%nat := ?x]> (?y :: ?l)) with (x :: l).
    cbn. f_equal. unfold cleared. rewrite is_mark_moved, Hm. done.
  - rewrite map_map. apply map_ext_in. intros q Hq. apply (local_step D o c n HD Hc0 ltac:(lia)).
    rewrite Forall_forall in Hloc. apply Hloc. by apply list_elem_of_In.
  - apply globals_step; [done|done|lia|done|done].
Qed.

Lemma resolve_step fuel D A r X B :
  is_mark r = false ->
  resolve_delete_loop arch64 wrap sec (S fuel) (length A) (total D) (stage D A (r :: X) B)
  = resolve_delete_loop arch64 wrap sec fuel (length (A ++ [r])) (total D) (stage D (A ++ [r]) X B).
Proof.
  intros Hr. cbn [resolve_delete_loop]. cbn [stage rx_relocs map].
  rewrite list_lookup_middle by (by rewrite length_map).
  change (ELFNN_R_TYPE arch64 (r_info (moved_reloc D r)) =? R_RISCV_DELETE) with (is_mark r). rewrite Hr. cbn [negb].
  change (r :: X) with ([r] ++ X). rewrite (stage_skip D A [r] X B) by (cbn [marks]; by rewrite Hr).
  rewrite length_app. cbn [length]. by rewrite Nat.add_1_r.
Qed.

(** The start of the next range, or the end of the section. *)
Definition next_start (M : ranges) : Z := match M with (o, _) :: _ => o | [] => n end.

(** One round: the bytes up to the next range are moved. *)
Lemma move_step D o c M B :
  ranges_ok 0 D o -> 0 < c -> ranges_ok (o + c) M n -> Z.of_nat (length L) = n -> length B = length L ->
  drop (Z.to_nat (o - total D)) B = drop (Z.to_nat (o - total D)) L ->
  let nxt := next_start M in
  let B' := putb (take (Z.to_nat (nxt - o - c)) (drop (Z.to_nat (o + c)) B)) B (Z.to_nat (o - total D)) in
  length B' = length L /\
  drop (Z.to_nat (nxt - total D - c)) B' = drop (Z.to_nat (nxt - total D - c)) L /\
  take (Z.to_nat (nxt - total D - c)) B'
  = take (Z.to_nat (o - total D)) B ++ take (Z.to_nat (nxt - o - c)) (drop (Z.to_nat (o + c)) L).
Proof.
  intros HD Hc HM HL HB Hd. cbv zeta. set (nxt := next_start M).
  pose proof (ranges_total _ _ _ HD) as Ht. pose proof (ranges_total _ _ _ HM) as Ht2.
  assert (Hnxt : o + c <= nxt <= n).
  { unfold nxt, next_start. destruct M as [|[o' c'] M]; [lia|]. cbn [ranges_ok] in HM.
    destruct HM as (H1 & H2 & H3). pose proof (ranges_total _ _ _ H3). lia. }
  set (p := Z.to_nat (o - total D)). set (k := Z.to_nat (nxt - o - c)).
  assert (Hdl : drop (Z.to_nat (o + c)) B = drop (Z.to_nat (o + c)) L).
  { replace (Z.to_nat (o + c)) with (p + Z.to_nat (total D + c))%nat by (unfold p; lia).
    rewrite <- !drop_drop. fold p in Hd. by rewrite Hd. }
  rewrite Hdl. set (piece := take k (drop (Z.to_nat (o + c)) L)).
  assert (Hk : length piece = k) by (unfold piece, k; rewrite length_take, length_drop; lia).
  replace (Z.to_nat (nxt - total D - c)) with (p + k)%nat by (unfold p, k; lia).
  assert (Hpl : (p + k <= length L)%nat) by (unfold p, k; lia).
  assert (Hpb : length (take p B) = p) by (rewrite length_take; lia).
  split; [rewrite putb_length; [done|lia]|]. unfold putb. rewrite Hk. split.
  - rewrite app_assoc, drop_app_ge by (rewrite length_app; lia). rewrite length_app, Hpb, Hk, Nat.sub_diag, drop_0.
    rewrite <- !drop_drop. fold p in Hd. by rewrite Hd.
  - rewrite app_assoc, take_app_le by (rewrite length_app; lia). rewrite take_ge by (rewrite length_app; lia). done.
Qed.

Lemma next_start_range lo M : ranges_ok lo M n -> lo <= next_start M <= n.
Proof.
  intros HM. unfold next_start. destruct M as [|[o c] M]; cbn [ranges_ok] in HM; [lia|].
  destruct HM as (H1 & H2 & H3). pose proof (ranges_total _ _ _ H3). lia.
Qed.

(** What the properties of a stage ask of the ranges to come. *)
Record ready (D : ranges) (relocs : list Elf_Internal_Rela) : Prop := {
  rd_ranges : ranges_ok 0 D n;
  rd_relocs : Forall (reloc_ok D n) relocs;
  rd_syms : Forall (local_ok (si_id sec) D n) syms;
  rd_globals : Forall (global_ok (si_id sec) D n) globals;
}.

Lemma span_ok_app D E value size : span_ok (D ++ E) n value size -> span_ok D n value size.
Proof.
  intros (H1 & H2 & H3 & H4 & H5). apply at_edge_app in H4 as [H4 _]. apply at_edge_app in H5 as [H5 _].
  unfold span_ok. auto 10.
Qed.

(** One range of them. *)
Lemma ready_app D E relocs :
  ready (D ++ E) relocs ->
  Forall (reloc_ok D n) relocs /\ Forall (local_ok (si_id sec) D n) syms /\ Forall (global_ok (si_id sec) D n) globals.
Proof.
  intros [_ H1 H2 H3]. split; [|split].
  - eapply Forall_impl; [exact H1|]. intros q [Hr He]. apply at_edge_app in He as [He _]. by split.
  - eapply Forall_impl; [exact H2|]. intros q. unfold local_ok. destruct (st_section q); [|done].
    intros H E'. by eapply span_ok_app, H.
  - eapply Forall_impl; [exact H3|]. intros q H E'. by eapply span_ok_app, H.
Qed.

(** The mark behind [r] whose place ends the stretch to move. *)
Lemma next_mark D A r Rest B :
  let o := r_offset r in
  let c := r_addend r in
  let M := marks Rest in
  let st := stage D A (r :: Rest) B in
  ranges_ok 0 D o -> 0 < c -> ranges_ok (o + c) M n ->
  let next := next_delete arch64 (o - total D) (length A) (drop (length A) (rx_relocs st)) in
  match next ≫= fun j => rx_relocs st !! j with Some q => r_offset q | None => rx_size st end = next_start M - total D /\
  match next with
  | Some j => exists Y r' Z', Rest = Y ++ r' :: Z' /\ j = length (A ++ [r] ++ Y) /\ is_mark r' = true /\ marks Y = []
  | None => M = []
  end.
Proof.
  cbv zeta. intros HD Hc HM. pose proof (ranges_total _ _ _ HD) as Ht.
  assert (Edrop : drop (length A) (rx_relocs (stage D A (r :: Rest) B)) = map (moved_reloc D) (r :: Rest))
    by (apply drop_app_length'; by rewrite length_map).
  assert (Eo : r_offset (moved_reloc D r) = r_offset r - total D)
    by (cbn [moved_reloc r_offset]; apply (newaddr_behind D _ 0 (r_offset r)); [done|lia]).
  rewrite Edrop. cbn [map next_delete]. rewrite Eo, Z.ltb_irrefl, andb_false_r.
  pose proof (next_delete_spec D (r_offset r - total D) (S (length A)) Rest) as Hspec.
  assert (HF : Forall (fun m => r_offset r - total D < newaddr D m.1) (marks Rest)).
  { apply Forall_forall. intros [o' c'] Hin. apply list_elem_of_In in Hin. destruct (ranges_in _ _ _ _ _ HM Hin).
    cbn [fst]. rewrite (newaddr_behind D o' 0 (r_offset r)) by (done || lia). lia. }
  specialize (Hspec HF). destruct (next_delete _ _ _ _) as [j|]; cbn [mbind option_bind].
  - destruct Hspec as (Y & r' & Z' & -> & -> & Hr' & HY).
    assert (EM : marks (Y ++ r' :: Z') = (r_offset r', r_addend r') :: marks Z')
      by (rewrite marks_app, HY; cbn [app marks]; by rewrite Hr').
    rewrite EM in HM |- *. split.
    + assert (El : rx_relocs (stage D A (r :: Y ++ r' :: Z') B) !! (S (length A) + length Y)%nat = Some (moved_reloc D r')).
      { cbn [stage rx_relocs]. rewrite lookup_app_r by (rewrite length_map; lia). rewrite length_map.
        replace (S (length A) + length Y - length A)%nat with (S (length Y)) by lia.
        change (map (moved_reloc D) ?l) with (moved_reloc D <$> l). rewrite list_lookup_fmap.
        assert (E : (r :: Y ++ r' :: Z') !! S (length Y) = Some r') by (by apply (list_lookup_middle Y)).
        by rewrite E. }
      rewrite El. cbn [moved_reloc r_offset next_start]. apply (newaddr_behind D _ 0 (r_offset r) HD).
      cbn [ranges_ok] in HM. lia.
    + exists Y, r', Z'. split_and!; try done. rewrite !length_app. cbn [length]. lia.
  - by rewrite Hspec.
Qed.

(** One mark: its range is deleted, and the loop goes on at the next mark. *)
Lemma resolve_mark fuel D A r Rest B :
  let o := r_offset r in
  let c := r_addend r in
  let M := marks Rest in
  let D' := D ++ [(o, c)] in
  is_mark r = true -> ready (D' ++ M) (A ++ r :: Rest) -> n < 2 ^ 63 -> Z.of_nat (length L) = n -> length B = length L ->
  wrap = true \/ NoDup hashes -> drop (Z.to_nat (o - total D)) B = drop (Z.to_nat (o - total D)) L ->
  exists B', length B' = length L /\
    drop (Z.to_nat (next_start M - total D')) B' = drop (Z.to_nat (next_start M - total D')) L /\
    take (Z.to_nat (next_start M - total D')) B'
    = take (Z.to_nat (o - total D)) B ++ take (Z.to_nat (next_start M - o - c)) (drop (Z.to_nat (o + c)) L) /\
    let run := resolve_delete_loop arch64 wrap sec (S fuel) (length A) (total D) (stage D A (r :: Rest) B) in
    (M = [] /\ run = Some (stage D' (A ++ r :: Rest) [] B') \/
     exists Y r' Z', Rest = Y ++ r' :: Z' /\ is_mark r' = true /\ marks Y = [] /\
       run = resolve_delete_loop arch64 wrap sec fuel (length (A ++ [r] ++ Y)) (total D') (stage D' (A ++ [r] ++ Y) (r' :: Z') B')).
Proof.
  cbv zeta. set (o := r_offset r). set (c := r_addend r). set (M := marks Rest). set (D' := D ++ [(o, c)]).
  intros Er Hready Hn HL HB Hw Hd. pose proof (rd_ranges _ _ Hready) as HR. unfold D' in HR. rewrite <- app_assoc in HR.
  destruct (ranges_split _ _ _ _ _ _ HR) as (HD & Hc & HM). destruct (ready_app D' M _ Hready) as (Hrel & Hloc & Hglob).
  pose proof (ranges_total _ _ _ HD) as Ht. pose proof (next_start_range _ _ HM) as Hnxt.
  assert (Et : total D' = total D + c) by (unfold D'; rewrite total_app; cbn [total]; lia).
  destruct (stage_delete D o c A r Rest B (next_start M) Er eq_refl eq_refl HD Hc Hnxt Hn ltac:(lia) Hrel Hloc Hglob Hw)
    as (s1 & Hs1 & Hs1').
  destruct (move_step D o c M B HD Hc HM HL HB Hd) as (L1 & L2 & L3). fold D' in Hs1'. set (B1 := putb _ _ _) in *.
  exists B1. rewrite Et. replace (next_start M - (total D + c)) with (next_start M - total D - c) by lia.
  split; [done|]. split; [done|]. split; [done|].
  destruct (next_mark D A r Rest B HD Hc HM) as [Hto Hnext].
  cbn [resolve_delete_loop].
  assert (Elk : rx_relocs (stage D A (r :: Rest) B) !! length A = Some (moved_reloc D r))
    by (apply list_lookup_middle; by rewrite length_map).
  rewrite Elk. change (ELFNN_R_TYPE arch64 (r_info (moved_reloc D r)) =? R_RISCV_DELETE) with (is_mark r). rewrite Er. cbn [negb].
  assert (Eo : r_offset (moved_reloc D r) = o - total D)
    by (cbn [moved_reloc r_offset]; apply (newaddr_behind D _ 0 o); [done|unfold o; lia]).
  rewrite Eo. change (r_addend (moved_reloc D r)) with c. fold o M in Hto, Hnext. rewrite Hto, Hs1. cbv zeta. rewrite Hs1'.
  rewrite (u64_small (total D + c)) by lia.
  destruct (next_delete _ _ _ _) as [j|].
  - right. destruct Hnext as (Y & r' & Z' & E & -> & Hr' & HY). exists Y, r', Z'. split_and!; try done.
    rewrite E, (stage_skip _ (A ++ [r]) Y) by done. by rewrite <- app_assoc.
  - left. split; [done|]. f_equal. rewrite <- (app_nil_r Rest) at 1. rewrite stage_skip by done. by rewrite <- app_assoc.
Qed.

Lemma resolve_marks Rest : forall A D B fuel,
  let M := marks Rest in
  ready (D ++ M) (A ++ Rest) -> n < 2 ^ 63 -> Z.of_nat (length L) = n -> length B = length L ->
  wrap = true \/ NoDup hashes -> (length Rest < fuel)%nat ->
  drop (Z.to_nat (next_start M - total D)) B = drop (Z.to_nat (next_start M - total D)) L ->
  exists B', resolve_delete_loop arch64 wrap sec fuel (length A) (total D) (stage D A Rest B)
    = Some (stage (D ++ M) (A ++ Rest) [] B') /\ length B' = length L /\
    take (Z.to_nat (n - total (D ++ M))) B'
    = take (Z.to_nat (next_start M - total D)) B
      ++ match M with [] => [] | (o, c) :: M => survive (o + c) M (drop (Z.to_nat (o + c)) L) end.
Proof.
  remember (length Rest) as len eqn:Elen. revert Rest Elen.
  induction len as [len IH] using lt_wf_ind. intros Rest -> A D B fuel. cbv zeta.
  intros Hready Hn HL HB Hw Hf Hd.
  destruct fuel as [|fuel]; [lia|]. destruct Rest as [|r Rest].
  { cbn [marks next_start] in *. rewrite !app_nil_r in *. exists B. split; [|done]. cbn [resolve_delete_loop].
    rewrite (lookup_ge_None_2 (rx_relocs _)); [done|]. unfold stage. cbn [rx_relocs map]. rewrite app_nil_r, length_map. lia. }
  cbn [length] in Hf. cbn [marks] in *. destruct (is_mark r) eqn:Er.
  2: { rewrite resolve_step by done.
       replace (A ++ r :: Rest) with ((A ++ [r]) ++ Rest) in * by (by rewrite <- app_assoc).
       apply (IH (length Rest)); try done; cbn [length]; lia. }
  set (o := r_offset r) in *. set (c := r_addend r) in *. cbn [next_start] in Hd.
  replace (D ++ (o, c) :: marks Rest) with ((D ++ [(o, c)]) ++ marks Rest) in * by (by rewrite <- app_assoc).
  destruct (resolve_mark fuel D A r Rest B Er Hready Hn HL HB Hw Hd) as (B1 & L1 & L2 & L3 & Hrun).
  fold o c in L2, L3, Hrun. set (D' := D ++ [(o, c)]) in *.
  pose proof (rd_ranges _ _ Hready) as HR. unfold D' in HR. rewrite <- app_assoc in HR.
  destruct (ranges_split _ _ _ _ _ _ HR) as (HD & Hc & HM). pose proof (ranges_total _ _ _ HD) as Ht.
  destruct Hrun as [[EM ->]|(Y & r' & Z' & ERest & Hr' & HY & ->)].
  - exists B1. rewrite EM, app_nil_r in *. cbn [next_start] in L3. split; [done|]. split; [done|].
    rewrite L3. cbn [survive]. f_equal. apply take_ge. rewrite length_drop. lia.
  - subst Rest. replace (A ++ r :: Y ++ r' :: Z') with ((A ++ [r] ++ Y) ++ r' :: Z') in * by (by rewrite <- !app_assoc).
    assert (EM : marks (Y ++ r' :: Z') = marks (r' :: Z')) by (rewrite marks_app, HY; done). rewrite EM in *.
    destruct (IH (length (r' :: Z')) ltac:(cbn [length]; rewrite length_app; cbn [length]; lia) (r' :: Z') eq_refl
                (A ++ [r] ++ Y) D' B1 fuel) as (B' & H1 & H2 & H3); try done.
    { rewrite length_app in Hf. cbn [length] in Hf |- *. lia. }
    exists B'. split; [exact H1|]. split; [done|]. rewrite H3, L3, <- app_assoc. f_equal.
    cbn [marks] in HM |- *. rewrite Hr' in HM |- *. cbn [next_start survive ranges_ok] in *. rewrite drop_drop.
    f_equal; [f_equal; lia|]. f_equal. f_equal. lia.
Qed.

End resolve.

Lemma map_id_ext {A} (f : A -> A) l : (forall x, f x = x) -> map f l = l.
Proof. intros H. induction l as [|x l IH]; cbn [map]; congruence. Qed.

Lemma moved_span_nil v z : moved_span [] v z = (v, z).
Proof. unfold moved_span. cbn [newaddr]. f_equal. lia. Qed.

Lemma moved_relocs_nil relocs : map (moved_reloc []) relocs = relocs.
Proof. apply map_id_ext. by intros []. Qed.

Lemma moved_local_nil sec q : moved_local sec [] q = q.
Proof.
  destruct q as [[i|] v z t]; unfold moved_local; cbn [st_section st_value st_size st_type]; [|done].
  destruct (_ =? _); [|done]. by rewrite moved_span_nil.
Qed.

Lemma moved_globals_nil sec hashes globals : moved_globals sec [] hashes globals = globals.
Proof.
  apply list_eq. intros i. unfold moved_globals. rewrite list_lookup_imap.
  destruct (globals !! i) as [h|]; [|done]. cbn. f_equal. destruct (listed _ i); [|done].
  unfold moved_global. destruct (defined_in _ h); [|done]. rewrite moved_span_nil. by destruct h.
Qed.

Lemma stage_start arch64 sec s :
  stage arch64 sec (rx_size s) (rx_syms s) (rx_hashes s) (rx_globals s) (rx_pcgp s) (rx_again s) (rx_flg0 s) (rx_htab s)
    [] [] (rx_relocs s) (rx_contents s) = s.
Proof.
  unfold stage. cbn [total map app].
  rewrite Z.sub_0_r, moved_relocs_nil, moved_globals_nil, (map_id_ext (moved_local _ [])) by apply moved_local_nil.
  by destruct s.
Qed.

(** C5: deleting piece by piece is deleting at once.  When the relaxed sequences
    have been marked by R_RISCV_DELETE relocations, [riscv_relax_resolve_delete_relocs]
    moves each stretch of bytes between two marks only once, with offsets that
    change under it; in the end the section holds exactly the bytes outside the
    marked ranges, every byte that is kept is at its new address, the marks are
    gone, and every relocation, every local symbol and every global symbol of the
    section (value and end) is where its byte went. *)
Theorem delete_relocs_exact arch64 wrap sec s :
  let n := rx_size s in
  let D := marks arch64 (rx_relocs s) in
  Z.of_nat (length (rx_contents s)) = n -> n < 2 ^ 63 -> ranges_ok 0 D n ->
  Forall (reloc_ok D n) (rx_relocs s) -> Forall (local_ok (si_id sec) D n) (rx_syms s) ->
  Forall (global_ok (si_id sec) D n) (rx_globals s) -> wrap = true \/ NoDup (rx_hashes s) ->
  exists s', riscv_relax_resolve_delete_relocs arch64 wrap sec s = Some s' /\
    rx_size s' = n - total D /\
    take (Z.to_nat (rx_size s')) (rx_contents s') = survive 0 D (rx_contents s) /\
    (forall x, 0 <= x < n -> ~ deleted D x ->
       0 <= newaddr D x < rx_size s' /\
       rx_contents s' !! Z.to_nat (newaddr D x) = rx_contents s !! Z.to_nat x) /\
    rx_relocs s' = map (fun r => cleared arch64 (moved_reloc D r)) (rx_relocs s) /\
    rx_syms s' = map (moved_local (si_id sec) D) (rx_syms s) /\
    rx_globals s' = moved_globals (si_id sec) D (rx_hashes s) (rx_globals s).
Proof.
  cbv zeta. set (n := rx_size s). set (D := marks arch64 (rx_relocs s)).
  intros HL Hn HD Hrel Hloc Hglob Hw.
  destruct (resolve_marks arch64 wrap sec n (rx_contents s) (rx_syms s) (rx_hashes s) (rx_globals s) (rx_pcgp s)
    (rx_again s) (rx_flg0 s) (rx_htab s) (rx_relocs s) [] [] (rx_contents s) (S (length (rx_relocs s))))
    as (B & Hrun & Hlen & Htake); try done; [lia|].
  fold D in Hrun, Htake. cbn [app] in Hrun, Htake. unfold n in Hrun at 1. rewrite stage_start in Hrun.
  assert (Hsv : take (Z.to_nat (n - total D)) B = survive 0 D (rx_contents s)).
  { rewrite Htake. cbn [total]. rewrite Z.sub_0_r. destruct D as [|[o c] M]; cbn [next_start survive].
    - rewrite take_ge by lia. apply app_nil_r.
    - by rewrite !Z.sub_0_r. }
  eexists. split; [exact Hrun|]. cbn [stage rx_size rx_contents rx_relocs rx_syms rx_globals map].
  rewrite app_nil_r. split_and!; try done.
  intros x Hx Hdel. assert (He : at_edge D x).
  { intros o c Hin Ho. destruct (Z.lt_ge_cases x (o + c)); [|done]. exfalso. apply Hdel. exists o, c. split; [done|lia]. }
  pose proof (newaddr_ge 0 D n x HD He ltac:(lia)) as Hge.
  pose proof (survive_lookup D 0 (rx_contents s) x) as Hlk. rewrite !Z.sub_0_r in Hlk.
  specialize (Hlk ltac:(rewrite HL; exact HD) ltac:(lia) Hdel).
  pose proof (survive_length D 0 (rx_contents s) ltac:(rewrite HL; exact HD)) as Hsl. rewrite HL in Hsl.
  destruct (lookup_lt_is_Some_2 (rx_contents s) (Z.to_nat x) ltac:(lia)) as [b Hb]. rewrite Hb in Hlk |- *.
  pose proof (lookup_lt_Some _ _ _ Hlk) as Hlt. split; [lia|].
  rewrite <- Hsv, lookup_take_lt in Hlk by lia. exact Hlk.
Qed.

(** Two marks among other relocations, a symbol between them and one behind. *)
Definition example_text : section_info := mk_secinfo 1 0x1000 1 2 false false true false.
Definition example_relax : relax_state :=
  mk_relax 12 [1; 2; 3; 4; 5; 6; 7; 8; 9; 10; 11; 12]
    [mk_rela 0 (ELF64_R_INFO 1 R_RISCV_HI20) 0; mk_rela 2 (ELF64_R_INFO 0 R_RISCV_DELETE) 2;
     mk_rela 4 (ELF64_R_INFO 2 R_RISCV_BRANCH) 0; mk_rela 6 (ELF64_R_INFO 0 R_RISCV_DELETE) 4;
     mk_rela 10 (ELF64_R_INFO 2 R_RISCV_JAL) 0]
    [mk_sym (Some example_text) 0 12 STT_FUNC; mk_sym (Some example_text) 4 2 STT_NOTYPE]
    [0%nat] [mk_hash hash_defined (Some example_text) 10 2 STT_FUNC false false None]
    riscv_init_pcgp_relocs true false (mk_htab 4 4 None).

Lemma delete_relocs_exact_witness :
  exists s', riscv_relax_resolve_delete_relocs true false example_text example_relax = Some s' /\
    rx_size s' = 6 /\ take 6 (rx_contents s') = [1; 2; 5; 6; 11; 12] /\
    map st_value (rx_syms s') = [0; 2] /\ map st_size (rx_syms s') = [6; 2] /\
    map h_value (rx_globals s') = [4] /\ map r_offset (rx_relocs s') = [0; 2; 2; 4; 4].
Proof.
  destruct (delete_relocs_exact true false example_text example_relax) as (s' & H1 & H2 & H3 & _ & H4 & H5 & H6).
  - reflexivity.
  - reflexivity.
  - vm_compute. repeat split; congruence.
  - repeat constructor; try (cbn; lia); intros o c Hin Ho; vm_compute in Hin; destruct Hin as [[= <- <-]|[[= <- <-]|[]]]; cbn in *; lia.
  - repeat constructor; try (cbn; lia); intros o c Hin Ho; vm_compute in Hin; destruct Hin as [[= <- <-]|[[= <- <-]|[]]]; cbn in *; lia.
  - repeat constructor; try (cbn; lia); intros o c Hin Ho; vm_compute in Hin; destruct Hin as [[= <- <-]|[[= <- <-]|[]]]; cbn in *; lia.
  - right. apply NoDup_singleton.
  - exists s'. split; [exact H1|]. rewrite H4, H5, H6. split; [exact H2|].
    split; [rewrite H2 in H3; etransitivity; [exact H3|reflexivity]|]. split_and!; reflexivity.
Defined.

(** ** Types of relocations *)

(** ** Calls *)

(** How far the distance between a call and its target may change later. *)
Definition margin (sec sym_sec : section_info) (max_alignment : Z) : Z :=
  if same_output sec sym_sec then 1 <<u si_align sym_sec else max_alignment.

Lemma valid_exact f x :
  In f imm_formats -> (fmt_extract f (fmt_encode f (u64 x)) =? u64 x) = true <-> in_range (fmt_kind f) (s64 x).
Proof.
  intros Hf. rewrite Z.eqb_eq. assert (Hs : - 2 ^ 63 <= s64 x < 2 ^ 63) by (apply part_range64; lia).
  assert (Eu : u64 (s64 x) = u64 x) by u64_ring. rewrite <- Eu. by apply imm_roundtrip_iff.
Qed.

Lemma valid_jtype x : VALID_JTYPE_IMM (u64 x) = true <-> s64 x mod 2 = 0 /\ - 2 ^ 20 <= s64 x < 2 ^ 20.
Proof.
  unfold VALID_JTYPE_IMM. destruct JTYPE_fmt as (-> & -> & Hf). rewrite valid_exact by done. reflexivity.
Qed.

Lemma valid_cjtype x : VALID_CJTYPE_IMM (u64 x) = true <-> s64 x mod 2 = 0 /\ - 2 ^ 11 <= s64 x < 2 ^ 11.
Proof.
  unfold VALID_CJTYPE_IMM. destruct CJTYPE_fmt as (-> & -> & Hf). rewrite valid_exact by done. reflexivity.
Qed.

(** The distance with the margin added away from zero leaves room for the
    margin either way. *)
Lemma margin_room d m w v :
  0 <= m < 2 ^ 62 -> 0 < w <= 20 -> - 2 ^ 20 <= s64 d < 2 ^ 20 ->
  - 2 ^ w <= s64 (d + (if s64 d <? 0 then - m else m)) < 2 ^ w ->
  s64 d - m <= v <= s64 d + m -> - 2 ^ w <= v < 2 ^ w.
Proof.
  intros Hm Hw Hd Hr Hv.
  assert (Hp : 2 ^ w <= 2 ^ 20) by (apply Z.pow_le_mono_r; lia).
  assert (E : s64 (d + (if s64 d <? 0 then - m else m)) = s64 d + (if s64 d <? 0 then - m else m)).
  { destruct (s64 d <? 0); unfold s64 in *; unfold swrap in *; simpl Z.sub in *; simpl (2 ^ 63) in *; simpl (2 ^ 64) in *;
      Z.to_euclidean_division_equations; lia. }
  rewrite E in Hr. destruct (Z.ltb_spec (s64 d) 0); lia.
Qed.

Lemma get_insn_in bits contents off :
  In bits [16; 32; 64]%nat -> 0 <= off -> off + Z.of_nat (bits / 8) <= Z.of_nat (length contents) ->
  riscv_get_insn bits contents off = Some (getl (bits / 8) contents (Z.to_nat off)).
Proof.
  intros Hb H1 H2. unfold riscv_get_insn, in_contents. rewrite !(proj2 (Z.leb_le _ _)) by lia.
  cbn [In] in Hb. repeat destruct Hb as [<-|Hb]; [done..|done].
Qed.

Lemma put_insn_in bits w contents off :
  In bits [16; 32; 64]%nat -> 0 <= off -> off + Z.of_nat (bits / 8) <= Z.of_nat (length contents) ->
  riscv_put_insn bits w contents off = Some (putl (bits / 8) w contents (Z.to_nat off)).
Proof.
  intros Hb H1 H2. unfold riscv_put_insn, in_contents. rewrite !(proj2 (Z.leb_le _ _)) by lia.
  cbn [In] in Hb. repeat destruct Hb as [<-|Hb]; [done..|done].
Qed.

Section call.

Context (arch64 use_rvc link_pic : bool) (sec : section_info).

(** What an auipc and jalr that links to [rd] may become: relocation type,
    instruction and length; [d] is the distance to the target, [m] the margin. *)
Inductive call_choice (rd d m symval : Z) : Z -> Z -> Z -> Prop :=
| CC_c_j :
    use_rvc = true -> rd = 0 \/ rd = X_RA /\ arch64 = false ->
    - 2 ^ 20 <= s64 d < 2 ^ 20 -> - 2 ^ 11 <= s64 (d + (if s64 d <? 0 then - m else m)) < 2 ^ 11 ->
    call_choice rd d m symval R_RISCV_RVC_JUMP (if rd =? 0 then MATCH_C_J else MATCH_C_JAL) 2
| CC_jal :
    - 2 ^ 20 <= s64 d < 2 ^ 20 -> - 2 ^ 20 <= s64 (d + (if s64 d <? 0 then - m else m)) < 2 ^ 20 ->
    call_choice rd d m symval R_RISCV_JAL (MATCH_JAL .| (rd << 7)) 4
| CC_jalr :
    link_pic = false -> - 2 ^ 11 <= s64 symval < 2 ^ 11 ->
    call_choice rd d m symval R_RISCV_LO12_I (MATCH_JALR .| (rd << 7)) 4.

Definition call_relaxed (i : nat) (rel : Elf_Internal_Rela) (r_type insn len : Z) (s : relax_state) : relax_state :=
  set_reloc (S i) (mk_rela (u64 (r_offset rel + len)) (ELFNN_R_INFO arch64 0 R_RISCV_DELETE) (8 - len))
    (with_again (with_contents
       (set_reloc i (mk_rela (r_offset rel) (ELFNN_R_INFO arch64 (ELFNN_R_SYM arch64 (r_info rel)) r_type) (r_addend rel)) s)
       (putl (Z.to_nat len) insn (rx_contents s) (Z.to_nat (r_offset rel)))) true).

Lemma near_zero_range x : (u64 (x + RISCV_IMM_REACH / 2) <? RISCV_IMM_REACH) = true -> - 2 ^ 11 <= s64 x < 2 ^ 11.
Proof.
  change (RISCV_IMM_REACH / 2) with 2048. change RISCV_IMM_REACH with 4096. rewrite Z.ltb_lt. intros H.
  change (2 ^ 11) with 2048. u64_ring.
Qed.

Lemma relax_call_cases i rel sym_sec symval max_alignment s :
  0 <= r_offset rel -> r_offset rel + 8 <= Z.of_nat (length (rx_contents s)) ->
  let d := symval - (sec_addr sec + r_offset rel) in
  let m := margin sec sym_sec max_alignment in
  let rd := (getl 4 (rx_contents s) (Z.to_nat (r_offset rel + 4)) >> 7) .& 31 in
  let r := _bfd_riscv_relax_call arch64 sec use_rvc link_pic i rel sym_sec symval max_alignment s in
  r = Some (s, true) \/
  exists r_type insn len, call_choice rd d m symval r_type insn len /\ r = Some (call_relaxed i rel r_type insn len s, true).
Proof.
  intros Ho Hl. cbv zeta. set (d := symval - (sec_addr sec + r_offset rel)). set (m := margin sec sym_sec max_alignment).
  set (rd := _ .& 31). unfold _bfd_riscv_relax_call.
  assert (Ed : u64 (symval - u64 (sec_addr sec + r_offset rel)) = u64 d) by (unfold d; u64_ring). rewrite Ed.
  assert (Es : s64 (u64 d) = s64 d) by u64_ring. rewrite Es.
  fold (margin sec sym_sec max_alignment). fold m.
  set (adj := if s64 d <? 0 then - m else m).
  assert (Ea : u64 (u64 d + adj) = u64 (d + adj)) by u64_ring. rewrite Ea.
  rewrite (get_insn_in 32) by (cbn; tauto || change (Z.of_nat (32 / 8)) with 4; lia).
  change (32 / 8)%nat with 4%nat. change (OP_SH FLD_RD) with 7. change (OP_MASK FLD_RD) with 31. fold rd.
  assert (Hput : forall len insn, len = 2 \/ len = 4 ->
    riscv_put_insn (Z.to_nat (8 * len)) insn (rx_contents s) (r_offset rel)
    = Some (putl (Z.to_nat len) insn (rx_contents s) (Z.to_nat (r_offset rel)))).
  { intros len insn [-> | ->].
    - apply (put_insn_in 16); [cbn; tauto|done|]. change (Z.of_nat (16 / 8)) with 2. lia.
    - apply (put_insn_in 32); [cbn; tauto|done|]. change (Z.of_nat (32 / 8)) with 4. lia. }
  assert (Hsub : forall x, VALID_JTYPE_IMM (u64 x) = false -> VALID_CJTYPE_IMM (u64 x) = false).
  { intros x Hx. destruct (VALID_CJTYPE_IMM (u64 x)) eqn:E; [|done]. apply valid_cjtype in E as [E1 E2].
    assert (VALID_JTYPE_IMM (u64 x) = true); [|congruence]. apply valid_jtype. split; [done|].
    change (2 ^ 11) with 2048 in E2. change (2 ^ 20) with 1048576. lia. }
  set (near := u64 (symval + RISCV_IMM_REACH / 2) <? RISCV_IMM_REACH).
  assert (Hjalr : forall x, VALID_JTYPE_IMM (u64 x) = false ->
    let r := if negb false && negb (negb link_pic && near) then Some (s, true)
      else let rvc := use_rvc && VALID_CJTYPE_IMM (u64 x) && ((rd =? 0) || (rd =? 1) && negb arch64) in
           let '(r_type, auipc, len) :=
             if rvc then (R_RISCV_RVC_JUMP, if rd =? 0 then MATCH_C_J else MATCH_C_JAL, 2)
             else if VALID_JTYPE_IMM (u64 x) then (R_RISCV_JAL, MATCH_JAL .| (rd << 7), 4)
             else (R_RISCV_LO12_I, MATCH_JALR .| (rd << 7), 4) in
           match riscv_put_insn (Z.to_nat (8 * len)) auipc (rx_contents s) (r_offset rel) with
           | None => None
           | Some contents =>
               _riscv_relax_delete_piecewise arch64 (u64 (r_offset rel + len)) (8 - len) (Some (S i))
                 (with_again (with_contents (set_reloc i (mk_rela (r_offset rel)
                    (ELFNN_R_INFO arch64 (ELFNN_R_SYM arch64 (r_info rel)) r_type) (r_addend rel)) s) contents) true)
           end in
    r = Some (s, true) \/ exists r_type insn len,
      call_choice rd d m symval r_type insn len /\ r = Some (call_relaxed i rel r_type insn len s, true)).
  { intros x Hx. cbv zeta. cbn [negb andb].
    destruct (negb link_pic && near) eqn:En; [right|by left]. apply andb_true_iff in En as [Ep En].
    rewrite (Hsub x Hx), andb_false_r, Hx. cbn [andb]. rewrite Hput by lia.
    eexists _, _, _. split; [|reflexivity]. apply CC_jalr; [by apply negb_true_iff|by apply near_zero_range]. }
  cbv zeta in Hjalr |- *.
  destruct (VALID_JTYPE_IMM (u64 d)) eqn:E0;
    [|specialize (Hjalr d E0); rewrite ?E0 in *; exact Hjalr].
  destruct (VALID_JTYPE_IMM (u64 (d + adj))) eqn:E1;
    [|specialize (Hjalr (d + adj) E1); rewrite ?E1 in *; exact Hjalr].
  clear Hjalr. cbn [negb andb]. right. apply valid_jtype in E0 as [_ E0]. apply valid_jtype in E1 as [_ E1].
  destruct (use_rvc && VALID_CJTYPE_IMM (u64 (d + adj)) && ((rd =? 0) || (rd =? 1) && negb arch64)) eqn:Ec.
  - rewrite Hput by lia. eexists _, _, _. split; [|reflexivity].
    apply andb_true_iff in Ec as [Ec Erd]. apply andb_true_iff in Ec as [Eu Ec]. apply valid_cjtype in Ec as [_ Ec].
    apply CC_c_j; try done. apply orb_true_iff in Erd as [Erd|Erd]; [left; by apply Z.eqb_eq|right].
    apply andb_true_iff in Erd as [Erd Ea']. split; [by apply Z.eqb_eq|by apply negb_true_iff].
  - rewrite Hput by lia. eexists _, _, _. split; [|reflexivity]. by apply CC_jal.
Qed.

End call.

(** ** A relaxed call in the final layout *)

(** A jump of [len] bytes at [pc] to [target] that links to [rd]. *)
Inductive jumps (rd pc target : Z) : Z -> Z -> Prop :=
| JP_jal w :
    w .& 0xfff = MATCH_JAL .| (rd << 7) -> u64 (pc + EXTRACT_JTYPE_IMM w) = u64 target -> jumps rd pc target 4 w
| JP_c_j w :
    w .& MASK_C_J = (if rd =? 0 then MATCH_C_J else MATCH_C_JAL) ->
    u64 (pc + EXTRACT_CJTYPE_IMM w) = u64 target -> jumps rd pc target 2 w
| JP_jalr w :
    w .& 0xfffff = MATCH_JALR .| (rd << 7) -> u64 (EXTRACT_ITYPE_IMM w) = u64 target -> jumps rd pc target 4 w.

(** The fixed bits of the instruction survive the relocation. *)
Lemma fixed_bits f insn e mask :
  In f imm_formats -> fmt_encode f (-1) .& mask = 0 -> (Z.ldiff insn (fmt_encode f (-1)) .| fmt_encode f e) .& mask = insn .& mask.
Proof.
  intros Hf Hm. rewrite land_lor_out by (by apply encode_out).
  apply Z.bits_inj'. intros i Hi. apply (f_equal (fun x => Z.testbit x i)) in Hm.
  rewrite Z.land_spec, Z.bits_0 in Hm. rewrite !Z.land_spec, Z.ldiff_spec.
  destruct (Z.testbit insn i), (Z.testbit (fmt_encode f (-1)) i), (Z.testbit mask i); done.
Qed.

Definition bits5 : list Z := map Z.of_nat (seq 0 32).

Lemma rd_bits m mask rd :
  0 <= rd < 32 ->
  forallb (fun r => (m .| (r << 7)) .& mask =? (m .| (r << 7))) bits5 = true ->
  (m .| (rd << 7)) .& mask = m .| (rd << 7).
Proof.
  intros Hr Hall. rewrite forallb_forall in Hall. apply Z.eqb_eq. apply Hall. unfold bits5. apply in_map_iff.
  exists (Z.to_nat rd). split; [lia|]. apply in_seq. lia.
Qed.

Lemma in_insn_relocs r f p :
  existsb (fun e => (e.1.1 =? r)) insn_relocs = true ->
  (r, f, p) = match r with
              | R_RISCV_RVC_JUMP => (r, fmt_CJTYPE_IMM, P_exact)
              | R_RISCV_JAL => (r, fmt_JTYPE_IMM, P_exact)
              | R_RISCV_LO12_I => (r, fmt_ITYPE_IMM, P_lo)
              | _ => (r, f, p)
              end ->
  In r [R_RISCV_RVC_JUMP; R_RISCV_JAL; R_RISCV_LO12_I] -> In (r, f, p) insn_relocs.
Proof.
  intros _ E Hr. cbn [In] in Hr. destruct Hr as [<-|[<-|[<-|[]]]]; rewrite E;
    cbn [insn_relocs hi_types lo_i_types lo_s_types map app]; in_list.
Qed.

Lemma exact_offset d x : - 2 ^ 63 <= d < 2 ^ 63 -> s64 x = d -> u64 d = u64 x.
Proof. intros Hd <-. u64_ring. Qed.

(** An instruction of [len] bytes whose relocation fits: its immediate is
    filled, and the fixed bits stay. *)
Lemma relocated_insn arch64 big base howto rel value c r f p len insn :
  In (r, f, p) insn_relocs -> ELFNN_R_TYPE arch64 (r_info rel) = r -> riscv_elf_rtype_to_howto r = Some howto ->
  field_in howto rel c -> bitsize howto = (8 * len)%nat -> getl len c (Z.to_nat (r_offset rel)) = insn ->
  let v := relocated base howto rel value in
  fits arch64 p f v ->
  exists c', perform_relocation arch64 big base howto rel value c = Some (bfd_reloc_ok, c') /\
    same_outside (Z.to_nat (r_offset rel)) len c c' /\
    let w := getl len c' (Z.to_nat (r_offset rel)) in
    fmt_extract f w = u64 (part_of p v) /\
    forall mask, fmt_encode f (-1) .& mask = 0 -> w .& mask = insn .& mask.
Proof.
  intros Hin Ht Hh Hfi Hb Hi. cbv zeta. intros Hfit.
  pose proof (perform_insn arch64 big base howto rel value c r f p Hin Ht Hh Hfi) as H. cbv zeta in H.
  pose proof Hfi as (Ho & Hl & _).
  assert (E8 : (bitsize howto / 8)%nat = len) by (rewrite Hb, Nat.mul_comm; apply Nat.div_mul; lia).
  rewrite E8 in H, Hl. rewrite Hi in H.
  destruct H as [(_ & H & Hw)|[Hn _]]; [|by destruct Hn]. eexists. split; [exact H|].
  split; [apply putl_same_outside; lia|]. rewrite Hw. split; [by apply (decoded_field arch64 insn r f p)|].
  intros mask Hm. apply fixed_bits; [by eapply insn_relocs_format|done].
Qed.

(** Where a shortened call goes: a jump relative to x0 goes to the sign-extended
    low twelve bits of the target. *)
Definition landing (r_type target : Z) : Z := if r_type =? R_RISCV_LO12_I then lo_part target else target.

Lemma landing_near target : u64 (landing R_RISCV_LO12_I target) = u64 target <-> - 2 ^ 11 <= s64 target < 2 ^ 11.
Proof.
  change (landing R_RISCV_LO12_I target) with (lo_part target). unfold lo_part. change (2 ^ 11) with 2048. split; u64_ring.
Qed.

Section final.

Context (arch64 big use_rvc link_pic : bool) (rd d m symval r_type insn len : Z).
Context (Hchoice : call_choice arch64 use_rvc link_pic rd d m symval r_type insn len).
Context (Hrd : 0 <= rd < 32) (Hm : 0 <= m < 2 ^ 62).

(** The final place: the section at [base], the relocation [rel], the symbol. *)
Context (base value : Z) (rel : Elf_Internal_Rela) (howto : reloc_howto_type) (c : list Z).
Context (Ht : ELFNN_R_TYPE arch64 (r_info rel) = r_type) (Hh : riscv_elf_rtype_to_howto r_type = Some howto).
Context (Hfi : field_in howto rel c) (Hi : getl (Z.to_nat len) c (Z.to_nat (r_offset rel)) = insn).

Abbreviation pc := (base + r_offset rel).
Abbreviation target := (value + r_addend rel).

Context (Hmoved : r_type <> R_RISCV_LO12_I ->
  s64 d - m <= s64 (target - pc) <= s64 d + m /\ (target - pc) mod 2 = 0).

Lemma call_choice_final :
  exists c', perform_relocation arch64 big base howto rel value c = Some (bfd_reloc_ok, c') /\
    same_outside (Z.to_nat (r_offset rel)) (Z.to_nat len) c c' /\
    jumps rd pc (landing r_type target) len (getl (Z.to_nat len) c' (Z.to_nat (r_offset rel))).
Proof.
  destruct Hchoice as [Hu Hr Hd Hr'|Hd Hr'|Hp Hz].
  - destruct (Hmoved ltac:(vm_compute; congruence)) as [Hmove Heven]. assert (Hb : bitsize howto = 16%nat /\ pc_relative howto = true)
      by (clear -Hh; vm_compute in Hh; injection Hh as <-; done).
    destruct Hb as [Hb Hpc]. assert (Ev : relocated base howto rel value = target - pc) by (unfold relocated; rewrite Hpc; lia).
    destruct (relocated_insn arch64 big base howto rel value c R_RISCV_RVC_JUMP fmt_CJTYPE_IMM P_exact 2
      (if rd =? 0 then MATCH_C_J else MATCH_C_JAL)) as (c' & H1 & H2 & H3 & H4);
      try done; [by apply in_insn_relocs; [..|cbn; tauto]| |].
    { cbn [fits in_range fmt_kind fmt_CJTYPE_IMM]. rewrite Ev. split; [clear -Heven; change (2 ^ 1) with 2; u64_ring|]. clear Hmoved.
      change (12 - 1) with 11. apply (margin_room d m 11); done || lia. }
    exists c'. split; [done|]. split; [done|]. change (Z.to_nat 2) with 2%nat. apply JP_c_j.
    + rewrite H4 by reflexivity. by destruct (rd =? 0).
    + change (landing R_RISCV_RVC_JUMP target) with target. clear Hmoved. destruct CJTYPE_fmt as (_ & -> & _). rewrite H3. cbn [part_of]. rewrite Ev. u64_ring.
  - destruct (Hmoved ltac:(vm_compute; congruence)) as [Hmove Heven].
    assert (Hb : bitsize howto = 32%nat /\ pc_relative howto = true)
      by (clear -Hh; vm_compute in Hh; injection Hh as <-; done).
    destruct Hb as [Hb Hpc]. assert (Ev : relocated base howto rel value = target - pc) by (unfold relocated; rewrite Hpc; lia).
    destruct (relocated_insn arch64 big base howto rel value c R_RISCV_JAL fmt_JTYPE_IMM P_exact 4 (MATCH_JAL .| (rd << 7)))
      as (c' & H1 & H2 & H3 & H4); try done; [by apply in_insn_relocs; [..|cbn; tauto]| |].
    { cbn [fits in_range fmt_kind fmt_JTYPE_IMM]. rewrite Ev. split; [clear -Heven; change (2 ^ 1) with 2; u64_ring|]. clear Hmoved.
      change (21 - 1) with 20. apply (margin_room d m 20); done || lia. }
    exists c'. split; [done|]. split; [done|]. change (Z.to_nat 4) with 4%nat. apply JP_jal.
    + rewrite H4 by reflexivity. apply rd_bits; [done|vm_compute; reflexivity].
    + change (landing R_RISCV_JAL target) with target. clear Hmoved. destruct JTYPE_fmt as (_ & -> & _). rewrite H3. cbn [part_of]. rewrite Ev. u64_ring.
  - assert (Hb : bitsize howto = 32%nat /\ pc_relative howto = false)
      by (clear -Hh; vm_compute in Hh; injection Hh as <-; done).
    destruct Hb as [Hb Hpc]. assert (Ev : relocated base howto rel value = target) by (unfold relocated; rewrite Hpc; lia).
    destruct (relocated_insn arch64 big base howto rel value c R_RISCV_LO12_I fmt_ITYPE_IMM P_lo 4 (MATCH_JALR .| (rd << 7)))
      as (c' & H1 & H2 & H3 & H4); try done; [by apply in_insn_relocs; [..|cbn; tauto]|].
    exists c'. split; [done|]. split; [done|]. change (Z.to_nat 4) with 4%nat. apply JP_jalr.
    + rewrite H4 by reflexivity. apply rd_bits; [done|vm_compute; reflexivity].
    + destruct ITYPE_fmt as (_ & -> & _). rewrite H3. cbn [part_of]. rewrite Ev.
      change (landing R_RISCV_LO12_I target) with (lo_part target). unfold lo_part. clear. u64_ring.
Qed.

End final.

(** What stands at a shortened call is relocated without overflow and jumps to
    the target, in any layout that moved the distance by no more than the margin.
    A jump relative to x0 is relocated without overflow in any layout, but it
    reaches the target only while that is within 2K of address 0. *)
Definition jump_stays (arch64 : bool) (rd d m r_type insn len addend : Z) : Prop :=
  forall big base value offset r_info howto c,
    let rel := mk_rela offset r_info addend in
    let pc := base + offset in
    let target := value + addend in
    ELFNN_R_TYPE arch64 r_info = r_type -> riscv_elf_rtype_to_howto r_type = Some howto -> field_in howto rel c ->
    getl (Z.to_nat len) c (Z.to_nat offset) = insn ->
    (r_type <> R_RISCV_LO12_I -> s64 d - m <= s64 (target - pc) <= s64 d + m /\ (target - pc) mod 2 = 0) ->
    exists c' dest, perform_relocation arch64 big base howto rel value c = Some (bfd_reloc_ok, c') /\
      same_outside (Z.to_nat offset) (Z.to_nat len) c c' /\
      jumps rd pc dest len (getl (Z.to_nat len) c' (Z.to_nat offset)) /\
      (u64 dest = u64 target <-> r_type <> R_RISCV_LO12_I \/ - 2 ^ 11 <= s64 target < 2 ^ 11).

Lemma choice_type arch64 use_rvc link_pic rd d m symval r_type insn len :
  call_choice arch64 use_rvc link_pic rd d m symval r_type insn len ->
  0 <= r_type < 256 /\ (len = 2 \/ len = 4).
Proof. intros []; split; try lia; split; vm_compute; congruence. Qed.

Lemma choice_insn arch64 use_rvc link_pic rd d m symval r_type insn len :
  0 <= rd < 32 -> call_choice arch64 use_rvc link_pic rd d m symval r_type insn len -> 0 <= insn < 2 ^ (8 * len).
Proof.
  assert (Hall : forall m, forallb (fun r => (0 <=? (m .| (r << 7))) && ((m .| (r << 7)) <? 2 ^ 32)) bits5 = true ->
    forall rd, 0 <= rd < 32 -> 0 <= m .| (rd << 7) < 2 ^ (8 * 4)).
  { intros m' H rd' Hr. rewrite forallb_forall in H. specialize (H rd'). change (8 * 4) with 32.
    rewrite andb_true_iff, Z.leb_le, Z.ltb_lt in H. apply H. unfold bits5. apply in_map_iff.
    exists (Z.to_nat rd'). split; [lia|]. apply in_seq. lia. }
  intros Hr [Hu Hr' Hd Hm|Hd Hm|Hp Hz].
  - destruct (rd =? 0); split; vm_compute; congruence.
  - apply Hall; [vm_compute; reflexivity|done].
  - apply Hall; [vm_compute; reflexivity|done].
Qed.

(** C6: relaxing a call leaves the file as it is, or puts a jump that links to
    the same register in place of the auipc, marks the bytes behind it for
    deletion and changes no other byte.  A PC-relative jump, relocated in any
    later layout that moves the call and its target against each other by no more
    than the alignment allowed for (and leaves them an even distance apart),
    reaches the target without overflow.  A jump relative to x0 is only chosen in
    a link that is not position-independent for a symbol within 2K of address 0;
    there the code allows for no alignment and the relocation has no overflow
    check: it always succeeds, and the jump reaches the target exactly if the
    target is within 2K of 0 in the final layout too. *)
Theorem relaxed_call_reaches_target arch64 use_rvc link_pic sec i rel sym_sec symval max_alignment s :
  0 <= r_offset rel -> r_offset rel + 8 <= Z.of_nat (length (rx_contents s)) -> r_offset rel + 8 < 2 ^ 63 ->
  (S i < length (rx_relocs s))%nat -> 0 <= margin sec sym_sec max_alignment < 2 ^ 62 ->
  let d := symval - (sec_addr sec + r_offset rel) in
  let m := margin sec sym_sec max_alignment in
  let rd := (getl 4 (rx_contents s) (Z.to_nat (r_offset rel + 4)) >> 7) .& 31 in
  exists s', _bfd_riscv_relax_call arch64 sec use_rvc link_pic i rel sym_sec symval max_alignment s = Some (s', true) /\
    (s' = s \/
     exists r_type insn len new mark,
       rx_again s' = true /\
       rx_relocs s' = <[S i := mark]> (<[i := new]> (rx_relocs s)) /\
       (r_offset new, r_addend new, ELFNN_R_TYPE arch64 (r_info new)) = (r_offset rel, r_addend rel, r_type) /\
       (r_offset mark, r_addend mark, ELFNN_R_TYPE arch64 (r_info mark)) = (r_offset rel + len, 8 - len, R_RISCV_DELETE) /\
       same_outside (Z.to_nat (r_offset rel)) (Z.to_nat len) (rx_contents s) (rx_contents s') /\
       getl (Z.to_nat len) (rx_contents s') (Z.to_nat (r_offset rel)) = insn /\
       (r_type = R_RISCV_LO12_I -> link_pic = false /\ - 2 ^ 11 <= s64 symval < 2 ^ 11) /\
       jump_stays arch64 rd d m r_type insn len (r_addend rel)).
Proof.
  intros Ho Hl Hs Hi Hm. cbv zeta. set (d := symval - (sec_addr sec + r_offset rel)).
  set (m := margin sec sym_sec max_alignment) in *. set (rd := _ .& 31).
  assert (Hrd : 0 <= rd < 32).
  { unfold rd. change 31 with (Z.ones 5). rewrite Z.land_ones by lia. change 32 with (2 ^ 5). apply Z.mod_pos_bound. lia. }
  destruct (relax_call_cases arch64 use_rvc link_pic sec i rel sym_sec symval max_alignment s Ho Hl)
    as [->|(r_type & insn & len & Hc & ->)]; [by eexists; split; [|left]|].
  fold d m rd in Hc. destruct (choice_type _ _ _ _ _ _ _ _ _ _ Hc) as [Ht Hlen].
  pose proof (choice_insn _ _ _ _ _ _ _ _ _ _ Hrd Hc) as Hw.
  eexists. split; [reflexivity|]. right. exists r_type, insn, len. eexists _, _.
  split; [reflexivity|]. split; [reflexivity|]. cbn [r_offset r_addend r_info].
  rewrite !r_type_info by (done || (split; vm_compute; congruence)). split; [done|].
  split. { assert (E : u64 (r_offset rel + len) = r_offset rel + len) by (unfold u64; rewrite Z.mod_small; lia). by rewrite E. }
  split; [apply putl_same_outside; lia|]. split.
  { unfold call_relaxed. cbn [rx_contents set_reloc with_relocs with_again with_contents]. rewrite getl_putl by lia. rewrite Z2Nat.id by lia. by apply Z.mod_small. }
  split. { clear -Hc. destruct Hc; intros E; [vm_compute in E; discriminate E..|done]. }
  intros big base value offset r_info' howto c. cbv zeta. intros Ht' Hh Hf Hg Hmv.
  destruct (call_choice_final arch64 big use_rvc link_pic rd d m symval r_type insn len Hc Hrd Hm base value
              (mk_rela offset r_info' (r_addend rel)) howto c Ht' Hh Hf Hg Hmv) as (c' & E1 & E2 & E3).
  exists c', (landing r_type (value + r_addend rel)). split; [exact E1|]. split; [exact E2|]. split; [exact E3|].
  destruct (Z.eq_dec r_type R_RISCV_LO12_I) as [->|Hn]; [rewrite landing_near; tauto|].
  unfold landing. rewrite (proj2 (Z.eqb_neq _ _) Hn). tauto.
Qed.

(** [call f] in a section at 0x1000, [f] 0x100 bytes on. *)
Definition example_call : relax_state :=
  mk_relax 12 [0x97; 0; 0; 0; 0xe7; 0x80; 0; 0; 0x13; 0; 0; 0]
    [mk_rela 0 (ELF64_R_INFO 1 R_RISCV_CALL_PLT) 0; mk_rela 0 (ELF64_R_INFO 0 R_RISCV_RELAX) 0]
    [] [] [] riscv_init_pcgp_relocs false false (mk_htab 4 4 None).

Lemma relaxed_call_reaches_target_witness :
  exists s' r_type insn len,
    _bfd_riscv_relax_call true example_text true false 0 (mk_rela 0 (ELF64_R_INFO 1 R_RISCV_CALL_PLT) 0) example_text
      0x1100 4 example_call = Some (s', true) /\
    take 4 (rx_contents s') = [0xef; 0; 0; 0] /\
    jump_stays true 1 0x100 4 r_type insn len 0.
Proof.
  destruct (relaxed_call_reaches_target true true false example_text 0 (mk_rela 0 (ELF64_R_INFO 1 R_RISCV_CALL_PLT) 0)
              example_text 0x1100 4 example_call) as (s' & H1 & H2); try (cbn; lia).
  - split; vm_compute; congruence.
  - destruct H2 as [->|(r_type & insn & len & new & mark & _ & _ & _ & _ & _ & _ & _ & H)].
    + vm_compute in H1. discriminate H1.
    + exists s', r_type, insn, len. split; [exact H1|]. split; [|exact H].
      vm_compute in H1. injection H1 as <-. reflexivity.
Defined.
