(* ===== verification/LinkAlignSpec.v ===== *)
(** * Alignment after linker relaxation

    The assembler leaves the worst case of padding and a relocation;
    [_bfd_riscv_relax_align] keeps the nops the final address needs and deletes
    the rest. *)
From Stdlib Require Import ZArith Bool Lia.
From stdpp Require Import base list gmap.
From S2P Require Import Prelude OpcodeH RiscvH Immediates Words OpcodeMatch Bytes Howto Fixups FixupsSpec Relax Align AlignSpec LinkReloc LinkRelocSpec LinkRelax LinkRelaxSpec.

#[local] Open Scope Z_scope.
#[local] Open Scope c_scope.
#[local] Open Scope list_scope.

(** ** One range deleted at once *)

Lemma delete_bytes_one wrap sec o c s :
  let n := rx_size s in
  let D := [(o, c)] in
  Z.of_nat (length (rx_contents s)) = n -> n < 2 ^ 63 -> 0 <= o -> 0 < c -> o + c <= n ->
  Forall (reloc_ok D n) (rx_relocs s) -> Forall (local_ok (si_id sec) D n) (rx_syms s) ->
  Forall (global_ok (si_id sec) D n) (rx_globals s) -> wrap = true \/ NoDup (rx_hashes s) ->
  exists contents,
    _riscv_relax_delete_bytes wrap sec o c false 0 n s
    = Some (mk_relax (n - c) contents (map (moved_reloc D) (rx_relocs s)) (map (moved_local (si_id sec) D) (rx_syms s))
              (rx_hashes s) (moved_globals (si_id sec) D (rx_hashes s) (rx_globals s)) (rx_pcgp s) (rx_again s) (rx_flg0 s)
              (rx_htab s)) /\
    take (Z.to_nat (n - c)) contents = take (Z.to_nat o) (rx_contents s) ++ drop (Z.to_nat (o + c)) (rx_contents s).
Proof.
  cbv zeta. set (n := rx_size s). intros HL Hn Ho Hc Hoc Hrel Hloc Hglob Hw.
  assert (HD : ranges_ok 0 [] o) by done. assert (Hon : o + c <= n < 2 ^ 63) by lia.
  unfold _riscv_relax_delete_bytes, memmove. fold n.
  rewrite (u64_small (n - o - c)), (u64_small (n - c)) by lia. rewrite (u64_small (n - c + c)) by lia.
  rewrite Z.add_0_r, Z.sub_add. rewrite !(proj2 (Z.leb_le _ _)) by lia. cbn [andb].
  eexists. split.
  - f_equal. f_equal.
    + apply map_ext_in. intros r Hr. rewrite Forall_forall in Hrel. specialize (Hrel r ltac:(by apply list_elem_of_In)).
      pose proof (reloc_step [] o c n HD Hc Hon r Hrel) as H. cbv zeta in H.
      assert (E : moved_reloc [] r = r) by (by destruct r). rewrite E in H. cbn [total] in H. rewrite !Z.sub_0_r in H. exact H.
    + apply map_ext_in. intros r Hr. rewrite Forall_forall in Hloc. specialize (Hloc r ltac:(by apply list_elem_of_In)).
      pose proof (local_step [] o c n HD Hc Hon (si_id sec) r Hloc) as H.
      rewrite moved_local_nil in H. cbn [total] in H. rewrite !Z.sub_0_r in H. exact H.
    + pose proof (globals_step wrap (si_id sec) [] o c n (rx_hashes s) (rx_globals s) HD Hc Hon Hw Hglob) as H.
      rewrite moved_globals_nil in H. cbn [total] in H. rewrite !Z.sub_0_r in H. exact H.
  - unfold putb. rewrite app_assoc. rewrite take_app_le; [rewrite take_ge|];
      rewrite ?length_app, ?length_take, ?length_drop; try lia.
    f_equal. apply take_ge. rewrite length_drop. lia.
Qed.

(** ** The nops *)

(** The nops the linker writes: 4-byte nops, then a 2-byte nop if need be. *)
Definition link_nops (bytes : Z) : list Z :=
  concat (replicate (Z.to_nat (bytes / 4)) (bytes_le 4 RISCV_NOP)) ++ (if negb (bytes mod 4 =? 0) then bytes_le 2 RVC_NOP else []).

Lemma link_nops_length bytes : 0 <= bytes -> bytes mod 2 = 0 -> Z.of_nat (length (link_nops bytes)) = bytes.
Proof.
  intros H0 He. unfold link_nops. rewrite length_app, concat_replicate_length, bytes_le_length.
  destruct (Z.eqb_spec (bytes mod 4) 0); cbn [negb]; rewrite ?bytes_le_length; cbn [length];
    Z.to_euclidean_division_equations; lia.
Qed.

Lemma link_nops_insns bytes fuel :
  0 <= bytes -> bytes mod 2 = 0 -> bytes <= Z.of_nat fuel ->
  exists ws, insns fuel (link_nops bytes) = Some ws /\ Forall is_nop ws.
Proof.
  intros H0 He Hf. unfold link_nops. set (k := Z.to_nat (bytes / 4)).
  assert (Hk : (k < fuel)%nat \/ bytes mod 4 = 0 /\ (k <= fuel)%nat)
    by (unfold k; Z.to_euclidean_division_equations; lia).
  clearbody k. clear Hf.
  destruct (Z.eqb_spec (bytes mod 4) 0) as [E|E]; cbn [negb].
  - rewrite app_nil_r. exists (replicate k RISCV_NOP). split; [apply insns_nops; lia|]. apply Forall_replicate. by right.
  - assert (Hlt : (k < fuel)%nat).
    { by destruct Hk as [Hk|[Hk _]]. }
    clear -Hlt. exists (replicate k RISCV_NOP ++ [RVC_NOP]). split.
    + revert fuel Hlt. induction k as [|k IH]; intros fuel Hlt; (destruct fuel as [|fuel]; [lia|]).
      * cbn [replicate concat app]. rewrite <- (app_nil_r (bytes_le 2 RVC_NOP)). by rewrite insns_step by (lia || done); destruct fuel.
      * cbn [replicate concat]. rewrite <- app_assoc. rewrite insns_step by (lia || done). by rewrite IH by lia.
    + apply Forall_app. split; [apply Forall_replicate; by right|]. repeat constructor.
Qed.

Lemma write_nops_spec k : forall off contents,
  0 <= off -> off + 4 * Z.of_nat k <= Z.of_nat (length contents) ->
  write_nops k off contents = Some (putb (concat (replicate k (bytes_le 4 RISCV_NOP))) contents (Z.to_nat off)).
Proof.
  induction k as [|k IH]; intros off contents Ho Hl; cbn [write_nops replicate concat]; [by rewrite putb_nil|].
  rewrite put_insn_in by (cbn; tauto || change (Z.of_nat (32 / 8)) with 4; lia).
  change (32 / 8)%nat with 4%nat. rewrite IH; [|lia|rewrite putl_length by lia; lia].
  f_equal. unfold putl. replace (Z.to_nat (off + 4)) with (Z.to_nat off + length (bytes_le 4 RISCV_NOP))%nat
    by (rewrite bytes_le_length; lia).
  apply putb_putb. rewrite concat_replicate_length, bytes_le_length. lia.
Qed.

Lemma write_link_nops bytes off contents :
  0 <= off -> 0 <= bytes -> bytes mod 2 = 0 -> off + bytes <= Z.of_nat (length contents) ->
  match write_nops (Z.to_nat (bytes / 4)) off contents with
  | None => None
  | Some c => if negb (bytes mod 4 =? 0) then riscv_put_insn 16 RVC_NOP c (off + bytes / 4 * 4) else Some c
  end = Some (putb (link_nops bytes) contents (Z.to_nat off)).
Proof.
  intros Ho Hb He Hl. pose proof (Z.div_mod bytes 4 ltac:(lia)) as Hd. pose proof (Z.mod_pos_bound bytes 4 ltac:(lia)) as Hm.
  rewrite write_nops_spec by lia. unfold link_nops. set (N := concat _).
  assert (HN : Z.of_nat (length N) = bytes / 4 * 4) by (unfold N; rewrite concat_replicate_length, bytes_le_length; lia).
  destruct (Z.eqb_spec (bytes mod 4) 0) as [E|E]; cbn [negb]; [by rewrite app_nil_r|].
  assert (bytes mod 4 = 2) by (clear -He E Hm; Z.to_euclidean_division_equations; lia).
  rewrite put_insn_in; [|cbn; tauto|lia|rewrite putb_length by lia; change (Z.of_nat (16 / 8)) with 2; lia].
  change (16 / 8)%nat with 2%nat. f_equal. unfold putl.
  replace (Z.to_nat (off + bytes / 4 * 4)) with (Z.to_nat off + length N)%nat by lia.
  apply putb_putb. rewrite bytes_le_length. lia.
Qed.

(** ** The address *)

Lemma align_above_spec k : forall fuel j a,
  (j <= k)%nat -> (k < 64)%nat -> (k - j < fuel)%nat -> (forall i, (j <= i < k)%nat -> 2 ^ Z.of_nat i <= a) -> a < 2 ^ Z.of_nat k ->
  align_above fuel (2 ^ Z.of_nat j) a = Some (2 ^ Z.of_nat k).
Proof.
  intros fuel. induction fuel as [|fuel IH]; intros j a Hj Hk Hf Ha Hlt; [lia|]. cbn [align_above].
  destruct (Z.leb_spec (2 ^ Z.of_nat j) a) as [H|H].
  - assert (j <> k) by (intros ->; lia).
    replace (2 ^ Z.of_nat j * 2) with (2 ^ Z.of_nat (S j))
      by (rewrite Nat2Z.inj_succ, Z.pow_succ_r by lia; lia).
    rewrite u64_small.
    + apply IH; try done; try lia. intros i Hi. apply Ha. lia.
    + split; [apply Z.pow_nonneg; lia|]. apply Z.pow_lt_mono_r; lia.
  - f_equal. f_equal. f_equal. destruct (Nat.lt_ge_cases j k) as [Hl|Hl]; [|lia]. specialize (Ha j ltac:(lia)). lia.
Qed.

Lemma land_high x k : 0 <= x < 2 ^ 64 -> 0 <= k < 64 -> x .& u64 (Z.lnot (2 ^ k - 1)) = x / 2 ^ k * 2 ^ k.
Proof.
  intros Hx Hk. rewrite <- Z.shiftl_mul_pow2, <- Z.shiftr_div_pow2, <- Z.ldiff_ones_r by lia.
  rewrite Z.ones_equiv. change (Z.pred (2 ^ k)) with (2 ^ k - 1). apply Z.bits_inj'. intros i Hi.
  rewrite Z.land_spec, u64_testbit, Z.lnot_spec, Z.ldiff_spec by done.
  destruct (Z.ltb_spec i 64); [done|]. cbn [andb]. rewrite andb_false_r.
  rewrite <- (Z.mod_small x (2 ^ 64)) by done. by rewrite Z.mod_pow2_bits_high by lia.
Qed.

(** The bytes up to the next multiple of the alignment. *)
Lemma nop_bytes_spec place k :
  0 <= place < 2 ^ 64 -> 0 <= k < 64 ->
  let A := 2 ^ k in
  u64 (u64 ((u64 (place - 1) .& u64 (Z.lnot (A - 1))) + A) - place) = (- place) mod A.
Proof.
  intros Hp Hk. cbv zeta. rewrite land_high by (done || apply u64_range).
  set (A := 2 ^ k). assert (HA : 0 < A) by (apply Z.pow_pos_nonneg; lia).
  assert (HA64 : 2 ^ 64 = 2 ^ (64 - k) * A) by (unfold A; rewrite <- Z.pow_add_r by lia; f_equal; lia).
  assert (Hb : A <= 2 ^ 63) by (apply Z.pow_le_mono_r; lia).
  set (Q := 2 ^ (64 - k)) in *.
  assert (HQ : 0 < Q) by (apply Z.pow_pos_nonneg; lia).
  pose proof (Z.mod_pos_bound (- place) A HA) as Hm.
  destruct (Z.eq_dec place 0) as [->|Hne].
  - change (u64 (0 - 1)) with (2 ^ 64 - 1). rewrite HA64.
    assert (E : (Q * A - 1) / A = Q - 1) by (symmetry; apply (Z.div_unique _ _ _ (A - 1)); lia). rewrite E.
    replace ((Q - 1) * A + A) with (Q * A) by lia. rewrite <- HA64. cbn [Z.opp]. rewrite Z.mod_0_l by lia. reflexivity.
  - rewrite (u64_small (place - 1)) by lia.
    assert (E : (- place) mod A = (place - 1) / A * A + A - place).
    { symmetry. apply (Z.mod_unique_pos _ _ (- ((place - 1) / A) - 1)); [|lia].
      pose proof (Z.div_mod (place - 1) A ltac:(lia)). pose proof (Z.mod_pos_bound (place - 1) A HA). lia. }
    rewrite E in *. set (m := (place - 1) / A * A) in *.
    assert (2 ^ 63 < 2 ^ 64) by done. unfold u64. rewrite Zminus_mod_idemp_l. apply Z.mod_small. lia.
Qed.

(** ** Alignments *)

(** What is deleted of [a] bytes at [off] when [nop] of them are kept. *)
Definition excess (off nop a : Z) : ranges := if nop =? a then [] else [(off + nop, a - nop)].

Section align.

Context (arch64 wrap : bool) (sec : section_info) (i : nat) (rel : Elf_Internal_Rela) (s : relax_state) (k : Z).

Abbreviation n := (rx_size s).
Abbreviation off := (r_offset rel).
Abbreviation a := (r_addend rel).
Abbreviation place := (sec_addr sec + off).
Abbreviation nop := ((- place) mod 2 ^ k).
Abbreviation D := (excess off nop a).

Context (Hp : 0 <= place < 2 ^ 64) (Hk : 0 < k < 63) (Ha : 2 ^ (k - 1) <= a < 2 ^ k).

Lemma align_power : align_above 65 1 a = Some (2 ^ k).
Proof.
  pose proof (align_above_spec (Z.to_nat k) 65 0 a) as H. rewrite Z2Nat.id in H by lia. change (2 ^ Z.of_nat 0) with 1 in H.
  apply H; try lia. intros j Hj. transitivity (2 ^ (k - 1)); [apply Z.pow_le_mono_r; lia|lia].
Qed.

Lemma relax_align_fails :
  a < nop -> _bfd_riscv_relax_align arch64 wrap sec i rel (u64 (place + a)) s = Some (with_flg0 s, false).
Proof.
  intros Hlt. unfold _bfd_riscv_relax_align. rewrite align_power. cbv zeta.
  assert (Es : u64 (u64 (place + a) - a) = place)
    by (unfold u64; rewrite Zminus_mod_idemp_l, Z.add_simpl_r; by apply Z.mod_small).
  rewrite Es, nop_bytes_spec by lia. by rewrite (proj2 (Z.ltb_lt _ _)).
Qed.

Context (Hi : rx_relocs s !! i = Some rel) (He : place mod 2 = 0) (Hae : a mod 2 = 0).
Context (HL : Z.of_nat (length (rx_contents s)) = n) (Hn : n < 2 ^ 63) (Ho : 0 <= off) (Hoa : off + a <= n).
Context (Hrel : Forall (reloc_ok D n) (rx_relocs s)) (Hloc : Forall (local_ok (si_id sec) D n) (rx_syms s)).
Context (Hglob : Forall (global_ok (si_id sec) D n) (rx_globals s)) (Hw : wrap = true \/ NoDup (rx_hashes s)).

(** The bytes kept of the padding. *)
Definition kept_bytes : list Z := if nop =? a then take (Z.to_nat a) (drop (Z.to_nat off) (rx_contents s)) else link_nops nop.

Definition unaligned : Elf_Internal_Rela := mk_rela off (ELFNN_R_INFO arch64 0 R_RISCV_NONE) a.

Lemma nop_even : 0 <= nop < 2 ^ k /\ nop mod 2 = 0.
Proof.
  assert (E : 2 ^ k = 2 ^ (k - 1) * 2) by (rewrite Z.mul_comm, <- Z.pow_succ_r by lia; f_equal; lia).
  assert (0 < 2 ^ (k - 1)) by (apply Z.pow_pos_nonneg; lia).
  split; [apply Z.mod_pos_bound; lia|]. rewrite E, Z.mul_comm, Z.rem_mul_r by lia.
  rewrite (Z.mul_comm 2), Z.mod_add by lia. rewrite Z.mod_mod by lia. clear -He. Z.to_euclidean_division_equations. lia.
Qed.

Lemma relax_align_succeeds :
  nop <= a ->
  exists contents,
    _bfd_riscv_relax_align arch64 wrap sec i rel (u64 (place + a)) s
    = Some (mk_relax (n - (a - nop)) contents (map (moved_reloc D) (<[i := unaligned]> (rx_relocs s)))
              (map (moved_local (si_id sec) D) (rx_syms s)) (rx_hashes s)
              (moved_globals (si_id sec) D (rx_hashes s) (rx_globals s)) (rx_pcgp s) (rx_again s) true (rx_htab s), true) /\
    take (Z.to_nat (n - (a - nop))) contents
    = take (Z.to_nat off) (rx_contents s) ++ kept_bytes ++ drop (Z.to_nat (off + a)) (rx_contents s).
Proof.
  intros Hle. pose proof nop_even as [Hb Hev]. unfold _bfd_riscv_relax_align. rewrite align_power. cbv zeta.
  assert (Es : u64 (u64 (place + a) - a) = place)
    by (unfold u64; rewrite Zminus_mod_idemp_l, Z.add_simpl_r; by apply Z.mod_small).
  rewrite Es, nop_bytes_spec by lia. rewrite (proj2 (Z.ltb_ge _ _)) by lia. unfold kept_bytes.
  pose proof Hrel as Hrel'. pose proof Hloc as Hloc'. pose proof Hglob as Hglob'.
  revert Hle Hb Hev Hrel' Hloc' Hglob'. unfold excess. generalize nop. intros N Hle Hb Hev Hrel' Hloc' Hglob'.
  destruct (Z.eqb_spec N a) as [E|Hne].
  - rewrite E. exists (rx_contents s). split.
    + rewrite Z.sub_diag, Z.sub_0_r, moved_relocs_nil, moved_globals_nil, (map_id_ext (moved_local _ [])) by apply moved_local_nil.
      done.
    + rewrite take_ge by lia. rewrite <- (take_drop (Z.to_nat off) (rx_contents s)) at 1. f_equal.
      rewrite <- (take_drop (Z.to_nat a) (drop (Z.to_nat off) (rx_contents s))) at 1. f_equal.
      rewrite drop_drop. f_equal. lia.
  - set (s1 := set_reloc i _ (with_flg0 s)).
    pose proof (write_link_nops N off (rx_contents s1) Ho ltac:(lia) Hev) as Hwn.
    change (rx_contents s1) with (rx_contents s) in Hwn |- *. specialize (Hwn ltac:(lia)).
    destruct (write_nops _ _ _) as [c1|]; [|done]. rewrite Hwn. unfold _riscv_relax_delete_immediate.
    rewrite !u64_small by lia.
    set (s2 := with_contents s1 _).
    assert (Hlk : length (putb (link_nops N) (rx_contents s) (Z.to_nat off)) = length (rx_contents s)).
    { apply putb_length. pose proof (link_nops_length N ltac:(lia) Hev). lia. }
    destruct (delete_bytes_one wrap sec (off + N) (a - N) s2) as (c2 & H1 & H2);
      change (rx_size s2) with n in *; change (rx_syms s2) with (rx_syms s) in *; change (rx_globals s2) with (rx_globals s) in *;
      change (rx_hashes s2) with (rx_hashes s) in *;
      change (rx_contents s2) with (putb (link_nops N) (rx_contents s) (Z.to_nat off)) in *; try done; try lia.
    { change (rx_relocs s2) with (<[i := unaligned]> (rx_relocs s)). apply Forall_insert; [done|].
      rewrite Forall_lookup in Hrel'. exact (Hrel' i rel Hi). }
    exists c2. change (rx_size s2) with n in H1. rewrite H1. split; [reflexivity|].
    rewrite H2. pose proof (link_nops_length N ltac:(lia) Hev) as HlN.
    unfold putb. rewrite app_assoc. assert (Htk : length (take (Z.to_nat off) (rx_contents s)) = Z.to_nat off) by (rewrite length_take; lia).
    rewrite take_app_length' by (rewrite length_app; lia). rewrite <- app_assoc. f_equal. f_equal.
    rewrite drop_app_ge by (rewrite length_app; lia). rewrite drop_drop, length_app. f_equal. lia.
Qed.

End align.

(** C7: an alignment of the assembler holds in the linked file.  Where the
    assembler left its worst case of nops and the relocation for an alignment to
    [2 ^ p], the linker never runs short of bytes: it keeps whole nops up to the
    next multiple of [2 ^ p] of the final address, closes the gap behind them,
    and every relocation and symbol of the section follows its byte.  With an
    addend smaller than the bytes needed it fails and leaves the section. *)
Theorem alignment_survives_relaxation (rvc arch64 wrap : bool) sec i rel s (p : nat) ialign nops :
  let n := rx_size s in
  let off := r_offset rel in
  let a := r_addend rel in
  let place := sec_addr sec + off in
  let nop := (- place) mod 2 ^ Z.of_nat p in
  let D := excess off nop a in
  ialign = (if rvc then 2 else 4) -> ialign < 2 ^ Z.of_nat p -> (p < 63)%nat ->
  riscv_frag_align_code rvc true p = Some (Align_nops nops a) ->
  0 <= place < 2 ^ 64 -> place mod ialign = 0 ->
  rx_relocs s !! i = Some rel -> Z.of_nat (length (rx_contents s)) = n -> n < 2 ^ 63 -> 0 <= off -> off + a <= n ->
  take (length nops) (drop (Z.to_nat off) (rx_contents s)) = nops ->
  Forall (reloc_ok D n) (rx_relocs s) -> Forall (local_ok (si_id sec) D n) (rx_syms s) ->
  Forall (global_ok (si_id sec) D n) (rx_globals s) -> wrap = true \/ NoDup (rx_hashes s) ->
  (exists s' pad ws,
    _bfd_riscv_relax_align arch64 wrap sec i rel (u64 (place + a)) s = Some (s', true) /\
    take (Z.to_nat (rx_size s')) (rx_contents s')
    = take (Z.to_nat off) (rx_contents s) ++ pad ++ drop (Z.to_nat (off + a)) (rx_contents s) /\
    insns (length pad) pad = Some ws /\ Forall is_nop ws /\
    (place + Z.of_nat (length pad)) mod 2 ^ Z.of_nat p = 0 /\ Z.of_nat (length pad) <= a /\
    rx_size s' = n - (a - Z.of_nat (length pad)) /\ rx_flg0 s' = true /\
    rx_relocs s' = map (moved_reloc D) (<[i := unaligned arch64 rel]> (rx_relocs s)) /\
    rx_syms s' = map (moved_local (si_id sec) D) (rx_syms s) /\
    rx_globals s' = moved_globals (si_id sec) D (rx_hashes s) (rx_globals s)) /\
  (forall less, 2 ^ (Z.of_nat p - 1) <= less < nop ->
    _bfd_riscv_relax_align arch64 wrap sec i (mk_rela off (r_info rel) less) (u64 (place + less)) s
    = Some (with_flg0 s, false)).
Proof.
  cbv zeta. set (n := rx_size s). set (off := r_offset rel). set (a := r_addend rel). set (place := sec_addr sec + off).
  set (nop := (- place) mod 2 ^ Z.of_nat p). set (D := excess off nop a).
  intros Hia Hip Hp Hasm Hpl Hpa Hi HL Hn Ho Hoa Hnops Hrel Hloc Hglob Hw.
  destruct (riscv_frag_align_code_worst_case rvc p ialign Hia Hip Hp)
    as (nops' & ws' & a' & Hasm' & Hlen & Ha' & Hins & Hnop & Hreach & _).
  rewrite Hasm in Hasm'. assert (nops' = nops) as -> by congruence. assert (a' = a) as -> by congruence. clear Hasm'.
  assert (Hp1 : (1 <= p)%nat).
  { clear -Hia Hip. destruct p; [|lia]. change (2 ^ Z.of_nat 0) with 1 in Hip. destruct rvc; lia. }
  assert (E2 : 2 ^ Z.of_nat p = 2 ^ (Z.of_nat p - 1) * 2)
    by (clear -Hp1; rewrite Z.mul_comm, <- Z.pow_succ_r by lia; f_equal; lia).
  assert (Hhalf : 2 ^ (Z.of_nat p - 1) <= a < 2 ^ Z.of_nat p).
  { clear -Hia Hip Ha' E2 Hp1. set (j := if rvc then 1 else 2).
    assert (Ej : ialign = 2 ^ j) by (by destruct rvc). rewrite Ej in *.
    assert (j < Z.of_nat p) by (apply (Z.pow_lt_mono_r_iff 2); lia).
    assert (2 ^ j <= 2 ^ (Z.of_nat p - 1)) by (apply Z.pow_le_mono_r; lia).
    assert (0 < 2 ^ j) by (by destruct rvc). lia. }
  assert (Hev : place mod 2 = 0) by (destruct rvc; subst ialign; [done|clear -Hpa; Z.to_euclidean_division_equations; lia]).
  specialize (Hreach place Hpa). fold nop in Hreach.
  split; [|intros less Hless; apply (relax_align_fails arch64 wrap sec i (mk_rela off (r_info rel) less) s (Z.of_nat p)); cbn [r_addend r_offset]; fold place nop; lia || done].
  assert (Hpk : 0 < Z.of_nat p < 63) by lia.
  destruct (relax_align_succeeds arch64 wrap sec i rel s (Z.of_nat p) Hpl Hpk Hhalf Hi Hev HL Hn Ho Hoa
              Hrel Hloc Hglob Hw (proj2 Hreach)) as (c & Hrun & Hc).
  fold off a n place nop D in Hrun, Hc.
  assert (Hlk : Z.of_nat (length (kept_bytes sec rel s (Z.of_nat p))) = nop /\
    exists ws, insns (length (kept_bytes sec rel s (Z.of_nat p))) (kept_bytes sec rel s (Z.of_nat p)) = Some ws /\ Forall is_nop ws).
  { unfold kept_bytes. fold off a place nop. destruct (Z.eqb_spec nop a) as [E|E].
    - replace (Z.to_nat a) with (length nops) by lia. rewrite Hnops. split; [lia|]. by exists ws'.
    - pose proof (nop_even sec rel s (Z.of_nat p) Hpk Hev) as [H1 H2]. fold off place nop in H1, H2.
      pose proof (link_nops_length nop ltac:(lia) H2) as H3. split; [done|]. apply link_nops_insns; [lia|done|lia]. }
  destruct Hlk as [Hlk (ws & Hws & Hwn)].
  eexists _, (kept_bytes sec rel s (Z.of_nat p)), ws. split; [exact Hrun|]. cbn [rx_size rx_contents rx_relocs rx_syms rx_globals rx_flg0].
  rewrite Hlk. split_and!; try done; [|lia].
  unfold nop. rewrite Z.add_mod_idemp_r by (apply Z.pow_nonzero; lia). by rewrite Z.add_opp_diag_r.
Qed.

(** An alignment to 8 behind four bytes of code: four of the six bytes are kept_bytes. *)
Definition example_align : relax_state :=
  mk_relax 14 [0x33; 0; 0; 0; 1; 0; 0x13; 0; 0; 0; 0x82; 0x80; 0x82; 0x80]
    [mk_rela 4 (ELF64_R_INFO 0 R_RISCV_ALIGN) 6]
    [mk_sym (Some example_text) 0 14 STT_FUNC; mk_sym (Some example_text) 10 4 STT_FUNC]
    [0%nat] [mk_hash hash_defined (Some example_text) 12 2 STT_FUNC false false None]
    riscv_init_pcgp_relocs false false (mk_htab 4 4 None).

Lemma alignment_survives_relaxation_witness :
  exists s' pad,
    _bfd_riscv_relax_align true false example_text 0 (mk_rela 4 (ELF64_R_INFO 0 R_RISCV_ALIGN) 6) (u64 (0x1004 + 6)) example_align
    = Some (s', true) /\
    take (Z.to_nat (rx_size s')) (rx_contents s') = [0x33; 0; 0; 0] ++ pad ++ [0x82; 0x80; 0x82; 0x80] /\
    (0x1004 + Z.of_nat (length pad)) mod 8 = 0 /\ rx_size s' = 14 - (6 - Z.of_nat (length pad)) /\
    map st_value (rx_syms s') = [0; 8] /\ map h_value (rx_globals s') = [10].
Proof.
  destruct (alignment_survives_relaxation true true false example_text 0 (mk_rela 4 (ELF64_R_INFO 0 R_RISCV_ALIGN) 6)
              example_align 3 2 [1; 0; 0x13; 0; 0; 0])
    as [(s' & pad & ws & H1 & H2 & _ & _ & H3 & _ & H4 & _ & _ & H5 & H6) _].
  - reflexivity.
  - reflexivity.
  - lia.
  - reflexivity.
  - split; vm_compute; congruence.
  - reflexivity.
  - reflexivity.
  - reflexivity.
  - reflexivity.
  - vm_compute; congruence.
  - vm_compute; congruence.
  - reflexivity.
  - repeat constructor; try (cbn; lia); intros o c Hin Ho; vm_compute in Hin; destruct Hin as [[= <- <-]|[]]; cbn in *; lia.
  - repeat constructor; try (cbn; lia); intros o c Hin Ho; vm_compute in Hin; destruct Hin as [[= <- <-]|[]]; cbn in *; lia.
  - repeat constructor; try (cbn; lia); intros o c Hin Ho; vm_compute in Hin; destruct Hin as [[= <- <-]|[]]; cbn in *; lia.
  - right. apply NoDup_singleton.
  - exists s', pad. split; [exact H1|]. split; [exact H2|]. split; [exact H3|]. split; [exact H4|].
    rewrite H5, H6. split; reflexivity.
Defined.
