(* ===== verification/LinkMerge.v ===== *)
(** * Merging object files (bfd/elfnn-riscv.c, bfd/elf-attrs.c)

    What the linker does with the object attributes and the ELF header flags of
    each input file: the ISA strings are merged extension by extension, the
    other attributes by tag, and the flags are checked for one ABI.

    The three static subset lists are part of the state, and a pointer into one
    of them is the index of its node.  [None] stands for an undefined access: a
    null pointer that is read or called, or [abort].  Memory is never short. *)
From Stdlib Require Import ZArith Bool Ascii.
From stdpp Require Import base list strings.
From S2P Require Import Prelude RiscvH SubsetTables Subset Regs Options.

#[local] Open Scope Z_scope.
#[local] Open Scope c_scope.

(** ** State *)

Inductive merge_message : Set :=
| LM_parse (e : subset_error) | LM_first_letter (name : string) | LM_isa_mismatch (a b : string)
| LM_arch_mismatch | LM_xlen_mismatch (a b : Z) | LM_unsupported_xlen (xlen : Z)
| LM_priv_spec | LM_priv_spec_1p9p1 | LM_stack_align (a b : Z)
| LM_vendor (s : string) | LM_compatibility (a b : Z)
| LM_target | LM_float_abi (new old : string) | LM_rve.

Record merge_state : Set := mk_merge {
  in_subsets : riscv_subset_list_t;
  out_subsets : riscv_subset_list_t;
  merged_subsets : riscv_subset_list_t;
  messages : list merge_message;
}.

Definition with_in (s : merge_state) (l : riscv_subset_list_t) : merge_state :=
  mk_merge l (out_subsets s) (merged_subsets s) (messages s).
Definition with_out (s : merge_state) (l : riscv_subset_list_t) : merge_state :=
  mk_merge (in_subsets s) l (merged_subsets s) (messages s).
Definition with_merged (s : merge_state) (l : riscv_subset_list_t) : merge_state :=
  mk_merge (in_subsets s) (out_subsets s) l (messages s).
Definition link_report (s : merge_state) (m : list merge_message) : merge_state :=
  mk_merge (in_subsets s) (out_subsets s) (merged_subsets s) (messages s ++ m).

(** ** ISA strings *)

Definition riscv_std_ext_p (name : string) : bool :=
  let name := chars name in
  (length name =? 1)%nat && negb (Ascii.eqb (head_char name) "x") && negb (Ascii.eqb (head_char name) "s").

(** The versions of [out] after [riscv_update_subset_version]. *)
Definition newer_version (i out : riscv_subset_t) : riscv_subset_t :=
  if (major_version out <? major_version i)
     || (major_version i =? major_version out) && (minor_version out <? minor_version i)
     || (major_version out =? RISCV_UNKNOWN_VERSION)
  then mk_subset (sub_name out) (major_version i) (minor_version i)
  else out.

(** [riscv_update_subset_version] for node [i] of the input and [out] of the
    output; an index past the end is NULL. *)
Definition riscv_update_subset_version (i out : nat) (s : merge_state) : merge_state :=
  match nodes (in_subsets s) !! i, nodes (out_subsets s) !! out with
  | Some n, Some o =>
      with_out s (mk_subset_list (<[out := newer_version n o]> (nodes (out_subsets s)))
                    (tail (out_subsets s)) (arch_str (out_subsets s)))
  | _, _ => s
  end.

Definition riscv_i_or_e_p (subset : riscv_subset_t) (s : merge_state) : merge_state * bool :=
  let name := chars (sub_name subset) in
  if negb (strcasecmp name (chars "e") =? 0) && negb (strcasecmp name (chars "i") =? 0)
  then (link_report s [LM_first_letter (sub_name subset)], false)
  else (s, true).

Definition add_merged (n : riscv_subset_t) (s : merge_state) : merge_state :=
  with_merged s (riscv_add_subset (merged_subsets s) (sub_name n) (major_version n) (minor_version n)).

Definition standard_exts : list ascii := chars "mafdqlcbjtpvnh".

(** One round of the loop over [standard_exts]. *)
Definition merge_std_letter (s : merge_state) (p : ascii) : merge_state :=
  let find_ext := unchars [p] in
  let '(find_in, ext_in) := riscv_lookup_subset (in_subsets s) find_ext in
  let '(find_out, ext_out) := riscv_lookup_subset (out_subsets s) find_ext in
  if negb find_in && negb find_out then s
  else
    let s := match find_in && find_out, ext_in, ext_out with
             | true, Some i, Some o => riscv_update_subset_version i o s
             | _, _, _ => s
             end in
    match (if find_out then ext_out ≫= fun o => nodes (out_subsets s) !! o
           else ext_in ≫= fun i => nodes (in_subsets s) !! i) with
    | Some ext_merged => add_merged ext_merged s
    | None => s
    end.

(** [while (in != NULL && riscv_std_ext_p (in->name)) in = in->next]. *)
Fixpoint skip_std (ns : list riscv_subset_t) (i : nat) : nat :=
  match ns with
  | n :: ns => if riscv_std_ext_p (sub_name n) then skip_std ns (S i) else i
  | [] => i
  end.

(** [riscv_merge_std_ext] from the heads of both lists; the results are the
    pointers it leaves in [*pin] and [*pout]. *)
Definition riscv_merge_std_ext (s : merge_state) : option (merge_state * option (nat * nat)) :=
  match nodes (in_subsets s) !! 0%nat, nodes (out_subsets s) !! 0%nat with
  | Some n, Some o =>
      let '(s, ok) := riscv_i_or_e_p n s in
      if negb ok then Some (s, None)
      else
        let '(s, ok) := riscv_i_or_e_p o s in
        if negb ok then Some (s, None)
        else if negb (strcasecmp (chars (sub_name n)) (chars (sub_name o)) =? 0)
        then Some (link_report s [LM_isa_mismatch (sub_name n) (sub_name o)], None)
        else
          let s := riscv_update_subset_version 0 0 s in
          match nodes (out_subsets s) !! 0%nat with
          | None => None
          | Some o =>
              let s := foldl merge_std_letter (add_merged o s) standard_exts in
              Some (s, Some (skip_std (drop 1 (nodes (in_subsets s))) 1, skip_std (drop 1 (nodes (out_subsets s))) 1))
          end
  | _, _ => None
  end.

(** The loop over both tails, [out] from node [k] on, and the loop over what
    is left of one of them. *)
Fixpoint merge_multi_loop (i : list riscv_subset_t) : list riscv_subset_t -> nat -> merge_state -> merge_state :=
  fix inner (out : list riscv_subset_t) (k : nat) (s : merge_state) : merge_state :=
    match i, out with
    | [], out => foldl (fun s n => add_merged n s) s out
    | i, [] => foldl (fun s n => add_merged n s) s i
    | n :: i', o :: out' =>
        let cmp := riscv_compare_subsets (sub_name n) (sub_name o) in
        if cmp <? 0 then merge_multi_loop i' out k (add_merged n s)
        else if 0 <? cmp then inner out' (S k) (add_merged o s)
        else
          let o := newer_version n o in
          let s := with_out s (mk_subset_list (<[k := o]> (nodes (out_subsets s)))
                                 (tail (out_subsets s)) (arch_str (out_subsets s))) in
          merge_multi_loop i' out' (S k) (add_merged o s)
    end.

Definition riscv_merge_multi_letter_ext (pin pout : nat) (s : merge_state) : merge_state :=
  merge_multi_loop (drop pin (nodes (in_subsets s))) (drop pout (nodes (out_subsets s))) pout s.

(** The parser on the linker's settings: no default versions, and unknown
    extensions are let through. *)
Definition ld_rps (l : riscv_subset_list_t) : riscv_parse_subset_t :=
  mk_rps l [] 0 ISA_SPEC_CLASS_NONE false.

(** [riscv_merge_arch_attr_info]; the static lists are released only at the end. *)
Definition riscv_merge_arch_attr_info (arch_size : Z) (in_arch out_arch : option string) (s : merge_state)
  : option (merge_state * option string) :=
  let s := with_merged s (mk_subset_list [] None (arch_str (merged_subsets s))) in
  match in_arch, out_arch with
  | None, None => Some (s, None)
  | None, Some a | Some a, None => Some (s, Some a)
  | Some in_arch, Some out_arch =>
      let '(rps_in, ok) := riscv_parse_subset (ld_rps (in_subsets s)) (Some in_arch) in
      let s := link_report (with_in s (subset_list rps_in)) (map LM_parse (errors rps_in)) in
      if negb ok then Some (s, None)
      else
        let '(rps_out, ok) := riscv_parse_subset (ld_rps (out_subsets s)) (Some out_arch) in
        let s := link_report (with_out s (subset_list rps_out)) (map LM_parse (errors rps_out)) in
        if negb ok then Some (s, None)
        else if negb (rps_xlen rps_out =? rps_xlen rps_in) then Some (link_report s [LM_arch_mismatch], None)
        else
          match riscv_merge_std_ext s with
          | None => None
          | Some (s, None) => Some (s, None)
          | Some (s, Some (i, out)) =>
              let s := riscv_merge_multi_letter_ext i out s in
              if negb (rps_xlen rps_in =? rps_xlen rps_out)
              then Some (link_report s [LM_xlen_mismatch (rps_xlen rps_in) (rps_xlen rps_out)], None)
              else if negb (rps_xlen rps_in =? arch_size)
              then Some (link_report s [LM_unsupported_xlen (rps_xlen rps_in)], None)
              else
                let merged_arch_str := unchars (riscv_arch_str arch_size (merged_subsets s)) in
                Some (mk_merge (riscv_release_subset_list (in_subsets s)) (riscv_release_subset_list (out_subsets s))
                        (riscv_release_subset_list (merged_subsets s)) (messages s), Some merged_arch_str)
          end
  end.

(** ** Object attributes (bfd/elf-attrs.c) *)

Record obj_attribute : Set := mk_attr {
  attr_type : Z;
  attr_i : Z;
  attr_s : option string;
}.

(** The attributes of one vendor: the known tags as an array, the others in a
    list in the order of the tags. *)
Record vendor_attributes : Set := mk_vendor {
  known_obj_attributes : list obj_attribute;
  other_obj_attributes : list (Z * obj_attribute);
}.

(** The attributes of a file: those of the processor and those of "gnu". *)
Record obj_attributes : Set := mk_attributes {
  attrs_proc : vendor_attributes;
  attrs_gnu : vendor_attributes;
}.

Definition LEAST_KNOWN_OBJ_ATTRIBUTE : nat := 2.
Definition NUM_KNOWN_OBJ_ATTRIBUTES : nat := 77.
Definition Tag_compatibility : nat := 32.
Definition tag_stack_align : nat := 4.
Definition tag_arch : nat := 5.
Definition tag_unaligned_access : nat := 6.
Definition tag_priv_spec : nat := 8.
Definition tag_priv_spec_minor : nat := 10.
Definition tag_priv_spec_revision : nat := 12.

Definition ATTR_TYPE_FLAG_INT_VAL : Z := 1.
Definition ATTR_TYPE_FLAG_STR_VAL : Z := 2.

Definition no_attribute : obj_attribute := mk_attr 0 0 None.

(** [attr[tag]] of an array of [NUM_KNOWN_OBJ_ATTRIBUTES] attributes. *)
Definition attr_at (l : list obj_attribute) (tag : nat) : obj_attribute := default no_attribute (l !! tag).

Definition set_attr_i (l : list obj_attribute) (tag : nat) (i : Z) : list obj_attribute :=
  alter (fun a => mk_attr (attr_type a) i (attr_s a)) tag l.
Definition set_attr_s (l : list obj_attribute) (tag : nat) (s : option string) : list obj_attribute :=
  alter (fun a => mk_attr (attr_type a) (attr_i a) s) tag l.
Definition set_attr_type (l : list obj_attribute) (tag : nat) (t : Z) : list obj_attribute :=
  alter (fun a => mk_attr t (attr_i a) (attr_s a)) tag l.

Definition gnu_obj_attrs_arg_type (tag : Z) : Z :=
  if tag =? Z.of_nat Tag_compatibility then 3 else if negb (tag .& 1 =? 0) then 2 else 1.
Definition riscv_elf_obj_attrs_arg_type (tag : Z) : Z :=
  if negb (tag .& 1 =? 0) then ATTR_TYPE_FLAG_STR_VAL else ATTR_TYPE_FLAG_INT_VAL.

(** The list of [elf_new_obj_attr]: behind the tags that are not greater. *)
Fixpoint new_other_attribute (tag : Z) (a : obj_attribute) (l : list (Z * obj_attribute)) : list (Z * obj_attribute) :=
  match l with
  | [] => [(tag, a)]
  | p :: l' => if tag <? fst p then (tag, a) :: l else p :: new_other_attribute tag a l'
  end.

(** [elf_new_obj_attr] and what its callers store: [i] and [s] if given. *)
Definition add_obj_attr (arg_type : Z -> Z) (tag : Z) (i : option Z) (s : option string) (v : vendor_attributes)
  : vendor_attributes :=
  let fill a := mk_attr (arg_type tag) (default (attr_i a) i) (match s with Some _ => s | None => attr_s a end) in
  if tag <? Z.of_nat NUM_KNOWN_OBJ_ATTRIBUTES
  then mk_vendor (alter fill (Z.to_nat tag) (known_obj_attributes v)) (other_obj_attributes v)
  else mk_vendor (known_obj_attributes v) (new_other_attribute tag (fill no_attribute) (other_obj_attributes v)).

(** The loop over the other attributes in [_bfd_elf_copy_obj_attributes]. *)
Fixpoint copy_other_attributes (arg_type : Z -> Z) (l : list (Z * obj_attribute)) (v : vendor_attributes)
  : option vendor_attributes :=
  match l with
  | [] => Some v
  | (tag, a) :: l =>
      let int := negb (attr_type a .& ATTR_TYPE_FLAG_INT_VAL =? 0) in
      let str := negb (attr_type a .& ATTR_TYPE_FLAG_STR_VAL =? 0) in
      if negb int && negb str then None
      else match str, attr_s a with
           | true, None => None
           | _, _ => copy_other_attributes arg_type l
                       (add_obj_attr arg_type tag (if int then Some (attr_i a) else None) (if str then attr_s a else None) v)
           end
  end.

Definition copy_attribute (a o : obj_attribute) : obj_attribute :=
  mk_attr (attr_type a) (attr_i a)
    (match attr_s a with Some s => if String.eqb s "" then attr_s o else Some s | None => attr_s o end).

Definition copy_vendor (arg_type : Z -> Z) (i o : vendor_attributes) : option vendor_attributes :=
  copy_other_attributes arg_type (other_obj_attributes i)
    (mk_vendor (take LEAST_KNOWN_OBJ_ATTRIBUTE (known_obj_attributes o)
                ++ zip_with copy_attribute (drop LEAST_KNOWN_OBJ_ATTRIBUTE (known_obj_attributes i))
                     (drop LEAST_KNOWN_OBJ_ATTRIBUTE (known_obj_attributes o)))
       (other_obj_attributes o)).

Definition _bfd_elf_copy_obj_attributes (i o : obj_attributes) : option obj_attributes :=
  match copy_vendor riscv_elf_obj_attrs_arg_type (attrs_proc i) (attrs_proc o),
        copy_vendor gnu_obj_attrs_arg_type (attrs_gnu i) (attrs_gnu o) with
  | Some p, Some g => Some (mk_attributes p g)
  | _, _ => None
  end.

(** Tag_compatibility of one vendor in [_bfd_elf_merge_object_attributes]:
    [None] for a comparison with a null string. *)
Definition merge_compatibility (a o : obj_attribute) (s : merge_state) : option (merge_state * bool) :=
  let clash := Some (link_report s [LM_compatibility (attr_i a) (attr_i o)], false) in
  match (0 <? attr_i a), attr_s a with
  | true, None => None
  | true, Some v =>
      if negb (String.eqb v "gnu") then Some (link_report s [LM_vendor v], false)
      else if negb (attr_i a =? attr_i o) then clash
      else match attr_s o with
           | None => None
           | Some w => if String.eqb v w then Some (s, true) else clash
           end
  | false, _ => if negb (attr_i a =? attr_i o) then clash else Some (s, true)
  end.

Definition _bfd_elf_merge_object_attributes (i o : obj_attributes) (s : merge_state) : option (merge_state * bool) :=
  let tag v := attr_at (known_obj_attributes v) Tag_compatibility in
  match merge_compatibility (tag (attrs_proc i)) (tag (attrs_proc o)) s with
  | Some (s, true) => merge_compatibility (tag (attrs_gnu i)) (tag (attrs_gnu o)) s
  | r => r
  end.

(** Whether two values of an unknown attribute are the same. *)
Definition same_value (a o : obj_attribute) : bool :=
  (attr_i a =? attr_i o)
  && match attr_s a, attr_s o with
     | None, None => true
     | Some v, Some w => String.eqb v w
     | _, _ => false
     end.

Definition is_set (a : obj_attribute) : bool :=
  negb (attr_i a =? 0) || match attr_s a with Some _ => true | None => false end.

(** The hook of the backend for an unknown attribute; whether the file is the
    output and the tag. *)
Definition unknown_hook : Type := option (bool -> Z -> bool).

Definition call_hook (hook : unknown_hook) (output : bool) (tag : Z) : option bool :=
  match hook with Some f => Some (f output tag) | None => None end.

(** [_bfd_elf_merge_unknown_attribute_low] on the known attributes. *)
Definition _bfd_elf_merge_unknown_attribute_low (hook : unknown_hook) (i o : list obj_attribute) (tag : nat)
  : option (list obj_attribute * bool) :=
  match (if is_set (attr_at o tag) then call_hook hook true (Z.of_nat tag)
         else if is_set (attr_at i tag) then call_hook hook false (Z.of_nat tag)
         else Some true) with
  | None => None
  | Some result =>
      Some (if same_value (attr_at i tag) (attr_at o tag) then o
            else set_attr_s (set_attr_i o tag 0) tag None, result)
  end.

(** [_bfd_elf_merge_unknown_attribute_list]: both lists are in the order of the
    tags; the result list is what is kept. *)
Fixpoint merge_other_attributes (hook : unknown_hook) (fuel : nat) (i o : list (Z * obj_attribute)) (result : bool)
  : option (list (Z * obj_attribute) * bool) :=
  let call output tag k :=
    if result then match call_hook hook output tag with Some r => k r | None => None end else k false in
  match fuel with
  | O => None
  | S fuel =>
      match i, o with
      | [], [] => Some ([], result)
      | [], (t, _) :: o' => call true t (fun r => merge_other_attributes hook fuel i o' r)
      | (t, _) :: i', [] => call false t (fun r => merge_other_attributes hook fuel i' o r)
      | (t, a) :: i', (u, b) :: o' =>
          if u <? t then call true u (fun r => merge_other_attributes hook fuel i o' r)
          else if t <? u then call false t (fun r => merge_other_attributes hook fuel i' o r)
          else if same_value a b
          then call true u (fun r => match merge_other_attributes hook fuel i' o' r with
                                     | Some (l, r) => Some ((u, b) :: l, r)
                                     | None => None
                                     end)
          else call true u (fun r => merge_other_attributes hook fuel i o' r)
      end
  end.

Definition _bfd_elf_merge_unknown_attribute_list (hook : unknown_hook) (i o : list (Z * obj_attribute))
  : option (list (Z * obj_attribute) * bool) :=
  merge_other_attributes hook (S (length i + length o)) i o true.

(** ** The RISC-V attributes *)

(** The backend sets no hook for unknown attributes (elfxx-target.h). *)
Definition obj_attrs_handle_unknown : unknown_hook := None.

(** What the loop over the tags carries: [out_attr], [result] and
    [priv_attrs_merged]. *)
Record tag_loop : Set := mk_tag_loop {
  tl_out : list obj_attribute;
  tl_result : bool;
  tl_priv_merged : bool;
}.

Definition merge_arch_tag (arch_size : Z) (i : list obj_attribute) (s : merge_state) (t : tag_loop)
  : option (merge_state * tag_loop) :=
  let set v := mk_tag_loop (set_attr_s (tl_out t) tag_arch v) (tl_result t) (tl_priv_merged t) in
  match attr_s (attr_at (tl_out t) tag_arch), attr_s (attr_at i tag_arch) with
  | None, a => Some (s, set a)
  | Some _, None => Some (s, t)
  | Some out_arch, Some in_arch =>
      match riscv_merge_arch_attr_info arch_size (Some in_arch) (Some out_arch) s with
      | None => None
      | Some (s, None) => Some (s, mk_tag_loop (set_attr_s (tl_out t) tag_arch (Some ""%string)) false (tl_priv_merged t))
      | Some (s, Some merged_arch) => Some (s, set (Some merged_arch))
      end
  end.

Definition priv_class (l : list obj_attribute) : riscv_spec_class :=
  riscv_get_priv_spec_class_from_numbers (attr_i (attr_at l tag_priv_spec)) (attr_i (attr_at l tag_priv_spec_minor))
    (attr_i (attr_at l tag_priv_spec_revision)) PRIV_SPEC_CLASS_NONE.

Definition merge_priv_tags (i : list obj_attribute) (s : merge_state) (t : tag_loop) : merge_state * tag_loop :=
  if tl_priv_merged t then (s, t)
  else
    let in_priv_spec := priv_class i in
    let out_priv_spec := priv_class (tl_out t) in
    let copy := foldl (fun l tag => set_attr_i l tag (attr_i (attr_at i tag))) (tl_out t)
                  [tag_priv_spec; tag_priv_spec_minor; tag_priv_spec_revision] in
    let done_with l := mk_tag_loop l (tl_result t) true in
    if bool_decide (out_priv_spec = PRIV_SPEC_CLASS_NONE) then (s, done_with copy)
    else if negb (bool_decide (in_priv_spec = PRIV_SPEC_CLASS_NONE))
            && negb (bool_decide (in_priv_spec = out_priv_spec))
    then
      let old := bool_decide (in_priv_spec = PRIV_SPEC_CLASS_1P9P1) || bool_decide (out_priv_spec = PRIV_SPEC_CLASS_1P9P1) in
      (link_report s (LM_priv_spec :: if old then [LM_priv_spec_1p9p1] else []),
       done_with (if spec_value out_priv_spec <? spec_value in_priv_spec then copy else tl_out t))
    else (s, done_with (tl_out t)).

Definition merge_stack_align (i : list obj_attribute) (s : merge_state) (t : tag_loop) : merge_state * tag_loop :=
  let a := attr_i (attr_at i tag_stack_align) in
  let o := attr_i (attr_at (tl_out t) tag_stack_align) in
  if o =? 0 then (s, mk_tag_loop (set_attr_i (tl_out t) tag_stack_align a) (tl_result t) (tl_priv_merged t))
  else if negb (a =? 0) && negb (o =? a)
  then (link_report s [LM_stack_align a o], mk_tag_loop (tl_out t) false (tl_priv_merged t))
  else (s, t).

(** One round of the loop over the known tags. *)
Definition merge_tag (arch_size : Z) (i : list obj_attribute) (tag : nat) (st : option (merge_state * tag_loop))
  : option (merge_state * tag_loop) :=
  match st with
  | None => None
  | Some (s, t) =>
      match (if (tag =? tag_arch)%nat then merge_arch_tag arch_size i s t
             else if (tag =? tag_priv_spec)%nat || (tag =? tag_priv_spec_minor)%nat || (tag =? tag_priv_spec_revision)%nat
             then Some (merge_priv_tags i s t)
             else if (tag =? tag_unaligned_access)%nat
             then Some (s, mk_tag_loop (set_attr_i (tl_out t) tag (attr_i (attr_at (tl_out t) tag) .| attr_i (attr_at i tag)))
                             (tl_result t) (tl_priv_merged t))
             else if (tag =? tag_stack_align)%nat then Some (merge_stack_align i s t)
             else match _bfd_elf_merge_unknown_attribute_low obj_attrs_handle_unknown i (tl_out t) tag with
                  | None => None
                  | Some (l, r) => Some (s, mk_tag_loop l (tl_result t && r) (tl_priv_merged t))
                  end) with
      | None => None
      | Some (s, t) =>
          Some (s, if negb (attr_type (attr_at i tag) =? 0) && (attr_type (attr_at (tl_out t) tag) =? 0)
                   then mk_tag_loop (set_attr_type (tl_out t) tag (attr_type (attr_at i tag))) (tl_result t) (tl_priv_merged t)
                   else t)
      end
  end.

Definition with_proc (o : obj_attributes) (l : list obj_attribute) : obj_attributes :=
  mk_attributes (mk_vendor l (other_obj_attributes (attrs_proc o))) (attrs_gnu o).

(** [riscv_merge_attributes]; [linker_created] and [has_section] are its first
    two guards. *)
Definition riscv_merge_attributes (arch_size : Z) (linker_created has_section : bool) (i o : obj_attributes)
    (s : merge_state) : option (merge_state * obj_attributes * bool) :=
  if linker_created then Some (s, o, true)
  else if negb has_section then Some (s, o, true)
  else if attr_i (attr_at (known_obj_attributes (attrs_proc o)) 0) =? 0 then
    match _bfd_elf_copy_obj_attributes i o with
    | None => None
    | Some o => Some (s, with_proc o (set_attr_i (known_obj_attributes (attrs_proc o)) 0 1), true)
    end
  else
    let in_attr := known_obj_attributes (attrs_proc i) in
    let tags := seq LEAST_KNOWN_OBJ_ATTRIBUTE (NUM_KNOWN_OBJ_ATTRIBUTES - LEAST_KNOWN_OBJ_ATTRIBUTE) in
    match foldl (fun st tag => merge_tag arch_size in_attr tag st)
            (Some (s, mk_tag_loop (known_obj_attributes (attrs_proc o)) true false)) tags with
    | None => None
    | Some (s, t) =>
        let o := with_proc o (tl_out t) in
        match _bfd_elf_merge_object_attributes i o s with
        | None => None
        | Some (s, false) => Some (s, o, false)
        | Some (s, true) =>
            match _bfd_elf_merge_unknown_attribute_list obj_attrs_handle_unknown
                    (other_obj_attributes (attrs_proc i)) (other_obj_attributes (attrs_proc o)) with
            | None => None
            | Some (l, r) =>
                Some (s, mk_attributes (mk_vendor (known_obj_attributes (attrs_proc o)) l) (attrs_gnu o), tl_result t && r)
            end
        end
    end.

(** ** The ELF header *)

Definition EF_RISCV_FLOAT_ABI_SOFT : Z := 0x0000.
Definition EF_RISCV_FLOAT_ABI_SINGLE : Z := 0x0002.
Definition EF_RISCV_FLOAT_ABI_DOUBLE : Z := 0x0004.
Definition EF_RISCV_FLOAT_ABI_QUAD : Z := 0x0006.

Definition SEC_LOAD : Z := 0x2.
Definition SEC_CODE : Z := 0x10.
Definition SEC_HAS_CONTENTS : Z := 0x100.

Definition riscv_float_abi_string (flags : Z) : option string :=
  let abi := flags .& EF_RISCV_FLOAT_ABI in
  if abi =? EF_RISCV_FLOAT_ABI_SOFT then Some "soft-float"%string
  else if abi =? EF_RISCV_FLOAT_ABI_SINGLE then Some "single-float"%string
  else if abi =? EF_RISCV_FLOAT_ABI_DOUBLE then Some "double-float"%string
  else if abi =? EF_RISCV_FLOAT_ABI_QUAD then Some "quad-float"%string
  else None.

(** An input file and the output file of the link. *)
Record input_bfd : Set := mk_input {
  ib_riscv_elf : bool;
  ib_target : string;
  ib_linker_created : bool;
  ib_dynamic : bool;
  ib_has_attributes : bool;
  ib_attributes : obj_attributes;
  ib_sections : list Z;      (* the flags of its sections *)
  ib_e_flags : Z;
}.

Record output_bfd : Set := mk_output {
  ob_riscv_elf : bool;
  ob_target : string;
  ob_attributes : obj_attributes;
  ob_flags_init : bool;
  ob_e_flags : Z;
}.

Definition with_attributes (o : output_bfd) (a : obj_attributes) : output_bfd :=
  mk_output (ob_riscv_elf o) (ob_target o) a (ob_flags_init o) (ob_e_flags o).
Definition with_e_flags (o : output_bfd) (flags : Z) : output_bfd :=
  mk_output (ob_riscv_elf o) (ob_target o) (ob_attributes o) true flags.

(** The loop over the sections: no section at all, or none with code. *)
Definition no_code (sections : list Z) : bool :=
  let mask := SEC_LOAD .| SEC_CODE .| SEC_HAS_CONTENTS in
  negb (existsb (fun flags => (flags .& mask) =? mask) sections).

(** The end of [_bfd_riscv_elf_merge_private_bfd_data]: the flags. *)
Definition merge_e_flags (new_flags : Z) (o : output_bfd) (s : merge_state) : option (merge_state * output_bfd * bool) :=
  let old_flags := ob_e_flags o in
  if negb (ob_flags_init o) then Some (s, with_e_flags o new_flags, true)
  else if negb (Z.lxor old_flags new_flags .& EF_RISCV_FLOAT_ABI =? 0) then
    match riscv_float_abi_string new_flags, riscv_float_abi_string old_flags with
    | Some a, Some b => Some (link_report s [LM_float_abi a b], o, false)
    | _, _ => None
    end
  else if negb (Z.lxor old_flags new_flags .& EF_RISCV_RVE =? 0) then Some (link_report s [LM_rve], o, false)
  else
    let flags := old_flags .| (new_flags .& EF_RISCV_RVC) in
    Some (s, with_e_flags o (flags .| (new_flags .& EF_RISCV_TSO)), true).

Definition _bfd_riscv_elf_merge_private_bfd_data (arch_size : Z) (i : input_bfd) (o : output_bfd) (s : merge_state)
  : option (merge_state * output_bfd * bool) :=
  if negb (ib_riscv_elf i) || negb (ob_riscv_elf o) then Some (s, o, true)
  else if negb (String.eqb (ib_target i) (ob_target o)) then Some (link_report s [LM_target], o, false)
  else
    match _bfd_elf_merge_object_attributes (ib_attributes i) (ob_attributes o) s with
    | None => None
    | Some (s, false) => Some (s, o, false)
    | Some (s, true) =>
        match riscv_merge_attributes arch_size (ib_linker_created i) (ib_has_attributes i)
                (ib_attributes i) (ob_attributes o) s with
        | None => None
        | Some (s, a, false) => Some (s, with_attributes o a, false)
        | Some (s, a, true) =>
            let o := with_attributes o a in
            if negb (ib_dynamic i) && no_code (ib_sections i) then Some (s, o, true)
            else merge_e_flags (ib_e_flags i) o s
        end
    end.
