(* ===== verification/LinkMergeSpec.v ===== *)
(** * Properties of merged ISA strings

    The merged ISA string holds the extensions of both files at the newer
    versions, and where the merge goes wrong. *)
From Stdlib Require Import ZArith Bool Ascii Lia Sorted.
From stdpp Require Import base list strings gmap.
From S2P Require Import Prelude RiscvH SubsetTables Subset SubsetOrder SubsetSpec SubsetParse SubsetPrint Options LinkMerge.

#[local] Open Scope Z_scope.

(** ** Specification: the merged map *)

(** The version of the output after it was compared to the input's. *)
Definition newest (i out : Z * Z) : Z * Z :=
  if (out.1 <? i.1) || (i.1 =? out.1) && (out.2 <? i.2) || (out.1 =? RISCV_UNKNOWN_VERSION) then i else out.

Definition merge_version (i out : option (Z * Z)) : option (Z * Z) :=
  match i, out with
  | Some v, Some w => Some (newest v w)
  | Some v, None | None, Some v => Some v
  | None, None => None
  end.

Definition std_names : list string := map (fun c => unchars [c]) standard_exts.

(** The names the merge passes on: the base, the prefixed extensions and the
    letters of [standard_exts]. *)
Definition kept (base s : string) : bool :=
  bool_decide (s = base) || negb (riscv_std_ext_p s) || bool_decide (s ∈ std_names).

(** ** Single letters come first *)

Lemma std_single s : ok_ext s = true -> riscv_std_ext_p s = bool_decide (riscv_get_prefix_class (chars s) = RV_ISA_CLASS_SINGLE).
Proof.
  unfold ok_ext, riscv_std_ext_p. cbv zeta. generalize (chars s). intros p.
  destruct (decide (riscv_get_prefix_class p = RV_ISA_CLASS_SINGLE)) as [E|E].
  - rewrite E, andb_true_iff, Z.gtb_lt. intros [Ho ->]. rewrite bool_decide_eq_true_2 by done. cbn [andb].
    destruct (Ascii.eqb_spec (head_char p) "x") as [Ex|_]; [rewrite Ex in Ho; by vm_compute in Ho|].
    destruct (Ascii.eqb_spec (head_char p) "s") as [Es|_]; [rewrite Es in Ho; by vm_compute in Ho|]. done.
  - rewrite bool_decide_eq_false_2 by done. intros Hok. pose proof (prefix_class_letter p E) as Hp.
    destruct (Nat.eqb_spec (length p) 1) as [Hl|]; [|done]. cbn [andb].
    rewrite Hp in Hl. cbn [length] in Hl. assert (En : next_char p = []) by (by apply nil_length_inv; lia).
    rewrite En in Hp. destruct (riscv_get_prefix_class p) eqn:Ec; cbn [class_letter] in Hp; try done;
      rewrite Hp in Ec, Hok |- *; vm_compute in Ec; try done; by vm_compute in Hok.
Qed.

Lemma std_before s t : ok_ext s = true -> ok_ext t = true -> riscv_std_ext_p s = true -> riscv_std_ext_p t = false -> ext_lt s t.
Proof.
  intros Hs Ht. rewrite !std_single, bool_decide_eq_true, bool_decide_eq_false by done. intros Es Et.
  unfold ext_lt, ext_key. rewrite Es. pose proof (riscv_ext_order_range (head_char (chars s))) as Hr.
  destruct (riscv_get_prefix_class (chars t)); try done; cbn [lex class_value];
    destruct (Z.compare_spec (riscv_ext_order (head_char (chars s))) 101) as [| |]; try lia; try done;
    match goal with |- context [?x ?= ?y] => destruct (Z.compare_spec x y); try lia; done end.
Qed.

(** ** Nodes and the map *)

Lemma exts_of_elem ns x v :
  StronglySorted node_lt ns ->
  exts_of ns !! x = Some v <-> exists n, n ∈ ns /\ sub_name n = x /\ v = (major_version n, minor_version n).
Proof.
  intros Hs. unfold exts_of. rewrite <- elem_of_list_to_map by (by apply sorted_names_NoDup).
  rewrite list_elem_of_fmap. split.
  - intros (n & E & Hn). injection E as -> ->. by exists n.
  - intros (n & Hn & <- & ->). by exists n.
Qed.

Lemma exts_of_None ns x : exts_of ns !! x = None <-> Forall (fun n => sub_name n <> x) ns.
Proof.
  split; [|apply exts_of_lookup_None]. intros H. apply Forall_forall. intros n Hn E. subst x.
  unfold exts_of in H. apply not_elem_of_list_to_map_2 in H. apply H. rewrite <- list_fmap_compose.
  apply list_elem_of_fmap. by exists n.
Qed.

Lemma sorted_names ns ns' : map sub_name ns' = map sub_name ns -> StronglySorted node_lt ns -> StronglySorted node_lt ns'.
Proof.
  revert ns'. induction ns as [|n ns IH]; intros [|n' ns'] E Hs; try done.
  cbn [map] in E. injection E as E1 E2. inversion Hs as [|? ? Hs' Hn]; subst. constructor; [by apply IH|].
  clear -E1 E2 Hn. revert ns' E2. induction ns as [|m ns IH]; intros [|m' ns'] E2; try done.
  cbn [map] in E2. injection E2 as E3 E4. inversion Hn as [|? ? Hm Hn']; subst.
  constructor; [|by apply IH]. unfold node_lt in *. by rewrite E1, E3.
Qed.

Lemma wf_names l l' :
  map sub_name (nodes l') = map sub_name (nodes l) -> tail l' = tail l -> subset_list_wf l -> subset_list_wf l'.
Proof.
  intros E Et [H1 H2 H3].
  assert (El : length (nodes l') = length (nodes l)) by (rewrite <- !(length_map sub_name); by rewrite E).
  constructor; [|by eapply sorted_names|].
  - apply Forall_forall. intros n Hn. unfold node_ok.
    assert (Hin : In (sub_name n) (map sub_name (nodes l))) by (rewrite <- E; apply in_map; by apply list_elem_of_In).
    apply in_map_iff in Hin as (m & <- & Hm). rewrite Forall_forall in H1. apply H1. by apply list_elem_of_In.
  - rewrite Et, H3. unfold last_index. by rewrite El.
Qed.

(** A node gets other versions. *)
Definition set_node (l : riscv_subset_list_t) (k : nat) (n : riscv_subset_t) : riscv_subset_list_t :=
  mk_subset_list (<[k := n]> (nodes l)) (tail l) (arch_str l).

Lemma set_node_names l k o o' :
  nodes l !! k = Some o -> sub_name o' = sub_name o -> map sub_name (nodes (set_node l k o')) = map sub_name (nodes l).
Proof.
  intros Hk E. cbn [set_node nodes]. change (map sub_name ?l) with (sub_name <$> l).
  rewrite list_fmap_insert, E. apply list_insert_id. by rewrite list_lookup_fmap, Hk.
Qed.

Lemma set_node_exts l k o o' :
  subset_list_wf l -> nodes l !! k = Some o -> sub_name o' = sub_name o ->
  exts (set_node l k o') = <[sub_name o := (major_version o', minor_version o')]> (exts l).
Proof.
  intros Hwf Hk E. pose proof (set_node_names l k o o' Hk E) as En.
  assert (Hwf' : subset_list_wf (set_node l k o')) by (by eapply wf_names).
  assert (Hkl : (k < length (nodes l))%nat) by (by eapply lookup_lt_Some).
  assert (Hk' : nodes (set_node l k o') !! k = Some o') by (cbn [set_node nodes]; by apply list_lookup_insert_eq).
  apply map_eq. intros x. destruct (decide (x = sub_name o)) as [->|Hne].
  - rewrite lookup_insert_eq. rewrite <- E. unfold exts. eapply exts_of_lookup; [apply Hwf'|exact Hk'].
  - rewrite lookup_insert_ne by done. apply option_eq. intros v. unfold exts. rewrite !exts_of_elem by (apply Hwf || apply Hwf').
    split; intros (n & Hn & Ex & Ev); exists n; (split; [|done]); apply list_elem_of_lookup in Hn as [j Hj].
    + cbn [set_node nodes] in Hj. destruct (decide (j = k)) as [->|Hjk].
      * rewrite list_lookup_insert_eq in Hj by done. exfalso. apply Hne. congruence.
      * rewrite list_lookup_insert_ne in Hj by done. by eapply list_elem_of_lookup_2.
    + destruct (decide (j = k)) as [->|Hjk]; [exfalso; apply Hne; congruence|].
      apply (list_elem_of_lookup_2 _ j). cbn [set_node nodes]. by rewrite list_lookup_insert_ne.
Qed.

Lemma newer_version_name n o : sub_name (newer_version n o) = sub_name o.
Proof. unfold newer_version. by destruct (_ || _). Qed.

Lemma newer_version_newest n o :
  (major_version (newer_version n o), minor_version (newer_version n o))
  = newest (major_version n, minor_version n) (major_version o, minor_version o).
Proof. unfold newer_version, newest. cbn [fst snd]. by destruct (_ || _). Qed.

Lemma add_merged_spec n s :
  subset_list_wf (merged_subsets s) -> node_ok n -> exts (merged_subsets s) !! sub_name n = None ->
  exists l, add_merged n s = with_merged s l /\ subset_list_wf l /\
    exts l = <[sub_name n := (major_version n, minor_version n)]> (exts (merged_subsets s)).
Proof.
  intros Hwf Hn Hnone. eexists. split; [reflexivity|]. split; [by apply riscv_add_subset_wf|].
  rewrite riscv_add_subset_exts by done. by rewrite Hnone.
Qed.

(** ** The loop over the standard letters *)

Section std.

Context (in0 out0 : riscv_subset_list_t) (log : list merge_message).
Context (Win : subset_list_wf in0) (Wout : subset_list_wf out0).

Abbreviation versions x := (merge_version (exts in0 !! x) (exts out0 !! x)).

(** The state when the names [passed] are merged. *)
Record std_inv (passed : list string) (s : merge_state) : Prop := {
  si_in : in_subsets s = in0;
  si_out : subset_list_wf (out_subsets s);
  si_names : map sub_name (nodes (out_subsets s)) = map sub_name (nodes out0);
  si_left : forall x, x ∉ passed -> exts (out_subsets s) !! x = exts out0 !! x;
  si_merged : subset_list_wf (merged_subsets s);
  si_exts : forall x, exts (merged_subsets s) !! x = if bool_decide (x ∈ passed) then versions x else None;
  si_log : messages s = log;
}.

Lemma passed_lookup x passed p (m : gmap string (Z * Z)) v :
  (forall y, m !! y = if bool_decide (y ∈ passed) then versions y else None) -> p ∉ passed -> versions p = v ->
  (match v with Some w => <[p := w]> m | None => m end) !! x = if bool_decide (x ∈ passed ++ [p]) then versions x else None.
Proof.
  intros Hm Hp Hv. destruct (decide (x = p)) as [->|Hne].
  - rewrite bool_decide_eq_true_2 by (apply elem_of_app; right; by left). rewrite Hv.
    destruct v as [w|]; [by rewrite lookup_insert_eq|]. rewrite Hm. by rewrite bool_decide_eq_false_2.
  - assert (Eb : bool_decide (x ∈ passed ++ [p]) = bool_decide (x ∈ passed)).
    { apply bool_decide_ext. rewrite elem_of_app, list_elem_of_singleton. tauto. }
    rewrite Eb, <- Hm. destruct v; [by rewrite lookup_insert_ne|done].
Qed.

(** Merging the node [o] that carries the versions of [p]. *)
Lemma std_inv_add passed s p o :
  std_inv passed s -> p ∉ passed -> node_ok o -> sub_name o = p ->
  versions p = Some (major_version o, minor_version o) ->
  forall l, subset_list_wf l -> map sub_name (nodes l) = map sub_name (nodes out0) ->
  (forall x, x ∉ passed -> x <> p -> exts l !! x = exts out0 !! x) ->
  std_inv (passed ++ [p]) (add_merged o (with_out s l)).
Proof.
  intros [H1 H2 H3 H4 H5 H6 H7] Hp Ho <- Hv l Hl Hn Hx.
  destruct (add_merged_spec o (with_out s l)) as (m & -> & Hm & Em); [done|done| |].
  { cbn [with_out merged_subsets]. rewrite H6. by rewrite bool_decide_eq_false_2. }
  constructor; cbn [with_merged with_out in_subsets out_subsets merged_subsets messages]; try done.
  - intros x Hxp. rewrite elem_of_app, list_elem_of_singleton in Hxp. apply Hx; tauto.
  - intros x. rewrite Em. cbn [with_out merged_subsets].
    exact (passed_lookup x passed (sub_name o) _ (Some (major_version o, minor_version o)) H6 Hp Hv).
Qed.

Lemma merge_std_letter_inv passed s p :
  std_inv passed s -> ok_ext (unchars [p]) = true -> unchars [p] ∉ passed ->
  std_inv (passed ++ [unchars [p]]) (merge_std_letter s p).
Proof.
  intros Hs Hok Hp. pose proof Hs as [H1 H2 H3 H4 H5 H6 H7]. set (x := unchars [p]) in *.
  pose proof (riscv_lookup_subset_exts (in_subsets s) x ltac:(by rewrite H1) Hok) as Fi.
  pose proof (riscv_lookup_subset_exts (out_subsets s) x H2 Hok) as Fo.
  assert (Ki : (riscv_lookup_subset (in_subsets s) x).1 = true -> exists k n,
    riscv_lookup_subset (in_subsets s) x = (true, Some k) /\ nodes (in_subsets s) !! k = Some n /\
    sub_name n = x /\ exts (in_subsets s) !! x = Some (major_version n, minor_version n))
    by (apply riscv_lookup_subset_found; [by rewrite H1|done]).
  pose proof (riscv_lookup_subset_found (out_subsets s) x H2 Hok) as Ko.
  unfold merge_std_letter. fold x. rewrite (H4 x Hp) in Fo, Ko. rewrite H1 in *.
  assert (Eid : with_out s (out_subsets s) = s) by (by destruct s).
  destruct (riscv_lookup_subset in0 x) as [fi ei]. destruct (riscv_lookup_subset (out_subsets s) x) as [fo eo].
  cbn [fst] in Fi, Fo, Ki, Ko. destruct fi, fo; cbn [negb andb].
  - destruct (Ki eq_refl) as (i & n & Ei & Hn & En & Vi). destruct (Ko eq_refl) as (o & m & Eo & Hm & Em & Vo).
    injection Ei as ->. injection Eo as ->. unfold riscv_update_subset_version. rewrite H1, Hn, Hm.
    fold (set_node (out_subsets s) o (newer_version n m)).
    change (nodes (out_subsets (with_out s (set_node (out_subsets s) o (newer_version n m)))))
      with (nodes (set_node (out_subsets s) o (newer_version n m))).
    cbn [set_node nodes mbind option_bind]. rewrite list_lookup_insert_eq by (by eapply lookup_lt_Some).
    assert (Nn : sub_name (newer_version n m) = x) by (by rewrite newer_version_name).
    apply std_inv_add; try done.
    + unfold node_ok. by rewrite Nn.
    + rewrite Vi, Vo. cbn [merge_version]. by rewrite newer_version_newest.
    + apply (wf_names (out_subsets s)); [|done|exact H2]. apply (set_node_names _ o m); [done|by rewrite newer_version_name].
    + rewrite <- H3. apply (set_node_names _ o m); [done|by rewrite newer_version_name].
    + intros y Hy Hyx. change (mk_subset_list _ _ _) with (set_node (out_subsets s) o (newer_version n m)).
      rewrite (set_node_exts _ o m) by (done || by rewrite newer_version_name).
      rewrite lookup_insert_ne by congruence. by apply H4.
  - destruct (Ki eq_refl) as (i & n & Ei & Hn & En & Vi). injection Ei as ->. cbn [mbind option_bind]. rewrite H1, Hn.
    rewrite <- Eid. symmetry in Fo. apply bool_decide_eq_false in Fo. rewrite <- eq_None_not_Some in Fo.
    apply std_inv_add; try done; [by unfold node_ok; rewrite En|rewrite Vi, Fo; done|intros y Hy _; by apply H4].
  - destruct (Ko eq_refl) as (o & m & Eo & Hm & Em & Vo). injection Eo as ->. cbn [mbind option_bind]. rewrite Hm.
    rewrite <- Eid. symmetry in Fi. apply bool_decide_eq_false in Fi. rewrite <- eq_None_not_Some in Fi.
    apply std_inv_add; try done; [by unfold node_ok; rewrite Em|rewrite Vo, Fi; done|intros y Hy _; by apply H4].
  - symmetry in Fi, Fo. apply bool_decide_eq_false in Fi, Fo. rewrite <- eq_None_not_Some in Fi, Fo.
    constructor; try done.
    + intros y Hy. apply H4. rewrite elem_of_app in Hy. tauto.
    + intros y. apply (passed_lookup y passed x (exts (merged_subsets s)) None H6 Hp). by rewrite Fi, Fo.
Qed.

Lemma merge_std_letters ps : forall passed s,
  std_inv passed s -> Forall (fun p => ok_ext (unchars [p]) = true) ps ->
  NoDup (passed ++ map (fun p => unchars [p]) ps) ->
  std_inv (passed ++ map (fun p => unchars [p]) ps) (foldl merge_std_letter s ps).
Proof.
  induction ps as [|p ps IH]; intros passed s Hs Hok Hnd; cbn [map foldl]; [by rewrite app_nil_r|].
  inversion Hok as [|? ? Hp Hps]; subst. cbn [map] in Hnd.
  replace (passed ++ unchars [p] :: map (fun p => unchars [p]) ps)
    with ((passed ++ [unchars [p]]) ++ map (fun p => unchars [p]) ps) in * by (by rewrite <- app_assoc).
  apply IH; [|done|done]. apply merge_std_letter_inv; [done|done|].
  rewrite <- app_assoc in Hnd. apply NoDup_app in Hnd as (_ & Hnd & _). intros Hin. apply (Hnd _ Hin). by left.
Qed.

End std.

(** ** The loop over the prefixed names *)

Lemma merge_multi_nil_l out k s : merge_multi_loop [] out k s = foldl (fun s n => add_merged n s) s out.
Proof. by destruct out. Qed.

Lemma merge_multi_nil_r i k s : merge_multi_loop i [] k s = foldl (fun s n => add_merged n s) s i.
Proof. by destruct i. Qed.

Lemma merge_multi_cons n i o out k s :
  merge_multi_loop (n :: i) (o :: out) k s
  = let cmp := riscv_compare_subsets (sub_name n) (sub_name o) in
    if cmp <? 0 then merge_multi_loop i (o :: out) k (add_merged n s)
    else if 0 <? cmp then merge_multi_loop (n :: i) out (S k) (add_merged o s)
    else merge_multi_loop i out (S k) (add_merged (newer_version n o) (with_out s (set_node (out_subsets s) k (newer_version n o)))).
Proof. done. Qed.

Lemma exts_of_cons n ns : exts_of (n :: ns) = <[sub_name n := (major_version n, minor_version n)]> (exts_of ns).
Proof. done. Qed.

Lemma sorted_above ns s : Forall (fun n => ext_lt s (sub_name n)) ns -> exts_of ns !! s = None.
Proof. intros H. apply exts_of_None. apply lt_gt_ne. by right. Qed.

(** The names of [ns] are new in the merged list. *)
Definition fresh (ns : list riscv_subset_t) (m : gmap string (Z * Z)) : Prop := Forall (fun n => m !! sub_name n = None) ns.

Lemma fresh_insert ns m s v : Forall (fun n => ext_lt s (sub_name n)) ns -> fresh ns m -> fresh ns (<[s := v]> m).
Proof.
  unfold fresh. rewrite !Forall_forall. intros Hl Hf n Hn. specialize (Hl n Hn). rewrite lookup_insert_ne; [by apply Hf|].
  intros E. rewrite E in Hl. by apply ext_lt_irrefl in Hl.
Qed.

(** What the rest of the loops adds: [added] on top of what was merged. *)
Record adds (added : string -> option (Z * Z)) (s s' : merge_state) : Prop := {
  ad_in : in_subsets s' = in_subsets s;
  ad_log : messages s' = messages s;
  ad_wf : subset_list_wf (merged_subsets s');
  ad_exts : forall x, exts (merged_subsets s') !! x
    = match added x with Some v => Some v | None => exts (merged_subsets s) !! x end;
}.

(** Merging [n] first, and then [added] without it. *)
Lemma adds_step n added added' s l s' :
  subset_list_wf (merged_subsets s) -> node_ok n -> exts (merged_subsets s) !! sub_name n = None ->
  added' (sub_name n) = Some (major_version n, minor_version n) -> added (sub_name n) = None ->
  (forall x, x <> sub_name n -> added' x = added x) ->
  adds added (add_merged n (with_out s l)) s' -> adds added' s s'.
Proof.
  intros Hwf Hn Hf Hv Hv0 Hx [H1 H2 H3 H4].
  destruct (add_merged_spec n (with_out s l)) as (m & Em & Hm & Ee); [done..|].
  rewrite Em in *. constructor; try done. intros x. rewrite H4. cbn [with_merged with_out merged_subsets] in *.
  destruct (decide (x = sub_name n)) as [->|Hne].
  - rewrite Hv0, Hv, Ee. by rewrite lookup_insert_eq.
  - rewrite Hx, Ee by done. by rewrite lookup_insert_ne.
Qed.

Lemma with_out_id s : with_out s (out_subsets s) = s.
Proof. by destruct s. Qed.

Lemma add_merged_fresh n s l ns :
  subset_list_wf (merged_subsets s) -> node_ok n -> exts (merged_subsets s) !! sub_name n = None ->
  Forall (fun m => ext_lt (sub_name n) (sub_name m)) ns -> fresh ns (exts (merged_subsets s)) ->
  subset_list_wf (merged_subsets (add_merged n (with_out s l))) /\ fresh ns (exts (merged_subsets (add_merged n (with_out s l)))).
Proof.
  intros Hwf Hn Hf Hl Hfr. destruct (add_merged_spec n (with_out s l)) as (m & -> & Hm & Ee); [done..|].
  split; [done|]. cbn [with_merged merged_subsets]. rewrite Ee. by apply fresh_insert.
Qed.

Lemma merge_tail ns : forall s,
  StronglySorted node_lt ns -> Forall node_ok ns -> subset_list_wf (merged_subsets s) -> fresh ns (exts (merged_subsets s)) ->
  adds (fun x => exts_of ns !! x) s (foldl (fun s n => add_merged n s) s ns).
Proof.
  induction ns as [|n ns IH]; intros s Hs Hok Hwf Hf; cbn [foldl]; [by constructor|].
  inversion Hs as [|? ? Hs' Hn]; subst. inversion Hok as [|? ? Hon Hons]; subst. inversion Hf as [|? ? Hfn Hfs]; subst.
  destruct (add_merged_fresh n s (out_subsets s) ns) as [Hw Hfr]; [done..|].
  rewrite with_out_id in Hw, Hfr.
  apply (adds_step n (fun x => exts_of ns !! x) _ s (out_subsets s)); try done.
  - rewrite exts_of_cons. by rewrite lookup_insert_eq.
  - by apply sorted_above.
  - intros x Hx. rewrite exts_of_cons. by rewrite lookup_insert_ne.
  - rewrite with_out_id. by apply IH.
Qed.

Lemma sorted_below n m ns : ext_lt (sub_name n) (sub_name m) -> Forall (node_lt m) ns -> Forall (fun k => ext_lt (sub_name n) (sub_name k)) (m :: ns).
Proof.
  intros H Hm. constructor; [done|]. eapply Forall_impl; [exact Hm|]. intros k Hk. by eapply ext_lt_trans.
Qed.

Lemma merge_multi_spec i : forall out k s,
  StronglySorted node_lt i -> StronglySorted node_lt out -> Forall node_ok i -> Forall node_ok out ->
  subset_list_wf (merged_subsets s) -> fresh (i ++ out) (exts (merged_subsets s)) ->
  adds (fun x => merge_version (exts_of i !! x) (exts_of out !! x)) s (merge_multi_loop i out k s).
Proof.
  assert (Hmv : forall v, merge_version None v = v) by (by intros []).
  assert (Hmv' : forall v, merge_version v None = v) by (by intros []).
  assert (Hext : forall f g s s', (forall x, f x = g x) -> adds g s s' -> adds f s s').
  { intros f g s s' E [H1 H2 H3 H4]. constructor; try done. intros x. by rewrite E. }
  induction i as [|n i IHi]; intros out; [|induction out as [|o out IHo]]; intros k s Si So Oi Oo Hwf Hf.
  - rewrite merge_multi_nil_l. eapply Hext; [intros x; apply Hmv|]. by apply merge_tail.
  - rewrite merge_multi_nil_r. rewrite app_nil_r in Hf. eapply Hext; [intros x; apply Hmv'|]. by apply merge_tail.
  - rewrite merge_multi_cons. cbv zeta.
    inversion Si as [|? ? Si' Hn]; subst. inversion Oi as [|? ? On Oi']; subst.
    inversion So as [|? ? So' Ho]; subst. inversion Oo as [|? ? Oo1 Oo']; subst.
    inversion Hf as [|? ? Fn Ff]; subst. apply Forall_app in Ff as [Fi Fo]. inversion Fo as [|? ? Fo1 Fo']; subst.
    pose proof (riscv_compare_subsets_spec (sub_name n) (sub_name o) On Oo1) as Hc.
    destruct (Z.ltb_spec (riscv_compare_subsets (sub_name n) (sub_name o)) 0) as [Hlt|Hge];
      [|destruct (Z.ltb_spec 0 (riscv_compare_subsets (sub_name n) (sub_name o))) as [Hgt|Hle]].
    + rewrite (proj2 (Z.compare_lt_iff _ _)) in Hc by done. inversion Hc as [|Hl|]; subst.
      assert (Hall : Forall (fun m => ext_lt (sub_name n) (sub_name m)) (i ++ o :: out))
        by (apply Forall_app; split; [done|by apply sorted_below]).
      destruct (add_merged_fresh n s (out_subsets s) (i ++ o :: out)) as [Hw Hfr]; [done..|by apply Forall_app|].
      rewrite with_out_id in Hw, Hfr. apply Forall_app in Hall as [Hall1 Hall2].
      apply (adds_step n (fun x => merge_version (exts_of i !! x) (exts_of (o :: out) !! x)) _ s (out_subsets s)); try done.
      * rewrite exts_of_cons, lookup_insert_eq. rewrite (sorted_above (o :: out)) by done. done.
      * by rewrite !sorted_above.
      * intros x Hx. rewrite exts_of_cons. by rewrite lookup_insert_ne by done.
      * rewrite with_out_id. by apply IHi.
    + rewrite (proj2 (Z.compare_gt_iff _ _)) in Hc by done. inversion Hc as [| |Hl]; subst.
      assert (Hall : Forall (fun m => ext_lt (sub_name o) (sub_name m)) ((n :: i) ++ out))
        by (apply Forall_app; split; [by apply sorted_below|done]).
      destruct (add_merged_fresh o s (out_subsets s) ((n :: i) ++ out)) as [Hw Hfr]; [done..|by constructor; [|apply Forall_app]|].
      rewrite with_out_id in Hw, Hfr. apply Forall_app in Hall as [Hall1 Hall2].
      apply (adds_step o (fun x => merge_version (exts_of (n :: i) !! x) (exts_of out !! x)) _ s (out_subsets s)); try done.
      * rewrite (exts_of_cons o), lookup_insert_eq. rewrite (sorted_above (n :: i)) by done. done.
      * by rewrite !sorted_above.
      * intros x Hx. rewrite (exts_of_cons o). by rewrite lookup_insert_ne by done.
      * rewrite with_out_id. by apply IHo.
    + assert (E : riscv_compare_subsets (sub_name n) (sub_name o) = 0) by lia. rewrite E in Hc.
      inversion Hc as [En| |]. pose proof (newer_version_name n o) as Nn.
      set (o' := newer_version n o) in *.
      assert (Hall : Forall (fun m => ext_lt (sub_name o') (sub_name m)) (i ++ out)).
      { apply Forall_app. split; rewrite Nn; [rewrite <- En|]; done. }
      assert (Oo2 : node_ok o') by (unfold node_ok; by rewrite Nn).
      destruct (add_merged_fresh o' s (set_node (out_subsets s) k o') (i ++ out)) as [Hw Hfr];
        [done|done|by rewrite Nn|done|by apply Forall_app|].
      apply Forall_app in Hall as [Hall1 Hall2].
      apply (adds_step o' (fun x => merge_version (exts_of i !! x) (exts_of out !! x)) _ s (set_node (out_subsets s) k o')); try done.
      * by rewrite Nn.
      * rewrite !exts_of_cons, Nn, <- En, !lookup_insert_eq. cbn [merge_version]. unfold o'. by rewrite newer_version_newest.
      * by rewrite !sorted_above.
      * intros x Hx. rewrite Nn in Hx. rewrite !exts_of_cons, <- En in *. by rewrite !lookup_insert_ne by congruence.
      * by apply IHi.
Qed.

(** ** Both loops *)

Lemma skip_std_split ns i :
  exists a b, ns = a ++ b /\ skip_std ns i = (i + length a)%nat /\ Forall (fun n => riscv_std_ext_p (sub_name n) = true) a /\
    match b with [] => True | n :: _ => riscv_std_ext_p (sub_name n) = false end.
Proof.
  revert i. induction ns as [|n ns IH]; intros i; cbn [skip_std].
  - exists [], []. split_and!; try done; cbn; lia.
  - destruct (riscv_std_ext_p (sub_name n)) eqn:E.
    + destruct (IH (S i)) as (a & b & -> & -> & Ha & Hb). exists (n :: a), b. split_and!; try done; [cbn [length]; lia|by constructor].
    + exists [], (n :: ns). split_and!; try done; cbn; lia.
Qed.

Lemma StronglySorted_app_r {A} (R : A -> A -> Prop) l1 l2 : StronglySorted R (l1 ++ l2) -> StronglySorted R l2.
Proof. induction l1 as [|a l1 IH]; [done|]. cbn [app]. inversion 1; auto. Qed.

(** What is left behind the standard letters: all other names. *)
Lemma skip_std_spec l n ns :
  subset_list_wf l -> nodes l = n :: ns -> riscv_std_ext_p (sub_name n) = true ->
  let rest := drop (skip_std (drop 1 (nodes l)) 1) (nodes l) in
  StronglySorted node_lt rest /\ Forall node_ok rest /\ Forall (fun m => riscv_std_ext_p (sub_name m) = false) rest /\
  forall x, exts_of rest !! x = if riscv_std_ext_p x then None else exts l !! x.
Proof.
  intros [Hok Hs _] En Hn. cbv zeta. unfold exts. rewrite En in *. cbn [drop]. rewrite drop_0.
  destruct (skip_std_split ns 1) as (a & b & -> & -> & Ha & Hb).
  replace (drop (1 + length a) (n :: a ++ b)) with b
    by (cbn [Nat.add drop]; by rewrite drop_app_length).
  pose proof (StronglySorted_app_r _ (n :: a) b Hs) as Sb. pose proof Hok as Hok'.
  change (n :: a ++ b) with ((n :: a) ++ b) in Hok. apply Forall_app in Hok as [_ Ob].
  assert (Fb : Forall (fun m => riscv_std_ext_p (sub_name m) = false) b).
  { destruct b as [|h b]; [constructor|]. constructor; [done|]. inversion Sb as [|? ? _ Hh]; subst.
    inversion Ob as [|? ? Oh Ob']; subst. rewrite Forall_forall in Hh, Ob' |- *. intros m Hm. apply not_true_iff_false. intros Em.
    apply (ext_lt_asym (sub_name h) (sub_name m)); [by apply Hh|]. apply std_before; try done. by apply Ob'. }
  split; [done|]. split; [done|]. split; [done|]. intros x. destruct (riscv_std_ext_p x) eqn:Ex.
  - apply exts_of_None. eapply Forall_impl; [exact Fb|]. cbn. intros m Hm <-. congruence.
  - apply option_eq. intros v. rewrite !exts_of_elem by done. split; intros (m & Hm & Em & Ev); exists m; (split; [|done]).
    + right. apply elem_of_app. by right.
    + apply elem_of_cons in Hm as [->|Hm]; [congruence|]. apply elem_of_app in Hm as [Hm|Hm]; [|done].
      rewrite Forall_forall in Ha. specialize (Ha m Hm). cbn in Ha. congruence.
Qed.

Lemma std_names_std b : b = "i"%string \/ b = "e"%string -> Forall (fun x => riscv_std_ext_p x = true) (b :: std_names).
Proof. intros Hb. apply Forall_forall. intros x Hx. apply elem_of_cons in Hx as [->|Hx]; [by destruct Hb as [-> | ->]|].
  revert x Hx. apply Forall_forall. repeat constructor.
Qed.

Section lists.

Context (s : merge_state) (b : string) (n o : riscv_subset_t) (ns os : list riscv_subset_t).
Context (Win : subset_list_wf (in_subsets s)) (Wout : subset_list_wf (out_subsets s)).
Context (Ein : nodes (in_subsets s) = n :: ns) (Eout : nodes (out_subsets s) = o :: os).
Context (Hb : b = "i"%string \/ b = "e"%string) (Hn : sub_name n = b) (Ho : sub_name o = b).
Context (Hm : nodes (merged_subsets s) = []) (Ht : tail (merged_subsets s) = None).

Abbreviation inv := (std_inv (in_subsets s) (out_subsets s) (messages s)).

Lemma merge_lists_base :
  inv [b] (add_merged (newer_version n o) (with_out s (set_node (out_subsets s) 0 (newer_version n o)))).
Proof.
  assert (Lo : nodes (out_subsets s) !! 0%nat = Some o) by (by rewrite Eout).
  assert (Ln : nodes (in_subsets s) !! 0%nat = Some n) by (by rewrite Ein).
  pose proof (newer_version_name n o) as Nn.
  assert (H0 : inv [] s).
  { constructor; try done.
    - constructor; rewrite Hm; [constructor|constructor|by rewrite Ht].
    - intros x. unfold exts. by rewrite Hm. }
  apply (std_inv_add _ _ _ [] s b (newer_version n o) H0); try done.
  - by apply not_elem_of_nil.
  - unfold node_ok. rewrite Nn. destruct Wout as [Hok _ _]. rewrite Eout in Hok. by inversion Hok.
  - congruence.
  - rewrite newer_version_newest. rewrite <- Hn at 1. rewrite <- Ho.
    unfold exts at 1 2. rewrite (exts_of_lookup _ 0 n), (exts_of_lookup _ 0 o) by (apply Win || apply Wout || done). done.
  - eapply (wf_names (out_subsets s)); [|done|done]. by apply (set_node_names _ 0 o).
  - by apply (set_node_names _ 0 o).
  - intros x _ Hx. rewrite (set_node_exts _ 0 o) by done. rewrite lookup_insert_ne by congruence. done.
Qed.

Lemma merge_lists :
  exists s1 i out, riscv_merge_std_ext s = Some (s1, Some (i, out)) /\
    let s2 := riscv_merge_multi_letter_ext i out s1 in
    messages s2 = messages s /\ subset_list_wf (merged_subsets s2) /\
    forall x, exts (merged_subsets s2) !! x
      = if kept b x then merge_version (exts (in_subsets s) !! x) (exts (out_subsets s) !! x) else None.
Proof.
  unfold riscv_merge_std_ext. rewrite Ein, Eout. cbn [lookup list_lookup].
  assert (Hie : forall m t, sub_name m = b -> riscv_i_or_e_p m t = (t, true)).
  { intros m t E. unfold riscv_i_or_e_p. rewrite E. by destruct Hb as [-> | ->]. }
  rewrite !Hie by done. cbn [negb]. rewrite Hn, Ho.
  assert (Hsc : strcasecmp (chars b) (chars b) = 0) by (by destruct Hb as [-> | ->]). rewrite Hsc. cbn [Z.eqb negb].
  assert (Eu : riscv_update_subset_version 0 0 s = with_out s (set_node (out_subsets s) 0 (newer_version n o)))
    by (unfold riscv_update_subset_version, set_node; by rewrite Ein, Eout).
  assert (E0 : nodes (out_subsets (with_out s (set_node (out_subsets s) 0 (newer_version n o)))) !! 0%nat = Some (newer_version n o))
    by (cbn [with_out out_subsets set_node nodes]; by rewrite Eout).
  rewrite Eu, E0.
  set (s1 := foldl merge_std_letter _ standard_exts).
  assert (H1 : inv (b :: std_names) s1).
  { apply (merge_std_letters (in_subsets s) (out_subsets s) (messages s) Win standard_exts [b] _ merge_lists_base).
    - repeat constructor.
    - assert (Hnd : bool_decide (NoDup (b :: std_names)) = true) by (destruct Hb as [-> | ->]; vm_compute; reflexivity).
      by apply bool_decide_eq_true in Hnd. }
  eexists s1, _, _. split; [reflexivity|]. cbv zeta. destruct H1 as [I1 I2 I3 I4 I5 I6 I7].
  pose proof (std_names_std b Hb) as Hstd. rewrite Forall_forall in Hstd.
  assert (Hbs : riscv_std_ext_p b = true) by (by destruct Hb as [-> | ->]).
  destruct (skip_std_spec (in_subsets s1) n ns) as (Si & Oi & Fi & Xi); [by rewrite I1|by rewrite I1|by rewrite Hn|].
  assert (Eo : exists o' os', nodes (out_subsets s1) = o' :: os' /\ sub_name o' = b).
  { rewrite Eout in I3. destruct (nodes (out_subsets s1)) as [|o' os']; [done|]. cbn [map] in I3. injection I3 as I3 _.
    exists o', os'. split; [done|]. congruence. }
  destruct Eo as (o' & os' & Eo & No).
  destruct (skip_std_spec (out_subsets s1) o' os') as (So & Oo & Fo & Xo); [done|done|by rewrite No|].
  unfold riscv_merge_multi_letter_ext.
  set (ri := drop _ (nodes (in_subsets s1))) in *. set (ro := drop _ (nodes (out_subsets s1))) in *.
  assert (Hnone : forall x, riscv_std_ext_p x = false -> exts (merged_subsets s1) !! x = None).
  { intros x Hx. rewrite I6. rewrite bool_decide_eq_false_2; [done|]. intros Hin. specialize (Hstd x Hin). cbn in Hstd. congruence. }
  assert (Hfr : fresh (ri ++ ro) (exts (merged_subsets s1))).
  { apply Forall_app. split; [apply (Forall_impl _ _ _ Fi)|apply (Forall_impl _ _ _ Fo)]; intros m Hx; exact (Hnone _ Hx). }
  destruct (merge_multi_spec ri ro (skip_std (drop 1 (nodes (out_subsets s1))) 1) s1 Si So Oi Oo I5 Hfr) as [A1 A2 A3 A4].
  split; [rewrite A2; exact I7|]. split; [exact A3|]. intros x. rewrite A4, Xi, Xo. unfold kept.
  destruct (riscv_std_ext_p x) eqn:Ex.
  - cbn [merge_version negb orb]. rewrite I6. rewrite orb_false_r.
    assert (E : bool_decide (x ∈ b :: std_names) = bool_decide (x = b) || bool_decide (x ∈ std_names)).
    { apply eq_true_iff_eq. rewrite orb_true_iff, !bool_decide_eq_true, elem_of_cons. done. }
    by rewrite E.
  - cbn [negb]. rewrite orb_true_r. cbn [orb].
    rewrite I1, (I4 x), Hnone by (done || (intros Hin; specialize (Hstd x Hin); cbn in Hstd; congruence)).
    by destruct (merge_version _ _).
Qed.

End lists.

(** ** Merged ISA strings *)

(** The first node of a list. *)
Definition base_of (l : riscv_subset_list_t) : option string := sub_name <$> head (nodes l).

Lemma i_or_e_cases n s :
  node_ok n ->
  riscv_i_or_e_p n s = (if bool_decide (sub_name n = "i" \/ sub_name n = "e")%string then (s, true)
                        else (link_report s [LM_first_letter (sub_name n)], false)).
Proof.
  unfold node_ok, riscv_i_or_e_p. intros Hok. destruct (bool_decide _) eqn:E.
  - apply bool_decide_eq_true in E as [-> | ->]; done.
  - apply bool_decide_eq_false in E. rewrite !strcasecmp_neq by (done || tauto). done.
Qed.

(** The ISA strings of two files go together. *)
Record mergeable (arch_size : Z) (ri ro : riscv_parse_subset_t * bool) : Prop := {
  mg_in : ri.2 = true;
  mg_out : ro.2 = true;
  mg_xlen_in : rps_xlen ri.1 = arch_size;
  mg_xlen_out : rps_xlen ro.1 = arch_size;
  mg_base : base_of (subset_list ri.1) = base_of (subset_list ro.1);
  mg_i_or_e : base_of (subset_list ri.1) = Some "i"%string \/ base_of (subset_list ri.1) = Some "e"%string;
}.

(** The merge of two strings that are parsed to well-formed lists, which are not
    empty when they are accepted. *)
Lemma merge_arch_spec arch_size in_arch out_arch s :
  let ri := riscv_parse_subset (ld_rps (in_subsets s)) (Some in_arch) in
  let ro := riscv_parse_subset (ld_rps (out_subsets s)) (Some out_arch) in
  let li := subset_list ri.1 in
  let lo := subset_list ro.1 in
  (ri.2 = true -> ro.2 = true -> subset_list_wf li /\ subset_list_wf lo /\ nodes li <> [] /\ nodes lo <> []) ->
  exists s' r, riscv_merge_arch_attr_info arch_size (Some in_arch) (Some out_arch) s = Some (s', r) /\
    match r with
    | None => ~ mergeable arch_size ri ro
    | Some text =>
        mergeable arch_size ri ro /\
        nodes (in_subsets s') = [] /\ nodes (out_subsets s') = [] /\ nodes (merged_subsets s') = [] /\
        exists b m, base_of li = Some b /\ subset_list_wf m /\ text = unchars (riscv_arch_str arch_size m) /\
          forall x, exts m !! x = if kept b x then merge_version (exts li !! x) (exts lo !! x) else None
    end.
Proof.
  cbv zeta. intros Hwf. unfold riscv_merge_arch_attr_info.
  set (s0 := with_merged s _).
  change (in_subsets s0) with (in_subsets s). change (out_subsets s0) with (out_subsets s).
  destruct (riscv_parse_subset (ld_rps (in_subsets s)) (Some in_arch)) as [ri oki].
  change (out_subsets (link_report (with_in s0 (subset_list ri)) (map LM_parse (errors ri)))) with (out_subsets s).
  destruct (riscv_parse_subset (ld_rps (out_subsets s)) (Some out_arch)) as [ro oko].
  cbn [fst snd] in Hwf |- *.
  destruct oki; cbn [negb]; [|eexists _, None; split; [reflexivity|]; intros []; done].
  destruct oko; cbn [negb]; [|eexists _, None; split; [reflexivity|]; intros []; done].
  destruct (Hwf eq_refl eq_refl) as (Wi & Wo & Ni & No). clear Hwf.
  destruct (Z.eqb_spec (rps_xlen ro) (rps_xlen ri)) as [Ex|Ex]; cbn [negb];
    [|eexists _, None; split; [reflexivity|]; intros []; cbn [fst] in *; congruence].
  set (s1 := link_report _ _).
  assert (Ei : in_subsets s1 = subset_list ri) by done. assert (Eo : out_subsets s1 = subset_list ro) by done.
  assert (Em : nodes (merged_subsets s1) = [] /\ tail (merged_subsets s1) = None) by done. destruct Em as [Em Et].
  clearbody s1 s0. destruct (nodes (subset_list ri)) as [|n ns] eqn:Di; [done|].
  destruct (nodes (subset_list ro)) as [|o os] eqn:Do; [done|]. rewrite <- Ei in Di, Wi. rewrite <- Eo in Do, Wo.
  assert (Bi : base_of (subset_list ri) = Some (sub_name n)) by (unfold base_of; by rewrite <- Ei, Di).
  assert (Bo : base_of (subset_list ro) = Some (sub_name o)) by (unfold base_of; by rewrite <- Eo, Do).
  assert (Oin : node_ok n) by (destruct Wi as [H _ _]; rewrite Di in H; by inversion H).
  assert (Oon : node_ok o) by (destruct Wo as [H _ _]; rewrite Do in H; by inversion H).
  destruct (decide (sub_name n = "i" \/ sub_name n = "e")%string) as [Hie|Hie].
  2: { unfold riscv_merge_std_ext. rewrite Di, Do. cbn [lookup list_lookup]. rewrite i_or_e_cases by done.
       rewrite bool_decide_eq_false_2 by done. cbn [negb]. eexists _, None. split; [reflexivity|].
       intros [_ _ _ _ _ H]. cbn [fst] in H. rewrite Bi in H. apply Hie. destruct H as [H|H]; injection H as H; auto. }
  destruct (decide (sub_name o = sub_name n)) as [Hno|Hno].
  2: { unfold riscv_merge_std_ext. rewrite Di, Do. cbn [lookup list_lookup]. rewrite i_or_e_cases by done.
       rewrite bool_decide_eq_true_2 by done. cbn [negb]. rewrite i_or_e_cases by done.
       destruct (bool_decide _); cbn [negb]; [rewrite strcasecmp_neq by (done || congruence); cbn [negb]|];
         (eexists _, None; split; [reflexivity|]); intros [_ _ _ _ H _]; cbn [fst] in H; rewrite Bi, Bo in H; congruence. }
  destruct (merge_lists s1 (sub_name n) n o ns os Wi Wo Di Do Hie eq_refl Hno Em Et)
    as (s2 & i & out & -> & Hlog & Wm & Hm).
  rewrite (proj2 (Z.eqb_eq (rps_xlen ri) (rps_xlen ro))) by done. cbn [negb].
  destruct (Z.eqb_spec (rps_xlen ri) arch_size) as [Ea|Ea]; cbn [negb];
    [|eexists _, None; split; [reflexivity|]; intros []; cbn [fst] in *; congruence].
  eexists _, (Some _). split; [reflexivity|]. split.
  { constructor; cbn [fst snd]; try done; try congruence. rewrite Bi. destruct Hie as [-> | ->]; auto. }
  split_and!; try done. exists (sub_name n), (merged_subsets (riscv_merge_multi_letter_ext i out s2)).
  split_and!; try done. intros x. rewrite Hm, Ei, Eo. done.
Qed.

(** C4: merging the ISA strings of two files.  Let both strings be parsed, by the
    linker's settings and on top of what its static lists hold, to well-formed
    lists, not empty if they are accepted, without reading outside of
    [riscv_ext_order].  Then a string is returned exactly if both are accepted and
    have the width of the target and the same base, i or e; it is the string of a
    well-formed list that holds exactly the base, the prefixed extensions and the
    letters of [standard_exts] (all single letters but k and g) that one of the
    files has, at the newer version, and the static lists are released. *)
Theorem merged_arch_is_union arch_size in_arch out_arch s :
  let ri := riscv_parse_subset (ld_rps (in_subsets s)) (Some in_arch) in
  let ro := riscv_parse_subset (ld_rps (out_subsets s)) (Some out_arch) in
  let li := subset_list ri.1 in
  let lo := subset_list ro.1 in
  subset_list_wf li -> subset_list_wf lo -> (ri.2 = true -> ro.2 = true -> nodes li <> [] /\ nodes lo <> []) ->
  (forall e, outside e -> ~ In e (errors ri.1) /\ ~ In e (errors ro.1)) ->
  exists s' r, riscv_merge_arch_attr_info arch_size (Some in_arch) (Some out_arch) s = Some (s', r) /\
    match r with
    | None => ~ mergeable arch_size ri ro
    | Some text =>
        mergeable arch_size ri ro /\
        nodes (in_subsets s') = [] /\ nodes (out_subsets s') = [] /\ nodes (merged_subsets s') = [] /\
        exists b m, base_of li = Some b /\ subset_list_wf m /\ text = unchars (riscv_arch_str arch_size m) /\
          forall x, exts m !! x = if kept b x then merge_version (exts li !! x) (exts lo !! x) else None
    end.
Proof. cbv zeta. intros Wi Wo Hn _. apply merge_arch_spec. cbv zeta. intros Hi Ho. destruct (Hn Hi Ho). done. Qed.

Definition no_lists : merge_state := mk_merge empty_list empty_list empty_list [].

Lemma merged_arch_is_union_witness :
  exists s', riscv_merge_arch_attr_info 64 (Some "rv64i2p1_m2p0_zicsr2p0"%string) (Some "rv64i2p0_c2p0_xfoo1p0"%string) no_lists
    = Some (s', Some "rv64i2p1_m2p0_c2p0_zicsr2p0_xfoo1p0"%string) /\
    exists m, subset_list_wf m /\ exts m !! "xfoo"%string = Some (1, 0) /\ exts m !! "i"%string = Some (2, 1).
Proof.
  assert (E1 : subset_list (riscv_parse_subset (ld_rps (in_subsets no_lists)) (Some "rv64i2p1_m2p0_zicsr2p0")).1
    = mk_subset_list [mk_subset "i" 2 1; mk_subset "m" 2 0; mk_subset "zicsr" 2 0; mk_subset "zmmul" (-1) (-1)] (Some 3%nat) None)
    by (vm_compute; reflexivity).
  assert (E2 : subset_list (riscv_parse_subset (ld_rps (out_subsets no_lists)) (Some "rv64i2p0_c2p0_xfoo1p0")).1
    = mk_subset_list [mk_subset "i" 2 0; mk_subset "c" 2 0; mk_subset "zicsr" (-1) (-1); mk_subset "zifencei" (-1) (-1);
                      mk_subset "xfoo" 1 0] (Some 4%nat) None)
    by (vm_compute; reflexivity).
  destruct (merged_arch_is_union 64 "rv64i2p1_m2p0_zicsr2p0" "rv64i2p0_c2p0_xfoo1p0" no_lists) as (s' & r & H1 & H2).
  - rewrite E1. repeat constructor.
  - rewrite E2. repeat constructor.
  - intros _ _. rewrite E1, E2. split; discriminate.
  - intros e _. split; vm_compute; intros [].
  - destruct r as [text|]; [|exfalso; apply H2; constructor; try (vm_compute; reflexivity); left; vm_compute; reflexivity].
    destruct H2 as (_ & _ & _ & _ & b & m & Hb & Hm & _ & Hx). exists s'. split.
    + etransitivity; [exact H1|]. vm_compute in H1. injection H1 as _ <-. reflexivity.
    + exists m. split; [exact Hm|]. vm_compute in Hb. injection Hb as <-. rewrite !Hx. split; vm_compute; reflexivity.
Defined.

(** C37: where merging ISA strings goes wrong, for all strings and all contents
    of the static lists.  If both strings are accepted with the same width and one
    list is empty, because a base has no version or was not given, a null pointer
    is read.  Of well-formed lists that are not empty the standard letter k, which
    the parser takes, never gets into the merged list.  And if the second string is refused, the list of
    the first file stays in the static list that the next merge starts from. *)
Theorem arch_merge_faults arch_size in_arch out_arch s :
  let ri := riscv_parse_subset (ld_rps (in_subsets s)) (Some in_arch) in
  let ro := riscv_parse_subset (ld_rps (out_subsets s)) (Some out_arch) in
  let li := subset_list ri.1 in
  let lo := subset_list ro.1 in
  let merged := riscv_merge_arch_attr_info arch_size (Some in_arch) (Some out_arch) s in
  (ri.2 = true -> ro.2 = true -> rps_xlen ri.1 = rps_xlen ro.1 -> nodes li = [] \/ nodes lo = [] -> merged = None) /\
  (forall s' text, subset_list_wf li -> subset_list_wf lo -> nodes li <> [] -> nodes lo <> [] ->
     merged = Some (s', Some text) ->
     exists m, subset_list_wf m /\ text = unchars (riscv_arch_str arch_size m) /\ exts m !! "k"%string = None) /\
  (ri.2 = true -> ro.2 = false -> exists s', merged = Some (s', None) /\ in_subsets s' = li).
Proof.
  cbv zeta. split_and!.
  - unfold riscv_merge_arch_attr_info. set (s0 := with_merged s _).
    change (in_subsets s0) with (in_subsets s).
    destruct (riscv_parse_subset (ld_rps (in_subsets s)) (Some in_arch)) as [ri oki].
    change (out_subsets (link_report (with_in s0 (subset_list ri)) (map LM_parse (errors ri)))) with (out_subsets s).
    destruct (riscv_parse_subset (ld_rps (out_subsets s)) (Some out_arch)) as [ro oko]. cbn [fst snd].
    intros -> -> Hx He. cbn [negb]. rewrite (proj2 (Z.eqb_eq (rps_xlen ro) (rps_xlen ri))) by done. cbn [negb].
    unfold riscv_merge_std_ext. cbn [in_subsets out_subsets link_report with_in with_out].
    destruct He as [-> | ->]; [done|]. by destruct (nodes (subset_list ri) !! 0%nat).
  - intros s' text Wi Wo Ni No Hm.
    destruct (merge_arch_spec arch_size in_arch out_arch s) as (s2 & r & E & Hr); [done|].
    rewrite E in Hm. injection Hm as _ ->. destruct Hr as (Hg & _ & _ & _ & b & m & Hb & Wm & Ht & Hx).
    exists m. split; [done|]. split; [done|]. rewrite Hx.
    destruct Hg as [_ _ _ _ _ Hie]. rewrite Hb in Hie. by destruct Hie as [Hie|Hie]; injection Hie as ->.
  - unfold riscv_merge_arch_attr_info. set (s0 := with_merged s _).
    change (in_subsets s0) with (in_subsets s).
    destruct (riscv_parse_subset (ld_rps (in_subsets s)) (Some in_arch)) as [ri oki].
    change (out_subsets (link_report (with_in s0 (subset_list ri)) (map LM_parse (errors ri)))) with (out_subsets s).
    destruct (riscv_parse_subset (ld_rps (out_subsets s)) (Some out_arch)) as [ro oko]. cbn [fst snd].
    intros -> ->. cbn [negb]. by eexists.
Qed.

(** A base without a version; the letter k; the list that is left by a file of
    another format. *)
Lemma arch_merge_faults_witness :
  riscv_merge_arch_attr_info 64 (Some "rv64i"%string) (Some "rv64i2p1"%string) no_lists = None /\
  exists s', riscv_merge_arch_attr_info 64 (Some "rv64i2p1_c2p0"%string) (Some "arm"%string) no_lists = Some (s', None) /\
    map sub_name (nodes (in_subsets s')) = ["i"; "c"]%string.
Proof.
  split.
  - apply (arch_merge_faults 64 "rv64i" "rv64i2p1" no_lists); [reflexivity|reflexivity|reflexivity|].
    left. vm_compute. reflexivity.
  - destruct (arch_merge_faults 64 "rv64i2p1_c2p0" "arm" no_lists) as (_ & _ & H).
    destruct H as (s' & E & Ei); [reflexivity|reflexivity|]. exists s'. split; [exact E|]. rewrite Ei. vm_compute. reflexivity.
Defined.

(** Conflicts are not looked for: f and zfinx of two files give a string that the
    parser rejects.  And an extension of a failed merge (c of an rv32 file) comes
    out of the merge of two files that do not have it. *)
Lemma merge_conflict_and_leftover :
  let merge a b s := riscv_merge_arch_attr_info 64 (Some a) (Some b) s in
  let result r := match r with Some (_, t) => t | None => None end in
  result (merge "rv64i2p1_f2p2_zicsr2p0" "rv64i2p1_zicsr2p0_zfinx1p0" no_lists) = Some "rv64i2p1_f2p2_zicsr2p0_zfinx1p0" /\
  (riscv_parse_subset (ld_rps empty_list) (Some "rv64i2p1_f2p2_zicsr2p0_zfinx1p0")).2 = false /\
  exists s, merge "rv32i2p1_c2p0" "rv64i2p1" no_lists = Some (s, None) /\
    result (merge "rv64i2p1" "rv64i2p1" s) = Some "rv64i2p1_c2p0".
Proof.
  cbv zeta. repeat apply conj; [vm_compute; reflexivity..|].
  exists (match riscv_merge_arch_attr_info 64 (Some "rv32i2p1_c2p0") (Some "rv64i2p1") no_lists with
          | Some (s, _) => s | None => no_lists end).
  apply conj; vm_compute; reflexivity.
Qed.
