(* ===== verification/LinkAttrSpec.v ===== *)
(** * Properties of merged attributes and flags

    The attributes of the output tag by tag, the attributes the linker cannot
    merge, and the ELF flags, which do not depend on the order of the files. *)
From Stdlib Require Import ZArith Bool Ascii Lia.
From stdpp Require Import base list strings gmap.
From S2P Require Import Prelude RiscvH SubsetTables Subset SubsetOrder SubsetSpec SubsetParse SubsetPrint Options LinkMerge LinkMergeSpec.

#[local] Open Scope Z_scope.

(** ** Attributes by tag *)

Definition value (l : list obj_attribute) (tag : nat) : Z * option string := (attr_i (attr_at l tag), attr_s (attr_at l tag)).

Definition known_tags : list nat :=
  [tag_stack_align; tag_arch; tag_unaligned_access; tag_priv_spec; tag_priv_spec_minor; tag_priv_spec_revision].

Lemma attr_at_alter f l tag tag' :
  attr_at (alter f tag l) tag' = if bool_decide (tag = tag' /\ (tag < length l)%nat) then f (attr_at l tag') else attr_at l tag'.
Proof.
  unfold attr_at. destruct (decide (tag = tag')) as [<-|Hne].
  - rewrite list_lookup_alter_eq. destruct (l !! tag) as [a|] eqn:E.
    + rewrite bool_decide_eq_true_2 by (split; [done|by eapply lookup_lt_Some]). done.
    + rewrite bool_decide_eq_false_2; [done|]. intros [_ H]. apply lookup_ge_None in E. lia.
  - rewrite list_lookup_alter_ne by done. rewrite bool_decide_eq_false_2; [done|]. by intros [? _].
Qed.

Lemma value_set_i l tag v tag' :
  (tag < length l)%nat ->
  value (set_attr_i l tag v) tag' = if (tag =? tag')%nat then (v, (value l tag').2) else value l tag'.
Proof.
  intros Hl. unfold value, set_attr_i. rewrite attr_at_alter. destruct (Nat.eqb_spec tag tag') as [->|Hne].
  - by rewrite bool_decide_eq_true_2.
  - rewrite bool_decide_eq_false_2; [done|]. by intros [? _].
Qed.

Lemma value_set_s l tag v tag' :
  (tag < length l)%nat ->
  value (set_attr_s l tag v) tag' = if (tag =? tag')%nat then ((value l tag').1, v) else value l tag'.
Proof.
  intros Hl. unfold value, set_attr_s. rewrite attr_at_alter. destruct (Nat.eqb_spec tag tag') as [->|Hne].
  - by rewrite bool_decide_eq_true_2.
  - rewrite bool_decide_eq_false_2; [done|]. by intros [? _].
Qed.

Lemma value_set_type l tag v tag' : value (set_attr_type l tag v) tag' = value l tag'.
Proof. unfold value, set_attr_type. rewrite attr_at_alter. by destruct (bool_decide _). Qed.

Lemma length_set_attr l tag i s t :
  length (set_attr_i l tag i) = length l /\ length (set_attr_s l tag s) = length l /\ length (set_attr_type l tag t) = length l.
Proof. unfold set_attr_i, set_attr_s, set_attr_type. by rewrite !length_alter. Qed.

(** The tags from [LEAST_KNOWN_OBJ_ATTRIBUTE] on that RISC-V does not define. *)
Definition unknown_tag (tag : nat) : Prop := tag ∉ known_tags.

Definition unset (l : list obj_attribute) (tag : nat) : Prop := value l tag = (0, None).

Lemma unset_is_set l tag : unset l tag <-> is_set (attr_at l tag) = false.
Proof.
  unfold unset, value, is_set. destruct (attr_at l tag) as [t i [v|]]; cbn [attr_i attr_s].
  - rewrite orb_true_r. by split.
  - rewrite orb_false_r. destruct (Z.eqb_spec i 0) as [->|Hne]; cbn [negb]; split; try done. intros H. by injection H.
Qed.

(** An attribute that RISC-V does not define stops the linker.  The backend
    leaves the hook for unknown attributes null, and merging a file that sets one
    of the known tags it does not handle calls it. *)
Theorem unknown_attribute_crashes arch_size i o s tag :
  attr_i (attr_at (known_obj_attributes (attrs_proc o)) 0) <> 0 ->
  (2 <= tag < 77)%nat -> unknown_tag tag -> ~ unset (known_obj_attributes (attrs_proc i)) tag ->
  riscv_merge_attributes arch_size false true i o s = None.
Proof.
  intros H0 Ht Hu Hset. unfold riscv_merge_attributes. cbn [negb]. rewrite (proj2 (Z.eqb_neq _ _)) by done.
  set (a := known_obj_attributes (attrs_proc i)) in *.
  assert (Hnone : forall tags, foldl (fun st tag => merge_tag arch_size a tag st) None tags = None)
    by (intros tags; induction tags as [|t tags IH]; [done|exact IH]).
  assert (Hset' : is_set (attr_at a tag) = true) by (apply not_false_iff_true; by rewrite <- unset_is_set).
  assert (Htag : forall st, merge_tag arch_size a tag st = None).
  { intros [[s1 t1]|]; [|done]. unfold merge_tag. unfold unknown_tag, known_tags in Hu. rewrite !not_elem_of_cons in Hu.
    destruct Hu as (U1 & U2 & U3 & U4 & U5 & U6 & _).
    rewrite !(proj2 (Nat.eqb_neq _ _)) by done. cbn [orb]. unfold _bfd_elf_merge_unknown_attribute_low.
    destruct (is_set (attr_at (tl_out t1) tag)); [done|]. rewrite Hset'. done. }
  assert (Hin : In tag (seq LEAST_KNOWN_OBJ_ATTRIBUTE (NUM_KNOWN_OBJ_ATTRIBUTES - LEAST_KNOWN_OBJ_ATTRIBUTE))).
  { apply in_seq. unfold NUM_KNOWN_OBJ_ATTRIBUTES, LEAST_KNOWN_OBJ_ATTRIBUTE. lia. }
  apply in_split in Hin as (l1 & l2 & ->). rewrite foldl_app. cbn [foldl]. rewrite Htag, Hnone. done.
Qed.

(** Tag_RISCV_atomic_abi (14) set in a file. *)
Definition example_attributes (l : list (nat * obj_attribute)) : obj_attributes :=
  let empty := replicate NUM_KNOWN_OBJ_ATTRIBUTES no_attribute in
  mk_attributes (mk_vendor (foldl (fun a p => <[fst p := snd p]> a) empty l) []) (mk_vendor empty []).

Lemma unknown_attribute_crashes_witness :
  riscv_merge_attributes 64 false true
    (example_attributes [(5%nat, mk_attr 2 0 (Some "rv64i2p1"%string)); (14%nat, mk_attr 1 3 None)])
    (example_attributes [(0%nat, mk_attr 0 1 None); (5%nat, mk_attr 2 0 (Some "rv64i2p1"%string))]) no_lists = None.
Proof.
  apply (unknown_attribute_crashes 64 _ _ no_lists 14).
  - vm_compute. discriminate.
  - lia.
  - unfold unknown_tag. vm_compute. intros H. repeat (apply elem_of_cons in H as [H|H]; [discriminate H|]).
    by apply elem_of_nil in H.
  - vm_compute. discriminate.
Defined.

(** The loop over the tags stands at values [f], with result [r]; [p] is whether
    the privileged specification was merged. *)
Record rep (t : tag_loop) (f : nat -> Z * option string) (r p : bool) : Prop := {
  rp_length : length (tl_out t) = NUM_KNOWN_OBJ_ATTRIBUTES;
  rp_value : forall tag, value (tl_out t) tag = f tag;
  rp_result : tl_result t = r;
  rp_priv : tl_priv_merged t = p;
}.

Definition upd (f : nat -> Z * option string) (tag : nat) (v : Z * option string) : nat -> Z * option string :=
  fun tag' => if (tag =? tag')%nat then v else f tag'.

Lemma rep_i t f r p tag v r' p' :
  rep t f r p -> (tag < NUM_KNOWN_OBJ_ATTRIBUTES)%nat ->
  rep (mk_tag_loop (set_attr_i (tl_out t) tag v) r' p') (upd f tag (v, (f tag).2)) r' p'.
Proof.
  intros [H1 H2 H3 H4] Ht. constructor; cbn [tl_out tl_result tl_priv_merged]; try done.
  - by rewrite (proj1 (length_set_attr _ _ _ None 0)).
  - intros tag'. rewrite value_set_i by (by rewrite H1). unfold upd. rewrite H2. destruct (Nat.eqb_spec tag tag') as [->|]; done.
Qed.

Lemma rep_s t f r p tag v r' p' :
  rep t f r p -> (tag < NUM_KNOWN_OBJ_ATTRIBUTES)%nat ->
  rep (mk_tag_loop (set_attr_s (tl_out t) tag v) r' p') (upd f tag ((f tag).1, v)) r' p'.
Proof.
  intros [H1 H2 H3 H4] Ht. constructor; cbn [tl_out tl_result tl_priv_merged]; try done.
  - by rewrite (proj1 (proj2 (length_set_attr _ _ 0 _ 0))).
  - intros tag'. rewrite value_set_s by (by rewrite H1). unfold upd. rewrite H2. destruct (Nat.eqb_spec tag tag') as [->|]; done.
Qed.

Lemma rep_ext t f g r p : rep t f r p -> (forall tag, f tag = g tag) -> rep t g r p.
Proof. intros [H1 H2 H3 H4] E. constructor; try done. intros tag. by rewrite H2. Qed.

(** The type that is copied last does not matter. *)
Lemma rep_type t f r p tag ty (b : bool) :
  rep t f r p ->
  rep (if b then mk_tag_loop (set_attr_type (tl_out t) tag ty) (tl_result t) (tl_priv_merged t) else t) f r p.
Proof.
  intros [H1 H2 H3 H4]. destruct b; [|done]. constructor; cbn [tl_out tl_result tl_priv_merged]; try done.
  - by rewrite (proj2 (proj2 (length_set_attr _ _ 0 None _))).
  - intros tag'. by rewrite value_set_type.
Qed.

Lemma value_eq l f tag : (forall tag, value l tag = f tag) -> attr_i (attr_at l tag) = (f tag).1 /\ attr_s (attr_at l tag) = (f tag).2.
Proof. intros H. by rewrite <- H. Qed.

Section tags.

Context (arch_size : Z) (i : list obj_attribute).

Abbreviation step tag s t := (merge_tag arch_size i tag (Some (s, t))).

Lemma step_unknown tag s t f r p :
  rep t f r p -> unknown_tag tag -> unset i tag -> f tag = (0, None) -> exists t', step tag s t = Some (s, t') /\ rep t' f r p.
Proof.
  intros Hr Hu Hi Hf. pose proof Hr as [H1 H2 H3 H4]. unfold merge_tag.
  unfold unknown_tag, known_tags in Hu. rewrite !not_elem_of_cons in Hu. destruct Hu as (U1 & U2 & U3 & U4 & U5 & U6 & _).
  rewrite !(proj2 (Nat.eqb_neq _ _)) by done. cbn [orb]. unfold _bfd_elf_merge_unknown_attribute_low.
  assert (Ho : unset (tl_out t) tag) by (unfold unset; by rewrite H2). rewrite (proj1 (unset_is_set _ _) Ho), (proj1 (unset_is_set _ _) Hi).
  assert (Es : same_value (attr_at i tag) (attr_at (tl_out t) tag) = true).
  { unfold unset, value in Ho, Hi. unfold same_value. injection Ho as -> ->. injection Hi as -> ->. done. }
  rewrite Es. eexists. split; [reflexivity|]. apply rep_type. constructor; cbn [tl_out tl_result tl_priv_merged]; try done.
  by rewrite andb_true_r.
Qed.

Lemma steps_unknown tags : forall s t f r p,
  rep t f r p -> Forall (fun tag => unknown_tag tag /\ unset i tag /\ f tag = (0, None)) tags ->
  exists t', foldl (fun st tag => merge_tag arch_size i tag st) (Some (s, t)) tags = Some (s, t') /\ rep t' f r p.
Proof.
  induction tags as [|tag tags IH]; intros s t f r p Hr Hall; [by exists t|]. cbn [foldl].
  inversion Hall as [|? ? (Hu & Hi & Hf) Hall']; subst.
  destruct (step_unknown tag s t f r p Hr Hu Hi Hf) as (t' & -> & Hr'). by apply (IH s t' f r p).
Qed.

(** The stack alignment of the output, and whether the two agree. *)
Definition stack_align (a o : Z) : Z := if o =? 0 then a else o.
Definition stack_clash (a o : Z) : bool := negb (o =? 0) && negb (a =? 0) && negb (o =? a).

Lemma step_stack s t f r p :
  rep t f r p ->
  let a := (value i tag_stack_align).1 in
  let o := (f tag_stack_align).1 in
  exists t', step tag_stack_align s t = Some (if stack_clash a o then link_report s [LM_stack_align a o] else s, t') /\
    rep t' (upd f tag_stack_align (stack_align a o, (f tag_stack_align).2)) (r && negb (stack_clash a o)) p.
Proof.
  intros Hr. cbv zeta. pose proof Hr as [H1 H2 H3 H4]. destruct (value_eq _ _ tag_stack_align H2) as [Ei Es].
  unfold merge_tag. cbn [Nat.eqb tag_stack_align tag_arch tag_priv_spec tag_priv_spec_minor tag_priv_spec_revision tag_unaligned_access orb].
  unfold merge_stack_align. rewrite Ei. change (attr_i (attr_at i tag_stack_align)) with (value i tag_stack_align).1.
  set (a := (value i tag_stack_align).1). set (o := (f tag_stack_align).1). unfold stack_align, stack_clash.
  assert (Hid : rep t (upd f tag_stack_align (o, (f tag_stack_align).2)) r p).
  { apply (rep_ext _ _ _ _ _ Hr). intros tag. unfold upd, o. destruct (Nat.eqb_spec tag_stack_align tag) as [<-|]; [by destruct (f _)|done]. }
  destruct (Z.eqb_spec o 0) as [E0|E0]; cbn [negb andb].
  - eexists. split; [reflexivity|]. apply rep_type. rewrite andb_true_r, H3, H4. apply (rep_i _ _ r p); [done|cbv; lia].
  - destruct (negb (a =? 0) && negb (o =? a)); cbn [negb].
    + eexists. split; [reflexivity|]. apply rep_type. rewrite andb_false_r. destruct Hid as [K1 K2 K3 K4].
      by constructor.
    + eexists. split; [reflexivity|]. apply rep_type. by rewrite andb_true_r.
Qed.

(** The ISA string of the output. *)
Definition arch_merge (a o : option string) (s : merge_state) : option (merge_state * option string * bool) :=
  match o, a with
  | None, _ => Some (s, a, true)
  | Some _, None => Some (s, o, true)
  | Some _, Some _ =>
      match riscv_merge_arch_attr_info arch_size a o s with
      | None => None
      | Some (s, None) => Some (s, Some ""%string, false)
      | Some (s, Some m) => Some (s, Some m, true)
      end
  end.

Lemma step_arch s t f r p s' v ok :
  rep t f r p -> arch_merge (value i tag_arch).2 (f tag_arch).2 s = Some (s', v, ok) ->
  exists t', step tag_arch s t = Some (s', t') /\ rep t' (upd f tag_arch ((f tag_arch).1, v)) (r && ok) p.
Proof.
  intros Hr. pose proof Hr as [H1 H2 H3 H4]. destruct (value_eq _ _ tag_arch H2) as [Ei Es].
  unfold merge_tag. cbn [Nat.eqb tag_arch]. unfold merge_arch_tag, arch_merge. rewrite Es, H3, H4.
  change (attr_s (attr_at i tag_arch)) with (value i tag_arch).2. set (a := (value i tag_arch).2).
  assert (Hlt : (tag_arch < NUM_KNOWN_OBJ_ATTRIBUTES)%nat) by (cbv; lia).
  assert (Hs : forall w r', rep (mk_tag_loop (set_attr_s (tl_out t) tag_arch w) r' p) (upd f tag_arch ((f tag_arch).1, w)) r' p)
    by (intros w r'; by apply (rep_s _ _ r p)).
  destruct (f tag_arch).2 as [o|] eqn:Eo; [destruct a as [a|]|].
  - destruct (riscv_merge_arch_attr_info _ _ _ _) as [[s1 [m|]]|]; intros H; try done; injection H as <- <- <-;
      (eexists; split; [reflexivity|]); apply rep_type; rewrite ?andb_true_r, ?andb_false_r; apply Hs.
  - intros H. injection H as <- <- <-. eexists. split; [reflexivity|]. apply rep_type. rewrite andb_true_r.
    apply (rep_ext _ _ _ _ _ Hr). intros tag. unfold upd. destruct (Nat.eqb_spec tag_arch tag) as [<-|]; [|done].
    rewrite <- Eo. by destruct (f tag_arch).
  - intros H. injection H as <- <- <-. eexists. split; [reflexivity|]. apply rep_type. rewrite andb_true_r. apply Hs.
Qed.

Lemma step_unaligned s t f r p :
  rep t f r p ->
  exists t', step tag_unaligned_access s t = Some (s, t') /\
    rep t' (upd f tag_unaligned_access
              (Z.lor (f tag_unaligned_access).1 (value i tag_unaligned_access).1, (f tag_unaligned_access).2)) r p.
Proof.
  intros Hr. pose proof Hr as [H1 H2 H3 H4]. destruct (value_eq _ _ tag_unaligned_access H2) as [Ei Es].
  unfold merge_tag. cbn [Nat.eqb tag_stack_align tag_arch tag_priv_spec tag_priv_spec_minor tag_priv_spec_revision tag_unaligned_access orb].
  change 6%nat with tag_unaligned_access. eexists. split; [reflexivity|]. apply rep_type. rewrite Ei, H3, H4.
  apply (rep_i _ _ r p); [done|cbv; lia].
Qed.

Definition priv_tags : list nat := [tag_priv_spec; tag_priv_spec_minor; tag_priv_spec_revision].

Definition class_of (f : nat -> Z * option string) : riscv_spec_class :=
  riscv_get_priv_spec_class_from_numbers (f tag_priv_spec).1 (f tag_priv_spec_minor).1 (f tag_priv_spec_revision).1
    PRIV_SPEC_CLASS_NONE.

(** The output takes the privileged specification of the input if it has none
    or an older one. *)
Definition takes_priv (a o : riscv_spec_class) : bool :=
  bool_decide (o = PRIV_SPEC_CLASS_NONE) || negb (bool_decide (a = PRIV_SPEC_CLASS_NONE)) && (spec_value o <? spec_value a).

Definition with_priv (f : nat -> Z * option string) : nat -> Z * option string :=
  fun tag => if bool_decide (tag ∈ priv_tags) && takes_priv (class_of (value i)) (class_of f)
             then ((value i tag).1, (f tag).2) else f tag.

Lemma step_priv s t f r :
  rep t f r false ->
  exists s' t', step tag_priv_spec s t = Some (s', t') /\ rep t' (with_priv f) r true /\
    in_subsets s' = in_subsets s /\ out_subsets s' = out_subsets s.
Proof.
  intros Hr. pose proof Hr as [H1 H2 H3 H4].
  unfold merge_tag. cbn [Nat.eqb tag_stack_align tag_arch tag_priv_spec tag_priv_spec_minor tag_priv_spec_revision tag_unaligned_access orb].
  unfold merge_priv_tags. rewrite H4.
  assert (Eo : priv_class (tl_out t) = class_of f).
  { unfold priv_class, class_of. rewrite (proj1 (value_eq _ _ tag_priv_spec H2)), (proj1 (value_eq _ _ tag_priv_spec_minor H2)),
      (proj1 (value_eq _ _ tag_priv_spec_revision H2)). done. }
  rewrite Eo. change (priv_class i) with (class_of (value i)).
  set (copy := foldl _ (tl_out t) _).
  assert (Hcopy : takes_priv (class_of (value i)) (class_of f) = true -> rep (mk_tag_loop copy r true) (with_priv f) r true).
  { intros Et. unfold copy. cbn [foldl].
    set (t1 := mk_tag_loop (set_attr_i (tl_out t) tag_priv_spec (value i tag_priv_spec).1) r true).
    assert (R1 : rep t1 _ r true) by (apply (rep_i _ _ _ _ _ _ _ _ Hr); cbv; lia).
    set (t2 := mk_tag_loop (set_attr_i (tl_out t1) tag_priv_spec_minor (value i tag_priv_spec_minor).1) r true).
    assert (R2 : rep t2 _ r true) by (apply (rep_i _ _ _ _ _ _ _ _ R1); cbv; lia).
    assert (R3 := rep_i t2 _ r true tag_priv_spec_revision (value i tag_priv_spec_revision).1 r true R2 ltac:(cbv; lia)).
    apply (rep_ext _ _ _ _ _ R3). intros tag. unfold upd, with_priv. rewrite Et, andb_true_r.
    destruct (bool_decide (tag ∈ priv_tags)) eqn:Ep.
    - apply bool_decide_eq_true in Ep. unfold priv_tags in Ep. rewrite !elem_of_cons in Ep.
      destruct Ep as [->|[->|[->|Hn]]]; [done..|by apply elem_of_nil in Hn].
    - apply bool_decide_eq_false in Ep. unfold priv_tags in Ep. rewrite !not_elem_of_cons in Ep. destruct Ep as (P1 & P2 & P3 & _).
      by rewrite !(proj2 (Nat.eqb_neq _ tag)) by congruence. }
  assert (Hsame : takes_priv (class_of (value i)) (class_of f) = false -> rep (mk_tag_loop (tl_out t) r true) (with_priv f) r true).
  { intros Et. constructor; try done. intros tag. unfold with_priv. rewrite Et, andb_false_r. apply H2. }
  rewrite H3. unfold takes_priv in Hcopy, Hsame.
  destruct (bool_decide (class_of f = PRIV_SPEC_CLASS_NONE)); cbn [orb] in Hcopy, Hsame.
  - eexists _, _. split; [reflexivity|]. split; [|done]. apply rep_type. by apply Hcopy.
  - destruct (bool_decide (class_of (value i) = PRIV_SPEC_CLASS_NONE)); cbn [negb andb] in *.
    + eexists _, _. split; [reflexivity|]. split; [|done]. apply rep_type. by apply Hsame.
    + destruct (bool_decide_reflect (class_of (value i) = class_of f)) as [E|E]; cbn [negb].
      * eexists _, _. split; [reflexivity|]. split; [|done]. apply rep_type. apply Hsame. rewrite E. apply Z.ltb_irrefl.
      * eexists _, _. split; [reflexivity|]. split; [|done]. apply rep_type.
        destruct (spec_value (class_of f) <? spec_value (class_of (value i))); [by apply Hcopy|by apply Hsame].
Qed.

Lemma step_priv_merged tag s t f r :
  tag = tag_priv_spec_minor \/ tag = tag_priv_spec_revision ->
  rep t f r true -> exists t', step tag s t = Some (s, t') /\ rep t' f r true.
Proof.
  intros Ht Hr. unfold merge_tag, merge_priv_tags. rewrite (rp_priv _ _ _ _ Hr).
  destruct Ht as [-> | ->]; cbn [Nat.eqb tag_arch tag_priv_spec tag_priv_spec_minor tag_priv_spec_revision orb];
    (eexists; split; [reflexivity|]); by apply rep_type.
Qed.

End tags.

Lemma upd_unknown f tag v tag' : tag ∈ known_tags -> unknown_tag tag' -> upd f tag v tag' = f tag'.
Proof. intros Hk Hu. unfold upd. rewrite (proj2 (Nat.eqb_neq _ _)); [done|]. intros ->. by apply Hu. Qed.

Lemma with_priv_unknown i f tag : unknown_tag tag -> with_priv i f tag = f tag.
Proof.
  intros Hu. unfold with_priv. rewrite bool_decide_eq_false_2; [done|]. intros Hin. apply Hu.
  unfold known_tags, priv_tags in *. do 3 right. done.
Qed.

Lemma tag_order :
  seq LEAST_KNOWN_OBJ_ATTRIBUTE (NUM_KNOWN_OBJ_ATTRIBUTES - LEAST_KNOWN_OBJ_ATTRIBUTE)
  = ([2; 3] ++ [tag_stack_align] ++ [tag_arch] ++ [tag_unaligned_access] ++ [7] ++ [tag_priv_spec] ++ [9]
     ++ [tag_priv_spec_minor] ++ [11] ++ [tag_priv_spec_revision] ++ seq 13 64)%nat.
Proof. reflexivity. Qed.

Definition unknown_b (tag : nat) : bool := bool_decide (tag ∉ known_tags).

Lemma attributes_loop arch_size a l s s2 arch ok :
  length l = NUM_KNOWN_OBJ_ATTRIBUTES ->
  (forall tag, (2 <= tag < 77)%nat -> unknown_tag tag -> unset a tag /\ unset l tag) ->
  let sa := (value a tag_stack_align).1 in
  let so := (value l tag_stack_align).1 in
  let s1 := if stack_clash sa so then link_report s [LM_stack_align sa so] else s in
  arch_merge arch_size (value a tag_arch).2 (value l tag_arch).2 s1 = Some (s2, arch, ok) ->
  exists s3 t,
    foldl (fun st tag => merge_tag arch_size a tag st) (Some (s, mk_tag_loop l true false))
      (seq LEAST_KNOWN_OBJ_ATTRIBUTE (NUM_KNOWN_OBJ_ATTRIBUTES - LEAST_KNOWN_OBJ_ATTRIBUTE)) = Some (s3, t) /\
    rep t (with_priv a (upd (upd (upd (value l) tag_stack_align (stack_align sa so, (value l tag_stack_align).2))
                               tag_arch ((value l tag_arch).1, arch))
                          tag_unaligned_access
                          (Z.lor (value l tag_unaligned_access).1 (value a tag_unaligned_access).1, (value l tag_unaligned_access).2)))
      (negb (stack_clash sa so) && ok) true.
Proof.
  intros Hl Hu. cbv zeta. set (sa := (value a tag_stack_align).1). set (so := (value l tag_stack_align).1).
  set (s1 := if stack_clash sa so then _ else s). intros Harch. rewrite tag_order, !foldl_app.
  assert (R0 : rep (mk_tag_loop l true false) (value l) true false) by (by constructor).
  assert (Hskip : forall tags f, forallb (fun tag => (2 <=? tag)%nat && (tag <? 77)%nat && unknown_b tag) tags = true ->
    (forall tag, unknown_tag tag -> f tag = value l tag) ->
    Forall (fun tag => unknown_tag tag /\ unset a tag /\ f tag = (0, None)) tags).
  { intros tags f Htags Hf. rewrite forallb_forall in Htags. apply Forall_forall. intros tag Hin.
    specialize (Htags tag ltac:(by apply list_elem_of_In)). rewrite !andb_true_iff, Nat.leb_le, Nat.ltb_lt in Htags.
    destruct Htags as [Hr Hun]. apply bool_decide_eq_true in Hun. destruct (Hu tag Hr Hun) as [Ua Ul].
    split; [done|]. split; [done|]. rewrite Hf by done. exact Ul. }
  destruct (steps_unknown arch_size a [2; 3]%nat s _ _ _ _ R0) as (t1 & -> & R1); [by apply Hskip|].
  cbn [foldl]. destruct (step_stack arch_size a s _ _ _ _ R1) as (t2 & E2 & R2). cbv zeta in E2, R2. rewrite E2. fold sa so s1 in R2 |- *.
  set (f2 := upd (value l) tag_stack_align _) in R2 |- *.
  assert (K2 : forall tag, unknown_tag tag -> f2 tag = value l tag) by (intros tag Ht; apply upd_unknown; [by left|done]).
  destruct (step_arch arch_size a s1 _ _ _ _ s2 arch ok R2) as (t3 & -> & R3); [exact Harch|].
  set (f3 := upd f2 tag_arch _) in R3.
  assert (K3 : forall tag, unknown_tag tag -> f3 tag = value l tag)
    by (intros tag Ht; rewrite <- K2 by done; apply upd_unknown; [by right; left|done]).
  destruct (step_unaligned arch_size a s2 _ _ _ _ R3) as (t4 & -> & R4). set (f4 := upd f3 tag_unaligned_access _) in R4.
  assert (K4 : forall tag, unknown_tag tag -> f4 tag = value l tag)
    by (intros tag Ht; rewrite <- K3 by done; apply upd_unknown; [by right; right; left|done]).
  destruct (steps_unknown arch_size a [7%nat] s2 _ _ _ _ R4) as (t5 & E5 & R5); [by apply Hskip|]. cbn [foldl] in E5. rewrite E5.
  destruct (step_priv arch_size a s2 _ _ _ R5) as (s3 & t6 & -> & R6 & _).
  assert (K6 : forall tag, unknown_tag tag -> with_priv a f4 tag = value l tag)
    by (intros tag Ht; rewrite <- K4 by done; by apply with_priv_unknown).
  destruct (steps_unknown arch_size a [9%nat] s3 _ _ _ _ R6) as (t7 & E7 & R7); [by apply Hskip|]. cbn [foldl] in E7. rewrite E7.
  destruct (step_priv_merged arch_size a tag_priv_spec_minor s3 _ _ _ ltac:(by left) R7) as (t8 & -> & R8).
  destruct (steps_unknown arch_size a [11%nat] s3 _ _ _ _ R8) as (t9 & E9 & R9); [by apply Hskip|]. cbn [foldl] in E9. rewrite E9.
  destruct (step_priv_merged arch_size a tag_priv_spec_revision s3 _ _ _ ltac:(by right) R9) as (t10 & -> & R10).
  destruct (steps_unknown arch_size a (seq 13 64) s3 _ _ _ _ R10) as (t11 & -> & R11); [by apply Hskip|].
  exists s3, t11. split; [done|]. exact R11.
Qed.

(** C29: the attributes of the output, tag by tag.  For files with no attribute
    that RISC-V does not define (the code calls a null hook for one) and no
    compatibility attribute, whose ISA strings are merged or refused without a
    fault, merging one into an initialised output succeeds exactly if the stack
    alignments agree and the ISA strings merge; the output
    then has the stack alignment that is given, the merged ISA string, unaligned
    accesses if one file has them, and the newer privileged specification. *)
Theorem attributes_merged_by_tag arch_size i o s s2 arch ok :
  let a := known_obj_attributes (attrs_proc i) in
  let l := known_obj_attributes (attrs_proc o) in
  let sa := (value a tag_stack_align).1 in
  let so := (value l tag_stack_align).1 in
  let s1 := if stack_clash sa so then link_report s [LM_stack_align sa so] else s in
  length l = NUM_KNOWN_OBJ_ATTRIBUTES -> (value l 0).1 <> 0 ->
  (forall tag, (2 <= tag < 77)%nat -> unknown_tag tag -> unset a tag /\ unset l tag) ->
  other_obj_attributes (attrs_proc i) = [] -> other_obj_attributes (attrs_proc o) = [] ->
  (value (known_obj_attributes (attrs_gnu i)) Tag_compatibility).1 = 0 ->
  (value (known_obj_attributes (attrs_gnu o)) Tag_compatibility).1 = 0 ->
  arch_merge arch_size (value a tag_arch).2 (value l tag_arch).2 s1 = Some (s2, arch, ok) ->
  exists s3 o', riscv_merge_attributes arch_size false true i o s = Some (s3, o', negb (stack_clash sa so) && ok) /\
    let l' := known_obj_attributes (attrs_proc o') in
    (value l' tag_stack_align).1 = stack_align sa so /\ (value l' tag_arch).2 = arch /\
    (value l' tag_unaligned_access).1 = Z.lor (value l tag_unaligned_access).1 (value a tag_unaligned_access).1 /\
    (forall tag, tag ∈ priv_tags ->
       (value l' tag).1 = (if takes_priv (class_of (value a)) (class_of (value l)) then value a tag else value l tag).1) /\
    (forall tag, (2 <= tag < 77)%nat -> unknown_tag tag -> unset l' tag) /\
    other_obj_attributes (attrs_proc o') = [] /\ attrs_gnu o' = attrs_gnu o.
Proof.
  cbv zeta. intros Hl H0 Hu Oi Oo Gi Go Harch.
  destruct (attributes_loop arch_size (known_obj_attributes (attrs_proc i)) (known_obj_attributes (attrs_proc o)) s s2 arch ok
              Hl Hu Harch) as (s3 & t & Hrun & [R1 R2 R3 R4]).
  unfold riscv_merge_attributes. cbn [negb].
  change (attr_i (attr_at (known_obj_attributes (attrs_proc o)) 0)) with (value (known_obj_attributes (attrs_proc o)) 0).1.
  rewrite (proj2 (Z.eqb_neq _ _) H0), Hrun. clear Hrun.
  set (f := with_priv _ _) in R2.
  assert (Hfu : forall tag, unknown_tag tag -> f tag = value (known_obj_attributes (attrs_proc o)) tag).
  { intros tag Ht. unfold f. rewrite with_priv_unknown by done.
    rewrite !upd_unknown by (done || (unfold known_tags; rewrite !elem_of_cons; tauto)). done. }
  assert (Hc32 : unknown_tag Tag_compatibility) by (apply (bool_decide_eq_true_1 (Tag_compatibility ∉ known_tags)); reflexivity).
  destruct (Hu Tag_compatibility ltac:(cbv; lia) Hc32) as [Ci Co].
  apply (f_equal fst) in Ci, Co. cbn [fst] in Ci, Co.
  assert (Hcompat : _bfd_elf_merge_object_attributes i (with_proc o (tl_out t)) s3 = Some (s3, true)).
  { unfold _bfd_elf_merge_object_attributes, merge_compatibility. cbn [with_proc attrs_proc attrs_gnu known_obj_attributes].
    rewrite (proj1 (value_eq _ f Tag_compatibility R2)), Hfu by done.
    change (attr_i (attr_at ?x Tag_compatibility)) with (value x Tag_compatibility).1. rewrite Ci, Co, Gi, Go. done. }
  rewrite Hcompat. cbn [with_proc attrs_proc attrs_gnu known_obj_attributes other_obj_attributes]. rewrite Oi, Oo.
  cbn [_bfd_elf_merge_unknown_attribute_list merge_other_attributes length Nat.add]. rewrite R3, andb_true_r.
  eexists s3, _. split; [reflexivity|]. cbn [attrs_proc attrs_gnu known_obj_attributes other_obj_attributes].
  split; [by rewrite R2|]. split; [by rewrite R2|]. split; [by rewrite R2|]. split.
  { intros tag Ht. rewrite R2. unfold f, with_priv. rewrite bool_decide_eq_true_2 by done. cbn [andb].
    change (class_of (upd _ _ _)) with (class_of (value (known_obj_attributes (attrs_proc o)))).
    destruct (takes_priv _ _); [done|]. unfold priv_tags in Ht. rewrite !elem_of_cons in Ht.
    destruct Ht as [->|[->|[->|Hn]]]; [done..|by apply elem_of_nil in Hn]. }
  split; [|done]. intros tag Hr Ht. unfold unset. rewrite R2, Hfu by done. by apply Hu.
Qed.

Definition example_in : obj_attributes :=
  example_attributes [(4%nat, mk_attr 1 16 None); (5%nat, mk_attr 2 0 (Some "rv64i2p1_c2p0"%string)); (6%nat, mk_attr 1 1 None);
                      (8%nat, mk_attr 1 1 None); (10%nat, mk_attr 1 12 None)].
Definition example_out : obj_attributes :=
  example_attributes [(0%nat, mk_attr 0 1 None); (5%nat, mk_attr 2 0 (Some "rv64i2p1_m2p0"%string));
                      (8%nat, mk_attr 1 1 None); (10%nat, mk_attr 1 11 None)].

Lemma attributes_merged_by_tag_witness :
  exists s3 o', riscv_merge_attributes 64 false true example_in example_out no_lists = Some (s3, o', true) /\
    let l' := known_obj_attributes (attrs_proc o') in
    (value l' tag_stack_align).1 = 16 /\ (value l' tag_arch).2 = Some "rv64i2p1_m2p0_c2p0"%string /\
    (value l' tag_unaligned_access).1 = 1.
Proof.
  destruct (attributes_merged_by_tag 64 example_in example_out no_lists no_lists (Some "rv64i2p1_m2p0_c2p0"%string) true)
    as (s3 & o' & H1 & H2 & H3 & H4 & _).
  - reflexivity.
  - vm_compute. discriminate.
  - intros tag Ht Hu. unfold unknown_tag, known_tags in Hu. rewrite !not_elem_of_cons in Hu.
    destruct Hu as (U1 & U2 & U3 & U4 & U5 & U6 & _).
    do 77 (destruct tag as [|tag]; [first [exfalso; lia|exfalso; by apply U1|exfalso; by apply U2|exfalso; by apply U3
      |exfalso; by apply U4|exfalso; by apply U5|exfalso; by apply U6|split; reflexivity]|]). lia.
  - reflexivity.
  - reflexivity.
  - reflexivity.
  - reflexivity.
  - vm_compute. reflexivity.
  - exists s3, o'. split; [exact H1|]. split; [exact H2|]. split; [exact H3|exact H4].
Defined.

(** ** ELF flags *)

(** The files of a link with code, one after the other. *)
Definition link_flags (inputs : list Z) (st : option (merge_state * output_bfd * bool)) : option (merge_state * output_bfd * bool) :=
  foldl (fun st flags => match st with
                         | Some (s, o, true) => merge_e_flags flags o s
                         | st => st
                         end) st inputs.

(** The bits that every file has to agree on, and those that add up. *)
Definition abi_bits (flags : Z) : Z := Z.land flags (Z.lor EF_RISCV_FLOAT_ABI EF_RISCV_RVE).
Definition union_bits (flags : Z) : Z := Z.land flags (Z.lor EF_RISCV_RVC EF_RISCV_TSO).

Definition all_unions (inputs : list Z) : Z := foldr Z.lor 0 (map union_bits inputs).

Lemma abi_split a b :
  abi_bits a = abi_bits b <-> Z.land (Z.lxor a b) EF_RISCV_FLOAT_ABI = 0 /\ Z.land (Z.lxor a b) EF_RISCV_RVE = 0.
Proof.
  unfold abi_bits. change (Z.lor EF_RISCV_FLOAT_ABI EF_RISCV_RVE) with 14. change EF_RISCV_FLOAT_ABI with 6. change EF_RISCV_RVE with 8.
  split.
  - intros H. split; apply Z.bits_inj'; intros i Hi; apply (f_equal (fun x => Z.testbit x i)) in H;
      rewrite !Z.land_spec in H; rewrite Z.land_spec, Z.lxor_spec, Z.bits_0.
    + assert (E : Z.testbit 14 i = Z.testbit 6 i || Z.testbit 8 i) by (change 14 with (Z.lor 6 8); apply Z.lor_spec).
      rewrite E in H. destruct (Z.testbit a i), (Z.testbit b i), (Z.testbit 6 i), (Z.testbit 8 i); done.
    + assert (E : Z.testbit 14 i = Z.testbit 6 i || Z.testbit 8 i) by (change 14 with (Z.lor 6 8); apply Z.lor_spec).
      rewrite E in H. destruct (Z.testbit a i), (Z.testbit b i), (Z.testbit 6 i), (Z.testbit 8 i); done.
  - intros [H1 H2]. apply Z.bits_inj'. intros i Hi. apply (f_equal (fun x => Z.testbit x i)) in H1, H2.
    rewrite Z.land_spec, Z.lxor_spec, Z.bits_0 in H1, H2. rewrite !Z.land_spec.
    assert (E : Z.testbit 14 i = Z.testbit 6 i || Z.testbit 8 i) by (change 14 with (Z.lor 6 8); apply Z.lor_spec).
    rewrite E. destruct (Z.testbit a i), (Z.testbit b i), (Z.testbit 6 i), (Z.testbit 8 i); done.
Qed.

Lemma float_abi_known flags : is_Some (riscv_float_abi_string flags).
Proof.
  unfold riscv_float_abi_string.
  assert (H : Z.land flags EF_RISCV_FLOAT_ABI = 0 \/ Z.land flags EF_RISCV_FLOAT_ABI = 2 \/
              Z.land flags EF_RISCV_FLOAT_ABI = 4 \/ Z.land flags EF_RISCV_FLOAT_ABI = 6).
  { assert (E : Z.land flags 6 = Z.land (flags mod 8) 6).
    { change 8 with (2 ^ 3). rewrite <- (Z.land_ones flags 3) by lia. rewrite <- Z.land_assoc. reflexivity. }
    change EF_RISCV_FLOAT_ABI with 6. rewrite E. pose proof (Z.mod_pos_bound flags 8 ltac:(lia)) as Hb.
    assert (Hc : flags mod 8 = 0 \/ flags mod 8 = 1 \/ flags mod 8 = 2 \/ flags mod 8 = 3 \/ flags mod 8 = 4 \/ flags mod 8 = 5
                 \/ flags mod 8 = 6 \/ flags mod 8 = 7) by lia.
    repeat destruct Hc as [-> | Hc]; [tauto..|]. rewrite Hc. cbn. tauto. }
  destruct H as [-> | [-> | [-> | ->]]]; cbn; eauto.
Qed.

Lemma merge_e_flags_cases new o s :
  ob_flags_init o = true ->
  (abi_bits (ob_e_flags o) = abi_bits new ->
   merge_e_flags new o s = Some (s, with_e_flags o (Z.lor (ob_e_flags o) (union_bits new)), true)) /\
  (abi_bits (ob_e_flags o) <> abi_bits new -> exists m, merge_e_flags new o s = Some (link_report s [m], o, false)).
Proof.
  intros Hi. unfold merge_e_flags. rewrite Hi. cbn [negb]. rewrite abi_split. split.
  - intros [-> ->]. cbn [Z.eqb negb]. f_equal. f_equal. f_equal. f_equal. rewrite <- Z.lor_assoc. f_equal.
    unfold union_bits. by rewrite Z.land_lor_distr_r.
  - intros H. destruct (Z.eqb_spec (Z.land (Z.lxor (ob_e_flags o) new) EF_RISCV_FLOAT_ABI) 0) as [E|E]; cbn [negb].
    + rewrite (proj2 (Z.eqb_neq _ _)) by tauto. cbn [negb]. by eexists.
    + destruct (float_abi_known new) as [a ->], (float_abi_known (ob_e_flags o)) as [b ->]. by eexists.
Qed.

Lemma link_flags_failed inputs s o : link_flags inputs (Some (s, o, false)) = Some (s, o, false).
Proof. induction inputs as [|f inputs IH]; [done|]. exact IH. Qed.

Lemma abi_union a b : abi_bits (Z.lor a (union_bits b)) = abi_bits a.
Proof.
  unfold abi_bits, union_bits. rewrite Z.land_lor_distr_l, <- Z.land_assoc.
  change (Z.land (Z.lor EF_RISCV_RVC EF_RISCV_TSO) (Z.lor EF_RISCV_FLOAT_ABI EF_RISCV_RVE)) with 0.
  by rewrite Z.land_0_r, Z.lor_0_r.
Qed.

Lemma link_flags_init inputs : forall s o,
  ob_flags_init o = true ->
  (Forall (fun f => abi_bits f = abi_bits (ob_e_flags o)) inputs ->
   link_flags inputs (Some (s, o, true)) = Some (s, with_e_flags o (Z.lor (ob_e_flags o) (all_unions inputs)), true)) /\
  (~ Forall (fun f => abi_bits f = abi_bits (ob_e_flags o)) inputs ->
   exists s' o', link_flags inputs (Some (s, o, true)) = Some (s', o', false)).
Proof.
  induction inputs as [|f inputs IH]; intros s o Hi; cbn [link_flags foldl].
  { split; [|intros H; exfalso; by apply H]. intros _. cbn [all_unions map foldr]. rewrite Z.lor_0_r.
    destruct o. cbn in Hi. by subst. }
  destruct (merge_e_flags_cases f o s Hi) as [Hok Hbad].
  fold (link_flags inputs (merge_e_flags f o s)).
  destruct (decide (abi_bits (ob_e_flags o) = abi_bits f)) as [E|E].
  - rewrite (Hok E). set (o' := with_e_flags o _). destruct (IH s o' eq_refl) as [IH1 IH2].
    assert (Ea : abi_bits (ob_e_flags o') = abi_bits (ob_e_flags o)) by apply abi_union. rewrite Ea in IH1, IH2. split.
    + intros H. inversion H as [|? ? H1 H2]; subst. rewrite (IH1 H2). f_equal. f_equal. f_equal.
      unfold o', with_e_flags, all_unions. cbn [ob_e_flags ob_riscv_elf ob_target ob_attributes map foldr]. by rewrite Z.lor_assoc.
    + intros H. apply IH2. intros Hall. apply H. by constructor.
  - destruct (Hbad E) as [m ->]. split.
    + intros H. inversion H as [|? ? H1 H2]; subst. congruence.
    + intros _. rewrite link_flags_failed. by eexists _, _.
Qed.

Lemma flags_parts f : 0 <= f < 32 -> f = Z.lor (abi_bits f) (union_bits f).
Proof.
  intros Hf. unfold abi_bits, union_bits. rewrite <- Z.land_lor_distr_r.
  change (Z.lor _ _) with (Z.ones 5). rewrite Z.land_ones by lia. symmetry. by apply Z.mod_small.
Qed.

Lemma all_unions_perm l l' : l ≡ₚ l' -> all_unions l = all_unions l'.
Proof.
  intros H. unfold all_unions. induction H as [|x l l' H IH|x y l|l1 l2 l3 H1 IH1 H2 IH2]; cbn [map foldr].
  - done.
  - by rewrite IH.
  - rewrite !Z.lor_assoc. f_equal. apply Z.lor_comm.
  - congruence.
Qed.

Definition agree (l : list Z) : Prop := forall f g, f ∈ l -> g ∈ l -> abi_bits f = abi_bits g.

(** The first file sets the flags, the others are merged. *)
Lemma link_flags_start f inputs s o :
  ob_flags_init o = false -> Forall (fun f => 0 <= f < 32) (f :: inputs) ->
  (agree (f :: inputs) -> exists o', link_flags (f :: inputs) (Some (s, o, true)) = Some (s, o', true) /\
     ob_e_flags o' = Z.lor (abi_bits f) (all_unions (f :: inputs))) /\
  (~ agree (f :: inputs) -> exists s' o', link_flags (f :: inputs) (Some (s, o, true)) = Some (s', o', false)).
Proof.
  intros Hi Hf. inversion Hf as [|? ? Hf1 Hf2]; subst.
  assert (E : link_flags (f :: inputs) (Some (s, o, true)) = link_flags inputs (Some (s, with_e_flags o f, true)))
    by (cbn [link_flags foldl]; unfold merge_e_flags; by rewrite Hi).
  rewrite E. destruct (link_flags_init inputs s (with_e_flags o f) eq_refl) as [H1 H2]. cbn [with_e_flags ob_e_flags] in H1, H2.
  split.
  - intros Ha. rewrite H1.
    + eexists. split; [reflexivity|]. unfold all_unions. cbn [map foldr with_e_flags ob_e_flags].
      by rewrite Z.lor_assoc, <- flags_parts by done.
    + apply Forall_forall. intros g Hg. apply Ha; [by right|by left].
  - intros Ha. apply H2. intros Hall. apply Ha. rewrite Forall_forall in Hall.
    assert (Hx : forall x, x ∈ f :: inputs -> abi_bits x = abi_bits f)
      by (intros x Hx; apply elem_of_cons in Hx as [->|Hx]; [done|by apply Hall]).
    intros x y Hx1 Hy1. by rewrite (Hx x), (Hx y).
Qed.

(** C30: the flags of the output do not depend on the order of the files.  For
    files whose flags are those of the ABI, the link goes through exactly if all
    agree on the floating-point ABI and on RVE; the output then has these and
    RVC or TSO if some file has it, in whatever order the files come. *)
Theorem link_flags_order_independent inputs inputs' s o :
  inputs ≡ₚ inputs' -> inputs <> [] -> ob_flags_init o = false -> Forall (fun f => 0 <= f < 32) inputs ->
  exists s1 o1 s2 o2 ok,
    link_flags inputs (Some (s, o, true)) = Some (s1, o1, ok) /\ link_flags inputs' (Some (s, o, true)) = Some (s2, o2, ok) /\
    (ok = true <-> agree inputs) /\
    (ok = true -> ob_e_flags o1 = ob_e_flags o2 /\
       forall f, f ∈ inputs -> ob_e_flags o1 = Z.lor (abi_bits f) (all_unions inputs)).
Proof.
  intros Hp Hne Hi Hf. destruct inputs as [|f inputs]; [done|]. destruct inputs' as [|f' inputs'].
  { by apply Permutation_nil_r in Hp. }
  assert (Hf' : Forall (fun f => 0 <= f < 32) (f' :: inputs')) by (by rewrite <- Hp).
  assert (Ha : agree (f :: inputs) <-> agree (f' :: inputs')) by (unfold agree; by setoid_rewrite Hp).
  destruct (link_flags_start f inputs s o Hi Hf) as [G1 B1]. destruct (link_flags_start f' inputs' s o Hi Hf') as [G2 B2].
  assert (Hd : agree (f :: inputs) \/ ~ agree (f :: inputs)).
  { destruct (decide (Forall (fun g => abi_bits g = abi_bits f) (f :: inputs))) as [H|H]; rewrite Forall_forall in H.
    - left. intros x y Hx Hy. by rewrite (H x), (H y).
    - right. intros Hag. apply H. intros x Hx. apply Hag; [done|by left]. }
  destruct Hd as [Hag|Hag].
  - destruct (G1 Hag) as (o1 & -> & E1). destruct (G2 (proj1 Ha Hag)) as (o2 & -> & E2).
    exists s, o1, s, o2, true. split_and!; try done. intros _.
    assert (Hff : abi_bits f = abi_bits f') by (apply Hag; [by left|rewrite Hp; by left]). split.
    + by rewrite E1, E2, (all_unions_perm _ _ Hp), Hff.
    + intros g Hg. rewrite E1. f_equal. apply Hag; [by left|done].
  - destruct (B1 Hag) as (s1 & o1 & ->). destruct (B2 ltac:(by rewrite <- Ha)) as (s2 & o2 & ->).
    exists s1, o1, s2, o2, false. split_and!; try done.
Qed.

Definition example_output : output_bfd := mk_output true "elf64-littleriscv" example_out false 0.

Lemma link_flags_order_independent_witness :
  exists s1 o1 s2 o2, link_flags [4; 5; 0x14] (Some (no_lists, example_output, true)) = Some (s1, o1, true) /\
    link_flags [0x14; 4; 5] (Some (no_lists, example_output, true)) = Some (s2, o2, true) /\
    ob_e_flags o1 = ob_e_flags o2 /\ ob_e_flags o1 = 0x15.
Proof.
  destruct (link_flags_order_independent [4; 5; 0x14] [0x14; 4; 5] no_lists example_output)
    as (s1 & o1 & s2 & o2 & ok & H1 & H2 & H3 & H4).
  - apply (Permutation_app_comm [4; 5] [0x14]).
  - discriminate.
  - reflexivity.
  - repeat constructor; lia.
  - assert (Hok : ok = true) by (vm_compute in H1; by injection H1 as _ _ <-). rewrite Hok in *.
    destruct (H4 eq_refl) as [H5 H6]. exists s1, o1, s2, o2. split; [exact H1|]. split; [exact H2|]. split; [exact H5|].
    rewrite (H6 4) by (by left). reflexivity.
Defined.
