(* ===== verification/LinkRelocate.v ===== *)
(** * Relocating a section in a final link (bfd/elfnn-riscv.c)

    [riscv_elf_relocate_section]: resolving the symbol of each relocation, the
    entries of the global offset table, the relocations left to the dynamic
    linker, and the value [perform_relocation] puts in place.  The hash tables
    of the ELF linker are parameters: a relocation sees the entry of its symbol,
    behind its indirections.  The link is final ([type_relocatable] is not an
    output type of the model). *)
From Stdlib Require Import ZArith Bool Lia.
From stdpp Require Import base list gmap.
From S2P Require Import Prelude OpcodeH RiscvH OpcodeMatch Bytes Howto LinkReloc.

#[local] Open Scope Z_scope.
#[local] Open Scope c_scope.
#[local] Open Scope list_scope.

(** ** The link (include/bfdlink.h) *)

Inductive output_type : Set := type_pde | type_pie | type_dll.

Inductive report_method : Set := RM_NOT_YET_SET | RM_IGNORE | RM_DIAGNOSE.

Record bfd_link_info : Set := mk_info {
  li_type : output_type;
  li_symbolic : bool;
  li_dynamic : bool;                     (* --dynamic-list *)
  li_dynamic_undefined_weak : Z;
  li_indirect_extern_access : Z;
  li_extern_protected_data : Z;
  li_unresolved_syms_in_objects : report_method;
  li_warn_unresolved_syms : bool;
}.

Definition bfd_link_dll (info : bfd_link_info) : bool :=
  match li_type info with type_dll => true | _ => false end.
Definition bfd_link_executable (info : bfd_link_info) : bool :=
  match li_type info with type_pde | type_pie => true | _ => false end.
Definition bfd_link_pic (info : bfd_link_info) : bool :=
  match li_type info with type_dll | type_pie => true | _ => false end.

Inductive bfd_link_hash_type : Set :=
| bfd_link_hash_new | bfd_link_hash_undefined | bfd_link_hash_undefweak | bfd_link_hash_defined
| bfd_link_hash_defweak | bfd_link_hash_common.

#[export] Instance bfd_link_hash_type_eq_dec : EqDecision bfd_link_hash_type.
Proof. solve_decision. Defined.

Definition STT_FUNC : Z := 2.
Definition STT_SECTION : Z := 3.
Definition STT_GNU_IFUNC : Z := 10.
Definition STV_DEFAULT : Z := 0.
Definition STV_INTERNAL : Z := 1.
Definition STV_HIDDEN : Z := 2.
Definition ELF_ST_VISIBILITY (other : Z) : Z := other .& 0x3.

(** A section of the output with symbols in it. *)
Record def_section : Set := mk_def_section {
  ds_addr : Z;                           (* output_section->vma + output_offset *)
  ds_abs : bool;                         (* bfd_is_abs_section *)
  ds_discarded : bool;                   (* discarded_section *)
}.

(** An entry of the hash table.  [h_id] tells entries apart: the offsets in the
    GOT change during the link and are kept in the state.  A defined symbol
    without a section is one whose section is not in the output. *)
Record elf_link_hash_entry : Set := mk_entry {
  h_id : Z;
  h_root_type : bfd_link_hash_type;
  h_linker_def : bool;
  h_rel_from_abs : bool;
  h_def_value : Z;
  h_def_section : option def_section;
  h_type : Z;
  h_other : Z;
  h_def_regular : bool;
  h_def_dynamic : bool;
  h_forced_local : bool;
  h_non_got_ref : bool;
  h_unique_global : bool;
  h_start_stop : bool;
  h_dynamic : bool;
  h_dynindx : Z;
  h_plt_offset : Z;
  h_tls_type : Z;
}.

(** A local symbol, with the section it is defined in.  [l_merge] is
    [_bfd_merged_section_offset] if that section holds merged entities. *)
Record local_symbol : Type := mk_local {
  l_value : Z;
  l_type : Z;
  l_section : def_section;
  l_merge : option (Z -> def_section * Z);
  l_ifunc : option elf_link_hash_entry;  (* riscv_elf_get_local_sym_hash *)
}.

(** ** Where a symbol is bound (bfd/elf-bfd.h, bfd/elflink.c) *)

Definition bfd_is_abs_symbol (h : elf_link_hash_entry) : bool :=
  bool_decide (h_root_type h = bfd_link_hash_defined \/ h_root_type h = bfd_link_hash_defweak)
  && match h_def_section h with Some s => ds_abs s | None => false end && negb (h_rel_from_abs h).

Definition SYMBOLIC_BIND (info : bfd_link_info) (h : elf_link_hash_entry) : bool :=
  negb (h_unique_global h)
  && (li_symbolic info || h_start_stop h || (li_dynamic info && negb (h_dynamic h))).

Definition ELF_COMMON_DEF_P (h : elf_link_hash_entry) : bool :=
  negb (h_def_regular h) && negb (h_def_dynamic h) && bool_decide (h_root_type h = bfd_link_hash_defined).

Definition UNDEFWEAK_NO_DYNAMIC_RELOC (info : bfd_link_info) (h : elf_link_hash_entry) : bool :=
  bool_decide (h_root_type h = bfd_link_hash_undefweak) && negb (h_linker_def h)
  && (negb (ELF_ST_VISIBILITY (h_other h) =? STV_DEFAULT) || (li_dynamic_undefined_weak info =? 0)).

Definition WILL_CALL_FINISH_DYNAMIC_SYMBOL (dyn shared : bool) (h : elf_link_hash_entry) : bool :=
  dyn && (shared || negb (h_forced_local h)) && (negb (h_dynindx h =? -1) || h_forced_local h).

Definition _bfd_elf_is_function_type (type : Z) : bool := (type =? STT_FUNC) || (type =? STT_GNU_IFUNC).

(** [_bfd_elf_symbol_refs_local_p]; the backend's [extern_protected_data] is 0. *)
Definition _bfd_elf_symbol_refs_local_p (h : option elf_link_hash_entry) (info : bfd_link_info)
    (local_protected : bool) : bool :=
  match h with
  | None => true
  | Some h =>
      let vis := ELF_ST_VISIBILITY (h_other h) in
      if (vis =? STV_HIDDEN) || (vis =? STV_INTERNAL) then true
      else if h_forced_local h then true
      else if negb (ELF_COMMON_DEF_P h) && negb (h_def_regular h) then false
      else if h_dynindx h =? -1 then true
      else if bfd_link_executable info || SYMBOLIC_BIND info h then true
      else if vis =? STV_DEFAULT then false
      else if 0 <? li_indirect_extern_access info then true
      else if ((li_extern_protected_data info =? 0) || (li_extern_protected_data info <? 0))
              && negb (_bfd_elf_is_function_type (h_type h)) then true
      else local_protected
  end.

Definition SYMBOL_REFERENCES_LOCAL (info : bfd_link_info) (h : option elf_link_hash_entry) : bool :=
  _bfd_elf_symbol_refs_local_p h info false.
Definition SYMBOL_CALLS_LOCAL (info : bfd_link_info) (h : option elf_link_hash_entry) : bool :=
  _bfd_elf_symbol_refs_local_p h info true.

(** ** The conditions of the backend *)

Definition is_undefweak (h : elf_link_hash_entry) : bool :=
  bool_decide (h_root_type h = bfd_link_hash_undefweak).

Definition RISCV_GENERATE_DYNAMIC_RELOC (pcrel : bool) (info : bfd_link_info)
    (h : option elf_link_hash_entry) (resolved_to_zero : bool) : bool :=
  (bfd_link_pic info
   && match h with
      | None => true
      | Some h => ((ELF_ST_VISIBILITY (h_other h) =? STV_DEFAULT) && negb resolved_to_zero)
                  || negb (is_undefweak h)
      end
   && (negb pcrel || negb (SYMBOL_CALLS_LOCAL info h)))
  || (negb (bfd_link_pic info)
      && match h with
         | None => false
         | Some h => negb (h_dynindx h =? -1) && negb (h_non_got_ref h)
                     && ((h_def_dynamic h && negb (h_def_regular h)) || is_undefweak h
                         || bool_decide (h_root_type h = bfd_link_hash_undefined))
         end).

Definition RISCV_COPY_INPUT_RELOC (info : bfd_link_info) (h : option elf_link_hash_entry) : bool :=
  match h with
  | None => false
  | Some h => negb (h_dynindx h =? -1)
              && (negb (bfd_link_pic info) || negb (SYMBOLIC_BIND info h) || negb (h_def_regular h))
  end.

Definition RISCV_RESOLVED_LOCALLY (dyn : bool) (info : bfd_link_info) (h : elf_link_hash_entry) : bool :=
  negb (WILL_CALL_FINISH_DYNAMIC_SYMBOL dyn (bfd_link_pic info) h)
  || (bfd_link_pic info && SYMBOL_REFERENCES_LOCAL info (Some h)).

(** The dynamic index and whether relocations are needed. *)
Definition RISCV_TLS_GD_IE_NEED_DYN_RELOC (info : bfd_link_info) (dyn : bool)
    (h : option elf_link_hash_entry) : Z * bool :=
  let indx :=
    match h with
    | Some h' =>
        if negb (h_dynindx h' =? -1) && WILL_CALL_FINISH_DYNAMIC_SYMBOL dyn (bfd_link_pic info) h'
           && (bfd_link_dll info || negb (SYMBOL_REFERENCES_LOCAL info h))
        then h_dynindx h' else 0
    | None => 0
    end in
  (indx, (bfd_link_dll info || negb (indx =? 0))
         && match h with
            | None => true
            | Some h => (ELF_ST_VISIBILITY (h_other h) =? STV_DEFAULT) || negb (is_undefweak h)
            end).

Definition GOT_NORMAL : Z := 1.
Definition GOT_TLS_GD : Z := 2.
Definition GOT_TLS_IE : Z := 4.

(** ** The state of the link *)

(** What the hash table and the linker scripts fix: the addresses of the
    sections the linker makes, if they exist. *)
Record riscv_elf_link_hash_table : Set := mk_link_htab {
  ht_dynamic_sections_created : bool;
  ht_check_uleb128 : bool;
  ht_sgot : option Z;
  ht_sgotplt : option Z;
  ht_igotplt : option Z;
  ht_splt : option Z;
  ht_iplt : option Z;
  ht_tls_sec : option Z;                 (* vma of the first TLS section *)
  ht_gp : Z;                             (* riscv_global_pointer_value *)
}.

(** The input section.  [sec_offset] is [_bfd_elf_section_offset]. *)
Record input_section : Type := mk_input {
  is_addr : Z;                           (* sec_addr *)
  is_vma : Z;                            (* output_section->vma *)
  is_alloc : bool;
  is_readonly : bool;
  is_debugging : bool;
  is_note : bool;                        (* SHT_NOTE *)
  is_debug_ranges : bool;
  sec_offset : Z -> Z;
}.

Inductive reloc_msg : Set :=
| D_set_uleb128 | D_sub_uleb128 | D_got_addend | D_pcrel_lo_section | D_dangerous
| E_binds_externally | E_unresolvable | E_out_of_range | E_unsupported | E_unknown.

Inductive link_message : Set :=
| M_unsupported_type (r_type : Z)
| M_undefined_symbol (off : Z) (err : bool)
| M_ifunc_addend (off : Z)
| M_ifunc_unsupported (off : Z)
| M_assert
| M_uleb128_addend
| M_overflow (off : Z)
| M_dangerous (m : reloc_msg) (off : Z)
| M_einfo (m : reloc_msg)
| M_pcrel_lo (e : pcrel_lo_error) (off : Z).

(** [s_rel] is the entry [*rel].  The relocation sections are the entries
    appended to them, [None] if the section does not exist; the contents of
    the tables are the bytes at their addresses. *)
Record link_state : Type := mk_link_state {
  s_contents : list Z;
  s_rel : Elf_Internal_Rela;
  s_got : list Z;
  s_gotplt : list Z;
  s_igotplt : list Z;
  s_got_offset : gmap Z Z;               (* h->got.offset *)
  s_local_got : gmap Z Z;                (* local_got_offsets *)
  s_srelgot : option (list Elf_Internal_Rela);
  s_sreloc : option (list Elf_Internal_Rela);
  s_irelifunc : option (list Elf_Internal_Rela);
  s_irelplt : option (list Elf_Internal_Rela);
  s_pcrel : riscv_pcrel_relocs;
  s_uleb128_set : option (Z * Elf_Internal_Rela);
  s_log : list link_message;
}.

Definition with_contents (c : list Z) (s : link_state) : link_state :=
  mk_link_state c (s_rel s) (s_got s) (s_gotplt s) (s_igotplt s) (s_got_offset s) (s_local_got s)
    (s_srelgot s) (s_sreloc s) (s_irelifunc s) (s_irelplt s) (s_pcrel s) (s_uleb128_set s) (s_log s).
Definition with_rel (r : Elf_Internal_Rela) (s : link_state) : link_state :=
  mk_link_state (s_contents s) r (s_got s) (s_gotplt s) (s_igotplt s) (s_got_offset s) (s_local_got s)
    (s_srelgot s) (s_sreloc s) (s_irelifunc s) (s_irelplt s) (s_pcrel s) (s_uleb128_set s) (s_log s).
Definition with_gots (g gp ig : list Z) (s : link_state) : link_state :=
  mk_link_state (s_contents s) (s_rel s) g gp ig (s_got_offset s) (s_local_got s)
    (s_srelgot s) (s_sreloc s) (s_irelifunc s) (s_irelplt s) (s_pcrel s) (s_uleb128_set s) (s_log s).
Definition with_offsets (o l : gmap Z Z) (s : link_state) : link_state :=
  mk_link_state (s_contents s) (s_rel s) (s_got s) (s_gotplt s) (s_igotplt s) o l
    (s_srelgot s) (s_sreloc s) (s_irelifunc s) (s_irelplt s) (s_pcrel s) (s_uleb128_set s) (s_log s).
Definition with_relas (g r f p : option (list Elf_Internal_Rela)) (s : link_state) : link_state :=
  mk_link_state (s_contents s) (s_rel s) (s_got s) (s_gotplt s) (s_igotplt s) (s_got_offset s) (s_local_got s)
    g r f p (s_pcrel s) (s_uleb128_set s) (s_log s).
Definition with_pcrel (p : riscv_pcrel_relocs) (s : link_state) : link_state :=
  mk_link_state (s_contents s) (s_rel s) (s_got s) (s_gotplt s) (s_igotplt s) (s_got_offset s) (s_local_got s)
    (s_srelgot s) (s_sreloc s) (s_irelifunc s) (s_irelplt s) p (s_uleb128_set s) (s_log s).
Definition with_uleb128 (u : option (Z * Elf_Internal_Rela)) (s : link_state) : link_state :=
  mk_link_state (s_contents s) (s_rel s) (s_got s) (s_gotplt s) (s_igotplt s) (s_got_offset s) (s_local_got s)
    (s_srelgot s) (s_sreloc s) (s_irelifunc s) (s_irelplt s) (s_pcrel s) u (s_log s).
Definition say (m : link_message) (s : link_state) : link_state :=
  mk_link_state (s_contents s) (s_rel s) (s_got s) (s_gotplt s) (s_igotplt s) (s_got_offset s) (s_local_got s)
    (s_srelgot s) (s_sreloc s) (s_irelifunc s) (s_irelplt s) (s_pcrel s) (s_uleb128_set s) (s_log s ++ [m]).

(** [BFD_ASSERT] reports and goes on. *)
Definition BFD_ASSERT (b : bool) (s : link_state) : link_state := if b then s else say M_assert s.

(** What a case of the [switch] does: [continue] with the next relocation,
    return, or go on to the common end with a howto, a value, a status, a
    message and the flag [unresolved_reloc]. *)
Inductive flow : Type :=
| F_continue (s : link_state)
| F_return (ret : bool) (s : link_state)
| F_break (s : link_state) (howto : option reloc_howto_type) (relocation : Z) (r : bfd_reloc_status_type)
    (msg : option reloc_msg) (unresolved : bool).

(** A symbol as the loop resolves it: [h] and [sym], of which one is null, the
    value, and the flag [unresolved_reloc]. *)
Record resolved_symbol : Type := mk_resolved {
  rs_h : option elf_link_hash_entry;
  rs_sym : option local_symbol;
  rs_relocation : Z;
  rs_unresolved : bool;
}.

Section relocate.

(** [None] of the functions below is [abort], a null pointer or a write
    outside a section. *)
Context (arch64 big : bool) (info : bfd_link_info) (htab : riscv_elf_link_hash_table) (isec : input_section).

Definition RISCV_ELF_WORD_BYTES : Z := if arch64 then 8 else 4.
Definition GOT_ENTRY_SIZE : Z := RISCV_ELF_WORD_BYTES.
Definition GOTPLT_HEADER_SIZE : Z := 2 * GOT_ENTRY_SIZE.
Definition PLT_HEADER_SIZE : Z := 8 * 4.
Definition PLT_ENTRY_SIZE : Z := 4 * 4.

Abbreviation word_bits := (if arch64 then 64 else 32)%nat.
Abbreviation pic := (bfd_link_pic info).
Abbreviation dyn := (ht_dynamic_sections_created htab).

(** [bfd_put_NN] into a table. *)
Definition bfd_put_NN (val : Z) (data : list Z) (off : Z) : option (list Z) :=
  if in_contents word_bits data off then bfd_put big word_bits val data (Z.to_nat off) else None.

Definition put_got (val off : Z) (s : link_state) : option link_state :=
  g ← bfd_put_NN val (s_got s) off; Some (with_gots g (s_gotplt s) (s_igotplt s) s).

(** [riscv_elf_append_rela]. *)
Definition riscv_elf_append_rela (rel : Elf_Internal_Rela) (s : option (list Elf_Internal_Rela))
  : option (list Elf_Internal_Rela) := (fun l => l ++ [rel]) <$> s.

Definition append_relgot (rel : Elf_Internal_Rela) (s : link_state) : option link_state :=
  l ← riscv_elf_append_rela rel (s_srelgot s);
  Some (with_relas (Some l) (s_sreloc s) (s_irelifunc s) (s_irelplt s) s).

Abbreviation rel s := (s_rel s).
Abbreviation pc s := (u64 (is_addr isec + r_offset (s_rel s))).
Abbreviation record_hi s value type absolute :=
  (with_pcrel (riscv_record_pcrel_hi_reloc (s_pcrel s) (pc s) value type absolute)
     (BFD_ASSERT (slot_empty (s_pcrel s) (pc s)) s)).

(** ** Resolving the symbol *)

(** [_bfd_elf_rela_local_sym]: the value, the section it lies in at last and
    the relocation. *)
Definition _bfd_elf_rela_local_sym (sym : local_symbol) (rel : Elf_Internal_Rela)
  : Z * def_section * Elf_Internal_Rela :=
  let relocation := u64 (ds_addr (l_section sym) + l_value sym) in
  match l_merge sym with
  | Some merged =>
      if l_type sym =? STT_SECTION then
        let '(sec, off) := merged (u64 (l_value sym + r_addend rel)) in
        (relocation, sec, mk_rela (r_offset rel) (r_info rel) (u64 (off - relocation + ds_addr sec)))
      else (relocation, l_section sym, rel)
  | None => (relocation, l_section sym, rel)
  end.

(** A global symbol, [RELOC_FOR_GLOBAL_SYMBOL] and what the loop makes of
    [warned]. *)
Definition global_symbol (h : elf_link_hash_entry) (s : link_state) : resolved_symbol * link_state :=
  match h_root_type h with
  | bfd_link_hash_defined | bfd_link_hash_defweak =>
      match h_def_section h with
      | Some sec => (mk_resolved (Some h) None (u64 (h_def_value h + ds_addr sec)) false, s)
      | None => (mk_resolved (Some h) None 0 true, s)
      end
  | bfd_link_hash_undefweak => (mk_resolved (Some h) None 0 false, s)
  | _ =>
      let visible := ELF_ST_VISIBILITY (h_other h) =? STV_DEFAULT in
      match li_unresolved_syms_in_objects info with
      | RM_IGNORE => if visible then (mk_resolved (Some h) None 0 false, s)
                     else (mk_resolved (Some h) None (is_vma isec) false,
                           say (M_undefined_symbol (r_offset (rel s)) true) s)
      | m => let err := match m with RM_DIAGNOSE => negb (li_warn_unresolved_syms info) | _ => false end
                        || negb visible in
             (mk_resolved (Some h) None (is_vma isec) false, say (M_undefined_symbol (r_offset (rel s)) err) s)
      end
  end.

(** The beginning of the loop; the last part is whether the section of the
    symbol was discarded. *)
Definition resolve_symbol (sym : local_symbol + elf_link_hash_entry) (s : link_state)
  : option (resolved_symbol * bool * link_state) :=
  match sym with
  | inl sym =>
      let '(relocation, sec, r) := _bfd_elf_rela_local_sym sym (rel s) in
      let s := with_rel r s in
      if l_type sym =? STT_GNU_IFUNC then
        h ← l_ifunc sym;
        let h := mk_entry (h_id h) (h_root_type h) (h_linker_def h) (h_rel_from_abs h) (l_value sym) (Some sec)
                   (h_type h) (h_other h) (h_def_regular h) (h_def_dynamic h) (h_forced_local h)
                   (h_non_got_ref h) (h_unique_global h) (h_start_stop h) (h_dynamic h) (h_dynindx h)
                   (h_plt_offset h) (h_tls_type h) in
        Some (mk_resolved (Some h) (Some sym) relocation false, ds_discarded sec, s)
      else Some (mk_resolved None (Some sym) relocation false, ds_discarded sec, s)
  | inr h =>
      let '(rs, s) := global_symbol h s in
      Some (rs, match h_root_type h, h_def_section h with
                | (bfd_link_hash_defined | bfd_link_hash_defweak), Some sec => ds_discarded sec
                | _, _ => false
                end, s)
  end.

(** [_bfd_clear_contents] (bfd/reloc.c), on the bytes of [read_reloc] and
    [write_reloc]. *)
Definition _bfd_clear_contents (howto : reloc_howto_type) (contents : list Z) (off : Z) : option (list Z) :=
  if negb (bfd_reloc_offset_in_range howto (Z.of_nat (length contents)) off) then Some contents
  else if (reloc_size howto =? 0)%nat then Some contents
  else
    x ← bfd_get big (8 * reloc_size howto) contents (Z.to_nat off);
    let x := x .& u64 (Z.lnot (dst_mask howto)) in
    let x := if is_debug_ranges isec && negb (dst_mask howto .& 1 =? 0) then x .| 1 else x in
    bfd_put big (8 * reloc_size howto) x contents (Z.to_nat off).

(** The symbol lies in a discarded section: clear the field and drop the
    relocation. *)
Definition discard (howto : reloc_howto_type) (s : link_state) : option link_state :=
  c ← _bfd_clear_contents howto (s_contents s) (r_offset (rel s));
  Some (with_rel (mk_rela (r_offset (rel s)) 0 0) (with_contents c s)).

(** ** Indirect functions *)

Definition got_offset (h : elf_link_hash_entry) (s : link_state) : Z :=
  default MINUS_ONE (s_got_offset s !! h_id h).
Definition set_got_offset (h : elf_link_hash_entry) (off : Z) (s : link_state) : link_state :=
  with_offsets (<[h_id h := off]> (s_got_offset s)) (s_local_got s) s.

(** Whether an indirect function can be reached without an entry of the PLT. *)
Definition ifunc_without_plt (r_type : Z) : bool :=
  match r_type with
  | R_RISCV_32 | R_RISCV_64 | R_RISCV_HI20 | R_RISCV_GOT_HI20 | R_RISCV_LO12_I | R_RISCV_LO12_S => true
  | _ => false
  end.

(** The relocation of a function pointer is left to the dynamic linker. *)
Definition ifunc_pointer (h : elf_link_hash_entry) (r_type : Z) (s : link_state) : option flow :=
  let off := sec_offset isec (r_offset (rel s)) in
  if (off =? MINUS_ONE) || (off =? MINUS_ONE - 1) then None
  else
    let local := (h_dynindx h =? -1) || h_forced_local h || bfd_link_executable info in
    outrel ← (if local then
                sec ← h_def_section h;
                Some (mk_rela (u64 (off + is_addr isec)) (ELFNN_R_INFO arch64 0 R_RISCV_IRELATIVE)
                        (u64 (h_def_value h + ds_addr sec)))
              else Some (mk_rela (u64 (off + is_addr isec)) (ELFNN_R_INFO arch64 (h_dynindx h) r_type) 0));
    if pic then
      l ← riscv_elf_append_rela outrel (s_irelifunc s);
      Some (F_continue (with_relas (s_srelgot s) (s_sreloc s) (Some l) (s_irelplt s) s))
    else match ht_splt htab with
         | Some _ => s ← append_relgot outrel s; Some (F_continue s)
         | None =>
             l ← riscv_elf_append_rela outrel (s_irelplt s);
             Some (F_continue (with_relas (s_srelgot s) (s_sreloc s) (s_irelifunc s) (Some l) s))
         end.

(** The entry for an indirect function without one of its own in the GOT is
    that of its PLT entry; its address. *)
Definition ifunc_got_entry (h : elf_link_hash_entry) (relocation : Z) (s : link_state)
  : option (Z * link_state) :=
  sgot ← ht_sgot htab;
  let off := got_offset h s in
  if negb (off =? MINUS_ONE) then Some (u64 (sgot + off), s)
  else
    let local := (h_dynindx h =? -1) || h_forced_local h || li_symbolic info in
    match ht_splt htab with
    | Some _ =>
        let plt_idx := u64 (h_plt_offset h - PLT_HEADER_SIZE) / PLT_ENTRY_SIZE in
        let off := u64 (GOTPLT_HEADER_SIZE + plt_idx * GOT_ENTRY_SIZE) in
        base ← ht_sgotplt htab;
        if local then
          g ← bfd_put_NN relocation (s_gotplt s) off;
          Some (u64 (base + off), set_got_offset h MINUS_ONE (with_gots (s_got s) g (s_igotplt s) s))
        else Some (u64 (base + off), s)
    | None =>
        let plt_idx := h_plt_offset h / PLT_ENTRY_SIZE in
        let off := u64 (plt_idx * GOT_ENTRY_SIZE) in
        base ← ht_igotplt htab;
        if local then
          g ← bfd_put_NN relocation (s_igotplt s) off;
          Some (u64 (base + off), set_got_offset h MINUS_ONE (with_gots (s_got s) (s_gotplt s) g s))
        else Some (u64 (base + off), s)
    end.

(** A relocation against an indirect function defined in a regular file;
    [Some None] goes on with the label [skip_ifunc]. *)
Definition ifunc_reloc (h : elf_link_hash_entry) (r_type : Z) (howto : reloc_howto_type) (s : link_state)
  : option (option flow) :=
  let bad := Some (Some (F_return false (say (M_ifunc_unsupported (r_offset (rel s))) s))) in
  let do_relocation relocation s := Some (Some (F_break s (Some howto) relocation bfd_reloc_ok None false)) in
  if negb (is_alloc isec) then
    if is_note isec then Some None else if is_debugging isec then Some (Some (F_continue s)) else None
  else if (h_plt_offset h =? MINUS_ONE) && negb (ifunc_without_plt r_type) then bad
  else
    plt ← (match ht_splt htab with Some p => Some p | None => ht_iplt htab end);
    let relocation := u64 (plt + h_plt_offset h) in
    match r_type with
    | R_RISCV_32 | R_RISCV_64 =>
        if negb (r_addend (rel s) =? 0)
        then Some (Some (F_return false (say (M_ifunc_addend (r_offset (rel s))) s)))
        else if (pic && h_non_got_ref h) || (h_plt_offset h =? MINUS_ONE)
        then f ← ifunc_pointer h r_type s; Some (Some f)
        else do_relocation relocation s
    | R_RISCV_GOT_HI20 =>
        '(address, s) ← ifunc_got_entry h relocation s;
        do_relocation address (record_hi s address r_type false)
    | R_RISCV_CALL | R_RISCV_CALL_PLT | R_RISCV_HI20 | R_RISCV_LO12_I | R_RISCV_LO12_S =>
        do_relocation relocation s
    | R_RISCV_PCREL_HI20 => do_relocation relocation (record_hi s relocation r_type false)
    | _ => bad
    end.

(** ** Cases of the switch *)

(** The howto of the relocation as it is now. *)
Definition current_howto (s : link_state) : option reloc_howto_type :=
  riscv_elf_rtype_to_howto (ELFNN_R_TYPE arch64 (r_info (rel s))).

(** Use an absolute address if only that is in reach, and record the high part
    of [value + addend]. *)
Definition zero_and_record (r_type : Z) (howto : reloc_howto_type) (relocation addend : Z) (unresolved : bool)
    (s : link_state) : option flow :=
  z ← riscv_zero_pcrel_hi_reloc arch64 pic (rel s) (pc s) relocation (s_contents s) howto;
  let '(absolute, s) :=
    match z with
    | Some (r, c) => (true, with_rel r (with_contents c s))
    | None => (false, s)
    end in
  match current_howto s with
  | None => Some (F_break s None relocation bfd_reloc_notsupported None unresolved)
  | Some howto =>
      Some (F_break (record_hi s (u64 (relocation + addend)) r_type absolute) (Some howto) relocation
              bfd_reloc_ok None unresolved)
  end.

(** The entry of the GOT: filled in by the first relocation that uses it, which
    leaves a mark in the lowest bit of its offset. *)
Definition got_entry (rs : resolved_symbol) (r_symndx : Z) (s : link_state)
  : option (Z * bool * link_state) :=
  match rs_h rs with
  | Some h =>
      let off := got_offset h s in
      let s := BFD_ASSERT (negb (off =? MINUS_ONE)) s in
      if RISCV_RESOLVED_LOCALLY dyn info h then
        if negb (off .& 1 =? 0) then Some (off .& u64 (Z.lnot 1), rs_unresolved rs, s)
        else s ← put_got (rs_relocation rs) off s; Some (off, rs_unresolved rs, set_got_offset h (off .| 1) s)
      else Some (off, false, s)
  | None =>
      off ← s_local_got s !! r_symndx;
      let s := BFD_ASSERT (negb (off =? MINUS_ONE)) s in
      if negb (off .& 1 =? 0) then Some (off .& u64 (Z.lnot 1), rs_unresolved rs, s)
      else
        sgot ← ht_sgot htab;
        '(value, s) ←
          (if pic then
             s ← append_relgot (mk_rela (u64 (sgot + off)) (ELFNN_R_INFO arch64 0 R_RISCV_RELATIVE)
                                  (rs_relocation rs)) s;
             Some (0, s)
           else Some (rs_relocation rs, s));
        s ← put_got value off s;
        Some (off, rs_unresolved rs, with_offsets (s_got_offset s) (<[r_symndx := off .| 1]> (s_local_got s)) s)
  end.

Definition reloc_got_hi20 (rs : resolved_symbol) (r_symndx r_type : Z) (howto : reloc_howto_type) (s : link_state)
  : option flow :=
  '(off, unresolved, s) ← got_entry rs r_symndx s;
  if negb (r_addend (rel s) =? 0)
  then Some (F_break s (Some howto) (rs_relocation rs) bfd_reloc_dangerous (Some D_got_addend) unresolved)
  else sgot ← ht_sgot htab; zero_and_record r_type howto (u64 (sgot + off)) 0 unresolved s.

(** The relocations of LEB128 differences. *)
Definition reloc_set_uleb128 (rs : resolved_symbol) (howto : reloc_howto_type) (s : link_state) : flow :=
  match s_uleb128_set s with
  | None => F_continue (with_uleb128 (Some (rs_relocation rs, rel s)) s)
  | Some _ => F_break s (Some howto) (rs_relocation rs) bfd_reloc_dangerous (Some D_set_uleb128) (rs_unresolved rs)
  end.
Definition reloc_sub_uleb128 (rs : resolved_symbol) (howto : reloc_howto_type) (s : link_state) : flow :=
  match s_uleb128_set s with
  | Some (vma, set_rel) =>
      if r_offset set_rel =? r_offset (rel s) then
        let relocation := u64 (vma - rs_relocation rs + r_addend set_rel) in
        let s := with_uleb128 None s in
        F_break (if ht_check_uleb128 htab && negb (r_addend (rel s) =? 0) then say M_uleb128_addend s else s)
          (Some howto) relocation bfd_reloc_ok None (rs_unresolved rs)
      else F_break s (Some howto) (rs_relocation rs) bfd_reloc_dangerous (Some D_sub_uleb128) (rs_unresolved rs)
  | None => F_break s (Some howto) (rs_relocation rs) bfd_reloc_dangerous (Some D_sub_uleb128) (rs_unresolved rs)
  end.

(** The value added to, or subtracted from, what is there. *)
Definition reloc_add_sub (rs : resolved_symbol) (howto : reloc_howto_type) (s : link_state) : option flow :=
  old_value ← (if in_contents (bitsize howto) (s_contents s) (r_offset (rel s))
               then bfd_get big (bitsize howto) (s_contents s) (Z.to_nat (r_offset (rel s))) else None);
  Some (F_break s (Some howto) (add_sub_value howto old_value (rs_relocation rs)) bfd_reloc_ok None
          (rs_unresolved rs)).

(** Replace the base register of the instruction at [off]. *)
Definition set_rs1 (off reg : Z) (s : link_state) : option link_state :=
  insn ← riscv_get_insn 32 (s_contents s) off;
  let insn := (insn .& u64 (Z.lnot (OP_MASK FLD_RS1 << OP_SH FLD_RS1))) .| (reg << OP_SH FLD_RS1) in
  c ← riscv_put_insn 32 insn (s_contents s) off;
  Some (with_contents c s).

(** A call of an undefined weak function becomes a call of address zero. *)
Definition call_undefweak (rs : resolved_symbol) (s : link_state) : option (Z * link_state) :=
  match rs_h rs with
  | Some h =>
      if is_undefweak h && (negb pic || (h_plt_offset h =? MINUS_ONE))
      then s ← set_rs1 (r_offset (rel s) + 4) 0 s; Some (pc s, s)
      else Some (rs_relocation rs, s)
  | None => Some (rs_relocation rs, s)
  end.

Definition reloc_jump (rs : resolved_symbol) (relocation : Z) (howto : reloc_howto_type) (s : link_state)
  : option flow :=
  let plain := Some (F_break s (Some howto) relocation bfd_reloc_ok None (rs_unresolved rs)) in
  match rs_h rs with
  | Some h =>
      if negb pic then plain
      else if negb (h_plt_offset h =? MINUS_ONE) then
        splt ← ht_splt htab;
        Some (F_break s (Some howto) (u64 (splt + h_plt_offset h)) bfd_reloc_ok None false)
      else if negb (SYMBOL_REFERENCES_LOCAL info (Some h)) && is_alloc isec && is_readonly isec
              && (ELF_ST_VISIBILITY (h_other h) =? STV_DEFAULT)
      then Some (F_break s (Some howto) relocation bfd_reloc_notsupported (Some E_binds_externally)
                   (rs_unresolved rs))
      else plain
  | None => plain
  end.

(** Thread-local accesses relaxed to the base register tp. *)
Definition reloc_tprel_relaxed (rs : resolved_symbol) (howto : reloc_howto_type) (s : link_state) : option flow :=
  let relocation := tpoff (ht_tls_sec htab) (rs_relocation rs) in
  if VALID_ITYPE_IMM (u64 (relocation + r_addend (rel s)))
  then s ← set_rs1 (r_offset (rel s)) X_TP s;
       Some (F_break s (Some howto) relocation bfd_reloc_ok None (rs_unresolved rs))
  else Some (F_break s (Some howto) relocation bfd_reloc_overflow None (rs_unresolved rs)).

(** Accesses relaxed to the base register x0 or gp. *)
Definition reloc_gprel (rs : resolved_symbol) (howto : reloc_howto_type) (s : link_state) : option flow :=
  let gp := ht_gp htab in
  let relocation := rs_relocation rs in
  let x0_base := VALID_ITYPE_IMM (u64 (relocation + r_addend (rel s))) in
  if x0_base || VALID_ITYPE_IMM (u64 (relocation + r_addend (rel s) - gp)) then
    let r := rel s in
    s ← set_rs1 (r_offset r) (if x0_base then 0 else X_GP) s;
    let s := if x0_base then s else with_rel (mk_rela (r_offset r) (r_info r) (u64 (r_addend r - gp))) s in
    Some (F_break s (Some howto) relocation bfd_reloc_ok None (rs_unresolved rs))
  else Some (F_break s (Some howto) relocation bfd_reloc_overflow None (rs_unresolved rs)).

(** A low part names the address of its high part, not by a section symbol with
    an addend. *)
Definition reloc_pcrel_lo12 (rs : resolved_symbol) (howto : reloc_howto_type) (s : link_state) : flow :=
  let section_symbol :=
    match rs_sym rs with Some sym => l_type sym =? STT_SECTION | None => false end
    || match rs_h rs with Some h => h_type h =? STT_SECTION | None => false end in
  if section_symbol && negb (r_addend (rel s) =? 0)
  then F_break s (Some howto) (rs_relocation rs) bfd_reloc_dangerous (Some D_pcrel_lo_section) (rs_unresolved rs)
  else F_continue (with_pcrel (riscv_record_pcrel_lo_reloc (s_pcrel s) (rs_relocation rs) (rel s) howto) s).

(** An address in data, which the dynamic linker may have to adjust. *)
Definition reloc_address (rs : resolved_symbol) (r_type : Z) (howto : reloc_howto_type) (s : link_state)
  : option flow :=
  let resolved_to_zero := match rs_h rs with Some h => UNDEFWEAK_NO_DYNAMIC_RELOC info h | None => false end in
  let plain s := F_break s (Some howto) (rs_relocation rs) bfd_reloc_ok None (rs_unresolved rs) in
  if negb (is_alloc isec) then Some (plain s)
  else if RISCV_GENERATE_DYNAMIC_RELOC (pc_relative howto) info (rs_h rs) resolved_to_zero then
    let off := sec_offset isec (r_offset (rel s)) in
    let '(skip, relocate) :=
      if off =? MINUS_ONE then (true, false)
      else if off =? MINUS_ONE - 1 then (true, true)
      else match rs_h rs with
           | Some h => if bfd_is_abs_symbol h
                       then let local := h_forced_local h || (h_dynindx h =? -1) in (local, local)
                       else (false, false)
           | None => (false, false)
           end in
    let off := u64 (off + is_addr isec) in
    let outrel :=
      if skip then mk_rela 0 0 0
      else match rs_h rs with
           | Some h => if RISCV_COPY_INPUT_RELOC info (rs_h rs)
                       then mk_rela off (ELFNN_R_INFO arch64 (h_dynindx h) r_type) (r_addend (rel s))
                       else mk_rela off (ELFNN_R_INFO arch64 0 R_RISCV_RELATIVE)
                              (u64 (rs_relocation rs + r_addend (rel s)))
           | None => mk_rela off (ELFNN_R_INFO arch64 0 R_RISCV_RELATIVE)
                       (u64 (rs_relocation rs + r_addend (rel s)))
           end in
    l ← riscv_elf_append_rela outrel (s_sreloc s);
    let s := with_relas (s_srelgot s) (Some l) (s_irelifunc s) (s_irelplt s) s in
    Some (if relocate then plain s else F_continue s)
  else Some (plain s).

(** ** Thread-local entries of the GOT *)

Definition R_RISCV_TLS_DTPMODNN : Z := if arch64 then R_RISCV_TLS_DTPMOD64 else R_RISCV_TLS_DTPMOD32.
Definition R_RISCV_TLS_DTPRELNN : Z := if arch64 then R_RISCV_TLS_DTPREL64 else R_RISCV_TLS_DTPREL32.
Definition R_RISCV_TLS_TPRELNN : Z := if arch64 then R_RISCV_TLS_TPREL64 else R_RISCV_TLS_TPREL32.

(** The two words of general dynamic accesses: module and offset. *)
Definition fill_tls_gd (sgot off indx : Z) (need_relocs : bool) (rs : resolved_symbol) (s : link_state)
  : option link_state :=
  let offset := dtpoff (ht_tls_sec htab) (rs_relocation rs) in
  if need_relocs then
    s ← put_got 0 off s;
    s ← append_relgot (mk_rela (u64 (sgot + off)) (ELFNN_R_INFO arch64 indx R_RISCV_TLS_DTPMODNN) 0) s;
    if indx =? 0 then put_got offset (off + RISCV_ELF_WORD_BYTES) (BFD_ASSERT (negb (rs_unresolved rs)) s)
    else
      s ← put_got 0 (off + RISCV_ELF_WORD_BYTES) s;
      append_relgot (mk_rela (u64 (sgot + off + RISCV_ELF_WORD_BYTES))
                       (ELFNN_R_INFO arch64 indx R_RISCV_TLS_DTPRELNN) 0) s
  else s ← put_got 1 off s; put_got offset (off + RISCV_ELF_WORD_BYTES) s.

(** The word of initial executable accesses: the offset from tp. *)
Definition fill_tls_ie (sgot off indx : Z) (need_relocs : bool) (rs : resolved_symbol) (s : link_state)
  : option link_state :=
  let offset := tpoff (ht_tls_sec htab) (rs_relocation rs) in
  if need_relocs then
    s ← put_got 0 off s;
    append_relgot (mk_rela (u64 (sgot + off)) (ELFNN_R_INFO arch64 indx R_RISCV_TLS_TPRELNN)
                     (if indx =? 0 then offset else 0)) s
  else put_got offset off s.

(** [local_tls_type] is the type of a local symbol's entry. *)
Definition reloc_tls_got (local_tls_type : Z -> Z) (is_ie : bool) (rs : resolved_symbol) (r_symndx r_type : Z)
    (howto : reloc_howto_type) (s : link_state) : option flow :=
  '(off, s) ← (match rs_h rs with
               | Some h => let off := got_offset h s in Some (off, set_got_offset h (off .| 1) s)
               | None => off ← s_local_got s !! r_symndx;
                         Some (off, with_offsets (s_got_offset s) (<[r_symndx := off .| 1]> (s_local_got s)) s)
               end);
  let tls_type := match rs_h rs with Some h => h_tls_type h | None => local_tls_type r_symndx end in
  let gd := negb (tls_type .& GOT_TLS_GD =? 0) in
  let ie := negb (tls_type .& GOT_TLS_IE =? 0) in
  let s := BFD_ASSERT (gd || ie) s in
  let ie_off := if gd && ie then 2 * GOT_ENTRY_SIZE else 0 in
  sgot ← ht_sgot htab;
  '(off, s) ←
    (if negb (off .& 1 =? 0) then Some (off .& u64 (Z.lnot 1), s)
     else
       _ ← s_srelgot s;
       let '(indx, need_relocs) := RISCV_TLS_GD_IE_NEED_DYN_RELOC info dyn (rs_h rs) in
       s ← (if gd then fill_tls_gd sgot off indx need_relocs rs s else Some s);
       s ← (if ie then fill_tls_ie sgot (off + ie_off) indx need_relocs rs s else Some s);
       Some (off, s));
  let s := BFD_ASSERT (off <? MINUS_ONE - 1) s in
  let relocation := u64 (sgot + off + (if is_ie then ie_off else 0)) in
  Some (F_break (record_hi s relocation r_type false) (Some howto) relocation bfd_reloc_ok None false).

(** ** One relocation *)

(** The [switch] on the type. *)
Definition reloc_switch (local_tls_type : Z -> Z) (rs : resolved_symbol) (r_symndx r_type : Z)
    (howto : reloc_howto_type) (s : link_state) : option flow :=
  let break relocation := Some (F_break s (Some howto) relocation bfd_reloc_ok None (rs_unresolved rs)) in
  let plain := break (rs_relocation rs) in
  match r_type with
  | R_RISCV_NONE | R_RISCV_RELAX | R_RISCV_TPREL_ADD | R_RISCV_COPY | R_RISCV_JUMP_SLOT
  | R_RISCV_RELATIVE => Some (F_continue s)
  | R_RISCV_HI20 | R_RISCV_BRANCH | R_RISCV_RVC_BRANCH | R_RISCV_RVC_LUI | R_RISCV_LO12_I | R_RISCV_LO12_S
  | R_RISCV_SET6 | R_RISCV_SET8 | R_RISCV_SET16 | R_RISCV_SET32 | R_RISCV_32_PCREL | R_RISCV_DELETE => plain
  | R_RISCV_SET_ULEB128 => Some (reloc_set_uleb128 rs howto s)
  | R_RISCV_SUB_ULEB128 => Some (reloc_sub_uleb128 rs howto s)
  | R_RISCV_GOT_HI20 => reloc_got_hi20 rs r_symndx r_type howto s
  | R_RISCV_ADD8 | R_RISCV_ADD16 | R_RISCV_ADD32 | R_RISCV_ADD64 | R_RISCV_SUB6 | R_RISCV_SUB8
  | R_RISCV_SUB16 | R_RISCV_SUB32 | R_RISCV_SUB64 => reloc_add_sub rs howto s
  | R_RISCV_CALL | R_RISCV_CALL_PLT =>
      '(relocation, s) ← call_undefweak rs s; reloc_jump rs relocation howto s
  | R_RISCV_JAL | R_RISCV_RVC_JUMP => reloc_jump rs (rs_relocation rs) howto s
  | R_RISCV_TPREL_HI20 | R_RISCV_TPREL_LO12_I | R_RISCV_TPREL_LO12_S =>
      break (tpoff (ht_tls_sec htab) (rs_relocation rs))
  | R_RISCV_TPREL_I | R_RISCV_TPREL_S => reloc_tprel_relaxed rs howto s
  | R_RISCV_GPREL_I | R_RISCV_GPREL_S => reloc_gprel rs howto s
  | R_RISCV_PCREL_HI20 =>
      zero_and_record r_type howto (rs_relocation rs) (r_addend (rel s)) (rs_unresolved rs) s
  | R_RISCV_PCREL_LO12_I | R_RISCV_PCREL_LO12_S => Some (reloc_pcrel_lo12 rs howto s)
  | R_RISCV_TLS_DTPREL32 | R_RISCV_TLS_DTPREL64 => break (dtpoff (ht_tls_sec htab) (rs_relocation rs))
  | R_RISCV_32 => if arch64 then plain else reloc_address rs r_type howto s
  | R_RISCV_64 => reloc_address rs r_type howto s
  | R_RISCV_TLS_GOT_HI20 => reloc_tls_got local_tls_type true rs r_symndx r_type howto s
  | R_RISCV_TLS_GD_HI20 => reloc_tls_got local_tls_type false rs r_symndx r_type howto s
  | _ => Some (F_break s (Some howto) (rs_relocation rs) bfd_reloc_notsupported None (rs_unresolved rs))
  end.

(** The report of a status other than [bfd_reloc_ok]. *)
Definition report_status (r : bfd_reloc_status_type) (msg : option reloc_msg) (s : link_state) : link_state :=
  let off := r_offset (rel s) in
  match r with
  | bfd_reloc_ok => s
  | bfd_reloc_overflow =>
      let s := say (M_overflow off) s in match msg with Some m => say (M_einfo m) s | None => s end
  | bfd_reloc_outofrange => say (M_einfo (default E_out_of_range msg)) s
  | bfd_reloc_notsupported => say (M_einfo (default E_unsupported msg)) s
  | bfd_reloc_dangerous => say (M_dangerous (default D_dangerous msg) off) s
  | bfd_reloc_continue => say (M_einfo E_unknown) s
  end.

(** The common end: [inl] goes on with the next relocation, [inr] is the value
    the function returns. *)
Definition finish_reloc (rs : resolved_symbol) (f : flow) : option (link_state + bool * link_state) :=
  match f with
  | F_continue s => Some (inl s)
  | F_return b s => Some (inr (b, s))
  | F_break s howto relocation r msg unresolved =>
      let def_dynamic := match rs_h rs with Some h => h_def_dynamic h | None => false end in
      let '(r, msg) :=
        if unresolved && negb (is_debugging isec && def_dynamic)
           && negb (sec_offset isec (r_offset (rel s)) =? MINUS_ONE)
        then (bfd_reloc_notsupported, Some E_unresolvable) else (r, msg) in
      '(r, s) ←
        (match r with
         | bfd_reloc_ok =>
             howto ← howto;
             '(r, c) ← perform_relocation arch64 big (is_addr isec) howto (rel s) relocation (s_contents s);
             Some (r, with_contents c s)
         | _ => Some (r, s)
         end);
      match r with
      | bfd_reloc_ok => Some (inl s)
      | _ => Some (inr (true, report_status r msg s))
      end
  end.

(** The body of the loop. *)
Definition relocate_one (symbols : Z -> local_symbol + elf_link_hash_entry) (local_tls_type : Z -> Z)
    (s : link_state) : option (link_state + bool * link_state) :=
  let r_type := ELFNN_R_TYPE arch64 (r_info (rel s)) in
  let r_symndx := ELFNN_R_SYM arch64 (r_info (rel s)) in
  match riscv_elf_rtype_to_howto r_type with
  | None => Some (inl (say (M_unsupported_type r_type) s))
  | Some howto =>
      '(rs, discarded, s) ← resolve_symbol (symbols r_symndx) s;
      if discarded : bool then s ← discard howto s; Some (inl s)
      else
        i ← (match rs_h rs with
             | Some h => if (h_type h =? STT_GNU_IFUNC) && h_def_regular h
                         then ifunc_reloc h r_type howto s else Some None
             | None => Some None
             end);
        f ← (match i with
             | Some f => Some f
             | None => reloc_switch local_tls_type rs r_symndx r_type howto s
             end);
        finish_reloc rs f
  end.

(** ** The section *)

(** The loop: the value returned, the state, and the relocations as they are
    left. *)
Fixpoint relocate_loop (symbols : Z -> local_symbol + elf_link_hash_entry) (local_tls_type : Z -> Z)
    (rels : list Elf_Internal_Rela) (s : link_state) : option (option bool * link_state * list Elf_Internal_Rela) :=
  match rels with
  | [] => Some (None, s, [])
  | r :: rels =>
      o ← relocate_one symbols local_tls_type (with_rel r s);
      match o with
      | inl s => '(ret, s', rels) ← relocate_loop symbols local_tls_type rels s; Some (ret, s', rel s :: rels)
      | inr (ret, s) => Some (Some ret, s, rel s :: rels)
      end
  end.

(** [riscv_elf_relocate_section].  The tables, the offsets and the entries
    appended so far are those of [s]; the pairs of high and low parts and the
    pending LEB128 difference are of this call. *)
Definition riscv_elf_relocate_section (symbols : Z -> local_symbol + elf_link_hash_entry)
    (local_tls_type : Z -> Z) (relocs : list Elf_Internal_Rela) (s : link_state)
  : option (bool * link_state * list Elf_Internal_Rela) :=
  let s := with_pcrel riscv_init_pcrel_relocs (with_uleb128 None s) in
  '(ret, s, relocs) ← relocate_loop symbols local_tls_type relocs s;
  match ret with
  | Some ret => Some (ret, s, relocs)
  | None =>
      '(c, e) ← riscv_resolve_pcrel_lo_relocs arch64 big (is_addr isec) (s_pcrel s) (s_contents s);
      let s := with_contents c s in
      Some (true, match e with Some (e, off) => say (M_pcrel_lo e off) s | None => s end, relocs)
  end.

End relocate.
