(* ===== verification/LinkFrame.v ===== *)
(** * What relocating leaves alone

    Each relocation of a section writes the bytes of its own field only, adds a
    high part at its own address only, and reports a message when the function
    returns early.  From this follows what the whole pass does to the field of
    one relocation that no other one touches. *)
From Stdlib Require Import ZArith Bool Lia.
From stdpp Require Import base list gmap.
From S2P Require Import Prelude OpcodeH RiscvH Immediates Words OpcodeMatch Bytes Howto Fixups FixupsSpec LinkReloc LinkRelocSpec LinkRelocate.

#[local] Open Scope Z_scope.
#[local] Open Scope c_scope.
#[local] Open Scope list_scope.

(** ** Bytes outside a range *)

Lemma same_outside_refl off n c : same_outside off n c c.
Proof. done. Qed.

Lemma same_outside_trans off n c1 c2 c3 :
  same_outside off n c1 c2 -> same_outside off n c2 c3 -> same_outside off n c1 c3.
Proof. intros (H1 & H2 & H3) (K1 & K2 & K3). split_and!; congruence. Qed.

(** A smaller range. *)
Lemma same_outside_weaken off n off' n' c c' :
  (off <= off')%nat -> (off' + n' <= off + n)%nat -> same_outside off' n' c c' -> same_outside off n c c'.
Proof.
  intros Ho Hn (H1 & H2 & H3). split; [done|]. split.
  - apply (f_equal (take off)) in H2. rewrite !take_take in H2. by replace (off `min` off')%nat with off in H2 by lia.
  - apply (f_equal (drop (off + n - (off' + n')))) in H3. rewrite !drop_drop in H3.
    by replace (off' + n' + (off + n - (off' + n')))%nat with (off + n)%nat in H3 by lia.
Qed.

Lemma putb_same_outside bs c off :
  (off + length bs <= length c)%nat -> same_outside off (length bs) c (putb bs c off).
Proof.
  intros H. unfold putb. split; [rewrite !length_app, length_take, length_drop; lia|]. split.
  - rewrite take_app_le by (rewrite length_take; lia). rewrite take_take. f_equal. lia.
  - rewrite drop_app_ge by (rewrite length_take; lia). rewrite length_take.
    rewrite drop_app_ge by lia. rewrite drop_drop. f_equal. lia.
Qed.

(** Two ranges of bytes do not meet. *)
Definition disjoint_ranges (x k off n : nat) : Prop := (k = 0 \/ n = 0 \/ x + k <= off \/ off + n <= x)%nat.

Lemma same_outside_take off n c c' x k :
  same_outside off n c c' -> disjoint_ranges x k off n -> take k (drop x c') = take k (drop x c).
Proof.
  intros (Hl & Ht & Hd) Hr. unfold disjoint_ranges in Hr.
  assert (Hk : k = 0%nat \/ (x + k <= off)%nat \/ (off + n <= x)%nat \/ n = 0%nat) by lia.
  destruct Hk as [->|[Hk|[Hk| ->]]].
  - done.
  - apply (f_equal (drop x)) in Ht. rewrite !skipn_firstn_comm in Ht.
    apply (f_equal (take k)) in Ht. rewrite !take_take in Ht.
    by replace (k `min` (off - x))%nat with k in Ht by lia.
  - apply (f_equal (drop (x - (off + n)))) in Hd. rewrite !drop_drop in Hd.
    replace (off + n + (x - (off + n)))%nat with x in Hd by lia. congruence.
  - rewrite Nat.add_0_r in Hd. assert (c' = c) as ->; [|done].
    rewrite <- (take_drop off c'), <- (take_drop off c). congruence.
Qed.

Lemma same_outside_getl off n c c' x k :
  same_outside off n c c' -> disjoint_ranges x k off n -> getl k c' x = getl k c x.
Proof. intros H Hr. unfold getl. f_equal. by apply (same_outside_take off n). Qed.

Abbreviation bytes c := (Forall (fun b => 0 <= b < 256) c).

(** Only [n] bytes at [off] were written. *)
Definition wrote (off n : nat) (c c' : list Z) : Prop := same_outside off n c c' /\ (bytes c -> bytes c').

Lemma wrote_refl off n c : wrote off n c c.
Proof. split; [apply same_outside_refl|done]. Qed.

Lemma wrote_trans off n c1 c2 c3 : wrote off n c1 c2 -> wrote off n c2 c3 -> wrote off n c1 c3.
Proof. intros [H1 H2] [K1 K2]. split; [by eapply same_outside_trans|auto]. Qed.

Lemma wrote_weaken off n off' n' c c' :
  (off <= off')%nat -> (off' + n' <= off + n)%nat -> wrote off' n' c c' -> wrote off n c c'.
Proof. intros Ho Hn [H1 H2]. split; [by apply (same_outside_weaken off n off' n')|done]. Qed.

Lemma wrote_length off n c c' : wrote off n c c' -> length c' = length c.
Proof. by intros [[H _] _]. Qed.

#[local] Hint Resolve wrote_refl : core.

Lemma bytes_le_bytes n w : bytes (bytes_le n w).
Proof.
  revert w. induction n as [|n IH]; intros w; cbn [bytes_le]; constructor; [|apply IH].
  apply Z.mod_pos_bound. lia.
Qed.

Lemma number_bytes big val n : bytes (md_number_to_chars big val n).
Proof.
  unfold md_number_to_chars. destruct big; [|apply bytes_le_bytes].
  revert val. induction n as [|n IH]; intros val; cbn [number_to_chars_bigendian]; [constructor|].
  apply Forall_app. split; [apply IH|]. repeat constructor; apply Z.mod_pos_bound; lia.
Qed.

Lemma putb_bytes bs c off : bytes bs -> bytes c -> bytes (putb bs c off).
Proof.
  intros Hb Hc. unfold putb. rewrite !Forall_app. split_and!; [by apply Forall_take|done|by apply Forall_drop].
Qed.

Lemma in_contents_true bits c off :
  in_contents bits c off = true <-> 0 <= off /\ off + Z.of_nat (bits / 8) <= Z.of_nat (length c).
Proof. unfold in_contents. rewrite andb_true_iff, !Z.leb_le. done. Qed.

Lemma bfd_put_wrote big bits val c off c' :
  (off + bits / 8 <= length c)%nat -> bfd_put big bits val c off = Some c' -> wrote off (bits / 8) c c'.
Proof.
  intros Hl. unfold bfd_put. destruct (existsb _ _); [|done]. intros <-%(inj Some).
  destruct (md_number_to_chars_word big val (bits / 8)) as [Hn _]. split.
  - pose proof (putb_same_outside (md_number_to_chars big val (bits / 8)) c off) as H. rewrite Hn in H. by apply H.
  - apply putb_bytes, number_bytes.
Qed.

Lemma put_insn_wrote bits val c off c' :
  riscv_put_insn bits val c off = Some c' -> wrote (Z.to_nat off) (bits / 8) c c'.
Proof.
  unfold riscv_put_insn. destruct (_ && _) eqn:E; [|done]. intros <-%(inj Some).
  apply andb_true_iff in E as [_ E]. apply in_contents_true in E as [E1 E2].
  set (n := (bits / 8)%nat) in *. split; [apply putl_same_outside; lia|apply putl_bytes].
Qed.

Lemma put_field_wrote big howto val c off c' :
  put_field big howto val c off = Some c' -> wrote (Z.to_nat off) (bitsize howto / 8) c c'.
Proof.
  unfold put_field. destruct (riscv_is_insn_reloc howto); [apply put_insn_wrote|].
  destruct (in_contents _ _ _) eqn:E; [|done]. apply in_contents_true in E as [E1 E2].
  apply bfd_put_wrote. set (n := (bitsize howto / 8)%nat) in *. lia.
Qed.

(** The bits of a relocation, LEB128 differences excepted. *)
Lemma relocation_bits_wrote arch64 howto rel v c o :
  ELFNN_R_TYPE arch64 (r_info rel) <> R_RISCV_SUB_ULEB128 -> relocation_bits arch64 howto rel v c = Some o ->
  wrote (Z.to_nat (r_offset rel)) (bitsize howto / 8) c (match o with inl (_, c') => c' | inr (_, c') => c' end).
Proof.
  intros Hu. unfold relocation_bits. destruct (decide (ELFNN_R_TYPE arch64 (r_info rel) = R_RISCV_RVC_LUI)) as [->|Hl].
  - destruct (_ =? 0).
    + destruct (riscv_get_insn _ _ _); [|done]. destruct (riscv_put_insn _ _ _ _) as [c'|] eqn:E; [|done].
      intros [= <-]. by apply put_insn_wrote in E.
    + destruct (VALID_CITYPE_LUI_IMM _); intros [= <-]; apply wrote_refl.
  - assert (Hc : forall (b : bool) x, Some (if b then inl (x, c) else inr (bfd_reloc_overflow, c)) = Some o ->
      wrote (Z.to_nat (r_offset rel)) (bitsize howto / 8) c (match o with inl (_, c') => c' | inr (_, c') => c' end)).
    { intros [] x <-%(inj Some); apply wrote_refl. }
    assert (Hs : forall st, Some (inr (st, c)) = Some o ->
      wrote (Z.to_nat (r_offset rel)) (bitsize howto / 8) c (match o with inl (_, c') => c' | inr (_, c') => c' end)).
    { intros st <-%(inj Some); apply wrote_refl. }
    cbv zeta. revert Hu Hl. generalize (ELFNN_R_TYPE arch64 (r_info rel)). intros t Hu Hl.
    destruct t as [|t|t]; [apply Hs| |apply Hs]. do 8 (try destruct t as [t|t|]); try apply Hs; try apply Hc; try done;
      apply (Hc true).
Qed.

Lemma perform_wrote arch64 big sec_addr howto rel v c st c' :
  ELFNN_R_TYPE arch64 (r_info rel) <> R_RISCV_SUB_ULEB128 ->
  perform_relocation arch64 big sec_addr howto rel v c = Some (st, c') ->
  wrote (Z.to_nat (r_offset rel)) (bitsize howto / 8) c c'.
Proof.
  intros Hu. unfold perform_relocation. destruct (relocation_bits _ _ _ _ _) as [o|] eqn:E; [|done].
  apply relocation_bits_wrote in E; [|done]. destruct o as [[w c1]|[st1 c1]].
  - destruct (get_field _ _ _ _); [|done]. destruct (put_field _ _ _ _ _) as [c2|] eqn:E2; [|done].
    intros [= <- <-]. apply put_field_wrote in E2. by eapply wrote_trans.
  - intros [= <- <-]. done.
Qed.

(** ** What a relocation may change *)

(** The bytes a relocation may write. *)
Definition span (howto : reloc_howto_type) : nat := Nat.max (bitsize howto / 8) (reloc_size howto).

Section effects.

Context (arch64 big : bool) (info : bfd_link_info) (htab : riscv_elf_link_hash_table) (isec : input_section).

Abbreviation rtype r := (ELFNN_R_TYPE arch64 (r_info r)).
Abbreviation pc r := (u64 (is_addr isec + r_offset r)).

(** A recorded low part of a relocation at [off] with [n] bytes. *)
Definition lo_at (off : Z) (n : nat) (x : riscv_pcrel_lo_reloc) : Prop :=
  r_offset (lo_reloc x) = off /\ (bitsize (lo_howto x) / 8 <= n)%nat /\ rtype (lo_reloc x) <> R_RISCV_SUB_ULEB128.

(** From [s] to [s'], working on one relocation with [n] bytes: only these are
    written, at most its own address gets a new high part, the low parts
    recorded are its own, messages are only added, and the offset of the
    relocation stays. *)
Record effect (n : nat) (s s' : link_state) : Prop := {
  e_rel : r_offset (s_rel s') = r_offset (s_rel s);
  e_contents : wrote (Z.to_nat (r_offset (s_rel s))) n (s_contents s) (s_contents s');
  e_hi : forall a, a <> pc (s_rel s) \/ n = 0%nat -> hi_relocs (s_pcrel s') !! a = hi_relocs (s_pcrel s) !! a;
  e_lo : exists l, lo_relocs (s_pcrel s') = l ++ lo_relocs (s_pcrel s) /\ Forall (lo_at (r_offset (s_rel s)) n) l;
  e_log : exists l, s_log s' = s_log s ++ l;
}.

Lemma effect_same n s s' :
  r_offset (s_rel s') = r_offset (s_rel s) -> s_contents s' = s_contents s -> s_pcrel s' = s_pcrel s ->
  s_log s' = s_log s -> effect n s s'.
Proof.
  intros R C P L. split; [done|rewrite C; auto|by rewrite P| |].
  - exists []. rewrite P. by split.
  - exists []. by rewrite L, app_nil_r.
Qed.

Lemma effect_refl n s : effect n s s.
Proof. by apply effect_same. Qed.

Lemma effect_trans n s1 s2 s3 : effect n s1 s2 -> effect n s2 s3 -> effect n s1 s3.
Proof.
  intros [R1 C1 H1 (k1 & K1 & F1) [l1 L1]] [R2 C2 H2 (k2 & K2 & F2) [l2 L2]]. rewrite R1 in *. split.
  - congruence.
  - by eapply wrote_trans.
  - intros a Ha. by rewrite H2, H1.
  - exists (k2 ++ k1). rewrite K2, K1, app_assoc. split; [done|]. by apply Forall_app.
  - exists (l1 ++ l2). by rewrite L2, L1, app_assoc.
Qed.

Lemma effect_say n m s : effect n s (say m s).
Proof. split; [done|cbn; auto|done|by exists []|]. by exists [m]. Qed.

(** [BFD_ASSERT] changes the log only. *)
Lemma assert_rel b s : s_rel (BFD_ASSERT b s) = s_rel s.
Proof. by destruct b. Qed.

Lemma assert_contents b s : s_contents (BFD_ASSERT b s) = s_contents s.
Proof. by destruct b. Qed.

Lemma effect_assert n b s : effect n s (BFD_ASSERT b s).
Proof. destruct b; [apply effect_refl|apply effect_say]. Qed.

Lemma effect_contents n c s :
  wrote (Z.to_nat (r_offset (s_rel s))) n (s_contents s) c -> effect n s (with_contents c s).
Proof. intros H. split; [done|done|done|by exists []|]. exists []. by rewrite app_nil_r. Qed.

Lemma effect_hi n v t b c s :
  n <> 0%nat ->
  effect n s (with_pcrel (riscv_record_pcrel_hi_reloc (s_pcrel s) (pc (s_rel s)) v t b) (BFD_ASSERT c s)).
Proof.
  intros Hn. eapply effect_trans; [apply (effect_assert n c)|].
  assert (E : s_pcrel s = s_pcrel (BFD_ASSERT c s) /\ s_rel s = s_rel (BFD_ASSERT c s)) by (by destruct c).
  destruct E as [-> ->]. generalize (BFD_ASSERT c s) as s1. intros s1. split; [done|cbn; auto| |by exists []|].
  - intros a [Ha|Ha]; [|done]. cbn. by rewrite lookup_insert_ne.
  - exists []. by rewrite app_nil_r.
Qed.

Lemma effect_lo n a h s :
  (bitsize h / 8 <= n)%nat -> rtype (s_rel s) <> R_RISCV_SUB_ULEB128 ->
  effect n s (with_pcrel (riscv_record_pcrel_lo_reloc (s_pcrel s) a (s_rel s) h) s).
Proof.
  intros Hn Ht. split; [done|cbn; auto|done| |].
  - exists [mk_lo a (s_rel s) h]. split; [done|]. by repeat constructor.
  - exists []. by rewrite app_nil_r.
Qed.

(** The same, and the relocation is as it was. *)
Definition keeps (n : nat) (s s' : link_state) : Prop := s_rel s' = s_rel s /\ effect n s s'.

Lemma keeps_trans n s1 s2 s3 : keeps n s1 s2 -> keeps n s2 s3 -> keeps n s1 s3.
Proof. intros [R1 E1] [R2 E2]. split; [congruence|by eapply effect_trans]. Qed.

Lemma keeps_same n s s' :
  s_rel s' = s_rel s -> s_contents s' = s_contents s -> s_pcrel s' = s_pcrel s -> s_log s' = s_log s ->
  keeps n s s'.
Proof. intros R C P L. split; [done|]. apply effect_same; congruence. Qed.

Lemma keeps_refl n s : keeps n s s.
Proof. by apply keeps_same. Qed.

Lemma keeps_assert n b s : keeps n s (BFD_ASSERT b s).
Proof. split; [by destruct b|apply effect_assert]. Qed.

Lemma keeps_hi n v t b c s :
  n <> 0%nat ->
  keeps n s (with_pcrel (riscv_record_pcrel_hi_reloc (s_pcrel s) (pc (s_rel s)) v t b) (BFD_ASSERT c s)).
Proof. intros Hn. split; [by destruct c|by apply effect_hi]. Qed.

Lemma put_got_keeps n v off s s' : put_got arch64 big v off s = Some s' -> keeps n s s'.
Proof. unfold put_got. destruct (bfd_put_NN _ _ _ _ _); [|done]. intros [= <-]. by apply keeps_same. Qed.

Lemma append_relgot_keeps n r s s' : append_relgot r s = Some s' -> keeps n s s'.
Proof. unfold append_relgot. destruct (riscv_elf_append_rela _ _); [|done]. intros [= <-]. by apply keeps_same. Qed.

Lemma set_rs1_keeps n k off reg s s' :
  off = r_offset (s_rel s) + Z.of_nat k -> 0 <= r_offset (s_rel s) -> (k + 4 <= n)%nat ->
  set_rs1 off reg s = Some s' -> keeps n s s'.
Proof.
  intros -> H0 Hk. unfold set_rs1. destruct (riscv_get_insn _ _ _); [|done]. cbn [mbind option_bind].
  destruct (riscv_put_insn _ _ _ _) as [c|] eqn:E; [|done]. intros [= <-]. split; [done|]. apply effect_contents.
  apply put_insn_wrote in E. eapply wrote_weaken; [| |exact E]; [lia|]. change (32 / 8)%nat with 4%nat. lia.
Qed.

(** ** Cases *)

Definition flow_state (f : flow) : link_state :=
  match f with F_continue s | F_return _ s | F_break s _ _ _ _ _ => s end.

(** A flow that ends in [perform_relocation] has a howto for it. *)
Definition flow_performs (n : nat) (f : flow) : Prop :=
  match f with
  | F_break s howto _ bfd_reloc_ok _ _ =>
      exists h, howto = Some h /\ (bitsize h / 8 <= n)%nat /\ rtype (s_rel s) <> R_RISCV_SUB_ULEB128
  | _ => True
  end.

Definition flow_effect (n : nat) (s : link_state) (f : flow) : Prop :=
  effect n s (flow_state f) /\ flow_performs n f.

(** The relocation at hand: its howto has [n] bytes. *)
Record at_hand (n : nat) (howto : reloc_howto_type) (s : link_state) : Prop := {
  ah_off : 0 <= r_offset (s_rel s);
  ah_howto : riscv_elf_rtype_to_howto (rtype (s_rel s)) = Some howto;
  ah_size : (span howto <= n)%nat;
  ah_type : rtype (s_rel s) <> R_RISCV_SUB_ULEB128;
}.

Lemma at_hand_bits n howto s : at_hand n howto s -> (bitsize howto / 8 <= n)%nat.
Proof. intros [_ _ H _]. unfold span in H. lia. Qed.

Lemma at_hand_rel n howto s s' : s_rel s' = s_rel s -> at_hand n howto s -> at_hand n howto s'.
Proof. intros Hr [H1 H2 H3 H4]. split; rewrite ?Hr; done. Qed.

Lemma break_effect n howto s s' v st msg u :
  at_hand n howto s -> keeps n s s' -> flow_effect n s (F_break s' (Some howto) v st msg u).
Proof.
  intros Hh [Hr He]. split; [done|]. cbn. destruct st; [|done..]. exists howto.
  split; [done|]. split; [by apply at_hand_bits in Hh|]. rewrite Hr. by apply Hh.
Qed.

Lemma continue_effect n s s' : effect n s s' -> flow_effect n s (F_continue s').
Proof. by split. Qed.

Create HintDb link discriminated.
#[local] Hint Resolve keeps_refl effect_refl keeps_assert : link.
#[local] Hint Resolve break_effect continue_effect effect_lo : link.

Lemma got_entry_keeps n rs symndx s off u s' :
  got_entry arch64 big info htab rs symndx s = Some (off, u, s') -> keeps n s s'.
Proof.
  unfold got_entry. destruct (rs_h rs) as [h|].
  - set (s1 := BFD_ASSERT _ s). assert (H1 : keeps n s s1) by apply keeps_assert. clearbody s1.
    destruct (RISCV_RESOLVED_LOCALLY _ _ _); [|by intros [= <- <- <-]].
    destruct (negb _); [by intros [= <- <- <-]|]. intros H. bind_inv. injection H as <- <- <-.
    eapply keeps_trans; [exact H1|]. eapply keeps_trans; [by eapply put_got_keeps|]. by apply keeps_same.
  - intros H. bind_inv. set (s1 := BFD_ASSERT _ s) in *. assert (H1 : keeps n s s1) by apply keeps_assert. clearbody s1.
    destruct (negb _); [by injection H as <- <- <-|]. bind_inv. injection H as <- <- <-.
    eapply keeps_trans; [exact H1|]. eapply (keeps_trans _ _ _ _); [|eapply keeps_trans; [by eapply put_got_keeps|by apply keeps_same]].
    destruct (bfd_link_pic info); bind_inv; simplify_eq; [by eapply append_relgot_keeps|apply keeps_refl].
Qed.

Lemma zero_pcrel_hi pic r pc addr c howto r' c' :
  riscv_zero_pcrel_hi_reloc arch64 pic r pc addr c howto = Some (Some (r', c')) ->
  r' = mk_rela (r_offset r) (ELFNN_R_INFO arch64 addr R_RISCV_HI20) (r_addend r) /\
  wrote (Z.to_nat (r_offset r)) (bitsize howto / 8) c c'.
Proof.
  unfold riscv_zero_pcrel_hi_reloc. destruct pic; [done|]. destruct (_ || _); [done|]. destruct (_ && _); [done|].
  destruct (riscv_get_insn _ _ _); [|done]. destruct (riscv_put_insn _ _ _ _) as [c1|] eqn:E; [|done].
  intros [= <- <-]. split; [done|]. by apply put_insn_wrote in E.
Qed.

Lemma zero_and_record_effect n r_type howto v a u s f :
  at_hand n howto s -> bitsize howto = 32%nat -> zero_and_record arch64 info isec r_type howto v a u s = Some f ->
  flow_effect n s f.
Proof.
  intros Hh H32 H. unfold zero_and_record in H. bind_inv. pose proof (at_hand_bits _ _ _ Hh) as Hn.
  destruct x as [[r c]|].
  - apply zero_pcrel_hi in E as [-> Hw]. cbn in H. unfold current_howto in H. cbn in H.
    rewrite r_type_info in H by done. cbn in H. apply (inj Some) in H as <-.
    set (r := mk_rela _ _ _). split.
    + assert (Hc : wrote (Z.to_nat (r_offset (s_rel s))) n (s_contents s) c)
        by (eapply wrote_weaken; [| |exact Hw]; lia).
      eapply effect_trans; [by apply (effect_contents _ c)|].
      apply effect_trans with (with_rel r (with_contents c s)); [by apply effect_same|].
      apply (effect_hi n _ _ _ _ (with_rel r (with_contents c s))). rewrite H32 in Hn. by destruct n; [apply Nat.le_0_r in Hn|].
    + eexists. split; [reflexivity|]. unfold r. cbn [bitsize s_rel with_pcrel].
      rewrite assert_rel. cbn [s_rel with_rel r_info]. rewrite r_type_info by done.
      split; [|done]. rewrite H32 in Hn. exact Hn.
  - unfold current_howto in H. rewrite (ah_howto _ _ _ Hh) in H. apply (inj Some) in H as <-.
    apply break_effect; [done|]. apply keeps_hi. rewrite H32 in Hn. by destruct n; [apply Nat.le_0_r in Hn|].
Qed.

Lemma got_hi20_effect n rs symndx r_type howto s f :
  at_hand n howto s -> bitsize howto = 32%nat ->
  reloc_got_hi20 arch64 big info htab isec rs symndx r_type howto s = Some f -> flow_effect n s f.
Proof.
  intros Hh H32 H. unfold reloc_got_hi20 in H. bind_inv. apply (got_entry_keeps n) in E as [Hr He].
  assert (Hh' : at_hand n howto l) by (by apply (at_hand_rel n howto s)).
  destruct (negb _).
  - bind_inv. subst f. apply break_effect; [done|by split].
  - bind_inv. apply (zero_and_record_effect n) in H as [H1 H2]; [|done|done]. split; [by eapply effect_trans|done].
Qed.

Lemma jump_effect n rs v howto s f :
  at_hand n howto s -> reloc_jump info htab isec rs v howto s = Some f -> flow_effect n s f.
Proof.
  intros Hh H. unfold reloc_jump in H.
  repeat case_match; bind_inv; simplify_eq; apply break_effect; auto using keeps_refl.
Qed.

Lemma call_effect n rs howto s f :
  at_hand n howto s -> bitsize howto = 64%nat ->
  ('(v, s) ← call_undefweak info isec rs s; reloc_jump info htab isec rs v howto s) = Some f -> flow_effect n s f.
Proof.
  intros Hh H64 H. bind_inv. assert (Hk : keeps n s l).
  { unfold call_undefweak in E. repeat case_match; bind_inv; simplify_eq; try apply keeps_refl.
    eapply (set_rs1_keeps n 4); [reflexivity|apply Hh| |done].
    pose proof (at_hand_bits _ _ _ Hh) as Hb. rewrite H64 in Hb. exact Hb. }
  destruct Hk as [Hr He]. assert (Hh' : at_hand n howto l) by (by apply (at_hand_rel n howto s)).
  apply (jump_effect n) in H as [H1 H2]; [|done]. split; [by eapply effect_trans|done].
Qed.

Lemma tprel_effect n rs howto s f :
  at_hand n howto s -> bitsize howto = 32%nat -> reloc_tprel_relaxed htab rs howto s = Some f -> flow_effect n s f.
Proof.
  intros Hh H32 H. pose proof (at_hand_bits _ _ _ Hh) as Hb. rewrite H32 in Hb. change (32 / 8)%nat with 4%nat in Hb.
  unfold reloc_tprel_relaxed in H. case_match; bind_inv; subst f; apply break_effect; auto using keeps_refl.
  eapply (set_rs1_keeps n 0); [by rewrite Z.add_0_r|apply Hh|lia|done].
Qed.

Lemma gprel_effect n rs howto s f :
  at_hand n howto s -> bitsize howto = 32%nat -> reloc_gprel htab rs howto s = Some f -> flow_effect n s f.
Proof.
  intros Hh H32 H. pose proof (at_hand_bits _ _ _ Hh) as Hb. rewrite H32 in Hb. change (32 / 8)%nat with 4%nat in Hb.
  unfold reloc_gprel in H. destruct (_ || _); bind_inv; [|subst f; apply break_effect; auto using keeps_refl].
  apply (set_rs1_keeps n 0) in E as [Hr He]; [|by rewrite Z.add_0_r|apply Hh|lia].
  destruct (VALID_ITYPE_IMM _); subst f; [by apply break_effect|]. split.
  - eapply effect_trans; [exact He|]. apply effect_same; cbn; [by rewrite Hr|done..].
  - exists howto. split; [done|]. split; [rewrite H32; exact Hb|]. apply Hh.
Qed.

Lemma address_effect n rs r_type howto s f :
  at_hand n howto s -> reloc_address arch64 info isec rs r_type howto s = Some f -> flow_effect n s f.
Proof.
  intros Hh H. unfold reloc_address in H. destruct (negb _); [bind_inv; subst f; apply break_effect; auto using keeps_refl|].
  destruct (RISCV_GENERATE_DYNAMIC_RELOC _ _ _ _); [|bind_inv; subst f; apply break_effect; auto using keeps_refl].
  destruct (if sec_offset _ _ =? _ then _ else _) as [skip relocate]. bind_inv.
  destruct relocate; subst f; [apply break_effect; [done|]|apply continue_effect]; by apply effect_same || by apply keeps_same.
Qed.

Lemma fill_tls_keeps n sgot off indx need rs s s' :
  (fill_tls_gd arch64 big htab sgot off indx need rs s = Some s' -> keeps n s s') /\
  (fill_tls_ie arch64 big htab sgot off indx need rs s = Some s' -> keeps n s s').
Proof.
  split.
  - unfold fill_tls_gd. destruct need; intros H; bind_inv.
    + apply (put_got_keeps n) in E. apply (append_relgot_keeps n) in E0.
      eapply keeps_trans; [exact E|]. eapply keeps_trans; [exact E0|]. destruct (indx =? 0).
      * apply (put_got_keeps n) in H. eapply keeps_trans; [apply keeps_assert|exact H].
      * bind_inv. apply (put_got_keeps n) in E1. apply (append_relgot_keeps n) in H. by eapply keeps_trans.
    + apply (put_got_keeps n) in E. apply (put_got_keeps n) in H. by eapply keeps_trans.
  - unfold fill_tls_ie. destruct need; intros H; bind_inv; [|by apply (put_got_keeps n) in H].
    apply (put_got_keeps n) in E. apply (append_relgot_keeps n) in H. by eapply keeps_trans.
Qed.

Lemma tls_got_effect n ltt is_ie rs symndx r_type howto s f :
  at_hand n howto s -> bitsize howto = 32%nat ->
  reloc_tls_got arch64 big info htab isec ltt is_ie rs symndx r_type howto s = Some f ->
  flow_effect n s f.
Proof.
  intros Hh H32 H. pose proof (at_hand_bits _ _ _ Hh) as Hn. rewrite H32 in Hn.
  assert (Hn0 : n <> 0%nat) by (by destruct n; [apply Nat.le_0_r in Hn|]). clear Hn. unfold reloc_tls_got in H. bind_inv.
  assert (H1 : keeps n s l) by (destruct (rs_h rs); bind_inv; simplify_eq; by apply keeps_same).
  set (gd := negb (_ .& GOT_TLS_GD =? 0)) in *. set (ie := negb (_ .& GOT_TLS_IE =? 0)) in *. clearbody gd ie.
  set (s2 := BFD_ASSERT _ l) in *. assert (H2 : keeps n l s2) by apply keeps_assert. clearbody s2.
  assert (H3 : keeps n s2 l0).
  { destruct (negb _); bind_inv; [simplify_eq; apply keeps_refl|].
    destruct (RISCV_TLS_GD_IE_NEED_DYN_RELOC _ _ _) as [indx need]. bind_inv. simplify_eq.
    match goal with
    | Hg : (if gd then _ else _) = Some ?s3, Hi : (if ie then _ else _) = Some _ |- _ =>
        apply keeps_trans with s3;
          [destruct gd; [by apply (fill_tls_keeps n) in Hg|bind_inv; simplify_eq; apply keeps_refl]
          |destruct ie; [by apply (fill_tls_keeps n) in Hi|bind_inv; simplify_eq; apply keeps_refl]]
    end. }
  subst f. set (s4 := BFD_ASSERT _ l0) in *. assert (H4 : keeps n l0 s4) by apply keeps_assert.
  apply break_effect; [done|]. apply keeps_trans with s4; [|by apply keeps_hi].
  eauto using keeps_trans.
Qed.

(** The size of a howto whose type is known. *)
Ltac howto_bits :=
  match goal with
  | Hh : at_hand _ ?h ?s, Ht : _ = rtype (s_rel ?s) |- bitsize ?h = _ =>
      let K := fresh in pose proof (ah_howto _ _ _ Hh) as K; rewrite <- Ht in K; vm_compute in K;
      injection K as <-; reflexivity
  end.

Lemma ifunc_effect n h r_type howto s f :
  at_hand n howto s -> r_type = rtype (s_rel s) ->
  ifunc_reloc arch64 big info htab isec h r_type howto s = Some (Some f) -> flow_effect n s f.
Proof.
  intros Hh Ht. assert (Hn0 : bitsize howto = 32%nat -> n <> 0%nat).
  { intros H32. pose proof (at_hand_bits _ _ _ Hh) as Hn. rewrite H32 in Hn. by destruct n; [apply Nat.le_0_r in Hn|]. }
  unfold ifunc_reloc. destruct (negb _).
  { destruct (is_note isec); [done|]. destruct (is_debugging isec); [|done]. intros [= <-].
    apply continue_effect, effect_refl. }
  assert (Hbad : flow_effect n s (F_return false (say (M_ifunc_unsupported (r_offset (s_rel s))) s)))
    by (split; [apply effect_say|done]).
  destruct (_ && _); [by intros [= <-]|]. intros H. bind_inv.
  assert (Hplain : forall v, flow_effect n s (F_break s (Some howto) v bfd_reloc_ok None false))
    by (intros; apply break_effect; auto using keeps_refl).
  revert H. destruct r_type as [|t|t]; [by intros [= <-]| |by intros [= <-]].
  assert (Hp : forall t, (if negb (r_addend (s_rel s) =? 0)
    then Some (Some (F_return false (say (M_ifunc_addend (r_offset (s_rel s))) s)))
    else if (bfd_link_pic info && h_non_got_ref h) || (h_plt_offset h =? MINUS_ONE)
    then f ← ifunc_pointer arch64 info htab isec h t s; Some (Some f)
    else Some (Some (F_break s (Some howto) (u64 (x + h_plt_offset h)) bfd_reloc_ok None false))) = Some (Some f) ->
    flow_effect n s f).
  { intros t'. destruct (negb _); [intros [= <-]; split; [apply effect_say|done]|].
    destruct (_ || _); [|by intros [= <-]]. intros H. bind_inv. subst f. unfold ifunc_pointer in E0.
    destruct (_ || _); [done|]. bind_inv. destruct (bfd_link_pic info); [|destruct (ht_splt htab)]; bind_inv; subst;
      apply continue_effect; [by apply effect_same| |by apply effect_same].
    match goal with Ha : append_relgot _ _ = Some _ |- _ => by apply (append_relgot_keeps n) in Ha as [] end. }
  do 8 (try destruct t as [t|t|]); intros H; try (by injection H as <-); try (by apply Hp in H).
  - injection H as <-. apply break_effect; [done|]. apply keeps_hi, Hn0. howto_bits.
  - bind_inv. subst f. apply break_effect; [done|]. apply keeps_trans with l; [|apply keeps_hi, Hn0; howto_bits].
    unfold ifunc_got_entry in E0. bind_inv. repeat case_match; bind_inv; simplify_eq;
      try apply keeps_refl; by apply keeps_same.
Qed.

Lemma add_sub_effect n rs howto s f :
  at_hand n howto s -> reloc_add_sub big rs howto s = Some f -> flow_effect n s f.
Proof. intros Hh H. unfold reloc_add_sub in H. bind_inv. subst f. apply break_effect; auto using keeps_refl. Qed.

Lemma uleb128_effect n rs howto s :
  at_hand n howto s ->
  flow_effect n s (reloc_set_uleb128 rs howto s) /\ flow_effect n s (reloc_pcrel_lo12 rs howto s).
Proof.
  intros Hh. split.
  - unfold reloc_set_uleb128. destruct (s_uleb128_set s); [apply break_effect; auto using keeps_refl|].
    apply continue_effect. by apply effect_same.
  - unfold reloc_pcrel_lo12. destruct (_ && _); [apply break_effect; auto using keeps_refl|].
    apply continue_effect, effect_lo; [by apply (at_hand_bits n howto s)|apply Hh].
Qed.

Lemma switch_effect n ltt rs symndx r_type howto s f :
  at_hand n howto s -> r_type = rtype (s_rel s) ->
  reloc_switch arch64 big info htab isec ltt rs symndx r_type howto s = Some f -> flow_effect n s f.
Proof.
  intros Hh Ht. unfold reloc_switch.
  assert (Hplain : forall v st m, Some (F_break s (Some howto) v st m (rs_unresolved rs)) = Some f -> flow_effect n s f)
    by (intros v st m <-%(inj Some); apply break_effect; auto using keeps_refl).
  assert (Hskip : Some (F_continue s) = Some f -> flow_effect n s f)
    by (intros <-%(inj Some); apply continue_effect, effect_refl).
  destruct (uleb128_effect n rs howto s Hh) as [Hset Hlo].
  destruct r_type as [|t|t]; [done| |by apply Hplain].
  do 8 (try destruct t as [t|t|]); try exact Hskip; try apply Hplain; intros H;
    first [ by apply (add_sub_effect n) in H
          | by apply (tls_got_effect n) in H; [|done|howto_bits]
          | by apply (inj Some) in H as <-
          | by apply (got_hi20_effect n) in H; [|done|howto_bits]
          | by apply (zero_and_record_effect n) in H; [|done|howto_bits]
          | by apply (tprel_effect n) in H; [|done|howto_bits]
          | by apply (gprel_effect n) in H; [|done|howto_bits]
          | by apply (call_effect n) in H; [|done|howto_bits]
          | by apply (jump_effect n) in H
          | by apply (address_effect n) in H
          | by destruct (ah_type _ _ _ Hh)
          | idtac ].
  match type of H with
  | (if _ then ?x else ?y) = _ => assert (x = Some f \/ y = Some f) as [K|K] by (clear -H; destruct arch64; auto)
  end; [by apply Hplain in K|by apply (address_effect n) in K].
Qed.

Lemma clear_contents_wrote howto c off c' :
  0 <= off -> _bfd_clear_contents big isec howto c off = Some c' -> wrote (Z.to_nat off) (reloc_size howto) c c'.
Proof.
  intros H0. unfold _bfd_clear_contents. destruct (negb _) eqn:Er; [by intros <-%(inj Some)|].
  destruct (_ =? 0)%nat; [by intros <-%(inj Some)|]. apply negb_false_iff, andb_true_iff in Er as [R1 R2].
  apply Z.leb_le in R1, R2. intros H. bind_inv.
  assert (E8 : (8 * reloc_size howto / 8)%nat = reloc_size howto) by (rewrite Nat.mul_comm; by apply Nat.div_mul).
  apply bfd_put_wrote in H; rewrite E8 in *; [done|lia].
Qed.

Lemma resolve_effect n sym s rs d s' :
  resolve_symbol info isec sym s = Some (rs, d, s') ->
  effect n s s' /\ r_info (s_rel s') = r_info (s_rel s) /\ s_contents s' = s_contents s.
Proof.
  unfold resolve_symbol. destruct sym as [sym|h].
  - destruct (_bfd_elf_rela_local_sym sym (s_rel s)) as [[v sec] r] eqn:E.
    assert (Hr : r_offset r = r_offset (s_rel s) /\ r_info r = r_info (s_rel s)).
    { unfold _bfd_elf_rela_local_sym in E. repeat case_match; by simplify_eq. }
    destruct Hr as [Hr1 Hr2]. intros H. assert (s' = with_rel r s) as ->.
    { destruct (l_type sym =? STT_GNU_IFUNC); [apply bind_Some in H as (h & _ & H)|]; congruence. }
    split; [|done]. by apply effect_same.
  - destruct (global_symbol info isec h s) as [rs' s1] eqn:E. intros [= _ _ <-].
    unfold global_symbol in E. repeat case_match; simplify_eq;
      (split; [apply effect_refl || apply effect_say|done]).
Qed.

Definition outcome_state (o : link_state + bool * link_state) : link_state :=
  match o with inl s => s | inr (_, s) => s end.

Lemma report_effect n r m s : effect n s (report_status r m s).
Proof.
  unfold report_status. repeat case_match; try apply effect_say; try apply effect_refl.
  eapply effect_trans; apply effect_say.
Qed.

Lemma finish_effect n s rs f o :
  flow_effect n s f -> finish_reloc arch64 big isec rs f = Some o -> effect n s (outcome_state o).
Proof.
  intros [He Hp]. unfold finish_reloc. destruct f as [s1|b s1|s1 howto v r msg u]; cbn [flow_state] in He.
  1-2: by intros <-%(inj Some).
  set (def_dynamic := match rs_h rs with Some h => _ | None => _ end). clearbody def_dynamic.
  match goal with |- (let '(_, _) := ?x in _) = _ -> _ =>
    assert (Hx : x.1 = bfd_reloc_ok -> r = bfd_reloc_ok) by (by case_match); destruct x as [r1 m1]
  end. cbn [fst] in Hx. intros H. apply bind_Some in H as ([r2 s2] & H2 & H).
  assert (Hs2 : effect n s s2).
  { destruct r1; try (apply (inj Some) in H2; injection H2 as <- <-; exact He). specialize (Hx eq_refl). subst r.
    apply bind_Some in H2 as (h & Eh & H2). apply bind_Some in H2 as ([st c] & Ep & H2).
    apply (inj Some) in H2. injection H2 as <- <-. destruct Hp as (h' & Eh' & Hb & Ht).
    assert (h' = h) as -> by congruence. eapply effect_trans; [exact He|]. apply effect_contents.
    apply perform_wrote in Ep; [|done]. eapply wrote_weaken; [| |exact Ep]; lia. }
  destruct r2; apply (inj Some) in H as <-; cbn [outcome_state]; try done;
    (eapply effect_trans; [exact Hs2|apply report_effect]).
Qed.

(** The body of the loop. *)
Lemma relocate_one_effect n symbols ltt s o :
  0 <= r_offset (s_rel s) -> rtype (s_rel s) <> R_RISCV_SUB_ULEB128 ->
  (forall howto, riscv_elf_rtype_to_howto (rtype (s_rel s)) = Some howto -> (span howto <= n)%nat) ->
  relocate_one arch64 big info htab isec symbols ltt s = Some o -> effect n s (outcome_state o).
Proof.
  intros H0 Hu Hn. unfold relocate_one. destruct (riscv_elf_rtype_to_howto _) as [howto|] eqn:Eh.
  2: { intros <-%(inj Some). apply effect_say. }
  specialize (Hn howto eq_refl). intros H. apply bind_Some in H as ([[rs d] s1] & E & H).
  apply (resolve_effect n) in E as (He & Hi & Hc).
  destruct d.
  - apply bind_Some in H as (s2 & Ed & H). apply (inj Some) in H as <-. cbn [outcome_state].
    unfold discard in Ed. apply bind_Some in Ed as (c & Ec & Ed). apply (inj Some) in Ed as <-.
    apply clear_contents_wrote in Ec; [|by rewrite (e_rel _ _ _ He)]. eapply effect_trans; [exact He|].
    eapply effect_trans; [apply (effect_contents n c)|by apply effect_same].
    eapply wrote_weaken; [| |exact Ec]; [lia|]. unfold span in Hn. lia.
  - apply bind_Some in H as (i & Ei & H). apply bind_Some in H as (f & Ef & H).
    assert (Hh : at_hand n howto s1).
    { split; [by rewrite (e_rel _ _ _ He)|by rewrite Hi|done|by rewrite Hi]. }
    assert (Hf : flow_effect n s1 f).
    { destruct i as [f'|].
      - apply (inj Some) in Ef as <-. destruct (rs_h rs) as [h|]; [|done]. destruct (_ && _); [|done].
        apply (ifunc_effect n) in Ei; [done|done|by rewrite Hi].
      - apply (switch_effect n) in Ef; [done|done|by rewrite Hi]. }
    eapply effect_trans; [exact He|]. by eapply finish_effect.
Qed.

(** ** Messages *)

Definition returns (f : flow) : bool := match f with F_return _ _ => true | _ => false end.

Lemma zero_and_record_goes_on r_type howto v a u s f :
  zero_and_record arch64 info isec r_type howto v a u s = Some f -> returns f = false.
Proof. unfold zero_and_record. intros H. bind_inv. repeat case_match; bind_inv; by subst. Qed.

Lemma jump_goes_on rs v howto s f : reloc_jump info htab isec rs v howto s = Some f -> returns f = false.
Proof. unfold reloc_jump. intros H. repeat case_match; bind_inv; by subst. Qed.

Lemma address_goes_on rs r_type howto s f :
  reloc_address arch64 info isec rs r_type howto s = Some f -> returns f = false.
Proof.
  unfold reloc_address. intros H. destruct (negb _); [by bind_inv; subst|].
  destruct (RISCV_GENERATE_DYNAMIC_RELOC _ _ _ _); [|by bind_inv; subst].
  destruct (if sec_offset _ _ =? _ then _ else _) as [skip relocate]. bind_inv. destruct relocate; by subst.
Qed.

Lemma switch_goes_on ltt rs symndx r_type howto s f :
  reloc_switch arch64 big info htab isec ltt rs symndx r_type howto s = Some f -> returns f = false.
Proof.
  unfold reloc_switch.
  assert (Hplain : forall s h v st m u, Some (F_break s h v st m u) = Some f -> returns f = false)
    by (by intros; simplify_eq).
  assert (Hskip : Some (F_continue s) = Some f -> returns f = false) by (by intros; simplify_eq).
  destruct r_type as [|t|t]; [done| |by apply Hplain].
  do 8 (try destruct t as [t|t|]); try exact Hskip; try apply Hplain; intros H;
    first [ by apply zero_and_record_goes_on in H | by apply jump_goes_on in H | by apply address_goes_on in H
          | apply (inj Some) in H; subst f; unfold reloc_set_uleb128, reloc_sub_uleb128, reloc_pcrel_lo12;
            by repeat case_match
          | unfold reloc_add_sub in H; bind_inv; by subst
          | unfold reloc_tls_got in H; bind_inv; by subst
          | unfold reloc_got_hi20 in H; bind_inv; case_match; bind_inv; [by subst|by apply zero_and_record_goes_on in H]
          | unfold reloc_tprel_relaxed in H; case_match; bind_inv; by subst
          | unfold reloc_gprel in H; destruct (_ || _); bind_inv; by subst
          | apply bind_Some in H as ([v s1] & _ & H); by apply jump_goes_on in H
          | idtac ].
  match type of H with
  | (if _ then ?x else ?y) = _ => assert (x = Some f \/ y = Some f) as [K|K] by (clear -H; destruct arch64; auto)
  end; [by apply Hplain in K|by apply address_goes_on in K].
Qed.

Lemma ifunc_return h r_type howto s b s' :
  ifunc_reloc arch64 big info htab isec h r_type howto s = Some (Some (F_return b s')) -> exists m, s' = say m s.
Proof.
  unfold ifunc_reloc. destruct (negb _); [by repeat case_match|].
  destruct (_ && _); [intros [= <- <-]; by eexists|]. intros H. bind_inv.
  revert H. destruct r_type as [|t|t]; [intros [= <- <-]; by eexists| |intros [= <- <-]; by eexists].
  do 8 (try destruct t as [t|t|]); intros H; try done; try (injection H as <- <-; by eexists);
    try (by bind_inv); (destruct (negb _); [injection H as <- <-; by eexists|]; destruct (_ || _); [|done]);
    bind_inv; subst; unfold ifunc_pointer in *; repeat case_match; bind_inv; try done; congruence.
Qed.

(** An early return comes with a message. *)
Lemma relocate_one_return symbols ltt s b s' :
  0 <= r_offset (s_rel s) -> rtype (s_rel s) <> R_RISCV_SUB_ULEB128 ->
  relocate_one arch64 big info htab isec symbols ltt s = Some (inr (b, s')) ->
  exists l m, s_log s' = s_log s ++ l ++ [m].
Proof.
  intros H0 Hu. unfold relocate_one. destruct (riscv_elf_rtype_to_howto _) as [howto|] eqn:Eh; [|done].
  intros H. apply bind_Some in H as ([[rs d] s1] & E & H). apply (resolve_effect (span howto)) in E as (He & Hi & Hc).
  destruct d; [apply bind_Some in H as (? & _ & H); done|].
  apply bind_Some in H as (i & Ei & H). apply bind_Some in H as (f & Ef & H).
  destruct (e_log _ _ _ He) as [l1 L1].
  assert (Hs : forall s2 m, effect (span howto) s1 s2 -> s_log s' = s_log s2 ++ [m] ->
    exists l m, s_log s' = s_log s ++ l ++ [m]).
  { intros s2 m [_ _ _ _ [l2 L2]] L3. exists (l1 ++ l2), m. by rewrite L3, L2, L1, <- !app_assoc. }
  assert (Hh : at_hand (span howto) howto s1).
  { split; [by rewrite (e_rel _ _ _ He)|by rewrite Hi|done|by rewrite Hi]. }
  assert (Hf : flow_effect (span howto) s1 f /\ (forall b s2, f = F_return b s2 -> exists m, s2 = say m s1)).
  { destruct i as [f'|].
    - apply (inj Some) in Ef as <-. destruct (rs_h rs) as [h|]; [|done]. destruct (_ && _); [|done]. split.
      + apply (ifunc_effect (span howto)) in Ei; [done|done|by rewrite Hi].
      + intros b2 s2 ->. by apply ifunc_return in Ei.
    - split; [apply (switch_effect (span howto)) in Ef; [done|done|by rewrite Hi]|]. intros b2 s2 ->. by apply switch_goes_on in Ef. }
  destruct Hf as [Hf Hr]. unfold finish_reloc in H. destruct f as [s2|b2 s2|s2 h2 v r msg u]; [done| |].
  { apply (inj Some) in H. injection H as <- <-. destruct (Hr b2 s2 eq_refl) as [m ->].
    apply (Hs s1 m); [apply effect_refl|done]. }
  destruct Hf as [He2 Hp2]. cbn [flow_state] in He2.
  match type of H with (let '(_, _) := ?x in _) = _ => destruct x as [r1 m1] end.
  apply bind_Some in H as ([r2 s3] & H3 & H).
  assert (L3 : s_log s3 = s_log s2).
  { destruct r1; try (apply (inj Some) in H3; by injection H3 as _ <-).
    apply bind_Some in H3 as (h & _ & H3). apply bind_Some in H3 as ([st c] & _ & H3).
    apply (inj Some) in H3. by injection H3 as _ <-. }
  destruct r2; try done; apply (inj Some) in H; injection H as <- <-; unfold report_status; cbn [report_status].
  1: destruct m1 as [m1|]; [apply (Hs (say (M_overflow (r_offset (s_rel s3))) s2) (M_einfo m1));
       [by eapply effect_trans; [|apply effect_say]|cbn; by rewrite L3]|].
  all: eapply (Hs s2); [done|cbn; by rewrite L3].
Qed.

(** ** The loop *)

Definition rel_span (r : Elf_Internal_Rela) : nat :=
  match riscv_elf_rtype_to_howto (rtype r) with Some h => span h | None => 0 end.

(** Relocations with an offset (it is unsigned) that are not LEB128 differences. *)
Definition plain_rel (r : Elf_Internal_Rela) : Prop :=
  0 <= r_offset r < 2 ^ 64 /\ rtype r <> R_RISCV_SUB_ULEB128.

Definition clear_of (x k : nat) (r : Elf_Internal_Rela) : Prop :=
  disjoint_ranges x k (Z.to_nat (r_offset r)) (rel_span r).

(** What a list of relocations may change. *)
Record effects (rels : list Elf_Internal_Rela) (s s' : link_state) : Prop := {
  es_length : length (s_contents s') = length (s_contents s);
  es_bytes : bytes (s_contents s) -> bytes (s_contents s');
  es_contents : forall x k, Forall (clear_of x k) rels -> getl k (s_contents s') x = getl k (s_contents s) x;
  es_hi : forall a, Forall (fun r => a <> pc r \/ rel_span r = 0%nat) rels -> hi_relocs (s_pcrel s') !! a = hi_relocs (s_pcrel s) !! a;
  es_lo : exists l, lo_relocs (s_pcrel s') = l ++ lo_relocs (s_pcrel s) /\
    Forall (fun x => exists r, In r rels /\ lo_at (r_offset r) (rel_span r) x) l;
  es_log : exists l, s_log s' = s_log s ++ l;
}.

Lemma effects_one r s o :
  effect (rel_span r) (with_rel r s) o -> effects [r] s o.
Proof.
  intros [_ Hw Hh (l & L & Fl) Hlog]. cbn in *. split.
  - by apply wrote_length in Hw.
  - apply Hw.
  - intros x k Hx. inversion Hx; subst. destruct Hw as [Hw _]. by eapply same_outside_getl.
  - intros a Ha. inversion Ha; subst. by apply Hh.
  - exists l. split; [done|]. eapply Forall_impl; [exact Fl|]. intros y Hy. exists r. split; [by left|done].
  - done.
Qed.

Lemma effects_app rels1 rels2 s1 s2 s3 :
  effects rels1 s1 s2 -> effects rels2 s2 s3 -> effects (rels1 ++ rels2) s1 s3.
Proof.
  intros [A1 A2 A3 A4 (l1 & A5 & F1) (k1 & A6)] [B1 B2 B3 B4 (l2 & B5 & F2) (k2 & B6)]. split.
  - congruence.
  - auto.
  - intros x k Hx. apply Forall_app in Hx as [Hx1 Hx2]. by rewrite B3, A3.
  - intros a Ha. apply Forall_app in Ha as [Ha1 Ha2]. by rewrite B4, A4.
  - exists (l2 ++ l1). rewrite B5, A5, app_assoc. split; [done|]. apply Forall_app.
    split; [eapply Forall_impl; [exact F2|]|eapply Forall_impl; [exact F1|]]; intros y (r & Hr & Hy);
      exists r; rewrite in_app_iff; auto.
  - exists (k1 ++ k2). by rewrite B6, A6, app_assoc.
Qed.

Lemma effects_nil s : effects [] s s.
Proof. split; try done; [by exists []|]. exists []. by rewrite app_nil_r. Qed.

Abbreviation loop symbols ltt := (relocate_loop arch64 big info htab isec symbols ltt).
Abbreviation one symbols ltt := (relocate_one arch64 big info htab isec symbols ltt).

Lemma rel_span_howto r howto : riscv_elf_rtype_to_howto (rtype r) = Some howto -> (span howto <= rel_span r)%nat.
Proof. unfold rel_span. by intros ->. Qed.

Lemma loop_effects symbols ltt rels : forall s ret s' out,
  Forall plain_rel rels -> loop symbols ltt rels s = Some (ret, s', out) ->
  effects rels s s' /\ (s_log s' = s_log s -> ret = None).
Proof.
  induction rels as [|r rels IH]; intros s ret s' out Hp; cbn [relocate_loop].
  { intros [= <- <- _]. split; [apply effects_nil|done]. }
  inversion Hp as [|? ? [[H0 _] Hu] Hp']; subst. intros H. apply bind_Some in H as (o & Eo & H).
  pose proof (relocate_one_effect (rel_span r) _ _ (with_rel r s) _ H0 Hu (fun h => rel_span_howto r h) Eo) as He.
  apply effects_one in He. destruct o as [s1|[b s1]]; cbn [outcome_state] in He.
  - apply bind_Some in H as ([[ret1 s2] out2] & Er & H). injection H as <- <- _.
    destruct (IH _ _ _ _ Hp' Er) as [Hes Hret]. split; [apply (effects_app [r] rels s s1 s2 He Hes)|].
    intros L. apply Hret. destruct (es_log _ _ _ He) as [l1 L1], (es_log _ _ _ Hes) as [l2 L2].
    rewrite L2, L1, <- app_assoc in L. rewrite <- (app_nil_r (s_log s)) in L at 2. apply (inj (app _)) in L.
    apply app_nil in L as [-> ->]. by rewrite L2, app_nil_r.
  - injection H as <- <- _. split.
    + destruct He as [A1 A2 A3 A4 (l & A5 & A6) A7]. split; try done.
      * intros x k Hx. inversion Hx; subst. apply A3. by constructor.
      * intros a Ha. inversion Ha; subst. apply A4. by constructor.
      * exists l. split; [done|]. eapply Forall_impl; [exact A6|]. intros y (r' & [<-|[]] & Hy). exists r. split; [by left|done].
    + intros L. apply relocate_one_return in Eo as (l & m & L'); [|done|done]. cbn in L'. rewrite L in L'.
      rewrite <- (app_nil_r (s_log s)) in L' at 1. apply (inj (app _)) in L'. by destruct l.
Qed.

Lemma loop_app symbols ltt rels1 rels2 s s' out :
  loop symbols ltt (rels1 ++ rels2) s = Some (None, s', out) ->
  exists s1 out1 out2, loop symbols ltt rels1 s = Some (None, s1, out1) /\
    loop symbols ltt rels2 s1 = Some (None, s', out2).
Proof.
  revert s out. induction rels1 as [|r rels1 IH]; intros s out; cbn [app relocate_loop]; [intros H; by eexists _, _, _|].
  intros H. apply bind_Some in H as (o & Eo & H). rewrite Eo. cbn [mbind option_bind].
  destruct o as [s1|[b s1]]; [|done]. apply bind_Some in H as ([[ret1 s2] out2] & Er & H). injection H as -> -> _.
  apply IH in Er as (s3 & o1 & o2 & E1 & E2). exists s3, (s_rel s1 :: o1), o2. split; [|done]. by rewrite E1.
Qed.

(** ** The section *)

Abbreviation section symbols ltt := (riscv_elf_relocate_section arch64 big info htab isec symbols ltt).

Definition init_state (s : link_state) : link_state := with_pcrel riscv_init_pcrel_relocs (with_uleb128 None s).

Lemma app_log {A} (l l1 l2 : list A) : (l ++ l1) ++ l2 = l -> l1 = [] /\ l2 = [].
Proof.
  rewrite <- app_assoc. rewrite <- (app_nil_r l) at 2. intros H%(inj (app _)). by apply app_nil in H.
Qed.

Lemma app_nothing {A} (l l1 : list A) : l ++ l1 = l -> l1 = [].
Proof. intros H. apply (inj (app l)). by rewrite app_nil_r. Qed.

(** A pass without messages, seen from one of the relocations. *)
Lemma section_at symbols ltt pre r post s ret s' out :
  Forall plain_rel (pre ++ r :: post) ->
  section symbols ltt (pre ++ r :: post) s = Some (ret, s', out) -> s_log s' = s_log s ->
  ret = true /\ exists s1 s2 s3,
    effects pre (init_state s) s1 /\ one symbols ltt (with_rel r s1) = Some (inl s2) /\ effects post s2 s3 /\
    riscv_resolve_pcrel_lo_relocs arch64 big (is_addr isec) (s_pcrel s3) (s_contents s3) = Some (s_contents s', None) /\
    s_log s2 = s_log s1 /\ exists out3, loop symbols ltt (pre ++ r :: post) (init_state s) = Some (None, s3, out3).
Proof.
  intros Hp H L. unfold riscv_elf_relocate_section in H. apply bind_Some in H as ([[ret1 s3] out1] & El & H).
  fold (init_state s) in El. destruct (loop_effects _ _ _ _ _ _ _ Hp El) as [Hes Hret].
  destruct (es_log _ _ _ Hes) as [l1 L1]. cbn in L1.
  assert (Hnone : ret1 = None /\ (ret1 = None -> l1 = [] /\ exists c, ret = true /\ s' = with_contents c s3 /\
    riscv_resolve_pcrel_lo_relocs arch64 big (is_addr isec) (s_pcrel s3) (s_contents s3) = Some (c, None))).
  { destruct ret1 as [b|].
    - injection H as <- <- _. rewrite L1 in L. apply app_nothing in L as ->.
      rewrite app_nil_r in L1. specialize (Hret L1). done.
    - split; [done|]. intros _. apply bind_Some in H as ([c e] & Ec & H). injection H as <- <- _.
      destruct e as [[e off]|]; cbn in L; rewrite L1 in L.
      + by apply app_log in L as [_ ?].
      + split; [|by exists c]. by apply app_nothing in L. }
  destruct Hnone as [-> Hs]. destruct (Hs eq_refl) as (-> & c & -> & -> & Hc). clear Hs H.
  split; [done|]. pose proof El as El'. apply loop_app in El as (s1 & o1 & o2 & E1 & E2).
  rewrite Forall_app, Forall_cons in Hp. destruct Hp as (Hp1 & [[H0 _] Hu] & Hp2).
  destruct (loop_effects _ _ _ _ _ _ _ Hp1 E1) as [Hes1 _]. cbn [relocate_loop] in E2.
  apply bind_Some in E2 as (o & Eo & E2). destruct o as [s2|[b s2]]; [|done].
  apply bind_Some in E2 as ([[ret2 s4] o4] & E4 & E2). injection E2 as -> -> _.
  destruct (loop_effects _ _ _ _ _ _ _ Hp2 E4) as [Hes2 _].
  exists s1, s2, s3. split_and!; [done|done|done|done| |by exists out1].
  pose proof (relocate_one_effect (rel_span r) _ _ (with_rel r s1) _ H0 Hu (fun h => rel_span_howto r h) Eo) as [_ _ _ _ [l2 L2]].
  destruct (es_log _ _ _ Hes1) as [l3 L3], (es_log _ _ _ Hes2) as [l4 L4]. cbn in L2, L3.
  rewrite L4, L2, L3, app_nil_r, <- !app_assoc in L1. apply app_nothing in L1. apply app_nil in L1 as [_ L1]. apply app_nil in L1 as [-> _]. by rewrite L2, app_nil_r.
Qed.

Lemma disjoint_ranges_le x k off n n' : (n' <= n)%nat -> disjoint_ranges x k off n -> disjoint_ranges x k off n'.
Proof. unfold disjoint_ranges. lia. Qed.

(** Resolving the low parts leaves other fields alone. *)
Lemma resolve_frame p rs : forall c c' e x k,
  Forall (fun y => exists r, lo_at (r_offset r) (rel_span r) y /\ clear_of x k r) rs ->
  resolve_lo_loop arch64 big (is_addr isec) p rs c = Some (c', e) ->
  getl k c' x = getl k c x /\ length c' = length c /\ (bytes c -> bytes c').
Proof.
  induction rs as [|y rs IH]; intros c c' e x k Hr; cbn [resolve_lo_loop]; [by intros [= <- _]|].
  inversion Hr as [|? ? (r & (Ho & Hb & Ht) & Hd) Hr']; subst.
  destruct (pcrel_lo_check p y) as [er|v]; [by intros [= <- _]|].
  destruct (perform_relocation _ _ _ _ _ _ _) as [[st c1]|] eqn:E; [|done]. intros H.
  apply perform_wrote in E; [|done]. rewrite Ho in E. destruct (IH _ _ _ _ _ Hr' H) as (-> & -> & Hby).
  split_and!; [|by apply wrote_length in E|intros; apply Hby; by apply E].
  eapply same_outside_getl; [apply E|]. eapply disjoint_ranges_le; [exact Hb|exact Hd].
Qed.

(** Low parts recorded by relocations that are clear of a range. *)
Lemma lo_clear rels l x k :
  Forall (clear_of x k) rels -> Forall (fun y => exists r, In r rels /\ lo_at (r_offset r) (rel_span r) y) l ->
  Forall (fun y => exists r, lo_at (r_offset r) (rel_span r) y /\ clear_of x k r) l.
Proof.
  intros Hc Hl. eapply Forall_impl; [exact Hl|]. intros y (r & Hr & Hy). exists r. split; [done|].
  rewrite Forall_forall in Hc. by apply Hc, list_elem_of_In.
Qed.

(** A field that no other relocation touches, of a relocation that records no
    low part: it is what its own step makes of it. *)
Lemma section_field symbols ltt pre r post s ret s' out :
  Forall plain_rel (pre ++ r :: post) ->
  Forall (clear_of (Z.to_nat (r_offset r)) (rel_span r)) (pre ++ post) ->
  section symbols ltt (pre ++ r :: post) s = Some (ret, s', out) -> s_log s' = s_log s ->
  exists s1 s2 s3,
    one symbols ltt (with_rel r s1) = Some (inl s2) /\ effects post s2 s3 /\
    (exists out3, loop symbols ltt (pre ++ r :: post) (init_state s) = Some (None, s3, out3)) /\
    length (s_contents s1) = length (s_contents s) /\ (bytes (s_contents s) -> bytes (s_contents s1)) /\
    forall x k, (Z.to_nat (r_offset r) <= x)%nat -> (x + k <= Z.to_nat (r_offset r) + rel_span r)%nat ->
      getl k (s_contents s1) x = getl k (s_contents s) x /\
      (lo_relocs (s_pcrel s2) = lo_relocs (s_pcrel s1) -> getl k (s_contents s') x = getl k (s_contents s2) x).
Proof.
  intros Hp Hc H L. destruct (section_at _ _ _ _ _ _ _ _ _ Hp H L) as (_ & s1 & s2 & s3 & A & B & C & D & _ & E).
  exists s1, s2, s3. split_and!; [done|done|done|apply (es_length _ _ _ A)|apply (es_bytes _ _ _ A)|].
  intros x k Hx1 Hx2.
  assert (Hc' : Forall (clear_of x k) (pre ++ post)).
  { eapply Forall_impl; [exact Hc|]. intros r' Hr'. unfold clear_of, disjoint_ranges in *. lia. }
  apply Forall_app in Hc' as [Hc1 Hc2]. split; [by rewrite (es_contents _ _ _ A)|]. intros Hlo.
  rewrite <- (es_contents _ _ _ C) by done. eapply resolve_frame; [|exact D].
  destruct (es_lo _ _ _ A) as (l1 & L1 & F1), (es_lo _ _ _ C) as (l2 & L2 & F2).
  rewrite L2, Hlo, L1. cbn. rewrite app_nil_r. apply Forall_app.
  split; [by apply (lo_clear post)|by apply (lo_clear pre)].
Qed.

End effects.
