(* ===== verification/LinkRelocateSpec.v ===== *)
(** * Properties of relocating a section

    In a link that ends without messages, the instructions of a relocated
    section compute the addresses their relocations ask for. *)
From Stdlib Require Import ZArith Bool Lia.
From stdpp Require Import base list gmap.
From S2P Require Import Prelude OpcodeH RiscvH Immediates Words OpcodeMatch Bytes Howto Fixups FixupsSpec LinkReloc LinkRelocSpec LinkRelocate LinkFrame.

#[local] Open Scope Z_scope.
#[local] Open Scope c_scope.
#[local] Open Scope list_scope.

Abbreviation bytes c := (Forall (fun b => 0 <= b < 256) c).

(** ** Symbols *)

(** The address of a symbol in a section of the output, or zero for an undefined
    weak one; no value if it is an indirect function, merged, discarded or
    undefined. *)
Definition symbol_at (sym : local_symbol + elf_link_hash_entry) : option Z :=
  match sym with
  | inl sym =>
      if (l_type sym =? STT_GNU_IFUNC) || ds_discarded (l_section sym) then None
      else if bool_decide (is_Some (l_merge sym)) && (l_type sym =? STT_SECTION) then None
      else Some (u64 (ds_addr (l_section sym) + l_value sym))
  | inr h =>
      if (h_type h =? STT_GNU_IFUNC) && h_def_regular h then None
      else match h_root_type h, h_def_section h with
           | (bfd_link_hash_defined | bfd_link_hash_defweak), Some sec =>
               if ds_discarded sec then None else Some (u64 (h_def_value h + ds_addr sec))
           | bfd_link_hash_undefweak, _ => Some 0
           | _, _ => None
           end
  end.

Definition is_undefined_weak (sym : local_symbol + elf_link_hash_entry) : bool :=
  match sym with inl _ => false | inr h => is_undefweak h end.

(** A symbol resolved to an address. *)
Record resolved_at (sym : local_symbol + elf_link_hash_entry) (v : Z) (rs : resolved_symbol) : Prop := {
  ra_value : rs_relocation rs = v;
  ra_unresolved : rs_unresolved rs = false;
  ra_ifunc : match rs_h rs with Some h => (h_type h =? STT_GNU_IFUNC) && h_def_regular h = false | None => True end;
  ra_symbol : match sym with inl y => rs_h rs = None /\ rs_sym rs = Some y | inr h => rs_h rs = Some h /\ rs_sym rs = None end;
}.

Lemma with_rel_self s : with_rel (s_rel s) s = s.
Proof. by destruct s. Qed.

Lemma resolve_at info isec sym v s :
  symbol_at sym = Some v ->
  exists rs, resolve_symbol info isec sym s = Some (rs, false, s) /\ resolved_at sym v rs.
Proof.
  destruct sym as [sym|h]; cbn [symbol_at resolve_symbol].
  - destruct (l_type sym =? STT_GNU_IFUNC) eqn:Ei; [done|]. cbn [orb].
    destruct (ds_discarded (l_section sym)) eqn:Ed; [done|]. destruct (_ && _) eqn:Em; [done|]. intros [= <-].
    assert (E : _bfd_elf_rela_local_sym sym (s_rel s)
      = (u64 (ds_addr (l_section sym) + l_value sym), l_section sym, s_rel s)).
    { unfold _bfd_elf_rela_local_sym. destruct (l_merge sym); [|done]. cbn in Em. by rewrite Em. }
    rewrite E, with_rel_self, Ed. by eexists (mk_resolved None (Some sym) _ false).
  - destruct (_ && _) eqn:Ei; [done|]. unfold global_symbol.
    destruct (h_root_type h), (h_def_section h) as [sec|]; try done;
      try (destruct (ds_discarded sec) eqn:Ed; [done|]); intros [= <-]; eexists; by split.
Qed.

(** The step for a relocation against such a symbol. *)
Lemma relocate_one_at arch64 big info htab isec symbols ltt s howto v o :
  let r_type := ELFNN_R_TYPE arch64 (r_info (s_rel s)) in
  let r_symndx := ELFNN_R_SYM arch64 (r_info (s_rel s)) in
  riscv_elf_rtype_to_howto r_type = Some howto -> symbol_at (symbols r_symndx) = Some v ->
  relocate_one arch64 big info htab isec symbols ltt s = Some o ->
  exists rs f, resolved_at (symbols r_symndx) v rs /\
    reloc_switch arch64 big info htab isec ltt rs r_symndx r_type howto s = Some f /\
    finish_reloc arch64 big isec rs f = Some o.
Proof.
  cbv zeta. intros Hh Hv. unfold relocate_one. rewrite Hh.
  destruct (resolve_at info isec _ _ s Hv) as (rs & -> & Hr). cbn [mbind option_bind].
  assert (E : (match rs_h rs with
               | Some h => if (h_type h =? STT_GNU_IFUNC) && h_def_regular h
                           then ifunc_reloc arch64 big info htab isec h (ELFNN_R_TYPE arch64 (r_info (s_rel s))) howto s
                           else Some None
               | None => Some None
               end) = Some None).
  { pose proof (ra_ifunc _ _ _ Hr) as K. destruct (rs_h rs); [by rewrite K|done]. }
  rewrite E. cbn [mbind option_bind]. intros H. apply bind_Some in H as (f & Ef & H). by exists rs, f.
Qed.

(** The end of a step that goes on with the next relocation. *)
Lemma finish_ok arch64 big isec rs s h v msg s' :
  finish_reloc arch64 big isec rs (F_break s (Some h) v bfd_reloc_ok msg false) = Some (inl s') ->
  exists c, perform_relocation arch64 big (is_addr isec) h (s_rel s) v (s_contents s) = Some (bfd_reloc_ok, c) /\
    s' = with_contents c s.
Proof.
  unfold finish_reloc. cbn [andb]. intros H. apply bind_Some in H as ([st s1] & E & H). cbn [mbind option_bind] in E.
  apply bind_Some in E as ([st1 c] & E & E1). injection E1 as <- <-. destruct st1; try done. injection H as <-.
  by exists c.
Qed.

(** ** Immediates *)

(** Relocations whose value is that of the symbol. *)
Definition direct_types : list Z :=
  [R_RISCV_HI20; R_RISCV_LO12_I; R_RISCV_LO12_S; R_RISCV_BRANCH; R_RISCV_RVC_BRANCH; R_RISCV_JAL; R_RISCV_RVC_JUMP].
(** The same for thread-local symbols. *)
Definition tprel_types : list Z := [R_RISCV_TPREL_HI20; R_RISCV_TPREL_LO12_I; R_RISCV_TPREL_LO12_S].

Definition direct_value (htab : riscv_elf_link_hash_table) (t v : Z) : Z :=
  if existsb (Z.eqb t) tprel_types then tpoff (ht_tls_sec htab) v else v.

Lemma switch_direct arch64 big info htab isec ltt rs symndx t howto s :
  bfd_link_pic info = false -> In t (direct_types ++ tprel_types) ->
  reloc_switch arch64 big info htab isec ltt rs symndx t howto s
  = Some (F_break s (Some howto) (direct_value htab t (rs_relocation rs)) bfd_reloc_ok None (rs_unresolved rs)).
Proof.
  intros Hpic Hin. unfold reloc_switch, direct_value, reloc_jump. rewrite Hpic.
  cbn [direct_types tprel_types app In] in Hin.
  repeat destruct Hin as [<-|Hin]; try done; cbn [existsb Z.eqb Pos.eqb orb tprel_types]; destruct (rs_h rs); reflexivity.
Qed.

Lemma field_in_same howto r c c' :
  field_in howto r c -> length c' = length c -> bytes c' -> field_in howto r c'.
Proof. intros (H1 & H2 & _) Hl Hb. split_and!; [done|by rewrite Hl|done]. Qed.

(** ** Words *)

(** A field of a word replaced: [(w & ~m) | x] for [x] inside of [m]. *)
Lemma replace_field w m x :
  0 <= w < 2 ^ 32 -> 0 <= m < 2 ^ 32 -> x .& m = x ->
  let w' := (w .& u64 (Z.lnot m)) .| x in
  0 <= w' < 2 ^ 32 /\ w' .& m = x /\ Z.ldiff w' m = Z.ldiff w m.
Proof.
  intros Hw Hm Hx. cbv zeta. rewrite u64_lnot by lia.
  assert (Hx32 : 0 <= x < 2 ^ 32).
  { split; [rewrite <- Hx; apply Z.land_nonneg; lia|]. pose proof (land_le_r x m ltac:(lia)). lia. }
  split; [apply lor_below; [lia|by apply ldiff_below|done]|]. split; [|by apply ldiff_lor_field].
  rewrite Z.land_lor_distr_l, ldiff_field_clear. exact Hx.
Qed.

(** Replacing one field leaves a disjoint one alone. *)
Lemma replace_other w m e n : e .& m = e -> m .& n = 0 -> (Z.ldiff w m .| e) .& n = w .& n.
Proof.
  intros He Hn. apply Z.bits_inj'. intros i Hi.
  apply (f_equal (fun x => Z.testbit x i)) in He, Hn. rewrite Z.land_spec in He, Hn. rewrite Z.bits_0 in Hn.
  rewrite !Z.land_spec, Z.lor_spec, Z.ldiff_spec.
  destruct (Z.testbit w i), (Z.testbit m i), (Z.testbit e i), (Z.testbit n i); done.
Qed.

Lemma ldiff_both w w' m n : Z.ldiff w m = Z.ldiff w' m -> Z.ldiff w (m .| n) = Z.ldiff w' (m .| n).
Proof.
  intros H. apply Z.bits_inj'. intros i Hi. apply (f_equal (fun x => Z.testbit x i)) in H.
  rewrite !Z.ldiff_spec in *. rewrite Z.lor_spec.
  destruct (Z.testbit w i), (Z.testbit w' i), (Z.testbit m i), (Z.testbit n i); done.
Qed.

Lemma put_insn_word w c off c' :
  riscv_put_insn 32 w c off = Some c' -> 0 <= w < 2 ^ 32 ->
  0 <= off /\ off + 4 <= Z.of_nat (length c) /\ c' = putl 4 w c (Z.to_nat off) /\ getl 4 c' (Z.to_nat off) = w.
Proof.
  unfold riscv_put_insn. destruct (_ && _) eqn:E; [|done]. intros <-%(inj Some) Hw. apply andb_true_iff in E as [_ E].
  unfold in_contents in E. rewrite andb_true_iff, !Z.leb_le in E. change (Z.of_nat (32 / 8)) with 4 in E.
  change (32 / 8)%nat with 4%nat. split_and!; [lia|lia|done|]. rewrite getl_putl by lia. by apply Z.mod_small.
Qed.

Lemma get_insn_word c off w : riscv_get_insn 32 c off = Some w -> w = getl 4 c (Z.to_nat off).
Proof. unfold riscv_get_insn. destruct (_ && _); [|done]. by intros [= <-]. Qed.

Lemma valid_itype_low y : VALID_ITYPE_IMM (u64 y) = true -> u64 (lo_part y) = u64 y.
Proof.
  unfold VALID_ITYPE_IMM. rewrite Z.eqb_eq, encode_lo_i. destruct ITYPE_fmt as (-> & -> & Hf). intros H.
  rewrite (proj2 (imm_roundtrip_iff fmt_ITYPE_IMM (lo_part y) Hf ltac:(apply part_range64; lia))) in H; [done|].
  apply lo_part_range.
Qed.

(** The base register of a load, store or addi. *)
Abbreviation rs1_mask := (OP_MASK FLD_RS1 << OP_SH FLD_RS1).
Definition base_register (w : Z) : Z := (w .& rs1_mask) >> OP_SH FLD_RS1.

Lemma set_rs1_word off reg s s' :
  set_rs1 off reg s = Some s' -> bytes (s_contents s) -> 0 <= reg < 32 ->
  exists w, s' = with_contents (putl 4 w (s_contents s) (Z.to_nat off)) s /\ 0 <= off /\
    off + 4 <= Z.of_nat (length (s_contents s)) /\
    getl 4 (s_contents s') (Z.to_nat off) = w /\ w .& rs1_mask = reg << OP_SH FLD_RS1 /\
    Z.ldiff w rs1_mask = Z.ldiff (getl 4 (s_contents s) (Z.to_nat off)) rs1_mask.
Proof.
  intros H Hb Hr. unfold set_rs1 in H. apply bind_Some in H as (w0 & E0 & H). apply bind_Some in H as (c & Ec & H).
  injection H as <-. apply get_insn_word in E0 as ->.
  pose proof (getl_range 4 (s_contents s) (Z.to_nat off) Hb) as Hw. change (8 * Z.of_nat 4) with 32 in Hw.
  assert (Hx : (reg << OP_SH FLD_RS1) .& rs1_mask = reg << OP_SH FLD_RS1).
  { change rs1_mask with (Z.ones 5 << 15). change (OP_SH FLD_RS1) with 15. rewrite <- Z.shiftl_land. f_equal.
    rewrite Z.land_ones by lia. apply Z.mod_small. lia. }
  assert (Hm : 0 <= rs1_mask < 2 ^ 32) by (vm_compute; split; congruence).
  destruct (replace_field _ rs1_mask _ Hw Hm Hx) as (Hw' & Hf & Hd).
  apply put_insn_word in Ec as (H0 & H1 & -> & Hg); [|exact Hw'].
  eexists. split_and!; [reflexivity|done|done|exact Hg|exact Hf|exact Hd].
Qed.

Section one_relocation.

Context (arch64 big : bool) (info : bfd_link_info) (htab : riscv_elf_link_hash_table) (isec : input_section).
Context (symbols : Z -> local_symbol + elf_link_hash_entry) (ltt : Z -> Z).
Context (pre post : list Elf_Internal_Rela) (r : Elf_Internal_Rela) (howto : reloc_howto_type) (S : Z).

Abbreviation rtype := (ELFNN_R_TYPE arch64 (r_info r)).
Abbreviation off := (Z.to_nat (r_offset r)).

(** The relocation [r] against a symbol at [S], in a section with other
    relocations that keep away from its field. *)
Record lone_relocation (s : link_state) : Prop := {
  lr_plain : Forall (plain_rel arch64) (pre ++ r :: post);
  lr_clear : Forall (clear_of arch64 off (rel_span arch64 r)) (pre ++ post);
  lr_howto : riscv_elf_rtype_to_howto rtype = Some howto;
  lr_field : field_in howto r (s_contents s);
  lr_symbol : symbol_at (symbols (ELFNN_R_SYM arch64 (r_info r))) = Some S;
}.

Abbreviation relocate_section := (riscv_elf_relocate_section arch64 big info htab isec symbols ltt (pre ++ r :: post)).

(** The field after a pass without messages, from the step of [r]. *)
Lemma lone_step s ret s' out :
  lone_relocation s -> relocate_section s = Some (ret, s', out) -> s_log s' = s_log s ->
  exists s1 s2 rs f, resolved_at (symbols (ELFNN_R_SYM arch64 (r_info r))) S rs /\ s_rel s1 = r /\
    reloc_switch arch64 big info htab isec ltt rs (ELFNN_R_SYM arch64 (r_info r)) rtype howto s1 = Some f /\
    finish_reloc arch64 big isec rs f = Some (inl s2) /\ field_in howto r (s_contents s1) /\
    (forall x k, (off <= x)%nat -> (x + k <= off + bitsize howto / 8)%nat ->
       getl k (s_contents s1) x = getl k (s_contents s) x /\
       (lo_relocs (s_pcrel s2) = lo_relocs (s_pcrel s1) -> getl k (s_contents s') x = getl k (s_contents s2) x)).
Proof.
  intros [Hp Hc Hh Hf Hs] H L.
  destruct (section_field _ _ _ _ _ _ _ _ _ _ _ _ _ _ Hp Hc H L) as (s1 & s2 & _ & E1 & _ & _ & Hl & Hb & Hx).
  destruct (relocate_one_at _ _ _ _ _ _ _ (with_rel r s1) howto S _ Hh Hs E1) as (rs & f & Hrs & Hsw & Hfin).
  exists (with_rel r s1), s2, rs, f. split_and!; try done.
  - eapply field_in_same; [exact Hf|exact Hl|]. apply Hb, Hf.
  - intros x k Hx1 Hx2. destruct (Hx x k) as [A B]; [done| |by split].
    etransitivity; [exact Hx2|]. unfold rel_span. rewrite Hh. unfold span. lia.
Qed.

(** C23: a pass over a section fills in every immediate.  In a position-dependent
    link that reports no message, an instruction whose relocation is one of ten
    types (high and low parts of addresses and of thread-local offsets,
    branches, jumps) and whose bytes no other relocation of the section touches
    ends with the immediate its symbol, addend and address ask for, which fits;
    no other bit of the instruction changes. *)
Theorem section_fills_immediates s ret s' out f p :
  lone_relocation s -> bfd_link_pic info = false ->
  In (rtype, f, p) insn_relocs -> In rtype (direct_types ++ tprel_types) ->
  relocate_section s = Some (ret, s', out) -> s_log s' = s_log s ->
  let v := relocated (is_addr isec) howto r (direct_value htab rtype S) in
  fits arch64 p f v /\
  fmt_extract f (field_of howto r (s_contents s')) = u64 (part_of p v) /\
  Z.ldiff (field_of howto r (s_contents s')) (dst_mask howto)
  = Z.ldiff (field_of howto r (s_contents s)) (dst_mask howto).
Proof.
  intros Hl Hpic Hin Ht H L. cbv zeta.
  destruct (lone_step _ _ _ _ Hl H L) as (s1 & s2 & rs & fl & Hrs & Hr1 & Hsw & Hfin & Hfi & Hx).
  rewrite switch_direct in Hsw by done. apply (inj Some) in Hsw as <-.
  rewrite (ra_value _ _ _ Hrs), (ra_unresolved _ _ _ Hrs) in Hfin.
  apply finish_ok in Hfin as (c & Hp & ->). rewrite Hr1 in Hp.
  destruct (Hx off (bitsize howto / 8)%nat) as [A B]; [done|done|]. rewrite B by done. rewrite <- A. cbn [s_contents with_contents].
  pose proof (lr_howto _ Hl) as Hh. destruct (insn_relocs_howto _ f p howto Hin Hh) as (_ & _ & Hmask & _).
  destruct (imm_format_elim f (insn_relocs_format _ _ _ Hin)) as [Hok Hden].
  destruct (perform_insn arch64 big (is_addr isec) howto r (direct_value htab rtype S) (s_contents s1) _ f p Hin eq_refl Hh Hfi)
    as [(Hfit & Hp' & Hw)|[_ Hp']]; [|congruence].
  assert (c = putl (bitsize howto / 8) (Z.ldiff (field_of howto r (s_contents s1)) (fmt_encode f (-1))
    .| fmt_encode f (u64 (part_of p (relocated (is_addr isec) howto r (direct_value htab rtype S)))))
    (s_contents s1) off) as -> by congruence.
  split; [done|]. rewrite Hw. split; [by apply (decoded_field arch64 _ rtype f p)|].
  rewrite Hmask. apply ldiff_lor_field. by apply format_encode_masked.
Qed.

(** What [perform_relocation] makes of a low part. *)
Lemma low_part_word h q value c c' f :
  In (ELFNN_R_TYPE arch64 (r_info q), f, P_lo) insn_relocs ->
  riscv_elf_rtype_to_howto (ELFNN_R_TYPE arch64 (r_info q)) = Some h ->
  bitsize h = 32%nat -> field_in h q c -> pc_relative h = false ->
  perform_relocation arch64 big (is_addr isec) h q value c = Some (bfd_reloc_ok, c') ->
  let w := getl 4 c' (Z.to_nat (r_offset q)) in
  fmt_extract f w = u64 (lo_part (value + r_addend q)) /\
  w = Z.ldiff (getl 4 c (Z.to_nat (r_offset q))) (fmt_encode f (-1)) .| fmt_encode f (u64 (lo_part (value + r_addend q))).
Proof.
  intros Hin Hh H32 Hfi Hpc Hp. cbv zeta.
  destruct (perform_insn arch64 big (is_addr isec) h q value c _ f P_lo Hin eq_refl Hh Hfi)
    as [(Hfit & Hp' & Hw)|[_ Hp']]; [|congruence].
  assert (Ev : relocated (is_addr isec) h q value = value + r_addend q) by (unfold relocated; rewrite Hpc; lia).
  rewrite Ev in *. cbn [part_of] in *. rewrite H32 in Hp', Hw. change (32 / 8)%nat with 4%nat in Hp', Hw.
  assert (c' = putl 4 (Z.ldiff (getl 4 c (Z.to_nat (r_offset q))) (fmt_encode f (-1))
    .| fmt_encode f (u64 (lo_part (value + r_addend q)))) c (Z.to_nat (r_offset q))) as -> by congruence.
  rewrite Hw. split; [|done]. by apply (decoded_field arch64 _ _ f P_lo (value + r_addend q) Hin).
Qed.

Definition gprel_format (t : Z) (f : imm_format) : Prop :=
  t = R_RISCV_GPREL_I /\ f = fmt_ITYPE_IMM \/ t = R_RISCV_GPREL_S /\ f = fmt_STYPE_IMM.

Lemma gprel_facts t f h :
  gprel_format t f -> riscv_elf_rtype_to_howto t = Some h ->
  In (t, f, P_lo) insn_relocs /\ bitsize h = 32%nat /\ pc_relative h = false /\ In f imm_formats /\
  fmt_encode f (-1) .& rs1_mask = 0.
Proof.
  intros [[-> ->]|[-> ->]] Hh; vm_compute in Hh; injection Hh as <-; (split; [|split_and!; try reflexivity]).
  1,3: cbn [insn_relocs hi_types lo_i_types lo_s_types map app]; in_list.
  all: unfold imm_formats; in_list.
Qed.

(** Relaxed accesses go through x0 or gp.  In a link that reports no message,
    a load, store or addi with one of the relocations that relaxation leaves
    (R_RISCV_GPREL_I, R_RISCV_GPREL_S) and whose bytes no other relocation
    touches ends with base register x0 or gp, and the base and its immediate add
    up to symbol + addend modulo 2^64; no other bit of it changes. *)
Theorem section_gp_access s ret s' out f :
  lone_relocation s -> gprel_format rtype f ->
  relocate_section s = Some (ret, s', out) -> s_log s' = s_log s ->
  let w := getl 4 (s_contents s') off in
  let base := if base_register w =? 0 then 0 else ht_gp htab in
  (base_register w = 0 \/ base_register w = X_GP) /\
  u64 (base + fmt_extract f w) = u64 (S + r_addend r) /\
  Z.ldiff w (fmt_encode f (-1) .| rs1_mask) = Z.ldiff (getl 4 (s_contents s) off) (fmt_encode f (-1) .| rs1_mask).
Proof.
  intros Hl Hf H L. cbv zeta. pose proof (lr_howto _ Hl) as Hh.
  destruct (gprel_facts _ _ _ Hf Hh) as (Hin & H32 & Hpc & Hfm & Hdis).
  destruct (lone_step _ _ _ _ Hl H L) as (s1 & s2 & rs & fl & Hrs & Hr1 & Hsw & Hfin & Hfi & Hx).
  rewrite H32 in Hx. change (32 / 8)%nat with 4%nat in Hx. destruct (Hx off 4%nat) as [A B]; [done|done|].
  assert (Hg : reloc_gprel htab rs howto s1 = Some fl) by (destruct Hf as [[E _]|[E _]]; rewrite E in Hsw; exact Hsw).
  unfold reloc_gprel in Hg. rewrite Hr1, (ra_value _ _ _ Hrs) in Hg.
  destruct (_ || _) eqn:Ev; [|by injection Hg as <-; unfold finish_reloc in Hfin; rewrite (ra_unresolved _ _ _ Hrs) in Hfin].
  apply bind_Some in Hg as (s3 & E3 & Hg).
  apply set_rs1_word in E3 as (w1 & E3 & H0 & H1 & Hw1 & Hrs1 & Hd1); [|apply Hfi|by destruct (VALID_ITYPE_IMM _)].
  assert (Hk : exists q, s_rel q = mk_rela (r_offset r) (r_info r) (r_addend (s_rel q)) /\
    s_contents q = s_contents s3 /\ s_pcrel q = s_pcrel s1 /\ fl = F_break q (Some howto) S bfd_reloc_ok None false /\
    u64 ((if VALID_ITYPE_IMM (u64 (S + r_addend r)) then 0 else ht_gp htab) + lo_part (S + r_addend (s_rel q)))
    = u64 (S + r_addend r)).
  { rewrite (ra_unresolved _ _ _ Hrs) in Hg. subst s3. destruct (VALID_ITYPE_IMM (u64 (S + r_addend r))) eqn:E0; injection Hg as <-.
    - eexists. split; [|split; [|split; [|split; [reflexivity|]]]]; try done; cbn [s_rel with_contents].
      + rewrite Hr1. by destruct r.
      + rewrite Hr1, Z.add_0_l. by apply valid_itype_low.
    - eexists. split; [|split; [|split; [|split; [reflexivity|]]]]; try done; cbn [s_rel with_contents with_rel r_addend].
      cbn [orb] in Ev. replace (S + r_addend r - ht_gp htab) with (S + (r_addend r - ht_gp htab)) in Ev by lia.
      apply valid_itype_low in Ev.
      assert (E : lo_part (S + u64 (r_addend r - ht_gp htab)) = lo_part (S + (r_addend r - ht_gp htab)))
        by (unfold lo_part; clear; u64_ring).
      rewrite E. clear -Ev. u64_ring. }
  destruct Hk as (q & Hq1 & Hq2 & Hq3 & -> & Hval). apply finish_ok in Hfin as (c & Hp & ->).
  cbn [s_contents s_pcrel with_contents] in B. rewrite B by (by rewrite Hq3).
  assert (Et : ELFNN_R_TYPE arch64 (r_info (s_rel q)) = rtype) by (by rewrite Hq1).
  assert (Eo : r_offset (s_rel q) = r_offset r) by (by rewrite Hq1).
  assert (Hfq : field_in howto (s_rel q) (s_contents q)).
  { rewrite Hq2, E3. destruct Hfi as (F1 & F2 & F3). split_and!; rewrite ?Eo; cbn [s_contents with_contents]; [done| |by apply putl_bytes].
    rewrite putl_length by lia. exact F2. }
  destruct (low_part_word howto (s_rel q) S (s_contents q) c f) as [G1 G2]; try done; [by rewrite Et..|].
  rewrite Eo in G1, G2. rewrite Hq2 in G2. replace (Z.to_nat (r_offset r)) with off in Hw1 by done. rewrite Hw1 in G2.
  set (w := getl 4 c off) in *. destruct (imm_format_elim f Hfm) as [Hok Hden].
  assert (Em : fmt_encode f (u64 (lo_part (S + r_addend (s_rel q)))) .& fmt_encode f (-1)
    = fmt_encode f (u64 (lo_part (S + r_addend (s_rel q))))) by (by apply format_encode_masked).
  assert (Ebase : w .& rs1_mask = w1 .& rs1_mask) by (rewrite G2; by apply replace_other).
  assert (Er : base_register w = if VALID_ITYPE_IMM (u64 (S + r_addend r)) then 0 else X_GP).
  { unfold base_register. rewrite Ebase, Hrs1. by destruct (VALID_ITYPE_IMM _). }
  split; [rewrite Er; destruct (VALID_ITYPE_IMM _); auto|]. split.
  - rewrite G1, Er. revert Hval. destruct (VALID_ITYPE_IMM _); cbn [Z.eqb]; intros <-; clear; u64_ring.
  - rewrite <- A. etransitivity; [apply (ldiff_both w w1); rewrite G2; by apply ldiff_lor_field|].
    rewrite !(Z.lor_comm (fmt_encode f (-1))). apply ldiff_both. rewrite Hd1. by rewrite Hr1 || done.
Qed.

End one_relocation.

(** ** Pairs of a high and a low part *)

Abbreviation U_mask := (fmt_encode fmt_UTYPE_IMM (-1)).

(** What the high part of a PC-relative address became: an auipc as before, or a
    lui if only the address itself was in reach. *)
Definition high_part_done (arch64 : bool) (w0 w pc target V : Z) : Prop :=
  u64 V = u64 (target - pc) /\ Z.ldiff w U_mask = Z.ldiff w0 U_mask \/
  u64 V = u64 target /\ arch64 = true /\ w .& MASK_AUIPC = MATCH_LUI /\
  Z.ldiff w (U_mask .| MASK_AUIPC) = Z.ldiff w0 (U_mask .| MASK_AUIPC).

Lemma high_part_word arch64 big sec_addr h q value c c' :
  In (ELFNN_R_TYPE arch64 (r_info q)) [R_RISCV_HI20; R_RISCV_PCREL_HI20; R_RISCV_GOT_HI20] ->
  riscv_elf_rtype_to_howto (ELFNN_R_TYPE arch64 (r_info q)) = Some h -> field_in h q c ->
  perform_relocation arch64 big sec_addr h q value c = Some (bfd_reloc_ok, c') ->
  let v := relocated sec_addr h q value in
  let w := getl 4 c' (Z.to_nat (r_offset q)) in
  fits arch64 P_hi fmt_UTYPE_IMM v /\ fmt_extract fmt_UTYPE_IMM w = u64 (hi_part v) /\
  w = Z.ldiff (getl 4 c (Z.to_nat (r_offset q))) U_mask .| fmt_encode fmt_UTYPE_IMM (u64 (hi_part v)).
Proof.
  intros Ht Hh Hfi Hp. cbv zeta.
  assert (Hin : In (ELFNN_R_TYPE arch64 (r_info q), fmt_UTYPE_IMM, P_hi) insn_relocs /\ bitsize h = 32%nat).
  { cbn [In] in Ht. repeat destruct Ht as [Ht|Ht]; try done; rewrite <- Ht in *; vm_compute in Hh; injection Hh as <-;
      (split; [|done]); cbn [insn_relocs hi_types lo_i_types lo_s_types map app]; in_list. }
  destruct Hin as [Hin H32].
  destruct (perform_insn arch64 big sec_addr h q value c _ fmt_UTYPE_IMM P_hi Hin eq_refl Hh Hfi)
    as [(Hfit & Hp' & Hw)|[_ Hp']]; [|congruence].
  rewrite H32 in Hp', Hw. change (32 / 8)%nat with 4%nat in Hp', Hw. cbn [part_of] in *.
  set (v := relocated sec_addr h q value) in *.
  assert (c' = putl 4 (Z.ldiff (getl 4 c (Z.to_nat (r_offset q))) U_mask .| fmt_encode fmt_UTYPE_IMM (u64 (hi_part v)))
    c (Z.to_nat (r_offset q))) as -> by congruence.
  rewrite Hw. split_and!; [done| |done]. by apply (decoded_field arch64 _ _ fmt_UTYPE_IMM P_hi v Hin).
Qed.

(** A lui in place of an auipc. *)
Lemma zero_pcrel_word arch64 pic r pc addr c howto r' c' :
  riscv_zero_pcrel_hi_reloc arch64 pic r pc addr c howto = Some (Some (r', c')) -> bitsize howto = 32%nat -> bytes c ->
  arch64 = true /\ r' = mk_rela (r_offset r) (ELFNN_R_INFO arch64 addr R_RISCV_HI20) (r_addend r) /\
  bytes c' /\ length c' = length c /\
  (let w := getl 4 c' (Z.to_nat (r_offset r)) in
   w .& MASK_AUIPC = MATCH_LUI /\
   Z.ldiff w MASK_AUIPC = Z.ldiff (getl 4 c (Z.to_nat (r_offset r))) MASK_AUIPC).
Proof.
  unfold riscv_zero_pcrel_hi_reloc. destruct pic; [done|]. destruct (_ || _) eqn:Ea; [done|]. destruct (_ && _); [done|].
  intros H H32 Hb. rewrite H32 in H. apply orb_false_iff in Ea as [Ea _]. apply negb_false_iff in Ea.
  destruct (riscv_get_insn _ _ _) as [w0|] eqn:E0; [|done].
  destruct (riscv_put_insn _ _ _ _) as [c1|] eqn:E; [|done]. injection H as <- <-. cbn [r_offset] in *.
  apply get_insn_word in E0 as ->. pose proof (getl_range 4 c (Z.to_nat (r_offset r)) Hb) as Hw.
  destruct (replace_field _ MASK_AUIPC MATCH_LUI Hw) as (Hw' & Hf & Hd); [vm_compute; split; congruence|reflexivity|].
  apply put_insn_word in E as (H0 & H1 & -> & Hg); [|exact Hw']. cbn zeta. rewrite Hg.
  split_and!; [done|done|by apply putl_bytes|apply putl_length; lia|exact Hf|exact Hd].
Qed.

(** The step of a high part. *)
Lemma pcrel_hi_step arch64 info isec big rs r_type howto s value addend f s2 :
  In r_type [R_RISCV_PCREL_HI20; R_RISCV_GOT_HI20] -> ELFNN_R_TYPE arch64 (r_info (s_rel s)) = r_type ->
  riscv_elf_rtype_to_howto r_type = Some howto -> field_in howto (s_rel s) (s_contents s) ->
  u64 addend = u64 (r_addend (s_rel s)) ->
  zero_and_record arch64 info isec r_type howto value addend false s = Some f ->
  finish_reloc arch64 big isec rs f = Some (inl s2) ->
  let pc := u64 (is_addr isec + r_offset (s_rel s)) in
  let off := Z.to_nat (r_offset (s_rel s)) in
  exists V,
    hi_relocs (s_pcrel s2) !! pc = Some (mk_hi (u64 V) r_type) /\
    lo_relocs (s_pcrel s2) = lo_relocs (s_pcrel s) /\
    fits arch64 P_hi fmt_UTYPE_IMM V /\ fmt_extract fmt_UTYPE_IMM (getl 4 (s_contents s2) off) = u64 (hi_part V) /\
    high_part_done arch64 (getl 4 (s_contents s) off) (getl 4 (s_contents s2) off) pc (value + r_addend (s_rel s)) V.
Proof.
  intros Hin Ht Hh Hfi Ha Hz Hfin. cbv zeta. set (r := s_rel s) in *.
  assert (Hb : bitsize howto = 32%nat /\ pc_relative howto = true).
  { cbn [In] in Hin. destruct Hin as [<-|[<-|[]]]; vm_compute in Hh; by injection Hh as <-. }
  destruct Hb as [H32 Hpc]. unfold zero_and_record in Hz. apply bind_Some in Hz as ([[r' c']|] & Ez & Hz).
  - apply zero_pcrel_word in Ez as (Harch & -> & Hb' & Hl' & Hlui & Hrest); [|done|apply Hfi].
    unfold current_howto in Hz. cbn [s_rel with_rel r_info] in Hz. rewrite r_type_info in Hz by done.
    destruct (riscv_elf_rtype_to_howto R_RISCV_HI20) as [h|] eqn:Eh; [|done]. apply (inj Some) in Hz as <-.
    apply finish_ok in Hfin as (c & Hp & ->). cbn [s_rel with_pcrel s_contents with_contents] in Hp |- *.
    rewrite assert_rel, assert_contents in Hp. cbn [s_rel with_rel s_contents with_contents] in Hp |- *.
    assert (Hh' : h = h /\ pc_relative h = false /\ bitsize h = 32%nat) by (vm_compute in Eh; by injection Eh as <-).
    destruct Hh' as (_ & Hpc' & H32').
    apply high_part_word in Hp; cbn [r_info r_offset] in *.
    2: { rewrite r_type_info by done. by left. }
    2: { by rewrite r_type_info by done. }
    2: { destruct Hfi as (F1 & F2 & F3). rewrite H32 in F2. split_and!; [done| |done]. cbn [r_offset]. rewrite H32', Hl'. exact F2. }
    cbv zeta in Hp. unfold relocated in Hp. rewrite Hpc' in Hp. cbn [r_addend r_offset] in Hp.
    fold r in Hp. destruct Hp as (Hfit & Hx & Hw). replace (value - 0 + r_addend r) with (value + r_addend r) in * by lia.
    exists (value + r_addend r). split_and!; [|done|done|done|].
    + cbn [s_pcrel with_pcrel hi_relocs riscv_record_pcrel_hi_reloc with_rel with_contents]. rewrite lookup_insert_eq.
      f_equal. f_equal. clear -Ha. u64_ring.
    + right. destruct (imm_format_elim fmt_UTYPE_IMM) as [Hok Hden]; [by destruct UTYPE_fmt as (_ & _ & ?)|].
      pose proof (format_encode_masked _ Hok Hden (u64 (hi_part (value + r_addend r)))) as Em.
      split_and!; [done|done| |].
      * rewrite Hw. rewrite (replace_other _ _ _ MASK_AUIPC Em) by reflexivity. exact Hlui.
      * etransitivity; [apply ldiff_both; rewrite Hw; by apply ldiff_lor_field|].
        rewrite !(Z.lor_comm U_mask). by apply ldiff_both.
  - unfold current_howto in Hz. fold r in Hz. rewrite Ht, Hh in Hz. apply (inj Some) in Hz as <-.
    apply finish_ok in Hfin as (c & Hp & ->). cbn [s_rel with_pcrel s_contents with_contents] in Hp |- *.
    rewrite assert_rel, assert_contents in Hp. fold r in Hp.
    apply high_part_word in Hp; [|rewrite Ht; cbn [In] in *; tauto|by rewrite Ht|done].
    cbv zeta in Hp. destruct Hp as (Hfit & Hx & Hw). set (V := relocated _ howto r value) in *.
    assert (EV : u64 V = u64 (value + r_addend r - u64 (is_addr isec + r_offset r)))
      by (unfold V, relocated; rewrite Hpc; u64_ring).
    exists V. split_and!; [|done|done|done|].
    + cbn [s_pcrel with_pcrel with_contents hi_relocs riscv_record_pcrel_hi_reloc]. fold r. rewrite lookup_insert_eq. f_equal. f_equal.
      rewrite EV. clear -Ha. u64_ring.
    + left. split; [done|]. destruct (imm_format_elim fmt_UTYPE_IMM) as [Hok Hden]; [by destruct UTYPE_fmt as (_ & _ & ?)|].
      rewrite Hw. apply ldiff_lor_field. by apply format_encode_masked.
Qed.

Section pair.

Context (arch64 big : bool) (info : bfd_link_info) (htab : riscv_elf_link_hash_table) (isec : input_section).
Context (symbols : Z -> local_symbol + elf_link_hash_entry) (ltt : Z -> Z).

Abbreviation rtype r := (ELFNN_R_TYPE arch64 (r_info r)).
Abbreviation rsym r := (symbols (ELFNN_R_SYM arch64 (r_info r))).
Abbreviation pc r := (u64 (is_addr isec + r_offset r)).
Abbreviation off r := (Z.to_nat (r_offset r)).
Abbreviation relocate_section := (riscv_elf_relocate_section arch64 big info htab isec symbols ltt).
Abbreviation loop := (relocate_loop arch64 big info htab isec symbols ltt).
Abbreviation lone := (lone_relocation arch64 symbols).

Lemma resolve_lo_app p l1 l2 c c' :
  resolve_lo_loop arch64 big (is_addr isec) p (l1 ++ l2) c = Some (c', None) ->
  exists c1, resolve_lo_loop arch64 big (is_addr isec) p l1 c = Some (c1, None) /\
    resolve_lo_loop arch64 big (is_addr isec) p l2 c1 = Some (c', None).
Proof.
  revert c. induction l1 as [|y l1 IH]; intros c; cbn [app resolve_lo_loop]; [intros H; by exists c|].
  destruct (pcrel_lo_check p y); [done|]. destruct (perform_relocation _ _ _ _ _ _ _) as [[st c1]|]; [|done]. apply IH.
Qed.

(** One low part among others that keep away from it. *)
Lemma resolve_lo_entry p l1 y l2 c c' f :
  Forall (fun z => exists r, lo_at arch64 (r_offset r) (rel_span arch64 r) z /\ clear_of arch64 (off (lo_reloc y)) 4 r) (l1 ++ l2) ->
  lo_ok arch64 (length c) y f -> bytes c ->
  resolve_lo_loop arch64 big (is_addr isec) p (l1 ++ y :: l2) c = Some (c', None) ->
  exists v, pcrel_lo_check p y = inr v /\
    fmt_extract f (getl 4 c' (off (lo_reloc y))) = u64 (lo_part (v + r_addend (lo_reloc y))).
Proof.
  intros Hc Hok Hb H. apply Forall_app in Hc as [Hc1 Hc2]. apply resolve_lo_app in H as (c1 & H1 & H2).
  destruct (resolve_frame _ _ _ _ _ _ _ _ _ _ Hc1 H1) as (_ & Hl1 & Hb1). cbn [resolve_lo_loop] in H2.
  destruct (pcrel_lo_check p y) as [er|v]; [done|]. exists v. split; [done|].
  rewrite <- Hl1 in Hok. destruct (perform_lo arch64 big (is_addr isec) y f v c1 Hok (Hb1 Hb)) as (c2 & Hp & _ & _ & Hx & _).
  rewrite Hp in H2. destruct (resolve_frame _ _ _ _ _ _ _ _ _ _ Hc2 H2) as (-> & _ & _). exact Hx.
Qed.

(** A relocation that keeps away does not share the address. *)
Lemma clear_pc r r' n :
  (0 < n)%nat -> plain_rel arch64 r -> plain_rel arch64 r' -> clear_of arch64 (off r) n r' ->
  pc r <> pc r' \/ rel_span arch64 r' = 0%nat.
Proof.
  intros Hn [Hr _] [Hr' _] Hc. unfold clear_of, disjoint_ranges in Hc.
  destruct (decide (rel_span arch64 r' = 0%nat)) as [E|E]; [by right|left]. intros Epc.
  assert (r_offset r = r_offset r'); [|lia]. clear -Hr Hr' Epc. unfold u64 in Epc.
  change (2 ^ 64) with 18446744073709551616 in *. Z.to_euclidean_division_equations. lia.
Qed.

(** The entry of a high part is still there at the end. *)
Lemma hi_entry_kept pre post r s2 s3 :
  Forall (plain_rel arch64) (pre ++ r :: post) -> Forall (clear_of arch64 (off r) (rel_span arch64 r)) (pre ++ post) ->
  (0 < rel_span arch64 r)%nat -> effects arch64 isec post s2 s3 ->
  hi_relocs (s_pcrel s3) !! pc r = hi_relocs (s_pcrel s2) !! pc r.
Proof.
  intros Hp Hc Hn He. apply (es_hi _ _ _ _ _ He). rewrite Forall_app, Forall_cons in Hp. destruct Hp as (_ & Hr & Hp).
  apply Forall_app in Hc as [_ Hc]. rewrite Forall_forall in *. intros r' Hr'. eapply clear_pc; eauto.
Qed.

(** What a pass without messages makes of a low part. *)
Lemma low_part_done pre r post s ret s' out howto label f :
  lone pre post r howto label s -> lo_format (rtype r) = Some f ->
  relocate_section (pre ++ r :: post) s = Some (ret, s', out) -> s_log s' = s_log s ->
  exists s3 out3 v, loop (pre ++ r :: post) (init_state s) = Some (None, s3, out3) /\
    pcrel_lo_check (s_pcrel s3) (mk_lo label r howto) = inr v /\
    fmt_extract f (getl 4 (s_contents s') (off r)) = u64 (lo_part (v + r_addend r)).
Proof.
  intros [Hp Hc Hh Hf Hs] Hfm H L.
  destruct (section_at _ _ _ _ _ _ _ _ _ _ _ _ _ _ Hp H L) as (_ & s1 & s2 & s3 & A & B & C & D & _ & out3 & E).
  destruct (relocate_one_at _ _ _ _ _ _ _ (with_rel r s1) howto label _ Hh Hs B) as (rs & fl & Hrs & Hsw & Hfin).
  cbn [s_rel with_rel] in Hsw.
  assert (Hty : rtype r = R_RISCV_PCREL_LO12_I \/ rtype r = R_RISCV_PCREL_LO12_S).
  { unfold lo_format in Hfm. revert Hfm. generalize (rtype r). clear. intros t.
    destruct t as [|t|t]; [done| |done]. do 6 (try destruct t as [t|t|]); try done; auto. }
  assert (Hlo : reloc_pcrel_lo12 rs howto (with_rel r s1) = fl)
    by (destruct Hty as [Ht|Ht]; rewrite Ht in Hsw; by apply (inj Some) in Hsw). unfold reloc_pcrel_lo12 in Hlo.
  destruct (_ && _); subst fl; [by unfold finish_reloc in Hfin; rewrite (ra_unresolved _ _ _ Hrs) in Hfin|].
  injection Hfin as Hs2. rewrite (ra_value _ _ _ Hrs) in Hs2. cbn [s_rel with_rel] in Hs2.
  destruct (es_lo _ _ _ _ _ A) as (l1 & L1 & F1), (es_lo _ _ _ _ _ C) as (l2 & L2 & F2).
  set (y := mk_lo label r howto).
  assert (Hlos : lo_relocs (s_pcrel s3) = l2 ++ y :: l1).
  { rewrite L2, <- Hs2. cbn [s_pcrel with_pcrel riscv_record_pcrel_lo_reloc lo_relocs with_rel].
    rewrite L1. cbn. by rewrite app_nil_r. }
  assert (Hlen : length (s_contents s3) = length (s_contents s)).
  { rewrite (es_length _ _ _ _ _ C), <- Hs2. cbn. by rewrite (es_length _ _ _ _ _ A). }
  assert (Hb : bytes (s_contents s3)).
  { apply (es_bytes _ _ _ _ _ C). rewrite <- Hs2. cbn. apply (es_bytes _ _ _ _ _ A). apply Hf. }
  assert (H32 : bitsize howto = 32%nat).
  { destruct Hty as [Ht|Ht]; rewrite Ht in Hh; vm_compute in Hh; by injection Hh as <-. }
  assert (Hsp : rel_span arch64 r = 4%nat).
  { unfold rel_span. rewrite Hh. destruct Hty as [Ht|Ht]; rewrite Ht in Hh; vm_compute in Hh; by injection Hh as <-. }
  rewrite Hsp in Hc. apply Forall_app in Hc as [Hc1 Hc2].
  unfold riscv_resolve_pcrel_lo_relocs in D. rewrite Hlos in D.
  destruct (resolve_lo_entry (s_pcrel s3) l2 y l1 (s_contents s3) (s_contents s') f) as (v & Hv & Hx); [| |done|done|].
  - apply Forall_app. split; [by apply (lo_clear arch64 post)|by apply (lo_clear arch64 pre)].
  - split; [done|done|]. destruct Hf as (F3 & F4 & _). rewrite H32 in F4. change (Z.of_nat (32 / 8)) with 4 in F4.
    cbn [lo_reloc y]. rewrite Hlen. lia.
  - by exists s3, out3, v.
Qed.

(** A high part and a low part that names it add up. *)
Lemma parts_add_up s3 rh rl howto r_type V v w0 U L f target :
  hi_relocs (s_pcrel s3) !! pc rh = Some (mk_hi (u64 V) r_type) ->
  fits arch64 P_hi fmt_UTYPE_IMM V -> fmt_extract fmt_UTYPE_IMM U = u64 (hi_part V) ->
  high_part_done arch64 w0 U (pc rh) target V ->
  pcrel_lo_check (s_pcrel s3) (mk_lo (pc rh) rl howto) = inr v ->
  fmt_extract f L = u64 (lo_part (v + r_addend rl)) ->
  let sum := EXTRACT_UTYPE_IMM U + fmt_extract f L in
  let wanted := target + r_addend rl in
  (Z.ldiff U U_mask = Z.ldiff w0 U_mask /\ u32 (pc rh + sum) = u32 wanted /\
   (arch64 = true -> u64 (pc rh + sum) = u64 wanted)) \/
  (arch64 = true /\ U .& MASK_AUIPC = MATCH_LUI /\
   Z.ldiff U (U_mask .| MASK_AUIPC) = Z.ldiff w0 (U_mask .| MASK_AUIPC) /\ u64 sum = u64 wanted).
Proof.
  intros Hhi Hfit HU Hdone Hchk HL. cbv zeta. unfold pcrel_lo_check in Hchk. cbn [lo_address lo_reloc] in Hchk.
  rewrite Hhi in Hchk. cbn [hi_value hi_type] in Hchk. destruct (_ && _); [done|].
  destruct (negb _) eqn:En; [done|]. injection Hchk as <-. apply negb_false_iff, Z.eqb_eq in En.
  assert (E1 : u64 (u64 V + r_addend rl) = u64 (V + r_addend rl)) by (clear; u64_ring). rewrite E1 in En.
  assert (E2 : lo_part (u64 V + r_addend rl) = lo_part (V + r_addend rl)) by (unfold lo_part; clear; u64_ring).
  rewrite E2 in HL. destruct UTYPE_fmt as (_ & EU & _). rewrite EU, HU, HL.
  destruct (high_low_target arch64 V (r_addend rl) En Hfit) as [S1 S2].
  destruct Hdone as [[EV Hd]|(EV & Ha & Hlui & Hd)]; [left|right].
  - split; [done|]. split; [|intros Ha; specialize (S2 Ha)].
    + clear -S1 EV. unfold u32 in *. u64_ring.
    + clear -S2 EV. u64_ring.
  - split_and!; [done|done|done|]. specialize (S2 Ha). clear -S2 EV. u64_ring.
Qed.

(** The step of a PC-relative high part in a pass without messages. *)
Lemma pcrel_hi_done pre r post s ret s' out howto S :
  lone pre post r howto S s -> rtype r = R_RISCV_PCREL_HI20 ->
  relocate_section (pre ++ r :: post) s = Some (ret, s', out) -> s_log s' = s_log s ->
  exists s3 out3 V, loop (pre ++ r :: post) (init_state s) = Some (None, s3, out3) /\
    hi_relocs (s_pcrel s3) !! pc r = Some (mk_hi (u64 V) R_RISCV_PCREL_HI20) /\
    fits arch64 P_hi fmt_UTYPE_IMM V /\ fmt_extract fmt_UTYPE_IMM (getl 4 (s_contents s') (off r)) = u64 (hi_part V) /\
    high_part_done arch64 (getl 4 (s_contents s) (off r)) (getl 4 (s_contents s') (off r)) (pc r) (S + r_addend r) V.
Proof.
  intros [Hp Hc Hh Hf Hs] Ht H L.
  destruct (section_field _ _ _ _ _ _ _ _ _ _ _ _ _ _ Hp Hc H L) as (s1 & s2 & s3 & E1 & He & [out3 El] & Hl & Hb & Hx).
  destruct (relocate_one_at _ _ _ _ _ _ _ (with_rel r s1) howto S _ Hh Hs E1) as (rs & fl & Hrs & Hsw & Hfin).
  cbn [s_rel with_rel] in Hsw. rewrite Ht in Hsw, Hh. cbn [reloc_switch] in Hsw.
  rewrite (ra_value _ _ _ Hrs), (ra_unresolved _ _ _ Hrs) in Hsw.
  assert (Hsp : rel_span arch64 r = 4%nat).
  { unfold rel_span. rewrite Ht. reflexivity. }
  destruct (pcrel_hi_step arch64 info isec big rs R_RISCV_PCREL_HI20 howto (with_rel r s1) S (r_addend r) fl s2)
    as (V & V1 & V2 & V3 & V4 & V5); [by left|exact Ht|exact Hh| |done|exact Hsw|exact Hfin|].
  { eapply field_in_same; [exact Hf|exact Hl|]. apply Hb, Hf. }
  cbn [s_rel with_rel s_contents s_pcrel] in V1, V2, V3, V4, V5.
  destruct (Hx (off r) 4%nat) as [A B]; [done|lia|]. specialize (B V2).
  exists s3, out3, V. split_and!; [done| |done|by rewrite B|by rewrite B, <- A].
  rewrite (hi_entry_kept pre post r s2 s3); [exact V1|done|done|lia|done].
Qed.

(** C24: PC-relative pairs of a section reach their targets.  In a link that
    reports no message, an auipc with a %pcrel_hi relocation and an I- or S-type
    instruction with a %pcrel_lo relocation that names its address, anywhere in
    the section and touched by no other relocation: either the auipc stays one,
    and its address and the two immediates add up to symbol + addends (modulo
    2^32 on RV32), or, on RV64, it has become a lui and the immediates alone add
    up to it.  Nothing else of the auipc changes. *)
Theorem section_pcrel_pair pre post pre' post' rh rl howto howto' S f s ret s' out :
  lone pre post rh howto S s -> lone pre' post' rl howto' (pc rh) s ->
  pre ++ rh :: post = pre' ++ rl :: post' ->
  rtype rh = R_RISCV_PCREL_HI20 -> lo_format (rtype rl) = Some f ->
  relocate_section (pre ++ rh :: post) s = Some (ret, s', out) -> s_log s' = s_log s ->
  let w0 := getl 4 (s_contents s) (off rh) in
  let U := getl 4 (s_contents s') (off rh) in
  let sum := EXTRACT_UTYPE_IMM U + fmt_extract f (getl 4 (s_contents s') (off rl)) in
  let wanted := S + r_addend rh + r_addend rl in
  (Z.ldiff U U_mask = Z.ldiff w0 U_mask /\ u32 (pc rh + sum) = u32 wanted /\
   (arch64 = true -> u64 (pc rh + sum) = u64 wanted)) \/
  (arch64 = true /\ U .& MASK_AUIPC = MATCH_LUI /\
   Z.ldiff U (U_mask .| MASK_AUIPC) = Z.ldiff w0 (U_mask .| MASK_AUIPC) /\ u64 sum = u64 wanted).
Proof.
  intros Hhi Hlo Heq Ht Hfm H L. cbv zeta.
  destruct (pcrel_hi_done _ _ _ _ _ _ _ _ _ Hhi Ht H L) as (s3 & o3 & V & El & V1 & V2 & V3 & V4).
  rewrite Heq in H, El. destruct (low_part_done _ _ _ _ _ _ _ _ _ _ Hlo Hfm H L) as (s3' & o3' & v & El' & Hv & Hx).
  assert (s3' = s3) as -> by congruence. eapply parts_add_up; eauto.
Qed.

End pair.

(** ** An example *)

(** auipc a0; addi a0, a0; lw a0, (a0); lui a0 at 0x10000, which use a symbol at
    0x12345, with gp at 0x12800. *)
Module Demo.

Definition info : bfd_link_info := mk_info type_pde false false 0 0 0 RM_DIAGNOSE false.
Definition htab : riscv_elf_link_hash_table :=
  mk_link_htab false false (Some 0x20000) None None None None None 0x12800.
Definition isec : input_section := mk_input 0x10000 0x10000 true true false false false (fun x => x).
Definition text : def_section := mk_def_section 0x10000 false false.

Definition symbols (i : Z) : local_symbol + elf_link_hash_entry :=
  inl (mk_local (if i =? 1 then 0x2345 else 0) 0 text None None).

Definition contents : list Z :=
  [0x17; 0x05; 0; 0;  0x13; 0x05; 0x05; 0;  0x03; 0x25; 0x05; 0;  0x37; 0x05; 0; 0].

Definition rel (off sym type addend : Z) : Elf_Internal_Rela := mk_rela off (ELF64_R_INFO sym type) addend.
Definition hi : Elf_Internal_Rela := rel 0 1 R_RISCV_PCREL_HI20 4.
Definition relax : Elf_Internal_Rela := rel 0 0 R_RISCV_RELAX 0.
Definition lo : Elf_Internal_Rela := rel 4 2 R_RISCV_PCREL_LO12_I 0.
Definition gprel : Elf_Internal_Rela := rel 8 1 R_RISCV_GPREL_I 0.
Definition lui : Elf_Internal_Rela := rel 12 1 R_RISCV_HI20 0.
Definition relocs : list Elf_Internal_Rela := [hi; relax; lo; gprel; lui].

Definition state : link_state :=
  mk_link_state contents relax [] [] [] ∅ ∅ None None None None riscv_init_pcrel_relocs None [].

Definition run : option (bool * link_state * list Elf_Internal_Rela) :=
  riscv_elf_relocate_section true false info htab isec symbols (fun _ => 0) relocs state.

Lemma run_eq rels :
  rels = relocs ->
  riscv_elf_relocate_section true false info htab isec symbols (fun _ => 0) rels state = run.
Proof. intros ->. unfold run. reflexivity. Qed.

Lemma run_silent ret s out : run = Some (ret, s, out) -> s_log s = [].
Proof.
  intros E. assert (K : match run with Some (_, s, _) => s_log s | None => [] end = []) by (vm_compute; reflexivity).
  by rewrite E in K.
Qed.

Ltac lone_example :=
  split; [repeat constructor; vm_compute; congruence
         |repeat constructor; unfold clear_of, disjoint_ranges; vm_compute; lia
         |reflexivity
         |split_and!; [vm_compute; congruence..|repeat constructor; lia]
         |reflexivity].

End Demo.

Lemma section_fills_immediates_witness :
  exists ret s' out, Demo.run = Some (ret, s', out) /\
    EXTRACT_UTYPE_IMM (getl 4 (s_contents s') 12) = 0x12000.
Proof.
  destruct Demo.run as [[[ret s'] out]|] eqn:E; [|by vm_compute in E]. exists ret, s', out. split; [done|].
  destruct (riscv_elf_rtype_to_howto R_RISCV_HI20) as [howto|] eqn:Hh; [|done].
  destruct (section_fills_immediates true false Demo.info Demo.htab Demo.isec Demo.symbols (fun _ => 0)
    [Demo.hi; Demo.relax; Demo.lo; Demo.gprel] [] Demo.lui howto 0x12345 Demo.state ret s' out
    fmt_UTYPE_IMM P_hi) as (_ & Hx & _).
  - vm_compute in Hh. injection Hh as <-. Demo.lone_example.
  - reflexivity.
  - change (ELFNN_R_TYPE true (r_info Demo.lui)) with R_RISCV_HI20. by left.
  - change (ELFNN_R_TYPE true (r_info Demo.lui)) with R_RISCV_HI20. by left.
  - rewrite Demo.run_eq by reflexivity. exact E.
  - by apply Demo.run_silent in E.
  - vm_compute in Hh. injection Hh as <-. destruct UTYPE_fmt as (_ & -> & _). etransitivity; [exact Hx|]. vm_compute. reflexivity.
Defined.

Lemma section_gp_access_witness :
  exists ret s' out, Demo.run = Some (ret, s', out) /\
    let w := getl 4 (s_contents s') 8 in
    u64 ((if base_register w =? 0 then 0 else ht_gp Demo.htab) + fmt_extract fmt_ITYPE_IMM w) = 0x12345.
Proof.
  destruct Demo.run as [[[ret s'] out]|] eqn:E; [|by vm_compute in E]. exists ret, s', out. split; [done|].
  destruct (riscv_elf_rtype_to_howto R_RISCV_GPREL_I) as [howto|] eqn:Hh; [|done].
  destruct (section_gp_access true false Demo.info Demo.htab Demo.isec Demo.symbols (fun _ => 0)
    [Demo.hi; Demo.relax; Demo.lo] [Demo.lui] Demo.gprel howto 0x12345 Demo.state ret s' out
    fmt_ITYPE_IMM) as (_ & Hx & _).
  - vm_compute in Hh. injection Hh as <-. Demo.lone_example.
  - left. split; reflexivity.
  - rewrite Demo.run_eq by reflexivity. exact E.
  - by apply Demo.run_silent in E.
  - etransitivity; [exact Hx|]. vm_compute. reflexivity.
Defined.

Lemma section_pcrel_pair_witness :
  exists ret s' out, Demo.run = Some (ret, s', out) /\
    let U := getl 4 (s_contents s') 0 in
    let sum := EXTRACT_UTYPE_IMM U + fmt_extract fmt_ITYPE_IMM (getl 4 (s_contents s') 4) in
    u64 (u64 (is_addr Demo.isec + r_offset Demo.hi) + sum) = 0x12349 \/ u64 sum = 0x12349.
Proof.
  destruct Demo.run as [[[ret s'] out]|] eqn:E; [|by vm_compute in E]. exists ret, s', out. split; [done|].
  destruct (riscv_elf_rtype_to_howto R_RISCV_PCREL_HI20) as [howto|] eqn:Hh; [|done].
  destruct (riscv_elf_rtype_to_howto R_RISCV_PCREL_LO12_I) as [howto'|] eqn:Hh'; [|done].
  destruct (section_pcrel_pair true false Demo.info Demo.htab Demo.isec Demo.symbols (fun _ => 0)
    [] [Demo.relax; Demo.lo; Demo.gprel; Demo.lui] [Demo.hi; Demo.relax] [Demo.gprel; Demo.lui]
    Demo.hi Demo.lo howto howto' 0x12345 fmt_ITYPE_IMM Demo.state ret s' out) as [(_ & _ & Hx)|(_ & _ & _ & Hx)].
  - vm_compute in Hh. injection Hh as <-. Demo.lone_example.
  - vm_compute in Hh'. injection Hh' as <-. Demo.lone_example.
  - reflexivity.
  - reflexivity.
  - reflexivity.
  - rewrite Demo.run_eq by reflexivity. exact E.
  - by apply Demo.run_silent in E.
  - left. etransitivity; [exact (Hx eq_refl)|]. vm_compute. reflexivity.
  - right. etransitivity; [exact Hx|]. vm_compute. reflexivity.
Defined.
