(* ===== verification/LinkPlt.v ===== *)
(** * The procedure linkage table (bfd/elfnn-riscv.c)

    The code of the PLT, and [riscv_elf_finish_dynamic_symbol], which fills in
    the entries of the PLT and the GOT of a symbol and the relocations that the
    dynamic linker resolves them with; the headers of the tables, as
    [riscv_elf_finish_dynamic_sections] writes them. *)
From Stdlib Require Import ZArith Bool Lia.
From stdpp Require Import base list gmap.
From S2P Require Import Prelude Options OpcodeH RiscvH OpcodeMatch Bytes Howto LinkReloc LinkMerge LinkRelocate.

#[local] Open Scope Z_scope.
#[local] Open Scope c_scope.
#[local] Open Scope list_scope.

(* include/elf/common.h *)
Definition DT_PLTRELSZ : Z := 2.
Definition DT_PLTGOT : Z := 3.
Definition DT_JMPREL : Z := 23.

(** What the hash table says of a symbol besides [elf_link_hash_entry]. *)
Record finish_flags : Set := mk_finish {
  ff_needs_copy : bool;
  ff_pointer_equality_needed : bool;
  ff_ref_regular_nonweak : bool;
  ff_in_dynrelro : bool;                 (* defined in .data.rel.ro's copies *)
  ff_special : bool;                     (* _DYNAMIC, _GLOBAL_OFFSET_TABLE_, _PROCEDURE_LINKAGE_TABLE_ *)
}.

Inductive output_shndx : Set := SHN_UNDEF | SHN_ABS | SHN_other (n : Z).

(** The symbol written to the output. *)
Record output_symbol : Set := mk_output_symbol { os_shndx : output_shndx; os_value : Z }.

(** The sections that are filled in.  [fs_plt] and [fs_relplt] are .plt and
    .rela.plt, or .iplt and .rela.iplt if there is no .plt; a relocation section
    of which entries are written by index is a list of places. *)
Record finish_state : Type := mk_finish_state {
  fs_plt : list Z;
  fs_gotplt : list Z;
  fs_igotplt : list Z;
  fs_got : list Z;
  fs_relplt : option (list (option Elf_Internal_Rela));
  fs_srelgot : option (list Elf_Internal_Rela);
  fs_srelbss : option (list Elf_Internal_Rela);
  fs_sreldynrelro : option (list Elf_Internal_Rela);
  fs_last_iplt_index : Z;
  fs_asserts : nat;                      (* failed BFD_ASSERTs *)
}.

Definition with_plt (p : list Z) (r : option (list (option Elf_Internal_Rela))) (i : Z) (s : finish_state)
  : finish_state :=
  mk_finish_state p (fs_gotplt s) (fs_igotplt s) (fs_got s) r (fs_srelgot s) (fs_srelbss s) (fs_sreldynrelro s)
    i (fs_asserts s).
Definition with_words (g ig : list Z) (s : finish_state) : finish_state :=
  mk_finish_state (fs_plt s) g ig (fs_got s) (fs_relplt s) (fs_srelgot s) (fs_srelbss s) (fs_sreldynrelro s)
    (fs_last_iplt_index s) (fs_asserts s).
Definition with_got (g : list Z) (r : option (list Elf_Internal_Rela)) (s : finish_state) : finish_state :=
  mk_finish_state (fs_plt s) (fs_gotplt s) (fs_igotplt s) g (fs_relplt s) r (fs_srelbss s) (fs_sreldynrelro s)
    (fs_last_iplt_index s) (fs_asserts s).
Definition with_copy (b r : option (list Elf_Internal_Rela)) (s : finish_state) : finish_state :=
  mk_finish_state (fs_plt s) (fs_gotplt s) (fs_igotplt s) (fs_got s) (fs_relplt s) (fs_srelgot s) b r
    (fs_last_iplt_index s) (fs_asserts s).
Definition check (b : bool) (s : finish_state) : finish_state :=
  if b then s
  else mk_finish_state (fs_plt s) (fs_gotplt s) (fs_igotplt s) (fs_got s) (fs_relplt s) (fs_srelgot s)
         (fs_srelbss s) (fs_sreldynrelro s) (fs_last_iplt_index s) (S (fs_asserts s)).

Section plt.

Context (arch64 big : bool) (info : bfd_link_info) (htab : riscv_elf_link_hash_table) (e_flags : Z).

Definition MATCH_LREG : Z := if arch64 then MATCH_LD else MATCH_LW.
Definition RISCV_ELF_LOG_WORD_BYTES : Z := if arch64 then 3 else 2.

Abbreviation WORD := (RISCV_ELF_WORD_BYTES arch64).
Abbreviation pic := (bfd_link_pic info).

(** [riscv_make_plt_header]; [None] is the refusal for RVE. *)
Definition riscv_make_plt_header (gotplt_addr addr : Z) : option (list Z) :=
  let high := RISCV_PCREL_HIGH_PART gotplt_addr addr in
  let low := RISCV_PCREL_LOW_PART gotplt_addr addr in
  if negb (e_flags .& EF_RISCV_RVE =? 0) then None
  else Some (map u32
    [ RISCV_UTYPE MATCH_AUIPC X_T2 high;
      RISCV_RTYPE MATCH_SUB X_T1 X_T1 X_T3;
      RISCV_ITYPE MATCH_LREG X_T3 X_T2 low;
      RISCV_ITYPE MATCH_ADDI X_T1 X_T1 (u32 (- (PLT_HEADER_SIZE + 12)));
      RISCV_ITYPE MATCH_ADDI X_T0 X_T2 low;
      RISCV_ITYPE MATCH_SRLI X_T1 X_T1 (4 - RISCV_ELF_LOG_WORD_BYTES);
      RISCV_ITYPE MATCH_LREG X_T0 X_T0 WORD;
      RISCV_ITYPE MATCH_JALR 0 X_T3 0 ]).

(** [riscv_make_plt_entry]. *)
Definition riscv_make_plt_entry (got addr : Z) : option (list Z) :=
  if negb (e_flags .& EF_RISCV_RVE =? 0) then None
  else Some (map u32
    [ RISCV_UTYPE MATCH_AUIPC X_T3 (RISCV_PCREL_HIGH_PART got addr);
      RISCV_ITYPE MATCH_LREG X_T3 X_T3 (RISCV_PCREL_LOW_PART got addr);
      RISCV_ITYPE MATCH_JALR X_T1 X_T3 0;
      RISCV_NOP ]).

(** The loop of [bfd_putl32]. *)
Fixpoint put_words (ws : list Z) (data : list Z) (off : Z) : option (list Z) :=
  match ws with
  | [] => Some data
  | w :: ws => data ← riscv_put_insn 32 w data off; put_words ws data (off + 4)
  end.

(** The index of the entry and the offset of its word in .got.plt. *)
Definition plt_slot (plt_offset : Z) : Z * Z :=
  match ht_splt htab with
  | Some _ => let plt_idx := u64 (plt_offset - PLT_HEADER_SIZE) / PLT_ENTRY_SIZE in
              (plt_idx, GOTPLT_HEADER_SIZE arch64 + plt_idx * GOT_ENTRY_SIZE arch64)
  | None => let plt_idx := plt_offset / PLT_ENTRY_SIZE in (plt_idx, plt_idx * GOT_ENTRY_SIZE arch64)
  end.

Definition plt_address : option Z := match ht_splt htab with Some a => Some a | None => ht_iplt htab end.
Definition plt_words (s : finish_state) : list Z :=
  match ht_splt htab with Some _ => fs_gotplt s | None => fs_igotplt s end.
Definition with_plt_words (g : list Z) (s : finish_state) : finish_state :=
  match ht_splt htab with Some _ => with_words g (fs_igotplt s) s | None => with_words (fs_gotplt s) g s end.
Definition gotplt_address : option Z :=
  match ht_splt htab with Some _ => ht_sgotplt htab | None => ht_igotplt htab end.

(** An entry of a relocation section written by index. *)
Definition put_rela (r : Elf_Internal_Rela) (idx : Z) (l : list (option Elf_Internal_Rela))
  : option (list (option Elf_Internal_Rela)) :=
  if (0 <=? idx) && (idx <? Z.of_nat (length l)) then Some (<[Z.to_nat idx := Some r]> l) else None.

Definition definition_address (h : elf_link_hash_entry) : option Z :=
  sec ← h_def_section h; Some (u64 (h_def_value h + ds_addr sec)).

Definition is_ifunc (h : elf_link_hash_entry) : bool := h_def_regular h && (h_type h =? STT_GNU_IFUNC).

(** The PLT entry of a symbol; [Some None] is the value false. *)
Definition finish_plt (h : elf_link_hash_entry) (flags : finish_flags) (sym : option output_symbol)
    (s : finish_state) : option (option (finish_state * option output_symbol)) :=
  match plt_address, gotplt_address, fs_relplt s with
  | Some header_address, Some gotplt, Some relplt =>
      if (h_dynindx h =? -1) && negb ((h_forced_local h || bfd_link_executable info) && is_ifunc h)
      then Some None
      else
        let '(plt_idx, got_offset) := plt_slot (h_plt_offset h) in
        let got_address := u64 (gotplt + got_offset) in
        match riscv_make_plt_entry got_address (u64 (header_address + h_plt_offset h)) with
        | None => Some None
        | Some plt_entry =>
            p ← put_words plt_entry (fs_plt s) (h_plt_offset h);
            g ← bfd_put_NN arch64 big header_address (plt_words s) (u64 (got_address - gotplt));
            rela ←
              (if (h_dynindx h =? -1)
                  || ((bfd_link_executable info || negb (ELF_ST_VISIBILITY (h_other h) =? STV_DEFAULT)) && is_ifunc h)
               then a ← definition_address h;
                    Some (mk_rela got_address (ELFNN_R_INFO arch64 0 R_RISCV_IRELATIVE) a)
               else Some (mk_rela got_address (ELFNN_R_INFO arch64 (h_dynindx h) R_RISCV_JUMP_SLOT) 0));
            relplt ← put_rela rela plt_idx relplt;
            let s := with_plt_words g (with_plt p (Some relplt) (fs_last_iplt_index s) s) in
            if h_def_regular h then Some (Some (s, sym))
            else
              o ← sym;
              Some (Some (s, Some (mk_output_symbol SHN_UNDEF
                                     (if ff_ref_regular_nonweak flags then os_value o else 0))))
        end
  | _, _, _ => Some None
  end.

(** The relocation of a GOT entry: what to write and whether it goes to the end
    of .rela.iplt. *)
Inductive got_reloc : Set :=
| G_value (v : Z)                        (* the entry is final *)
| G_rela (r : Elf_Internal_Rela) (in_iplt : bool).

Definition got_rela (h : elf_link_hash_entry) (flags : finish_flags) (off sgot : Z) (s : finish_state)
  : option (got_reloc * finish_state) :=
  let r_offset := u64 (sgot + (off .& u64 (Z.lnot 1))) in
  let local_word type :=
    a ← definition_address h; Some (mk_rela r_offset (ELFNN_R_INFO arch64 0 type) a) in
  let dynamic_word s :=
    let s := check (negb (h_dynindx h =? -1)) (check (off .& 1 =? 0) s) in
    (mk_rela r_offset (ELFNN_R_INFO arch64 (h_dynindx h) (if arch64 then R_RISCV_64 else R_RISCV_32)) 0, s) in
  if is_ifunc h then
    if h_plt_offset h =? MINUS_ONE then
      let in_iplt := match ht_splt htab with Some _ => false | None => true end in
      if SYMBOL_REFERENCES_LOCAL info (Some h)
      then r ← local_word R_RISCV_IRELATIVE; Some (G_rela r in_iplt, s)
      else let '(r, s) := dynamic_word s in Some (G_rela r in_iplt, s)
    else if pic then let '(r, s) := dynamic_word s in Some (G_rela r false, s)
    else if negb (ff_pointer_equality_needed flags) then None
    else plt ← plt_address; Some (G_value (u64 (plt + h_plt_offset h)), s)
  else if pic && SYMBOL_REFERENCES_LOCAL info (Some h) then
    let s := check (negb (off .& 1 =? 0)) s in
    r ← local_word R_RISCV_RELATIVE; Some (G_rela r false, s)
  else let '(r, s) := dynamic_word s in Some (G_rela r false, s).

(** The GOT entry; the last part is whether the function returns here. *)
Definition finish_got (h : elf_link_hash_entry) (flags : finish_flags) (off : Z) (s : finish_state)
  : option (finish_state * bool) :=
  sgot ← ht_sgot htab;
  let s := check (match fs_srelgot s with Some _ => true | None => false end) s in
  let place := off .& u64 (Z.lnot 1) in
  '(g, s) ← got_rela h flags off sgot s;
  match g with
  | G_value v => c ← bfd_put_NN arch64 big v (fs_got s) place; Some (with_got c (fs_srelgot s) s, true)
  | G_rela r in_iplt =>
      c ← bfd_put_NN arch64 big 0 (fs_got s) place;
      if in_iplt : bool then
        relplt ← fs_relplt s;
        relplt ← put_rela r (fs_last_iplt_index s) relplt;
        Some (with_plt (fs_plt s) (Some relplt) (fs_last_iplt_index s - 1)
                (with_got c (fs_srelgot s) s), false)
      else
        l ← riscv_elf_append_rela r (fs_srelgot s);
        Some (with_got c (Some l) s, false)
  end.

(** The relocation of a copied variable. *)
Definition finish_copy (h : elf_link_hash_entry) (flags : finish_flags) (s : finish_state) : option finish_state :=
  let s := check (negb (h_dynindx h =? -1)) s in
  a ← definition_address h;
  let rela := mk_rela a (ELFNN_R_INFO arch64 (h_dynindx h) R_RISCV_COPY) 0 in
  if ff_in_dynrelro flags
  then l ← riscv_elf_append_rela rela (fs_sreldynrelro s); Some (with_copy (fs_srelbss s) (Some l) s)
  else l ← riscv_elf_append_rela rela (fs_srelbss s); Some (with_copy (Some l) (fs_sreldynrelro s) s).

(** [riscv_elf_finish_dynamic_symbol]; [off] is h->got.offset. *)
Definition riscv_elf_finish_dynamic_symbol (h : elf_link_hash_entry) (flags : finish_flags) (off : Z)
    (sym : option output_symbol) (s : finish_state) : option (option (finish_state * option output_symbol)) :=
  r ← (if negb (h_plt_offset h =? MINUS_ONE) then finish_plt h flags sym s else Some (Some (s, sym)));
  match r with
  | None => Some None
  | Some (s, sym) =>
      '(s, done) ←
        (if negb (off =? MINUS_ONE) && (h_tls_type h .& (GOT_TLS_GD .| GOT_TLS_IE) =? 0)
            && negb (UNDEFWEAK_NO_DYNAMIC_RELOC info h)
         then finish_got h flags off s else Some (s, false));
      if done : bool then Some (Some (s, sym))
      else
        s ← (if ff_needs_copy flags then finish_copy h flags s else Some s);
        if ff_special flags then
          o ← sym; Some (Some (s, Some (mk_output_symbol SHN_ABS (os_value o))))
        else Some (Some (s, sym))
  end.

(** [riscv_elf_finish_local_dynamic_symbol], over the table of the local
    STT_GNU_IFUNC symbols; it has no output symbol, and what it returns is what
    [htab_traverse] stops on: it goes on while it is not zero. *)
Fixpoint finish_local_symbols (l : list (elf_link_hash_entry * finish_flags * Z)) (s : finish_state)
  : option finish_state :=
  match l with
  | [] => Some s
  | (h, flags, off) :: l =>
      r ← riscv_elf_finish_dynamic_symbol h flags off None s;
      match r with
      | Some (s, _) => finish_local_symbols l s
      | None => Some s
      end
  end.

(** [riscv_finish_dyn]: the entries of .dynamic, a tag and a value each;
    [relplt] is the address of .rela.plt and its size. *)
Definition finish_dyn_entry (relplt : option (Z * Z)) (d : Z * Z) : option (Z * Z) :=
  let '(d_tag, d_un) := d in
  if d_tag =? DT_PLTGOT then a ← ht_sgotplt htab; Some (d_tag, a)
  else if d_tag =? DT_JMPREL then '(a, _) ← relplt; Some (d_tag, a)
  else if d_tag =? DT_PLTRELSZ then '(_, n) ← relplt; Some (d_tag, n)
  else Some d.

Definition riscv_finish_dyn (relplt : option (Z * Z)) (sdyn : list (Z * Z)) : option (list (Z * Z)) :=
  mapM (finish_dyn_entry relplt) sdyn.

(** [riscv_elf_finish_dynamic_sections]: .dynamic (its address and its
    entries), the headers of .plt, of .got.plt (which must not be discarded) and
    of .got, and the local symbols.  The value true is the [Some] of the result. *)
Definition riscv_elf_finish_dynamic_sections (sdyn : option (Z * list (Z * Z))) (relplt : option (Z * Z))
    (gotplt_discarded : bool) (locals : list (elf_link_hash_entry * finish_flags * Z)) (s : finish_state)
  : option (option (finish_state * option (Z * list (Z * Z)))) :=
  r ← (if ht_dynamic_sections_created htab then
         splt ← ht_splt htab;
         '(a, entries) ← sdyn;
         entries ← riscv_finish_dyn relplt entries;
         if 0 <? Z.of_nat (length (fs_plt s)) then
           sgotplt ← ht_sgotplt htab;
           match riscv_make_plt_header sgotplt splt with
           | None => Some None
           | Some header =>
               p ← put_words header (fs_plt s) 0;
               Some (Some (with_plt p (fs_relplt s) (fs_last_iplt_index s) s, Some (a, entries)))
           end
         else Some (Some (s, Some (a, entries)))
       else Some (Some (s, sdyn)));
  match r with
  | None => Some None
  | Some (s, sdyn) =>
      match ht_sgotplt htab, gotplt_discarded with
      | Some _, true => Some None
      | sgotplt, _ =>
          s ← (if (match sgotplt with Some _ => true | None => false end) && (0 <? Z.of_nat (length (fs_gotplt s)))
               then
                 g ← bfd_put_NN arch64 big MINUS_ONE (fs_gotplt s) 0;
                 g ← bfd_put_NN arch64 big 0 g (GOT_ENTRY_SIZE arch64);
                 Some (with_words g (fs_igotplt s) s)
               else Some s);
          s ← (match ht_sgot htab with
               | Some _ =>
                   if 0 <? Z.of_nat (length (fs_got s)) then
                     c ← bfd_put_NN arch64 big (match sdyn with Some (a, _) => a | None => 0 end) (fs_got s) 0;
                     Some (with_got c (fs_srelgot s) s)
                   else Some s
               | None => Some s
               end);
          s ← finish_local_symbols locals s;
          Some (Some (s, sdyn))
      end
  end.

(** [riscv_elf_plt_sym_val]. *)
Definition riscv_elf_plt_sym_val (i plt_vma : Z) : Z := u64 (plt_vma + PLT_HEADER_SIZE + i * PLT_ENTRY_SIZE).

End plt.
