(* ===== verification/LinkPltSpec.v ===== *)
(** * Properties of the procedure linkage table

    The code of the PLT is run on a small machine that fetches its words from
    the bytes the linker wrote: a call through an entry reaches the function
    whose address the entry's word of .got.plt holds, and before it is bound,
    the resolver, with the offset of the relocation to resolve. *)
From Stdlib Require Import ZArith Bool Lia.
From stdpp Require Import base list gmap.
From S2P Require Import Prelude Options OpcodeH RiscvH Immediates Words OpcodeMatch Bytes Howto Fixups FixupsSpec LinkReloc LinkRelocSpec LinkRelocate LinkFrame LinkPlt.

#[local] Open Scope Z_scope.
#[local] Open Scope c_scope.
#[local] Open Scope list_scope.

(** ** A machine that runs PLT code *)

Record machine : Type := mk_machine { m_pc : Z; m_reg : Z -> Z }.

Section machine.

(** [code] are the bytes at [code_addr], [words] those of the table at
    [words_addr]. *)
Context (arch64 big : bool) (code_addr : Z) (code : list Z) (words_addr : Z) (words : list Z).

Abbreviation xlen := (if arch64 then 64 else 32)%nat.
Definition wrap (z : Z) : Z := z mod 2 ^ Z.of_nat xlen.

Definition get_reg (m : machine) (r : Z) : Z := if r =? 0 then 0 else m_reg m r.
Definition advance (rd v pc : Z) (m : machine) : machine :=
  mk_machine pc (fun r => if r =? rd then wrap v else m_reg m r).

Definition fetch (a : Z) : option Z := riscv_get_insn 32 code (wrap (a - code_addr)).
Definition load (a : Z) : option Z :=
  if in_contents xlen words (wrap (a - words_addr)) then bfd_get big xlen words (Z.to_nat (wrap (a - words_addr)))
  else None.

(** The instructions of the PLT; a word of another one stops the machine. *)
Definition execute (w : Z) (m : machine) : option machine :=
  let rd := bits w 7 5 in
  let src1 := get_reg m (bits w 15 5) in
  let src2 := get_reg m (bits w 20 5) in
  let imm := EXTRACT_ITYPE_IMM w in
  let next := wrap (m_pc m + 4) in
  if w .& MASK_AUIPC =? MATCH_AUIPC then Some (advance rd (m_pc m + EXTRACT_UTYPE_IMM w) next m)
  else if w .& MASK_SUB =? MATCH_SUB then Some (advance rd (src1 - src2) next m)
  else if w .& MASK_ADDI =? MATCH_ADDI then Some (advance rd (src1 + imm) next m)
  else if w .& MASK_SRLI =? MATCH_SRLI then Some (advance rd (src1 >> bits w 20 6) next m)
  else if w .& (if arch64 then MASK_LD else MASK_LW) =? MATCH_LREG arch64
  then v ← load (src1 + imm); Some (advance rd v next m)
  else if w .& MASK_JALR =? MATCH_JALR then Some (advance rd next (Z.ldiff (wrap (src1 + imm)) 1) m)
  else None.

Fixpoint run (n : nat) (m : machine) : option machine :=
  match n with
  | O => Some m
  | S n => w ← fetch (m_pc m); m ← execute w m; run n m
  end.

Lemma wrap_idem z : wrap (wrap z) = wrap z.
Proof. apply Z.mod_mod. destruct arch64; done. Qed.

Lemma wrap_u64 z : wrap (u64 z) = wrap z.
Proof. unfold wrap. destruct arch64; simpl; u64_ring. Qed.

Lemma wrap_add a b : wrap (wrap a + b) = wrap (a + b).
Proof. unfold wrap. destruct arch64; simpl; u64_ring. Qed.

(** An instruction with an immediate decodes to what it was made of. *)
Lemma decode_imm f w z (Hf : In f imm_formats) :
  - 2 ^ 63 <= z < 2 ^ 63 -> in_range (fmt_kind f) z -> w .& fmt_encode f (-1) = 0 -> 0 <= w < 2 ^ 32 ->
  let X := u32 (w .| fmt_encode f (u64 z)) in
  X = w .| fmt_encode f (u64 z) /\ fmt_extract f X = u64 z /\
  forall m, fmt_encode f (-1) .& m = 0 -> X .& m = w .& m.
Proof.
  intros Hz Hr Hc Hw. cbv zeta. assert (E : u32 (w .| fmt_encode f (u64 z)) = w .| fmt_encode f (u64 z)).
  { apply Z.mod_small. apply lor_range; [lia|done|by apply encode_range]. }
  split; [done|]. by apply filled_field.
Qed.

Lemma execute_auipc rd v m :
  In rd [X_T2; X_T3] ->
  execute (u32 (RISCV_UTYPE MATCH_AUIPC rd (RISCV_CONST_HIGH_PART (u64 v)))) m
  = Some (advance rd (m_pc m + u64 (hi_part v)) (wrap (m_pc m + 4)) m).
Proof.
  intros Hrd. unfold RISCV_UTYPE. rewrite encode_hi. destruct UTYPE_fmt as (-> & EX & Hf).
  destruct (part_of_range P_hi fmt_UTYPE_IMM v eq_refl) as [Hz Hr]. cbn [part_of] in Hz, Hr.
  set (w := MATCH_AUIPC .| (rd << 7)).
  assert (Hw : w .& fmt_encode fmt_UTYPE_IMM (-1) = 0 /\ 0 <= w < 2 ^ 32 /\ w .& MASK_AUIPC = MATCH_AUIPC /\
    bits w 7 5 = rd).
  { unfold w. cbn [In] in Hrd. destruct Hrd as [<-|[<-|[]]]; vm_compute; intuition congruence. }
  destruct Hw as (Hw1 & Hw2 & Hw3 & Hw4).
  destruct (decode_imm fmt_UTYPE_IMM w (hi_part v) Hf Hz ltac:(by apply Hr) Hw1 Hw2) as (_ & D1 & D2).
  unfold execute. rewrite EX, D1, (D2 MASK_AUIPC) by reflexivity. rewrite Hw3.
  change (MATCH_AUIPC =? MATCH_AUIPC) with true. cbv iota. by rewrite (bits_agree _ w), Hw4 by (lia || by apply D2).
Qed.

Lemma encode_low v : ENCODE_ITYPE_IMM (RISCV_CONST_LOW_PART (u64 v)) = ENCODE_ITYPE_IMM (u64 (lo_part v)).
Proof.
  unfold ENCODE_ITYPE_IMM. f_equal. apply (RV_X_congr _ _ _ _ 12); [lia..|].
  unfold RISCV_CONST_LOW_PART. rewrite const_high_part. unfold lo_part. u64_ring.
Qed.

(** A field of fixed bits other than those asked for. *)
Lemma not_matched w mask m : w .& 0x7f <> m .& 0x7f -> mask .& 0x7f = 0x7f -> (w .& mask =? m) = false.
Proof.
  intros H Hm. apply Z.eqb_neq. intros E. apply H. rewrite <- E, <- Z.land_assoc, Hm. done.
Qed.

Lemma itype_fields M rd rs1 v :
  In (M, rd, rs1) [(MATCH_ADDI, X_T0, X_T2); (MATCH_LREG arch64, X_T3, X_T2); (MATCH_LREG arch64, X_T3, X_T3)] ->
  let X := u32 (RISCV_ITYPE M rd rs1 (RISCV_CONST_LOW_PART (u64 v))) in
  EXTRACT_ITYPE_IMM X = u64 (lo_part v) /\ X .& 0x707f = M /\ X .& 0x7f = M .& 0x7f /\ bits X 7 5 = rd /\
  bits X 15 5 = rs1.
Proof.
  intros Hin. cbv zeta. unfold RISCV_ITYPE. rewrite encode_low. destruct ITYPE_fmt as (-> & -> & Hf).
  destruct (part_of_range P_lo fmt_ITYPE_IMM v eq_refl) as [Hz Hr]. cbn [part_of] in Hz, Hr.
  set (w := M .| (rd << 7) .| (rs1 << 15)).
  assert (Hw : w .& fmt_encode fmt_ITYPE_IMM (-1) = 0 /\ 0 <= w < 2 ^ 32 /\ w .& 0x707f = M /\
    w .& 0x7f = M .& 0x7f /\ bits w 7 5 = rd /\ bits w 15 5 = rs1).
  { unfold w, MATCH_LREG in *. clear -Hin. cbn [In] in Hin.
    destruct arch64, Hin as [[= <- <- <-]|[[= <- <- <-]|[[= <- <- <-]|[]]]]; vm_compute; intuition congruence. }
  destruct Hw as (Hw1 & Hw2 & Hw3 & Hw4 & Hw5 & Hw6).
  destruct (decode_imm fmt_ITYPE_IMM w (lo_part v) Hf Hz ltac:(by apply Hr) Hw1 Hw2) as (_ & D1 & D2).
  split; [done|]. rewrite !D2 by reflexivity. split; [done|]. split; [done|].
  split; (etrans; [apply bits_agree; [lia|by apply D2]|done]).
Qed.

Lemma execute_addi v m :
  execute (u32 (RISCV_ITYPE MATCH_ADDI X_T0 X_T2 (RISCV_CONST_LOW_PART (u64 v)))) m
  = Some (advance X_T0 (m_reg m X_T2 + u64 (lo_part v)) (wrap (m_pc m + 4)) m).
Proof.
  destruct (itype_fields MATCH_ADDI X_T0 X_T2 v) as (E1 & E2 & E3 & E4 & E5); [by left|].
  unfold execute. rewrite E1, E2, E4, E5. rewrite !not_matched by (done || by rewrite E3). done.
Qed.

Lemma execute_load rs1 v m :
  In rs1 [X_T2; X_T3] ->
  execute (u32 (RISCV_ITYPE (MATCH_LREG arch64) X_T3 rs1 (RISCV_CONST_LOW_PART (u64 v)))) m
  = x ← load (m_reg m rs1 + u64 (lo_part v)); Some (advance X_T3 x (wrap (m_pc m + 4)) m).
Proof.
  intros Hrs. destruct (itype_fields (MATCH_LREG arch64) X_T3 rs1 v) as (E1 & E2 & E3 & E4 & E5).
  { cbn [In] in *. destruct Hrs as [<-|[<-|[]]]; tauto. }
  unfold execute. rewrite E1, E4, E5.
  assert (Eo : MATCH_LREG arch64 .& 0x7f = 0x03 /\ (if arch64 then MASK_LD else MASK_LW) = 0x707f /\
    (MATCH_LREG arch64 =? MATCH_ADDI) = false).
  { unfold MATCH_LREG. by destruct arch64. }
  destruct Eo as (Eo & -> & Ea). rewrite Eo in E3. rewrite E2, Ea, Z.eqb_refl.
  rewrite (not_matched _ MASK_AUIPC), (not_matched _ MASK_SUB), (not_matched _ MASK_SRLI) by (done || by rewrite E3).
  cbn [In] in Hrs. by destruct Hrs as [<-|[<-|[]]].
Qed.

(** The instructions without a part of an address. *)
Lemma execute_jalr rd m :
  In rd [0; X_T1] ->
  execute (u32 (RISCV_ITYPE MATCH_JALR rd X_T3 0)) m
  = Some (advance rd (wrap (m_pc m + 4)) (Z.ldiff (wrap (m_reg m X_T3 + 0)) 1) m).
Proof. cbn [In]. unfold execute, load, advance, wrap. intros [<-|[<-|[]]]; destruct arch64; reflexivity. Qed.

Lemma execute_sub m :
  execute (u32 (RISCV_RTYPE MATCH_SUB X_T1 X_T1 X_T3)) m
  = Some (advance X_T1 (m_reg m X_T1 - m_reg m X_T3) (wrap (m_pc m + 4)) m).
Proof. reflexivity. Qed.

Lemma execute_header_size m :
  execute (u32 (RISCV_ITYPE MATCH_ADDI X_T1 X_T1 (u32 (- (PLT_HEADER_SIZE + 12))))) m
  = Some (advance X_T1 (m_reg m X_T1 + u64 (- 44)) (wrap (m_pc m + 4)) m).
Proof. reflexivity. Qed.

Lemma execute_srli m :
  execute (u32 (RISCV_ITYPE MATCH_SRLI X_T1 X_T1 (4 - RISCV_ELF_LOG_WORD_BYTES arch64))) m
  = Some (advance X_T1 (m_reg m X_T1 >> (4 - RISCV_ELF_LOG_WORD_BYTES arch64)) (wrap (m_pc m + 4)) m).
Proof. unfold execute, load, advance, wrap. destruct arch64; reflexivity. Qed.

Lemma execute_link_map m :
  execute (u32 (RISCV_ITYPE (MATCH_LREG arch64) X_T0 X_T0 (RISCV_ELF_WORD_BYTES arch64))) m
  = x ← load (m_reg m X_T0 + RISCV_ELF_WORD_BYTES arch64); Some (advance X_T0 x (wrap (m_pc m + 4)) m).
Proof. unfold execute, load, advance, wrap. destruct arch64; reflexivity. Qed.

(** ** Running an entry and the header *)

(** The words [ws] are in the code at [off]. *)
Definition code_at (ws : list Z) (off : Z) : Prop :=
  forall k w, ws !! k = Some w -> riscv_get_insn 32 code (off + 4 * Z.of_nat k) = Some w.

Lemma code_at_fetch ws off k w :
  code_at ws off -> ws !! k = Some w -> 0 <= off -> Z.of_nat (length code) <= 2 ^ 31 ->
  fetch (wrap (code_addr + off + 4 * Z.of_nat k)) = Some w.
Proof.
  intros Hc Hw Ho Hl. specialize (Hc k w Hw). unfold fetch.
  assert (Hi : in_contents 32 code (off + 4 * Z.of_nat k) = true).
  { unfold riscv_get_insn in Hc. destruct (in_contents _ _ _); [done|]. by rewrite andb_false_r in Hc. }
  apply in_contents_true in Hi as [H1 H2]. change (Z.of_nat (32 / 8)) with 4 in H2.
  replace (wrap (wrap (code_addr + off + 4 * Z.of_nat k) - code_addr)) with (off + 4 * Z.of_nat k); [done|].
  replace (wrap _ - code_addr) with (wrap (code_addr + off + 4 * Z.of_nat k) + - code_addr) by lia.
  rewrite wrap_add. replace (_ + - code_addr) with (off + 4 * Z.of_nat k) by lia.
  symmetry. apply Z.mod_small. destruct arch64; simpl; lia.
Qed.

Lemma hi_lo_wrap a v :
  fits arch64 P_hi fmt_UTYPE_IMM v -> wrap (wrap (a + u64 (hi_part v)) + u64 (lo_part v)) = wrap (a + v).
Proof.
  intros Hf. rewrite wrap_add. destruct (high_low_target arch64 v 0) as [H1 H2]; [by rewrite Z.add_0_r|done|].
  rewrite Z.add_0_r in H1, H2. unfold wrap.
  revert H1 H2. generalize (u64 (hi_part v)) (u64 (lo_part v)). intros x y H1 H2.
  destruct arch64; [specialize (H2 eq_refl); revert H2|revert H1]; clear; unfold u32, u64; simpl; intros;
    Z.to_euclidean_division_equations; lia.
Qed.

Lemma load_wrap a : load (wrap a) = load a.
Proof.
  unfold load. replace (wrap a - words_addr) with (wrap a + - words_addr) by lia. rewrite wrap_add.
  by replace (a + - words_addr) with (a - words_addr) by lia.
Qed.

Lemma run_step n k ws off w m m' :
  code_at ws off -> 0 <= off -> Z.of_nat (length code) <= 2 ^ 31 ->
  ws !! k = Some w -> m_pc m = wrap (code_addr + off + 4 * Z.of_nat k) ->
  execute w m = Some m' -> run (S n) m = run n m'.
Proof.
  intros Hc Ho Hl Hw Hpc He. cbn [run]. rewrite Hpc, (code_at_fetch ws off k w) by done. simpl. by rewrite He.
Qed.

Lemma next_pc off k : wrap (wrap (code_addr + off + 4 * Z.of_nat k) + 4) = wrap (code_addr + off + 4 * Z.of_nat (S k)).
Proof. rewrite wrap_add. f_equal. lia. Qed.

(** The next instruction, the [k]-th of the code. *)
Ltac run_to k m' tac :=
  erewrite (run_step _ k); [|eassumption..|reflexivity|eassumption|tac];
  match goal with
  | Hpc : m_pc _ = wrap (code_addr + ?off + 4 * Z.of_nat k) |- context [run _ ?m1] =>
      set (m' := m1);
      let H := fresh m' "_pc" in
      assert (H : m' = m1) by reflexivity;
      apply (f_equal m_pc) in H; cbn [advance m_pc] in H; rewrite ?Hpc, ?next_pc in H
  end.

Lemma run_entry e_flags got addr ws off m x :
  riscv_make_plt_entry arch64 e_flags got addr = Some ws -> code_at ws off -> 0 <= off ->
  Z.of_nat (length code) <= 2 ^ 31 ->
  m_pc m = wrap (code_addr + off) ->
  fits arch64 P_hi fmt_UTYPE_IMM (got - addr) -> load (code_addr + off + (got - addr)) = Some x ->
  exists m', run 3 m = Some m' /\ m_pc m' = Z.ldiff (wrap x) 1 /\
    m_reg m' X_T1 = wrap (code_addr + off + 12) /\ m_reg m' X_T3 = wrap x /\
    forall r, r <> X_T1 -> r <> X_T3 -> m_reg m' r = m_reg m r.
Proof.
  intros Hw Hc Ho Hl Hpc Hf Hx. unfold riscv_make_plt_entry in Hw. destruct (negb _); [done|].
  apply (inj Some) in Hw. subst ws.
  assert (Hpc0 : m_pc m = wrap (code_addr + off + 4 * Z.of_nat 0)) by (rewrite Hpc; f_equal; lia).
  run_to 0%nat m1 ltac:(apply execute_auipc; in_list).
  assert (E1 : load (m_reg m1 X_T3 + u64 (lo_part (got - addr))) = Some x).
  { rewrite <- load_wrap. cbn [m1 advance m_reg]. rewrite Z.eqb_refl, hi_lo_wrap by done.
    by rewrite <- Hx, Hpc, wrap_add, load_wrap. }
  run_to 1%nat m2 ltac:(etrans; [apply execute_load; in_list|by rewrite E1]).
  run_to 2%nat m3 ltac:(apply execute_jalr; in_list).
  exists m3. split; [reflexivity|]. cbn [m3 advance m_pc m_reg]. change (X_T1 =? X_T1) with true.
  change (X_T3 =? X_T1) with false. cbv iota. rewrite m2_pc, next_pc, wrap_idem.
  cbn [m2 advance m_reg]. rewrite Z.eqb_refl, Z.add_0_r, wrap_idem. split_and!; [done|f_equal; lia|done|].
  intros r H1 H3. cbn [m1 advance m_reg]. rewrite !(proj2 (Z.eqb_neq _ _)) by done. done.
Qed.

Lemma wrap_small z : 0 <= z < 2 ^ 32 -> wrap z = z.
Proof. intros H. apply Z.mod_small. destruct arch64; simpl; lia. Qed.

(** What the header computes from the address in t1: the offset of the
    relocation's word, past the header of .got.plt. *)
Lemma header_index i :
  0 <= i -> 32 + 16 * i < 2 ^ 31 ->
  wrap (wrap (wrap (wrap (code_addr + (32 + 16 * i) + 12) - wrap code_addr) + u64 (- 44))
        >> (4 - RISCV_ELF_LOG_WORD_BYTES arch64)) = i * RISCV_ELF_WORD_BYTES arch64.
Proof.
  intros Hi Hl.
  assert (E : wrap (wrap (wrap (code_addr + (32 + 16 * i) + 12) - wrap code_addr) + u64 (- 44)) = 16 * i).
  { rewrite wrap_add. rewrite <- (wrap_small (16 * i)) by lia. unfold wrap. clear -Hi Hl. destruct arch64; simpl; u64_ring. }
  rewrite E, Z.shiftr_div_pow2 by (destruct arch64; done).
  assert (16 * i / 2 ^ (4 - RISCV_ELF_LOG_WORD_BYTES arch64) = i * RISCV_ELF_WORD_BYTES arch64) as ->.
  { destruct arch64; simpl; Z.to_euclidean_division_equations; lia. }
  apply wrap_small. destruct arch64; simpl; lia.
Qed.

Lemma run_header e_flags gotplt addr ws m i resolver link_map :
  riscv_make_plt_header arch64 e_flags gotplt addr = Some ws -> code_at ws 0 ->
  Z.of_nat (length code) <= 2 ^ 31 ->
  m_pc m = wrap code_addr -> fits arch64 P_hi fmt_UTYPE_IMM (gotplt - addr) ->
  load (code_addr + (gotplt - addr)) = Some resolver ->
  load (code_addr + (gotplt - addr) + RISCV_ELF_WORD_BYTES arch64) = Some link_map ->
  0 <= i -> 32 + 16 * i < 2 ^ 31 ->
  m_reg m X_T1 = wrap (code_addr + (32 + 16 * i) + 12) -> m_reg m X_T3 = wrap code_addr ->
  exists m', run 8 m = Some m' /\ m_pc m' = Z.ldiff (wrap resolver) 1 /\ m_reg m' X_T0 = wrap link_map /\
    m_reg m' X_T1 = i * RISCV_ELF_WORD_BYTES arch64 /\
    forall r, ~ In r [0; X_T0; X_T1; X_T2; X_T3] -> m_reg m' r = m_reg m r.
Proof.
  intros Hw Hc Hl Hpc Hf Hr Hm Hi Hi31 Ht1 Ht3. unfold riscv_make_plt_header in Hw. destruct (negb _); [done|].
  apply (inj Some) in Hw. subst ws. assert (Ho : 0 <= 0) by done.
  assert (Hpc0 : m_pc m = wrap (code_addr + 0 + 4 * Z.of_nat 0)) by (rewrite Hpc; f_equal; lia).
  assert (Eg : wrap (wrap (wrap code_addr + u64 (hi_part (gotplt - addr))) + u64 (lo_part (gotplt - addr)))
               = wrap (code_addr + (gotplt - addr))) by (by rewrite hi_lo_wrap, wrap_add by done).
  run_to 0%nat m1 ltac:(apply execute_auipc; in_list).
  run_to 1%nat m2 ltac:(apply execute_sub).
  assert (Et2 : m_reg m2 X_T2 = wrap (wrap code_addr + u64 (hi_part (gotplt - addr)))) by (cbn; by rewrite Hpc).
  run_to 2%nat m3 ltac:(etrans; [apply execute_load; in_list|by rewrite Et2, <- load_wrap, Eg, load_wrap, Hr]).
  run_to 3%nat m4 ltac:(apply execute_header_size).
  run_to 4%nat m5 ltac:(apply execute_addi).
  run_to 5%nat m6 ltac:(apply execute_srli).
  assert (Et0 : m_reg m6 X_T0 = wrap (code_addr + (gotplt - addr))).
  { change (m_reg m6 X_T0) with (wrap (m_reg m2 X_T2 + u64 (lo_part (gotplt - addr)))). by rewrite Et2. }
  run_to 6%nat m7 ltac:(etrans; [apply execute_link_map|by rewrite Et0, <- load_wrap, wrap_add, load_wrap, Hm]).
  run_to 7%nat m8 ltac:(apply execute_jalr; in_list).
  exists m8. split; [reflexivity|].
  split; [cbn [m8 advance m_pc]; change (m_reg m7 X_T3) with (wrap resolver); by rewrite Z.add_0_r, wrap_idem|]. split; [done|].
  split; [|intros r Hr'; cbn [In] in Hr'; cbn; repeat (rewrite (proj2 (Z.eqb_neq r _)) by lia); done].
  etrans; [|apply (header_index i); done]. cbn. rewrite Ht1, Ht3. done.
Qed.

End machine.

(** ** What the linker writes *)

Lemma get_insn_same off n c c' x :
  same_outside off n c c' -> 0 <= x -> disjoint_ranges (Z.to_nat x) 4 off n ->
  riscv_get_insn 32 c' x = riscv_get_insn 32 c x.
Proof.
  intros H Hx Hd. unfold riscv_get_insn, in_contents. rewrite (proj1 H). destruct (_ && _); [|done].
  f_equal. by apply (same_outside_getl off n).
Qed.

Lemma put_words_spec ws : forall data off data',
  put_words ws data off = Some data' -> 0 <= off -> Forall (fun w => 0 <= w < 2 ^ 32) ws ->
  same_outside (Z.to_nat off) (4 * length ws) data data' /\ code_at data' ws off.
Proof.
  induction ws as [|w ws IH]; intros data off data' H Ho Hw; cbn [put_words] in H.
  - apply (inj Some) in H as <-. split; [apply same_outside_refl|]. intros k w Hk. done.
  - apply bind_Some in H as (d1 & H1 & H). apply Forall_cons in Hw as [Hw0 Hw].
    destruct (IH _ _ _ H ltac:(lia) Hw) as [Hs Hc]. clear IH.
    assert (E1 : same_outside (Z.to_nat off) 4 data d1 /\ riscv_get_insn 32 d1 off = Some w).
    { pose proof (put_insn_wrote _ _ _ _ _ H1) as [W _]. split; [done|]. revert H1. unfold riscv_put_insn, riscv_get_insn.
      unfold in_contents. rewrite <- (proj1 W). change (existsb _ _) with true. cbn [andb].
      destruct (_ && _) eqn:E; [|done]. intros <-%(inj Some). f_equal. rewrite getl_putl; [by apply Z.mod_small|].
      apply andb_true_iff in E as [_ E]. apply Z.leb_le in E. rewrite (proj1 W) in E.
      change (Z.of_nat (32 / 8)) with 4 in E. change (32 / 8)%nat with 4%nat. lia. }
    destruct E1 as [E1 E2]. split.
    + eapply same_outside_trans; [eapply same_outside_weaken; [..|exact E1]|eapply same_outside_weaken; [..|exact Hs]];
        cbn [length]; lia.
    + intros [|k] x Hx; cbn [lookup list_lookup] in Hx.
      * apply (inj Some) in Hx as <-. rewrite <- E2. replace (off + 4 * Z.of_nat 0) with off by lia.
        apply (get_insn_same _ _ _ _ _ Hs Ho). unfold disjoint_ranges. lia.
      * rewrite <- (Hc _ _ Hx). f_equal. lia.
Qed.

Lemma code_at_same off n c c' ws o :
  same_outside off n c c' -> 0 <= o -> disjoint_ranges (Z.to_nat o) (4 * length ws) off n ->
  code_at c ws o -> code_at c' ws o.
Proof.
  intros H Ho Hd Hc k w Hk. rewrite (get_insn_same _ _ _ _ _ H); [by apply Hc|lia|].
  apply lookup_lt_Some in Hk. unfold disjoint_ranges in *. lia.
Qed.

Section linked.

Context (arch64 big : bool) (info : bfd_link_info) (htab : riscv_elf_link_hash_table) (e_flags : Z).
Context (plt gotplt : Z) (Hplt : ht_splt htab = Some plt) (Hgotplt : ht_sgotplt htab = Some gotplt).

Abbreviation xlen := (if arch64 then 64 else 32)%nat.
Abbreviation WORD := (RISCV_ELF_WORD_BYTES arch64).

(** The word at an offset of a table. *)
Definition word_at (data : list Z) (off : Z) : option Z :=
  if in_contents xlen data off then bfd_get big xlen data (Z.to_nat off) else None.

Lemma word_bytes_xlen : (xlen / 8)%nat = Z.to_nat WORD /\ Z.of_nat (xlen / 8) = WORD.
Proof. by destruct arch64. Qed.

Lemma put_NN_spec v data off data' :
  bfd_put_NN arch64 big v data off = Some data' ->
  0 <= off /\ same_outside (Z.to_nat off) (Z.to_nat WORD) data data' /\ word_at data' off = Some (wrap arch64 v).
Proof.
  unfold bfd_put_NN, word_at. destruct word_bytes_xlen as [E1 E2]. rewrite <- E1. intros H.
  destruct (in_contents _ data off) eqn:E; [|done]. pose proof E as Ei. apply in_contents_true in E as [H1 H2].
  split; [done|]. set (n := (xlen / 8)%nat) in *.
  assert (W : same_outside (Z.to_nat off) n data data') by (apply (bfd_put_wrote big xlen v); [fold n; lia|done]).
  split; [done|].
  assert (Ei' : in_contents xlen data' off = true)
    by (unfold in_contents in *; by rewrite (proj1 W)).
  rewrite Ei'. unfold bfd_put, bfd_get in *. assert (Ex : existsb (Nat.eqb xlen) [8; 16; 32; 64]%nat = true)
    by (by destruct arch64). rewrite Ex in *. fold n in H |- *. apply (inj Some) in H as <-.
  rewrite (word_putb big v n data (Z.to_nat off)) by lia. unfold wrap. do 2 f_equal. unfold n. by destruct arch64.
Qed.

Lemma word_at_same off n c c' x :
  same_outside off n c c' -> 0 <= x -> disjoint_ranges (Z.to_nat x) (Z.to_nat WORD) off n ->
  word_at c' x = word_at c x.
Proof.
  intros H Hx Hd. unfold word_at, in_contents. rewrite (proj1 H). destruct (_ && _); [|done].
  unfold bfd_get. destruct (existsb _ _); [|done]. rewrite (proj1 word_bytes_xlen).
  assert (E : take (Z.to_nat WORD) (drop (Z.to_nat x) c') = take (Z.to_nat WORD) (drop (Z.to_nat x) c)); [|by rewrite E].
  by apply (same_outside_take off n).
Qed.

(** The tables of the PLT are the same. *)
Definition plt_same (s s' : finish_state) : Prop :=
  fs_plt s' = fs_plt s /\ fs_gotplt s' = fs_gotplt s /\ fs_relplt s' = fs_relplt s.

Lemma plt_same_check b s : plt_same s (check b s).
Proof. by destruct b. Qed.

Lemma got_rela_same h flags off sgot s g s' :
  got_rela arch64 info htab h flags off sgot s = Some (g, s') ->
  plt_same s s' /\ forall r, g <> G_rela r true.
Proof.
  unfold got_rela. rewrite Hplt. intros H.
  repeat (split_match_in H; try done); bind_inv; simplify_eq; (split; [|done]);
    repeat (apply plt_same_check || done || (etrans; [|apply plt_same_check])).
  all: unfold check; repeat split_match; done.
Qed.

Lemma finish_got_same h flags off s s' d :
  finish_got arch64 big info htab h flags off s = Some (s', d) -> plt_same s s'.
Proof.
  unfold finish_got. intros H. apply bind_Some in H as (sgot & _ & H).
  apply bind_Some in H as ([g s1] & Hg & H). apply got_rela_same in Hg as [Hs Hn].
  assert (H1 : plt_same s s1).
  { revert Hs. unfold plt_same, check. by destruct (match fs_srelgot s with Some _ => true | None => false end). }
  destruct g as [v|r []]; [| by destruct (Hn r)|]; bind_inv; simplify_eq; exact H1.
Qed.

Lemma finish_copy_same h flags s s' : finish_copy arch64 h flags s = Some s' -> plt_same s s'.
Proof.
  unfold finish_copy, check. intros H. bind_inv. repeat split_match_in H; bind_inv; simplify_eq; done.
Qed.

Lemma finish_symbol_plt h flags off sym s s' sym' :
  riscv_elf_finish_dynamic_symbol arch64 big info htab e_flags h flags off sym s = Some (Some (s', sym')) ->
  if h_plt_offset h =? MINUS_ONE then plt_same s s'
  else exists s1 sym1, finish_plt arch64 big info htab e_flags h flags sym s = Some (Some (s1, sym1)) /\ plt_same s1 s'.
Proof.
  unfold riscv_elf_finish_dynamic_symbol. intros H. apply bind_Some in H as (r & Hr & H).
  destruct r as [[s1 sym1]|]; [|done]. apply bind_Some in H as ([s2 d] & H2 & H).
  assert (E2 : plt_same s1 s2).
  { destruct (_ && _); [by eapply finish_got_same|by simplify_eq]. }
  assert (E3 : plt_same s1 s').
  { destruct d; [by simplify_eq|]. apply bind_Some in H as (s3 & H3 & H).
    assert (E4 : plt_same s2 s3) by (destruct (ff_needs_copy flags); [by eapply finish_copy_same|by simplify_eq]).
    assert (s' = s3) as -> by (destruct (ff_special flags); bind_inv; by simplify_eq).
    destruct E2 as (?&?&?), E4 as (?&?&?). split_and!; congruence. }
  destruct (h_plt_offset h =? MINUS_ONE); cbn [negb] in Hr; [by simplify_eq|]. by exists s1, sym1.
Qed.

(** The word and the relocation of the [i]-th entry. *)
Definition slot_offset (i : Z) : Z := (2 + i) * WORD.
Definition slot_address (i : Z) : Z := u64 (gotplt + slot_offset i).
Definition entry_offset (i : Z) : Z := 32 + 16 * i.

(** Whether the entry is resolved by its own function, not by name. *)
Definition resolved_locally (h : elf_link_hash_entry) : bool :=
  (h_dynindx h =? -1)
  || ((bfd_link_executable info || negb (ELF_ST_VISIBILITY (h_other h) =? STV_DEFAULT)) && is_ifunc h).

Definition slot_rela (h : elf_link_hash_entry) (i : Z) (r : Elf_Internal_Rela) : Prop :=
  if resolved_locally h
  then exists a, definition_address h = Some a /\
                 r = mk_rela (slot_address i) (ELFNN_R_INFO arch64 0 R_RISCV_IRELATIVE) a
  else r = mk_rela (slot_address i) (ELFNN_R_INFO arch64 (h_dynindx h) R_RISCV_JUMP_SLOT) 0.

(** The entry of a symbol is complete. *)
Record entry_done (h : elf_link_hash_entry) (i : Z) (s : finish_state) : Prop := {
  ed_code : exists ws, riscv_make_plt_entry arch64 e_flags (slot_address i) (u64 (plt + entry_offset i)) = Some ws /\
                       code_at (fs_plt s) ws (entry_offset i);
  ed_word : word_at (fs_gotplt s) (slot_offset i) = Some (wrap arch64 plt);
  ed_rela : exists l r, fs_relplt s = Some l /\ l !! Z.to_nat i = Some (Some r) /\ slot_rela h i r;
}.

(** What is written for the [i]-th entry, and nothing else. *)
Record slot_only (i : Z) (s s' : finish_state) : Prop := {
  so_code : same_outside (Z.to_nat (entry_offset i)) 16 (fs_plt s) (fs_plt s');
  so_word : same_outside (Z.to_nat (slot_offset i)) (Z.to_nat WORD) (fs_gotplt s) (fs_gotplt s');
  so_rela : exists l l', fs_relplt s = Some l /\ fs_relplt s' = Some l' /\ length l' = length l /\
                         forall k, k <> Z.to_nat i -> l' !! k = l !! k;
}.

Lemma entry_words_range got addr ws :
  riscv_make_plt_entry arch64 e_flags got addr = Some ws -> length ws = 4%nat /\ Forall (fun w => 0 <= w < 2 ^ 32) ws.
Proof.
  unfold riscv_make_plt_entry. destruct (negb _); [done|]. intros <-%(inj Some). split; [done|].
  apply Forall_map, Forall_true. intros w. apply Z.mod_pos_bound. lia.
Qed.

Lemma plt_slot_spec i :
  0 <= i -> entry_offset i < 2 ^ 64 -> plt_slot arch64 htab (entry_offset i) = (i, slot_offset i).
Proof.
  intros Hi Hl. unfold plt_slot, slot_offset, GOTPLT_HEADER_SIZE, GOT_ENTRY_SIZE. rewrite Hplt.
  assert (E : u64 (entry_offset i - PLT_HEADER_SIZE) / PLT_ENTRY_SIZE = i).
  { unfold entry_offset, PLT_HEADER_SIZE, PLT_ENTRY_SIZE in *. unfold u64. rewrite Z.mod_small by lia.
    Z.to_euclidean_division_equations. lia. }
  rewrite E. f_equal. ring.
Qed.

Lemma finish_plt_spec h flags sym s s' sym' i :
  finish_plt arch64 big info htab e_flags h flags sym s = Some (Some (s', sym')) ->
  h_plt_offset h = entry_offset i -> 0 <= i -> entry_offset i < 2 ^ 63 -> gotplt + slot_offset i < 2 ^ 64 -> 0 <= gotplt ->
  entry_done h i s' /\ slot_only i s s'.
Proof.
  intros H Ho Hi Hr Hg Hg0. unfold finish_plt, plt_address, gotplt_address in H. rewrite Hplt, Hgotplt in H.
  destruct (fs_relplt s) as [l|] eqn:El; [|done]. destruct (_ && _); [done|].
  rewrite Ho, plt_slot_spec in H by lia. fold (slot_address i) in H.
  destruct (riscv_make_plt_entry _ _ _ _) as [ws|] eqn:Ew; [|done].
  apply bind_Some in H as (p & Hp & H). apply bind_Some in H as (g & Hgw & H).
  apply bind_Some in H as (r & Hrela & H). apply bind_Some in H as (l' & Hl & H).
  set (s1 := with_plt_words htab g (with_plt p (Some l') (fs_last_iplt_index s) s)) in H.
  assert (s' = s1) as -> by (destruct (h_def_regular h); bind_inv; by simplify_eq). clear H.
  assert (E1 : fs_plt s1 = p /\ fs_gotplt s1 = g /\ fs_relplt s1 = Some l')
    by (unfold s1, with_plt_words; rewrite Hplt; done).
  destruct E1 as (E1 & E2 & E3).
  destruct (entry_words_range _ _ _ Ew) as [Hlen Hrange].
  assert (Hoff : 0 <= entry_offset i) by (unfold entry_offset; lia).
  destruct (put_words_spec _ _ _ _ Hp Hoff Hrange) as [Sp Cp]. rewrite Hlen in Sp.
  assert (Hso : 0 <= slot_offset i) by (unfold slot_offset; destruct arch64; simpl; lia).
  assert (Es : u64 (slot_address i - gotplt) = slot_offset i)
    by (unfold slot_address, u64; rewrite (Z.mod_small (_ + _)), Z.mod_small by lia; lia).
  unfold plt_words in Hgw. rewrite Hplt, Es in Hgw. destruct (put_NN_spec _ _ _ _ Hgw) as (_ & Sg & Cg).
  unfold put_rela in Hl. destruct ((0 <=? i) && _) eqn:Eb; [|done]. apply (inj Some) in Hl as <-. breflect.
  split; constructor; rewrite ?E1, ?E2, ?E3; try done.
  - by exists ws.
  - exists (<[Z.to_nat i:=Some r]> l), r. split; [done|]. split; [apply list_lookup_insert_eq; lia|].
    unfold slot_rela, resolved_locally. revert Hrela. destruct (_ || _); intros Hrela; bind_inv; [by eexists|done].
  - exists l, (<[Z.to_nat i:=Some r]> l). split_and!; [done|done|apply length_insert|].
    intros k Hk. by apply list_lookup_insert_ne.
Qed.

(** An entry is left alone by the writes for another one, by the header, and by
    what leaves the tables as they are. *)
Lemma entry_done_keep h i j s s' :
  entry_done h i s -> slot_only j s s' -> i <> j -> 0 <= i -> 0 <= j -> entry_done h i s'.
Proof.
  intros [(ws & Hw & Hc) Hword (l & r & Hl & Hr & Hrela)] [Sc Sw (l1 & l2 & Hl1 & Hl2 & Hlen & Hk)] Hij Hi Hj.
  assert (Hws : length ws = 4%nat) by (by destruct (entry_words_range _ _ _ Hw)).
  constructor.
  - exists ws. split; [done|]. eapply code_at_same; [exact Sc|unfold entry_offset; lia| |done].
    rewrite Hws. unfold disjoint_ranges, entry_offset. lia.
  - rewrite <- Hword. eapply word_at_same; [exact Sw|unfold slot_offset; destruct arch64; simpl; lia|].
    unfold disjoint_ranges, slot_offset. assert (0 < WORD) by (by destruct arch64).
    assert (i < j \/ j < i) as [?|?] by lia; nia.
  - exists l2, r. assert (l1 = l) as -> by congruence. split_and!; [done| |done]. rewrite <- Hr. apply Hk. lia.
Qed.

Lemma entry_done_same h i s s' : entry_done h i s -> plt_same s s' -> entry_done h i s'.
Proof. intros [H1 H2 H3] (E1 & E2 & E3). constructor; by rewrite ?E1, ?E2, ?E3. Qed.

(** ** All symbols *)

(** A symbol as [riscv_elf_finish_dynamic_symbol] gets it. *)
Abbreviation job := (elf_link_hash_entry * finish_flags * Z * option output_symbol)%type.

(** The symbols of a link in turn, as [elf_link_output_extsym] hands them over. *)
Fixpoint finish_symbols (l : list job) (s : finish_state) : option finish_state :=
  match l with
  | [] => Some s
  | (h, flags, off, sym) :: l =>
      r ← riscv_elf_finish_dynamic_symbol arch64 big info htab e_flags h flags off sym s;
      match r with
      | Some (s, _) => finish_symbols l s
      | None => None
      end
  end.

(** Entries are 16 bytes apart after the header, and no two symbols share one. *)
Record plt_layout (l : list elf_link_hash_entry) : Prop := {
  pl_offset : forall h, In h l -> h_plt_offset h = MINUS_ONE \/
                exists i, 0 <= i /\ h_plt_offset h = entry_offset i /\ entry_offset i < 2 ^ 31;
  pl_distinct : NoDup (filter (fun o => o <> MINUS_ONE) (map h_plt_offset l));
}.

Lemma plt_layout_cons h l :
  plt_layout (h :: l) -> plt_layout l /\ (h_plt_offset h <> MINUS_ONE ->
    forall h', In h' l -> h_plt_offset h' <> h_plt_offset h).
Proof.
  intros [H1 H2]. cbn [map] in H2. rewrite filter_cons in H2.
  destruct (decide (h_plt_offset h <> MINUS_ONE)) as [E|E].
  - apply NoDup_cons in H2 as [Hn H2]. split; [split; [intros; apply H1; by right|done]|].
    intros _ h' Hin Heq. apply Hn. rewrite <- Heq. apply list_elem_of_filter. split; [by rewrite Heq|].
    apply list_elem_of_In, in_map, Hin.
  - split; [split; [intros; apply H1; by right|done]|]. intros. by destruct E.
Qed.

Lemma plt_layout_app l k : plt_layout (l ++ k) -> plt_layout l /\
  forall h h', In h l -> In h' k -> h_plt_offset h <> MINUS_ONE -> h_plt_offset h' <> h_plt_offset h.
Proof.
  induction l as [|h l IH]; intros H; [split; [split; [done|constructor]|done]|].
  cbn [app] in H. destruct (plt_layout_cons _ _ H) as [H1 H2]. destruct (IH H1) as [H3 H4]. split.
  - split; [intros h' Hin; apply (pl_offset _ H); cbn in *; rewrite in_app_iff; tauto|].
    pose proof (pl_distinct _ H) as Hd. cbn [map] in Hd |- *. rewrite map_app, filter_cons, filter_app in Hd.
    rewrite filter_cons. destruct (decide _); [|by apply NoDup_app in Hd as (? & _ & _)].
    rewrite app_comm_cons in Hd. by apply NoDup_app in Hd as (? & _ & _).
  - intros h1 h2 [<-|Hin] Hin2 Hne; [|by apply H4]. apply H2; [done|]. apply in_app_iff. by right.
Qed.

Context (Hgot : 0 <= gotplt < 2 ^ 64 - 2 ^ 31).

Lemma slot_in_range i : 0 <= i -> entry_offset i < 2 ^ 31 -> entry_offset i < 2 ^ 63 /\ gotplt + slot_offset i < 2 ^ 64.
Proof. unfold entry_offset, slot_offset. destruct arch64; simpl; lia. Qed.

Lemma finish_symbol_slot h flags off sym s s' sym' :
  riscv_elf_finish_dynamic_symbol arch64 big info htab e_flags h flags off sym s = Some (Some (s', sym')) ->
  (h_plt_offset h = MINUS_ONE /\ plt_same s s') \/
  (h_plt_offset h <> MINUS_ONE /\
   forall i, h_plt_offset h = entry_offset i -> 0 <= i -> entry_offset i < 2 ^ 31 ->
     entry_done h i s' /\ slot_only i s s').
Proof.
  intros H. apply finish_symbol_plt in H. destruct (Z.eqb_spec (h_plt_offset h) MINUS_ONE) as [E|E]; [by left|].
  right. split; [done|]. intros i Ho Hi Hl. destruct H as (s1 & sym1 & H1 & Hs).
  destruct (slot_in_range i Hi Hl). destruct (finish_plt_spec _ _ _ _ _ _ i H1) as [Hd Hso]; try done; [lia|].
  split; [by eapply entry_done_same|]. destruct Hs as (E1 & E2 & E3), Hso as [A B C].
  constructor; by rewrite ?E1, ?E2, ?E3.
Qed.

(** A property of the tables that the entries of a layout leave alone. *)
Definition stable (P : finish_state -> Prop) (l : list elf_link_hash_entry) : Prop :=
  (forall s s', P s -> plt_same s s' -> P s') /\
  (forall s s' h i, In h l -> h_plt_offset h = entry_offset i -> 0 <= i -> P s -> slot_only i s s' -> P s').

Lemma stable_cons P h l : stable P (h :: l) -> stable P l.
Proof. intros [H1 H2]. split; [done|]. intros s s' h' i Hin. apply (H2 s s' h' i). by right. Qed.

Lemma finish_symbol_stable P h flags off sym s s' sym' l :
  riscv_elf_finish_dynamic_symbol arch64 big info htab e_flags h flags off sym s = Some (Some (s', sym')) ->
  (forall h, In h l -> h_plt_offset h = MINUS_ONE \/
     exists i, 0 <= i /\ h_plt_offset h = entry_offset i /\ entry_offset i < 2 ^ 31) ->
  In h l -> stable P l -> P s -> P s'.
Proof.
  intros H Hl Hin [HP1 HP2] HP. apply finish_symbol_slot in H as [[_ Hs]|[Hne Hs]]; [by eapply HP1|].
  destruct (Hl h Hin) as [?|(i & Hi & Ho & Hb)]; [done|]. destruct (Hs i Ho Hi Hb) as [_ Hso]. by eapply HP2.
Qed.

Lemma finish_symbols_stable P l : forall s s',
  finish_symbols l s = Some s' ->
  (forall h, In h (map (fun j : job => j.1.1.1) l) -> h_plt_offset h = MINUS_ONE \/
     exists i, 0 <= i /\ h_plt_offset h = entry_offset i /\ entry_offset i < 2 ^ 31) ->
  stable P (map (fun j : job => j.1.1.1) l) -> P s -> P s'.
Proof.
  induction l as [|[[[h flags] off] sym] l IH]; intros s s' H Hl HP Hs; [by apply (inj Some) in H as <-|].
  cbn [finish_symbols] in H. apply bind_Some in H as ([[s1 sym1]|] & H1 & H); [|done].
  apply (IH s1 s' H); [intros; apply Hl; by right|by eapply stable_cons|].
  eapply finish_symbol_stable; [exact H1|exact Hl|by left|done|done].
Qed.

Lemma finish_local_stable P l : forall s s',
  finish_local_symbols arch64 big info htab e_flags l s = Some s' ->
  (forall h, In h (map (fun j => j.1.1) l) -> h_plt_offset h = MINUS_ONE \/
     exists i, 0 <= i /\ h_plt_offset h = entry_offset i /\ entry_offset i < 2 ^ 31) ->
  stable P (map (fun j => j.1.1) l) -> P s -> P s'.
Proof.
  induction l as [|[[h flags] off] l IH]; intros s s' H Hl HP Hs; [by apply (inj Some) in H as <-|].
  cbn [finish_local_symbols] in H. apply bind_Some in H as ([[s1 sym1]|] & H1 & H); [|by apply (inj Some) in H as <-].
  apply (IH s1 s' H); [intros; apply Hl; by right|by eapply stable_cons|].
  eapply finish_symbol_stable; [exact H1|exact Hl|by left|done|done].
Qed.

Lemma entry_done_stable h i l :
  0 <= i -> (forall h', In h' l -> h_plt_offset h' <> entry_offset i) -> stable (entry_done h i) l.
Proof.
  intros Hi Hl. split; [intros; by eapply entry_done_same|].
  intros s s' h' j Hin Ho Hj Hd Hs. eapply entry_done_keep; [done|exact Hs| |done|done].
  intros ->. by apply (Hl h').
Qed.

(** Every symbol with an entry has it complete. *)
Lemma finish_symbols_done l : forall s s' h i,
  finish_symbols l s = Some s' -> plt_layout (map (fun j : job => j.1.1.1) l) ->
  In h (map (fun j : job => j.1.1.1) l) -> h_plt_offset h = entry_offset i -> 0 <= i -> entry_offset i < 2 ^ 31 ->
  entry_done h i s'.
Proof.
  induction l as [|[[[h0 flags] off] sym] l IH]; intros s s' h i H HL Hin Ho Hi Hb; [done|].
  cbn [finish_symbols] in H. apply bind_Some in H as ([[s1 sym1]|] & H1 & H); [|done].
  cbn [map] in HL, Hin. destruct (plt_layout_cons _ _ HL) as [HL1 HL2].
  destruct Hin as [Heq|Hin]; [|by apply (IH s1 s')]. cbn in Heq. subst h0.
  assert (Hne : h_plt_offset h <> MINUS_ONE) by (rewrite Ho; change MINUS_ONE with (2 ^ 64 - 1); unfold entry_offset in *; lia).
  apply (finish_symbols_stable (entry_done h i) l s1 s' H); [apply (pl_offset _ HL1)| |].
  - apply entry_done_stable; [done|]. rewrite <- Ho. by apply HL2.
  - apply finish_symbol_slot in H1 as [[? _]|[_ Hs]]; [done|]. by apply Hs.
Qed.

(** The header of the PLT. *)
Definition header_done (s : finish_state) : Prop :=
  exists ws, riscv_make_plt_header arch64 e_flags gotplt plt = Some ws /\ code_at (fs_plt s) ws 0.

Lemma header_words_range got addr ws :
  riscv_make_plt_header arch64 e_flags got addr = Some ws -> length ws = 8%nat /\ Forall (fun w => 0 <= w < 2 ^ 32) ws.
Proof.
  unfold riscv_make_plt_header. destruct (negb _); [done|]. intros <-%(inj Some). split; [done|].
  apply Forall_map, Forall_true. intros w. apply Z.mod_pos_bound. lia.
Qed.

Lemma header_done_stable l : stable header_done l.
Proof.
  split; [intros s s' (ws & H1 & H2) (E & _); exists ws; by rewrite E|].
  intros s s' h i _ _ Hi (ws & H1 & H2) [Sc _ _]. exists ws. split; [done|].
  eapply code_at_same; [exact Sc|done| |done]. destruct (header_words_range _ _ _ H1) as [-> _].
  unfold disjoint_ranges, entry_offset. lia.
Qed.

(** The first two words of .got.plt. *)
Lemma header_words_done b h i s s' :
  (if b : bool then
     g ← bfd_put_NN arch64 big MINUS_ONE (fs_gotplt s) 0;
     g ← bfd_put_NN arch64 big 0 g (GOT_ENTRY_SIZE arch64);
     Some (with_words g (fs_igotplt s) s)
   else Some s) = Some s' ->
  0 <= i -> entry_done h i s /\ header_done s -> entry_done h i s' /\ header_done s'.
Proof.
  intros H Hi [Hd Hh]. destruct b; [|by simplify_eq].
  apply bind_Some in H as (g1 & H1 & H). apply bind_Some in H as (g2 & H2 & H). apply (inj Some) in H as <-.
  destruct (put_NN_spec _ _ _ _ H1) as (_ & S1 & _). destruct (put_NN_spec _ _ _ _ H2) as (_ & S2 & _).
  split; [|done]. destruct Hd as [Hc Hw Hr]. constructor; [done| |done].
  assert (Hp : 0 < WORD) by (by destruct arch64). cbn [with_words fs_gotplt]. rewrite <- Hw.
  rewrite (word_at_same _ _ _ _ _ S2), (word_at_same _ _ _ _ _ S1); [done|..];
    unfold disjoint_ranges, slot_offset, GOT_ENTRY_SIZE; nia.
Qed.

(** The headers of the tables leave the entries alone. *)
Lemma finish_sections_done sdyn relplt discarded locals s s' dyn' h i :
  riscv_elf_finish_dynamic_sections arch64 big info htab e_flags sdyn relplt discarded locals s = Some (Some (s', dyn')) ->
  ht_dynamic_sections_created htab = true ->
  (forall h', In h' (map (fun j => j.1.1) locals) -> h_plt_offset h' = MINUS_ONE \/
     exists i, 0 <= i /\ h_plt_offset h' = entry_offset i /\ entry_offset i < 2 ^ 31) ->
  (forall h', In h' (map (fun j => j.1.1) locals) -> h_plt_offset h' <> entry_offset i) ->
  0 <= i -> entry_done h i s -> entry_done h i s' /\ header_done s'.
Proof.
  intros H Hdyn Hloc Hne Hi Hd. unfold riscv_elf_finish_dynamic_sections in H. rewrite Hdyn, Hplt, Hgotplt in H.
  apply bind_Some in H as (r & Hr & H). cbn [mbind option_bind] in Hr. destruct sdyn as [[a entries]|]; [|done].
  cbn [mbind option_bind] in Hr. apply bind_Some in Hr as (es & _ & Hr).
  assert (Hlen : (0 <? Z.of_nat (length (fs_plt s))) = true).
  { destruct (ed_code _ _ _ Hd) as (ws & Hw & Hc). destruct (entry_words_range _ _ _ Hw) as [Hl _].
    destruct ws as [|w ws]; [done|]. specialize (Hc 0%nat w eq_refl). unfold riscv_get_insn in Hc.
    destruct (in_contents _ _ _) eqn:Ei; [|by rewrite andb_false_r in Hc].
    apply in_contents_true in Ei as [E1 E2]. apply Z.ltb_lt. change (Z.of_nat (32 / 8)) with 4 in E2. lia. }
  rewrite Hlen in Hr. destruct (riscv_make_plt_header _ _ _ _) as [ws|] eqn:Ew; [|by simplify_eq].
  apply bind_Some in Hr as (p & Hp & Hr). apply (inj Some) in Hr as <-. destruct discarded; [done|].
  destruct (header_words_range _ _ _ Ew) as [Hl8 Hrange].
  destruct (put_words_spec _ _ _ _ Hp ltac:(done) Hrange) as [Sp Cp]. rewrite Hl8 in Sp.
  apply bind_Some in H as (s2 & H2 & H). apply bind_Some in H as (s3 & H3 & H). apply bind_Some in H as (s4 & H4 & H).
  simplify_eq. set (s1 := with_plt p _ _ s) in H2.
  assert (D1 : entry_done h i s1 /\ header_done s1).
  { split; [|by exists ws]. destruct Hd as [(we & Hwe & Hce) Hw Hrl]. constructor; [|done|done].
    exists we. split; [done|]. eapply code_at_same; [exact Sp|unfold entry_offset; lia| |done].
    destruct (entry_words_range _ _ _ Hwe) as [-> _]. unfold disjoint_ranges, entry_offset. lia. }
  assert (D2 : entry_done h i s2 /\ header_done s2) by (by eapply header_words_done).
  assert (D3 : entry_done h i s3 /\ header_done s3).
  { assert (Es : plt_same s2 s3)
      by (clear -H3; repeat split_match_in H3; bind_inv; subst; done).
    destruct D2. split; [by eapply entry_done_same|by eapply (proj1 (header_done_stable []))]. }
  destruct D3 as [D3 D3']. split.
  - eapply finish_local_stable; [exact H4|done|by apply entry_done_stable|done].
  - eapply finish_local_stable; [exact H4|done|apply header_done_stable|done].
Qed.

(** ** Calls through the table *)

(** The reach of auipc and a 12-bit offset. *)
Definition within_reach (pc target : Z) : Prop := arch64 = true -> - 2 ^ 31 <= s64 (target - pc + 2048) < 2 ^ 31.

Lemma within_reach_fits pc target : within_reach pc target -> fits arch64 P_hi fmt_UTYPE_IMM (u64 target - u64 pc).
Proof. intros H Ha. specialize (H Ha). cbn [fits]. clear -H. u64_ring. Qed.

(** At run time the tables lie [base] above their addresses in the link;
    [words] is .got.plt then. *)
Section running.

Context (base : Z) (words : list Z) (code : list Z).
Abbreviation run := (run arch64 big (plt + base) code (gotplt + base) words).

Lemma load_word d off x :
  0 <= off < 2 ^ 31 -> wrap arch64 d = wrap arch64 (gotplt + base + off) -> word_at words off = Some x ->
  load arch64 big (gotplt + base) words d = Some x.
Proof.
  intros Ho Hd Hx. rewrite <- load_wrap, Hd, load_wrap. unfold load.
  replace (gotplt + base + off - (gotplt + base)) with off by lia. rewrite wrap_small by lia. exact Hx.
Qed.

Lemma run_done_entry h i s m x :
  entry_done h i s -> code = fs_plt s -> Z.of_nat (length code) <= 2 ^ 31 -> 0 <= i -> entry_offset i < 2 ^ 31 ->
  within_reach (plt + entry_offset i) (gotplt + slot_offset i) ->
  m_pc m = wrap arch64 (plt + base + entry_offset i) -> word_at words (slot_offset i) = Some x ->
  exists m', run 3 m = Some m' /\ m_pc m' = Z.ldiff (wrap arch64 x) 1 /\
    m_reg m' X_T1 = wrap arch64 (plt + base + entry_offset i + 12) /\ m_reg m' X_T3 = wrap arch64 x /\
    forall r, r <> X_T1 -> r <> X_T3 -> m_reg m' r = m_reg m r.
Proof.
  intros Hd Hcode Hl Hi Hb Hr Hpc Hx. destruct (ed_code _ _ _ Hd) as (ws & Hw & Hc). rewrite <- Hcode in Hc.
  assert (0 <= slot_offset i < 2 ^ 31) by (unfold slot_offset, entry_offset in *; destruct arch64; simpl; lia).
  eapply run_entry; [exact Hw|exact Hc|unfold entry_offset; lia|done|done|by apply within_reach_fits|].
  apply (load_word _ (slot_offset i)); [done| |done]. unfold slot_address, wrap.
  generalize (entry_offset i) (slot_offset i). clear. intros. destruct arch64; simpl; u64_ring.
Qed.

End running.

End linked.

Lemma machine_run_app arch64 big ca code wa words n k m m1 :
  run arch64 big ca code wa words n m = Some m1 ->
  run arch64 big ca code wa words (n + k) m = run arch64 big ca code wa words k m1.
Proof.
  revert m. induction n as [|n IH]; intros m H; cbn [run Nat.add] in *; [by apply (inj Some) in H as <-|].
  destruct (fetch _ _ _ _) as [w|]; [|done]. cbn [mbind option_bind] in *.
  destruct (execute _ _ _ _ _ _) as [m'|]; [|done]. cbn [mbind option_bind] in *. by apply IH.
Qed.

Lemma ldiff_even z : z mod 2 = 0 -> Z.ldiff z 1 = z.
Proof.
  intros H. change 1 with (Z.ones 1). rewrite Z.ldiff_ones_r, Z.shiftr_div_pow2, Z.shiftl_mul_pow2 by lia.
  change (2 ^ 1) with 2. Z.to_euclidean_division_equations. lia.
Qed.

(** C25: the procedure linkage table works.  After the symbols of a link with a
    .plt and its dynamic sections are finished (their entries lie apart after
    the header), take a symbol with the [i]-th entry, within the reach of auipc
    from its word of .got.plt, in an image loaded at any offset [base].  The
    [i]-th relocation of .rela.plt asks for that word and for that symbol.  A
    call through the entry jumps, in three instructions, to the address in the
    word.  While the word holds what the linker put there (moved by [base]), the
    call goes on through the header to the resolver, the first word of the table,
    with the second in t0 and the offset of the symbol's word past the header of
    the table in t1; no register but t0 to t3 is changed. *)
Theorem plt_calls arch64 big info htab e_flags plt gotplt jobs s s1 sdyn relplt discarded locals s2 dyn h i
    base words resolver link_map m :
  ht_splt htab = Some plt -> ht_sgotplt htab = Some gotplt -> ht_dynamic_sections_created htab = true ->
  0 <= gotplt < 2 ^ 64 - 2 ^ 31 ->
  finish_symbols arch64 big info htab e_flags jobs s = Some s1 ->
  riscv_elf_finish_dynamic_sections arch64 big info htab e_flags sdyn relplt discarded locals s1 = Some (Some (s2, dyn)) ->
  plt_layout (map (fun j => j.1.1.1) jobs ++ map (fun j => j.1.1) locals) ->
  In h (map (fun j => j.1.1.1) jobs) -> h_plt_offset h = entry_offset i -> 0 <= i -> entry_offset i < 2 ^ 31 ->
  Z.of_nat (length (fs_plt s2)) <= 2 ^ 31 -> (plt + base) mod 4 = 0 ->
  within_reach arch64 (plt + entry_offset i) (gotplt + slot_offset arch64 i) -> within_reach arch64 plt gotplt ->
  word_at arch64 big words 0 = Some resolver ->
  word_at arch64 big words (RISCV_ELF_WORD_BYTES arch64) = Some link_map ->
  m_pc m = wrap arch64 (plt + base + entry_offset i) ->
  let go := run arch64 big (plt + base) (fs_plt s2) (gotplt + base) words in
  (exists l r, fs_relplt s2 = Some l /\ l !! Z.to_nat i = Some (Some r) /\ slot_rela arch64 info gotplt h i r) /\
  (forall f, word_at arch64 big words (slot_offset arch64 i) = Some f ->
     exists m', go 3%nat m = Some m' /\ m_pc m' = Z.ldiff (wrap arch64 f) 1 /\
       forall r, ~ In r [X_T1; X_T3] -> m_reg m' r = m_reg m r) /\
  (word_at arch64 big words (slot_offset arch64 i)
     = (fun x => wrap arch64 (x + base)) <$> word_at arch64 big (fs_gotplt s2) (slot_offset arch64 i) ->
   exists m', go 11%nat m = Some m' /\ m_pc m' = Z.ldiff (wrap arch64 resolver) 1 /\
     m_reg m' X_T0 = wrap arch64 link_map /\ m_reg m' X_T1 = i * RISCV_ELF_WORD_BYTES arch64 /\
     forall r, ~ In r [0; X_T0; X_T1; X_T2; X_T3] -> m_reg m' r = m_reg m r).
Proof.
  intros Hplt Hgp Hdyn Hg H1 H2 HL Hin Ho Hi Hb Hlen Hal Hr1 Hr2 Hw0 Hw1 Hpc go.
  destruct (plt_layout_app _ _ HL) as [HL1 HL2].
  assert (Hne : h_plt_offset h <> MINUS_ONE)
    by (rewrite Ho; change MINUS_ONE with (2 ^ 64 - 1); unfold entry_offset in *; lia).
  assert (D1 : entry_done arch64 big info e_flags plt gotplt h i s1) by (by eapply finish_symbols_done).
  destruct (finish_sections_done _ _ _ _ _ _ _ Hplt Hgp Hg _ _ _ _ _ _ _ h i H2 Hdyn) as [D2 Hh]; [| |done|done|].
  { intros h' Hh'. apply (pl_offset _ HL). apply in_app_iff. by right. }
  { intros h' Hh'. rewrite <- Ho. by apply HL2. }
  split; [apply (ed_rela _ _ _ _ _ _ _ _ _ D2)|].
  pose proof (fun x => run_done_entry arch64 big info e_flags plt gotplt base words (fs_plt s2) h i s2 m x D2 eq_refl
    Hlen Hi Hb Hr1 Hpc) as Hentry.
  split.
  - intros f Hf. destruct (Hentry f Hf) as (m' & E1 & E2 & _ & _ & E3). exists m'. split_and!; [done|done|].
    intros r Hr. cbn [In] in Hr. apply E3; lia.
  - rewrite (ed_word _ _ _ _ _ _ _ _ _ D2). cbn [fmap option_fmap option_map]. intros Hx.
    destruct (Hentry _ Hx) as (m1 & E1 & E2 & E3 & E4 & E5). rewrite wrap_add, wrap_idem in E2, E4.
    assert (Hev : wrap arch64 (plt + base) mod 2 = 0).
    { unfold wrap. clear -Hal. destruct arch64; simpl; Z.to_euclidean_division_equations; lia. }
    rewrite (ldiff_even _ Hev) in E2. destruct Hh as (ws & Hw & Hc).
    destruct (run_header arch64 big (plt + base) (fs_plt s2) (gotplt + base) words e_flags gotplt plt ws m1 i resolver
      link_map) as (m' & R1 & R2 & R3 & R4 & R5); try done.
    + apply (load_word _ _ _ _ _ _ 0); [lia| |done]. f_equal. lia.
    + apply (load_word _ _ _ _ _ _ (RISCV_ELF_WORD_BYTES arch64)); [by destruct arch64| |done]. f_equal. lia.
    + exists m'. change 11%nat with (3 + 8)%nat. unfold go. rewrite (machine_run_app _ _ _ _ _ _ _ _ _ _ E1). split_and!; try done.
      intros r Hr. rewrite R5 by done. cbn [In] in Hr. apply E5; lia.
Qed.

(** Two functions of a shared library, called from an executable. *)
Module PltDemo.

Definition info : bfd_link_info := mk_info type_pde false false 0 0 0 RM_NOT_YET_SET false.
Definition htab : riscv_elf_link_hash_table :=
  mk_link_htab true false (Some 0x12000) (Some 0x12100) None (Some 0x10400) None None 0.
Definition function (id plt_offset : Z) : elf_link_hash_entry :=
  mk_entry id bfd_link_hash_undefined false false 0 None STT_FUNC 0 false true false false false false true id
    plt_offset 0.
Definition flags : finish_flags := mk_finish false false true false false.
Definition jobs :=
  [(function 1 32, flags, MINUS_ONE, Some (mk_output_symbol (SHN_other 1) 0x10420));
   (function 2 48, flags, MINUS_ONE, Some (mk_output_symbol (SHN_other 1) 0x10430))].
Definition sdyn : Z * list (Z * Z) := (0x11e00, [(DT_PLTGOT, 0); (DT_PLTRELSZ, 0); (DT_JMPREL, 0); (0, 0)]).
Definition relplt : Z * Z := (0x10300, 48).
Definition s : finish_state :=
  mk_finish_state (replicate 64 0) (replicate 32 0) [] (replicate 8 0) (Some [None; None]) (Some []) None None 0 0.
Definition s1 : finish_state := Eval vm_compute in default s (finish_symbols true false info htab 0 jobs s).
Definition s2 : finish_state := Eval vm_compute in
  match riscv_elf_finish_dynamic_sections true false info htab 0 (Some sdyn) (Some relplt) false [] s1 with
  | Some (Some (s, _)) => s
  | _ => s
  end.

Lemma symbols_finished : finish_symbols true false info htab 0 jobs s = Some s1.
Proof. vm_compute. reflexivity. Qed.

Lemma sections_finished :
  riscv_elf_finish_dynamic_sections true false info htab 0 (Some sdyn) (Some relplt) false [] s1
  = Some (Some (s2, Some (0x11e00, [(DT_PLTGOT, 0x12100); (DT_PLTRELSZ, 48); (DT_JMPREL, 0x10300); (0, 0)]))).
Proof. vm_compute. reflexivity. Qed.

Lemma layout : plt_layout (map (fun j => j.1.1.1) jobs ++ []).
Proof.
  split.
  - cbn [map app In jobs fst snd]. intros h Hh. right.
    destruct Hh as [<-|[<-|[]]]; [exists 0|exists 1]; vm_compute; intuition congruence.
  - apply (bool_decide_unpack _). vm_compute. reflexivity.
Qed.

(** .got.plt before the second function is bound: the resolver, the link map,
    the first function, and the PLT. *)
Definition words : list Z :=
  concat (map (bytes_le 8) [0x7f0000001000; 0x7f0000002000; 0x7f0000003000; 0x10400]).

End PltDemo.

Lemma plt_calls_witness :
  exists m', run true false 0x10400 (fs_plt PltDemo.s2) 0x12100 PltDemo.words 11 (mk_machine 0x10430 (fun r => r)) = Some m' /\
    m_pc m' = 0x7f0000001000 /\ m_reg m' X_T0 = 0x7f0000002000 /\ m_reg m' X_T1 = 8 /\
    forall r, ~ In r [0; X_T0; X_T1; X_T2; X_T3] -> m_reg m' r = r.
Proof.
  destruct (plt_calls true false PltDemo.info PltDemo.htab 0 0x10400 0x12100 PltDemo.jobs PltDemo.s PltDemo.s1
    (Some PltDemo.sdyn) (Some PltDemo.relplt) false [] PltDemo.s2 _ (PltDemo.function 2 48) 1 0 PltDemo.words
    0x7f0000001000 0x7f0000002000 (mk_machine 0x10430 (fun r => r)) eq_refl eq_refl eq_refl ltac:(lia)
    PltDemo.symbols_finished PltDemo.sections_finished PltDemo.layout) as (_ & _ & H).
  12: { apply H. vm_compute. reflexivity. }
  all: try (vm_compute; reflexivity); try (vm_compute; intuition congruence); by right; left.
Defined.
