(* ===== verification/LinkScan.v ===== *)
(** * Scanning the relocations of a section (bfd/elfnn-riscv.c)

    [riscv_elf_check_relocs]: before any address is known, the relocations of
    each input section say which symbols need entries in the GOT and the PLT,
    how thread-local ones are accessed, and how many relocations may be left to
    the dynamic linker; some are refused in position-independent output. *)
From Stdlib Require Import ZArith Bool Lia.
From stdpp Require Import base list gmap.
From S2P Require Import Prelude OpcodeH RiscvH OpcodeMatch Bytes Howto LinkReloc LinkRelocate.

#[local] Open Scope Z_scope.
#[local] Open Scope c_scope.
#[local] Open Scope list_scope.

Definition GOT_UNKNOWN : Z := 0.
Definition GOT_TLS_LE : Z := 8.

(** Relocations of one section that may have to be copied into the output. *)
Record elf_dyn_relocs : Set := mk_dyn_relocs {
  dr_sec : Z;
  dr_count : Z;
  dr_pc_count : Z;
}.

(** An entry of the hash table before addresses are known.  [sy_got] and
    [sy_plt] are the words of [union gotplt_union]: a count of references that
    becomes an offset; [sy_h] has the flags of the entry and the way a
    thread-local symbol is accessed. *)
Record link_symbol : Set := mk_symbol {
  sy_h : elf_link_hash_entry;
  sy_got : Z;
  sy_plt : Z;
  sy_needs_plt : bool;
  sy_ref_regular : bool;
  sy_pointer_equality_needed : bool;
  sy_ldscript_def : bool;
  sy_dyn_relocs : list elf_dyn_relocs;
}.

(** The word as a count ([bfd_signed_vma]). *)
Definition refcount (x : Z) : Z := s64 x.

Definition with_tls_type (t : Z) (h : elf_link_hash_entry) : elf_link_hash_entry :=
  mk_entry (h_id h) (h_root_type h) (h_linker_def h) (h_rel_from_abs h) (h_def_value h) (h_def_section h) (h_type h)
    (h_other h) (h_def_regular h) (h_def_dynamic h) (h_forced_local h) (h_non_got_ref h) (h_unique_global h)
    (h_start_stop h) (h_dynamic h) (h_dynindx h) (h_plt_offset h) t.
Definition with_non_got_ref (b : bool) (h : elf_link_hash_entry) : elf_link_hash_entry :=
  mk_entry (h_id h) (h_root_type h) (h_linker_def h) (h_rel_from_abs h) (h_def_value h) (h_def_section h) (h_type h)
    (h_other h) (h_def_regular h) (h_def_dynamic h) (h_forced_local h) b (h_unique_global h)
    (h_start_stop h) (h_dynamic h) (h_dynindx h) (h_plt_offset h) (h_tls_type h).
(** The entry made for a local STT_GNU_IFUNC symbol. *)
Definition fake_ifunc (h : elf_link_hash_entry) : elf_link_hash_entry :=
  mk_entry (h_id h) bfd_link_hash_defined (h_linker_def h) (h_rel_from_abs h) (h_def_value h) (h_def_section h)
    STT_GNU_IFUNC (h_other h) true (h_def_dynamic h) true (h_non_got_ref h) (h_unique_global h)
    (h_start_stop h) (h_dynamic h) (h_dynindx h) (h_plt_offset h) (h_tls_type h).

Definition with_h (h : elf_link_hash_entry) (y : link_symbol) : link_symbol :=
  mk_symbol h (sy_got y) (sy_plt y) (sy_needs_plt y) (sy_ref_regular y) (sy_pointer_equality_needed y)
    (sy_ldscript_def y) (sy_dyn_relocs y).
Definition with_ref_regular (y : link_symbol) : link_symbol :=
  mk_symbol (sy_h y) (sy_got y) (sy_plt y) (sy_needs_plt y) true (sy_pointer_equality_needed y)
    (sy_ldscript_def y) (sy_dyn_relocs y).
Definition got_refcount_incr (y : link_symbol) : link_symbol :=
  mk_symbol (sy_h y) (u64 (sy_got y + 1)) (sy_plt y) (sy_needs_plt y) (sy_ref_regular y)
    (sy_pointer_equality_needed y) (sy_ldscript_def y) (sy_dyn_relocs y).
Definition plt_refcount_incr (y : link_symbol) : link_symbol :=
  mk_symbol (sy_h y) (sy_got y) (u64 (sy_plt y + 1)) (sy_needs_plt y) (sy_ref_regular y)
    (sy_pointer_equality_needed y) (sy_ldscript_def y) (sy_dyn_relocs y).
Definition with_needs_plt (b : bool) (y : link_symbol) : link_symbol :=
  mk_symbol (sy_h y) (sy_got y) (sy_plt y) b (sy_ref_regular y) (sy_pointer_equality_needed y)
    (sy_ldscript_def y) (sy_dyn_relocs y).
(** non_got_ref and pointer_equality_needed. *)
Definition address_taken (y : link_symbol) : link_symbol :=
  mk_symbol (with_non_got_ref true (sy_h y)) (sy_got y) (sy_plt y) (sy_needs_plt y) (sy_ref_regular y) true
    (sy_ldscript_def y) (sy_dyn_relocs y).
Definition with_dyn_relocs (l : list elf_dyn_relocs) (y : link_symbol) : link_symbol :=
  mk_symbol (sy_h y) (sy_got y) (sy_plt y) (sy_needs_plt y) (sy_ref_regular y) (sy_pointer_equality_needed y)
    (sy_ldscript_def y) l.

(** The section whose relocations are scanned. *)
Record scan_section : Set := mk_scan_section {
  sc_id : Z;
  sc_alloc : bool;
  sc_code : bool;
  sc_readonly : bool;
}.

(** What the symbol table says of the symbol of a relocation: a local one, if
    it is absolute and its section; a local STT_GNU_IFUNC one, with its entry;
    a global one, with its entry behind its indirections. *)
Inductive scan_symbol : Set :=
| SS_local (is_abs : bool) (section : option Z)
| SS_local_ifunc (id : Z) (is_abs : bool)
| SS_global (id : Z).

Inductive scan_message : Set :=
| SM_bad_symbol_index (r_symndx : Z)
| SM_normal_and_tls (h : option Z)
| SM_static_reloc (r_type : Z)
| SM_absolute_symbol (r_type : Z)
| SM_not_absolute_symbol (r_type : Z).

(** [sn_local_got] are the counts and the TLS types of the local symbols, null
    at first. *)
Record scan_state : Type := mk_scan {
  sn_symbols : gmap Z link_symbol;
  sn_local_got : option (gmap Z (Z * Z));
  sn_local_dynrel : gmap Z (list elf_dyn_relocs);
  sn_sgot : bool;                        (* .got was made *)
  sn_ifunc_sections : bool;              (* .iplt and its tables were made *)
  sn_sreloc : gset Z;                    (* sections with a dynamic relocation section *)
  sn_static_tls : bool;                  (* DF_STATIC_TLS *)
  sn_log : list scan_message;
}.

Definition with_symbols (m : gmap Z link_symbol) (s : scan_state) : scan_state :=
  mk_scan m (sn_local_got s) (sn_local_dynrel s) (sn_sgot s) (sn_ifunc_sections s) (sn_sreloc s) (sn_static_tls s)
    (sn_log s).
Definition with_local_got (l : option (gmap Z (Z * Z))) (s : scan_state) : scan_state :=
  mk_scan (sn_symbols s) l (sn_local_dynrel s) (sn_sgot s) (sn_ifunc_sections s) (sn_sreloc s) (sn_static_tls s)
    (sn_log s).
Definition with_local_dynrel (l : gmap Z (list elf_dyn_relocs)) (s : scan_state) : scan_state :=
  mk_scan (sn_symbols s) (sn_local_got s) l (sn_sgot s) (sn_ifunc_sections s) (sn_sreloc s) (sn_static_tls s)
    (sn_log s).
Definition with_made (got ifunc : bool) (sreloc : gset Z) (tls : bool) (s : scan_state) : scan_state :=
  mk_scan (sn_symbols s) (sn_local_got s) (sn_local_dynrel s) got ifunc sreloc tls (sn_log s).
Definition scan_says (m : scan_message) (s : scan_state) : scan_state :=
  mk_scan (sn_symbols s) (sn_local_got s) (sn_local_dynrel s) (sn_sgot s) (sn_ifunc_sections s) (sn_sreloc s)
    (sn_static_tls s) (sn_log s ++ [m]).
Definition update_symbol (id : Z) (f : link_symbol -> link_symbol) (s : scan_state) : scan_state :=
  with_symbols (alter f id (sn_symbols s)) s.

(** [None] is a null pointer; [Some (false, _)] the value false, and
    [Some (true, _)] going on. *)
Abbreviation scan_result := (option (bool * scan_state)).
Definition go_on (s : scan_state) : scan_result := Some (true, s).
Definition refuse (m : scan_message) (s : scan_state) : scan_result := Some (false, scan_says m s).

(** The two functions of [a || b] in the tests for failure. *)
Definition and_then (r : scan_result) (f : scan_state -> scan_result) : scan_result :=
  '(ok, s) ← r; if ok : bool then f s else Some (false, s).

(** [riscv_elf_record_tls_type]; the symbol is [h], or the local [symndx]. *)
Definition riscv_elf_record_tls_type (h : option Z) (symndx tls_type : Z) (s : scan_state) : scan_result :=
  '(t, s) ←
    match h with
    | Some id =>
        y ← sn_symbols s !! id;
        let t := h_tls_type (sy_h y) .| tls_type in
        Some (t, update_symbol id (fun y => with_h (with_tls_type t (sy_h y)) y) s)
    | None =>
        l ← sn_local_got s;
        let '(c, t0) := default (0, GOT_UNKNOWN) (l !! symndx) in
        let t := t0 .| tls_type in
        Some (t, with_local_got (Some (<[symndx := (c, t)]> l)) s)
    end;
  if negb (t .& GOT_NORMAL =? 0) && negb (t .& Z.lnot GOT_NORMAL =? 0)
  then refuse (SM_normal_and_tls h) s else go_on s.

(** [riscv_elf_record_got_reference]; .got can be made. *)
Definition riscv_elf_record_got_reference (h : option Z) (symndx : Z) (s : scan_state) : scan_result :=
  let s := with_made true (sn_ifunc_sections s) (sn_sreloc s) (sn_static_tls s) s in
  match h with
  | Some id => go_on (update_symbol id got_refcount_incr s)
  | None =>
      let l := default ∅ (sn_local_got s) in
      let '(c, t) := default (0, GOT_UNKNOWN) (l !! symndx) in
      go_on (with_local_got (Some (<[symndx := (u64 (c + 1), t)]> l)) s)
  end.

Section scan.

Context (arch64 : bool) (info : bfd_link_info) (sec : scan_section).
Context (symbol_of : Z -> option scan_symbol).

Abbreviation pic := (bfd_link_pic info).

Definition RISCV_NEED_DYNAMIC_RELOC (pcrel : bool) (h : option elf_link_hash_entry) : bool :=
  (pic && sc_alloc sec
   && (negb pcrel
       || match h with
          | Some h => negb (li_symbolic info) || bool_decide (h_root_type h = bfd_link_hash_defweak)
                      || negb (h_def_regular h)
          | None => false
          end))
  || (negb pic && sc_alloc sec
      && match h with
         | Some h => bool_decide (h_root_type h = bfd_link_hash_defweak) || negb (h_def_regular h)
         | None => false
         end)
  || (negb pic && match h with Some h => h_type h =? STT_GNU_IFUNC | None => false end && negb (sc_code sec)).

(** [bad_static_reloc]. *)
Definition bad_static_reloc (r_type : Z) (s : scan_state) : scan_result := refuse (SM_static_reloc r_type) s.

(** One more relocation of the section in a list. *)
Definition count_dyn_reloc (pcrel : bool) (l : list elf_dyn_relocs) : list elf_dyn_relocs :=
  let '(p, rest) :=
    match l with
    | p :: rest => if dr_sec p =? sc_id sec then (p, rest) else (mk_dyn_relocs (sc_id sec) 0 0, l)
    | [] => (mk_dyn_relocs (sc_id sec) 0 0, [])
    end in
  mk_dyn_relocs (dr_sec p) (dr_count p + 1) (dr_pc_count p + Z.b2z pcrel) :: rest.

(** The label [static_reloc]. [section] is the section of a local symbol. *)
Definition static_reloc (r_type : Z) (h : option Z) (section : option Z) (s : scan_state) : scan_result :=
  s ← (match h with
       | Some id =>
           y ← sn_symbols s !! id;
           if negb pic || (h_type (sy_h y) =? STT_GNU_IFUNC) then
             Some (update_symbol id
                     (fun y => let y := address_taken y in
                               if negb (h_def_regular (sy_h y)) || (sc_code sec || sc_readonly sec)
                               then plt_refcount_incr y else y) s)
           else Some s
       | None => Some s
       end);
  r ← riscv_elf_rtype_to_howto r_type;
  y ← (match h with Some id => Some <$> sn_symbols s !! id | None => Some None end);
  if RISCV_NEED_DYNAMIC_RELOC (pc_relative r) (sy_h <$> y) then
    let s := with_made (sn_sgot s) (sn_ifunc_sections s) ({[sc_id sec]} ∪ sn_sreloc s) (sn_static_tls s) s in
    match h with
    | Some id => go_on (update_symbol id (fun y => with_dyn_relocs (count_dyn_reloc (pc_relative r) (sy_dyn_relocs y)) y) s)
    | None =>
        let k := default (sc_id sec) section in
        go_on (with_local_dynrel
                 (<[k := count_dyn_reloc (pc_relative r) (default [] (sn_local_dynrel s !! k))]> (sn_local_dynrel s)) s)
    end
  else go_on s.

(** R_RISCV_PCREL_HI20 and what it falls through to. *)
Definition scan_pcrel_hi20 (r_type : Z) (h : option Z) (is_abs : bool) (section : option Z) (s : scan_state)
  : scan_result :=
  y ← (match h with Some id => Some <$> sn_symbols s !! id | None => Some None end);
  let s := match h, y with
           | Some id, Some y =>
               if h_type (sy_h y) =? STT_GNU_IFUNC then update_symbol id (fun y => plt_refcount_incr (address_taken y)) s
               else s
           | _, _ => s
           end in
  refused ← (if pic && is_abs then y ← y; Some (negb (sy_ldscript_def y)) else Some false);
  if refused : bool then refuse (SM_absolute_symbol r_type) s
  else if pic then go_on s
  else static_reloc r_type h section s.

(** The [switch] on the type. *)
Definition scan_switch (r_type r_symndx : Z) (h : option Z) (is_abs : bool) (section : option Z) (s : scan_state)
  : scan_result :=
  let got_reference tls s :=
    and_then (riscv_elf_record_got_reference h r_symndx s) (riscv_elf_record_tls_type h r_symndx tls) in
  match r_type with
  | R_RISCV_TLS_GD_HI20 => got_reference GOT_TLS_GD s
  | R_RISCV_TLS_GOT_HI20 =>
      got_reference GOT_TLS_IE
        (with_made (sn_sgot s) (sn_ifunc_sections s) (sn_sreloc s) (bfd_link_dll info || sn_static_tls s) s)
  | R_RISCV_GOT_HI20 => got_reference GOT_NORMAL s
  | R_RISCV_CALL | R_RISCV_CALL_PLT =>
      match h with
      | None => go_on s
      | Some id => go_on (update_symbol id (fun y => plt_refcount_incr (with_needs_plt true y)) s)
      end
  | R_RISCV_PCREL_HI20 => scan_pcrel_hi20 r_type h is_abs section s
  | R_RISCV_JAL | R_RISCV_BRANCH | R_RISCV_RVC_BRANCH | R_RISCV_RVC_JUMP =>
      if pic then go_on s else static_reloc r_type h section s
  | R_RISCV_TPREL_HI20 =>
      if negb (bfd_link_executable info) then bad_static_reloc r_type s
      else match h with
           | Some id => '(_, s) ← riscv_elf_record_tls_type h r_symndx GOT_TLS_LE s; go_on s
           | None => go_on s
           end
  | R_RISCV_HI20 => if pic then bad_static_reloc r_type s else static_reloc r_type h section s
  | R_RISCV_32 =>
      if arch64 && pic && sc_alloc sec then
        if is_abs then go_on s else refuse (SM_not_absolute_symbol r_type) s
      else static_reloc r_type h section s
  | R_RISCV_COPY | R_RISCV_JUMP_SLOT | R_RISCV_RELATIVE | R_RISCV_64 => static_reloc r_type h section s
  | _ => go_on s
  end.

Definition makes_ifunc_sections (r_type : Z) : bool :=
  existsb (Z.eqb r_type) [R_RISCV_32; R_RISCV_64; R_RISCV_CALL; R_RISCV_CALL_PLT; R_RISCV_HI20; R_RISCV_GOT_HI20;
                          R_RISCV_PCREL_HI20].

(** One relocation. *)
Definition check_reloc (rel : Elf_Internal_Rela) (s : scan_state) : scan_result :=
  let r_symndx := ELFNN_R_SYM arch64 (r_info rel) in
  let r_type := ELFNN_R_TYPE arch64 (r_info rel) in
  match symbol_of r_symndx with
  | None => refuse (SM_bad_symbol_index r_symndx) s
  | Some (SS_local is_abs section) => scan_switch r_type r_symndx None is_abs section s
  | Some sym =>
      '(id, is_abs, s) ←
        match sym with
        | SS_local_ifunc id is_abs => Some (id, is_abs, update_symbol id (fun y => with_h (fake_ifunc (sy_h y)) (with_ref_regular y)) s)
        | SS_global id => y ← sn_symbols s !! id; Some (id, bfd_is_abs_symbol (sy_h y), s)
        | SS_local _ _ => None
        end;
      y ← sn_symbols s !! id;
      let s := if makes_ifunc_sections r_type && (h_type (sy_h y) =? STT_GNU_IFUNC)
               then with_made (sn_sgot s) true (sn_sreloc s) (sn_static_tls s) s else s in
      scan_switch r_type r_symndx (Some id) is_abs None (update_symbol id with_ref_regular s)
  end.

(** [riscv_elf_check_relocs] in a final link. *)
Fixpoint riscv_elf_check_relocs (relocs : list Elf_Internal_Rela) (s : scan_state) : scan_result :=
  match relocs with
  | [] => go_on s
  | rel :: relocs => and_then (check_reloc rel s) (riscv_elf_check_relocs relocs)
  end.

End scan.
