(* ===== verification/LinkSize.v ===== *)
(** * Sizing the dynamic sections (bfd/elfnn-riscv.c, bfd/elf-ifunc.c)

    From the references counted while the relocations were scanned, each symbol
    gets its entries in the GOT and the PLT, and the sections that hold them and
    the relocations of the dynamic linker get their sizes:
    [riscv_elf_adjust_dynamic_symbol], [allocate_dynrelocs],
    [allocate_ifunc_dynrelocs] and [riscv_elf_size_dynamic_sections]. *)
From Stdlib Require Import ZArith Bool Lia.
From stdpp Require Import base list gmap.
From S2P Require Import Prelude OpcodeH RiscvH OpcodeMatch Bytes Howto LinkReloc LinkRelocate LinkScan.

#[local] Open Scope Z_scope.
#[local] Open Scope c_scope.
#[local] Open Scope list_scope.

Definition STO_RISCV_VARIANT_CC : Z := 0x80.

Definition bfd_link_pde (info : bfd_link_info) : bool := match li_type info with type_pde => true | _ => false end.
Definition bfd_link_pie (info : bfd_link_info) : bool := match li_type info with type_pie => true | _ => false end.

(** A table of PLT entries and its relocations: sizes in bytes, and
    [reloc_count]. *)
Record plt_size : Set := mk_plt_size { ps_code : Z; ps_rela : Z; ps_count : Z }.

(** The sizes of the sections the linker makes, [None] for those it did not
    make; the counts of .dynsym; the flags found on the way. *)
Record dyn_sizes : Type := mk_sizes {
  dz_plt : option plt_size;              (* .plt and .rela.plt *)
  dz_gotplt : option Z;
  dz_iplt : option plt_size;             (* .iplt and .rela.iplt *)
  dz_igotplt : option Z;
  dz_got : option Z;
  dz_relgot : option Z;
  dz_irelifunc : option Z;
  dz_sreloc : gmap Z Z;                  (* of an input section *)
  dz_dynsymcount : Z;
  dz_variant_cc : bool;
  dz_textrel : bool;
}.

Definition with_plt_sizes (p : option plt_size) (g : option Z) (z : dyn_sizes) : dyn_sizes :=
  mk_sizes p g (dz_iplt z) (dz_igotplt z) (dz_got z) (dz_relgot z) (dz_irelifunc z) (dz_sreloc z) (dz_dynsymcount z)
    (dz_variant_cc z) (dz_textrel z).
Definition with_iplt_sizes (p : option plt_size) (g : option Z) (z : dyn_sizes) : dyn_sizes :=
  mk_sizes (dz_plt z) (dz_gotplt z) p g (dz_got z) (dz_relgot z) (dz_irelifunc z) (dz_sreloc z) (dz_dynsymcount z)
    (dz_variant_cc z) (dz_textrel z).
Definition with_got_sizes (g r f : option Z) (z : dyn_sizes) : dyn_sizes :=
  mk_sizes (dz_plt z) (dz_gotplt z) (dz_iplt z) (dz_igotplt z) g r f (dz_sreloc z) (dz_dynsymcount z)
    (dz_variant_cc z) (dz_textrel z).
Definition with_sreloc (m : gmap Z Z) (t : bool) (z : dyn_sizes) : dyn_sizes :=
  mk_sizes (dz_plt z) (dz_gotplt z) (dz_iplt z) (dz_igotplt z) (dz_got z) (dz_relgot z) (dz_irelifunc z) m
    (dz_dynsymcount z) (dz_variant_cc z) t.
Definition with_dynsym (n : Z) (v : bool) (z : dyn_sizes) : dyn_sizes :=
  mk_sizes (dz_plt z) (dz_gotplt z) (dz_iplt z) (dz_igotplt z) (dz_got z) (dz_relgot z) (dz_irelifunc z) (dz_sreloc z)
    n v (dz_textrel z).

Definition with_dynindx (i : Z) (local : bool) (h : elf_link_hash_entry) : elf_link_hash_entry :=
  mk_entry (h_id h) (h_root_type h) (h_linker_def h) (h_rel_from_abs h) (h_def_value h) (h_def_section h) (h_type h)
    (h_other h) (h_def_regular h) (h_def_dynamic h) local (h_non_got_ref h) (h_unique_global h)
    (h_start_stop h) (h_dynamic h) i (h_plt_offset h) (h_tls_type h).
Definition with_def (value : Z) (section : option def_section) (h : elf_link_hash_entry) : elf_link_hash_entry :=
  mk_entry (h_id h) (h_root_type h) (h_linker_def h) (h_rel_from_abs h) value section (h_type h)
    (h_other h) (h_def_regular h) (h_def_dynamic h) (h_forced_local h) (h_non_got_ref h) (h_unique_global h)
    (h_start_stop h) (h_dynamic h) (h_dynindx h) (h_plt_offset h) (h_tls_type h).
Definition with_gotplt_words (got plt : Z) (needs : bool) (y : link_symbol) : link_symbol :=
  mk_symbol (sy_h y) got plt needs (sy_ref_regular y) (sy_pointer_equality_needed y) (sy_ldscript_def y) (sy_dyn_relocs y).

Section size.

(** [in_ir]: the symbol is defined in a file of a compiler plugin; [is_gp]: it
    is [__global_pointer$]; [plt_section]: .plt as a section of definitions. *)
Context (arch64 : bool) (info : bfd_link_info) (dyn : bool).
Context (in_ir is_gp : elf_link_hash_entry -> bool) (plt_section : def_section).

Abbreviation pic := (bfd_link_pic info).
Abbreviation WORD := (RISCV_ELF_WORD_BYTES arch64).
Definition RELA_SIZE : Z := if arch64 then 24 else 12.

(** [bfd_elf_link_record_dynamic_symbol]; the string table can be extended. *)
Definition bfd_elf_link_record_dynamic_symbol (h : elf_link_hash_entry) (z : dyn_sizes) : elf_link_hash_entry * dyn_sizes :=
  let defined := bool_decide (h_root_type h = bfd_link_hash_defined \/ h_root_type h = bfd_link_hash_defweak) in
  let undefined := bool_decide (h_root_type h = bfd_link_hash_undefined \/ h_root_type h = bfd_link_hash_undefweak) in
  let vis := ELF_ST_VISIBILITY (h_other h) in
  if negb (h_dynindx h =? -1) || (defined && in_ir h) then (h, z)
  else if ((vis =? STV_INTERNAL) || (vis =? STV_HIDDEN)) && negb undefined then (with_dynindx (h_dynindx h) true h, z)
  else (with_dynindx (dz_dynsymcount z) (h_forced_local h) h, with_dynsym (dz_dynsymcount z + 1) (dz_variant_cc z) z).

(** Make sure the symbol is dynamic unless it was forced to be local. *)
Definition ensure_dynamic (y : link_symbol) (z : dyn_sizes) : link_symbol * dyn_sizes :=
  if (h_dynindx (sy_h y) =? -1) && negb (h_forced_local (sy_h y)) then
    let '(h, z) := bfd_elf_link_record_dynamic_symbol (sy_h y) z in (with_h h y, z)
  else (y, z).

(** The PLT entry. *)
Definition allocate_plt (y : link_symbol) (z : dyn_sizes) : option (link_symbol * dyn_sizes) :=
  let none y := with_gotplt_words (sy_got y) MINUS_ONE false y in
  if dyn && (0 <? refcount (sy_plt y)) then
    let '(y, z) := ensure_dynamic y z in
    if WILL_CALL_FINISH_DYNAMIC_SYMBOL true pic (sy_h y) then
      p ← dz_plt z;
      g ← dz_gotplt z;
      let size := if ps_code p =? 0 then PLT_HEADER_SIZE else ps_code p in
      let z := with_plt_sizes (Some (mk_plt_size (u64 (size + PLT_ENTRY_SIZE)) (u64 (ps_rela p + RELA_SIZE)) (ps_count p)))
                 (Some (u64 (g + GOT_ENTRY_SIZE arch64))) z in
      let y := with_gotplt_words (sy_got y) size (sy_needs_plt y) y in
      let y := if negb pic && negb (h_def_regular (sy_h y))
               then with_h (with_def size (Some plt_section) (sy_h y)) y else y in
      let z := if negb (h_other (sy_h y) .& STO_RISCV_VARIANT_CC =? 0)
               then with_dynsym (dz_dynsymcount z) true z else z in
      Some (y, z)
    else Some (none y, z)
  else Some (none y, z).

(** The words of the GOT a symbol takes and the relocations they may need. *)
Definition got_words (tls_type : Z) : Z :=
  if tls_type .& (GOT_TLS_GD .| GOT_TLS_IE) =? 0 then 1
  else (if tls_type .& GOT_TLS_GD =? 0 then 0 else 2) + (if tls_type .& GOT_TLS_IE =? 0 then 0 else 1).

Definition got_relas (h : elf_link_hash_entry) : Z :=
  if h_tls_type h .& (GOT_TLS_GD .| GOT_TLS_IE) =? 0
  then if WILL_CALL_FINISH_DYNAMIC_SYMBOL dyn pic h && negb (UNDEFWEAK_NO_DYNAMIC_RELOC info h) then 1 else 0
  else let '(_, need_reloc) := RISCV_TLS_GD_IE_NEED_DYN_RELOC info dyn (Some h) in
       if need_reloc : bool then got_words (h_tls_type h) else 0.

(** The GOT entry; .rela.got is not touched if there is nothing to add. *)
Definition allocate_got (y : link_symbol) (z : dyn_sizes) : option (link_symbol * dyn_sizes) :=
  if 0 <? refcount (sy_got y) then
    let '(y, z) := ensure_dynamic y z in
    g ← dz_got z;
    let relas := got_relas (sy_h y) in
    r ← (if relas =? 0 then Some (dz_relgot z) else r ← dz_relgot z; Some (Some (u64 (r + relas * RELA_SIZE))));
    Some (with_gotplt_words g (sy_plt y) (sy_needs_plt y) y,
          with_got_sizes (Some (u64 (g + got_words (h_tls_type (sy_h y)) * WORD))) r (dz_irelifunc z) z)
  else Some (with_gotplt_words MINUS_ONE (sy_plt y) (sy_needs_plt y) y, z).

(** Relocations that turn out not to be needed. *)
Definition discard_pcrel (l : list elf_dyn_relocs) : list elf_dyn_relocs :=
  filter (fun p => dr_count p <> 0) (map (fun p => mk_dyn_relocs (dr_sec p) (dr_count p - dr_pc_count p) 0) l).

Definition keep_dyn_relocs (y : link_symbol) (z : dyn_sizes) : link_symbol * dyn_sizes :=
  if pic then
    let y := if SYMBOL_CALLS_LOCAL info (Some (sy_h y)) then with_dyn_relocs (discard_pcrel (sy_dyn_relocs y)) y else y in
    match sy_dyn_relocs y with
    | [] => (y, z)
    | _ =>
        if is_undefweak (sy_h y) then
          if negb (ELF_ST_VISIBILITY (h_other (sy_h y)) =? STV_DEFAULT) || UNDEFWEAK_NO_DYNAMIC_RELOC info (sy_h y)
          then (with_dyn_relocs [] y, z)
          else ensure_dynamic y z
        else (y, z)
    end
  else
    let h := sy_h y in
    if negb (h_non_got_ref h)
       && ((h_def_dynamic h && negb (h_def_regular h))
           || (dyn && (is_undefweak h || bool_decide (h_root_type h = bfd_link_hash_undefined))))
    then let '(y, z) := ensure_dynamic y z in
         if negb (h_dynindx (sy_h y) =? -1) then (y, z) else (with_dyn_relocs [] y, z)
    else (with_dyn_relocs [] y, z).

Definition add_sreloc (p : elf_dyn_relocs) (m : gmap Z Z) : option (gmap Z Z) :=
  n ← m !! dr_sec p; Some (<[dr_sec p := u64 (n + dr_count p * RELA_SIZE)]> m).

Fixpoint allocate_space (l : list elf_dyn_relocs) (m : gmap Z Z) : option (gmap Z Z) :=
  match l with
  | [] => Some m
  | p :: l => m ← add_sreloc p m; allocate_space l m
  end.

(** [allocate_dynrelocs]; the entry is not an indirection. *)
Definition allocate_dynrelocs (y : link_symbol) (z : dyn_sizes) : option (link_symbol * dyn_sizes) :=
  let '(y, z) :=
    if negb pic && dyn && is_gp (sy_h y) then
      let '(h, z) := bfd_elf_link_record_dynamic_symbol (sy_h y) z in (with_h h y, z)
    else (y, z) in
  if (h_type (sy_h y) =? STT_GNU_IFUNC) && h_def_regular (sy_h y) then Some (y, z)
  else
    '(y, z) ← allocate_plt y z;
    '(y, z) ← allocate_got y z;
    match sy_dyn_relocs y with
    | [] => Some (y, z)
    | _ =>
        let '(y, z) := keep_dyn_relocs y z in
        m ← allocate_space (sy_dyn_relocs y) (dz_sreloc z);
        Some (y, with_sreloc m (dz_textrel z) z)
    end.

(** ** Indirect functions (bfd/elf-ifunc.c) *)

(** The scan of the dynamic relocations: whether there are any, and the
    values of [use_plt] and [need_dynreloc] after it. *)
Fixpoint scan_ifunc_relocs (l : list elf_dyn_relocs) (keep use_plt need_dynreloc : bool) : bool * bool * bool :=
  match l with
  | [] => (keep, use_plt, need_dynreloc)
  | p :: l =>
      if negb (dr_count p =? 0) then
        if negb (dr_pc_count p =? 0) then (true, true, pic)
        else scan_ifunc_relocs l true use_plt need_dynreloc
      else scan_ifunc_relocs l keep use_plt need_dynreloc
  end.

(** The entry of an indirect function in .plt or .iplt, with [count] more
    relocations in the same section. *)
Definition ifunc_plt_entry (use_plt : bool) (z : dyn_sizes) : option (Z * dyn_sizes) :=
  let entry p := mk_plt_size (u64 (ps_code p + PLT_ENTRY_SIZE)) (u64 (ps_rela p + RELA_SIZE)) (ps_count p + 1) in
  match dz_plt z with
  | Some p =>
      let p := if (ps_code p =? 0) && use_plt then mk_plt_size PLT_HEADER_SIZE (ps_rela p) (ps_count p) else p in
      if use_plt then
        g ← dz_gotplt z;
        Some (ps_code p, with_plt_sizes (Some (entry p)) (Some (u64 (g + GOT_ENTRY_SIZE arch64))) z)
      else Some (MINUS_ONE, with_plt_sizes (Some p) (dz_gotplt z) z)
  | None =>
      if use_plt then
        p ← dz_iplt z;
        g ← dz_igotplt z;
        Some (ps_code p, with_iplt_sizes (Some (entry p)) (Some (u64 (g + GOT_ENTRY_SIZE arch64))) z)
      else Some (MINUS_ONE, z)
  end.

(** More relocations in .rela.iplt. *)
Definition more_irelplt (count : Z) (z : dyn_sizes) : option dyn_sizes :=
  p ← dz_iplt z;
  Some (with_iplt_sizes (Some (mk_plt_size (ps_code p) (u64 (ps_rela p + count * RELA_SIZE)) (ps_count p + count)))
          (dz_igotplt z) z).

(** The dynamic relocations of a pointer to the function. *)
Definition ifunc_pointers (l : list elf_dyn_relocs) (z : dyn_sizes) : option dyn_sizes :=
  match l with
  | [] => Some z
  | _ =>
      let count := foldr (fun p n => dr_count p + n) 0 l in
      if pic then f ← dz_irelifunc z;
                  Some (with_got_sizes (dz_got z) (dz_relgot z) (Some (u64 (f + count * RELA_SIZE))) z)
      else match dz_plt z with
           | Some _ => r ← dz_relgot z;
                       Some (with_got_sizes (dz_got z) (Some (u64 (r + count * RELA_SIZE))) (dz_irelifunc z) z)
           | None => more_irelplt count z
           end
  end.

(** The GOT entry: where it is, or -1 if .got.plt is used. *)
Definition ifunc_got (y : link_symbol) (use_plt need_dynreloc : bool) (z : dyn_sizes) : option (Z * dyn_sizes) :=
  let h := sy_h y in
  let no_got := match dz_got z with None => true | Some _ => false end in
  if use_plt
     && ((refcount (sy_got y) <=? 0)
         || (pic && ((h_dynindx h =? -1) || h_forced_local h))
         || (negb pic && negb (sy_pointer_equality_needed y))
         || bfd_link_pie info || no_got)
  then Some (MINUS_ONE, z)
  else if refcount (sy_got y) <=? 0 then Some (MINUS_ONE, z)
  else
    g ← dz_got z;
    let z := with_got_sizes (Some (u64 (g + GOT_ENTRY_SIZE arch64))) (dz_relgot z) (dz_irelifunc z) z in
    z ← (if need_dynreloc then
           match dz_plt z with
           | Some _ => r ← dz_relgot z; Some (with_got_sizes (dz_got z) (Some (u64 (r + RELA_SIZE))) (dz_irelifunc z) z)
           | None => more_irelplt 1 z
           end
         else Some z);
    Some (g, z).

(** [_bfd_elf_allocate_ifunc_dyn_relocs] with [avoid_plt]; [export_dynamic] is
    of the link.  [Some None] is the value false. *)
Definition _bfd_elf_allocate_ifunc_dyn_relocs (export_dynamic : bool) (y : link_symbol) (z : dyn_sizes)
  : option (option (link_symbol * dyn_sizes)) :=
  let use_plt := 0 <? refcount (sy_plt y) in
  let need_dynreloc := negb use_plt || pic in
  if negb need_dynreloc && negb (bfd_link_pde info && h_def_regular (sy_h y))
     && (negb (h_dynindx (sy_h y) =? -1) || export_dynamic) && sy_pointer_equality_needed y
  then Some None
  else
    let '(keep, use_plt', need_dynreloc') :=
      if need_dynreloc && sy_ref_regular y then scan_ifunc_relocs (sy_dyn_relocs y) false use_plt need_dynreloc
      else (false, use_plt, need_dynreloc) in
    let y := if keep : bool then with_h (with_non_got_ref true (sy_h y)) y else y in
    let unused := with_dyn_relocs [] (with_gotplt_words MINUS_ONE MINUS_ONE (sy_needs_plt y) y) in
    if negb keep && (refcount (sy_plt y) <=? 0) && (refcount (sy_got y) <=? 0) then Some (Some (unused, z))
    else if negb keep && negb (sy_ref_regular y) then None
    else
      '(plt_offset, z) ← ifunc_plt_entry use_plt' z;
      let y := if negb need_dynreloc' || negb (h_non_got_ref (sy_h y)) then with_dyn_relocs [] y else y in
      z ← ifunc_pointers (sy_dyn_relocs y) z;
      '(got_offset, z) ← ifunc_got y use_plt' need_dynreloc' z;
      Some (Some (with_gotplt_words got_offset plt_offset (sy_needs_plt y) y, z)).

(** [allocate_ifunc_dynrelocs] and [allocate_local_ifunc_dynrelocs]. *)
Definition allocate_ifunc_dynrelocs (export_dynamic : bool) (y : link_symbol) (z : dyn_sizes)
  : option (option (link_symbol * dyn_sizes)) :=
  if (h_type (sy_h y) =? STT_GNU_IFUNC) && h_def_regular (sy_h y)
  then _bfd_elf_allocate_ifunc_dyn_relocs export_dynamic y z else Some (Some (y, z)).

Definition allocate_local_ifunc_dynrelocs (export_dynamic : bool) (y : link_symbol) (z : dyn_sizes)
  : option (option (link_symbol * dyn_sizes)) :=
  let h := sy_h y in
  if negb (h_type h =? STT_GNU_IFUNC) || negb (h_def_regular h) || negb (sy_ref_regular y) || negb (h_forced_local h)
     || negb (bool_decide (h_root_type h = bfd_link_hash_defined))
  then None
  else allocate_ifunc_dynrelocs export_dynamic y z.

(** ** All sections *)

(** Entries of the GOT for local symbols: a count and a TLS type each. *)
Fixpoint allocate_local_got (l : list (Z * Z)) (z : dyn_sizes) : option (list Z * dyn_sizes) :=
  match l with
  | [] => Some ([], z)
  | (count, tls_type) :: l =>
      if 0 <? refcount count then
        g ← dz_got z;
        let size := u64 (g + WORD + (if tls_type .& GOT_TLS_GD =? 0 then 0 else WORD)) in
        r ← (if pic || negb (tls_type .& (GOT_TLS_GD .| GOT_TLS_IE) =? 0)
             then r ← dz_relgot z; Some (Some (u64 (r + RELA_SIZE))) else Some (dz_relgot z));
        '(offs, z) ← allocate_local_got l (with_got_sizes (Some size) r (dz_irelifunc z) z);
        Some (g :: offs, z)
      else
        '(offs, z) ← allocate_local_got l z;
        Some (MINUS_ONE :: offs, z)
  end.

(** The relocations against local symbols of a section; [discarded] and
    [readonly] are about the output section of a section. *)
Fixpoint allocate_local_dynrel (discarded readonly : Z -> bool) (l : list elf_dyn_relocs) (z : dyn_sizes)
  : option dyn_sizes :=
  match l with
  | [] => Some z
  | p :: l =>
      z ← (if discarded (dr_sec p) || (dr_count p =? 0) then Some z
           else m ← add_sreloc p (dz_sreloc z); Some (with_sreloc m (readonly (dr_sec p) || dz_textrel z) z));
      allocate_local_dynrel discarded readonly l z
  end.

(** A list of symbols in turn; the traversal of a hash table stops at the
    value false, which is ignored. *)
Fixpoint traverse (f : link_symbol -> dyn_sizes -> option (option (link_symbol * dyn_sizes))) (l : list link_symbol)
    (z : dyn_sizes) : option (list link_symbol * dyn_sizes) :=
  match l with
  | [] => Some ([], z)
  | y :: l =>
      r ← f y z;
      match r with
      | None => Some (y :: l, z)
      | Some (y, z) => '(l, z) ← traverse f l z; Some (y :: l, z)
      end
  end.

(** An input file: the relocations against local symbols of its sections, and
    the counts of its local symbols. *)
Record input_file : Type := mk_input_file {
  if_local_dynrel : list (list elf_dyn_relocs);
  if_local_got : option (list (Z * Z));
}.

Fixpoint size_inputs (discarded readonly : Z -> bool) (l : list input_file) (z : dyn_sizes)
  : option (list (option (list Z)) * dyn_sizes) :=
  match l with
  | [] => Some ([], z)
  | f :: l =>
      z ← foldl (fun z d => z ← z; allocate_local_dynrel discarded readonly d z) (Some z) (if_local_dynrel f);
      '(offs, z) ←
        match if_local_got f with
        | None => Some (None, z)
        | Some local_got => '(offs, z) ← allocate_local_got local_got z; Some (Some offs, z)
        end;
      '(rest, z) ← size_inputs discarded readonly l z;
      Some (offs :: rest, z)
  end.

(** The table .got.plt is not kept if nothing needs it; [got_referenced]: there
    is a reference to _GLOBAL_OFFSET_TABLE_ that is not weak. *)
Definition strip_gotplt (got_referenced : bool) (z : dyn_sizes) : dyn_sizes :=
  match dz_gotplt z with
  | Some g =>
      if negb got_referenced && (g =? GOTPLT_HEADER_SIZE arch64)
         && match dz_plt z with None => true | Some p => ps_code p =? 0 end
         && match dz_got z with None => true | Some n => n =? WORD end
      then with_plt_sizes (dz_plt z) (Some 0) z else z
  | None => z
  end.

(** [riscv_elf_size_dynamic_sections]: the offsets of the local entries of each
    file, the symbols and the sizes, and [last_iplt_index].  Left out are the
    interpreter's name, what comes after the sizes (stripping empty sections,
    their memory, the tags of .dynamic, and reloc_count, which is set to 0: the
    lists of relocations in LinkRelocate and LinkPlt start empty) and
    ifunc_resolvers, a flag for a warning of the ELF linker. *)
Definition riscv_elf_size_dynamic_sections (export_dynamic got_referenced : bool) (discarded readonly : Z -> bool)
    (files : list input_file) (globals locals : list link_symbol) (z : dyn_sizes)
  : option (list (option (list Z)) * list link_symbol * list link_symbol * dyn_sizes * option Z) :=
  '(offs, z) ← size_inputs discarded readonly files z;
  '(globals, z) ← traverse (fun y z => Some <$> allocate_dynrelocs y z) globals z;
  '(globals, z) ← traverse (allocate_ifunc_dynrelocs export_dynamic) globals z;
  '(locals, z) ← traverse (allocate_local_ifunc_dynrelocs export_dynamic) locals z;
  Some (offs, globals, locals, strip_gotplt got_referenced z, (fun p => ps_count p - 1) <$> dz_iplt z).

End size.

(** ** Symbols defined by a shared library *)

(** An area for copies of variables: .dynbss, .data.rel.ro or the thread-local
    one; and the sizes of .rela.bss and .rela.data.rel.ro. *)
Record copy_area : Set := mk_area { ca_section : def_section; ca_size : Z; ca_power : nat }.

Record copy_areas : Set := mk_areas {
  cp_tdata : copy_area;
  cp_relro : copy_area;
  cp_bss : copy_area;
  cp_srelbss : Z;
  cp_sreldynrelro : Z;
}.

(** What the definition in the library is like: the flags and the alignment of
    its section and the symbol's size; for a weak alias, the definition. *)
Record library_def : Set := mk_library_def {
  ld_weakdef : option elf_link_hash_entry;
  ld_readonly : bool;
  ld_alloc : bool;
  ld_power : nat;
  ld_size : Z;
}.

Definition BFD_ALIGN (this boundary : Z) : Z :=
  if this <=? u64 (this + boundary - 1) then u64 (this + (boundary - 1)) .& u64 (Z.lnot (boundary - 1)) else MINUS_ONE.

(** The alignment of the value, at most that of the section. *)
Fixpoint align_power (power : nat) (value : Z) : nat :=
  match power with
  | O => O
  | S p => if value .& (2 ^ Z.of_nat power - 1) =? 0 then power else align_power p value
  end.

(** [_bfd_elf_adjust_dynamic_copy]; [None] is the value false. *)
Definition _bfd_elf_adjust_dynamic_copy (d : library_def) (h : elf_link_hash_entry) (a : copy_area)
  : option (elf_link_hash_entry * copy_area) :=
  let power := align_power (ld_power d) (h_def_value h) in
  if (ca_power a <? power)%nat && (63 <=? power)%nat then None
  else
    let size := BFD_ALIGN (ca_size a) (2 ^ Z.of_nat power) in
    Some (with_def size (Some (ca_section a)) h,
          mk_area (ca_section a) (u64 (size + ld_size d)) (Nat.max (ca_power a) power)).

Section adjust.

Context (arch64 : bool) (info : bfd_link_info) (nocopyreloc : bool) (readonly_output : Z -> bool).

(** [_bfd_elf_readonly_dynrelocs]. *)
Definition _bfd_elf_readonly_dynrelocs (y : link_symbol) : bool :=
  existsb (fun p => readonly_output (dr_sec p)) (sy_dyn_relocs y).

(** A copy of the variable; the flag is needs_copy. *)
Definition copy_variable (y : link_symbol) (d : library_def) (c : copy_areas)
  : option (link_symbol * bool * copy_areas) :=
  let copied := ld_alloc d && negb (ld_size d =? 0) in
  let rela := if copied then RELA_SIZE arch64 else 0 in
  let h := sy_h y in
  if negb (h_tls_type h .& Z.lnot GOT_NORMAL =? 0) then
    '(h, a) ← _bfd_elf_adjust_dynamic_copy d h (cp_tdata c);
    Some (with_h h y, copied, mk_areas a (cp_relro c) (cp_bss c) (cp_srelbss c + rela) (cp_sreldynrelro c))
  else if ld_readonly d then
    '(h, a) ← _bfd_elf_adjust_dynamic_copy d h (cp_relro c);
    Some (with_h h y, copied, mk_areas (cp_tdata c) a (cp_bss c) (cp_srelbss c) (cp_sreldynrelro c + rela))
  else
    '(h, a) ← _bfd_elf_adjust_dynamic_copy d h (cp_bss c);
    Some (with_h h y, copied, mk_areas (cp_tdata c) (cp_relro c) a (cp_srelbss c + rela) (cp_sreldynrelro c)).

(** [riscv_elf_adjust_dynamic_symbol]; [None] is the value false. *)
Definition riscv_elf_adjust_dynamic_symbol (y : link_symbol) (d : library_def) (c : copy_areas)
  : option (link_symbol * bool * copy_areas) :=
  let h := sy_h y in
  let no_plt needs y := with_gotplt_words (sy_got y) MINUS_ONE needs y in
  if (h_type h =? STT_FUNC) || (h_type h =? STT_GNU_IFUNC) || sy_needs_plt y then
    if (refcount (sy_plt y) <=? 0)
       || (negb (h_type h =? STT_GNU_IFUNC)
           && (SYMBOL_CALLS_LOCAL info (Some h)
               || (negb (ELF_ST_VISIBILITY (h_other h) =? STV_DEFAULT) && is_undefweak h)))
    then Some (no_plt false y, false, c)
    else Some (y, false, c)
  else
    let y := no_plt (sy_needs_plt y) y in
    match ld_weakdef d with
    | Some def => Some (with_h (with_def (h_def_value def) (h_def_section def) h) y, false, c)
    | None =>
        if bfd_link_pic info || negb (h_non_got_ref h) then Some (y, false, c)
        else if nocopyreloc || negb (_bfd_elf_readonly_dynrelocs y)
        then Some (with_h (with_non_got_ref false h) y, false, c)
        else copy_variable y d c
    end.

End adjust.
