(* ===== verification/LinkSizeSpec.v ===== *)
(** * Properties of scanning relocations and sizing the dynamic sections

    The entries of the GOT and the PLT are laid out without gaps or overlaps
    and the sections have just the room for them; every reference found by the
    scan has its entry, large enough for what relocating writes there, but for
    local thread-local symbols accessed in two ways. *)
From Stdlib Require Import ZArith Bool Lia.
From stdpp Require Import base list gmap.
From S2P Require Import Prelude OpcodeH RiscvH Words OpcodeMatch Bytes Howto LinkReloc LinkRelocSpec LinkRelocate LinkFrame LinkPlt LinkPltSpec LinkScan LinkSize.

#[local] Open Scope Z_scope.
#[local] Open Scope c_scope.
#[local] Open Scope list_scope.

(** ** Tilings *)

(** The ranges (offset, length) follow each other from [a] to [b]. *)
Fixpoint tiles (a : Z) (l : list (Z * Z)) (b : Z) : Prop :=
  match l with
  | [] => a = b
  | (off, len) :: l => off = a /\ 0 < len /\ tiles (a + len) l b
  end.

Lemma tiles_app a l1 c l2 b : tiles a l1 c -> tiles c l2 b -> tiles a (l1 ++ l2) b.
Proof.
  revert a. induction l1 as [|[off len] l1 IH]; intros a H1 H2; cbn [app tiles] in *; [by subst|].
  destruct H1 as (-> & Hl & H1). auto.
Qed.

Lemma tiles_le a l b : tiles a l b -> a <= b.
Proof.
  revert a. induction l as [|[off len] l IH]; intros a H; cbn [tiles] in H; [lia|].
  destruct H as (_ & Hl & H). apply IH in H. lia.
Qed.

Lemma tiles_in a l b off len : tiles a l b -> In (off, len) l -> a <= off /\ 0 < len /\ off + len <= b.
Proof.
  revert a. induction l as [|[o n] l IH]; intros a H Hin; [done|]. cbn [tiles] in H. destruct H as (-> & Hn & H).
  pose proof (tiles_le _ _ _ H). destruct Hin as [[= <- <-]|Hin]; [lia|]. specialize (IH _ H Hin). lia.
Qed.

(** Two ranges of a tiling do not overlap. *)
Lemma tiles_disjoint a l b i j off1 len1 off2 len2 :
  tiles a l b -> l !! i = Some (off1, len1) -> l !! j = Some (off2, len2) -> (i < j)%nat -> off1 + len1 <= off2.
Proof.
  revert a i j. induction l as [|[o n] l IH]; intros a i j H Hi Hj Hij; [done|]. cbn [tiles] in H.
  destruct H as (-> & Hn & H). destruct j as [|j]; [lia|]. cbn [lookup list_lookup] in Hj. destruct i as [|i].
  - cbn in Hi. simplify_eq. apply list_elem_of_lookup_2, list_elem_of_In in Hj. apply (tiles_in _ _ _ _ _ H) in Hj. lia.
  - cbn in Hi. apply (IH _ i j H Hi Hj). lia.
Qed.

(** ** One step of an allocation *)

Section layout.

Context (arch64 : bool) (info : bfd_link_info) (dyn : bool).
Context (in_ir is_gp : elf_link_hash_entry -> bool) (plt_section : def_section).

Abbreviation WORD := (RISCV_ELF_WORD_BYTES arch64).
Abbreviation RELA := (RELA_SIZE arch64).

(** An indirect function defined here. *)
Definition ifunc_def (y : link_symbol) : bool := (h_type (sy_h y) =? STT_GNU_IFUNC) && h_def_regular (sy_h y).

(** The words of the GOT a symbol has. *)
Definition slot_words (y : link_symbol) : Z := if ifunc_def y then 1 else got_words (h_tls_type (sy_h y)).

(** The symbol has an entry at the old end of .got, or none. *)
Definition got_step (y' : link_symbol) (z z' : dyn_sizes) : Prop :=
  (sy_got y' = MINUS_ONE /\ dz_got z' = dz_got z) \/
  exists g, dz_got z = Some g /\ sy_got y' = g /\ dz_got z' = Some (u64 (g + slot_words y' * WORD)).

(** The tables of a link with a .plt, with [n] entries. *)
Definition plt_at (n : Z) (z : dyn_sizes) : Prop :=
  exists c, dz_plt z = Some (mk_plt_size (if n =? 0 then 0 else entry_offset n) (n * RELA) c) /\
            dz_gotplt z = Some ((2 + n) * WORD).

(** The symbol has the next entry of the PLT, or none. *)
Definition plt_step (y' : link_symbol) (z z' : dyn_sizes) : Prop :=
  forall n, plt_at n z -> 0 <= n < 2 ^ 58 ->
    (sy_plt y' = MINUS_ONE /\ plt_at n z') \/ (sy_plt y' = entry_offset n /\ plt_at (n + 1) z').

(** A step that is about the symbol ([mine]) or leaves it to another pass. *)
Record allocated (mine : bool) (y : link_symbol) (z : dyn_sizes) (y' : link_symbol) (z' : dyn_sizes) : Prop := {
  al_ifunc : ifunc_def y' = ifunc_def y;
  al_tls : h_tls_type (sy_h y') = h_tls_type (sy_h y);
  al_id : h_id (sy_h y') = h_id (sy_h y);
  al_got : if mine
           then got_step y' z z' /\ (0 < refcount (sy_got y) -> ifunc_def y = false -> dz_got z = Some (sy_got y'))
           else sy_got y' = sy_got y /\ dz_got z' = dz_got z;
  al_plt : if mine then plt_step y' z z' else sy_plt y' = sy_plt y /\ forall n, plt_at n z -> plt_at n z';
}.

Lemma record_dynamic_frame h z h' z' :
  bfd_elf_link_record_dynamic_symbol in_ir h z = (h', z') ->
  h_tls_type h' = h_tls_type h /\ h_type h' = h_type h /\ h_def_regular h' = h_def_regular h /\ h_id h' = h_id h /\
  dz_got z' = dz_got z /\ dz_plt z' = dz_plt z /\ dz_gotplt z' = dz_gotplt z.
Proof.
  unfold bfd_elf_link_record_dynamic_symbol. destruct (_ || _); [by intros [= <- <-]|].
  destruct (_ && _); by intros [= <- <-].
Qed.

(** The parts of a symbol and of the sizes that layouts are about. *)
Definition same_layout (y : link_symbol) (z : dyn_sizes) (y' : link_symbol) (z' : dyn_sizes) : Prop :=
  (sy_got y' = sy_got y /\ sy_plt y' = sy_plt y) /\
  (h_tls_type (sy_h y') = h_tls_type (sy_h y) /\ h_type (sy_h y') = h_type (sy_h y) /\
   h_def_regular (sy_h y') = h_def_regular (sy_h y) /\ h_id (sy_h y') = h_id (sy_h y)) /\
  (dz_got z' = dz_got z /\ dz_plt z' = dz_plt z /\ dz_gotplt z' = dz_gotplt z).

Lemma same_layout_refl y z : same_layout y z y z.
Proof. done. Qed.

Lemma same_layout_trans y z y1 z1 y2 z2 :
  same_layout y z y1 z1 -> same_layout y1 z1 y2 z2 -> same_layout y z y2 z2.
Proof. unfold same_layout. intuition congruence. Qed.

Lemma ensure_dynamic_layout y z y' z' : ensure_dynamic in_ir y z = (y', z') -> same_layout y z y' z'.
Proof.
  unfold ensure_dynamic. destruct (_ && _); [|by intros [= <- <-]].
  destruct (bfd_elf_link_record_dynamic_symbol in_ir (sy_h y) z) as [h z1] eqn:E. intros [= <- <-].
  apply record_dynamic_frame in E. unfold same_layout. cbn. intuition.
Qed.

Lemma keep_dyn_relocs_layout y z y' z' : keep_dyn_relocs info dyn in_ir y z = (y', z') -> same_layout y z y' z'.
Proof.
  unfold keep_dyn_relocs. destruct (SYMBOL_CALLS_LOCAL info (Some (sy_h y))); intros H; repeat (split_match_in H; simplify_eq; try done);
    try done.
  all: repeat match goal with E : ensure_dynamic _ _ _ = _ |- _ => apply ensure_dynamic_layout in E end; done.
Qed.

Lemma same_layout_allocated y z y' z' : same_layout y z y' z' -> allocated false y z y' z'.
Proof.
  intros ((E1 & E2) & (E3 & E4 & E5 & E6) & E7 & E8 & E9). constructor; try done.
  - unfold ifunc_def. by rewrite E4, E5.
  - split; [done|]. intros n (c & H1 & H2). exists c. by rewrite E8, E9.
Qed.

(** .plt grows by an entry, .got.plt by a word, .rela.plt by a relocation. *)
Lemma plt_grows n c z' :
  0 <= n < 2 ^ 58 ->
  dz_plt z' = Some (mk_plt_size (u64 ((if (if n =? 0 then 0 else entry_offset n) =? 0 then PLT_HEADER_SIZE
                                       else if n =? 0 then 0 else entry_offset n) + PLT_ENTRY_SIZE))
                      (u64 (n * RELA + RELA)) c) ->
  dz_gotplt z' = Some (u64 ((2 + n) * WORD + GOT_ENTRY_SIZE arch64)) ->
  (if (if n =? 0 then 0 else entry_offset n) =? 0 then PLT_HEADER_SIZE else if n =? 0 then 0 else entry_offset n)
    = entry_offset n /\ plt_at (n + 1) z'.
Proof.
  intros Hn H1 H2.
  assert (E : (if (if n =? 0 then 0 else entry_offset n) =? 0 then PLT_HEADER_SIZE
               else if n =? 0 then 0 else entry_offset n) = entry_offset n).
  { destruct (Z.eqb_spec n 0) as [->|]; [done|]. unfold entry_offset. by rewrite (proj2 (Z.eqb_neq _ _)) by lia. }
  rewrite E in *. split; [done|]. exists c. rewrite (proj2 (Z.eqb_neq (n + 1) 0)) by lia. rewrite H1, H2.
  unfold u64, entry_offset, PLT_ENTRY_SIZE, GOT_ENTRY_SIZE. rewrite !Z.mod_small.
  - split; do 2 f_equal; [lia|ring|ring].
  - destruct arch64; simpl; lia.
  - unfold RELA_SIZE. destruct arch64; simpl; lia.
  - lia.
Qed.

Lemma allocate_plt_step y z y' z' :
  allocate_plt arch64 info dyn in_ir plt_section y z = Some (y', z') ->
  plt_step y' z z' /\ sy_got y' = sy_got y /\ dz_got z' = dz_got z /\
  h_tls_type (sy_h y') = h_tls_type (sy_h y) /\ h_type (sy_h y') = h_type (sy_h y) /\
  h_def_regular (sy_h y') = h_def_regular (sy_h y) /\ h_id (sy_h y') = h_id (sy_h y).
Proof.
  unfold allocate_plt. destruct (_ && _); cycle 1.
  { intros [= <- <-]. split; [|done]. intros n Hn _. by left. }
  destruct (ensure_dynamic in_ir y z) as [y1 z1] eqn:E.
  apply ensure_dynamic_layout in E as ((E1 & E2) & (E3 & E4 & E5 & E6) & E7 & E8 & E9).
  destruct (WILL_CALL_FINISH_DYNAMIC_SYMBOL _ _ _); cycle 1.
  { intros [= <- <-]. split; [|done]. intros n (c & H1 & H2) _. left. split; [done|]. exists c. cbn. by rewrite E8, E9. }
  intros H. apply bind_Some in H as (p & Hp & H). apply bind_Some in H as (g & Hg & H).
  apply (inj Some) in H. injection H as Hy Hz.
  assert (Ey : sy_plt y' = (if ps_code p =? 0 then PLT_HEADER_SIZE else ps_code p) /\ sy_got y' = sy_got y1 /\
    h_tls_type (sy_h y') = h_tls_type (sy_h y1) /\ h_type (sy_h y') = h_type (sy_h y1) /\
    h_def_regular (sy_h y') = h_def_regular (sy_h y1) /\ h_id (sy_h y') = h_id (sy_h y1))
    by (subst y'; by destruct (negb _ && negb _)).
  assert (Ez : dz_plt z' = Some (mk_plt_size (u64 ((if ps_code p =? 0 then PLT_HEADER_SIZE else ps_code p) + PLT_ENTRY_SIZE))
                                   (u64 (ps_rela p + RELA)) (ps_count p)) /\
    dz_gotplt z' = Some (u64 (g + GOT_ENTRY_SIZE arch64)) /\ dz_got z' = dz_got z1) by (subst z'; by destruct (negb (_ =? 0))).
  clear Hy Hz. destruct Ey as (Ey & Ey2 & Ey3 & Ey4 & Ey5 & Ey6), Ez as (Ez1 & Ez2 & Ez3).
  split; [|intuition congruence]. intros n (c & H1 & H2) Hn. right.
  rewrite <- E8 in H1. rewrite <- E9 in H2. simplify_eq.
  cbn [ps_code ps_rela ps_count] in *. destruct (plt_grows n c z' Hn Ez1 Ez2) as [H3 H4]. split; [congruence|done].
Qed.

Lemma allocate_got_step y z y' z' :
  allocate_got arch64 info dyn in_ir y z = Some (y', z') -> ifunc_def y = false ->
  (got_step y' z z' /\ (0 < refcount (sy_got y) -> dz_got z = Some (sy_got y'))) /\
  sy_plt y' = sy_plt y /\ dz_plt z' = dz_plt z /\ dz_gotplt z' = dz_gotplt z /\
  h_tls_type (sy_h y') = h_tls_type (sy_h y) /\ h_type (sy_h y') = h_type (sy_h y) /\
  h_def_regular (sy_h y') = h_def_regular (sy_h y) /\ h_id (sy_h y') = h_id (sy_h y).
Proof.
  unfold allocate_got. destruct (Z.ltb_spec 0 (refcount (sy_got y))) as [Hc|Hc]; cycle 1.
  { intros [= <- <-] _. split; [|done]. split; [by left|lia]. }
  destruct (ensure_dynamic in_ir y z) as [y1 z1] eqn:E.
  apply ensure_dynamic_layout in E as ((E1 & E2) & (E3 & E4 & E5 & E6) & E7 & E8 & E9).
  intros H Hi. apply bind_Some in H as (g & Hg & H). apply bind_Some in H as (r & Hr & H). simplify_eq.
  split; [|done]. cbn. rewrite <- E7. split; [|done]. right. exists g. split_and!; [congruence|done|].
  unfold slot_words, ifunc_def in *. cbn. by rewrite E3, E4, E5, Hi.
Qed.

(** [allocate_dynrelocs] is about all symbols but indirect functions. *)
Lemma allocate_dynrelocs_step y z y' z' :
  allocate_dynrelocs arch64 info dyn in_ir is_gp plt_section y z = Some (y', z') ->
  allocated (negb (ifunc_def y)) y z y' z'.
Proof.
  unfold allocate_dynrelocs.
  match goal with |- context [if ?b then ?u else (y, z)] => set (q := if b then u else (y, z)) end.
  assert (Hq : same_layout y z q.1 q.2).
  { unfold q. destruct (_ && _); [|done].
    destruct (bfd_elf_link_record_dynamic_symbol in_ir (sy_h y) z) as [h z1] eqn:E.
    apply record_dynamic_frame in E. unfold same_layout. cbn. intuition. }
  destruct q as [y1 z1]. cbn [fst snd] in Hq. pose proof Hq as Hq'.
  destruct Hq as ((Q1 & Q2) & (Q3 & Q4 & Q5 & Q6) & Q7 & Q8 & Q9).
  assert (Qi : ifunc_def y1 = ifunc_def y) by (unfold ifunc_def; by rewrite Q4, Q5). rewrite <- Qi.
  change (_ && h_def_regular (sy_h y1)) with (ifunc_def y1). destruct (ifunc_def y1) eqn:Ei.
  { intros [= <- <-]. by apply same_layout_allocated. }
  intros H. apply bind_Some in H as ([y2 z2] & H2 & H). apply bind_Some in H as ([y3 z3] & H3 & H).
  apply allocate_plt_step in H2 as (P1 & P2 & P3 & P4 & P5 & P6 & P7).
  assert (Ei2 : ifunc_def y2 = false) by (unfold ifunc_def in *; congruence).
  apply allocate_got_step in H3 as ((G1 & G2) & G3 & G4 & G5 & G6 & G7 & G8 & G9); [|done].
  assert (L : same_layout y3 z3 y' z').
  { destruct (sy_dyn_relocs y3) eqn:Ed; [by simplify_eq|].
    destruct (keep_dyn_relocs info dyn in_ir y3 z3) as [y4 z4] eqn:Ek.
    apply bind_Some in H as (m & _ & H). simplify_eq. by apply keep_dyn_relocs_layout in Ek. }
  destruct L as ((L1 & L2) & (L3 & L4 & L5 & L6) & L7 & L8 & L9). constructor; cbn [negb].
  - unfold ifunc_def in *. congruence.
  - congruence.
  - congruence.
  - split.
    + unfold got_step, slot_words, ifunc_def in *. rewrite L1, L3, L4, L5, L7. rewrite P3, Q7 in G1. done.
    + intros Hc _. rewrite L1, <- Q7, <- P3. apply G2. by rewrite P2, Q1.
  - intros n Hn Hr. assert (Hn1 : plt_at n z1) by (destruct Hn as (c & A & B); exists c; by rewrite Q8, Q9).
    assert (Hp : forall k, plt_at k z2 -> plt_at k z') by (intros k (c & A & B); exists c; by rewrite L8, L9, G4, G5).
    rewrite L2, G3. destruct (P1 n Hn1 Hr) as [[A B]|[A B]]; [left|right]; split; auto.
Qed.

(** ** Indirect functions *)

Lemma ifunc_plt_entry_step use z off z' :
  ifunc_plt_entry arch64 use z = Some (off, z') ->
  dz_got z' = dz_got z /\
  forall n, plt_at n z -> 0 <= n < 2 ^ 58 ->
    (off = MINUS_ONE /\ plt_at n z') \/ (off = entry_offset n /\ plt_at (n + 1) z').
Proof.
  unfold ifunc_plt_entry. destruct (dz_plt z) as [p|] eqn:Ep; cycle 1.
  { intros H. split; [destruct use; bind_inv; by simplify_eq|]. intros n (c & H1 & _). congruence. }
  destruct use; intros H.
  - apply bind_Some in H as (g & Hg & H). simplify_eq. split; [done|]. intros n (c & H1 & H2) Hn. right.
    rewrite Hg in H2. rewrite Ep in H1. simplify_eq. cbn [andb ps_code ps_rela ps_count].
    rewrite andb_true_r.
    eassert (Hgrow := plt_grows n (c + 1) _ Hn _ _). Unshelve.
    2: exact (with_plt_sizes (Some (mk_plt_size
      (u64 ((if (if n =? 0 then 0 else entry_offset n) =? 0 then PLT_HEADER_SIZE
             else if n =? 0 then 0 else entry_offset n) + PLT_ENTRY_SIZE)) (u64 (n * RELA + RELA)) (c + 1)))
      (Some (u64 ((2 + n) * WORD + GOT_ENTRY_SIZE arch64))) z).
    2, 3: reflexivity.
    destruct (_ =? 0) in Hgrow |- *; exact Hgrow.
  - simplify_eq. split; [done|]. intros n (c & H1 & H2) Hn. left. split; [done|]. exists c.
    rewrite andb_false_r. cbn. by rewrite <- Ep.
Qed.

Lemma ifunc_pointers_step l z z' :
  ifunc_pointers arch64 info l z = Some z' ->
  dz_got z' = dz_got z /\ dz_plt z' = dz_plt z /\ dz_gotplt z' = dz_gotplt z.
Proof.
  unfold ifunc_pointers, more_irelplt. intros H. repeat split_match_in H; bind_inv; subst; done.
Qed.

Lemma ifunc_got_step y use need z off z' :
  ifunc_got arch64 info y use need z = Some (off, z') ->
  ((off = MINUS_ONE /\ dz_got z' = dz_got z) \/
   exists g, dz_got z = Some g /\ off = g /\ dz_got z' = Some (u64 (g + WORD))) /\
  dz_plt z' = dz_plt z /\ dz_gotplt z' = dz_gotplt z.
Proof.
  unfold ifunc_got, more_irelplt. intros H. destruct (use && _); [by simplify_eq; auto|].
  destruct (_ <=? 0); [by simplify_eq; auto|]. apply bind_Some in H as (g & Hg & H).
  apply bind_Some in H as (z1 & H1 & H). simplify_eq.
  assert (E : dz_got z' = Some (u64 (off + GOT_ENTRY_SIZE arch64)) /\ dz_plt z' = dz_plt z /\ dz_gotplt z' = dz_gotplt z)
    by (clear -H1; repeat split_match_in H1; bind_inv; subst; done).
  destruct E as (E1 & E2 & E3). split; [|done]. right. by exists off.
Qed.

Lemma allocate_ifunc_step export y z r :
  allocate_ifunc_dynrelocs arch64 info export y z = Some r ->
  exists y' z', r = Some (y', z') /\ allocated (ifunc_def y) y z y' z'.
Proof.
  unfold allocate_ifunc_dynrelocs. change (_ && _) with (ifunc_def y).
  destruct (ifunc_def y) eqn:Ei; cycle 1.
  { intros <-%(inj Some). exists y, z. split; [done|]. by apply same_layout_allocated. }
  assert (Hreg : h_def_regular (sy_h y) = true) by (unfold ifunc_def in Ei; by apply andb_true_iff in Ei as [_ ?]).
  unfold _bfd_elf_allocate_ifunc_dyn_relocs. intros H.
  assert (Hno : negb (negb (0 <? refcount (sy_plt y)) || bfd_link_pic info)
                && negb (bfd_link_pde info && h_def_regular (sy_h y)) = false).
  { rewrite Hreg. unfold bfd_link_pic, bfd_link_pde. destruct (li_type info); cbn; rewrite ?orb_true_r, ?andb_false_r; done. }
  rewrite Hno in H. cbn [andb] in H.
  destruct (if _ && sy_ref_regular y then _ else _) as [[keep use'] need'] in H.
  set (y1 := if keep then _ else y) in H.
  assert (E1 : same_layout y z y1 z) by (unfold y1; by destruct keep). clearbody y1.
  destruct E1 as ((Q1 & Q2) & (Q3 & Q4 & Q5 & Q6) & _).
  destruct (negb keep && _ && _) in H.
  { apply (inj Some) in H as <-. eexists _, _. split; [done|]. constructor; cbn; try done.
    - unfold ifunc_def. cbn. by rewrite Q4, Q5.
    - split; [by left|]. congruence.
    - intros n Hn _. by left. }
  destruct (negb keep && _) in H; [done|].
  apply bind_Some in H as ([off z1] & Hp & H). apply ifunc_plt_entry_step in Hp as [P1 P2].
  set (y2 := if negb need' || _ then _ else y1) in H.
  assert (E2 : same_layout y1 z y2 z) by (unfold y2; by destruct (negb need' || _)). clearbody y2.
  destruct E2 as ((R1 & R2) & (R3 & R4 & R5 & R6) & _).
  apply bind_Some in H as (z2 & Hz2 & H). apply ifunc_pointers_step in Hz2 as (A1 & A2 & A3).
  apply bind_Some in H as ([goff z3] & Hg & H). apply ifunc_got_step in Hg as (B1 & B2 & B3).
  apply (inj Some) in H as <-. eexists _, _. split; [done|].
  assert (Ei' : ifunc_def (with_gotplt_words goff off (sy_needs_plt y2) y2) = true).
  { unfold ifunc_def in *. cbn. by rewrite R4, R5, Q4, Q5. }
  constructor; cbn [with_gotplt_words sy_h sy_got sy_plt].
  - congruence.
  - congruence.
  - congruence.
  - split; [|congruence]. unfold got_step, slot_words. rewrite Ei'. cbn [with_gotplt_words sy_got].
    rewrite A1, P1 in B1. replace (1 * WORD) with WORD by lia. exact B1.
  - intros n Hn Hr. assert (Hk : forall k, plt_at k z1 -> plt_at k z3)
      by (intros k (c & C1 & C2); exists c; by rewrite B2, B3, A2, A3).
    destruct (P2 n Hn Hr) as [[C1 C2]|[C1 C2]]; [left|right]; split; auto.
Qed.

(** ** Entries of local symbols *)

Definition local_slot (c : Z * Z) (off : Z) : list (Z * Z) :=
  if off =? MINUS_ONE then [] else [(off, WORD + (if c.2 .& GOT_TLS_GD =? 0 then 0 else WORD))].
Definition local_slots (l : list (Z * Z)) (offs : list Z) : list (Z * Z) := concat (zip_with local_slot l offs).

(** .got grew from [g] to [g'] by the entries of [slots]; .plt did not. *)
Definition got_grew (z z' : dyn_sizes) (g : Z) (slots : list (Z * Z)) (g' : Z) : Prop :=
  dz_got z' = Some g' /\ tiles g slots g' /\ dz_plt z' = dz_plt z /\ dz_gotplt z' = dz_gotplt z.

Lemma word_small : 0 < WORD <= 8.
Proof. by destruct arch64. Qed.

Lemma allocate_local_got_tiles l : forall z offs z' g,
  allocate_local_got arch64 info l z = Some (offs, z') -> dz_got z = Some g -> 0 <= g ->
  g + 16 * Z.of_nat (length l) < MINUS_ONE ->
  exists g', got_grew z z' g (local_slots l offs) g' /\ g' <= g + 16 * Z.of_nat (length l) /\
    length offs = length l /\
    forall i c, l !! i = Some c -> 0 < refcount c.1 -> exists off, offs !! i = Some off /\ off <> MINUS_ONE.
Proof.
  pose proof word_small as HW. assert (HM : MINUS_ONE = 2 ^ 64 - 1) by reflexivity.
  induction l as [|[c t] l IH]; intros z offs z' g H Hg H0 Hb; cbn [allocate_local_got] in H.
  { simplify_eq. exists g. unfold got_grew. split_and!; try done. cbn. lia. }
  rewrite Hg in H. cbn [mbind option_bind] in H. destruct (Z.ltb_spec 0 (refcount c)) as [Hc|Hc].
  - apply bind_Some in H as (r & Hr & H). set (len := WORD + (if t .& GOT_TLS_GD =? 0 then 0 else WORD)).
    assert (Hl : 0 < len <= 16) by (unfold len; clear -HW; destruct (_ =? 0); lia).
    rewrite <- Z.add_assoc in H. fold len in H. cbn [length] in Hb. assert (Eu : u64 (g + len) = g + len)
      by (apply Z.mod_small; rewrite HM in Hb; lia). rewrite Eu in H.
    apply bind_Some in H as ([offs' z1] & H1 & H). simplify_eq.
    destruct (IH _ _ _ (g + len) H1 eq_refl) as (g' & (G1 & G2 & G3 & G4) & G5 & G6 & G7); [lia|lia|].
    exists g'. unfold got_grew. split_and!; try done.
    + unfold local_slots. cbn [zip_with concat]. unfold local_slot at 1. rewrite (proj2 (Z.eqb_neq g MINUS_ONE)) by lia.
      cbn [snd app tiles]. fold len. split_and!; [done|lia|exact G2].
    + cbn [length]. lia.
    + cbn [length]. by rewrite G6.
    + intros [|i] x Hx Hp; [exists g; split; [done|lia]|]. by apply (G7 i x).
  - apply bind_Some in H as ([offs' z1] & H1 & H). simplify_eq. cbn [length] in Hb.
    destruct (IH _ _ _ g H1 Hg) as (g' & (G1 & G2 & G3 & G4) & G5 & G6 & G7); [lia|lia|].
    exists g'. unfold got_grew. split_and!; try done.
    + cbn [length]. lia.
    + cbn [length]. by rewrite G6.
    + intros [|i] x Hx Hp; [cbn in Hx; simplify_eq; cbn in Hp; lia|]. by apply (G7 i x).
Qed.

Lemma local_dynrel_layout discarded readonly l z z' :
  foldl (fun z d => z ← z; allocate_local_dynrel arch64 discarded readonly d z) (Some z) l = Some z' ->
  dz_got z' = dz_got z /\ dz_plt z' = dz_plt z /\ dz_gotplt z' = dz_gotplt z.
Proof.
  assert (H1 : forall d z z', allocate_local_dynrel arch64 discarded readonly d z = Some z' ->
    dz_got z' = dz_got z /\ dz_plt z' = dz_plt z /\ dz_gotplt z' = dz_gotplt z).
  { clear. induction d as [|p d IH]; intros z z' H; cbn [allocate_local_dynrel] in H; [by simplify_eq|].
    apply bind_Some in H as (z1 & H1 & H). apply IH in H as (-> & -> & ->).
    destruct (_ || _); bind_inv; by simplify_eq. }
  revert z. induction l as [|d l IH]; intros z H; cbn [foldl] in H; [by simplify_eq|].
  cbn [mbind option_bind] in H. destruct (allocate_local_dynrel arch64 discarded readonly d z) as [z1|] eqn:E.
  - apply IH in H as (-> & -> & ->). by apply H1 in E.
  - exfalso. revert H. clear. induction l; [done|]. exact IHl.
Qed.

(** The entries of the files. *)
Definition file_slots (f : input_file) (offs : option (list Z)) : list (Z * Z) :=
  match if_local_got f, offs with Some l, Some offs => local_slots l offs | _, _ => [] end.
Definition files_slots (l : list input_file) (offs : list (option (list Z))) : list (Z * Z) :=
  concat (zip_with file_slots l offs).
Definition local_count (l : list input_file) : Z :=
  foldr (fun f n => Z.of_nat (length (default [] (if_local_got f))) + n) 0 l.

Lemma size_inputs_tiles discarded readonly l : forall z offs z' g,
  size_inputs arch64 info discarded readonly l z = Some (offs, z') -> dz_got z = Some g -> 0 <= g ->
  g + 16 * local_count l < MINUS_ONE ->
  exists g', got_grew z z' g (files_slots l offs) g' /\ g' <= g + 16 * local_count l /\
    forall k f lg i c, l !! k = Some f -> if_local_got f = Some lg -> lg !! i = Some c -> 0 < refcount c.1 ->
      exists fo off, offs !! k = Some (Some fo) /\ fo !! i = Some off /\ off <> MINUS_ONE.
Proof.
  assert (Hlc : forall l, 0 <= local_count l) by (clear; induction l; cbn [local_count foldr]; [lia|unfold local_count in *; lia]).
  induction l as [|f l IH]; intros z offs z' g H Hg H0 Hb; cbn [size_inputs] in H.
  { simplify_eq. exists g. unfold got_grew. split_and!; try done. cbn. lia. }
  cbn [local_count foldr] in Hb. fold (local_count l) in Hb. pose proof (Hlc l) as Hl0.
  apply bind_Some in H as (z1 & H1 & H). apply local_dynrel_layout in H1 as (D1 & D2 & D3).
  apply bind_Some in H as ([o z2] & H2 & H). apply bind_Some in H as ([rest z3] & H3 & H). simplify_eq.
  assert (Hf : exists g2, got_grew z z2 g (file_slots f o) g2 /\
    g2 <= g + 16 * Z.of_nat (length (default [] (if_local_got f))) /\
    forall lg i c, if_local_got f = Some lg -> lg !! i = Some c -> 0 < refcount c.1 ->
      exists fo off, o = Some fo /\ fo !! i = Some off /\ off <> MINUS_ONE).
  { unfold file_slots. destruct (if_local_got f) as [lg|] eqn:El.
    - apply bind_Some in H2 as ([fo z4] & H4 & H2). simplify_eq. cbn [default from_option id] in *.
      destruct (allocate_local_got_tiles _ _ _ _ g H4 ltac:(congruence) H0 ltac:(lia)) as
        (g2 & (G1 & G2 & G3 & G4) & G5 & G6 & G7).
      exists g2. unfold got_grew. split_and!; try done; try congruence.
      intros lg' i c [= <-] Hi Hp. destruct (G7 i c Hi Hp) as (off & ? & ?). by exists fo, off.
    - simplify_eq. exists g. unfold got_grew. split_and!; try done; try congruence. cbn. lia. }
  destruct Hf as (g2 & (F1 & F2 & F3 & F4) & F5 & F6).
  destruct (IH _ _ _ g2 H3 F1 ltac:(apply tiles_le in F2; lia) ltac:(lia)) as (g' & (G1 & G2 & G3 & G4) & G5 & G6).
  exists g'. unfold got_grew. split_and!; try congruence.
  - unfold files_slots. cbn [zip_with concat]. by eapply tiles_app.
  - cbn [local_count foldr]. fold (local_count l). lia.
  - intros [|k] f' lg i c Hk Hlg Hi Hp; [|by apply (G6 k f' lg i c)]. cbn in Hk. simplify_eq.
    destruct (F6 lg i c Hlg Hi Hp) as (fo & off & -> & ? & ?). by exists fo, off.
Qed.

(** ** A pass over the symbols *)

Inductive passed (mine : link_symbol -> bool) : list link_symbol -> dyn_sizes -> list link_symbol -> dyn_sizes -> Prop :=
| passed_nil z : passed mine [] z [] z
| passed_cons y z y1 z1 l l' z' :
    allocated (mine y) y z y1 z1 -> passed mine l z1 l' z' -> passed mine (y :: l) z (y1 :: l') z'.

Lemma traverse_passed mine f l : forall z l' z',
  (forall y z r, f y z = Some r -> exists y' z', r = Some (y', z') /\ allocated (mine y) y z y' z') ->
  traverse f l z = Some (l', z') -> passed mine l z l' z'.
Proof.
  intros z l' z' Hf. revert z l' z'. induction l as [|y l IH]; intros z l' z' H; cbn [traverse] in H.
  { simplify_eq. constructor. }
  apply bind_Some in H as (r & Hr & H). destruct (Hf _ _ _ Hr) as (y1 & z1 & -> & Ha).
  apply bind_Some in H as ([l1 z2] & H1 & H). simplify_eq. econstructor; [exact Ha|]. by apply IH.
Qed.

Definition symbol_slot (y : link_symbol) : list (Z * Z) :=
  if sy_got y =? MINUS_ONE then [] else [(sy_got y, slot_words y * WORD)].
Definition symbol_slots (p : link_symbol -> bool) (l : list link_symbol) : list (Z * Z) :=
  concat (map (fun y => if p y then symbol_slot y else []) l).
Definition plt_offsets (p : link_symbol -> bool) (l : list link_symbol) : list Z :=
  concat (map (fun y => if p y && negb (sy_plt y =? MINUS_ONE) then [sy_plt y] else []) l).
Definition not_ifunc (y : link_symbol) : bool := negb (ifunc_def y).

Lemma got_words_range t : 1 <= got_words t <= 3.
Proof.
  unfold got_words. destruct (Z.eqb_spec (t .& (GOT_TLS_GD .| GOT_TLS_IE)) 0) as [|E]; [lia|].
  rewrite Z.land_lor_distr_r in E. destruct (Z.eqb_spec (t .& GOT_TLS_GD) 0) as [E1|], (Z.eqb_spec (t .& GOT_TLS_IE) 0) as [E2|];
    try lia. by rewrite E1, E2 in E.
Qed.

Lemma slot_words_range y : 1 <= slot_words y <= 3.
Proof. unfold slot_words. destruct (ifunc_def y); [lia|apply got_words_range]. Qed.

(** A predicate that is the same before and after a step. *)
Definition kept (p : link_symbol -> bool) : Prop := forall y y', ifunc_def y' = ifunc_def y -> p y' = p y.

Lemma passed_got mine l z l' z' g :
  passed mine l z l' z' -> kept mine -> dz_got z = Some g -> 0 <= g -> g + 24 * Z.of_nat (length l) < MINUS_ONE ->
  exists g', dz_got z' = Some g' /\ tiles g (symbol_slots mine l') g' /\ g' <= g + 24 * Z.of_nat (length l) /\
    symbol_slots (negb ∘ mine) l' = symbol_slots (negb ∘ mine) l.
Proof.
  intros H Hk. pose proof word_small as HW. assert (HM : MINUS_ONE = 2 ^ 64 - 1) by reflexivity.
  revert g. induction H as [z|y z y1 z1 l l' z' Ha Hp IH]; intros g Hg H0 Hb.
  { exists g. split_and!; try done. cbn. lia. }
  cbn [length] in Hb. destruct Ha as [Ai At _ Ag _].
  assert (Es : slot_words y1 = slot_words y) by (unfold slot_words; by rewrite Ai, At).
  assert (Ek : mine y1 = mine y) by (by apply Hk). unfold symbol_slots. cbn [map concat]. unfold compose at 1 3. rewrite Ek.
  destruct (mine y) eqn:Em; cbn [negb app].
  - destruct Ag as [[[A1 A2]|(g1 & A1 & A2 & A3)] _].
    + rewrite A2 in IH. destruct (IH g Hg H0 ltac:(lia)) as (g' & G1 & G2 & G3 & G4). exists g'.
      unfold symbol_slot at 1. rewrite A1, Z.eqb_refl. split_and!; [done|done|cbn [length]; lia|done].
    + simplify_eq. pose proof (slot_words_range y1) as Hr. set (len := slot_words y1 * WORD) in *.
      assert (Hl : 0 < len <= 24) by (unfold len; nia).
      assert (Eu : u64 (sy_got y1 + len) = sy_got y1 + len) by (apply Z.mod_small; rewrite HM in Hb; lia).
      rewrite Eu in A3. destruct (IH _ A3 ltac:(lia) ltac:(lia)) as (g' & G1 & G2 & G3 & G4). exists g'.
      unfold symbol_slot at 1. rewrite (proj2 (Z.eqb_neq _ _)) by lia. cbn [app tiles]. fold len.
      split_and!; [done|done|lia|done|cbn [length]; lia|done].
  - destruct Ag as [A1 A2]. rewrite A2 in IH. destruct (IH g Hg H0 ltac:(lia)) as (g' & G1 & G2 & G3 & G4). exists g'.
    split_and!; [done|done|cbn [length]; lia|]. f_equal; [|done]. unfold symbol_slot. by rewrite A1, Es.
Qed.

Lemma passed_plt mine l z l' z' n :
  passed mine l z l' z' -> kept mine -> plt_at n z -> 0 <= n -> n + Z.of_nat (length l) < 2 ^ 58 ->
  exists n', plt_at n' z' /\ n <= n' <= n + Z.of_nat (length l) /\
    plt_offsets mine l' = map entry_offset (seqZ n (n' - n)) /\
    plt_offsets (negb ∘ mine) l' = plt_offsets (negb ∘ mine) l.
Proof.
  intros H Hk. assert (HM : MINUS_ONE = 2 ^ 64 - 1) by reflexivity.
  revert n. induction H as [z|y z y1 z1 l l' z' Ha Hp IH]; intros n Hn H0 Hb.
  { exists n. rewrite Z.sub_diag. split_and!; try done; cbn; lia. }
  cbn [length] in Hb. destruct Ha as [Ai At _ _ Ap].
  assert (Ek : mine y1 = mine y) by (by apply Hk). unfold plt_offsets. cbn [map concat]. unfold compose at 1 3. rewrite Ek.
  destruct (mine y) eqn:Em; cbn [negb andb app].
  - destruct (Ap n Hn ltac:(lia)) as [[A1 A2]|[A1 A2]].
    + destruct (IH n A2 H0 ltac:(lia)) as (n' & G1 & G2 & G3 & G4). exists n'.
      rewrite A1, Z.eqb_refl. cbn [negb app length]. split_and!; [done|lia|lia|done|done].
    + destruct (IH (n + 1) A2 ltac:(lia) ltac:(lia)) as (n' & G1 & G2 & G3 & G4). exists n'.
      rewrite A1, (proj2 (Z.eqb_neq _ _)) by (unfold entry_offset; lia). cbn [negb app length].
      split_and!; [done|lia|lia| |done].
      replace (n' - n) with (Z.succ (n' - (n + 1))) by lia. rewrite seqZ_cons by lia. cbn [map]. f_equal.
      etrans; [exact G3|]. f_equal. f_equal; lia.
  - destruct Ap as [A1 A2]. destruct (IH n (A2 n Hn) H0 ltac:(lia)) as (n' & G1 & G2 & G3 & G4). exists n'.
    cbn [length]. split_and!; [done|lia|lia|done|]. f_equal; [by rewrite A1|done].
Qed.

(** A symbol after a pass. *)
Definition same_symbol (y y' : link_symbol) : Prop :=
  h_id (sy_h y') = h_id (sy_h y) /\ h_tls_type (sy_h y') = h_tls_type (sy_h y) /\ ifunc_def y' = ifunc_def y.

Lemma passed_entry mine l z l' z' g k y :
  passed mine l z l' z' -> kept mine -> dz_got z = Some g -> 0 <= g -> g + 24 * Z.of_nat (length l) < MINUS_ONE ->
  l !! k = Some y ->
  exists y', l' !! k = Some y' /\ same_symbol y y' /\
    (mine y = true -> ifunc_def y = false -> 0 < refcount (sy_got y) -> sy_got y' <> MINUS_ONE) /\
    (mine y = false -> sy_got y' = sy_got y).
Proof.
  intros H Hk. revert g k. induction H as [z|y0 z y1 z1 l l' z' Ha Hp IH]; intros g k Hg H0 Hb Hl; [done|].
  cbn [length] in Hb. destruct k as [|k]; cbn in Hl.
  - simplify_eq. exists y1. destruct Ha as [Ai At Ah Ag _]. split_and!; try done.
    + intros Hm Hi Hr. rewrite Hm in Ag. destruct Ag as [_ Ag]. specialize (Ag Hr Hi). simplify_eq. lia.
    + intros Hm. rewrite Hm in Ag. by destruct Ag.
  - assert (H1 : passed mine [y0] z [y1] z1) by (econstructor; [exact Ha|constructor]).
    destruct (passed_got mine [y0] z [y1] z1 g H1 Hk Hg H0) as (g1 & G1 & G2 & G3 & _); [cbn [length]; lia|].
    apply tiles_le in G2. cbn [length] in G3. apply (IH g1 k G1); [lia|lia|done].
Qed.

(** ** The whole pass *)

Section sized.

Context (export_dynamic got_referenced : bool) (discarded readonly : Z -> bool).
Context (files : list input_file) (globals locals globals' locals' : list link_symbol) (z z' : dyn_sizes).
Context (offs : list (option (list Z))) (last : option Z).
Context (Hsize : riscv_elf_size_dynamic_sections arch64 info dyn in_ir is_gp plt_section export_dynamic got_referenced
                   discarded readonly files globals locals z = Some (offs, globals', locals', z', last)).

Lemma size_passes :
  exists z1 globals1 z2 z3 z4,
    size_inputs arch64 info discarded readonly files z = Some (offs, z1) /\
    passed not_ifunc globals z1 globals1 z2 /\ passed ifunc_def globals1 z2 globals' z3 /\
    passed (fun _ => true) locals z3 locals' z4 /\ z' = strip_gotplt arch64 got_referenced z4.
Proof.
  pose proof Hsize as H. unfold riscv_elf_size_dynamic_sections in H.
  apply bind_Some in H as ([o z1] & H1 & H). apply bind_Some in H as ([globals1 z2] & H2 & H).
  apply bind_Some in H as ([globals2 z3] & H3 & H). apply bind_Some in H as ([locals1 z4] & H4 & H). simplify_eq.
  exists z1, globals1, z2, z3, z4. split_and!; [done|..|done].
  - eapply traverse_passed; [|exact H2]. intros y w r Hr. apply fmap_Some in Hr as ([y' w'] & Hr & ->).
    exists y', w'. split; [done|]. by apply allocate_dynrelocs_step in Hr.
  - eapply traverse_passed; [|exact H3]. intros y w r Hr. by apply allocate_ifunc_step in Hr.
  - eapply traverse_passed; [|exact H4]. intros y w r Hr. unfold allocate_local_ifunc_dynrelocs in Hr.
    destruct (_ || _) eqn:E; [done|]. rewrite !orb_false_iff, !negb_false_iff in E. destruct E as ((((E1 & E2) & _) & _) & _).
    apply allocate_ifunc_step in Hr. unfold ifunc_def at 1 in Hr. by rewrite E1, E2 in Hr.
Qed.

Lemma kept_not_ifunc : kept not_ifunc.
Proof. intros y y' H. unfold not_ifunc. by rewrite H. Qed.
Lemma kept_ifunc : kept ifunc_def.
Proof. by intros y y' H. Qed.
Lemma kept_true : kept (fun _ => true).
Proof. by intros y y' H. Qed.

Lemma passed_length mine l w l' w' : passed mine l w l' w' -> length l' = length l.
Proof. induction 1; cbn [length]; congruence. Qed.

Lemma strip_gotplt_frame w :
  dz_got (strip_gotplt arch64 got_referenced w) = dz_got w /\ dz_plt (strip_gotplt arch64 got_referenced w) = dz_plt w /\
  (forall p, dz_plt w = Some p -> ps_code p <> 0 -> dz_gotplt (strip_gotplt arch64 got_referenced w) = dz_gotplt w).
Proof.
  unfold strip_gotplt. destruct (dz_gotplt w) as [g|] eqn:Eg; [|by rewrite Eg].
  destruct (_ && _) eqn:E; [|by rewrite Eg]. split_and!; [done|done|]. intros p Hp Hc. exfalso.
  rewrite Hp, !andb_true_iff in E. destruct E as ((_ & E) & _). apply Z.eqb_eq in E. done.
Qed.

End sized.

End layout.

(** ** The layouts *)

(** Room for the entries of all symbols. *)
Definition got_room (files : list input_file) (globals locals : list link_symbol) : Prop :=
  8 + 16 * local_count files + 24 * (2 * Z.of_nat (length globals) + Z.of_nat (length locals)) < MINUS_ONE.

(** All entries of .got, in the order they were allocated. *)
Definition got_entries (arch64 : bool) (files : list input_file) (offs : list (option (list Z)))
    (globals locals : list link_symbol) : list (Z * Z) :=
  files_slots arch64 files offs ++ symbol_slots arch64 not_ifunc globals ++ symbol_slots arch64 ifunc_def globals
  ++ symbol_slots arch64 (fun _ => true) locals.

Lemma sized_got arch64 info dyn in_ir is_gp plt_section export got_referenced discarded readonly files globals locals
    z offs globals' locals' z' last :
  riscv_elf_size_dynamic_sections arch64 info dyn in_ir is_gp plt_section export got_referenced discarded readonly
    files globals locals z = Some (offs, globals', locals', z', last) ->
  dz_got z = Some (RISCV_ELF_WORD_BYTES arch64) -> got_room files globals locals ->
  (exists g, dz_got z' = Some g /\ g < MINUS_ONE /\
     tiles (RISCV_ELF_WORD_BYTES arch64) (got_entries arch64 files offs globals' locals') g) /\
  (forall k y, globals !! k = Some y ->
     exists y', globals' !! k = Some y' /\ same_symbol y y' /\
       (ifunc_def y = false -> 0 < refcount (sy_got y) -> sy_got y' <> MINUS_ONE)) /\
  (forall k f lg i c, files !! k = Some f -> if_local_got f = Some lg -> lg !! i = Some c -> 0 < refcount c.1 ->
     exists fo off, offs !! k = Some (Some fo) /\ fo !! i = Some off /\ off <> MINUS_ONE).
Proof.
  intros Hsize Hg Hroom. pose proof (word_small arch64) as HW. unfold got_room in Hroom.
  destruct (size_passes _ _ _ _ _ _ _ _ _ _ _ _ _ _ _ _ _ _ _ Hsize) as (z1 & g1 & z2 & z3 & z4 & S1 & S2 & S3 & S4 & ->).
  destruct (size_inputs_tiles _ _ _ _ _ _ _ _ _ S1 Hg ltac:(lia) ltac:(lia)) as (a & (A1 & A2 & _ & _) & A3 & A4).
  pose proof (tiles_le _ _ _ A2) as La.
  destruct (passed_got _ _ _ _ _ _ a S2 kept_not_ifunc A1 ltac:(lia) ltac:(lia)) as (b & B1 & B2 & B3 & _).
  pose proof (tiles_le _ _ _ B2) as Lb. pose proof (passed_length _ _ _ _ _ _ S2) as E2.
  destruct (passed_got _ _ _ _ _ _ b S3 kept_ifunc B1 ltac:(lia) ltac:(rewrite E2; lia)) as (c & C1 & C2 & C3 & C4).
  pose proof (tiles_le _ _ _ C2) as Lc. rewrite E2 in C3.
  destruct (passed_got _ _ _ _ _ _ c S4 kept_true C1 ltac:(lia) ltac:(lia)) as (d & D1 & D2 & D3 & _).
  destruct (strip_gotplt_frame arch64 got_referenced z4) as (F1 & _ & _). split_and!.
  - exists d. rewrite F1. split_and!; [done|lia|]. unfold got_entries.
    change (symbol_slots arch64 (negb ∘ ifunc_def)) with (symbol_slots arch64 not_ifunc) in C4. rewrite C4.
    eauto using tiles_app.
  - intros k y Hk.
    destruct (passed_entry _ _ _ _ _ _ a k y S2 kept_not_ifunc A1 ltac:(lia) ltac:(lia) Hk) as (y1 & Y1 & (Y2 & Y3 & Y4) & Y5 & _).
    destruct (passed_entry _ _ _ _ _ _ b k y1 S3 kept_ifunc B1 ltac:(lia) ltac:(rewrite E2; lia) Y1)
      as (y2 & X1 & (X2 & X3 & X4) & _ & X6).
    exists y2. split; [done|]. split; [split_and!; congruence|]. intros Hi Hr. rewrite X6 by congruence.
    apply Y5; [unfold not_ifunc; by rewrite Hi|done|done].
  - exact A4.
Qed.

(** C28: the global offset table is laid out exactly.  However the symbols of the
    input files and of the hash table are referenced, the entries that sizing
    the dynamic sections gives them follow each other in .got after its header
    word without gaps or overlaps and end at its size; each has the words its
    symbol's accesses need, and two entries do not share a word. *)
Theorem got_layout_exact arch64 info dyn in_ir is_gp plt_section export got_referenced discarded readonly
    files globals locals z offs globals' locals' z' last :
  riscv_elf_size_dynamic_sections arch64 info dyn in_ir is_gp plt_section export got_referenced discarded readonly
    files globals locals z = Some (offs, globals', locals', z', last) ->
  dz_got z = Some (RISCV_ELF_WORD_BYTES arch64) -> got_room files globals locals ->
  exists size, dz_got z' = Some size /\
    tiles (RISCV_ELF_WORD_BYTES arch64) (got_entries arch64 files offs globals' locals') size /\
    forall i j off1 len1 off2 len2,
      got_entries arch64 files offs globals' locals' !! i = Some (off1, len1) ->
      got_entries arch64 files offs globals' locals' !! j = Some (off2, len2) -> i <> j ->
      off1 + len1 <= off2 \/ off2 + len2 <= off1.
Proof.
  intros Hsize Hg Hroom. destruct (sized_got _ _ _ _ _ _ _ _ _ _ _ _ _ _ _ _ _ _ _ Hsize Hg Hroom)
    as ((g & G1 & _ & G2) & _ & _).
  exists g. split_and!; [done|done|]. intros i j off1 len1 off2 len2 Hi Hj Hij.
  assert (i < j \/ j < i)%nat as [H|H] by lia; [left|right]; by eapply tiles_disjoint; [exact G2|..].
Qed.

(** The entry of a symbol as the later passes see it. *)
Definition sized_entry (y : link_symbol) : elf_link_hash_entry :=
  let h := sy_h y in
  mk_entry (h_id h) (h_root_type h) (h_linker_def h) (h_rel_from_abs h) (h_def_value h) (h_def_section h) (h_type h)
    (h_other h) (h_def_regular h) (h_def_dynamic h) (h_forced_local h) (h_non_got_ref h) (h_unique_global h)
    (h_start_stop h) (h_dynamic h) (h_dynindx h) (sy_plt y) (h_tls_type h).

Lemma sized_plt_layout l n :
  plt_offsets (fun _ => true) l ≡ₚ map entry_offset (seqZ 0 n) -> entry_offset n <= 2 ^ 31 ->
  plt_layout (map sized_entry l).
Proof.
  intros HP Hn.
  assert (Hf : filter (fun o => o <> MINUS_ONE) (map h_plt_offset (map sized_entry l)) = plt_offsets (fun _ => true) l).
  { unfold plt_offsets. clear. induction l as [|y l IH]; [done|]. cbn [map concat]. rewrite filter_cons, <- IH.
    cbn [andb h_plt_offset sized_entry].
    destruct (Z.eqb_spec (sy_plt y) MINUS_ONE) as [E|E]; cbn [negb app].
    - by rewrite decide_False by tauto.
    - by rewrite decide_True by done. }
  split.
  - intros h Hh. apply in_map_iff in Hh as (y & <- & Hy). cbn [h_plt_offset sized_entry].
    destruct (decide (sy_plt y = MINUS_ONE)) as [E|E]; [by left|right].
    assert (Hin : In (sy_plt y) (map entry_offset (seqZ 0 n))).
    { apply list_elem_of_In. rewrite <- HP, <- Hf. apply list_elem_of_filter. split; [done|].
      apply list_elem_of_In, in_map_iff. exists (sized_entry y). split; [done|]. by apply in_map. }
    apply in_map_iff in Hin as (i & Hi & Hr). apply list_elem_of_In, elem_of_seqZ in Hr.
    exists i. split_and!; [lia|done|]. unfold entry_offset in *. lia.
  - rewrite Hf, HP. apply NoDup_fmap_2; [|apply NoDup_seqZ]. intros i j. unfold entry_offset. lia.
Qed.

(** C27: the procedure linkage table is laid out for the code that fills it in.
    In a link with a .plt, the symbols that got entries have, each once, the
    offsets of the first [n] entries after the header; .plt ends after the last
    of them, .rela.plt has [n] relocations and .got.plt, if [n] is not 0, [n]
    words after its header.  So the entries are apart, as filling them in asks
    for ([plt_layout]). *)
Theorem plt_layout_exact arch64 info dyn in_ir is_gp plt_section export got_referenced discarded readonly
    files globals locals z offs globals' locals' z' last :
  riscv_elf_size_dynamic_sections arch64 info dyn in_ir is_gp plt_section export got_referenced discarded readonly
    files globals locals z = Some (offs, globals', locals', z', last) ->
  dz_got z = Some (RISCV_ELF_WORD_BYTES arch64) -> got_room files globals locals ->
  dz_plt z = Some (mk_plt_size 0 0 0) -> dz_gotplt z = Some (GOTPLT_HEADER_SIZE arch64) ->
  Z.of_nat (length globals) + Z.of_nat (length locals) < 2 ^ 57 ->
  exists n count, 0 <= n /\
    plt_offsets (fun _ => true) (globals' ++ locals') ≡ₚ map entry_offset (seqZ 0 n) /\
    dz_plt z' = Some (mk_plt_size (if n =? 0 then 0 else entry_offset n) (n * RELA_SIZE arch64) count) /\
    (n <> 0 -> dz_gotplt z' = Some ((2 + n) * RISCV_ELF_WORD_BYTES arch64)) /\
    (entry_offset n <= 2 ^ 31 -> plt_layout (map sized_entry (globals' ++ locals'))).
Proof.
  intros Hsize Hg Hroom Hp Hgp Hlen. pose proof (word_small arch64) as HW. unfold got_room in Hroom.
  destruct (size_passes _ _ _ _ _ _ _ _ _ _ _ _ _ _ _ _ _ _ _ Hsize) as (z1 & g1 & z2 & z3 & z4 & S1 & S2 & S3 & S4 & ->).
  destruct (size_inputs_tiles _ _ _ _ _ _ _ _ _ S1 Hg ltac:(lia) ltac:(lia)) as (a & (_ & _ & A1 & A2) & _ & _).
  assert (P1 : plt_at arch64 0 z1) by (exists 0; rewrite A1, A2, Hp, Hgp; done).
  destruct (passed_plt _ _ _ _ _ _ 0 S2 kept_not_ifunc P1 ltac:(lia) ltac:(lia)) as (n1 & B1 & B2 & B3 & _).
  pose proof (passed_length _ _ _ _ _ _ S2) as E2.
  destruct (passed_plt _ _ _ _ _ _ n1 S3 kept_ifunc B1 ltac:(lia) ltac:(rewrite E2; lia)) as (n2 & C1 & C2 & C3 & C4).
  rewrite E2 in C2. destruct (passed_plt _ _ _ _ _ _ n2 S4 kept_true C1 ltac:(lia) ltac:(lia)) as (n3 & (c & D0 & D1) & D2 & D3 & _).
  destruct (strip_gotplt_frame arch64 got_referenced z4) as (_ & F1 & F2). exists n3, c.
  assert (HP : plt_offsets (fun _ => true) (globals' ++ locals') ≡ₚ map entry_offset (seqZ 0 n3)).
  { change (negb ∘ ifunc_def) with not_ifunc in C4.
    assert (Eg : plt_offsets (fun _ => true) globals' ≡ₚ plt_offsets not_ifunc globals' ++ plt_offsets ifunc_def globals').
    { clear. unfold plt_offsets, not_ifunc. induction globals' as [|y l IH]; [done|]. cbn [map concat]. rewrite IH.
      destruct (ifunc_def y); cbn [negb andb app]; destruct (negb (sy_plt y =? MINUS_ONE)); cbn [app]; try done.
      by rewrite Permutation_middle. }
    assert (Ea : plt_offsets (fun _ => true) (globals' ++ locals')
                 = plt_offsets (fun _ => true) globals' ++ plt_offsets (fun _ => true) locals')
      by (unfold plt_offsets; by rewrite map_app, concat_app).
    rewrite Ea, Eg, C4, B3, C3, D3, <- !map_app. apply Permutation_map.
    replace n3 with ((n1 - 0) + (n2 - n1) + (n3 - n2)) at 2 by lia. rewrite !seqZ_app by lia.
    replace (0 + (n1 - 0)) with n1 by lia. by replace (0 + (n1 - 0 + (n2 - n1))) with n2 by lia. }
  split_and!; [lia|exact HP| | |by apply sized_plt_layout].
  - by rewrite F1.
  - intros Hn. rewrite (F2 _ D0); [done|]. cbn [ps_code]. rewrite (proj2 (Z.eqb_neq _ _)) by done. unfold entry_offset. lia.
Qed.

(** A shared library: local symbols with an address in the GOT and a general
    thread-local entry, a function that is called and whose address is taken, a
    variable accessed in both thread-local ways, an indirect function. *)
Module SizeDemo.

Definition info : bfd_link_info := mk_info type_dll false false 0 0 0 RM_NOT_YET_SET false.
Definition no_symbol (h : elf_link_hash_entry) : bool := false.
Definition no_section (n : Z) : bool := false.
Definition symbol (id type tls got plt : Z) (def : bool) : link_symbol :=
  mk_symbol (mk_entry id (if def then bfd_link_hash_defined else bfd_link_hash_undefined) false false 0 None type 0 def
               (negb def) false false false false false (-1) 0 tls)
    got plt (0 <? plt) true false false [].
Definition globals : list link_symbol :=
  [symbol 1 STT_FUNC GOT_NORMAL 2 1 false; symbol 2 6 (GOT_TLS_GD .| GOT_TLS_IE) 3 0 true;
   symbol 3 STT_GNU_IFUNC GOT_NORMAL 1 2 true].
Definition files : list input_file := [mk_input_file [] (Some [(1, GOT_NORMAL); (0, 0); (2, GOT_TLS_GD)])].
Definition sizes : dyn_sizes :=
  mk_sizes (Some (mk_plt_size 0 0 0)) (Some 16) None None (Some 8) (Some 0) (Some 0) ∅ 1 false false.
Definition plt_section : def_section := mk_def_section 0x1000 false false.

Definition sized := Eval vm_compute in
  riscv_elf_size_dynamic_sections true info true no_symbol no_symbol plt_section false false no_section no_section
    files globals [] sizes.
Definition offs := match sized with Some (o, _, _, _, _) => o | None => [] end.
Definition globals' := match sized with Some (_, g, _, _, _) => g | None => [] end.
Definition sizes' := match sized with Some (_, _, _, z, _) => z | None => sizes end.

Lemma sized_ok :
  riscv_elf_size_dynamic_sections true info true no_symbol no_symbol plt_section false false no_section no_section
    files globals [] sizes = Some (offs, globals', [], sizes', None).
Proof. vm_compute. reflexivity. Qed.

Lemma room : got_room files globals [].
Proof. vm_compute. reflexivity. Qed.

End SizeDemo.

Lemma got_layout_exact_witness :
  SizeDemo.offs = [Some [8; MINUS_ONE; 16]] /\ map sy_got SizeDemo.globals' = [32; 40; MINUS_ONE] /\
  dz_got SizeDemo.sizes' = Some 64 /\
  exists size, dz_got SizeDemo.sizes' = Some size /\
    tiles 8 (got_entries true SizeDemo.files SizeDemo.offs SizeDemo.globals' []) size /\
    forall i j off1 len1 off2 len2,
      got_entries true SizeDemo.files SizeDemo.offs SizeDemo.globals' [] !! i = Some (off1, len1) ->
      got_entries true SizeDemo.files SizeDemo.offs SizeDemo.globals' [] !! j = Some (off2, len2) -> i <> j ->
      off1 + len1 <= off2 \/ off2 + len2 <= off1.
Proof.
  split_and!; [vm_compute; reflexivity..|].
  exact (got_layout_exact true SizeDemo.info true SizeDemo.no_symbol SizeDemo.no_symbol SizeDemo.plt_section false false
    SizeDemo.no_section SizeDemo.no_section SizeDemo.files SizeDemo.globals [] SizeDemo.sizes _ _ _ _ _
    SizeDemo.sized_ok eq_refl SizeDemo.room).
Defined.

Lemma plt_layout_exact_witness :
  map sy_plt SizeDemo.globals' = [32; MINUS_ONE; 48] /\
  exists n count, 0 <= n /\
    plt_offsets (fun _ => true) (SizeDemo.globals' ++ []) ≡ₚ map entry_offset (seqZ 0 n) /\
    dz_plt SizeDemo.sizes' = Some (mk_plt_size (if n =? 0 then 0 else entry_offset n) (n * 24) count) /\
    (n <> 0 -> dz_gotplt SizeDemo.sizes' = Some ((2 + n) * 8)) /\
    (entry_offset n <= 2 ^ 31 -> plt_layout (map sized_entry (SizeDemo.globals' ++ []))).
Proof.
  split; [vm_compute; reflexivity|].
  exact (plt_layout_exact true SizeDemo.info true SizeDemo.no_symbol SizeDemo.no_symbol SizeDemo.plt_section false false
    SizeDemo.no_section SizeDemo.no_section SizeDemo.files SizeDemo.globals [] SizeDemo.sizes _ _ _ _ _
    SizeDemo.sized_ok eq_refl SizeDemo.room eq_refl eq_refl eq_refl).
Defined.
