(* ===== verification/LinkScanSpec.v ===== *)
(** * Properties of the scan of relocations

    The counts and the kinds of access the scan of a section records only grow;
    a reference through the GOT is counted.  Together with the layout of the GOT
    this gives every such reference an entry that is large enough. *)
From Stdlib Require Import ZArith Bool Lia.
From stdpp Require Import base list gmap.
From S2P Require Import Prelude OpcodeH RiscvH Words OpcodeMatch Bytes Howto LinkReloc LinkRelocSpec LinkRelocate LinkFrame LinkPlt LinkPltSpec LinkScan LinkSize LinkSizeSpec.

#[local] Open Scope Z_scope.
#[local] Open Scope c_scope.
#[local] Open Scope list_scope.

(** ** What is recorded only grows *)

(** The bits of [a] are bits of [b]. *)
Definition bits_in (a b : Z) : Prop := a .& b = a.

Lemma bits_in_refl a : bits_in a a.
Proof. apply Z.land_diag. Qed.

Lemma bits_in_trans a b c : bits_in a b -> bits_in b c -> bits_in a c.
Proof. unfold bits_in. intros H1 H2. by rewrite <- H1, <- Z.land_assoc, H2. Qed.

Lemma bits_in_lor_l a b : bits_in a (a .| b).
Proof. unfold bits_in. apply Z.bits_inj'. intros i Hi. rewrite Z.land_spec, Z.lor_spec. by destruct (Z.testbit a i). Qed.

Lemma bits_in_lor_r a b : bits_in b (a .| b).
Proof. rewrite Z.lor_comm. apply bits_in_lor_l. Qed.

(** The count and the kind of access of a local symbol. *)
Definition local_refs (s : scan_state) (i : Z) : Z * Z :=
  default (0, GOT_UNKNOWN) (default ∅ (sn_local_got s) !! i).

(** Between [a] and [b], at most [k] references were added. *)
Definition refs_grow (k : Z) (a b : Z * Z) : Prop :=
  0 <= a.1 -> a.1 + k < 2 ^ 62 -> a.1 <= b.1 <= a.1 + k /\ bits_in a.2 b.2.

Definition symbol_refs (y : link_symbol) : Z * Z := (sy_got y, h_tls_type (sy_h y)).

Record scan_grows (k : Z) (s s' : scan_state) : Prop := {
  sg_global : forall id y, sn_symbols s !! id = Some y ->
                exists y', sn_symbols s' !! id = Some y' /\ refs_grow k (symbol_refs y) (symbol_refs y');
  sg_local : forall i, refs_grow k (local_refs s i) (local_refs s' i);
}.

Lemma refs_grow_refl a : refs_grow 0 a a.
Proof. intros H0 H1. split; [lia|apply bits_in_refl]. Qed.

Lemma refs_grow_trans j k a b c : 0 <= j -> 0 <= k -> refs_grow j a b -> refs_grow k b c -> refs_grow (j + k) a c.
Proof.
  intros Hj Hk H1 H2 A0 A1. destruct (H1 A0 ltac:(lia)) as [B1 B2]. destruct (H2 ltac:(lia) ltac:(lia)) as [C1 C2].
  split; [lia|by eapply bits_in_trans].
Qed.

Lemma scan_grows_refl s : scan_grows 0 s s.
Proof. split; [intros id y H; exists y; split; [done|apply refs_grow_refl]|intros; apply refs_grow_refl]. Qed.

Lemma scan_grows_trans j k s1 s2 s3 :
  0 <= j -> 0 <= k -> scan_grows j s1 s2 -> scan_grows k s2 s3 -> scan_grows (j + k) s1 s3.
Proof.
  intros Hj Hk [G1 L1] [G2 L2]. split.
  - intros id y H. destruct (G1 id y H) as (y1 & H1 & R1). destruct (G2 id y1 H1) as (y2 & H2 & R2).
    exists y2. split; [done|]. by eapply refs_grow_trans.
  - intros i. by eapply refs_grow_trans.
Qed.

Lemma scan_grows_trans_0 k s1 s2 s3 : 0 <= k -> scan_grows 0 s1 s2 -> scan_grows k s2 s3 -> scan_grows k s1 s3.
Proof. intros Hk H1 H2. change k with (0 + k). by eapply scan_grows_trans. Qed.

(** The same symbols. *)
Lemma scan_grows_same s s' :
  sn_symbols s' = sn_symbols s -> sn_local_got s' = sn_local_got s -> scan_grows 0 s s'.
Proof.
  intros H1 H2. destruct (scan_grows_refl s) as [G L]. split.
  - intros id y H. rewrite H1. by apply G.
  - intros i. unfold local_refs. rewrite H2. apply L.
Qed.

Lemma update_symbol_grows k id f s :
  0 <= k -> (forall y, refs_grow k (symbol_refs y) (symbol_refs (f y))) -> scan_grows k s (update_symbol id f s).
Proof.
  intros Hk Hf. split.
  - intros i y H. cbn [update_symbol with_symbols sn_symbols]. destruct (decide (id = i)) as [->|Hne].
    + exists (f y). rewrite lookup_alter_eq, H. split; [done|apply Hf].
    + exists y. rewrite lookup_alter_ne by done. split; [done|].
      intros H0 H1. destruct (refs_grow_refl (symbol_refs y)) as [A B]; [done|lia|]. split; [lia|done].
  - intros i H0 H1. split; [cbn; change (local_refs (update_symbol id f s) i) with (local_refs s i); lia|apply bits_in_refl].
Qed.

Lemma update_symbol_same id f s :
  (forall y, symbol_refs (f y) = symbol_refs y) -> scan_grows 0 s (update_symbol id f s).
Proof. intros Hf. apply update_symbol_grows; [done|]. intros y. rewrite Hf. apply refs_grow_refl. Qed.

(** ** One relocation *)

Lemma record_tls_grows h i t s ok s' :
  riscv_elf_record_tls_type h i t s = Some (ok, s') ->
  scan_grows 0 s s' /\
  match h with
  | Some id => exists y, sn_symbols s' !! id = Some y /\ bits_in t (h_tls_type (sy_h y))
  | None => bits_in t (local_refs s' i).2
  end.
Proof.
  unfold riscv_elf_record_tls_type. intros H. apply bind_Some in H as ([t' s1] & H1 & H).
  assert (E : sn_symbols s' = sn_symbols s1 /\ sn_local_got s' = sn_local_got s1)
    by (destruct (_ && _) in H; unfold refuse, go_on in H; by simplify_eq).
  clear H. destruct E as [E1 E2]. pose proof (scan_grows_same s1 s' E1 E2) as Hs.
  destruct h as [id|].
  - apply bind_Some in H1 as (y & Hy & H1). simplify_eq. split.
    + eapply scan_grows_trans_0; [done| |exact Hs]. split; [|intros j; apply refs_grow_refl].
      intros j y' Hj. cbn [update_symbol with_symbols sn_symbols]. destruct (decide (id = j)) as [->|Hne].
      * rewrite lookup_alter_eq, Hj. eexists. split; [done|]. simplify_eq. intros _ _. cbn. split; [lia|apply bits_in_lor_l].
      * exists y'. rewrite lookup_alter_ne by done. split; [done|apply refs_grow_refl].
    + rewrite E1. cbn [update_symbol with_symbols sn_symbols]. rewrite lookup_alter_eq, Hy. eexists. split; [done|].
      apply bits_in_lor_r.
  - apply bind_Some in H1 as (l & Hl & H1). destruct (default _ (l !! i)) as [c t0] eqn:Ed. simplify_eq. split.
    + eapply scan_grows_trans_0; [done| |exact Hs]. split; [intros id y Hy; exists y; split; [done|apply refs_grow_refl]|].
      intros j. unfold local_refs. cbn [with_local_got sn_local_got]. rewrite Hl. cbn [default from_option id].
      destruct (decide (i = j)) as [->|Hne]; [|rewrite lookup_insert_ne by done; apply refs_grow_refl].
      rewrite lookup_insert_eq, Ed. intros _ _. cbn. split; [lia|apply bits_in_lor_l].
    + unfold local_refs. rewrite E2. cbn [with_local_got sn_local_got default from_option id].
      rewrite lookup_insert_eq. apply bits_in_lor_r.
Qed.

Lemma record_got_grows h i s ok s' :
  riscv_elf_record_got_reference h i s = Some (ok, s') ->
  scan_grows 1 s s' /\
  match h with
  | Some id => forall y, sn_symbols s !! id = Some y -> 0 <= sy_got y -> sy_got y + 1 < 2 ^ 62 ->
                 exists y', sn_symbols s' !! id = Some y' /\ sy_got y' = sy_got y + 1
  | None => 0 <= (local_refs s i).1 -> (local_refs s i).1 + 1 < 2 ^ 62 ->
            (local_refs s' i).1 = (local_refs s i).1 + 1
  end.
Proof.
  unfold riscv_elf_record_got_reference, go_on. destruct h as [id|].
  - intros [= <- <-]. split.
    + eapply scan_grows_trans_0; [done|apply (scan_grows_same _ (with_made true (sn_ifunc_sections s) (sn_sreloc s) (sn_static_tls s) s)); done|].
      apply update_symbol_grows; [done|].
      intros y H0 H1. cbn in *. unfold u64. rewrite Z.mod_small by lia. split; [lia|apply bits_in_refl].
    + intros y Hy H0 H1. cbn. rewrite lookup_alter_eq, Hy. eexists. split; [done|]. cbn. apply Z.mod_small. lia.
  - cbn [with_made sn_local_got].
    destruct (default (0, GOT_UNKNOWN) (default ∅ (sn_local_got s) !! i)) as [c t] eqn:Ed. intros [= <- <-].
    assert (E : local_refs s i = (c, t)) by exact Ed. set (s1 := with_local_got _ _).
    assert (E1 : forall j, local_refs s1 j = if decide (i = j) then (u64 (c + 1), t) else local_refs s j).
    { intros j. unfold s1, local_refs. cbn [with_local_got sn_local_got default from_option id].
      destruct (decide (i = j)) as [->|]; [by rewrite lookup_insert_eq|by rewrite lookup_insert_ne]. }
    split.
    + split; [intros id y Hy; exists y; split; [done|]; intros H0 H1; split; [cbn in *; lia|apply bits_in_refl]|].
      intros j H0 H1. rewrite E1. destruct (decide (i = j)) as [->|]; [|split; [lia|apply bits_in_refl]].
      rewrite E in *. cbn in *. unfold u64. rewrite Z.mod_small by lia. split; [lia|apply bits_in_refl].
    + rewrite E1, decide_True, E by done. cbn. intros H0 H1. apply Z.mod_small. lia.
Qed.

Section scan.

Context (arch64 : bool) (info : bfd_link_info) (sec : scan_section) (symbol_of : Z -> option scan_symbol).

Lemma update_grows_0 id f s s' :
  (forall y, symbol_refs (f y) = symbol_refs y) -> scan_grows 0 (update_symbol id f s) s' -> scan_grows 0 s s'.
Proof. intros Hf. apply scan_grows_trans_0; [done|by apply update_symbol_same]. Qed.

Lemma static_reloc_grows t h k s ok s' : static_reloc info sec t h k s = Some (ok, s') -> scan_grows 0 s s'.
Proof.
  unfold static_reloc. intros H. apply bind_Some in H as (s1 & H1 & H).
  assert (G : scan_grows 0 s s1).
  { destruct h as [id|]; [|simplify_eq; apply scan_grows_refl]. apply bind_Some in H1 as (y & _ & H1).
    destruct (_ || _) in H1; simplify_eq; [|apply scan_grows_refl].
    apply update_symbol_same. intros y'. by destruct (_ || (_ || _)). }
  eapply scan_grows_trans_0; [done|exact G|]. apply bind_Some in H as (r & _ & H). apply bind_Some in H as (y & _ & H).
  unfold go_on in H. destruct (RISCV_NEED_DYNAMIC_RELOC _ _ _ _); [|simplify_eq; apply scan_grows_refl].
  destruct h as [id|]; simplify_eq; [|by apply scan_grows_same].
  eapply scan_grows_trans_0; [done|apply (scan_grows_same s1 (with_made (sn_sgot s1) (sn_ifunc_sections s1)
    ({[sc_id sec]} ∪ sn_sreloc s1) (sn_static_tls s1) s1)); done|by apply update_symbol_same].
Qed.

Lemma scan_pcrel_hi20_grows t h a k s ok s' : scan_pcrel_hi20 info sec t h a k s = Some (ok, s') -> scan_grows 0 s s'.
Proof.
  unfold scan_pcrel_hi20. intros H. apply bind_Some in H as (y & _ & H).
  set (s1 := match h with Some _ => _ | None => _ end) in H.
  assert (G : scan_grows 0 s s1).
  { unfold s1. destruct h as [id|], y as [y|]; try apply scan_grows_refl.
    destruct (_ =? _); [by apply update_symbol_same|apply scan_grows_refl]. }
  clearbody s1. eapply scan_grows_trans_0; [done|exact G|]. apply bind_Some in H as (b & _ & H).
  unfold refuse, go_on in H. destruct b; [simplify_eq; by apply scan_grows_same|].
  destruct (bfd_link_pic info); [simplify_eq; apply scan_grows_refl|by apply static_reloc_grows in H].
Qed.

Definition got_types : list (Z * Z) :=
  [(R_RISCV_TLS_GD_HI20, GOT_TLS_GD); (R_RISCV_TLS_GOT_HI20, GOT_TLS_IE); (R_RISCV_GOT_HI20, GOT_NORMAL)].

(** What a counted reference leaves behind. *)
Definition counted (h : option Z) (i tls : Z) (s s' : scan_state) : Prop :=
  match h with
  | Some id => forall y, sn_symbols s !! id = Some y -> 0 <= sy_got y -> sy_got y + 1 < 2 ^ 62 ->
                 exists y', sn_symbols s' !! id = Some y' /\ 1 <= sy_got y' /\ bits_in tls (h_tls_type (sy_h y'))
  | None => 0 <= (local_refs s i).1 -> (local_refs s i).1 + 1 < 2 ^ 62 ->
            1 <= (local_refs s' i).1 /\ bits_in tls (local_refs s' i).2
  end.

Lemma got_reference_counted h i tls s ok s' :
  and_then (riscv_elf_record_got_reference h i s) (riscv_elf_record_tls_type h i tls) = Some (ok, s') ->
  scan_grows 1 s s' /\ counted h i tls s s'.
Proof.
  unfold and_then. intros H. apply bind_Some in H as ([ok1 s1] & H1 & H).
  pose proof (record_got_grows _ _ _ _ _ H1) as [G1 C1].
  destruct ok1; [|unfold riscv_elf_record_got_reference, go_on in H1; destruct h; [done|by destruct (default _ _)]].
  apply record_tls_grows in H as [G2 C2]. split; [change 1 with (1 + 0); by eapply scan_grows_trans|].
  unfold counted. destruct h as [id|].
  - intros y Hy H0 Hb. destruct (C1 y Hy H0 Hb) as (y1 & Y1 & Y2). destruct C2 as (y2 & Y3 & Y4).
    destruct (sg_global _ _ _ G2 id y1 Y1) as (y2' & Y3' & Hr). simplify_eq.
    destruct Hr as [Hr _]; cbn in *; [lia|lia|]. exists y2. split_and!; [done|lia|done].
  - intros H0 Hb. specialize (C1 H0 Hb). destruct (sg_local _ _ _ G2 i) as [Hr _]; [lia|lia|]. split; [lia|done].
Qed.

Lemma scan_switch_got t tls i h a k s ok s' :
  In (t, tls) got_types -> scan_switch arch64 info sec t i h a k s = Some (ok, s') ->
  scan_grows 1 s s' /\ counted h i tls s s'.
Proof.
  cbn [got_types In]. intros Ht H. destruct Ht as [[= <- <-]|[[= <- <-]|[[= <- <-]|[]]]].
  - by apply got_reference_counted in H.
  - cbn in H. apply got_reference_counted in H as [G C]. split; [|exact C].
    eapply scan_grows_trans_0; [done| |exact G]. by apply scan_grows_same.
  - by apply got_reference_counted in H.
Qed.

Lemma scan_grows_weaken s s' : scan_grows 0 s s' -> scan_grows 1 s s'.
Proof.
  intros [G L]. split.
  - intros id y H. destruct (G id y H) as (y' & H' & R). exists y'. split; [done|]. intros H0 H1.
    destruct (R H0 ltac:(lia)). split; [lia|done].
  - intros i H0 H1. destruct (L i H0 ltac:(lia)). split; [lia|done].
Qed.

Lemma scan_switch_grows t i h a k s ok s' :
  scan_switch arch64 info sec t i h a k s = Some (ok, s') -> scan_grows 1 s s'.
Proof.
  destruct (decide (In t (map fst got_types))) as [Hin|Hin].
  { apply in_map_iff in Hin as ([t' tls] & <- & Hin). intros H.
    by destruct (scan_switch_got _ _ _ _ _ _ _ _ _ Hin H). }
  intros H. apply scan_grows_weaken. revert Hin H. unfold scan_switch, bad_static_reloc, refuse, go_on.
  destruct t as [|t|t]; try (intros _ [= <- <-]; apply scan_grows_refl).
  do 7 (try destruct t as [t|t|]); intros Hin H; cbn in H;
    try (simplify_eq; apply scan_grows_refl); try (exfalso; apply Hin; vm_compute; tauto);
    try (by apply static_reloc_grows in H); try (by apply scan_pcrel_hi20_grows in H).
  all: repeat (split_match_in H; try (simplify_eq; (apply scan_grows_refl || by apply scan_grows_same));
    try (by apply static_reloc_grows in H)).
  all: try (simplify_eq; by apply update_symbol_same).
  all: apply bind_Some in H as ([ok1 s1] & H1 & H); apply record_tls_grows in H1 as [G _]; simplify_eq; done.
Qed.

(** The entry of the symbol of a relocation, none for a local symbol. *)
Definition reloc_entry (rel : Elf_Internal_Rela) : option (option Z) :=
  match symbol_of (ELFNN_R_SYM arch64 (r_info rel)) with
  | None => None
  | Some (SS_local _ _) => Some None
  | Some (SS_local_ifunc id _) | Some (SS_global id) => Some (Some id)
  end.

Lemma counted_before h i tls s s1 s' : scan_grows 0 s s1 -> counted h i tls s1 s' -> counted h i tls s s'.
Proof.
  intros G C. unfold counted in *. destruct h as [id|].
  - intros y Hy H0 Hb. destruct (sg_global _ _ _ G id y Hy) as (y1 & Y1 & R). destruct R as [R _]; [done|cbn; lia|].
    cbn in R. apply (C y1 Y1); lia.
  - intros H0 Hb. destruct (sg_local _ _ _ G i) as [R _]; [done|lia|]. apply C; lia.
Qed.

(** The steps of [check_reloc]: what comes before the [switch] keeps the counts. *)
Lemma check_reloc_switch rel s ok s' :
  check_reloc arch64 info sec symbol_of rel s = Some (ok, s') ->
  (ok = false /\ scan_grows 0 s s' /\ reloc_entry rel = None) \/
  exists h a k s1, reloc_entry rel = Some h /\ scan_grows 0 s s1 /\
    scan_switch arch64 info sec (ELFNN_R_TYPE arch64 (r_info rel)) (ELFNN_R_SYM arch64 (r_info rel)) h a k s1
      = Some (ok, s').
Proof.
  unfold check_reloc, reloc_entry. intros H.
  destruct (symbol_of (ELFNN_R_SYM arch64 (r_info rel))) as [[a k|id a|id]|]; cycle 3.
  { left. unfold refuse in H. simplify_eq. split_and!; [done| |done]. by apply scan_grows_same. }
  { right. exists None, a, k, s. split_and!; [done|apply scan_grows_refl|exact H]. }
  all: right; apply bind_Some in H as ([[id' a'] s1] & H1 & H); apply bind_Some in H as (y & _ & H).
  all: match type of H with scan_switch _ _ _ _ _ _ _ _ ?s3 = _ => exists (Some id'), a', None, s3 end.
  all: bind_inv; simplify_eq; split_and!; [done| |exact H].
  all: match goal with |- scan_grows 0 _ (update_symbol _ _ (if ?b then _ else ?s2)) =>
         apply (scan_grows_trans_0 0 _ s2); [done| |] end.
  all: try apply scan_grows_refl; try (by apply update_symbol_same).
  all: match goal with |- scan_grows 0 _ (update_symbol _ _ ?s3) =>
         apply (scan_grows_trans_0 0 _ s3); [done| |by apply update_symbol_same] end.
  all: destruct (_ && _); [by apply scan_grows_same|apply scan_grows_refl].
Qed.

Lemma check_reloc_counts rel s ok s' :
  check_reloc arch64 info sec symbol_of rel s = Some (ok, s') ->
  scan_grows 1 s s' /\
  forall h tls, reloc_entry rel = Some h -> In (ELFNN_R_TYPE arch64 (r_info rel), tls) got_types ->
    counted h (ELFNN_R_SYM arch64 (r_info rel)) tls s s'.
Proof.
  intros H. apply check_reloc_switch in H as [(_ & G & E)|(h & a & k & s1 & E & G & H)].
  - split; [by apply scan_grows_weaken|]. congruence.
  - split; [eapply scan_grows_trans_0; [done|exact G|by eapply scan_switch_grows]|].
    intros h' tls E' Hin. assert (h' = h) as -> by congruence. eapply counted_before; [exact G|].
    by destruct (scan_switch_got _ _ _ _ _ _ _ _ _ Hin H).
Qed.

Lemma check_relocs_grows relocs : forall s ok s',
  riscv_elf_check_relocs arch64 info sec symbol_of relocs s = Some (ok, s') ->
  scan_grows (Z.of_nat (length relocs)) s s'.
Proof.
  induction relocs as [|rel relocs IH]; intros s ok s' H; cbn [riscv_elf_check_relocs] in H.
  { unfold go_on in H. simplify_eq. apply scan_grows_refl. }
  unfold and_then in H. apply bind_Some in H as ([ok1 s1] & H1 & H). apply check_reloc_counts in H1 as [G _].
  replace (Z.of_nat (length (rel :: relocs))) with (1 + Z.of_nat (length relocs)) by (cbn [length]; lia).
  destruct ok1; [eapply scan_grows_trans; [done|lia|exact G|by eapply IH]|]. simplify_eq.
  destruct G as [G L]. split.
  - intros id y Hy. destruct (G id y Hy) as (y' & Hy' & R). exists y'. split; [done|]. intros H0 Hb.
    destruct (R H0 ltac:(lia)). split; [lia|done].
  - intros i H0 Hb. destruct (L i H0 ltac:(lia)). split; [lia|done].
Qed.

(** After the scan of a section each reference through the GOT is counted. *)
Lemma check_relocs_counts relocs : forall s s' rel h tls,
  riscv_elf_check_relocs arch64 info sec symbol_of relocs s = Some (true, s') -> In rel relocs ->
  reloc_entry rel = Some h -> In (ELFNN_R_TYPE arch64 (r_info rel), tls) got_types ->
  let n := Z.of_nat (length relocs) in let i := ELFNN_R_SYM arch64 (r_info rel) in
  match h with
  | Some id => forall y, sn_symbols s !! id = Some y -> 0 <= sy_got y -> sy_got y + n < 2 ^ 62 ->
      exists y', sn_symbols s' !! id = Some y' /\ 1 <= sy_got y' < 2 ^ 62 /\ bits_in tls (h_tls_type (sy_h y'))
  | None => 0 <= (local_refs s i).1 -> (local_refs s i).1 + n < 2 ^ 62 ->
      1 <= (local_refs s' i).1 < 2 ^ 62 /\ bits_in tls (local_refs s' i).2
  end.
Proof.
  induction relocs as [|rel0 relocs IH]; intros s s' rel h tls H Hin He Ht; [done|]. cbn [riscv_elf_check_relocs] in H.
  unfold and_then in H. apply bind_Some in H as ([ok1 s1] & H1 & H). destruct ok1; [|done].
  destruct (check_reloc_counts _ _ _ _ H1) as [G C]. cbn [length] in *.
  replace (Z.of_nat (S (length relocs))) with (1 + Z.of_nat (length relocs)) by lia.
  pose proof (check_relocs_grows _ _ _ _ H) as G2. cbv zeta. destruct Hin as [->|Hin].
  - specialize (C h tls He Ht). unfold counted in C. destruct h as [id|].
    + intros y Hy H0 Hb. destruct (C y Hy H0 ltac:(lia)) as (y1 & Y1 & Y2 & Y3).
      destruct (sg_global _ _ _ G id y Hy) as (y1' & Y1' & R1). simplify_eq. destruct R1 as [R1 _]; [done|cbn; lia|].
      destruct (sg_global _ _ _ G2 id y1 Y1) as (y2 & Z1 & R2). cbn in R1. destruct R2 as [R2 R3]; cbn in *; [lia|lia|].
      exists y2. split_and!; [done|lia|lia|by eapply bits_in_trans].
    + intros H0 Hb. destruct (C H0 ltac:(lia)) as [C1 C2]. destruct (sg_local _ _ _ G (ELFNN_R_SYM arch64 (r_info rel))) as [R1 _]; [done|lia|].
      destruct (sg_local _ _ _ G2 (ELFNN_R_SYM arch64 (r_info rel))) as [R2 R3]; [lia|lia|].
      split; [lia|by eapply bits_in_trans].
  - specialize (IH s1 s' rel h tls H Hin He Ht). cbv zeta in IH. destruct h as [id|].
    + intros y Hy H0 Hb. destruct (sg_global _ _ _ G id y Hy) as (y1 & Y1 & R1). destruct R1 as [R1 _]; [done|cbn; lia|].
      cbn in R1. apply (IH y1 Y1); lia.
    + intros H0 Hb. destruct (sg_local _ _ _ G (ELFNN_R_SYM arch64 (r_info rel))) as [R1 _]; [done|lia|]. apply IH; lia.
Qed.

End scan.

(** ** Entries for references *)

(** Where the words end that relocating uses of an entry, for a type of
    relocation and the kinds of access to its symbol. *)
Definition used_end (arch64 : bool) (r_type tls_type : Z) : Z :=
  let gd := negb (tls_type .& GOT_TLS_GD =? 0) in
  (if r_type =? R_RISCV_TLS_GD_HI20 then 2
   else if r_type =? R_RISCV_TLS_GOT_HI20 then (if gd then 3 else 1) else 1) * RISCV_ELF_WORD_BYTES arch64.

Lemma bits_in_nonzero a b : bits_in a b -> a <> 0 -> b .& a <> 0.
Proof. unfold bits_in. rewrite Z.land_comm. congruence. Qed.

Lemma used_words r_type tls t :
  In (r_type, tls) got_types -> bits_in tls t -> forall arch64, used_end arch64 r_type t <= got_words t * RISCV_ELF_WORD_BYTES arch64.
Proof.
  intros Hin Hb arch64. pose proof (word_small arch64) as HW. pose proof (got_words_range t) as Hr.
  assert (Hn : tls <> 0)
    by (clear -Hin; cbn [got_types In] in Hin; by destruct Hin as [[= <- <-]|[[= <- <-]|[[= <- <-]|[]]]]).
  pose proof (bits_in_nonzero _ _ Hb Hn) as Hnz. unfold used_end.
  apply Z.mul_le_mono_nonneg_r; [lia|]. cbn [got_types In] in Hin.
  destruct Hin as [[= <- <-]|[[= <- <-]|[[= <- <-]|[]]]]; cbn [Z.eqb Pos.eqb]; [| |lia];
    unfold got_words; rewrite Z.land_lor_distr_r;
    rewrite ?(proj2 (Z.eqb_neq _ _) Hnz); destruct (Z.eqb_spec (t .& GOT_TLS_GD) 0) as [E|E]; cbn [negb]; try done;
    match goal with |- context [if ?x =? 0 then 1 else _] => destruct (Z.eqb_spec x 0) as [E0|E0] end;
    try lia; try (destruct (_ =? 0); lia); apply Z.lor_eq_0_iff in E0; tauto.
Qed.

Lemma slot_in_entries arch64 files offs globals locals k y :
  globals !! k = Some y -> sy_got y <> MINUS_ONE ->
  In (sy_got y, slot_words y * RISCV_ELF_WORD_BYTES arch64) (got_entries arch64 files offs globals locals).
Proof.
  intros Hk Hne. unfold got_entries. rewrite !in_app_iff. right.
  assert (Hin : In y globals) by (by eapply list_elem_of_In, list_elem_of_lookup_2).
  assert (H : forall p : link_symbol -> bool, p y = true ->
    In (sy_got y, slot_words y * RISCV_ELF_WORD_BYTES arch64) (symbol_slots arch64 p globals)).
  { intros p Hp. unfold symbol_slots. apply in_concat. eexists. split; [apply in_map, Hin|]. cbv beta. rewrite Hp.
    unfold symbol_slot. rewrite (proj2 (Z.eqb_neq _ _)) by done. by left. }
  unfold not_ifunc in *. destruct (ifunc_def y) eqn:E; [right; left|left]; apply H; [done|by rewrite E].
Qed.

Lemma local_slot_in_entries arch64 files offs globals locals k f lg fo i c off :
  files !! k = Some f -> if_local_got f = Some lg -> offs !! k = Some (Some fo) -> lg !! i = Some c ->
  fo !! i = Some off -> off <> MINUS_ONE ->
  In (off, RISCV_ELF_WORD_BYTES arch64 + (if c.2 .& GOT_TLS_GD =? 0 then 0 else RISCV_ELF_WORD_BYTES arch64))
    (got_entries arch64 files offs globals locals).
Proof.
  intros Hk Hlg Ho Hi Hoff Hne. unfold got_entries. rewrite !in_app_iff. left. unfold files_slots. apply in_concat.
  exists (file_slots arch64 f (Some fo)). split.
  - eapply list_elem_of_In, (list_elem_of_lookup_2 _ k). rewrite lookup_zip_with, Hk, Ho. done.
  - unfold file_slots. rewrite Hlg. unfold local_slots. apply in_concat. exists (local_slot arch64 c off). split.
    + eapply list_elem_of_In, (list_elem_of_lookup_2 _ i). rewrite lookup_zip_with, Hi, Hoff. done.
    + unfold local_slot. rewrite (proj2 (Z.eqb_neq off MINUS_ONE)) by done. by left.
Qed.

Lemma refcount_pos x c : 1 <= c -> c <= x < 2 ^ 62 -> 0 < refcount x.
Proof. intros H1 H2. unfold refcount. assert (s64 x = x) as -> by (clear -H1 H2; u64_ring). lia. Qed.

(** Later scans may have added references. *)
Definition refs_after (a b : Z * Z) : Prop := a.1 <= b.1 < 2 ^ 62 /\ bits_in a.2 b.2.

(** C26: every reference through the GOT has an entry.  Let the scan of a
    section accept its relocations, and let the dynamic sections be sized with
    the counts it left (later scans may have added to them).  For a relocation
    that goes through the GOT, of a symbol of the hash table that is not an
    indirect function defined here, the symbol has an entry in .got, past its
    header, and the words relocating uses of it for a relocation of that type
    lie in the entry and in the section.  The same holds for a local symbol,
    unless it is accessed both as general and as initial executable
    thread-local. *)
Theorem got_references_have_entries arch64 info sec symbol_of relocs s s' rel tls dyn in_ir is_gp plt_section export
    got_referenced discarded readonly files globals locals z offs globals' locals' z' last :
  let r_type := ELFNN_R_TYPE arch64 (r_info rel) in
  let r_symndx := ELFNN_R_SYM arch64 (r_info rel) in
  let n := Z.of_nat (length relocs) in
  riscv_elf_check_relocs arch64 info sec symbol_of relocs s = Some (true, s') ->
  In rel relocs -> In (r_type, tls) got_types ->
  riscv_elf_size_dynamic_sections arch64 info dyn in_ir is_gp plt_section export got_referenced discarded readonly
    files globals locals z = Some (offs, globals', locals', z', last) ->
  dz_got z = Some (RISCV_ELF_WORD_BYTES arch64) -> got_room files globals locals ->
  exists size, dz_got z' = Some size /\
    (forall id y0 y1 k y,
       reloc_entry arch64 symbol_of rel = Some (Some id) ->
       sn_symbols s !! id = Some y0 -> 0 <= sy_got y0 -> sy_got y0 + n < 2 ^ 62 ->
       sn_symbols s' !! id = Some y1 -> globals !! k = Some y -> refs_after (symbol_refs y1) (symbol_refs y) ->
       ifunc_def y = false ->
       exists y', globals' !! k = Some y' /\ same_symbol y y' /\ RISCV_ELF_WORD_BYTES arch64 <= sy_got y' /\
         In (sy_got y', slot_words y' * RISCV_ELF_WORD_BYTES arch64) (got_entries arch64 files offs globals' locals') /\
         used_end arch64 r_type (h_tls_type (sy_h y')) <= slot_words y' * RISCV_ELF_WORD_BYTES arch64 /\
         sy_got y' + used_end arch64 r_type (h_tls_type (sy_h y')) <= size) /\
    (forall k f lg c,
       reloc_entry arch64 symbol_of rel = Some None ->
       0 <= (local_refs s r_symndx).1 -> (local_refs s r_symndx).1 + n < 2 ^ 62 ->
       files !! k = Some f -> if_local_got f = Some lg -> lg !! Z.to_nat r_symndx = Some c ->
       refs_after (local_refs s' r_symndx) c -> c.2 .& GOT_TLS_GD = 0 \/ c.2 .& GOT_TLS_IE = 0 ->
       exists fo off, offs !! k = Some (Some fo) /\ fo !! Z.to_nat r_symndx = Some off /\
         RISCV_ELF_WORD_BYTES arch64 <= off /\ off + used_end arch64 r_type c.2 <= size).
Proof.
  intros r_type r_symndx n Hscan Hin Ht Hsize Hg Hroom. pose proof (word_small arch64) as HW.
  destruct (sized_got _ _ _ _ _ _ _ _ _ _ _ _ _ _ _ _ _ _ _ Hsize Hg Hroom) as ((size & G1 & _ & G2) & GG & GL).
  exists size. split_and!; [done| |].
  - intros id y0 y1 k y He Hy0 H0 Hb Hy1 Hk [Ha Hbits] Hi.
    destruct (check_relocs_counts _ _ _ _ _ _ _ _ _ _ Hscan Hin He Ht y0 Hy0 H0 Hb) as (y1' & E1 & E2 & E3).
    assert (y1' = y1) as -> by congruence. cbn [symbol_refs fst snd] in *.
    destruct (GG k y Hk) as (y' & Y1 & Y2 & Y3). exists y'.
    assert (Hne : sy_got y' <> MINUS_ONE) by (apply Y3; [done|]; eapply (refcount_pos _ (sy_got y1)); lia).
    pose proof (slot_in_entries arch64 files offs globals' locals' k y' Y1 Hne) as Hslot.
    destruct (tiles_in _ _ _ _ _ G2 Hslot) as (T1 & T2 & T3). destruct Y2 as (I1 & I2 & I3).
    assert (Hu : used_end arch64 r_type (h_tls_type (sy_h y')) <= slot_words y' * RISCV_ELF_WORD_BYTES arch64).
    { unfold slot_words. rewrite I3, Hi. apply (used_words _ tls); [done|]. rewrite I2. by eapply bits_in_trans. }
    split; [done|]. split; [done|]. split_and!; [lia|done|done|lia].
  - intros k f lg c He H0 Hb Hk Hlg Hc [Ha Hbits] Hone.
    destruct (check_relocs_counts _ _ _ _ _ _ _ _ _ _ Hscan Hin He Ht H0 Hb) as (E2 & E3). fold r_symndx in E2, E3.
    destruct (GL k f lg _ c Hk Hlg Hc) as (fo & off & O1 & O2 & O3); [eapply (refcount_pos _ (local_refs s' r_symndx).1); lia|].
    exists fo, off. pose proof (local_slot_in_entries arch64 files offs globals' locals' _ _ _ _ _ _ _ Hk Hlg O1 Hc O2 O3) as Hslot.
    destruct (tiles_in _ _ _ _ _ G2 Hslot) as (T1 & T2 & T3).
    pose proof (used_words _ tls c.2 Ht ltac:(by eapply bits_in_trans) arch64) as Hu.
    split_and!; [done|done|lia|]. etrans; [|exact T3]. apply Z.add_le_mono_l. etrans; [exact Hu|].
    unfold got_words. destruct (_ .& (_ .| _) =? 0); [destruct (_ =? 0); lia|].
    destruct (Z.eqb_spec (c.2 .& GOT_TLS_GD) 0) as [Ez|Ez], (Z.eqb_spec (c.2 .& GOT_TLS_IE) 0) as [Ei|Ei];
      [lia|lia|lia|tauto].
Qed.

(** ** Filling thread-local entries *)

Section fill.

Context (arch64 big : bool) (info : bfd_link_info) (htab : riscv_elf_link_hash_table) (isec : input_section).

Abbreviation WORD := (RISCV_ELF_WORD_BYTES arch64).

(** A state reached by writing into [n] bytes of .got at [off] and appending at
    most [k] relocations. *)
Definition got_filled (off n k : Z) (s s' : link_state) : Prop :=
  same_outside (Z.to_nat off) (Z.to_nat n) (s_got s) (s_got s') /\
  exists l l', s_srelgot s = Some l /\ s_srelgot s' = Some (l ++ l') /\ Z.of_nat (length l') <= k.

Lemma got_filled_refl off n s l : s_srelgot s = Some l -> got_filled off n 0 s s.
Proof. intros H. split; [done|]. exists l, []. by rewrite app_nil_r. Qed.

Lemma got_filled_trans off n j k s1 s2 s3 :
  got_filled off n j s1 s2 -> got_filled off n k s2 s3 -> got_filled off n (j + k) s1 s3.
Proof.
  intros [H1 (l & l' & A1 & A2 & A3)] [H2 (m & m' & B1 & B2 & B3)]. split; [by eapply same_outside_trans|].
  simplify_eq. exists l, (l' ++ m'). split_and!; [done| |rewrite length_app; lia]. rewrite B2. by rewrite app_assoc.
Qed.

Lemma got_filled_same off n k s s1 s2 s3 :
  s_got s1 = s_got s -> s_srelgot s1 = s_srelgot s -> s_got s3 = s_got s2 -> s_srelgot s3 = s_srelgot s2 ->
  got_filled off n k s1 s2 -> got_filled off n k s s3.
Proof. intros E1 E2 E3 E4 [H1 H2]. unfold got_filled. by rewrite E3, E4, <- E1, <- E2. Qed.

Lemma put_got_filled v o off n s l :
  s_srelgot s = Some l -> 0 <= off <= o -> o + WORD <= off + n -> o + WORD <= Z.of_nat (length (s_got s)) ->
  exists s', put_got arch64 big v o s = Some s' /\ got_filled off n 0 s s'.
Proof.
  intros Hl Ho Hn Hlen. destruct (word_bytes_xlen arch64) as [E1 E2].
  destruct (bfd_put_NN arch64 big v (s_got s) o) as [g|] eqn:E.
  - exists (with_gots g (s_gotplt s) (s_igotplt s) s). unfold put_got. rewrite E. split; [done|].
    destruct (put_NN_spec _ _ _ _ _ _ E) as (_ & S & _). split; [|exists l, []; by rewrite app_nil_r].
    eapply same_outside_weaken; [..|exact S]; pose proof (word_small arch64); lia.
  - exfalso. revert E. unfold bfd_put_NN, in_contents. rewrite E2, !(proj2 (Z.leb_le _ _)) by lia. cbn [andb].
    unfold bfd_put. by destruct arch64.
Qed.

Lemma append_relgot_filled r off n s l :
  s_srelgot s = Some l -> exists s', append_relgot r s = Some s' /\ got_filled off n 1 s s'.
Proof.
  intros Hl. unfold append_relgot. rewrite Hl. eexists. split; [reflexivity|]. split; [done|].
  exists l, [r]. done.
Qed.

Lemma got_filled_srelgot off n k s s' : got_filled off n k s s' -> exists l, s_srelgot s' = Some l.
Proof. intros [_ (l & l' & _ & H & _)]. eauto. Qed.

Lemma got_filled_length off n k s s' : got_filled off n k s s' -> length (s_got s') = length (s_got s).
Proof. by intros [[H _] _]. Qed.

Lemma fill_tls_gd_filled sgot off indx need rs s l n :
  s_srelgot s = Some l -> 0 <= off -> 2 * WORD <= n -> off + 2 * WORD <= Z.of_nat (length (s_got s)) ->
  exists s', fill_tls_gd arch64 big htab sgot off indx need rs s = Some s' /\ got_filled off n (if need then if indx =? 0 then 1 else 2 else 0) s s'.
Proof.
  intros Hl Ho Hn Hlen. pose proof (word_small arch64) as HW. unfold fill_tls_gd. destruct need.
  - destruct (put_got_filled 0 off off n s l Hl) as (s1 & P1 & F1); [lia..|].
    destruct (got_filled_srelgot _ _ _ _ _ F1) as [l1 L1]. rewrite P1. cbn [mbind option_bind].
    destruct (append_relgot_filled (mk_rela (u64 (sgot + off)) (ELFNN_R_INFO arch64 indx (R_RISCV_TLS_DTPMODNN arch64)) 0)
      off n s1 l1 L1) as (s2 & P2 & F2).
    destruct (got_filled_srelgot _ _ _ _ _ F2) as [l2 L2]. rewrite P2. cbn [mbind option_bind].
    pose proof (got_filled_length _ _ _ _ _ F1) as E1. pose proof (got_filled_length _ _ _ _ _ F2) as E2.
    pose proof (got_filled_trans _ _ _ _ _ _ _ F1 F2) as F12.
    destruct (indx =? 0).
    + set (s3 := BFD_ASSERT _ s2). assert (E3 : s_got s3 = s_got s2 /\ s_srelgot s3 = s_srelgot s2)
        by (unfold s3, BFD_ASSERT; by destruct (negb _)).
      destruct E3 as [E3 E4].
      destruct (put_got_filled (dtpoff (ht_tls_sec htab) (rs_relocation rs)) (off + WORD) off n s3 l2) as (s4 & P4 & F4);
        [congruence|lia|lia|rewrite E3, E2, E1; lia|].
      exists s4. split; [done|]. change 1 with (0 + 1 + 0). eapply got_filled_trans; [exact F12|].
      exact (got_filled_same off n 0 s2 s3 s4 s4 E3 E4 eq_refl eq_refl F4).
    + destruct (put_got_filled 0 (off + WORD) off n s2 l2 L2) as (s3 & P3 & F3); [lia|lia|rewrite E2, E1; lia|].
      destruct (got_filled_srelgot _ _ _ _ _ F3) as [l3 L3]. rewrite P3. cbn [mbind option_bind].
      destruct (append_relgot_filled (mk_rela (u64 (sgot + off + WORD))
        (ELFNN_R_INFO arch64 indx (R_RISCV_TLS_DTPRELNN arch64)) 0) off n s3 l3 L3) as (s4 & P4 & F4).
      exists s4. split; [done|]. change 2 with (0 + 1 + (0 + 1)). eauto using got_filled_trans.
  - destruct (put_got_filled 1 off off n s l Hl) as (s1 & P1 & F1); [lia..|].
    destruct (got_filled_srelgot _ _ _ _ _ F1) as [l1 L1]. rewrite P1. cbn [mbind option_bind].
    pose proof (got_filled_length _ _ _ _ _ F1) as E1.
    destruct (put_got_filled (dtpoff (ht_tls_sec htab) (rs_relocation rs)) (off + WORD) off n s1 l1 L1) as (s2 & P2 & F2);
      [lia|lia|rewrite E1; lia|].
    exists s2. split; [done|]. change 0 with (0 + 0). eauto using got_filled_trans.
Qed.

Lemma fill_tls_ie_filled sgot o off indx need rs s l n :
  s_srelgot s = Some l -> 0 <= off <= o -> o + WORD <= off + n -> o + WORD <= Z.of_nat (length (s_got s)) ->
  exists s', fill_tls_ie arch64 big htab sgot o indx need rs s = Some s' /\ got_filled off n (if need then 1 else 0) s s'.
Proof.
  intros Hl Ho Hn Hlen. unfold fill_tls_ie. destruct need.
  - destruct (put_got_filled 0 o off n s l Hl) as (s1 & P1 & F1); [lia..|].
    destruct (got_filled_srelgot _ _ _ _ _ F1) as [l1 L1]. rewrite P1. cbn [mbind option_bind].
    destruct (append_relgot_filled (mk_rela (u64 (sgot + o)) (ELFNN_R_INFO arch64 indx (R_RISCV_TLS_TPRELNN arch64))
      (if indx =? 0 then tpoff (ht_tls_sec htab) (rs_relocation rs) else 0)) off n s1 l1 L1) as (s2 & P2 & F2).
    exists s2. split; [done|]. change 1 with (0 + 1). eauto using got_filled_trans.
  - by apply (put_got_filled _ o off n s l).
Qed.

(** Where the entry of the symbol is, and how the symbol is accessed. *)
Definition entry_offset_of (rs : resolved_symbol) (r_symndx : Z) (s : link_state) : option Z :=
  match rs_h rs with Some h => Some (got_offset h s) | None => s_local_got s !! r_symndx end.
Definition access_of (local_tls_type : Z -> Z) (rs : resolved_symbol) (r_symndx : Z) : Z :=
  match rs_h rs with Some h => h_tls_type h | None => local_tls_type r_symndx end.

(** The relocations appended for an entry. *)
Definition tls_relas (indx : Z) (need : bool) (t : Z) : Z :=
  if need then (if t .& GOT_TLS_GD =? 0 then 0 else if indx =? 0 then 1 else 2) + (if t .& GOT_TLS_IE =? 0 then 0 else 1)
  else 0.

Lemma tls_entry_in_place local_tls_type is_ie rs r_symndx r_type howto s off sgot l :
  let t := access_of local_tls_type rs r_symndx in
  let '(indx, need) := RISCV_TLS_GD_IE_NEED_DYN_RELOC info (ht_dynamic_sections_created htab) (rs_h rs) in
  entry_offset_of rs r_symndx s = Some off -> off .& 1 = 0 -> 0 <= off ->
  ht_sgot htab = Some sgot -> s_srelgot s = Some l -> t .& (GOT_TLS_GD .| GOT_TLS_IE) <> 0 ->
  off + got_words t * WORD <= Z.of_nat (length (s_got s)) ->
  exists f, reloc_tls_got arch64 big info htab isec local_tls_type is_ie rs r_symndx r_type howto s = Some f /\
    got_filled off (got_words t * WORD) (tls_relas indx need t) s (flow_state f).
Proof.
  intros t. destruct (RISCV_TLS_GD_IE_NEED_DYN_RELOC _ _ _) as [indx nd] eqn:En. intros Hoff Hev H0 Hsgot Hl Ht Hlen. unfold reloc_tls_got, entry_offset_of, access_of in *.
  pose proof (word_small arch64) as HW.
  match goal with |- context [mbind _ (match rs_h rs with Some h => @?u h | None => ?v end)] =>
    set (q := match rs_h rs with Some h => u h | None => v end) end.
  assert (Hq : exists s1, q = Some (off, s1) /\ s_got s1 = s_got s /\ s_srelgot s1 = s_srelgot s).
  { unfold q. destruct (rs_h rs) as [h|]; [injection Hoff as ->; eexists; split; [reflexivity|done]|].
    rewrite Hoff. eexists. split; [reflexivity|done]. }
  destruct Hq as (s1 & -> & Q1 & Q2). cbn [mbind option_bind]. fold t. clear Hoff.
  set (gd := negb (t .& GOT_TLS_GD =? 0)). set (ie := negb (t .& GOT_TLS_IE =? 0)).
  set (s2 := BFD_ASSERT (gd || ie) s1). assert (E2 : s_got s2 = s_got s /\ s_srelgot s2 = s_srelgot s)
    by (unfold s2, BFD_ASSERT; destruct (gd || ie); done).
  destruct E2 as [E2 E2']. clearbody s2. rewrite Hsgot. cbn [mbind option_bind]. rewrite Hev. cbn [Z.eqb negb].
  rewrite E2', Hl. cbn [mbind option_bind]. unfold GOT_ENTRY_SIZE.
  rewrite En.
  assert (Hw : got_words t = (if gd then 2 else 0) + (if ie then 1 else 0)).
  { unfold got_words, gd, ie. rewrite (proj2 (Z.eqb_neq _ _) Ht).
    by destruct (t .& GOT_TLS_GD =? 0), (t .& GOT_TLS_IE =? 0). }
  set (n := got_words t * WORD) in *.
  assert (F1 : exists s3, (if gd then fill_tls_gd arch64 big htab sgot off indx nd rs s2 else Some s2) = Some s3 /\
    got_filled off n (if nd then if gd then if indx =? 0 then 1 else 2 else 0 else 0) s2 s3).
  { destruct gd; [|exists s2; split; [done|]; destruct nd; eapply got_filled_refl; rewrite E2'; exact Hl].
    destruct (fill_tls_gd_filled sgot off indx nd rs s2 l n) as (s3 & P & F);
      [congruence|done|unfold n; destruct ie; lia|rewrite E2; destruct ie; unfold n in Hlen; lia|].
    exists s3. split; [done|]. by destruct nd. }
  destruct F1 as (s3 & -> & F1). cbn [mbind option_bind].
  pose proof (got_filled_length _ _ _ _ _ F1) as L3. destruct (got_filled_srelgot _ _ _ _ _ F1) as [l3 L3'].
  assert (F2 : exists s4, (if ie then fill_tls_ie arch64 big htab sgot (off + (if gd && ie then 2 * WORD else 0)) indx nd rs s3
                           else Some s3) = Some s4 /\ got_filled off n (if nd then if ie then 1 else 0 else 0) s3 s4).
  { destruct ie; [|exists s3; split; [done|]; destruct nd; eapply got_filled_refl; exact L3'].
    destruct (fill_tls_ie_filled sgot (off + (if gd && true then 2 * WORD else 0)) off indx nd rs s3 l3 n)
      as (s4 & P & F); [done|destruct gd; cbn [andb]; lia|unfold n; destruct gd; cbn [andb]; lia
        |rewrite L3, E2; unfold n in Hlen; destruct gd; cbn [andb]; lia|].
    exists s4. split; [done|]. by destruct nd. }
  destruct F2 as (s4 & -> & F2). cbn [mbind option_bind]. eexists. split; [reflexivity|].
  eapply (got_filled_same off n _ s s2 s4); [done|done| | |].
  - cbn [flow_state]. unfold BFD_ASSERT. by destruct (_ <? _), (slot_empty _ _).
  - cbn [flow_state]. unfold BFD_ASSERT. by destruct (_ <? _), (slot_empty _ _).
  - replace (tls_relas indx nd t) with ((if nd then if gd then if indx =? 0 then 1 else 2 else 0 else 0)
                                        + (if nd then if ie then 1 else 0 else 0)); [by eapply got_filled_trans|].
    unfold tls_relas, gd, ie. by destruct nd, (t .& GOT_TLS_GD =? 0), (t .& GOT_TLS_IE =? 0).
Qed.

End fill.

Lemma put_got_length arch64 big v o s s' : put_got arch64 big v o s = Some s' -> length (s_got s') = length (s_got s).
Proof.
  unfold put_got. intros H. apply bind_Some in H as (g & Hg & H). apply (inj Some) in H as <-. cbn.
  by destruct (put_NN_spec _ _ _ _ _ _ Hg) as (_ & (E & _) & _).
Qed.

Lemma append_relgot_got r s s' : append_relgot r s = Some s' -> s_got s' = s_got s.
Proof. unfold append_relgot. intros H. apply bind_Some in H as (l & _ & H). by apply (inj Some) in H as <-. Qed.

Lemma fill_tls_gd_length arch64 big htab sgot off indx need rs s s' :
  fill_tls_gd arch64 big htab sgot off indx need rs s = Some s' -> length (s_got s') = length (s_got s).
Proof.
  unfold fill_tls_gd. intros H. destruct need.
  - apply bind_Some in H as (s1 & H1 & H). apply bind_Some in H as (s2 & H2 & H).
    apply put_got_length in H1. apply append_relgot_got in H2. destruct (indx =? 0).
    + apply put_got_length in H. rewrite H. unfold BFD_ASSERT. destruct (negb _); cbn [s_got say]; congruence.
    + apply bind_Some in H as (s3 & H3 & H). apply put_got_length in H3. apply append_relgot_got in H. congruence.
  - apply bind_Some in H as (s1 & H1 & H). apply put_got_length in H1, H. congruence.
Qed.

Lemma put_got_outside arch64 big v o s :
  Z.of_nat (length (s_got s)) < o + RISCV_ELF_WORD_BYTES arch64 -> put_got arch64 big v o s = None.
Proof.
  intros H. unfold put_got, bfd_put_NN, in_contents. rewrite (proj2 (word_bytes_xlen arch64)).
  rewrite (proj2 (Z.leb_gt _ _) H), andb_false_r. done.
Qed.

(** C38: entries of local thread-local symbols.  Take the entry that sizing gives
    a local symbol, the last of .got, and relocate the first access to it.  With
    one kind of access, general or initial executable, the entry is filled, no
    byte of .got outside of it changes, and no more relocations are appended to
    .rela.got than the one room was made for.  With both kinds the entry has two
    words, the third word is written too, which lies behind the section. *)
Theorem local_tls_entry arch64 big info htab isec local_tls_type is_ie rs r_symndx r_type howto s sgot l
    count z off z' size :
  let t := local_tls_type r_symndx in
  rs_h rs = None -> t .& (GOT_TLS_GD .| GOT_TLS_IE) <> 0 -> 0 < refcount count ->
  allocate_local_got arch64 info [(count, t)] z = Some ([off], z') ->
  dz_got z = Some off -> dz_got z' = Some size -> 0 <= off < 2 ^ 63 -> off .& 1 = 0 ->
  ht_sgot htab = Some sgot -> s_srelgot s = Some l -> s_local_got s !! r_symndx = Some off ->
  Z.of_nat (length (s_got s)) = size ->
  let result := reloc_tls_got arch64 big info htab isec local_tls_type is_ie rs r_symndx r_type howto s in
  (t .& GOT_TLS_GD = 0 \/ t .& GOT_TLS_IE = 0 ->
     exists f, result = Some f /\ got_filled off (size - off) 1 s (flow_state f)) /\
  (t .& GOT_TLS_GD <> 0 -> t .& GOT_TLS_IE <> 0 ->
     size = off + 2 * RISCV_ELF_WORD_BYTES arch64 /\ result = None).
Proof.
  intros t Hh Ht Hc Hal Hg Hz Ho Hev Hsgot Hl Hoff Hlen result. pose proof (word_small arch64) as HW.
  assert (Hsize : size = off + RISCV_ELF_WORD_BYTES arch64 + (if t .& GOT_TLS_GD =? 0 then 0 else RISCV_ELF_WORD_BYTES arch64)).
  { cbn [allocate_local_got] in Hal. rewrite (proj2 (Z.ltb_lt _ _) Hc), Hg in Hal. cbn [mbind option_bind] in Hal.
    apply bind_Some in Hal as (r & _ & Hal). cbn [mbind option_bind] in Hal. simplify_eq.
    cbn [dz_got with_got_sizes] in Hz. injection Hz as <-. apply Z.mod_small. destruct (_ =? 0); lia. }
  split.
  - intros Hone. pose proof (tls_entry_in_place arch64 big info htab isec local_tls_type is_ie rs r_symndx r_type howto s
      off sgot l) as H. unfold access_of, entry_offset_of in H. rewrite Hh in H. cbn zeta in H. fold t in H.
    cbn [RISCV_TLS_GD_IE_NEED_DYN_RELOC] in H. cbn [Z.eqb negb] in H.
    assert (Hw : got_words t * RISCV_ELF_WORD_BYTES arch64 = size - off).
    { unfold got_words. rewrite (proj2 (Z.eqb_neq _ _) Ht), Hsize. rewrite Z.land_lor_distr_r in Ht.
      destruct (Z.eqb_spec (t .& GOT_TLS_GD) 0) as [E|E], (Z.eqb_spec (t .& GOT_TLS_IE) 0) as [E'|E'];
        [|lia|lia|tauto]. rewrite E, E' in Ht. done. }
    rewrite Hw in H. destruct H as (f & Hf & [F1 (m & m' & B1 & B2 & B3)]); try done; [lia|lia|].
    exists f. split; [done|]. split; [done|]. exists m, m'. split_and!; [done|done|]. etrans; [exact B3|].
    unfold tls_relas. destruct (_ && true); [|lia].
    destruct Hone as [-> | ->]; rewrite !Z.eqb_refl; repeat (destruct (_ =? 0); try lia).
  - intros Hgd Hie. rewrite (proj2 (Z.eqb_neq _ _) Hgd) in Hsize. split; [lia|].
    unfold result, reloc_tls_got. rewrite Hh, Hoff, Hsgot. cbn [mbind option_bind]. fold t.
    rewrite (proj2 (Z.eqb_neq _ _) Hgd), (proj2 (Z.eqb_neq _ _) Hie), Hev. cbn [negb orb andb Z.eqb BFD_ASSERT].
    cbn [s_srelgot with_offsets]. rewrite Hl. cbn [mbind option_bind].
    destruct (RISCV_TLS_GD_IE_NEED_DYN_RELOC _ _ _) as [indx need].
    destruct (fill_tls_gd _ _ _ _ _ _ _ _ _) as [s1|] eqn:E1; [|done]. cbn [mbind option_bind].
    apply fill_tls_gd_length in E1. cbn [s_got with_offsets] in E1. unfold fill_tls_ie, GOT_ENTRY_SIZE.
    rewrite !put_got_outside by (rewrite E1; lia). by destruct need.
Qed.

(** In a position-independent link, a pc-relative reference to a local
    absolute symbol reads through a null pointer while the message that refuses
    it is put together. *)
Theorem local_absolute_pcrel_crashes arch64 info sec symbol_of rel relocs s section :
  bfd_link_pic info = true ->
  symbol_of (ELFNN_R_SYM arch64 (r_info rel)) = Some (SS_local true section) ->
  ELFNN_R_TYPE arch64 (r_info rel) = R_RISCV_PCREL_HI20 ->
  riscv_elf_check_relocs arch64 info sec symbol_of (rel :: relocs) s = None.
Proof.
  intros Hpic Hsym Ht. cbn [riscv_elf_check_relocs]. unfold check_reloc. rewrite Hsym, Ht.
  cbn [scan_switch]. unfold scan_pcrel_hi20. cbn [mbind option_bind]. by rewrite Hpic.
Qed.

(** A section of the library of [SizeDemo]: the address of the function through
    the GOT, and a general access to the variable and to a local one. *)
Module ScanDemo.

Definition sec : scan_section := mk_scan_section 1 true true true.
Definition symbol_of (i : Z) : option scan_symbol :=
  if i <? 3 then Some (SS_local (i =? 1) (Some 2)) else if i <? 6 then Some (SS_global (i - 2)) else None.
Definition rel (off sym type : Z) : Elf_Internal_Rela := mk_rela off (ELFNN_R_INFO true sym type) 0.
Definition relocs : list Elf_Internal_Rela :=
  [rel 0 3 R_RISCV_GOT_HI20; rel 8 4 R_RISCV_TLS_GD_HI20; rel 16 2 R_RISCV_TLS_GD_HI20; rel 24 3 R_RISCV_CALL_PLT].
Definition fresh (y : link_symbol) : link_symbol :=
  mk_symbol (with_tls_type GOT_UNKNOWN (sy_h y)) 0 0 false false false false [].
Definition s : scan_state :=
  mk_scan (list_to_map (map (fun y => (h_id (sy_h y), fresh y)) SizeDemo.globals)) None ∅ false false ∅ false [].
Definition s' : scan_state :=
  match riscv_elf_check_relocs true SizeDemo.info sec symbol_of relocs s with Some (_, s') => s' | None => s end.

Lemma scanned : riscv_elf_check_relocs true SizeDemo.info sec symbol_of relocs s = Some (true, s').
Proof. vm_compute. reflexivity. Qed.

End ScanDemo.

Lemma got_references_have_entries_witness :
  exists size, dz_got SizeDemo.sizes' = Some size /\
    (exists y', SizeDemo.globals' !! 1%nat = Some y' /\ 8 <= sy_got y' /\
       sy_got y' + used_end true R_RISCV_TLS_GD_HI20 (h_tls_type (sy_h y')) <= size) /\
    (exists fo off, SizeDemo.offs !! 0%nat = Some (Some fo) /\ fo !! 2%nat = Some off /\ 8 <= off /\
       off + used_end true R_RISCV_TLS_GD_HI20 GOT_TLS_GD <= size).
Proof.
  destruct (got_references_have_entries true SizeDemo.info ScanDemo.sec ScanDemo.symbol_of ScanDemo.relocs ScanDemo.s
    ScanDemo.s' (ScanDemo.rel 8 4 R_RISCV_TLS_GD_HI20) GOT_TLS_GD true SizeDemo.no_symbol SizeDemo.no_symbol
    SizeDemo.plt_section false false SizeDemo.no_section SizeDemo.no_section SizeDemo.files SizeDemo.globals []
    SizeDemo.sizes _ _ _ _ _ ScanDemo.scanned ltac:(right; left; reflexivity) ltac:(left; reflexivity) SizeDemo.sized_ok
    eq_refl SizeDemo.room) as (size & H1 & H2 & _).
  destruct (got_references_have_entries true SizeDemo.info ScanDemo.sec ScanDemo.symbol_of ScanDemo.relocs ScanDemo.s
    ScanDemo.s' (ScanDemo.rel 16 2 R_RISCV_TLS_GD_HI20) GOT_TLS_GD true SizeDemo.no_symbol SizeDemo.no_symbol
    SizeDemo.plt_section false false SizeDemo.no_section SizeDemo.no_section SizeDemo.files SizeDemo.globals []
    SizeDemo.sizes _ _ _ _ _ ScanDemo.scanned ltac:(right; right; left; reflexivity) ltac:(left; reflexivity)
    SizeDemo.sized_ok eq_refl SizeDemo.room) as (size' & H1' & _ & H3).
  assert (size' = size) as -> by congruence. exists size. split_and!; [exact H1| |].
  - destruct (H2 2 (ScanDemo.fresh (SizeDemo.symbol 2 6 6 3 0 true))
      (default (SizeDemo.symbol 0 0 0 0 0 true) (sn_symbols ScanDemo.s' !! 2)) 1%nat (SizeDemo.symbol 2 6 6 3 0 true))
      as (y' & Y1 & _ & Y2 & _ & _ & Y3); try (vm_compute; reflexivity); try (vm_compute; intuition congruence).
    exists y'. split_and!; [exact Y1|exact Y2|exact Y3].
  - destruct (H3 0%nat (mk_input_file [] (Some [(1, GOT_NORMAL); (0, 0); (2, GOT_TLS_GD)]))
      [(1, GOT_NORMAL); (0, 0); (2, GOT_TLS_GD)] (2, GOT_TLS_GD)) as (fo & off & O1 & O2 & O3 & O4);
      try (vm_compute; reflexivity); try (vm_compute; intuition congruence).
    exists fo, off. split_and!; [exact O1|exact O2|exact O3|exact O4].
Defined.

Lemma local_absolute_pcrel_crashes_witness :
  riscv_elf_check_relocs true SizeDemo.info ScanDemo.sec ScanDemo.symbol_of [ScanDemo.rel 0 1 R_RISCV_PCREL_HI20] ScanDemo.s
  = None.
Proof. apply (local_absolute_pcrel_crashes true _ _ _ _ _ _ (Some 2)); vm_compute; reflexivity. Defined.

(** A local variable of a shared library with the last entry of .got, at 8. *)
Module LocalDemo.

Definition htab : riscv_elf_link_hash_table :=
  mk_link_htab true false (Some 0x2000) None None None None (Some 0x3000) 0.
Definition isec : input_section := mk_input 0x1000 0x1000 true true false false false (fun o => o).
Definition variable : resolved_symbol :=
  mk_resolved None (Some (mk_local 0x10 6 (mk_def_section 0x3000 false false) None None)) 0x3010 false.
Definition state (size : nat) : link_state :=
  mk_link_state (replicate 4 0) (ScanDemo.rel 0 2 R_RISCV_TLS_GD_HI20) (replicate size 0) [] [] ∅ {[2 := 8]}
    (Some []) None None None riscv_init_pcrel_relocs None [].
Definition sizes (got relgot : Z) : dyn_sizes :=
  mk_sizes None None None None (Some got) (Some relgot) None ∅ 1 false false.

End LocalDemo.

Lemma local_tls_entry_witness :
  exists howto, riscv_elf_rtype_to_howto R_RISCV_TLS_GD_HI20 = Some howto /\
    (exists f, reloc_tls_got true false SizeDemo.info LocalDemo.htab LocalDemo.isec (fun _ => GOT_TLS_GD) false
                 LocalDemo.variable 2 R_RISCV_TLS_GD_HI20 howto (LocalDemo.state 24) = Some f /\
               got_filled 8 16 1 (LocalDemo.state 24) (flow_state f)) /\
    24 = 8 + 2 * 8 /\
    reloc_tls_got true false SizeDemo.info LocalDemo.htab LocalDemo.isec (fun _ => GOT_TLS_GD .| GOT_TLS_IE) false
      LocalDemo.variable 2 R_RISCV_TLS_GD_HI20 howto (LocalDemo.state 24) = None.
Proof.
  eexists. split; [vm_compute; reflexivity|]. split.
  - apply (local_tls_entry true false SizeDemo.info LocalDemo.htab LocalDemo.isec (fun _ => GOT_TLS_GD) false
      LocalDemo.variable 2 R_RISCV_TLS_GD_HI20 _ (LocalDemo.state 24) 0x2000 [] 1 (LocalDemo.sizes 8 0) 8
      (LocalDemo.sizes 24 24) 24); try (vm_compute; reflexivity); try (vm_compute; intuition congruence).
  - apply (local_tls_entry true false SizeDemo.info LocalDemo.htab LocalDemo.isec (fun _ => GOT_TLS_GD .| GOT_TLS_IE) false
      LocalDemo.variable 2 R_RISCV_TLS_GD_HI20 _ (LocalDemo.state 24) 0x2000 [] 1 (LocalDemo.sizes 8 0) 8
      (LocalDemo.sizes 24 24) 24); try (vm_compute; reflexivity); try (vm_compute; intuition congruence).
Defined.
