(* ===== verification/Machine.v ===== *)
(** * Choosing a machine by name (bfd/cpu-riscv.c, bfd/archures.c)

    The three machines of the architecture, [riscv_scan] with the
    [bfd_default_scan] it calls, and the search of [bfd_scan_arch] among them. *)
From Stdlib Require Import ZArith Bool Lia Ascii String.
From stdpp Require Import base list strings.
From S2P Require Import Prelude Expr.

#[local] Open Scope Z_scope.
#[local] Open Scope c_scope.
#[local] Open Scope list_scope.

Record bfd_arch_info_type : Set := mk_arch_info {
  bits_per_word : Z;
  mach : Z;
  arch_name : string;
  printable_name : string;
  the_default : bool;
}.

Definition bfd_mach_riscv32 : Z := 132.
Definition bfd_mach_riscv64 : Z := 164.

Definition riscv64_info : bfd_arch_info_type := mk_arch_info 64 bfd_mach_riscv64 "riscv" "riscv:rv64" false.
Definition riscv32_info : bfd_arch_info_type := mk_arch_info 32 bfd_mach_riscv32 "riscv" "riscv:rv32" false.
Definition bfd_riscv_arch : bfd_arch_info_type := mk_arch_info 64 0 "riscv" "riscv" true.

(** The chain of [bfd_riscv_arch]. *)
Definition riscv_archs : list bfd_arch_info_type := [bfd_riscv_arch; riscv64_info; riscv32_info].

(** [strcasecmp (s, t) == 0]. *)
Definition strcaseeq (s t : list ascii) : bool :=
  match strip_prefix_case t s with Some [] => true | _ => false end.

(** The characters before and after the first colon. *)
Fixpoint split_colon (s : list ascii) : option (list ascii * list ascii) :=
  match s with
  | [] => None
  | ":"%char :: s => Some ([], s)
  | c :: s => '(a, b) ← split_colon s; Some (c :: a, b)
  end.

(** The loop over the characters that agree: what is left of the first. *)
Fixpoint chew (src tst : list ascii) : list ascii :=
  match src, tst with
  | c :: src', d :: tst' => if Ascii.eqb c d then chew src' tst' else src
  | _, _ => src
  end.

(** [bfd_default_scan (info, string)] for a machine of this architecture; the
    numbers it goes on with name machines of others. *)
Definition bfd_default_scan (info : bfd_arch_info_type) (s : list ascii) : bool :=
  let arch := chars (arch_name info) in
  let printable := chars (printable_name info) in
  if strcaseeq s arch && the_default info then true
  else if strcaseeq s printable then true
  else if (match split_colon printable with
           | None =>
               match strip_prefix_case arch s with
               | Some (":"%char :: r) => strcaseeq r printable
               | Some r => strcaseeq r printable
               | None => false
               end
           | Some (a, m) =>
               match strip_prefix_case a s with Some r => strcaseeq r m | None => false end
           end) then true
  else
    match (match chew s arch with ":"%char :: r => r | r => r end) with
    | [] => the_default info
    | _ :: _ => false
    end.

Definition riscv_scan (info : bfd_arch_info_type) (s : list ascii) : bool :=
  bfd_default_scan info s
  || (negb (the_default info)
      && match strip_prefix_case (chars (printable_name info)) s with Some _ => true | None => false end).

(** [bfd_scan_arch (string)] among the machines of the architecture. *)
Definition bfd_scan_arch (s : list ascii) : option bfd_arch_info_type :=
  List.find (fun info => riscv_scan info s) riscv_archs.

(** ** Properties *)

(** A name for the machine [m]: riscv:m with anything after it, or riscvm. *)
Definition names_machine (m : string) (s : list ascii) : bool :=
  match strip_prefix_case (chars (String.append "riscv:" m)) s with
  | Some _ => true
  | None => strcaseeq s (chars (String.append "riscv" m))
  end.

Lemma chew_length s t : (length s <= length (chew s t) + length t)%nat.
Proof.
  revert t. induction s as [|c s IH]; intros [|d t]; cbn [chew length]; try lia.
  destruct (Ascii.eqb c d); cbn [length]; [|lia]. specialize (IH t). lia.
Qed.

Lemma strip_prefix_length p s r : strip_prefix_case p s = Some r -> length s = (length p + length r)%nat.
Proof.
  revert s. induction p as [|c p IH]; intros [|d s]; cbn [strip_prefix_case length]; try congruence.
  1,2: intros [= <-]; reflexivity.
  destruct (tolower c =? tolower d); [|done]. intros H. by rewrite (IH s H).
Qed.

Lemma chew_long s t : (length t + 1 < length s)%nat ->
  (match chew s t with ":"%char :: r => r | r => r end) <> [].
Proof.
  intros H. pose proof (chew_length s t) as Hc. destruct (chew s t) as [|c [|d r]]; cbn [length] in Hc; [lia|lia|].
  by destruct c as [[] [] [] [] [] [] [] []].
Qed.

Lemma strip_app p q s : strip_prefix_case (p ++ q) s = strip_prefix_case p s ≫= strip_prefix_case q.
Proof.
  revert s. induction p as [|c p IH]; intros [|d s]; cbn [app strip_prefix_case]; try done.
  destruct (tolower c =? tolower d); [apply IH|done].
Qed.

Lemma append_chars a b : chars (String.append a b) = chars a ++ chars b.
Proof.
  induction a as [|c a IH]; [done|]. cbn [chars app]. rewrite <- IH. reflexivity.
Qed.

Lemma tolower_colon c : (tolower ":" =? tolower c) = true -> c = ":"%char.
Proof. destruct c as [[] [] [] [] [] [] [] []]; try discriminate; reflexivity. Qed.

(** The two forms of a name, told apart by the character after riscv. *)
Lemma names_machine_split m s :
  names_machine m s = match strip_prefix_case (chars "riscv") s with
                      | Some r => match strip_prefix_case (chars ":") r ≫= strip_prefix_case (chars m) with
                                  | Some _ => true
                                  | None => strcaseeq r (chars m)
                                  end
                      | None => false
                      end.
Proof.
  unfold names_machine, strcaseeq. rewrite !append_chars.
  change (chars "riscv:") with (chars "riscv" ++ chars ":"). rewrite <- app_assoc, !strip_app.
  destruct (strip_prefix_case (chars "riscv") s) as [r|]; [|done]. cbn [mbind option_bind].
  by rewrite strip_app.
Qed.

(** A machine is found by exactly its names. *)
Lemma riscv_scan_machine b k m s :
  riscv_scan (mk_arch_info b k "riscv" (String.append "riscv:" m) false) s = names_machine m s.
Proof.
  rewrite names_machine_split. unfold riscv_scan, bfd_default_scan, strcaseeq.
  cbn [arch_name printable_name the_default negb andb].
  rewrite andb_false_r, append_chars.
  change (split_colon (chars "riscv:" ++ chars m)) with (Some (chars "riscv", chars m)).
  change (chars "riscv:") with (chars "riscv" ++ chars ":"). rewrite <- app_assoc, !strip_app.
  destruct (strip_prefix_case (chars "riscv") s) as [r|]; cbn [mbind option_bind].
  - rewrite strip_app. destruct (_ ≫= _) as [[|z]|]; cbn [orb]; [done| |].
    + destruct (strip_prefix_case (chars m) r) as [[|]|]; try done.
      all: destruct (match chew s _ with ":"%char :: r0 => r0 | r0 => r0 end); done.
    + destruct (strip_prefix_case (chars m) r) as [[|]|]; try done.
      all: destruct (match chew s _ with ":"%char :: r0 => r0 | r0 => r0 end); done.
  - by destruct (match chew s _ with ":"%char :: r0 => r0 | r0 => r0 end).
Qed.

(** A name of a width is no name of the architecture. *)
Lemma width_no_arch m r z :
  strip_prefix_case (chars (String "r" (String "v" m))) r = Some z ->
  strcaseeq r (chars "riscv") = false /\ strip_prefix_case (chars ":") r = None /\ (2 <= length r)%nat.
Proof.
  intros H. pose proof (strip_prefix_length _ _ _ H) as Hl. revert H Hl.
  destruct r as [|c [|d r]]; cbn; [done|by destruct (_ =? _)|].
  destruct (tolower "r" =? tolower c) eqn:Ec; [|done].
  destruct (tolower "v" =? tolower d) eqn:Ed; [|done]. intros _ Hl. unfold strcaseeq.
  cbn [chars String.list_ascii_of_string strip_prefix_case]. rewrite Ec.
  apply Z.eqb_eq in Ec, Ed. rewrite <- Ec, <- Ed. split; [done|]. split; [done|lia].
Qed.

(** Whatever names a machine of a width is not taken for the default. *)
Lemma default_not_named m s :
  names_machine (String "r" (String "v" m)) s = true -> riscv_scan bfd_riscv_arch s = false.
Proof.
  rewrite names_machine_split. destruct (strip_prefix_case (chars "riscv") s) as [r|] eqn:Er; [|done].
  intros H. pose proof (strip_prefix_length _ _ _ Er) as Hl. change (length (chars "riscv")) with 5%nat in Hl.
  unfold riscv_scan, bfd_default_scan. cbn [arch_name printable_name the_default bfd_riscv_arch negb].
  rewrite andb_false_l, orb_false_r. change (split_colon (chars "riscv")) with (@None (list ascii * list ascii)).
  assert (Hr : (2 <= length r)%nat /\ match r with ":"%char :: r => strcaseeq r (chars "riscv")
                                       | r => strcaseeq r (chars "riscv") end = false).
  { destruct (strip_prefix_case (chars ":") r) as [r'|] eqn:Ec; cbn [mbind option_bind] in H.
    - destruct r as [|c r]; [done|]. cbn in Ec. destruct (tolower ":" =? tolower c) eqn:E; [|done].
      apply tolower_colon in E. injection Ec as <-. subst c.
      destruct (strip_prefix_case (chars (String "r" (String "v" m))) r) as [z|] eqn:Ez.
      + apply width_no_arch in Ez as (H1 & _ & H3). cbn [length]. split; [lia|done].
      + unfold strcaseeq in H. cbn in H. done.
    - unfold strcaseeq in H.
      destruct (strip_prefix_case (chars (String "r" (String "v" m))) r) as [z|] eqn:Ez; [|done].
      apply width_no_arch in Ez as (H1 & _ & H3). split; [done|].
      destruct r as [|c r]; [done|]. cbn in Ec.
      destruct c as [[] [] [] [] [] [] [] []]; first [exact H1|discriminate Ec]. }
  destruct Hr as [Hr2 Hr]. unfold strcaseeq at 1 2. rewrite Er.
  destruct r as [|c r]; [cbn in Hr2; lia|]. cbn [andb].
  assert (Hlong : (match chew s (chars "riscv") with ":"%char :: r0 => r0 | r0 => r0 end) <> [])
    by (apply chew_long; change (length (chars "riscv")) with 5%nat; lia).
  destruct (match chew s (chars "riscv") with ":"%char :: r0 => r0 | r0 => r0 end) as [|x l]; [done|].
  by destruct c as [[] [] [] [] [] [] [] []]; rewrite Hr.
Qed.

(** No name stands for both widths. *)
Lemma names_disjoint s : names_machine "rv64" s = true -> names_machine "rv32" s = false.
Proof.
  rewrite !names_machine_split. destruct (strip_prefix_case (chars "riscv") s) as [r|]; [|done].
  assert (H64 : forall r z, strip_prefix_case (chars "rv64") r = Some z -> strip_prefix_case (chars "rv32") r = None).
  { intros [|a [|b [|c l]]] z; cbn; [done|by repeat case_match..|].
    destruct (tolower "r" =? tolower a); [|done]. destruct (tolower "v" =? tolower b); [|done].
    destruct (tolower "6" =? tolower c) eqn:E; [|done]. apply Z.eqb_eq in E. rewrite <- E. done. }
  unfold strcaseeq. destruct (strip_prefix_case (chars ":") r) as [r'|] eqn:Ec; cbn [mbind option_bind].
  - assert (Hn : forall m z, strip_prefix_case (chars (String "r" (String "v" m))) r = Some z -> False)
      by (intros m z Hz; apply width_no_arch in Hz as (_ & Hc & _); congruence).
    destruct (strip_prefix_case (chars "rv64") r') eqn:E1.
    + rewrite (H64 _ _ E1). intros _. destruct (strip_prefix_case (chars "rv32") r) eqn:E2; [|done].
      by destruct (Hn "32"%string _ E2).
    + destruct (strip_prefix_case (chars "rv64") r) eqn:E2; [|done]. by destruct (Hn "64"%string _ E2).
  - destruct (strip_prefix_case (chars "rv64") r) eqn:E1; [|done]. by rewrite (H64 _ _ E1).
Qed.

(** Names select the width: the search of [bfd_scan_arch] ends at the 64-bit
    machine exactly for riscv:rv64 with any extensions after it, or riscvrv64,
    and at the 32-bit machine exactly for the same with 32, in upper or lower
    case; no such name is taken for the default machine before. *)
Theorem scan_selects_width (s : list ascii) :
  (bfd_scan_arch s = Some riscv64_info <-> names_machine "rv64" s = true) /\
  (bfd_scan_arch s = Some riscv32_info <-> names_machine "rv32" s = true).
Proof.
  unfold bfd_scan_arch, riscv_archs. cbn [List.find].
  assert (H64 : riscv_scan riscv64_info s = names_machine "rv64" s) by apply riscv_scan_machine.
  assert (H32 : riscv_scan riscv32_info s = names_machine "rv32" s) by apply riscv_scan_machine.
  rewrite H64, H32. clear H64 H32.
  destruct (riscv_scan bfd_riscv_arch s) eqn:Ed.
  - assert (Hn : forall m, names_machine (String "r" (String "v" m)) s <> true)
      by (intros m Hm; apply default_not_named in Hm; congruence).
    split; (split; [discriminate|]); intros H; by destruct (Hn _ H).
  - destruct (names_machine "rv64" s) eqn:E64.
    + rewrite (names_disjoint s E64). split; split; done.
    + destruct (names_machine "rv32" s); split; split; done.
Qed.
