(* ===== verification/Directives.v ===== *)
(** * Directives of the assembler (gas/config/tc-riscv.c)

    The .insn directive in its three forms, the directives for thread-local
    offsets and LEB128 numbers, and the passes at the end of assembly that turn
    what they left into relocations: [riscv_insert_uleb128_fixes],
    [riscv_pre_output_hook], [tc_gen_reloc]. *)
From Stdlib Require Import ZArith Bool Lia Ascii String.
From stdpp Require Import base list strings gmap.
From S2P Require Import Prelude RiscvH OpcodeMatch OpcodeTable Validate SubsetTables Subset Bytes Howto Fixups Relax Align Regs Expr Ip Mapping Options Emit.

#[local] Open Scope Z_scope.
#[local] Open Scope c_scope.
#[local] Open Scope list_scope.

(** ** Values of .insn *)

Definition CHARS_PER_LITTLENUM : Z := 2.

(** [generic_bignum_to_int32] (gas/expr.c). *)
Definition generic_bignum_to_int32 (generic_bignum : list Z) : option Z :=
  d0 ← generic_bignum !! 0%nat; d1 ← generic_bignum !! 1%nat;
  Some (u32 ((d1 .& 0xffff) << 16) .| (d0 .& 0xffff)).

(** The loop that counts the bytes of a littlenum; it has 16 bits. *)
Fixpoint littlenum_bytes (fuel : nat) (lval : Z) : nat :=
  match fuel with
  | O => 0
  | S fuel => if lval =? 0 then 0%nat else S (littlenum_bytes fuel (lval >> 8))
  end.

(** The entry that [riscv_ip_hardcode] allocates. *)
Definition hardcode_opcode (w : Z) : riscv_opcode := mk_opcode "" 0 INSN_CLASS_NONE "" w 0 None 0.

(** What [riscv_ip_hardcode] returns: the instruction, the message it was
    given, one of its own; [HC_overrun] is a read outside of [generic_bignum]. *)
Inductive hardcode_outcome : Type :=
| HC_ok (ip : riscv_cl_insn) (st : ip_state)
| HC_given (st : ip_state)
| HC_error (m : value_msg) (st : ip_state)
| HC_overrun.

Section insn.

(** [generic_bignum] is what the array holds after [expression] has read a big
    number from a text. *)
Context (expression : bool -> list ascii -> expressionS * list ascii * list diag).
Context (generic_bignum : list ascii -> list Z).

(** One turn of the loop: the value, if it is one, and the text after it. *)
Definition read_value (str : list ascii) (st : ip_state)
  : option (option Z) * list ascii * ip_state :=
  let '(e, rest, ds) := expression false str in
  (match X_op e with
   | O_constant => Some (Some (u64 (X_add_number e)))
   | O_big => Some (generic_bignum_to_int32 (generic_bignum str))
   | _ => None
   end, rest, report (set_imm st e) ds).

(** The bytes of a big number of [n] littlenums, the last of which has [llen]
    bytes. *)
Definition littlenum_chars (digits : list Z) (n llen : nat) : list Z :=
  concat (map (fun d => number_to_chars_littleendian d 2) (take n digits))
  ++ number_to_chars_littleendian (nth n digits 0) llen.

(** What follows the loop, for the values read, the text of the last one and
    what is left of the line. *)
Definition hardcode_end (first : option Z) (w : Z) (str rest : list ascii) (st : ip_state) : hardcode_outcome :=
  match rest with
  | _ :: _ => HC_error VM_unrecognized st
  | [] =>
      let insn := hardcode_opcode w in
      let bytes := riscv_insn_length w in
      if (match first with Some v => negb (v =? bytes) | None => false end) then HC_error VM_length_conflict st
      else if X_op_is st O_big then
        let digits := generic_bignum str in
        let top := X_num st - 1 in
        if (0 <=? top) && (top <? Z.of_nat (length digits)) then
          let llen := littlenum_bytes 2 (nth (Z.to_nat top) digits 0) in
          let repr_bytes := u32 (top * CHARS_PER_LITTLENUM + Z.of_nat llen) in
          if bytes <? repr_bytes then HC_error VM_length_conflict st
          else
            let long := littlenum_chars digits (Z.to_nat top) llen
                        ++ replicate (Z.to_nat (bytes - repr_bytes)) 0 in
            HC_ok (mk_cl_insn insn w (fun i => nth i long 0) None) st
        else HC_overrun
      else if (bytes <? 8) && negb (w >> (8 * bytes) =? 0) then HC_error VM_length_conflict st
      else HC_ok (mk_insn insn w None) st
  end.

(** [riscv_ip_hardcode (str, ip, imm_expr, error)]; the loop reads a second
    value after a comma, unless the first one is a big number. *)
Definition riscv_ip_hardcode (str : list ascii) (st : ip_state) : hardcode_outcome :=
  match read_value str st with
  | (None, _, st) => HC_given st
  | (Some None, _, _) => HC_overrun
  | (Some (Some v), rest, st) =>
      match rest, X_op_is st O_big with
      | ","%char :: rest, false =>
          match read_value rest st with
          | (None, _, st) => HC_error VM_not_constant st
          | (Some None, _, _) => HC_overrun
          | (Some (Some w), rest', st) => hardcode_end (Some v) w rest rest' st
          end
      | _, _ => hardcode_end None v str rest st
      end
  end.

(** ** The .insn directive *)

Context (ob : obstack).
Context (strtof : list ascii -> bool * option (Z * Z) * list ascii).
Context (ulong : Z) (text : bool).

(** [s_riscv_insn]; [str] is the line up to its end. *)
Definition s_riscv_insn (str : list ascii) : em unit :=
  mapping_insn text ;*
  let* st := get_state in
  let after i := modify (fun st => set_cfg st (with_priv_used (cfg st) (explicit_priv_attr i)) i (smap st)) in
  let append mo ip i :=
    if pinfo mo =? INSN_MACRO then stop Assert_failed
    else append_insn ob ip (Some (addr_of (imm_expr i))) (imm_reloc i) in
  match riscv_ip (env_of ulong (cfg st)) expression strtof insn_type_hash str (set_reloc (ipg st) None) with
  | IP_fatal _ => stop Internal_error
  | IP_overrun _ => stop Text_overrun
  | IP_ok mo i => after i ;* append mo (mk_insn mo (insn_opcode i) None) i
  | IP_error msg missing_ext i =>
      match riscv_ip_hardcode str i with
      | HC_overrun => stop Bignum_overrun
      | HC_given i => after i ;* as_bad (EM_statement msg missing_ext)
      | HC_error m i => after i ;* as_bad (EM_value m missing_ext)
      | HC_ok ip i => after i ;* append (ci_mo ip) ip i
      end
  end.

End insn.

(** ** Data directives *)

(** Bytes at [where_] of [frag_now]. *)
Definition put_bytes (bytes : list Z) (where_ : nat) : em unit := fun st =>
  if (where_ + length bytes <=? length (frag_buf st))%nat
  then Ok tt (set_frags st (frags st) (putb bytes (frag_buf st) where_) (frag_used st))
  else Stop Memory_overrun.

(** [fix_new_exp (frag_now, where, size, e, 0, r)]: the fixup is not marked for
    relaxation and belongs to no macro. *)
Definition fix_new_here (where_ size : nat) (e : address_expr) (r : reloc) : em unit :=
  (if bool_decide (ae_op e = O_register) then as_bad EM_register_expression else ret tt) ;*
  modify (fun st => set_fixes st (fixes st ++ [mk_out_fix (Some (frag_now st)) where_ size e r false (-1)])).

(** [riscv_mapping_state (to, max_chars, fr_align_code)] for [frag_now]. *)
Definition mapping_state (text : bool) (to_state : riscv_seg_mstate) (max_chars : nat) (fr_align_code : bool)
  : em unit := fun st =>
  match arch_str (subset_list (rps (cfg st))) with
  | None => Stop Null_arch_str
  | Some a =>
      match riscv_mapping_state text a (frag_now st) (frag_used st) to_state max_chars fr_align_code (smap st) with
      | Some m => Ok tt (set_cfg st (cfg st) (ipg st) m)
      | None => Stop Internal_error
      end
  end.

(** [md_cons_align]. *)
Definition mapping_data (text : bool) : em unit := mapping_state text MAP_DATA 0 false.

Section data.

Context (ob : obstack).
Context (expression : bool -> list ascii -> expressionS * list ascii * list diag).

(** [s_dtprel (bytes)]; after an error the rest of the line is skipped and the
    number is laid out all the same. *)
Definition s_dtprel (bytes : nat) (str : list ascii) : em unit :=
  let '(ex, rest, ds) := expression false str in
  modify (fun st => set_cfg st (cfg st) (report (ipg st) ds) (smap st)) ;*
  let ok := op_is (X_op ex) O_symbol in
  (if ok then ret tt else as_bad EM_dtprel) ;*
  let* where_ := frag_more ob bytes in
  let* st := get_state in
  put_bytes (md_number_to_chars (big_endian (cfg st)) 0 bytes) where_ ;*
  fix_new_here where_ bytes (addr_of ex)
    (if (bytes =? 8)%nat then BFD_RELOC_RISCV_TLS_DTPREL64 else BFD_RELOC_RISCV_TLS_DTPREL32) ;*
  if ok then match skip_space rest with [] => ret tt | _ :: _ => as_bad EM_junk_at_end end else ret tt.

(** ** LEB128 numbers (gas/read.c) *)

(** 64 bits have ten groups of seven. *)
Definition LEB128_MAX : nat := 10.

Definition sleb128_more (value byte : Z) : bool :=
  negb (((value =? 0) && (byte .& 0x40 =? 0)) || ((value =? -1) && negb (byte .& 0x40 =? 0))).

Fixpoint sizeof_sleb128 (fuel : nat) (value : Z) : nat :=
  match fuel with
  | O => 0
  | S fuel =>
      let byte := value .& 0x7f in
      let value := value >> 7 in
      S (if sleb128_more value byte then sizeof_sleb128 fuel value else 0)
  end.

Fixpoint sizeof_uleb128 (fuel : nat) (value : Z) : nat :=
  match fuel with
  | O => 0
  | S fuel => let value := value >> 7 in S (if negb (value =? 0) then sizeof_uleb128 fuel value else 0)
  end.

(** [value] is a [valueT]. *)
Definition sizeof_leb128 (value : Z) (sign : bool) : nat :=
  if sign then sizeof_sleb128 LEB128_MAX (s64 value) else sizeof_uleb128 LEB128_MAX value.

Fixpoint output_sleb128 (fuel : nat) (value : Z) : list Z :=
  match fuel with
  | O => []
  | S fuel =>
      let byte := value .& 0x7f in
      let value := value >> 7 in
      if sleb128_more value byte then byte .| 0x80 :: output_sleb128 fuel value else [byte]
  end.

Fixpoint output_uleb128 (fuel : nat) (value : Z) : list Z :=
  match fuel with
  | O => []
  | S fuel =>
      let byte := value .& 0x7f in
      let value := value >> 7 in
      if negb (value =? 0) then byte .| 0x80 :: output_uleb128 fuel value else [byte]
  end.

Definition output_leb128 (value : Z) (sign : bool) : list Z :=
  if sign then output_sleb128 LEB128_MAX (s64 value) else output_uleb128 LEB128_MAX value.

(** [emit_leb128_expr] for a constant whose sign is that of its number, in a
    section that has contents. *)
Definition emit_leb128_constant (text : bool) (value : Z) (sign : bool) : em unit :=
  mapping_data text ;*
  let size := sizeof_leb128 value sign in
  let* where_ := frag_more ob size in
  let bytes := output_leb128 value sign in
  if (size <? length bytes)%nat then stop Internal_error else put_bytes bytes where_.

(** ** Alignment for the linker *)

(** [riscv_frag_align_code (n)] in a section: the nops, their fixup, the mapping
    symbol, and a new frag behind them. *)
Definition align_code (text : bool) (n : nat) : em bool :=
  let* st := get_state in
  match riscv_frag_align_code (rvc (opts (cfg st))) (relax (opts (cfg st))) n with
  | None => stop Out_of_fuel
  | Some Align_none => ret true
  | Some Align_generic => ret false
  | Some (Align_nops nops worst_case_bytes) =>
      let* where_ := frag_more ob (length nops) in
      put_bytes nops where_ ;*
      fix_new_here where_ 0 (mk_addr O_constant None worst_case_bytes) BFD_RELOC_RISCV_ALIGN ;*
      mapping_state text MAP_INSN (length nops) true ;*
      new_frag ob (chunk_size ob) ;*
      ret true
  end.

End data.

(** ** Values resolved at the end *)

(** The expression of an expression symbol. *)
Inductive value_op : Set := V_constant | V_symbol | V_subtract | V_other.
Record value_expr : Type := mk_value {
  ve_op : value_op;
  ve_add_symbol : option symbol;
  ve_op_symbol : option symbol;
  ve_add_number : Z;
}.

Inductive leb128_msg : Set := LM_sleb128 | LM_uleb128.

(** What [s_riscv_leb128 (sign)] reports of the expression before it goes on
    with [s_leb128]. *)
Definition s_riscv_leb128 (sign : bool) (op : value_op) : option leb128_msg :=
  match sign, op with
  | true, V_constant => None
  | true, _ => Some LM_sleb128
  | false, (V_constant | V_subtract) => None
  | false, _ => Some LM_uleb128
  end.

(** A frag at the end of assembly; [fr_symbol] is given by its expression. *)
Inductive end_frag_type : Set := rs_leb128 | rs_cfa | rs_rest.
Record end_frag : Type := mk_end_frag {
  ef_type : end_frag_type;
  ef_symbol : option value_expr;
  ef_subtype : Z;
  ef_fix : nat;
  ef_offset : nat;
}.

(** The frag [emit_leb128_expr] leaves for a number that is not known. *)
Definition leb128_frag (fix_ : nat) (sign : bool) (e : value_expr) : end_frag :=
  mk_end_frag rs_leb128 (Some e) (Z.b2z sign) fix_ 0.

(** [fix_new_internal] (gas/write.c), which [fix_new_exp] calls with one symbol
    or with the two of a difference. *)
Definition fix_new_internal (where_ size : nat) (add sub : option symbol) (offset : Z) (r : reloc) : fixS :=
  mk_fix r add sub where_ size offset 0 false false (-1) Own_frag.

(** [riscv_insert_uleb128_fixes] on the frags of the first subsection: the
    fixups in order, each with the number of its frag; [None] is the failed
    assertion. *)
Fixpoint riscv_insert_uleb128_fixes (k : nat) (frags : list end_frag) : option (list (nat * fixS)) :=
  match frags with
  | [] => Some []
  | f :: frags =>
      match ef_type f, ef_symbol f with
      | rs_leb128, Some (mk_value V_subtract add sub num) =>
          if negb (ef_subtype f =? 0) then None
          else
            l ← riscv_insert_uleb128_fixes (S k) frags;
            Some ((k, fix_new_internal (ef_fix f) 0 add None num BFD_RELOC_RISCV_SET_ULEB128)
                  :: (k, fix_new_internal (ef_fix f) 0 sub None 0 BFD_RELOC_RISCV_SUB_ULEB128)
                  :: l)
      | _, _ => riscv_insert_uleb128_fixes (S k) frags
      end
  end.

(** A section is the list of its subsections.  [riscv_md_finish] runs before
    these are chained together. *)
Definition riscv_md_finish (relax : bool) (sections : list (list (list end_frag)))
  : option (list (list (nat * fixS))) :=
  if relax then mapM (fun sec => riscv_insert_uleb128_fixes 0 (hd [] sec)) sections
  else Some (map (fun _ => []) sections).

(** [riscv_pre_output_hook] on one section: a fixup for every advance of the
    call-frame information, with the number of its subsection and frag. *)
Definition cfa_fix (f : end_frag) : list fixS :=
  match ef_type f, ef_symbol f with
  | rs_cfa, Some e =>
      [fix_new_internal (ef_offset f) 1 (ve_add_symbol e) (ve_op_symbol e) 0 BFD_RELOC_RISCV_CFA]
  | _, _ => []
  end.
Definition riscv_pre_output_hook (sec : list (list end_frag)) : list (nat * nat * fixS) :=
  concat (imap (fun i frch => concat (imap (fun k f => map (pair (i, k)) (cfa_fix f)) frch)) sec).

(** ** Relocations of the object file *)

Record output_reloc : Type := mk_output_reloc {
  ar_sym : option symbol;
  ar_address : Z;
  ar_addend : Z;
  ar_howto : option reloc_howto_type;
}.

(** [tc_gen_reloc (section, fixp)]; [None] after "cannot represent". *)
Definition tc_gen_reloc (fr_address : Z) (f : fixS) : option output_reloc :=
  let howto := riscv_reloc_type_lookup (fx_r_type f) in
  let reloc := mk_output_reloc (fx_addsy f) (u64 (fr_address + Z.of_nat (fx_where f))) (fx_addnumber f) howto in
  match howto with
  | Some _ => Some reloc
  | None =>
      match fx_r_type f, fx_addsy f, fx_subsy f with
      | (BFD_RELOC_16 | BFD_RELOC_8), Some _, Some _ => Some reloc
      | _, _, _ => None
      end
  end.

(** ** Names for call-frame information and attributes *)

(** [tc_riscv_regname_to_dw2regnum]; [None] is the error.  The warnings of the
    CSR lookup come along. *)
Definition tc_riscv_regname_to_dw2regnum (env : as_env) (regname : string) : option Z * list diag :=
  match (reg_lookup_internal env regname RCLASS_GPR).1 with
  | Some reg => (Some reg, [])
  | None =>
      match (reg_lookup_internal env regname RCLASS_FPR).1 with
      | Some reg => (Some (reg + 32), [])
      | None =>
          match (reg_lookup_internal env regname RCLASS_VECR).1 with
          | Some reg => (Some (reg + 96), [])
          | None =>
              let '(reg, ds) := reg_lookup_internal env regname RCLASS_CSR in
              ((fun reg => reg + 4096) <$> reg, ds)
          end
      end
  end.

Definition attribute_table : list (string * Z) :=
  concat (map (fun '(nm, tag) => [(nm, tag); (String.append "Tag_RISCV_" nm, tag)])
    [("arch", 5); ("priv_spec", 8); ("priv_spec_minor", 10); ("priv_spec_revision", 12);
     ("unaligned_access", 6); ("stack_align", 4)]%string).

(** [riscv_convert_symbolic_attribute]; the null name is [None]. *)
Definition riscv_convert_symbolic_attribute (name : option string) : Z :=
  match name with
  | None => -1
  | Some s => match List.find (fun p => String.eqb s p.1) attribute_table with
              | Some p => p.2
              | None => -1
              end
  end.
