(* ===== verification/DirectivesSpec.v ===== *)
(** * Properties of the directives

    A value given to .insn is assembled exactly if it is an instruction of the
    length its low bits announce, whatever its size; LEB128 constants are laid
    out so that they read back; DWARF register numbers do not clash. *)
From Stdlib Require Import ZArith Bool Lia Ascii String.
From stdpp Require Import base list strings gmap.
From S2P Require Import Prelude RiscvH Words OpcodeMatch OpcodeTable Validate CsrTable SubsetTables Subset Bytes Howto Fixups Relax Align AlignSpec Regs RegsSpec Expr Ip IpSpec Mapping Options OptionsSpec LinkReloc LinkRelocSpec Emit EmitSpec AssembleSpec Directives.

#[local] Open Scope Z_scope.
#[local] Open Scope c_scope.
#[local] Open Scope list_scope.

(** ** Big numbers *)

(** The number [n] littlenums stand for. *)
Definition big_value (digits : list Z) (n : nat) : Z := word_le (concat (map (bytes_le 2) (take n digits))).

(** What [expression] leaves for a number of more than 64 bits: its littlenums,
    without leading zeros. *)
Record big_number (digits : list Z) (n : Z) : Prop := {
  bn_length : 4 < n <= Z.of_nat (length digits) /\ n <= 20;  (* SIZE_OF_LARGE_NUMBER *)
  bn_range : Forall (fun d => 0 <= d < 2 ^ 16) digits;
  bn_top : nth (Z.to_nat (n - 1)) digits 0 <> 0;
}.

Lemma bytes_le_range n w : Forall (fun b => 0 <= b < 256) (bytes_le n w).
Proof.
  revert w. induction n as [|n IH]; intros w; cbn; constructor; [apply Z.mod_pos_bound; lia|apply IH].
Qed.

Lemma littlenum_bytes_exact d :
  0 <= d < 2 ^ 16 -> d <> 0 ->
  let llen := littlenum_bytes 2 d in
  (1 <= llen <= 2)%nat /\ bytes_le 2 d = bytes_le llen d ++ replicate (2 - llen) 0 /\
  2 ^ (8 * (Z.of_nat llen - 1)) <= d.
Proof.
  intros Hd Hn. unfold littlenum_bytes. rewrite (proj2 (Z.eqb_neq d 0) Hn), Z.shiftr_div_pow2 by lia.
  change (2 ^ 8) with 256. change (2 ^ 16) with 65536 in Hd.
  destruct (Z.eqb_spec (d / 256) 0) as [E|E]; (split; [lia|]).
  - cbn [bytes_le replicate Nat.sub app]. rewrite E.
    assert (2 ^ (8 * (Z.of_nat 1 - 1)) = 1) by reflexivity. split; [done|lia].
  - split; [done|]. assert (2 ^ (8 * (Z.of_nat 2 - 1)) = 256) by reflexivity.
    destruct (Z.lt_ge_cases d 256); [|lia]. rewrite Z.div_small in E by lia. done.
Qed.

Lemma concat_littlenums l : length (concat (map (bytes_le 2) l)) = (2 * length l)%nat.
Proof.
  induction l as [|d l IH]; [done|]. cbn [map concat]. rewrite length_app, bytes_le_length, IH. cbn [length]. lia.
Qed.

Lemma littlenums_range l : Forall (fun b => 0 <= b < 256) (concat (map (bytes_le 2) l)).
Proof.
  induction l as [|d l IH]; cbn [map concat]; [constructor|]. apply Forall_app. split; [apply bytes_le_range|done].
Qed.

Lemma big_value_snoc digits k d :
  digits !! k = Some d -> 0 <= d < 2 ^ 16 ->
  big_value digits (S k) = big_value digits k + 2 ^ (16 * Z.of_nat k) * d.
Proof.
  intros Hd Hr. unfold big_value.
  pose proof (lookup_lt_Some _ _ _ Hd) as Hk.
  rewrite (take_S_r _ _ _ Hd), map_app, concat_app, word_le_app, concat_littlenums.
  rewrite length_take. cbn [map concat]. rewrite app_nil_r, word_bytes.
  change (2 ^ (8 * Z.of_nat 2)) with (2 ^ 16). rewrite (Z.mod_small d) by done.
  do 3 f_equal. lia.
Qed.

Lemma big_value_bound digits n : (n <= length digits)%nat -> 0 <= big_value digits n < 2 ^ (16 * Z.of_nat n).
Proof.
  intros Hn. unfold big_value. pose proof (word_le_bound _ (littlenums_range (take n digits))) as H.
  rewrite concat_littlenums, length_take in H. replace (8 * _) with (16 * Z.of_nat n) in H by lia. done.
Qed.

(** The bytes laid out are those of the number, and no fewer hold it. *)
Lemma littlenum_chars_exact digits n :
  big_number digits n ->
  let top := Z.to_nat (n - 1) in
  let llen := littlenum_bytes 2 (nth top digits 0) in
  let v := big_value digits (Z.to_nat n) in
  let repr := 2 * (n - 1) + Z.of_nat llen in
  word_le (littlenum_chars digits top llen) = v /\
  Z.of_nat (length (littlenum_chars digits top llen)) = repr /\
  Forall (fun b => 0 <= b < 256) (littlenum_chars digits top llen) /\
  9 <= repr /\ 2 ^ (8 * (repr - 1)) <= v < 2 ^ (8 * repr).
Proof.
  intros [[Hn _] Hr Ht]. cbv zeta. set (top := Z.to_nat (n - 1)) in *.
  assert (Etop : digits !! top = Some (nth top digits 0)).
  { destruct (lookup_lt_is_Some_2 digits top ltac:(lia)) as [x Hx]. by rewrite nth_lookup, Hx. }
  set (d := nth top digits 0) in *.
  assert (Hd : 0 <= d < 2 ^ 16).
  { by eapply (Forall_lookup_1 _ _ _ _ Hr). }
  destruct (littlenum_bytes_exact d Hd Ht) as (Hl & Hb & Hlow). set (llen := littlenum_bytes 2 d) in *.
  replace (Z.to_nat n) with (S top) by lia. rewrite (big_value_snoc _ _ _ Etop Hd).
  pose proof (big_value_bound digits top ltac:(lia)) as Hv.
  unfold littlenum_chars. fold d. unfold number_to_chars_littleendian.
  assert (Hw : word_le (bytes_le llen d) = d).
  { assert (Hw2 : word_le (bytes_le 2 d) = d) by (rewrite word_bytes; by apply Z.mod_small).
    rewrite Hb, word_le_app in Hw2.
    assert (Hz : forall k, word_le (replicate k 0) = 0) by (induction k; cbn; lia).
    rewrite Hz in Hw2. lia. }
  assert (Hu : d < 2 ^ (8 * Z.of_nat llen)).
  { rewrite word_bytes in Hw. rewrite <- Hw. apply Z.mod_pos_bound, Z.pow_pos_nonneg; lia. }
  change (map (λ d0 : Z, bytes_le 2 d0) (take top digits)) with (map (bytes_le 2) (take top digits)).
  rewrite word_le_app, Hw, concat_littlenums, length_app, concat_littlenums, bytes_le_length, length_take.
  replace (8 * Z.of_nat (2 * top `min` length digits)) with (16 * Z.of_nat top) by lia.
  assert (E1 : 2 ^ (8 * (2 * (n - 1) + Z.of_nat llen - 1)) = 2 ^ (16 * Z.of_nat top) * 2 ^ (8 * (Z.of_nat llen - 1)))
    by (rewrite <- Z.pow_add_r by lia; f_equal; lia).
  assert (E2 : 2 ^ (8 * (2 * (n - 1) + Z.of_nat llen)) = 2 ^ (16 * Z.of_nat top) * 2 ^ (8 * Z.of_nat llen))
    by (rewrite <- Z.pow_add_r by lia; f_equal; lia).
  rewrite E1, E2. split; [done|]. split; [lia|].
  split; [apply Forall_app; split; [apply littlenums_range|apply bytes_le_range]|].
  split; [lia|]. assert (0 < 2 ^ (16 * Z.of_nat top)) by (apply Z.pow_pos_nonneg; lia). nia.
Qed.

(** A number below a shifted one. *)
Lemma shifted_lor a b k : 0 <= k -> 0 <= b < 2 ^ k -> (a << k) .| b = a * 2 ^ k + b.
Proof.
  intros Hk Hb. rewrite <- Z.shiftl_mul_pow2 by done.
  assert (Hd : (a << k) .& b = 0).
  { apply Z.bits_inj'. intros i Hi. rewrite Z.land_spec, Z.bits_0, Z.shiftl_spec by done.
    destruct (Z.lt_ge_cases i k); [by rewrite Z.testbit_neg_r by lia|].
    rewrite <- (Z.mod_small b (2 ^ k)) by done. rewrite Z.mod_pow2_bits_high by lia. apply andb_false_r. }
  by rewrite <- Z.lxor_lor, <- Z.add_nocarry_lxor.
Qed.

Lemma to_int32_exact digits n :
  big_number digits n ->
  generic_bignum_to_int32 digits = Some (big_value digits (Z.to_nat n) mod 2 ^ 32).
Proof.
  intros [[Hn _] Hr _]. destruct digits as [|d0 [|d1 l]]; cbn [length] in Hn; [lia|lia|].
  apply Forall_cons in Hr as [H0 Hr]. apply Forall_cons in Hr as [H1 _]. cbn beta in H0, H1.
  unfold generic_bignum_to_int32. cbn [lookup list_lookup mbind option_bind]. f_equal.
  change 0xffff with (Z.ones 16). rewrite !Z.land_ones, !(Z.mod_small _ (2 ^ 16)) by lia.
  assert (E1 : u32 (d1 << 16) = d1 << 16) by (apply Z.mod_small; rewrite Z.shiftl_mul_pow2; lia).
  rewrite E1, shifted_lor by lia.
  replace (Z.to_nat n) with (S (S (Z.to_nat (n - 2)))) by lia. unfold big_value. cbn [take map concat].
  rewrite !word_le_app, !word_bytes, !bytes_le_length.
  change (2 ^ (8 * Z.of_nat 2)) with (2 ^ 16). rewrite !(Z.mod_small _ (2 ^ 16)) by lia.
  set (k := word_le _). replace (d0 + 2 ^ 16 * (d1 + 2 ^ 16 * k)) with (d1 * 2 ^ 16 + d0 + k * 2 ^ 32) by lia.
  rewrite Z_mod_plus_full, Z.mod_small by lia. done.
Qed.

Lemma insn_length_low_32 v : riscv_insn_length (v mod 2 ^ 32) = riscv_insn_length v.
Proof.
  rewrite <- insn_length_low, <- (insn_length_low v). f_equal.
  change (2 ^ 32) with (2 ^ 16 * 2 ^ 16). rewrite Z.rem_mul_r, Z.mul_comm, Z_mod_plus_full by lia.
  by rewrite Z.mod_mod.
Qed.

Lemma long_insn_low_byte v : 8 < riscv_insn_length v -> v .& 0x7f = 0x7f.
Proof. unfold riscv_insn_length. repeat split_match; breflect; lia. Qed.

(** ** The values of .insn *)

Section values.

Context (expression : bool -> list ascii -> expressionS * list ascii * list diag).
Context (generic_bignum : list ascii -> list Z).

(** The text [str] starts with a value of any size; [rest] follows it. *)
Inductive reads_value (str rest : list ascii) (e : expressionS) (ds : list diag) : Z -> Prop :=
| reads_constant :
    expression false str = (e, rest, ds) -> X_op e = O_constant ->
    reads_value str rest e ds (u64 (X_add_number e))
| reads_big :
    expression false str = (e, rest, ds) -> X_op e = O_big ->
    big_number (generic_bignum str) (X_add_number e) ->
    reads_value str rest e ds (big_value (generic_bignum str) (Z.to_nat (X_add_number e))).

(** The two forms of .insn with values: a value, or a length and a value. *)
Inductive reads_insn (str : list ascii) : option Z -> Z -> Prop :=
| reads_one e ds v : reads_value str [] e ds v -> reads_insn str None v
| reads_two e ds str' e' ds' v :
    expression false str = (e, ","%char :: str', ds) -> X_op e = O_constant ->
    reads_value str' [] e' ds' v -> reads_insn str (Some (u64 (X_add_number e))) v.

(** The value is an instruction of the length its low bits announce, and of the
    length given. *)
Definition value_accepted (first : option Z) (v : Z) : bool :=
  match first with Some l => l =? riscv_insn_length v | None => true end
  && (v <? 2 ^ (8 * riscv_insn_length v)).

Definition value_bytes (v : Z) : list Z := bytes_le (Z.to_nat (riscv_insn_length v)) v.

(** The instruction [riscv_ip_hardcode] builds from a value. *)
Record built_insn (ip : riscv_cl_insn) (v : Z) : Prop := {
  bi_plain : pinfo (ci_mo ip) = 0;
  bi_fixp : ci_fixp ip = None;
  bi_bytes : insn_bytes ip = value_bytes v;
}.

Lemma first_checked (first : option Z) (L : Z) :
  (match first with Some v => negb (v =? L) | None => false end)
  = negb (match first with Some l => l =? L | None => true end).
Proof. by destruct first. Qed.

(** What [hardcode_end] has to give for a value. *)
Definition end_exact (first : option Z) (v : Z) (st : ip_state) (o : hardcode_outcome) : Prop :=
  match o with
  | HC_ok ip st' => value_accepted first v = true /\ built_insn ip v /\ st' = st
  | HC_error m st' => value_accepted first v = false /\ m = VM_length_conflict /\ st' = st
  | _ => False
  end.

Lemma constant_overflows v L :
  0 <= v < 2 ^ 64 -> 2 <= L -> ((L <? 8) && negb (v >> (8 * L) =? 0)) = negb (v <? 2 ^ (8 * L)).
Proof.
  intros Hr HL. rewrite Z.shiftr_div_pow2 by lia. destruct (Z.ltb_spec L 8); cbn [andb].
  - f_equal. destruct (Z.ltb_spec v (2 ^ (8 * L))) as [H1|H1]; [by rewrite Z.div_small by lia|].
    apply Z.eqb_neq. assert (1 <= v / 2 ^ (8 * L)); [|lia]. apply Z.div_le_lower_bound; [|lia].
    apply Z.pow_pos_nonneg; lia.
  - assert (2 ^ 64 <= 2 ^ (8 * L)) by (apply Z.pow_le_mono_r; lia).
    rewrite (proj2 (Z.ltb_lt _ _)) by lia. done.
Qed.

Lemma end_constant first str st :
  X_op (imm_expr st) = O_constant ->
  let v := u64 (X_add_number (imm_expr st)) in end_exact first v st (hardcode_end generic_bignum first v str [] st).
Proof.
  intros Ho v. assert (Hr : 0 <= v < 2 ^ 64) by (apply Z.mod_pos_bound; lia).
  unfold hardcode_end, end_exact, value_accepted, X_op_is, op_is. rewrite Ho, bool_decide_false by done.
  rewrite first_checked, constant_overflows by (done || apply insn_length_pos).
  destruct (match first with Some l => l =? riscv_insn_length v | None => true end); [|done]. cbn [negb andb].
  destruct (v <? _); cbn [negb]; [|done]. split; [done|]. by split.
Qed.

Lemma littlenum_bytes_le fuel d : (littlenum_bytes fuel d <= fuel)%nat.
Proof. revert d. induction fuel as [|fuel IH]; intros d; cbn; [done|]. destruct (d =? 0); [lia|]. specialize (IH (d >> 8)). lia. Qed.

(** Bytes that are a number of the length of a long instruction. *)
Lemma long_bytes (bytes : list Z) (v : Z) (mo : riscv_opcode) :
  Forall (fun b => 0 <= b < 256) bytes -> word_le bytes = v -> 9 <= Z.of_nat (length bytes) <= riscv_insn_length v ->
  pinfo mo = 0 ->
  let long := bytes ++ replicate (Z.to_nat (riscv_insn_length v - Z.of_nat (length bytes))) 0 in
  built_insn (mk_cl_insn mo (v mod 2 ^ 32) (fun i => nth i long 0) None) v.
Proof.
  intros Hr Hw Hl Hm long.
  assert (Hz : forall k, word_le (replicate k 0) = 0) by (induction k; cbn; lia).
  assert (Hlong : long = value_bytes v).
  { unfold value_bytes. rewrite <- Hw at 2. symmetry.
    replace (word_le bytes) with (word_le long) by (unfold long; rewrite word_le_app, Hz; lia).
    apply bytes_word; [|unfold long; rewrite length_app, length_replicate; lia].
    apply Forall_app. split; [done|]. by apply Forall_replicate. }
  constructor; [done|done|]. unfold insn_bytes, insn_length. cbn [ci_long ci_opcode].
  rewrite insn_length_low_32. rewrite Hlong. unfold value_bytes.
  set (n := Z.to_nat (riscv_insn_length v)). assert (Hn : exists n', n = S n') by (exists (pred n); lia).
  destruct Hn as [n' En].
  assert (Hb : v .& 0x7f = 0x7f) by (apply long_insn_low_byte; lia).
  assert (H0 : nth 0 (bytes_le n v) 0 <> 0).
  { rewrite En. cbn [nth bytes_le]. intros E. change 0x7f with (0xff .& 0x7f) in Hb at 1.
    rewrite Z.land_assoc in Hb. change 0xff with (Z.ones 8) in Hb. rewrite Z.land_ones in Hb by lia.
    change (2 ^ 8) with 256 in Hb. by rewrite E in Hb. }
  rewrite (proj2 (Z.eqb_neq _ _) H0). cbn [negb].
  apply list_eq. intros i. rewrite list_lookup_fmap. destruct (Nat.lt_ge_cases i n) as [Hi|Hi].
  - rewrite lookup_seq_lt by done. cbn. rewrite nth_lookup.
    destruct (lookup_lt_is_Some_2 (bytes_le n v) i) as [x Hx]; [by rewrite bytes_le_length|]. by rewrite Hx.
  - rewrite lookup_seq_ge, lookup_ge_None_2 by (rewrite ?bytes_le_length; done). done.
Qed.

Lemma end_big first str st :
  X_op (imm_expr st) = O_big -> big_number (generic_bignum str) (X_add_number (imm_expr st)) ->
  let v := big_value (generic_bignum str) (Z.to_nat (X_add_number (imm_expr st))) in
  end_exact first v st (hardcode_end generic_bignum first (v mod 2 ^ 32) str [] st).
Proof.
  intros Ho Hb. set (digits := generic_bignum str) in *. set (n := X_add_number (imm_expr st)) in *.
  set (v := big_value digits (Z.to_nat n)). cbv zeta.
  destruct (littlenum_chars_exact _ _ Hb) as (Hw & Hl & Hrange & H9 & Hlow & Hup). fold v in Hw, Hlow, Hup.
  set (llen := littlenum_bytes 2 _) in *. set (repr := 2 * (n - 1) + Z.of_nat llen) in *.
  unfold hardcode_end, end_exact, value_accepted, X_op_is, X_num, op_is.
  rewrite Ho, bool_decide_true, insn_length_low_32, first_checked by done. fold n.
  pose proof (insn_length_pos v) as Hpos. set (L := riscv_insn_length v) in *.
  destruct (match first with Some l => l =? L | None => true end); [|done]. cbn [negb andb].
  destruct Hb as [[Hn Hn20] _ _]. fold digits.
  rewrite (proj2 (Z.leb_le 0 (n - 1))), (proj2 (Z.ltb_lt (n - 1) _)) by lia. cbn [andb]. fold llen.
  assert (Hrep : u32 ((n - 1) * CHARS_PER_LITTLENUM + Z.of_nat llen) = repr).
  { unfold CHARS_PER_LITTLENUM, repr. rewrite (Z.mul_comm (n - 1)).
    pose proof (littlenum_bytes_le 2 (nth (Z.to_nat (n - 1)) digits 0)) as H2. fold llen in H2.
    apply Z.mod_small. lia. }
  rewrite Hrep. destruct (Z.ltb_spec L repr) as [Hlt|Hge].
  - split; [|done]. apply Z.ltb_ge. etransitivity; [|exact Hlow]. apply Z.pow_le_mono_r; lia.
  - split; [apply Z.ltb_lt; eapply Z.lt_le_trans; [exact Hup|apply Z.pow_le_mono_r; lia]|]. split; [|done].
    rewrite <- Hl. apply long_bytes; [done|done|rewrite Hl; fold L; lia|done].
Qed.

Abbreviation hardcode := (riscv_ip_hardcode expression generic_bignum).

(** The part of the state a value leaves alone. *)
Definition same_insn_state (st st' : ip_state) : Prop :=
  imm_reloc st' = imm_reloc st /\ explicit_priv_attr st' = explicit_priv_attr st.

Lemma read_value_end first str e ds v st :
  reads_value str [] e ds v ->
  exists w, let st' := report (set_imm st e) ds in
    read_value expression generic_bignum str st = (Some (Some w), [], st') /\
    end_exact first v st' (hardcode_end generic_bignum first w str [] st').
Proof.
  unfold read_value. intros [Hx Ho|Hx Ho Hb]; rewrite Hx, Ho.
  - eexists. split; [reflexivity|]. by apply (end_constant first str (report (set_imm st e) ds)).
  - rewrite (to_int32_exact _ _ Hb). eexists. split; [reflexivity|].
    by apply (end_big first str (report (set_imm st e) ds)).
Qed.

Lemma hardcode_exact str first v st :
  reads_insn str first v ->
  exists st', same_insn_state st st' /\ end_exact first v st' (hardcode str st).
Proof.
  unfold riscv_ip_hardcode. intros [e ds v' Hv|e ds str' e' ds' v' Hx Ho Hv].
  - destruct (read_value_end None str e ds v' st Hv) as (w & Hr & He). rewrite Hr.
    eexists. split; [|exact He]. by split.
  - assert (Hr : read_value expression generic_bignum str st
      = (Some (Some (u64 (X_add_number e))), ","%char :: str', report (set_imm st e) ds))
      by (unfold read_value; by rewrite Hx, Ho).
    rewrite Hr. unfold X_op_is at 1, op_is. cbn [imm_expr report set_imm]. rewrite Ho, bool_decide_false by done.
    destruct (read_value_end (Some (u64 (X_add_number e))) str' e' ds' v' (report (set_imm st e) ds) Hv)
      as (w & Hr' & He). rewrite Hr'. eexists. split; [|exact He]. by split.
Qed.

(** A number in floating point makes .insn read outside of [generic_bignum]:
    [expression] marks it by a count of littlenums that is not positive, and the
    last littlenum is looked for before the array. *)
Theorem float_insn_overruns (str : list ascii) (e : expressionS) (ds : list diag) (st : ip_state) :
  expression false str = (e, [], ds) -> X_op e = O_big -> X_add_number e <= 0 ->
  (2 <= length (generic_bignum str))%nat -> hardcode str st = HC_overrun.
Proof.
  intros Hx Ho Hn Hd. unfold riscv_ip_hardcode, read_value. rewrite Hx, Ho.
  destruct (generic_bignum str) as [|d0 [|d1 l]] eqn:Eb; cbn [length] in Hd; [lia|lia|].
  unfold hardcode_end, X_op_is, X_num, op_is. cbn [imm_expr report set_imm generic_bignum_to_int32].
  cbn [lookup list_lookup mbind option_bind]. rewrite Ho, bool_decide_true by done.
  by rewrite (proj2 (Z.leb_gt 0 (X_add_number e - 1))) by lia.
Qed.

End values.

(** ** The directive *)

(** Steps that report nothing. *)
Definition silent {A} (m : em A) : Prop := forall st a st', m st = Ok a st' -> emsgs st' = emsgs st.

Lemma silent_bind {A B} (m : em A) (k : A -> em B) : silent m -> (forall a, silent (k a)) -> silent (bind m k).
Proof.
  intros Hm Hk st b st'. unfold bind. destruct (m st) as [a s|w] eqn:E; [|done].
  intros H. apply Hk in H. apply Hm in E. congruence.
Qed.

Lemma silent_modify f : (forall st, emsgs (f st) = emsgs st) -> silent (modify f).
Proof. intros H st a st' [= <- <-]. apply H. Qed.

Lemma silent_get : silent get_state.
Proof. by intros st a st' [= <- <-]. Qed.

Lemma silent_ret {A} (a : A) : silent (ret a).
Proof. by intros st b st' [= <- <-]. Qed.

Lemma silent_stop {A} w : silent (stop (A := A) w).
Proof. by intros st a st' H. Qed.

Section silence.

Context (ob : obstack).

Lemma silent_frag_grow n : silent (frag_grow ob n).
Proof.
  assert (Hn : forall c, silent (new_frag ob c)).
  { intros c st a st'. unfold new_frag, frag_new. destruct (_ <? _)%nat; [done|]. by intros [= <- <-]. }
  assert (Hl : forall fuel c, silent (grow_loop ob fuel n c)).
  { induction fuel as [|fuel IH]; intros c; cbn [grow_loop]; (apply silent_bind; [apply silent_get|intros st]);
      (destruct (_ <? _)%nat; [|apply silent_ret]); [apply silent_stop|].
    apply silent_bind; [apply Hn|]. intros _. apply IH. }
  unfold frag_grow. apply silent_bind; [apply silent_get|]. intros st.
  destruct (_ <? _)%nat; [apply Hl|apply silent_ret].
Qed.

Lemma silent_plain ip e : silent (append_insn ob ip e None).
Proof.
  cbn [append_insn]. apply silent_bind; [|intros _; apply silent_ret].
  unfold add_fixed_insn, frag_more, move_insn. apply silent_bind.
  - apply silent_bind; [apply silent_frag_grow|]. intros _. apply silent_bind; [apply silent_get|]. intros st.
    apply silent_bind; [by apply silent_modify|]. intros _. apply silent_ret.
  - intros k. apply silent_bind; [apply silent_modify; intros st; by destruct (ci_fixp ip)|].
    intros _ st a st'. unfold install_insn. destruct (_ <=? _)%nat; [|done]. by intros [= <- <-].
Qed.

End silence.

(** A mapping symbol changes neither code nor messages. *)
Lemma mapping_insn_quiet text st :
  good st -> exists st', mapping_insn text st = Ok tt st' /\ good st' /\ code st' = code st /\
    fixes st' = fixes st /\ emsgs st' = emsgs st.
Proof.
  intros Hg. pose proof (mapping_insn_safe text st Hg) as Hm. unfold safe_at in Hm.
  destruct (mapping_insn text st) as [[] s1|w] eqn:E.
  - exists s1. split; [done|]. split; [apply Hm|]. revert E. unfold mapping_insn.
    destruct (arch_str _); [|done]. destruct (riscv_mapping_state _ _ _ _ _ _ _ _); [|done]. by intros [= <-].
  - subst w. revert E. unfold mapping_insn. by repeat case_match.
Qed.

Lemma riscv_ip_no_candidates env expression strtof h str st :
  candidates h (unchars (split_name str).1) = [] ->
  riscv_ip env expression strtof h str st = IP_error Unrecognized_opcode None st.
Proof. unfold riscv_ip. destruct (split_name str) as [nm start]. cbn [fst]. by intros ->. Qed.

(** Recording the state of the line. *)
Lemma record_line_quiet st (i : ip_state) :
  good st -> exists st',
    modify (fun st => set_cfg st (with_priv_used (cfg st) (explicit_priv_attr i)) i (smap st)) st = Ok tt st' /\
    good st' /\ code st' = code st /\ fixes st' = fixes st /\ emsgs st' = emsgs st.
Proof.
  intros Hg. eexists. split; [reflexivity|]. split; [|done].
  apply (safe_modify (fun st => set_cfg st (with_priv_used (cfg st) (explicit_priv_attr i)) i (smap st)) st Hg);
    try done. apply with_priv_used_ready, Hg.
Qed.

Section directive.

Context (ob : obstack) `{!ObstackLaws ob}.
Context (expression : bool -> list ascii -> expressionS * list ascii * list diag).
Context (generic_bignum : list ascii -> list Z).
Context (strtof : list ascii -> bool * option (Z * Z) * list ascii).
Context (ulong : Z) (text : bool).

(** C21: .insn with a value.  When the operands of .insn are a value, or a length
    and a value, of any number of bytes, the value is assembled exactly if it
    fits the length that its own low bits announce and, if a length is given, it
    is that one.  Then its bytes follow the code in little-endian order, filled
    up with zeros to that length, without a fixup and without a message;
    otherwise nothing is emitted and the conflict is reported.  Frags and
    fixups stay well formed. *)
Theorem insn_value_assembled (str : list ascii) (first : option Z) (v : Z) (st : out_state) :
  good st -> candidates insn_type_hash (unchars (split_name str).1) = [] ->
  reads_insn expression generic_bignum str first v ->
  exists st', s_riscv_insn expression generic_bignum ob strtof ulong text str st = Ok tt st' /\ good st' /\
    fixes st' = fixes st /\
    if value_accepted first v
    then code st' = code st ++ value_bytes v /\ emsgs st' = emsgs st
    else code st' = code st /\ emsgs st' = emsgs st ++ [EM_value VM_length_conflict None].
Proof.
  intros Hg Hc Hv. destruct (mapping_insn_quiet text st Hg) as (s1 & Em & G1 & C1 & X1 & M1).
  unfold s_riscv_insn, bind at 1. rewrite Em. unfold bind at 1, get_state.
  rewrite riscv_ip_no_candidates by exact Hc. clear Hc.
  destruct (hardcode_exact expression generic_bignum str first v (set_reloc (ipg s1) None) Hv)
    as (i & [Hi Hpriv] & He). unfold end_exact in He. cbn [imm_reloc set_reloc] in Hi.
  destruct (record_line_quiet s1 i G1) as (s2 & E2 & G2 & C2 & X2 & M2).
  destruct (riscv_ip_hardcode expression generic_bignum str _) as [ip i'|i'|m i'|]; [|destruct He| |destruct He].
  - destruct He as (-> & [Hp Hf Hb] & ->). unfold bind. rewrite E2, Hp. cbn [Z.eqb]. rewrite Hi.
    change (0 =? INSN_MACRO) with false. cbv iota.
    pose proof G2 as [O2 R2].
    destruct (append_plain ob ip (Some (addr_of (imm_expr i))) s2 (ook_fits _ O2) Hf) as (s3 & k & w & E3 & A & _).
    exists s3. split; [exact E3|]. pose proof A as [F C (fs & X & _) Z [] Y _ _ _]. rewrite app_nil_r in Y.
    split; [constructor; [by eapply appended_ok|congruence]|]. split; [congruence|].
    split; [congruence|]. apply silent_plain in E3. congruence.
  - destruct He as (-> & -> & ->). unfold bind. rewrite E2. eexists. split; [reflexivity|].
    pose proof (safe_as_bad (EM_value VM_length_conflict None) s2 G2) as [Ga _].
    split; [exact Ga|]. cbn. split; [congruence|]. split; [exact (eq_trans C2 C1)|congruence].
Qed.

End directive.

(** A parser of decimal and hexadecimal numbers, and the littlenums it leaves. *)
Module NumberText.

Definition digit_value (c : ascii) : Z :=
  let n := Z.of_nat (nat_of_ascii c) in
  if (48 <=? n) && (n <=? 57) then n - 48 else if (97 <=? n) && (n <=? 102) then n - 87 else 16.

Fixpoint number (base acc : Z) (s : list ascii) : Z * list ascii :=
  match s with
  | c :: s' => if digit_value c <? base then number base (base * acc + digit_value c) s' else (acc, s)
  | [] => (acc, [])
  end.

Definition number_text (s : list ascii) : Z * list ascii :=
  match s with
  | "0"%char :: "x"%char :: s' => number 16 0 s'
  | _ => number 10 0 s
  end.

Fixpoint littlenums (fuel : nat) (v : Z) : list Z :=
  match fuel with
  | O => []
  | S fuel => if v =? 0 then [] else v mod 2 ^ 16 :: littlenums fuel (v / 2 ^ 16)
  end.

Definition bignum (s : list ascii) : list Z := littlenums 20 (number_text s).1.

Definition expression (_ : bool) (s : list ascii) : expressionS * list ascii * list diag :=
  let '(v, rest) := number_text s in
  (if v <? 2 ^ 64 then mk_expr O_constant (s64 v) None else mk_expr O_big (Z.of_nat (length (littlenums 20 v))) None,
   rest, []).

(** An instruction of ten bytes, its length given. *)
Definition long_insn : list ascii := chars "10,0x4444333322221111007f".

End NumberText.

Lemma insn_value_assembled_witness :
  exists st', s_riscv_insn NumberText.expression NumberText.bignum plain_obstack no_strtof 64 true
                NumberText.long_insn (empty_output (march "rv64gc")) = Ok tt st' /\
    code st' = [0x7f; 0; 0x11; 0x11; 0x22; 0x22; 0x33; 0x33; 0x44; 0x44] /\ emsgs st' = [].
Proof.
  destruct (insn_value_assembled plain_obstack NumberText.expression NumberText.bignum no_strtof 64 true
    NumberText.long_insn (Some 10) 0x4444333322221111007f (empty_output (march "rv64gc")))
    as (st' & E & _ & _ & H).
  - apply march_good; [split; [done|cbn; intuition discriminate]|vm_compute; reflexivity].
  - vm_compute. reflexivity.
  - eapply (reads_two _ _ _ (mk_expr O_constant 10 None) _ (chars "0x4444333322221111007f")
      (mk_expr O_big 5 None) []).
    + vm_compute. reflexivity.
    + reflexivity.
    + change 0x4444333322221111007f with
        (big_value (NumberText.bignum (chars "0x4444333322221111007f"))
           (Z.to_nat (X_add_number (mk_expr O_big 5 None)))).
      apply reads_big; [vm_compute; reflexivity|reflexivity|].
      constructor; [vm_compute; repeat split; discriminate| |vm_compute; discriminate].
      vm_compute. repeat constructor; discriminate.
  - exists st'. split; [exact E|]. exact H.
Defined.

Lemma float_insn_overruns_witness :
  riscv_ip_hardcode (fun _ _ => (mk_expr O_big (-100) None, [], [])) (fun _ => replicate 26 0) (chars "0d1.5")
    start_state = HC_overrun.
Proof.
  apply (float_insn_overruns _ _ _ (mk_expr O_big (-100) None) []); [reflexivity|reflexivity|cbn; lia|cbn; lia].
Defined.

(** ** LEB128 constants *)

Lemma output_uleb128_padded fuel v :
  0 <= v < 2 ^ (7 * Z.of_nat fuel) -> (1 <= fuel)%nat ->
  output_uleb128 fuel v = padded (sizeof_uleb128 fuel v) v /\ (1 <= sizeof_uleb128 fuel v <= fuel)%nat /\
  v < 2 ^ (7 * Z.of_nat (sizeof_uleb128 fuel v)).
Proof.
  revert v. induction fuel as [|fuel IH]; intros v Hv Hf; [lia|]. cbn [output_uleb128 sizeof_uleb128].
  rewrite shift_7, land_7f. rewrite pow_7 in Hv.
  destruct (Z.eqb_spec (v / 128) 0) as [E|E]; cbn [negb].
  - assert (Hs : v < 128) by (Z.to_euclidean_division_equations; lia).
    split; [done|]. split; [lia|]. change (2 ^ (7 * Z.of_nat 1)) with 128. lia.
  - destruct fuel as [|fuel]; [change (2 ^ (7 * Z.of_nat 0)) with 1 in Hv; rewrite Z.div_small in E by lia; done|].
    destruct (IH (v / 128)) as (H1 & H2 & H3); [Z.to_euclidean_division_equations; lia|lia|].
    rewrite H1, lor_80 by (apply Z.mod_pos_bound; lia).
    destruct (sizeof_uleb128 (S fuel) (v / 128)) as [|n]; [lia|]. split; [done|]. split; [lia|].
    rewrite pow_7. Z.to_euclidean_division_equations. lia.
Qed.

(** The value of a signed number, as DWARF defines it. *)
Fixpoint sleb128_value (l : list Z) : Z :=
  match l with
  | [] => 0
  | [b] => if b .& 0x40 =? 0 then b .& 0x7f else (b .& 0x7f) - 128
  | b :: l => (b .& 0x7f) + 128 * sleb128_value l
  end.

(** All bytes but the last have the continuation bit. *)
Fixpoint continued (l : list Z) : bool :=
  match l with
  | [] => false
  | [b] => b <? 0x80
  | b :: l => (0x80 <=? b) && continued l
  end.

Lemma bit_40 x : 0 <= x < 128 -> (x .& 0x40 =? 0) = (x <? 64).
Proof.
  intros Hx. assert (Ha : forallb (fun n => eqb (Z.of_nat n .& 0x40 =? 0) (Z.of_nat n <? 64)) (seq 0 128) = true)
    by (vm_compute; reflexivity).
  rewrite forallb_forall in Ha. specialize (Ha (Z.to_nat x)). rewrite Z2Nat.id in Ha by lia.
  apply eqb_prop, Ha, in_seq. lia.
Qed.

Lemma low_7_of_more x : 0 <= x < 128 -> (x .| 0x80) .& 0x7f = x.
Proof.
  intros Hx. rewrite lor_80, land_7f by done. rewrite <- (Z.mul_1_l 128) at 1.
  rewrite Z_mod_plus_full. by apply Z.mod_small.
Qed.

(** [sleb128_more] says that the rest is not just the sign of the byte. *)
Lemma sleb128_more_spec v :
  sleb128_more (v / 128) (v mod 128) = negb ((-64 <=? v) && (v <? 64)).
Proof.
  assert (Hm : 0 <= v mod 128 < 128) by (apply Z.mod_pos_bound; lia).
  unfold sleb128_more. rewrite bit_40 by done. f_equal.
  destruct (Z.eqb_spec (v / 128) 0), (Z.eqb_spec (v / 128) (-1)), (Z.ltb_spec (v mod 128) 64),
    (Z.leb_spec (-64) v), (Z.ltb_spec v 64); cbn; try reflexivity;
    exfalso; Z.to_euclidean_division_equations; lia.
Qed.

Lemma output_sleb128_exact fuel v :
  - 2 ^ (7 * Z.of_nat fuel) <= 2 * v < 2 ^ (7 * Z.of_nat fuel) -> (1 <= fuel)%nat ->
  sleb128_value (output_sleb128 fuel v) = v /\ continued (output_sleb128 fuel v) = true /\
  length (output_sleb128 fuel v) = sizeof_sleb128 fuel v.
Proof.
  revert v. induction fuel as [|fuel IH]; intros v Hv Hf; [lia|]. cbn [output_sleb128 sizeof_sleb128].
  rewrite shift_7, land_7f, sleb128_more_spec. rewrite pow_7 in Hv.
  assert (Hm : 0 <= v mod 128 < 128) by (apply Z.mod_pos_bound; lia).
  destruct ((-64 <=? v) && (v <? 64)) eqn:E; cbn [negb].
  - breflect. cbn [sleb128_value continued length]. rewrite land_7f, Z.mod_mod, bit_40 by lia.
    split; [|split; [apply Z.ltb_lt; lia|done]].
    destruct (Z.ltb_spec (v mod 128) 64); Z.to_euclidean_division_equations; lia.
  - destruct fuel as [|fuel].
    { change (2 ^ (7 * Z.of_nat 0)) with 1 in Hv.
      destruct (Z.leb_spec (-64) v), (Z.ltb_spec v 64); try discriminate E; lia. }
    destruct (IH (v / 128)) as (H1 & H2 & H3);
      [rewrite pow_7 in Hv |- *; Z.to_euclidean_division_equations; lia|lia|].
    set (l := output_sleb128 (S fuel) (v / 128)) in *. destruct l as [|c l]; [done|].
    cbn [sleb128_value continued length] in *.
    split; [|split; [rewrite lor_80 by done; rewrite (proj2 (Z.leb_le _ _)) by lia; exact H2|by rewrite H3]].
    change (match l with [] => if c .& 64 =? 0 then c .& 127 else (c .& 127) - 128
            | _ :: _ => (c .& 127) + 128 * sleb128_value l end) with (sleb128_value (c :: l)) in *.
    rewrite H1, low_7_of_more by done. Z.to_euclidean_division_equations. lia.
Qed.

Lemma uleb128_read v rest :
  0 <= v < 2 ^ 64 ->
  _bfd_read_unsigned_leb128 (output_leb128 v false ++ rest) = Some (v, sizeof_leb128 v false) /\
  length (output_leb128 v false) = sizeof_leb128 v false.
Proof.
  intros Hv. cbn [output_leb128 sizeof_leb128].
  destruct (output_uleb128_padded LEB128_MAX v) as (H1 & H2 & H3);
    [change (2 ^ (7 * Z.of_nat LEB128_MAX)) with (2 ^ 70); lia|unfold LEB128_MAX; lia|].
  rewrite H1. split; [|apply padded_length]. unfold _bfd_read_unsigned_leb128.
  rewrite read_padded by (rewrite ?Z.pow_0_r; lia). f_equal. f_equal; lia.
Qed.

Lemma sleb128_read v :
  sleb128_value (output_leb128 v true) = s64 v /\ continued (output_leb128 v true) = true /\
  length (output_leb128 v true) = sizeof_leb128 v true.
Proof.
  cbn [output_leb128 sizeof_leb128].
  assert (Hs : - 2 ^ 63 <= s64 v < 2 ^ 63) by (apply (swrap_range 64); lia).
  apply output_sleb128_exact; [change (2 ^ (7 * Z.of_nat LEB128_MAX)) with (2 ^ 70); lia|unfold LEB128_MAX; lia].
Qed.

Section data.

Context (ob : obstack) `{!ObstackLaws ob}.

(** Room for bytes, and the bytes in it. *)
Lemma emit_bytes_ok bytes st :
  fits st ->
  exists s1 st', frag_more ob (length bytes) st = Ok (frag_used st' - length bytes)%nat s1 /\
    cfg s1 = cfg st /\ put_bytes bytes (frag_used st' - length bytes) s1 = Ok tt st' /\
    placed_at_end st st' bytes (fun _ _ => fixes st) /\ emsgs st' = emsgs st.
Proof.
  intros Hf. destruct (frag_grow_ok ob (length bytes) st Hf) as (s1 & E1 & [F1 C1 X1 Z1 S1 Y1] & R1 & H1).
  unfold frag_more, put_bytes, bind, get_state, blank_fast, modify, ret. rewrite E1.
  unfold fits, obstack_room, code in *.
  assert (Hb : length (putb bytes (frag_buf s1) (frag_used s1)) = length (frag_buf s1)) by (apply putb_length; lia).
  eexists _, (set_frags s1 (frags s1) (putb bytes (frag_buf s1) (frag_used s1)) (frag_used s1 + length bytes)).
  cbn [frag_used frag_buf frags set_frags cfg]. rewrite Nat.add_sub.
  split; [reflexivity|]. cbn [frag_buf frags frag_used set_frags cfg]. split; [apply S1|].
  rewrite (proj2 (Nat.leb_le _ _)) by lia.
  split; [reflexivity|]. split; [|by apply silent_frag_grow in E1].
  constructor; unfold fits, code, frag_now; cbn [frag_buf frag_used frags fixes set_frags];
    rewrite ?Hb, ?take_putb_end, ?app_assoc, ?C1 by lia; try done; try lia.
  - etransitivity; [exact Z1|]. split; [done|]. intros k _. unfold frag_size. cbn. case_match; lia.
  - constructor; apply S1.
  - intros Hr. specialize (H1 Hr). by subst s1.
Qed.

Lemma placed_offset st st' bytes fx :
  placed_at_end st st' bytes fx -> offset st' (frag_now st') (frag_used st' - length bytes) = length (code st).
Proof.
  intros [F C R _ _ _ _ _]. pose proof (code_length st' F) as Hc. rewrite C, length_app in Hc.
  unfold offset in *. lia.
Qed.

Lemma placed_ok st st' bytes :
  out_ok st -> placed_at_end st st' bytes (fun _ _ => fixes st) -> out_ok st'.
Proof.
  intros [H1 H2 H3] [F C R (fs & X & X') Z S Y _]. constructor; [done|by eapply closed_app|].
  rewrite Y. eapply Forall_impl; [exact H3|]. intros f. by apply placed_grow.
Qed.

Lemma mapping_state_quiet text to_state max_chars align st :
  good st -> to_state <> MAP_NONE ->
  exists st', mapping_state text to_state max_chars align st = Ok tt st' /\ good st' /\ code st' = code st /\
    frags st' = frags st /\ frag_used st' = frag_used st /\ fixes st' = fixes st /\ emsgs st' = emsgs st.
Proof.
  intros Hg Hn. unfold mapping_state. pose proof Hg as [_ [Hs _]].
  destruct (so_arch _ _ _ (ok_now _ _ Hs)) as (x & _ & Hx). cbn [snd] in Hx. rewrite Hx. set (a := unchars _). clearbody a.
  assert (exists m, riscv_mapping_state text a (frag_now st) (frag_used st) to_state max_chars align (smap st) = Some m)
    as [m ->].
  { unfold riscv_mapping_state, make_mapping_symbol, new_mapping_symbol. cbv zeta.
    destruct to_state; [done|..]; repeat (first [eexists; reflexivity|case_match]); simplify_eq; by eexists. }
  eexists. split; [reflexivity|]. split; [|done].
  apply (safe_modify (fun st => set_cfg st (cfg st) (ipg st) m) st Hg); try done. apply Hg.
Qed.

(** LEB128 constants.  The bytes of .uleb128 and .sleb128 with a constant of
    64 bits follow the code, without a fixup and without a message; the size
    computed beforehand is never exceeded.  The bytes of .uleb128 are read back
    by the reader the linker uses as that number and that many bytes, whatever
    follows them; those of .sleb128 stand for the signed number, and only the
    last has no continuation bit. *)
Theorem leb128_constant_emitted (text : bool) (v : Z) (sign : bool) (st : out_state) :
  good st -> 0 <= v < 2 ^ 64 ->
  exists st' bytes, emit_leb128_constant ob text v sign st = Ok tt st' /\ out_ok st' /\
    code st' = code st ++ bytes /\ fixes st' = fixes st /\ emsgs st' = emsgs st /\
    if sign then sleb128_value bytes = s64 v /\ continued bytes = true
    else forall rest, _bfd_read_unsigned_leb128 (bytes ++ rest) = Some (v, length bytes).
Proof.
  intros Hg Hv. set (bytes := output_leb128 v sign).
  assert (Hl : length bytes = sizeof_leb128 v sign).
  { unfold bytes. destruct sign; [apply sleb128_read|by apply (uleb128_read v [])]. }
  destruct (mapping_state_quiet text MAP_DATA 0 false st Hg) as (s0 & E0 & [O0 _] & C0 & _ & _ & X0 & M0); [done|].
  destruct (emit_bytes_ok bytes s0 (ook_fits _ O0)) as (s1 & st' & E1 & _ & E2 & P & M).
  exists st', bytes. unfold emit_leb128_constant, mapping_data, bind. rewrite E0. fold bytes. rewrite <- Hl, E1, Nat.ltb_irrefl.
  split; [exact E2|]. split; [by eapply placed_ok|]. rewrite <- C0, <- X0, <- M0.
  split; [apply P|]. split; [apply P|]. split; [exact M|].
  destruct sign; [split; apply sleb128_read|]. intros rest. rewrite Hl. by apply uleb128_read.
Qed.

(** .dtprelword and .dtpreldword of a symbol: zeros under a fixup for the
    offset.  No mapping symbol marks them as data. *)
Theorem dtprel_emitted expression (bytes : nat) (str rest : list ascii) (ex : expressionS) (ds : list diag)
    (st : out_state) :
  fits st -> expression false str = (ex, rest, ds) -> X_op ex = O_symbol -> skip_space rest = [] ->
  exists st' k w, s_dtprel ob expression bytes str st = Ok tt st' /\
    code st' = code st ++ replicate bytes 0 /\ smap st' = smap st /\ offset st' k w = length (code st) /\
    fixes st' = fixes st ++ [mk_out_fix (Some k) w bytes (addr_of ex)
      (if (bytes =? 8)%nat then BFD_RELOC_RISCV_TLS_DTPREL64 else BFD_RELOC_RISCV_TLS_DTPREL32) false (-1)].
Proof.
  intros Hf Hx Ho Hr. unfold s_dtprel. rewrite Hx. unfold op_is. rewrite Ho, bool_decide_true, Hr by done.
  set (s0 := set_cfg st (cfg st) (report (ipg st) ds) (smap st)).
  assert (Hz : forall big, md_number_to_chars big 0 bytes = replicate bytes 0).
  { assert (Hz : bytes_le bytes 0 = replicate bytes 0) by (induction bytes as [|n IH]; cbn; [done|]; by rewrite <- IH).
    intros []; [|exact Hz]. cbn [md_number_to_chars].
    induction bytes as [|n IH]; [done|]. cbn [number_to_chars_bigendian].
    rewrite Z.div_0_l, IH, Z.mod_0_l by (lia || (cbn in Hz; by injection Hz)).
    by rewrite replicate_S_end. }
  pose proof (emit_bytes_ok (replicate bytes 0) s0 Hf) as (s1 & s2 & E1 & Ec & E2 & P & M).
  rewrite length_replicate in E1, E2.
  pose proof (placed_offset _ _ _ _ P) as Hoff. rewrite length_replicate in Hoff.
  eexists _, (frag_now s2), (frag_used s2 - bytes)%nat.
  unfold bind, modify, ret, get_state. fold s0. rewrite E1, Hz, E2.
  unfold fix_new_here, bind, modify, ret. rewrite (bool_decide_false (ae_op (addr_of ex) = O_register)) by (cbn; congruence).
  split; [reflexivity|]. destruct P as [_ C _ _ _ S Y _].
  split; [exact C|]. split; [apply S|]. split; [exact Hoff|]. cbn. by rewrite Y.
Qed.

(** Aligning code while the linker relaxes: the worst case of nops follows the
    code, under a fixup for the linker that says how many bytes they are, and
    the code after them starts a new frag. *)
Theorem align_code_emitted (text : bool) (n : nat) (ialign : Z) (st : out_state) :
  good st -> relax (opts (cfg st)) = true -> ialign = (if rvc (opts (cfg st)) then 2 else 4) ->
  ialign < 2 ^ Z.of_nat n -> (n < 63)%nat ->
  exists st' nops k w, align_code ob text n st = Ok true st' /\ good st' /\
    code st' = code st ++ nops /\ Z.of_nat (length nops) = 2 ^ Z.of_nat n - ialign /\
    (exists ws, insns (length nops) nops = Some ws /\ Forall is_nop ws) /\
    fixes st' = fixes st ++ [mk_out_fix (Some k) w 0 (mk_addr O_constant None (Z.of_nat (length nops)))
                               BFD_RELOC_RISCV_ALIGN false (-1)] /\
    offset st' k w = length (code st) /\ (k < frag_now st')%nat /\ frag_used st' = 0%nat.
Proof.
  intros Hg Hr Hi Hn Hmax.
  destruct (riscv_frag_align_code_worst_case _ n ialign Hi Hn Hmax) as (nops & ws & addend & Ea & Hl & Had & Hw & Hnop & _).
  pose proof Hg as [Ho Hready].
  destruct (emit_bytes_ok nops st (ook_fits _ Ho)) as (s1 & s2 & E1 & _ & E2 & P & _).
  pose proof (placed_offset _ _ _ _ P) as Hoff. pose proof (placed_ok _ _ _ Ho P) as O2.
  set (fx := mk_out_fix (Some (frag_now s2)) (frag_used s2 - length nops) 0 (mk_addr O_constant None addend)
               BFD_RELOC_RISCV_ALIGN false (-1)).
  set (s3 := set_fixes s2 (fixes s2 ++ [fx])). destruct P as [F2 C2 R2 _ _ [S2 _ _ _ _ _] Y2 _].
  assert (G3 : good s3).
  { constructor; [|cbn; by rewrite S2]. destruct O2 as [H1 H2 H3]. constructor; [exact H1|exact H2|].
    apply Forall_app. split; [exact H3|]. apply Forall_singleton. exists (frag_now s2). split; [done|].
    split; [done|]. unfold frag_size, frag_now. cbn. rewrite lookup_ge_None_2 by done. lia. }
  destruct (mapping_state_quiet text MAP_INSN (length nops) true s3 G3) as (s4 & E4 & G4 & C4 & R4 & U4 & X4 & _); [done|].
  destruct (new_frag_ok ob (chunk_size ob) s4) as (s5 & E5 & G5 & _ & U5); [apply G4|].
  pose proof (safe_grown _ s4 s5 G4 E5 G5) as Hs5. unfold safe_at in Hs5. rewrite E5 in Hs5. destruct Hs5 as [Hg5 _].
  exists s5, nops, (frag_now s2), (frag_used s2 - length nops)%nat. rewrite Hl. split.
  { unfold align_code, bind, get_state. rewrite Hr, Ea, E1, E2. unfold fix_new_here, bind, ret.
    rewrite bool_decide_false by done. unfold modify. fold fx s3. by rewrite E4, E5. }
  assert (Hf5 : exists f, frags s5 = frags s2 ++ [f]).
  { revert E5. unfold new_frag, frag_new. destruct (_ <? _)%nat; [done|]. intros [= <-]. cbn. rewrite R4. by eexists. }
  destruct Hf5 as [f Hf5]. destruct G5 as [_ C5 _ _ _ X5].
  split; [exact Hg5|]. split; [rewrite C5, C4; exact C2|]. split; [exact Had|]. split; [by exists ws|].
  split; [rewrite X5, X4; cbn; by rewrite Y2|].
  split; [|split; [unfold frag_now; rewrite Hf5, length_app; cbn; lia|exact U5]].
  rewrite <- Hoff. by apply (offset_app s2 s5 _ _ [f]).
Qed.

End data.

Lemma align_code_emitted_witness :
  exists st', align_code plain_obstack true 3 (empty_output (march "rv64gc")) = Ok true st' /\
    code st' = [0x01; 0; 0x13; 0; 0; 0].
Proof.
  destruct (align_code_emitted plain_obstack true 3 2 (empty_output (march "rv64gc"))) as (st' & nops & k & w & E & _).
  - apply march_good; [split; [done|cbn; intuition discriminate]|vm_compute; reflexivity].
  - vm_compute. reflexivity.
  - vm_compute. reflexivity.
  - reflexivity.
  - lia.
  - exists st'. split; [exact E|].
    assert (Hc : match align_code plain_obstack true 3 (empty_output (march "rv64gc")) with
                 | Ok _ s => code s | Stop _ => [] end = [0x01; 0; 0x13; 0; 0; 0]) by (vm_compute; reflexivity).
    by rewrite E in Hc.
Defined.

Lemma leb128_constant_emitted_witness :
  exists st', emit_leb128_constant plain_obstack true 624485 false (empty_output (march "rv64gc")) = Ok tt st' /\
    code st' = [0xe5; 0x8e; 0x26].
Proof.
  destruct (leb128_constant_emitted plain_obstack true 624485 false (empty_output (march "rv64gc")))
    as (st' & bytes & E & _).
  - apply march_good; [split; [done|cbn; intuition discriminate]|vm_compute; reflexivity].
  - lia.
  - exists st'. split; [exact E|].
    assert (Hc : match emit_leb128_constant plain_obstack true 624485 false (empty_output (march "rv64gc")) with
                 | Ok _ s => code s | Stop _ => [] end = [0xe5; 0x8e; 0x26]) by (vm_compute; reflexivity).
    by rewrite E in Hc.
Defined.

(** ** Differences *)

(** .sleb128 of a difference is reported, and then ends the assembler: the frag
    it leaves fails the assertion of [riscv_insert_uleb128_fixes]. *)
Theorem sleb128_difference_aborts (fix_ : nat) (a b : option symbol) (n : Z) :
  s_riscv_leb128 true V_subtract = Some LM_sleb128 /\
  riscv_md_finish true [[[leb128_frag fix_ true (mk_value V_subtract a b n)]]] = None.
Proof. split; reflexivity. Qed.

(** A difference in any subsection but the first gets no relocations, because
    [riscv_md_finish] runs before the subsections are chained together. *)
Theorem later_subsections_unresolved (first : list end_frag) (rest : list (list end_frag)) :
  riscv_md_finish true [first :: rest] = riscv_md_finish true [[first]].
Proof. reflexivity. Qed.

(** ** DWARF register numbers *)

(** The classes of [tc_riscv_regname_to_dw2regnum] and the numbers they start at. *)
Definition dw2_base (cls : reg_class) : Z :=
  match cls with RCLASS_GPR => 0 | RCLASS_FPR => 32 | RCLASS_VECR => 96 | _ => 4096 end.

Definition dw2_size (cls : reg_class) : Z := match cls with RCLASS_CSR => 4096 | _ => 32 end.

Lemma reg_names_bound :
  forallb (fun p => (0 <=? DECODE_REG_NUM p.2) && (DECODE_REG_NUM p.2 <? 32)) (map_to_list reg_names_hash) = true.
Proof. vm_compute. reflexivity. Qed.

Lemma csr_addresses_bound :
  forallb (fun p => forallb (fun e => (0 <=? address e) && (address e <? 4096)) p.2) (map_to_list csr_extra_hash) = true.
Proof. vm_compute. reflexivity. Qed.

#[local] Opaque reg_names_hash csr_extra_hash.

Lemma csr_entry_for_in spec check l e : csr_entry_for spec check l = Some e -> In e l.
Proof. unfold csr_entry_for. intros H. by apply find_some in H as [H _]. Qed.

Lemma hash_forall {A} (f : string * A -> bool) (h : gmap string A) k v :
  forallb f (map_to_list h) = true -> h !! k = Some v -> f (k, v) = true.
Proof.
  intros Hf Hv. rewrite forallb_forall in Hf. apply Hf, list_elem_of_In. by apply elem_of_map_to_list.
Qed.

(** A register found lies in its class. *)
Lemma reg_lookup_bound env s cls r :
  (reg_lookup_internal env s cls).1 = Some r -> 0 <= r < dw2_size cls.
Proof.
  unfold reg_lookup_internal. destruct (decide (cls = RCLASS_CSR)) as [->|Hc].
  - rewrite csr_lookup_number. unfold csr_number.
    destruct (csr_extra_hash !! s) as [[|e l]|] eqn:E; [done| |done].
    pose proof (hash_forall _ _ _ _ csr_addresses_bound E) as Ha.
    cbn [snd] in Ha. rewrite forallb_forall in Ha. intros H%(inj Some). subst r. cbn [dw2_size].
    set (check := match _ with Some _ => _ | None => _ end).
    destruct (csr_entry_for (as_priv_spec env) check (e :: l)) as [e'|] eqn:Ee; cbn [from_option id].
    + apply csr_entry_for_in in Ee. specialize (Ha _ Ee). breflect. lia.
    + specialize (Ha e (or_introl eq_refl)). breflect. lia.
  - destruct (reg_names_hash !! s) as [v|] eqn:E; [|done].
    pose proof (hash_forall _ _ _ _ reg_names_bound E) as Ha.
    cbn [snd] in Ha. breflect. assert (Hs : dw2_size cls = 32) by (clear - Hc; by destruct cls). rewrite Hs.
    destruct (negb _); [done|]. destruct (_ && _ && _); [done|]. intros [= <-]. lia.
Qed.

#[local] Opaque reg_lookup_internal.

(** What a DWARF number of a name says. *)
Lemma regname_class env s n :
  (tc_riscv_regname_to_dw2regnum env s).1 = Some n ->
  exists cls r, cls <> RCLASS_VECM /\ (reg_lookup_internal env s cls).1 = Some r /\ n = dw2_base cls + r.
Proof.
  unfold tc_riscv_regname_to_dw2regnum.
  destruct (reg_lookup_internal env s RCLASS_GPR).1 as [r|] eqn:E1; [intros [= <-]; exists RCLASS_GPR, r; split_and!; [done|exact E1|cbn; lia]|].
  destruct (reg_lookup_internal env s RCLASS_FPR).1 as [r|] eqn:E2;
    [intros [= <-]; exists RCLASS_FPR, r; split_and!; [done|exact E2|cbn; lia]|].
  destruct (reg_lookup_internal env s RCLASS_VECR).1 as [r|] eqn:E3;
    [intros [= <-]; exists RCLASS_VECR, r; split_and!; [done|exact E3|cbn; lia]|].
  destruct (reg_lookup_internal env s RCLASS_CSR) as [[r|] ds] eqn:E4; [|done]. intros [= <-].
  exists RCLASS_CSR, r. rewrite E4. split_and!; [done|reflexivity|cbn; lia].
Qed.

(** DWARF register numbers do not clash: two names with the same number in the
    call-frame information are names of one register. *)
Theorem dw2regnum_injective (env : as_env) (s t : string) (n : Z) :
  (tc_riscv_regname_to_dw2regnum env s).1 = Some n -> (tc_riscv_regname_to_dw2regnum env t).1 = Some n ->
  exists cls r, (reg_lookup_internal env s cls).1 = Some r /\ (reg_lookup_internal env t cls).1 = Some r.
Proof.
  intros Hs Ht. apply regname_class in Hs as (c & r & Hc & Er & En). apply regname_class in Ht as (d & q & Hd & Eq & En').
  pose proof (reg_lookup_bound _ _ _ _ Er) as Br. pose proof (reg_lookup_bound _ _ _ _ Eq) as Bq.
  exists c, r. split; [done|].
  destruct c, d; cbn in *; first [congruence|lia|(assert (r = q) as -> by lia; done)].
Qed.

Lemma dw2regnum_injective_witness :
  exists cls r, (reg_lookup_internal rv64_env "fp" cls).1 = Some r /\ (reg_lookup_internal rv64_env "s0" cls).1 = Some r.
Proof. apply (dw2regnum_injective rv64_env "fp" "s0" 8); vm_compute; reflexivity. Defined.
