(* ===== verification/LebSpec.v ===== *)
(** * A difference from the assembler to the linked program

    .uleb128 with the difference of two symbols: the fixups of the assembler,
    the relocations made of them, and what the linker writes for these. *)
From Stdlib Require Import ZArith Bool Lia.
From stdpp Require Import base list gmap.
From S2P Require Import Prelude Bytes Howto Fixups LinkReloc LinkRelocSpec LinkRelocate LinkFrame LinkRelocateSpec Directives.

#[local] Open Scope Z_scope.
#[local] Open Scope c_scope.
#[local] Open Scope list_scope.

(** The relocation of a fixup against a symbol that stays: [fixup_segment]
    (gas/write.c) hands [md_apply_fix] the offset of the fixup. *)
Definition fix_relocation (env : fix_env) (fr_address : Z) (buf : list Z) (pcrel : gmap Z riscv_pcrel_hi_fixup)
    (f : fixS) : option output_reloc :=
  st ← md_apply_fix env (fx_offset f) buf f pcrel;
  tc_gen_reloc fr_address (st_fix st).

(** The entry of the object file; [index] numbers its symbols. *)
Definition object_entry (arch64 : bool) (index : symbol -> Z) (r : output_reloc) : option Elf_Internal_Rela :=
  sym ← ar_sym r; howto ← ar_howto r;
  Some (mk_rela (ar_address r) (ELFNN_R_INFO arch64 (index sym) (type_ howto)) (ar_addend r)).

(** The relocations of the frag of .uleb128 a - b + n. *)
Definition difference_relocs (arch64 : bool) (env : fix_env) (fr_address : Z) (buf : list Z)
    (pcrel : gmap Z riscv_pcrel_hi_fixup) (index : symbol -> Z) (fix_ : nat) (a b : symbol) (n : Z)
  : option (list Elf_Internal_Rela) :=
  fixes ← riscv_insert_uleb128_fixes 0 [leb128_frag fix_ false (mk_value V_subtract (Some a) (Some b) n)];
  relocs ← mapM (fun '(_, f) => fix_relocation env fr_address buf pcrel f) fixes;
  mapM (object_entry arch64 index) relocs.

Lemma difference_relocs_eq arch64 env fr_address buf pcrel index fix_ a b n :
  let off := u64 (fr_address + Z.of_nat fix_) in
  difference_relocs arch64 env fr_address buf pcrel index fix_ a b n
  = Some [mk_rela off (ELFNN_R_INFO arch64 (index a) R_RISCV_SET_ULEB128) n;
          mk_rela off (ELFNN_R_INFO arch64 (index b) R_RISCV_SUB_ULEB128) 0].
Proof. reflexivity. Qed.

Lemma r_sym_info arch64 s t :
  0 <= s < 2 ^ 24 -> 0 <= t < 256 -> ELFNN_R_SYM arch64 (ELFNN_R_INFO arch64 s t) = s.
Proof.
  intros Hs Ht. destruct arch64; cbn [ELFNN_R_SYM ELFNN_R_INFO].
  - unfold ELF64_R_SYM, ELF64_R_INFO. rewrite Z.shiftr_div_pow2, !Z.shiftl_mul_pow2 by lia. unfold u64.
    change (2 ^ 31) with 2147483648. change (2 ^ 1) with 2. change (2 ^ 64) with 18446744073709551616.
    change (2 ^ 32) with 4294967296. change (2 ^ 24) with 16777216 in Hs. Z.to_euclidean_division_equations. lia.
  - unfold ELF32_R_SYM, ELF32_R_INFO. change 0xff with (Z.ones 8).
    rewrite Z.land_ones, Z.shiftr_div_pow2, !Z.shiftl_mul_pow2 by lia. unfold u32.
    change (2 ^ 8) with 256. change (2 ^ 32) with 4294967296. change (2 ^ 24) with 16777216 in Hs.
    Z.to_euclidean_division_equations. lia.
Qed.

Section linked.

Context (arch64 big : bool) (info : bfd_link_info) (htab : riscv_elf_link_hash_table) (isec : input_section).
Context (symbols : Z -> local_symbol + elf_link_hash_entry) (ltt : Z -> Z).

(** A relocation against a symbol with an address goes straight to its case. *)
Lemma relocate_one_to s howto v :
  let r_type := ELFNN_R_TYPE arch64 (r_info (s_rel s)) in
  let r_symndx := ELFNN_R_SYM arch64 (r_info (s_rel s)) in
  riscv_elf_rtype_to_howto r_type = Some howto -> symbol_at (symbols r_symndx) = Some v ->
  exists rs, resolved_at (symbols r_symndx) v rs /\
    relocate_one arch64 big info htab isec symbols ltt s
    = (f ← reloc_switch arch64 big info htab isec ltt rs r_symndx r_type howto s; finish_reloc arch64 big isec rs f).
Proof.
  cbv zeta. intros Hh Hv. unfold relocate_one. rewrite Hh.
  destruct (resolve_at info isec _ _ s Hv) as (rs & -> & Hr). exists rs. split; [done|]. cbn [mbind option_bind].
  pose proof (ra_ifunc _ _ _ Hr) as K. destruct (rs_h rs); [by rewrite K|done].
Qed.

(** The pair of relocations of a difference. *)
Lemma uleb128_pair off ia ib n a b old len s :
  0 <= ia < 2 ^ 24 -> 0 <= ib < 2 ^ 24 -> 0 <= off ->
  symbol_at (symbols ia) = Some a -> symbol_at (symbols ib) = Some b ->
  _bfd_read_unsigned_leb128 (drop (Z.to_nat off) (s_contents s)) = Some (old, len) ->
  0 <= a - b + n < 2 ^ 32 -> a - b + n < 2 ^ (7 * Z.of_nat len) -> s_uleb128_set s = None ->
  let r1 := mk_rela off (ELFNN_R_INFO arch64 ia R_RISCV_SET_ULEB128) n in
  let r2 := mk_rela off (ELFNN_R_INFO arch64 ib R_RISCV_SUB_ULEB128) 0 in
  exists s', relocate_loop arch64 big info htab isec symbols ltt [r1; r2] s = Some (None, s', [r1; r2]) /\
    _bfd_read_unsigned_leb128 (drop (Z.to_nat off) (s_contents s')) = Some (a - b + n, len) /\
    same_outside (Z.to_nat off) len (s_contents s) (s_contents s') /\
    s_pcrel s' = s_pcrel s /\ s_log s' = s_log s.
Proof.
  intros Hia Hib Ho Ha Hb Hread Hv Hfit Hset r1 r2.
  destruct (riscv_elf_rtype_to_howto R_RISCV_SET_ULEB128) as [h1|] eqn:Eh1; [|discriminate].
  destruct (riscv_elf_rtype_to_howto R_RISCV_SUB_ULEB128) as [h2|] eqn:Eh2; [|discriminate].
  assert (T1 : ELFNN_R_TYPE arch64 (r_info r1) = R_RISCV_SET_ULEB128) by (apply r_type_info; lia).
  assert (T2 : ELFNN_R_TYPE arch64 (r_info r2) = R_RISCV_SUB_ULEB128) by (apply r_type_info; lia).
  assert (I1 : ELFNN_R_SYM arch64 (r_info r1) = ia) by (apply r_sym_info; lia).
  assert (I2 : ELFNN_R_SYM arch64 (r_info r2) = ib) by (apply r_sym_info; lia).
  set (sa := with_rel r1 s). set (s1 := with_uleb128 (Some (a, r1)) sa). set (sb := with_rel r2 s1).
  destruct (relocate_one_to sa h1 a) as (rs1 & R1 & E1); [by rewrite <- Eh1; f_equal|by rewrite <- Ha; do 2 f_equal|].
  destruct (relocate_one_to sb h2 b) as (rs2 & R2 & E2); [by rewrite <- Eh2; f_equal|by rewrite <- Hb; do 2 f_equal|].
  change (s_rel sa) with r1 in E1. change (s_rel sb) with r2 in E2. rewrite T1, I1 in E1. rewrite T2, I2 in E2.
  destruct (uleb128_relocation_roundtrip arch64 big (is_addr isec) h2 r2 (a - b + n) (s_contents s) old len T2 Eh2 Ho Hv Hread)
    as (st & c & Hp & Hsame & [(-> & _ & Hr)|(_ & Hbad)]); [|lia].
  assert (F1 : reloc_switch arch64 big info htab isec ltt rs1 ia R_RISCV_SET_ULEB128 h1 sa = Some (F_continue s1)).
  { change (Some (reloc_set_uleb128 rs1 h1 sa) = Some (F_continue s1)). unfold reloc_set_uleb128.
    change (s_uleb128_set sa) with (s_uleb128_set s). by rewrite Hset, (ra_value _ _ _ R1). }
  assert (F2 : reloc_switch arch64 big info htab isec ltt rs2 ib R_RISCV_SUB_ULEB128 h2 sb
    = Some (F_break (with_uleb128 None sb) (Some h2) (a - b + n) bfd_reloc_ok None false)).
  { change (Some (reloc_sub_uleb128 htab rs2 h2 sb) = Some (F_break (with_uleb128 None sb) (Some h2) (a - b + n) bfd_reloc_ok None false)).
    unfold reloc_sub_uleb128. cbn [s_uleb128_set sb with_rel s1 with_uleb128 s_rel r_offset r_addend r1 r2].
    rewrite Z.eqb_refl, (ra_value _ _ _ R2), (ra_unresolved _ _ _ R2), andb_false_r.
    rewrite u64_small by lia. reflexivity. }
  exists (with_contents c (with_uleb128 None sb)).
  cbn [relocate_loop]. fold sa. rewrite E1, F1. cbn [mbind option_bind finish_reloc]. fold sb.
  rewrite E2, F2. cbn [mbind option_bind finish_reloc andb].
  change (s_rel (with_uleb128 None sb)) with r2. change (s_contents (with_uleb128 None sb)) with (s_contents s).
  rewrite Hp. split; [reflexivity|]. split; [exact Hr|]. split; [exact Hsame|]. by split.
Qed.

(** C31: a difference in LEB128, from the source to the linked program.  For
    .uleb128 a - b + n at an offset of a section, the assembler leaves the
    relocations SET_ULEB128 against a with the addend n and SUB_ULEB128 against
    b, both at that offset; and when the linker relocates the section with them,
    the number that was there is replaced by A - B + n for the final addresses A
    and B of the symbols, in as many bytes as before, provided it is below 2^32
    and fits; no other byte changes and nothing is reported. *)
Theorem uleb128_difference_linked (env : fix_env) (fr_address : Z) (buf : list Z)
    (pcrel : gmap Z riscv_pcrel_hi_fixup) (index : symbol -> Z) (fix_ : nat) (a b : symbol)
    (n A B old : Z) (len : nat) (s : link_state) :
  let off := u64 (fr_address + Z.of_nat fix_) in
  0 <= index a < 2 ^ 24 -> 0 <= index b < 2 ^ 24 ->
  symbol_at (symbols (index a)) = Some A -> symbol_at (symbols (index b)) = Some B ->
  _bfd_read_unsigned_leb128 (drop (Z.to_nat off) (s_contents s)) = Some (old, len) ->
  0 <= A - B + n < 2 ^ 32 -> A - B + n < 2 ^ (7 * Z.of_nat len) ->
  exists rels s',
    difference_relocs arch64 env fr_address buf pcrel index fix_ a b n = Some rels /\
    riscv_elf_relocate_section arch64 big info htab isec symbols ltt rels s = Some (true, s', rels) /\
    _bfd_read_unsigned_leb128 (drop (Z.to_nat off) (s_contents s')) = Some (A - B + n, len) /\
    same_outside (Z.to_nat off) len (s_contents s) (s_contents s') /\ s_log s' = s_log s.
Proof.
  intros off Ha Hb HA HB Hread Hv Hfit.
  assert (Hoff : 0 <= off < 2 ^ 64) by (apply Z.mod_pos_bound; lia).
  set (s0 := with_pcrel riscv_init_pcrel_relocs (with_uleb128 None s)).
  destruct (uleb128_pair off (index a) (index b) n A B old len s0) as (s' & E & Hr & Hs & Hpc & Hl); try done; [lia|].
  eexists _, (with_contents (s_contents s') s'). rewrite difference_relocs_eq. split; [reflexivity|].
  unfold riscv_elf_relocate_section. fold s0 off. rewrite E. cbn [mbind option_bind].
  unfold riscv_resolve_pcrel_lo_relocs. rewrite Hpc. cbn [resolve_lo_loop lo_relocs s_pcrel s0 with_pcrel riscv_init_pcrel_relocs].
  split; [reflexivity|]. done.
Qed.

End linked.

(** ** An example *)

(** .uleb128 end - start + 1 at offset 4, assembled as 0x3fff in two bytes; the
    symbols end up at 0x12345 and 0x12300. *)
Module LebDemo.

Definition symbols (i : Z) : local_symbol + elf_link_hash_entry :=
  inl (mk_local (if i =? 1 then 0x2345 else 0x2300) 0 Demo.text None None).

(** The symbols of the assembler, told apart by their values there. *)
Definition end_ : symbol := mk_symbol true false false 1 false 0x4000.
Definition start : symbol := mk_symbol true false false 1 false 2.
Definition index (s : symbol) : Z := if S_GET_VALUE s =? 2 then 2 else 1.

Definition env : fix_env := mk_fix_env 0 4 0 1 true false.

Definition state : link_state :=
  mk_link_state [1; 2; 3; 4; 0xff; 0x7f; 7] Demo.relax [] [] [] ∅ ∅ None None None None riscv_init_pcrel_relocs None [].

End LebDemo.

Lemma uleb128_difference_linked_witness :
  exists rels s',
    difference_relocs true LebDemo.env 0 [] ∅ LebDemo.index 4 LebDemo.end_ LebDemo.start 1 = Some rels /\
    riscv_elf_relocate_section true false Demo.info Demo.htab Demo.isec LebDemo.symbols (fun _ => 0) rels LebDemo.state
      = Some (true, s', rels) /\
    _bfd_read_unsigned_leb128 (drop 4 (s_contents s')) = Some (0x46, 2%nat).
Proof.
  destruct (uleb128_difference_linked true false Demo.info Demo.htab Demo.isec LebDemo.symbols (fun _ => 0)
    LebDemo.env 0 [] ∅ LebDemo.index 4 LebDemo.end_ LebDemo.start 1 0x12345 0x12300 0x3fff 2 LebDemo.state)
    as (rels & s' & H1 & H2 & H3 & _).
  - vm_compute. by split.
  - vm_compute. by split.
  - vm_compute. reflexivity.
  - vm_compute. reflexivity.
  - vm_compute. reflexivity.
  - lia.
  - vm_compute. reflexivity.
  - exists rels, s'. split; [exact H1|]. split; [exact H2|exact H3].
Defined.
