(* ===== verification/ObjectFile.v ===== *)
(** * Notes, segments and symbols of an ELF file (bfd/elfnn-riscv.c)

    The core-file notes the backend writes and reads, the program header for the
    attributes section, and the attribute bits of a symbol.  Strings are lists
    of bytes without their terminating zero. *)
From Stdlib Require Import ZArith Bool Lia.
From stdpp Require Import base list.
From S2P Require Import Prelude Bytes Howto LinkRelocate LinkScan LinkSize.

#[local] Open Scope Z_scope.
#[local] Open Scope c_scope.

(** ** Core-file notes *)

(** What reading the notes leaves in [elf_tdata (abfd)->core], and the
    pseudosection of the registers, by its size and place in the file. *)
Record core_info : Type := mk_core {
  core_signal : Z;
  core_lwpid : Z;
  core_pid : Z;
  core_program : list Z;
  core_command : list Z;
  core_reg : option (nat * Z);
}.

(** [strncpy (dst, src, n)]: the bytes written. *)
Definition strncpy (src : list Z) (n : nat) : list Z := take n src ++ replicate (n - length src) 0.

(** [_bfd_elfcore_strndup (abfd, start, max)] (bfd/elf.c), on the bytes from
    [start]. *)
Fixpoint elfcore_strndup (start : list Z) (max : nat) {struct max} : list Z :=
  match max, start with
  | S max, c :: start => if c =? 0 then [] else c :: elfcore_strndup start max
  | _, _ => []
  end.

(** The end of [riscv_elf_grok_psinfo]. *)
Definition strip_space (command : list Z) : list Z :=
  match last command with
  | Some c => if c =? 32 then take (length command - 1) command else command
  | None => command
  end.

Section core.

Context (arch64 big : bool).

Definition PRSTATUS_SIZE : nat := if arch64 then 376 else 204.
Definition PRSTATUS_OFFSET_PR_CURSIG : nat := 12.
Definition PRSTATUS_OFFSET_PR_PID : nat := if arch64 then 32 else 24.
Definition PRSTATUS_OFFSET_PR_REG : nat := if arch64 then 112 else 72.
Definition ELF_GREGSET_T_SIZE : nat := if arch64 then 256 else 128.
Definition PRPSINFO_SIZE : nat := if arch64 then 136 else 128.
Definition PRPSINFO_OFFSET_PR_PID : nat := if arch64 then 24 else 16.
Definition PRPSINFO_OFFSET_PR_FNAME : nat := if arch64 then 40 else 32.
Definition PRPSINFO_OFFSET_PR_PSARGS : nat := if arch64 then 56 else 48.
Definition PRPSINFO_PR_FNAME_LENGTH : nat := 16.
Definition PRPSINFO_PR_PSARGS_LENGTH : nat := 80.

(** The arguments of [riscv_write_core_note] after the type of the note; [greg]
    is the memory behind the pointer. *)
Inductive core_note : Type :=
| NT_PRPSINFO (fname psargs : list Z)
| NT_PRSTATUS (pid cursig : Z) (greg : list Z).

(** The data [riscv_write_core_note] hands to [elfcore_write_note]; [None] if
    [greg] is too short. *)
Definition riscv_write_core_note (note : core_note) : option (list Z) :=
  match note with
  | NT_PRPSINFO fname psargs =>
      let data := replicate PRPSINFO_SIZE 0 in
      let data := putb (strncpy fname PRPSINFO_PR_FNAME_LENGTH) data PRPSINFO_OFFSET_PR_FNAME in
      Some (putb (strncpy psargs PRPSINFO_PR_PSARGS_LENGTH) data PRPSINFO_OFFSET_PR_PSARGS)
  | NT_PRSTATUS pid cursig greg =>
      data ← bfd_put big 32 pid (replicate PRSTATUS_SIZE 0) PRSTATUS_OFFSET_PR_PID;
      data ← bfd_put big 16 cursig data PRSTATUS_OFFSET_PR_CURSIG;
      let n := (PRSTATUS_SIZE - PRSTATUS_OFFSET_PR_REG - (if arch64 then 8 else 4))%nat in
      if (length greg <? n)%nat then None else Some (putb (take n greg) data PRSTATUS_OFFSET_PR_REG)
  end.

(** [riscv_elf_grok_prstatus] for a note whose data are at [descpos] of the
    file; [None] is [false]. *)
Definition riscv_elf_grok_prstatus (descdata : list Z) (descpos : Z) (core : core_info) : option core_info :=
  if negb (length descdata =? PRSTATUS_SIZE)%nat then None
  else
    signal ← bfd_get big 16 descdata PRSTATUS_OFFSET_PR_CURSIG;
    lwpid ← bfd_get big 32 descdata PRSTATUS_OFFSET_PR_PID;
    Some (mk_core signal (s32 lwpid) (core_pid core) (core_program core) (core_command core)
            (Some (ELF_GREGSET_T_SIZE, descpos + Z.of_nat PRSTATUS_OFFSET_PR_REG))).

Definition riscv_elf_grok_psinfo (descdata : list Z) (core : core_info) : option core_info :=
  if negb (length descdata =? PRPSINFO_SIZE)%nat then None
  else
    pid ← bfd_get big 32 descdata PRPSINFO_OFFSET_PR_PID;
    let program := elfcore_strndup (drop PRPSINFO_OFFSET_PR_FNAME descdata) PRPSINFO_PR_FNAME_LENGTH in
    let command := elfcore_strndup (drop PRPSINFO_OFFSET_PR_PSARGS descdata) PRPSINFO_PR_PSARGS_LENGTH in
    Some (mk_core (core_signal core) (core_lwpid core) (s32 pid) program (strip_space command) (core_reg core)).

End core.

(** ** Program headers *)

Definition PT_INTERP : Z := 3.
Definition PT_PHDR : Z := 6.
Definition PT_RISCV_ATTRIBUTES : Z := 0x70000003.

Record elf_segment_map : Type := mk_segment { p_type : Z; seg_sections : list nat }.

(** [riscv_elf_additional_program_headers]; [attrs] is the number of the section
    .riscv.attributes, if there is one. *)
Definition riscv_elf_additional_program_headers (attrs : option nat) : nat :=
  match attrs with Some _ => 1 | None => 0 end.

Fixpoint insert_segment (m : elf_segment_map) (l : list elf_segment_map) : list elf_segment_map :=
  match l with
  | x :: l' => if (p_type x =? PT_PHDR) || (p_type x =? PT_INTERP) then x :: insert_segment m l' else m :: l
  | [] => [m]
  end.

Definition riscv_elf_modify_segment_map (attrs : option nat) (l : list elf_segment_map) : list elf_segment_map :=
  match attrs with
  | None => l
  | Some s =>
      if existsb (fun m => p_type m =? PT_RISCV_ATTRIBUTES) l then l
      else insert_segment (mk_segment PT_RISCV_ATTRIBUTES [s]) l
  end.

(** ** Symbols *)

(** [riscv_elf_merge_symbol_attribute]: the new [h->other] and whether unknown
    bits are reported. *)
Definition riscv_elf_merge_symbol_attribute (other st_other : Z) : Z * bool :=
  let isym_sto := Z.ldiff st_other 0x3 in
  let h_sto := Z.ldiff other 0x3 in
  if isym_sto =? h_sto then (other, false)
  else (if isym_sto .& STO_RISCV_VARIANT_CC =? 0 then other else other .| STO_RISCV_VARIANT_CC,
        negb (Z.ldiff isym_sto STO_RISCV_VARIANT_CC =? 0)).

(** ** Indirect symbols *)

(** The fields of a hash table entry that only the indirections use. *)
Record indirect_entry : Type := mk_indirect {
  ie_symbol : link_symbol;
  ie_is_indirect : bool;
  ie_versioned_hidden : bool;
  ie_ref_dynamic : bool;
  ie_ref_regular_nonweak : bool;
  ie_dynstr_index : Z;
}.

(** The inner loop over the relocations of the direct symbol: [None] if there
    are none against the section. *)
Fixpoint add_to_section (p : elf_dyn_relocs) (dir : list elf_dyn_relocs) : option (list elf_dyn_relocs) :=
  match dir with
  | [] => None
  | q :: dir =>
      if dr_sec q =? dr_sec p
      then Some (mk_dyn_relocs (dr_sec q) (dr_count q + dr_count p) (dr_pc_count q + dr_pc_count p) :: dir)
      else dir ← add_to_section p dir; Some (q :: dir)
  end.

Fixpoint merge_dyn_relocs (ind dir : list elf_dyn_relocs) : list elf_dyn_relocs :=
  match ind with
  | [] => dir
  | p :: ind =>
      match add_to_section p dir with
      | Some dir => merge_dyn_relocs ind dir
      | None => p :: merge_dyn_relocs ind dir
      end
  end.

(** A count of references moved from the indirect symbol: the words of both. *)
Definition move_refcount (init dir ind : Z) : Z * Z :=
  if refcount init <? refcount ind then
    (u64 ((if refcount dir <? 0 then 0 else dir) + ind), init)
  else (dir, ind).

Section indirect.

(** [htab->init_got_refcount] and [htab->init_plt_refcount]. *)
Context (init_got init_plt : Z).

(** [_bfd_elf_link_hash_copy_indirect] (bfd/elflink.c): the entries and the
    string of .dynstr that loses a reference. *)
Definition bfd_elf_link_hash_copy_indirect (dir ind : indirect_entry) : indirect_entry * indirect_entry * option Z :=
  let yd := ie_symbol dir in
  let yi := ie_symbol ind in
  let relocs := match sy_dyn_relocs yi, sy_dyn_relocs yd with
                | [], d => d
                | i, [] => i
                | i, d => merge_dyn_relocs i d
                end in
  let yd := mk_symbol (with_non_got_ref (h_non_got_ref (sy_h yd) || h_non_got_ref (sy_h yi)) (sy_h yd))
              (sy_got yd) (sy_plt yd) (sy_needs_plt yd || sy_needs_plt yi) (sy_ref_regular yd || sy_ref_regular yi)
              (sy_pointer_equality_needed yd || sy_pointer_equality_needed yi) (sy_ldscript_def yd) relocs in
  let yi := with_dyn_relocs [] yi in
  let ref_dynamic := if ie_versioned_hidden dir then ie_ref_dynamic dir else ie_ref_dynamic dir || ie_ref_dynamic ind in
  let dir := mk_indirect yd (ie_is_indirect dir) (ie_versioned_hidden dir) ref_dynamic
               (ie_ref_regular_nonweak dir || ie_ref_regular_nonweak ind) (ie_dynstr_index dir) in
  let ind := mk_indirect yi (ie_is_indirect ind) (ie_versioned_hidden ind) (ie_ref_dynamic ind)
               (ie_ref_regular_nonweak ind) (ie_dynstr_index ind) in
  if negb (ie_is_indirect ind) then (dir, ind, None)
  else
    let '(gd, gi) := move_refcount init_got (sy_got yd) (sy_got yi) in
    let '(pd, pi) := move_refcount init_plt (sy_plt yd) (sy_plt yi) in
    let moved := negb (h_dynindx (sy_h yi) =? -1) in
    let delref := if moved && negb (h_dynindx (sy_h yd) =? -1) then Some (ie_dynstr_index dir) else None in
    let hd := if moved then with_dynindx (h_dynindx (sy_h yi)) (h_forced_local (sy_h yd)) (sy_h yd) else sy_h yd in
    let hi := if moved then with_dynindx (-1) (h_forced_local (sy_h yi)) (sy_h yi) else sy_h yi in
    let yd := mk_symbol hd gd pd (sy_needs_plt yd) (sy_ref_regular yd) (sy_pointer_equality_needed yd)
                (sy_ldscript_def yd) (sy_dyn_relocs yd) in
    let yi := mk_symbol hi gi pi (sy_needs_plt yi) (sy_ref_regular yi) (sy_pointer_equality_needed yi)
                (sy_ldscript_def yi) (sy_dyn_relocs yi) in
    (mk_indirect yd (ie_is_indirect dir) (ie_versioned_hidden dir) (ie_ref_dynamic dir) (ie_ref_regular_nonweak dir)
       (if moved then ie_dynstr_index ind else ie_dynstr_index dir),
     mk_indirect yi (ie_is_indirect ind) (ie_versioned_hidden ind) (ie_ref_dynamic ind) (ie_ref_regular_nonweak ind)
       (if moved then 0 else ie_dynstr_index ind),
     delref).

Definition with_symbol (y : link_symbol) (e : indirect_entry) : indirect_entry :=
  mk_indirect y (ie_is_indirect e) (ie_versioned_hidden e) (ie_ref_dynamic e) (ie_ref_regular_nonweak e)
    (ie_dynstr_index e).

Definition set_tls_type (t : Z) (e : indirect_entry) : indirect_entry :=
  with_symbol (with_h (with_tls_type t (sy_h (ie_symbol e))) (ie_symbol e)) e.

Definition riscv_elf_copy_indirect_symbol (dir ind : indirect_entry) : indirect_entry * indirect_entry * option Z :=
  if ie_is_indirect ind && (refcount (sy_got (ie_symbol dir)) <=? 0)
  then bfd_elf_link_hash_copy_indirect (set_tls_type (h_tls_type (sy_h (ie_symbol ind))) dir) (set_tls_type GOT_UNKNOWN ind)
  else bfd_elf_link_hash_copy_indirect dir ind.

End indirect.
