(* ===== verification/ObjectFileSpec.v ===== *)
(** * Properties of notes, segments and symbols

    Core-file notes are read back as they were written, there is one program
    header for the attributes, the calling-convention bit of a symbol is kept
    whatever the order of its definitions, and a symbol that another one becomes
    an alias of takes over all of its references. *)
From Stdlib Require Import ZArith Bool Lia.
From stdpp Require Import base list.
From S2P Require Import Prelude Bytes Howto LinkRelocate LinkScan LinkSize ObjectFile.

#[local] Open Scope Z_scope.
#[local] Open Scope c_scope.

(** ** Fields of a buffer *)

Definition field (n off : nat) (buf : list Z) : list Z := take n (drop off buf).

Lemma field_same b buf off n :
  n = length b -> (off + n <= length buf)%nat -> field n off (putb b buf off) = b.
Proof.
  intros -> H. unfold field, putb. rewrite drop_app_length' by (rewrite length_take; lia). by rewrite take_app_length.
Qed.

Lemma field_other b buf off off' n :
  (off + n <= off' \/ off' + length b <= off)%nat -> (off' + length b <= length buf)%nat ->
  field n off (putb b buf off') = field n off buf.
Proof.
  intros H Hb. unfold field, putb.
  apply list_eq. intros i. destruct (Nat.lt_ge_cases i n) as [Hi|Hi].
  2: { by rewrite !lookup_take_ge by lia. }
  rewrite !lookup_take_lt, !lookup_drop by done. destruct H as [H|H].
  - rewrite lookup_app_l by (rewrite length_take; lia). apply lookup_take_lt. lia.
  - rewrite lookup_app_r by (rewrite length_take; lia). rewrite length_take, lookup_app_r by lia.
    rewrite lookup_drop. f_equal. lia.
Qed.

Lemma bfd_get_field big bits n data off :
  existsb (Nat.eqb bits) [8; 16; 32; 64]%nat = true -> (bits / 8)%nat = n ->
  bfd_get big bits data off = Some (word_le (if big then rev (field n off data) else field n off data)).
Proof. intros Hb <-. unfold bfd_get. by rewrite Hb. Qed.

Lemma number_field big v n :
  word_le (if big : bool then rev (md_number_to_chars big v n) else md_number_to_chars big v n)
  = v mod 2 ^ (8 * Z.of_nat n).
Proof. apply md_number_to_chars_word. Qed.

Lemma chars_length big v n : length (md_number_to_chars big v n) = n.
Proof. apply md_number_to_chars_word. Qed.

(** ** Strings in a note *)

Lemma strndup_strncpy s n rest :
  Forall (fun c => c <> 0) s -> elfcore_strndup (strncpy s n ++ rest) n = take n s.
Proof.
  unfold strncpy. intros Hs. revert n. induction Hs as [|c s Hc _ IH]; intros [|n]; [done|done|done|].
  cbn. rewrite (proj2 (Z.eqb_neq c 0) Hc). f_equal. apply IH.
Qed.

Lemma strncpy_length s n : length (strncpy s n) = n.
Proof. unfold strncpy. rewrite length_app, length_take, length_replicate. lia. Qed.

Lemma strndup_field n off data :
  (off + n <= length data)%nat -> elfcore_strndup (drop off data) n = elfcore_strndup (field n off data) n.
Proof.
  intros _. unfold field. generalize (drop off data). clear. intros l. revert n.
  induction l as [|c l IH]; intros [|n]; cbn; try done. destruct (c =? 0); [done|]. by rewrite <- IH.
Qed.

Section notes.

Context (arch64 big : bool).

Ltac offsets := rewrite ?chars_length, ?strncpy_length, ?length_replicate; destruct arch64; cbv; lia.

Lemma prstatus_fields pid cursig greg :
  length greg = ELF_GREGSET_T_SIZE arch64 ->
  exists data, riscv_write_core_note arch64 big (NT_PRSTATUS pid cursig greg) = Some data /\
    length data = PRSTATUS_SIZE arch64 /\
    field 2 PRSTATUS_OFFSET_PR_CURSIG data = md_number_to_chars big cursig 2 /\
    field 4 (PRSTATUS_OFFSET_PR_PID arch64) data = md_number_to_chars big pid 4 /\
    field (ELF_GREGSET_T_SIZE arch64) (PRSTATUS_OFFSET_PR_REG arch64) data = greg.
Proof.
  intros Hg. set (d0 := replicate (PRSTATUS_SIZE arch64) 0).
  set (d1 := putb (md_number_to_chars big pid 4) d0 (PRSTATUS_OFFSET_PR_PID arch64)).
  set (d2 := putb (md_number_to_chars big cursig 2) d1 PRSTATUS_OFFSET_PR_CURSIG).
  assert (L0 : length d0 = PRSTATUS_SIZE arch64) by apply length_replicate.
  assert (L1 : length d1 = PRSTATUS_SIZE arch64) by (unfold d1; rewrite putb_length; [done|rewrite L0; offsets]).
  assert (L2 : length d2 = PRSTATUS_SIZE arch64) by (unfold d2; rewrite putb_length; [done|rewrite L1; offsets]).
  exists (putb greg d2 (PRSTATUS_OFFSET_PR_REG arch64)). split.
  { cbn [riscv_write_core_note].
    assert (En : (PRSTATUS_SIZE arch64 - PRSTATUS_OFFSET_PR_REG arch64 - (if arch64 then 8 else 4))%nat
                 = ELF_GREGSET_T_SIZE arch64) by (by destruct arch64).
    rewrite En, Hg. cbn [bfd_put existsb Nat.eqb orb mbind option_bind]. rewrite Nat.ltb_irrefl, take_ge by lia.
    reflexivity. }
  split; [rewrite putb_length; [done|rewrite Hg, L2; offsets]|]. split; [|split].
  - rewrite field_other by (rewrite ?Hg, ?L2; offsets). unfold d2. apply field_same; [by rewrite chars_length|].
    rewrite L1. offsets.
  - rewrite field_other by (rewrite ?Hg, ?L2; offsets). unfold d2.
    rewrite field_other by (rewrite ?L1; offsets). unfold d1. apply field_same; [by rewrite chars_length|].
    rewrite L0. offsets.
  - apply field_same; [done|]. rewrite L2. offsets.
Qed.

Lemma prpsinfo_fields fname psargs :
  exists data, riscv_write_core_note arch64 big (NT_PRPSINFO fname psargs) = Some data /\
    length data = PRPSINFO_SIZE arch64 /\
    field 16 (PRPSINFO_OFFSET_PR_FNAME arch64) data = strncpy fname 16 /\
    field 80 (PRPSINFO_OFFSET_PR_PSARGS arch64) data = strncpy psargs 80.
Proof.
  eexists. split; [reflexivity|].
  change PRPSINFO_PR_FNAME_LENGTH with 16%nat. change PRPSINFO_PR_PSARGS_LENGTH with 80%nat.
  set (d0 := replicate (PRPSINFO_SIZE arch64) 0).
  assert (L0 : length d0 = PRPSINFO_SIZE arch64) by apply length_replicate.
  set (d1 := putb (strncpy fname 16) d0 (PRPSINFO_OFFSET_PR_FNAME arch64)).
  assert (L1 : length d1 = PRPSINFO_SIZE arch64) by (unfold d1; rewrite putb_length; [done|rewrite L0; offsets]).
  split; [rewrite putb_length; [done|rewrite L1; offsets]|]. split.
  - rewrite field_other by (rewrite ?L1; offsets). apply field_same; [by rewrite strncpy_length|]. rewrite L0. offsets.
  - apply field_same; [by rewrite strncpy_length|]. rewrite L1. offsets.
Qed.

(** Core-file notes round-trip: a status note is read back with the signal, the
    process and the registers it was written with; a process note with the name
    and the arguments, cut to their fields, and less a space at the end. *)
Theorem core_notes_round_trip (core : core_info) (descpos : Z) :
  (forall pid cursig greg, length greg = ELF_GREGSET_T_SIZE arch64 ->
   exists data core', riscv_write_core_note arch64 big (NT_PRSTATUS pid cursig greg) = Some data /\
     riscv_elf_grok_prstatus arch64 big data descpos core = Some core' /\
     core_signal core' = cursig mod 2 ^ 16 /\ core_lwpid core' = s32 pid /\
     exists n off, core_reg core' = Some (n, descpos + Z.of_nat off) /\ field n off data = greg) /\
  (forall fname psargs, Forall (fun c => c <> 0) fname -> Forall (fun c => c <> 0) psargs ->
   exists data core', riscv_write_core_note arch64 big (NT_PRPSINFO fname psargs) = Some data /\
     riscv_elf_grok_psinfo arch64 big data core = Some core' /\
     core_program core' = take 16 fname /\ core_command core' = strip_space (take 80 psargs)).
Proof.
  split.
  - intros pid cursig greg Hg. destruct (prstatus_fields pid cursig greg Hg) as (data & Ed & Ld & F1 & F2 & F3).
    exists data. eexists. split; [exact Ed|]. unfold riscv_elf_grok_prstatus. rewrite Ld, Nat.eqb_refl. cbn [negb].
    rewrite (bfd_get_field big 16 2), (bfd_get_field big 32 4) by done. cbn [mbind option_bind].
    split; [reflexivity|]. cbn [core_signal core_lwpid core_reg]. rewrite F1, F2, !number_field.
    split; [done|]. split; [by apply (swrap_idem_mod 32)|]. by eexists _, _.
  - intros fname psargs Hf Ha. destruct (prpsinfo_fields fname psargs) as (data & Ed & Ld & F1 & F2).
    exists data. eexists. split; [exact Ed|]. unfold riscv_elf_grok_psinfo. rewrite Ld, Nat.eqb_refl. cbn [negb].
    rewrite (bfd_get_field big 32 4) by done. cbn [mbind option_bind]. split; [reflexivity|].
    cbn [core_program core_command]. unfold PRPSINFO_PR_FNAME_LENGTH, PRPSINFO_PR_PSARGS_LENGTH.
    rewrite !strndup_field, F1, F2 by (rewrite Ld; offsets).
    rewrite <- (app_nil_r (strncpy fname 16)), <- (app_nil_r (strncpy psargs 80)).
    by rewrite !strndup_strncpy.
Qed.

End notes.

(** ** The segment of the attributes *)

Definition is_attributes (m : elf_segment_map) : bool := p_type m =? PT_RISCV_ATTRIBUTES.

Lemma insert_segment_split m l :
  exists pre post, l = pre ++ post /\ insert_segment m l = pre ++ m :: post /\
    Forall (fun x => p_type x = PT_PHDR \/ p_type x = PT_INTERP) pre.
Proof.
  induction l as [|x l (pre & post & E1 & E2 & F)]; [by exists [], []|]. cbn [insert_segment].
  destruct (Z.eqb_spec (p_type x) PT_PHDR), (Z.eqb_spec (p_type x) PT_INTERP); cbn [orb].
  4: by exists [], (x :: l).
  all: exists (x :: pre), post; rewrite E2; split; [by rewrite E1|]; split; [done|]; constructor; auto.
Qed.

(** With an attributes section the program headers have a segment for it, of
    which there is one more than before only if there was none, and room for it
    was counted; it comes after the headers and the interpreter only, the other
    segments keep their order, and doing it again changes nothing. *)
Theorem attributes_segment_added (s : nat) (l : list elf_segment_map) :
  let l' := riscv_elf_modify_segment_map (Some s) l in
  existsb is_attributes l' = true /\
  filter (fun m => is_attributes m = false) l' = filter (fun m => is_attributes m = false) l /\
  (existsb is_attributes l = true -> l' = l) /\
  (existsb is_attributes l = false ->
   length l' = (length l + riscv_elf_additional_program_headers (Some s))%nat /\
   exists pre post, l' = pre ++ mk_segment PT_RISCV_ATTRIBUTES [s] :: post /\
     Forall (fun x => p_type x = PT_PHDR \/ p_type x = PT_INTERP) pre) /\
  riscv_elf_modify_segment_map (Some s) l' = l'.
Proof.
  unfold riscv_elf_modify_segment_map. fold is_attributes.
  destruct (existsb is_attributes l) eqn:E; cbv zeta.
  - by rewrite E.
  - set (m := mk_segment PT_RISCV_ATTRIBUTES [s]).
    destruct (insert_segment_split m l) as (pre & post & E1 & E2 & F). rewrite E2.
    assert (Ha : existsb is_attributes (pre ++ m :: post) = true)
      by (rewrite existsb_app; cbn; by rewrite orb_true_r).
    rewrite Ha. split; [done|]. split.
    + rewrite E1, !filter_app, filter_cons_False by done. done.
    + split; [done|]. split; [|done]. intros _. split; [rewrite E1, !length_app; cbn; lia|]. by exists pre, post.
Qed.

(** ** The calling-convention bit *)

Lemma merge_attribute_bit other st_other i :
  0 <= i ->
  Z.testbit (riscv_elf_merge_symbol_attribute other st_other).1 i
  = Z.testbit other i || ((i =? 7) && Z.testbit st_other 7).
Proof.
  intros Hi. unfold riscv_elf_merge_symbol_attribute. change STO_RISCV_VARIANT_CC with (2 ^ 7).
  assert (H7 : forall x, Z.testbit (Z.ldiff x 0x3) 7 = Z.testbit x 7)
    by (intros x; rewrite Z.ldiff_spec; apply andb_true_r).
  destruct (Z.eqb_spec (Z.ldiff st_other 3) (Z.ldiff other 3)) as [E|E]; cbn [fst].
  - destruct (Z.eqb_spec i 7) as [->|]; [|by rewrite orb_false_r].
    by rewrite <- (H7 st_other), E, H7, andb_true_l, orb_diag.
  - assert (Hb : (Z.ldiff st_other 3 .& 2 ^ 7 =? 0) = negb (Z.testbit st_other 7)).
    { rewrite <- (H7 st_other). set (x := Z.ldiff st_other 3). destruct (Z.testbit x 7) eqn:Ex; cbn [negb].
      - apply Z.eqb_neq. intros Ez. apply (f_equal (fun y => Z.testbit y 7)) in Ez.
        rewrite Z.land_spec, Ex in Ez. done.
      - apply Z.eqb_eq, Z.bits_inj'. intros j Hj. rewrite Z.land_spec, Z.pow2_bits_eqb, Z.bits_0 by lia.
        destruct (Z.eqb_spec 7 j) as [<-|]; [by rewrite Ex|apply andb_false_r]. }
    rewrite Hb. destruct (Z.testbit st_other 7); cbn [negb].
    + rewrite Z.lor_spec, Z.pow2_bits_eqb, Z.eqb_sym, andb_true_r by lia. done.
    + by rewrite andb_false_r, orb_false_r.
Qed.

(** The attribute bits of a symbol after its definitions in any number of files:
    those of the first, and the variant calling convention if any file has it,
    in whatever order they come. *)
Theorem variant_cc_merged (l : list Z) (other i : Z) :
  0 <= i ->
  Z.testbit (foldl (fun o s => (riscv_elf_merge_symbol_attribute o s).1) other l) i
  = Z.testbit other i || ((i =? 7) && existsb (fun s => Z.testbit s 7) l).
Proof.
  intros Hi. revert other. induction l as [|s l IH]; intros other; cbn [foldl existsb].
  - by rewrite andb_false_r, orb_false_r.
  - rewrite IH, merge_attribute_bit by done. by destruct (Z.testbit other i), (i =? 7), (Z.testbit s 7).
Qed.

Lemma variant_cc_merged_witness :
  Z.testbit (foldl (fun o s => (riscv_elf_merge_symbol_attribute o s).1) 2 [1; 0x80; 3]) 7 = true.
Proof. rewrite (variant_cc_merged [1; 0x80; 3] 2 7); [reflexivity|lia]. Defined.

(** ** Indirect symbols *)

(** The relocations against a section, as [f] counts them. *)
Definition section_total (f : elf_dyn_relocs -> Z) (sec : Z) (l : list elf_dyn_relocs) : Z :=
  foldr (fun p n => (if dr_sec p =? sec then f p else 0) + n) 0 l.

Definition sections (l : list elf_dyn_relocs) : list Z := map dr_sec l.

Lemma section_total_cons f sec p l :
  section_total f sec (p :: l) = (if dr_sec p =? sec then f p else 0) + section_total f sec l.
Proof. reflexivity. Qed.

Lemma section_total_nil f sec : section_total f sec [] = 0.
Proof. reflexivity. Qed.

Lemma add_to_section_spec p dir :
  match add_to_section p dir with
  | Some dir' => sections dir' = sections dir /\ In (dr_sec p) (sections dir) /\
      forall f sec, f = dr_count \/ f = dr_pc_count ->
        section_total f sec dir' = section_total f sec [p] + section_total f sec dir
  | None => ~ In (dr_sec p) (sections dir)
  end.
Proof.
  induction dir as [|q dir IH]; cbn [add_to_section]; [intros []|].
  destruct (Z.eqb_spec (dr_sec q) (dr_sec p)) as [E|E].
  - split; [done|]. split; [by left|]. intros f sec Hf. rewrite !section_total_cons. cbn [dr_sec]. rewrite E.
    destruct (dr_sec p =? sec); [destruct Hf as [-> | ->]; cbn [dr_count dr_pc_count]|]; rewrite section_total_nil; lia.
  - destruct (add_to_section p dir) as [dir'|]; cbn [mbind option_bind].
    + destruct IH as (E1 & Hin & Ht). split; [change (dr_sec q :: sections dir' = dr_sec q :: sections dir); by rewrite E1|]. split; [by right|].
      intros f sec Hf. rewrite !section_total_cons, (Ht f sec Hf), section_total_cons, section_total_nil. lia.
    + intros [H|H]; [by apply E|by apply IH].
Qed.

Lemma merge_dyn_relocs_total f sec ind dir :
  f = dr_count \/ f = dr_pc_count ->
  section_total f sec (merge_dyn_relocs ind dir) = section_total f sec ind + section_total f sec dir.
Proof.
  intros Hf. revert dir. induction ind as [|p ind IH]; intros dir; [done|]. cbn [merge_dyn_relocs].
  pose proof (add_to_section_spec p dir) as H. destruct (add_to_section p dir) as [dir'|].
  - rewrite IH. destruct H as (_ & _ & ->); [|done]. rewrite !section_total_cons, section_total_nil. lia.
  - rewrite !section_total_cons, IH. lia.
Qed.

Lemma merge_dyn_relocs_sections ind dir sec :
  In sec (sections (merge_dyn_relocs ind dir)) <-> In sec (sections ind) \/ In sec (sections dir).
Proof.
  revert dir. induction ind as [|p ind IH]; intros dir; [cbn; tauto|]. cbn [merge_dyn_relocs].
  pose proof (add_to_section_spec p dir) as H. destruct (add_to_section p dir) as [dir'|].
  - rewrite IH. destruct H as (-> & Hin & _). cbn. split; [tauto|]. intros [[<-|]|]; tauto.
  - cbn. rewrite IH. tauto.
Qed.

Lemma merge_dyn_relocs_nodup ind dir :
  List.NoDup (sections ind) -> List.NoDup (sections dir) -> List.NoDup (sections (merge_dyn_relocs ind dir)).
Proof.
  revert dir. induction ind as [|p ind IH]; intros dir Hi Hd; [done|]. cbn in Hi. inversion Hi; subst.
  cbn [merge_dyn_relocs]. pose proof (add_to_section_spec p dir) as H. destruct (add_to_section p dir) as [dir'|].
  - apply IH; [done|]. by destruct H as (-> & _).
  - cbn. constructor; [|by apply IH]. rewrite merge_dyn_relocs_sections. tauto.
Qed.

Lemma move_refcount_sum dir ind :
  0 <= refcount ind -> 0 <= ind < 2 ^ 64 -> 0 <= dir < 2 ^ 64 -> Z.max 0 (refcount dir) + refcount ind < 2 ^ 63 ->
  refcount (move_refcount 0 dir ind).2 = 0 /\
  Z.max 0 (refcount (move_refcount 0 dir ind).1) = Z.max 0 (refcount dir) + refcount ind.
Proof.
  unfold move_refcount, refcount, s64. change (swrap 64 0) with 0. intros Hi Ri Rd Hs.
  assert (Ei : swrap 64 ind = ind \/ swrap 64 ind = ind - 2 ^ 64) by (unfold swrap; Z.div_mod_to_equations; lia).
  assert (Ed : swrap 64 dir = dir \/ swrap 64 dir = dir - 2 ^ 64) by (unfold swrap; Z.div_mod_to_equations; lia).
  pose proof (swrap_range 64 dir ltac:(lia)). pose proof (swrap_range 64 ind ltac:(lia)).
  destruct (Z.ltb_spec 0 (swrap 64 ind)) as [Hlt|Hge]; cbn [fst snd].
  - split; [done|]. destruct (Z.ltb_spec (swrap 64 dir) 0).
    + rewrite Z.add_0_l. unfold u64. rewrite swrap_idem_mod by lia. lia.
    + unfold u64. rewrite swrap_idem_mod by lia. rewrite (swrap_small 64 (dir + ind)) by lia. lia.
  - split; lia.
Qed.

(** A symbol that becomes an alias of another hands everything the scan counted
    on to it: the relocations for the dynamic linker against each section, listed
    once per section, the uses of the GOT and the PLT, and the flags; the alias is
    left without any.  The way the symbol is accessed comes along unless the other
    symbol has an entry of the GOT already. *)
Theorem indirect_symbol_moved (dir ind : indirect_entry) :
  let yd := ie_symbol dir in
  let yi := ie_symbol ind in
  ie_is_indirect ind = true ->
  List.NoDup (sections (sy_dyn_relocs yd)) -> List.NoDup (sections (sy_dyn_relocs yi)) ->
  0 <= sy_got yd < 2 ^ 64 -> 0 <= sy_got yi < 2 ^ 64 -> 0 <= sy_plt yd < 2 ^ 64 -> 0 <= sy_plt yi < 2 ^ 64 ->
  0 <= refcount (sy_got yi) -> Z.max 0 (refcount (sy_got yd)) + refcount (sy_got yi) < 2 ^ 63 ->
  0 <= refcount (sy_plt yi) -> Z.max 0 (refcount (sy_plt yd)) + refcount (sy_plt yi) < 2 ^ 63 ->
  exists dir' ind' delref, riscv_elf_copy_indirect_symbol 0 0 dir ind = (dir', ind', delref) /\
    let yd' := ie_symbol dir' in
    let yi' := ie_symbol ind' in
    List.NoDup (sections (sy_dyn_relocs yd')) /\ sy_dyn_relocs yi' = [] /\
    (forall f sec, f = dr_count \/ f = dr_pc_count ->
       section_total f sec (sy_dyn_relocs yd')
       = section_total f sec (sy_dyn_relocs yi) + section_total f sec (sy_dyn_relocs yd)) /\
    Z.max 0 (refcount (sy_got yd')) = Z.max 0 (refcount (sy_got yd)) + refcount (sy_got yi) /\
    Z.max 0 (refcount (sy_plt yd')) = Z.max 0 (refcount (sy_plt yd)) + refcount (sy_plt yi) /\
    refcount (sy_got yi') = 0 /\ refcount (sy_plt yi') = 0 /\
    sy_needs_plt yd' = sy_needs_plt yd || sy_needs_plt yi /\
    h_non_got_ref (sy_h yd') = h_non_got_ref (sy_h yd) || h_non_got_ref (sy_h yi) /\
    h_dynindx (sy_h yd') = (if h_dynindx (sy_h yi) =? -1 then h_dynindx (sy_h yd) else h_dynindx (sy_h yi)) /\
    h_dynindx (sy_h yi') = -1 /\
    h_tls_type (sy_h yd') = (if refcount (sy_got yd) <=? 0 then h_tls_type (sy_h yi) else h_tls_type (sy_h yd)).
Proof.
  intros yd yi Hind Nd Ni Rgd Rgi Rpd Rpi Hg Sg Hp Sp.
  set (relocs := merge_dyn_relocs (sy_dyn_relocs yi) (sy_dyn_relocs yd)).
  assert (Er : match sy_dyn_relocs yi, sy_dyn_relocs yd with
               | [], d => d | i, [] => i | i, d => merge_dyn_relocs i d end = relocs).
  { unfold relocs. destruct (sy_dyn_relocs yi) as [|p i] eqn:Ei; [done|]. destruct (sy_dyn_relocs yd); [|done].
    rewrite <- Ei. clear. induction (sy_dyn_relocs yi) as [|q l IH]; [done|]. cbn. by rewrite <- IH. }
  destruct (move_refcount_sum (sy_got yd) (sy_got yi)) as [G2 G1]; [done..|].
  destruct (move_refcount_sum (sy_plt yd) (sy_plt yi)) as [P2 P1]; [done..|].
  destruct (riscv_elf_copy_indirect_symbol 0 0 dir ind) as [[dir' ind'] delref] eqn:E.
  exists dir', ind', delref. split; [done|].
  unfold riscv_elf_copy_indirect_symbol, bfd_elf_link_hash_copy_indirect in E. rewrite Hind in E. fold yd yi in E.
  destruct (move_refcount 0 (sy_got yd) (sy_got yi)) as [gd gi] eqn:Eg.
  destruct (move_refcount 0 (sy_plt yd) (sy_plt yi)) as [pd pi] eqn:Ep.
  cbn [fst snd] in *.
  destruct (refcount (sy_got yd) <=? 0); cbn -[move_refcount refcount merge_dyn_relocs Z.eqb] in E;
    fold yd yi in E; rewrite ?Hind, Er, Eg, Ep in E; cbn -[refcount merge_dyn_relocs Z.eqb] in E;
    injection E as <- <- _; cbn -[refcount merge_dyn_relocs Z.eqb Z.max];
    (split; [by apply merge_dyn_relocs_nodup|]); (split; [done|]);
    (split; [intros f sec Hf; by apply merge_dyn_relocs_total|]);
    destruct (Z.eqb_spec (h_dynindx (sy_h yi)) (-1)); repeat split; try done.
Qed.

Definition sample_entry (id got : Z) (indirect : bool) (relocs : list elf_dyn_relocs) : indirect_entry :=
  mk_indirect (mk_symbol (mk_entry id bfd_link_hash_undefined false false 0 None STT_FUNC 0 false true false false
                            false false true id 0 GOT_UNKNOWN) got 0 false true false false relocs)
    indirect false true true 0.

(** Two references to the GOT and three to sections 5 and 6, by either name. *)
Lemma indirect_symbol_moved_witness :
  exists dir' ind' delref,
    riscv_elf_copy_indirect_symbol 0 0 (sample_entry 1 1 false [mk_dyn_relocs 5 1 0])
      (sample_entry 2 1 true [mk_dyn_relocs 6 1 1; mk_dyn_relocs 5 1 0]) = (dir', ind', delref) /\
    Z.max 0 (refcount (sy_got (ie_symbol dir'))) = 2 /\
    section_total dr_count 5 (sy_dyn_relocs (ie_symbol dir')) = 2.
Proof.
  destruct (indirect_symbol_moved (sample_entry 1 1 false [mk_dyn_relocs 5 1 0])
    (sample_entry 2 1 true [mk_dyn_relocs 6 1 1; mk_dyn_relocs 5 1 0]))
    as (dir' & ind' & delref & E & _ & _ & Ht & Hg & _);
    try reflexivity; try (split; [done|reflexivity]); try done.
  - repeat constructor; cbn; intuition congruence.
  - repeat constructor; cbn; intuition congruence.
  - exists dir', ind', delref. split; [exact E|]. split; [exact Hg|]. rewrite Ht by (by left). reflexivity.
Defined.
